(* ===== verification/_CoqProject ===== *)
-Q . S2P
Prelude.v
Mmu.v
Printfmt.v
CString.v
Console.v
KState.v
Pmap.v
PageTable.v
Env.v
EnvFree.v
MemInit.v
KernMap.v
UserMem.v
Sched.v
Spinlock.v
Syscall.v
Trap.v
UserVm.v
ULib.v
Ipc.v
Fork.v
ForkSpec.v
Upcall.v
Fd.v
File.v
Spawn.v
Stdio.v
Pipe.v
Kdebug.v
Shell.v
Runcmd.v
Monitor.v
Smp.v
Ide.v
Boot.v
Bc.v
Fs.v
FsBlock.v
FsFile.v
FsSpec.v
FsDir.v
Fsformat.v
FsImage.v
Serv.v
ServSpec.v
FileServ.v
Open.v
