(* ===== verification/Prelude.v ===== *)
(** * The JOS operating system of the 6.828 lab

    This library models the operating system under src/lab: the boot loader
    (boot), the kernel (kern), the library of user programs (lib), the file
    server and its formatter (fs) and the shell (user/sh.c).  The programs
    are C; a C function is a Rocq function of the same name, and the theorems
    are about these functions.

    ** The system

    The boot loader reads the kernel from the disk.  The kernel detects
    memory and processors, sets up its page tables (kern/pmap.c) and the
    table of environments (kern/env.c), and from then on runs only at traps
    (kern/trap.c), under one lock (kern/spinlock.c): it serves system calls
    (kern/syscall.c), passes page faults on to the environment that made
    them, and chooses the next environment (kern/sched.c).  Everything else
    is user programs on these system calls: copy-on-write fork, descriptors,
    pipes, messages and program loading are in lib; the file server (fs) is an
    environment with the disk, which answers the messages of lib/file.c.

    ** How code is modelled

    - A C function is an element of [M S A] (this file): a function from the
      state [S] to an outcome, which is [Ok] (it returned), [Noret] (control
      left for good: [iret] to user mode, [hlt], the monitor, a wait that has
      not ended), [Panic] (panic or a failed assert) or [Undef] (the C source
      gives no meaning to what it does, such as an access through a null
      pointer or outside of an array).  A theorem that concludes
      [m s = Ok a s'] says that the code returns, and with what.
    - Integers are [Z] with the wrap-around of their C type written out
      ([u8], [u16], [u32], [s32]); memory is a function from addresses to
      bytes ([mem]), read and written little-endian.
    - Pointers into pages[], envs[] and cpus[] are indices, [None] for NULL;
      pointers into memory are addresses.  Addresses that the linker or the
      compiler chooses are parameters.
    - The kernel's globals and the physical memory are one record
      ([KState.kst]).  User programs run on the same state, through the page
      tables of the current environment ([ULib]).  The file server has a state
      of its own ([Ide.fss], [Serv.sst]).  Code that only loads and stores is
      written over the class [File.UserMem], with instances for the kernel's
      machine, for a program beside the file server and for flat memory.
    - Hardware is a parameter: the answers of ports and of the local APIC are
      lists, the disk controller is a class ([Ide.IdeDevice]) with laws
      ([Ide.IdeLaws]), which a concrete drive is shown to obey; what the kernel does
      to the machine besides memory is a log ([KState.kevent]).
    - Code that runs concurrently on shared memory is given access by access
      and interleaved: the spin lock ([Spinlock]) and pipes ([Pipe]).

    ** Loops and fuel

    - A loop that the source bounds by its data has as fuel that bound: the
      length of the format in [Printfmt], the number of blocks in
      [Fs.alloc_block], the number of pieces in [Fs.file_pieces], the number
      of page tables below UTOP in [Fork.fork_loop].  64 levels are enough
      for printnum, whose argument has 64 bits.  The theorems that conclude
      [Ok] show that these loops end within it.
    - A loop that the source does not bound (a scan for a NUL, the tokens of
      a line) takes its fuel as an argument, and the theorems ask for more
      than the length of the string.
    - A wait (for a key, a device, a message, the end of another environment)
      takes the number of rounds as an argument and ends in [Noret Spinning]
      when they are used up; loops that go on for ever (the monitor, the
      shell, the file server) take the number of turns.
    - Page faults inside the block cache nest: [Bc.fault_depth] is the depth
      of the nesting, and [FsSpec.block_cache_spec] shows that it is enough.

    ** The files and what they show

    Machine and C library:
    - [Prelude]: machine integers, memory, the outcome monad and its
      reasoning ([wp], [mrun], [mcall]), masks.
    - [Mmu]: inc/mmu.h, inc/types.h, inc/memlayout.h, inc/trap.h, inc/env.h,
      inc/error.h.
    - [Printfmt]: lib/printfmt.c.  vsnprintf never writes past its buffer and
      leaves a prefix of the text in it; vprintfmt always ends.
    - [CString]: lib/string.c.  memset and memmove equal the block operations
      of this file; strtol reads back what printnum prints.
    - [Console]: kern/console.c, kern/printf.c, kern/picirq.c,
      kern/kclock.c.  The input ring is a queue.

    Kernel memory and environments:
    - [KState]: the kernel's state.
    - [Pmap], [PageTable]: kern/pmap.c.  [vm_inv] ties the reference counts of
      pages to their uses; page_insert and page_remove keep it and change
      exactly one mapping; user_mem_check accepts exactly the ranges
      below UTOP whose pages all have the permissions asked for.
    - [MemInit], [KernMap]: mem_init and its checks; the mappings are those
      of inc/memlayout.h and no others, and the checks succeed.
    - [Env], [EnvFree]: kern/env.c.  env_alloc gives a fresh id and an
      address space; env_free returns every page of one.
    - [UserMem]: the kernel's accesses to user memory.
    - [Sched]: kern/sched.c, env_run, env_destroy.  The round-robin choice,
      and that a runnable environment gets its turn.
    - [Spinlock]: kern/spinlock.c.  Mutual exclusion, and a refinement to the
      atomic lock that the other files use.
    - [Syscall]: kern/syscall.c.  Each handler; a call on an environment that
      the caller has no right to change is refused without effect; messages.
    - [Trap]: kern/trap.c, with kern/trapentry.S as handlers.  The exception
      stack of a page fault upcall; the way through a system call and back.
    - [Kdebug], [Monitor]: kern/kdebug.c, kern/monitor.c.
    - [Smp]: kern/mpconfig.c, kern/lapic.c, kern/init.c.  mp_init finds the
      processors that the table lists.
    - [Boot]: boot/main.c, kern/entrypgdir.c.  bootmain loads the segments of
      the image on the disk and jumps to its entry.

    User library, on the kernel's model:
    - [UserVm], [ULib]: address spaces by page; user-mode loads and stores;
      the stubs of lib/syscall.c.
    - [Ipc]: lib/ipc.c.  A value and a page get from ipc_send to ipc_recv.
    - [Fork], [ForkSpec], [Upcall]: lib/fork.c, lib/pgfault.c, lib/pfentry.S.
      The child of fork sees the parent's memory, and after it a store of one
      is not seen by the other; the upcall resumes the faulting instruction
      with all its registers.
    - [Fd]: lib/fd.c, lib/pageref.c, lib/printf.c.  dup shares the descriptor
      and its data page.
    - [File]: lib/file.c.
    - [Spawn]: lib/spawn.c.  The arguments get to the child's stack; no call
      of spawn returns a child, because of the kernel's dispatcher.
    - [Stdio]: lib/console.c, lib/fprintf.c, lib/libmain.c, lib/exit.c,
      lib/wait.c, lib/panic.c.  What fprintf writes is the formatted text.
    - [Pipe]: lib/pipe.c.  A pipe is a queue of 32 bytes under all
      interleavings of a reader and a writer; end of file is only reported
      when the other end is closed.
    - [Shell], [Runcmd]: lib/args.c, lib/readline.c, user/sh.c.  The tokens
      of a line are those of a lexer on lists; a command runs with the words,
      the redirections and the pipes of its line.

    File server:
    - [Ide]: fs/ide.c moves the sectors it names, on a drive with the laws.
    - [Bc]: fs/bc.c.  The cache is one memory that holds the disk ([sees]).
    - [Fs], [FsBlock], [FsFile], [FsDir], [FsSpec]: fs/fs.c.  [Fs] has the
      code, the others the bitmap, the block map and contents of files, the
      directories; what file_write has written file_read returns.
    - [Fsformat], [FsImage]: fs/fsformat.c.  The files of an image can be
      opened and read.
    - [Serv], [ServSpec]: fs/serv.c.  The requests; an open file is kept as
      long as a client has it open.
    - [FileServ], [Open]: lib/file.c and fs/serv.c together.  A program reads
      what it has written, and opens and reads the files of an image.

    ** Not modelled

    - boot/boot.S, kern/entry.S and kern/mpentry.S: the change of processor
      modes, in assembly that needs a model of the processor.  The bytes of
      mpentry.S are a parameter where boot_aps copies them.  The pushes of
      kern/trapentry.S are the trap frame that trap gets.
    - inc/x86.h and the other headers of inc that only declare: their
      instructions are parameters or logged events of the code that uses
      them, their constants are written where they are used.
    - The demonstration and test programs of user other than sh.c: a few
      calls each into the library that is modelled.
    - The messages that the shell prints under -d, and the report that
      spin_unlock prints before it panics.
    - The scripts that build and grade the lab, and src/qemu, a copy of the
      emulator. *)

From Stdlib Require Import ZArith Lia String.
From stdpp Require Import base tactics numbers list strings.

#[global] Open Scope Z_scope.

(* ------------------------------------------------------------------ *)
(** ** Machine integers                                                *)

(** Fixed-width integers are [Z]; every operation that can leave the
    width is wrapped explicitly with one of these conversions, which are
    the C conversions to the type of that width. *)
Definition u8 (x : Z) : Z := x mod 2 ^ 8.
Definition u16 (x : Z) : Z := x mod 2 ^ 16.
Definition u32 (x : Z) : Z := x mod 2 ^ 32.
Definition u64 (x : Z) : Z := x mod 2 ^ 64.
Definition s8 (x : Z) : Z := (x + 2 ^ 7) mod 2 ^ 8 - 2 ^ 7.
Definition s32 (x : Z) : Z := (x + 2 ^ 31) mod 2 ^ 32 - 2 ^ 31.
Definition s64 (x : Z) : Z := (x + 2 ^ 63) mod 2 ^ 64 - 2 ^ 63.

(** The truth value of the C expression [v & m]. *)
Definition tst (v m : Z) : bool := negb (Z.land v m =? 0).

(* ------------------------------------------------------------------ *)
(** ** Byte-addressed memory                                           *)

(** A memory gives every address a byte; accesses wider than a byte are
    little-endian, as on the x86. *)
Definition mem : Type := Z → Z.

Definition rd8 (m : mem) (a : Z) : Z := u8 (m a).
Definition wr8 (m : mem) (a v : Z) : mem :=
  λ x, if x =? a then u8 v else m x.

Definition rd16 (m : mem) (a : Z) : Z := rd8 m a + 2 ^ 8 * rd8 m (a + 1).
Definition wr16 (m : mem) (a v : Z) : mem :=
  wr8 (wr8 m a v) (a + 1) (v / 2 ^ 8).

Definition rd32 (m : mem) (a : Z) : Z :=
  rd8 m a + 2 ^ 8 * rd8 m (a + 1) + 2 ^ 16 * rd8 m (a + 2)
  + 2 ^ 24 * rd8 m (a + 3).
Definition wr32 (m : mem) (a v : Z) : mem :=
  wr8 (wr8 (wr8 (wr8 m a v) (a + 1) (v / 2 ^ 8)) (a + 2) (v / 2 ^ 16))
      (a + 3) (v / 2 ^ 24).

(** [memset]/[memmove] of lib/string.c as block operations: the bytes of
    the destination range all change at once, the rest of memory does
    not.  ([CString] proves the byte loops of the source equal to them.) *)
Definition mem_set (m : mem) (a c n : Z) : mem :=
  λ x, if (a <=? x) && (x <? a + n) then u8 c else m x.
Definition mem_move (m : mem) (dst src n : Z) : mem :=
  λ x, if (dst <=? x) && (x <? dst + n) then rd8 m (src + (x - dst)) else m x.

(* ------------------------------------------------------------------ *)
(** ** Outcomes and the state monad                                    *)

(** How control can leave the kernel for good on a CPU. *)
Inductive leave :=
| ToUser (e : nat)   (** [iret] into environment slot [e] *)
| HaltCPU            (** [sched_halt]'s [hlt] loop *)
| InMonitor          (** the monitor loop *)
| Spinning.          (** a busy-wait whose condition has not come true *)

(** The outcome of running a C function: it returns a value, it never
    returns (control went to [x]), it calls [panic], or it does something
    the C source gives no meaning to (a null or out-of-range access). *)
Inductive res (S A : Type) :=
| Ok (a : A) (s : S)
| Noret (x : leave) (s : S)
| Panic (msg : string)
| Undef.
Arguments Ok {_ _} _ _.
Arguments Noret {_ _} _ _.
Arguments Panic {_ _} _.
Arguments Undef {_ _}.

Definition M (S A : Type) : Type := S → res S A.

#[global] Instance M_ret {S} : MRet (M S) := λ A a s, Ok a s.
#[global] Instance M_bind {S} : MBind (M S) := λ A B f m s,
  match m s with
  | Ok a s' => f a s'
  | Noret x s' => Noret x s'
  | Panic msg => Panic msg
  | Undef => Undef
  end.

Definition mget {S} : M S S := λ s, Ok s s.
Definition mgets {S A} (f : S → A) : M S A := λ s, Ok (f s) s.
Definition mput {S} (s' : S) : M S unit := λ _, Ok tt s'.
Definition mmod {S} (f : S → S) : M S unit := λ s, Ok tt (f s).
Definition mpanic {S A} (msg : string) : M S A := λ _, Panic msg.
Definition mundef {S A} : M S A := λ _, Undef.
Definition mleave {S A} (x : leave) : M S A := λ s, Noret x s.
(** The C macro [assert(x)] of inc/assert.h. *)
Definition massert {S} (b : bool) (msg : string) : M S unit :=
  if b then mret tt else mpanic msg.
(** Read through a pointer that the source does not check: [None] is a
    null or out-of-range pointer. *)
Definition mderef {S A} (o : option A) : M S A :=
  match o with Some a => mret a | None => mundef end.
Definition mwhen {S} (b : bool) (m : M S unit) : M S unit :=
  if b then m else mret tt.

Fixpoint mfor {S A} (l : list A) (f : A → M S unit) : M S unit :=
  match l with
  | [] => mret tt
  | x :: l => f x ;; mfor l f
  end.

(* ------------------------------------------------------------------ *)
(** ** Reasoning about outcomes                                        *)

Lemma bind_Ok {S A B} (m : M S A) (f : A → M S B) s a s' :
  m s = Ok a s' → (m ≫= f) s = f a s'.
Proof. unfold mbind, M_bind. by intros ->. Qed.

Lemma bind_Ok_inv {S A B} (m : M S A) (f : A → M S B) s b s' :
  (m ≫= f) s = Ok b s' → ∃ a s1, m s = Ok a s1 ∧ f a s1 = Ok b s'.
Proof. unfold mbind, M_bind. destruct (m s); naive_solver. Qed.

Lemma bind_Panic {S A B} (m : M S A) (f : A → M S B) s msg :
  m s = Panic msg → (m ≫= f) s = Panic msg.
Proof. unfold mbind, M_bind. by intros ->. Qed.

Lemma bind_assoc {S A B C} (m : M S A) (f : A → M S B) (g : B → M S C) s :
  ((m ≫= f) ≫= g) s = (m ≫= (λ a, f a ≫= g)) s.
Proof. unfold mbind, M_bind. by destruct (m s). Qed.

(** The primitives at the head of a bind. *)
Lemma bind_get {S B} (f : S → M S B) s : (mget ≫= f) s = f s s.
Proof. done. Qed.
Lemma bind_gets {S A B} (g : S → A) (f : A → M S B) s : (mgets g ≫= f) s = f (g s) s.
Proof. done. Qed.
Lemma bind_mod {S B} (g : S → S) (f : () → M S B) s : (mmod g ≫= f) s = f tt (g s).
Proof. done. Qed.
Lemma bind_put {S B} (s' : S) (f : () → M S B) s : (mput s' ≫= f) s = f tt s'.
Proof. done. Qed.
Lemma bind_ret {S A B} (a : A) (f : A → M S B) s : (mret a ≫= f) s = f a s.
Proof. done. Qed.

(** [mrun] runs the primitives at the head of the goal; [mcall H] runs a
    call whose result is [H : m s = Ok a s']. *)
Ltac mrun :=
  repeat (first [rewrite bind_get | rewrite bind_gets | rewrite bind_mod
                | rewrite bind_put | rewrite bind_ret]; cbn beta); cbn beta iota.
Tactic Notation "mcall" uconstr(H) :=
  erewrite bind_Ok by (eapply H; first [eassumption | solve [eauto] | lia]); mrun.

Lemma mfor_app {S A} (l1 l2 : list A) (f : A → M S unit) s :
  mfor (l1 ++ l2) f s = (mfor l1 f ;; mfor l2 f) s.
Proof.
  revert s. induction l1 as [|x l1 IH]; intros s; [done|].
  cbn. rewrite bind_assoc. unfold mbind, M_bind.
  destruct (f x s); [|done..]. apply IH.
Qed.

Lemma elem_of_rev {A} (x : A) l : x ∈ rev l ↔ x ∈ l.
Proof. rewrite !list_elem_of_In. symmetry. apply in_rev. Qed.

(** [continue] on the elements that satisfy [b]. *)
Lemma mfor_skip {S A} (b : A → bool) (l : list A) (f : A → M S unit) s :
  mfor l (λ x, if b x then mret tt else f x) s = mfor (List.filter (λ x, negb (b x)) l) f s.
Proof.
  revert s. induction l as [|x l IH]; intros s; [done|]. cbn. destruct (b x); cbn.
  - apply IH.
  - unfold mbind, M_bind. destruct (f x s); [apply IH|done..].
Qed.

(** A loop whose body only reads. *)
Lemma mfor_same {S A} (l : list A) (f : A → M S unit) s :
  (∀ x, x ∈ l → f x s = Ok tt s) → mfor l f s = Ok tt s.
Proof.
  induction l as [|x l IH]; intros Hf; [done|]. cbn [mfor].
  rewrite (bind_Ok _ _ _ _ _ (Hf x ltac:(left))). apply IH. intros y Hy. apply Hf. by right.
Qed.

(** A loop keeps an invariant its body keeps. *)
Lemma mfor_inv {S A} (P : S → Prop) (l : list A) (f : A → M S unit) s s' :
  (∀ x s1 s2, x ∈ l → P s1 → f x s1 = Ok tt s2 → P s2) →
  P s → mfor l f s = Ok tt s' → P s'.
Proof.
  revert s. induction l as [|x l IH]; intros s Hf Hs; cbn.
  - unfold mret, M_ret. naive_solver.
  - intros ([] & s1 & H1 & H2)%bind_Ok_inv.
    eapply IH; [|eapply Hf; [left|exact Hs|exact H1]|exact H2].
    intros y ?? Hy. apply Hf. by right.
Qed.

(** Symbolic execution.  [mstep] unfolds the monad's primitives in the
    goal; [minv H] splits [H : m s = Ok a s'] along the binds of [m]. *)
Ltac munfold :=
  unfold mret, M_ret, mget, mgets, mput, mmod, mpanic, mundef, mleave,
    massert, mderef, mwhen in *.
Ltac mstep := unfold mbind, M_bind; munfold; cbn beta iota.
Ltac minv H :=
  repeat (let a := fresh "a" in let s := fresh "s" in
          let H1 := fresh "H" in
          apply bind_Ok_inv in H; destruct H as (a & s & H1 & H));
  munfold; simplify_eq.

(** [wp m s Q]: run from [s], [m] returns, in a state and with a value that
    satisfy [Q] (so it neither panics nor leaves the kernel nor does
    anything undefined). *)
Definition wp {S A} (m : M S A) (s : S) (Q : A → S → Prop) : Prop :=
  match m s with Ok a s' => Q a s' | _ => False end.

Lemma wp_Ok {S A} (m : M S A) s Q : wp m s Q ↔ ∃ a s', m s = Ok a s' ∧ Q a s'.
Proof.
  unfold wp. split; [destruct (m s); [by eauto|done..]|]. by intros (a & s' & -> & ?).
Qed.

Lemma wp_bind {S A B} (m : M S A) (f : A → M S B) s Q :
  wp m s (λ a s', wp (f a) s' Q) → wp (m ≫= f) s Q.
Proof. unfold wp, mbind, M_bind. by destruct (m s). Qed.

Lemma wp_mono {S A} (m : M S A) s (P Q : A → S → Prop) :
  wp m s P → (∀ a s', P a s' → Q a s') → wp m s Q.
Proof. unfold wp. destruct (m s); naive_solver. Qed.

(** Sequencing when only an invariant of the first command matters. *)
Lemma wp_then {S A B} (I : S → Prop) (m : M S A) (f : A → M S B) s Q :
  wp m s (λ _, I) → (∀ a s', I s' → wp (f a) s' Q) → wp (m ≫= f) s Q.
Proof. intros Hm Hf. apply wp_bind. eapply wp_mono; [exact Hm|]. exact Hf. Qed.

Lemma wp_ret {S A} (a : A) (s : S) (Q : A → S → Prop) : Q a s → wp (mret a) s Q.
Proof. done. Qed.

Lemma wp_when {S} (b : bool) (m : M S unit) s Q :
  (b = true → wp m s Q) → (b = false → Q tt s) → wp (mwhen b m) s Q.
Proof. destruct b; naive_solver. Qed.

(** A loop over a list, with an invariant on the state. *)
Lemma wp_mfor {S A} (I : S → Prop) (l : list A) (f : A → M S unit) s :
  I s → (∀ x s1, x ∈ l → I s1 → wp (f x) s1 (λ _, I)) → wp (mfor l f) s (λ _, I).
Proof.
  revert s. induction l as [|x l IH]; intros s Hs Hf; [done|].
  cbn. apply wp_bind. eapply wp_mono; [by apply Hf; [left|]|].
  intros a s1 H1. apply IH; [done|]. intros y s2 Hy. apply Hf. by right.
Qed.

(** The steps of a [wp] proof that need no thought. *)
Create HintDb wp discriminated.
#[global] Hint Constants Opaque : wp.
Ltac wp_step :=
  lazymatch goal with
  | |- wp (_ ≫= _) _ _ => apply wp_bind
  | |- wp (mret _) _ _ => apply wp_ret
  | |- wp (mwhen _ _) _ _ => apply wp_when; intros ?
  | |- wp mget _ _ => unfold wp at 1, mget; cbn beta iota
  | |- wp (mgets _) _ _ => unfold wp at 1, mgets; cbn beta iota
  | |- wp (mput _) _ _ => unfold wp at 1, mput; cbn beta iota
  | |- wp (mmod _) _ _ => unfold wp at 1, mmod; cbn beta iota
  end.
Ltac wp_steps := repeat wp_step.

(* ------------------------------------------------------------------ *)
(** ** Widths and masks                                                *)

Lemma u8_range x : 0 ≤ u8 x < 2 ^ 8.
Proof. unfold u8. apply Z.mod_pos_bound. lia. Qed.
Lemma u16_range x : 0 ≤ u16 x < 2 ^ 16.
Proof. unfold u16. apply Z.mod_pos_bound. lia. Qed.
Lemma u32_range x : 0 ≤ u32 x < 2 ^ 32.
Proof. unfold u32. apply Z.mod_pos_bound. lia. Qed.
Lemma s32_range x : - 2 ^ 31 ≤ s32 x < 2 ^ 31.
Proof. unfold s32. pose proof (Z.mod_pos_bound (x + 2 ^ 31) (2 ^ 32)). lia. Qed.
Lemma u8_small x : 0 ≤ x < 2 ^ 8 → u8 x = x.
Proof. intros. unfold u8. by apply Z.mod_small. Qed.
Lemma u16_small x : 0 ≤ x < 2 ^ 16 → u16 x = x.
Proof. intros. unfold u16. by apply Z.mod_small. Qed.
Lemma u32_small x : 0 ≤ x < 2 ^ 32 → u32 x = x.
Proof. intros. unfold u32. by apply Z.mod_small. Qed.
Lemma s32_small x : - 2 ^ 31 ≤ x < 2 ^ 31 → s32 x = x.
Proof. intros. unfold s32. rewrite Z.mod_small; lia. Qed.
Lemma u8_idemp x : u8 (u8 x) = u8 x.
Proof. apply u8_small, u8_range. Qed.
Lemma u32_idemp x : u32 (u32 x) = u32 x.
Proof. apply u32_small, u32_range. Qed.

(** A mask of low ones is a remainder, its complement a rounding down. *)
Lemma land_low x n : 0 ≤ n → Z.land x (2 ^ n - 1) = x mod 2 ^ n.
Proof.
  intros. rewrite <- Z.land_ones by lia. f_equal. rewrite Z.ones_equiv. lia.
Qed.

Lemma land_lnot_low x n :
  0 ≤ n → Z.land x (Z.lnot (2 ^ n - 1)) = x - x mod 2 ^ n.
Proof.
  intros Hn. rewrite <- Z.ldiff_land.
  replace (2 ^ n - 1) with (Z.ones n) by (rewrite Z.ones_equiv; lia).
  rewrite Z.ldiff_ones_r, Z.shiftl_mul_pow2, Z.shiftr_div_pow2 by lia.
  pose proof (Z.div_mod x (2 ^ n)). lia.
Qed.

Lemma testbit_high b n i : 0 ≤ b < 2 ^ n → n ≤ i → Z.testbit b i = false.
Proof.
  intros Hb Hi. destruct (Z.eq_dec b 0) as [->|]; [apply Z.bits_0|].
  apply Z.bits_above_log2; [lia|]. apply Z.log2_lt_pow2; [lia|].
  apply Z.lt_le_trans with (2 ^ n); [lia|]. apply Z.pow_le_mono_r; lia.
Qed.

Lemma land_high_low a b n :
  0 ≤ n → 0 ≤ b < 2 ^ n → Z.land (a * 2 ^ n) b = 0.
Proof.
  intros Hn Hb. apply Z.bits_inj'. intros i Hi. rewrite Z.land_spec, Z.bits_0.
  destruct (Z.lt_ge_cases i n).
  - by rewrite Z.mul_pow2_bits_low by lia.
  - rewrite (testbit_high b n) by lia. apply andb_false_r.
Qed.

(** Or-ing flags below bit [n] into a multiple of [2 ^ n] adds them. *)
Lemma lor_low a b n :
  0 ≤ n → 0 ≤ b < 2 ^ n → Z.lor (a * 2 ^ n) b = a * 2 ^ n + b.
Proof.
  intros Hn Hb. pose proof (land_high_low a b n Hn Hb) as Hd.
  rewrite Z.add_nocarry_lxor by done. symmetry. by apply Z.lxor_lor.
Qed.

Lemma lor_range a b n :
  0 ≤ a < 2 ^ n → 0 ≤ b < 2 ^ n → 0 ≤ Z.lor a b < 2 ^ n.
Proof.
  intros Ha Hb. assert (0 ≤ Z.lor a b) by (apply Z.lor_nonneg; lia).
  split; [done|]. destruct (Z.eq_dec (Z.lor a b) 0) as [->|]; [lia|].
  assert (0 ≤ n) by (destruct (Z.lt_ge_cases n 0); [|lia];
    rewrite (Z.pow_neg_r 2 n) in Ha by lia; lia).
  destruct (Z.lt_ge_cases (Z.lor a b) (2 ^ n)); [done|exfalso].
  assert (Z.testbit (Z.lor a b) (Z.log2 (Z.lor a b)) = true) as Hbit
    by (apply Z.bit_log2; lia).
  assert (n ≤ Z.log2 (Z.lor a b)) by (apply Z.log2_le_pow2; lia).
  rewrite Z.lor_spec, !(testbit_high _ n) in Hbit by lia. done.
Qed.

(** A single-bit mask reads that bit. *)
Lemma tst_bit v n : 0 ≤ n → tst v (2 ^ n) = Z.testbit v n.
Proof.
  intros Hn. unfold tst.
  destruct (Z.testbit v n) eqn:E.
  - apply negb_true_iff, Z.eqb_neq. intros H.
    assert (Z.testbit (Z.land v (2 ^ n)) n = true) as H'
      by (by rewrite Z.land_spec, E, Z.pow2_bits_true by lia).
    by rewrite H, Z.bits_0 in H'.
  - apply negb_false_iff, Z.eqb_eq, Z.bits_inj'. intros i Hi.
    rewrite Z.land_spec, Z.bits_0. destruct (Z.eq_dec i n) as [->|Hne].
    + by rewrite E.
    + by rewrite Z.pow2_bits_false, andb_false_r by lia.
Qed.

(* ------------------------------------------------------------------ *)
(** ** Laws of memory                                                  *)

Lemma rd8_range m a : 0 ≤ rd8 m a < 2 ^ 8.
Proof. apply u8_range. Qed.

Lemma rd32_range m a : 0 ≤ rd32 m a < 2 ^ 32.
Proof.
  unfold rd32. pose proof (rd8_range m a). pose proof (rd8_range m (a + 1)).
  pose proof (rd8_range m (a + 2)). pose proof (rd8_range m (a + 3)). lia.
Qed.

Lemma rd8_wr8 m a b v :
  rd8 (wr8 m a v) b = if b =? a then u8 v else rd8 m b.
Proof. unfold rd8, wr8. destruct (b =? a); [apply u8_idemp|done]. Qed.

Lemma rd8_wr8_ne m a b v : b ≠ a → rd8 (wr8 m a v) b = rd8 m b.
Proof. intros. rewrite rd8_wr8. by destruct (Z.eqb_spec b a). Qed.

Lemma rd8_wr32_ne m a b v :
  b < a ∨ a + 4 ≤ b → rd8 (wr32 m a v) b = rd8 m b.
Proof. intros. unfold wr32. by rewrite !rd8_wr8_ne by lia. Qed.

Lemma rd32_wr32_ne m a b v :
  b + 4 ≤ a ∨ a + 4 ≤ b → rd32 (wr32 m a v) b = rd32 m b.
Proof. intros. unfold rd32. by rewrite !rd8_wr32_ne by lia. Qed.

Lemma rd32_wr32_eq m a v : rd32 (wr32 m a v) a = u32 v.
Proof.
  unfold rd32, wr32. rewrite !rd8_wr8.
  repeat match goal with
         | |- context [?x =? ?y] => destruct (Z.eqb_spec x y); try lia
         end.
  unfold u8, u32.
  pose proof (Z.div_mod v (2 ^ 8)). pose proof (Z.div_mod (v / 2 ^ 8) (2 ^ 8)).
  pose proof (Z.div_mod (v / 2 ^ 16) (2 ^ 8)).
  pose proof (Z.div_mod (v / 2 ^ 24) (2 ^ 8)).
  rewrite Z.div_div in * by lia.
  change (2 ^ 8 * 2 ^ 8) with (2 ^ 16) in *.
  change (2 ^ 16 * 2 ^ 8) with (2 ^ 24) in *.
  change (2 ^ 24 * 2 ^ 8) with (2 ^ 32) in *.
  pose proof (Z.div_mod v (2 ^ 32)). lia.
Qed.

Lemma rd8_mem_set_out m a c n b :
  b < a ∨ a + n ≤ b → rd8 (mem_set m a c n) b = rd8 m b.
Proof.
  intros. unfold rd8, mem_set. destruct (Z.leb_spec a b), (Z.ltb_spec b (a + n));
    cbn; done || lia.
Qed.

Lemma rd8_mem_set_in m a c n b :
  a ≤ b < a + n → rd8 (mem_set m a c n) b = u8 c.
Proof.
  intros. unfold rd8, mem_set. destruct (Z.leb_spec a b), (Z.ltb_spec b (a + n));
    cbn; try lia. apply u8_idemp.
Qed.

Lemma rd32_same m m' a : (∀ x, a ≤ x < a + 4 → rd8 m' x = rd8 m x) → rd32 m' a = rd32 m a.
Proof. intros E. unfold rd32. by rewrite !E by lia. Qed.

Lemma rd32_move m a m' a' : (∀ o, 0 ≤ o < 4 → rd8 m (a + o) = rd8 m' (a' + o)) → rd32 m a = rd32 m' a'.
Proof.
  intros E. unfold rd32. pose proof (E 0 ltac:(lia)) as E0. rewrite !Z.add_0_r in E0.
  by rewrite E0, (E 1), (E 2), (E 3) by lia.
Qed.

Lemma rd32_mem_set_out m a c n b :
  b + 4 ≤ a ∨ a + n ≤ b → rd32 (mem_set m a c n) b = rd32 m b.
Proof. intros. unfold rd32. by rewrite !rd8_mem_set_out by lia. Qed.

Lemma rd32_mem_zero m a n b :
  a ≤ b → b + 4 ≤ a + n → rd32 (mem_set m a 0 n) b = 0.
Proof. intros. unfold rd32. by rewrite !rd8_mem_set_in by lia. Qed.

Lemma rd8_mem_move_out m d s n b :
  b < d ∨ d + n ≤ b → rd8 (mem_move m d s n) b = rd8 m b.
Proof.
  intros. unfold rd8, mem_move. destruct (Z.leb_spec d b), (Z.ltb_spec b (d + n));
    cbn; done || lia.
Qed.

Lemma rd8_mem_move_in m d s n b :
  d ≤ b < d + n → rd8 (mem_move m d s n) b = rd8 m (s + (b - d)).
Proof.
  intros. unfold rd8 at 1, mem_move.
  destruct (Z.leb_spec d b), (Z.ltb_spec b (d + n)); cbn; try lia.
  apply u8_small, rd8_range.
Qed.

Lemma rd32_mem_move_out m d s n b :
  b + 4 ≤ d ∨ d + n ≤ b → rd32 (mem_move m d s n) b = rd32 m b.
Proof. intros. unfold rd32. by rewrite !rd8_mem_move_out by lia. Qed.

Lemma rd32_mem_move_in m d s n b :
  d ≤ b → b + 4 ≤ d + n → rd32 (mem_move m d s n) b = rd32 m (s + (b - d)).
Proof.
  intros. unfold rd32. rewrite !rd8_mem_move_in by lia.
  by replace (b + 1 - d) with (b - d + 1) by lia;
     replace (b + 2 - d) with (b - d + 2) by lia;
     replace (b + 3 - d) with (b - d + 3) by lia; rewrite !Z.add_assoc.
Qed.
