(* ===== verification/Mmu.v ===== *)
(** Address arithmetic and data layouts shared by the kernel and user
    code: inc/types.h (rounding), inc/mmu.h (page-table and descriptor
    formats), inc/memlayout.h (the virtual memory map), inc/error.h,
    inc/env.h, inc/trap.h and inc/syscall.h (constants and records).

    Numeric constants are parsing-only notations, so that [lia] sees the
    numbers; macros with arguments are definitions. *)

From S2P Require Import Prelude.
From Stdlib Require Import ZArith Lia.
From stdpp Require Import base tactics numbers list.
Open Scope Z_scope.

(* ------------------------------------------------------------------ *)
(** ** inc/mmu.h: paging constants                                     *)

Abbreviation PGSIZE := 4096 (only parsing).
Abbreviation PGSHIFT := 12 (only parsing).
Abbreviation NPDENTRIES := 1024 (only parsing).
Abbreviation NPTENTRIES := 1024 (only parsing).
Abbreviation PTSIZE := 4194304 (only parsing).
Abbreviation PTXSHIFT := 12 (only parsing).
Abbreviation PDXSHIFT := 22 (only parsing).
Abbreviation PTE_P := 1 (only parsing).
Abbreviation PTE_W := 2 (only parsing).
Abbreviation PTE_U := 4 (only parsing).
Abbreviation PTE_PWT := 8 (only parsing).
Abbreviation PTE_PCD := 16 (only parsing).
Abbreviation PTE_A := 32 (only parsing).
Abbreviation PTE_D := 64 (only parsing).
Abbreviation PTE_AVAIL := 3584 (only parsing).    (* 0xE00 *)
Abbreviation PTE_SYSCALL := 3591 (only parsing).  (* AVAIL | P | W | U *)
Abbreviation FL_IF := 512 (only parsing).
Abbreviation FL_IOPL_MASK := 12288 (only parsing).
Abbreviation FL_IOPL_3 := 12288 (only parsing).
Abbreviation FEC_PR := 1 (only parsing).
Abbreviation FEC_WR := 2 (only parsing).
Abbreviation FEC_U := 4 (only parsing).

(** ** inc/memlayout.h: the virtual memory map                         *)

Abbreviation GD_KT := 8 (only parsing).
Abbreviation GD_KD := 16 (only parsing).
Abbreviation GD_UT := 24 (only parsing).
Abbreviation GD_UD := 32 (only parsing).
Abbreviation GD_TSS0 := 40 (only parsing).
Abbreviation KERNBASE := 4026531840 (only parsing).   (* 0xF0000000 *)
Abbreviation IOPHYSMEM := 655360 (only parsing).      (* 0x0A0000 *)
Abbreviation EXTPHYSMEM := 1048576 (only parsing).    (* 0x100000 *)
Abbreviation KSTACKTOP := KERNBASE (only parsing).
Abbreviation KSTKSIZE := 32768 (only parsing).
Abbreviation KSTKGAP := 32768 (only parsing).
Abbreviation MMIOLIM := (KSTACKTOP - PTSIZE) (only parsing).
Abbreviation MMIOBASE := (MMIOLIM - PTSIZE) (only parsing).
Abbreviation ULIM := MMIOBASE (only parsing).
Abbreviation UVPT := (ULIM - PTSIZE) (only parsing).
Abbreviation UPAGES := (UVPT - PTSIZE) (only parsing).
Abbreviation UENVS := (UPAGES - PTSIZE) (only parsing).
Abbreviation UTOP := UENVS (only parsing).
Abbreviation UXSTACKTOP := UTOP (only parsing).
Abbreviation USTACKTOP := (UTOP - 2 * PGSIZE) (only parsing).
Abbreviation UTEXT := (2 * PTSIZE) (only parsing).
Abbreviation UTEMP := PTSIZE (only parsing).
Abbreviation PFTEMP := (UTEMP + PTSIZE - PGSIZE) (only parsing).
Abbreviation USTABDATA := (PTSIZE / 2) (only parsing).
Abbreviation MPENTRY_PADDR := 28672 (only parsing).   (* 0x7000 *)
Abbreviation NCPU := 8 (only parsing).
Abbreviation NULL := 0 (only parsing).

(** ** inc/error.h                                                     *)

Abbreviation E_UNSPECIFIED := 1 (only parsing).
Abbreviation E_BAD_ENV := 2 (only parsing).
Abbreviation E_INVAL := 3 (only parsing).
Abbreviation E_NO_MEM := 4 (only parsing).
Abbreviation E_NO_FREE_ENV := 5 (only parsing).
Abbreviation E_FAULT := 6 (only parsing).
Abbreviation E_IPC_NOT_RECV := 7 (only parsing).
Abbreviation E_EOF := 8 (only parsing).
Abbreviation E_NO_DISK := 9 (only parsing).
Abbreviation E_MAX_OPEN := 10 (only parsing).
Abbreviation E_NOT_FOUND := 11 (only parsing).
Abbreviation E_BAD_PATH := 12 (only parsing).
Abbreviation E_FILE_EXISTS := 13 (only parsing).
Abbreviation E_NOT_EXEC := 14 (only parsing).
Abbreviation E_NOT_SUPP := 15 (only parsing).
Abbreviation MAXERROR := 16 (only parsing).

(** ** inc/env.h and inc/trap.h                                        *)

Abbreviation LOG2NENV := 10 (only parsing).
Abbreviation NENV := 1024 (only parsing).
Definition ENVX (envid : Z) : Z := Z.land envid (NENV - 1).

Abbreviation ENV_FREE := 0 (only parsing).
Abbreviation ENV_DYING := 1 (only parsing).
Abbreviation ENV_RUNNABLE := 2 (only parsing).
Abbreviation ENV_RUNNING := 3 (only parsing).
Abbreviation ENV_NOT_RUNNABLE := 4 (only parsing).
Abbreviation ENV_TYPE_USER := 0 (only parsing).
Abbreviation ENV_TYPE_FS := 1 (only parsing).

Abbreviation T_DIVIDE := 0 (only parsing).
Abbreviation T_DEBUG := 1 (only parsing).
Abbreviation T_NMI := 2 (only parsing).
Abbreviation T_BRKPT := 3 (only parsing).
Abbreviation T_OFLOW := 4 (only parsing).
Abbreviation T_BOUND := 5 (only parsing).
Abbreviation T_ILLOP := 6 (only parsing).
Abbreviation T_DEVICE := 7 (only parsing).
Abbreviation T_DBLFLT := 8 (only parsing).
Abbreviation T_TSS := 10 (only parsing).
Abbreviation T_SEGNP := 11 (only parsing).
Abbreviation T_STACK := 12 (only parsing).
Abbreviation T_GPFLT := 13 (only parsing).
Abbreviation T_PGFLT := 14 (only parsing).
Abbreviation T_FPERR := 16 (only parsing).
Abbreviation T_ALIGN := 17 (only parsing).
Abbreviation T_MCHK := 18 (only parsing).
Abbreviation T_SIMDERR := 19 (only parsing).
Abbreviation T_SYSCALL := 48 (only parsing).
Abbreviation IRQ_OFFSET := 32 (only parsing).
Abbreviation IRQ_TIMER := 0 (only parsing).
Abbreviation IRQ_KBD := 1 (only parsing).
Abbreviation IRQ_SERIAL := 4 (only parsing).
Abbreviation IRQ_SPURIOUS := 7 (only parsing).
Abbreviation IRQ_IDE := 14 (only parsing).
Abbreviation IRQ_ERROR := 19 (only parsing).

Record PushRegs := mkRegs {
  reg_edi : Z; reg_esi : Z; reg_ebp : Z; reg_oesp : Z;
  reg_ebx : Z; reg_edx : Z; reg_ecx : Z; reg_eax : Z }.

Record Trapframe := mkTf {
  tf_regs : PushRegs;
  tf_es : Z; tf_padding1 : Z; tf_ds : Z; tf_padding2 : Z;
  tf_trapno : Z; tf_err : Z; tf_eip : Z; tf_cs : Z; tf_padding3 : Z;
  tf_eflags : Z; tf_esp : Z; tf_ss : Z; tf_padding4 : Z }.

Record UTrapframe := mkUtf {
  utf_fault_va : Z; utf_err : Z; utf_regs : PushRegs;
  utf_eip : Z; utf_eflags : Z; utf_esp : Z }.

(* ------------------------------------------------------------------ *)
(** ** inc/types.h: rounding                                           *)

Definition ROUNDDOWN (a n : Z) : Z := u32 a - u32 a mod n.
Definition ROUNDUP (a n : Z) : Z :=
  let n' := u32 n in ROUNDDOWN (u32 a + n' - 1) n'.

(** ** inc/mmu.h: fields of a linear address                           *)

Definition PGNUM (la : Z) : Z := Z.shiftr (u32 la) PTXSHIFT.
Definition PDX (la : Z) : Z := Z.land (Z.shiftr (u32 la) PDXSHIFT) 1023.
Definition PTX (la : Z) : Z := Z.land (Z.shiftr (u32 la) PTXSHIFT) 1023.
Definition PGOFF (la : Z) : Z := Z.land (u32 la) 4095.
Definition PGADDR (d t o : Z) : Z :=
  u32 (Z.lor (Z.lor (Z.shiftl d PDXSHIFT) (Z.shiftl t PTXSHIFT)) o).
Definition PTE_ADDR (pte : Z) : Z := Z.land (u32 pte) (Z.lnot 4095).

(** ** inc/mmu.h: descriptors                                          *)

Record Segdesc := mkSeg {
  sd_lim_15_0 : Z; sd_base_15_0 : Z; sd_base_23_16 : Z; sd_type : Z;
  sd_s : Z; sd_dpl : Z; sd_p : Z; sd_lim_19_16 : Z; sd_avl : Z;
  sd_rsv1 : Z; sd_db : Z; sd_g : Z; sd_base_31_24 : Z }.

Definition SEG_NULL : Segdesc := mkSeg 0 0 0 0 0 0 0 0 0 0 0 0 0.
Definition SEG (type base lim dpl : Z) : Segdesc :=
  mkSeg (Z.land (Z.shiftr lim 12) 65535) (Z.land base 65535)
        (Z.land (Z.shiftr base 16) 255) type 1 dpl 1
        (Z.shiftr (u32 lim) 28) 0 0 1 1 (Z.shiftr (u32 base) 24).
Definition SEG16 (type base lim dpl : Z) : Segdesc :=
  mkSeg (Z.land lim 65535) (Z.land base 65535)
        (Z.land (Z.shiftr base 16) 255) type 1 dpl 1
        (Z.shiftr (u32 lim) 16) 0 0 1 0 (Z.shiftr (u32 base) 24).

Abbreviation STA_X := 8 (only parsing).
Abbreviation STA_W := 2 (only parsing).
Abbreviation STA_R := 2 (only parsing).
Abbreviation STS_T32A := 9 (only parsing).
Abbreviation STS_IG32 := 14 (only parsing).
Abbreviation STS_TG32 := 15 (only parsing).

Record Gatedesc := mkGate {
  gd_off_15_0 : Z; gd_sel : Z; gd_args : Z; gd_rsv1 : Z; gd_type : Z;
  gd_s : Z; gd_dpl : Z; gd_p : Z; gd_off_31_16 : Z }.

Definition SETGATE (istrap : bool) (sel off dpl : Z) : Gatedesc :=
  mkGate (Z.land (u32 off) 65535) sel 0 0
         (if istrap then STS_TG32 else STS_IG32) 0 dpl 1
         (Z.shiftr (u32 off) 16).

(* ------------------------------------------------------------------ *)
(** ** Arithmetic forms of the bit operations                          *)

Lemma PGNUM_div la : PGNUM la = u32 la / PGSIZE.
Proof. unfold PGNUM. by rewrite Z.shiftr_div_pow2 by lia. Qed.

Lemma PDX_div la : PDX la = u32 la / PTSIZE.
Proof.
  unfold PDX. rewrite Z.shiftr_div_pow2 by lia. change 1023 with (2 ^ 10 - 1).
  rewrite land_low by lia. change (2 ^ 22) with PTSIZE.
  apply Z.mod_small. pose proof (u32_range la).
  split; [apply Z.div_pos; lia|]. apply Z.div_lt_upper_bound; lia.
Qed.

Lemma PTX_div la : PTX la = (u32 la / PGSIZE) mod NPTENTRIES.
Proof.
  unfold PTX. rewrite Z.shiftr_div_pow2 by lia. change 1023 with (2 ^ 10 - 1).
  by rewrite land_low by lia.
Qed.

Lemma PGOFF_mod la : PGOFF la = u32 la mod PGSIZE.
Proof. unfold PGOFF. change 4095 with (2 ^ 12 - 1). by rewrite land_low by lia. Qed.

Lemma PTE_ADDR_sub pte : PTE_ADDR pte = u32 pte - u32 pte mod PGSIZE.
Proof. unfold PTE_ADDR. change 4095 with (2 ^ 12 - 1). by rewrite land_lnot_low by lia. Qed.

Lemma ENVX_mod envid : ENVX envid = envid mod NENV.
Proof. unfold ENVX. change (NENV - 1) with (2 ^ 10 - 1). by rewrite land_low by lia. Qed.

Lemma PDX_range la : 0 ≤ PDX la < NPDENTRIES.
Proof.
  rewrite PDX_div. pose proof (u32_range la).
  split; [apply Z.div_pos; lia|]. apply Z.div_lt_upper_bound; lia.
Qed.

Lemma PTX_range la : 0 ≤ PTX la < NPTENTRIES.
Proof. rewrite PTX_div. apply Z.mod_pos_bound. lia. Qed.

Lemma PGADDR_add d t o :
  0 ≤ d < NPDENTRIES → 0 ≤ t < NPTENTRIES → 0 ≤ o < PGSIZE →
  PGADDR d t o = d * PTSIZE + t * PGSIZE + o.
Proof.
  intros Hd Ht Ho. unfold PGADDR. rewrite !Z.shiftl_mul_pow2 by lia.
  rewrite lor_low by lia.
  replace (d * 2 ^ 22 + t * 2 ^ 12) with ((d * 1024 + t) * 2 ^ 12) by lia.
  rewrite lor_low by lia. rewrite u32_small; lia.
Qed.

(** The page number of an address is its two indices together. *)
Lemma PGNUM_PDX_PTX la : PGNUM la = PDX la * NPTENTRIES + PTX la.
Proof.
  rewrite PGNUM_div, PDX_div, PTX_div.
  rewrite (Z.div_mod (u32 la / PGSIZE) NPTENTRIES) at 1 by lia.
  rewrite Z.div_div by lia. change (PGSIZE * NPTENTRIES) with PTSIZE. lia.
Qed.

Lemma PDX_PGADDR d t o :
  0 ≤ d < NPDENTRIES → 0 ≤ t < NPTENTRIES → 0 ≤ o < PGSIZE → PDX (PGADDR d t o) = d.
Proof.
  intros. rewrite PGADDR_add by done. rewrite PDX_div, u32_small by lia.
  symmetry. apply Z.div_unique with (t * PGSIZE + o); lia.
Qed.

Lemma PTX_PGADDR d t o :
  0 ≤ d < NPDENTRIES → 0 ≤ t < NPTENTRIES → 0 ≤ o < PGSIZE → PTX (PGADDR d t o) = t.
Proof.
  intros. rewrite PGADDR_add by done. rewrite PTX_div, u32_small by lia.
  replace ((d * PTSIZE + t * PGSIZE + o) / PGSIZE) with (d * 1024 + t).
  - rewrite Z.add_comm, Z.mod_add by lia. apply Z.mod_small. lia.
  - apply Z.div_unique with o; lia.
Qed.

Lemma PGOFF_PGADDR d t o :
  0 ≤ d < NPDENTRIES → 0 ≤ t < NPTENTRIES → 0 ≤ o < PGSIZE → PGOFF (PGADDR d t o) = o.
Proof.
  intros. rewrite PGADDR_add by done. rewrite PGOFF_mod, u32_small by lia.
  replace (d * PTSIZE + t * PGSIZE + o) with (o + (d * 1024 + t) * PGSIZE) by lia.
  rewrite Z.mod_add by lia. apply Z.mod_small. lia.
Qed.

Lemma ROUNDDOWN_spec a n :
  0 < n → ROUNDDOWN a n ≤ u32 a < ROUNDDOWN a n + n ∧ (n | ROUNDDOWN a n).
Proof.
  intros Hn. unfold ROUNDDOWN. pose proof (Z.mod_pos_bound (u32 a) n Hn).
  split; [lia|]. exists (u32 a / n). rewrite Z.mod_eq by lia. lia.
Qed.

Lemma ROUNDUP_small a n :
  0 < n < 2 ^ 32 → 0 ≤ a → a + n - 1 < 2 ^ 32 →
  a ≤ ROUNDUP a n < a + n ∧ (n | ROUNDUP a n).
Proof.
  intros Hn Ha Hw. unfold ROUNDUP. rewrite (u32_small n), (u32_small a) by lia.
  destruct (ROUNDDOWN_spec (a + n - 1) n ltac:(lia)) as [Hr Hd].
  rewrite u32_small in Hr by lia. split; [lia|done].
Qed.

(** The three fields of a 32-bit linear address, put back together by
    PGADDR, are the address (the claim of the comment above PGADDR), and
    PGADDR's fields are the ones it was given. *)
Theorem PGADDR_roundtrip la d t o :
  0 ≤ la < 2 ^ 32 →
  0 ≤ d < NPDENTRIES → 0 ≤ t < NPTENTRIES → 0 ≤ o < PGSIZE →
  PGADDR (PDX la) (PTX la) (PGOFF la) = la ∧
  PDX (PGADDR d t o) = d ∧ PTX (PGADDR d t o) = t ∧ PGOFF (PGADDR d t o) = o.
Proof.
  intros Hla Hd Ht Ho. split_and!.
  - pose proof (PDX_range la). pose proof (PTX_range la).
    pose proof (PGNUM_PDX_PTX la) as Hn.
    rewrite PGADDR_add; [|done|done|rewrite PGOFF_mod; apply Z.mod_pos_bound; lia].
    rewrite PGNUM_div, u32_small in Hn by done. rewrite PGOFF_mod, u32_small by done.
    pose proof (Z.div_mod la PGSIZE). lia.
  - by apply PDX_PGADDR.
  - by apply PTX_PGADDR.
  - by apply PGOFF_PGADDR.
Qed.

Lemma PGADDR_roundtrip_witness :
  PGADDR (PDX 4022366277) (PTX 4022366277) (PGOFF 4022366277) = 4022366277 ∧
  PDX (PGADDR 3 5 7) = 3 ∧ PTX (PGADDR 3 5 7) = 5 ∧ PGOFF (PGADDR 3 5 7) = 7.
Proof. apply PGADDR_roundtrip; lia. Defined.
