(* ===== verification/Printfmt.v ===== *)
(** Formatted output: lib/printfmt.c, the code behind cprintf, snprintf and
    fprintf in the kernel and in user programs.

    The [putch] callback returns nothing to the formatter, so a run of the
    formatter is the list of the values it passes to [putch], in order.  A
    C string is the list of its bytes without the terminating NUL, so that
    reading at the end of the list yields NUL.  [None] stands for undefined
    behaviour (a missing or ill-typed variadic argument, signed overflow). *)

From S2P Require Import Prelude Mmu.
From Stdlib Require Import ZArith Lia Ascii String.
From stdpp Require Import base tactics numbers list option.
Open Scope Z_scope.

(** ** Characters and strings *)

Definition zc (c : ascii) : Z := Z.of_N (N_of_ascii c).
Arguments zc _%_char_scope.
Fixpoint zs (s : string) : list Z :=
  match s with
  | EmptyString => []
  | String c s' => zc c :: zs s'
  end.
Arguments zs _%_string_scope.

(** The byte at the head of the rest of a string, NUL at its end. *)
Definition hd0 (s : list Z) : Z := match s with [] => 0 | c :: _ => c end.

(** A variadic argument: a 32-bit slot, a 64-bit slot, or a [char *]. *)
Inductive arg :=
| AInt (z : Z)
| ALong (z : Z)
| AStr (s : option (list Z)).

(** ** error_string and printnum *)

Definition error_string (err : Z) : option (list Z) :=
  if err =? E_UNSPECIFIED then Some (zs "unspecified error")
  else if err =? E_BAD_ENV then Some (zs "bad environment")
  else if err =? E_INVAL then Some (zs "invalid parameter")
  else if err =? E_NO_MEM then Some (zs "out of memory")
  else if err =? E_NO_FREE_ENV then Some (zs "out of environments")
  else if err =? E_FAULT then Some (zs "segmentation fault")
  else if err =? E_IPC_NOT_RECV then Some (zs "env is not recving")
  else if err =? E_EOF then Some (zs "unexpected end of file")
  else if err =? E_NO_DISK then Some (zs "no free space on disk")
  else if err =? E_MAX_OPEN then Some (zs "too many files are open")
  else if err =? E_NOT_FOUND then Some (zs "file or block not found")
  else if err =? E_BAD_PATH then Some (zs "invalid path")
  else if err =? E_FILE_EXISTS then Some (zs "file already exists")
  else if err =? E_NOT_EXEC then Some (zs "file is not a valid executable")
  else if err =? E_NOT_SUPP then Some (zs "operation not supported")
  else None.

Definition digit_char (d : Z) : Z := nth (Z.to_nat d) (zs "0123456789abcdef") 0.

(** [fuel] bounds the depth of the recursion on [num / base]; 64 levels are
    enough for every 64-bit number and base at least 2 ([printnum_fuel]). *)
Fixpoint printnum_fuel (fuel : nat) (num base width padc : Z) : list Z :=
  match fuel with
  | O => []
  | S fuel' =>
      (if base <=? num
       then printnum_fuel fuel' (num / base) base (width - 1) padc
       else replicate (Z.to_nat (width - 1)) padc)
      ++ [digit_char (num mod base)]
  end.

Definition printnum (num base width padc : Z) : list Z :=
  printnum_fuel 64 num base width padc.

(** ** Variadic arguments *)

Definition va_int (ap : list arg) : option (Z * list arg) :=
  match ap with AInt z :: ap' => Some (s32 z, ap') | _ => None end.

Definition va_str (ap : list arg) : option (option (list Z) * list arg) :=
  match ap with AStr p :: ap' => Some (p, ap') | _ => None end.

Definition getuint (ap : list arg) (lflag : Z) : option (Z * list arg) :=
  if 2 <=? lflag
  then match ap with ALong z :: ap' => Some (u64 z, ap') | _ => None end
  else match ap with AInt z :: ap' => Some (u32 z, ap') | _ => None end.

Definition getint (ap : list arg) (lflag : Z) : option (Z * list arg) :=
  if 2 <=? lflag
  then match ap with ALong z :: ap' => Some (s64 z, ap') | _ => None end
  else va_int ap.

(** ** vprintfmt *)

(** The locals of one %-escape. *)
Record fmtst := mkFmt {
  f_padc : Z; f_width : Z; f_precision : Z; f_lflag : Z; f_altflag : bool }.

Definition fmt_init : fmtst := mkFmt (zc " ") (-1) (-1) 0 false.

(** [process_precision]. *)
Definition process_precision (st : fmtst) (precision : Z) : fmtst :=
  if f_width st <? 0
  then mkFmt (f_padc st) precision (-1) (f_lflag st) (f_altflag st)
  else mkFmt (f_padc st) (f_width st) precision (f_lflag st) (f_altflag st).

(** The digit loop of the width field: [precision] so far, rest of [fmt]. *)
Fixpoint digits (precision : Z) (fmt : list Z) : Z * list Z :=
  match fmt with
  | c :: fmt' =>
      if (zc "0" <=? c) && (c <=? zc "9")
      then digits (precision * 10 + c - zc "0") fmt'
      else (precision, fmt)
  | [] => (precision, fmt)
  end.

Definition strnlen (s : list Z) (size : Z) : Z :=
  Z.min (Z.of_nat (length s)) (u32 size).

(** The case of %s. *)
Definition fmt_string (st : fmtst) (p : list Z) : list Z :=
  let padded := (0 <? f_width st) && negb (f_padc st =? zc "-") in
  let width := if padded then f_width st - strnlen p (f_precision st) else f_width st in
  let left := if padded then replicate (Z.to_nat width) (f_padc st) else [] in
  let width := if padded then Z.min width 0 else width in
  let shown := if f_precision st <? 0 then p else take (Z.to_nat (f_precision st)) p in
  left
  ++ map (λ b, let ch := s8 b in
               if f_altflag st && ((ch <? zc " ") || (zc "~" <? ch)) then zc "?" else ch)
         shown
  ++ replicate (Z.to_nat (width - Z.of_nat (length shown))) (zc " ").

(** The conversions that end a %-escape: the characters printed and the
    remaining arguments.  [efmt] is the nested call of printfmt that %e
    makes; [None] in the first component asks for the default case. *)
Definition conversion (efmt : Z → option (list Z)) (st : fmtst) (ch : Z)
    (ap : list arg) : option (option (list Z) * list arg) :=
  let number num base := printnum num base (f_width st) (f_padc st) in
  if ch =? zc "c" then
    '(c, ap') ← va_int ap; Some (Some [c], ap')
  else if ch =? zc "e" then
    '(err, ap') ← va_int ap;
    out ← efmt (if err <? 0 then - err else err); Some (Some out, ap')
  else if ch =? zc "s" then
    '(p, ap') ← va_str ap;
    Some (Some (fmt_string st (default (zs "(null)") p)), ap')
  else if ch =? zc "d" then
    '(num, ap') ← getint ap (f_lflag st);
    if num <? 0 then
      if num =? - 2 ^ 63 then None
      else Some (Some (zc "-" :: number (- num) 10), ap')
    else Some (Some (number num 10), ap')
  else if ch =? zc "u" then
    '(num, ap') ← getuint ap (f_lflag st); Some (Some (number num 10), ap')
  else if ch =? zc "o" then
    '(num, ap') ← getuint ap (f_lflag st); Some (Some (number num 8), ap')
  else if ch =? zc "p" then
    '(num, ap') ← getuint ap 0; Some (Some (zc "0" :: zc "x" :: number num 16), ap')
  else if ch =? zc "x" then
    '(num, ap') ← getuint ap (f_lflag st); Some (Some (number num 16), ap')
  else if ch =? zc "%" then Some (Some [ch], ap)
  else Some (None, ap).

(** One pass through the switch of [reswitch]: the characters printed, the
    remaining arguments, and where [fmt] continues.  [start] is the text
    after the '%', where the default case goes back to; [goto_reswitch] is
    the rest of the escape after a flag or a width. *)
Definition reswitch
    (goto_reswitch : fmtst → list Z → list arg → option (list Z * list arg * list Z))
    (efmt : Z → option (list Z)) (start : list Z)
    (st : fmtst) (fmt : list Z) (ap : list arg)
    : option (list Z * list arg * list Z) :=
  let ch := hd0 fmt in
  let fmt := tail fmt in
  if ch =? zc "-" then
    goto_reswitch
      (mkFmt (zc "-") (f_width st) (f_precision st) (f_lflag st) (f_altflag st)) fmt ap
  else if ch =? zc "0" then
    goto_reswitch
      (mkFmt (zc "0") (f_width st) (f_precision st) (f_lflag st) (f_altflag st)) fmt ap
  else if (zc "1" <=? ch) && (ch <=? zc "9") then
    let r := digits (ch - zc "0") fmt in
    if 2 ^ 31 <=? r.1 then None
    else goto_reswitch (process_precision st r.1) r.2 ap
  else if ch =? zc "*" then
    '(precision, ap') ← va_int ap;
    goto_reswitch (process_precision st precision) fmt ap'
  else if ch =? zc "." then
    goto_reswitch
      (mkFmt (f_padc st) (if f_width st <? 0 then 0 else f_width st)
             (f_precision st) (f_lflag st) (f_altflag st)) fmt ap
  else if ch =? zc "#" then
    goto_reswitch
      (mkFmt (f_padc st) (f_width st) (f_precision st) (f_lflag st) true) fmt ap
  else if ch =? zc "l" then
    goto_reswitch
      (mkFmt (f_padc st) (f_width st) (f_precision st) (f_lflag st + 1) (f_altflag st)) fmt ap
  else
    '(out, ap') ← conversion efmt st ch ap;
    match out with
    | Some out => Some (out, ap', fmt)
    | None => Some ([zc "%"], ap', start)
    end.

(** A whole %-escape; every pass but the last takes a character of [fmt]. *)
Fixpoint escape (fuel : nat) (efmt : Z → option (list Z)) (start : list Z)
    (st : fmtst) (fmt : list Z) (ap : list arg)
    : option (list Z * list arg * list Z) :=
  match fuel with
  | O => None
  | S fuel' => reswitch (escape fuel' efmt start) efmt start st fmt ap
  end.

(** One character or one %-escape of the outer loop, [continue] the rest of
    the loop. *)
Definition vprintfmt_loop (continue : list Z → list arg → option (list Z))
    (efmt : Z → option (list Z)) (fmt : list Z) (ap : list arg) : option (list Z) :=
  match fmt with
  | [] => Some []
  | ch :: fmt' =>
      if ch =? zc "%" then
        '(out, ap', rest) ← escape (S (length fmt')) efmt fmt' fmt_init fmt' ap;
        out' ← continue rest ap'; Some (out ++ out')
      else if ch =? 0 then Some []
      else out' ← continue fmt' ap; Some (ch :: out')
  end.

(** The outer loop.  [fuel] bounds its iterations by the length of the
    format ([vprintfmt_fuel_mono]). *)
Fixpoint vprintfmt_with (fuel : nat) (efmt : Z → option (list Z))
    (fmt : list Z) (ap : list arg) : option (list Z) :=
  match fuel with
  | O => None
  | S fuel' => vprintfmt_loop (vprintfmt_with fuel' efmt) efmt fmt ap
  end.

(** The nested calls of printfmt made by %e print with %d and %s only. *)
Definition printfmt_e (err : Z) : option (list Z) :=
  let none := λ _ : Z, @None (list Z) in
  if err =? 2 ^ 31 then None
  else
    match (if MAXERROR <=? err then None else error_string err) with
    | None => vprintfmt_with 9 none (zs "error %d") [AInt err]
    | Some p => vprintfmt_with 3 none (zs "%s") [AStr (Some p)]
    end.

Definition vprintfmt (fmt : list Z) (ap : list arg) : option (list Z) :=
  vprintfmt_with (S (length fmt)) printfmt_e fmt ap.

(** ** snprintf *)

(** The buffer as a list of bytes; [sb_pos] is [b->buf - buf] and
    [sb_end] is [b->ebuf - buf]. *)
Record sprintbuf := mkSb { sb_data : list Z; sb_pos : Z; sb_end : Z; sb_cnt : Z }.

Definition sprintputch (b : sprintbuf) (ch : Z) : sprintbuf :=
  let cnt := sb_cnt b + 1 in
  if sb_pos b <? sb_end b
  then mkSb (<[Z.to_nat (sb_pos b) := u8 ch]> (sb_data b)) (sb_pos b + 1) (sb_end b) cnt
  else mkSb (sb_data b) (sb_pos b) (sb_end b) cnt.

(** The result code and the buffer afterwards; [buf = None] is NULL. *)
Definition vsnprintf (buf : option (list Z)) (n : Z) (fmt : list Z) (ap : list arg)
    : option (Z * list Z) :=
  match buf with
  | None => Some (- E_INVAL, [])
  | Some data =>
      if n <? 1 then Some (- E_INVAL, data)
      else
        out ← vprintfmt fmt ap;
        let b := fold_left sprintputch out (mkSb data 0 (n - 1) 0) in
        Some (sb_cnt b, <[Z.to_nat (sb_pos b) := 0]> (sb_data b))
  end.

Definition snprintf := vsnprintf.

(* ------------------------------------------------------------------ *)
(** ** printnum prints the digits of its argument *)

(** The number a list of digits denotes, most significant first. *)
Definition digits_val (base : Z) (ds : list Z) : Z :=
  fold_left (λ acc d, acc * base + d) ds 0.

Lemma digits_val_snoc base ds d :
  digits_val base (ds ++ [d]) = digits_val base ds * base + d.
Proof. unfold digits_val. by rewrite fold_left_app. Qed.

(** What it means for [ds] to be the numeral of [num]. *)
Definition numeral (base num : Z) (ds : list Z) : Prop :=
  digits_val base ds = num ∧ Forall (λ d, 0 ≤ d < base) ds ∧
  ds ≠ [] ∧ (num ≠ 0 → head ds ≠ Some 0).

Lemma numeral_single base num : 0 ≤ num < base → numeral base num [num].
Proof.
  intros H. unfold numeral, digits_val. cbn. split_and!; [lia| |done|].
  - by constructor.
  - intros Hn [= ?]. lia.
Qed.

Lemma numeral_snoc base num ds :
  0 < base ≤ num → numeral base (num / base) ds → numeral base num (ds ++ [num mod base]).
Proof.
  intros Hb (Hv & Hr & Hne & Hh).
  assert (Hpos : num / base ≠ 0).
  { intros H0. apply Z.div_small_iff in H0; lia. }
  split_and!.
  - rewrite digits_val_snoc, Hv. pose proof (Z.div_mod num base). lia.
  - apply Forall_app_2; [done|]. constructor; [|done]. apply Z.mod_pos_bound. lia.
  - intros H0. by apply app_eq_nil in H0 as [_ ?].
  - intros _. destruct ds; [done|]. cbn. by apply Hh.
Qed.

Lemma printnum_fuel_spec fuel num base width padc :
  (0 < fuel)%nat → 2 ≤ base → 0 ≤ num < base ^ Z.of_nat fuel →
  ∃ ds, numeral base num ds ∧
    printnum_fuel fuel num base width padc =
    replicate (Z.to_nat (width - Z.of_nat (length ds))) padc ++ map digit_char ds.
Proof.
  revert num width. induction fuel as [|fuel IH]; intros num width Hf Hb Hn; [lia|].
  cbn [printnum_fuel]. destruct (base <=? num) eqn:Hge.
  - apply Z.leb_le in Hge.
    assert (Hf' : (0 < fuel)%nat).
    { destruct fuel; [|lia]. change (Z.of_nat 1) with 1 in Hn. lia. }
    destruct (IH (num / base) (width - 1)) as (ds & Hds & ->); [done|done| |].
    { split; [apply Z.div_pos; lia|]. apply Z.div_lt_upper_bound; [lia|].
      rewrite Nat2Z.inj_succ, Z.pow_succ_r in Hn by lia. lia. }
    exists (ds ++ [num mod base]). split; [apply numeral_snoc; [lia|done]|].
    rewrite map_app, app_assoc, length_app. cbn.
    by replace (width - 1 - Z.of_nat (length ds))
      with (width - Z.of_nat (length ds + 1)) by lia.
  - apply Z.leb_gt in Hge. exists [num]. split; [apply numeral_single; lia|].
    cbn. by rewrite Z.mod_small by lia.
Qed.

Lemma printnum_digits num base width padc :
  2 ≤ base → 0 ≤ num < 2 ^ 64 →
  ∃ ds, numeral base num ds ∧
    printnum num base width padc =
    replicate (Z.to_nat (width - Z.of_nat (length ds))) padc ++ map digit_char ds.
Proof.
  intros Hb Hn. apply printnum_fuel_spec; [lia|done|].
  split; [lia|]. pose proof (Z.pow_le_mono_l 2 base 64). lia.
Qed.

(** ** The fuel of the formatter is enough *)

Lemma digits_length fmt p : (length (digits p fmt).2 ≤ length fmt)%nat.
Proof.
  revert p. induction fmt as [|c fmt IH]; intros p; cbn; [lia|].
  destruct (_ && _); cbn; [specialize (IH (p * 10 + c - zc "0"))|]; lia.
Qed.

Lemma tail_length (l : list Z) : (length (tail l) ≤ length l)%nat.
Proof. destruct l; cbn; lia. Qed.

(** Two continuations that agree on shorter formats give the same pass. *)
Lemma reswitch_ext k1 k2 efmt start st fmt ap :
  (∀ st' fmt' ap', (length fmt' < length fmt)%nat → k1 st' fmt' ap' = k2 st' fmt' ap') →
  reswitch k1 efmt start st fmt ap = reswitch k2 efmt start st fmt ap.
Proof.
  intros Hk. destruct fmt as [|c fmt]; [done|]. unfold reswitch. cbn [hd0 tail].
  assert (Hk' : ∀ st' ap', k1 st' fmt ap' = k2 st' fmt ap') by (intros; apply Hk; cbn; lia).
  pose proof (digits_length fmt (c - zc "0")).
  repeat case_match; try done; try apply Hk'; try (apply Hk; cbn; lia).
  destruct (va_int ap) as [[? ?]|]; cbn; [apply Hk'|done].
Qed.

Lemma escape_fuel_mono fuel efmt start st fmt ap :
  (length fmt < fuel)%nat →
  escape (S fuel) efmt start st fmt ap = escape fuel efmt start st fmt ap.
Proof.
  revert st fmt ap. induction fuel as [|fuel IH]; intros st fmt ap Hf; [lia|].
  cbn [escape]. apply reswitch_ext. intros st' fmt' ap' Hl. apply IH. lia.
Qed.

(** An escape leaves no more of the format than it was given. *)
Lemma escape_rest fuel efmt start st fmt ap out ap' rest :
  escape fuel efmt start st fmt ap = Some (out, ap', rest) →
  (length rest ≤ Nat.max (length start) (length fmt))%nat.
Proof.
  revert st fmt ap. induction fuel as [|fuel IH]; intros st fmt ap; [done|].
  cbn [escape]. unfold reswitch. pose proof (tail_length fmt).
  pose proof (digits_length (tail fmt) (hd0 fmt - zc "0")).
  intros He. repeat case_match; simplify_option_eq; try (apply IH in He; lia).
  - destruct_and?. case_match. apply IH in He. lia.
  - case_match; simplify_option_eq. case_match; simplify_option_eq; lia.
Qed.

Lemma vprintfmt_loop_ext k1 k2 efmt fmt ap :
  (∀ fmt' ap', (length fmt' < length fmt)%nat → k1 fmt' ap' = k2 fmt' ap') →
  vprintfmt_loop k1 efmt fmt ap = vprintfmt_loop k2 efmt fmt ap.
Proof.
  intros Hk. destruct fmt as [|ch fmt]; [done|]. cbn [vprintfmt_loop].
  destruct (ch =? zc "%").
  - destruct (escape _ _ _ _ _ _) as [[[out ap'] rest]|] eqn:He; [|done].
    apply escape_rest in He. cbn. rewrite Hk by (cbn; lia). done.
  - destruct (ch =? 0); [done|]. rewrite Hk by (cbn; lia). done.
Qed.

Lemma vprintfmt_fuel_mono fuel fuel' efmt fmt ap :
  (length fmt < fuel ≤ fuel')%nat →
  vprintfmt_with fuel' efmt fmt ap = vprintfmt_with fuel efmt fmt ap.
Proof.
  revert fuel' fmt ap. induction fuel as [|fuel IH]; intros fuel' fmt ap Hf; [lia|].
  destruct fuel' as [|fuel']; [lia|]. cbn [vprintfmt_with].
  apply vprintfmt_loop_ext. intros fmt' ap' Hl. apply IH. lia.
Qed.

(** vprintfmt satisfies the equation of the C loop, with no bound on the
    number of iterations. *)
Lemma vprintfmt_unfold fmt ap :
  vprintfmt fmt ap = vprintfmt_loop vprintfmt printfmt_e fmt ap.
Proof.
  unfold vprintfmt at 1. cbn [vprintfmt_with]. apply vprintfmt_loop_ext.
  intros fmt' ap' Hl. apply vprintfmt_fuel_mono. lia.
Qed.

(** ** snprintf stays in its buffer *)

Lemma fold_sprintputch data out pos n cnt :
  0 ≤ pos ≤ n → Z.of_nat (length data) > n →
  let b := fold_left sprintputch out (mkSb data pos n cnt) in
  let k := Z.to_nat (Z.min (Z.of_nat (length out)) (n - pos)) in
  sb_cnt b = cnt + Z.of_nat (length out) ∧
  sb_pos b = pos + Z.of_nat k ∧
  sb_data b = take (Z.to_nat pos) data ++ map u8 (take k out)
              ++ drop (Z.to_nat pos + k) data.
Proof.
  revert data pos cnt. induction out as [|c out IH]; intros data pos cnt Hp Hl.
  - cbn [fold_left length]. replace (Z.to_nat (Z.min _ _)) with 0%nat by lia.
    cbn. split_and!; [lia|lia|]. rewrite Nat.add_0_r. by rewrite take_drop.
  - cbn [fold_left]. unfold sprintputch at 2 4 6. cbn [sb_pos sb_end sb_cnt sb_data].
    destruct (pos <? n) eqn:Hlt.
    + apply Z.ltb_lt in Hlt.
      destruct (IH (<[Z.to_nat pos:=u8 c]> data) (pos + 1) (cnt + 1))
        as (H1 & H2 & H3); [lia|rewrite length_insert; lia|].
      cbn [length]. set (k := Z.to_nat (Z.min _ _)) in H2, H3.
      replace (Z.to_nat (Z.min (Z.of_nat (S (length out))) (n - pos)))
        with (S k) by (unfold k; lia).
      split_and!; [lia|lia|]. rewrite H3. cbn [take map].
      replace (Z.to_nat (pos + 1)) with (S (Z.to_nat pos)) by lia.
      rewrite (take_S_r _ _ (u8 c)) by (apply list_lookup_insert_eq; lia).
      rewrite take_insert_ge, drop_insert_lt by lia.
      rewrite <-app_assoc. by replace (S (Z.to_nat pos) + k)%nat with (Z.to_nat pos + S k)%nat by lia.
    + apply Z.ltb_ge in Hlt.
      destruct (IH data pos (cnt + 1)) as (H1 & H2 & H3); [lia|lia|].
      cbn [length].
      replace (Z.to_nat (Z.min (Z.of_nat (length out)) _)) with 0%nat in H2, H3 by lia.
      replace (Z.to_nat (Z.min _ _)) with 0%nat by lia.
      split_and!; [lia|lia|]. rewrite H3. done.
Qed.

(** ** Claims *)

(** Printnum passes to putch the numeral of its 64-bit argument in the
    given base (digits in range, no leading zero, denoting exactly the
    number), padded on the left with the pad character up to the width. *)
Theorem printnum_spec num base width padc :
  2 ≤ base ≤ 16 → 0 ≤ num < 2 ^ 64 →
  ∃ ds, numeral base num ds ∧
    printnum num base width padc =
      replicate (Z.to_nat (width - Z.of_nat (length ds))) padc ++ map digit_char ds ∧
    Z.of_nat (length (printnum num base width padc)) = Z.max width (Z.of_nat (length ds)).
Proof.
  intros Hb Hn. destruct (printnum_digits num base width padc) as (ds & Hds & Heq); [lia|done|].
  exists ds. split_and!; [done|done|].
  rewrite Heq, length_app, length_replicate, length_map. lia.
Qed.

Lemma printnum_spec_witness :
  printnum 48879 16 8 (zc "0") = zs "0000beef" ∧
  ∃ ds, numeral 16 48879 ds ∧
    printnum 48879 16 8 (zc "0") =
      replicate (Z.to_nat (8 - Z.of_nat (length ds))) (zc "0") ++ map digit_char ds ∧
    Z.of_nat (length (printnum 48879 16 8 (zc "0"))) = Z.max 8 (Z.of_nat (length ds)).
Proof. split; [reflexivity|]. apply (printnum_spec 48879 16 8 (zc "0")); lia. Defined.

(** C39: a run of snprintf with a formatter output [out] into a buffer of
    [n] bytes returns the length of the whole output, leaves exactly the
    first [n - 1] characters of it followed by a NUL, and changes no byte
    of the buffer after that. *)
Theorem vsnprintf_spec data n fmt ap out :
  1 ≤ n ≤ Z.of_nat (length data) → vprintfmt fmt ap = Some out →
  let k := Z.to_nat (Z.min (Z.of_nat (length out)) (n - 1)) in
  vsnprintf (Some data) n fmt ap =
    Some (Z.of_nat (length out), map u8 (take k out) ++ 0 :: drop (S k) data).
Proof.
  intros Hn Hout k. unfold vsnprintf. rewrite (proj2 (Z.ltb_ge n 1)), Hout by lia. cbn.
  destruct (fold_sprintputch data out 0 (n - 1) 0) as (H1 & H2 & H3); [lia|lia|].
  rewrite Z.sub_0_r in *. fold k in H2, H3. rewrite H1, H2, H3, !Z.add_0_l.
  change (take (Z.to_nat 0) data) with (@nil Z). cbn [app Nat.add Z.to_nat].
  rewrite Nat2Z.id. assert (length (map u8 (take k out)) = k) as Hlen
    by (rewrite length_map, length_take; unfold k; lia).
  rewrite insert_take_drop by (rewrite length_app, Hlen, length_drop; unfold k; lia).
  rewrite take_app_length' by done. rewrite drop_app_ge by lia. rewrite Hlen.
  replace (S k - k)%nat with 1%nat by lia. rewrite drop_drop.
  by rewrite Nat.add_1_r.
Qed.

Lemma vsnprintf_spec_witness :
  vprintfmt (zs "%s:%d") [AStr (Some (zs "pg")); AInt (-7)] = Some (zs "pg:-7") ∧
  vsnprintf (Some (replicate 6 170)) 4 (zs "%s:%d") [AStr (Some (zs "pg")); AInt (-7)] =
    Some (5, zs "pg:" ++ [0; 170; 170]).
Proof.
  split; [reflexivity|].
  apply (vsnprintf_spec (replicate 6 170) 4 _ _ (zs "pg:-7")); [cbn; lia|reflexivity].
Defined.

