(* ===== verification/CString.v ===== *)
(** The C string and memory routines: lib/string.c, used by the kernel, the
    file server and user programs alike.  They work on byte memories;
    addresses are taken not to wrap around.  A scan for a NUL has no bound
    in the source, so it takes fuel here and is shown to return with enough
    of it.  [memset] and [memmove], written with x86 string instructions,
    are proved equal to the block operations of Prelude.v. *)

From S2P Require Import Prelude Mmu Printfmt.
From Stdlib Require Import ZArith Lia Ascii String.
From stdpp Require Import base tactics numbers list option.
Open Scope Z_scope.

(** ** Strings in memory *)

Fixpoint strlen_loop (fuel : nat) (m : mem) (s n : Z) : option Z :=
  match fuel with
  | O => None
  | S f => if rd8 m s =? 0 then Some n else strlen_loop f m (s + 1) (n + 1)
  end.
Definition strlen (fuel : nat) (m : mem) (s : Z) : option Z := strlen_loop fuel m s 0.

Fixpoint strnlen_loop (size : nat) (m : mem) (s n : Z) : Z :=
  match size with
  | O => n
  | S z => if rd8 m s =? 0 then n else strnlen_loop z m (s + 1) (n + 1)
  end.
Definition strnlen_mem (m : mem) (s size : Z) : Z := strnlen_loop (Z.to_nat size) m s 0.

Fixpoint strcpy (fuel : nat) (m : mem) (dst src : Z) : option mem :=
  match fuel with
  | O => None
  | S f =>
      let c := rd8 m src in
      let m' := wr8 m dst c in
      if c =? 0 then Some m' else strcpy f m' (dst + 1) (src + 1)
  end.

Definition strcat (fuel : nat) (m : mem) (dst src : Z) : option mem :=
  len ← strlen fuel m dst; strcpy fuel m (dst + len) src.

Fixpoint strncpy (size : nat) (m : mem) (dst src : Z) : mem :=
  match size with
  | O => m
  | S z =>
      let m' := wr8 m dst (rd8 m src) in
      strncpy z m' (dst + 1) (if rd8 m' src =? 0 then src else src + 1)
  end.

(** The loop of strlcpy, [size] counting down; the memory and the final
    [dst]. *)
Fixpoint strlcpy_loop (size : nat) (m : mem) (dst src : Z) : mem * Z :=
  match size with
  | S (S _ as z) =>
      if rd8 m src =? 0 then (m, dst)
      else strlcpy_loop z (wr8 m dst (rd8 m src)) (dst + 1) (src + 1)
  | _ => (m, dst)
  end.
Definition strlcpy (m : mem) (dst src size : Z) : mem * Z :=
  if 0 <? size then
    let '(m', d) := strlcpy_loop (Z.to_nat size) m dst src in (wr8 m' d 0, d - dst)
  else (m, 0).

Fixpoint strcmp (fuel : nat) (m : mem) (p q : Z) : option Z :=
  match fuel with
  | O => None
  | S f =>
      if negb (rd8 m p =? 0) && (rd8 m p =? rd8 m q) then strcmp f m (p + 1) (q + 1)
      else Some (rd8 m p - rd8 m q)
  end.

Fixpoint strncmp (n : nat) (m : mem) (p q : Z) : Z :=
  match n with
  | O => 0
  | S n' =>
      if negb (rd8 m p =? 0) && (rd8 m p =? rd8 m q) then strncmp n' m (p + 1) (q + 1)
      else rd8 m p - rd8 m q
  end.

(** The address of the first [c], or a null pointer. *)
Fixpoint strchr (fuel : nat) (m : mem) (s c : Z) : option Z :=
  match fuel with
  | O => None
  | S f => if rd8 m s =? 0 then Some NULL
           else if rd8 m s =? u8 c then Some s else strchr f m (s + 1) c
  end.

(** The address of the first [c], or of the terminating NUL. *)
Fixpoint strfind (fuel : nat) (m : mem) (s c : Z) : option Z :=
  match fuel with
  | O => None
  | S f => if rd8 m s =? 0 then Some s
           else if rd8 m s =? u8 c then Some s else strfind f m (s + 1) c
  end.

(** ** Blocks of memory *)

(** [rep stosb] and [rep stosl]. *)
Fixpoint rep_stos (k : Z) (st : mem → Z → mem) (n : nat) (m : mem) (d : Z) : mem :=
  match n with
  | O => m
  | S n' => rep_stos k st n' (st m d) (d + k)
  end.

Definition memset (m : mem) (v c n : Z) : mem :=
  if n =? 0 then m
  else if (v mod 4 =? 0) && (n mod 4 =? 0) then
    let c := Z.land c 255 in
    let c := Z.lor (Z.lor (Z.lor (Z.shiftl c 24) (Z.shiftl c 16)) (Z.shiftl c 8)) c in
    rep_stos 4 (λ m d, wr32 m d c) (Z.to_nat (n / 4)) m v
  else rep_stos 1 (λ m d, wr8 m d c) (Z.to_nat n) m v.

(** [rep movsb] and [rep movsl], upwards ([cld]: k > 0) or downwards
    ([std]: k < 0); [cp] moves one unit. *)
Fixpoint rep_movs (k : Z) (cp : mem → Z → Z → mem) (n : nat) (m : mem) (d s : Z) : mem :=
  match n with
  | O => m
  | S n' => rep_movs k cp n' (cp m d s) (d + k) (s + k)
  end.

Definition movsb (m : mem) (d s : Z) : mem := wr8 m d (rd8 m s).
Definition movsl (m : mem) (d s : Z) : mem := wr32 m d (rd32 m s).

Definition memmove (m : mem) (dst src n : Z) : mem :=
  if (src <? dst) && (dst <? src + n) then
    let s := src + n in
    let d := dst + n in
    if (s mod 4 =? 0) && (d mod 4 =? 0) && (n mod 4 =? 0)
    then rep_movs (-4) movsl (Z.to_nat (n / 4)) m (d - 4) (s - 4)
    else rep_movs (-1) movsb (Z.to_nat n) m (d - 1) (s - 1)
  else
    if (src mod 4 =? 0) && (dst mod 4 =? 0) && (n mod 4 =? 0)
    then rep_movs 4 movsl (Z.to_nat (n / 4)) m dst src
    else rep_movs 1 movsb (Z.to_nat n) m dst src.

Definition memcpy (m : mem) (dst src n : Z) : mem := memmove m dst src n.

Fixpoint memcmp (n : nat) (m : mem) (s1 s2 : Z) : Z :=
  match n with
  | O => 0
  | S n' => if negb (rd8 m s1 =? rd8 m s2) then rd8 m s1 - rd8 m s2
            else memcmp n' m (s1 + 1) (s2 + 1)
  end.

Fixpoint memfind (n : nat) (m : mem) (s c : Z) : Z :=
  match n with
  | O => s
  | S n' => if rd8 m s =? u8 c then s else memfind n' m (s + 1) c
  end.

(** ** strtol, on the bytes of the string *)

Fixpoint skip_blank (s : list Z) : list Z :=
  match s with
  | c :: s' => if (c =? zc " ") || (c =? 9) then skip_blank s' else s
  | [] => []
  end.

Definition digit_of (c : Z) : option Z :=
  if (zc "0" <=? c) && (c <=? zc "9") then Some (c - zc "0")
  else if (zc "a" <=? c) && (c <=? zc "z") then Some (c - zc "a" + 10)
  else if (zc "A" <=? c) && (c <=? zc "Z") then Some (c - zc "A" + 10)
  else None.

(** The digits; the overflow of a 32-bit long is undefined. *)
Fixpoint strtol_digits (s : list Z) (base val : Z) : option (Z * list Z) :=
  match s with
  | c :: s' =>
      match digit_of c with
      | Some dig =>
          if base <=? dig then Some (val, s)
          else
            let val' := val * base + dig in
            if (- 2 ^ 31 <=? val') && (val' <? 2 ^ 31) then strtol_digits s' base val' else None
      | None => Some (val, s)
      end
  | [] => Some (val, [])
  end.

Definition strtol_base (s : list Z) (base : Z) : Z * list Z :=
  match s with
  | c0 :: c1 :: s' =>
      if ((base =? 0) || (base =? 16)) && ((c0 =? zc "0") && (c1 =? zc "x")) then (16, s')
      else if (base =? 0) && (c0 =? zc "0") then (8, c1 :: s')
      else (if base =? 0 then 10 else base, s)
  | [c0] => if (base =? 0) && (c0 =? zc "0") then (8, []) else (if base =? 0 then 10 else base, s)
  | [] => (if base =? 0 then 10 else base, s)
  end.

(** The value and what is left of the string ([*endptr]). *)
Definition strtol (s : list Z) (base : Z) : option (Z * list Z) :=
  let s := skip_blank s in
  let '(neg, s) :=
    match s with
    | c :: s' => if c =? zc "+" then (false, s') else if c =? zc "-" then (true, s') else (false, s)
    | [] => (false, s)
    end in
  let '(base, s) := strtol_base s base in
  '(val, s) ← strtol_digits s base 0;
  Some (if neg : bool then - val else val, s).

(* ------------------------------------------------------------------ *)
(** ** memset and memmove are the block operations *)

Lemma rd8_stos k st c (Hk : 0 < k) :
  (∀ m d x, rd8 (st m d) x = if (d <=? x) && (x <? d + k) then c else rd8 m x) →
  ∀ n m d x, rd8 (rep_stos k st n m d) x
    = if (d <=? x) && (x <? d + Z.of_nat n * k) then c else rd8 m x.
Proof.
  intros Hst. induction n as [|n IH]; intros m d x; cbn [rep_stos].
  - destruct (Z.leb_spec d x), (Z.ltb_spec x (d + Z.of_nat 0 * k)); cbn; (lia || done).
  - rewrite IH, Hst.
    destruct (Z.leb_spec (d + k) x), (Z.ltb_spec x (d + k + Z.of_nat n * k)), (Z.leb_spec d x),
      (Z.ltb_spec x (d + k)), (Z.ltb_spec x (d + Z.of_nat (S n) * k)); cbn; (nia || done).
Qed.

Lemma rd8_wr32 m d v x :
  rd8 (wr32 m d v) x =
  if (d <=? x) && (x <? d + 4) then u8 (v / 2 ^ (8 * (x - d))) else rd8 m x.
Proof.
  unfold wr32. rewrite !rd8_wr8.
  destruct (Z.leb_spec d x), (Z.ltb_spec x (d + 4)); cbn [andb];
    [|rewrite !(proj2 (Z.eqb_neq _ _)) by lia; done..].
  assert (Hx : x = d ∨ x = d + 1 ∨ x = d + 2 ∨ x = d + 3) by lia.
  destruct Hx as [-> | [-> | [-> | ->]]];
    repeat (rewrite Z.eqb_refl || rewrite (proj2 (Z.eqb_neq _ _)) by lia);
    [replace (d - d) with 0 by lia|replace (d + 1 - d) with 1 by lia
    |replace (d + 2 - d) with 2 by lia|replace (d + 3 - d) with 3 by lia]; try done.
  by rewrite Z.div_1_r.
Qed.

Lemma rd8_div_rd32 m a i : 0 ≤ i < 4 → u8 (rd32 m a / 2 ^ (8 * i)) = rd8 m (a + i).
Proof.
  intros Hi. unfold rd32. pose proof (rd8_range m a). pose proof (rd8_range m (a + 1)).
  pose proof (rd8_range m (a + 2)). pose proof (rd8_range m (a + 3)).
  set (b0 := rd8 m a) in *. set (b1 := rd8 m (a + 1)) in *.
  set (b2 := rd8 m (a + 2)) in *. set (b3 := rd8 m (a + 3)) in *. unfold u8.
  assert (Hx : i = 0 ∨ i = 1 ∨ i = 2 ∨ i = 3) by lia.
  destruct Hx as [-> | [-> | [-> | ->]]]; cbn -[Z.div Z.modulo]; rewrite ?Z.add_0_r.
  - rewrite Z.div_1_r. symmetry. apply (Z.mod_unique _ _ (b1 + 256 * b2 + 65536 * b3)); lia.
  - fold b1. symmetry. apply (Z.mod_unique _ _ (b2 + 256 * b3)); [lia|].
    symmetry. apply (Z.div_unique _ _ _ b0); lia.
  - fold b2. symmetry. apply (Z.mod_unique _ _ b3); [lia|].
    symmetry. apply (Z.div_unique _ _ _ (b0 + 256 * b1)); lia.
  - fold b3. symmetry. apply (Z.mod_unique _ _ 0); [lia|].
    symmetry. apply (Z.div_unique _ _ _ (b0 + 256 * b1 + 65536 * b2)); lia.
Qed.

(** One unit moved by movsb or movsl. *)
Definition moves (k : Z) (cp : mem → Z → Z → mem) : Prop :=
  ∀ m d s x, rd8 (cp m d s) x = if (d <=? x) && (x <? d + k) then rd8 m (s + (x - d)) else rd8 m x.

Lemma movsb_moves : moves 1 movsb.
Proof.
  intros m d s x. unfold movsb. rewrite rd8_wr8.
  destruct (Z.eqb_spec x d) as [->|Hne].
  - rewrite Z.leb_refl, (proj2 (Z.ltb_lt d (d + 1))) by lia. cbn.
    rewrite u8_small by apply rd8_range. f_equal. lia.
  - destruct (Z.leb_spec d x), (Z.ltb_spec x (d + 1)); cbn; (lia || done).
Qed.

Lemma movsl_moves : moves 4 movsl.
Proof.
  intros m d s x. unfold movsl. rewrite rd8_wr32.
  destruct (Z.leb_spec d x), (Z.ltb_spec x (d + 4)); cbn [andb]; try done.
  apply rd8_div_rd32. lia.
Qed.

(** Upwards: right when the destination does not follow an overlapping
    source. *)
Lemma rep_movs_up k cp n m d s x :
  0 < k → moves k cp → d ≤ s ∨ s + Z.of_nat n * k ≤ d →
  rd8 (rep_movs k cp n m d s) x
    = if (d <=? x) && (x <? d + Z.of_nat n * k) then rd8 m (s + (x - d)) else rd8 m x.
Proof.
  intros Hk Hcp. revert m d s. induction n as [|n IH]; intros m d s Hd; cbn [rep_movs].
  - destruct (Z.leb_spec d x), (Z.ltb_spec x (d + Z.of_nat 0 * k)); cbn; (lia || done).
  - rewrite IH by nia. rewrite !Hcp.
    destruct (Z.leb_spec (d + k) x), (Z.ltb_spec x (d + k + Z.of_nat n * k)), (Z.leb_spec d x),
      (Z.ltb_spec x (d + k)), (Z.ltb_spec x (d + Z.of_nat (S n) * k)); cbn [andb]; try (nia || done).
    replace (s + k + (x - (d + k))) with (s + (x - d)) by lia.
    destruct (Z.leb_spec d (s + (x - d))), (Z.ltb_spec (s + (x - d)) (d + k)); cbn [andb]; try done.
    nia.
Qed.

(** Downwards, from the last unit on: right when the destination follows the
    source. *)
Lemma rep_movs_down k cp n m d s x :
  0 < k → moves k cp → s ≤ d →
  rd8 (rep_movs (- k) cp n m d s) x
    = if (d + k - Z.of_nat n * k <=? x) && (x <? d + k) then rd8 m (s + (x - d)) else rd8 m x.
Proof.
  intros Hk Hcp. revert m d s. induction n as [|n IH]; intros m d s Hd; cbn [rep_movs].
  - destruct (Z.leb_spec (d + k - Z.of_nat 0 * k) x), (Z.ltb_spec x (d + k)); cbn; (lia || done).
  - rewrite IH by lia. rewrite !Hcp.
    destruct (Z.leb_spec (d + - k + k - Z.of_nat n * k) x), (Z.ltb_spec x (d + - k + k)), (Z.leb_spec d x),
      (Z.ltb_spec x (d + k)), (Z.leb_spec (d + k - Z.of_nat (S n) * k) x); cbn [andb]; try (nia || done).
    replace (s + - k + (x - (d + - k))) with (s + (x - d)) by lia.
    destruct (Z.leb_spec d (s + (x - d))), (Z.ltb_spec (s + (x - d)) (d + k)); cbn [andb]; try done.
    nia.
Qed.

(** The word that memset stores. *)
Lemma memset_word b :
  0 ≤ b < 256 →
  Z.lor (Z.lor (Z.lor (Z.shiftl b 24) (Z.shiftl b 16)) (Z.shiftl b 8)) b = b * 16843009.
Proof.
  intros Hb.
  assert (Hall : forallb (λ b, Z.lor (Z.lor (Z.lor (Z.shiftl b 24) (Z.shiftl b 16)) (Z.shiftl b 8)) b
                   =? b * 16843009) (seqZ 0 256) = true) by reflexivity.
  rewrite forallb_forall in Hall. apply Z.eqb_eq, Hall, list_elem_of_In, elem_of_seqZ. lia.
Qed.

Lemma memset_word_byte b i : 0 ≤ b < 256 → 0 ≤ i < 4 → u8 (b * 16843009 / 2 ^ (8 * i)) = b.
Proof.
  intros Hb Hi. unfold u8. assert (Hx : i = 0 ∨ i = 1 ∨ i = 2 ∨ i = 3) by lia.
  destruct Hx as [-> | [-> | [-> | ->]]]; cbn -[Z.div Z.modulo Z.mul].
  - rewrite Z.div_1_r. symmetry. apply (Z.mod_unique _ _ (b * 65793)); lia.
  - symmetry. apply (Z.mod_unique _ _ (b * 257)); [lia|].
    symmetry. apply (Z.div_unique _ _ _ b); lia.
  - symmetry. apply (Z.mod_unique _ _ b); [lia|]. symmetry. apply (Z.div_unique _ _ _ (b * 257)); lia.
  - symmetry. apply (Z.mod_unique _ _ 0); [lia|]. symmetry. apply (Z.div_unique _ _ _ (b * 65793)); lia.
Qed.

Lemma rd8_mem_set m a c n x :
  rd8 (mem_set m a c n) x = if (a <=? x) && (x <? a + n) then u8 c else rd8 m x.
Proof. unfold rd8, mem_set. destruct (_ && _); [apply u8_idemp|done]. Qed.

Lemma rd8_mem_move m d s n x :
  rd8 (mem_move m d s n) x = if (d <=? x) && (x <? d + n) then rd8 m (s + (x - d)) else rd8 m x.
Proof. unfold rd8 at 1, mem_move. destruct (_ && _); [|done]. apply u8_small, rd8_range. Qed.

Lemma memset_block m v c n x : 0 ≤ n → rd8 (memset m v c n) x = rd8 (mem_set m v c n) x.
Proof.
  intros Hn. rewrite rd8_mem_set. unfold memset. destruct (Z.eqb_spec n 0) as [->|].
  { destruct (Z.leb_spec v x), (Z.ltb_spec x (v + 0)); cbn; (lia || done). }
  destruct ((v mod 4 =? 0) && (n mod 4 =? 0)) eqn:E.
  - apply andb_true_iff in E as [_ E%Z.eqb_eq]. pose proof (Z.div_mod n 4 ltac:(lia)).
    assert (Hb : Z.land c 255 = u8 c) by (change 255 with (2 ^ 8 - 1); by rewrite land_low by lia).
    pose proof (u8_range c). rewrite Hb, memset_word by done.
    rewrite (rd8_stos 4 _ (u8 c)) by (lia || (intros m' d y; rewrite rd8_wr32;
      destruct (Z.leb_spec d y), (Z.ltb_spec y (d + 4)); cbn [andb]; try done;
      apply memset_word_byte; lia)).
    replace (Z.of_nat (Z.to_nat (n / 4)) * 4) with n by lia. done.
  - rewrite (rd8_stos 1 _ (u8 c)) by (lia || (intros m' d y; rewrite rd8_wr8;
      destruct (Z.eqb_spec y d), (Z.leb_spec d y), (Z.ltb_spec y (d + 1)); cbn [andb]; (lia || done))).
    replace (Z.of_nat (Z.to_nat n) * 1) with n by lia. done.
Qed.

Lemma memmove_block m dst src n x :
  0 ≤ n → rd8 (memmove m dst src n) x = rd8 (mem_move m dst src n) x.
Proof.
  intros Hn. rewrite rd8_mem_move. pose proof (Z.div_mod n 4 ltac:(lia)).
  assert (Hn4 : ∀ b, b && (n mod 4 =? 0) = true → Z.of_nat (Z.to_nat (n / 4)) * 4 = n).
  { intros b [_ E%Z.eqb_eq]%andb_true_iff. lia. }
  unfold memmove. destruct ((src <? dst) && (dst <? src + n)) eqn:Hov.
  - apply andb_true_iff in Hov as [Hs%Z.ltb_lt _]. destruct (_ && _) eqn:E.
    + pose proof (Hn4 _ E). rewrite (rep_movs_down 4 movsl) by (lia || apply movsl_moves).
      replace (dst + n - 4 + 4 - _) with dst by lia. replace (dst + n - 4 + 4) with (dst + n) by lia.
      replace (src + n - 4 + (x - (dst + n - 4))) with (src + (x - dst)) by lia. done.
    + rewrite (rep_movs_down 1 movsb) by (lia || apply movsb_moves).
      replace (dst + n - 1 + 1 - _) with dst by lia. replace (dst + n - 1 + 1) with (dst + n) by lia.
      replace (src + n - 1 + (x - (dst + n - 1))) with (src + (x - dst)) by lia. done.
  - assert (Hd : dst ≤ src ∨ src + n ≤ dst).
    { apply andb_false_iff in Hov as [?%Z.ltb_ge|?%Z.ltb_ge]; lia. }
    destruct ((src mod 4 =? 0) && (dst mod 4 =? 0) && (n mod 4 =? 0)) eqn:E.
    + pose proof (Hn4 _ E) as H4. rewrite rep_movs_up by (lia || apply movsl_moves). by rewrite H4.
    + rewrite rep_movs_up by (lia || apply movsb_moves).
      replace (Z.of_nat (Z.to_nat n) * 1) with n by lia. done.
Qed.

(* ------------------------------------------------------------------ *)
(** ** strtol reads what printnum prints *)

(** No digit of the base, and no x, follows. *)
Definition stops (base : Z) (rest : list Z) : Prop :=
  match rest with
  | [] => True
  | c :: _ => c ≠ zc "x" ∧ match digit_of c with Some d => base ≤ d | None => True end
  end.

Lemma digit_char_of d :
  0 ≤ d < 16 → digit_of (digit_char d) = Some d ∧
  existsb (Z.eqb (digit_char d)) [zc " "; 9; zc "+"; zc "-"; zc "x"] = false.
Proof.
  intros Hd.
  assert (Hall : forallb (λ d, bool_decide (digit_of (digit_char d) = Some d) &&
      negb (existsb (Z.eqb (digit_char d)) [zc " "; 9; zc "+"; zc "-"; zc "x"])) (seqZ 0 16) = true)
    by reflexivity.
  assert (Hin : List.In d (seqZ 0 16)) by (apply list_elem_of_In, elem_of_seqZ; lia).
  pose proof (proj1 (forallb_forall _ _) Hall d Hin) as Hd'.
  cbn beta in Hd'. destruct (andb_prop _ _ Hd') as [H1 H2].
  split; [by apply bool_decide_eq_true_1 in H1|by apply negb_true_iff].
Qed.

Lemma fold_digits_mono base ds v :
  2 ≤ base → 0 ≤ v → Forall (λ d, 0 ≤ d < base) ds → v ≤ fold_left (λ acc d, acc * base + d) ds v.
Proof.
  intros Hb. revert v. induction ds as [|d ds IH]; intros v Hv Hds; cbn; [lia|].
  apply Forall_cons_1 in Hds as [Hd Hds]. specialize (IH (v * base + d) ltac:(nia) Hds). nia.
Qed.

Lemma strtol_digits_numeral base ds rest v :
  2 ≤ base ≤ 16 → 0 ≤ v → Forall (λ d, 0 ≤ d < base) ds → stops base rest →
  fold_left (λ acc d, acc * base + d) ds v < 2 ^ 31 →
  strtol_digits (map digit_char ds ++ rest) base v
    = Some (fold_left (λ acc d, acc * base + d) ds v, rest).
Proof.
  intros Hb. revert v. induction ds as [|d ds IH]; intros v Hv Hds Hst Hlt; cbn [map app fold_left] in *.
  - destruct rest as [|c rest]; [done|]. cbn in *. destruct Hst as [_ Hst].
    destruct (digit_of c) as [x|]; [|done]. by rewrite (proj2 (Z.leb_le _ _) Hst).
  - apply Forall_cons_1 in Hds as [Hd Hds]. cbn [strtol_digits].
    destruct (digit_char_of d ltac:(lia)) as [-> _].
    pose proof (fold_digits_mono base ds (v * base + d) ltac:(lia) ltac:(nia) Hds).
    rewrite (proj2 (Z.leb_gt base d)) by lia.
    rewrite (proj2 (Z.leb_le (- 2 ^ 31) (v * base + d))) by nia.
    rewrite (proj2 (Z.ltb_lt (v * base + d) (2 ^ 31))) by lia.
    cbn [andb]. apply IH; [nia|done|done|done].
Qed.

(** The first character of a numeral is a digit, and no x is second. *)
Lemma strtol_base_numeral base d ds rest :
  2 ≤ base ≤ 16 → 0 ≤ d < 16 → Forall (λ d, 0 ≤ d < base) ds → stops base rest →
  strtol_base (map digit_char (d :: ds) ++ rest) base = (base, map digit_char (d :: ds) ++ rest).
Proof.
  intros Hb Hd Hds Hst. cbn [map app].
  assert (Hx : ∀ c s, map digit_char ds ++ rest = c :: s → (c =? zc "x") = false).
  { intros c s Heq. destruct ds as [|d' ds]; cbn in Heq.
    - subst rest. apply Z.eqb_neq, Hst.
    - injection Heq as <- _. apply Forall_cons_1 in Hds as [Hd' _].
      destruct (digit_char_of d' ltac:(lia)) as [_ H]. cbn [existsb] in H.
      by apply orb_false_iff in H as [_ [_ [_ [_ [H _]%orb_false_iff]%orb_false_iff]%orb_false_iff]%orb_false_iff]. }
  destruct (map digit_char ds ++ rest) as [|c s] eqn:E; cbn [strtol_base];
    rewrite (proj2 (Z.eqb_neq base 0)) by lia; [done|].
  by rewrite (Hx c s eq_refl), !andb_false_r.
Qed.

(** ** Claims *)

(** Memmove and memset, with their word-at-a-time and backward paths, do
    what their names say, for every alignment, length and overlap: the
    destination gets the bytes the source had before the call, or the byte
    value, and every other byte of memory is unchanged. *)
Theorem mem_ops_spec m dst src c n x :
  0 ≤ n →
  rd8 (memmove m dst src n) x
    = (if (dst <=? x) && (x <? dst + n) then rd8 m (src + (x - dst)) else rd8 m x) ∧
  rd8 (memset m dst c n) x = (if (dst <=? x) && (x <? dst + n) then u8 c else rd8 m x).
Proof.
  intros Hn. rewrite memmove_block, memset_block by done. by rewrite rd8_mem_move, rd8_mem_set.
Qed.

Lemma mem_ops_spec_witness :
  rd8 (memmove (λ a, a) 104 100 16) 108 = 104 ∧ rd8 (memset (λ a, a) 104 7 16) 108 = 7.
Proof. apply (mem_ops_spec (λ a, a) 104 100 7 16 108). lia. Defined.

(** Strtol reads back what printnum (zero-padded or not, with or without
    a minus sign) prints: the number, and the rest of the string from the
    first character that is not a digit. *)
Theorem strtol_printnum neg num base width rest :
  2 ≤ base ≤ 16 → 0 ≤ num < 2 ^ 31 → stops base rest →
  strtol ((if neg : bool then [zc "-"] else []) ++ printnum num base width (zc "0") ++ rest) base
    = Some (if neg then - num else num, rest).
Proof.
  intros Hb Hn Hst.
  destruct (printnum_digits num base width (zc "0")) as (ds & (Hv & Hr & Hne & _) & ->); [lia|lia|].
  set (k := Z.to_nat (width - Z.of_nat (length ds))).
  assert (Hz : replicate k (zc "0") ++ map digit_char ds = map digit_char (replicate k 0 ++ ds))
    by (rewrite map_app; f_equal; symmetry; apply (fmap_replicate digit_char)).
  assert (Hall : Forall (λ d, 0 ≤ d < base) (replicate k 0 ++ ds))
    by (apply Forall_app_2; [apply Forall_replicate; lia|done]).
  assert (Hval : fold_left (λ acc d, acc * base + d) (replicate k 0 ++ ds) 0 = num).
  { rewrite fold_left_app. replace (fold_left _ (replicate k 0) 0) with 0; [exact Hv|].
    clear. induction k; cbn; [done|]. done. }
  rewrite Hz. destruct (replicate k 0 ++ ds) as [|d ds'] eqn:Heq;
    [by apply app_eq_nil in Heq as [_ ?]|]. clear Heq Hz.
  pose proof (Forall_cons_1 _ _ _ Hall) as [Hd Hds'].
  destruct (digit_char_of d ltac:(lia)) as [_ Hc]. cbn [existsb] in Hc.
  apply orb_false_iff in Hc as [H1 [H2 [H3 [H4 _]%orb_false_iff]%orb_false_iff]%orb_false_iff].
  assert (Hskip : skip_blank (map digit_char (d :: ds') ++ rest) = map digit_char (d :: ds') ++ rest)
    by (cbn [map app skip_blank]; by rewrite H1, H2).
  assert (Hdig : strtol_digits (map digit_char (d :: ds') ++ rest) base 0 = Some (num, rest)).
  { rewrite strtol_digits_numeral; rewrite ?Hval; (done || lia). }
  unfold strtol. destruct neg.
  - cbn [app skip_blank]. change ((zc "-" =? zc " ") || (zc "-" =? 9)) with false. cbv iota.
    change (zc "-" =? zc "+") with false. change (zc "-" =? zc "-") with true. cbv iota.
    rewrite strtol_base_numeral by (done || lia). by rewrite Hdig.
  - cbn [app]. rewrite Hskip. cbn [map app]. rewrite H3, H4.
    change (digit_char d :: map digit_char ds' ++ rest) with (map digit_char (d :: ds') ++ rest).
    rewrite strtol_base_numeral by (done || lia). by rewrite Hdig.
Qed.

Lemma strtol_printnum_witness :
  strtol (zs "-00001f;") 16 = Some (-31, zs ";") ∧
  strtol ([zc "-"] ++ printnum 31 16 6 (zc "0") ++ zs ";") 16 = Some (-31, zs ";").
Proof.
  split; [reflexivity|].
  apply (strtol_printnum true 31 16 6 (zs ";")); [lia|lia|]. split; [discriminate|exact I].
Defined.

(* ------------------------------------------------------------------ *)
(** ** Scans of C strings *)

(** The bytes [l], none of them NUL, are at [s], followed by a NUL. *)
Fixpoint cstr (m : mem) (s : Z) (l : list Z) : Prop :=
  match l with
  | [] => rd8 m s = 0
  | c :: l' => rd8 m s = c ∧ c ≠ 0 ∧ cstr m (s + 1) l'
  end.

Lemma cstr_ext m m' s l : (∀ x, s ≤ x ≤ s + Z.of_nat (length l) → rd8 m' x = rd8 m x) → cstr m s l → cstr m' s l.
Proof.
  revert s. induction l as [|c l IH]; intros s H; cbn [cstr length] in *; [by rewrite H by lia|].
  intros (H1 & H2 & H3). split_and!; [by rewrite H by lia|done|]. apply IH; [|done]. intros x Hx. apply H. lia.
Qed.

(** A string and its copy elsewhere. *)
Lemma cstr_move m a m' a' l : (∀ o, 0 ≤ o ≤ Z.of_nat (length l) → rd8 m' (a' + o) = rd8 m (a + o)) → cstr m a l → cstr m' a' l.
Proof.
  revert a a'. induction l as [|c l IH]; intros a a' E; cbn [cstr length] in *.
  - specialize (E 0 ltac:(lia)). rewrite !Z.add_0_r in E. by rewrite E.
  - intros (H1 & H2 & H3). split_and!; [|done|].
    + specialize (E 0 ltac:(lia)). rewrite !Z.add_0_r in E. by rewrite E.
    + apply (IH (a + 1)); [|done]. intros o Ho. rewrite <- !Z.add_assoc. apply E. lia.
Qed.

Lemma strlen_loop_cstr fuel m s l n :
  cstr m s l → (length l < fuel)%nat → strlen_loop fuel m s n = Some (n + Z.of_nat (length l)).
Proof.
  revert s l n. induction fuel as [|fuel IH]; intros s l n Hl Hf; [lia|].
  destruct l as [|c l]; cbn in *.
  - rewrite Hl. cbn. f_equal. lia.
  - destruct Hl as (-> & Hc & Hl). rewrite (proj2 (Z.eqb_neq _ _) Hc).
    rewrite (IH _ l) by (done || lia). f_equal. lia.
Qed.

Lemma strcmp_cstr fuel m p q l1 l2 :
  cstr m p l1 → cstr m q l2 → (length l1 < fuel)%nat →
  ∃ r, strcmp fuel m p q = Some r ∧ (r = 0 ↔ l1 = l2).
Proof.
  revert p q l1 l2. induction fuel as [|fuel IH]; intros p q l1 l2 H1 H2 Hf; [lia|].
  destruct l1 as [|c1 l1], l2 as [|c2 l2]; cbn in H1, H2 |- *.
  - rewrite H1, H2. by exists 0.
  - destruct H2 as (-> & Hc & _). rewrite H1. cbn. exists (0 - c2). split; [done|]. split; [lia|done].
  - destruct H1 as (-> & Hc & _). rewrite H2, (proj2 (Z.eqb_neq _ _) Hc). cbn.
    exists (c1 - 0). split; [done|]. split; [lia|done].
  - destruct H1 as (-> & Hc1 & H1), H2 as (-> & Hc2 & H2). rewrite (proj2 (Z.eqb_neq _ _) Hc1).
    cbn [negb andb]. destruct (Z.eqb_spec c1 c2) as [->|Hne].
    + destruct (IH _ _ _ _ H1 H2) as (r & Hr & Hiff); [cbn in Hf; lia|]. exists r. split; [done|].
      rewrite Hiff. split; [by intros ->|by intros [= ->]].
    + exists (c1 - c2). split; [done|]. split; [lia|]. intros [= ? _]. done.
Qed.

Lemma strfind_cstr fuel m s l c :
  cstr m s l → (length l < fuel)%nat → 0 < c < 256 →
  ∃ l1 l2, l = l1 ++ l2 ∧ (c ∉ l1) ∧ (l2 = [] ∨ head l2 = Some c) ∧
    strfind fuel m s c = Some (s + Z.of_nat (length l1)) ∧
    strchr fuel m s c = Some (match l2 with [] => NULL | _ => s + Z.of_nat (length l1) end).
Proof.
  intros Hl Hf Hc. revert s l Hl Hf. induction fuel as [|fuel IH]; intros s l Hl Hf; [lia|].
  destruct l as [|x l]; cbn in Hl |- *.
  - rewrite Hl. cbn. exists [], []. rewrite Z.add_0_r. split_and!; (done || (by left) || apply not_elem_of_nil).
  - destruct Hl as (-> & Hx & Hl). rewrite (proj2 (Z.eqb_neq _ _) Hx), (u8_small c) by lia.
    destruct (Z.eqb_spec x c) as [->|Hne].
    + exists [], (c :: l). cbn. rewrite Z.add_0_r. split_and!; (done || (by right) || apply not_elem_of_nil).
    + destruct (IH _ _ Hl) as (l1 & l2 & -> & Hnin & Hh & -> & ->); [cbn in Hf; lia|].
      exists (x :: l1), l2. cbn [length]. split_and!; [done| |done| |].
      * rewrite not_elem_of_cons. done.
      * f_equal. lia.
      * f_equal. destruct l2; [done|]. lia.
Qed.

(** On strings that end in a NUL the scans of lib/string.c return (with
    fuel beyond the length): strlen the length, strcmp zero exactly on equal
    strings, strfind and strchr the first occurrence of the character, or
    the end and a null pointer. *)
Theorem string_scans fuel m s t l1 l2 c :
  cstr m s l1 → cstr m t l2 → (length l1 < fuel)%nat → 0 < c < 256 →
  strlen fuel m s = Some (Z.of_nat (length l1)) ∧
  (∃ r, strcmp fuel m s t = Some r ∧ (r = 0 ↔ l1 = l2)) ∧
  ∃ a b, l1 = a ++ b ∧ (c ∉ a) ∧ (b = [] ∨ head b = Some c) ∧
    strfind fuel m s c = Some (s + Z.of_nat (length a)) ∧
    strchr fuel m s c = Some (match b with [] => NULL | _ => s + Z.of_nat (length a) end).
Proof.
  intros H1 H2 Hf Hc. split; [|split].
  - unfold strlen. by rewrite (strlen_loop_cstr _ _ _ l1).
  - by eapply strcmp_cstr.
  - by apply strfind_cstr.
Qed.

Lemma string_scans_witness :
  let m := mem_set (mem_set (λ _, 0) 100 97 3) 200 97 3 in
  strlen 10 m 100 = Some 3 ∧ ∃ r, strcmp 10 m 100 200 = Some r ∧ (r = 0 ↔ [97; 97; 97] = [97; 97; 97]).
Proof.
  intros m. destruct (string_scans 10 m 100 200 [97; 97; 97] [97; 97; 97] 98) as (H1 & H2 & _).
  - cbn. repeat split; discriminate.
  - cbn. repeat split; discriminate.
  - cbn. lia.
  - lia.
  - split; [exact H1|exact H2].
Defined.
