(* ===== verification/Console.v ===== *)
(** The console: kern/console.c (serial port, parallel port, CGA display,
    keyboard, input ring), kern/printf.c and kern/picirq.c.

    The devices are outside the program.  What they answer is the list
    [c_in] of the values that the successive port reads return (0 once the
    list is used up: no data pending), and every port access is appended to
    [c_out], newest first; the operations are defined for every such list. *)

From S2P Require Import Prelude Mmu Printfmt.
From Stdlib Require Import ZArith Lia Ascii String.
From stdpp Require Import base tactics numbers list.
Open Scope Z_scope.

Inductive ioev :=
| EvIn (port v : Z)
| EvOut (port v : Z).

Record cons_st := mkCons {
  c_in : list Z;
  c_out : list ioev;
  serial_exists : bool;
  addr_6845 : Z;
  crt_buf : list Z;
  crt_pos : Z;
  kbd_shift : Z;
  cons_buf : list Z;
  cons_rpos : Z;
  cons_wpos : Z;
  irq_mask_8259A : Z;
  didinit : bool }.

Definition set_io i o s := mkCons i o (serial_exists s) (addr_6845 s) (crt_buf s)
  (crt_pos s) (kbd_shift s) (cons_buf s) (cons_rpos s) (cons_wpos s) (irq_mask_8259A s) (didinit s).
Definition set_serial_exists v s := mkCons (c_in s) (c_out s) v (addr_6845 s) (crt_buf s)
  (crt_pos s) (kbd_shift s) (cons_buf s) (cons_rpos s) (cons_wpos s) (irq_mask_8259A s) (didinit s).
Definition set_crt a b p s := mkCons (c_in s) (c_out s) (serial_exists s) a b
  p (kbd_shift s) (cons_buf s) (cons_rpos s) (cons_wpos s) (irq_mask_8259A s) (didinit s).
Definition set_shift v s := mkCons (c_in s) (c_out s) (serial_exists s) (addr_6845 s) (crt_buf s)
  (crt_pos s) v (cons_buf s) (cons_rpos s) (cons_wpos s) (irq_mask_8259A s) (didinit s).
Definition set_ring b r w s := mkCons (c_in s) (c_out s) (serial_exists s) (addr_6845 s) (crt_buf s)
  (crt_pos s) (kbd_shift s) b r w (irq_mask_8259A s) (didinit s).
Definition set_irq m d s := mkCons (c_in s) (c_out s) (serial_exists s) (addr_6845 s) (crt_buf s)
  (crt_pos s) (kbd_shift s) (cons_buf s) (cons_rpos s) (cons_wpos s) m d.

Abbreviation C := (M cons_st).

(** ** Port I/O (inc/x86.h inb and outb) *)

Definition inb (port : Z) : C Z := λ s,
  match c_in s with
  | [] => Ok 0 (set_io [] (EvIn port 0 :: c_out s) s)
  | v :: rest => Ok (u8 v) (set_io rest (EvIn port (u8 v) :: c_out s) s)
  end.

Definition outb (port v : Z) : C unit := λ s,
  Ok tt (set_io (c_in s) (EvOut port (u8 v) :: c_out s) s).

Definition delay : C unit :=
  inb 132;; inb 132;; inb 132;; inb 132;; mret tt.

(** ** Serial and parallel ports *)

Abbreviation COM1 := 1016 (only parsing).

Definition serial_proc_data : C Z :=
  lsr ← inb (COM1 + 5);
  if negb (tst lsr 1) then mret (-1) else inb (COM1 + 0).

(** The wait loop of serial_putc and lpt_putc: poll [port] until a bit of
    [bit] is set, at most [n] delays. *)
Fixpoint wait_ready (n : nat) (port bit : Z) : C unit :=
  v ← inb port;
  if tst v bit then mret tt
  else match n with
       | O => mret tt
       | S n' => delay;; wait_ready n' port bit
       end.

Definition serial_putc (c : Z) : C unit :=
  wait_ready (Z.to_nat 12800) (COM1 + 5) 32;;
  outb (COM1 + 0) c.

Definition lpt_putc (c : Z) : C unit :=
  wait_ready (Z.to_nat 12800) (888 + 1) 128;;
  outb (888 + 0) c;;
  outb (888 + 2) (Z.lor (Z.lor 8 4) 1);;
  outb (888 + 2) 8.

(** ** CGA display *)

Abbreviation CRT_COLS := 80 (only parsing).
Abbreviation CRT_SIZE := 2000 (only parsing).
Abbreviation MONO_BASE := 948 (only parsing).
Abbreviation CGA_BASE := 980 (only parsing).

(** The two reads of the video memory go through [c_in] as well: [was] and
    the value read back after 0xA55A was written. *)
Definition cga_init : C unit :=
  was ← mgets (λ s, hd0 (c_in s)); mmod (λ s, set_io (tail (c_in s)) (c_out s) s);;
  back ← mgets (λ s, hd0 (c_in s)); mmod (λ s, set_io (tail (c_in s)) (c_out s) s);;
  let base := if negb (back =? 42330) then MONO_BASE else CGA_BASE in
  mmod (λ s, set_crt base
    (if negb (back =? 42330) then crt_buf s else <[0%nat := u16 was]> (crt_buf s))
    (crt_pos s) s);;
  outb base 14;;
  hi ← inb (base + 1);
  outb base 15;;
  lo ← inb (base + 1);
  mmod (λ s, set_crt base (crt_buf s) (u16 (Z.lor (Z.shiftl hi 8) lo)) s).

Definition crt_write (pos v : Z) : C unit :=
  s ← mget;
  if pos <? Z.of_nat (length (crt_buf s))
  then mput (set_crt (addr_6845 s) (<[Z.to_nat pos := u16 v]> (crt_buf s)) (crt_pos s) s)
  else mundef.

Definition set_crt_pos (v : Z) : C unit :=
  mmod (λ s, set_crt (addr_6845 s) (crt_buf s) (u16 v) s).

(** The end of cga_putc: scroll by one line, then move the cursor. *)
Definition cga_scroll : C unit :=
  pos ← mgets crt_pos;
  mwhen (CRT_SIZE <=? pos)
    (mmod (λ s, set_crt (addr_6845 s)
       (take (Z.to_nat (CRT_SIZE - CRT_COLS)) (drop (Z.to_nat CRT_COLS) (crt_buf s))
        ++ replicate (Z.to_nat CRT_COLS) (Z.lor 1792 32))
       (u16 (crt_pos s - CRT_COLS)) s)).

Definition cga_cursor : C unit :=
  s ← mget;
  outb (addr_6845 s) 14;;
  outb (addr_6845 s + 1) (Z.shiftr (crt_pos s) 8);;
  outb (addr_6845 s) 15;;
  outb (addr_6845 s + 1) (crt_pos s).

(** cga_putc with the five calls of cons_putc that a tab makes as an
    argument; those print blanks, for which [tab] is not used. *)
Definition cga_putc_with (tab : C unit) (c : Z) : C unit :=
  let c := if negb (tst c (Z.lnot 255)) then Z.lor c 1792 else c in
  let ch := Z.land c 255 in
  pos ← mgets crt_pos;
  (if ch =? 8 then
     mwhen (0 <? pos)
       (set_crt_pos (pos - 1);; crt_write (pos - 1) (Z.lor (Z.land c (Z.lnot 255)) 32))
   else if ch =? 10 then
     set_crt_pos (pos + CRT_COLS);;
     p ← mgets crt_pos; set_crt_pos (p - p mod CRT_COLS)
   else if ch =? 13 then set_crt_pos (pos - pos mod CRT_COLS)
   else if ch =? 9 then tab
   else set_crt_pos (pos + 1);; crt_write pos c);;
  cga_scroll;;
  cga_cursor.

Definition cons_putc_with (tab : C unit) (c : Z) : C unit :=
  serial_putc c;; lpt_putc c;; cga_putc_with tab c.

Definition cga_tab : C unit :=
  mfor [0; 1; 2; 3; 4] (λ _ : Z, cons_putc_with (mret tt) 32).

Definition cga_putc (c : Z) : C unit := cga_putc_with cga_tab c.
Definition cons_putc (c : Z) : C unit := cons_putc_with cga_tab c.
Definition cputchar (c : Z) : C unit := cons_putc c.

(** ** kern/printf.c *)

(** [*cnt++] advances the local pointer and leaves the counter alone. *)
Definition putch (ch : Z) (cnt : Z) : C Z := cputchar ch;; mret cnt.

Definition vcprintf (fmt : list Z) (ap : list arg) : C Z :=
  match vprintfmt fmt ap with
  | None => mundef
  | Some out => mfor out (λ ch, putch ch 0;; mret tt);; mret 0
  end.

Definition cprintf (fmt : list Z) (ap : list arg) : C Z := vcprintf fmt ap.

(** ** kern/picirq.c *)

Abbreviation IO_PIC1 := 32 (only parsing).
Abbreviation IO_PIC2 := 160 (only parsing).
Abbreviation IRQ_SLAVE := 2 (only parsing).

Definition irq_setmask_8259A (mask : Z) : C unit :=
  mmod (λ s, set_irq (u16 mask) (didinit s) s);;
  di ← mgets didinit;
  if negb di then mret tt
  else
    outb (IO_PIC1 + 1) mask;;
    outb (IO_PIC2 + 1) (Z.shiftr (u16 mask) 8);;
    cprintf (zs "enabled interrupts:") [];;
    mfor (seqZ 0 16) (λ i,
      mwhen (tst (Z.lnot (u16 mask)) (Z.shiftl 1 i))
        (cprintf (zs " %d") [AInt i];; mret tt));;
    cprintf [10] [];;
    mret tt.

Definition pic_init : C unit :=
  mmod (λ s, set_irq (irq_mask_8259A s) true s);;
  outb (IO_PIC1 + 1) 255;;
  outb (IO_PIC2 + 1) 255;;
  outb IO_PIC1 17;;
  outb (IO_PIC1 + 1) IRQ_OFFSET;;
  outb (IO_PIC1 + 1) (Z.shiftl 1 IRQ_SLAVE);;
  outb (IO_PIC1 + 1) 3;;
  outb IO_PIC2 17;;
  outb (IO_PIC2 + 1) (IRQ_OFFSET + 8);;
  outb (IO_PIC2 + 1) IRQ_SLAVE;;
  outb (IO_PIC2 + 1) 1;;
  outb IO_PIC1 104;;
  outb IO_PIC1 10;;
  outb IO_PIC2 104;;
  outb IO_PIC2 10;;
  m ← mgets irq_mask_8259A;
  mwhen (negb (m =? 65535)) (irq_setmask_8259A m).

(** ** Keyboard *)

Abbreviation SHIFT := 1 (only parsing).
Abbreviation CTL := 2 (only parsing).
Abbreviation ALT := 4 (only parsing).
Abbreviation CAPSLOCK := 8 (only parsing).
Abbreviation NUMLOCK := 16 (only parsing).
Abbreviation SCROLLLOCK := 32 (only parsing).
Abbreviation E0ESC := 64 (only parsing).
Abbreviation KEY_HOME := 224 (only parsing).
Abbreviation KEY_END := 225 (only parsing).
Abbreviation KEY_UP := 226 (only parsing).
Abbreviation KEY_DN := 227 (only parsing).
Abbreviation KEY_LF := 228 (only parsing).
Abbreviation KEY_RT := 229 (only parsing).
Abbreviation KEY_PGUP := 230 (only parsing).
Abbreviation KEY_PGDN := 231 (only parsing).
Abbreviation KEY_INS := 232 (only parsing).
Abbreviation KEY_DEL := 233 (only parsing).

(** The designated entries of an initializer, searched in order. *)
Fixpoint designated (l : list (Z * Z)) (i : Z) : Z :=
  match l with
  | [] => 0
  | (k, v) :: l' => if k =? i then v else designated l' i
  end.

Definition shiftcode (data : Z) : Z :=
  designated [(29, CTL); (42, SHIFT); (54, SHIFT); (56, ALT); (157, CTL); (184, ALT)] data.

Definition togglecode (data : Z) : Z :=
  designated [(58, CAPSLOCK); (69, NUMLOCK); (70, SCROLLLOCK)] data.

(** A table given by its first entries and its designated ones. *)
Definition keytable (first : list Z) (des : list (Z * Z)) (data : Z) : Z :=
  match first !! Z.to_nat data with
  | Some c => c
  | None => designated des data
  end.

Definition keypad : list (Z * Z) :=
  [(199, KEY_HOME); (156, 10); (181, zc "/"); (200, KEY_UP); (201, KEY_PGUP);
   (203, KEY_LF); (205, KEY_RT); (207, KEY_END); (208, KEY_DN); (209, KEY_PGDN);
   (210, KEY_INS); (211, KEY_DEL)].

(** Entries 0x37 to 0x57, the same in normalmap and shiftmap. *)
Definition keyrows_37 : list Z :=
  zs "*" ++ [0] ++ zs " " ++ replicate 13 0 ++ zs "789-456+1230."
  ++ replicate 4 0.

Definition normalmap : Z → Z :=
  keytable ([0; 27] ++ zs "1234567890-=" ++ [8; 9] ++ zs "qwertyuiop[]" ++ [10; 0]
            ++ zs "asdfghjkl;'`" ++ [0; 92] ++ zs "zxcvbnm,./" ++ [0] ++ keyrows_37)
           keypad.

Definition shiftmap : Z → Z :=
  keytable ([0; 27] ++ zs "!@#$%^&*()_+" ++ [8; 9] ++ zs "QWERTYUIOP{}" ++ [10; 0]
            ++ zs "ASDFGHJKL:" ++ [34] ++ zs "~" ++ [0] ++ zs "|ZXCVBNM<>?" ++ [0] ++ keyrows_37)
           keypad.

(** [C(x)] is [x - '@'], stored in a byte. *)
Definition ctl_of (x : Z) : Z := u8 (x - zc "@").

Definition ctlmap : Z → Z :=
  keytable (replicate 16 0 ++ map ctl_of (zs "QWERTYUIOP") ++ [0; 0; 13; 0]
            ++ map ctl_of (zs "ASDFGHJKL") ++ replicate 4 0
            ++ map ctl_of ([92] ++ zs "ZXCVBNM") ++ [0; 0; ctl_of (zc "/"); 0; 0])
           [(151, KEY_HOME); (181, ctl_of (zc "/")); (200, KEY_UP); (201, KEY_PGUP);
            (203, KEY_LF); (205, KEY_RT); (207, KEY_END); (208, KEY_DN); (209, KEY_PGDN);
            (210, KEY_INS); (211, KEY_DEL)].

Definition charcode (i data : Z) : Z :=
  if i =? 0 then normalmap data else if i =? 1 then shiftmap data else ctlmap data.

(** The case change of caps lock. *)
Definition caps (c : Z) : Z :=
  if (zc "a" <=? c) && (c <=? zc "z") then c + (zc "A" - zc "a")
  else if (zc "A" <=? c) && (c <=? zc "Z") then c + (zc "a" - zc "A")
  else c.

(** What a key press does to the shift state, and the character. *)
Definition key_press (shift data : Z) : Z * Z :=
  let shift := Z.lor shift (shiftcode data) in
  let shift := Z.lxor shift (togglecode data) in
  let c := charcode (Z.land shift (Z.lor CTL SHIFT)) data in
  (shift, if tst shift CAPSLOCK then caps c else c).

Definition kbd_proc_data : C Z :=
  stat ← inb 100;
  if Z.land stat 1 =? 0 then mret (-1)
  else if tst stat 32 then mret (-1)
  else
    data ← inb 96;
    shift ← mgets kbd_shift;
    if data =? 224 then mmod (set_shift (Z.lor shift E0ESC));; mret 0
    else if tst data 128 then
      let data := if tst shift E0ESC then data else Z.land data 127 in
      mmod (set_shift (Z.land shift (u32 (Z.lnot (Z.lor (shiftcode data) E0ESC)))));; mret 0
    else
      let '(shift, data) :=
        if tst shift E0ESC then (Z.land shift (u32 (Z.lnot E0ESC)), Z.lor data 128)
        else (shift, data) in
      let '(shift, c) := key_press shift data in
      mmod (set_shift shift);;
      mwhen (negb (tst (u32 (Z.lnot shift)) (Z.lor CTL ALT)) && (c =? KEY_DEL))
        (cprintf (zs "Rebooting!" ++ [10]) [];; outb 146 3);;
      mret c.

(** ** The input ring *)

Abbreviation CONSBUFSIZE := 512 (only parsing).

(** [cons.buf[cons.wpos++] = c] and the wrap-around. *)
Definition cons_put (c : Z) : C unit :=
  s ← mget;
  if cons_wpos s <? CONSBUFSIZE then
    let w := u32 (cons_wpos s + 1) in
    mput (set_ring (<[Z.to_nat (cons_wpos s) := u8 c]> (cons_buf s)) (cons_rpos s)
                   (if w =? CONSBUFSIZE then 0 else w) s)
  else mundef.

(** The loop of cons_intr.  [proc] takes at least one value of [c_in] for
    every character it produces, so the length of [c_in] bounds it. *)
Fixpoint cons_intr_loop (fuel : nat) (proc : C Z) : C unit :=
  match fuel with
  | O => mundef
  | S fuel' =>
      c ← proc;
      if c =? -1 then mret tt
      else
        mwhen (negb (c =? 0)) (cons_put c);;
        cons_intr_loop fuel' proc
  end.

Definition cons_intr (proc : C Z) : C unit :=
  n ← mgets (λ s, length (c_in s));
  cons_intr_loop (S n) proc.

Definition serial_intr : C unit :=
  e ← mgets serial_exists;
  mwhen e (cons_intr serial_proc_data).

Definition kbd_intr : C unit := cons_intr kbd_proc_data.

(** The part of cons_getc that takes a character from the ring. *)
Definition cons_take : C Z :=
  s ← mget;
  if negb (cons_rpos s =? cons_wpos s) then
    match cons_buf s !! Z.to_nat (cons_rpos s) with
    | None => mundef
    | Some c =>
        let r := u32 (cons_rpos s + 1) in
        mput (set_ring (cons_buf s) (if r =? CONSBUFSIZE then 0 else r) (cons_wpos s) s);;
        mret c
    end
  else mret 0.

Definition cons_getc : C Z :=
  serial_intr;;
  kbd_intr;;
  cons_take.

Definition serial_init : C unit :=
  outb (COM1 + 2) 0;;
  outb (COM1 + 3) 128;;
  outb (COM1 + 0) (115200 / 9600);;
  outb (COM1 + 1) 0;;
  outb (COM1 + 3) (Z.land 3 (Z.lnot 128));;
  outb (COM1 + 4) 0;;
  outb (COM1 + 1) 1;;
  lsr ← inb (COM1 + 5);
  mmod (set_serial_exists (negb (lsr =? 255)));;
  inb (COM1 + 2);;
  inb (COM1 + 0);;
  e ← mgets serial_exists;
  m ← mgets irq_mask_8259A;
  mwhen e (irq_setmask_8259A (Z.land m (Z.lnot (Z.shiftl 1 IRQ_SERIAL)))).

Definition kbd_init : C unit :=
  kbd_intr;;
  m ← mgets irq_mask_8259A;
  irq_setmask_8259A (Z.land m (Z.lnot (Z.shiftl 1 IRQ_KBD))).

Definition cons_init : C unit :=
  cga_init;;
  kbd_init;;
  serial_init;;
  e ← mgets serial_exists;
  mwhen (negb e) (cprintf (zs "Serial port does not exist!" ++ [10]) [];; mret tt).

(** getchar polls until a character arrives; [fuel] bounds the polls. *)
Fixpoint getchar (fuel : nat) : C Z :=
  match fuel with
  | O => mleave Spinning
  | S fuel' => c ← cons_getc; if c =? 0 then getchar fuel' else mret c
  end.

Definition iscons (fdnum : Z) : Z := 1.

(* ------------------------------------------------------------------ *)
(** ** No access leaves its array, and every loop ends *)

(** The console states with the cursor below [lim] and at most [n] device
    values left; between two operations the cursor is on the screen. *)
Record cons_inv (lim : Z) (n : nat) (s : cons_st) : Prop := {
  ok_crt_buf : length (crt_buf s) = Z.to_nat CRT_SIZE;
  ok_crt_pos : 0 ≤ crt_pos s < lim;
  ok_buf : length (cons_buf s) = Z.to_nat CONSBUFSIZE;
  ok_rpos : 0 ≤ cons_rpos s < CONSBUFSIZE;
  ok_wpos : 0 ≤ cons_wpos s < CONSBUFSIZE;
  ok_in : (length (c_in s) ≤ n)%nat }.
Abbreviation cons_ok := (cons_inv CRT_SIZE).

(** [m] returns from every well-formed state, in a well-formed state. *)
Abbreviation safe m := (∀ n s, cons_ok n s → wp m s (λ _, cons_ok n)).

Lemma cons_inv_weaken lim lim' n n' s :
  cons_inv lim n s → lim ≤ lim' → (n ≤ n')%nat → cons_inv lim' n' s.
Proof. intros []. constructor; try done; lia. Qed.

Lemma inb_safe port n s :
  cons_ok n s →
  wp (inb port) s (λ v s', 0 ≤ v < 256 ∧ cons_ok n s' ∧ (v ≠ 0 → (0 < n)%nat ∧ cons_ok (n - 1) s')).
Proof.
  intros [H1 H2 H3 H4 H5 H6]. unfold wp, inb. destruct (c_in s) as [|v l] eqn:Hin.
  - split_and!; [lia|lia| |done]. by constructor; cbn; try done; lia.
  - split; [pose proof (u8_range v); lia|]. cbn in H6.
    split; [|intros _; split; [lia|]]; constructor; cbn; try done; lia.
Qed.

Lemma inb_ok port : safe (inb port).
Proof. intros n s H. eapply wp_mono; [by apply inb_safe|]. by intros ? ? (? & ? & ?). Qed.

Lemma outb_ok port v : safe (outb port v).
Proof. intros n s []. unfold wp, outb. by constructor. Qed.

#[global] Hint Resolve inb_ok outb_ok : wp.

(** Runs a sequence of safe commands. *)
Ltac safe_step :=
  lazymatch goal with
  | |- wp (mret _) _ _ => apply wp_ret
  | |- wp (_ ≫= _) _ _ => eapply wp_then; [solve [eauto with wp]|]; intros
  | |- wp _ _ _ => solve [eauto with wp]
  | |- _ => assumption
  end.
Ltac safe_steps := repeat safe_step.

Lemma delay_ok : safe delay.
Proof. intros n s H. unfold delay. safe_steps. Qed.

#[global] Hint Resolve delay_ok : wp.

Lemma wait_ready_ok k port bit : safe (wait_ready k port bit).
Proof.
  induction k as [|k IH]; intros n s H; cbn [wait_ready];
    (eapply wp_then; [eauto with wp|]); intros v s' H'; destruct (tst v bit); safe_steps.
Qed.

#[global] Hint Resolve wait_ready_ok : wp.

Lemma serial_putc_ok c : safe (serial_putc c).
Proof. intros n s H. unfold serial_putc. safe_steps. Qed.

Lemma lpt_putc_ok c : safe (lpt_putc c).
Proof. intros n s H. unfold lpt_putc. safe_steps. Qed.

#[global] Hint Resolve serial_putc_ok lpt_putc_ok : wp.

Lemma inv_crt lim lim' n s a b p :
  cons_inv lim n s → length b = Z.to_nat CRT_SIZE → 0 ≤ p < lim' →
  cons_inv lim' n (set_crt a b p s).
Proof. intros []. by constructor. Qed.

Lemma crt_write_ok lim n s pos v :
  cons_inv lim n s → 0 ≤ pos < CRT_SIZE → wp (crt_write pos v) s (λ _, cons_inv lim n).
Proof.
  intros H Hp. unfold crt_write. wp_steps. rewrite (proj2 (Z.ltb_lt _ _)).
  - unfold wp. cbn. eapply inv_crt; [done| |apply H].
    rewrite length_insert. apply H.
  - rewrite (ok_crt_buf _ _ _ H). lia.
Qed.

Lemma cga_scroll_ok n s :
  cons_inv (CRT_SIZE + CRT_COLS) n s → wp cga_scroll s (λ _, cons_ok n).
Proof.
  intros H. unfold cga_scroll. pose proof (ok_crt_pos _ _ _ H) as Hp.
  wp_steps; [apply Z.leb_le in H0|apply Z.leb_gt in H0].
  - eapply inv_crt; [done| |rewrite u16_small; lia].
    rewrite length_app, length_take, length_drop, length_replicate, (ok_crt_buf _ _ _ H). lia.
  - destruct H. constructor; try done. lia.
Qed.

Lemma cga_cursor_ok : safe cga_cursor.
Proof. intros n s H. unfold cga_cursor. wp_step. wp_step. safe_steps. Qed.

(** The switch of cga_putc moves the cursor by at most one line. *)
Lemma cga_putc_with_ok tab c : safe tab → safe (cga_putc_with tab c).
Proof.
  intros Ht n s H. unfold cga_putc_with. set (c' := if negb _ then _ else _). clearbody c'.
  pose proof (ok_crt_pos _ _ _ H) as Hp. wp_step. wp_step.
  apply (wp_then (cons_inv (CRT_SIZE + CRT_COLS) n)).
  2: { intros _ s1 H1. eapply wp_then; [by apply cga_scroll_ok|]. intros. by apply cga_cursor_ok. }
  assert (Hw : cons_inv (CRT_SIZE + CRT_COLS) n s) by (eapply cons_inv_weaken; [done|lia|lia]).
  pose proof (ok_crt_buf _ _ _ H) as Hb. unfold set_crt_pos.
  repeat (case_match; [|]); wp_steps.
  - apply Z.ltb_lt in H1. apply crt_write_ok; [|lia].
    eapply inv_crt; [done..|]. rewrite u16_small; lia.
  - done.
  - cbn. eapply inv_crt; [|done|].
    + eapply (inv_crt _ (CRT_SIZE + CRT_COLS)); [done..|]. rewrite u16_small; lia.
    + rewrite !(u16_small (crt_pos s + CRT_COLS)) by lia.
      pose proof (Z.mod_pos_bound (crt_pos s + CRT_COLS) CRT_COLS).
      pose proof (Z.mod_le (crt_pos s + CRT_COLS) CRT_COLS).
      rewrite u16_small; lia.
  - eapply inv_crt; [done..|].
    pose proof (Z.mod_pos_bound (crt_pos s) CRT_COLS).
    pose proof (Z.mod_le (crt_pos s) CRT_COLS). rewrite u16_small; lia.
  - eapply wp_mono; [by apply Ht|]. intros ? ? ?. apply (cons_inv_weaken CRT_SIZE _ n); [done|lia|lia].
  - apply crt_write_ok; [|lia]. eapply inv_crt; [done..|]. rewrite u16_small; lia.
Qed.

Lemma ret_ok {A} (a : A) : safe (mret a).
Proof. by intros n s H. Qed.

Lemma cons_putc_with_ok tab c : safe tab → safe (cons_putc_with tab c).
Proof.
  intros Ht n s H. unfold cons_putc_with. safe_steps. by apply cga_putc_with_ok.
Qed.

Lemma cga_tab_ok : safe cga_tab.
Proof.
  intros n s H. apply wp_mfor; [done|]. intros _ s1 _ H1.
  apply cons_putc_with_ok; [|done]. apply ret_ok.
Qed.

Lemma cons_putc_ok c : safe (cons_putc c).
Proof. apply cons_putc_with_ok, cga_tab_ok. Qed.

#[global] Hint Resolve cons_putc_ok ret_ok : wp.

Lemma cprintf_ok fmt ap : is_Some (vprintfmt fmt ap) → safe (cprintf fmt ap).
Proof.
  intros [out Hout] n s H. unfold cprintf, vcprintf. rewrite Hout.
  eapply wp_then; [|intros; by apply wp_ret].
  apply wp_mfor; [exact H|]. intros ch s1 _ H1. unfold putch, cputchar.
  apply wp_bind, wp_bind. eapply wp_mono; [by apply cons_putc_ok|]. done.
Qed.

(** An input routine uses up a device value for every character. *)
Definition reads (proc : C Z) : Prop := ∀ n s, cons_ok n s →
  wp proc s (λ c s', (c = -1 ∧ cons_ok n s') ∨ (0 < n)%nat ∧ cons_ok (n - 1) s').

Lemma serial_proc_data_reads : reads serial_proc_data.
Proof.
  intros n s H. unfold serial_proc_data. apply wp_bind.
  eapply wp_mono; [by apply inb_safe|]. intros v s1 (Hv & H1 & Hn).
  destruct (tst v 1) eqn:Ht; cbn.
  - destruct (decide (v = 0)) as [->|Hz]; [done|]. destruct (Hn Hz) as [Hn0 H2].
    eapply wp_mono; [by apply inb_ok|]. intros c s2 H3. by right.
  - apply wp_ret. by left.
Qed.

Lemma inv_shift lim n s v : cons_inv lim n s → cons_inv lim n (set_shift v s).
Proof. intros []. by constructor. Qed.

Lemma reboot_ok : safe (cprintf (zs "Rebooting!" ++ [10]) [];; outb 146 3).
Proof.
  intros n s H. eapply wp_then; [apply cprintf_ok; [by vm_compute; eauto|exact H]|].
  intros. by apply outb_ok.
Qed.

Lemma kbd_proc_data_reads : reads kbd_proc_data.
Proof.
  intros n s H. unfold kbd_proc_data. apply wp_bind.
  eapply wp_mono; [by apply inb_safe|]. intros v s1 (Hv & H1 & Hn).
  destruct (Z.land v 1 =? 0) eqn:Hd; [by left|].
  destruct (tst v 32); [by left|].
  destruct (decide (v = 0)) as [->|Hz]; [done|]. destruct (Hn Hz) as [Hn0 H2].
  eapply wp_then; [by apply inb_ok|]. intros data s2 H3. wp_step. wp_step.
  destruct (data =? 224); [wp_steps; right; split; [done|by apply inv_shift]|].
  destruct (tst data 128); [wp_steps; right; split; [done|by apply inv_shift]|].
  destruct (if tst (kbd_shift s2) E0ESC then _ else _) as [shift data'].
  destruct (key_press shift data') as [shift' c]. wp_step. wp_step.
  eapply (wp_then (cons_ok (n - 1))); [|intros; wp_step; by right].
  apply wp_when; [intros _|intros _; by apply inv_shift].
  by apply reboot_ok, inv_shift.
Qed.

Lemma cons_put_ok c : safe (cons_put c).
Proof.
  intros n s H. unfold cons_put. wp_step. wp_step.
  pose proof (ok_wpos _ _ _ H). rewrite (proj2 (Z.ltb_lt _ _)) by lia. wp_steps.
  destruct H as [H1 H2 H3 H4 H5 H6]. constructor; cbn; try done.
  - by rewrite length_insert.
  - rewrite u32_small by lia. case_match; lia.
Qed.

(** The loop of cons_intr ends within the fuel it is given. *)
Lemma cons_intr_loop_ok fuel proc n s :
  reads proc → (n < fuel)%nat → cons_ok n s →
  wp (cons_intr_loop fuel proc) s (λ _, cons_ok n).
Proof.
  intros Hr. revert n s. induction fuel as [|fuel IH]; intros n s Hf H; [lia|].
  cbn [cons_intr_loop]. apply wp_bind. eapply wp_mono; [by apply Hr|].
  intros c s1 Hc. destruct (c =? -1) eqn:Hm.
  - apply Z.eqb_eq in Hm as ->. wp_step. destruct Hc as [[_ ?]|[_ Hc]]; [done|].
    apply (cons_inv_weaken CRT_SIZE _ (n - 1)); [done|lia|lia].
  - destruct Hc as [[-> _]|[Hn Hc]]; [done|].
    apply (wp_then (cons_ok (n - 1))).
    + apply wp_when; intros; [by apply cons_put_ok|done].
    + intros _ s2 H2. eapply wp_mono; [apply (IH (n - 1)%nat); [lia|done]|].
      intros ? s3 H3. apply (cons_inv_weaken CRT_SIZE _ (n - 1)); [done|lia|lia].
Qed.

Lemma cons_intr_ok proc : reads proc → safe (cons_intr proc).
Proof.
  intros Hr n s H. unfold cons_intr. wp_step. wp_step.
  pose proof (ok_in _ _ _ H) as Hn.
  eapply wp_mono; [apply (cons_intr_loop_ok _ _ (length (c_in s))); [done|lia|]|].
  - destruct H. by constructor.
  - intros ? s1 H1. apply (cons_inv_weaken CRT_SIZE _ (length (c_in s))); [done|lia|lia].
Qed.

Lemma serial_intr_ok : safe serial_intr.
Proof.
  intros n s H. unfold serial_intr. wp_steps; [|done].
  by apply cons_intr_ok; [apply serial_proc_data_reads|].
Qed.

Lemma kbd_intr_ok : safe kbd_intr.
Proof. apply cons_intr_ok, kbd_proc_data_reads. Qed.

Lemma cons_take_ok : safe cons_take.
Proof.
  intros n s H. unfold cons_take. wp_step. wp_step.
  destruct (negb _); [|done]. destruct (_ !! _) as [c|] eqn:Hc.
  - wp_steps. destruct H as [H1 H2 H3 H4 H5 H6]. constructor; cbn; try done.
    rewrite u32_small by lia. case_match; lia.
  - apply lookup_ge_None_1 in Hc. rewrite (ok_buf _ _ _ H) in Hc.
    pose proof (ok_rpos _ _ _ H). lia.
Qed.

#[global] Hint Resolve serial_intr_ok kbd_intr_ok cons_take_ok : wp.

Lemma cons_getc_ok : safe cons_getc.
Proof. intros n s H. unfold cons_getc. safe_steps. Qed.

(* ------------------------------------------------------------------ *)
(** ** The ring is a queue *)

(** The characters waiting between [rpos] and [wpos], oldest first. *)
Definition ring (s : cons_st) (q : list Z) : Prop :=
  length (cons_buf s) = Z.to_nat CONSBUFSIZE ∧
  0 ≤ cons_rpos s < CONSBUFSIZE ∧
  (length q < Z.to_nat CONSBUFSIZE)%nat ∧
  cons_wpos s = (cons_rpos s + Z.of_nat (length q)) mod CONSBUFSIZE ∧
  ∀ i c, q !! i = Some c →
    cons_buf s !! Z.to_nat ((cons_rpos s + Z.of_nat i) mod CONSBUFSIZE) = Some c.

(** Two offsets below the size reach different slots. *)
Lemma ring_slot_ne r i j :
  0 ≤ r → 0 ≤ i < CONSBUFSIZE → 0 ≤ j < CONSBUFSIZE → i ≠ j →
  (r + i) mod CONSBUFSIZE ≠ (r + j) mod CONSBUFSIZE.
Proof.
  intros Hr Hi Hj Hne Heq.
  pose proof (Z.div_mod (r + i) CONSBUFSIZE). pose proof (Z.div_mod (r + j) CONSBUFSIZE). lia.
Qed.

Lemma ring_next x : 0 ≤ x →
  (if u32 (x mod CONSBUFSIZE + 1) =? CONSBUFSIZE then 0 else u32 (x mod CONSBUFSIZE + 1))
  = (x + 1) mod CONSBUFSIZE.
Proof.
  intros Hx. pose proof (Z.mod_pos_bound x CONSBUFSIZE). rewrite u32_small by lia.
  rewrite <-(Z.add_mod_idemp_l x 1) by lia.
  destruct (Z.eqb_spec (x mod CONSBUFSIZE + 1) CONSBUFSIZE) as [->|Hne]; [done|].
  by rewrite (Z.mod_small (x mod CONSBUFSIZE + 1)) by lia.
Qed.

(** The ring with [c] written at [wpos] and [wpos] advanced. *)
Definition ring_push (c : Z) (s : cons_st) : cons_st :=
  set_ring (<[Z.to_nat (cons_wpos s) := u8 c]> (cons_buf s)) (cons_rpos s)
    ((cons_wpos s + 1) mod CONSBUFSIZE) s.

Lemma cons_put_push c s q : ring s q → cons_put c s = Ok tt (ring_push c s).
Proof.
  intros (Hl & Hr & Hq & Hw & Hb). unfold cons_put, ring_push. mstep.
  assert (0 ≤ cons_wpos s < CONSBUFSIZE) by (rewrite Hw; apply Z.mod_pos_bound; lia).
  rewrite (proj2 (Z.ltb_lt _ _)) by lia.
  rewrite <-(ring_next (cons_wpos s)) by lia. by rewrite Z.mod_small by lia.
Qed.

Lemma ring_push_queue c s q :
  ring s q → (length q < Z.to_nat CONSBUFSIZE - 1)%nat → ring (ring_push c s) (q ++ [u8 c]).
Proof.
  intros (Hl & Hr & Hq & Hw & Hb) Hlt. unfold ring, ring_push; cbn.
  rewrite length_insert, length_app. cbn. split_and!; [done|lia|lia|lia| |].
  - rewrite Hw. rewrite Z.add_mod_idemp_l by lia. f_equal. lia.
  - intros i d Hi. apply lookup_app_Some in Hi as [Hi|[Hge Hi]].
    + pose proof (lookup_lt_Some _ _ _ Hi) as Hil. rewrite list_lookup_insert_ne; [by apply Hb|].
      rewrite Hw. intros Heq. apply Z2Nat.inj in Heq; [|apply Z.mod_pos_bound; lia..].
      revert Heq. apply ring_slot_ne; lia.
    + apply list_lookup_singleton_Some in Hi as [Hi <-].
      replace i with (length q) by lia. rewrite <-Hw. apply list_lookup_insert_eq.
      pose proof (Z.mod_pos_bound (cons_rpos s + Z.of_nat (length q)) CONSBUFSIZE). lia.
Qed.

Lemma ring_push_overflow c s q :
  ring s q → (length q = Z.to_nat CONSBUFSIZE - 1)%nat → ring (ring_push c s) [].
Proof.
  intros (Hl & Hr & Hq & Hw & Hb) Hlen. unfold ring, ring_push; cbn.
  rewrite length_insert. split_and!; [done|lia|lia|lia| |done].
  rewrite Hw, Z.add_mod_idemp_l by lia.
  replace (cons_rpos s + Z.of_nat (length q) + 1) with (cons_rpos s + 0 + 1 * CONSBUFSIZE) by lia.
  by rewrite Z.mod_add by lia.
Qed.

Lemma cons_take_empty s : ring s [] → cons_take s = Ok 0 s.
Proof.
  intros (Hl & Hr & Hq & Hw & Hb). unfold cons_take. mstep.
  cbn in Hw. rewrite Z.add_0_r, Z.mod_small in Hw by lia. by rewrite Hw, Z.eqb_refl.
Qed.

Lemma cons_take_queue s c q :
  ring s (c :: q) → ∃ s', cons_take s = Ok c s' ∧ ring s' q ∧
    c_in s' = c_in s ∧ serial_exists s' = serial_exists s.
Proof.
  intros (Hl & Hr & Hq & Hw & Hb). unfold cons_take. mstep. cbn [length] in *.
  rewrite (proj2 (Z.eqb_neq _ _)).
  2:{ rewrite Hw, <-(Z.mod_small (cons_rpos s) CONSBUFSIZE) at 1 by lia.
      rewrite <-(Z.add_0_r (cons_rpos s)) at 1. apply ring_slot_ne; lia. }
  cbn. pose proof (Hb 0%nat c eq_refl) as H0. cbn in H0.
  rewrite Z.add_0_r, Z.mod_small in H0 by lia. rewrite H0.
  pose proof (ring_next (cons_rpos s)) as Hn. rewrite (Z.mod_small (cons_rpos s)) in Hn by lia.
  rewrite Hn by lia. eexists. split; [done|]. split; [|done].
  unfold ring; cbn. split_and!; [done|apply Z.mod_pos_bound; lia..|lia| |].
  - rewrite Z.add_mod_idemp_l, Hw by lia. f_equal. lia.
  - intros i d Hi. rewrite Z.add_mod_idemp_l by lia.
    replace (cons_rpos s + 1 + Z.of_nat i) with (cons_rpos s + Z.of_nat (S i)) by lia.
    by apply Hb.
Qed.

(** A byte pending on the serial port is read and queued. *)
Lemma serial_proc_data_byte s c rest :
  c_in s = 1 :: c :: rest → 0 ≤ c < 256 →
  ∃ o, serial_proc_data s = Ok c (set_io rest o s).
Proof.
  intros Hin Hc. unfold serial_proc_data, inb. mstep. rewrite Hin.
  change (negb (tst (u8 1) 1)) with false. cbn. rewrite (u8_small c) by lia. by eexists.
Qed.

Lemma serial_loop_fifo cs fuel s q :
  ring s q → c_in s = flat_map (λ c, [1; c]) cs → Forall (λ c, 0 < c < 256) cs →
  (length q + length cs < Z.to_nat CONSBUFSIZE)%nat → (length cs < fuel)%nat →
  ∃ s', cons_intr_loop fuel serial_proc_data s = Ok tt s' ∧ ring s' (q ++ cs).
Proof.
  revert fuel s q. induction cs as [|c cs IH]; intros fuel s q Hring Hin Hcs Hlen Hf;
    (destruct fuel as [|fuel]; [cbn in Hf; lia|]); cbn [cons_intr_loop].
  - unfold serial_proc_data, inb. mstep. rewrite Hin. cbn.
    eexists. split; [done|]. by rewrite app_nil_r.
  - apply Forall_cons in Hcs as [Hc Hcs]. cbn in Hin, Hlen, Hf.
    destruct (serial_proc_data_byte s c _ Hin) as [o Ho]; [lia|].
    erewrite bind_Ok by exact Ho.
    rewrite (proj2 (Z.eqb_neq c (-1))), (proj2 (Z.eqb_neq c 0)) by lia. cbn [mwhen negb].
    erewrite bind_Ok by (apply (cons_put_push c _ q); exact Hring).
    destruct (IH fuel (ring_push c (set_io (flat_map (λ c, [1; c]) cs) o s)) (q ++ [u8 c]))
      as (s' & Hs' & Hr'); [by apply ring_push_queue; [|lia]|done|done| |lia|].
    { rewrite length_app. cbn. lia. }
    exists s'. split; [done|]. by rewrite <-app_assoc, u8_small in Hr' by lia.
Qed.

(** ** Claims *)

(** For every behaviour of the devices, from a well-formed console the
    interrupt routines, cons_getc, cputchar and cprintf (of a format whose
    arguments are there) return, in a well-formed console: the loops end
    and no access leaves crt_buf, cons.buf or a key table. *)
Theorem console_safe n s c fmt ap :
  cons_ok n s → is_Some (vprintfmt fmt ap) →
  wp cons_getc s (λ _, cons_ok n) ∧ wp kbd_intr s (λ _, cons_ok n) ∧
  wp serial_intr s (λ _, cons_ok n) ∧ wp (cputchar c) s (λ _, cons_ok n) ∧
  wp (cprintf fmt ap) s (λ _, cons_ok n).
Proof.
  intros H Hf. split_and!.
  - by apply cons_getc_ok.
  - by apply kbd_intr_ok.
  - by apply serial_intr_ok.
  - by apply cons_putc_ok.
  - by apply cprintf_ok.
Qed.

(** A console with the cursor in the last column of the screen. *)
Definition demo_cons (input : list Z) : cons_st :=
  mkCons input [] true CGA_BASE (replicate (Z.to_nat CRT_SIZE) 1824) 1999 0
    (replicate (Z.to_nat CONSBUFSIZE) 0) 510 510 65531 false.

Lemma demo_cons_ok input : cons_ok (length input) (demo_cons input).
Proof.
  constructor; cbn [crt_buf crt_pos cons_buf cons_rpos cons_wpos c_in demo_cons];
    rewrite ?length_replicate; lia.
Qed.

Lemma demo_cons_ring input : ring (demo_cons input) [].
Proof.
  unfold ring. cbn [cons_buf cons_rpos cons_wpos demo_cons length].
  rewrite length_replicate. split_and!; [lia|lia|lia|lia|reflexivity|done].
Qed.

Lemma console_safe_witness :
  cons_ok 2 (demo_cons [1; 65]) ∧ is_Some (vprintfmt (zs "%d") [AInt 5]) ∧
  wp cons_getc (demo_cons [1; 65]) (λ _, cons_ok 2).
Proof.
  assert (H : cons_ok 2 (demo_cons [1; 65])) by exact (demo_cons_ok [1; 65]).
  assert (Hf : is_Some (vprintfmt (zs "%d") [AInt 5])) by (eexists; reflexivity).
  split; [exact H|]. split; [exact Hf|].
  exact (proj1 (console_safe 2 (demo_cons [1; 65]) 65 (zs "%d") [AInt 5] H Hf)).
Defined.

(** C26: the console input ring refines a queue of at most 511 characters:
    cons_intr's store appends to it, cons_getc takes the oldest character
    (0 when there is none), and a 512th character loses all of them. *)
Theorem cons_ring_refines_queue s q :
  ring s q →
  (∀ c, ∃ s', cons_put c s = Ok tt s' ∧
     ring s' (if decide (length q = 511%nat) then [] else q ++ [u8 c])) ∧
  match q with
  | [] => cons_take s = Ok 0 s
  | c :: q' => ∃ s', cons_take s = Ok c s' ∧ ring s' q'
  end.
Proof.
  intros Hr. split.
  - intros c. exists (ring_push c s). split; [by eapply cons_put_push|].
    destruct (decide _) as [Hl|Hl]; [by eapply ring_push_overflow|].
    apply ring_push_queue; [done|]. destruct Hr as (_ & _ & Hq & _). lia.
  - destruct q as [|c q]; [by apply cons_take_empty|].
    destruct (cons_take_queue _ _ _ Hr) as (s' & ? & ? & _). eauto.
Qed.

Lemma cons_ring_refines_queue_witness :
  ∃ s', cons_put 65 (demo_cons []) = Ok tt s' ∧ ring s' [65].
Proof.
  destruct (cons_ring_refines_queue (demo_cons []) [] (demo_cons_ring [])) as [Hp _].
  exact (Hp 65).
Defined.

(** Bytes arriving on the serial port are queued in order behind the
    characters already waiting, as long as the ring has room for them. *)
Theorem serial_intr_fifo s q cs :
  ring s q → serial_exists s = true → c_in s = flat_map (λ c, [1; c]) cs →
  Forall (λ c, 0 < c < 256) cs → (length q + length cs < Z.to_nat CONSBUFSIZE)%nat →
  ∃ s', serial_intr s = Ok tt s' ∧ ring s' (q ++ cs).
Proof.
  intros Hr He Hin Hcs Hl. unfold serial_intr, cons_intr. mstep. rewrite He.
  apply serial_loop_fifo; try done. rewrite Hin.
  clear. induction cs; cbn in *; lia.
Qed.

Lemma serial_intr_fifo_witness :
  ∃ s', serial_intr (demo_cons [1; 104; 1; 105]) = Ok tt s' ∧ ring s' [104; 105].
Proof.
  apply (serial_intr_fifo _ [] [104; 105]); [apply demo_cons_ring|reflexivity|reflexivity| |].
  - repeat constructor; lia.
  - cbn; lia.
Defined.
