(* ===== verification/KState.v ===== *)
(** The state of the kernel: the globals of kern/pmap.c, kern/env.c,
    kern/mpconfig.c (cpus[]), kern/spinlock.c and kern/init.c, the physical
    memory, and the accessors that the kernel files share.

    Pointers into [pages[]] and [envs[]] are indices ([None] is NULL).  The
    two arrays are lists of records and not bytes of the physical memory;
    the memory [k_mem] holds what the kernel reads and writes as memory
    (page directories, page tables, user pages, ELF images).  A kernel
    virtual address at or above KERNBASE reaches the physical address below
    it by the mapping that mem_init sets up. *)

From S2P Require Import Prelude Mmu Printfmt Console.
From Stdlib Require Import ZArith Lia String.
From stdpp Require Import base tactics numbers list.
Open Scope Z_scope.

(** inc/memlayout.h *)
Record PageInfo := mkPage { pp_link : option nat; pp_ref : Z }.

(** inc/env.h *)
Record Env := mkEnv {
  env_tf : Trapframe; env_link : option nat; env_id : Z; env_parent_id : Z;
  env_type : Z; env_status : Z; env_runs : Z; env_cpunum : Z;
  env_pgdir : Z; env_pgfault_upcall : Z;
  env_ipc_recving : bool; env_ipc_dstva : Z; env_ipc_value : Z;
  env_ipc_from : Z; env_ipc_perm : Z }.

(** kern/cpu.h; of the task state only the fields the kernel writes. *)
Record Taskstate := mkTs { ts_esp0 : Z; ts_ss0 : Z; ts_iomb : Z }.
Record CpuInfo := mkCpu {
  cpu_id : Z; cpu_status : Z; cpu_env : option nat; cpu_ts : Taskstate }.
Abbreviation CPU_UNUSED := 0 (only parsing).
Abbreviation CPU_STARTED := 1 (only parsing).
Abbreviation CPU_HALTED := 2 (only parsing).

(** Segment registers. *)
Inductive segreg := RegGS | RegFS | RegES | RegDS | RegSS | RegCS.

(** What the kernel does to the machine besides memory, newest first. *)
Inductive kevent :=
| EvCprintf (fmt : list Z) (ap : list arg)
| EvCputs (bytes : list Z)
| EvInvlpg (va : Z)
| EvLcr0 (v : Z)
| EvLcr3 (pa : Z)
| EvLapicEoi
| EvStartAp (apicid addr : Z)
| EvPause
| EvOutb (port v : Z)
| EvLgdt | EvLidt | EvLldt (sel : Z) | EvLtr (sel : Z)
| EvSegReg (r : segreg) (sel : Z)
| EvGdt (i : Z) (d : Segdesc).

Record kst := mkK {
  k_npages : Z;
  k_npages_basemem : Z;
  k_kern_pgdir : Z;
  k_pages : list PageInfo;
  k_page_free_list : option nat;
  k_nextfree : Z;
  k_mmio_base : Z;
  k_user_mem_check_addr : Z;
  k_mem : mem;
  k_envs : list Env;
  k_env_free_list : option nat;
  k_cpus : list CpuInfo;
  k_cpunum : nat;
  k_lock : option nat;
  k_cr3 : Z;
  k_panicstr : bool;
  k_cons : cons_st;
  k_log : list kevent }.

Definition with_npages (v : Z) (s : kst) : kst :=
  mkK v (k_npages_basemem s) (k_kern_pgdir s) (k_pages s) (k_page_free_list s) 
    (k_nextfree s) (k_mmio_base s) (k_user_mem_check_addr s) (k_mem s) (k_envs s) 
    (k_env_free_list s) (k_cpus s) (k_cpunum s) (k_lock s) (k_cr3 s) (k_panicstr s) 
    (k_cons s) (k_log s).
Definition with_npages_basemem (v : Z) (s : kst) : kst :=
  mkK (k_npages s) v (k_kern_pgdir s) (k_pages s) (k_page_free_list s) (k_nextfree s) 
    (k_mmio_base s) (k_user_mem_check_addr s) (k_mem s) (k_envs s) (k_env_free_list s) 
    (k_cpus s) (k_cpunum s) (k_lock s) (k_cr3 s) (k_panicstr s) (k_cons s) (k_log s).
Definition with_kern_pgdir (v : Z) (s : kst) : kst :=
  mkK (k_npages s) (k_npages_basemem s) v (k_pages s) (k_page_free_list s) (k_nextfree s) 
    (k_mmio_base s) (k_user_mem_check_addr s) (k_mem s) (k_envs s) (k_env_free_list s) 
    (k_cpus s) (k_cpunum s) (k_lock s) (k_cr3 s) (k_panicstr s) (k_cons s) (k_log s).
Definition with_pages (v : list PageInfo) (s : kst) : kst :=
  mkK (k_npages s) (k_npages_basemem s) (k_kern_pgdir s) v (k_page_free_list s) 
    (k_nextfree s) (k_mmio_base s) (k_user_mem_check_addr s) (k_mem s) (k_envs s) 
    (k_env_free_list s) (k_cpus s) (k_cpunum s) (k_lock s) (k_cr3 s) (k_panicstr s) 
    (k_cons s) (k_log s).
Definition with_page_free_list (v : option nat) (s : kst) : kst :=
  mkK (k_npages s) (k_npages_basemem s) (k_kern_pgdir s) (k_pages s) v (k_nextfree s) 
    (k_mmio_base s) (k_user_mem_check_addr s) (k_mem s) (k_envs s) (k_env_free_list s) 
    (k_cpus s) (k_cpunum s) (k_lock s) (k_cr3 s) (k_panicstr s) (k_cons s) (k_log s).
Definition with_nextfree (v : Z) (s : kst) : kst :=
  mkK (k_npages s) (k_npages_basemem s) (k_kern_pgdir s) (k_pages s) (k_page_free_list s) v 
    (k_mmio_base s) (k_user_mem_check_addr s) (k_mem s) (k_envs s) (k_env_free_list s) 
    (k_cpus s) (k_cpunum s) (k_lock s) (k_cr3 s) (k_panicstr s) (k_cons s) (k_log s).
Definition with_mmio_base (v : Z) (s : kst) : kst :=
  mkK (k_npages s) (k_npages_basemem s) (k_kern_pgdir s) (k_pages s) (k_page_free_list s) 
    (k_nextfree s) v (k_user_mem_check_addr s) (k_mem s) (k_envs s) (k_env_free_list s) 
    (k_cpus s) (k_cpunum s) (k_lock s) (k_cr3 s) (k_panicstr s) (k_cons s) (k_log s).
Definition with_user_mem_check_addr (v : Z) (s : kst) : kst :=
  mkK (k_npages s) (k_npages_basemem s) (k_kern_pgdir s) (k_pages s) (k_page_free_list s) 
    (k_nextfree s) (k_mmio_base s) v (k_mem s) (k_envs s) (k_env_free_list s) (k_cpus s) 
    (k_cpunum s) (k_lock s) (k_cr3 s) (k_panicstr s) (k_cons s) (k_log s).
Definition with_mem (v : mem) (s : kst) : kst :=
  mkK (k_npages s) (k_npages_basemem s) (k_kern_pgdir s) (k_pages s) (k_page_free_list s) 
    (k_nextfree s) (k_mmio_base s) (k_user_mem_check_addr s) v (k_envs s) 
    (k_env_free_list s) (k_cpus s) (k_cpunum s) (k_lock s) (k_cr3 s) (k_panicstr s) 
    (k_cons s) (k_log s).
Definition with_envs (v : list Env) (s : kst) : kst :=
  mkK (k_npages s) (k_npages_basemem s) (k_kern_pgdir s) (k_pages s) (k_page_free_list s) 
    (k_nextfree s) (k_mmio_base s) (k_user_mem_check_addr s) (k_mem s) v 
    (k_env_free_list s) (k_cpus s) (k_cpunum s) (k_lock s) (k_cr3 s) (k_panicstr s) 
    (k_cons s) (k_log s).
Definition with_env_free_list (v : option nat) (s : kst) : kst :=
  mkK (k_npages s) (k_npages_basemem s) (k_kern_pgdir s) (k_pages s) (k_page_free_list s) 
    (k_nextfree s) (k_mmio_base s) (k_user_mem_check_addr s) (k_mem s) (k_envs s) v 
    (k_cpus s) (k_cpunum s) (k_lock s) (k_cr3 s) (k_panicstr s) (k_cons s) (k_log s).
Definition with_cpus (v : list CpuInfo) (s : kst) : kst :=
  mkK (k_npages s) (k_npages_basemem s) (k_kern_pgdir s) (k_pages s) (k_page_free_list s) 
    (k_nextfree s) (k_mmio_base s) (k_user_mem_check_addr s) (k_mem s) (k_envs s) 
    (k_env_free_list s) v (k_cpunum s) (k_lock s) (k_cr3 s) (k_panicstr s) (k_cons s) 
    (k_log s).
Definition with_cpunum (v : nat) (s : kst) : kst :=
  mkK (k_npages s) (k_npages_basemem s) (k_kern_pgdir s) (k_pages s) (k_page_free_list s) 
    (k_nextfree s) (k_mmio_base s) (k_user_mem_check_addr s) (k_mem s) (k_envs s) 
    (k_env_free_list s) (k_cpus s) v (k_lock s) (k_cr3 s) (k_panicstr s) (k_cons s) 
    (k_log s).
Definition with_lock (v : option nat) (s : kst) : kst :=
  mkK (k_npages s) (k_npages_basemem s) (k_kern_pgdir s) (k_pages s) (k_page_free_list s) 
    (k_nextfree s) (k_mmio_base s) (k_user_mem_check_addr s) (k_mem s) (k_envs s) 
    (k_env_free_list s) (k_cpus s) (k_cpunum s) v (k_cr3 s) (k_panicstr s) (k_cons s) 
    (k_log s).
Definition with_cr3 (v : Z) (s : kst) : kst :=
  mkK (k_npages s) (k_npages_basemem s) (k_kern_pgdir s) (k_pages s) (k_page_free_list s) 
    (k_nextfree s) (k_mmio_base s) (k_user_mem_check_addr s) (k_mem s) (k_envs s) 
    (k_env_free_list s) (k_cpus s) (k_cpunum s) (k_lock s) v (k_panicstr s) (k_cons s) 
    (k_log s).
Definition with_panicstr (v : bool) (s : kst) : kst :=
  mkK (k_npages s) (k_npages_basemem s) (k_kern_pgdir s) (k_pages s) (k_page_free_list s) 
    (k_nextfree s) (k_mmio_base s) (k_user_mem_check_addr s) (k_mem s) (k_envs s) 
    (k_env_free_list s) (k_cpus s) (k_cpunum s) (k_lock s) (k_cr3 s) v (k_cons s) (k_log s).
Definition with_cons (v : cons_st) (s : kst) : kst :=
  mkK (k_npages s) (k_npages_basemem s) (k_kern_pgdir s) (k_pages s) (k_page_free_list s) 
    (k_nextfree s) (k_mmio_base s) (k_user_mem_check_addr s) (k_mem s) (k_envs s) 
    (k_env_free_list s) (k_cpus s) (k_cpunum s) (k_lock s) (k_cr3 s) (k_panicstr s) v 
    (k_log s).
Definition with_log (v : list kevent) (s : kst) : kst :=
  mkK (k_npages s) (k_npages_basemem s) (k_kern_pgdir s) (k_pages s) (k_page_free_list s) 
    (k_nextfree s) (k_mmio_base s) (k_user_mem_check_addr s) (k_mem s) (k_envs s) 
    (k_env_free_list s) (k_cpus s) (k_cpunum s) (k_lock s) (k_cr3 s) (k_panicstr s) 
    (k_cons s) v.

Abbreviation K := (M kst).

Definition klog (e : kevent) : K unit := mmod (λ s, with_log (e :: k_log s) s).
(** [s] followed by a newline. *)
Definition line (s : string) : string := (s ++ String (Ascii.ascii_of_nat 10) EmptyString)%string.

Definition cprintf (fmt : string) (ap : list arg) : K unit := klog (EvCprintf (zs fmt) ap).
Definition invlpg (va : Z) : K unit := klog (EvInvlpg va).
Definition lcr3 (pa : Z) : K unit := mmod (with_cr3 pa);; klog (EvLcr3 pa).

(** ** Access to pages[], envs[] and cpus[] *)

Definition page_get (pp : nat) : K PageInfo :=
  s ← mget; mderef (k_pages s !! pp).
Definition page_upd (pp : nat) (f : PageInfo → PageInfo) : K unit :=
  s ← mget;
  match k_pages s !! pp with
  | Some p => mput (with_pages (<[pp := f p]> (k_pages s)) s)
  | None => mundef
  end.
Definition set_link (l : option nat) (p : PageInfo) : PageInfo := mkPage l (pp_ref p).
Definition set_ref (r : Z) (p : PageInfo) : PageInfo := mkPage (pp_link p) (u16 r).

Definition env_get (e : nat) : K Env :=
  s ← mget; mderef (k_envs s !! e).
Definition env_upd (e : nat) (f : Env → Env) : K unit :=
  s ← mget;
  match k_envs s !! e with
  | Some v => mput (with_envs (<[e := f v]> (k_envs s)) s)
  | None => mundef
  end.

(** [thiscpu], and [curenv], which is [thiscpu->cpu_env]. *)
Definition thiscpu : K CpuInfo := s ← mget; mderef (k_cpus s !! k_cpunum s).
Definition cpu_upd (f : CpuInfo → CpuInfo) : K unit :=
  s ← mget;
  match k_cpus s !! k_cpunum s with
  | Some c => mput (with_cpus (<[k_cpunum s := f c]> (k_cpus s)) s)
  | None => mundef
  end.
Definition set_cpu_env (e : option nat) (c : CpuInfo) : CpuInfo :=
  mkCpu (cpu_id c) (cpu_status c) e (cpu_ts c).
Definition set_cpu_status (v : Z) (c : CpuInfo) : CpuInfo :=
  mkCpu (cpu_id c) v (cpu_env c) (cpu_ts c).
Definition curenv_of (s : kst) : option nat := k_cpus s !! k_cpunum s ≫= cpu_env.
Definition curenv : K (option nat) := mgets curenv_of.

(** ** Memory through kernel virtual addresses *)

(** The physical address behind a kernel pointer to [n] bytes. *)
Definition kphys (kva n : Z) : option Z :=
  if (KERNBASE <=? kva) && (kva + n <=? 2 ^ 32) then Some (kva - KERNBASE) else None.
Definition kload (kva : Z) : K Z :=
  s ← mget; a ← mderef (kphys kva 4); mret (rd32 (k_mem s) a).
Definition kstore (kva v : Z) : K unit :=
  a ← mderef (kphys kva 4); mmod (λ s, with_mem (wr32 (k_mem s) a v) s).
Definition kmemset (kva c n : Z) : K unit :=
  a ← mderef (kphys kva n); mmod (λ s, with_mem (mem_set (k_mem s) a c n) s).
Definition kmemmove (dst src n : Z) : K unit :=
  d ← mderef (kphys dst n); a ← mderef (kphys src n);
  mmod (λ s, with_mem (mem_move (k_mem s) d a n) s).
