(* ===== verification/Pmap.v ===== *)
(** Physical page allocation and page tables: kern/pmap.h and kern/pmap.c
    (allocator, page-table walks, mappings, user memory checks).  The
    lemmas about the allocator are at the end of this file; those about
    page tables are in PageTable. *)

From S2P Require Import Prelude Mmu Printfmt Console KState.
From Stdlib Require Import ZArith Lia String.
From stdpp Require Import base tactics numbers list.
Open Scope Z_scope.

(** ** kern/pmap.h *)

Definition PADDR (kva : Z) : K Z :=
  if u32 kva <? KERNBASE then mpanic "PADDR called with invalid kva %08lx"
  else mret (u32 kva - KERNBASE).

Definition KADDR (pa : Z) : K Z :=
  n ← mgets k_npages;
  if n <=? PGNUM pa then mpanic "KADDR called with invalid pa %08lx"
  else mret (u32 (pa + KERNBASE)).

Definition page2pa (pp : nat) : Z := u32 (Z.shiftl (Z.of_nat pp) PGSHIFT).

Definition pa2page (pa : Z) : K nat :=
  n ← mgets k_npages;
  if n <=? PGNUM pa then mpanic "pa2page called with invalid pa"
  else mret (Z.to_nat (PGNUM pa)).

Definition page2kva (pp : nat) : K Z := KADDR (page2pa pp).

Abbreviation ALLOC_ZERO := 1 (only parsing).

(** ** Detecting memory (kern/kclock.c, kern/pmap.c) *)

(** Runs a console operation (port I/O) inside the kernel. *)
Definition lift_cons {A} (m : C A) : K A := λ s,
  match m (k_cons s) with
  | Ok a c => Ok a (with_cons c s)
  | Noret x c => Noret x (with_cons c s)
  | Panic msg => Panic msg
  | Undef => Undef
  end.

Definition mc146818_read (reg : Z) : K Z :=
  lift_cons (outb 112 reg;; inb 113).

Definition mc146818_write (reg datum : Z) : K unit :=
  lift_cons (outb 112 reg;; outb 113 datum).

Definition nvram_read (r : Z) : K Z :=
  lo ← mc146818_read r;
  hi ← mc146818_read (r + 1);
  mret (Z.lor lo (Z.shiftl hi 8)).

Definition i386_detect_memory : K unit :=
  basemem ← nvram_read 21;
  extmem ← nvram_read 23;
  ext16 ← nvram_read 52;
  let ext16mem := ext16 * 64 in
  let totalmem :=
    if negb (ext16mem =? 0) then 16 * 1024 + ext16mem
    else if negb (extmem =? 0) then 1 * 1024 + extmem
    else basemem in
  mmod (with_npages (totalmem / (PGSIZE / 1024)));;
  mmod (with_npages_basemem (basemem / (PGSIZE / 1024)));;
  cprintf (line "Physical memory: %uK available, base = %uK, extended = %uK")
    [AInt totalmem; AInt basemem; AInt (totalmem - basemem)].

(** ** The boot allocator; [kend] is the linker's symbol [end] *)

Definition boot_alloc (kend n : Z) : K Z :=
  nf ← mgets k_nextfree;
  mwhen (nf =? 0) (mmod (with_nextfree (ROUNDUP kend PGSIZE)));;
  nextfree ← mgets k_nextfree;
  if n =? 0 then mret nextfree
  else
    let result := nextfree in
    let nextfree := u32 (nextfree + ROUNDUP n PGSIZE) in
    mmod (with_nextfree nextfree);;
    if 4030726144 <? nextfree
    then mpanic "out of memory(4MB) : boot_alloc() in pmap.c"
    else mret result.

(** ** The page allocator *)

(** One step of either loop of page_init: put page [i] on the list. *)
Definition page_init_push (i : Z) : K unit :=
  head ← mgets k_page_free_list;
  page_upd (Z.to_nat i) (set_ref 0);;
  page_upd (Z.to_nat i) (set_link head);;
  mmod (with_page_free_list (Some (Z.to_nat i))).

Definition page_init (kend : Z) : K unit :=
  mmod (with_page_free_list None);;
  mp_entry_page ← pa2page MPENTRY_PADDR;
  nb ← mgets k_npages_basemem;
  mfor (seqZ 1 (nb - 1)) (λ i,
    if (Z.to_nat i =? mp_entry_page)%nat then mret tt else page_init_push i);;
  nf ← boot_alloc kend 0;
  pa ← PADDR nf;
  np ← mgets k_npages;
  mfor (seqZ (PGNUM pa) (np - PGNUM pa)) page_init_push.

Definition page_alloc (alloc_flags : Z) : K (option nat) :=
  head ← mgets k_page_free_list;
  match head with
  | None => mret None
  | Some result =>
      p ← page_get result;
      mmod (with_page_free_list (pp_link p));;
      mwhen (tst alloc_flags ALLOC_ZERO)
        (kva ← page2kva result; kmemset kva 0 PGSIZE);;
      page_upd result (set_ref 0);;
      page_upd result (set_link None);;
      mret (Some result)
  end.

Definition page_free (pp : nat) : K unit :=
  p ← page_get pp;
  if negb (pp_ref p =? 0) || bool_decide (pp_link p ≠ None)
  then mpanic "can't free this page, this page is in used: page_free() in pmap.c"
  else
    head ← mgets k_page_free_list;
    page_upd pp (set_link head);;
    mmod (with_page_free_list (Some pp)).

Definition page_decref (pp : nat) : K unit :=
  page_upd pp (λ p, set_ref (pp_ref p - 1) p);;
  p ← page_get pp;
  if pp_ref p =? 0 then page_free pp else mret tt.

(** ** Page tables *)

Definition tlb_invalidate (pgdir va : Z) : K unit :=
  cur ← curenv;
  match cur with
  | None => invlpg va
  | Some e => v ← env_get e; if env_pgdir v =? pgdir then invlpg va else mret tt
  end.

(** The address of the page-table entry, NULL if there is none. *)
Definition pgdir_walk (pgdir va : Z) (create : bool) : K Z :=
  let pde := u32 (pgdir + 4 * PDX va) in
  v ← kload pde;
  if tst v PTE_P then
    pte_tab ← KADDR (PTE_ADDR v);
    mret (u32 (pte_tab + 4 * PTX va))
  else if negb create then mret NULL
  else
    pp ← page_alloc ALLOC_ZERO;
    match pp with
    | None => mret NULL
    | Some pp =>
        kstore pde (Z.lor (Z.lor (Z.lor (page2pa pp) PTE_P) PTE_W) PTE_U);;
        page_upd pp (λ p, set_ref (pp_ref p + 1) p);;
        pte_tab ← page2kva pp;
        mret (u32 (pte_tab + 4 * PTX va))
    end.

(** One iteration of boot_map_region, at offset [i]. *)
Definition boot_map_page (pgdir va pa perm i : Z) : K unit :=
  tlb_invalidate pgdir (u32 (va + i));;
  pte ← pgdir_walk pgdir (u32 (va + i)) true;
  kstore pte (u32 (Z.lor (Z.lor (u32 (pa + i)) PTE_P) perm)).

(** [i] is an int: beyond 0x7ffff000 its increment overflows. *)
Definition boot_map_region (pgdir va size pa perm : Z) : K unit :=
  if 2147479552 <? size then mundef
  else mfor (map (λ k, k * PGSIZE) (seqZ 0 ((size + PGSIZE - 1) / PGSIZE)))
            (boot_map_page pgdir va pa perm).

(** The page mapped at [va] and the address of its entry ([*pte_store]). *)
Definition page_lookup (pgdir va : Z) : K (option (nat * Z)) :=
  pte ← pgdir_walk pgdir va false;
  if pte =? NULL then mret None
  else
    v ← kload pte;
    pp ← pa2page (PTE_ADDR v);
    mret (Some (pp, pte)).

Definition page_remove (pgdir va : Z) : K unit :=
  r ← page_lookup pgdir va;
  match r with
  | None => mret tt
  | Some (pp, pte_store) =>
      page_decref pp;;
      tlb_invalidate pgdir va;;
      kstore pte_store 0
  end.

Definition page_insert (pgdir : Z) (pp : nat) (va perm : Z) : K Z :=
  pte ← pgdir_walk pgdir va true;
  if pte =? NULL then mret (- E_NO_MEM)
  else
    page_upd pp (λ p, set_ref (pp_ref p + 1) p);;
    v ← kload pte;
    mwhen (tst v PTE_P) (page_remove pgdir va);;
    boot_map_region pgdir va PGSIZE (page2pa pp) perm;;
    mret 0.

Definition mmio_map_region (pa size : Z) : K Z :=
  let size := ROUNDUP size PGSIZE in
  base ← mgets k_mmio_base;
  if MMIOLIM <? u32 (base + size) then mpanic "mmio_map_region: out of MMIOLIM!"
  else
    kp ← mgets k_kern_pgdir;
    boot_map_region kp base size pa (Z.lor (Z.lor PTE_PCD PTE_PWT) PTE_W);;
    mmod (with_mmio_base (u32 (base + size)));;
    base' ← mgets k_mmio_base;
    mret (u32 (base' - size)).

(** ** Access checks *)

(** The loop of user_mem_check over the page addresses from [start]. *)
Fixpoint user_mem_check_loop (pgdir va perm : Z) (starts : list Z) : K Z :=
  match starts with
  | [] => mret 0
  | start :: rest =>
      let fault := mmod (with_user_mem_check_addr (Z.max start va));; mret (- E_FAULT) in
      let want := Z.lor perm PTE_P in
      pte ← pgdir_walk pgdir start false;
      if pte =? NULL then fault
      else
        v ← kload pte;
        if negb (Z.land v want =? want) then fault
        else user_mem_check_loop pgdir va perm rest
  end.

(** The page addresses from [start] up to [end]. *)
Definition page_range (start end_ : Z) : list Z :=
  map (λ k, start + k * PGSIZE) (seqZ 0 ((end_ - start) / PGSIZE)).

Definition user_mem_check (env : nat) (va len perm : Z) : K Z :=
  e ← env_get env;
  let start := ROUNDDOWN va PGSIZE in
  let end_ := ROUNDUP (u32 (va + len)) PGSIZE in
  user_mem_check_loop (env_pgdir e) va perm (page_range start end_).

(* ------------------------------------------------------------------ *)
(** ** The free list *)

(** Following [pp_link] from [head] visits exactly [l], then NULL. *)
Fixpoint chain (pages : list PageInfo) (head : option nat) (l : list nat) : Prop :=
  match l with
  | [] => head = None
  | i :: l' => head = Some i ∧ ∃ p, pages !! i = Some p ∧ chain pages (pp_link p) l'
  end.

Lemma chain_insert pages head l i p :
  i ∉ l → chain pages head l → chain (<[i := p]> pages) head l.
Proof.
  revert head. induction l as [|j l IH]; intros head Hi; [done|]. cbn.
  intros (-> & q & Hq & Hc). apply not_elem_of_cons in Hi as [Hne Hi].
  split; [done|]. exists q. rewrite list_lookup_insert_ne by done. eauto.
Qed.

Lemma chain_lookup pages head l i : chain pages head l → i ∈ l → is_Some (pages !! i).
Proof.
  revert head. induction l as [|j l IH]; intros head Hc Hi; [by apply elem_of_nil in Hi|].
  destruct Hc as (_ & q & Hq & Hc). apply elem_of_cons in Hi as [->|Hi]; eauto.
Qed.

(** The allocator's invariant, with the free list [l]: pages on the list
    are distinct and unreferenced, all others have no link. *)
Record alloc_inv (s : kst) (l : list nat) : Prop := {
  ai_len : Z.of_nat (length (k_pages s)) = k_npages s;
  ai_max : k_npages s ≤ 65536;
  ai_chain : chain (k_pages s) (k_page_free_list s) l;
  ai_nodup : NoDup l;
  ai_free : ∀ i p, i ∈ l → k_pages s !! i = Some p → pp_ref p = 0;
  ai_used : ∀ i p, i ∉ l → k_pages s !! i = Some p → pp_link p = None;
  ai_ref : ∀ i p, k_pages s !! i = Some p → 0 ≤ pp_ref p < 65536 }.

Lemma ai_bound s l i : alloc_inv s l → i ∈ l → Z.of_nat i < k_npages s.
Proof.
  intros H Hi. rewrite <-(ai_len _ _ H).
  destruct (chain_lookup _ _ _ _ (ai_chain _ _ H) Hi) as [p Hp].
  apply lookup_lt_Some in Hp. lia.
Qed.

Lemma ai_lookup s l i :
  alloc_inv s l → Z.of_nat i < k_npages s → ∃ p, k_pages s !! i = Some p.
Proof. intros H Hi. apply lookup_lt_is_Some. pose proof (ai_len _ _ H). lia. Qed.

Lemma page2pa_mul i : Z.of_nat i < 65536 → page2pa i = Z.of_nat i * PGSIZE.
Proof. intros. unfold page2pa. rewrite Z.shiftl_mul_pow2, u32_small; lia. Qed.

Lemma PGNUM_page2pa i : Z.of_nat i < 65536 → PGNUM (page2pa i) = Z.of_nat i.
Proof.
  intros. rewrite page2pa_mul, PGNUM_div, u32_small by lia. by rewrite Z.div_mul by lia.
Qed.

Lemma page2kva_run i s :
  Z.of_nat i < k_npages s → k_npages s ≤ 65536 →
  page2kva i s = Ok (page2pa i + KERNBASE) s.
Proof.
  intros Hi Hn. unfold page2kva, KADDR. mstep. rewrite PGNUM_page2pa by lia.
  rewrite (proj2 (Z.leb_gt _ _)) by lia. rewrite page2pa_mul, u32_small; [done|lia..].
Qed.

Lemma kphys_direct pa n : 0 ≤ pa → pa + n ≤ 268435456 → kphys (pa + KERNBASE) n = Some pa.
Proof.
  intros. unfold kphys. rewrite (proj2 (Z.leb_le _ _)), (proj2 (Z.leb_le _ _)) by lia.
  cbn. f_equal. lia.
Qed.

(** ** page_alloc *)

(** The state in which page_alloc returns page [i]. *)
Definition after_alloc (zero : bool) (i : nat) (s : kst) : kst :=
  with_pages (<[i := mkPage None 0]> (k_pages s))
    (with_mem (if zero then mem_set (k_mem s) (page2pa i) 0 PGSIZE else k_mem s)
       (with_page_free_list (k_pages s !! i ≫= pp_link) s)).

Lemma page_upd_run i f s p :
  k_pages s !! i = Some p →
  page_upd i f s = Ok tt (with_pages (<[i := f p]> (k_pages s)) s).
Proof. intros Hp. unfold page_upd. mstep. by rewrite Hp. Qed.

Lemma page_upd_again i f s q ps :
  (i < length ps)%nat →
  page_upd i f (with_pages (<[i := q]> ps) s) = Ok tt (with_pages (<[i := f q]> ps) s).
Proof.
  intros Hi. erewrite page_upd_run by (by apply list_lookup_insert_eq).
  cbn. by rewrite list_insert_insert_eq.
Qed.

Lemma page_get_again i s q ps :
  (i < length ps)%nat →
  page_get i (with_pages (<[i := q]> ps) s) = Ok q (with_pages (<[i := q]> ps) s).
Proof. intros Hi. unfold page_get. mrun. cbn. by rewrite list_lookup_insert_eq. Qed.

Lemma page_get_run i s p : k_pages s !! i = Some p → page_get i s = Ok p s.
Proof. intros Hp. unfold page_get. mstep. by rewrite Hp. Qed.

Lemma page_alloc_nil flags s : k_page_free_list s = None → page_alloc flags s = Ok None s.
Proof. intros H. unfold page_alloc. mstep. by rewrite H. Qed.

(** With page [i] at the head of the list, whatever follows. *)
Lemma page_alloc_head flags s i p :
  k_page_free_list s = Some i → k_pages s !! i = Some p →
  Z.of_nat i < k_npages s → k_npages s ≤ 65536 →
  page_alloc flags s = Ok (Some i) (after_alloc (tst flags ALLOC_ZERO) i s).
Proof.
  intros Hh Hp Hi Hn. unfold page_alloc, after_alloc. rewrite Hp. mrun. rewrite Hh.
  mcall page_get_run.
  assert (Hz : mwhen (tst flags ALLOC_ZERO) (kva ← page2kva i; kmemset kva 0 PGSIZE)
                 (with_page_free_list (pp_link p) s)
    = Ok tt (with_mem (if tst flags ALLOC_ZERO then mem_set (k_mem s) (page2pa i) 0 PGSIZE
                       else k_mem s) (with_page_free_list (pp_link p) s))).
  { destruct (tst flags ALLOC_ZERO); [|done]. cbn [mwhen]. mcall page2kva_run.
    unfold kmemset. rewrite kphys_direct; [done|rewrite page2pa_mul; lia..]. }
  erewrite bind_Ok by exact Hz. mcall page_upd_run.
  pose proof (lookup_lt_Some _ _ _ Hp). mcall page_upd_again. done.
Qed.

Lemma page_alloc_cons flags s i l :
  alloc_inv s (i :: l) →
  page_alloc flags s = Ok (Some i) (after_alloc (tst flags ALLOC_ZERO) i s).
Proof.
  intros H. destruct (ai_chain _ _ H) as (Hh & p & Hp & _).
  apply (page_alloc_head _ _ _ p); [done..|by eapply ai_bound, list_elem_of_here|apply H].
Qed.

Lemma alloc_inv_after_alloc zero s i l :
  alloc_inv s (i :: l) → alloc_inv (after_alloc zero i s) l.
Proof.
  intros [H1 H2 (Hh & p & Hp & Hc) H4 H5 H6 H7]. apply NoDup_cons in H4 as [Hi H4].
  unfold after_alloc. constructor; cbn; try done.
  - by rewrite length_insert.
  - rewrite Hp. cbn. by apply chain_insert.
  - intros j q Hj Hq. rewrite list_lookup_insert_ne in Hq by (intros ->; done).
    eapply H5; [by right|done].
  - intros j q Hj Hq. apply list_lookup_insert_Some in Hq as [(-> & <- & _)|[Hne Hq]]; [done|].
    eapply H6; [|done]. by apply not_elem_of_cons.
  - intros j q Hq. apply list_lookup_insert_Some in Hq as [(-> & <- & _)|[Hne Hq]]; [cbn; lia|].
    by eapply H7.
Qed.

(** ** page_free and page_decref *)

(** Page [i] put at the head of the free list. *)
Definition after_free (i : nat) (s : kst) : kst :=
  with_page_free_list (Some i)
    (with_pages (<[i := mkPage (k_page_free_list s) 0]> (k_pages s)) s).

Lemma alloc_inv_after_free s l i :
  alloc_inv s l → i ∉ l → Z.of_nat i < k_npages s → alloc_inv (after_free i s) (i :: l).
Proof.
  intros H Hi Hb. destruct (ai_lookup _ _ _ H Hb) as [p Hp].
  destruct H as [H1 H2 H3 H4 H5 H6 H7]. constructor; cbn; try done.
  - by rewrite length_insert.
  - split; [done|]. eexists. split; [by eapply list_lookup_insert_eq, lookup_lt_Some|].
    by apply chain_insert.
  - by apply NoDup_cons.
  - intros j q Hj Hq. apply list_lookup_insert_Some in Hq as [(-> & <- & _)|[Hne Hq]]; [done|].
    apply elem_of_cons in Hj as [->|Hj]; [done|]. eauto.
  - intros j q [Hne Hj]%not_elem_of_cons Hq. rewrite list_lookup_insert_ne in Hq by done. eauto.
  - intros j q Hq. apply list_lookup_insert_Some in Hq as [(-> & <- & _)|[Hne Hq]]; [cbn; lia|].
    eauto.
Qed.

Lemma page_free_unused s i :
  k_pages s !! i = Some (mkPage None 0) → page_free i s = Ok tt (after_free i s).
Proof.
  intros Hp. unfold page_free. mcall page_get_run. cbn. mrun. by mcall page_upd_run.
Qed.

Lemma page_free_run s l i p :
  alloc_inv s l → i ∉ l → k_pages s !! i = Some p → pp_ref p = 0 →
  page_free i s = Ok tt (after_free i s).
Proof.
  intros H Hi Hp Hr. apply page_free_unused. pose proof (ai_used _ _ H _ _ Hi Hp).
  destruct p; cbn in *. by subst.
Qed.

(** One reference less on page [i], which had [r]. *)
Definition after_decref (i : nat) (r : Z) (s : kst) : kst :=
  if r =? 1 then after_free i s
  else with_pages (<[i := mkPage None (r - 1)]> (k_pages s)) s.

Lemma alloc_inv_set_ref s l i r :
  alloc_inv s l → i ∉ l → 0 ≤ r < 65536 →
  alloc_inv (with_pages (<[i := mkPage None r]> (k_pages s)) s) l.
Proof.
  intros [H1 H2 H3 H4 H5 H6 H7] Hi Hr. constructor; cbn; try done.
  - by rewrite length_insert.
  - by apply chain_insert.
  - intros j q Hj Hq. rewrite list_lookup_insert_ne in Hq by (intros ->; done). eauto.
  - intros j q Hj Hq. apply list_lookup_insert_Some in Hq as [(-> & <- & _)|[Hne Hq]]; [done|]. eauto.
  - intros j q Hq. apply list_lookup_insert_Some in Hq as [(-> & <- & _)|[Hne Hq]]; [done|]. eauto.
Qed.

Lemma page_decref_run s l i p :
  alloc_inv s l → i ∉ l → k_pages s !! i = Some p → 0 < pp_ref p →
  page_decref i s = Ok tt (after_decref i (pp_ref p) s).
Proof.
  intros H Hi Hp Hr. pose proof (ai_ref _ _ H _ _ Hp) as Hrr.
  pose proof (lookup_lt_Some _ _ _ Hp) as Hlt.
  pose proof (ai_used _ _ H _ _ Hi Hp) as Hl.
  unfold page_decref, after_decref. mcall page_upd_run. mcall page_get_again.
  unfold set_ref. cbn. rewrite u16_small, Hl by lia.
  destruct (Z.eqb_spec (pp_ref p) 1) as [He|He].
  - rewrite He. change (1 - 1 =? 0) with true. cbv iota. erewrite page_free_run; cycle 1.
    + by apply alloc_inv_set_ref; [exact H|exact Hi|lia].
    + done.
    + cbn. by rewrite list_lookup_insert_eq.
    + done.
    + unfold after_free. cbn. by rewrite list_insert_insert_eq.
  - by rewrite (proj2 (Z.eqb_neq _ _)) by lia.
Qed.

Lemma alloc_inv_after_decref s l i r :
  alloc_inv s l → i ∉ l → Z.of_nat i < k_npages s → 0 < r < 65536 →
  alloc_inv (after_decref i r s) (if r =? 1 then i :: l else l).
Proof.
  intros H Hi Hb Hr. unfold after_decref. destruct (r =? 1).
  - by apply alloc_inv_after_free.
  - apply alloc_inv_set_ref; [done..|lia].
Qed.

(** ** page_init *)

Lemma page_init_push_run s l i :
  alloc_inv s l → 0 ≤ i < k_npages s → page_init_push i s = Ok tt (after_free (Z.to_nat i) s).
Proof.
  intros H Hi. destruct (ai_lookup _ _ (Z.to_nat i) H) as [p Hp]; [lia|].
  pose proof (lookup_lt_Some _ _ _ Hp).
  unfold page_init_push. mrun. mcall page_upd_run. mcall page_upd_again. done.
Qed.

Lemma page_init_push_loop (js : list Z) s l :
  alloc_inv s l → NoDup js → (∀ j, j ∈ js → 0 ≤ j < k_npages s ∧ Z.to_nat j ∉ l) →
  ∃ ps h, mfor js page_init_push s = Ok tt (with_page_free_list h (with_pages ps s)) ∧
    alloc_inv (with_page_free_list h (with_pages ps s)) (rev (map Z.to_nat js) ++ l).
Proof.
  revert s l. induction js as [|j js IH]; intros s l H Hnd Hjs.
  - exists (k_pages s), (k_page_free_list s). by destruct s.
  - apply NoDup_cons in Hnd as [Hj Hnd]. destruct (Hjs j) as [Hb Hl]; [left|].
    destruct (IH (after_free (Z.to_nat j) s) (Z.to_nat j :: l)) as (ps & h & Hrun & Hinv).
    + apply alloc_inv_after_free; [done..|lia].
    + done.
    + intros k Hk. destruct (Hjs k) as [Hkb Hkl]; [by right|]. split; [done|].
      apply not_elem_of_cons. split; [|done]. intros Heq. apply Z2Nat.inj in Heq; [|lia..].
      by subst.
    + exists ps, h. cbn [mfor]. mcall page_init_push_run. split; [done|].
      cbn. by rewrite <-app_assoc.
Qed.

(** The pages page_init puts on the free list, in the order it does. *)
Definition init_low (nb : Z) : list Z :=
  List.filter (λ i, negb (Z.to_nat i =? 7)%nat) (seqZ 1 (nb - 1)).
Definition init_free (nb first np : Z) : list nat :=
  rev (map Z.to_nat (seqZ first (np - first))) ++ rev (map Z.to_nat (init_low nb)) ++ [].

Lemma init_low_NoDup nb : NoDup (init_low nb).
Proof. unfold init_low. apply NoDup_ListNoDup, List.NoDup_filter, NoDup_ListNoDup, NoDup_seqZ. Qed.

Lemma elem_of_init_low i nb : i ∈ init_low nb ↔ 1 ≤ i < nb ∧ i ≠ 7.
Proof.
  unfold init_low. rewrite list_elem_of_In, List.filter_In, <-list_elem_of_In, elem_of_seqZ.
  rewrite negb_true_iff, Nat.eqb_neq. lia.
Qed.

Lemma elem_of_init_free i nb first np :
  0 ≤ first →
  i ∈ init_free nb first np ↔
  first ≤ Z.of_nat i < np ∨ (1 ≤ Z.of_nat i < nb ∧ i ≠ 7%nat).
Proof.
  intros Hf. unfold init_free. rewrite app_nil_r, elem_of_app, !elem_of_rev.
  rewrite !list_elem_of_fmap. setoid_rewrite elem_of_init_low. setoid_rewrite elem_of_seqZ.
  split.
  - intros [(x & -> & ?)|(x & -> & ?)]; lia.
  - intros [H|H]; [left|right]; exists (Z.of_nat i); lia.
Qed.

Lemma page_init_run kend s nf :
  k_pages s = replicate (Z.to_nat (k_npages s)) (mkPage None 0) →
  8 ≤ k_npages s ≤ 65536 → k_nextfree s = KERNBASE + nf → 0 ≤ nf < 2 ^ 28 →
  k_npages_basemem s ≤ PGNUM nf → k_npages_basemem s ≤ k_npages s →
  ∃ ps h, page_init kend s = Ok tt (with_page_free_list h (with_pages ps s)) ∧
    alloc_inv (with_page_free_list h (with_pages ps s))
      (init_free (k_npages_basemem s) (PGNUM nf) (k_npages s)).
Proof.
  intros Hps Hnp Hnf Hb Hlow Hlow'.
  set (s0 := with_page_free_list None s).
  assert (H0 : alloc_inv s0 []).
  { constructor; cbn; try done; rewrite ?Hps, ?length_replicate; try lia.
    - constructor.
    - by intros i p Hi%elem_of_nil.
    - intros i p _ [-> _]%lookup_replicate. done.
    - intros i p [-> _]%lookup_replicate. cbn. lia. }
  destruct (page_init_push_loop (init_low (k_npages_basemem s)) s0 []) as (ps1 & h1 & Hr1 & H1).
  { done. } { apply init_low_NoDup. }
  { intros j Hj%elem_of_init_low. cbn. split; [lia|]. apply not_elem_of_nil. }
  set (s1 := with_page_free_list h1 (with_pages ps1 s0)) in *.
  destruct (page_init_push_loop (seqZ (PGNUM nf) (k_npages s - PGNUM nf)) s1
              (rev (map Z.to_nat (init_low (k_npages_basemem s))) ++ [])) as (ps2 & h2 & Hr2 & H2).
  { done. } { apply NoDup_seqZ. }
  { intros j Hj%elem_of_seqZ. pose proof (Z.shiftr_nonneg (u32 nf) PTXSHIFT).
    pose proof (u32_range nf). unfold PGNUM in *. split; [cbn; lia|].
    rewrite app_nil_r, elem_of_rev, list_elem_of_fmap.
    intros (k & Hk & Hkl%elem_of_init_low). lia. }
  exists ps2, h2. split; [|exact H2].
  unfold page_init. mrun. fold s0.
  assert (Hpa : pa2page MPENTRY_PADDR s0 = Ok 7%nat s0).
  { unfold pa2page. mrun. change (PGNUM MPENTRY_PADDR) with 7.
    rewrite (proj2 (Z.leb_gt _ _)) by (cbn; lia). done. }
  mcall Hpa. rewrite (bind_Ok _ _ _ tt s1) by (by rewrite mfor_skip).
  assert (Hba : boot_alloc kend 0 s1 = Ok (KERNBASE + nf) s1).
  { unfold boot_alloc. mrun. change (k_nextfree s1) with (k_nextfree s) at 1. rewrite Hnf at 1.
    rewrite (proj2 (Z.eqb_neq (KERNBASE + nf) 0)) by lia. cbn [mwhen]. mrun.
    change (Ok (k_nextfree s) s1 = Ok (KERNBASE + nf) s1). by rewrite Hnf. }
  mcall Hba.
  assert (Hpd : PADDR (KERNBASE + nf) s1 = Ok nf s1).
  { unfold PADDR. rewrite u32_small, (proj2 (Z.ltb_ge _ _)) by lia.
    unfold mret, M_ret. f_equal. lia. }
  mcall Hpd. exact Hr2.
Qed.

(** ** Claims *)

(** A machine of [np] pages whose first [nb] are base memory and whose
    kernel image ends at physical address [nf]. *)
Definition demo_kernel (np nb nf : Z) : kst :=
  mkK np nb (KERNBASE + 4096) (replicate (Z.to_nat np) (mkPage None 0)) None
    (KERNBASE + nf) MMIOBASE 0 (λ _, 0) [] None [mkCpu 0 CPU_STARTED None (mkTs 0 0 0)] 0 None
    4096 false (demo_cons []) [].

Lemma demo_alloc_inv np nb nf : 0 ≤ np ≤ 65536 → alloc_inv (demo_kernel np nb nf) [].
Proof.
  intros Hn. constructor; cbn [k_npages k_pages k_page_free_list demo_kernel]; try done.
  - rewrite length_replicate. lia.
  - lia.
  - constructor.
  - intros i p Hi. by apply elem_of_nil in Hi.
  - intros i p _ Hp. by apply lookup_replicate in Hp as [-> _].
  - intros i p Hp. apply lookup_replicate in Hp as [-> _]. cbn. lia.
Qed.

(** Page_init leaves a well-formed free list that holds exactly the
    base-memory pages other than page 0 and the page of the AP entry code,
    and the pages from the end of the boot allocations to the end of
    memory; it changes only pages[] and the list head. *)
Theorem page_init_spec kend s nf :
  k_pages s = replicate (Z.to_nat (k_npages s)) (mkPage None 0) →
  8 ≤ k_npages s ≤ 65536 → k_nextfree s = KERNBASE + nf → 0 ≤ nf < 2 ^ 28 →
  k_npages_basemem s ≤ PGNUM nf → k_npages_basemem s ≤ k_npages s →
  ∃ ps h l, page_init kend s = Ok tt (with_page_free_list h (with_pages ps s)) ∧
    alloc_inv (with_page_free_list h (with_pages ps s)) l ∧
    ∀ i, i ∈ l ↔ PGNUM nf ≤ Z.of_nat i < k_npages s ∨
                 (1 ≤ Z.of_nat i < k_npages_basemem s ∧ i ≠ 7%nat).
Proof.
  intros. destruct (page_init_run kend s nf) as (ps & h & Hr & Hi); [done..|].
  exists ps, h. eexists. split; [exact Hr|]. split; [exact Hi|].
  intros i. apply elem_of_init_free. unfold PGNUM. apply Z.shiftr_nonneg, u32_range.
Qed.

Lemma page_init_spec_witness :
  ∃ ps h l, page_init 0 (demo_kernel 16 10 49152) =
      Ok tt (with_page_free_list h (with_pages ps (demo_kernel 16 10 49152))) ∧
    alloc_inv (with_page_free_list h (with_pages ps (demo_kernel 16 10 49152))) l ∧
    ∀ i, i ∈ l ↔ PGNUM 49152 ≤ Z.of_nat i < 16 ∨ (1 ≤ Z.of_nat i < 10 ∧ i ≠ 7%nat).
Proof.
  apply (page_init_spec 0 (demo_kernel 16 10 49152) 49152).
  - reflexivity.
  - cbn. lia.
  - reflexivity.
  - lia.
  - vm_compute. discriminate.
  - vm_compute. discriminate.
Defined.

(** Page_alloc returns NULL and changes nothing when the free list is
    empty; otherwise it returns the first page of the list, takes it off
    the list with a zero count and no link, leaves every other page alone,
    and changes memory only to fill that page with zeroes if asked to. *)
Theorem page_alloc_spec flags s l :
  alloc_inv s l →
  match l with
  | [] => page_alloc flags s = Ok None s
  | i :: l' => ∃ s', page_alloc flags s = Ok (Some i) s' ∧ alloc_inv s' l' ∧
      k_pages s' = <[i := mkPage None 0]> (k_pages s) ∧
      (∀ a, rd8 (k_mem s') a =
        if tst flags ALLOC_ZERO && (page2pa i <=? a) && (a <? page2pa i + PGSIZE)
        then 0 else rd8 (k_mem s) a)
  end.
Proof.
  intros H. destruct l as [|i l].
  - by apply page_alloc_nil, (ai_chain _ _ H).
  - exists (after_alloc (tst flags ALLOC_ZERO) i s).
    split; [by eapply page_alloc_cons|]. split; [by apply alloc_inv_after_alloc|].
    split; [done|]. intros a. cbn. destruct (tst flags ALLOC_ZERO); [|done].
    destruct (Z.leb_spec (page2pa i) a), (Z.ltb_spec a (page2pa i + PGSIZE)); cbn;
      [by rewrite rd8_mem_set_in by lia|by rewrite rd8_mem_set_out by lia..].
Qed.

Lemma page_alloc_spec_witness :
  ∃ l, alloc_inv (after_free 3 (demo_kernel 16 10 49152)) l ∧ l = [3%nat] ∧
    ∃ s', page_alloc ALLOC_ZERO (after_free 3 (demo_kernel 16 10 49152)) = Ok (Some 3%nat) s'.
Proof.
  pose proof (demo_alloc_inv 16 10 49152 ltac:(lia)) as H0.
  pose proof (alloc_inv_after_free _ _ 3 H0 ltac:(apply not_elem_of_nil) eq_refl) as H1.
  exists [3%nat]. split; [exact H1|]. split; [reflexivity|].
  destruct (page_alloc_spec ALLOC_ZERO _ _ H1) as (s' & Hs' & _). exists s'. exact Hs'.
Defined.

(** Page_free puts a page that is in use with a zero count at the head
    of the free list and keeps the list well formed; it panics on a page
    with a nonzero count or with a link. *)
Theorem page_free_spec s l i p :
  alloc_inv s l → k_pages s !! i = Some p →
  (pp_ref p ≠ 0 ∨ pp_link p ≠ None → ∃ msg, page_free i s = Panic msg) ∧
  (i ∉ l → pp_ref p = 0 → ∃ s', page_free i s = Ok tt s' ∧ alloc_inv s' (i :: l) ∧
     k_mem s' = k_mem s ∧ ∀ j, j ≠ i → k_pages s' !! j = k_pages s !! j).
Proof.
  intros H Hp. split.
  - intros Hbad. eexists. unfold page_free. mcall page_get_run.
    assert (negb (pp_ref p =? 0) || bool_decide (pp_link p ≠ None) = true) as ->; [|done].
    apply orb_true_iff. destruct Hbad as [Hr|Hl]; [left|right].
    + by rewrite (proj2 (Z.eqb_neq _ _)).
    + by apply bool_decide_eq_true_2.
  - intros Hi Hr. exists (after_free i s). split; [by eapply page_free_run|].
    split.
    + apply alloc_inv_after_free; [done..|]. rewrite <-(ai_len _ _ H).
      apply lookup_lt_Some in Hp. lia.
    + split; [done|]. intros j Hj. cbn. by rewrite list_lookup_insert_ne.
Qed.

Lemma page_free_spec_witness :
  ∃ s', page_free 5 (demo_kernel 16 10 49152) = Ok tt s' ∧ alloc_inv s' [5%nat].
Proof.
  pose proof (demo_alloc_inv 16 10 49152 ltac:(lia)) as H0.
  destruct (page_free_spec _ [] 5 (mkPage None 0) H0 eq_refl) as [_ Hf].
  destruct (Hf ltac:(apply not_elem_of_nil) eq_refl) as (s' & Hs' & Hi & _).
  exists s'. split; [exact Hs'|exact Hi].
Defined.
