(* ===== verification/PageTable.v ===== *)
(** Page tables as address spaces: what pgdir_walk, page_insert,
    page_lookup and page_remove of kern/pmap.c do to the mappings of every
    environment and to the reference counts.

    The state holds a list [Ds] of page directories (page numbers), one per
    address space.  Below UTOP an address space is the map from (directory
    index, table index) to page-table entries; the invariant [vm_inv] says
    that the tables of all address spaces are pages of their own and that
    the count of every page is the number of directory and table entries
    that refer to it, plus [ex] references held elsewhere. *)

From S2P Require Import Prelude Mmu Printfmt Console KState Pmap.
From Stdlib Require Import ZArith Lia.
From stdpp Require Import base tactics numbers list.
Open Scope Z_scope.

(** ** Finite sums *)

Definition zsum {A} (f : A → Z) (l : list A) : Z := foldr (λ x acc, f x + acc) 0 l.
Definition zb (b : bool) : Z := if b then 1 else 0.

Lemma zb_range b : 0 ≤ zb b ≤ 1.
Proof. destruct b; cbn; lia. Qed.

Lemma zsum_cons {A} (f : A → Z) x l : zsum f (x :: l) = f x + zsum f l.
Proof. done. Qed.

Lemma zsum_ext {A} (f g : A → Z) l : (∀ x, x ∈ l → f x = g x) → zsum f l = zsum g l.
Proof.
  induction l as [|x l IH]; intros H; [done|]. rewrite !zsum_cons.
  rewrite (H x) by left. rewrite IH; [done|]. intros y Hy. apply H. by right.
Qed.

Lemma zsum_zero {A} (l : list A) : zsum (λ _, 0) l = 0.
Proof. induction l; [done|by rewrite zsum_cons]. Qed.

Lemma zsum_nonneg {A} (f : A → Z) l : (∀ x, 0 ≤ f x) → 0 ≤ zsum f l.
Proof.
  intros H. induction l as [|x l IH]; [done|]. rewrite zsum_cons. specialize (H x). lia.
Qed.

Lemma zsum_ge {A} (f : A → Z) l x : (∀ y, 0 ≤ f y) → x ∈ l → f x ≤ zsum f l.
Proof.
  intros Hf. induction l as [|y l IH]; intros Hx; [by apply elem_of_nil in Hx|]. rewrite zsum_cons.
  pose proof (Hf y). pose proof (zsum_nonneg f l Hf).
  apply elem_of_cons in Hx as [->|Hx]; [lia|]. specialize (IH Hx). lia.
Qed.

(** Two summands that differ at one point of the list only. *)
Lemma zsum_one {A} (f g : A → Z) l k :
  NoDup l → k ∈ l → (∀ x, x ∈ l → x ≠ k → g x = f x) →
  zsum g l = zsum f l + (g k - f k).
Proof.
  induction l as [|x l IH]; intros Hnd Hk Hfg; [by apply elem_of_nil in Hk|].
  apply NoDup_cons in Hnd as [Hx Hnd]. rewrite !zsum_cons. apply elem_of_cons in Hk as [->|Hk].
  - rewrite (zsum_ext g f l); [lia|]. intros y Hy. apply Hfg; [by right|]. by intros ->.
  - rewrite IH by (try done; intros y Hy; apply Hfg; by right).
    rewrite (Hfg x); [lia|left|]. by intros ->.
Qed.

(** ** Entries of directories and tables *)

(** The page directory indices below UTOP. *)
Abbreviation UPDX := 955 (only parsing).

(** The physical address of entry [i] of the table in page [p]. *)
Definition ent (p : nat) (i : Z) : Z := Z.of_nat p * PGSIZE + 4 * i.
(** The page an entry refers to, if it is present. *)
Definition frame (v : Z) : option nat :=
  if tst v PTE_P then Some (Z.to_nat (PGNUM v)) else None.
Definition table_at (m : mem) (D : nat) (d : Z) : option nat := frame (rd32 m (ent D d)).
Definition pte_at (m : mem) (D : nat) (d t : Z) : Z :=
  match table_at m D d with
  | Some T => rd32 m (ent T t)
  | None => 0
  end.

(** References to page [q] from the table in [T], and from the address
    space [D]: the directory page itself, its tables, and their entries. *)
Definition table_uses (m : mem) (T q : nat) : Z :=
  zsum (λ t, zb (bool_decide (frame (rd32 m (ent T t)) = Some q))) (seqZ 0 NPTENTRIES).
Definition slot_uses (m : mem) (D q : nat) (d : Z) : Z :=
  match table_at m D d with
  | Some T => zb (bool_decide (T = q)) + table_uses m T q
  | None => 0
  end.
Definition dir_uses (m : mem) (q D : nat) : Z :=
  zb (bool_decide (D = q)) + zsum (slot_uses m D q) (seqZ 0 UPDX).
Definition uses (m : mem) (Ds : list nat) (q : nat) : Z := zsum (dir_uses m q) Ds.

(** Every address space has its own directory and tables. *)
Record vm_wf (m : mem) (np : Z) (Ds : list nat) : Prop := {
  wf_nodup : NoDup Ds;
  wf_dir : ∀ D, D ∈ Ds → Z.of_nat D < np;
  wf_tab : ∀ D d T, D ∈ Ds → 0 ≤ d < UPDX → table_at m D d = Some T →
    Z.of_nat T < np ∧ T ∉ Ds;
  wf_inj : ∀ D D' d d' T, D ∈ Ds → D' ∈ Ds → 0 ≤ d < UPDX → 0 ≤ d' < UPDX →
    table_at m D d = Some T → table_at m D' d' = Some T → D = D' ∧ d = d';
  wf_map : ∀ D d t P, D ∈ Ds → 0 ≤ d < UPDX → 0 ≤ t < NPTENTRIES →
    frame (pte_at m D d t) = Some P → Z.of_nat P < np }.

Lemma table_uses_nonneg m T q : 0 ≤ table_uses m T q.
Proof. apply zsum_nonneg. intros t. apply zb_range. Qed.

Lemma slot_uses_nonneg m D q d : 0 ≤ slot_uses m D q d.
Proof.
  unfold slot_uses. destruct (table_at m D d) as [T|]; [|lia].
  pose proof (table_uses_nonneg m T q). pose proof (zb_range (bool_decide (T = q))). lia.
Qed.

Lemma dir_uses_nonneg m q D : 0 ≤ dir_uses m q D.
Proof.
  unfold dir_uses. pose proof (zb_range (bool_decide (D = q))).
  pose proof (zsum_nonneg (slot_uses m D q) (seqZ 0 UPDX) (slot_uses_nonneg m D q)). lia.
Qed.

(** What an address space refers to is counted. *)
Lemma uses_dir m Ds D : D ∈ Ds → 1 ≤ uses m Ds D.
Proof.
  intros HD. pose proof (zsum_ge (dir_uses m D) Ds D (dir_uses_nonneg m D) HD).
  unfold uses. unfold dir_uses at 1 in H. rewrite bool_decide_eq_true_2 in H by done.
  pose proof (zsum_nonneg (slot_uses m D D) (seqZ 0 UPDX) (slot_uses_nonneg m D D)).
  cbn [zb] in H. lia.
Qed.

Lemma slot_uses_le m Ds D d q :
  D ∈ Ds → 0 ≤ d < UPDX → slot_uses m D q d ≤ uses m Ds q.
Proof.
  intros HD Hd. pose proof (zsum_ge (dir_uses m q) Ds D (dir_uses_nonneg m q) HD) as H1.
  pose proof (zsum_ge (slot_uses m D q) (seqZ 0 UPDX) d (slot_uses_nonneg m D q)
                ltac:(apply elem_of_seqZ; lia)) as H2.
  unfold uses. unfold dir_uses at 1 in H1. pose proof (zb_range (bool_decide (D = q))). lia.
Qed.

Lemma uses_table m Ds D d T :
  D ∈ Ds → 0 ≤ d < UPDX → table_at m D d = Some T → 1 ≤ uses m Ds T.
Proof.
  intros HD Hd HT. pose proof (slot_uses_le m Ds D d T HD Hd) as H.
  unfold slot_uses in H. rewrite HT, bool_decide_eq_true_2 in H by done.
  pose proof (table_uses_nonneg m T T). cbn [zb] in H. lia.
Qed.

Lemma uses_frame m Ds D d t P :
  D ∈ Ds → 0 ≤ d < UPDX → 0 ≤ t < NPTENTRIES →
  frame (pte_at m D d t) = Some P → 1 ≤ uses m Ds P.
Proof.
  intros HD Hd Ht HP. pose proof (slot_uses_le m Ds D d P HD Hd) as H.
  unfold slot_uses in H. unfold pte_at in HP. destruct (table_at m D d) as [T|]; [|done].
  pose proof (zb_range (bool_decide (T = P))).
  assert (1 ≤ table_uses m T P); [|lia]. unfold table_uses.
  etransitivity; [|apply (zsum_ge _ _ t); [intros; apply zb_range|apply elem_of_seqZ; lia]].
  cbn beta. rewrite bool_decide_eq_true_2 by done. done.
Qed.

(** ** Writing an entry *)

Lemma rd32_wr_ent m p i p' i' v :
  0 ≤ i < 1024 → 0 ≤ i' < 1024 →
  rd32 (wr32 m (ent p i) v) (ent p' i') =
  if bool_decide (p' = p ∧ i' = i) then u32 v else rd32 m (ent p' i').
Proof.
  intros Hi Hi'. case_bool_decide as H.
  - destruct H as [-> ->]. apply rd32_wr32_eq.
  - apply rd32_wr32_ne. unfold ent. destruct (decide (p' = p)) as [->|Hp]; [lia|].
    destruct (decide (p' < p)%nat); lia.
Qed.

Lemma rd32_zero_page m T p i :
  0 ≤ i < 1024 →
  rd32 (mem_set m (Z.of_nat T * PGSIZE) 0 PGSIZE) (ent p i) =
  if bool_decide (p = T) then 0 else rd32 m (ent p i).
Proof.
  intros Hi. unfold ent. case_bool_decide as H.
  - subst. apply rd32_mem_zero; lia.
  - apply rd32_mem_set_out. destruct (decide (p < T)%nat); lia.
Qed.

(** ** A new page-table entry *)

Section write_pte.
Context (m : mem) (np : Z) (Ds : list nat) (D T : nat) (d t v : Z).
Hypothesis Hwf : vm_wf m np Ds.
Hypothesis HD : D ∈ Ds.
Hypothesis Hd : 0 ≤ d < UPDX.
Hypothesis Ht : 0 ≤ t < NPTENTRIES.
Hypothesis HT : table_at m D d = Some T.

Let m' := wr32 m (ent T t) v.

Lemma write_pte_table D' d' :
  D' ∈ Ds → 0 ≤ d' < UPDX → table_at m' D' d' = table_at m D' d'.
Proof.
  intros HD' Hd'. unfold table_at, m'. rewrite rd32_wr_ent by lia.
  rewrite bool_decide_eq_false_2; [done|]. intros [-> _].
  by apply (wf_tab _ _ _ Hwf _ _ _ HD Hd HT).
Qed.

Lemma write_pte_at D' d' t' :
  D' ∈ Ds → 0 ≤ d' < UPDX → 0 ≤ t' < NPTENTRIES →
  pte_at m' D' d' t' =
  if bool_decide (D' = D ∧ d' = d ∧ t' = t) then u32 v else pte_at m D' d' t'.
Proof.
  intros HD' Hd' Ht'. unfold pte_at. rewrite write_pte_table by done.
  destruct (table_at m D' d') as [T'|] eqn:HT'.
  - unfold m'. rewrite rd32_wr_ent by lia.
    case_bool_decide as H1; case_bool_decide as H2; try done.
    + destruct H1 as [-> ->]. destruct (wf_inj _ _ _ Hwf D D' d d' T) as [-> ->]; try done.
      tauto.
    + destruct H2 as (-> & -> & ->). rewrite HT in HT'. simplify_eq. tauto.
  - rewrite bool_decide_eq_false_2; [done|]. intros (-> & -> & _). by rewrite HT in HT'.
Qed.

Lemma write_pte_table_uses T' q :
  table_uses m' T' q = table_uses m T' q +
    if bool_decide (T' = T)
    then zb (bool_decide (frame (u32 v) = Some q))
         - zb (bool_decide (frame (rd32 m (ent T t)) = Some q))
    else 0.
Proof.
  unfold table_uses. case_bool_decide as H.
  - subst T'. rewrite (zsum_one (λ t, zb (bool_decide (frame (rd32 m (ent T t)) = Some q)))
                         _ _ t); [|apply NoDup_seqZ|apply elem_of_seqZ; lia|].
    + f_equal. f_equal. unfold m'. rewrite rd32_wr_ent by lia.
      by rewrite (bool_decide_eq_true_2 (T = T ∧ t = t)) by done.
    + intros x Hx%elem_of_seqZ Hne. unfold m'.
      rewrite rd32_wr_ent by lia. by rewrite (bool_decide_eq_false_2 (T = T ∧ x = t)) by tauto.
  - rewrite Z.add_0_r. apply zsum_ext. intros x Hx%elem_of_seqZ. unfold m'.
    rewrite rd32_wr_ent by lia. by rewrite (bool_decide_eq_false_2 (T' = T ∧ x = t)) by tauto.
Qed.

Lemma write_pte_slot D' d' q :
  D' ∈ Ds → 0 ≤ d' < UPDX → ¬ (D' = D ∧ d' = d) →
  slot_uses m' D' q d' = slot_uses m D' q d'.
Proof.
  intros HD' Hd' Hne. unfold slot_uses. rewrite write_pte_table by done.
  destruct (table_at m D' d') as [T'|] eqn:HT'; [|done].
  rewrite write_pte_table_uses, (bool_decide_eq_false_2 (T' = T)); [lia|]. intros ->.
  destruct (wf_inj _ _ _ Hwf D D' d d' T); try done. subst. tauto.
Qed.

Lemma write_pte_uses q :
  uses m' Ds q = uses m Ds q
    + zb (bool_decide (frame (u32 v) = Some q))
    - zb (bool_decide (frame (pte_at m D d t) = Some q)).
Proof.
  unfold uses. rewrite (zsum_one (dir_uses m q) _ Ds D); [|apply Hwf|done|].
  - unfold dir_uses. rewrite (zsum_one (slot_uses m D q) (slot_uses m' D q) _ d);
      [|apply NoDup_seqZ|apply elem_of_seqZ; lia|].
    + unfold slot_uses, pte_at. rewrite write_pte_table, HT by done.
      rewrite write_pte_table_uses, (bool_decide_eq_true_2 (T = T)) by done. lia.
    + intros x Hx%elem_of_seqZ Hne. apply write_pte_slot; [done|lia|]. tauto.
  - intros D' HD' Hne. unfold dir_uses. f_equal. apply zsum_ext.
    intros x Hx%elem_of_seqZ. apply write_pte_slot; [done|lia|]. tauto.
Qed.

Lemma write_pte_wf : (∀ P, frame (u32 v) = Some P → Z.of_nat P < np) → vm_wf m' np Ds.
Proof.
  intros Hv. constructor.
  - apply Hwf.
  - apply Hwf.
  - intros D' d' T' HD' Hd'. rewrite write_pte_table by done. by apply Hwf.
  - intros D1 D2 d1 d2 T' H1 H2 Hd1 Hd2. rewrite !write_pte_table by done. by apply Hwf.
  - intros D' d' t' P HD' Hd' Ht'. rewrite write_pte_at by done.
    case_bool_decide; [apply Hv|]. by apply Hwf.
Qed.
End write_pte.

(** ** Entries built by the code *)

(** An entry that maps page [P] with flags [f]. *)
Definition mkpte (P : nat) (f : Z) : Z := Z.of_nat P * PGSIZE + f.

Lemma tst_P_mkpte P f : 0 ≤ f → tst (mkpte P f) PTE_P = Z.odd f.
Proof.
  intros. change PTE_P with (2 ^ 0). rewrite tst_bit, Z.bit0_odd by lia. unfold mkpte.
  rewrite Z.odd_add. replace (Z.of_nat P * PGSIZE) with (2 * (Z.of_nat P * 2048)) by lia.
  by rewrite Z.odd_mul.
Qed.

Lemma tst_mkpte P f k : 0 ≤ f < PGSIZE → 0 ≤ k < PGSIZE → tst (mkpte P f) k = tst f k.
Proof.
  intros Hf Hk. unfold tst, mkpte. change PGSIZE with (2 ^ 12) in *.
  rewrite <- lor_low, Z.land_lor_distr_l, land_high_low by lia. by rewrite Z.lor_0_l.
Qed.

Lemma PGNUM_mkpte P f : Z.of_nat P < 65536 → 0 ≤ f < PGSIZE → PGNUM (mkpte P f) = Z.of_nat P.
Proof.
  intros. unfold mkpte. rewrite PGNUM_div, u32_small by lia.
  symmetry. apply Z.div_unique with f; lia.
Qed.

Lemma PTE_ADDR_mkpte P f : Z.of_nat P < 65536 → 0 ≤ f < PGSIZE → PTE_ADDR (mkpte P f) = Z.of_nat P * PGSIZE.
Proof.
  intros. unfold mkpte. rewrite PTE_ADDR_sub, u32_small by lia.
  replace ((Z.of_nat P * PGSIZE + f) mod PGSIZE) with f; [lia|].
  rewrite Z.add_comm, Z.mod_add by lia. by rewrite Z.mod_small.
Qed.

Lemma frame_mkpte P f :
  Z.of_nat P < 65536 → 0 ≤ f < PGSIZE → Z.odd f = true → frame (mkpte P f) = Some P.
Proof.
  intros. unfold frame. rewrite tst_P_mkpte, H1 by lia. by rewrite PGNUM_mkpte, Nat2Z.id by lia.
Qed.

(** What boot_map_region stores. *)
Lemma pte_lor P perm :
  Z.of_nat P < 65536 → 0 ≤ perm < PGSIZE →
  u32 (Z.lor (Z.lor (page2pa P) PTE_P) perm) = mkpte P (Z.lor PTE_P perm).
Proof.
  intros HP Hp. rewrite page2pa_mul by lia. rewrite <-Z.lor_assoc.
  change PGSIZE with (2 ^ 12). assert (0 ≤ Z.lor PTE_P perm < 2 ^ 12) by (apply lor_range; lia).
  rewrite lor_low by lia. rewrite u32_small by lia. done.
Qed.

Lemma odd_lor_P perm : Z.odd (Z.lor PTE_P perm) = true.
Proof. by rewrite <-Z.bit0_odd, Z.lor_spec. Qed.

(** What pgdir_walk stores for a new table. *)
Lemma pde_lor T :
  Z.of_nat T < 65536 →
  Z.lor (Z.lor (Z.lor (page2pa T) PTE_P) PTE_W) PTE_U = mkpte T 7.
Proof.
  intros HT. rewrite page2pa_mul by lia. rewrite <-!Z.lor_assoc.
  change (Z.lor PTE_P (Z.lor PTE_W PTE_U)) with 7. change PGSIZE with (2 ^ 12).
  by rewrite lor_low by lia.
Qed.

(** ** A new table *)

Section new_table.
Context (m : mem) (np : Z) (Ds : list nat) (D T : nat) (d : Z).
Hypothesis Hwf : vm_wf m np Ds.
Hypothesis HD : D ∈ Ds.
Hypothesis Hd : 0 ≤ d < UPDX.
Hypothesis Hnp : np ≤ 65536.
Hypothesis Hnone : table_at m D d = None.
Hypothesis HT : Z.of_nat T < np.
Hypothesis Hfresh : uses m Ds T = 0.

Let m' := wr32 (mem_set m (Z.of_nat T * PGSIZE) 0 PGSIZE) (ent D d) (mkpte T 7).

Lemma fresh_not_dir : T ∉ Ds.
Proof. intros HTD. pose proof (uses_dir m Ds T HTD). lia. Qed.

Lemma fresh_not_table D' d' :
  D' ∈ Ds → 0 ≤ d' < UPDX → table_at m D' d' ≠ Some T.
Proof. intros HD' Hd' HT'. pose proof (uses_table m Ds D' d' T HD' Hd' HT'). lia. Qed.

Lemma new_table_rd p i :
  0 ≤ i < 1024 → rd32 m' (ent p i) =
  if bool_decide (p = D ∧ i = d) then mkpte T 7
  else if bool_decide (p = T) then 0 else rd32 m (ent p i).
Proof.
  intros Hi. unfold m'. rewrite rd32_wr_ent by lia. rewrite rd32_zero_page by lia.
  by rewrite u32_small by (unfold mkpte; lia).
Qed.

Lemma new_table_at D' d' :
  D' ∈ Ds → 0 ≤ d' < UPDX →
  table_at m' D' d' = if bool_decide (D' = D ∧ d' = d) then Some T else table_at m D' d'.
Proof.
  intros HD' Hd'. unfold table_at. rewrite new_table_rd by lia. case_bool_decide.
  - apply frame_mkpte; [lia|lia|done].
  - rewrite bool_decide_eq_false_2; [done|]. intros ->. by apply fresh_not_dir.
Qed.

Lemma new_table_pte D' d' t' :
  D' ∈ Ds → 0 ≤ d' < UPDX → 0 ≤ t' < NPTENTRIES → pte_at m' D' d' t' = pte_at m D' d' t'.
Proof.
  intros HD' Hd' Ht'. unfold pte_at. rewrite new_table_at by done. case_bool_decide as H.
  - destruct H as [-> ->]. rewrite Hnone, new_table_rd by lia.
    rewrite bool_decide_eq_false_2, bool_decide_eq_true_2; [done|done|].
    intros [E _]. apply fresh_not_dir. by rewrite E.
  - destruct (table_at m D' d') as [T'|] eqn:HT'; [|done].
    rewrite new_table_rd by lia. rewrite !bool_decide_eq_false_2; [done| |].
    + intros ->. by apply (fresh_not_table D' d').
    + intros [-> _]. by apply (wf_tab _ _ _ Hwf _ _ _ HD' Hd' HT').
Qed.

Lemma new_table_table_uses T' q :
  T' ∉ Ds → T' ≠ T → table_uses m' T' q = table_uses m T' q.
Proof.
  intros H1 H2. unfold table_uses. apply zsum_ext. intros x Hx%elem_of_seqZ.
  rewrite new_table_rd by lia. rewrite (bool_decide_eq_false_2 (T' = D ∧ x = d)).
  - by rewrite (bool_decide_eq_false_2 (T' = T)) by done.
  - intros [-> _]. done.
Qed.

Lemma new_table_zero q : table_uses m' T q = 0.
Proof.
  unfold table_uses. rewrite (zsum_ext _ (λ _, 0)).
  - apply zsum_zero.
  - intros x Hx%elem_of_seqZ. rewrite new_table_rd by lia.
    rewrite (bool_decide_eq_false_2 (T = D ∧ x = d)), (bool_decide_eq_true_2 (T = T)); [done|done|].
    intros [E _]. apply fresh_not_dir. by rewrite E.
Qed.

Lemma new_table_slot D' d' q :
  D' ∈ Ds → 0 ≤ d' < UPDX →
  slot_uses m' D' q d' =
  slot_uses m D' q d' + if bool_decide (D' = D ∧ d' = d) then zb (bool_decide (T = q)) else 0.
Proof.
  intros HD' Hd'. unfold slot_uses. rewrite new_table_at by done.
  case_bool_decide as H.
  - destruct H as [-> ->]. rewrite Hnone, new_table_zero. lia.
  - destruct (table_at m D' d') as [T'|] eqn:HT'; [|done]. rewrite new_table_table_uses; [lia| |].
    + by apply (wf_tab _ _ _ Hwf _ _ _ HD' Hd' HT').
    + intros ->. by apply (fresh_not_table D' d').
Qed.

Lemma new_table_uses q : uses m' Ds q = uses m Ds q + zb (bool_decide (T = q)).
Proof.
  unfold uses. rewrite (zsum_one (dir_uses m q) _ Ds D); [|apply Hwf|done|].
  - unfold dir_uses. rewrite (zsum_one (slot_uses m D q) (slot_uses m' D q) _ d);
      [|apply NoDup_seqZ|apply elem_of_seqZ; lia|].
    + rewrite new_table_slot, (bool_decide_eq_true_2 (D = D ∧ d = d)) by done. lia.
    + intros x Hx%elem_of_seqZ Hne. rewrite new_table_slot by (done || lia).
      rewrite (bool_decide_eq_false_2 (D = D ∧ x = d)) by tauto. lia.
  - intros D' HD' Hne. unfold dir_uses. f_equal. apply zsum_ext.
    intros x Hx%elem_of_seqZ. rewrite new_table_slot by (done || lia).
    rewrite (bool_decide_eq_false_2 (D' = D ∧ x = d)) by tauto. lia.
Qed.

Lemma new_table_wf : vm_wf m' np Ds.
Proof.
  constructor.
  - apply Hwf.
  - apply Hwf.
  - intros D' d' T' HD' Hd'. rewrite new_table_at by done. case_bool_decide.
    + intros [= <-]. split; [done|]. apply fresh_not_dir.
    + by apply Hwf.
  - intros D1 D2 d1 d2 T' H1 H2 Hd1 Hd2. rewrite !new_table_at by done.
    case_bool_decide as Ha; case_bool_decide as Hb.
    + destruct Ha, Hb. subst. done.
    + intros [= <-] Hc. by apply fresh_not_table in Hc.
    + intros Hc [= <-]. by apply fresh_not_table in Hc.
    + by apply Hwf.
  - intros D' d' t' P HD' Hd' Ht'. rewrite new_table_pte by done. by apply Hwf.
Qed.
End new_table.

(** ** Writing outside all directories and tables *)

Section outside.
Context (m m' : mem) (np : Z) (Ds : list nat) (Q : nat).
Hypothesis Hwf : vm_wf m np Ds.
Hypothesis Hfresh : uses m Ds Q = 0.
Hypothesis Hsame : ∀ p i, p ≠ Q → 0 ≤ i < 1024 → rd32 m' (ent p i) = rd32 m (ent p i).

Lemma outside_dir D : D ∈ Ds → D ≠ Q.
Proof. intros HD E. rewrite E in HD. pose proof (uses_dir m Ds Q HD). lia. Qed.

Lemma outside_table D d : D ∈ Ds → 0 ≤ d < UPDX → table_at m' D d = table_at m D d.
Proof. intros HD Hd. unfold table_at. rewrite Hsame; [done|by apply outside_dir|lia]. Qed.

Lemma outside_tab D d T : D ∈ Ds → 0 ≤ d < UPDX → table_at m D d = Some T → T ≠ Q.
Proof. intros HD Hd HT E. rewrite E in HT. pose proof (uses_table m Ds D d Q HD Hd HT). lia. Qed.

Lemma outside_pte D d t :
  D ∈ Ds → 0 ≤ d < UPDX → 0 ≤ t < NPTENTRIES → pte_at m' D d t = pte_at m D d t.
Proof.
  intros HD Hd Ht. unfold pte_at. rewrite outside_table by done.
  destruct (table_at m D d) as [T|] eqn:HT; [|done]. apply Hsame; [|lia].
  by eapply outside_tab.
Qed.

Lemma outside_uses q : uses m' Ds q = uses m Ds q.
Proof.
  apply zsum_ext. intros D HD. unfold dir_uses. f_equal. apply zsum_ext.
  intros d Hd%elem_of_seqZ. unfold slot_uses. rewrite outside_table by (done || lia).
  destruct (table_at m D d) as [T|] eqn:HT; [|done]. f_equal. apply zsum_ext.
  intros t Ht%elem_of_seqZ. rewrite Hsame; [done| |lia]. eapply outside_tab; [done| |done]. lia.
Qed.

Lemma outside_wf : vm_wf m' np Ds.
Proof.
  constructor.
  - apply Hwf.
  - apply Hwf.
  - intros D d T HD Hd. rewrite outside_table by done. by apply Hwf.
  - intros D1 D2 d1 d2 T H1 H2 Hd1 Hd2. rewrite !outside_table by done. by apply Hwf.
  - intros D d t P HD Hd Ht. rewrite outside_pte by done. by apply Hwf.
Qed.

(** Page [Q] as a new, empty address space. *)
Hypothesis HQ : Z.of_nat Q < np.
Hypothesis Hempty : ∀ d, 0 ≤ d < UPDX → table_at m' Q d = None.

Lemma new_dir_uses q : uses m' (Q :: Ds) q = uses m Ds q + zb (bool_decide (Q = q)).
Proof.
  unfold uses at 1. rewrite zsum_cons. fold (uses m' Ds q). rewrite outside_uses.
  unfold dir_uses. rewrite (zsum_ext _ (λ _, 0)).
  - rewrite zsum_zero. lia.
  - intros d Hd%elem_of_seqZ. unfold slot_uses. by rewrite Hempty by lia.
Qed.

Lemma new_dir_wf : vm_wf m' np (Q :: Ds).
Proof.
  pose proof outside_wf as [W1 W2 W3 W4 W5].
  assert (HQD : Q ∉ Ds) by (intros H; by apply (outside_dir Q)).
  constructor.
  - by apply NoDup_cons.
  - intros D [->|HD]%elem_of_cons; [done|by apply W2].
  - intros D d T [->|HD]%elem_of_cons Hd HT; [by rewrite Hempty in HT by done|].
    destruct (W3 D d T HD Hd HT) as [Hn HTD]. split; [done|]. apply not_elem_of_cons.
    split; [|done]. eapply outside_tab; [done|done|]. by rewrite <-outside_table.
  - intros D1 D2 d1 d2 T [->|H1]%elem_of_cons [->|H2]%elem_of_cons Hd1 Hd2 HT1 HT2;
      try by rewrite Hempty in * by done.
    by eapply W4.
  - intros D d t P [->|HD]%elem_of_cons Hd Ht HP; [|by eapply W5].
    unfold pte_at in HP. by rewrite Hempty in HP by done.
Qed.
End outside.

(* ------------------------------------------------------------------ *)
(** ** The invariant of the address spaces *)

Record vm_inv (s : kst) (l : list nat) (Ds : list nat) (ex : nat → Z) : Prop := {
  vi_alloc : alloc_inv s l;
  vi_wf : vm_wf (k_mem s) (k_npages s) Ds;
  vi_ref : ∀ q p, k_pages s !! q = Some p → pp_ref p = uses (k_mem s) Ds q + ex q;
  vi_ex : ∀ q, 0 ≤ ex q }.

(** The kernel virtual address of page [p]. *)
Definition kva_of (p : nat) : Z := Z.of_nat p * PGSIZE + KERNBASE.

(** A free page has no use, so nothing an address space uses is free. *)
Lemma free_unused s l Ds ex q :
  vm_inv s l Ds ex → q ∈ l → uses (k_mem s) Ds q = 0.
Proof.
  intros H Hq. pose proof (vi_alloc _ _ _ _ H) as Ha.
  destruct (ai_lookup _ _ q Ha) as [p Hp]; [by eapply ai_bound|].
  pose proof (vi_ref _ _ _ _ H _ _ Hp). rewrite (ai_free _ _ Ha _ _ Hq Hp) in *.
  pose proof (vi_ex _ _ _ _ H q).
  pose proof (zsum_nonneg (dir_uses (k_mem s) q) Ds (dir_uses_nonneg _ _)). unfold uses in *. lia.
Qed.

Lemma user_PDX va : 0 ≤ va < UTOP → 0 ≤ PDX va < UPDX.
Proof.
  intros H. rewrite PDX_div, u32_small by lia.
  split; [apply Z.div_pos; lia|]. apply Z.div_lt_upper_bound; lia.
Qed.

(** Virtual pages by number: the entry of page [n]. *)
Definition vpte (m : mem) (D : nat) (n : Z) : Z := pte_at m D (n / NPTENTRIES) (n mod NPTENTRIES).

Lemma vpage_ptx n : 0 ≤ n mod NPTENTRIES < NPTENTRIES.
Proof. apply Z.mod_pos_bound. lia. Qed.
Lemma vpage_eq n n' : n / NPTENTRIES = n' / NPTENTRIES → n mod NPTENTRIES = n' mod NPTENTRIES → n = n'.
Proof. intros. rewrite (Z.div_mod n NPTENTRIES), (Z.div_mod n' NPTENTRIES); lia. Qed.

Lemma PDX_vpage n : 0 ≤ n < 1048576 → PDX (n * PGSIZE) = n / NPTENTRIES.
Proof.
  intros. rewrite PDX_div, u32_small by lia.
  change PTSIZE with (PGSIZE * NPTENTRIES). by rewrite <- Z.div_div, Z.div_mul by lia.
Qed.
Lemma PTX_vpage n : 0 ≤ n < 1048576 → PTX (n * PGSIZE) = n mod NPTENTRIES.
Proof. intros. rewrite PTX_div, u32_small by lia. by rewrite Z.div_mul by lia. Qed.

Lemma frame_inv v P :
  0 ≤ v < 2 ^ 32 → frame v = Some P →
  tst v PTE_P = true ∧ PTE_ADDR v = Z.of_nat P * PGSIZE ∧ PGNUM (PTE_ADDR v) = Z.of_nat P.
Proof.
  intros Hv. unfold frame. destruct (tst v PTE_P); [|done]. intros [= <-].
  assert (Ha : PTE_ADDR v = PGNUM v * PGSIZE).
  { rewrite PTE_ADDR_sub, PGNUM_div, u32_small by done. pose proof (Z.div_mod v PGSIZE). lia. }
  assert (0 ≤ PGNUM v) by (unfold PGNUM; apply Z.shiftr_nonneg, u32_range).
  rewrite Z2Nat.id by done. split_and!; [done|done|].
  pose proof (u32_range v). rewrite Ha, PGNUM_div at 1.
  rewrite u32_small; [by rewrite Z.div_mul by lia|].
  rewrite PGNUM_div in *. pose proof (Z.mul_div_le (u32 v) PGSIZE). lia.
Qed.

Lemma kload_ent p i s :
  Z.of_nat p < 65536 → 0 ≤ i < 1024 →
  kload (kva_of p + 4 * i) s = Ok (rd32 (k_mem s) (ent p i)) s.
Proof.
  intros Hp Hi. unfold kload, kva_of. mrun.
  replace (Z.of_nat p * PGSIZE + KERNBASE + 4 * i) with (ent p i + KERNBASE) by (unfold ent; lia).
  rewrite kphys_direct; [done|unfold ent; lia..].
Qed.

Lemma kstore_ent p i v s :
  Z.of_nat p < 65536 → 0 ≤ i < 1024 →
  kstore (kva_of p + 4 * i) v s = Ok tt (with_mem (wr32 (k_mem s) (ent p i) v) s).
Proof.
  intros Hp Hi. unfold kstore, kva_of.
  replace (Z.of_nat p * PGSIZE + KERNBASE + 4 * i) with (ent p i + KERNBASE) by (unfold ent; lia).
  rewrite kphys_direct; [done|unfold ent; lia..].
Qed.

Lemma kva_ent_u32 p i :
  Z.of_nat p < 65536 → 0 ≤ i < 1024 → u32 (kva_of p + 4 * i) = kva_of p + 4 * i.
Proof. intros. unfold kva_of. apply u32_small. lia. Qed.

Lemma PADDR_kva D s : Z.of_nat D < 65536 → PADDR (kva_of D) s = Ok (Z.of_nat D * PGSIZE) s.
Proof.
  intros HD. unfold PADDR, kva_of. rewrite u32_small by lia.
  rewrite (proj2 (Z.ltb_ge _ _)) by lia. unfold mret, M_ret. f_equal. lia.
Qed.

Lemma kva_ent_nonnull p i : 0 ≤ i → (kva_of p + 4 * i =? NULL) = false.
Proof. intros. apply Z.eqb_neq. unfold kva_of. lia. Qed.

(** pgdir_walk on any directory in memory. *)
Lemma dir_load D va s : Z.of_nat D < 65536 →
  kload (u32 (kva_of D + 4 * PDX va)) s = Ok (rd32 (k_mem s) (ent D (PDX va))) s.
Proof. intros HD. pose proof (PDX_range va). rewrite kva_ent_u32 by lia. by apply kload_ent. Qed.

Lemma KADDR_frame v T s :
  0 ≤ v < 2 ^ 32 → frame v = Some T → Z.of_nat T < k_npages s → k_npages s ≤ 65536 →
  KADDR (PTE_ADDR v) s = Ok (kva_of T) s.
Proof.
  intros Hv HT Hn Hm. destruct (frame_inv _ _ Hv HT) as (Ht & Ha & Hp).
  unfold KADDR. mrun. rewrite Hp, (proj2 (Z.leb_gt _ _)) by lia. rewrite Ha.
  unfold kva_of. by rewrite u32_small by lia.
Qed.

Lemma walk_table D va create T s :
  Z.of_nat D < 65536 → table_at (k_mem s) D (PDX va) = Some T →
  Z.of_nat T < k_npages s → k_npages s ≤ 65536 →
  pgdir_walk (kva_of D) va create s = Ok (kva_of T + 4 * PTX va) s.
Proof.
  intros HD HT Hn Hm. pose proof (PTX_range va).
  destruct (frame_inv _ _ (rd32_range _ _) HT) as (Ht & _).
  unfold pgdir_walk. mcall dir_load. rewrite Ht.
  erewrite bind_Ok by (eapply KADDR_frame; [apply rd32_range|exact HT|done..]).
  by rewrite kva_ent_u32 by lia.
Qed.

Lemma table_none_tst s D va :
  table_at (k_mem s) D (PDX va) = None → tst (rd32 (k_mem s) (ent D (PDX va))) PTE_P = false.
Proof. unfold table_at, frame. by destruct (tst _ _). Qed.

Section walk.
Context (s : kst) (l Ds : list nat) (ex : nat → Z) (D : nat) (va : Z).
Hypothesis Hinv : vm_inv s l Ds ex.
Hypothesis HD : D ∈ Ds.
Hypothesis Hva : 0 ≤ va < UTOP.

Lemma dir_small : Z.of_nat D < 65536.
Proof.
  pose proof (wf_dir _ _ _ (vi_wf _ _ _ _ Hinv) D HD).
  pose proof (ai_max _ _ (vi_alloc _ _ _ _ Hinv)). lia.
Qed.

Lemma walk_hit create T :
  table_at (k_mem s) D (PDX va) = Some T →
  pgdir_walk (kva_of D) va create s = Ok (kva_of T + 4 * PTX va) s.
Proof.
  intros HT. destruct (wf_tab _ _ _ (vi_wf _ _ _ _ Hinv) _ _ _ HD (user_PDX _ Hva) HT) as [Hn _].
  pose proof (ai_max _ _ (vi_alloc _ _ _ _ Hinv)).
  apply walk_table; [apply dir_small|done..].
Qed.

Lemma walk_miss :
  table_at (k_mem s) D (PDX va) = None → pgdir_walk (kva_of D) va false s = Ok NULL s.
Proof.
  intros HT. pose proof dir_small. unfold pgdir_walk. mcall dir_load. by rewrite table_none_tst.
Qed.

Lemma walk_nomem :
  table_at (k_mem s) D (PDX va) = None → l = [] →
  pgdir_walk (kva_of D) va true s = Ok NULL s.
Proof.
  intros HT Hl. pose proof dir_small.
  unfold pgdir_walk. mcall dir_load. rewrite table_none_tst by done. cbn [negb].
  assert (Hpa : page_alloc ALLOC_ZERO s = Ok None s).
  { pose proof (ai_chain _ _ (vi_alloc _ _ _ _ Hinv)) as Hc. rewrite Hl in Hc.
    by apply page_alloc_nil. }
  by mcall Hpa.
Qed.
End walk.

Lemma alloc_inv_ext s s' l :
  k_npages s' = k_npages s → k_pages s' = k_pages s →
  k_page_free_list s' = k_page_free_list s → alloc_inv s l → alloc_inv s' l.
Proof. intros E1 E2 E3 []. constructor; rewrite ?E1, ?E2, ?E3; done. Qed.

(** The invariant looks at memory, pages[] and the free list only. *)
Lemma vm_inv_ext s s' l Ds ex :
  k_npages s' = k_npages s → k_pages s' = k_pages s →
  k_page_free_list s' = k_page_free_list s → k_mem s' = k_mem s →
  vm_inv s l Ds ex → vm_inv s' l Ds ex.
Proof.
  intros E1 E2 E3 E4 []. constructor; rewrite ?E1, ?E2, ?E4; try done.
  by apply (alloc_inv_ext s).
Qed.

(** ** pgdir_walk with a new table *)

Definition new_table_mem (m : mem) (D : nat) (d : Z) (T : nat) : mem :=
  wr32 (mem_set m (Z.of_nat T * PGSIZE) 0 PGSIZE) (ent D d) (mkpte T 7).

Definition walk_new (D : nat) (d : Z) (T : nat) (s : kst) : kst :=
  with_pages (<[T := mkPage None 1]> (k_pages s))
    (with_mem (new_table_mem (k_mem s) D d T)
      (with_page_free_list (k_pages s !! T ≫= pp_link) s)).

Section walk_fresh.
Context (s : kst) (l : list nat) (D T : nat) (va : Z).
Hypothesis Ha : alloc_inv s (T :: l).

Lemma new_small : Z.of_nat T < k_npages s ∧ k_npages s ≤ 65536.
Proof. split; [eapply ai_bound; [exact Ha|left]|apply Ha]. Qed.

Lemma walk_fresh :
  Z.of_nat D < 65536 → table_at (k_mem s) D (PDX va) = None →
  pgdir_walk (kva_of D) va true s = Ok (kva_of T + 4 * PTX va) (walk_new D (PDX va) T s).
Proof.
  intros HDs HT. pose proof (PTX_range va). pose proof (PDX_range va).
  pose proof new_small as [HTn Hn].
  assert (Hlen : (T < length (k_pages s))%nat) by (pose proof (ai_len _ _ Ha); lia).
  unfold pgdir_walk. mcall dir_load. rewrite (table_none_tst s D va) by done. cbn [negb].
  mcall page_alloc_cons. change (tst ALLOC_ZERO ALLOC_ZERO) with true.
  unfold after_alloc. rewrite pde_lor by lia. rewrite page2pa_mul by lia.
  rewrite kva_ent_u32 by lia. mcall kstore_ent.
  set (s1 := with_mem _ _).
  assert (Hu : page_upd T (λ p, set_ref (pp_ref p + 1) p) s1 = Ok tt (walk_new D (PDX va) T s)).
  { unfold s1. erewrite page_upd_run by (cbn; by apply list_lookup_insert_eq).
    unfold walk_new, new_table_mem. cbn. by rewrite list_insert_insert_eq. }
  mcall Hu. erewrite bind_Ok by (apply page2kva_run; cbn; lia).
  rewrite page2pa_mul by lia. fold (kva_of T). by rewrite kva_ent_u32 by lia.
Qed.

Lemma walk_new_alloc d : alloc_inv (walk_new D d T s) l.
Proof.
  pose proof (NoDup_cons_1_1 _ _ (ai_nodup _ _ Ha)) as HTl.
  eapply alloc_inv_ext, (alloc_inv_set_ref (after_alloc true T s) l T 1);
    [done| |done|by apply alloc_inv_after_alloc|done|lia].
  cbn. by rewrite list_insert_insert_eq.
Qed.
End walk_fresh.

Section walk_create.
Context (s : kst) (l Ds : list nat) (ex : nat → Z) (D T : nat) (va : Z).
Hypothesis Hinv : vm_inv s (T :: l) Ds ex.
Hypothesis HD : D ∈ Ds.
Hypothesis Hva : 0 ≤ va < UTOP.
Hypothesis HT : table_at (k_mem s) D (PDX va) = None.

Let Ha : alloc_inv s (T :: l) := vi_alloc _ _ _ _ Hinv.

Lemma walk_new_run :
  pgdir_walk (kva_of D) va true s = Ok (kva_of T + 4 * PTX va) (walk_new D (PDX va) T s).
Proof. apply (walk_fresh s l); [exact Ha|by eapply dir_small|done]. Qed.

Lemma walk_new_inv : vm_inv (walk_new D (PDX va) T s) l Ds ex.
Proof.
  pose proof (new_small _ _ _ Ha) as [HTn Hn]. pose proof (NoDup_cons_1_1 _ _ (ai_nodup _ _ Ha)) as HTl.
  pose proof (free_unused _ _ _ _ T Hinv ltac:(left)) as Hfree.
  assert (Hex : ex T = 0).
  { destruct (ai_lookup _ _ T Ha HTn) as [p Hp]. pose proof (vi_ref _ _ _ _ Hinv _ _ Hp).
    rewrite (ai_free _ _ Ha T p ltac:(left) Hp) in *. lia. }
  constructor.
  - by apply walk_new_alloc.
  - cbn. apply new_table_wf; try done; [apply Hinv|by apply user_PDX].
  - cbn. intros q p Hq. unfold new_table_mem.
    rewrite (new_table_uses _ (k_npages s)); try done; [|apply Hinv|by apply user_PDX].
    apply list_lookup_insert_Some in Hq as [(<- & <- & _)|[Hne Hq]].
    + rewrite bool_decide_eq_true_2 by done. cbn. lia.
    + rewrite bool_decide_eq_false_2 by done. cbn [zb].
      rewrite (vi_ref _ _ _ _ Hinv _ _ Hq). lia.
  - apply Hinv.
Qed.

Lemma walk_new_table : table_at (k_mem (walk_new D (PDX va) T s)) D (PDX va) = Some T.
Proof.
  pose proof (new_small _ _ _ Ha) as [HTn Hn]. cbn. unfold new_table_mem.
  rewrite (new_table_at _ (k_npages s) Ds);
    first [done|by apply Hinv|by apply user_PDX|eapply free_unused; [exact Hinv|left]|idtac].
  by rewrite bool_decide_eq_true_2.
Qed.

Lemma walk_new_pte D' d' t' :
  D' ∈ Ds → 0 ≤ d' < UPDX → 0 ≤ t' < NPTENTRIES →
  pte_at (k_mem (walk_new D (PDX va) T s)) D' d' t' = pte_at (k_mem s) D' d' t'.
Proof.
  intros. pose proof (new_small _ _ _ Ha) as [HTn Hn]. cbn. unfold new_table_mem.
  apply (new_table_pte _ (k_npages s) Ds);
    first [done|by apply Hinv|by apply user_PDX|eapply free_unused; [exact Hinv|left]].
Qed.
End walk_create.

(** ** tlb_invalidate *)

(** The current environment, if any, is a slot of envs[]. *)
Definition cur_ok (s : kst) : Prop :=
  match curenv_of s with Some e => is_Some (k_envs s !! e) | None => True end.

Lemma tlb_invalidate_run pgdir va s :
  cur_ok s → ∃ lg, tlb_invalidate pgdir va s = Ok tt (with_log lg s).
Proof.
  unfold cur_ok, tlb_invalidate, curenv. intros H. mrun.
  destruct (curenv_of s) as [e|]; [|by eexists]. destruct H as [v Hv].
  unfold env_get. rewrite bind_assoc. mrun. rewrite Hv. cbn. mrun.
  destruct (env_pgdir v =? pgdir); [by eexists|]. exists (k_log s). by destruct s.
Qed.

(** ** page_lookup and page_remove *)

Section remove.
Context (s : kst) (l Ds : list nat) (ex : nat → Z) (D P : nat) (va : Z).
Hypothesis Hinv : vm_inv s l Ds ex.
Hypothesis HD : D ∈ Ds.
Hypothesis Hva : 0 ≤ va < UTOP.
Hypothesis HP : frame (pte_at (k_mem s) D (PDX va) (PTX va)) = Some P.

Lemma mapped_table : ∃ T, table_at (k_mem s) D (PDX va) = Some T ∧
  frame (rd32 (k_mem s) (ent T (PTX va))) = Some P ∧ Z.of_nat T < k_npages s.
Proof.
  revert HP. unfold pte_at. destruct (table_at _ _ _) as [T|] eqn:HT; [|done].
  intros HP'. exists T. split_and!; [done..|].
  by apply (wf_tab _ _ _ (vi_wf _ _ _ _ Hinv) _ _ _ HD (user_PDX _ Hva) HT).
Qed.

Lemma mapped_frame : Z.of_nat P < k_npages s ∧ (P ∉ l) ∧
  ∃ p, k_pages s !! P = Some p ∧ pp_link p = None ∧ 0 < pp_ref p < 65536.
Proof.
  pose proof (vi_alloc _ _ _ _ Hinv) as Ha.
  assert (Hn : Z.of_nat P < k_npages s).
  { eapply (wf_map _ _ _ (vi_wf _ _ _ _ Hinv)); [exact HD|by apply user_PDX| |exact HP].
    apply PTX_range. }
  pose proof (uses_frame _ Ds D _ _ P HD (user_PDX _ Hva) (PTX_range va) HP) as Hu.
  assert (HPl : P ∉ l) by (intros Hin; pose proof (free_unused _ _ _ _ P Hinv Hin); lia).
  destruct (ai_lookup _ _ P Ha Hn) as [p Hp]. split_and!; [done..|]. exists p.
  pose proof (vi_ref _ _ _ _ Hinv _ _ Hp). pose proof (vi_ex _ _ _ _ Hinv P).
  pose proof (ai_ref _ _ Ha _ _ Hp). split_and!; [done| |lia..].
  by eapply (ai_used _ _ Ha).
Qed.

Lemma page_lookup_run : ∃ T, table_at (k_mem s) D (PDX va) = Some T ∧
  page_lookup (kva_of D) va s = Ok (Some (P, kva_of T + 4 * PTX va)) s.
Proof.
  destruct mapped_table as (T & HT & HPT & HTn). pose proof mapped_frame as (HPn & _).
  pose proof (ai_max _ _ (vi_alloc _ _ _ _ Hinv)). pose proof (PTX_range va).
  destruct (frame_inv _ _ (rd32_range _ _) HPT) as (_ & Ha & Hg).
  exists T. split; [done|]. unfold page_lookup. mcall walk_hit.
  rewrite kva_ent_nonnull by lia. erewrite bind_Ok by (apply kload_ent; lia). mrun.
  assert (Hk : pa2page (PTE_ADDR (rd32 (k_mem s) (ent T (PTX va)))) s = Ok P s).
  { unfold pa2page. mrun. rewrite Hg, (proj2 (Z.leb_gt _ _)) by lia. by rewrite Nat2Z.id. }
  by mcall Hk.
Qed.

(** The state after the mapping of [va] to [P], counted [r], is removed. *)
Definition after_remove (T : nat) (r : Z) (lg : list kevent) : kst :=
  with_mem (wr32 (k_mem s) (ent T (PTX va)) 0) (with_log lg (after_decref P r s)).

Lemma after_decref_mem i r : k_mem (after_decref i r s) = k_mem s.
Proof. unfold after_decref. by destruct (r =? 1). Qed.

Lemma page_remove_run :
  cur_ok s → ∃ T p lg, table_at (k_mem s) D (PDX va) = Some T ∧ k_pages s !! P = Some p ∧
    page_remove (kva_of D) va s = Ok tt (after_remove T (pp_ref p) lg) ∧
    vm_inv (after_remove T (pp_ref p) lg) (if pp_ref p =? 1 then P :: l else l) Ds ex.
Proof.
  intros Hc. destruct page_lookup_run as (T & HT & Hlk).
  destruct mapped_table as (T' & HT' & HPT & HTn). rewrite HT in HT'. simplify_eq.
  destruct mapped_frame as (HPn & HPl & p & Hp & Hlk0 & Hr).
  pose proof (vi_alloc _ _ _ _ Hinv) as Ha. pose proof (ai_max _ _ Ha).
  pose proof (PTX_range va).
  set (s1 := after_decref P (pp_ref p) s).
  assert (Hc1 : cur_ok s1) by (unfold s1, after_decref; by destruct (pp_ref p =? 1)).
  destruct (tlb_invalidate_run (kva_of D) va s1 Hc1) as [lg Hlg].
  exists T', p, lg. split_and!; [done|done| |].
  - unfold page_remove. mcall Hlk. mcall page_decref_run. fold s1. mcall Hlg.
    rewrite kstore_ent by lia. unfold after_remove. cbn. unfold s1. by rewrite after_decref_mem.
  - unfold after_remove.
    pose proof (alloc_inv_after_decref _ _ _ _ Ha HPl HPn Hr) as Ha1.
    assert (Hnp : k_npages s1 = k_npages s)
      by (unfold s1, after_decref; by destruct (pp_ref p =? 1)).
    constructor.
    + by eapply alloc_inv_ext, Ha1.
    + cbn. fold s1. rewrite Hnp.
      apply (write_pte_wf _ _ _ D T' (PDX va)); [apply Hinv|done|by apply user_PDX|done|done|done].
    + cbn. intros q p' Hq.
      rewrite (write_pte_uses _ (k_npages s) _ D _ (PDX va));
        [|apply Hinv|done|by apply user_PDX|done|done].
      rewrite HP. change (frame (u32 0)) with (@None nat).
      rewrite (bool_decide_eq_false_2 (None = Some q)) by done.
      pose proof (vi_ref _ _ _ _ Hinv _ _ Hp) as HrP.
      assert (Hq' : q = P ∧ pp_ref p' = pp_ref p - 1 ∨ q ≠ P ∧ k_pages s !! q = Some p').
      { revert Hq. unfold after_decref. destruct (Z.eqb_spec (pp_ref p) 1); cbn;
          intros [(-> & <- & _)|[? ?]]%list_lookup_insert_Some; cbn; auto. left. cbn. lia. }
      destruct Hq' as [[-> ->]|[Hne Hq']].
      * rewrite bool_decide_eq_true_2 by done. cbn [zb]. lia.
      * rewrite bool_decide_eq_false_2 by (intros [= ->]; done). cbn [zb].
        rewrite (vi_ref _ _ _ _ Hinv _ _ Hq'). lia.
    + apply Hinv.
Qed.
End remove.

(** ** What page-table operations leave alone *)

(** [s'] differs from [s] in pages[], the free list, memory and log only. *)
Definition vm_frame (s s' : kst) : Prop := ∃ ps h m lg,
  s' = with_log lg (with_mem m (with_page_free_list h (with_pages ps s))).

Lemma vm_frame_refl s : vm_frame s s.
Proof. exists (k_pages s), (k_page_free_list s), (k_mem s), (k_log s). by destruct s. Qed.

Lemma vm_frame_trans s1 s2 s3 : vm_frame s1 s2 → vm_frame s2 s3 → vm_frame s1 s3.
Proof.
  intros (? & ? & ? & ? & ->) (ps & h & m & lg & ->). by exists ps, h, m, lg.
Qed.

Lemma vm_frame_cur s s' : vm_frame s s' → cur_ok s → cur_ok s'.
Proof. by intros (? & ? & ? & ? & ->). Qed.

Lemma vm_frame_npages s s' : vm_frame s s' → k_npages s' = k_npages s.
Proof. by intros (? & ? & ? & ? & ->). Qed.

Lemma vm_frame_pages s ps : vm_frame s (with_pages ps s).
Proof. exists ps, (k_page_free_list s), (k_mem s), (k_log s). by destruct s. Qed.

Lemma vm_frame_mem s m : vm_frame s (with_mem m s).
Proof. exists (k_pages s), (k_page_free_list s), m, (k_log s). by destruct s. Qed.

Lemma vm_frame_log s lg : vm_frame s (with_log lg s).
Proof. exists (k_pages s), (k_page_free_list s), (k_mem s), lg. by destruct s. Qed.

Lemma vm_frame_fl s h : vm_frame s (with_page_free_list h s).
Proof. exists (k_pages s), h, (k_mem s), (k_log s). by destruct s. Qed.

Create HintDb vmf.
#[global] Hint Resolve vm_frame_refl vm_frame_pages vm_frame_mem vm_frame_log vm_frame_fl : vmf.

Lemma vm_frame_walk_new D d T s : vm_frame s (walk_new D d T s).
Proof. do 3 (eapply vm_frame_trans; [|eauto with vmf]). apply vm_frame_refl. Qed.

Lemma vm_frame_decref i r s : vm_frame s (after_decref i r s).
Proof.
  unfold after_decref, after_free. destruct (r =? 1); eauto with vmf.
  eapply vm_frame_trans; [|eauto with vmf]. eauto with vmf.
Qed.

Lemma vm_frame_remove s P va T r lg : vm_frame s (after_remove s P va T r lg).
Proof.
  unfold after_remove. eapply vm_frame_trans; [|apply vm_frame_mem].
  eapply vm_frame_trans; [|apply vm_frame_log]. apply vm_frame_decref.
Qed.

(** The mappings below UTOP of all address spaces, except that of [va] in
    [D], are the same in [m] and [m']. *)
Definition maps_except (Ds : list nat) (D : nat) (va : Z) (m m' : mem) : Prop :=
  ∀ D' d t, D' ∈ Ds → 0 ≤ d < UPDX → 0 ≤ t < NPTENTRIES →
    ¬ (D' = D ∧ d = PDX va ∧ t = PTX va) → pte_at m' D' d t = pte_at m D' d t.

Lemma maps_except_trans Ds D va m1 m2 m3 :
  maps_except Ds D va m1 m2 → maps_except Ds D va m2 m3 → maps_except Ds D va m1 m3.
Proof. intros H1 H2 D' d t ????. rewrite H2, H1; done. Qed.

Lemma write_pte_except m np Ds D T va v :
  vm_wf m np Ds → D ∈ Ds → 0 ≤ va < UTOP → table_at m D (PDX va) = Some T →
  maps_except Ds D va m (wr32 m (ent T (PTX va)) v) ∧
  pte_at (wr32 m (ent T (PTX va)) v) D (PDX va) (PTX va) = u32 v.
Proof.
  intros Hwf HD Hva HT. pose proof (user_PDX _ Hva). pose proof (PTX_range va). split.
  - intros D' d t HD' Hd Ht Hne.
    rewrite (write_pte_at _ np _ D _ (PDX va)) by done. by rewrite bool_decide_eq_false_2.
  - rewrite (write_pte_at _ np _ D _ (PDX va)) by done. by rewrite bool_decide_eq_true_2.
Qed.

(** The bytes of page [q] are the same in both memories. *)
Definition page_same (q : nat) (m m' : mem) : Prop :=
  ∀ i, 0 ≤ i < PGSIZE → rd8 m' (Z.of_nat q * PGSIZE + i) = rd8 m (Z.of_nat q * PGSIZE + i).

Lemma page_same_trans q m1 m2 m3 : page_same q m1 m2 → page_same q m2 m3 → page_same q m1 m3.
Proof. intros H1 H2 i Hi. by rewrite H2, H1. Qed.

Lemma rd32_page_same q i m m' : page_same q m m' → 0 ≤ i < 1024 → rd32 m' (ent q i) = rd32 m (ent q i).
Proof.
  intros H Hi. unfold rd32, ent. rewrite <- !Z.add_assoc. by rewrite !H by lia.
Qed.

Lemma page_same_wr q T i v m : q ≠ T → 0 ≤ i < NPTENTRIES → page_same q m (wr32 m (ent T i) v).
Proof. intros Hne Hi j Hj. apply rd8_wr32_ne. unfold ent. lia. Qed.

Lemma page_same_new q D d T m :
  q ≠ T → q ≠ D → 0 ≤ d < NPDENTRIES → page_same q m (new_table_mem m D d T).
Proof.
  intros HT HD Hd. unfold new_table_mem. eapply page_same_trans; [|by apply page_same_wr].
  intros j Hj. apply rd8_mem_set_out. lia.
Qed.

(** Page [q] is neither free nor part of an address space's tables. *)
Definition data_page (s : kst) (l Ds : list nat) (q : nat) : Prop :=
  (q ∉ l) ∧ (q ∉ Ds) ∧ ∀ D d, D ∈ Ds → 0 ≤ d < UPDX → table_at (k_mem s) D d ≠ Some q.

(** pgdir_walk with [create]: out of memory, or an entry in a table. *)
Lemma walk_create_spec s l Ds ex D va :
  vm_inv s l Ds ex → D ∈ Ds → 0 ≤ va < UTOP →
  (table_at (k_mem s) D (PDX va) = None ∧ l = [] ∧
     pgdir_walk (kva_of D) va true s = Ok NULL s) ∨
  ∃ T l' s', pgdir_walk (kva_of D) va true s = Ok (kva_of T + 4 * PTX va) s' ∧
    vm_inv s' l' Ds ex ∧ table_at (k_mem s') D (PDX va) = Some T ∧ vm_frame s s' ∧
    (∀ D' d t, D' ∈ Ds → 0 ≤ d < UPDX → 0 ≤ t < NPTENTRIES →
       pte_at (k_mem s') D' d t = pte_at (k_mem s) D' d t) ∧
    (∀ q, q ∈ l' → q ∈ l) ∧ (∀ q, q ∉ l → k_pages s' !! q = k_pages s !! q) ∧
    (∀ q, data_page s l Ds q → q ≠ T ∧ page_same q (k_mem s) (k_mem s')) ∧
    match table_at (k_mem s) D (PDX va) with
    | Some T' => T' = T ∧ s' = s ∧ l' = l
    | None => l = T :: l' ∧ s' = walk_new D (PDX va) T s
    end.
Proof.
  intros H HD Hva. destruct (table_at (k_mem s) D (PDX va)) as [T|] eqn:HT.
  - right. exists T, l, s. split_and!; [by eapply walk_hit|done|done|apply vm_frame_refl|done..| |done|done|done].
    intros q (_ & _ & Hq). split; [|done]. intros ->. by apply (Hq D _ HD (user_PDX _ Hva)).
  - destruct l as [|T l].
    + left. split_and!; [done..|]. by eapply walk_nomem.
    + right. exists T, l, (walk_new D (PDX va) T s). split_and!.
      * by eapply walk_new_run.
      * by apply walk_new_inv.
      * by eapply walk_new_table.
      * apply vm_frame_walk_new.
      * intros. by eapply walk_new_pte.
      * intros q Hq. by right.
      * intros q Hq. cbn. apply list_lookup_insert_ne. intros ->. apply Hq. left.
      * intros q (Hl & HDs & _). assert (q ≠ T) by (intros ->; apply Hl; left). split; [done|].
        pose proof (user_PDX _ Hva). apply page_same_new; [done|by intros ->|lia].
      * done.
      * done.
Qed.

(** A page that nothing refers to and that is not on the free list. *)
Definition leaked (s : kst) (l : list nat) (q : nat) : Prop :=
  ∃ p, k_pages s !! q = Some p ∧ pp_ref p = 0 ∧ q ∉ l.

Lemma after_decref_leak s l i p q :
  k_pages s !! i = Some p → 0 < pp_ref p →
  leaked (after_decref i (pp_ref p) s) (if pp_ref p =? 1 then i :: l else l) q → leaked s l q.
Proof.
  intros Hp Hr (p' & Hq & H0 & Hl). revert Hq Hl. unfold after_decref.
  destruct (Z.eqb_spec (pp_ref p) 1); cbn; intros Hq Hl;
    apply list_lookup_insert_Some in Hq as [(-> & <- & _)|[Hne Hq]].
  - exfalso. apply Hl. left.
  - exists p'. split_and!; [done..|]. intros Hin. apply Hl. by right.
  - cbn in H0. lia.
  - by exists p'.
Qed.

(** ** Directory entries without a table *)

(** The entries of [ds] without a table. *)
Definition has_table (m : mem) (D : nat) (d : Z) : bool := bool_decide (is_Some (table_at m D d)).
Definition missing (m : mem) (D : nat) (ds : list Z) : nat :=
  length (List.filter (λ d, negb (has_table m D d)) ds).

Lemma filter_length_ext {A} (f g : A → bool) l :
  (∀ x, x ∈ l → f x = g x) → length (List.filter f l) = length (List.filter g l).
Proof.
  induction l as [|x l IH]; intros Hl; [done|]. cbn. rewrite (Hl x) by left.
  destruct (g x); cbn; rewrite IH; try done; intros; apply Hl; by right.
Qed.

Lemma missing_one m m' D ds d :
  NoDup ds → d ∈ ds → has_table m D d = false → has_table m' D d = true →
  (∀ d', d' ∈ ds → d' ≠ d → has_table m' D d' = has_table m D d') →
  missing m D ds = S (missing m' D ds).
Proof.
  intros Hnd Hd H0 H1 Ho. apply list_elem_of_split in Hd as (l1 & l2 & ->).
  apply NoDup_app in Hnd as (_ & Hd1 & Hnd2). apply NoDup_cons in Hnd2 as [Hd2 _].
  unfold missing. rewrite !List.filter_app, !length_app. cbn. rewrite H0, H1. cbn.
  rewrite (filter_length_ext (λ d, negb (has_table m' D d)) (λ d, negb (has_table m D d)) l1),
    (filter_length_ext (λ d, negb (has_table m' D d)) (λ d, negb (has_table m D d)) l2); [lia|..].
  - intros x Hx. rewrite Ho; [done|rewrite elem_of_app, elem_of_cons; tauto|by intros ->].
  - intros x Hx. rewrite Ho; [done|rewrite elem_of_app, elem_of_cons; tauto|]. intros ->. by apply (Hd1 d Hx); left.
Qed.

Lemma missing_none m D ds : (∀ d, d ∈ ds → is_Some (table_at m D d)) → missing m D ds = 0%nat.
Proof.
  unfold missing. induction ds as [|d ds IH]; intros Hd; [done|]. cbn. unfold has_table at 1.
  rewrite bool_decide_eq_true_2 by (apply Hd; left). apply IH. intros. apply Hd. by right.
Qed.

(** ** page_insert *)

(** One more reference to page [i], held outside the tables. *)
Definition ex_add (ex : nat → Z) (i : nat) : nat → Z :=
  λ q, ex q + zb (bool_decide (i = q)).

Lemma incref_run s l Ds ex i p :
  vm_inv s l Ds ex → i ∉ l → k_pages s !! i = Some p → pp_ref p < 65535 →
  let s' := with_pages (<[i := mkPage None (pp_ref p + 1)]> (k_pages s)) s in
  page_upd i (λ p, set_ref (pp_ref p + 1) p) s = Ok tt s' ∧ vm_inv s' l Ds (ex_add ex i).
Proof.
  intros H Hi Hp Hr. pose proof (vi_alloc _ _ _ _ H) as Ha.
  pose proof (ai_ref _ _ Ha _ _ Hp). pose proof (ai_used _ _ Ha _ _ Hi Hp) as Hl. split.
  - erewrite page_upd_run by exact Hp. unfold set_ref. by rewrite Hl, u16_small by lia.
  - constructor.
    + apply alloc_inv_set_ref; [done..|lia].
    + apply H.
    + cbn. intros q p' Hq. unfold ex_add.
      apply list_lookup_insert_Some in Hq as [(<- & <- & _)|[Hne Hq]].
      * rewrite bool_decide_eq_true_2 by done. cbn. rewrite (vi_ref _ _ _ _ H _ _ Hp). lia.
      * rewrite bool_decide_eq_false_2 by done. cbn [zb].
        rewrite (vi_ref _ _ _ _ H _ _ Hq). lia.
    + intros q. unfold ex_add. pose proof (vi_ex _ _ _ _ H q).
      pose proof (zb_range (bool_decide (i = q))). lia.
Qed.

(** The directories of [Ds] hold the same tables. *)
Definition same_tables (Ds : list nat) (m m' : mem) : Prop :=
  ∀ D d, D ∈ Ds → 0 ≤ d < UPDX → table_at m' D d = table_at m D d.

(** The counts after a reference to [o] has been dropped; no free page has
    been taken. *)
Definition refs_drop (o : option nat) (s : kst) (l : list nat) (s' : kst) (l' : list nat) : Prop :=
  (∀ q p', k_pages s' !! q = Some p' → ∃ p, k_pages s !! q = Some p ∧
     pp_ref p' = pp_ref p - zb (bool_decide (o = Some q))) ∧
  (length l ≤ length l')%nat.

Lemma after_decref_refs s l i p :
  k_pages s !! i = Some p → 0 < pp_ref p →
  refs_drop (Some i) s l (after_decref i (pp_ref p) s) (if pp_ref p =? 1 then i :: l else l).
Proof.
  intros Hp Hr. split; [|destruct (_ =? _); cbn; lia].
  intros q p'. unfold after_decref.
  destruct (Z.eqb_spec (pp_ref p) 1); cbn; intros [(-> & <- & _)|[Hne Hq]]%list_lookup_insert_Some;
    first [exists p; rewrite bool_decide_eq_true_2 by done; split; [done|cbn; lia]
          |exists p'; rewrite bool_decide_eq_false_2 by (intros [= ->]; done); split; [done|cbn; lia]].
Qed.

(** The conditional page_remove of page_insert: afterwards the entry of
    [va] maps nothing. *)
Lemma insert_clear s l Ds ex D T va :
  vm_inv s l Ds ex → cur_ok s → D ∈ Ds → 0 ≤ va < UTOP →
  table_at (k_mem s) D (PDX va) = Some T →
  ∃ s' l', mwhen (tst (rd32 (k_mem s) (ent T (PTX va))) PTE_P) (page_remove (kva_of D) va) s
             = Ok tt s' ∧
    vm_inv s' l' Ds ex ∧ vm_frame s s' ∧ same_tables Ds (k_mem s) (k_mem s') ∧
    maps_except Ds D va (k_mem s) (k_mem s') ∧
    frame (pte_at (k_mem s') D (PDX va) (PTX va)) = None ∧
    (∀ q, leaked s' l' q → leaked s l q) ∧
    (∀ q, q ≠ T → page_same q (k_mem s) (k_mem s')) ∧
    refs_drop (frame (pte_at (k_mem s) D (PDX va) (PTX va))) s l s' l'.
Proof.
  intros H Hc HD Hva HT. destruct (tst _ _) eqn:Hp; cbn [mwhen].
  - assert (HP : frame (pte_at (k_mem s) D (PDX va) (PTX va)) =
                 Some (Z.to_nat (PGNUM (rd32 (k_mem s) (ent T (PTX va)))))).
    { unfold pte_at. rewrite HT. unfold frame. by rewrite Hp. }
    destruct (page_remove_run s l Ds ex D _ va H HD Hva HP Hc) as (T' & p & lg & HT' & Hpp & Hr & Hi).
    destruct (mapped_frame s l Ds ex D _ va H HD Hva HP) as (_ & _ & p' & Hp' & _ & Hpos).
    rewrite Hpp in Hp'. rewrite HT in HT'. simplify_eq. eexists _, _. split; [exact Hr|]. split; [exact Hi|].
    split; [apply vm_frame_remove|].
    pose proof (write_pte_except _ _ Ds D T' va 0 (vi_wf _ _ _ _ H) HD Hva HT) as [Hm He].
    cbn. split_and!.
    + intros D' d' HD' Hd'.
      exact (write_pte_table _ _ _ _ _ _ _ 0 (vi_wf _ _ _ _ H) HD (user_PDX _ Hva)
               (PTX_range va) HT D' d' HD' Hd').
    + exact Hm.
    + by rewrite He.
    + intros q Hq. by eapply after_decref_leak; [exact Hpp|lia|exact Hq].
    + intros q Hq. apply page_same_wr; [exact Hq|exact (PTX_range va)].
    + rewrite HP. exact (after_decref_refs s l _ _ Hpp ltac:(lia)).
  - assert (Hn : frame (pte_at (k_mem s) D (PDX va) (PTX va)) = None)
      by (unfold pte_at, frame; by rewrite HT, Hp).
    exists s, l. split_and!; [done|done|apply vm_frame_refl|done|done|done|done|done|].
    rewrite Hn. split; [|done]. intros q p' Hq. exists p'. split; [done|]. rewrite bool_decide_eq_false_2 by done. cbn [zb]. lia.
Qed.

(** boot_map_region on one page whose table exists. *)
Lemma map_page_run s l Ds ex D T va P perm :
  vm_inv s l Ds ex → cur_ok s → D ∈ Ds → 0 ≤ va < UTOP → 0 ≤ perm < PGSIZE →
  Z.of_nat P < 65536 → table_at (k_mem s) D (PDX va) = Some T →
  ∃ lg, boot_map_region (kva_of D) va PGSIZE (page2pa P) perm s =
    Ok tt (with_mem (wr32 (k_mem s) (ent T (PTX va)) (mkpte P (Z.lor PTE_P perm)))
             (with_log lg s)).
Proof.
  intros H Hc HD Hva Hperm HP HT. pose proof (PTX_range va).
  destruct (wf_tab _ _ _ (vi_wf _ _ _ _ H) _ _ _ HD (user_PDX _ Hva) HT) as [Hn _].
  pose proof (ai_max _ _ (vi_alloc _ _ _ _ H)).
  destruct (tlb_invalidate_run (kva_of D) va s Hc) as [lg Hlg]. exists lg.
  unfold boot_map_region. change (2147479552 <? PGSIZE) with false.
  change (map _ _) with [0]. cbn [mfor].
  assert (Hb : boot_map_page (kva_of D) va (page2pa P) perm 0 s =
    Ok tt (with_mem (wr32 (k_mem s) (ent T (PTX va)) (mkpte P (Z.lor PTE_P perm)))
             (with_log lg s))).
  { unfold boot_map_page. rewrite !Z.add_0_r. rewrite (u32_small va) by lia. mcall Hlg.
    assert (Hs1 : vm_inv (with_log lg s) l Ds ex) by (by eapply vm_inv_ext, H).
    erewrite bind_Ok by (eapply walk_hit; [exact Hs1|done..]). cbn beta.
    rewrite kstore_ent by lia. rewrite (u32_small (page2pa P)) by (rewrite page2pa_mul; lia).
    by rewrite pte_lor by lia. }
  by mcall Hb.
Qed.

Lemma map_page_inv s l Ds ex D T va P perm lg :
  vm_inv s l Ds (ex_add ex P) → (∀ q, 0 ≤ ex q) → D ∈ Ds → 0 ≤ va < UTOP →
  0 ≤ perm < PGSIZE → Z.of_nat P < k_npages s → table_at (k_mem s) D (PDX va) = Some T →
  frame (pte_at (k_mem s) D (PDX va) (PTX va)) = None →
  vm_inv (with_mem (wr32 (k_mem s) (ent T (PTX va)) (mkpte P (Z.lor PTE_P perm)))
            (with_log lg s)) l Ds ex.
Proof.
  intros H Hex HD Hva Hperm HP HT Hnone.
  pose proof (ai_max _ _ (vi_alloc _ _ _ _ H)).
  assert (Hf : 0 ≤ Z.lor PTE_P perm < PGSIZE) by (apply (lor_range _ _ 12); lia).
  assert (Hfr : frame (u32 (mkpte P (Z.lor PTE_P perm))) = Some P).
  { rewrite u32_small by (unfold mkpte; lia). apply frame_mkpte; [lia|done|apply odd_lor_P]. }
  constructor.
  - by eapply alloc_inv_ext, (vi_alloc _ _ _ _ H).
  - cbn. apply (write_pte_wf _ _ _ D T (PDX va));
      [apply H|done|by apply user_PDX|apply PTX_range|done|].
    intros P'. rewrite Hfr. by intros [= <-].
  - cbn. intros q p Hq.
    rewrite (write_pte_uses _ (k_npages s) _ D _ (PDX va));
      [|apply H|done|by apply user_PDX|apply PTX_range|done].
    rewrite Hnone, Hfr, (bool_decide_eq_false_2 (None = Some q)) by done. cbn [zb].
    rewrite (vi_ref _ _ _ _ H _ _ Hq). unfold ex_add.
    rewrite (bool_decide_ext (Some P = Some q) (P = q)) by (split; [by intros [= ->]|by intros ->]). lia.
  - exact Hex.
Qed.

(** page_insert, when there is memory for the table. *)
Lemma page_insert_ok s Ds ex D T va P perm p l1 s1 :
  vm_inv s1 l1 Ds ex → cur_ok s1 → D ∈ Ds → 0 ≤ va < UTOP → 0 ≤ perm < PGSIZE →
  pgdir_walk (kva_of D) va true s = Ok (kva_of T + 4 * PTX va) s1 →
  table_at (k_mem s1) D (PDX va) = Some T →
  P ∉ l1 → k_pages s1 !! P = Some p → pp_ref p < 65535 →
  ∃ s' l', page_insert (kva_of D) P va perm s = Ok 0 s' ∧ vm_inv s' l' Ds ex ∧ vm_frame s1 s' ∧
    maps_except Ds D va (k_mem s1) (k_mem s') ∧
    pte_at (k_mem s') D (PDX va) (PTX va) = mkpte P (Z.lor PTE_P perm) ∧
    (∀ q, q ≠ T → page_same q (k_mem s1) (k_mem s')) ∧
    (∀ q p', k_pages s' !! q = Some p' → ∃ p0, k_pages s1 !! q = Some p0 ∧
       pp_ref p' = pp_ref p0 + zb (bool_decide (P = q))
         - zb (bool_decide (frame (pte_at (k_mem s1) D (PDX va) (PTX va)) = Some q))) ∧
    (length l1 ≤ length l')%nat.
Proof.
  intros H Hc HD Hva Hperm Hwalk HT HP Hp Hr. pose proof (PTX_range va).
  pose proof (ai_max _ _ (vi_alloc _ _ _ _ H)).
  assert (HPn : Z.of_nat P < k_npages s1).
  { rewrite <-(ai_len _ _ (vi_alloc _ _ _ _ H)). apply lookup_lt_Some in Hp. lia. }
  destruct (wf_tab _ _ _ (vi_wf _ _ _ _ H) _ _ _ HD (user_PDX _ Hva) HT) as [HTn _].
  destruct (incref_run _ _ _ _ _ _ H HP Hp Hr) as [Hu Hi2].
  set (s2 := with_pages _ s1) in *.
  destruct (insert_clear s2 l1 Ds _ D T va Hi2 Hc HD Hva HT)
    as (s3 & l3 & Hrm & Hi3 & Hf3 & HS3 & Hm3 & Hn3 & _ & Hsame & Hrf & Hlen).
  assert (HT3 : table_at (k_mem s3) D (PDX va) = Some T)
    by (rewrite HS3; [done|done|by apply user_PDX]).
  assert (Hc3 : cur_ok s3) by (by eapply vm_frame_cur).
  pose proof (vm_frame_npages _ _ Hf3) as Hnp3. change (k_npages s2) with (k_npages s1) in Hnp3.
  destruct (map_page_run s3 l3 Ds _ D T va P perm Hi3 Hc3 HD Hva Hperm ltac:(lia) HT3) as [lg Hb].
  eexists _, l3. split; [|split; [|split; [|split; [|split; [|split; [|split; [|exact Hlen]]]]]]].
  - unfold page_insert. mcall Hwalk. rewrite kva_ent_nonnull by lia. mcall Hu.
    erewrite bind_Ok by (apply kload_ent; lia). cbn beta. mcall Hrm. mcall Hb. done.
  - eapply map_page_inv; try done; [apply H|]. by rewrite Hnp3.
  - eapply vm_frame_trans; [apply vm_frame_pages|]. eapply vm_frame_trans; [exact Hf3|].
    eapply vm_frame_trans; [apply vm_frame_log|apply vm_frame_mem].
  - eapply maps_except_trans; [exact Hm3|]. cbn.
    by apply (write_pte_except _ (k_npages s3)); [apply Hi3|..].
  - cbn. rewrite (proj2 (write_pte_except _ (k_npages s3) Ds D T va _ (vi_wf _ _ _ _ Hi3) HD Hva HT3)).
    assert (0 ≤ Z.lor PTE_P perm < PGSIZE) by (apply (lor_range _ _ 12); lia).
    apply u32_small. unfold mkpte. lia.
  - intros q Hq. eapply page_same_trans; [exact (Hsame q Hq)|]. cbn. by apply page_same_wr.
  - intros q p' Hq. destruct (Hrf q p' Hq) as (p2 & Hp2 & Hle). cbn in Hp2.
    change (k_mem s2) with (k_mem s1) in Hle.
    apply list_lookup_insert_Some in Hp2 as [(<- & <- & _)|[Hne Hp2]].
    + exists p. rewrite (bool_decide_eq_true_2 (P = P)) by done. cbn [zb pp_ref] in *. split; [done|lia].
    + exists p2. rewrite (bool_decide_eq_false_2 (P = q)) by done. cbn [zb]. split; [done|lia].
Qed.

Lemma page_insert_cases s l Ds ex D va P p perm :
  vm_inv s l Ds ex → cur_ok s → D ∈ Ds → 0 ≤ va < UTOP → 0 ≤ perm < PGSIZE →
  P ∉ l → k_pages s !! P = Some p → pp_ref p < 65535 →
  (page_insert (kva_of D) P va perm s = Ok (- E_NO_MEM) s ∧
     l = [] ∧ table_at (k_mem s) D (PDX va) = None) ∨
  ∃ s' l' pte, page_insert (kva_of D) P va perm s = Ok 0 s' ∧
    pte_at (k_mem s') D (PDX va) (PTX va) = u32 (Z.lor (Z.lor (page2pa P) PTE_P) perm) ∧
    page_lookup (kva_of D) va s' = Ok (Some (P, pte)) s' ∧
    maps_except Ds D va (k_mem s) (k_mem s') ∧
    (∀ q, data_page s l Ds q → page_same q (k_mem s) (k_mem s')) ∧
    vm_inv s' l' Ds ex ∧ vm_frame s s'.
Proof.
  intros H Hc HD Hva Hperm HP Hp Hr. pose proof (ai_max _ _ (vi_alloc _ _ _ _ H)).
  assert (HPn : Z.of_nat P < k_npages s).
  { rewrite <-(ai_len _ _ (vi_alloc _ _ _ _ H)). apply lookup_lt_Some in Hp. lia. }
  destruct (walk_create_spec s l Ds ex D va H HD Hva)
    as [(HT & Hl & Hw)|(T & l1 & s1 & Hw & H1 & HT & Hf & Hpte & Hsub & Hpg & Hdata & _)].
  - left. split_and!; [|done..]. unfold page_insert. by mcall Hw.
  - right. assert (Hc1 : cur_ok s1) by (by eapply vm_frame_cur).
    assert (HP1 : P ∉ l1) by (intros Hin; by apply HP, Hsub).
    rewrite <-(Hpg P HP) in Hp.
    destruct (page_insert_ok s Ds ex D T va P perm p l1 s1) as (s' & l' & Hins & Hi & Hf' & Hm & Hpt & Hsame & _);
      try done.
    assert (Hfr : frame (pte_at (k_mem s') D (PDX va) (PTX va)) = Some P).
    { rewrite Hpt. apply frame_mkpte; [lia|apply (lor_range _ _ 12); lia|apply odd_lor_P]. }
    destruct (page_lookup_run s' l' Ds ex D P va Hi HD Hva Hfr) as (T' & _ & Hlk).
    exists s', l', (kva_of T' + 4 * PTX va). split_and!; try done.
    + rewrite Hpt. by rewrite pte_lor by lia.
    + intros D' d t HD' Hd Ht Hne. rewrite Hm, Hpte by done. done.
    + intros q Hq. destruct (Hdata q Hq) as [Hne Hq']. by eapply page_same_trans; [|apply Hsame].
    + by eapply vm_frame_trans.
Qed.

(** ** Claims *)

(** C1: page_insert either fails with -E_NO_MEM, when a table is needed and
    no page is free, and then changes nothing, or it returns 0; then [va]
    maps to the page with the permissions asked for (and page_lookup finds
    it), every other mapping of every address space is what it was, no byte
    outside the directories and tables has changed, the invariant holds again with every count exact, and nothing but pages[],
    the free list, memory and the TLB log has changed.  Inserting the page
    that is already mapped there is included. *)
Theorem page_insert_spec s l Ds ex D va P p perm :
  vm_inv s l Ds ex → cur_ok s → D ∈ Ds → 0 ≤ va < UTOP → 0 ≤ perm < PGSIZE →
  P ∉ l → k_pages s !! P = Some p → pp_ref p < 65535 →
  (page_insert (kva_of D) P va perm s = Ok (- E_NO_MEM) s ∧
     l = [] ∧ table_at (k_mem s) D (PDX va) = None) ∨
  ∃ s' l' pte, page_insert (kva_of D) P va perm s = Ok 0 s' ∧
    pte_at (k_mem s') D (PDX va) (PTX va) = u32 (Z.lor (Z.lor (page2pa P) PTE_P) perm) ∧
    page_lookup (kva_of D) va s' = Ok (Some (P, pte)) s' ∧
    maps_except Ds D va (k_mem s) (k_mem s') ∧
    (∀ q, data_page s l Ds q → page_same q (k_mem s) (k_mem s')) ∧
    vm_inv s' l' Ds ex ∧ vm_frame s s'.
Proof. apply page_insert_cases. Qed.

(** The machine of [demo_kernel] with an empty address space in page 1 and
    pages 2 and 3 free. *)
Definition demo_vm : kst :=
  after_free 2 (after_free 3
    (with_pages (<[1%nat := mkPage None 1]> (replicate 16 (mkPage None 0)))
      (demo_kernel 16 10 49152))).

Lemma demo_vm_uses q : uses (λ _, 0) [1%nat] q = zb (bool_decide (1%nat = q)).
Proof.
  unfold uses. cbn [zsum foldr]. unfold dir_uses.
  rewrite (zsum_ext _ (λ _, 0)); [|done].
  rewrite zsum_zero. lia.
Qed.

Lemma demo_vm_inv : vm_inv demo_vm [2%nat; 3%nat] [1%nat] (λ _, 0).
Proof.
  assert (H0 : alloc_inv (with_pages (<[1%nat := mkPage None 1]> (replicate 16 (mkPage None 0)))
                 (demo_kernel 16 10 49152)) []).
  { apply (alloc_inv_set_ref (demo_kernel 16 10 49152));
      [by apply demo_alloc_inv|apply not_elem_of_nil|lia]. }
  assert (H1 : alloc_inv demo_vm [2%nat; 3%nat]).
  { apply alloc_inv_after_free; [apply alloc_inv_after_free; [done|apply not_elem_of_nil|done]| |done].
    rewrite list_elem_of_singleton. lia. }
  constructor.
  - exact H1.
  - constructor; cbn [k_mem demo_vm]; try done.
    + apply NoDup_singleton.
    + intros D ->%list_elem_of_singleton. done.
  - intros q p Hq. change (k_mem demo_vm) with (λ _ : Z, 0). rewrite demo_vm_uses, Z.add_0_r.
    destruct (decide (q < 4)%nat).
    + do 4 (destruct q as [|q]; [cbn in Hq; injection Hq as <-; reflexivity|]). lia.
    + rewrite bool_decide_eq_false_2 by lia. cbn [zb].
      revert Hq. unfold demo_vm, after_free. cbn [k_pages with_pages with_page_free_list].
      rewrite !list_lookup_insert_ne by lia. by intros [-> _]%lookup_replicate.
  - done.
Qed.

Lemma page_insert_spec_witness :
  ∃ s' l' pte, page_insert (kva_of 1) 4 8392704 6 demo_vm = Ok 0 s' ∧
    pte_at (k_mem s') 1 (PDX 8392704) (PTX 8392704) = u32 (Z.lor (Z.lor (page2pa 4) PTE_P) 6) ∧
    page_lookup (kva_of 1) 8392704 s' = Ok (Some (4%nat, pte)) s' ∧
    maps_except [1%nat] 1 8392704 (k_mem demo_vm) (k_mem s') ∧
    (∀ q, data_page demo_vm [2%nat; 3%nat] [1%nat] q → page_same q (k_mem demo_vm) (k_mem s')) ∧
    vm_inv s' l' [1%nat] (λ _, 0) ∧ vm_frame demo_vm s'.
Proof.
  destruct (page_insert_spec demo_vm [2%nat; 3%nat] [1%nat] (λ _, 0) 1 8392704 4
              (mkPage None 0) 6) as [(_ & Hl & _)|Hok].
  - exact demo_vm_inv.
  - exact I.
  - apply list_elem_of_singleton. reflexivity.
  - lia.
  - lia.
  - rewrite elem_of_cons, list_elem_of_singleton. lia.
  - reflexivity.
  - cbn. lia.
  - discriminate Hl.
  - exact Hok.
Defined.

Lemma page_remove_cases s l Ds ex D va :
  vm_inv s l Ds ex → cur_ok s → D ∈ Ds → 0 ≤ va < UTOP →
  match frame (pte_at (k_mem s) D (PDX va) (PTX va)) with
  | Some P => ∃ s' p, k_pages s !! P = Some p ∧
      page_remove (kva_of D) va s = Ok tt s' ∧
      pte_at (k_mem s') D (PDX va) (PTX va) = 0 ∧
      maps_except Ds D va (k_mem s) (k_mem s') ∧
      vm_inv s' (if pp_ref p =? 1 then P :: l else l) Ds ex ∧ vm_frame s s'
  | None => table_at (k_mem s) D (PDX va) = None → page_remove (kva_of D) va s = Ok tt s
  end.
Proof.
  intros H Hc HD Hva. destruct (frame _) as [P|] eqn:HP.
  - destruct (page_remove_run s l Ds ex D P va H HD Hva HP Hc) as (T & p & lg & HT & Hp & Hr & Hi).
    destruct (write_pte_except _ _ Ds D T va 0 (vi_wf _ _ _ _ H) HD Hva HT) as [Hm He].
    eexists _, p. split; [exact Hp|]. split; [exact Hr|]. split; [exact He|].
    split; [exact Hm|]. split; [exact Hi|]. apply vm_frame_remove.
  - intros HT. unfold page_remove, page_lookup. rewrite bind_assoc.
    erewrite bind_Ok by (eapply walk_miss; eauto). done.
Qed.

(** C23: page_remove of a mapped address takes exactly that mapping out of
    that address space; the page it mapped loses one reference and goes
    to the head of the free list when that was the last one; the invariant
    holds again.  An address with no page table is left alone. *)
Theorem page_remove_spec s l Ds ex D va :
  vm_inv s l Ds ex → cur_ok s → D ∈ Ds → 0 ≤ va < UTOP →
  match frame (pte_at (k_mem s) D (PDX va) (PTX va)) with
  | Some P => ∃ s' p, k_pages s !! P = Some p ∧
      page_remove (kva_of D) va s = Ok tt s' ∧
      pte_at (k_mem s') D (PDX va) (PTX va) = 0 ∧
      maps_except Ds D va (k_mem s) (k_mem s') ∧
      vm_inv s' (if pp_ref p =? 1 then P :: l else l) Ds ex ∧ vm_frame s s'
  | None => table_at (k_mem s) D (PDX va) = None → page_remove (kva_of D) va s = Ok tt s
  end.
Proof. apply page_remove_cases. Qed.

(** [demo_vm] with a table for [va] in page 2; then with page 4 mapped at
    [va]; and with page 4 mapped read-write for the user at 0x801000. *)
Definition demo_table_at (va : Z) : kst := walk_new 1 (PDX va) 2 demo_vm.
Definition demo_map_at (va perm : Z) : kst :=
  let s1 := with_pages (<[4%nat := mkPage None 1]> (k_pages (demo_table_at va))) (demo_table_at va) in
  with_mem (wr32 (k_mem s1) (ent 2 (PTX va)) (mkpte 4 (Z.lor PTE_P perm))) (with_log [] s1).
Definition demo_table : kst := demo_table_at 8392704.
Definition demo_map : Z → kst := demo_map_at 8392704.
Definition demo_mapped : kst := demo_map 6.

Lemma demo_vm_empty D d : table_at (k_mem demo_vm) D d = None.
Proof. unfold table_at. change (k_mem demo_vm) with (λ _ : Z, 0). reflexivity. Qed.

Lemma demo_table_at_inv va :
  0 ≤ va < UTOP →
  vm_inv (demo_table_at va) [3%nat] [1%nat] (λ _, 0) ∧
  table_at (k_mem (demo_table_at va)) 1 (PDX va) = Some 2%nat ∧
  pte_at (k_mem (demo_table_at va)) 1 (PDX va) (PTX va) = 0.
Proof.
  intros Hva. assert (HD : 1%nat ∈ [1%nat]) by (by apply list_elem_of_singleton).
  pose proof (demo_vm_empty 1 (PDX va)) as HT. split; [|split].
  - exact (walk_new_inv _ _ _ _ _ _ va demo_vm_inv HD Hva HT).
  - exact (walk_new_table _ _ _ _ _ _ va demo_vm_inv HD Hva).
  - unfold demo_table_at.
    rewrite (walk_new_pte _ _ _ _ _ _ va demo_vm_inv HD Hva HT 1 _ _ HD (user_PDX _ Hva) (PTX_range va)).
    unfold pte_at. by rewrite HT.
Qed.

Lemma demo_map_at_inv va perm :
  0 ≤ va < UTOP → 0 ≤ perm < PGSIZE →
  vm_inv (demo_map_at va perm) [3%nat] [1%nat] (λ _, 0) ∧
  pte_at (k_mem (demo_map_at va perm)) 1 (PDX va) (PTX va) = mkpte 4 (Z.lor PTE_P perm) ∧
  frame (pte_at (k_mem (demo_map_at va perm)) 1 (PDX va) (PTX va)) = Some 4%nat.
Proof.
  intros Hva Hperm. destruct (demo_table_at_inv va Hva) as (H & HT & H0).
  assert (Hl : 0 ≤ Z.lor PTE_P perm < PGSIZE) by (apply (lor_range _ _ 12); lia).
  assert (Hpte : pte_at (k_mem (demo_map_at va perm)) 1 (PDX va) (PTX va)
                 = mkpte 4 (Z.lor PTE_P perm)).
  { change (k_mem (demo_map_at va perm)) with
      (wr32 (k_mem (demo_table_at va)) (ent 2 (PTX va)) (mkpte 4 (Z.lor PTE_P perm))).
    pose proof (write_pte_except (k_mem (demo_table_at va)) (k_npages (demo_table_at va)) [1%nat] 1 2 va
                  (mkpte 4 (Z.lor PTE_P perm)) (vi_wf _ _ _ _ H)) as Hw.
    rewrite (proj2 (Hw ltac:(by apply list_elem_of_singleton) Hva HT)).
    apply u32_small. unfold mkpte. lia. }
  split; [|split; [exact Hpte|]].
  - apply (map_page_inv _ _ _ _ 1 2 va 4 perm); [|done| |exact Hva|lia|done|exact HT|].
    + apply (incref_run (demo_table_at va) [3%nat] [1%nat] (λ _, 0) 4 (mkPage None 0));
        [exact H| |done|done].
      rewrite list_elem_of_singleton. lia.
    + by apply list_elem_of_singleton.
    + change (frame (pte_at (k_mem (demo_table_at va)) 1 (PDX va) (PTX va)) = None). by rewrite H0.
  - rewrite Hpte. apply frame_mkpte; [lia|done|apply odd_lor_P].
Qed.

Lemma demo_table_inv :
  vm_inv demo_table [3%nat] [1%nat] (λ _, 0) ∧ table_at (k_mem demo_table) 1 (PDX 8392704) = Some 2%nat.
Proof.
  destruct (demo_table_at_inv 8392704) as (H & HT & _); [lia|]. split; [exact H|exact HT].
Qed.

Lemma demo_map_inv perm :
  0 ≤ perm < PGSIZE →
  vm_inv (demo_map perm) [3%nat] [1%nat] (λ _, 0) ∧
  pte_at (k_mem (demo_map perm)) 1 (PDX 8392704) (PTX 8392704) = mkpte 4 (Z.lor PTE_P perm) ∧
  frame (pte_at (k_mem (demo_map perm)) 1 (PDX 8392704) (PTX 8392704)) = Some 4%nat.
Proof. apply demo_map_at_inv. lia. Qed.

Lemma demo_mapped_inv :
  vm_inv demo_mapped [3%nat] [1%nat] (λ _, 0) ∧
  frame (pte_at (k_mem demo_mapped) 1 (PDX 8392704) (PTX 8392704)) = Some 4%nat.
Proof.
  destruct (demo_map_inv 6) as (H & _ & Hf); [lia|]. split; [exact H|exact Hf].
Qed.

Lemma page_remove_spec_witness :
  ∃ s', page_remove (kva_of 1) 8392704 demo_mapped = Ok tt s' ∧
    pte_at (k_mem s') 1 (PDX 8392704) (PTX 8392704) = 0.
Proof.
  destruct demo_mapped_inv as [H HP].
  pose proof (page_remove_spec demo_mapped [3%nat] [1%nat] (λ _, 0) 1 8392704 H I
    ltac:(apply list_elem_of_singleton; reflexivity) ltac:(lia)) as Hr.
  rewrite HP in Hr. destruct Hr as (s' & p & _ & Hrun & Hpte & _).
  exists s'. split; [exact Hrun|exact Hpte].
Defined.

(** Page_lookup does not test PTE_P.  On an address that has a page
    table but no mapping it reports physical page 0, and page_remove of
    such an address, which should do nothing, drops a reference of page 0:
    a count of 0 wraps around to 65535. *)
Theorem page_remove_unmapped s l Ds ex D va T p :
  vm_inv s l Ds ex → cur_ok s → D ∈ Ds → 0 ≤ va < UTOP →
  table_at (k_mem s) D (PDX va) = Some T → pte_at (k_mem s) D (PDX va) (PTX va) = 0 →
  k_pages s !! 0%nat = Some p → pp_ref p = 0 →
  page_lookup (kva_of D) va s = Ok (Some (0%nat, kva_of T + 4 * PTX va)) s ∧
  ∃ s', page_remove (kva_of D) va s = Ok tt s' ∧
    k_pages s' !! 0%nat = Some (mkPage (pp_link p) 65535).
Proof.
  intros H Hc HD Hva HT Hpte Hp Hr. pose proof (PTX_range va).
  pose proof (ai_max _ _ (vi_alloc _ _ _ _ H)).
  destruct (wf_tab _ _ _ (vi_wf _ _ _ _ H) _ _ _ HD (user_PDX _ Hva) HT) as [HTn _].
  unfold pte_at in Hpte. rewrite HT in Hpte.
  assert (Hlk : page_lookup (kva_of D) va s = Ok (Some (0%nat, kva_of T + 4 * PTX va)) s).
  { unfold page_lookup. erewrite bind_Ok by (by eapply walk_hit). cbn beta.
    rewrite kva_ent_nonnull by lia. erewrite bind_Ok by (apply kload_ent; lia). cbn beta.
    rewrite Hpte. change (PTE_ADDR 0) with 0.
    assert (Hk : pa2page 0 s = Ok 0%nat s).
    { unfold pa2page. mrun. change (PGNUM 0) with 0. rewrite (proj2 (Z.leb_gt _ _)) by lia. done. }
    by mcall Hk. }
  split; [exact Hlk|].
  set (s1 := with_pages (<[0%nat := mkPage (pp_link p) 65535]> (k_pages s)) s).
  destruct (tlb_invalidate_run (kva_of D) va s1 Hc) as [lg Hlg].
  eexists. split.
  - unfold page_remove. mcall Hlk.
    assert (Hdec : page_decref 0 s = Ok tt s1).
    { unfold page_decref. mcall page_upd_run. unfold set_ref. rewrite Hr.
      erewrite bind_Ok by (apply page_get_again; by eapply lookup_lt_Some). done. }
    mcall Hdec. mcall Hlg. rewrite kstore_ent by lia. reflexivity.
  - cbn. apply list_lookup_insert_eq. by eapply lookup_lt_Some.
Qed.

Lemma page_remove_unmapped_witness :
  ∃ s', page_remove (kva_of 1) 8396800 demo_table = Ok tt s' ∧
    k_pages s' !! 0%nat = Some (mkPage None 65535).
Proof.
  destruct demo_table_inv as [H HT].
  apply (page_remove_unmapped demo_table [3%nat] [1%nat] (λ _, 0) 1 8396800 2 (mkPage None 0));
    try reflexivity.
  - exact H.
  - apply list_elem_of_singleton. reflexivity.
  - lia.
Defined.

(* ------------------------------------------------------------------ *)
(** ** user_mem_check *)

(** The entry of the page that holds [a] grants [perm]. *)
Definition grants (m : mem) (D : nat) (perm a : Z) : bool :=
  Z.land (pte_at m D (PDX a) (PTX a)) (Z.lor perm PTE_P) =? Z.lor perm PTE_P.

Lemma grants_no_table m D perm a : table_at m D (PDX a) = None → grants m D perm a = false.
Proof.
  unfold grants, pte_at. intros ->. cbn. apply Z.eqb_neq. intros H.
  assert (Hb : Z.testbit (Z.lor perm PTE_P) 0 = true) by (by rewrite Z.lor_spec, orb_true_r).
  rewrite <-H in Hb. done.
Qed.

Lemma user_mem_check_loop_run s l Ds ex D va perm starts :
  vm_inv s l Ds ex → D ∈ Ds → Forall (λ x, 0 ≤ x < UTOP) starts →
  user_mem_check_loop (kva_of D) va perm starts s =
  match List.find (λ x, negb (grants (k_mem s) D perm x)) starts with
  | None => Ok 0 s
  | Some x => Ok (- E_FAULT) (with_user_mem_check_addr (Z.max x va) s)
  end.
Proof.
  intros H HD. pose proof (ai_max _ _ (vi_alloc _ _ _ _ H)).
  induction starts as [|x starts IH]; intros Hx; [done|].
  apply Forall_cons in Hx as [Hx Hxs]. cbn [user_mem_check_loop List.find].
  pose proof (PTX_range x). destruct (table_at (k_mem s) D (PDX x)) as [T|] eqn:HT.
  - destruct (wf_tab _ _ _ (vi_wf _ _ _ _ H) _ _ _ HD (user_PDX _ Hx) HT) as [HTn _].
    erewrite bind_Ok by (by eapply walk_hit). cbn beta. rewrite kva_ent_nonnull by lia.
    erewrite bind_Ok by (apply kload_ent; lia). cbn beta.
    unfold grants at 1, pte_at. rewrite HT.
    destruct (Z.land _ _ =? _); cbn [negb]; [by apply IH|done].
  - erewrite bind_Ok by (by eapply walk_miss). rewrite grants_no_table by done. done.
Qed.

(** Addresses of one page have the same entry. *)
Lemma page_entry a b :
  0 ≤ a < 2 ^ 32 → 0 ≤ b < 2 ^ 32 → a / PGSIZE = b / PGSIZE → PDX a = PDX b ∧ PTX a = PTX b.
Proof.
  intros Ha Hb Hab. rewrite !PDX_div, !PTX_div, !(u32_small a), !(u32_small b), Hab by done.
  split; [|done]. change PTSIZE with (PGSIZE * 1024).
  by rewrite <-!Z.div_div, Hab by lia.
Qed.

Lemma grants_page m D perm a b :
  0 ≤ a < 2 ^ 32 → 0 ≤ b < 2 ^ 32 → a / PGSIZE = b / PGSIZE →
  grants m D perm a = grants m D perm b.
Proof. intros Ha Hb Hab. unfold grants. by destruct (page_entry a b) as [-> ->]. Qed.

Lemma ROUNDDOWN_page a : 0 ≤ a < 2 ^ 32 → ROUNDDOWN a PGSIZE = a / PGSIZE * PGSIZE.
Proof. intros. unfold ROUNDDOWN. rewrite u32_small by done. pose proof (Z.div_mod a PGSIZE). lia. Qed.

Lemma ROUNDUP_page a :
  0 ≤ a → a + PGSIZE ≤ 2 ^ 32 → ROUNDUP a PGSIZE = (a + PGSIZE - 1) / PGSIZE * PGSIZE.
Proof.
  intros. unfold ROUNDUP. rewrite (u32_small a), (u32_small PGSIZE) by lia.
  apply ROUNDDOWN_page. lia.
Qed.

(** The pages that user_mem_check looks at are those of the range. *)
Lemma page_range_cover va len :
  0 ≤ va → 0 < len → va + len ≤ UTOP →
  page_range (ROUNDDOWN va PGSIZE) (ROUNDUP (u32 (va + len)) PGSIZE) =
  map (λ k, k * PGSIZE)
    (seqZ (va / PGSIZE) ((va + len - 1) / PGSIZE - va / PGSIZE + 1)).
Proof.
  intros Hva Hlen Hle. unfold page_range. rewrite (u32_small (va + len)) by lia.
  rewrite ROUNDDOWN_page, ROUNDUP_page by lia.
  replace (va + len + PGSIZE - 1) with (va + len - 1 + 1 * PGSIZE) by lia.
  rewrite Z.div_add by lia. set (h := (va + len - 1) / PGSIZE). set (k := va / PGSIZE).
  replace ((h + 1) * PGSIZE - k * PGSIZE) with ((h - k + 1) * PGSIZE) by lia.
  rewrite Z.div_mul by lia. rewrite <-(Z.add_0_r k) at 2. rewrite <-fmap_add_seqZ.
  transitivity (map (λ x, (k + x) * PGSIZE) (seqZ 0 (h - k + 1))).
  - apply map_ext. intros x. lia.
  - apply (list_fmap_compose (Z.add k) (λ x, x * PGSIZE)).
Qed.

(** The first failure of a search in an increasing range. *)
Lemma find_seqZ (f : Z → bool) lo n :
  match List.find f (map (λ k, k * PGSIZE) (seqZ lo n)) with
  | None => ∀ k, lo ≤ k < lo + n → f (k * PGSIZE) = false
  | Some x => ∃ k, x = k * PGSIZE ∧ lo ≤ k < lo + n ∧ f x = true ∧
                   ∀ j, lo ≤ j < k → f (j * PGSIZE) = false
  end.
Proof.
  remember (Z.to_nat n) as c eqn:Hc. revert lo n Hc.
  induction c as [|c IH]; intros lo n Hc.
  - rewrite seqZ_nil by lia. cbn. intros k Hk. lia.
  - rewrite seqZ_cons by lia. cbn. destruct (f (lo * PGSIZE)) eqn:Hf.
    + exists lo. split_and!; [done|lia|lia|done|]. intros j Hj. lia.
    + specialize (IH (Z.succ lo) (Z.pred n) ltac:(lia)).
      destruct (List.find _ _) as [x|].
      * destruct IH as (k & -> & Hk & Hfk & Hj). exists k. split_and!; [done|lia|lia|done|].
        intros j Hj'. destruct (decide (j = lo)) as [->|]; [done|]. apply Hj. lia.
      * intros k Hk. destruct (decide (k = lo)) as [->|]; [done|]. apply IH. lia.
Qed.

Lemma user_mem_check_cases s l Ds ex D e v va len perm :
  vm_inv s l Ds ex → D ∈ Ds → k_envs s !! e = Some v → env_pgdir v = kva_of D →
  0 ≤ va → 0 < len → va + len ≤ UTOP →
  (user_mem_check e va len perm s = Ok 0 s ∧
     ∀ a, va ≤ a < va + len → grants (k_mem s) D perm a = true) ∨
  ∃ bad, user_mem_check e va len perm s = Ok (- E_FAULT) (with_user_mem_check_addr bad s) ∧
    va ≤ bad < va + len ∧ grants (k_mem s) D perm bad = false ∧
    ∀ a, va ≤ a < bad → grants (k_mem s) D perm a = true.
Proof.
  intros H HD He Hpg Hva Hlen Hle. unfold user_mem_check, env_get. rewrite bind_assoc. mrun.
  rewrite He. cbn [mderef]. mrun. rewrite Hpg, page_range_cover by done.
  set (lo := va / PGSIZE). set (hi := (va + len - 1) / PGSIZE).
  assert (Hlo : lo * PGSIZE ≤ va < lo * PGSIZE + PGSIZE)
    by (unfold lo; pose proof (Z.div_mod va PGSIZE); pose proof (Z.mod_pos_bound va PGSIZE); lia).
  assert (Hhi : hi * PGSIZE ≤ va + len - 1 < hi * PGSIZE + PGSIZE)
    by (unfold hi; pose proof (Z.div_mod (va + len - 1) PGSIZE);
        pose proof (Z.mod_pos_bound (va + len - 1) PGSIZE); lia).
  rewrite (user_mem_check_loop_run _ l Ds ex).
  2,3: done.
  2: { apply Forall_map, Forall_seqZ. intros k Hk. lia. }
  pose proof (find_seqZ (λ x, negb (grants (k_mem s) D perm x)) lo (hi - lo + 1)) as Hf.
  assert (Hpage : ∀ a, va ≤ a < va + len → lo ≤ a / PGSIZE < lo + (hi - lo + 1) ∧
            grants (k_mem s) D perm a = grants (k_mem s) D perm (a / PGSIZE * PGSIZE)).
  { intros a Ha. pose proof (Z.div_mod a PGSIZE). pose proof (Z.mod_pos_bound a PGSIZE).
    split; [lia|]. apply grants_page; [lia|lia|]. by rewrite Z.div_mul by lia. }
  destruct (List.find _ _) as [x|].
  - destruct Hf as (k & -> & Hk & Hbad & Hbefore). right. exists (Z.max (k * PGSIZE) va).
    assert (Hmx : va ≤ Z.max (k * PGSIZE) va < va + len) by lia.
    assert (Hdiv : Z.max (k * PGSIZE) va / PGSIZE = k).
    { symmetry. apply (Z.div_unique _ _ _ (Z.max (k * PGSIZE) va - k * PGSIZE)); lia. }
    split; [done|]. split; [done|]. split.
    + rewrite (proj2 (Hpage _ Hmx)), Hdiv. by apply negb_true_iff.
    + intros a Ha. destruct (Hpage a ltac:(lia)) as [Hr ->].
      apply negb_false_iff, Hbefore. split; [lia|].
      pose proof (Z.div_mod a PGSIZE). pose proof (Z.mod_pos_bound a PGSIZE). lia.
  - left. split; [done|]. intros a Ha. destruct (Hpage a Ha) as [Hr ->].
    by apply negb_false_iff, Hf.
Qed.

Lemma user_mem_check_ok s l Ds ex D e v va len perm :
  vm_inv s l Ds ex → D ∈ Ds → k_envs s !! e = Some v → env_pgdir v = kva_of D →
  0 ≤ va → 0 < len → va + len ≤ UTOP →
  (∀ a, va ≤ a < va + len → grants (k_mem s) D perm a = true) →
  user_mem_check e va len perm s = Ok 0 s.
Proof.
  intros H HD He Hpg Hva Hlen Hle Hg.
  destruct (user_mem_check_cases s l Ds ex D e v va len perm) as [[? _]|(bad & _ & Hr & Hb & _)];
    try done.
  by rewrite Hg in Hb.
Qed.

(** C28: on a range below UTOP user_mem_check decides exactly whether every
    byte of it is in a page whose entry grants the permissions: it returns
    0 and changes nothing if so, and otherwise returns -E_FAULT with
    user_mem_check_addr set to the first byte of the range that is not. *)
Theorem user_mem_check_spec s l Ds ex D e v va len perm :
  vm_inv s l Ds ex → D ∈ Ds → k_envs s !! e = Some v → env_pgdir v = kva_of D →
  0 ≤ va → 0 < len → va + len ≤ UTOP →
  (user_mem_check e va len perm s = Ok 0 s ∧
     ∀ a, va ≤ a < va + len → grants (k_mem s) D perm a = true) ∨
  ∃ bad, user_mem_check e va len perm s = Ok (- E_FAULT) (with_user_mem_check_addr bad s) ∧
    va ≤ bad < va + len ∧ grants (k_mem s) D perm bad = false ∧
    ∀ a, va ≤ a < bad → grants (k_mem s) D perm a = true.
Proof. apply user_mem_check_cases. Qed.

(** An environment whose address space is in page [D]. *)
Definition demo_env (D : nat) : Env :=
  mkEnv (mkTf (mkRegs 0 0 0 0 0 0 0 0) 0 0 0 0 0 0 0 0 0 0 0 0 0) None 4096 0 ENV_TYPE_USER
    ENV_RUNNABLE 0 0 (kva_of D) 0 false 0 0 0 0.

Lemma user_mem_check_spec_witness :
  let s := with_envs [demo_env 1] demo_mapped in
  user_mem_check 0 8392704 16 (Z.lor PTE_U PTE_W) s = Ok 0 s ∧
    (∀ a, 8392704 ≤ a < 8392704 + 16 → grants (k_mem s) 1 (Z.lor PTE_U PTE_W) a = true) ∨
  ∃ bad, user_mem_check 0 8392704 16 (Z.lor PTE_U PTE_W) s =
      Ok (- E_FAULT) (with_user_mem_check_addr bad s) ∧
    8392704 ≤ bad < 8392704 + 16 ∧ grants (k_mem s) 1 (Z.lor PTE_U PTE_W) bad = false ∧
    ∀ a, 8392704 ≤ a < bad → grants (k_mem s) 1 (Z.lor PTE_U PTE_W) a = true.
Proof.
  intros s. apply (user_mem_check_spec s [3%nat] [1%nat] (λ _, 0) 1 0 (demo_env 1)).
  - exact (vm_inv_ext demo_mapped s _ _ _ eq_refl eq_refl eq_refl eq_refl (proj1 demo_mapped_inv)).
  - apply list_elem_of_singleton. reflexivity.
  - reflexivity.
  - reflexivity.
  - lia.
  - lia.
  - lia.
Defined.

(** User_mem_check computes the end of the range modulo 2^32 and never
    compares with ULIM: a range that reaches up to the top of the address
    space is accepted without looking at any page, so every address,
    the kernel's included, passes the check with a suitable length. *)
Theorem user_mem_check_wraps s e v va perm :
  k_envs s !! e = Some v → PGSIZE ≤ va < 2 ^ 32 →
  user_mem_check e va (2 ^ 32 - va) perm s = Ok 0 s.
Proof.
  intros He Hva. unfold user_mem_check, env_get. rewrite bind_assoc. mrun.
  rewrite He. cbn [mderef]. mrun.
  replace (va + (2 ^ 32 - va)) with (2 ^ 32) by lia.
  change (ROUNDUP (u32 (2 ^ 32)) PGSIZE) with 0. unfold page_range.
  rewrite ROUNDDOWN_page by lia. rewrite seqZ_nil; [done|].
  apply Z.lt_le_incl, Z.div_lt_upper_bound; [lia|].
  pose proof (Z.div_le_lower_bound va PGSIZE 1). lia.
Qed.

Lemma user_mem_check_wraps_witness :
  user_mem_check 0 KERNBASE (2 ^ 32 - KERNBASE) (Z.lor PTE_U PTE_W)
    (with_envs [demo_env 1] demo_vm) = Ok 0 (with_envs [demo_env 1] demo_vm).
Proof. apply (user_mem_check_wraps _ 0 (demo_env 1)); [reflexivity|lia]. Defined.
