(* ===== verification/Env.v ===== *)
(** Environments: kern/env.c without env_destroy (which is in Sched, with
    the scheduler it calls), kern/spinlock.h's lock_kernel and
    unlock_kernel on the big kernel lock, and the memory accesses the
    kernel makes through user virtual addresses. *)

From S2P Require Import Prelude Mmu Printfmt Console KState Pmap PageTable.
From Stdlib Require Import ZArith Lia String.
From stdpp Require Import base tactics numbers list.
Open Scope Z_scope.

(** ** Field updates of struct Env *)

Definition set_env_tf (v : Trapframe) (e : Env) : Env :=
  mkEnv v (env_link e) (env_id e) (env_parent_id e) (env_type e) (env_status e)
    (env_runs e) (env_cpunum e) (env_pgdir e) (env_pgfault_upcall e) (env_ipc_recving e)
    (env_ipc_dstva e) (env_ipc_value e) (env_ipc_from e) (env_ipc_perm e).
Definition set_env_link (v : option nat) (e : Env) : Env :=
  mkEnv (env_tf e) v (env_id e) (env_parent_id e) (env_type e) (env_status e) (env_runs e)
    (env_cpunum e) (env_pgdir e) (env_pgfault_upcall e) (env_ipc_recving e)
    (env_ipc_dstva e) (env_ipc_value e) (env_ipc_from e) (env_ipc_perm e).
Definition set_env_id (v : Z) (e : Env) : Env :=
  mkEnv (env_tf e) (env_link e) v (env_parent_id e) (env_type e) (env_status e)
    (env_runs e) (env_cpunum e) (env_pgdir e) (env_pgfault_upcall e) (env_ipc_recving e)
    (env_ipc_dstva e) (env_ipc_value e) (env_ipc_from e) (env_ipc_perm e).
Definition set_env_parent_id (v : Z) (e : Env) : Env :=
  mkEnv (env_tf e) (env_link e) (env_id e) v (env_type e) (env_status e) (env_runs e)
    (env_cpunum e) (env_pgdir e) (env_pgfault_upcall e) (env_ipc_recving e)
    (env_ipc_dstva e) (env_ipc_value e) (env_ipc_from e) (env_ipc_perm e).
Definition set_env_type (v : Z) (e : Env) : Env :=
  mkEnv (env_tf e) (env_link e) (env_id e) (env_parent_id e) v (env_status e) (env_runs e)
    (env_cpunum e) (env_pgdir e) (env_pgfault_upcall e) (env_ipc_recving e)
    (env_ipc_dstva e) (env_ipc_value e) (env_ipc_from e) (env_ipc_perm e).
Definition set_env_status (v : Z) (e : Env) : Env :=
  mkEnv (env_tf e) (env_link e) (env_id e) (env_parent_id e) (env_type e) v (env_runs e)
    (env_cpunum e) (env_pgdir e) (env_pgfault_upcall e) (env_ipc_recving e)
    (env_ipc_dstva e) (env_ipc_value e) (env_ipc_from e) (env_ipc_perm e).
Definition set_env_runs (v : Z) (e : Env) : Env :=
  mkEnv (env_tf e) (env_link e) (env_id e) (env_parent_id e) (env_type e) (env_status e) v
    (env_cpunum e) (env_pgdir e) (env_pgfault_upcall e) (env_ipc_recving e)
    (env_ipc_dstva e) (env_ipc_value e) (env_ipc_from e) (env_ipc_perm e).
Definition set_env_cpunum (v : Z) (e : Env) : Env :=
  mkEnv (env_tf e) (env_link e) (env_id e) (env_parent_id e) (env_type e) (env_status e)
    (env_runs e) v (env_pgdir e) (env_pgfault_upcall e) (env_ipc_recving e)
    (env_ipc_dstva e) (env_ipc_value e) (env_ipc_from e) (env_ipc_perm e).
Definition set_env_pgdir (v : Z) (e : Env) : Env :=
  mkEnv (env_tf e) (env_link e) (env_id e) (env_parent_id e) (env_type e) (env_status e)
    (env_runs e) (env_cpunum e) v (env_pgfault_upcall e) (env_ipc_recving e)
    (env_ipc_dstva e) (env_ipc_value e) (env_ipc_from e) (env_ipc_perm e).
Definition set_env_pgfault_upcall (v : Z) (e : Env) : Env :=
  mkEnv (env_tf e) (env_link e) (env_id e) (env_parent_id e) (env_type e) (env_status e)
    (env_runs e) (env_cpunum e) (env_pgdir e) v (env_ipc_recving e) (env_ipc_dstva e)
    (env_ipc_value e) (env_ipc_from e) (env_ipc_perm e).
Definition set_env_ipc_recving (v : bool) (e : Env) : Env :=
  mkEnv (env_tf e) (env_link e) (env_id e) (env_parent_id e) (env_type e) (env_status e)
    (env_runs e) (env_cpunum e) (env_pgdir e) (env_pgfault_upcall e) v (env_ipc_dstva e)
    (env_ipc_value e) (env_ipc_from e) (env_ipc_perm e).
Definition set_env_ipc_dstva (v : Z) (e : Env) : Env :=
  mkEnv (env_tf e) (env_link e) (env_id e) (env_parent_id e) (env_type e) (env_status e)
    (env_runs e) (env_cpunum e) (env_pgdir e) (env_pgfault_upcall e) (env_ipc_recving e) v
    (env_ipc_value e) (env_ipc_from e) (env_ipc_perm e).
Definition set_env_ipc_value (v : Z) (e : Env) : Env :=
  mkEnv (env_tf e) (env_link e) (env_id e) (env_parent_id e) (env_type e) (env_status e)
    (env_runs e) (env_cpunum e) (env_pgdir e) (env_pgfault_upcall e) (env_ipc_recving e)
    (env_ipc_dstva e) v (env_ipc_from e) (env_ipc_perm e).
Definition set_env_ipc_from (v : Z) (e : Env) : Env :=
  mkEnv (env_tf e) (env_link e) (env_id e) (env_parent_id e) (env_type e) (env_status e)
    (env_runs e) (env_cpunum e) (env_pgdir e) (env_pgfault_upcall e) (env_ipc_recving e)
    (env_ipc_dstva e) (env_ipc_value e) v (env_ipc_perm e).
Definition set_env_ipc_perm (v : Z) (e : Env) : Env :=
  mkEnv (env_tf e) (env_link e) (env_id e) (env_parent_id e) (env_type e) (env_status e)
    (env_runs e) (env_cpunum e) (env_pgdir e) (env_pgfault_upcall e) (env_ipc_recving e)
    (env_ipc_dstva e) (env_ipc_value e) (env_ipc_from e) v.

(** Field updates of struct Trapframe *)

Definition set_tf_regs (v : PushRegs) (t : Trapframe) : Trapframe :=
  mkTf v (tf_es t) (tf_padding1 t) (tf_ds t) (tf_padding2 t) (tf_trapno t) (tf_err t)
    (tf_eip t) (tf_cs t) (tf_padding3 t) (tf_eflags t) (tf_esp t) (tf_ss t) (tf_padding4 t).
Definition set_tf_es (v : Z) (t : Trapframe) : Trapframe :=
  mkTf (tf_regs t) v (tf_padding1 t) (tf_ds t) (tf_padding2 t) (tf_trapno t) (tf_err t)
    (tf_eip t) (tf_cs t) (tf_padding3 t) (tf_eflags t) (tf_esp t) (tf_ss t) (tf_padding4 t).
Definition set_tf_ds (v : Z) (t : Trapframe) : Trapframe :=
  mkTf (tf_regs t) (tf_es t) (tf_padding1 t) v (tf_padding2 t) (tf_trapno t) (tf_err t)
    (tf_eip t) (tf_cs t) (tf_padding3 t) (tf_eflags t) (tf_esp t) (tf_ss t) (tf_padding4 t).
Definition set_tf_trapno (v : Z) (t : Trapframe) : Trapframe :=
  mkTf (tf_regs t) (tf_es t) (tf_padding1 t) (tf_ds t) (tf_padding2 t) v (tf_err t)
    (tf_eip t) (tf_cs t) (tf_padding3 t) (tf_eflags t) (tf_esp t) (tf_ss t) (tf_padding4 t).
Definition set_tf_eip (v : Z) (t : Trapframe) : Trapframe :=
  mkTf (tf_regs t) (tf_es t) (tf_padding1 t) (tf_ds t) (tf_padding2 t) (tf_trapno t)
    (tf_err t) v (tf_cs t) (tf_padding3 t) (tf_eflags t) (tf_esp t) (tf_ss t)
    (tf_padding4 t).
Definition set_tf_cs (v : Z) (t : Trapframe) : Trapframe :=
  mkTf (tf_regs t) (tf_es t) (tf_padding1 t) (tf_ds t) (tf_padding2 t) (tf_trapno t)
    (tf_err t) (tf_eip t) v (tf_padding3 t) (tf_eflags t) (tf_esp t) (tf_ss t)
    (tf_padding4 t).
Definition set_tf_eflags (v : Z) (t : Trapframe) : Trapframe :=
  mkTf (tf_regs t) (tf_es t) (tf_padding1 t) (tf_ds t) (tf_padding2 t) (tf_trapno t)
    (tf_err t) (tf_eip t) (tf_cs t) (tf_padding3 t) v (tf_esp t) (tf_ss t) (tf_padding4 t).
Definition set_tf_esp (v : Z) (t : Trapframe) : Trapframe :=
  mkTf (tf_regs t) (tf_es t) (tf_padding1 t) (tf_ds t) (tf_padding2 t) (tf_trapno t)
    (tf_err t) (tf_eip t) (tf_cs t) (tf_padding3 t) (tf_eflags t) v (tf_ss t)
    (tf_padding4 t).
Definition set_tf_ss (v : Z) (t : Trapframe) : Trapframe :=
  mkTf (tf_regs t) (tf_es t) (tf_padding1 t) (tf_ds t) (tf_padding2 t) (tf_trapno t)
    (tf_err t) (tf_eip t) (tf_cs t) (tf_padding3 t) (tf_eflags t) (tf_esp t) v
    (tf_padding4 t).

Definition set_reg_eax (v : Z) (r : PushRegs) : PushRegs :=
  mkRegs (reg_edi r) (reg_esi r) (reg_ebp r) (reg_oesp r) (reg_ebx r) (reg_edx r) (reg_ecx r) v.
Definition tf_zero : Trapframe := mkTf (mkRegs 0 0 0 0 0 0 0 0) 0 0 0 0 0 0 0 0 0 0 0 0 0.

(** Assignment to a field of an environment's trap frame. *)
Definition tf_upd (f : Trapframe → Trapframe) (e : Env) : Env := set_env_tf (f (env_tf e)) e.

(** ** The global descriptor table *)

Definition gdt : list Segdesc :=
  [SEG_NULL;
   SEG (Z.lor STA_X STA_R) 0 4294967295 0;
   SEG STA_W 0 4294967295 0;
   SEG (Z.lor STA_X STA_R) 0 4294967295 3;
   SEG STA_W 0 4294967295 3;
   SEG_NULL]
  ++ replicate 7 SEG_NULL.

(** ** The big kernel lock *)

(** [k_lock] is the CPU that holds the lock.  A CPU that finds it held by
    another one spins; one that holds it already panics. *)
Definition lock_kernel : K unit :=
  s ← mget;
  match k_lock s with
  | None => mput (with_lock (Some (k_cpunum s)) s)
  | Some c => if (c =? k_cpunum s)%nat then mpanic "CPU %d cannot acquire %s: already holding"
              else mleave Spinning
  end.

Definition unlock_kernel : K unit :=
  s ← mget;
  (if bool_decide (k_lock s = Some (k_cpunum s)) then mput (with_lock None s)
   else mpanic "spin_unlock");;
  klog EvPause.

(** ** Memory through user virtual addresses *)

(** The translation the processor makes under page directory [cr3];
    supervisor writes respect PTE_W, since mem_init sets CR0_WP. *)
Definition uphys (s : kst) (write : bool) (va : Z) : option Z :=
  let pde := rd32 (k_mem s) (k_cr3 s + 4 * PDX va) in
  if tst pde PTE_P then
    let pte := rd32 (k_mem s) (PTE_ADDR pde + 4 * PTX va) in
    if tst pte PTE_P && (negb write || (tst pde PTE_W && tst pte PTE_W))
    then Some (PTE_ADDR pte + PGOFF va) else None
  else None.

(** A fault of the kernel itself ends in page_fault_handler's panic. *)
Definition uload8 (va : Z) : K Z :=
  s ← mget;
  match uphys s false va with
  | Some a => mret (rd8 (k_mem s) a)
  | None => mpanic "page_fault_handler: page fault in kernel"
  end.
Definition ustore8 (va v : Z) : K unit :=
  s ← mget;
  match uphys s true va with
  | Some a => mput (with_mem (wr8 (k_mem s) a v) s)
  | None => mpanic "page_fault_handler: page fault in kernel"
  end.
Definition umemset (va c n : Z) : K unit :=
  mfor (seqZ 0 n) (λ i, ustore8 (u32 (va + i)) c).
Definition umemcpy (dst src n : Z) : K unit :=
  mfor (seqZ 0 n) (λ i, v ← uload8 (u32 (src + i)); ustore8 (u32 (dst + i)) v).
Definition ustore32 (va v : Z) : K unit :=
  mfor (seqZ 0 4) (λ i, ustore8 (u32 (va + i)) (Z.shiftr v (8 * i))).
Definition uload32 (va : Z) : K Z :=
  b0 ← uload8 va; b1 ← uload8 (u32 (va + 1)); b2 ← uload8 (u32 (va + 2)); b3 ← uload8 (u32 (va + 3));
  mret (b0 + 256 * b1 + 65536 * b2 + 16777216 * b3).

(** A half-word of the kernel image. *)
Definition kload16 (kva : Z) : K Z :=
  s ← mget; a ← mderef (kphys kva 2); mret (rd16 (k_mem s) a).

(** ** envid2env: the result and [*env_store] *)

Definition envid2env (envid : Z) (checkperm : bool) : K (Z * option nat) :=
  cur ← curenv;
  if envid =? 0 then mret (0, cur)
  else
    let i := Z.to_nat (ENVX envid) in
    e ← env_get i;
    if (env_status e =? ENV_FREE) || negb (env_id e =? envid) then mret (- E_BAD_ENV, None)
    else if checkperm && negb (bool_decide (Some i = cur)) then
      c ← mderef cur;
      ce ← env_get c;
      if negb (env_parent_id e =? env_id ce) then mret (- E_BAD_ENV, None)
      else mret (0, Some i)
    else mret (0, Some i).

(** ** Initialization *)

Definition env_init_percpu : K unit :=
  klog EvLgdt;;
  klog (EvSegReg RegGS (Z.lor GD_UD 3));;
  klog (EvSegReg RegFS (Z.lor GD_UD 3));;
  klog (EvSegReg RegES GD_KD);;
  klog (EvSegReg RegDS GD_KD);;
  klog (EvSegReg RegSS GD_KD);;
  klog (EvSegReg RegCS GD_KT);;
  klog (EvLldt 0).

(** One iteration of env_init's loop, which counts down. *)
Definition env_init_step (i : nat) : K unit :=
  env_upd i (set_env_id 0);;
  env_upd i (set_env_status ENV_FREE);;
  head ← mgets k_env_free_list;
  env_upd i (set_env_link head);;
  mmod (with_env_free_list (Some i)).

Definition env_init : K unit :=
  mmod (with_env_free_list None);;
  mfor (rev (seq 0 (Z.to_nat NENV))) env_init_step;;
  env_init_percpu.

(** ** Creating environments *)

Definition env_setup_vm (e : nat) : K Z :=
  p ← page_alloc ALLOC_ZERO;
  match p with
  | None => mret (- E_NO_MEM)
  | Some p =>
      page_upd p (λ pg, set_ref (pp_ref pg + 1) pg);;
      kva ← page2kva p;
      env_upd e (set_env_pgdir kva);;
      kp ← mgets k_kern_pgdir;
      kmemmove kva kp PGSIZE;;
      pa ← PADDR kva;
      kstore (u32 (kva + 4 * PDX UVPT)) (Z.lor (Z.lor pa PTE_P) PTE_U);;
      mret 0
  end.

Abbreviation ENVGENSHIFT := 12 (only parsing).

(** The new id of slot [i], whose old id is [old].  The int addition is
    taken to wrap, as the test for a non-positive result expects. *)
Definition env_generation (old : Z) : Z :=
  let generation := Z.land (s32 (old + Z.shiftl 1 ENVGENSHIFT)) (Z.lnot (NENV - 1)) in
  if generation <=? 0 then Z.shiftl 1 ENVGENSHIFT else generation.
Definition env_new_id (old : Z) (i : nat) : Z := Z.lor (env_generation old) (Z.of_nat i).

(** The trap frame of a new environment. *)
Definition env_new_tf : Trapframe :=
  let t := tf_zero in
  let t := set_tf_ds (Z.lor GD_UD 3) t in
  let t := set_tf_es (Z.lor GD_UD 3) t in
  let t := set_tf_ss (Z.lor GD_UD 3) t in
  let t := set_tf_esp USTACKTOP t in
  let t := set_tf_cs (Z.lor GD_UT 3) t in
  set_tf_eflags (Z.lor (tf_eflags t) FL_IF) t.

Definition env_alloc (parent_id : Z) : K (Z * option nat) :=
  head ← mgets k_env_free_list;
  match head with
  | None => mret (- E_NO_FREE_ENV, None)
  | Some e =>
      r ← env_setup_vm e;
      if r <? 0 then mret (r, None)
      else
        env_upd e (λ v, set_env_id (env_new_id (env_id v) e) v);;
        env_upd e (set_env_parent_id parent_id);;
        env_upd e (set_env_type ENV_TYPE_USER);;
        env_upd e (set_env_status ENV_RUNNABLE);;
        env_upd e (set_env_runs 0);;
        env_upd e (set_env_tf env_new_tf);;
        env_upd e (set_env_pgfault_upcall 0);;
        env_upd e (set_env_ipc_recving false);;
        v ← env_get e;
        mmod (with_env_free_list (env_link v));;
        mret (0, Some e)
  end.

Definition region_alloc (e : nat) (va len : Z) : K unit :=
  let start := ROUNDDOWN va PGSIZE in
  let end_ := ROUNDUP (u32 (va + len)) PGSIZE in
  mfor (page_range start end_) (λ start,
    p ← page_alloc 0;
    match p with
    | None => mpanic "region_alloc: error in page_alloc()"
    | Some p =>
        v ← env_get e;
        r ← page_insert (env_pgdir v) p start (Z.lor PTE_W PTE_U);
        if negb (r =? 0) then mpanic "region_alloc: error in page_insert()" else mret tt
    end).

Abbreviation ELF_MAGIC := 1179403647 (only parsing).
Abbreviation ELF_PROG_LOAD := 1 (only parsing).

(** One program header of the image at [binary]. *)
Definition load_segment (e : nat) (binary ph : Z) : K unit :=
  p_type ← kload ph;
  if p_type =? ELF_PROG_LOAD then
    p_offset ← kload (ph + 4);
    p_va ← kload (ph + 8);
    p_filesz ← kload (ph + 16);
    p_memsz ← kload (ph + 20);
    region_alloc e p_va p_memsz;;
    umemset p_va 0 p_memsz;;
    umemcpy p_va (u32 (binary + p_offset)) p_filesz
  else mret tt.

Definition load_icode (e : nat) (binary : Z) : K unit :=
  e_magic ← kload binary;
  if negb (e_magic =? ELF_MAGIC) then mpanic "load_icode: ELFHDR is not ELF_MAGIC"
  else
    e_phoff ← kload (binary + 28);
    e_phnum ← kload16 (binary + 44);
    let ph := u32 (binary + e_phoff) in
    let eph := u32 (ph + 32 * e_phnum) in
    v ← env_get e;
    pa ← PADDR (env_pgdir v);
    lcr3 pa;;
    mfor (seqZ 0 ((eph - ph) / 32)) (λ i, load_segment e binary (ph + 32 * i));;
    kp ← mgets k_kern_pgdir;
    kpa ← PADDR kp;
    lcr3 kpa;;
    region_alloc e (USTACKTOP - PGSIZE) PGSIZE;;
    env_upd e (set_env_status ENV_RUNNABLE);;
    env_upd e (tf_upd (set_tf_esp USTACKTOP));;
    e_entry ← kload (binary + 24);
    env_upd e (tf_upd (set_tf_eip e_entry)).

Definition env_create (binary type : Z) : K unit :=
  r ← env_alloc 0;
  match r with
  | (rc, Some e) =>
      if negb (rc =? 0) then mpanic "env_create: error in env_alloc()"
      else
        load_icode e binary;;
        env_upd e (set_env_type type);;
        mwhen (type =? ENV_TYPE_FS)
          (env_upd e (tf_upd (λ t, set_tf_eflags (Z.lor (tf_eflags t) FL_IOPL_MASK) t)))
  | (_, None) => mpanic "env_create: error in env_alloc()"
  end.

(** ** Freeing an environment *)

(** The inner loop of env_free: unmap the entries of table [pt]. *)
Definition env_free_ptes (pgdir pt pdeno : Z) : K unit :=
  mfor (seqZ 0 (PTX (2 ^ 32 - 1) + 1)) (λ pteno,
    v ← kload (u32 (pt + 4 * pteno));
    mwhen (tst v PTE_P) (page_remove pgdir (PGADDR pdeno pteno 0))).

(** One iteration of the outer loop of env_free. *)
Definition env_free_pde (pgdir pdeno : Z) : K unit :=
  v ← kload (u32 (pgdir + 4 * pdeno));
  if negb (tst v PTE_P) then mret tt
  else
    let pa := PTE_ADDR v in
    pt ← KADDR pa;
    env_free_ptes pgdir pt pdeno;;
    kstore (u32 (pgdir + 4 * pdeno)) 0;;
    pp ← pa2page pa;
    page_decref pp.

Definition env_free (e : nat) : K unit :=
  cur ← curenv;
  kp ← mgets k_kern_pgdir;
  mwhen (bool_decide (cur = Some e)) (pa ← PADDR kp; lcr3 pa);;
  v ← env_get e;
  mfor (seqZ 0 (PDX UTOP)) (env_free_pde (env_pgdir v));;
  pa ← PADDR (env_pgdir v);
  env_upd e (set_env_pgdir 0);;
  pp ← pa2page pa;
  page_decref pp;;
  env_upd e (set_env_status ENV_FREE);;
  head ← mgets k_env_free_list;
  env_upd e (set_env_link head);;
  mmod (with_env_free_list (Some e)).

(** ** Running an environment *)

(** [iret] into the registers of slot [e]'s env_tf. *)
Definition env_pop_tf {A} (e : nat) : K A :=
  cur ← curenv;
  c ← mderef cur;
  n ← mgets k_cpunum;
  env_upd c (set_env_cpunum (Z.of_nat n));;
  mleave (ToUser e).

Definition env_run {A} (e : nat) : K A :=
  cur ← curenv;
  (match cur with
   | Some c => env_upd c (set_env_status ENV_RUNNABLE)
   | None => mret tt
   end);;
  cpu_upd (set_cpu_env (Some e));;
  env_upd e (set_env_status ENV_RUNNING);;
  env_upd e (λ v, set_env_runs (u32 (env_runs v + 1)) v);;
  v ← env_get e;
  pa ← PADDR (env_pgdir v);
  lcr3 pa;;
  unlock_kernel;;
  env_pop_tf e.

(* ------------------------------------------------------------------ *)
(** ** Environment ids *)

(** Ids in use: positive 32-bit ints whose low ten bits are the slot. *)
Definition id_ok (i : nat) (id : Z) : Prop := 0 < id < 2 ^ 31 ∧ id mod NENV = Z.of_nat i.

Lemma env_generation_spec old :
  0 ≤ old < 2 ^ 31 →
  env_generation old =
    if old - old mod NENV + 4096 <? 2 ^ 31 then old - old mod NENV + 4096 else 4096.
Proof.
  intros Ho. unfold env_generation. change (Z.shiftl 1 ENVGENSHIFT) with 4096.
  change (NENV - 1) with (2 ^ 10 - 1). rewrite land_lnot_low by lia.
  change (2 ^ 10) with NENV. pose proof (Z.mod_pos_bound old NENV).
  pose proof (Z.div_mod old NENV).
  destruct (Z.ltb_spec (old - old mod NENV + 4096) (2 ^ 31)).
  - assert (old + 4096 < 2 ^ 31) by lia. rewrite s32_small by lia.
    replace ((old + 4096) mod NENV) with (old mod NENV).
    + rewrite (proj2 (Z.leb_gt _ _)); lia.
    + symmetry. by rewrite <-(Z.mod_add old 4) by lia.
  - assert (Hs : s32 (old + 4096) = old + 4096 - 2 ^ 32).
    { unfold s32. replace (old + 4096 + 2 ^ 31) with (old + 4096 - 2 ^ 31 + 1 * 2 ^ 32) by lia.
      rewrite Z.mod_add, Z.mod_small by lia. lia. }
    rewrite Hs. pose proof (Z.mod_pos_bound (old + 4096 - 2 ^ 32) NENV).
    rewrite (proj2 (Z.leb_le _ _)); lia.
Qed.

Lemma env_new_id_add old i :
  0 ≤ old < 2 ^ 31 → Z.of_nat i < NENV →
  env_new_id old i = env_generation old + Z.of_nat i ∧
  env_generation old mod NENV = 0 ∧ 4096 ≤ env_generation old ∧
  env_generation old + NENV ≤ 2 ^ 31.
Proof.
  intros Ho Hi. pose proof (Z.mod_pos_bound old NENV). pose proof (Z.div_mod old NENV).
  assert (Hg : ∃ k, env_generation old = k * 2 ^ 10 ∧ 4 ≤ k ∧ k < 2 ^ 21).
  { rewrite (env_generation_spec old Ho).
    destruct (Z.ltb_spec (old - old mod NENV + 4096) (2 ^ 31)).
    - exists (old / NENV + 4). lia.
    - exists 4. lia. }
  destruct Hg as (k & Hk & Hk4 & Hk21). unfold env_new_id. rewrite Hk. split_and!.
  - apply lor_low; lia.
  - change (2 ^ 10) with NENV. apply Z.mod_mul. lia.
  - lia.
  - lia.
Qed.

Lemma env_new_id_ok old i :
  0 ≤ old < 2 ^ 31 → Z.of_nat i < NENV → id_ok i (env_new_id old i).
Proof.
  intros Ho Hi. destruct (env_new_id_add old i Ho Hi) as (-> & Hm & Hlo & Hhi).
  split; [lia|]. rewrite <-(Z.add_mod_idemp_l (env_generation old)), Hm by lia.
  by apply Z.mod_small; lia.
Qed.

(** The new id of a slot is not the one it had. *)
Lemma env_new_id_fresh old i :
  0 ≤ old < 2 ^ 31 → Z.of_nat i < NENV → env_new_id old i ≠ old.
Proof.
  intros Ho Hi. destruct (env_new_id_add old i Ho Hi) as (-> & _).
  rewrite (env_generation_spec old Ho). pose proof (Z.mod_pos_bound old NENV).
  destruct (Z.ltb_spec (old - old mod NENV + 4096) (2 ^ 31)); lia.
Qed.

(** ** envid2env *)

Lemma env_get_run i s v : k_envs s !! i = Some v → env_get i s = Ok v s.
Proof. intros H. unfold env_get. mrun. by rewrite H. Qed.

Lemma env_upd_run i f s v :
  k_envs s !! i = Some v → env_upd i f s = Ok tt (with_envs (<[i := f v]> (k_envs s)) s).
Proof. intros H. unfold env_upd. mrun. by rewrite H. Qed.

Lemma env_upd_again i f s v vs :
  (i < length vs)%nat →
  env_upd i f (with_envs (<[i := v]> vs) s) = Ok tt (with_envs (<[i := f v]> vs) s).
Proof.
  intros Hi. erewrite env_upd_run by (by apply list_lookup_insert_eq).
  cbn. by rewrite list_insert_insert_eq.
Qed.

Lemma env_get_again i s v vs :
  (i < length vs)%nat → env_get i (with_envs (<[i := v]> vs) s) = Ok v (with_envs (<[i := v]> vs) s).
Proof. intros Hi. apply env_get_run. by apply list_lookup_insert_eq. Qed.

Lemma ENVX_range envid : (Z.to_nat (ENVX envid) < Z.to_nat NENV)%nat.
Proof. rewrite ENVX_mod. pose proof (Z.mod_pos_bound envid NENV). lia. Qed.

(** Envid2env never changes the state; it gives the current
    environment for id 0, and otherwise the slot the id names exactly when
    that slot is in use under this very id (so a stale id is refused) and,
    if permission is asked for, is the caller or a child of the caller. *)
Theorem envid2env_spec s envid checkperm c ce :
  length (k_envs s) = Z.to_nat NENV → curenv_of s = Some c → k_envs s !! c = Some ce →
  (envid = 0 → envid2env envid checkperm s = Ok (0, Some c) s) ∧
  (envid ≠ 0 → ∃ e, k_envs s !! Z.to_nat (ENVX envid) = Some e ∧
     envid2env envid checkperm s =
       Ok (if negb (env_status e =? ENV_FREE) && (env_id e =? envid) &&
              (negb checkperm || bool_decide (Z.to_nat (ENVX envid) = c)
               || (env_parent_id e =? env_id ce))
           then (0, Some (Z.to_nat (ENVX envid))) else (- E_BAD_ENV, None)) s).
Proof.
  intros Hlen Hc Hce. unfold envid2env, curenv. split.
  - intros ->. mrun. by rewrite Hc.
  - intros Hne. destruct (lookup_lt_is_Some_2 (k_envs s) (Z.to_nat (ENVX envid))) as [e He].
    { rewrite Hlen. apply ENVX_range. }
    exists e. split; [done|]. mrun. rewrite (proj2 (Z.eqb_neq _ _) Hne). mcall env_get_run.
    rewrite Hc. destruct (env_status e =? ENV_FREE), (env_id e =? envid); try done.
    cbn [orb negb andb].
    rewrite (bool_decide_ext (Some (Z.to_nat (ENVX envid)) = Some c) (Z.to_nat (ENVX envid) = c))
      by (split; [by intros [= ->]|by intros ->]).
    destruct checkperm; [|done]. destruct (bool_decide _); [done|]. cbn [orb negb andb].
    unfold mderef. mrun. mcall env_get_run. by destruct (env_parent_id e =? env_id ce).
Qed.

(** A kernel with environment 0 (id 0x1000, running on the only CPU) and
    its child in slot 1 (id 0x1001); the other slots are free. *)
Definition demo_free_env : Env :=
  mkEnv tf_zero None 0 0 ENV_TYPE_USER ENV_FREE 0 0 0 0 false 0 0 0 0.
Definition demo_child : Env :=
  set_env_id 4097 (set_env_parent_id 4096 (demo_env 2)).
Definition demo_envs : list Env :=
  [demo_env 1; demo_child] ++ replicate (Z.to_nat 1022) demo_free_env.
Definition demo_running : kst :=
  with_cpus [mkCpu 0 CPU_STARTED (Some 0%nat) (mkTs 0 0 0)] (with_envs demo_envs demo_vm).

Lemma demo_envs_length : length demo_envs = Z.to_nat NENV.
Proof. unfold demo_envs. rewrite length_app, length_replicate. cbn [length]. lia. Qed.

Lemma envid2env_spec_witness :
  ∃ e, k_envs demo_running !! Z.to_nat (ENVX 4097) = Some e ∧
    envid2env 4097 true demo_running =
      Ok (if negb (env_status e =? ENV_FREE) && (env_id e =? 4097) &&
             (negb true || bool_decide (Z.to_nat (ENVX 4097) = 0%nat)
              || (env_parent_id e =? env_id (demo_env 1)))
          then (0, Some (Z.to_nat (ENVX 4097))) else (- E_BAD_ENV, None)) demo_running.
Proof.
  apply (proj2 (envid2env_spec demo_running 4097 true 0 (demo_env 1)
                  demo_envs_length eq_refl eq_refl)).
  discriminate.
Defined.

(** ** The list of free environments *)

Fixpoint env_chain (envs : list Env) (head : option nat) (l : list nat) : Prop :=
  match l with
  | [] => head = None
  | i :: l' => head = Some i ∧ ∃ e, envs !! i = Some e ∧ env_chain envs (env_link e) l'
  end.

Lemma env_chain_insert envs head l i e :
  i ∉ l → env_chain envs head l → env_chain (<[i := e]> envs) head l.
Proof.
  revert head. induction l as [|j l IH]; intros head Hi; [done|]. cbn.
  intros (-> & q & Hq & Hc). apply not_elem_of_cons in Hi as [Hne Hi].
  split; [done|]. exists q. rewrite list_lookup_insert_ne by done. eauto.
Qed.

Record env_inv (s : kst) (fl : list nat) : Prop := {
  ei_len : length (k_envs s) = Z.to_nat NENV;
  ei_chain : env_chain (k_envs s) (k_env_free_list s) fl;
  ei_nodup : NoDup fl;
  ei_status : ∀ i e, k_envs s !! i = Some e → env_status e = ENV_FREE ↔ i ∈ fl;
  ei_id : ∀ i e, k_envs s !! i = Some e → env_id e = 0 ∨ id_ok i (env_id e) }.

(** Slot [i] as env_init leaves it. *)
Definition env_reset (head : option nat) (e : Env) : Env :=
  set_env_link head (set_env_status ENV_FREE (set_env_id 0 e)).

Lemma env_init_step_run i s e :
  k_envs s !! i = Some e →
  env_init_step i s = Ok tt (with_env_free_list (Some i)
    (with_envs (<[i := env_reset (k_env_free_list s) e]> (k_envs s)) s)).
Proof.
  intros He. pose proof (lookup_lt_Some _ _ _ He). unfold env_init_step.
  mcall env_upd_run. mcall env_upd_again. cbn [k_env_free_list with_envs].
  erewrite bind_Ok by (by apply env_upd_again). done.
Qed.

(** After slots n-1 down to 0 are done the list is 0, 1, ..., followed by
    what it was. *)
Lemma env_init_loop n s fl :
  (n ≤ length (k_envs s))%nat → env_chain (k_envs s) (k_env_free_list s) fl →
  (∀ i, i ∈ fl → (n ≤ i)%nat) →
  ∃ vs h, mfor (rev (seq 0 n)) env_init_step s = Ok tt (with_env_free_list h (with_envs vs s)) ∧
    length vs = length (k_envs s) ∧ env_chain vs h (seq 0 n ++ fl) ∧
    (∀ i e, vs !! i = Some e → (i < n)%nat → env_id e = 0 ∧ env_status e = ENV_FREE) ∧
    (∀ i, (n ≤ i)%nat → vs !! i = k_envs s !! i).
Proof.
  revert s fl. induction n as [|n IH]; intros s fl Hn Hc Hfl.
  - exists (k_envs s), (k_env_free_list s). cbn. split_and!; try done; [by destruct s|].
    intros i e _ Hi. lia.
  - rewrite seq_S, rev_app_distr. cbn [rev app mfor].
    destruct (lookup_lt_is_Some_2 (k_envs s) n) as [e He]; [lia|].
    mcall env_init_step_run. set (s1 := with_env_free_list _ _).
    destruct (IH s1 (n :: fl)) as (vs & h & Hr & Hl & Hch & Hz & Ho).
    + cbn. rewrite length_insert. lia.
    + cbn. split; [done|]. eexists. split; [apply list_lookup_insert_eq; lia|].
      apply env_chain_insert; [|done]. intros Hin. specialize (Hfl _ Hin). lia.
    + intros i [->|Hi]%elem_of_cons; [lia|]. specialize (Hfl _ Hi). lia.
    + exists vs, h. rewrite Hr. split; [done|]. cbn in Hl, Ho. rewrite length_insert in Hl.
      split; [done|]. split; [by rewrite <-app_assoc|]. split.
      * intros i e' Hi Hlt. destruct (decide (i < n)%nat); [by eapply Hz|].
        rewrite Ho in Hi by lia. replace i with n in Hi by lia.
        rewrite list_lookup_insert_eq in Hi by lia. by simplify_eq.
      * intros i Hi. rewrite Ho by lia. apply list_lookup_insert_ne. lia.
Qed.

(** Env_init marks every slot free with id 0 and links them in the
    order of the array, so that the first env_alloc returns envs[0]. *)
Theorem env_init_spec s :
  length (k_envs s) = Z.to_nat NENV →
  ∃ s', env_init s = Ok tt s' ∧ env_inv s' (seq 0 (Z.to_nat NENV)) ∧
    k_env_free_list s' = Some 0%nat ∧
    (∀ i e, k_envs s' !! i = Some e → env_id e = 0) ∧
    k_pages s' = k_pages s ∧ k_mem s' = k_mem s ∧ k_cpus s' = k_cpus s.
Proof.
  intros Hlen. unfold env_init. mrun. set (s0 := with_env_free_list None s).
  destruct (env_init_loop (Z.to_nat NENV) s0 []) as (vs & h & Hr & Hl & Hc & Hz & _).
  - cbn. lia.
  - done.
  - by intros i Hi%elem_of_nil.
  - mcall Hr. eexists. split; [done|]. rewrite app_nil_r in Hc.
    cbn in Hl. assert (Hb : ∀ i e, vs !! i = Some e → (i < Z.to_nat NENV)%nat).
    { intros i e Hi%lookup_lt_Some. lia. }
    split; [|split_and!; [|intros i e Hi; by apply (Hz i e Hi (Hb _ _ Hi))|done..]].
    + constructor; cbn; [lia|done|apply NoDup_seq| |].
      * intros i e Hi. pose proof (Hb _ _ Hi). rewrite elem_of_seq.
        split; [lia|]. intros _. by apply (Hz i e Hi).
      * intros i e Hi. left. by apply (Hz i e Hi (Hb _ _ Hi)).
    + cbn. change (seq 0 (Z.to_nat NENV)) with (0%nat :: seq 1 (Z.to_nat 1023)) in Hc.
      by destruct Hc as [-> _].
Qed.

Lemma env_init_spec_witness :
  ∃ s', env_init demo_running = Ok tt s' ∧ env_inv s' (seq 0 (Z.to_nat NENV)).
Proof.
  destruct (env_init_spec demo_running demo_envs_length) as (s' & H1 & H2 & _).
  exists s'. split; [exact H1|exact H2].
Defined.

(* ------------------------------------------------------------------ *)
(** ** env_setup_vm and env_alloc *)

(** kern_pgdir, in page [KP], maps nothing below UTOP and is not free. *)
Record kern_dir (s : kst) (l : list nat) (KP : nat) : Prop := {
  kd_kva : k_kern_pgdir s = kva_of KP;
  kd_bound : Z.of_nat KP < k_npages s;
  kd_used : KP ∉ l;
  kd_empty : ∀ d, 0 ≤ d < UPDX → table_at (k_mem s) KP d = None }.

Definition setup_mem (m : mem) (D KP : nat) : mem :=
  wr32 (mem_move (mem_set m (Z.of_nat D * PGSIZE) 0 PGSIZE)
          (Z.of_nat D * PGSIZE) (Z.of_nat KP * PGSIZE) PGSIZE)
       (ent D (PDX UVPT)) (mkpte D 5).

Lemma setup_mem_rd m D KP p i :
  D ≠ KP → 0 ≤ i < 1024 →
  rd32 (setup_mem m D KP) (ent p i) =
  if bool_decide (p = D) then if i =? PDX UVPT then u32 (mkpte D 5) else rd32 m (ent KP i)
  else rd32 m (ent p i).
Proof.
  intros HDK Hi. unfold setup_mem. change (PDX UVPT) with 957. rewrite rd32_wr_ent by lia.
  case_bool_decide as H1; [destruct H1 as [-> ->]|].
  { by rewrite bool_decide_eq_true_2. }
  case_bool_decide as H2.
  - subst p. rewrite (proj2 (Z.eqb_neq i 957)) by tauto. unfold ent at 1.
    rewrite rd32_mem_move_in by lia.
    replace (Z.of_nat KP * PGSIZE + (Z.of_nat D * PGSIZE + 4 * i - Z.of_nat D * PGSIZE))
      with (ent KP i) by (unfold ent; lia).
    rewrite rd32_zero_page by lia. by rewrite bool_decide_eq_false_2 by done.
  - rewrite rd32_mem_move_out by (unfold ent; destruct (decide (p < D)%nat); lia).
    rewrite rd32_zero_page by lia. by rewrite bool_decide_eq_false_2 by done.
Qed.

Definition after_setup (e D KP : nat) (v : Env) (s : kst) : kst :=
  with_mem (setup_mem (k_mem s) D KP)
    (with_envs (<[e := set_env_pgdir (kva_of D) v]> (k_envs s))
      (with_pages (<[D := mkPage None 1]> (k_pages s))
        (with_page_free_list (k_pages s !! D ≫= pp_link) s))).

Section setup.
Context (s : kst) (l Ds : list nat) (ex : nat → Z) (D KP e : nat) (v : Env).
Hypothesis Hinv : vm_inv s (D :: l) Ds ex.
Hypothesis Hkd : kern_dir s (D :: l) KP.
Hypothesis He : k_envs s !! e = Some v.

Let Ha : alloc_inv s (D :: l) := vi_alloc _ _ _ _ Hinv.

Lemma setup_ne : D ≠ KP.
Proof. intros E. apply (kd_used _ _ _ Hkd). rewrite E. left. Qed.

Lemma setup_small : Z.of_nat D < k_npages s ∧ k_npages s ≤ 65536.
Proof. split; [eapply ai_bound; [exact Ha|left]|apply Ha]. Qed.

Lemma env_setup_vm_run : env_setup_vm e s = Ok 0 (after_setup e D KP v s).
Proof.
  pose proof setup_small as [HD Hn]. pose proof (kd_bound _ _ _ Hkd) as HKP.
  assert (Hlen : (D < length (k_pages s))%nat) by (pose proof (ai_len _ _ Ha); lia).
  unfold env_setup_vm. mcall page_alloc_cons. change (tst ALLOC_ZERO ALLOC_ZERO) with true.
  unfold after_alloc. mcall page_upd_again. change (u16 (0 + 1)) with 1.
  erewrite bind_Ok by (apply page2kva_run; cbn; lia). cbn beta.
  rewrite page2pa_mul by lia. fold (kva_of D).
  mcall env_upd_run. cbn [k_kern_pgdir with_envs with_pages with_mem with_page_free_list].
  rewrite (kd_kva _ _ _ Hkd).
  set (s1 := with_envs _ _).
  assert (Hm : kmemmove (kva_of D) (kva_of KP) PGSIZE s1 =
    Ok tt (with_mem (mem_move (k_mem s1) (Z.of_nat D * PGSIZE) (Z.of_nat KP * PGSIZE) PGSIZE) s1)).
  { unfold kmemmove, kva_of. rewrite !kphys_direct by lia. done. }
  mcall Hm. set (s2 := with_mem _ s1).
  mcall PADDR_kva. rewrite kva_ent_u32 by (change (PDX UVPT) with 957; lia).
  erewrite bind_Ok by (apply kstore_ent; [lia|change (PDX UVPT) with 957; lia]). cbn beta.
  unfold mret, M_ret, after_setup, setup_mem. f_equal. rewrite <-Z.lor_assoc.
  change (Z.lor PTE_P PTE_U) with 5. change PGSIZE with (2 ^ 12). rewrite lor_low by lia. done.
Qed.

Lemma after_setup_inv : vm_inv (after_setup e D KP v s) l (D :: Ds) ex.
Proof.
  pose proof setup_small as [HD Hn]. pose proof setup_ne as HDK.
  pose proof (NoDup_cons_1_1 _ _ (ai_nodup _ _ Ha)) as HDl.
  pose proof (free_unused _ _ _ _ D Hinv ltac:(left)) as Hfree.
  assert (Hex : ex D = 0).
  { destruct (ai_lookup _ _ D Ha HD) as [p Hp]. pose proof (vi_ref _ _ _ _ Hinv _ _ Hp).
    rewrite (ai_free _ _ Ha D p ltac:(left) Hp) in *. lia. }
  assert (Hsame : ∀ p i, p ≠ D → 0 ≤ i < 1024 →
            rd32 (setup_mem (k_mem s) D KP) (ent p i) = rd32 (k_mem s) (ent p i)).
  { intros p i Hp Hi. rewrite setup_mem_rd by done. by rewrite bool_decide_eq_false_2. }
  assert (Hnone : ∀ d, 0 ≤ d < UPDX → table_at (setup_mem (k_mem s) D KP) D d = None).
  { intros d Hd. unfold table_at. rewrite setup_mem_rd by (done || lia).
    rewrite bool_decide_eq_true_2 by done. change (PDX UVPT) with 957.
    rewrite (proj2 (Z.eqb_neq d 957)) by lia. by apply (kd_empty _ _ _ Hkd). }
  constructor.
  - eapply alloc_inv_ext, (alloc_inv_set_ref (after_alloc true D s) l D 1);
      [done| |done|by apply alloc_inv_after_alloc|done|lia].
    cbn. by rewrite list_insert_insert_eq.
  - by apply (new_dir_wf (k_mem s)); [apply Hinv|..].
  - intros q p Hq. change (k_mem (after_setup e D KP v s)) with (setup_mem (k_mem s) D KP).
    rewrite (new_dir_uses (k_mem s) _ Ds D Hfree Hsame Hnone).
    cbn in Hq. apply list_lookup_insert_Some in Hq as [(<- & <- & _)|[Hne Hq]].
    + rewrite bool_decide_eq_true_2 by done. cbn. lia.
    + rewrite bool_decide_eq_false_2 by done. cbn [zb].
      rewrite (vi_ref _ _ _ _ Hinv _ _ Hq). lia.
  - apply Hinv.
Qed.

(** The new address space is empty, the others are as they were. *)
Lemma after_setup_pte D' d t :
  0 ≤ d < UPDX → 0 ≤ t < NPTENTRIES → D' ∈ D :: Ds →
  pte_at (k_mem (after_setup e D KP v s)) D' d t =
  if bool_decide (D' = D) then 0 else pte_at (k_mem s) D' d t.
Proof.
  intros Hd Ht HD'. pose proof setup_ne as HDK.
  pose proof (free_unused _ _ _ _ D Hinv ltac:(left)) as Hfree.
  change (k_mem (after_setup e D KP v s)) with (setup_mem (k_mem s) D KP).
  case_bool_decide as E.
  - subst D'. unfold pte_at, table_at. rewrite setup_mem_rd by (done || lia).
    rewrite bool_decide_eq_true_2 by done. change (PDX UVPT) with 957.
    rewrite (proj2 (Z.eqb_neq d 957)) by lia. fold (table_at (k_mem s) KP d).
    by rewrite (kd_empty _ _ _ Hkd).
  - apply elem_of_cons in HD' as [->|HD']; [done|].
    apply (outside_pte _ _ Ds D); try done.
    intros p i Hp Hi. rewrite setup_mem_rd by done. by rewrite bool_decide_eq_false_2.
Qed.
End setup.

(** The slot that env_alloc returns. *)
Definition env_new (parent_id : Z) (i D : nat) (v : Env) : Env :=
  mkEnv env_new_tf (env_link v) (env_new_id (env_id v) i) parent_id ENV_TYPE_USER ENV_RUNNABLE 0
    (env_cpunum v) (kva_of D) 0 false (env_ipc_dstva v) (env_ipc_value v) (env_ipc_from v)
    (env_ipc_perm v).

Definition after_env_alloc (parent_id : Z) (e D KP : nat) (v : Env) (s : kst) : kst :=
  with_env_free_list (env_link v)
    (with_envs (<[e := env_new parent_id e D v]> (k_envs s)) (after_setup e D KP v s)).

Lemma env_alloc_run s l Ds ex D KP e fl v parent_id :
  vm_inv s (D :: l) Ds ex → kern_dir s (D :: l) KP → env_inv s (e :: fl) →
  k_envs s !! e = Some v →
  env_alloc parent_id s = Ok (0, Some e) (after_env_alloc parent_id e D KP v s).
Proof.
  intros H Hkd Hi He. pose proof (lookup_lt_Some _ _ _ He) as Hlt.
  destruct (ei_chain _ _ Hi) as [Hh _].
  unfold env_alloc. mrun. rewrite Hh. mcall env_setup_vm_run. change (0 <? 0) with false. cbv iota.
  erewrite bind_Ok by (apply env_upd_run; cbn; by apply list_lookup_insert_eq). cbn beta.
  cbn [k_envs after_setup with_mem with_envs]. rewrite list_insert_insert_eq.
  do 7 (erewrite bind_Ok by (by apply env_upd_again); cbn beta).
  erewrite bind_Ok by (by apply env_get_again). mrun. done.
Qed.

Lemma env_alloc_nomem s e parent_id :
  k_env_free_list s = Some e → k_page_free_list s = None →
  env_alloc parent_id s = Ok (- E_NO_MEM, None) s.
Proof.
  intros Hh Hl. unfold env_alloc. mrun. rewrite Hh. unfold env_setup_vm.
  rewrite (bind_Ok _ _ s (- E_NO_MEM) s); [done|].
  by erewrite bind_Ok by (by apply page_alloc_nil).
Qed.

Lemma after_env_alloc_inv s e fl D KP v parent_id :
  env_inv s (e :: fl) → k_envs s !! e = Some v →
  env_inv (after_env_alloc parent_id e D KP v s) fl.
Proof.
  intros [H1 (Hh & v' & Hv' & Hc) H3 H4 H5] He. rewrite He in Hv'. injection Hv' as <-.
  apply NoDup_cons in H3 as [Hne H3]. pose proof (lookup_lt_Some _ _ _ He) as Hlt.
  assert (Hold : 0 ≤ env_id v < 2 ^ 31) by (destruct (H5 _ _ He) as [->|[? _]]; lia).
  constructor; cbn.
  - by rewrite length_insert.
  - by apply env_chain_insert.
  - done.
  - intros i x Hx. apply list_lookup_insert_Some in Hx as [(-> & <- & _)|[Hx' Hx]].
    + cbn. split; [lia|]. done.
    + rewrite (H4 _ _ Hx), elem_of_cons. split; [intros [->|?]; done|by right].
  - intros i x Hx. apply list_lookup_insert_Some in Hx as [(-> & <- & _)|[Hx' Hx]].
    + right. apply env_new_id_ok; [done|]. lia.
    + by eapply H5.
Qed.

(** C22: env_alloc fails with -E_NO_FREE_ENV or -E_NO_MEM exactly when there
    is no free slot or no free page, and then changes nothing.  Otherwise
    it returns the first free slot, with a positive id that names the slot
    and differs from the slot's previous id, a user-mode trap frame with
    interrupts on, and a new, empty address space; all other slots and
    address spaces are untouched and all invariants hold. *)
Theorem env_alloc_spec s l Ds ex KP fl parent_id :
  vm_inv s l Ds ex → kern_dir s l KP → env_inv s fl →
  match fl, l with
  | [], _ => env_alloc parent_id s = Ok (- E_NO_FREE_ENV, None) s
  | _ :: _, [] => env_alloc parent_id s = Ok (- E_NO_MEM, None) s
  | e :: fl', D :: l' => ∃ v v' s', k_envs s !! e = Some v ∧
      env_alloc parent_id s = Ok (0, Some e) s' ∧
      k_envs s' = <[e := v']> (k_envs s) ∧
      id_ok e (env_id v') ∧ env_id v' ≠ env_id v ∧
      env_parent_id v' = parent_id ∧ env_status v' = ENV_RUNNABLE ∧
      env_tf v' = env_new_tf ∧ env_pgdir v' = kva_of D ∧ env_ipc_recving v' = false ∧
      env_inv s' fl' ∧ vm_inv s' l' (D :: Ds) ex ∧
      (∀ D' d t, 0 ≤ d < UPDX → 0 ≤ t < NPTENTRIES → D' ∈ D :: Ds →
         pte_at (k_mem s') D' d t = if bool_decide (D' = D) then 0 else pte_at (k_mem s) D' d t)
  end.
Proof.
  intros H Hkd Hi. destruct fl as [|e fl].
  - unfold env_alloc. mrun. by rewrite (ei_chain _ _ Hi).
  - destruct (ei_chain _ _ Hi) as (Hh & v & Hv & _). destruct l as [|D l].
    + apply (env_alloc_nomem s e); [done|exact (ai_chain _ _ (vi_alloc _ _ _ _ H))].
    + assert (Hold : 0 ≤ env_id v < 2 ^ 31)
        by (destruct (ei_id _ _ Hi _ _ Hv) as [->|[? _]]; lia).
      assert (Hlt : Z.of_nat e < NENV)
        by (pose proof (lookup_lt_Some _ _ _ Hv); pose proof (ei_len _ _ Hi); lia).
      exists v, (env_new parent_id e D v), (after_env_alloc parent_id e D KP v s).
      split_and!; try done.
      * by eapply env_alloc_run.
      * by apply env_new_id_ok.
      * by apply env_new_id_fresh.
      * by apply after_env_alloc_inv.
      * by apply (vm_inv_ext (after_setup e D KP v s)), after_setup_inv.
      * intros D' d t Hd Ht HD'. by apply (after_setup_pte s l Ds ex D KP e v).
Qed.

(** [demo_vm] with the kernel's page directory in page 5 and every slot but
    the last in use. *)
Definition demo_full_envs : list Env :=
  replicate (Z.to_nat 1023) (set_env_id 0 (demo_env 1)) ++ [demo_free_env].
Definition demo_full : kst :=
  with_env_free_list (Some (Z.to_nat 1023))
    (with_envs demo_full_envs (with_kern_pgdir (kva_of 5) demo_vm)).

Lemma demo_full_lookup i e :
  demo_full_envs !! i = Some e →
  (i = Z.to_nat 1023 ∧ e = demo_free_env) ∨
  ((i < Z.to_nat 1023)%nat ∧ e = set_env_id 0 (demo_env 1)).
Proof.
  unfold demo_full_envs. intros [H|[Hge H]]%lookup_app_Some.
  - apply lookup_replicate in H as [-> ?]. by right.
  - apply list_lookup_singleton_Some in H as [Hi <-]. rewrite length_replicate in *. left. split; [lia|done].
Qed.

Lemma demo_full_inv : env_inv demo_full [Z.to_nat 1023].
Proof.
  assert (Hl : length demo_full_envs = Z.to_nat NENV).
  { unfold demo_full_envs. rewrite length_app, length_replicate. cbn [length]. lia. }
  constructor; cbn [k_envs k_env_free_list demo_full with_env_free_list with_envs].
  - exact Hl.
  - cbn [env_chain]. split; [done|]. exists demo_free_env. split; [|done].
    unfold demo_full_envs. rewrite lookup_app_r by (rewrite length_replicate; lia).
    by rewrite length_replicate, Nat.sub_diag.
  - apply NoDup_singleton.
  - intros i e [[-> ->]|[Hi ->]]%demo_full_lookup; rewrite list_elem_of_singleton; cbn; [done|].
    split; [done|]. intros ->. lia.
  - intros i e [[-> ->]|[Hi ->]]%demo_full_lookup; by left.
Qed.

Lemma demo_full_kern : kern_dir demo_full [2%nat; 3%nat] 5.
Proof.
  constructor; try done. rewrite elem_of_cons, list_elem_of_singleton. lia.
Qed.

Lemma env_alloc_spec_witness :
  ∃ v' s', env_alloc 7 demo_full = Ok (0, Some (Z.to_nat 1023)) s' ∧
    k_envs s' = <[Z.to_nat 1023 := v']> demo_full_envs ∧ id_ok (Z.to_nat 1023) (env_id v').
Proof.
  assert (H : vm_inv demo_full [2%nat; 3%nat] [1%nat] (λ _, 0))
    by exact (vm_inv_ext demo_vm demo_full _ _ _ eq_refl eq_refl eq_refl eq_refl demo_vm_inv).
  destruct (env_alloc_spec demo_full [2%nat; 3%nat] [1%nat] (λ _, 0) 5 [Z.to_nat 1023] 7
              H demo_full_kern demo_full_inv) as (v & v' & s' & _ & Hr & He & Hid & _).
  exists v', s'. split; [exact Hr|]. split; [exact He|exact Hid].
Defined.
