(* ===== verification/EnvFree.v ===== *)
(** env_free of kern/env.c gives back every page of an address space: the
    lemmas on clearing directory entries and dropping a directory, the two
    loops, and the claim. *)

From S2P Require Import Prelude Mmu Printfmt Console KState Pmap PageTable Env.
From Stdlib Require Import ZArith Lia.
From stdpp Require Import base tactics numbers list.
Open Scope Z_scope.

(** ** Clearing a directory entry whose table maps nothing *)

Section clear_pde.
Context (m : mem) (np : Z) (Ds : list nat) (D T : nat) (d : Z).
Hypothesis Hwf : vm_wf m np Ds.
Hypothesis HD : D ∈ Ds.
Hypothesis Hd : 0 ≤ d < UPDX.
Hypothesis HT : table_at m D d = Some T.
Hypothesis Hempty : ∀ t, 0 ≤ t < NPTENTRIES → frame (rd32 m (ent T t)) = None.

Let m' := wr32 m (ent D d) 0.

Lemma clear_pde_table D' d' :
  0 ≤ d' < UPDX →
  table_at m' D' d' = if bool_decide (D' = D ∧ d' = d) then None else table_at m D' d'.
Proof.
  intros Hd'. unfold table_at, m'. rewrite rd32_wr_ent by lia. by case_bool_decide.
Qed.

Lemma clear_pde_pte D' d' t :
  D' ∈ Ds → 0 ≤ d' < UPDX → 0 ≤ t < NPTENTRIES → ¬ (D' = D ∧ d' = d) →
  pte_at m' D' d' t = pte_at m D' d' t.
Proof.
  intros HD' Hd' Ht Hne. unfold pte_at. rewrite clear_pde_table by done.
  rewrite bool_decide_eq_false_2 by done.
  destruct (table_at m D' d') as [T'|] eqn:HT'; [|done].
  unfold m'. rewrite rd32_wr_ent by lia. rewrite bool_decide_eq_false_2; [done|].
  intros [-> _]. by apply (wf_tab _ _ _ Hwf _ _ _ HD' Hd' HT').
Qed.

Lemma clear_pde_table_uses T' q : T' ∉ Ds → table_uses m' T' q = table_uses m T' q.
Proof.
  intros HT'. apply zsum_ext. intros t Ht%elem_of_seqZ. unfold m'.
  rewrite rd32_wr_ent by lia. rewrite (bool_decide_eq_false_2 (T' = D ∧ t = d)); [done|].
  intros [-> _]. done.
Qed.

Lemma clear_pde_slot D' d' q :
  D' ∈ Ds → 0 ≤ d' < UPDX →
  slot_uses m' D' q d' =
  slot_uses m D' q d' - if bool_decide (D' = D ∧ d' = d) then zb (bool_decide (T = q)) else 0.
Proof.
  intros HD' Hd'. unfold slot_uses. rewrite clear_pde_table by done.
  case_bool_decide as E.
  - destruct E as [-> ->]. rewrite HT. unfold table_uses.
    rewrite (zsum_ext _ (λ _, 0)); [rewrite zsum_zero; lia|].
    intros t Ht%elem_of_seqZ. by rewrite Hempty by lia.
  - destruct (table_at m D' d') as [T'|] eqn:HT'; [|done].
    rewrite clear_pde_table_uses; [lia|]. by apply (wf_tab _ _ _ Hwf _ _ _ HD' Hd' HT').
Qed.

Lemma clear_pde_uses q : uses m' Ds q = uses m Ds q - zb (bool_decide (T = q)).
Proof.
  unfold uses. rewrite (zsum_one (dir_uses m q) _ Ds D); [|apply Hwf|done|].
  - unfold dir_uses. rewrite (zsum_one (slot_uses m D q) (slot_uses m' D q) _ d);
      [|apply NoDup_seqZ|apply elem_of_seqZ; lia|].
    + rewrite clear_pde_slot, (bool_decide_eq_true_2 (D = D ∧ d = d)) by done. lia.
    + intros x Hx%elem_of_seqZ Hne. rewrite clear_pde_slot by (done || lia).
      rewrite (bool_decide_eq_false_2 (D = D ∧ x = d)) by tauto. lia.
  - intros D' HD' Hne. unfold dir_uses. f_equal. apply zsum_ext.
    intros x Hx%elem_of_seqZ. rewrite clear_pde_slot by (done || lia).
    rewrite (bool_decide_eq_false_2 (D' = D ∧ x = d)) by tauto. lia.
Qed.

Lemma clear_pde_wf : vm_wf m' np Ds.
Proof.
  constructor.
  - apply Hwf.
  - apply Hwf.
  - intros D' d' T' HD' Hd'. rewrite clear_pde_table by done.
    case_bool_decide; [done|]. by apply Hwf.
  - intros D1 D2 d1 d2 T' H1 H2 Hd1 Hd2. rewrite !clear_pde_table by done.
    case_bool_decide; [done|]. case_bool_decide; [done|]. by apply Hwf.
  - intros D' d' t P HD' Hd' Ht HP.
    destruct (decide (D' = D ∧ d' = d)) as [[-> ->]|Hne].
    + unfold pte_at in HP. rewrite clear_pde_table in HP by done.
      by rewrite bool_decide_eq_true_2 in HP.
    + rewrite clear_pde_pte in HP by done. by eapply (wf_map _ _ _ Hwf).
Qed.
End clear_pde.

(** ** The loops of env_free *)

Lemma page_of_PGADDR d t :
  0 ≤ d < UPDX → 0 ≤ t < NPTENTRIES →
  0 ≤ PGADDR d t 0 < UTOP ∧ PDX (PGADDR d t 0) = d ∧ PTX (PGADDR d t 0) = t.
Proof.
  intros Hd Ht. rewrite PDX_PGADDR, PTX_PGADDR by lia. rewrite PGADDR_add by lia. lia.
Qed.

(** [m'] agrees with [m] outside slot [d] of [D]. *)
Definition maps_slot (Ds : list nat) (D : nat) (d : Z) (m m' : mem) : Prop :=
  ∀ D' d' t, D' ∈ Ds → 0 ≤ d' < UPDX → 0 ≤ t < NPTENTRIES → ¬ (D' = D ∧ d' = d) →
    pte_at m' D' d' t = pte_at m D' d' t.

Lemma env_free_ptes_loop n lo s l Ds ex D d T :
  vm_inv s l Ds ex → cur_ok s → D ∈ Ds → 0 ≤ d < UPDX →
  table_at (k_mem s) D d = Some T → 0 ≤ lo → lo + Z.of_nat n ≤ NPTENTRIES →
  ∃ s' l', mfor (seqZ lo (Z.of_nat n)) (λ pteno,
      v ← kload (u32 (kva_of T + 4 * pteno));
      mwhen (tst v PTE_P) (page_remove (kva_of D) (PGADDR d pteno 0))) s = Ok tt s' ∧
    vm_inv s' l' Ds ex ∧ vm_frame s s' ∧ same_tables Ds (k_mem s) (k_mem s') ∧
    maps_slot Ds D d (k_mem s) (k_mem s') ∧
    (∀ t, lo ≤ t < lo + Z.of_nat n → frame (pte_at (k_mem s') D d t) = None) ∧
    (∀ t, 0 ≤ t < lo → pte_at (k_mem s') D d t = pte_at (k_mem s) D d t) ∧
    (∀ q, leaked s' l' q → leaked s l q).
Proof.
  revert lo s l. induction n as [|n IH]; intros lo s l H Hc HD Hd HT Hlo Hn.
  - rewrite seqZ_nil by lia. exists s, l.
    split_and!; [done|done|apply vm_frame_refl|done|done|lia|done|done].
  - destruct (page_of_PGADDR d lo Hd ltac:(lia)) as (Hva & Hpd & Hpt).
    destruct (wf_tab _ _ _ (vi_wf _ _ _ _ H) _ _ _ HD Hd HT) as [HTn _].
    pose proof (ai_max _ _ (vi_alloc _ _ _ _ H)).
    assert (HT' : table_at (k_mem s) D (PDX (PGADDR d lo 0)) = Some T) by (by rewrite Hpd).
    destruct (insert_clear s l Ds ex D T (PGADDR d lo 0) H Hc HD Hva HT')
      as (s1 & l1 & Hr & H1 & Hf1 & HS1 & Hm1 & Hn1 & Hlk1 & _).
    assert (HT1 : table_at (k_mem s1) D d = Some T) by (by rewrite HS1). rewrite Hpd, Hpt in Hn1. rewrite Hpt in Hr.
    destruct (IH (lo + 1) s1 l1) as (s2 & l2 & Hr2 & H2 & Hf2 & HS2 & Hm2 & Hn2 & Hk2 & Hlk2);
      [done|by eapply vm_frame_cur|done|done|done|lia|lia|].
    exists s2, l2. split_and!; [|done|by eapply vm_frame_trans| | | | |by auto].
    + rewrite seqZ_cons by lia. cbn [mfor].
      rewrite (bind_Ok _ _ s tt s1).
      * by replace (Z.pred (Z.of_nat (S n))) with (Z.of_nat n) by lia;
           replace (Z.succ lo) with (lo + 1) by lia.
      * rewrite kva_ent_u32 by lia. erewrite bind_Ok by (apply kload_ent; lia). exact Hr.
    + intros D' d' HD' Hd'. rewrite HS2, HS1; done.
    + intros D' d' t HD' Hd' Ht Hne. rewrite Hm2 by done. apply Hm1; try done.
      rewrite Hpd. tauto.
    + intros t Ht. destruct (decide (t = lo)) as [->|]; [|apply Hn2; lia].
      rewrite Hk2 by lia. exact Hn1.
    + intros t Ht. rewrite Hk2 by lia. apply Hm1; [done|done|lia|]. rewrite Hpd, Hpt. lia.
Qed.

Lemma pa2page_frame v T s :
  0 ≤ v < 2 ^ 32 → frame v = Some T → Z.of_nat T < k_npages s →
  pa2page (PTE_ADDR v) s = Ok T s.
Proof.
  intros Hv HT HTn. destruct (frame_inv v T Hv HT) as (_ & Ha & Hg).
  unfold pa2page. mrun. rewrite Hg, (proj2 (Z.leb_gt _ _)) by lia. by rewrite Nat2Z.id.
Qed.

(** Dropping one reference that the tables no longer hold. *)
Lemma decref_release s l Ds ex T m p :
  alloc_inv s l → vm_wf m (k_npages s) Ds → T ∉ l → k_pages s !! T = Some p → 0 < pp_ref p →
  (∀ q p', k_pages s !! q = Some p' →
     pp_ref p' = uses m Ds q + zb (bool_decide (T = q)) + ex q) → (∀ q, 0 ≤ ex q) →
  let s1 := with_mem m s in
  page_decref T s1 = Ok tt (after_decref T (pp_ref p) s1) ∧
  vm_inv (after_decref T (pp_ref p) s1) (if pp_ref p =? 1 then T :: l else l) Ds ex.
Proof.
  intros Ha Hwf HTl Hp Hr Href Hex s1. assert (Ha1 : alloc_inv s1 l) by (by eapply alloc_inv_ext, Ha).
  pose proof (ai_ref _ _ Ha _ _ Hp).
  assert (HTn : Z.of_nat T < k_npages s).
  { rewrite <-(ai_len _ _ Ha). apply lookup_lt_Some in Hp. lia. }
  split; [by eapply page_decref_run|].
  assert (Hnp : k_npages (after_decref T (pp_ref p) s1) = k_npages s)
    by (unfold after_decref; by destruct (pp_ref p =? 1)).
  assert (Hm : k_mem (after_decref T (pp_ref p) s1) = m)
    by (unfold after_decref; by destruct (pp_ref p =? 1)).
  constructor.
  - apply alloc_inv_after_decref; [done..|lia].
  - by rewrite Hm, Hnp.
  - rewrite Hm. intros q p' Hq.
    assert (Hq' : q = T ∧ pp_ref p' = pp_ref p - 1 ∨ q ≠ T ∧ k_pages s !! q = Some p').
    { revert Hq. unfold after_decref. destruct (Z.eqb_spec (pp_ref p) 1); cbn;
        intros [(-> & <- & _)|[? ?]]%list_lookup_insert_Some; cbn; auto. left. cbn. lia. }
    destruct Hq' as [[-> ->]|[Hne Hq']].
    + rewrite (Href _ _ Hp), bool_decide_eq_true_2 by done. cbn [zb]. lia.
    + rewrite (Href _ _ Hq'), bool_decide_eq_false_2 by done. cbn [zb]. lia.
  - done.
Qed.

(** One slot of the directory: unmap its pages, clear it, free its table. *)
Lemma env_free_pde_run s l Ds ex D d :
  vm_inv s l Ds ex → cur_ok s → D ∈ Ds → 0 ≤ d < UPDX →
  ∃ s' l', env_free_pde (kva_of D) d s = Ok tt s' ∧ vm_inv s' l' Ds ex ∧ vm_frame s s' ∧
    (∀ D' d', D' ∈ Ds → 0 ≤ d' < UPDX → table_at (k_mem s') D' d' =
       if bool_decide (D' = D ∧ d' = d) then None else table_at (k_mem s) D' d') ∧
    maps_slot Ds D d (k_mem s) (k_mem s') ∧
    (∀ q, leaked s' l' q → leaked s l q).
Proof.
  intros H Hc HD Hd. pose proof (ai_max _ _ (vi_alloc _ _ _ _ H)) as Hnp.
  pose proof (wf_dir _ _ _ (vi_wf _ _ _ _ H) D HD) as HDn.
  unfold env_free_pde. rewrite kva_ent_u32 by lia. erewrite bind_Ok by (apply kload_ent; lia).
  cbn beta. destruct (tst (rd32 (k_mem s) (ent D d)) PTE_P) eqn:Hp; cbn [negb].
  2: { exists s, l. split_and!; [done|done|apply vm_frame_refl| |done|done].
       intros D' d' _ _. case_bool_decide as E; [|done]. destruct E as [-> ->].
       unfold table_at, frame. by rewrite Hp. }
  set (v := rd32 (k_mem s) (ent D d)) in *.
  assert (HT : table_at (k_mem s) D d = Some (Z.to_nat (PGNUM v)))
    by (unfold table_at, frame; fold v; by rewrite Hp).
  set (T := Z.to_nat (PGNUM v)) in *.
  destruct (wf_tab _ _ _ (vi_wf _ _ _ _ H) _ _ _ HD Hd HT) as [HTn HTD].
  pose proof (KADDR_frame v T s (rd32_range _ _) HT HTn Hnp) as Hk. mcall Hk.
  destruct (env_free_ptes_loop (Z.to_nat NPTENTRIES) 0 s l Ds ex D d T)
    as (s1 & l1 & Hr1 & H1 & Hf1 & HS1 & Hm1 & Hn1 & _ & Hlk1); try done; try lia.
  rewrite Z2Nat.id in Hr1 by lia. unfold env_free_ptes.
  change (PTX (2 ^ 32 - 1) + 1) with NPTENTRIES. mcall Hr1.
  erewrite bind_Ok by (apply kstore_ent; lia). cbn beta.
  pose proof (vm_frame_npages _ _ Hf1) as Hnp1.
  assert (HT1 : table_at (k_mem s1) D d = Some T) by (by rewrite HS1).
  assert (He1 : ∀ t, 0 ≤ t < NPTENTRIES → frame (rd32 (k_mem s1) (ent T t)) = None).
  { intros t Ht. specialize (Hn1 t ltac:(lia)). unfold pte_at in Hn1. by rewrite HT1 in Hn1. }
  set (m2 := wr32 (k_mem s1) (ent D d) 0).
  pose proof (pa2page_frame v T (with_mem m2 s1) (rd32_range _ _) HT ltac:(cbn; lia)) as Hpg.
  mcall Hpg.
  pose proof (vi_alloc _ _ _ _ H1) as Ha1.
  destruct (ai_lookup s1 l1 T Ha1) as [p Hpp]; [lia|].
  pose proof (uses_table _ Ds D d T HD Hd HT1). pose proof (vi_ref _ _ _ _ H1 _ _ Hpp).
  pose proof (vi_ex _ _ _ _ H1 T).
  assert (HTl : T ∉ l1) by (intros Hin; pose proof (free_unused _ _ _ _ T H1 Hin); lia).
  destruct (decref_release s1 l1 Ds ex T m2 p) as [Hdec Hi2]; try done; [|lia| |apply H1|].
  { apply clear_pde_wf; [apply H1|done|done]. }
  { intros q p' Hq. rewrite (vi_ref _ _ _ _ H1 _ _ Hq).
    unfold m2. rewrite (clear_pde_uses _ (k_npages s1) Ds D T d); [lia|apply H1|done..]. }
  rewrite Hdec. eexists _, _. split; [done|]. split; [exact Hi2|].
  split; [|split; [|split]].
  - eapply vm_frame_trans; [exact Hf1|]. eapply vm_frame_trans; [apply vm_frame_mem|].
    apply vm_frame_decref.
  - intros D' d' HD' Hd'. rewrite after_decref_mem. cbn. unfold m2.
    rewrite clear_pde_table by done. case_bool_decide; [done|]. by apply HS1.
  - intros D' d' t HD' Hd' Ht Hne. rewrite after_decref_mem. cbn. unfold m2.
    rewrite (clear_pde_pte _ (k_npages s1) Ds D d); try done; [|apply H1]. by apply Hm1.
  - intros q Hq. apply Hlk1. eapply (after_decref_leak (with_mem m2 s1)) in Hq; [|done|lia].
    destruct Hq as (p' & Hq & Hz & Hl). by exists p'.
Qed.

(** The outer loop empties the directory. *)
Lemma env_free_loop n lo s l Ds ex D :
  vm_inv s l Ds ex → cur_ok s → D ∈ Ds → 0 ≤ lo → lo + Z.of_nat n ≤ UPDX →
  ∃ s' l', mfor (seqZ lo (Z.of_nat n)) (env_free_pde (kva_of D)) s = Ok tt s' ∧
    vm_inv s' l' Ds ex ∧ vm_frame s s' ∧
    (∀ d, 0 ≤ d < UPDX → table_at (k_mem s') D d =
       if bool_decide (lo ≤ d < lo + Z.of_nat n) then None else table_at (k_mem s) D d) ∧
    (∀ D' d t, D' ∈ Ds → D' ≠ D → 0 ≤ d < UPDX → 0 ≤ t < NPTENTRIES →
       pte_at (k_mem s') D' d t = pte_at (k_mem s) D' d t) ∧
    (∀ q, leaked s' l' q → leaked s l q).
Proof.
  revert lo s l. induction n as [|n IH]; intros lo s l H Hc HD Hlo Hn.
  - rewrite seqZ_nil by lia. exists s, l. split_and!; [done|done|apply vm_frame_refl| |done|done].
    intros d Hd. by rewrite bool_decide_eq_false_2 by lia.
  - destruct (env_free_pde_run s l Ds ex D lo H Hc HD ltac:(lia))
      as (s1 & l1 & Hr1 & H1 & Hf1 & HT1 & Hm1 & Hlk1).
    destruct (IH (lo + 1) s1 l1) as (s2 & l2 & Hr2 & H2 & Hf2 & HT2 & Hm2 & Hlk2);
      [done|by eapply vm_frame_cur|done|lia|lia|].
    exists s2, l2. split_and!; [|done|by eapply vm_frame_trans| | |by auto].
    + rewrite seqZ_cons by lia. cbn [mfor]. mcall Hr1.
      by replace (Z.pred (Z.of_nat (S n))) with (Z.of_nat n) by lia;
         replace (Z.succ lo) with (lo + 1) by lia.
    + intros d Hd. rewrite HT2, HT1 by done.
      repeat case_bool_decide; try done; lia.
    + intros D' d t HD' Hne Hd Ht. rewrite Hm2 by done. apply Hm1; [done..|]. tauto.
Qed.

(** ** Dropping an empty address space *)

Lemma zsum_perm {A} (f : A → Z) l l' : l ≡ₚ l' → zsum f l = zsum f l'.
Proof. induction 1; rewrite ?zsum_cons in *; lia. Qed.

Lemma vm_inv_perm s l Ds Ds' ex : Ds ≡ₚ Ds' → vm_inv s l Ds ex → vm_inv s l Ds' ex.
Proof.
  intros HP [Ha [W1 W2 W3 W4 W5] Hr Hx]. constructor; [done| | |done].
  - constructor.
    + by rewrite <-HP.
    + intros D. rewrite <-HP. apply W2.
    + intros D d T. rewrite <-HP. apply W3.
    + intros D D' d d' T. rewrite <-!HP. apply W4.
    + intros D d t P. rewrite <-HP. apply W5.
  - intros q p Hq. rewrite (Hr _ _ Hq). unfold uses. by rewrite (zsum_perm _ _ _ HP).
Qed.

Lemma drop_dir_uses m D Ds q :
  (∀ d, 0 ≤ d < UPDX → table_at m D d = None) →
  uses m (D :: Ds) q = uses m Ds q + zb (bool_decide (D = q)).
Proof.
  intros He. unfold uses. rewrite zsum_cons. unfold dir_uses at 1.
  rewrite (zsum_ext _ (λ _, 0)); [rewrite zsum_zero; lia|].
  intros d Hd%elem_of_seqZ. unfold slot_uses. by rewrite He by lia.
Qed.

Lemma drop_dir_wf m np D Ds : vm_wf m np (D :: Ds) → vm_wf m np Ds.
Proof.
  intros [W1 W2 W3 W4 W5]. apply NoDup_cons in W1 as [_ W1].
  assert (Hs : ∀ X, X ∈ Ds → X ∈ D :: Ds) by (intros; by right).
  constructor; try done; eauto.
  intros D' d T HD' Hd HT. destruct (W3 D' d T (Hs _ HD') Hd HT) as [? HTD]. split; [done|].
  intros Hin. by apply HTD, Hs.
Qed.

(** The slot and the list of free environments after env_free. *)
Definition env_freed (head : option nat) (v : Env) : Env :=
  set_env_link head (set_env_status ENV_FREE (set_env_pgdir 0 v)).

Lemma env_inv_freed s fl e v :
  env_inv s fl → k_envs s !! e = Some v → e ∉ fl →
  env_inv (with_env_free_list (Some e)
    (with_envs (<[e := env_freed (k_env_free_list s) v]> (k_envs s)) s)) (e :: fl).
Proof.
  intros [H1 H2 H3 H4 H5] He Hne. pose proof (lookup_lt_Some _ _ _ He) as Hlt.
  constructor; cbn.
  - by rewrite length_insert.
  - split; [done|]. eexists. split; [by apply list_lookup_insert_eq|].
    by apply env_chain_insert.
  - by apply NoDup_cons.
  - intros i x Hx. apply list_lookup_insert_Some in Hx as [(-> & <- & _)|[Hx' Hx]].
    + cbn. split; [|done]. intros _. left.
    + rewrite (H4 _ _ Hx), elem_of_cons. split; [by right|by intros [->|?]].
  - intros i x Hx. apply list_lookup_insert_Some in Hx as [(-> & <- & _)|[Hx' Hx]].
    + by apply (H5 _ _ He).
    + by eapply H5.
Qed.

Lemma vm_frame_envs s s' : vm_frame s s' → k_envs s' = k_envs s ∧
  k_env_free_list s' = k_env_free_list s ∧ k_kern_pgdir s' = k_kern_pgdir s ∧ k_cpus s' = k_cpus s.
Proof. by intros (? & ? & ? & ? & ->). Qed.

Lemma pa2page_mul D s :
  Z.of_nat D < k_npages s → k_npages s ≤ 65536 → pa2page (Z.of_nat D * PGSIZE) s = Ok D s.
Proof.
  intros HD Hn. unfold pa2page. mrun. rewrite <-page2pa_mul, PGNUM_page2pa by lia.
  rewrite (proj2 (Z.leb_gt _ _)) by lia. by rewrite Nat2Z.id.
Qed.

(** The tail of env_free, after the loops. *)
Lemma env_free_tail s l Ds D ex e v p :
  vm_inv s l (D :: Ds) ex → k_envs s !! e = Some v →
  (∀ d, 0 ≤ d < UPDX → table_at (k_mem s) D d = None) → k_pages s !! D = Some p →
  ∃ s' l', (env_upd e (set_env_pgdir 0);;
            pp ← pa2page (Z.of_nat D * PGSIZE);
            page_decref pp;;
            env_upd e (set_env_status ENV_FREE);;
            head ← mgets k_env_free_list;
            env_upd e (set_env_link head);;
            mmod (with_env_free_list (Some e))) s = Ok tt s' ∧
    vm_inv s' l' Ds ex ∧ k_mem s' = k_mem s ∧
    k_envs s' = <[e := env_freed (k_env_free_list s) v]> (k_envs s) ∧
    k_env_free_list s' = Some e ∧ (∀ q, leaked s' l' q → leaked s l q).
Proof.
  intros H He Hempty Hp. pose proof (lookup_lt_Some _ _ _ He) as Hlt.
  pose proof (vi_alloc _ _ _ _ H) as Ha. pose proof (ai_max _ _ Ha) as Hnp.
  pose proof (wf_dir _ _ _ (vi_wf _ _ _ _ H) D ltac:(left)) as HDn.
  pose proof (uses_dir (k_mem s) (D :: Ds) D ltac:(left)) as Hu.
  pose proof (vi_ref _ _ _ _ H _ _ Hp) as Hr. pose proof (vi_ex _ _ _ _ H D) as Hx.
  assert (HDl : D ∉ l) by (intros Hin; pose proof (free_unused _ _ _ _ D H Hin); lia).
  mcall env_upd_run. set (s1 := with_envs _ s).
  assert (Ha1 : alloc_inv s1 l) by (by eapply alloc_inv_ext, Ha).
  destruct (decref_release s1 l Ds ex D (k_mem s) p) as [Hdec Hi2]; try done; [|lia| |apply H|].
  { eapply drop_dir_wf, H. }
  { intros q p' Hq. rewrite (vi_ref _ _ _ _ H _ _ Hq), drop_dir_uses by done. lia. }
  erewrite bind_Ok by (apply pa2page_mul; cbn; lia). cbn beta. mcall Hdec.
  set (s2 := after_decref D (pp_ref p) _) in *.
  assert (Hf2 : vm_frame s1 s2).
  { unfold s2. eapply vm_frame_trans; [apply vm_frame_mem|]. apply vm_frame_decref. }
  destruct (vm_frame_envs _ _ Hf2) as (He2 & Hl2 & _). cbn in He2, Hl2.
  erewrite bind_Ok by (apply env_upd_run; rewrite He2; by apply list_lookup_insert_eq). mrun.
  erewrite bind_Ok by (apply env_upd_run; cbn; rewrite He2; apply list_lookup_insert_eq;
                       rewrite length_insert; done).
  eexists _, _. split; [done|]. split; [by eapply vm_inv_ext, Hi2|].
  split; [unfold s2; cbn; by rewrite after_decref_mem|]. split; [|split; [done|]].
  - cbn. rewrite He2, Hl2, !list_insert_insert_eq. done.
  - intros q Hq. assert (leaked s2 (if pp_ref p =? 1 then D :: l else l) q) as Hq2.
    { destruct Hq as (p' & Hq & Hz & Hl). exists p'. split_and!; [exact Hq|done|done]. }
    eapply (after_decref_leak (with_mem (k_mem s) s1)) in Hq2; [|exact Hp|lia].
    destruct Hq2 as (p' & Hq' & Hz & Hl). exists p'. done.
Qed.

(** ** Claim *)

(** C2: env_free returns and removes exactly the address space of the
    environment: the other address spaces are untouched and all counts are
    exact for them, every page that lost its last reference is on the free
    list (no page is leaked), and the slot, now free, heads the list of
    free environments while every other slot is unchanged. *)
Theorem env_free_spec s l fl Ds Ds' ex D e v KP :
  vm_inv s l Ds ex → env_inv s fl → cur_ok s → Ds ≡ₚ D :: Ds' →
  k_envs s !! e = Some v → env_pgdir v = kva_of D → env_status v ≠ ENV_FREE →
  k_kern_pgdir s = kva_of KP → Z.of_nat KP < 65536 →
  ∃ s' l', env_free e s = Ok tt s' ∧
    vm_inv s' l' Ds' ex ∧ env_inv s' (e :: fl) ∧
    (∀ D' d t, D' ∈ Ds' → 0 ≤ d < UPDX → 0 ≤ t < NPTENTRIES →
       pte_at (k_mem s') D' d t = pte_at (k_mem s) D' d t) ∧
    k_envs s' = <[e := env_freed (k_env_free_list s) v]> (k_envs s) ∧
    (∀ q, leaked s' l' q → leaked s l q).
Proof.
  intros H Hi Hc HP He Hpg Hst HK HKP. apply (vm_inv_perm _ _ _ _ _ HP) in H. clear Ds HP.
  assert (HD : D ∈ D :: Ds') by left.
  assert (HDs : ∀ D', D' ∈ Ds' → D' ≠ D).
  { intros D' HD' ->. pose proof (wf_nodup _ _ _ (vi_wf _ _ _ _ H)) as Hnd.
    by apply NoDup_cons in Hnd as [? _]. }
  pose proof (ai_max _ _ (vi_alloc _ _ _ _ H)) as Hnp.
  pose proof (wf_dir _ _ _ (vi_wf _ _ _ _ H) D HD) as HDn.
  unfold env_free, curenv. mrun.
  set (sel := mwhen _ _).
  assert (Hsel : ∃ s0, sel s = Ok tt s0 ∧ vm_inv s0 l (D :: Ds') ex ∧ cur_ok s0 ∧
    k_envs s0 = k_envs s ∧ k_env_free_list s0 = k_env_free_list s ∧ k_mem s0 = k_mem s ∧
    k_pages s0 = k_pages s).
  { unfold sel. destruct (bool_decide _); cbn [mwhen]; [|by exists s].
    rewrite HK. erewrite bind_Ok by (by apply PADDR_kva).
    eexists. split; [done|]. split_and!; [by eapply vm_inv_ext, H|done..]. }
  destruct Hsel as (s0 & Hs0 & H0 & Hc0 & He0 & Hfl0 & Hm0 & Hpp0). mcall Hs0.
  assert (Hv0 : k_envs s0 !! e = Some v) by (by rewrite He0).
  mcall env_get_run. rewrite Hpg. change (PDX UTOP) with 955.
  destruct (env_free_loop (Z.to_nat UPDX) 0 s0 l (D :: Ds') ex D H0 Hc0 HD)
    as (s1 & l1 & Hr1 & H1 & Hf1 & HT1 & Hm1 & Hlk1); [lia|lia|].
  rewrite Z2Nat.id in Hr1 by lia. mcall Hr1. mcall PADDR_kva.
  destruct (vm_frame_envs _ _ Hf1) as (He1 & Hfl1 & _).
  destruct (ai_lookup s1 l1 D (vi_alloc _ _ _ _ H1)) as [p Hp].
  { by eapply (wf_dir _ _ _ (vi_wf _ _ _ _ H1)). }
  destruct (env_free_tail s1 l1 Ds' D ex e v p H1) as (s2 & l2 & Hr2 & H2 & Hm2 & He2 & Hfl2 & Hlk2).
  { by rewrite He1. }
  { intros d Hd. rewrite HT1 by done. by rewrite bool_decide_eq_true_2 by lia. }
  { done. }
  exists s2, l2. split; [exact Hr2|]. split; [exact H2|].
  rewrite He1, Hfl1, He0, Hfl0 in He2. split; [|split; [|split; [exact He2|]]].
  - assert (Hefl : e ∉ fl) by (by rewrite <-(ei_status _ _ Hi _ _ He)).
    destruct (env_inv_freed s fl e v Hi He Hefl). cbn in *.
    constructor; rewrite ?He2, ?Hfl2; done.
  - intros D' d t HD' Hd Ht. rewrite Hm2, Hm1, Hm0; [done|by right|by apply HDs|done..].
  - intros q Hq. apply Hlk2, Hlk1 in Hq as (p' & Hq & Hz & Hl). exists p'. by rewrite <-Hpp0.
Qed.

(** [demo_mapped] with the environments of [demo_full]. *)
Definition demo_live : kst :=
  with_env_free_list (Some (Z.to_nat 1023))
    (with_envs demo_full_envs (with_kern_pgdir (kva_of 5) demo_mapped)).

Lemma demo_live_inv : env_inv demo_live [Z.to_nat 1023].
Proof. destruct demo_full_inv. by constructor. Qed.

Lemma demo_live_vm : vm_inv demo_live [3%nat] [1%nat] (λ _, 0).
Proof.
  exact (vm_inv_ext demo_mapped demo_live _ _ _ eq_refl eq_refl eq_refl eq_refl
           (proj1 demo_mapped_inv)).
Qed.

Lemma env_free_spec_witness :
  ∃ s' l', env_free 0 demo_live = Ok tt s' ∧ vm_inv s' l' [] (λ _, 0) ∧
    env_inv s' [0%nat; Z.to_nat 1023].
Proof.
  destruct (env_free_spec demo_live [3%nat] [Z.to_nat 1023] [1%nat] [] (λ _, 0) 1 0
              (set_env_id 0 (demo_env 1)) 5 demo_live_vm demo_live_inv I)
    as (s' & l' & Hr & Hv & He & _).
  - reflexivity.
  - reflexivity.
  - reflexivity.
  - discriminate.
  - reflexivity.
  - reflexivity.
  - exists s', l'. split; [exact Hr|]. split; [exact Hv|exact He].
Defined.
