(* ===== verification/MemInit.v ===== *)
(** The kernel's address space: mem_init, mem_init_mp and the checking
    functions of kern/pmap.c.

    The arrays pages[] and envs[] are lists of the kernel state; their
    addresses, which boot_alloc returns, are passed to where they are
    mapped.  The addresses of the linker's [end], of bootstack and of
    percpu_kstacks are parameters, and so is the value of CR0. *)

From S2P Require Import Prelude Mmu Printfmt Console KState Pmap PageTable Env.
From Stdlib Require Import ZArith Lia String.
From stdpp Require Import base tactics numbers list sets.
Open Scope Z_scope.

Abbreviation SIZEOF_PAGEINFO := 8 (only parsing).
Abbreviation SIZEOF_ENV := 124 (only parsing).
(** The physical address of nothing, ~0. *)
Abbreviation NOWHERE := 4294967295 (only parsing).

(** for (pp = page_free_list; pp; pp = pp->pp_link), with the variables that
    the loop updates. *)
Fixpoint fl_fold {A} (fuel : nat) (f : A → nat → K A) (a : A) (pp : option nat) : K A :=
  match pp with
  | None => mret a
  | Some p =>
      match fuel with
      | O => mleave Spinning
      | S fuel => a ← f a p; v ← page_get p; fl_fold fuel f a (pp_link v)
      end
  end.

(** ** check_page_free_list *)

(** The pointers of its first loop: where the next low and the next high page
    go ([None] for the variables pp1 and pp2 themselves), and pp1, pp2. *)
Record tps := mkTp { tp0 : option nat; tp1 : option nat; pp1v : option nat; pp2v : option nat }.

(** *tp[high] = v *)
Definition tp_store (high : bool) (v : option nat) (q : tps) : K tps :=
  match (if high then tp1 q else tp0 q) with
  | Some p => page_upd p (set_link v);; mret q
  | None => mret (if high then mkTp (tp0 q) (tp1 q) (pp1v q) v else mkTp (tp0 q) (tp1 q) v (pp2v q))
  end.

Definition tp_push (pdx_limit : Z) (q : tps) (p : nat) : K tps :=
  let high := pdx_limit <=? PDX (page2pa p) in
  q ← tp_store high (Some p) q;
  mret (if high then mkTp (tp0 q) (Some p) (pp1v q) (pp2v q) else mkTp (Some p) (tp1 q) (pp1v q) (pp2v q)).

Definition check_free_page (first_free_page : Z) (n : Z * Z) (p : nat) : K (Z * Z) :=
  np ← mgets k_npages;
  massert (Z.of_nat p <? np) "assertion failed: pp < pages + npages";;
  let pa := page2pa p in
  massert (negb (pa =? 0)) "assertion failed: page2pa(pp) != 0";;
  massert (negb (pa =? IOPHYSMEM)) "assertion failed: page2pa(pp) != IOPHYSMEM";;
  massert (negb (pa =? EXTPHYSMEM - PGSIZE)) "assertion failed: page2pa(pp) != EXTPHYSMEM - PGSIZE";;
  massert (negb (pa =? EXTPHYSMEM)) "assertion failed: page2pa(pp) != EXTPHYSMEM";;
  (if pa <? EXTPHYSMEM then mret tt
   else kva ← page2kva p;
        massert (first_free_page <=? kva) "assertion failed: page2kva(pp) >= first_free_page");;
  massert (negb (pa =? MPENTRY_PADDR)) "assertion failed: page2pa(pp) != MPENTRY_PADDR";;
  mret (if pa <? EXTPHYSMEM then (fst n + 1, snd n) else (fst n, snd n + 1)).

Definition check_page_free_list (kend : Z) (only_low_memory : bool) : K unit :=
  let pdx_limit := if only_low_memory then 1 else NPDENTRIES in
  fl ← mgets k_page_free_list;
  fuel ← mgets (λ s, length (k_pages s));
  if bool_decide (fl = None) then mpanic "'page_free_list' is a null pointer!" else
  mwhen only_low_memory
    (q ← fl_fold fuel (tp_push pdx_limit) (mkTp None None None None) fl;
     q ← tp_store true None q;
     q ← tp_store false (pp2v q) q;
     mmod (with_page_free_list (pp1v q)));;
  fl ← mgets k_page_free_list;
  fl_fold fuel (λ _ p, mwhen (PDX (page2pa p) <? pdx_limit)
    (kva ← page2kva p; kmemset kva 151 128)) tt fl;;
  first_free_page ← boot_alloc kend 0;
  fl ← mgets k_page_free_list;
  '(nb, ne) ← fl_fold fuel (check_free_page first_free_page) (0, 0) fl;
  massert (0 <? nb) "assertion failed: nfree_basemem > 0";;
  massert (0 <? ne) "assertion failed: nfree_extmem > 0";;
  cprintf (line "check_page_free_list() succeeded!") [].

(** ** check_page_alloc *)

(** assert((pp = page_alloc(flags))) *)
Definition must_alloc (flags : Z) : K nat :=
  o ← page_alloc flags;
  match o with Some p => mret p | None => mpanic "assertion failed: pp = page_alloc(0)" end.
(** assert(!page_alloc(0)) *)
Definition no_alloc : K unit :=
  o ← page_alloc 0; massert (bool_decide (o = None)) "assertion failed: !page_alloc(0)".

Definition massert_distinct (pp0 pp1 pp2 : nat) : K unit :=
  massert (negb (pp1 =? pp0)%nat) "assertion failed: pp1 && pp1 != pp0";;
  massert (negb (pp2 =? pp1)%nat && negb (pp2 =? pp0)%nat) "assertion failed: pp2 != pp1 && pp2 != pp0".

Definition massert_in_memory (p : nat) : K unit :=
  np ← mgets k_npages;
  massert (page2pa p <? u32 (np * PGSIZE)) "assertion failed: page2pa(pp) < npages*PGSIZE".

Definition free_count (fuel : nat) : K Z :=
  fl ← mgets k_page_free_list;
  fl_fold fuel (λ n _, mret (n + 1)) 0 fl.

(** The page filled with ones, freed and allocated with ALLOC_ZERO again. *)
Definition zero_check (pp0 : nat) : K unit :=
  kva ← page2kva pp0; kmemset kva 1 PGSIZE;;
  page_free pp0;;
  pp ← must_alloc ALLOC_ZERO;
  massert (pp0 =? pp)%nat "assertion failed: pp && pp0 == pp";;
  c ← page2kva pp;
  mfor (seqZ 0 PGSIZE) (λ i,
    a ← mderef (kphys (c + i) 1);
    b ← mgets (λ s, rd8 (k_mem s) a);
    massert (b =? 0) "assertion failed: c[i] == 0").

Definition check_page_alloc : K unit :=
  fuel ← mgets (λ s, length (k_pages s));
  nfree ← free_count fuel;
  pp0 ← must_alloc 0; pp1 ← must_alloc 0; pp2 ← must_alloc 0;
  massert_distinct pp0 pp1 pp2;;
  massert_in_memory pp0;; massert_in_memory pp1;; massert_in_memory pp2;;
  fl ← mgets k_page_free_list;
  mmod (with_page_free_list None);;
  no_alloc;;
  page_free pp0;; page_free pp1;; page_free pp2;;
  pp0 ← must_alloc 0; pp1 ← must_alloc 0; pp2 ← must_alloc 0;
  massert_distinct pp0 pp1 pp2;;
  no_alloc;;
  zero_check pp0;;
  mmod (with_page_free_list fl);;
  page_free pp0;; page_free pp1;; page_free pp2;;
  n ← free_count fuel;
  massert (nfree - n =? 0) "assertion failed: nfree == 0";;
  cprintf (line "check_page_alloc() succeeded!") [].

(** ** check_va2pa and check_kern_pgdir *)

Definition check_va2pa (pgdir va : Z) : K Z :=
  pde ← kload (u32 (pgdir + 4 * PDX va));
  if negb (tst pde PTE_P) then mret NOWHERE
  else
    p ← KADDR (PTE_ADDR pde);
    pte ← kload (u32 (p + 4 * PTX va));
    mret (if negb (tst pte PTE_P) then NOWHERE else PTE_ADDR pte).

(** assert(check_va2pa(pgdir, va) == pa) *)
Definition check_maps (pgdir va pa : Z) : K unit :=
  a ← check_va2pa pgdir (u32 va);
  massert (a =? u32 pa) "assertion failed: check_va2pa(pgdir, va) == pa".

(** for (i = 0; i < n; i += PGSIZE) *)
Definition for_pages (n : Z) (f : Z → K unit) : K unit :=
  mfor (map (λ k, k * PGSIZE) (seqZ 0 ((n + PGSIZE - 1) / PGSIZE))) f.

Definition check_pde (pgdir i : Z) : K unit :=
  v ← kload (u32 (pgdir + 4 * i));
  if (i =? PDX UVPT) || (i =? PDX (KSTACKTOP - 1)) || (i =? PDX UPAGES) || (i =? PDX UENVS)
     || (i =? PDX MMIOBASE)
  then massert (tst v PTE_P) "assertion failed: pgdir[i] & PTE_P"
  else if PDX KERNBASE <=? i then
    massert (tst v PTE_P) "assertion failed: pgdir[i] & PTE_P";;
    massert (tst v PTE_W) "assertion failed: pgdir[i] & PTE_W"
  else massert (v =? 0) "assertion failed: pgdir[i] == 0".

Definition check_kern_pgdir (pages_va envs_va kstacks : Z) : K unit :=
  pgdir ← mgets k_kern_pgdir;
  np ← mgets k_npages;
  for_pages (ROUNDUP (np * SIZEOF_PAGEINFO) PGSIZE) (λ i,
    pa ← PADDR pages_va; check_maps pgdir (UPAGES + i) (pa + i));;
  for_pages (ROUNDUP (NENV * SIZEOF_ENV) PGSIZE) (λ i,
    pa ← PADDR envs_va; check_maps pgdir (UENVS + i) (pa + i));;
  for_pages (u32 (np * PGSIZE)) (λ i, check_maps pgdir (KERNBASE + i) i);;
  mfor (seqZ 0 NCPU) (λ n,
    let base := u32 (KSTACKTOP - (KSTKSIZE + KSTKGAP) * (n + 1)) in
    for_pages KSTKSIZE (λ i,
      pa ← PADDR (kstacks + n * KSTKSIZE); check_maps pgdir (base + KSTKGAP + i) (pa + i));;
    for_pages KSTKGAP (λ i, check_maps pgdir (base + i) NOWHERE));;
  mfor (seqZ 0 NPDENTRIES) (check_pde pgdir);;
  cprintf (line "check_kern_pgdir() succeeded!") [].

(** ** check_page *)

Definition massert_ref (p : nat) (r : Z) : K unit :=
  v ← page_get p; massert (pp_ref v =? r) "assertion failed: pp->pp_ref".
(** assert(page_insert(kern_pgdir, pp, va, perm) == 0) *)
Definition must_insert (p : nat) (va perm : Z) : K unit :=
  kp ← mgets k_kern_pgdir;
  r ← page_insert kp p va perm; massert (r =? 0) "assertion failed: page_insert(...) == 0".
Definition no_insert (p : nat) (va perm : Z) : K unit :=
  kp ← mgets k_kern_pgdir;
  r ← page_insert kp p va perm; massert (r <? 0) "assertion failed: page_insert(...) < 0".
Definition must_map (va pa : Z) : K unit := kp ← mgets k_kern_pgdir; check_maps kp va pa.
(** *pgdir_walk(kern_pgdir, va, 0) *)
Definition walk_pte (va : Z) : K Z :=
  kp ← mgets k_kern_pgdir; a ← pgdir_walk kp va false; kload a.
Definition walk_clear (va : Z) : K unit :=
  kp ← mgets k_kern_pgdir; a ← pgdir_walk kp va false; kstore a 0.
Definition kern_pde (i : Z) : K Z := kp ← mgets k_kern_pgdir; kload (u32 (kp + 4 * i)).
Definition kern_pde_clear (i : Z) : K unit := kp ← mgets k_kern_pgdir; kstore (u32 (kp + 4 * i)) 0.
(** assert((pp = page_alloc(0)) && pp == p) *)
Definition must_alloc_page (p : nat) : K unit :=
  o ← page_alloc 0; massert (bool_decide (o = Some p)) "assertion failed: (pp = page_alloc(0)) && pp == p".
Definition kremove (va : Z) : K unit := kp ← mgets k_kern_pgdir; page_remove kp va.
(** assert(PTE_ADDR(kern_pgdir[0]) == page2pa(p)) *)
Definition massert_table (p : nat) : K unit :=
  v ← kern_pde 0; massert (PTE_ADDR v =? page2pa p) "assertion failed: PTE_ADDR(kern_pgdir[0]) == page2pa(pp0)".

(** The first part of check_page, on three pages and no others. *)
Definition check_page_insert (pp0 pp1 pp2 : nat) : K unit :=
  no_alloc;;
  kp ← mgets k_kern_pgdir;
  o ← page_lookup kp 0;
  massert (bool_decide (o = None)) "assertion failed: page_lookup(kern_pgdir, 0x0, &ptep) == NULL";;
  no_insert pp1 0 PTE_W;;
  page_free pp0;;
  must_insert pp1 0 PTE_W;;
  massert_table pp0;;
  must_map 0 (page2pa pp1);; massert_ref pp1 1;; massert_ref pp0 1;;
  must_insert pp2 PGSIZE PTE_W;;
  must_map PGSIZE (page2pa pp2);; massert_ref pp2 1;;
  no_alloc;;
  must_insert pp2 PGSIZE PTE_W;;
  must_map PGSIZE (page2pa pp2);; massert_ref pp2 1;;
  no_alloc;;
  v ← kern_pde (PDX PGSIZE); ptep ← KADDR (PTE_ADDR v);
  a ← pgdir_walk kp PGSIZE false;
  massert (a =? u32 (ptep + 4 * PTX PGSIZE)) "assertion failed: pgdir_walk(...) == ptep + PTX(PGSIZE)";;
  must_insert pp2 PGSIZE (Z.lor PTE_W PTE_U);;
  must_map PGSIZE (page2pa pp2);; massert_ref pp2 1;;
  w ← walk_pte PGSIZE; massert (tst w PTE_U) "assertion failed: *pgdir_walk(...) & PTE_U";;
  w ← kern_pde 0; massert (tst w PTE_U) "assertion failed: kern_pgdir[0] & PTE_U".

Definition check_page_remap (pp0 pp1 pp2 : nat) : K unit :=
  must_insert pp2 PGSIZE PTE_W;;
  w ← walk_pte PGSIZE; massert (tst w PTE_W) "assertion failed: *pgdir_walk(...) & PTE_W";;
  w ← walk_pte PGSIZE; massert (negb (tst w PTE_U)) "assertion failed: !(*pgdir_walk(...) & PTE_U)";;
  no_insert pp0 PTSIZE PTE_W;;
  must_insert pp1 PGSIZE PTE_W;;
  w ← walk_pte PGSIZE; massert (negb (tst w PTE_U)) "assertion failed: !(*pgdir_walk(...) & PTE_U)";;
  must_map 0 (page2pa pp1);; must_map PGSIZE (page2pa pp1);;
  massert_ref pp1 2;; massert_ref pp2 0;;
  must_alloc_page pp2;;
  kremove 0;;
  must_map 0 NOWHERE;; must_map PGSIZE (page2pa pp1);; massert_ref pp1 1;; massert_ref pp2 0;;
  must_insert pp1 PGSIZE 0;;
  v ← page_get pp1;
  massert (negb (pp_ref v =? 0)) "assertion failed: pp1->pp_ref";;
  massert (bool_decide (pp_link v = None)) "assertion failed: pp1->pp_link == NULL";;
  kremove PGSIZE;;
  must_map 0 NOWHERE;; must_map PGSIZE NOWHERE;; massert_ref pp1 0;; massert_ref pp2 0;;
  must_alloc_page pp1;;
  no_alloc.

Definition check_page_walk (pp0 : nat) : K unit :=
  massert_table pp0;;
  kern_pde_clear 0;;
  massert_ref pp0 1;; page_upd pp0 (set_ref 0);;
  page_free pp0;;
  let va := PGSIZE * NPDENTRIES + PGSIZE in
  kp ← mgets k_kern_pgdir;
  ptep ← pgdir_walk kp va true;
  v ← kern_pde (PDX va); ptep1 ← KADDR (PTE_ADDR v);
  massert (ptep =? u32 (ptep1 + 4 * PTX va)) "assertion failed: ptep == ptep1 + PTX(va)";;
  kern_pde_clear (PDX va);; page_upd pp0 (set_ref 0);;
  kva ← page2kva pp0; kmemset kva 255 PGSIZE;;
  page_free pp0;;
  pgdir_walk kp 0 true;;
  ptep ← page2kva pp0;
  mfor (seqZ 0 NPTENTRIES) (λ i,
    w ← kload (u32 (ptep + 4 * i)); massert (negb (tst w PTE_P)) "assertion failed: (ptep[i] & PTE_P) == 0");;
  kern_pde_clear 0;; page_upd pp0 (set_ref 0).

Definition check_mmio : K unit :=
  mm1 ← mmio_map_region 0 4097;
  mm2 ← mmio_map_region 0 4096;
  massert ((MMIOBASE <=? mm1) && (u32 (mm1 + 8096) <? MMIOLIM)) "assertion failed: mm1 in MMIO region";;
  massert ((MMIOBASE <=? mm2) && (u32 (mm2 + 8096) <? MMIOLIM)) "assertion failed: mm2 in MMIO region";;
  massert ((mm1 mod PGSIZE =? 0) && (mm2 mod PGSIZE =? 0)) "assertion failed: mm1, mm2 page-aligned";;
  massert (u32 (mm1 + 8096) <=? mm2) "assertion failed: mm1 + 8096 <= mm2";;
  must_map mm1 0;; must_map (mm1 + PGSIZE) PGSIZE;; must_map mm2 0;; must_map (mm2 + PGSIZE) NOWHERE;;
  w ← walk_pte mm1;
  massert (tst w (Z.lor (Z.lor PTE_W PTE_PWT) PTE_PCD)) "assertion failed: PTE_W|PTE_PWT|PTE_PCD";;
  w ← walk_pte mm1; massert (negb (tst w PTE_U)) "assertion failed: !(PTE_U)";;
  walk_clear mm1;; walk_clear (mm1 + PGSIZE);; walk_clear mm2.

Definition check_page : K unit :=
  pp0 ← must_alloc 0; pp1 ← must_alloc 0; pp2 ← must_alloc 0;
  massert_distinct pp0 pp1 pp2;;
  fl ← mgets k_page_free_list;
  mmod (with_page_free_list None);;
  check_page_insert pp0 pp1 pp2;;
  check_page_remap pp0 pp1 pp2;;
  check_page_walk pp0;;
  mmod (with_page_free_list fl);;
  page_free pp0;; page_free pp1;; page_free pp2;;
  check_mmio;;
  cprintf (line "check_page() succeeded!") [].

(** Reads and writes of the page at PGSIZE go through the page tables. *)
Definition check_page_installed_pgdir : K unit :=
  pp0 ← must_alloc 0; pp1 ← must_alloc 0; pp2 ← must_alloc 0;
  page_free pp0;;
  kva ← page2kva pp1; kmemset kva 1 PGSIZE;;
  kva ← page2kva pp2; kmemset kva 2 PGSIZE;;
  kp ← mgets k_kern_pgdir;
  page_insert kp pp1 PGSIZE PTE_W;;
  massert_ref pp1 1;;
  w ← uload32 PGSIZE; massert (w =? 16843009) "assertion failed: *(uint32_t *)PGSIZE == 0x01010101U";;
  page_insert kp pp2 PGSIZE PTE_W;;
  w ← uload32 PGSIZE; massert (w =? 33686018) "assertion failed: *(uint32_t *)PGSIZE == 0x02020202U";;
  massert_ref pp2 1;; massert_ref pp1 0;;
  ustore32 PGSIZE 50529027;;
  kva ← page2kva pp2;
  w ← kload kva; massert (w =? 50529027) "assertion failed: *(uint32_t *)page2kva(pp2) == 0x03030303U";;
  kremove PGSIZE;;
  massert_ref pp2 0;;
  massert_table pp0;;
  kern_pde_clear 0;;
  massert_ref pp0 1;; page_upd pp0 (set_ref 0);;
  page_free pp0;;
  cprintf (line "check_page_installed_pgdir() succeeded!") [].

(** ** mem_init *)

Definition mem_init_mp (kstacks : Z) : K unit :=
  mfor (seqZ 0 NCPU) (λ i,
    kp ← mgets k_kern_pgdir;
    pa ← PADDR (kstacks + i * KSTKSIZE);
    boot_map_region kp (KSTACKTOP - i * (KSTKSIZE + KSTKGAP) - KSTKSIZE) KSTKSIZE pa PTE_W).

(** The mappings that mem_init sets up. *)
Definition map_kernel (pages_va envs_va bootstack kstacks : Z) : K unit :=
  kp ← mgets k_kern_pgdir;
  np ← mgets k_npages;
  pa ← PADDR pages_va;
  boot_map_region kp UPAGES (np * SIZEOF_PAGEINFO) pa PTE_U;;
  pa ← PADDR envs_va;
  boot_map_region kp UENVS (NENV * SIZEOF_ENV) pa PTE_U;;
  pa ← PADDR bootstack;
  boot_map_region kp (KSTACKTOP - KSTKSIZE) KSTKSIZE pa PTE_W;;
  boot_map_region kp KERNBASE (4294967295 - KERNBASE) 0 PTE_W;;
  mem_init_mp kstacks.

Definition cr0_flags (cr0 : Z) : Z :=
  Z.land (Z.lor cr0 2147811363) (Z.lnot 12).  (* PE|PG|AM|WP|NE|MP, not TS|EM *)

Definition mem_init (kend bootstack kstacks cr0 : Z) : K unit :=
  i386_detect_memory;;
  kp ← boot_alloc kend PGSIZE;
  mmod (with_kern_pgdir kp);;
  kmemset kp 0 PGSIZE;;
  pa ← PADDR kp;
  kstore (u32 (kp + 4 * PDX UVPT)) (Z.lor (Z.lor pa PTE_U) PTE_P);;
  np ← mgets k_npages;
  pages_va ← boot_alloc kend (u32 (np * SIZEOF_PAGEINFO));
  mmod (with_pages (replicate (Z.to_nat np) (mkPage None 0)));;
  envs_va ← boot_alloc kend (NENV * SIZEOF_ENV);
  page_init kend;;
  check_page_free_list kend true;;
  check_page_alloc;;
  check_page;;
  map_kernel pages_va envs_va bootstack kstacks;;
  check_kern_pgdir pages_va envs_va kstacks;;
  pa ← PADDR kp;
  lcr3 pa;;
  check_page_free_list kend false;;
  klog (EvLcr0 (cr0_flags cr0));;
  check_page_installed_pgdir.

(* ------------------------------------------------------------------ *)
(** ** check_page_alloc succeeds *)

(** The walk over the free list counts its pages. *)
Lemma count_run l : ∀ s fuel h n,
  chain (k_pages s) h l → (length l ≤ fuel)%nat →
  fl_fold fuel (λ n _, mret (n + 1)) n h s = Ok (n + Z.of_nat (length l)) s.
Proof.
  induction l as [|i l IH]; intros s fuel h n Hc Hf.
  - cbn in Hc. subst. destruct fuel; cbn; unfold mret, M_ret; f_equal; lia.
  - destruct Hc as (-> & p & Hp & Hc). destruct fuel as [|fuel]; [cbn in Hf; lia|].
    cbn [fl_fold]. mrun. rewrite (bind_Ok _ _ _ _ _ (page_get_run i s p Hp)). cbn beta.
    rewrite IH; [|done|cbn in Hf; lia]. f_equal. cbn [length]. lia.
Qed.

Lemma free_list_length s l : alloc_inv s l → (length l ≤ length (k_pages s))%nat.
Proof.
  intros H. rewrite <- (length_seq (length (k_pages s)) 0). apply submseteq_length, NoDup_submseteq.
  { apply H. }
  intros i Hi. destruct (chain_lookup _ _ _ _ (ai_chain _ _ H) Hi) as [p Hp].
  apply elem_of_seq. apply lookup_lt_Some in Hp. lia.
Qed.

Lemma free_count_run s l : alloc_inv s l →
  free_count (length (k_pages s)) s = Ok (Z.of_nat (length l)) s.
Proof.
  intros H. unfold free_count. mrun. apply (count_run l); [apply H|by apply free_list_length].
Qed.

(** States that differ in the allocator and the memory only. *)
Section check_alloc.
Context (s : kst).
Hypothesis Hmax : k_npages s ≤ 65536.

Definition al_st (ps : list PageInfo) (h : option nat) (m : mem) : kst :=
  with_mem m (with_page_free_list h (with_pages ps s)).

Lemma must_alloc_run ps i p m flags :
  ps !! i = Some p → Z.of_nat i < k_npages s →
  must_alloc flags (al_st ps (Some i) m) = Ok i (al_st (<[i := mkPage None 0]> ps) (pp_link p)
    (if tst flags ALLOC_ZERO then mem_set m (Z.of_nat i * PGSIZE) 0 PGSIZE else m)).
Proof.
  intros Hp Hi. unfold must_alloc.
  rewrite (bind_Ok _ _ _ _ _ (page_alloc_head flags (al_st ps (Some i) m) i p eq_refl Hp Hi Hmax)).
  unfold after_alloc. cbn. rewrite Hp. cbn. by rewrite page2pa_mul by lia.
Qed.

Lemma no_alloc_run ps m : no_alloc (al_st ps None m) = Ok tt (al_st ps None m).
Proof. done. Qed.

Lemma free_run ps i h m :
  ps !! i = Some (mkPage None 0) →
  page_free i (al_st ps h m) = Ok tt (al_st (<[i := mkPage h 0]> ps) (Some i) m).
Proof. intros Hp. by rewrite page_free_unused. Qed.

Lemma in_memory_run i s' : Z.of_nat i < k_npages s → k_npages s' = k_npages s →
  massert_in_memory i s' = Ok tt s'.
Proof.
  intros Hi E. unfold massert_in_memory. mrun. rewrite E, page2pa_mul, u32_small by lia.
  by rewrite (proj2 (Z.ltb_lt _ _)) by lia.
Qed.

Lemma distinct_run a b c s' : a ≠ b → a ≠ c → b ≠ c → massert_distinct a b c s' = Ok tt s'.
Proof.
  intros. unfold massert_distinct. rewrite !(proj2 (Nat.eqb_neq _ _)) by done. done.
Qed.

Definition zeroed (c : nat) (m : mem) : mem :=
  mem_set (mem_set m (Z.of_nat c * PGSIZE) 1 PGSIZE) (Z.of_nat c * PGSIZE) 0 PGSIZE.

Lemma zero_check_run ps c h m : ps !! c = Some (mkPage None 0) → Z.of_nat c < k_npages s →
  zero_check c (al_st ps h m) = Ok tt (al_st ps h (zeroed c m)).
Proof.
  intros Hc Hi. pose proof (lookup_lt_Some _ _ _ Hc). unfold zero_check.
  rewrite (bind_Ok _ _ _ _ _ (page2kva_run c (al_st ps h m) Hi Hmax)). cbn beta.
  assert (Hm : kmemset (page2pa c + KERNBASE) 1 PGSIZE (al_st ps h m) =
    Ok tt (al_st ps h (mem_set m (Z.of_nat c * PGSIZE) 1 PGSIZE))).
  { unfold kmemset. by rewrite page2pa_mul, kphys_direct by lia. }
  rewrite (bind_Ok _ _ _ _ _ Hm). cbn beta.
  rewrite (bind_Ok _ _ _ _ _ (free_run ps c h _ Hc)). cbn beta.
  rewrite (bind_Ok _ _ _ _ _ (must_alloc_run _ c (mkPage h 0) _ ALLOC_ZERO
    ltac:(by apply list_lookup_insert_eq) Hi)). cbn beta.
  rewrite list_insert_insert_eq, list_insert_id by done. rewrite Nat.eqb_refl. cbn [massert]. mrun.
  change (tst ALLOC_ZERO ALLOC_ZERO) with true. cbv iota. cbn [pp_link]. fold (zeroed c m).
  rewrite (bind_Ok _ _ _ _ _ (page2kva_run c (al_st ps h (zeroed c m)) Hi Hmax)). cbn beta.
  apply mfor_same. intros i Hr%elem_of_seqZ. rewrite page2pa_mul by lia.
  replace (Z.of_nat c * PGSIZE + KERNBASE + i) with (Z.of_nat c * PGSIZE + i + KERNBASE) by lia.
  rewrite kphys_direct by lia. cbn [mderef]. mrun. unfold zeroed.
  change (k_mem (al_st ?x ?y ?z)) with z. by rewrite rd8_mem_set_in by lia.
Qed.
End check_alloc.

Ltac page_lookup :=
  repeat first [rewrite list_lookup_insert_eq by (rewrite ?length_insert; lia)
               | rewrite list_lookup_insert_ne by congruence].

Lemma check_page_alloc_run s a b c l :
  alloc_inv s (a :: b :: c :: l) →
  check_page_alloc s = Ok tt
    (with_log (EvCprintf (zs (line "check_page_alloc() succeeded!")) [] :: k_log s)
       (with_mem (zeroed c (k_mem s)) s)).
Proof.
  intros H. pose proof (free_count_run _ _ H) as Hn. pose proof (ai_max _ _ H) as Hmax.
  pose proof (ai_bound _ _ a H ltac:(set_solver)) as Ba.
  pose proof (ai_bound _ _ b H ltac:(set_solver)) as Bb.
  pose proof (ai_bound _ _ c H ltac:(set_solver)) as Bc.
  pose proof (ai_len _ _ H) as Hlen.
  assert (a ≠ b ∧ a ≠ c ∧ b ≠ c) as (Nab & Nac & Nbc).
  { pose proof (ai_nodup _ _ H) as Hnd. rewrite !NoDup_cons, !not_elem_of_cons in Hnd. tauto. }
  destruct (ai_chain _ _ H) as (Hh & pa & Pa & Hb & pb & Pb & Hc & pc & Pc & Hl).
  assert (∀ i p, i ∈ a :: b :: c :: l → k_pages s !! i = Some p → p = mkPage (pp_link p) 0) as Hp0.
  { intros i p Hi Hp. pose proof (ai_free _ _ H i p Hi Hp). by destruct p; cbn in *; subst. }
  rewrite (Hp0 a pa ltac:(set_solver) Pa), Hb in Pa. rewrite (Hp0 b pb ltac:(set_solver) Pb), Hc in Pb.
  rewrite (Hp0 c pc ltac:(set_solver) Pc) in Pc. clear Hp0 Hb Hc.
  assert (s = al_st s (k_pages s) (Some a) (k_mem s)) as E by (rewrite <- Hh; by destruct s).
  unfold check_page_alloc. mrun. rewrite (bind_Ok _ _ _ _ _ Hn). cbn beta. rewrite E at 1.
  (* the pages as they come off the list and go back *)
  do 3 (erewrite bind_Ok by (apply must_alloc_run; [done|page_lookup; eassumption|done]); cbn beta;
        change (tst 0 ALLOC_ZERO) with false; cbn [pp_link]).
  erewrite bind_Ok by (apply distinct_run; done). cbn beta.
  do 3 (erewrite bind_Ok by (apply (in_memory_run s); done); cbn beta). mrun.
  change (with_page_free_list None (al_st s ?ps ?h ?m)) with (al_st s ps None m).
  erewrite bind_Ok by apply no_alloc_run. cbn beta.
  do 3 (erewrite bind_Ok by (apply free_run; by page_lookup); cbn beta).
  do 3 (erewrite bind_Ok by (apply must_alloc_run; [done|by page_lookup|done]); cbn beta;
        change (tst 0 ALLOC_ZERO) with false; cbn [pp_link]).
  erewrite bind_Ok by (apply distinct_run; done). cbn beta.
  erewrite bind_Ok by apply no_alloc_run. cbn beta.
  erewrite bind_Ok by (apply zero_check_run; [done|by page_lookup|done]). cbn beta. mrun.
  change (k_page_free_list (al_st s ?ps ?h ?m)) with h.
  change (with_page_free_list ?h (al_st s ?ps None ?m)) with (al_st s ps h m).
  do 3 (erewrite bind_Ok by (apply free_run; by page_lookup); cbn beta).
  match goal with |- context [al_st s ?ps _ _] => assert (ps = k_pages s) as -> end.
  { apply list_eq. intros i.
    destruct (decide (i = a)) as [->|]; [by page_lookup|]. destruct (decide (i = b)) as [->|]; [by page_lookup|].
    destruct (decide (i = c)) as [->|]; by page_lookup. }
  rewrite <- Hh. change (al_st s (k_pages s) (k_page_free_list s) ?m) with (with_mem m s).
  rewrite (bind_Ok _ _ _ (Z.of_nat (length (a :: b :: c :: l))) (with_mem (zeroed c (k_mem s)) s)).
  - rewrite Z.sub_diag. done.
  - change (k_pages s) with (k_pages (with_mem (zeroed c (k_mem s)) s)).
    apply free_count_run. by apply (alloc_inv_ext s).
Qed.

(** With fewer than three free pages its third allocation at the latest fails. *)
Lemma must_alloc_none s : k_page_free_list s = None →
  must_alloc 0 s = Panic "assertion failed: pp = page_alloc(0)".
Proof. intros H. unfold must_alloc. by rewrite (bind_Ok _ _ _ _ _ (page_alloc_nil 0 s H)). Qed.

Lemma must_alloc_cons s i l : alloc_inv s (i :: l) →
  must_alloc 0 s = Ok i (after_alloc false i s) ∧ alloc_inv (after_alloc false i s) l.
Proof.
  intros H. split; [|by apply alloc_inv_after_alloc].
  unfold must_alloc. by rewrite (bind_Ok _ _ _ _ _ (page_alloc_cons 0 s i l H)).
Qed.

Lemma check_page_alloc_short s l : alloc_inv s l → (length l < 3)%nat →
  check_page_alloc s = Panic "assertion failed: pp = page_alloc(0)".
Proof.
  intros H Hl. unfold check_page_alloc. mrun.
  rewrite (bind_Ok _ _ _ _ _ (free_count_run _ _ H)). cbn beta.
  destruct l as [|a [|b [|c l]]]; [| | |cbn in Hl; lia].
  - apply bind_Panic, must_alloc_none, (ai_chain _ _ H).
  - destruct (must_alloc_cons _ _ _ H) as [Ha H1]. rewrite (bind_Ok _ _ _ _ _ Ha).
    apply bind_Panic, must_alloc_none, (ai_chain _ _ H1).
  - destruct (must_alloc_cons _ _ _ H) as [Ha H1]. rewrite (bind_Ok _ _ _ _ _ Ha).
    destruct (must_alloc_cons _ _ _ H1) as [Hb H2]. rewrite (bind_Ok _ _ _ _ _ Hb).
    apply bind_Panic, must_alloc_none, (ai_chain _ _ H2).
Qed.

(** Check_page_alloc, the allocator's self-test, returns exactly when the
    free list has three pages: then the free list and pages[] are as before
    and only one free page's contents have changed, to zeroes; with fewer
    pages it panics. *)
Theorem check_page_alloc_spec s l :
  alloc_inv s l →
  if (3 <=? length l)%nat then
    ∃ s' c, check_page_alloc s = Ok tt s' ∧ alloc_inv s' l ∧ k_pages s' = k_pages s ∧ c ∈ l ∧
      ∀ x, rd8 (k_mem s') x = if x / PGSIZE =? Z.of_nat c then 0 else rd8 (k_mem s) x
  else ∃ msg, check_page_alloc s = Panic msg.
Proof.
  intros H. destruct (Nat.leb_spec 3 (length l)) as [Hl|Hl].
  - destruct l as [|a [|b [|c l]]]; cbn in Hl; try lia.
    eexists _, c. split; [by eapply check_page_alloc_run|]. split; [by apply (alloc_inv_ext s)|].
    split; [done|]. split; [set_solver|]. intros x. cbn. unfold zeroed.
    pose proof (Z.div_mod x PGSIZE). pose proof (Z.mod_pos_bound x PGSIZE).
    destruct (Z.eqb_spec (x / PGSIZE) (Z.of_nat c)).
    + by rewrite rd8_mem_set_in by lia.
    + by rewrite !rd8_mem_set_out by lia.
  - eexists. by eapply check_page_alloc_short.
Qed.

Lemma check_page_alloc_spec_witness :
  ∃ s l s' c, alloc_inv s l ∧ check_page_alloc s = Ok tt s' ∧ c ∈ l ∧ rd8 (k_mem s') (Z.of_nat c * PGSIZE) = 0.
Proof.
  destruct (page_init_run 0 (demo_kernel 16 10 49152) 49152) as (ps & h & _ & Hi);
    [reflexivity|cbn; lia|reflexivity|lia|vm_compute; discriminate|vm_compute; discriminate|].
  destruct (check_page_alloc_spec _ _ Hi) as (s' & c & Hr & _ & _ & Hc & Hm).
  eexists _, _, s', c. split; [exact Hi|]. split; [exact Hr|]. split; [exact Hc|].
  rewrite Hm, Z.div_mul by lia. by rewrite Z.eqb_refl.
Defined.
