(* ===== verification/KernMap.v ===== *)
(** The address space that mem_init sets up: boot_map_region maps a region
    page by page and nothing else, the mappings of mem_init and mem_init_mp
    give the layout of inc/memlayout.h, and the checks that mem_init runs on
    the result succeed. *)

From S2P Require Import Prelude Mmu Printfmt Console KState Pmap PageTable Env MemInit.
From Stdlib Require Import ZArith Lia String.
From stdpp Require Import base tactics numbers list sets.
Open Scope Z_scope.

(** ** The kernel's page directory *)

(** The directory entry of UVPT refers to the directory itself; the others
    refer to tables. *)
Abbreviation UVPDX := 957 (only parsing).
Definition pdx_ok (d : Z) : Prop := 0 ≤ d < NPDENTRIES ∧ d ≠ UVPDX.

(** Virtual pages by number. *)
Definition vpage_ok (n : Z) : Prop := 0 ≤ n < 1048576 ∧ n / NPTENTRIES ≠ UVPDX.

(** A directory in page [D] whose tables are pages in use, one per entry,
    with the permissions that pgdir_walk gives them. *)
Record kdir (s : kst) (l : list nat) (D : nat) : Prop := {
  kd_alloc : alloc_inv s l;
  kd_dir : Z.of_nat D < k_npages s;
  kd_used : D ∉ l;
  kd_pde : ∀ d T, pdx_ok d → table_at (k_mem s) D d = Some T →
    rd32 (k_mem s) (ent D d) = mkpte T 7 ∧ Z.of_nat T < k_npages s ∧ (T ∉ l) ∧ T ≠ D;
  kd_inj : ∀ d d' T, pdx_ok d → pdx_ok d' →
    table_at (k_mem s) D d = Some T → table_at (k_mem s) D d' = Some T → d = d';
  kd_cur : cur_ok s }.

Lemma vpage_pdx n : vpage_ok n → pdx_ok (n / NPTENTRIES).
Proof.
  intros [H ?]. split; [|done].
  split; [apply Z.div_pos; lia|apply Z.div_lt_upper_bound; lia].
Qed.
(** Case analysis on the comparisons of the goal, without the cases that
    arithmetic excludes. *)
Ltac zcases :=
  repeat (match goal with
          | |- context [?a <=? ?b] => destruct (Z.leb_spec a b)
          | |- context [?a <? ?b] => destruct (Z.ltb_spec a b)
          end; cbn [andb]; try (exfalso; lia)).

(** Pages that are neither the directory, nor one of its tables, nor free. *)
Definition not_dir (s : kst) (l : list nat) (D q : nat) : Prop :=
  q ≠ D ∧ (q ∉ l) ∧ ∀ d, pdx_ok d → table_at (k_mem s) D d ≠ Some q.

(** ** Writing an entry, and a new table *)

Section kwrite.
Context (s : kst) (l : list nat) (D T : nat) (n v : Z).
Hypothesis H : kdir s l D.
Hypothesis Hn : vpage_ok n.
Hypothesis HT : table_at (k_mem s) D (n / NPTENTRIES) = Some T.

Let m' := wr32 (k_mem s) (ent T (n mod NPTENTRIES)) v.
Let T_D : T ≠ D := proj2 (proj2 (proj2 (kd_pde _ _ _ H _ _ (vpage_pdx _ Hn) HT))).

Lemma kwrite_pde d : 0 ≤ d < NPDENTRIES → rd32 m' (ent D d) = rd32 (k_mem s) (ent D d).
Proof.
  intros ?. pose proof (vpage_ptx n). unfold m'. rewrite rd32_wr_ent by lia.
  by rewrite bool_decide_eq_false_2 by (intros [? _]; done).
Qed.

Lemma kwrite_table d : pdx_ok d → table_at m' D d = table_at (k_mem s) D d.
Proof. intros [Hd _]. unfold table_at. by rewrite kwrite_pde. Qed.

Lemma kwrite_pte n' : vpage_ok n' →
  vpte m' D n' = if bool_decide (n' = n) then u32 v else vpte (k_mem s) D n'.
Proof.
  intros Hn'. pose proof (vpage_pdx _ Hn'). pose proof (vpage_ptx n). pose proof (vpage_ptx n').
  unfold vpte, pte_at. rewrite kwrite_table by done. case_bool_decide as Hc.
  - subst n'. rewrite HT. unfold m'. rewrite rd32_wr_ent by lia.
    by rewrite bool_decide_eq_true_2.
  - destruct (table_at (k_mem s) D (n' / NPTENTRIES)) as [T'|] eqn:HT'; [|done].
    unfold m'. rewrite rd32_wr_ent by lia. rewrite bool_decide_eq_false_2; [done|].
    intros [-> He]. apply Hc, vpage_eq; [|done].
    by apply (kd_inj _ _ _ H _ _ T); [|apply vpage_pdx|..].
Qed.

Lemma kwrite_inv : kdir (with_mem m' s) l D.
Proof.
  constructor; cbn; try apply H.
  - by apply (alloc_inv_ext s), H.
  - intros d T'. intros Hd. rewrite kwrite_table, kwrite_pde by (done || apply Hd). by apply H.
  - intros d d' T' Hd Hd'. rewrite !kwrite_table by done. by apply H.
Qed.

Lemma kwrite_same q : not_dir s l D q → page_same q (k_mem s) m'.
Proof.
  intros (_ & _ & Hq). apply page_same_wr; [|apply vpage_ptx].
  intros ->. by apply (Hq (n / NPTENTRIES)); [apply vpage_pdx|].
Qed.
End kwrite.

Section knew.
Context (s : kst) (l : list nat) (D T : nat) (d : Z).
Hypothesis H : kdir s (T :: l) D.
Hypothesis Hd : pdx_ok d.
Hypothesis HN : table_at (k_mem s) D d = None.

Let T_D : D ≠ T := proj1 (proj1 (not_elem_of_cons _ _ _) (kd_used _ _ _ H)).

Lemma knew_rd p i : 0 ≤ i < 1024 →
  rd32 (new_table_mem (k_mem s) D d T) (ent p i) =
  if bool_decide (p = D ∧ i = d) then mkpte T 7
  else if bool_decide (p = T) then 0 else rd32 (k_mem s) (ent p i).
Proof.
  intros Hi. destruct Hd as [? _]. destruct (new_small _ _ _ (kd_alloc _ _ _ H)).
  unfold new_table_mem. rewrite rd32_wr_ent, rd32_zero_page by done.
  case_bool_decide; [|done]. apply u32_small. unfold mkpte. lia.
Qed.

Lemma knew_pde d' : 0 ≤ d' < NPDENTRIES →
  rd32 (new_table_mem (k_mem s) D d T) (ent D d') =
  if bool_decide (d' = d) then mkpte T 7 else rd32 (k_mem s) (ent D d').
Proof.
  intros Hd'. rewrite knew_rd by done. rewrite (bool_decide_eq_false_2 (D = T)) by done.
  destruct (decide (d' = d)) as [->|Hne].
  - by rewrite !bool_decide_eq_true_2.
  - by rewrite !bool_decide_eq_false_2 by (try intros [_ ?]; done).
Qed.

Lemma knew_table d' : pdx_ok d' →
  table_at (new_table_mem (k_mem s) D d T) D d' =
  if bool_decide (d' = d) then Some T else table_at (k_mem s) D d'.
Proof.
  intros Hd'. destruct (new_small _ _ _ (kd_alloc _ _ _ H)).
  unfold table_at. rewrite knew_pde by apply Hd'. case_bool_decide; [|done].
  by apply frame_mkpte; lia || done.
Qed.

Lemma knew_pte n : vpage_ok n → vpte (new_table_mem (k_mem s) D d T) D n = vpte (k_mem s) D n.
Proof.
  intros Hn. pose proof (vpage_pdx _ Hn). pose proof (vpage_ptx n).
  unfold vpte, pte_at. rewrite knew_table by done. case_bool_decide as Hc.
  - rewrite Hc, HN, knew_rd by done.
    rewrite bool_decide_eq_false_2 by (by intros [? _]). by rewrite bool_decide_eq_true_2.
  - destruct (table_at (k_mem s) D (n / NPTENTRIES)) as [T'|] eqn:HT'; [|done]. rewrite knew_rd by done.
    destruct (kd_pde _ _ _ H _ _ ltac:(done) HT') as (_ & _ & Hl & HD).
    apply not_elem_of_cons in Hl as [? _].
    by rewrite !bool_decide_eq_false_2 by (try intros [? _]; done).
Qed.

Lemma knew_inv : kdir (walk_new D d T s) l D.
Proof.
  pose proof (kd_alloc _ _ _ H) as Ha. destruct (new_small _ _ _ Ha).
  assert (Hl : ∀ d' T', pdx_ok d' → table_at (k_mem s) D d' = Some T' → T' ≠ T).
  { intros d' T' Hd' HT'. destruct (kd_pde _ _ _ H _ _ Hd' HT') as (_ & _ & Hl & _).
    by apply not_elem_of_cons in Hl as [? _]. }
  constructor; cbn.
  - by apply walk_new_alloc.
  - apply H.
  - by destruct (proj1 (not_elem_of_cons _ _ _) (kd_used _ _ _ H)).
  - intros d' T' Hd'. rewrite knew_table, knew_pde by (done || apply Hd'). case_bool_decide as Hc.
    + intros [= <-]. split_and!; [done..| |done].
      by apply NoDup_cons_1_1, (ai_nodup _ _ Ha).
    + intros HT'. destruct (kd_pde _ _ _ H _ _ Hd' HT') as (? & ? & Hl' & ?).
      by apply not_elem_of_cons in Hl' as [_ ?].
  - intros d1 d2 T' Hd1 Hd2. rewrite !knew_table by done. repeat case_bool_decide.
    + by subst.
    + intros [= <-] HT'. by destruct (Hl _ _ Hd2 HT').
    + intros HT' [= <-]. by destruct (Hl _ _ Hd1 HT').
    + by apply H.
  - eapply vm_frame_cur, H. apply vm_frame_walk_new.
Qed.

Lemma knew_same q : not_dir s (T :: l) D q → page_same q (k_mem s) (new_table_mem (k_mem s) D d T).
Proof. intros (? & [??]%not_elem_of_cons & _). by apply page_same_new; [| |apply Hd]. Qed.
End knew.

(** ** What a sequence of mappings does *)

(** From [s] to [s'] the entries of pages change as [upd] says; tables are
    taken from the free list, one for each entry of [ds] that gets one. *)
Record kmapped (ds : list Z) (D : nat) (s : kst) (l : list nat) (s' : kst) (l' : list nat)
    (upd : Z → option Z) : Prop := {
  km_dir : kdir s' l' D;
  km_frame : vm_frame s s';
  km_pte : ∀ n, vpage_ok n → vpte (k_mem s') D n = default (vpte (k_mem s) D n) (upd n);
  km_out : ∀ d, 0 ≤ d < NPDENTRIES → d ∉ ds → rd32 (k_mem s') (ent D d) = rd32 (k_mem s) (ent D d);
  km_count : (length l' + missing (k_mem s) D ds = length l + missing (k_mem s') D ds)%nat;
  km_same : ∀ q, not_dir s l D q → page_same q (k_mem s) (k_mem s') ∧ not_dir s' l' D q }.

Lemma kmapped_refl ds D s l : kdir s l D → kmapped ds D s l s l (λ _, None).
Proof. intros H. constructor; try done. apply vm_frame_refl. Qed.

Lemma kmapped_trans ds D s1 l1 s2 l2 s3 l3 f g :
  kmapped ds D s1 l1 s2 l2 f → kmapped ds D s2 l2 s3 l3 g →
  kmapped ds D s1 l1 s3 l3 (λ n, match g n with Some v => Some v | None => f n end).
Proof.
  intros [] []. constructor; try done.
  - by eapply vm_frame_trans.
  - intros n Hn. rewrite km_pte1 by done. destruct (g n); [done|]. cbn. by apply km_pte0.
  - intros d Hd Ho. by rewrite km_out1, km_out0.
  - lia.
  - intros q Hq. destruct (km_same0 q Hq) as [Hs Hq2]. destruct (km_same1 q Hq2) as [Hs' ?].
    split; [by eapply page_same_trans|done].
Qed.

Lemma kmapped_ext ds D s l s' l' f g :
  (∀ n, vpage_ok n → f n = g n) → kmapped ds D s l s' l' f → kmapped ds D s l s' l' g.
Proof. intros E []. constructor; try done. intros n Hn. rewrite <- E by done. by apply km_pte0. Qed.

(** The log is not part of the address space. *)
Lemma kdir_log s l D lg : kdir s l D → kdir (with_log lg s) l D.
Proof. intros []. constructor; try done. by apply (alloc_inv_ext s). Qed.

Lemma kmapped_log ds D s l s' l' f lg :
  kmapped ds D (with_log lg s) l s' l' f → kmapped ds D s l s' l' f.
Proof. by intros []. Qed.

(** Writing an entry of a table that is there. *)
Lemma kwrite_mapped ds D s l T n v :
  kdir s l D → vpage_ok n → table_at (k_mem s) D (n / NPTENTRIES) = Some T → (∀ d, d ∈ ds → pdx_ok d) →
  kmapped ds D s l (with_mem (wr32 (k_mem s) (ent T (n mod NPTENTRIES)) v) s) l
    (λ n', if bool_decide (n' = n) then Some (u32 v) else None).
Proof.
  intros H Hn HT Hds. constructor; cbn.
  - by apply kwrite_inv.
  - apply vm_frame_mem.
  - intros n' Hn'. rewrite (kwrite_pte s l) by done. by case_bool_decide.
  - intros d Hd _. by apply (kwrite_pde s l D T n v).
  - f_equal. apply filter_length_ext. intros d Hd. unfold has_table.
    by rewrite (kwrite_table s l D T n v) by auto.
  - intros q Hq. split; [by apply (kwrite_same s l D T n v)|].
    destruct Hq as (? & ? & Hq). split_and!; [done..|]. cbn. intros d Hd.
    rewrite (kwrite_table s l D T n v) by done. by apply Hq.
Qed.

(** A table for an entry that has none. *)
Lemma knew_mapped ds D s l T d :
  kdir s (T :: l) D → pdx_ok d → table_at (k_mem s) D d = None →
  NoDup ds → d ∈ ds → (∀ d, d ∈ ds → pdx_ok d) →
  kmapped ds D s (T :: l) (walk_new D d T s) l (λ _, None).
Proof.
  intros H Hd HN Hnd Hin Hds. constructor; cbn.
  - by apply knew_inv.
  - apply vm_frame_walk_new.
  - intros n Hn. by apply (knew_pte s l).
  - intros d' Hd' Ho. rewrite (knew_pde s l) by done.
    by rewrite bool_decide_eq_false_2 by (by intros ->).
  - rewrite (missing_one (k_mem s) (new_table_mem (k_mem s) D d T) D ds d); [lia|done..| | |].
    + unfold has_table. rewrite HN. by apply bool_decide_eq_false_2, is_Some_None.
    + unfold has_table. rewrite (knew_table s l) by done.
      rewrite (bool_decide_eq_true_2 (d = d)) by done. by apply bool_decide_eq_true_2.
    + intros d' Hd' Hne. unfold has_table. rewrite (knew_table s l) by auto.
      by rewrite (bool_decide_eq_false_2 (d' = d)).
  - intros q Hq. split; [by apply (knew_same s l)|].
    destruct Hq as (? & [? ?]%not_elem_of_cons & Hq). split_and!; [done..|]. cbn. intros d' Hd'.
    rewrite (knew_table s l) by done. case_bool_decide; [congruence|]. by apply Hq.
Qed.

(** ** boot_map_region *)

Lemma pte_word P perm : 0 ≤ P < 1048576 → 0 ≤ perm < PGSIZE →
  u32 (Z.lor (Z.lor (P * PGSIZE) PTE_P) perm) = P * PGSIZE + Z.lor PTE_P perm.
Proof.
  intros HP Hp. rewrite <- Z.lor_assoc. change PGSIZE with (2 ^ 12).
  assert (0 ≤ Z.lor PTE_P perm < 2 ^ 12) by (apply lor_range; lia).
  rewrite lor_low by lia. apply u32_small. lia.
Qed.

Section region.
Context (ds : list Z) (D : nat) (perm : Z).
Hypothesis Hnd : NoDup ds.
Hypothesis Hds : ∀ d, d ∈ ds → pdx_ok d.
Hypothesis Hperm : 0 ≤ perm < PGSIZE.

(** pgdir_walk finds the table of page [n], or makes one. *)
Lemma kwalk s l n :
  kdir s l D → vpage_ok n → n / NPTENTRIES ∈ ds → (missing (k_mem s) D ds ≤ length l)%nat →
  ∃ T s' l', pgdir_walk (kva_of D) (n * PGSIZE) true s = Ok (kva_of T + 4 * (n mod NPTENTRIES)) s' ∧
    Z.of_nat T < k_npages s ∧
    table_at (k_mem s') D (n / NPTENTRIES) = Some T ∧ kmapped ds D s l s' l' (λ _, None).
Proof.
  intros H Hn Hin Hm. pose proof (vpage_pdx _ Hn). destruct Hn as [Hn _].
  pose proof (ai_max _ _ (kd_alloc _ _ _ H)). pose proof (kd_dir _ _ _ H).
  rewrite <- (PTX_vpage n), <- (PDX_vpage n) in * by done.
  destruct (table_at (k_mem s) D (PDX (n * PGSIZE))) as [T|] eqn:HT.
  - destruct (kd_pde _ _ _ H _ _ ltac:(done) HT) as (_ & ? & _).
    exists T, s, l. split; [apply walk_table; done || lia|]. split_and!; try done.
    by apply kmapped_refl.
  - destruct l as [|T l].
    { exfalso. unfold missing in Hm. cbn in Hm. apply Nat.le_0_r, length_zero_iff_nil in Hm.
      assert (PDX (n * PGSIZE) ∈ List.filter (λ d, negb (has_table (k_mem s) D d)) ds) as He.
      { rewrite list_elem_of_In, List.filter_In, <- list_elem_of_In. split; [done|].
        unfold has_table. rewrite HT. by rewrite bool_decide_eq_false_2 by apply is_Some_None. }
      rewrite Hm in He. by apply elem_of_nil in He. }
    destruct (new_small _ _ _ (kd_alloc _ _ _ H)).
    exists T, (walk_new D (PDX (n * PGSIZE)) T s), l.
    split; [eapply walk_fresh; [apply H|lia|done]|]. split; [done|].
    split; [|by apply knew_mapped]. cbn. rewrite (knew_table s l) by done.
    by rewrite bool_decide_eq_true_2.
Qed.

(** One page of boot_map_region. *)
Lemma boot_map_page_run s l va pa i n P :
  kdir s l D → vpage_ok n → n / NPTENTRIES ∈ ds → (missing (k_mem s) D ds ≤ length l)%nat →
  u32 (va + i) = n * PGSIZE → u32 (pa + i) = P * PGSIZE → 0 ≤ P < 1048576 →
  ∃ s' l', boot_map_page (kva_of D) va pa perm i s = Ok tt s' ∧
    kmapped ds D s l s' l'
      (λ n', if bool_decide (n' = n) then Some (P * PGSIZE + Z.lor PTE_P perm) else None).
Proof.
  intros H Hn Hin Hm Eva Epa HP.
  destruct (tlb_invalidate_run (kva_of D) (n * PGSIZE) s (kd_cur _ _ _ H)) as [lg Hlg].
  destruct (kwalk (with_log lg s) l n) as (T & s1 & l1 & Hw & HTn & HT & Hk); [by apply kdir_log|done..|].
  pose proof (vpage_ptx n). pose proof (ai_max _ _ (kd_alloc _ _ _ H)).
  eexists _, l1. split.
  - unfold boot_map_page. rewrite Eva, Epa. rewrite (bind_Ok _ _ _ _ _ Hlg). cbn beta.
    rewrite (bind_Ok _ _ _ _ _ Hw). cbn beta. cbn in HTn. rewrite kstore_ent by lia.
    by rewrite pte_word.
  - assert (u32 (P * PGSIZE + Z.lor PTE_P perm) = P * PGSIZE + Z.lor PTE_P perm) as E.
    { assert (0 ≤ Z.lor PTE_P perm < 2 ^ 12) by (apply lor_range; lia). apply u32_small. lia. }
    eapply kmapped_ext; [|eapply kmapped_trans; [eapply kmapped_log, Hk|]];
      [|apply kwrite_mapped; [apply Hk|done..]].
    intros n' _. cbn. rewrite E. by case_bool_decide.
Qed.

(** The entries of a region of [c] pages at [n] that maps the frames at [p]. *)
Definition region (n p c : Z) (n' : Z) : option Z :=
  if (n <=? n') && (n' <? n + c) then Some ((p + (n' - n)) * PGSIZE + Z.lor PTE_P perm) else None.

Lemma boot_map_loop n p (c : nat) : ∀ s l i,
  0 ≤ i → 0 ≤ p → p + i + Z.of_nat c ≤ 1048576 → 0 ≤ n → n + i + Z.of_nat c ≤ 1048576 →
  (∀ j, i ≤ j < i + Z.of_nat c → vpage_ok (n + j) ∧ (n + j) / NPTENTRIES ∈ ds) →
  kdir s l D → (missing (k_mem s) D ds ≤ length l)%nat →
  ∃ s' l', mfor (map (λ k, k * PGSIZE) (seqZ i (Z.of_nat c)))
             (boot_map_page (kva_of D) (n * PGSIZE) (p * PGSIZE) perm) s = Ok tt s' ∧
    kmapped ds D s l s' l' (region (n + i) (p + i) (Z.of_nat c)).
Proof.
  induction c as [|c IH]; intros s l i Hi Hp Hpc Hn Hnc Hj H Hm.
  - exists s, l. split; [done|]. eapply kmapped_ext, kmapped_refl, H.
    intros n' _. unfold region. destruct (Z.leb_spec (n + i) n'), (Z.ltb_spec n' (n + i + Z.of_nat 0)); done || lia.
  - rewrite seqZ_cons by lia. cbn [map mfor].
    destruct (boot_map_page_run s l (n * PGSIZE) (p * PGSIZE) (i * PGSIZE) (n + i) (p + i))
      as (s1 & l1 & Hr & Hk); try done; [apply Hj; lia|apply Hj; lia| | |lia|].
    { rewrite u32_small; lia. } { rewrite u32_small; lia. }
    pose proof (km_count _ _ _ _ _ _ _ Hk).
    destruct (IH s1 l1 (Z.succ i)) as (s2 & l2 & Hr2 & Hk2); try lia.
    { intros j Hj'. apply Hj. lia. } { apply Hk. }
    exists s2, l2. rewrite (bind_Ok _ _ _ _ _ Hr). split.
    { by replace (Z.pred (Z.of_nat (S c))) with (Z.of_nat c) by lia. }
    eapply kmapped_ext; [|eapply kmapped_trans; [exact Hk|exact Hk2]].
    intros n' _. unfold region. case_bool_decide as Hc; zcases; try done; f_equal; lia.
Qed.

Lemma boot_map_region_run s l n p size :
  0 < size → 0 ≤ p → 0 ≤ n → let c := (size + PGSIZE - 1) / PGSIZE in
  p + c ≤ 1048576 → n + c ≤ 1048576 → size ≤ 2147479552 →
  (∀ j, n ≤ j < n + c → vpage_ok j ∧ j / NPTENTRIES ∈ ds) →
  kdir s l D → (missing (k_mem s) D ds ≤ length l)%nat →
  ∃ s' l', boot_map_region (kva_of D) (n * PGSIZE) size (p * PGSIZE) perm s = Ok tt s' ∧
    kmapped ds D s l s' l' (region n p c).
Proof.
  intros Hs Hp Hn c Hpc Hnc Hmax Hj H Hm.
  assert (0 ≤ c) by (apply Z.div_pos; lia).
  unfold boot_map_region. rewrite (proj2 (Z.ltb_ge _ _)) by lia.
  destruct (boot_map_loop n p (Z.to_nat c) s l 0) as (s' & l' & Hr & Hk); try lia; try done.
  { intros j Hj'. apply Hj. lia. }
  rewrite Z2Nat.id, !Z.add_0_r in * by lia. by exists s', l'.
Qed.
End region.

(** ** The kernel's mappings *)

(** The directory entries of UENVS, UPAGES, the kernel stacks and KERNBASE. *)
Definition kern_pdx : list Z := 955 :: 956 :: seqZ 959 65.

Lemma kern_pdx_iff d : d ∈ kern_pdx ↔ d = 955 ∨ d = 956 ∨ 959 ≤ d < 1024.
Proof. unfold kern_pdx. rewrite !elem_of_cons, elem_of_seqZ. lia. Qed.
Lemma kern_pdx_ok d : d ∈ kern_pdx → pdx_ok d.
Proof. rewrite kern_pdx_iff. unfold pdx_ok. lia. Qed.
Lemma kern_pdx_nodup : NoDup kern_pdx.
Proof.
  unfold kern_pdx. apply NoDup_cons. split; [rewrite elem_of_cons, elem_of_seqZ; lia|].
  apply NoDup_cons. split; [rewrite elem_of_seqZ; lia|apply NoDup_seqZ].
Qed.

(** Pages of a region by the directory entries that it lies in. *)
Lemma in_kern_pdx n :
  977920 ≤ n < 979968 ∨ 982016 ≤ n < 1048576 → vpage_ok n ∧ n / NPTENTRIES ∈ kern_pdx.
Proof.
  intros H. rewrite kern_pdx_iff. unfold vpage_ok.
  pose proof (Z.div_mod n NPTENTRIES). pose proof (Z.mod_pos_bound n NPTENTRIES). lia.
Qed.

Definition array_pages (bytes : Z) : Z := (bytes + PGSIZE - 1) / PGSIZE.

(** Page [n] of the stack of one of the CPUs [i], ..., [i + c - 1]: the frames
    of percpu_kstacks start at [kp]. *)
Definition stack_page (kp i c n : Z) : option Z :=
  let j := 983039 - n in
  if (16 * i <=? j) && (j <? 16 * (i + c)) && (j mod 16 <? 8)
  then Some ((kp + 8 * (j / 16) + (7 - j mod 16)) * PGSIZE + 3) else None.

(** The layout of inc/memlayout.h above UTOP. *)
Definition kern_layout (np pp ep kp : Z) (n : Z) : option Z :=
  if 983040 <=? n then Some ((n - 983040) * PGSIZE + 3)
  else match stack_page kp 0 NCPU n with
       | Some v => Some v
       | None =>
           if (978944 <=? n) && (n <? 978944 + array_pages (np * SIZEOF_PAGEINFO))
           then Some ((pp + (n - 978944)) * PGSIZE + 5)
           else if (977920 <=? n) && (n <? 977920 + 31)
           then Some ((ep + (n - 977920)) * PGSIZE + 5)
           else None
       end.

Lemma vm_frame_pgdir s s' : vm_frame s s' → k_kern_pgdir s' = k_kern_pgdir s.
Proof. by intros (? & ? & ? & ? & ->). Qed.

Section map_kernel.
Context (D : nat).

Abbreviation Mapped := (kmapped kern_pdx D).

Lemma map_region_run s l n p size c perm :
  0 ≤ perm < PGSIZE → 0 < size ≤ 2147479552 → (size + PGSIZE - 1) / PGSIZE = c →
  0 ≤ p → p + c ≤ 1048576 →
  977920 ≤ n ∧ n + c ≤ 979968 ∨ 982016 ≤ n ∧ n + c ≤ 1048576 →
  kdir s l D → (missing (k_mem s) D kern_pdx ≤ length l)%nat →
  ∃ s' l', boot_map_region (kva_of D) (n * PGSIZE) size (p * PGSIZE) perm s = Ok tt s' ∧
    Mapped s l s' l' (region perm n p c) ∧ (missing (k_mem s') D kern_pdx ≤ length l')%nat.
Proof.
  intros Hperm Hs <- Hp Hpc Hn H Hm.
  destruct (boot_map_region_run kern_pdx D perm) with (s := s) (l := l) (n := n) (p := p) (size := size)
    as (s' & l' & Hr & Hk); try done; try lia.
  { apply kern_pdx_nodup. } { apply kern_pdx_ok. } { intros j Hj. apply in_kern_pdx. lia. }
  exists s', l'. pose proof (km_count _ _ _ _ _ _ _ Hk). split_and!; [done..|lia].
Qed.

(** The stacks of [c] CPUs from CPU [i] on. *)
Lemma stacks_run (kp c : nat) : ∀ s l i,
  0 ≤ i → i + Z.of_nat c ≤ NCPU → Z.of_nat kp + 8 * NCPU ≤ 65536 → k_kern_pgdir s = kva_of D →
  kdir s l D → (missing (k_mem s) D kern_pdx ≤ length l)%nat →
  ∃ s' l', mfor (seqZ i (Z.of_nat c)) (λ i,
      kp' ← mgets k_kern_pgdir;
      pa ← PADDR (kva_of kp + i * KSTKSIZE);
      boot_map_region kp' (KSTACKTOP - i * (KSTKSIZE + KSTKGAP) - KSTKSIZE) KSTKSIZE pa PTE_W) s = Ok tt s' ∧
    Mapped s l s' l' (stack_page (Z.of_nat kp) i (Z.of_nat c)).
Proof.
  induction c as [|c IH]; intros s l i Hi Hc Hkp Hkd H Hm.
  - exists s, l. split; [done|]. eapply kmapped_ext, kmapped_refl, H. intros n _. unfold stack_page.
    destruct (Z.leb_spec (16 * i) (983039 - n)), (Z.ltb_spec (983039 - n) (16 * (i + Z.of_nat 0))); done || lia.
  - rewrite seqZ_cons by lia. cbn [mfor].
    destruct (map_region_run s l (983040 - 16 * i - 8) (Z.of_nat kp + 8 * i) KSTKSIZE 8 PTE_W)
      as (s1 & l1 & Hr & Hk & Hm1); try done; try lia.
    destruct (IH s1 l1 (Z.succ i)) as (s2 & l2 & Hr2 & Hk2); try done; try lia.
    { rewrite (vm_frame_pgdir s s1); [done|apply Hk]. } { apply Hk. }
    assert (Hpa : PADDR (kva_of kp + i * KSTKSIZE) s = Ok ((Z.of_nat kp + 8 * i) * PGSIZE) s).
    { replace (kva_of kp + i * KSTKSIZE) with (kva_of (kp + 8 * Z.to_nat i)) by (unfold kva_of; lia).
      rewrite PADDR_kva by lia. f_equal. lia. }
    exists s2, l2. split.
    + rewrite bind_assoc. mrun. rewrite bind_assoc, (bind_Ok _ _ _ _ _ Hpa). cbn beta. rewrite Hkd.
      replace (KSTACKTOP - i * (KSTKSIZE + KSTKGAP) - KSTKSIZE) with ((983040 - 16 * i - 8) * PGSIZE) by lia.
      rewrite (bind_Ok _ _ _ _ _ Hr). replace (Z.pred (Z.of_nat (S c))) with (Z.of_nat c) by lia.
      exact Hr2.
    + eapply kmapped_ext; [|eapply kmapped_trans; [exact Hk|exact Hk2]].
      intros n _. unfold stack_page, region. change (Z.lor PTE_P PTE_W) with 3.
      pose proof (Z.div_mod (983039 - n) 16). pose proof (Z.mod_pos_bound (983039 - n) 16).
      set (r := (983039 - n) mod 16) in *. set (q := (983039 - n) / 16) in *.
      zcases; try done; f_equal; lia.
Qed.

Lemma array_pages_bound np : 0 < np ≤ 65536 → 0 < array_pages (np * SIZEOF_PAGEINFO) ≤ 128.
Proof.
  intros. unfold array_pages. pose proof (Z.div_mod (np * SIZEOF_PAGEINFO + PGSIZE - 1) PGSIZE).
  pose proof (Z.mod_pos_bound (np * SIZEOF_PAGEINFO + PGSIZE - 1) PGSIZE). lia.
Qed.

Lemma map_kernel_run s l (pp ep bp kp : nat) :
  kdir s l D → k_kern_pgdir s = kva_of D → (missing (k_mem s) D kern_pdx ≤ length l)%nat →
  Z.of_nat pp + 128 ≤ 65536 → Z.of_nat ep + 31 ≤ 65536 → Z.of_nat bp + 8 ≤ 65536 →
  Z.of_nat kp + 8 * NCPU ≤ 65536 →
  ∃ s' l', map_kernel (kva_of pp) (kva_of ep) (kva_of bp) (kva_of kp) s = Ok tt s' ∧
    Mapped s l s' l' (kern_layout (k_npages s) (Z.of_nat pp) (Z.of_nat ep) (Z.of_nat kp)).
Proof.
  intros H Hkd Hm Hpp Hep Hbp Hkp.
  pose proof (ai_max _ _ (kd_alloc _ _ _ H)). pose proof (kd_dir _ _ _ H).
  pose proof (array_pages_bound (k_npages s) ltac:(lia)) as Hap.
  destruct (map_region_run s l 978944 (Z.of_nat pp) (k_npages s * SIZEOF_PAGEINFO)
    (array_pages (k_npages s * SIZEOF_PAGEINFO)) PTE_U) as (s1 & l1 & R1 & K1 & M1); try done; try lia.
  destruct (map_region_run s1 l1 977920 (Z.of_nat ep) (NENV * SIZEOF_ENV) 31 PTE_U)
    as (s2 & l2 & R2 & K2 & M2); try done; try lia; [apply K1|].
  destruct (map_region_run s2 l2 983032 (Z.of_nat bp) KSTKSIZE 8 PTE_W)
    as (s3 & l3 & R3 & K3 & M3); try done; try lia; [apply K2|].
  destruct (map_region_run s3 l3 983040 0 (4294967295 - KERNBASE) 65536 PTE_W)
    as (s4 & l4 & R4 & K4 & M4); try done; try lia; [apply K3|].
  destruct (stacks_run kp 8 s4 l4 0) as (s5 & l5 & R5 & K5); try done; try lia; [|apply K4|].
  { rewrite <- Hkd. repeat match goal with K : kmapped _ _ _ _ _ _ _ |- _ =>
      apply km_frame, vm_frame_pgdir in K end. congruence. }
  exists s5, l5. split.
  - unfold map_kernel. mrun. rewrite Hkd.
    rewrite (bind_Ok _ _ _ _ _ (PADDR_kva pp s ltac:(lia))). cbn beta.
    rewrite (bind_Ok _ _ _ _ _ R1). cbn beta.
    rewrite (bind_Ok _ _ _ _ _ (PADDR_kva ep s1 ltac:(lia))). cbn beta.
    rewrite (bind_Ok _ _ _ _ _ R2). cbn beta.
    rewrite (bind_Ok _ _ _ _ _ (PADDR_kva bp s2 ltac:(lia))). cbn beta.
    rewrite (bind_Ok _ _ _ _ _ R3). cbn beta. rewrite (bind_Ok _ _ _ _ _ R4). exact R5.
  - eapply kmapped_ext; [|eapply kmapped_trans; [eapply kmapped_trans;
      [eapply kmapped_trans; [eapply kmapped_trans; [exact K1|exact K2]|exact K3]|exact K4]|exact K5]].
    intros n [Hn _]. unfold kern_layout, stack_page, region.
    change (Z.lor PTE_P PTE_W) with 3. change (Z.lor PTE_P PTE_U) with 5.
    pose proof (Z.div_mod (983039 - n) 16). pose proof (Z.mod_pos_bound (983039 - n) 16).
    set (r := (983039 - n) mod 16) in *. set (q := (983039 - n) / 16) in *.
    set (ap := array_pages _) in *.
    zcases; try done; f_equal; lia.
Qed.
End map_kernel.

(** ** The checks of mem_init on the mappings *)

Lemma pte_word_addr P f : 0 ≤ P < 1048576 → 0 ≤ f < PGSIZE → PTE_ADDR (P * PGSIZE + f) = P * PGSIZE.
Proof.
  intros. rewrite PTE_ADDR_sub, u32_small by lia.
  replace ((P * PGSIZE + f) mod PGSIZE) with f; [lia|].
  rewrite Z.add_comm, Z.mod_add by lia. by rewrite Z.mod_small.
Qed.

Lemma pte_word_present P f : 0 ≤ P → 0 ≤ f → tst (P * PGSIZE + f) PTE_P = Z.odd f.
Proof. intros. rewrite <- (tst_P_mkpte (Z.to_nat P)) by done. unfold mkpte. by rewrite Z2Nat.id. Qed.

Section checks.
Context (s : kst) (l : list nat) (D : nat).
Hypothesis H : kdir s l D.

Let Hmax : k_npages s ≤ 65536 := ai_max _ _ (kd_alloc _ _ _ H).

Lemma check_va2pa_run n : vpage_ok n →
  check_va2pa (kva_of D) (n * PGSIZE) s =
  Ok (if tst (vpte (k_mem s) D n) PTE_P then PTE_ADDR (vpte (k_mem s) D n) else NOWHERE) s.
Proof.
  intros Hn. pose proof (kd_dir _ _ _ H). pose proof (vpage_pdx _ Hn) as Hd. pose proof (vpage_ptx n).
  unfold vpte, pte_at. destruct Hn as [Hn _]. unfold check_va2pa.
  mcall dir_load. rewrite PDX_vpage, PTX_vpage by done.
  destruct (table_at (k_mem s) D (n / NPTENTRIES)) as [T|] eqn:HT.
  - destruct (kd_pde _ _ _ H _ _ Hd HT) as (_ & HTn & _).
    destruct (frame_inv _ _ (rd32_range _ _) HT) as (Ht & _). rewrite Ht. cbn [negb].
    rewrite (bind_Ok _ _ _ _ _ (KADDR_frame _ T s (rd32_range _ _) HT HTn Hmax)). cbn beta.
    rewrite kva_ent_u32 by lia. mcall kload_ent.
    by destruct (tst (rd32 (k_mem s) (ent T (n mod NPTENTRIES))) PTE_P).
  - rewrite <- (PDX_vpage n) in * by done. by rewrite table_none_tst.
Qed.

Lemma check_maps_run va pa n P f : vpage_ok n → u32 va = n * PGSIZE → u32 pa = P * PGSIZE →
  0 ≤ P < 1048576 → 0 ≤ f < PGSIZE → Z.odd f = true → vpte (k_mem s) D n = P * PGSIZE + f →
  check_maps (kva_of D) va pa s = Ok tt s.
Proof.
  intros Hn Hva Hpa HP Hf Ho Hv. unfold check_maps. rewrite Hva.
  rewrite (bind_Ok _ _ _ _ _ (check_va2pa_run n Hn)). cbn beta.
  rewrite Hv, pte_word_present, Ho, pte_word_addr, Hpa, Z.eqb_refl by lia. done.
Qed.

Lemma check_maps_nowhere va n : vpage_ok n → u32 va = n * PGSIZE → vpte (k_mem s) D n = 0 →
  check_maps (kva_of D) va NOWHERE s = Ok tt s.
Proof.
  intros Hn Hva Hv. unfold check_maps. rewrite Hva.
  rewrite (bind_Ok _ _ _ _ _ (check_va2pa_run n Hn)). cbn beta. by rewrite Hv.
Qed.
End checks.

Lemma for_pages_same n f s :
  (∀ k, 0 ≤ k < (n + PGSIZE - 1) / PGSIZE → f (k * PGSIZE) s = Ok tt s) → for_pages n f s = Ok tt s.
Proof.
  intros Hf. apply mfor_same. intros x (k & -> & Hk%elem_of_seqZ)%list_elem_of_fmap. apply Hf. lia.
Qed.

(** The layout is in place, with nothing else in the directory but the
    entries of UVPT and MMIOBASE. *)
Record kern_mapped (s : kst) (l : list nat) (D pp ep kp : nat) : Prop := {
  kr_dir : kdir s l D;
  kr_pte : ∀ n, vpage_ok n → n / NPTENTRIES ≠ 958 → vpte (k_mem s) D n =
    default 0 (kern_layout (k_npages s) (Z.of_nat pp) (Z.of_nat ep) (Z.of_nat kp) n);
  kr_uvpt : tst (rd32 (k_mem s) (ent D UVPDX)) PTE_P = true;
  kr_mmio : tst (rd32 (k_mem s) (ent D 958)) PTE_P = true;
  kr_zero : ∀ d, 0 ≤ d < NPDENTRIES → d ∉ kern_pdx → d ≠ UVPDX → d ≠ 958 →
    rd32 (k_mem s) (ent D d) = 0;
  kr_pp : Z.of_nat pp + 128 ≤ 65536;
  kr_ep : Z.of_nat ep + 31 ≤ 65536;
  kr_kp : Z.of_nat kp + 8 * NCPU ≤ 65536 }.

Section check_kern.
Context (s : kst) (l : list nat) (D pp ep kp : nat).
Hypothesis H : kern_mapped s l D pp ep kp.

Let Hd : kdir s l D := kr_dir _ _ _ _ _ _ H.
Let Hmax : k_npages s ≤ 65536 := ai_max _ _ (kd_alloc _ _ _ Hd).
Let Hmin : Z.of_nat D < k_npages s := kd_dir _ _ _ Hd.

(** Page [n] is where the layout says. *)
Lemma check_layout va pa n P f : u32 va = n * PGSIZE → u32 pa = P * PGSIZE →
  977920 ≤ n < 979968 ∨ 982016 ≤ n < 1048576 → 0 ≤ P < 1048576 → f = 3 ∨ f = 5 →
  kern_layout (k_npages s) (Z.of_nat pp) (Z.of_nat ep) (Z.of_nat kp) n = Some (P * PGSIZE + f) →
  check_maps (kva_of D) va pa s = Ok tt s.
Proof.
  intros Hva Hpa Hn HP Hf Hl. destruct (in_kern_pdx n Hn) as [Hok Hin%kern_pdx_iff].
  apply (check_maps_run s l D Hd va pa n P f); try done; [lia|by destruct Hf as [-> | ->]|].
  rewrite (kr_pte _ _ _ _ _ _ H) by (done || lia). by rewrite Hl.
Qed.

Lemma ROUNDUP_pages n : 0 ≤ n ≤ 1048576 → (ROUNDUP n PGSIZE + PGSIZE - 1) / PGSIZE = array_pages n.
Proof.
  intros. rewrite ROUNDUP_page by lia. unfold array_pages.
  set (q := (n + PGSIZE - 1) / PGSIZE).
  replace (q * PGSIZE + PGSIZE - 1) with (PGSIZE - 1 + q * PGSIZE) by lia.
  rewrite Z.div_add by lia. done.
Qed.

Lemma check_pages_array :
  for_pages (ROUNDUP (k_npages s * SIZEOF_PAGEINFO) PGSIZE) (λ i,
    pa ← PADDR (kva_of pp); check_maps (kva_of D) (UPAGES + i) (pa + i)) s = Ok tt s.
Proof.
  pose proof (kr_pp _ _ _ _ _ _ H). pose proof (array_pages_bound (k_npages s) ltac:(lia)).
  apply for_pages_same. intros k. rewrite ROUNDUP_pages by lia. intros Hk.
  rewrite (bind_Ok _ _ _ _ _ (PADDR_kva pp s ltac:(lia))). cbn beta.
  apply (check_layout _ _ (978944 + k) (Z.of_nat pp + k) 5); try lia; [rewrite u32_small; lia..|].
  unfold kern_layout, stack_page. zcases. repeat f_equal; lia.
Qed.

Lemma check_envs_array :
  for_pages (ROUNDUP (NENV * SIZEOF_ENV) PGSIZE) (λ i,
    pa ← PADDR (kva_of ep); check_maps (kva_of D) (UENVS + i) (pa + i)) s = Ok tt s.
Proof.
  pose proof (kr_ep _ _ _ _ _ _ H). pose proof (array_pages_bound (k_npages s) ltac:(lia)).
  apply for_pages_same. intros k. rewrite ROUNDUP_pages by lia.
  change (array_pages (NENV * SIZEOF_ENV)) with 31. intros Hk.
  rewrite (bind_Ok _ _ _ _ _ (PADDR_kva ep s ltac:(lia))). cbn beta.
  apply (check_layout _ _ (977920 + k) (Z.of_nat ep + k) 5); try lia; [rewrite u32_small; lia..|].
  unfold kern_layout, stack_page. zcases. repeat f_equal; lia.
Qed.

Lemma check_phys_mem :
  for_pages (u32 (k_npages s * PGSIZE)) (λ i, check_maps (kva_of D) (KERNBASE + i) i) s = Ok tt s.
Proof.
  apply for_pages_same. intros k. rewrite u32_small by lia.
  replace (k_npages s * PGSIZE + PGSIZE - 1) with (PGSIZE - 1 + k_npages s * PGSIZE) by lia.
  rewrite Z.div_add by lia. change ((PGSIZE - 1) / PGSIZE) with 0. intros Hk.
  apply (check_layout _ _ (983040 + k) k 3); try lia; [rewrite u32_small; lia..|].
  unfold kern_layout. rewrite (proj2 (Z.leb_le _ _)) by lia. repeat f_equal; lia.
Qed.

Lemma check_stacks :
  mfor (seqZ 0 NCPU) (λ n,
    let base := u32 (KSTACKTOP - (KSTKSIZE + KSTKGAP) * (n + 1)) in
    for_pages KSTKSIZE (λ i,
      pa ← PADDR (kva_of kp + n * KSTKSIZE); check_maps (kva_of D) (base + KSTKGAP + i) (pa + i));;
    for_pages KSTKGAP (λ i, check_maps (kva_of D) (base + i) NOWHERE)) s = Ok tt s.
Proof.
  pose proof (kr_kp _ _ _ _ _ _ H). pose proof (array_pages_bound (k_npages s) ltac:(lia)).
  apply mfor_same. intros c Hc%elem_of_seqZ. cbv zeta. rewrite u32_small by lia.
  rewrite (bind_Ok _ _ _ tt s); apply for_pages_same; intros k;
    change ((KSTKSIZE + PGSIZE - 1) / PGSIZE) with 8; intros Hk.
  - destruct (in_kern_pdx (983040 - 16 * (c + 1) + k)) as [Hok Hin%kern_pdx_iff]; [lia|].
    apply (check_maps_nowhere s l D Hd _ (983040 - 16 * (c + 1) + k)); [done|rewrite u32_small; lia|].
    rewrite (kr_pte _ _ _ _ _ _ H) by (done || lia). unfold kern_layout, stack_page.
    pose proof (Z.div_mod (983039 - (983040 - 16 * (c + 1) + k)) 16).
    pose proof (Z.mod_pos_bound (983039 - (983040 - 16 * (c + 1) + k)) 16). by zcases.
  - assert (PADDR (kva_of kp + c * KSTKSIZE) s = Ok ((Z.of_nat kp + 8 * c) * PGSIZE) s) as Hpa.
    { replace (kva_of kp + c * KSTKSIZE) with (kva_of (kp + 8 * Z.to_nat c)) by (unfold kva_of; lia).
      rewrite PADDR_kva by lia. f_equal. lia. }
    rewrite (bind_Ok _ _ _ _ _ Hpa). cbn beta.
    apply (check_layout _ _ (983040 - 16 * (c + 1) + 8 + k) (Z.of_nat kp + 8 * c + k) 3);
      try lia; [rewrite u32_small; lia..|].
    unfold kern_layout, stack_page.
    pose proof (Z.div_mod (983039 - (983040 - 16 * (c + 1) + 8 + k)) 16).
    pose proof (Z.mod_pos_bound (983039 - (983040 - 16 * (c + 1) + 8 + k)) 16).
    zcases; repeat f_equal; lia.
Qed.

Lemma table_of_pte n : vpte (k_mem s) D n ≠ 0 → is_Some (table_at (k_mem s) D (n / NPTENTRIES)).
Proof. unfold vpte, pte_at. by destruct (table_at _ _ _). Qed.

(** The first page of each directory entry of the layout is mapped. *)
Lemma kern_tables d : d ∈ kern_pdx → is_Some (table_at (k_mem s) D d).
Proof.
  intros Hin. pose proof (kern_pdx_ok _ Hin) as Hok. apply kern_pdx_iff in Hin.
  pose proof (array_pages_bound (k_npages s) ltac:(lia)).
  set (n := if d =? 959 then 983039 else d * NPTENTRIES).
  assert (n / NPTENTRIES = d) as En.
  { unfold n. destruct (Z.eqb_spec d 959) as [->|]; [done|]. by rewrite Z.div_mul. }
  rewrite <- En. apply table_of_pte. rewrite (kr_pte _ _ _ _ _ _ H); [|split; [|lia]|lia].
  2:{ unfold n. destruct (Z.eqb_spec d 959); lia. }
  unfold n, kern_layout. destruct (Z.eqb_spec d 959) as [->|].
  { change (983040 <=? 983039) with false.
    change (stack_page (Z.of_nat kp) 0 NCPU 983039) with (Some ((Z.of_nat kp + 0 + 7) * PGSIZE + 3)).
    cbn [from_option]. unfold id. lia. }
  unfold stack_page. zcases; cbn [from_option]; unfold id; lia.
Qed.

Lemma check_pdes : mfor (seqZ 0 NPDENTRIES) (check_pde (kva_of D)) s = Ok tt s.
Proof.
  apply mfor_same. intros i Hi%elem_of_seqZ. unfold check_pde.
  rewrite kva_ent_u32 by lia. mcall kload_ent.
  change (PDX UVPT) with 957. change (PDX (KSTACKTOP - 1)) with 959. change (PDX UPAGES) with 956.
  change (PDX UENVS) with 955. change (PDX MMIOBASE) with 958. change (PDX KERNBASE) with 960.
  assert (i ∈ kern_pdx → tst (rd32 (k_mem s) (ent D i)) PTE_P = true ∧
    tst (rd32 (k_mem s) (ent D i)) PTE_W = true) as Hk.
  { intros Hin. destruct (kern_tables _ Hin) as [T HT].
    destruct (kd_pde _ _ _ Hd _ _ (kern_pdx_ok _ Hin) HT) as (-> & _).
    rewrite tst_P_mkpte by done. split; [done|].
    change PTE_W with (2 ^ 1). rewrite tst_bit by done. unfold mkpte.
    change PGSIZE with (1024 * 2 ^ 2). rewrite Z.mul_assoc, <- (Z.mod_pow2_bits_low _ 2) by done.
    by rewrite Z.add_comm, Z.mod_add. }
  destruct (decide (i = 957)) as [->|]; [by rewrite (kr_uvpt _ _ _ _ _ _ H)|].
  destruct (decide (i = 958)) as [->|]; [by rewrite (kr_mmio _ _ _ _ _ _ H)|].
  destruct (decide (i ∈ kern_pdx)) as [Hin|Hout].
  - destruct (Hk Hin) as [-> ->]. apply kern_pdx_iff in Hin as [-> |[-> |Hin]]; [done..|].
    destruct (decide (i = 959)) as [->|]; [done|].
    rewrite (proj2 (Z.leb_le 960 i)) by lia. by destruct (_ || _ || _ || _ || _).
  - rewrite (kr_zero _ _ _ _ _ _ H) by (done || lia). rewrite kern_pdx_iff in Hout.
    repeat match goal with |- context [?a =? ?b] => rewrite (proj2 (Z.eqb_neq a b)) by lia end.
    cbn [orb]. by rewrite (proj2 (Z.leb_gt 960 i)) by lia.
Qed.

Lemma check_kern_pgdir_run : k_kern_pgdir s = kva_of D →
  check_kern_pgdir (kva_of pp) (kva_of ep) (kva_of kp) s =
  Ok tt (with_log (EvCprintf (zs (line "check_kern_pgdir() succeeded!")) [] :: k_log s) s).
Proof.
  intros Hkd. unfold check_kern_pgdir. mrun. rewrite Hkd.
  rewrite (bind_Ok _ _ _ _ _ check_pages_array). cbn beta.
  rewrite (bind_Ok _ _ _ _ _ check_envs_array). cbn beta.
  rewrite (bind_Ok _ _ _ _ _ check_phys_mem). cbn beta.
  rewrite (bind_Ok _ _ _ _ _ check_stacks). cbn beta.
  by rewrite (bind_Ok _ _ _ _ _ check_pdes).
Qed.
End check_kern.

(** ** Claims *)

(** The directory as check_page leaves it: only the entry of UVPT and the
    table of the MMIO region. *)
Record boot_dir (s : kst) (l : list nat) (D : nat) : Prop := {
  bd_dir : kdir s l D;
  bd_pgdir : k_kern_pgdir s = kva_of D;
  bd_uvpt : tst (rd32 (k_mem s) (ent D UVPDX)) PTE_P = true;
  bd_mmio : tst (rd32 (k_mem s) (ent D 958)) PTE_P = true;
  bd_zero : ∀ d, 0 ≤ d < NPDENTRIES → d ≠ UVPDX → d ≠ 958 → rd32 (k_mem s) (ent D d) = 0 }.

Lemma boot_dir_none s l D d : boot_dir s l D → pdx_ok d → d ≠ 958 → table_at (k_mem s) D d = None.
Proof.
  intros H [Hd ?] ?. unfold table_at. by rewrite (bd_zero _ _ _ H) by done.
Qed.

Lemma boot_dir_missing s l D : boot_dir s l D → missing (k_mem s) D kern_pdx = 67%nat.
Proof.
  intros H. transitivity (length (List.filter (λ _, true) kern_pdx)); [|done].
  apply filter_length_ext. intros d Hd. unfold has_table.
  rewrite (boot_dir_none s l D d H (kern_pdx_ok _ Hd)) by (apply kern_pdx_iff in Hd; lia).
  by rewrite bool_decide_eq_false_2 by apply is_Some_None.
Qed.

Lemma kern_mapped_intro s l s' l' D pp ep kp :
  boot_dir s l D →
  kmapped kern_pdx D s l s' l' (kern_layout (k_npages s) (Z.of_nat pp) (Z.of_nat ep) (Z.of_nat kp)) →
  Z.of_nat pp + 128 ≤ 65536 → Z.of_nat ep + 31 ≤ 65536 → Z.of_nat kp + 8 * NCPU ≤ 65536 →
  kern_mapped s' l' D pp ep kp.
Proof.
  intros H K Hpp Hep Hkp.
  assert (∀ d, 0 ≤ d < NPDENTRIES → d ∉ kern_pdx → rd32 (k_mem s') (ent D d) = rd32 (k_mem s) (ent D d))
    as Ho by apply K.
  constructor; try done.
  - apply K.
  - intros n Hn Hne. rewrite (vm_frame_npages s s') by apply K.
    rewrite (km_pte _ _ _ _ _ _ _ K) by done. f_equal.
    unfold vpte, pte_at. by rewrite (boot_dir_none s l) by (done || by apply vpage_pdx).
  - rewrite Ho; [apply H|lia|rewrite kern_pdx_iff; lia].
  - rewrite Ho; [apply H|lia|rewrite kern_pdx_iff; lia].
  - intros d Hd Hout ? ?. rewrite Ho by done. by apply H.
Qed.

Lemma map_kernel_checked s l D (pp ep bp kp : nat) :
  boot_dir s l D → (67 ≤ length l)%nat →
  Z.of_nat pp + 128 ≤ 65536 → Z.of_nat ep + 31 ≤ 65536 → Z.of_nat bp + 8 ≤ 65536 →
  Z.of_nat kp + 8 * NCPU ≤ 65536 →
  ∃ s1 l', map_kernel (kva_of pp) (kva_of ep) (kva_of bp) (kva_of kp) s = Ok tt s1 ∧
    kmapped kern_pdx D s l s1 l' (kern_layout (k_npages s) (Z.of_nat pp) (Z.of_nat ep) (Z.of_nat kp)) ∧
    kern_mapped s1 l' D pp ep kp ∧ (length l' + 67 = length l)%nat.
Proof.
  intros H Hl Hpp Hep Hbp Hkp. pose proof (boot_dir_missing _ _ _ H) as Hm.
  destruct (map_kernel_run D s l pp ep bp kp) as (s1 & l' & Hr & K); try done; [apply H..|lia|].
  pose proof (kern_mapped_intro _ _ _ _ _ _ _ _ H K Hpp Hep Hkp) as Hk.
  exists s1, l'. split_and!; [done..|].
  assert (missing (k_mem s1) D kern_pdx = 0%nat) as Hm'.
  { apply missing_none. intros d Hd. by eapply kern_tables. }
  pose proof (km_count _ _ _ _ _ _ _ K). lia.
Qed.

(** C29: with 67 free pages the mappings of mem_init and mem_init_mp succeed
    and give exactly the layout of inc/memlayout.h (pages[] at UPAGES, envs[]
    at UENVS, a stack for each CPU below KSTACKTOP with nothing mapped
    between the stacks, all of physical memory at KERNBASE); check_kern_pgdir
    then finds every assertion true.  One page is taken for each of the 67
    tables, and no page but those and the directory is written. *)
Theorem map_kernel_spec s l D (pp ep bp kp : nat) :
  boot_dir s l D → (67 ≤ length l)%nat →
  Z.of_nat pp + 128 ≤ 65536 → Z.of_nat ep + 31 ≤ 65536 → Z.of_nat bp + 8 ≤ 65536 →
  Z.of_nat kp + 8 * NCPU ≤ 65536 →
  ∃ s' l', (map_kernel (kva_of pp) (kva_of ep) (kva_of bp) (kva_of kp);;
            check_kern_pgdir (kva_of pp) (kva_of ep) (kva_of kp)) s = Ok tt s' ∧
    alloc_inv s' l' ∧ (length l' + 67 = length l)%nat ∧
    (∀ n, vpage_ok n → n / NPTENTRIES ≠ PDX MMIOBASE → vpte (k_mem s') D n =
       default 0 (kern_layout (k_npages s) (Z.of_nat pp) (Z.of_nat ep) (Z.of_nat kp) n)) ∧
    (∀ q, not_dir s l D q → page_same q (k_mem s) (k_mem s')).
Proof.
  intros H Hl Hpp Hep Hbp Hkp.
  destruct (map_kernel_checked s l D pp ep bp kp) as (s1 & l' & Hr & K & Hk & Hc); try done.
  pose proof (vm_frame_pgdir s s1 (km_frame _ _ _ _ _ _ _ K)) as Hp.
  rewrite (bd_pgdir _ _ _ H) in Hp.
  eexists _, l'. split.
  { rewrite (bind_Ok _ _ _ _ _ Hr). by apply (check_kern_pgdir_run s1 l' D pp ep kp). }
  split; [apply (alloc_inv_ext s1), Hk; done|]. split; [done|]. split.
  - intros n Hn Hne. cbn. rewrite (kr_pte _ _ _ _ _ _ Hk) by done.
    by rewrite (vm_frame_npages s s1) by apply K.
  - intros q Hq. by apply K.
Qed.

(** The directory entries of a region of [c] pages at [n]. *)
Definition region_pdx (n c : Z) : list Z :=
  seqZ (n / NPTENTRIES) ((n + c - 1) / NPTENTRIES - n / NPTENTRIES + 1).

Lemma region_pdx_iff n c d : 0 < c →
  d ∈ region_pdx n c ↔ ∃ j, n ≤ j < n + c ∧ j / NPTENTRIES = d.
Proof.
  intros Hc. unfold region_pdx. rewrite elem_of_seqZ.
  pose proof (Z.div_mod n NPTENTRIES). pose proof (Z.mod_pos_bound n NPTENTRIES).
  pose proof (Z.div_mod (n + c - 1) NPTENTRIES). pose proof (Z.mod_pos_bound (n + c - 1) NPTENTRIES).
  split.
  - intros Hd. exists (Z.max n (d * NPTENTRIES)). split; [lia|].
    symmetry. apply Z.div_unique with (Z.max n (d * NPTENTRIES) - d * NPTENTRIES); lia.
  - intros (j & Hj & <-). pose proof (Z.div_le_mono n j NPTENTRIES).
    pose proof (Z.div_le_mono j (n + c - 1) NPTENTRIES). lia.
Qed.

(** Boot_map_region on a page-aligned region that keeps clear of UVPT,
    with a free page for each table that the region needs and lacks, maps
    every page of the region to its frame with the given permissions and
    leaves every other translation alone; it takes exactly those pages from
    the free list and writes nothing but the directory and its tables. *)
Theorem boot_map_region_spec s l D n p size perm :
  kdir s l D → 0 < size ≤ 2147479552 → 0 ≤ perm < PGSIZE → 0 ≤ p → 0 ≤ n →
  p + array_pages size ≤ 1048576 → n + array_pages size ≤ 1048576 →
  UVPDX ∉ region_pdx n (array_pages size) →
  (missing (k_mem s) D (region_pdx n (array_pages size)) ≤ length l)%nat →
  ∃ s' l', boot_map_region (kva_of D) (n * PGSIZE) size (p * PGSIZE) perm s = Ok tt s' ∧
    kdir s' l' D ∧
    (length l' + missing (k_mem s) D (region_pdx n (array_pages size)) = length l)%nat ∧
    (∀ n', vpage_ok n' → vpte (k_mem s') D n' =
       if (n <=? n') && (n' <? n + array_pages size)
       then (p + (n' - n)) * PGSIZE + Z.lor PTE_P perm else vpte (k_mem s) D n') ∧
    (∀ q, not_dir s l D q → page_same q (k_mem s) (k_mem s')).
Proof.
  intros H Hs Hperm Hp Hn Hpc Hnc Huv Hm. set (c := array_pages size) in *.
  assert (0 < c) as Hc by (unfold c, array_pages; apply Z.div_str_pos; lia).
  assert (∀ j, n ≤ j < n + c → vpage_ok j ∧ j / NPTENTRIES ∈ region_pdx n c) as Hj.
  { intros j Hj. assert (j / NPTENTRIES ∈ region_pdx n c) by (apply region_pdx_iff; eauto).
    split; [|done]. split; [lia|]. intros E. by rewrite E in *. }
  assert (∀ d, d ∈ region_pdx n c → pdx_ok d) as Hds.
  { intros d (j & Hj' & <-)%region_pdx_iff; [|done]. by apply vpage_pdx, Hj. }
  destruct (boot_map_region_run (region_pdx n c) D perm) with (s := s) (l := l) (n := n) (p := p)
    (size := size) as (s' & l' & Hr & K); try done; try lia; [apply NoDup_seqZ|].
  fold (array_pages size) in K. fold c in K.
  assert (∀ n', vpage_ok n' → vpte (k_mem s') D n' = if (n <=? n') && (n' <? n + c)
    then (p + (n' - n)) * PGSIZE + Z.lor PTE_P perm else vpte (k_mem s) D n') as Hpte.
  { intros n' Hn'. rewrite (km_pte _ _ _ _ _ _ _ K) by done. unfold region.
    by destruct (_ && _). }
  exists s', l'. split; [done|]. split; [apply K|]. split; [|split; [done|apply K]].
  assert (missing (k_mem s') D (region_pdx n c) = 0%nat) as Hm'.
  { apply missing_none. intros d (j & Hj' & <-)%region_pdx_iff; [|done]. apply table_of_pte.
    rewrite Hpte by by apply Hj. zcases. assert (0 ≤ Z.lor PTE_P perm < 2 ^ 12) by (apply lor_range; lia).
    intros E. assert (Z.lor PTE_P perm = 0) as E0 by lia. by apply Z.lor_eq_0_iff in E0 as [? _]. }
  pose proof (km_count _ _ _ _ _ _ _ K). lia.
Qed.

(** A machine whose directory is in page 12 and whose MMIO table is in page 13. *)
Definition boot_mem : mem :=
  wr32 (wr32 (λ _, 0) (ent 12 957) (mkpte 12 5)) (ent 12 958) (mkpte 13 7).
Definition boot_kernel (ps : list PageInfo) (h : option nat) : kst :=
  with_mem boot_mem (with_kern_pgdir (kva_of 12)
    (with_page_free_list h (with_pages ps (demo_kernel 256 10 65536)))).

Lemma boot_mem_pde d : 0 ≤ d < 1024 →
  rd32 boot_mem (ent 12 d) = if d =? 958 then mkpte 13 7 else if d =? 957 then mkpte 12 5 else 0.
Proof.
  intros Hd. unfold boot_mem. rewrite !rd32_wr_ent by lia.
  destruct (Z.eqb_spec d 958); [by rewrite bool_decide_eq_true_2 by done|].
  rewrite bool_decide_eq_false_2 by (intros [_ ?]; done).
  destruct (Z.eqb_spec d 957); [by rewrite bool_decide_eq_true_2 by done|].
  by rewrite bool_decide_eq_false_2 by (intros [_ ?]; done).
Qed.

Lemma boot_kernel_dir :
  ∃ ps h l, boot_dir (boot_kernel ps h) l 12 ∧ (67 ≤ length l)%nat.
Proof.
  destruct (page_init_run 0 (demo_kernel 256 10 65536) 65536) as (ps & h & _ & Hi);
    [reflexivity|cbn; lia|reflexivity|lia|vm_compute; discriminate|vm_compute; discriminate|].
  set (l := init_free _ _ _) in Hi.
  assert (∀ i, i ∈ l ↔ 16 ≤ Z.of_nat i < 256 ∨ (1 ≤ Z.of_nat i < 10 ∧ i ≠ 7%nat)) as Hl.
  { intros i. apply elem_of_init_free. vm_compute. discriminate. }
  assert (∀ d T, pdx_ok d → table_at boot_mem 12 d = Some T → d = 958 ∧ T = 13%nat) as Ht.
  { intros d T [Hd ?]. unfold table_at. rewrite boot_mem_pde by done.
    destruct (Z.eqb_spec d 958) as [->|]; [by intros [= <-]|].
    by rewrite (proj2 (Z.eqb_neq d 957)). }
  exists ps, h, l. split; [|vm_compute; lia]. constructor; try done.
  - constructor; cbn.
    + by apply (alloc_inv_ext (with_page_free_list h (with_pages ps (demo_kernel 256 10 65536)))).
    + lia.
    + rewrite Hl. lia.
    + intros d T Hd HT. destruct (Ht d T Hd HT) as [-> ->].
      rewrite boot_mem_pde by lia. split_and!; [done|lia|rewrite Hl; lia|done].
    + intros d d' T Hd Hd' HT HT'. destruct (Ht _ _ Hd HT), (Ht _ _ Hd' HT'). congruence.
    + done.
  - intros d Hd ? ?. cbn. rewrite boot_mem_pde by done.
    by rewrite (proj2 (Z.eqb_neq d 957)), (proj2 (Z.eqb_neq d 958)).
Qed.

Lemma map_kernel_spec_witness :
  ∃ ps h s', (map_kernel (kva_of 10) (kva_of 11) (kva_of 14) (kva_of 14);;
    check_kern_pgdir (kva_of 10) (kva_of 11) (kva_of 14)) (boot_kernel ps h) = Ok tt s'.
Proof.
  destruct boot_kernel_dir as (ps & h & l & H & Hl). exists ps, h.
  destruct (map_kernel_spec (boot_kernel ps h) l 12 10 11 14 14 H Hl) as (s' & l' & Hr & _); [lia..|].
  exists s'. exact Hr.
Defined.

Lemma boot_map_region_spec_witness :
  ∃ ps h s', boot_map_region (kva_of 12) (983040 * PGSIZE) 8192 (5 * PGSIZE) PTE_W (boot_kernel ps h) = Ok tt s' ∧
    vpte (k_mem s') 12 983041 = 6 * PGSIZE + 3.
Proof.
  destruct boot_kernel_dir as (ps & h & l & H & Hl). exists ps, h.
  destruct (boot_map_region_spec (boot_kernel ps h) l 12 983040 5 8192 PTE_W (bd_dir _ _ _ H))
    as (s' & l' & Hr & _ & _ & Hp & _); try lia.
  - vm_compute. discriminate.
  - vm_compute. discriminate.
  - change (region_pdx 983040 (array_pages 8192)) with [960]. by rewrite list_elem_of_singleton.
  - change (region_pdx 983040 (array_pages 8192)) with [960]. unfold missing. cbn [List.filter].
    destruct (negb _); cbn; lia.
  - exists s'. split; [exact Hr|]. rewrite Hp; [reflexivity|]. split; [lia|]. vm_compute. discriminate.
Defined.
