(* ===== verification/UserMem.v ===== *)
(** The kernel's accesses to user memory (Env.v's uload and ustore, which
    go through the current page tables), on pages that the tables map. *)

From S2P Require Import Prelude Mmu KState Pmap PageTable Env.
From Stdlib Require Import ZArith Lia String.
From stdpp Require Import base tactics numbers list.
Open Scope Z_scope.

(** Words stored one after the other from [addr] on. *)
Definition ustore_words (addr : Z) (ws : list Z) : K unit :=
  mfor (zip (seqZ 0 (Z.of_nat (length ws))) ws) (λ '(i, w), ustore32 (u32 (addr + 4 * i)) w).

Fixpoint wr_words (m : mem) (a : Z) (ws : list Z) : mem :=
  match ws with
  | [] => m
  | w :: ws' => wr_words (wr32 m a w) (a + 4) ws'
  end.

Lemma wr_words_below m a ws b : b + 4 ≤ a → rd32 (wr_words m a ws) b = rd32 m b.
Proof.
  revert m a. induction ws as [|w ws IH]; intros m a Hb; [done|]. cbn.
  rewrite IH by lia. apply rd32_wr32_ne. lia.
Qed.

Lemma wr_words_outside m a ws b :
  b < a ∨ a + 4 * Z.of_nat (length ws) ≤ b → rd8 (wr_words m a ws) b = rd8 m b.
Proof.
  revert m a. induction ws as [|w ws IH]; intros m a Hb; [done|]. cbn [wr_words length] in *.
  rewrite IH by lia. apply rd8_wr32_ne. lia.
Qed.

Lemma wr_words_lookup m a ws k w :
  ws !! k = Some w → rd32 (wr_words m a ws) (a + 4 * Z.of_nat k) = u32 w.
Proof.
  revert m a k. induction ws as [|x ws IH]; intros m a k Hk; [done|]. cbn.
  destruct k as [|k]; cbn in Hk.
  - injection Hk as ->. rewrite Z.add_0_r, wr_words_below by lia. apply rd32_wr32_eq.
  - replace (a + 4 * Z.of_nat (S k)) with (a + 4 + 4 * Z.of_nat k) by lia. by apply IH.
Qed.

(** Directory [D] and its table [T] map the page of [va] to [P], writable. *)
Record maps_rw (m : mem) (D T P : nat) (va : Z) : Prop := {
  rw_pde : table_at m D (PDX va) = Some T;
  rw_pdew : tst (rd32 m (ent D (PDX va))) PTE_W = true;
  rw_pte : frame (rd32 m (ent T (PTX va))) = Some P;
  rw_ptew : tst (rd32 m (ent T (PTX va))) PTE_W = true;
  rw_dir : P ≠ D;
  rw_tab : P ≠ T }.

Lemma maps_rw_uphys s D T P va :
  maps_rw (k_mem s) D T P va → k_cr3 s = Z.of_nat D * PGSIZE →
  uphys s true va = Some (Z.of_nat P * PGSIZE + PGOFF va).
Proof.
  intros H Hc. unfold uphys. rewrite Hc. fold (ent D (PDX va)).
  destruct (frame_inv _ _ (rd32_range _ _) (rw_pde _ _ _ _ _ H)) as (-> & Ha & _). rewrite Ha.
  fold (ent T (PTX va)).
  destruct (frame_inv _ _ (rd32_range _ _) (rw_pte _ _ _ _ _ H)) as (-> & Hb & _).
  by rewrite (rw_pdew _ _ _ _ _ H), (rw_ptew _ _ _ _ _ H), Hb.
Qed.

(** Writing to the page keeps the mapping. *)
Lemma maps_rw_wr m m' D T P va :
  maps_rw m D T P va → (∀ q i, q ≠ P → 0 ≤ i < 1024 → rd32 m' (ent q i) = rd32 m (ent q i)) →
  maps_rw m' D T P va.
Proof.
  intros [H1 H2 H3 H4 H5 H6] Hs. pose proof (PDX_range va). pose proof (PTX_range va).
  constructor; unfold table_at; rewrite ?Hs by (done || lia); done.
Qed.

Lemma maps_rw_page m D T P va va' :
  0 ≤ va < 2 ^ 32 → 0 ≤ va' < 2 ^ 32 → va / PGSIZE = va' / PGSIZE →
  maps_rw m D T P va → maps_rw m D T P va'.
Proof.
  intros Ha Hb Hab [H1 H2 H3 H4 H5 H6]. destruct (page_entry va va') as [E1 E2]; [done..|].
  by constructor; rewrite <-?E1, <-?E2.
Qed.

Lemma PGOFF_add va i :
  0 ≤ i → 0 ≤ va < 2 ^ 32 → va mod PGSIZE + i < PGSIZE →
  PGOFF (va + i) = PGOFF va + i ∧ (va + i) / PGSIZE = va / PGSIZE ∧ va + i < 2 ^ 32.
Proof.
  intros Hi Hva Hlt. pose proof (Z.div_mod va PGSIZE ltac:(lia)).
  pose proof (Z.mod_pos_bound va PGSIZE ltac:(lia)).
  assert (va + i < 2 ^ 32).
  { assert (va / PGSIZE < 2 ^ 20) by (apply Z.div_lt_upper_bound; lia). lia. }
  rewrite !PGOFF_mod, !u32_small by lia.
  assert ((va + i) / PGSIZE = va / PGSIZE)
    by (symmetry; apply (Z.div_unique _ _ _ (va mod PGSIZE + i)); lia).
  split; [|done]. rewrite !Z.mod_eq by lia. lia.
Qed.

Section stores.
Context (s : kst) (D T P : nat) (va : Z).
Hypothesis Hcr3 : k_cr3 s = Z.of_nat D * PGSIZE.
Hypothesis Hva : 0 ≤ va < 2 ^ 32.
Hypothesis Hmap : maps_rw (k_mem s) D T P va.

(** The physical address of byte [i] after [va]. *)
Let pa (i : Z) : Z := Z.of_nat P * PGSIZE + PGOFF va + i.

(** A memory that differs from the state's only in page [P]. *)
Definition in_page (m : mem) : Prop :=
  ∀ q i, q ≠ P → 0 ≤ i < 1024 → rd32 m (ent q i) = rd32 (k_mem s) (ent q i).

Lemma PGOFF_range : 0 ≤ PGOFF va < PGSIZE.
Proof. rewrite PGOFF_mod. apply Z.mod_pos_bound. lia. Qed.

Lemma in_page_wr8 m i x :
  in_page m → 0 ≤ i → PGOFF va + i < PGSIZE → in_page (wr8 m (pa i) x).
Proof.
  intros Hm Hi Hlt q j Hq Hj. rewrite <-Hm by done. pose proof PGOFF_range.
  unfold rd32, pa, ent. rewrite !rd8_wr8_ne by lia. done.
Qed.

Lemma ustore8_run m i x :
  in_page m → 0 ≤ i → PGOFF va + i < PGSIZE →
  ustore8 (u32 (va + i)) x (with_mem m s) = Ok tt (with_mem (wr8 m (pa i) x) s).
Proof.
  intros Hm Hi Hlt. rewrite PGOFF_mod, u32_small in Hlt by done.
  destruct (PGOFF_add va i Hi Hva Hlt) as (Ho & Hd & Hb). rewrite u32_small by lia.
  unfold ustore8. mrun. rewrite (maps_rw_uphys (with_mem m s) D T P (va + i)).
  - rewrite Ho. unfold pa. by rewrite Z.add_assoc.
  - apply (maps_rw_page m D T P va); [done|lia|done|]. by apply (maps_rw_wr (k_mem s)).
  - done.
Qed.

Lemma ustore32_run m i w :
  in_page m → 0 ≤ i → PGOFF va + i + 4 ≤ PGSIZE →
  ustore32 (u32 (va + i)) w (with_mem m s) = Ok tt (with_mem (wr32 m (pa i) w) s) ∧
  in_page (wr32 m (pa i) w).
Proof.
  intros Hm Hi Hlt. pose proof PGOFF_range.
  assert (Hu : ∀ j, 0 ≤ j < 4 → u32 (u32 (va + i) + j) = u32 (va + (i + j))).
  { intros j Hj. unfold u32. by rewrite Zplus_mod_idemp_l, Z.add_assoc. }
  assert (Hpa : ∀ j, pa i + j = pa (i + j)) by (intros j; unfold pa; lia).
  unfold ustore32, wr32. rewrite !Hpa. change (seqZ 0 4) with [0; 1; 2; 3]. cbn [mfor].
  rewrite !Hu by lia. rewrite Z.add_0_r. change (8 * 0) with 0. rewrite Z.shiftr_0_r.
  rewrite !Z.shiftr_div_pow2 by lia.
  assert (H1 : in_page (wr8 m (pa i) w)) by (apply in_page_wr8; [done|lia|lia]).
  assert (H2 : in_page (wr8 (wr8 m (pa i) w) (pa (i + 1)) (w / 2 ^ 8)))
    by (apply in_page_wr8; [done|lia|lia]).
  assert (H3 : in_page (wr8 (wr8 (wr8 m (pa i) w) (pa (i + 1)) (w / 2 ^ 8)) (pa (i + 2)) (w / 2 ^ 16)))
    by (apply in_page_wr8; [done|lia|lia]).
  split; [|apply in_page_wr8; [done|lia|lia]].
  do 4 (erewrite bind_Ok by (apply ustore8_run; [done|lia|lia]); cbn beta). done.
Qed.

Lemma ustore_words_run ws :
  PGOFF va + 4 * Z.of_nat (length ws) ≤ PGSIZE →
  ustore_words va ws s = Ok tt (with_mem (wr_words (k_mem s) (pa 0) ws) s).
Proof.
  intros Hlen. unfold ustore_words. replace s with (with_mem (k_mem s) s) at 1 by (by destruct s).
  assert (Hin : in_page (k_mem s)) by done. revert Hin.
  assert (Hgen : ∀ m j, 0 ≤ j → PGOFF va + 4 * (j + Z.of_nat (length ws)) ≤ PGSIZE → in_page m →
    mfor (zip (seqZ j (Z.of_nat (length ws))) ws) (λ '(i, w), ustore32 (u32 (va + 4 * i)) w)
      (with_mem m s) = Ok tt (with_mem (wr_words m (pa (4 * j)) ws) s)).
  { clear Hlen. induction ws as [|w ws IH]; intros m j Hj Hlen Hm; [by rewrite seqZ_nil by (cbn; lia)|].
    cbn [length] in *. rewrite seqZ_cons by lia. cbn [zip zip_with mfor wr_words].
    destruct (ustore32_run m (4 * j) w Hm ltac:(lia) ltac:(lia)) as [Hr Hm'].
    mcall Hr. replace (Z.pred (Z.of_nat (S (length ws)))) with (Z.of_nat (length ws)) by lia.
    rewrite IH by (done || lia). do 3 f_equal. unfold pa. lia. }
  intros Hin. rewrite (Hgen _ 0) by (done || lia). done.
Qed.
End stores.
