(* ===== verification/Sched.v ===== *)
(** The scheduler: kern/sched.c, and the operations that may give up the
    CPU: env_destroy (kern/env.c) and user_mem_assert (kern/pmap.c). *)

From S2P Require Import Prelude Mmu Printfmt Console KState Pmap PageTable Env.
From Stdlib Require Import ZArith Lia String.
From stdpp Require Import base tactics numbers list.
Open Scope Z_scope.

(** ** sched_halt *)

(** The test of sched_halt's loop. *)
Definition env_alive (v : Env) : bool :=
  (env_status v =? ENV_RUNNABLE) || (env_status v =? ENV_RUNNING) || (env_status v =? ENV_DYING).

Definition sched_halt {A} : K A :=
  vs ← mgets k_envs;
  if negb (existsb env_alive vs) then
    cprintf (line "No runnable environments in the system!") [];;
    mleave InMonitor
  else
    cpu_upd (set_cpu_env None);;
    kp ← mgets k_kern_pgdir;
    pa ← PADDR kp;
    lcr3 pa;;
    cpu_upd (set_cpu_status CPU_HALTED);;
    unlock_kernel;;
    mleave HaltCPU.

(** ** sched_yield *)

Definition next_slot (idle : nat) : nat :=
  if (idle =? Z.to_nat (NENV - 1))%nat then 0%nat else S idle.

(** The loop: [n] slots from [idle] on; the slot after the last one when
    none of them can run.  Reading past the end of envs[] is undefined. *)
Fixpoint sched_loop (n idle : nat) : K nat :=
  match n with
  | O => mret idle
  | S n' =>
      v ← env_get idle;
      if env_status v =? ENV_RUNNABLE then env_run idle
      else sched_loop n' (next_slot idle)
  end.

Definition sched_yield {A} : K A :=
  cur ← curenv;
  idle ← sched_loop (Z.to_nat (NENV - 1)) (match cur with Some c => S c | None => 0%nat end);
  run_cur ← (if bool_decide (Some idle = cur) then
               v ← env_get idle; mret (env_status v =? ENV_RUNNING)
             else mret false);
  if run_cur : bool then env_run idle else sched_halt.

(** ** env_destroy and user_mem_assert *)

Definition env_destroy (e : nat) : K unit :=
  cur ← curenv;
  v ← env_get e;
  if (env_status v =? ENV_RUNNING) && negb (bool_decide (cur = Some e)) then
    env_upd e (set_env_status ENV_DYING)
  else
    env_free e;;
    cur ← curenv;
    if bool_decide (cur = Some e) then
      cpu_upd (set_cpu_env None);;
      sched_yield
    else mret tt.

Definition user_mem_assert (env : nat) (va len perm : Z) : K unit :=
  r ← user_mem_check env va len (Z.lor perm PTE_U);
  if r <? 0 then
    v ← env_get env;
    a ← mgets k_user_mem_check_addr;
    cprintf (line "[%08x] user_mem_check assertion failure for va %08x") [AInt (env_id v); AInt a];;
    env_destroy env
  else mret tt.

(* ------------------------------------------------------------------ *)
(** ** env_run *)

Definition set_status_at (i : nat) (st : Z) (vs : list Env) : list Env :=
  alter (set_env_status st) i vs.

(** The environments after env_run of slot [e]. *)
Definition run_envs (cur : option nat) (e cpu : nat) (vs : list Env) : list Env :=
  let vs := match cur with Some c => set_status_at c ENV_RUNNABLE vs | None => vs end in
  alter (λ v, set_env_cpunum (Z.of_nat cpu)
                (set_env_runs (u32 (env_runs v + 1)) (set_env_status ENV_RUNNING v))) e vs.

Lemma list_alter_insert {A} (f : A → A) (l : list A) i x :
  l !! i = Some x → alter f i l = <[i := f x]> l.
Proof.
  revert i. induction l as [|y l IH]; intros [|i] H; cbn in *; simplify_eq; [done|].
  f_equal. by apply IH.
Qed.

Lemma env_upd_alter i f s :
  is_Some (k_envs s !! i) → env_upd i f s = Ok tt (with_envs (alter f i (k_envs s)) s).
Proof. intros [v Hv]. rewrite (list_alter_insert f _ _ v Hv). by apply env_upd_run. Qed.

Lemma alter_is_Some {A} (f : A → A) (l : list A) i j : is_Some (l !! j) → is_Some (alter f i l !! j).
Proof. rewrite !lookup_lt_is_Some. by rewrite length_alter. Qed.

Lemma cpu_upd_run f s c :
  k_cpus s !! k_cpunum s = Some c →
  cpu_upd f s = Ok tt (with_cpus (<[k_cpunum s := f c]> (k_cpus s)) s).
Proof. intros H. unfold cpu_upd. mrun. by rewrite H. Qed.

Lemma lcr3_run pa s : lcr3 pa s = Ok tt (with_log (EvLcr3 pa :: k_log s) (with_cr3 pa s)).
Proof. done. Qed.

Lemma unlock_run s :
  k_lock s = Some (k_cpunum s) →
  unlock_kernel s = Ok tt (with_log (EvPause :: k_log s) (with_lock None s)).
Proof. intros H. unfold unlock_kernel. mrun. rewrite H. by rewrite bool_decide_eq_true_2. Qed.

(** The state in which control goes to slot [e]. *)
Definition after_run (e D : nat) (s : kst) : kst :=
  with_log (EvPause :: EvLcr3 (Z.of_nat D * PGSIZE) :: k_log s)
    (with_lock None (with_cr3 (Z.of_nat D * PGSIZE)
      (with_cpus (alter (set_cpu_env (Some e)) (k_cpunum s) (k_cpus s))
        (with_envs (run_envs (curenv_of s) e (k_cpunum s) (k_envs s)) s)))).

Lemma env_run_run {A} s e v D :
  k_envs s !! e = Some v → env_pgdir v = kva_of D → Z.of_nat D < 65536 → cur_ok s →
  is_Some (k_cpus s !! k_cpunum s) → k_lock s = Some (k_cpunum s) →
  env_run (A := A) e s = Noret (ToUser e) (after_run e D s).
Proof.
  intros He Hpg HD Hc [cpu Hcpu] Hlock. unfold env_run, curenv. mrun.
  set (vs1 := match curenv_of s with Some c => set_status_at c ENV_RUNNABLE (k_envs s)
              | None => k_envs s end).
  assert (H1 : (match curenv_of s with
                | Some c => env_upd c (set_env_status ENV_RUNNABLE)
                | None => mret tt end) s = Ok tt (with_envs vs1 s)).
  { unfold cur_ok in Hc. unfold vs1. destruct (curenv_of s) as [c|].
    - by apply env_upd_alter.
    - by destruct s. }
  mcall H1.
  assert (Hv1 : ∃ v1, vs1 !! e = Some v1 ∧ env_pgdir v1 = kva_of D).
  { unfold vs1. destruct (curenv_of s) as [c|]; [|by exists v].
    unfold set_status_at. destruct (decide (c = e)) as [->|Hne].
    - rewrite list_lookup_alter_eq, He. by eexists.
    - rewrite list_lookup_alter_ne by done. by exists v. }
  destruct Hv1 as (v1 & Hv1 & Hpg1). pose proof (lookup_lt_Some _ _ _ Hv1) as Hlt.
  assert (Hcpu1 : cpu_upd (set_cpu_env (Some e)) (with_envs vs1 s) =
    Ok tt (with_cpus (alter (set_cpu_env (Some e)) (k_cpunum s) (k_cpus s)) (with_envs vs1 s))).
  { unfold cpu_upd. mrun. cbn [k_cpus k_cpunum with_envs]. rewrite Hcpu.
    by rewrite (list_alter_insert _ _ _ _ Hcpu). }
  mcall Hcpu1.
  erewrite bind_Ok by (apply env_upd_run; exact Hv1). cbn beta. cbn [k_envs with_cpus with_envs].
  erewrite bind_Ok by (by apply env_upd_again). cbn beta.
  erewrite bind_Ok by (by apply env_get_again). cbn beta.
  cbn [env_pgdir set_env_runs set_env_status]. rewrite Hpg1.
  erewrite bind_Ok by (by apply PADDR_kva). cbn beta. erewrite bind_Ok by apply lcr3_run. cbn beta.
  erewrite bind_Ok by (apply unlock_run; exact Hlock). cbn beta.
  unfold env_pop_tf, curenv. mrun.
  match goal with |- context [curenv_of ?x] => assert (Hce : curenv_of x = Some e) end.
  { unfold curenv_of. cbn [k_cpus k_cpunum with_log with_lock with_cr3 with_envs with_cpus].
    by rewrite list_lookup_alter_eq, Hcpu. }
  rewrite Hce. cbn [mderef]. mrun.
  erewrite bind_Ok by (apply env_upd_run; cbn; by apply list_lookup_insert_eq).
  unfold mleave, after_run, run_envs. f_equal.
  cbn [k_envs k_cpunum with_log with_lock with_cr3 with_envs with_cpus].
  fold vs1. rewrite list_insert_insert_eq. by rewrite (list_alter_insert _ _ _ _ Hv1).
Qed.

(** ** The search for an environment to run *)

Fixpoint slots (n idle : nat) : list nat :=
  match n with
  | O => []
  | S n' => idle :: slots n' (next_slot idle)
  end.
Fixpoint slot_after (n idle : nat) : nat :=
  match n with
  | O => idle
  | S n' => slot_after n' (next_slot idle)
  end.

Definition runnable (vs : list Env) (i : nat) : bool :=
  match vs !! i with Some v => env_status v =? ENV_RUNNABLE | None => false end.

Lemma sched_loop_run n idle s :
  Forall (λ i, (i < length (k_envs s))%nat) (slots n idle) →
  match List.find (runnable (k_envs s)) (slots n idle) with
  | Some i => sched_loop n idle s = env_run i s
  | None => sched_loop n idle s = Ok (slot_after n idle) s
  end.
Proof.
  revert idle. induction n as [|n IH]; intros idle Hv; [done|].
  cbn [slots] in Hv. apply Forall_cons in Hv as [Hi Hv].
  destruct (lookup_lt_is_Some_2 _ _ Hi) as [v Hv'].
  cbn [slots List.find sched_loop slot_after]. unfold runnable at 1. rewrite Hv'.
  mcall env_get_run. destruct (env_status v =? ENV_RUNNABLE); [done|]. by apply IH.
Qed.

(** From a slot below the last one the search meets the slots in order and
    goes on from slot 0. *)
Lemma slots_seq n i : (i + n ≤ Z.to_nat NENV)%nat → slots n i = seq i n.
Proof.
  revert i. induction n as [|n IH]; intros i H; [done|]. cbn [slots seq]. f_equal.
  destruct n as [|n]; [done|]. unfold next_slot.
  rewrite (proj2 (Nat.eqb_neq _ _)) by lia. apply IH. lia.
Qed.

Lemma slots_app n m i : slots (n + m) i = slots n i ++ slots m (slot_after n i).
Proof. revert i. induction n as [|n IH]; intros i; [done|]. cbn. by rewrite IH. Qed.

Lemma slot_after_app n m i : slot_after (n + m) i = slot_after m (slot_after n i).
Proof. revert i. induction n as [|n IH]; intros i; [done|]. apply IH. Qed.

Lemma slot_after_seq n i :
  (i + n < Z.to_nat NENV)%nat → slot_after n i = (i + n)%nat.
Proof.
  revert i. induction n as [|n IH]; intros i H; cbn [slot_after]; [lia|].
  unfold next_slot. rewrite (proj2 (Nat.eqb_neq _ _)) by lia. rewrite IH by lia. lia.
Qed.

Lemma slot_after_wrap n i :
  (i + n = Z.to_nat NENV)%nat → (0 < n)%nat → slot_after n i = 0%nat.
Proof.
  intros H Hn. destruct n as [|n]; [lia|]. replace (S n) with (n + 1)%nat by lia.
  rewrite slot_after_app, (slot_after_seq n i) by lia. cbn [slot_after]. unfold next_slot.
  destruct (Nat.eqb_spec (i + n) (Z.to_nat (NENV - 1))); [done|lia].
Qed.

(** All slots but [c], in circular order from the one after it. *)
Definition round_robin (c : nat) : list nat := seq (S c) (Z.to_nat (NENV - 1) - c) ++ seq 0 c.

Lemma slots_round_robin c :
  (c < Z.to_nat (NENV - 1))%nat →
  slots (Z.to_nat (NENV - 1)) (S c) = round_robin c ∧
  slot_after (Z.to_nat (NENV - 1)) (S c) = c.
Proof.
  intros Hc. unfold round_robin. set (k := (Z.to_nat (NENV - 1) - c)%nat).
  replace (Z.to_nat (NENV - 1)) with (k + c)%nat at 1 2 by lia. split.
  - rewrite slots_app, slots_seq, slot_after_wrap, slots_seq by lia. done.
  - rewrite slot_after_app, (slot_after_wrap k), slot_after_seq by lia. done.
Qed.

(** ** What the scheduler needs of the kernel *)

(** This CPU is in the kernel with the lock, and the environments that can
    run have a page directory. *)
Record sched_ok (s : kst) : Prop := {
  so_len : length (k_envs s) = Z.to_nat NENV;
  so_cur : cur_ok s;
  so_cpu : is_Some (k_cpus s !! k_cpunum s);
  so_lock : k_lock s = Some (k_cpunum s);
  so_pgdir : ∀ i v, k_envs s !! i = Some v →
    env_status v = ENV_RUNNABLE ∨ env_status v = ENV_RUNNING →
    ∃ D, env_pgdir v = kva_of D ∧ Z.of_nat D < 65536;
  so_kern : ∃ KP, k_kern_pgdir s = kva_of KP ∧ Z.of_nat KP < 65536 }.

(** Control goes to slot [i] in user mode. *)
Definition goes_to (s : kst) (i : nat) (r : res kst unit) : Prop :=
  ∃ v D, k_envs s !! i = Some v ∧ env_pgdir v = kva_of D ∧
    r = Noret (ToUser i) (after_run i D s).

Lemma goes_to_run s i v :
  sched_ok s → k_envs s !! i = Some v →
  env_status v = ENV_RUNNABLE ∨ env_status v = ENV_RUNNING →
  goes_to s i (env_run i s).
Proof.
  intros H Hv Hst. destruct (so_pgdir _ H _ _ Hv Hst) as (D & HD & Hb).
  exists v, D. split_and!; [done..|]. by eapply env_run_run; try done; apply H.
Qed.

(** The CPU halts, or falls into the monitor when nothing is alive. *)
Definition halts (s : kst) (r : res kst unit) : Prop :=
  (existsb env_alive (k_envs s) = false ∧ ∃ s', r = Noret InMonitor s' ∧ k_envs s' = k_envs s) ∨
  (existsb env_alive (k_envs s) = true ∧ ∃ s', r = Noret HaltCPU s' ∧ k_envs s' = k_envs s ∧
     curenv_of s' = None ∧ k_lock s' = None ∧
     ∃ c, k_cpus s' !! k_cpunum s = Some c ∧ cpu_status c = CPU_HALTED).

Lemma sched_halt_run s : sched_ok s → halts s (sched_halt s).
Proof.
  intros H. unfold sched_halt. mrun. destruct (existsb env_alive (k_envs s)) eqn:Ha; cbn [negb].
  - right. split; [done|]. destruct (so_cpu _ H) as [cpu Hcpu].
    destruct (so_kern _ H) as (KP & HK & HKb). pose proof (lookup_lt_Some _ _ _ Hcpu) as Hlt.
    mcall cpu_upd_run. cbn [k_kern_pgdir with_cpus]. rewrite HK. mcall PADDR_kva. mcall lcr3_run.
    erewrite bind_Ok by (apply cpu_upd_run; cbn; by apply list_lookup_insert_eq).
    cbn [k_cpunum k_cpus with_log with_cr3 with_cpus].
    erewrite bind_Ok by (apply unlock_run; apply (so_lock _ H)).
    eexists. split; [done|]. cbn. rewrite list_insert_insert_eq.
    split_and!; [done| |done|].
    + unfold curenv_of. cbn. by rewrite list_lookup_insert_eq by done.
    + eexists. by rewrite list_lookup_insert_eq by done.
  - left. split; [done|]. eexists. split; done.
Qed.

Lemma sched_yield_cases s c vc :
  sched_ok s → curenv_of s = Some c → (c < Z.to_nat (NENV - 1))%nat → k_envs s !! c = Some vc →
  match List.find (runnable (k_envs s)) (round_robin c) with
  | Some i => goes_to s i (sched_yield s)
  | None => if env_status vc =? ENV_RUNNING then goes_to s c (sched_yield s)
            else halts s (sched_yield s)
  end.
Proof.
  intros H Hcur Hc Hvc. destruct (slots_round_robin c Hc) as [Hsl Haf].
  assert (Hb : Forall (λ i, (i < length (k_envs s))%nat) (slots (Z.to_nat (NENV - 1)) (S c))).
  { rewrite Hsl, (so_len _ H). unfold round_robin. apply Forall_app_2; apply Forall_seq; lia. }
  pose proof (sched_loop_run (Z.to_nat (NENV - 1)) (S c) s Hb) as Hloop. rewrite Hsl, Haf in Hloop.
  unfold sched_yield, curenv. mrun. rewrite Hcur.
  destruct (List.find _ _) as [i|] eqn:Hf.
  - apply List.find_some in Hf as [_ Hi]. unfold runnable in Hi.
    destruct (k_envs s !! i) as [v|] eqn:Hv; [|done]. apply Z.eqb_eq in Hi.
    destruct (so_pgdir _ H _ _ Hv (or_introl Hi)) as (D & HD & HDb).
    exists v, D. split_and!; [done..|]. unfold mbind, M_bind. rewrite Hloop.
    by erewrite env_run_run by (try done; apply H).
  - mcall Hloop. rewrite bool_decide_eq_true_2 by done. rewrite bind_assoc. mcall env_get_run.
    destruct (Z.eqb_spec (env_status vc) ENV_RUNNING).
    + eapply goes_to_run; [done|done|by right].
    + by apply sched_halt_run.
Qed.

(** Slot [k] of the circular order, and distances along it. *)
Lemma round_robin_lookup c k i :
  (c < Z.to_nat (NENV - 1))%nat → round_robin c !! k = Some i →
  (Z.of_nat i - Z.of_nat c) mod NENV = Z.of_nat k + 1 ∧ (i < Z.to_nat NENV)%nat.
Proof.
  intros Hc. unfold round_robin. intros [H|[Hge H]]%lookup_app_Some;
    apply lookup_seq in H as [-> Hk].
  - rewrite Z.mod_small by lia. lia.
  - rewrite length_seq in *. cbn [Nat.add] in *.
    replace (Z.of_nat (k - (Z.to_nat (NENV - 1) - c)) - Z.of_nat c)
      with (Z.of_nat k + 1 + (-1) * NENV) by lia.
    rewrite Z.mod_add, Z.mod_small by lia. lia.
Qed.

Lemma elem_of_round_robin c i :
  (c < Z.to_nat (NENV - 1))%nat → (i < Z.to_nat NENV)%nat → i ≠ c → i ∈ round_robin c.
Proof. intros Hc Hi Hne. unfold round_robin. rewrite elem_of_app, !elem_of_seq. lia. Qed.

(** [List.find] returns the first match. *)
Lemma find_first {A} (f : A → bool) l x y j :
  List.find f l = Some x → l !! j = Some y → f y = true →
  ∃ i, l !! i = Some x ∧ (i ≤ j)%nat.
Proof.
  revert j. induction l as [|a l IH]; intros j Hf Hj Hy; [done|]. cbn in Hf.
  destruct (f a) eqn:Ha; [injection Hf as ->; exists 0%nat; split; [done|lia]|].
  destruct j as [|j]; [cbn in Hj; congruence|].
  destruct (IH j Hf Hj Hy) as (i & Hi & Hij). exists (S i). split; [done|lia].
Qed.

Lemma cur_ok_insert s c v :
  cur_ok s → cur_ok (with_envs (<[c := v]> (k_envs s)) s).
Proof.
  unfold cur_ok. change (curenv_of (with_envs (<[c := v]> (k_envs s)) s)) with (curenv_of s).
  destruct (curenv_of s) as [x|]; [|done]. cbn. intros Hx.
  apply lookup_lt_is_Some in Hx. apply lookup_lt_is_Some. by rewrite length_insert.
Qed.

Lemma sched_ok_insert s c v :
  sched_ok s →
  (env_status v = ENV_RUNNABLE ∨ env_status v = ENV_RUNNING →
   ∃ D, env_pgdir v = kva_of D ∧ Z.of_nat D < 65536) →
  sched_ok (with_envs (<[c := v]> (k_envs s)) s).
Proof.
  intros H Hv.
  constructor; [|apply cur_ok_insert; exact (so_cur _ H)|exact (so_cpu _ H)|exact (so_lock _ H)| |exact (so_kern _ H)].
  - cbn. rewrite length_insert. exact (so_len _ H).
  - cbn. intros j w [(<- & <- & _)|[_ Hj]]%list_lookup_insert_Some Hs; [by apply Hv|by eapply so_pgdir].
Qed.

Lemma find_ext_in {A} (f g : A → bool) l :
  (∀ x, x ∈ l → f x = g x) → List.find f l = List.find g l.
Proof.
  induction l as [|a l IH]; intros H; [done|]. cbn. rewrite <-(H a) by left.
  destruct (f a); [done|]. apply IH. intros x Hx. apply H. by right.
Qed.

Lemma run_envs_runnable cur e cpu vs j :
  j ≠ e → runnable vs j = true → runnable (run_envs cur e cpu vs) j = true.
Proof.
  intros Hne. unfold runnable, run_envs, set_status_at.
  rewrite list_lookup_alter_ne by done. destruct cur as [c|]; [|done].
  destruct (decide (c = j)) as [->|].
  - rewrite list_lookup_alter_eq. by destruct (vs !! j).
  - by rewrite list_lookup_alter_ne.
Qed.

(** ** Claims *)

(** Env_run marks the environment it leaves ENV_RUNNABLE, whatever state
    it was in (the comment above it asks for this only when that state is
    ENV_RUNNING), makes slot [e] current and running with one more run
    counted, loads its page directory, releases the kernel lock, and enters
    user mode; no other slot changes. *)
Theorem env_run_spec s e v D :
  sched_ok s → k_envs s !! e = Some v → env_pgdir v = kva_of D → Z.of_nat D < 65536 →
  ∃ s', env_run (A := unit) e s = Noret (ToUser e) s' ∧
    curenv_of s' = Some e ∧ k_cr3 s' = Z.of_nat D * PGSIZE ∧ k_lock s' = None ∧
    k_mem s' = k_mem s ∧ k_pages s' = k_pages s ∧
    (∀ v', k_envs s' !! e = Some v' → env_status v' = ENV_RUNNING ∧
       env_runs v' = u32 (env_runs v + 1) ∧ env_tf v' = env_tf v) ∧
    (∀ c x, curenv_of s = Some c → c ≠ e → k_envs s !! c = Some x →
       k_envs s' !! c = Some (set_env_status ENV_RUNNABLE x)) ∧
    (∀ i, i ≠ e → curenv_of s ≠ Some i → k_envs s' !! i = k_envs s !! i).
Proof.
  intros H He Hpg HD. exists (after_run e D s).
  split; [by eapply env_run_run; try done; apply H|].
  destruct (so_cpu _ H) as [cpu Hcpu].
  split; [unfold curenv_of; cbn; by rewrite list_lookup_alter_eq, Hcpu|].
  do 4 (split; [done|]). cbn. unfold run_envs, set_status_at. split_and!.
  - intros v'. rewrite list_lookup_alter_eq. destruct (curenv_of s) as [c|].
    + destruct (decide (c = e)) as [->|Hne].
      * rewrite list_lookup_alter_eq, He. cbn. by intros [= <-].
      * rewrite list_lookup_alter_ne, He by done. cbn. by intros [= <-].
    + rewrite He. cbn. by intros [= <-].
  - intros c x -> Hne Hx. rewrite list_lookup_alter_ne by done. by rewrite list_lookup_alter_eq, Hx.
  - intros i Hi Hc. rewrite list_lookup_alter_ne by done. destruct (curenv_of s) as [c|]; [|done].
    apply list_lookup_alter_ne. by intros ->.
Qed.


(** Slot 0 running, slots 1 and 2 runnable, the others free, the lock held. *)
Definition demo_ready : Env := set_env_id 4098 (demo_env 3).
Definition demo_sched_envs : list Env :=
  [set_env_status ENV_RUNNING (demo_env 1); demo_child; demo_ready]
    ++ replicate (Z.to_nat 1021) demo_free_env.
Definition demo_sched : kst :=
  with_lock (Some 0%nat) (with_kern_pgdir (kva_of 5) (with_envs demo_sched_envs demo_running)).

Lemma demo_sched_lookup i v :
  k_envs demo_sched !! i = Some v →
  v = set_env_status ENV_RUNNING (demo_env 1) ∨ v = demo_child ∨ v = demo_ready ∨ v = demo_free_env.
Proof.
  cbn [k_envs demo_sched with_lock with_kern_pgdir with_envs]. unfold demo_sched_envs.
  destruct i as [|[|[|i]]]; [intros [= <-]; tauto..|].
  intros H. change (replicate (Z.to_nat 1021) demo_free_env !! i = Some v) in H.
  revert H. generalize (Z.to_nat 1021). intros n [-> _]%lookup_replicate. tauto.
Qed.

Lemma demo_sched_ok : sched_ok demo_sched.
Proof.
  constructor.
  - cbn [k_envs demo_sched with_lock with_kern_pgdir with_envs]. unfold demo_sched_envs.
    rewrite length_app, length_replicate. cbn [length]. lia.
  - by eexists.
  - by eexists.
  - done.
  - intros i v Hv%demo_sched_lookup Hs.
    destruct Hv as [-> | [-> | [-> | ->]]]; [by exists 1%nat|by exists 2%nat|by exists 3%nat|].
    cbn in Hs. destruct Hs; discriminate.
  - by exists 5%nat.
Qed.

Lemma env_run_spec_witness :
  ∃ s', env_run (A := unit) 1 demo_sched = Noret (ToUser 1) s' ∧ curenv_of s' = Some 1%nat.
Proof.
  destruct (env_run_spec demo_sched 1 demo_child 2 demo_sched_ok eq_refl eq_refl)
    as (s' & Hr & Hc & _); [lia|].
  exists s'. split; assumption.
Defined.

Lemma demo_sched_first : List.find (runnable (k_envs demo_sched)) (round_robin 0) = Some 1%nat.
Proof. reflexivity. Qed.




(** The corner cases of the search.  When the last slot is current, the
    search starts at envs[NENV], past the end of the array.  When no
    environment is current, the NENV-1 probes end before the last slot, and
    the CPU halts although the environment there may be runnable. *)
Theorem sched_yield_last_slot s :
  sched_ok s →
  (curenv_of s = Some (Z.to_nat (NENV - 1)) → sched_yield (A := unit) s = Undef) ∧
  (curenv_of s = None → List.find (runnable (k_envs s)) (seq 0 (Z.to_nat (NENV - 1))) = None →
   halts s (sched_yield s)).
Proof.
  intros H. split; intros Hcur.
  - unfold sched_yield, curenv. mrun. rewrite Hcur.
    replace (Z.to_nat (NENV - 1)) with (S (Z.to_nat (NENV - 2))) at 1 by lia.
    assert (Hg : env_get (S (Z.to_nat (NENV - 1))) s = Undef).
    { unfold env_get. mrun. by rewrite lookup_ge_None_2 by (rewrite (so_len _ H); lia). }
    cbn [sched_loop]. unfold mbind, M_bind. by rewrite Hg.
  - intros Hf. pose proof (sched_loop_run (Z.to_nat (NENV - 1)) 0 s) as Hl.
    rewrite slots_seq, Hf, slot_after_seq in Hl by lia.
    unfold sched_yield, curenv. mrun. rewrite Hcur.
    erewrite bind_Ok by (apply Hl; apply Forall_seq; rewrite (so_len _ H); lia). cbn beta.
    rewrite bool_decide_eq_false_2 by done. mrun. by apply sched_halt_run.
Qed.

(** Only the last slot is runnable, and no environment is current. *)
Definition demo_starved : kst :=
  with_cpus [mkCpu 0 CPU_STARTED None (mkTs 0 0 0)]
    (with_envs (replicate (Z.to_nat 1023) demo_free_env ++ [demo_child]) demo_sched).

Lemma demo_starved_ok : sched_ok demo_starved.
Proof.
  constructor; [|by eexists|by eexists|done| |by exists 5%nat];
    cbn [k_envs demo_starved with_cpus with_envs].
  - rewrite length_app, length_replicate. cbn [length]. lia.
  - intros i v [[-> _]%lookup_replicate|[_ Hv]]%lookup_app_Some Hs.
    + cbn in Hs. destruct Hs; discriminate.
    + apply list_lookup_singleton_Some in Hv as [_ <-]. by exists 2%nat.
Qed.

Lemma demo_starved_none :
  List.find (runnable (k_envs demo_starved)) (seq 0 (Z.to_nat (NENV - 1))) = None.
Proof. reflexivity. Qed.

Lemma sched_yield_last_slot_witness :
  runnable (k_envs demo_starved) (Z.to_nat (NENV - 1)) = true ∧
  halts demo_starved (sched_yield demo_starved).
Proof.
  split; [reflexivity|].
  apply (proj2 (sched_yield_last_slot demo_starved demo_starved_ok)); [reflexivity|].
  apply demo_starved_none.
Defined.
