(* ===== verification/Spinlock.v ===== *)
(** The kernel spin lock: kern/spinlock.c and kern/spinlock.h.  The lock is
    modelled at the granularity of single memory accesses: each CPU is at a
    point of spin_lock or spin_unlock (or outside, or in its critical
    section), and the CPUs' accesses to the struct spinlock interleave.  The
    rest of the development uses the atomic lock_kernel and unlock_kernel of
    Env.v, which this file's refinement theorem justifies. *)

From S2P Require Import Prelude Mmu Console KState Pmap Env.
From Stdlib Require Import ZArith Lia String Relations.
From stdpp Require Import base tactics numbers list.
Open Scope Z_scope.

(** ** struct spinlock and its sequential operations *)

Record spinlock := mkSpin {
  locked : Z;
  lk_name : string;
  lk_cpu : option nat;
  lk_pcs : list Z }.

Definition set_locked (v : Z) (lk : spinlock) : spinlock :=
  mkSpin v (lk_name lk) (lk_cpu lk) (lk_pcs lk).
Definition set_lk_cpu (c : option nat) (lk : spinlock) : spinlock :=
  mkSpin (locked lk) (lk_name lk) c (lk_pcs lk).
Definition set_lk_pcs (p : list Z) (lk : spinlock) : spinlock :=
  mkSpin (locked lk) (lk_name lk) (lk_cpu lk) p.

(** The saved %eip of up to [n] frames from [ebp] on; [ld] loads a word.
    The entries after the last frame are 0. *)
Fixpoint caller_pcs (ld : Z → Z) (n : nat) (ebp : Z) : list Z :=
  match n with
  | O => []
  | S n' => if (ebp =? 0) || (ebp <? ULIM) then replicate n 0
            else ld (ebp + 4) :: caller_pcs ld n' (ld ebp)
  end.
Definition get_caller_pcs (ld : Z → Z) (ebp : Z) : list Z := caller_pcs ld 10 ebp.

Definition holding (me : nat) (lk : spinlock) : bool :=
  negb (locked lk =? 0) && bool_decide (lk_cpu lk = Some me).

Definition spin_initlock (name : string) (lk : spinlock) : spinlock :=
  set_lk_cpu None (mkSpin 0 name (lk_cpu lk) (lk_pcs lk)).

(** ** One CPU's steps *)

(** Where a CPU is.  Each point inside the two routines is just before one
    access to the lock. *)
Inductive lpc :=
| Outside
| LkTest        (* holding(lk): lk->locked *)
| LkTestCpu     (* holding(lk): lk->cpu *)
| LkXchg        (* while (xchg(&lk->locked, 1) != 0) *)
| LkSetCpu      (* lk->cpu = thiscpu *)
| LkPcs         (* get_caller_pcs(lk->pcs) *)
| Critical
| UlTest        (* !holding(lk): lk->locked *)
| UlTestCpu     (* !holding(lk): lk->cpu *)
| UlPcs         (* lk->pcs[0] = 0 *)
| UlClear       (* lk->cpu = 0 *)
| UlXchg        (* xchg(&lk->locked, 0) *)
| Panicked.

#[export] Instance lpc_eq_dec : EqDecision lpc.
Proof. solve_decision. Defined.

(** spin_lock by CPU [me] whose stack is (ld, ebp). *)
Definition spin_lock_step (me : nat) (ld : Z → Z) (ebp : Z) (p : lpc) (lk : spinlock)
  : option (lpc * spinlock) :=
  match p with
  | LkTest => Some (if locked lk =? 0 then LkXchg else LkTestCpu, lk)
  | LkTestCpu => Some (if bool_decide (lk_cpu lk = Some me) then Panicked else LkXchg, lk)
  | LkXchg => Some (if locked lk =? 0 then LkSetCpu else LkXchg, set_locked 1 lk)
  | LkSetCpu => Some (LkPcs, set_lk_cpu (Some me) lk)
  | LkPcs => Some (Critical, set_lk_pcs (get_caller_pcs ld ebp) lk)
  | _ => None
  end.

(** spin_unlock; the report it prints before its panic is left out. *)
Definition spin_unlock_step (me : nat) (p : lpc) (lk : spinlock) : option (lpc * spinlock) :=
  match p with
  | UlTest => Some (if locked lk =? 0 then Panicked else UlTestCpu, lk)
  | UlTestCpu => Some (if bool_decide (lk_cpu lk = Some me) then UlPcs else Panicked, lk)
  | UlPcs => Some (UlClear, set_lk_pcs (<[0%nat := 0]> (lk_pcs lk)) lk)
  | UlClear => Some (UlXchg, set_lk_cpu None lk)
  | UlXchg => Some (Outside, set_locked 0 lk)
  | _ => None
  end.

(** ** The machine *)

Record smp := mkSmp { smp_lock : spinlock; smp_pc : list lpc }.

(** CPU [i] makes a step: it calls lock_kernel, calls unlock_kernel at the
    end of its critical section, or goes on inside one of them. *)
Inductive smp_step (i : nat) : smp → smp → Prop :=
| step_call_lock lk ps :
    ps !! i = Some Outside → smp_step i (mkSmp lk ps) (mkSmp lk (<[i := LkTest]> ps))
| step_call_unlock lk ps :
    ps !! i = Some Critical → smp_step i (mkSmp lk ps) (mkSmp lk (<[i := UlTest]> ps))
| step_lock lk ps p ld ebp p' lk' :
    ps !! i = Some p → spin_lock_step i ld ebp p lk = Some (p', lk') →
    smp_step i (mkSmp lk ps) (mkSmp lk' (<[i := p']> ps))
| step_unlock lk ps p p' lk' :
    ps !! i = Some p → spin_unlock_step i p lk = Some (p', lk') →
    smp_step i (mkSmp lk ps) (mkSmp lk' (<[i := p']> ps)).

Inductive reachable (ncpu : nat) : smp → Prop :=
| reach_init lk name : reachable ncpu (mkSmp (spin_initlock name lk) (replicate ncpu Outside))
| reach_step s i s' : reachable ncpu s → smp_step i s s' → reachable ncpu s'.

(** ** The invariant *)

(** The CPU has taken the lock and not released it. *)
Definition owns (p : lpc) : bool :=
  match p with
  | LkSetCpu | LkPcs | Critical | UlTest | UlTestCpu | UlPcs | UlClear | UlXchg => true
  | _ => false
  end.
(** The CPU is the one recorded in lk->cpu. *)
Definition recorded (p : lpc) : bool :=
  match p with LkPcs | Critical | UlTest | UlTestCpu | UlPcs | UlClear => true | _ => false end.

Record lock_inv (s : smp) (o : option nat) : Prop := {
  li_owner : ∀ i p, smp_pc s !! i = Some p → owns p = true ↔ o = Some i;
  li_locked : locked (smp_lock s) = match o with Some _ => 1 | None => 0 end;
  li_cpu : ∀ i p, smp_pc s !! i = Some p → recorded p = true ↔ lk_cpu (smp_lock s) = Some i;
  li_panic : ∀ i, smp_pc s !! i ≠ Some Panicked }.

Lemma recorded_owns p : recorded p = true → owns p = true.
Proof. by destruct p. Qed.

Lemma lock_inv_init ncpu lk name :
  lock_inv (mkSmp (spin_initlock name lk) (replicate ncpu Outside)) None.
Proof.
  constructor; cbn; try done.
  - intros i p [-> _]%lookup_replicate. done.
  - intros i p [-> _]%lookup_replicate. done.
  - intros i [? _]%lookup_replicate. done.
Qed.

(** A move of CPU [i] that respects ownership and lk->cpu. *)
Lemma lock_inv_move lk lk' ps i p p' o o' :
  lock_inv (mkSmp lk ps) o → ps !! i = Some p → p' ≠ Panicked →
  (owns p' = true ↔ o' = Some i) → (∀ j, j ≠ i → o' = Some j ↔ o = Some j) →
  locked lk' = match o' with Some _ => 1 | None => 0 end →
  (recorded p' = true ↔ lk_cpu lk' = Some i) →
  (∀ j q, j ≠ i → ps !! j = Some q → lk_cpu lk' = Some j ↔ lk_cpu lk = Some j) →
  lock_inv (mkSmp lk' (<[i := p']> ps)) o'.
Proof.
  intros [H1 H2 H3 H4] Hp Hnp Ho Ho' Hl Hr Hr'. cbn in *. constructor; cbn.
  - intros j q [(<- & <- & _)|[Hne Hq]]%list_lookup_insert_Some; [done|].
    rewrite Ho' by done. by apply H1.
  - done.
  - intros j q [(<- & <- & _)|[Hne Hq]]%list_lookup_insert_Some; [done|].
    rewrite (Hr' j q) by done. by apply H3.
  - intros j [(_ & ? & _)|[_ ?]]%list_lookup_insert_Some; [done|by apply (H4 j)].
Qed.

(** A move that touches neither lk->locked nor lk->cpu. *)
Lemma lock_inv_still lk lk' ps i p p' o :
  lock_inv (mkSmp lk ps) o → ps !! i = Some p → p' ≠ Panicked →
  owns p' = owns p → recorded p' = recorded p →
  locked lk' = locked lk → lk_cpu lk' = lk_cpu lk →
  lock_inv (mkSmp lk' (<[i := p']> ps)) o.
Proof.
  intros H Hp Hnp Ho Hr Hl Hc. eapply lock_inv_move; [exact H|exact Hp|exact Hnp|..].
  - rewrite Ho. by apply (li_owner _ _ H).
  - done.
  - rewrite Hl. apply (li_locked _ _ H).
  - rewrite Hr, Hc. by apply (li_cpu _ _ H).
  - by rewrite Hc.
Qed.

(** How one step of CPU [i] may change the owner. *)
Definition owner_step (i : nat) (o o' : option nat) : Prop :=
  o' = o ∨ (o = None ∧ o' = Some i) ∨ (o = Some i ∧ o' = None).

Lemma spin_lock_inv lk ps i p ld ebp p' lk' o :
  lock_inv (mkSmp lk ps) o → ps !! i = Some p → spin_lock_step i ld ebp p lk = Some (p', lk') →
  ∃ o', lock_inv (mkSmp lk' (<[i := p']> ps)) o' ∧ owner_step i o o'.
Proof.
  intros H Hp Hs. pose proof (li_owner _ _ H i p Hp) as Hown.
  pose proof (li_cpu _ _ H i p Hp) as Hcpu. pose proof (li_locked _ _ H) as Hlk. cbn in Hlk, Hcpu.
  destruct p; cbn in Hs; try discriminate; cbn [owns recorded] in Hown, Hcpu.
  - exists o. split; [|by left]. destruct (locked lk =? 0); simplify_eq; by eapply lock_inv_still.
  - exists o. split; [|by left]. rewrite bool_decide_eq_false_2 in Hs by (by intros ?%Hcpu).
    simplify_eq. by eapply lock_inv_still.
  - destruct o as [j|]; rewrite Hlk in Hs; cbn in Hs; simplify_eq.
    + exists (Some j). split; [|by left]. by eapply lock_inv_still.
    + exists (Some i). split; [|right; by left]. eapply lock_inv_move; try done.
      intros j Hj. split; [by intros [= ->]|done].
  - simplify_eq. exists o. split; [|by left]. eapply lock_inv_move; try done.
    intros j q Hj Hq. cbn. split; [by intros [= ->]|]. intros Hc. exfalso.
    assert (Ho : o = Some i) by (by apply Hown). subst o.
    pose proof (recorded_owns _ (proj2 (li_cpu _ _ H j q Hq) Hc)) as Hrec.
    apply (li_owner _ _ H j q Hq) in Hrec. congruence.
  - simplify_eq. exists o. split; [|by left]. by eapply lock_inv_still.
Qed.

Lemma spin_unlock_inv lk ps i p p' lk' o :
  lock_inv (mkSmp lk ps) o → ps !! i = Some p → spin_unlock_step i p lk = Some (p', lk') →
  ∃ o', lock_inv (mkSmp lk' (<[i := p']> ps)) o' ∧ owner_step i o o'.
Proof.
  intros H Hp Hs. pose proof (li_owner _ _ H i p Hp) as Hown.
  pose proof (li_cpu _ _ H i p Hp) as Hcpu. pose proof (li_locked _ _ H) as Hlk. cbn in Hlk, Hcpu.
  destruct p; cbn in Hs; try discriminate; cbn [owns recorded] in Hown, Hcpu;
    assert (Ho : o = Some i) by (by apply Hown); subst o.
  - exists (Some i). split; [|by left]. rewrite Hlk in Hs. cbn in Hs. simplify_eq.
    by eapply lock_inv_still.
  - exists (Some i). split; [|by left]. rewrite bool_decide_eq_true_2 in Hs by (by apply Hcpu).
    simplify_eq. by eapply lock_inv_still.
  - exists (Some i). split; [|by left]. simplify_eq. by eapply lock_inv_still.
  - exists (Some i). split; [|by left]. simplify_eq. eapply lock_inv_move; try done.
    intros j q Hj Hq. cbn. split; [done|]. intros Hc.
    assert (lk_cpu lk = Some i) by (by apply Hcpu). congruence.
  - exists None. split; [|by right; right]. simplify_eq. eapply lock_inv_move; try done.
    intros j Hj. split; [done|by intros [= ->]].
Qed.

Lemma smp_step_inv i s s' o :
  lock_inv s o → smp_step i s s' → ∃ o', lock_inv s' o' ∧ owner_step i o o'.
Proof.
  intros H Hs. destruct Hs.
  - exists o. split; [by eapply lock_inv_still|by left].
  - exists o. split; [by eapply lock_inv_still|by left].
  - by eapply spin_lock_inv.
  - by eapply spin_unlock_inv.
Qed.

Lemma reachable_inv ncpu s : reachable ncpu s → ∃ o, lock_inv s o.
Proof.
  induction 1 as [lk name|s i s' _ [o IH] Hs]; [eexists; apply lock_inv_init|].
  destruct (smp_step_inv _ _ _ _ IH Hs) as (o' & H & _). eauto.
Qed.

(** ** Claims *)

(** C3: whatever the interleaving of the CPUs' memory accesses, two CPUs are
    never both between acquiring and releasing the lock (so never both in
    their critical sections), and neither spin_lock's nor spin_unlock's
    check of holding() ever panics. *)
Theorem spinlock_mutual_exclusion ncpu s :
  reachable ncpu s →
  (∀ i j p q, smp_pc s !! i = Some p → smp_pc s !! j = Some q →
     owns p = true → owns q = true → i = j) ∧
  (∀ i, smp_pc s !! i ≠ Some Panicked).
Proof.
  intros [o H]%reachable_inv. split; [|apply (li_panic _ _ H)].
  intros i j p q Hi Hj Hp%(li_owner _ _ H i p Hi) Hq%(li_owner _ _ H j q Hj). congruence.
Qed.

(** Runs under a given schedule, each CPU's stack being empty. *)
Definition smp_next (i : nat) (s : smp) : option smp :=
  let go p lk := mkSmp lk (<[i := p]> (smp_pc s)) in
  match smp_pc s !! i with
  | Some Outside => Some (go LkTest (smp_lock s))
  | Some Critical => Some (go UlTest (smp_lock s))
  | Some p =>
      match spin_lock_step i (λ _, 0) 0 p (smp_lock s) with
      | Some (p', lk') => Some (go p' lk')
      | None => match spin_unlock_step i p (smp_lock s) with
                | Some (p', lk') => Some (go p' lk')
                | None => None
                end
      end
  | None => None
  end.

Lemma smp_next_step i s s' : smp_next i s = Some s' → smp_step i s s'.
Proof.
  destruct s as [lk ps]. unfold smp_next. cbn [smp_pc smp_lock].
  destruct (ps !! i) as [p|] eqn:Hp; [|done].
  destruct (decide (p = Outside)) as [->|]; [intros [= <-]; by constructor|].
  destruct (decide (p = Critical)) as [->|]; [intros [= <-]; by constructor|].
  intros H. destruct (spin_lock_step i (λ _, 0) 0 p lk) as [[p' lk']|] eqn:Hl.
  - replace s' with (mkSmp lk' (<[i := p']> ps)) by (destruct p; congruence). by eapply step_lock.
  - destruct (spin_unlock_step i p lk) as [[p' lk']|] eqn:Hu; [|destruct p; congruence].
    replace s' with (mkSmp lk' (<[i := p']> ps)) by (destruct p; congruence). by eapply step_unlock.
Qed.

Fixpoint smp_run (sched : list nat) (s : smp) : option smp :=
  match sched with
  | [] => Some s
  | i :: sched' => smp_next i s ≫= smp_run sched'
  end.

Lemma smp_run_reachable ncpu sched s s' :
  reachable ncpu s → smp_run sched s = Some s' → reachable ncpu s'.
Proof.
  revert s. induction sched as [|i sched IH]; intros s H; cbn; [by intros [= <-]|].
  destruct (smp_next i s) as [s1|] eqn:Hn; [|done]. cbn. apply IH.
  eapply reach_step; [exact H|by apply smp_next_step].
Qed.

Definition demo_lock : spinlock := mkSpin 0 EmptyString None (replicate 10 0).
Definition demo_smp : smp := mkSmp (spin_initlock EmptyString demo_lock) (replicate 2 Outside).
(** CPU 0 is in its critical section and CPU 1 spins. *)
Definition demo_contended : smp :=
  mkSmp (mkSpin 1 EmptyString (Some 0%nat) (replicate 10 0)) [Critical; LkXchg].

Lemma demo_contended_reachable : reachable 2 demo_contended.
Proof.
  apply (smp_run_reachable 2 [0; 0; 0; 0; 0; 1; 1; 1]%nat demo_smp); [constructor|reflexivity].
Qed.

Lemma spinlock_mutual_exclusion_witness :
  smp_pc demo_contended !! 0%nat = Some Critical ∧ ∀ j, smp_pc demo_contended !! j ≠ Some Panicked.
Proof.
  split; [reflexivity|].
  exact (proj2 (spinlock_mutual_exclusion 2 demo_contended demo_contended_reachable)).
Defined.

(** The CPU that owns the lock, as the kernel model sees it. *)
Definition abs_lock (s : smp) (k : kst) : Prop := lock_inv s (k_lock k).

(** C4: the lock implements the atomic lock_kernel and unlock_kernel.  Each
    step of a CPU either leaves the abstract lock alone, or is the xchg that
    takes a free lock, which is one lock_kernel that returns, or is the xchg
    of the owner that releases it, which is one unlock_kernel that returns. *)
Theorem spinlock_refines i s s' k :
  abs_lock s k → k_cpunum k = i → smp_step i s s' →
  ∃ k', abs_lock s' k' ∧
    (k' = k ∨ lock_kernel k = Ok tt k' ∨ unlock_kernel k = Ok tt k').
Proof.
  unfold abs_lock. intros H Hi Hs.
  destruct (smp_step_inv _ _ _ _ H Hs) as (o' & H' & [->|[[Ho ->]|[Ho ->]]]).
  - exists k. by split; [|left].
  - exists (with_lock (Some i) k). split; [done|]. right. left.
    unfold lock_kernel. mrun. rewrite Ho, Hi. done.
  - exists (with_log (EvPause :: k_log k) (with_lock None k)). split; [done|]. right. right.
    unfold unlock_kernel. mrun. rewrite Ho, Hi, bool_decide_eq_true_2 by done. done.
Qed.

Lemma spinlock_refines_witness :
  ∃ s' k', smp_step 0 demo_smp s' ∧ abs_lock s' k'.
Proof.
  set (k := with_lock None (with_cpunum 0 (demo_kernel 16 10 49152))).
  assert (Hs : smp_step 0 demo_smp (mkSmp (smp_lock demo_smp) [LkTest; Outside]))
    by (apply (step_call_lock 0); reflexivity).
  destruct (spinlock_refines 0 demo_smp _ k (lock_inv_init 2 demo_lock EmptyString) eq_refl Hs)
    as (k' & Hk & _).
  eexists _, k'. split; [exact Hs|exact Hk].
Defined.
