(* ===== verification/Syscall.v ===== *)
(** System calls: kern/syscall.c.  Each handler is a definition on the
    kernel state; its result is the C return value.  Handlers that may give
    up the CPU (sys_yield, sys_ipc_recv, and everything that may destroy the
    caller) leave through the scheduler. *)

From S2P Require Import Prelude Mmu Printfmt Console KState Pmap PageTable Env EnvFree Sched.
From Stdlib Require Import ZArith Lia String.
From stdpp Require Import base tactics numbers list.
Open Scope Z_scope.

Abbreviation SYS_cputs := 0 (only parsing).
Abbreviation SYS_cgetc := 1 (only parsing).
Abbreviation SYS_getenvid := 2 (only parsing).
Abbreviation SYS_env_destroy := 3 (only parsing).
Abbreviation SYS_page_alloc := 4 (only parsing).
Abbreviation SYS_page_map := 5 (only parsing).
Abbreviation SYS_page_unmap := 6 (only parsing).
Abbreviation SYS_exofork := 7 (only parsing).
Abbreviation SYS_env_set_status := 8 (only parsing).
Abbreviation SYS_env_set_trapframe := 9 (only parsing).
Abbreviation SYS_env_set_pgfault_upcall := 10 (only parsing).
Abbreviation SYS_yield := 11 (only parsing).
Abbreviation SYS_ipc_try_send := 12 (only parsing).
Abbreviation SYS_ipc_recv := 13 (only parsing).
Abbreviation NSYSCALLS := 14 (only parsing).

(** ** Console *)

(** What printfmt reads of the string at [va]: at most [n] bytes, up to the
    first NUL. *)
Fixpoint uread_str (n : nat) (va : Z) : K (list Z) :=
  match n with
  | O => mret []
  | S n' =>
      c ← uload8 va;
      if c =? 0 then mret [] else
      r ← uread_str n' (u32 (va + 1)); mret (c :: r)
  end.

(** A negative precision is no bound. *)
Definition uread_arg (va prec : Z) : K arg :=
  if va =? 0 then mret (AStr None)
  else r ← uread_str (Z.to_nat (if prec <? 0 then 2 ^ 32 else prec)) va; mret (AStr (Some r)).

Definition the_curenv : K nat := c ← curenv; mderef c.

Definition sys_cputs (s len : Z) : K unit :=
  c ← the_curenv;
  user_mem_assert c s len PTE_U;;
  a ← uread_arg s (s32 len);
  cprintf "%.*s" [AInt (s32 len); a].

Definition sys_cgetc : K Z := lift_cons cons_getc.

(** ** Environments *)

Definition sys_getenvid : K Z := c ← the_curenv; v ← env_get c; mret (env_id v).

Definition sys_env_destroy (envid : Z) : K Z :=
  '(r, e) ← envid2env envid true;
  if r <? 0 then mret r
  else e ← mderef e; env_destroy e;; mret 0.

Definition sys_yield : K unit := sched_yield.

Definition sys_exofork : K Z :=
  c ← the_curenv;
  v ← env_get c;
  '(Ecode, new_env) ← env_alloc (env_id v);
  if negb (Ecode =? 0) then mret Ecode
  else
    new_env ← mderef new_env;
    env_upd new_env (set_env_status ENV_NOT_RUNNABLE);;
    v ← env_get c;
    env_upd new_env (set_env_tf (env_tf v));;
    env_upd new_env (tf_upd (λ t, set_tf_regs (set_reg_eax 0 (tf_regs t)) t));;
    n ← env_get new_env;
    mret (env_id n).

Definition sys_env_set_status (envid status : Z) : K Z :=
  '(Ecode, e) ← envid2env envid true;
  if negb (Ecode =? 0) then mret Ecode
  else if negb (status =? ENV_RUNNABLE) && negb (status =? ENV_NOT_RUNNABLE) then mret (- E_INVAL)
  else e ← mderef e; env_upd e (set_env_status status);; mret 0.

(** The fields of a struct Trapframe at a user address. *)
Definition uload16 (va : Z) : K Z :=
  b0 ← uload8 va; b1 ← uload8 (u32 (va + 1)); mret (b0 + 256 * b1).
Definition ustore16 (va v : Z) : K unit :=
  ustore8 va v;; ustore8 (u32 (va + 1)) (Z.shiftr v 8).

Definition uload_tf (tf : Z) : K Trapframe :=
  let w o := uload32 (u32 (tf + o)) in
  let h o := uload16 (u32 (tf + o)) in
  edi ← w 0; esi ← w 4; ebp ← w 8; oesp ← w 12; ebx ← w 16; edx ← w 20; ecx ← w 24; eax ← w 28;
  es ← h 32; p1 ← h 34; ds ← h 36; p2 ← h 38; trapno ← w 40; err ← w 44; eip ← w 48;
  cs ← h 52; p3 ← h 54; eflags ← w 56; esp ← w 60; ss ← h 64; p4 ← h 66;
  mret (mkTf (mkRegs edi esi ebp oesp ebx edx ecx eax) es p1 ds p2 trapno err eip cs p3
          eflags esp ss p4).

Definition sys_env_set_trapframe (envid tf : Z) : K Z :=
  '(r, e) ← envid2env envid true;
  if negb (r =? 0) then mret r
  else
    e ← mderef e;
    user_mem_assert e tf 68 PTE_U;;
    fl ← uload32 (u32 (tf + 56)); ustore32 (u32 (tf + 56)) (Z.lor fl FL_IF);;
    fl ← uload32 (u32 (tf + 56)); ustore32 (u32 (tf + 56)) (Z.land fl (Z.lnot FL_IOPL_MASK));;
    cs ← uload16 (u32 (tf + 52)); ustore16 (u32 (tf + 52)) (Z.lor cs 3);;
    t ← uload_tf tf;
    env_upd e (set_env_tf t);;
    mret 0.

Definition sys_env_set_pgfault_upcall (envid func : Z) : K Z :=
  '(Ecode, e) ← envid2env envid true;
  if negb (Ecode =? 0) then mret Ecode
  else e ← mderef e; env_upd e (set_env_pgfault_upcall func);; mret 0.

(** ** Memory *)

(** The argument checks the three paging calls and sys_ipc_try_send share. *)
Definition bad_perm (perm : Z) : bool :=
  negb (Z.land perm (Z.lor PTE_U PTE_P) =? Z.lor PTE_U PTE_P)
  || negb (Z.land perm (Z.lnot PTE_SYSCALL) =? 0).
Definition bad_va (va : Z) : bool := (UTOP <=? va) || negb (va mod PGSIZE =? 0).

Definition sys_page_alloc (envid va perm : Z) : K Z :=
  '(Ecode, e) ← envid2env envid true;
  if negb (Ecode =? 0) then mret Ecode
  else if bad_perm perm then mret (- E_INVAL)
  else if bad_va va then mret (- E_INVAL)
  else
    p ← page_alloc ALLOC_ZERO;
    match p with
    | None => mret (- E_NO_MEM)
    | Some p =>
        e ← mderef e;
        v ← env_get e;
        Ecode ← page_insert (env_pgdir v) p va perm;
        if negb (Ecode =? 0) then page_decref p;; mret Ecode else mret 0
    end.

Definition sys_page_map (srcenvid srcva dstenvid dstva perm : Z) : K Z :=
  '(Ecode, src) ← envid2env srcenvid true;
  if negb (Ecode =? 0) then mret Ecode else
  '(Ecode, dst) ← envid2env dstenvid true;
  if negb (Ecode =? 0) then mret Ecode
  else if bad_perm perm then mret (- E_INVAL)
  else if bad_va srcva || bad_va dstva then mret (- E_INVAL)
  else
    src ← mderef src;
    sv ← env_get src;
    r ← page_lookup (env_pgdir sv) srcva;
    match r with
    | None => mret (- E_INVAL)
    | Some (p, pte) =>
        w ← kload pte;
        if (Z.lor w PTE_W =? 0) && tst perm PTE_W then mret (- E_INVAL)
        else
          dst ← mderef dst;
          dv ← env_get dst;
          Ecode ← page_insert (env_pgdir dv) p dstva perm;
          if negb (Ecode =? 0) then mret Ecode else mret 0
    end.

Definition sys_page_unmap (envid va : Z) : K Z :=
  '(Ecode, e) ← envid2env envid true;
  if negb (Ecode =? 0) then mret Ecode
  else if bad_va va then mret (- E_INVAL)
  else
    e ← mderef e;
    v ← env_get e;
    page_remove (env_pgdir v) va;;
    mret 0.

(** ** IPC *)

(** The page of sys_ipc_try_send: an error code, or the permissions of the
    page transferred (0 for none). *)
Definition ipc_send_page (dst : nat) (srcva perm : Z) : K (Z + Z) :=
  if UTOP <=? srcva then mret (inr 0)
  else if negb (srcva mod PGSIZE =? 0) then mret (inl (- E_INVAL))
  else if bad_perm perm then mret (inl (- E_INVAL))
  else
    c ← the_curenv;
    cv ← env_get c;
    r ← page_lookup (env_pgdir cv) srcva;
    match r with
    | None => mret (inl (- E_INVAL))
    | Some (pp, pte) =>
        w ← kload pte;
        if tst perm PTE_W && negb (tst w PTE_W) then mret (inl (- E_INVAL))
        else
          dv ← env_get dst;
          if env_ipc_dstva dv <? UTOP then
            Ecode ← page_insert (env_pgdir dv) pp (env_ipc_dstva dv) perm;
            if Ecode <? 0 then mret (inl Ecode) else mret (inr perm)
          else mret (inr 0)
    end.

Definition sys_ipc_try_send (envid value srcva perm : Z) : K Z :=
  '(Ecode, dst) ← envid2env envid false;
  if Ecode <? 0 then mret Ecode
  else
    dst ← mderef dst;
    dv ← env_get dst;
    if negb (env_ipc_recving dv) then mret (- E_IPC_NOT_RECV)
    else
      r ← ipc_send_page dst srcva perm;
      match r with
      | inl Ecode => mret Ecode
      | inr perm =>
          env_upd dst (set_env_ipc_recving false);;
          c ← the_curenv;
          cv ← env_get c;
          env_upd dst (set_env_ipc_from (env_id cv));;
          env_upd dst (set_env_ipc_value value);;
          env_upd dst (set_env_ipc_perm perm);;
          env_upd dst (set_env_status ENV_RUNNABLE);;
          env_upd dst (tf_upd (λ t, set_tf_regs (set_reg_eax 0 (tf_regs t)) t));;
          mret 0
      end.

Definition sys_ipc_recv (dstva : Z) : K Z :=
  if (dstva <? UTOP) && negb (dstva mod PGSIZE =? 0) then mret (- E_INVAL)
  else
    c ← the_curenv;
    env_upd c (set_env_ipc_recving true);;
    env_upd c (set_env_ipc_dstva dstva);;
    env_upd c (set_env_status ENV_NOT_RUNNABLE);;
    sched_yield (A := unit);;
    mret 0.

(** ** Dispatch *)

Definition syscall (syscallno a1 a2 a3 a4 a5 : Z) : K Z :=
  if syscallno =? SYS_cputs then sys_cputs a1 a2;; mret 0
  else if syscallno =? SYS_cgetc then sys_cgetc
  else if syscallno =? SYS_getenvid then sys_getenvid
  else if syscallno =? SYS_env_destroy then sys_env_destroy (s32 a1)
  else if syscallno =? SYS_yield then sys_yield;; mret 0
  else if syscallno =? SYS_exofork then sys_exofork
  else if syscallno =? SYS_env_set_status then sys_env_set_status (s32 a1) (s32 a2)
  else if syscallno =? SYS_page_alloc then sys_page_alloc (s32 a1) a2 (s32 a3)
  else if syscallno =? SYS_page_map then sys_page_map (s32 a1) a2 (s32 a3) a4 (s32 a5)
  else if syscallno =? SYS_page_unmap then sys_page_unmap (s32 a1) a2
  else if syscallno =? SYS_env_set_pgfault_upcall then sys_env_set_pgfault_upcall (s32 a1) a2
  else if syscallno =? SYS_ipc_try_send then sys_ipc_try_send (s32 a1) a2 a3 a4
  else if syscallno =? SYS_ipc_recv then sys_ipc_recv a1
  else if syscallno =? SYS_env_set_trapframe then
    sys_env_set_trapframe (s32 a1) a2;;
    mret (- E_INVAL)
  else mret (- E_INVAL).

(* ------------------------------------------------------------------ *)
(** ** Permissions *)

Lemma good_perm perm :
  bad_perm perm = false →
  0 ≤ perm < PGSIZE ∧ Z.land perm (Z.lor PTE_U PTE_P) = Z.lor PTE_U PTE_P.
Proof.
  unfold bad_perm. intros [H1%negb_false_iff H2%negb_false_iff]%orb_false_iff.
  apply Z.eqb_eq in H1, H2. rewrite <-Z.ldiff_land in H2.
  pose proof (Z.ldiff_le perm PTE_SYSCALL ltac:(lia) H2). split; [lia|done].
Qed.

Lemma good_va va : 0 ≤ va → bad_va va = false → 0 ≤ va < UTOP ∧ va mod PGSIZE = 0.
Proof. intros H. unfold bad_va. intros [H1%Z.leb_gt H2%negb_false_iff%Z.eqb_eq]%orb_false_iff. lia. Qed.

(** ** A zeroed page *)

Section alloc_zero.
Context (s : kst) (P : nat) (l Ds : list nat) (ex : nat → Z).
Hypothesis Hinv : vm_inv s (P :: l) Ds ex.

Let Ha : alloc_inv s (P :: l) := vi_alloc _ _ _ _ Hinv.
Let s1 : kst := after_alloc true P s.

Lemma alloc_zero_bound : Z.of_nat P < k_npages s ∧ k_npages s ≤ 65536.
Proof. split; [eapply ai_bound; [exact Ha|left]|apply Ha]. Qed.

Lemma alloc_zero_lookup : k_pages s1 !! P = Some (mkPage None 0).
Proof.
  cbn. apply list_lookup_insert_eq.
  pose proof alloc_zero_bound. pose proof (ai_len _ _ Ha). lia.
Qed.

Lemma alloc_zero_same p i : p ≠ P → 0 ≤ i < 1024 → rd32 (k_mem s1) (ent p i) = rd32 (k_mem s) (ent p i).
Proof.
  intros Hp Hi. pose proof alloc_zero_bound. cbn. rewrite page2pa_mul by lia.
  rewrite rd32_zero_page by lia. by rewrite bool_decide_eq_false_2.
Qed.

Lemma alloc_zero_pte D d t :
  D ∈ Ds → 0 ≤ d < UPDX → 0 ≤ t < NPTENTRIES → pte_at (k_mem s1) D d t = pte_at (k_mem s) D d t.
Proof.
  intros HD Hd Ht. apply (outside_pte _ _ Ds P); try done; [|exact alloc_zero_same].
  by apply (free_unused s (P :: l) Ds ex P Hinv); left.
Qed.

Lemma alloc_zero_table D d :
  D ∈ Ds → 0 ≤ d < UPDX → table_at (k_mem s1) D d = table_at (k_mem s) D d.
Proof.
  intros HD Hd. apply (outside_table _ _ Ds P); try done; [|exact alloc_zero_same].
  by apply (free_unused s (P :: l) Ds ex P Hinv); left.
Qed.

Lemma alloc_zero_inv : vm_inv s1 l Ds ex.
Proof.
  pose proof (free_unused s (P :: l) Ds ex P Hinv ltac:(left)) as Hfree. constructor.
  - by apply alloc_inv_after_alloc.
  - change (k_npages s1) with (k_npages s).
    apply (outside_wf (k_mem s) _ _ _ P (vi_wf _ _ _ _ Hinv) Hfree alloc_zero_same).
  - intros q p Hq. rewrite (outside_uses (k_mem s) _ _ P Hfree alloc_zero_same).
    cbn in Hq. apply list_lookup_insert_Some in Hq as [(<- & <- & _)|[Hne Hq]].
    + destruct (ai_lookup _ _ P Ha (proj1 alloc_zero_bound)) as [p Hp].
      pose proof (vi_ref _ _ _ _ Hinv _ _ Hp). rewrite (ai_free _ _ Ha P p ltac:(left) Hp) in *. cbn. lia.
    + apply (vi_ref _ _ _ _ Hinv _ _ Hq).
  - apply Hinv.
Qed.

Lemma alloc_zero_data : data_page s1 l Ds P.
Proof.
  pose proof (free_unused s (P :: l) Ds ex P Hinv ltac:(left)) as Hfree. split_and!.
  - apply (NoDup_cons_1_1 _ _ (ai_nodup _ _ Ha)).
  - intros HP. by apply (outside_dir (k_mem s) Ds P Hfree P).
  - intros D d HD Hd HT. rewrite alloc_zero_table in HT by done.
    by apply (outside_tab (k_mem s) Ds P Hfree D d P HD Hd HT).
Qed.

Lemma alloc_zero_byte i : 0 ≤ i < PGSIZE → rd8 (k_mem s1) (Z.of_nat P * PGSIZE + i) = 0.
Proof.
  intros Hi. pose proof alloc_zero_bound. cbn. rewrite page2pa_mul by lia.
  by rewrite rd8_mem_set_in by lia.
Qed.
End alloc_zero.

(** ** Claims *)


Lemma demo_sched_vm : vm_inv demo_sched [2%nat; 3%nat] [1%nat] (λ _, 0).
Proof. exact (vm_inv_ext demo_vm demo_sched _ _ _ eq_refl eq_refl eq_refl eq_refl demo_vm_inv). Qed.


(** C33: sys_page_map between environments the caller may change.  Bad
    arguments give -E_INVAL.  Otherwise, if [srcva] is mapped, the same page
    is mapped at [dstva] with the permissions asked for, or -E_NO_MEM is
    returned and nothing has changed.  Write permission is granted even when
    the source mapping is read-only: the test of the code, !( *pte | PTE_W),
    is never true, where its comment asks for -E_INVAL. *)
Theorem sys_page_map_spec s l Ds ex srcid src sv S P p srcva dstid dst dv D dstva perm :
  vm_inv s l Ds ex → cur_ok s →
  envid2env srcid true s = Ok (0, Some src) s → k_envs s !! src = Some sv → env_pgdir sv = kva_of S →
  envid2env dstid true s = Ok (0, Some dst) s → k_envs s !! dst = Some dv → env_pgdir dv = kva_of D →
  S ∈ Ds → D ∈ Ds → 0 ≤ srcva → 0 ≤ dstva →
  if bad_perm perm || (bad_va srcva || bad_va dstva)
  then sys_page_map srcid srcva dstid dstva perm s = Ok (- E_INVAL) s
  else frame (pte_at (k_mem s) S (PDX srcva) (PTX srcva)) = Some P →
    k_pages s !! P = Some p → pp_ref p < 65535 →
    (sys_page_map srcid srcva dstid dstva perm s = Ok (- E_NO_MEM) s ∧ l = [] ∧
       table_at (k_mem s) D (PDX dstva) = None) ∨
    ∃ s' l', sys_page_map srcid srcva dstid dstva perm s = Ok 0 s' ∧
      pte_at (k_mem s') D (PDX dstva) (PTX dstva) = u32 (Z.lor (Z.lor (page2pa P) PTE_P) perm) ∧
      maps_except Ds D dstva (k_mem s) (k_mem s') ∧ vm_inv s' l' Ds ex ∧ k_envs s' = k_envs s.
Proof.
  intros H Hc Hsid Hsrc HS Hdid Hdst HDp HSi HDi Hsv Hdv. unfold sys_page_map.
  mcall Hsid. cbn [negb Z.eqb]. mcall Hdid. cbn [negb Z.eqb].
  destruct (bad_perm perm) eqn:Hp; cbn [orb]; [done|]. destruct (bad_va srcva || bad_va dstva) eqn:Hv; [done|].
  apply orb_false_iff in Hv as [Hv1 Hv2].
  destruct (good_perm _ Hp) as [Hperm _]. destruct (good_va _ Hsv Hv1) as [Hu1 _], (good_va _ Hdv Hv2) as [Hu2 _].
  intros HP Hpp Hr. cbn [mderef]. mrun. mcall env_get_run. rewrite HS.
  destruct (page_lookup_run s l Ds ex S P srcva H HSi Hu1 HP) as (T & HT & Hlk). mcall Hlk.
  pose proof (ai_max _ _ (vi_alloc _ _ _ _ H)).
  destruct (wf_tab _ _ _ (vi_wf _ _ _ _ H) _ _ _ HSi (user_PDX _ Hu1) HT) as [HTn _].
  erewrite bind_Ok by (apply kload_ent; [lia|exact (PTX_range srcva)]). cbn beta.
  rewrite (proj2 (Z.eqb_neq (Z.lor _ PTE_W) 0)) by (intros [_ ?]%Z.lor_eq_0_iff; done). cbn [andb].
  cbn [mderef]. mrun. mcall env_get_run. rewrite HDp.
  destruct (mapped_frame s l Ds ex S P srcva H HSi Hu1 HP) as (_ & HPl & _).
  destruct (page_insert_cases s l Ds ex D dstva P p perm H Hc HDi Hu2 Hperm HPl Hpp Hr)
    as [(Hi & -> & HT')|(s' & l' & pte & Hi & Hpt & _ & Hm & _ & Hvi & Hf)]; mcall Hi.
  - left. done.
  - right. exists s', l'. split; [done|]. split; [done|]. split; [done|]. split; [done|].
    destruct Hf as (ps & h & m & lg & ->). done.
Qed.

(** [demo_sched] with page 4 mapped read-only (PTE_P, PTE_U) at 0x801000. *)
Definition demo_readonly : kst :=
  with_lock (Some 0%nat) (with_cpus (k_cpus demo_sched)
    (with_envs demo_sched_envs (demo_map PTE_U))).

Lemma demo_readonly_vm : vm_inv demo_readonly [3%nat] [1%nat] (λ _, 0).
Proof.
  exact (vm_inv_ext (demo_map PTE_U) demo_readonly _ _ _ eq_refl eq_refl eq_refl eq_refl
           (proj1 (demo_map_inv PTE_U ltac:(lia)))).
Qed.

Lemma sys_page_map_spec_witness :
  tst (pte_at (k_mem demo_readonly) 1 (PDX 8392704) (PTX 8392704)) PTE_W = false ∧
  ∃ s', sys_page_map 0 8392704 0 8396800 7 demo_readonly = Ok 0 s' ∧
    tst (pte_at (k_mem s') 1 (PDX 8396800) (PTX 8396800)) PTE_W = true.
Proof.
  destruct (demo_map_inv PTE_U ltac:(lia)) as (_ & Hpte & Hfr).
  change (k_mem demo_readonly) with (k_mem (demo_map PTE_U)).
  split; [rewrite Hpte; reflexivity|].
  destruct (sys_page_map_spec demo_readonly [3%nat] [1%nat] (λ _, 0)
    0 0 (set_env_status ENV_RUNNING (demo_env 1)) 1 4 (mkPage None 1) 8392704
    0 0 (set_env_status ENV_RUNNING (demo_env 1)) 1 8396800 7
    demo_readonly_vm (so_cur _ demo_sched_ok) eq_refl eq_refl eq_refl eq_refl eq_refl eq_refl
    ltac:(apply list_elem_of_singleton; reflexivity) ltac:(apply list_elem_of_singleton; reflexivity)
    ltac:(lia) ltac:(lia) Hfr eq_refl ltac:(cbn; lia)) as [(_ & Hl & _)|(s' & l' & Hr & Hp & _)].
  - discriminate Hl.
  - exists s'. split; [exact Hr|]. rewrite Hp. reflexivity.
Defined.

(** ** IPC *)

(** The receiver's slot after a send that succeeded. *)
Definition delivered (from value perm : Z) (v : Env) : Env :=
  tf_upd (λ t, set_tf_regs (set_reg_eax 0 (tf_regs t)) t)
    (set_env_status ENV_RUNNABLE (set_env_ipc_perm perm (set_env_ipc_value value
      (set_env_ipc_from from (set_env_ipc_recving false v))))).

(** What sys_ipc_try_send does once the page has been dealt with. *)
Lemma deliver_run dst dv c cv value perm (s : kst) :
  k_envs s !! dst = Some dv → curenv_of s = Some c → k_envs s !! c = Some cv →
  (env_upd dst (set_env_ipc_recving false);;
   c ← the_curenv;
   cv ← env_get c;
   env_upd dst (set_env_ipc_from (env_id cv));;
   env_upd dst (set_env_ipc_value value);;
   env_upd dst (set_env_ipc_perm perm);;
   env_upd dst (set_env_status ENV_RUNNABLE);;
   env_upd dst (tf_upd (λ t, set_tf_regs (set_reg_eax 0 (tf_regs t)) t));;
   mret 0) s = Ok 0 (with_envs (<[dst := delivered (env_id cv) value perm dv]> (k_envs s)) s).
Proof.
  intros Hd Hc Hcv. pose proof (lookup_lt_Some _ _ _ Hd) as Hlt. mcall env_upd_run.
  assert (Hcur : ∀ s', k_cpus s' = k_cpus s → k_cpunum s' = k_cpunum s → the_curenv s' = Ok c s').
  { intros s' H1 H2. unfold the_curenv, curenv. mrun.
    replace (curenv_of s') with (Some c); [done|]. rewrite <-Hc. unfold curenv_of. by rewrite H1, H2. }
  erewrite bind_Ok by (by apply Hcur). cbn beta.
  assert (Hg : ∃ cv', env_id cv' = env_id cv ∧
    env_get c (with_envs (<[dst := set_env_ipc_recving false dv]> (k_envs s)) s)
    = Ok cv' (with_envs (<[dst := set_env_ipc_recving false dv]> (k_envs s)) s)).
  { destruct (decide (c = dst)) as [->|Hne].
    - rewrite Hd in Hcv. simplify_eq. eexists. split; [|by apply env_get_again]. done.
    - exists cv. split; [done|]. apply env_get_run. cbn. by rewrite list_lookup_insert_ne. }
  destruct Hg as (cv' & Hid & Hg). mcall Hg. rewrite Hid.
  do 5 (erewrite bind_Ok by (by apply env_upd_again); cbn beta). done.
Qed.

Lemma the_curenv_run s c : curenv_of s = Some c → the_curenv s = Ok c s.
Proof. intros H. unfold the_curenv, curenv. mrun. by rewrite H. Qed.

Section ipc_send.
Context (s : kst) (l Ds : list nat) (ex : nat → Z) (dst c C D : nat) (dv cv : Env) (srcva perm : Z).
Hypothesis Hinv : vm_inv s l Ds ex.
Hypothesis Hok : cur_ok s.
Hypothesis Hdst : k_envs s !! dst = Some dv.
Hypothesis Hcur : curenv_of s = Some c.
Hypothesis Hcv : k_envs s !! c = Some cv.
Hypothesis HC : env_pgdir cv = kva_of C.
Hypothesis HD : env_pgdir dv = kva_of D.
Hypothesis HCi : C ∈ Ds.
Hypothesis HDi : D ∈ Ds.
Hypothesis Hsrc : 0 ≤ srcva.
Hypothesis Hdstva : 0 ≤ env_ipc_dstva dv.

(** A send with a page that is mapped in the sender. *)
Lemma ipc_send_page_run P p :
  srcva < UTOP → srcva mod PGSIZE = 0 → bad_perm perm = false →
  frame (pte_at (k_mem s) C (PDX srcva) (PTX srcva)) = Some P →
  k_pages s !! P = Some p → pp_ref p < 65535 →
  if tst perm PTE_W && negb (tst (pte_at (k_mem s) C (PDX srcva) (PTX srcva)) PTE_W)
  then ipc_send_page dst srcva perm s = Ok (inl (- E_INVAL)) s
  else if env_ipc_dstva dv <? UTOP then
    ipc_send_page dst srcva perm s = Ok (inl (- E_NO_MEM)) s ∨
    ∃ s' l', ipc_send_page dst srcva perm s = Ok (inr perm) s' ∧
      pte_at (k_mem s') D (PDX (env_ipc_dstva dv)) (PTX (env_ipc_dstva dv))
        = u32 (Z.lor (Z.lor (page2pa P) PTE_P) perm) ∧
      maps_except Ds D (env_ipc_dstva dv) (k_mem s) (k_mem s') ∧
      vm_inv s' l' Ds ex ∧ vm_frame s s'
  else ipc_send_page dst srcva perm s = Ok (inr 0) s.
Proof.
  intros Hu Hal Hp HP Hpp Hr. destruct (good_perm _ Hp) as [Hperm _].
  assert (Hsv : 0 ≤ srcva < UTOP) by lia.
  destruct (page_lookup_run s l Ds ex C P srcva Hinv HCi Hsv HP) as (T & HT & Hlk).
  pose proof (ai_max _ _ (vi_alloc _ _ _ _ Hinv)).
  destruct (wf_tab _ _ _ (vi_wf _ _ _ _ Hinv) _ _ _ HCi (user_PDX _ Hsv) HT) as [HTn _].
  assert (Hpte : pte_at (k_mem s) C (PDX srcva) (PTX srcva) = rd32 (k_mem s) (ent T (PTX srcva)))
    by (unfold pte_at; by rewrite HT).
  unfold ipc_send_page. rewrite (proj2 (Z.leb_gt UTOP srcva)) by lia.
  rewrite Hal, Hp. cbn [negb Z.eqb]. mcall the_curenv_run. mcall env_get_run. rewrite HC. mcall Hlk.
  erewrite bind_Ok by (apply kload_ent; [lia|exact (PTX_range srcva)]). cbn beta. rewrite <-Hpte.
  destruct (tst perm PTE_W && _); [done|]. mcall env_get_run.
  destruct (Z.ltb_spec (env_ipc_dstva dv) UTOP) as [Hd|]; [|done]. rewrite HD.
  destruct (mapped_frame s l Ds ex C P srcva Hinv HCi Hsv HP) as (_ & HPl & _).
  destruct (page_insert_cases s l Ds ex D (env_ipc_dstva dv) P p perm Hinv Hok HDi
              ltac:(lia) Hperm HPl Hpp Hr)
    as [(Hi & _ & _)|(s' & l' & pte & Hi & Hpt & _ & Hm & _ & Hvi & Hf)]; mcall Hi.
  - left. done.
  - right. exists s', l'. split; [done|]. by split.
Qed.
End ipc_send.


(** Slot 1, with id 0x1001, waits for a page at 0x802000. *)
Definition demo_receiver : Env :=
  set_env_ipc_dstva 8396800 (set_env_ipc_recving true (set_env_id 4097 (demo_env 1))).
Definition demo_ipc : kst := with_envs (<[1%nat := demo_receiver]> demo_sched_envs) demo_readonly.

Lemma demo_ipc_vm : vm_inv demo_ipc [3%nat] [1%nat] (λ _, 0).
Proof.
  exact (vm_inv_ext demo_readonly demo_ipc _ _ _ eq_refl eq_refl eq_refl eq_refl demo_readonly_vm).
Qed.


(** The caller's slot when sys_ipc_recv gives up the CPU. *)
Definition waiting (dstva : Z) (v : Env) : Env :=
  set_env_status ENV_NOT_RUNNABLE (set_env_ipc_dstva dstva (set_env_ipc_recving true v)).

Lemma sys_ipc_recv_run s c vc dstva i :
  sched_ok s → curenv_of s = Some c → (c < Z.to_nat (NENV - 1))%nat → k_envs s !! c = Some vc →
  UTOP ≤ dstva ∨ dstva mod PGSIZE = 0 →
  List.find (runnable (k_envs s)) (round_robin c) = Some i →
  i ≠ c ∧ ∃ D, sys_ipc_recv dstva s =
    Noret (ToUser i) (after_run i D (with_envs (<[c := waiting dstva vc]> (k_envs s)) s)).
Proof.
  intros H Hc Hlt Hvc Hdst Hf. pose proof (lookup_lt_Some _ _ _ Hvc) as Hlen.
  set (v1 := waiting dstva vc).
  set (s1 := with_envs (<[c := v1]> (k_envs s)) s).
  assert (Hok1 : sched_ok s1).
  { apply sched_ok_insert; [done|]. cbn. intros [?|?]; discriminate. }
  assert (Hic : i ≠ c ∧ runnable (k_envs s) i = true).
  { apply List.find_some in Hf as [Hin Hr]. split; [|done]. intros ->.
    apply list_elem_of_In in Hin. unfold round_robin in Hin.
    rewrite elem_of_app, !elem_of_seq in Hin. lia. }
  assert (Hf1 : List.find (runnable (k_envs s1)) (round_robin c) = Some i).
  { rewrite <-Hf. apply find_ext_in. intros j Hj. unfold runnable. cbn.
    rewrite list_lookup_insert_ne; [done|]. unfold round_robin in Hj.
    rewrite elem_of_app, !elem_of_seq in Hj. lia. }
  pose proof (sched_yield_cases s1 c v1 Hok1 Hc Hlt ltac:(by apply list_lookup_insert_eq)) as Hy.
  rewrite Hf1 in Hy. destruct Hy as (v & D & Hv & HD & Hy).
  split; [apply Hic|]. exists D. unfold sys_ipc_recv.
  replace ((dstva <? UTOP) && negb (dstva mod PGSIZE =? 0)) with false; cycle 1.
  { symmetry. apply andb_false_iff. rewrite Z.ltb_ge, negb_false_iff, Z.eqb_eq. tauto. }
  mcall the_curenv_run. mcall env_upd_run.
  do 2 (erewrite bind_Ok by (by apply env_upd_again); cbn beta).
  fold (waiting dstva vc). fold v1. fold s1. unfold mbind, M_bind. by rewrite Hy.
Qed.

(** The slots after the switch. *)
Lemma after_run_left s c i D vc :
  curenv_of s = Some c → k_envs s !! c = Some vc → i ≠ c →
  k_envs (after_run i D s) !! c = Some (set_env_status ENV_RUNNABLE vc).
Proof.
  intros Hc Hvc Hi. change (k_envs (after_run i D s)) with (run_envs (curenv_of s) i (k_cpunum s) (k_envs s)).
  unfold run_envs, set_status_at. rewrite Hc. rewrite list_lookup_alter_ne by done.
  rewrite list_lookup_alter_eq. by rewrite Hvc.
Qed.

(** Sys_ipc_recv does not block.  It marks the caller ENV_NOT_RUNNABLE,
    but if another environment is ready, sched_yield's env_run sets the
    caller back to ENV_RUNNABLE, so it will be scheduled again although
    nothing has been sent and it is still receiving.  (The comment above
    sys_ipc_recv: block until a value is ready.) *)
Theorem sys_ipc_recv_not_blocked s c vc dstva i :
  sched_ok s → curenv_of s = Some c → (c < Z.to_nat (NENV - 1))%nat → k_envs s !! c = Some vc →
  UTOP ≤ dstva ∨ dstva mod PGSIZE = 0 →
  List.find (runnable (k_envs s)) (round_robin c) = Some i →
  ∃ s' vc', sys_ipc_recv dstva s = Noret (ToUser i) s' ∧ k_envs s' !! c = Some vc' ∧
    env_ipc_recving vc' = true ∧ env_status vc' = ENV_RUNNABLE.
Proof.
  intros H Hc Hlt Hvc Hdst Hf. pose proof (lookup_lt_Some _ _ _ Hvc) as Hlen.
  destruct (sys_ipc_recv_run s c vc dstva i H Hc Hlt Hvc Hdst Hf) as (Hi & D & Hr).
  exists (after_run i D (with_envs (<[c := waiting dstva vc]> (k_envs s)) s)).
  exists (set_env_status ENV_RUNNABLE (waiting dstva vc)). split; [exact Hr|]. split; [|done].
  apply after_run_left; [exact Hc|by apply list_lookup_insert_eq|done].
Qed.

Lemma sys_ipc_recv_not_blocked_witness :
  ∃ s' vc', sys_ipc_recv UTOP demo_sched = Noret (ToUser 1) s' ∧ k_envs s' !! 0%nat = Some vc' ∧
    env_ipc_recving vc' = true ∧ env_status vc' = ENV_RUNNABLE.
Proof.
  apply (sys_ipc_recv_not_blocked demo_sched 0 (set_env_status ENV_RUNNING (demo_env 1)) UTOP 1
           demo_sched_ok eq_refl ltac:(lia) eq_refl).
  - left. lia.
  - exact demo_sched_first.
Defined.

(** ** exofork *)

(** Changing a slot in use keeps the environment invariant. *)
Lemma env_inv_upd s fl e v v' :
  env_inv s fl → k_envs s !! e = Some v → env_status v ≠ ENV_FREE → env_status v' ≠ ENV_FREE →
  env_id v' = env_id v → env_inv (with_envs (<[e := v']> (k_envs s)) s) fl.
Proof.
  intros [H1 H2 H3 H4 H5] Hv Hs Hs' Hid. constructor; cbn.
  - by rewrite length_insert.
  - apply env_chain_insert; [|done]. by rewrite <-(H4 _ _ Hv).
  - done.
  - intros i x [(<- & <- & _)|[_ Hx]]%list_lookup_insert_Some; [|by apply H4].
    split; [done|]. by rewrite <-(H4 _ _ Hv).
  - intros i x [(<- & <- & _)|[_ Hx]]%list_lookup_insert_Some; [|by apply H5].
    rewrite Hid. by apply H5.
Qed.

(** The child of a caller whose slot is [cv]. *)
Definition exofork_child (cv : Env) (e D : nat) (v : Env) : Env :=
  tf_upd (λ t, set_tf_regs (set_reg_eax 0 (tf_regs t)) t)
    (set_env_tf (env_tf cv) (set_env_status ENV_NOT_RUNNABLE (env_new (env_id cv) e D v))).

Definition after_exofork (cv : Env) (e D KP : nat) (v : Env) (s : kst) : kst :=
  with_envs (<[e := exofork_child cv e D v]> (k_envs s)) (after_env_alloc (env_id cv) e D KP v s).

Lemma exofork_run s l Ds ex KP fl c cv e D v :
  vm_inv s (D :: l) Ds ex → kern_dir s (D :: l) KP → env_inv s (e :: fl) →
  curenv_of s = Some c → k_envs s !! c = Some cv → env_status cv ≠ ENV_FREE → k_envs s !! e = Some v →
  sys_exofork s = Ok (env_id (exofork_child cv e D v)) (after_exofork cv e D KP v s).
Proof.
  intros H Hkd Hi Hc Hcv Hst Hv. pose proof (lookup_lt_Some _ _ _ Hv) as Hlt.
  assert (Hec : e ≠ c) by (intros ->; apply Hst, (ei_status _ _ Hi _ _ Hcv); left).
  unfold sys_exofork. mcall the_curenv_run. mcall env_get_run. mcall env_alloc_run.
  cbn [negb Z.eqb mderef]. mrun. set (s1 := after_env_alloc (env_id cv) e D KP v s).
  assert (Hs1 : s1 = with_envs (<[e := env_new (env_id cv) e D v]> (k_envs s)) s1) by done.
  rewrite Hs1. erewrite bind_Ok by (by apply env_upd_again). cbn beta.
  erewrite bind_Ok by (apply env_get_run; cbn; by rewrite list_lookup_insert_ne). cbn beta.
  do 2 (erewrite bind_Ok by (by apply env_upd_again); cbn beta).
  erewrite bind_Ok by (by apply env_get_again). done.
Qed.

(** Sys_exofork fails with -E_NO_FREE_ENV or -E_NO_MEM exactly when
    there is no free slot or page, changing nothing.  Otherwise it returns
    the positive id of a new child of the caller that is not runnable, has
    the caller's registers except for a return value of 0, and an empty
    address space; no other slot changes and the invariants hold. *)
Theorem sys_exofork_spec s l Ds ex KP fl c cv :
  vm_inv s l Ds ex → kern_dir s l KP → env_inv s fl →
  curenv_of s = Some c → k_envs s !! c = Some cv → env_status cv ≠ ENV_FREE →
  match fl, l with
  | [], _ => sys_exofork s = Ok (- E_NO_FREE_ENV) s
  | _ :: _, [] => sys_exofork s = Ok (- E_NO_MEM) s
  | e :: fl', D :: l' => ∃ v v' s', k_envs s !! e = Some v ∧
      sys_exofork s = Ok (env_id v') s' ∧ k_envs s' = <[e := v']> (k_envs s) ∧
      id_ok e (env_id v') ∧ env_parent_id v' = env_id cv ∧ env_status v' = ENV_NOT_RUNNABLE ∧
      env_tf v' = set_tf_regs (set_reg_eax 0 (tf_regs (env_tf cv))) (env_tf cv) ∧
      env_pgdir v' = kva_of D ∧ env_inv s' fl' ∧ vm_inv s' l' (D :: Ds) ex ∧
      (∀ d t, 0 ≤ d < UPDX → 0 ≤ t < NPTENTRIES → pte_at (k_mem s') D d t = 0)
  end.
Proof.
  intros H Hkd Hi Hc Hcv Hst.
  assert (Herr : ∀ r, r ≠ 0 → env_alloc (env_id cv) s = Ok (r, None) s → sys_exofork s = Ok r s).
  { intros r Hr Ha. unfold sys_exofork. mcall the_curenv_run. mcall env_get_run. mcall Ha.
    by rewrite (proj2 (Z.eqb_neq _ _) Hr). }
  destruct fl as [|e fl].
  { apply Herr; [done|]. unfold env_alloc. mrun. by rewrite (ei_chain _ _ Hi). }
  destruct (ei_chain _ _ Hi) as (Hh & v & Hv & _). destruct l as [|D l].
  { apply Herr; [done|]. apply (env_alloc_nomem s e); [done|exact (ai_chain _ _ (vi_alloc _ _ _ _ H))]. }
  assert (Hec : e ≠ c).
  { intros ->. apply Hst, (ei_status _ _ Hi _ _ Hcv). left. }
  pose proof (lookup_lt_Some _ _ _ Hv) as Hlt.
  assert (Hold : 0 ≤ env_id v < 2 ^ 31) by (destruct (ei_id _ _ Hi _ _ Hv) as [->|[? _]]; lia).
  set (s1 := after_env_alloc (env_id cv) e D KP v s).
  exists v, (exofork_child cv e D v), (with_envs (<[e := exofork_child cv e D v]> (k_envs s)) s1).
  split; [done|]. split; [|split; [done|]]; [|split_and!; try done].
  - by eapply exofork_run.
  - apply env_new_id_ok; [done|]. pose proof (ei_len _ _ Hi). lia.
  - pose proof (after_env_alloc_inv s e fl D KP v (env_id cv) Hi Hv) as Hi1.
    pose proof (env_inv_upd s1 fl e (env_new (env_id cv) e D v) (exofork_child cv e D v) Hi1) as Hu.
    cbn [k_envs s1 after_env_alloc with_env_free_list with_envs] in Hu.
    rewrite list_insert_insert_eq in Hu. apply Hu; [by apply list_lookup_insert_eq|done..].
  - by apply (vm_inv_ext (after_setup e D KP v s)), after_setup_inv.
  - intros d t Hd Ht. etransitivity; [apply (after_setup_pte s l Ds ex D KP e v); try done; left|].
    by rewrite bool_decide_eq_true_2.
Qed.

Definition demo_forking : kst := with_cpus (k_cpus demo_sched) demo_full.

Lemma sys_exofork_spec_witness :
  ∃ v' s', sys_exofork demo_forking = Ok (env_id v') s' ∧ env_status v' = ENV_NOT_RUNNABLE ∧
    env_pgdir v' = kva_of 2.
Proof.
  assert (Hvm : vm_inv demo_forking [2%nat; 3%nat] [1%nat] (λ _, 0))
    by exact (vm_inv_ext demo_vm demo_forking _ _ _ eq_refl eq_refl eq_refl eq_refl demo_vm_inv).
  assert (Hkd : kern_dir demo_forking [2%nat; 3%nat] 5) by (destruct demo_full_kern; constructor; assumption).
  assert (Hei : env_inv demo_forking [Z.to_nat 1023]) by (destruct demo_full_inv; constructor; assumption).
  destruct (sys_exofork_spec demo_forking _ _ _ 5 _ 0 (set_env_id 0 (demo_env 1)) Hvm Hkd Hei
              eq_refl eq_refl ltac:(discriminate)) as (v & v' & s' & _ & Hr & _ & _ & _ & Hs & _ & Hp & _).
  exists v', s'. split; [exact Hr|]. split; [exact Hs|exact Hp].
Defined.

(** ** Isolation *)

(** The system calls that name the environment they act on, and check it. *)
Definition checks_envid (syscallno : Z) : bool :=
  existsb (Z.eqb syscallno) [SYS_env_destroy; SYS_env_set_status; SYS_page_alloc; SYS_page_map;
    SYS_page_unmap; SYS_env_set_pgfault_upcall].


