(* ===== verification/Trap.v ===== *)
(** Traps: kern/trap.c, with the entry points of kern/trapentry.S as the
    handlers of the interrupt descriptor table.  A trap frame is either the
    one saved in an environment's slot (a trap from user mode) or the one on
    the kernel stack (a trap in the kernel); writes to the latter are not
    seen again, because trap never returns to it. *)

From S2P Require Import Prelude Mmu Printfmt Console KState Pmap PageTable Env EnvFree UserMem Sched Syscall.
From Stdlib Require Import ZArith Lia String.
From stdpp Require Import base tactics numbers list.
Open Scope Z_scope.

Inductive tfloc := TfEnv (e : nat) | TfStack (t : Trapframe).

Definition tf_get (tf : tfloc) : K Trapframe :=
  match tf with TfEnv e => v ← env_get e; mret (env_tf v) | TfStack t => mret t end.
Definition tf_set (f : Trapframe → Trapframe) (tf : tfloc) : K unit :=
  match tf with TfEnv e => env_upd e (tf_upd f) | TfStack _ => mret tt end.

(** ** Names and printing *)

Definition excnames : list string :=
  ["Divide error"; "Debug"; "Non-Maskable Interrupt"; "Breakpoint"; "Overflow";
   "BOUND Range Exceeded"; "Invalid Opcode"; "Device Not Available"; "Double Fault";
   "Coprocessor Segment Overrun"; "Invalid TSS"; "Segment Not Present"; "Stack Fault";
   "General Protection"; "Page Fault"; "(unknown trap)"; "x87 FPU Floating-Point Error";
   "Alignment Check"; "Machine-Check"; "SIMD Floating-Point Exception"]%string.

(** [trapno < ARRAY_SIZE(excnames)] compares as unsigned. *)
Definition trapname (trapno : Z) : string :=
  if u32 trapno <? 20 then default "(unknown trap)"%string (excnames !! Z.to_nat (u32 trapno))
  else if trapno =? T_SYSCALL then "System call"
  else if (IRQ_OFFSET <=? trapno) && (trapno <? IRQ_OFFSET + 16) then "Hardware Interrupt"
  else "(unknown trap)".

Definition print_regs (r : PushRegs) : K unit :=
  cprintf (line "  edi  0x%08x") [AInt (reg_edi r)];;
  cprintf (line "  esi  0x%08x") [AInt (reg_esi r)];;
  cprintf (line "  ebp  0x%08x") [AInt (reg_ebp r)];;
  cprintf (line "  oesp 0x%08x") [AInt (reg_oesp r)];;
  cprintf (line "  ebx  0x%08x") [AInt (reg_ebx r)];;
  cprintf (line "  edx  0x%08x") [AInt (reg_edx r)];;
  cprintf (line "  ecx  0x%08x") [AInt (reg_ecx r)];;
  cprintf (line "  eax  0x%08x") [AInt (reg_eax r)].

Definition astr (s : string) : arg := AStr (Some (zs s)).

Section trap.
(** The addresses the linker gives the trap frames, cpus[] and the kernel
    stacks, and the CR2 register of the fault being handled. *)
Context (tf_addr : tfloc → Z) (cpus_addr percpu_kstacks : Z) (cr2 : Z).

(** [last]: tf == last_tf. *)
Definition print_trapframe (last : bool) (tf : tfloc) : K unit :=
  t ← tf_get tf;
  n ← mgets k_cpunum;
  cprintf (line "TRAP frame at %p from CPU %d") [AInt (tf_addr tf); AInt (Z.of_nat n)];;
  print_regs (tf_regs t);;
  cprintf (line "  es   0x----%04x") [AInt (tf_es t)];;
  cprintf (line "  ds   0x----%04x") [AInt (tf_ds t)];;
  cprintf (line "  trap 0x%08x %s") [AInt (tf_trapno t); astr (trapname (tf_trapno t))];;
  mwhen (last && (tf_trapno t =? T_PGFLT)) (cprintf (line "  cr2  0x%08x") [AInt cr2]);;
  cprintf "  err  0x%08x" [AInt (tf_err t)];;
  (if tf_trapno t =? T_PGFLT then
     cprintf (line " [%s, %s, %s]")
       [astr (if tst (tf_err t) 4 then "user" else "kernel");
        astr (if tst (tf_err t) 2 then "write" else "read");
        astr (if tst (tf_err t) 1 then "protection" else "not-present")]
   else cprintf (line "") []);;
  cprintf (line "  eip  0x%08x") [AInt (tf_eip t)];;
  cprintf (line "  cs   0x----%04x") [AInt (tf_cs t)];;
  cprintf (line "  flag 0x%08x") [AInt (tf_eflags t)];;
  mwhen (negb (Z.land (tf_cs t) 3 =? 0))
    (cprintf (line "  esp  0x%08x") [AInt (tf_esp t)];;
     cprintf (line "  ss   0x----%04x") [AInt (tf_ss t)]).

(** The monitor's commands all return 0 (see Monitor.v), so its loop does
    not end. *)
Definition monitor {A} (tf : option tfloc) : K A :=
  cprintf (line "Welcome to the JOS kernel monitor!") [];;
  cprintf (line "Type 'help' for a list of commands.") [];;
  match tf with Some tf => print_trapframe true tf | None => mret tt end;;
  mleave InMonitor.

(** ** Page faults *)

Definition regs_words (r : PushRegs) : list Z :=
  [reg_edi r; reg_esi r; reg_ebp r; reg_oesp r; reg_ebx r; reg_edx r; reg_ecx r; reg_eax r].
(** A struct UTrapframe in memory, 52 bytes. *)
Definition utf_words (utf : UTrapframe) : list Z :=
  [utf_fault_va utf; utf_err utf] ++ regs_words (utf_regs utf)
    ++ [utf_eip utf; utf_eflags utf; utf_esp utf].

(** Where the handler puts the user trap frame: below the word that it
    leaves free at the top of the stack in use. *)
Definition utf_addr (esp : Z) : Z :=
  if (UXSTACKTOP - PGSIZE <=? esp) && (esp <? UXSTACKTOP) then u32 (esp - 52 - 4)
  else UXSTACKTOP - 52 - 4.

Definition page_fault_handler (tf : tfloc) : K unit :=
  t ← tf_get tf;
  if Z.land (tf_cs t) 3 =? 0 then mpanic "page_fault_handler(): kernel-mode page faults"
  else
    c ← the_curenv;
    v ← env_get c;
    mwhen (negb (env_pgfault_upcall v =? NULL))
      (let addr := utf_addr (tf_esp t) in
       user_mem_assert c addr (52 + 4) (Z.lor (Z.lor PTE_P PTE_U) PTE_W);;
       ustore_words addr (utf_words (mkUtf cr2 (tf_err t) (tf_regs t) (tf_eip t) (tf_eflags t)
                                       (tf_esp t)));;
       v ← env_get c;
       tf_set (set_tf_eip (env_pgfault_upcall v)) tf;;
       tf_set (set_tf_esp addr) tf;;
       env_run c);;
    v ← env_get c;
    cprintf (line "[%08x] user fault va %08x ip %08x")
      [AInt (env_id v); AInt cr2; AInt (tf_eip t)];;
    print_trapframe true tf;;
    env_destroy c.

(** ** Dispatch *)

Definition trap_dispatch (tf : tfloc) : K unit :=
  t ← tf_get tf;
  let no := tf_trapno t in
  if no =? T_PGFLT then page_fault_handler tf
  else if no =? T_BRKPT then monitor (Some tf)
  else if no =? T_SYSCALL then
    let r := tf_regs t in
    ret ← syscall (reg_eax r) (reg_edx r) (reg_ecx r) (reg_ebx r) (reg_edi r) (reg_esi r);
    tf_set (λ t, set_tf_regs (set_reg_eax (u32 ret) (tf_regs t)) t) tf
  else if no =? IRQ_OFFSET + IRQ_SPURIOUS then
    cprintf (line "Spurious interrupt on irq 7") [];;
    print_trapframe true tf
  else if no =? IRQ_OFFSET + IRQ_TIMER then klog EvLapicEoi;; sched_yield
  else if no =? IRQ_OFFSET + IRQ_KBD then lift_cons kbd_intr
  else if no =? IRQ_OFFSET + IRQ_SERIAL then lift_cons serial_intr
  else
    print_trapframe true tf;;
    t ← tf_get tf;
    if tf_cs t =? GD_KT then mpanic "unhandled trap in kernel"
    else c ← the_curenv; env_destroy c.

(** trap, on the frame [t] that _alltraps pushed.  After a panic of another
    CPU this one halts. *)
Definition trap {A} (t : Trapframe) : K A :=
  dead ← mgets k_panicstr;
  if dead : bool then mleave HaltCPU
  else
    cpu ← thiscpu;
    cpu_upd (set_cpu_status CPU_STARTED);;
    mwhen (cpu_status cpu =? CPU_HALTED) lock_kernel;;
    tf ← (if Z.land (tf_cs t) 3 =? 3 then
            lock_kernel;;
            cur ← curenv;
            match cur with
            | None => mpanic "assertion failed: curenv"
            | Some c =>
                v ← env_get c;
                mwhen (env_status v =? ENV_DYING)
                  (env_free c;; cpu_upd (set_cpu_env None);; sched_yield);;
                env_upd c (set_env_tf t);;
                mret (TfEnv c)
            end
          else mret (TfStack t));
    trap_dispatch tf;;
    cur ← curenv;
    match cur with
    | None => sched_yield
    | Some c =>
        v ← env_get c;
        if env_status v =? ENV_RUNNING then env_run c else sched_yield
    end.

(** ** Initialization *)

(** The TSS of this CPU: cpus[i].cpu_ts is 12 bytes into a 116-byte
    struct. *)
Definition set_cpu_ts (ts : Taskstate) (c : CpuInfo) : CpuInfo :=
  mkCpu (cpu_id c) (cpu_status c) (cpu_env c) ts.
Definition set_sd_s (v : Z) (d : Segdesc) : Segdesc :=
  mkSeg (sd_lim_15_0 d) (sd_base_15_0 d) (sd_base_23_16 d) (sd_type d) v (sd_dpl d) (sd_p d)
    (sd_lim_19_16 d) (sd_avl d) (sd_rsv1 d) (sd_db d) (sd_g d) (sd_base_31_24 d).
Definition trap_init_percpu : K unit :=
  n ← mgets k_cpunum;
  let i := Z.of_nat n in
  let ts := u32 (cpus_addr + 116 * i + 12) in
  cpu_upd (set_cpu_ts (mkTs (u32 (percpu_kstacks + KSTKSIZE * i + KSTKSIZE)) GD_KD 104));;
  klog (EvGdt (Z.shiftr GD_TSS0 3 + i) (set_sd_s 0 (SEG16 STS_T32A ts (104 - 1) 0)));;
  klog (EvLtr (GD_TSS0 + Z.shiftl i 3));;
  klog EvLidt.

(** The entry points of kern/trapentry.S, at the addresses [entry]. *)
Inductive handler :=
| DIVIDE_Handler | DEBUG_Handler | NMI_Handler | BRKPT_Handler | OFLOW_Handler | BOUND_Handler
| ILLOP_Handler | DEVICE_Handler | DBLFLT_Handler | TSS_Handler | SEGNP_Handler | STACK_Handler
| GPFLT_Handler | PGFLT_Handler | FPERR_Handler | ALIGN_Handler | MCHK_Handler | SYSCALL_Handler
| IRQ_TIMER_Handler | IRQ_KBD_Handler | IRQ_SERIAL_Handler | IRQ_SPURIOUS_Handler
| IRQ_IDE_Handler | IRQ_ERROR_Handler.

Context (entry : handler → Z).

(** The SETGATEs of trap_init: vector, trap gate?, handler, DPL. *)
Definition idt_gates : list (Z * bool * handler * Z) :=
  [(T_DIVIDE, true, DIVIDE_Handler, 0); (T_DEBUG, true, DEBUG_Handler, 3);
   (T_NMI, true, NMI_Handler, 0); (T_BRKPT, true, BRKPT_Handler, 3);
   (T_OFLOW, true, OFLOW_Handler, 0); (T_BOUND, true, BOUND_Handler, 0);
   (T_ILLOP, true, ILLOP_Handler, 0); (T_DEVICE, true, DEVICE_Handler, 0);
   (T_DBLFLT, true, DBLFLT_Handler, 0); (T_TSS, true, TSS_Handler, 0);
   (T_SEGNP, true, SEGNP_Handler, 0); (T_STACK, true, STACK_Handler, 0);
   (T_GPFLT, true, GPFLT_Handler, 0); (T_PGFLT, true, PGFLT_Handler, 0);
   (T_FPERR, true, FPERR_Handler, 0); (T_ALIGN, true, ALIGN_Handler, 0);
   (T_MCHK, true, MCHK_Handler, 0); (T_SIMDERR, true, PGFLT_Handler, 0);
   (T_SYSCALL, false, SYSCALL_Handler, 3);
   (IRQ_OFFSET + IRQ_TIMER, true, IRQ_TIMER_Handler, 0);
   (IRQ_OFFSET + IRQ_KBD, true, IRQ_KBD_Handler, 0);
   (IRQ_OFFSET + IRQ_SERIAL, true, IRQ_SERIAL_Handler, 0);
   (IRQ_OFFSET + IRQ_SPURIOUS, true, IRQ_SPURIOUS_Handler, 0);
   (IRQ_OFFSET + IRQ_IDE, true, IRQ_IDE_Handler, 0);
   (IRQ_OFFSET + IRQ_ERROR, true, IRQ_ERROR_Handler, 0)].

Definition set_gate (idt : list Gatedesc) (g : Z * bool * handler * Z) : list Gatedesc :=
  let '(n, istrap, h, dpl) := g in <[Z.to_nat n := SETGATE istrap GD_KT (entry h) dpl]> idt.

(** idt[256], zero at first. *)
Definition idt_zero : list Gatedesc := replicate 256 (mkGate 0 0 0 0 0 0 0 0 0).

Definition trap_init (idt : list Gatedesc) : K (list Gatedesc) :=
  trap_init_percpu;;
  mret (foldl set_gate idt idt_gates).

(* ------------------------------------------------------------------ *)
(** ** The interrupt descriptor table *)

Definition gate_ok (n : nat) (g : Gatedesc) : bool :=
  (negb (gd_p g =? 1) || (gd_sel g =? GD_KT)) &&
  Bool.eqb ((gd_p g =? 1) && (gd_dpl g =? 3))
    (existsb (Z.eqb (Z.of_nat n)) [T_DEBUG; T_BRKPT; T_SYSCALL]).

Lemma idt_gate_ok n g : foldl set_gate idt_zero idt_gates !! n = Some g → gate_ok n g = true.
Proof.
  intros Hg. pose proof (lookup_lt_Some _ _ _ Hg) as Hlt.
  assert (Hall : forallb (uncurry gate_ok)
            (zip (seq 0 256) (foldl set_gate idt_zero idt_gates)) = true) by reflexivity.
  rewrite forallb_forall in Hall. apply (Hall (n, g)). apply list_elem_of_In.
  apply list_elem_of_lookup. exists n. apply lookup_zip_Some. split; [|done].
  apply lookup_seq. change (length _) with 256%nat in Hlt. lia.
Qed.

Lemma trap_init_percpu_run s :
  is_Some (k_cpus s !! k_cpunum s) → ∃ s', trap_init_percpu s = Ok tt s'.
Proof. intros [cpu Hcpu]. unfold trap_init_percpu. mrun. mcall cpu_upd_run. eauto. Qed.

(** After trap_init the only vectors that user code may raise with an
    int instruction (present, with descriptor privilege level 3) are the
    debug exception, the breakpoint and the system call; every gate that is
    present enters the kernel code segment. *)
Theorem trap_init_gates s :
  is_Some (k_cpus s !! k_cpunum s) →
  ∃ idt s', trap_init idt_zero s = Ok idt s' ∧ length idt = 256%nat ∧
    (∀ n g, idt !! n = Some g → gd_p g = 1 → gd_sel g = GD_KT) ∧
    (∀ n g, idt !! n = Some g →
       gd_p g = 1 ∧ gd_dpl g = 3 ↔ Z.of_nat n = T_DEBUG ∨ Z.of_nat n = T_BRKPT ∨ Z.of_nat n = T_SYSCALL).
Proof.
  intros [s' Hs]%trap_init_percpu_run. unfold trap_init. mcall Hs. eexists _, s'.
  split; [done|]. split; [done|]. split; intros n g Hg%idt_gate_ok; unfold gate_ok in Hg;
    apply andb_true_iff in Hg as [H1 H2%Bool.eqb_prop].
  - intros Hp. rewrite Hp in H1. by apply Z.eqb_eq in H1.
  - rewrite <-!Z.eqb_eq, <-andb_true_iff, H2. cbn [existsb]. rewrite orb_false_r, !orb_true_iff. reflexivity.
Qed.

(* ------------------------------------------------------------------ *)
(** ** Entering and leaving the kernel *)

(** A CPU in user mode in the environment of slot [c], the lock free. *)
Record in_user (s : kst) (c : nat) (v : Env) (cpu : CpuInfo) : Prop := {
  iu_alive : k_panicstr s = false;
  iu_cpu : k_cpus s !! k_cpunum s = Some cpu;
  iu_status : cpu_status cpu ≠ CPU_HALTED;
  iu_env : cpu_env cpu = Some c;
  iu_lock : k_lock s = None;
  iu_slot : k_envs s !! c = Some v;
  iu_live : env_status v ≠ ENV_DYING }.

(** The state in which trap calls trap_dispatch. *)
Definition entered (t : Trapframe) (c : nat) (v : Env) (cpu : CpuInfo) (s : kst) : kst :=
  with_envs (<[c := set_env_tf t v]> (k_envs s))
    (with_lock (Some (k_cpunum s))
      (with_cpus (<[k_cpunum s := set_cpu_status CPU_STARTED cpu]> (k_cpus s)) s)).

(** How trap ends once trap_dispatch has returned. *)
Definition trap_leave {A} : K A :=
  cur ← curenv;
  match cur with
  | None => sched_yield
  | Some c => v ← env_get c; if env_status v =? ENV_RUNNING then env_run c else sched_yield
  end.

Lemma trap_entered {A} t c v cpu s :
  in_user s c v cpu → Z.land (tf_cs t) 3 = 3 →
  trap (A := A) t s = (trap_dispatch (TfEnv c);; trap_leave) (entered t c v cpu s).
Proof.
  intros [Ha Hcpu Hst Henv Hl Hv Hd] Hcs. unfold trap. mrun. rewrite Ha.
  unfold thiscpu. rewrite bind_assoc. mrun. rewrite Hcpu. cbn [mderef]. mrun. mcall cpu_upd_run.
  rewrite (proj2 (Z.eqb_neq _ _) Hst). cbn [mwhen]. mrun. rewrite Hcs. cbn [Z.eqb Pos.eqb].
  set (s1 := with_cpus _ s).
  assert (Hk : lock_kernel s1 = Ok tt (with_lock (Some (k_cpunum s)) s1)).
  { unfold lock_kernel. mrun. change (k_lock s1) with (k_lock s). by rewrite Hl. }
  rewrite bind_assoc. mcall Hk. unfold curenv. rewrite bind_assoc. mrun.
  assert (Hc : curenv_of (with_lock (Some (k_cpunum s)) s1) = Some c).
  { unfold curenv_of. cbn. rewrite list_lookup_insert_eq by (by eapply lookup_lt_Some). by cbn. }
  rewrite Hc. rewrite !bind_assoc. mcall env_get_run. rewrite (proj2 (Z.eqb_neq _ _) Hd).
  cbn [mwhen]. rewrite ?bind_assoc. mrun. rewrite ?bind_assoc. mcall env_upd_run. done.
Qed.


(* ------------------------------------------------------------------ *)
(** ** The page fault upcall *)

Lemma utf_addr_top esp :
  UXSTACKTOP - PGSIZE ≤ utf_addr esp → utf_addr esp + 56 ≤ UXSTACKTOP.
Proof.
  unfold utf_addr. destruct (_ && _) eqn:E; [|lia].
  apply andb_true_iff in E as [E1%Z.leb_le E2%Z.ltb_lt]. rewrite u32_small by lia. lia.
Qed.

Lemma xstack_page a :
  UXSTACKTOP - PGSIZE ≤ a < UXSTACKTOP →
  a / PGSIZE = 977919 ∧ a mod PGSIZE = a - (UXSTACKTOP - PGSIZE).
Proof.
  intros Ha. split; symmetry.
  - apply (Z.div_unique _ _ _ (a - (UXSTACKTOP - PGSIZE))); lia.
  - apply (Z.mod_unique _ _ 977919); lia.
Qed.

(** C20: a user page fault, when the environment has set an upcall and its
    exception stack is writable and has room.  The kernel writes a struct
    UTrapframe describing the fault (address, error code, registers, eip,
    eflags, esp) just below the free word on the stack, changes no other
    byte of memory, and resumes the same environment at its upcall with esp
    at that record and all other registers unchanged. *)
Theorem page_fault_upcall s l Ds ex c v D T P :
  let t := env_tf v in
  let addr := utf_addr (tf_esp t) in
  let pa := Z.of_nat P * PGSIZE + PGOFF addr in
  vm_inv s l Ds ex → sched_ok s → curenv_of s = Some c → k_envs s !! c = Some v →
  env_pgdir v = kva_of D → D ∈ Ds → k_cr3 s = Z.of_nat D * PGSIZE →
  Z.land (tf_cs t) 3 = 3 → env_pgfault_upcall v ≠ NULL → UXSTACKTOP - PGSIZE ≤ addr →
  maps_rw (k_mem s) D T P addr → grants (k_mem s) D (Z.lor (Z.lor PTE_P PTE_U) PTE_W) addr = true →
  ∃ s' v', page_fault_handler (TfEnv c) s = Noret (ToUser c) s' ∧ k_envs s' !! c = Some v' ∧
    env_tf v' = set_tf_esp addr (set_tf_eip (env_pgfault_upcall v) t) ∧
    (∀ k w, utf_words (mkUtf cr2 (tf_err t) (tf_regs t) (tf_eip t) (tf_eflags t) (tf_esp t)) !! k
              = Some w → rd32 (k_mem s') (pa + 4 * Z.of_nat k) = u32 w) ∧
    (∀ b, b < pa ∨ pa + 52 ≤ b → rd8 (k_mem s') b = rd8 (k_mem s) b).
Proof.
  intros t addr pa H Hok Hcur Hv Hpg HD Hcr3 Hcs Hup Hlo Hmap Hgr.
  pose proof (utf_addr_top _ Hlo) as Htop. fold addr in Htop.
  assert (Hoff : PGOFF addr + 56 ≤ PGSIZE).
  { rewrite PGOFF_mod, u32_small by lia. destruct (xstack_page addr ltac:(lia)) as [_ ->]. lia. }
  set (utf := mkUtf cr2 (tf_err t) (tf_regs t) (tf_eip t) (tf_eflags t) (tf_esp t)).
  set (s1 := with_mem (wr_words (k_mem s) (pa + 0) (utf_words utf)) s).
  assert (Hst : ustore_words addr (utf_words utf) s = Ok tt s1)
    by (apply (ustore_words_run s D T P addr); [done|lia|done|cbn; lia]).
  assert (Hchk : user_mem_assert c addr (52 + 4) (Z.lor (Z.lor PTE_P PTE_U) PTE_W) s = Ok tt s).
  { unfold user_mem_assert. rewrite (bind_Ok _ _ s 0 s); [done|].
    eapply user_mem_check_ok; [exact H|exact HD|exact Hv|exact Hpg|lia|lia|lia|].
    intros a Ha. change (Z.lor (Z.lor (Z.lor PTE_P PTE_U) PTE_W) PTE_U)
      with (Z.lor (Z.lor PTE_P PTE_U) PTE_W).
    rewrite <-Hgr. apply grants_page; [lia|lia|].
    destruct (xstack_page a ltac:(lia)) as [-> _], (xstack_page addr ltac:(lia)) as [-> _]. done. }
  pose proof (lookup_lt_Some _ _ _ Hv) as Hlt.
  set (v2 := tf_upd (set_tf_esp addr) (tf_upd (set_tf_eip (env_pgfault_upcall v)) v)).
  set (s2 := with_envs (<[c := v2]> (k_envs s)) s1).
  assert (HD' : Z.of_nat D < 65536).
  { pose proof (ai_max _ _ (vi_alloc _ _ _ _ H)). pose proof (wf_dir _ _ _ (vi_wf _ _ _ _ H) _ HD). lia. }
  exists (after_run c D s2), (set_env_cpunum (Z.of_nat (k_cpunum s))
    (set_env_runs (u32 (env_runs v + 1)) (set_env_status ENV_RUNNING v2))). split; [|split; [|split; [|split]]].
  - unfold page_fault_handler, tf_get. rewrite bind_assoc. mcall env_get_run. fold t. rewrite Hcs.
    cbn [Z.eqb]. mcall the_curenv_run. mcall env_get_run. rewrite (proj2 (Z.eqb_neq _ _) Hup).
    cbn [negb mwhen]. fold addr. rewrite !bind_assoc. mcall Hchk. rewrite !bind_assoc. fold utf. mcall Hst.
    rewrite !bind_assoc. mcall env_get_run. unfold tf_set. rewrite !bind_assoc. mcall env_upd_run.
    rewrite !bind_assoc. erewrite bind_Ok by (by apply env_upd_again). cbn beta.
    change (k_envs s1) with (k_envs s). fold v2. fold s2.
    unfold mbind at 1, M_bind at 1. erewrite (env_run_run s2 c v2 D); try done.
    + by apply list_lookup_insert_eq.
    + apply (cur_ok_insert s). exact (so_cur _ Hok).
    + exact (so_cpu _ Hok).
    + exact (so_lock _ Hok).
  - unfold after_run, run_envs, set_status_at.
    cbn [k_envs with_log with_lock with_cr3 with_cpus with_envs].
    change (curenv_of s2) with (curenv_of s). rewrite Hcur.
    rewrite !list_lookup_alter_eq. cbn [k_envs s2 with_envs].
    rewrite list_lookup_insert_eq by done. done.
  - done.
  - intros k w Hk. change (k_mem (after_run c D s2)) with (wr_words (k_mem s) (pa + 0) (utf_words utf)).
    rewrite Z.add_0_r. by apply wr_words_lookup.
  - intros b Hb. change (k_mem (after_run c D s2)) with (wr_words (k_mem s) (pa + 0) (utf_words utf)).
    rewrite Z.add_0_r. apply wr_words_outside. cbn [length utf_words app regs_words]. lia.
Qed.
End trap.

Lemma trap_init_gates_witness :
  ∃ idt s', trap_init 0 0 (λ _, 0) idt_zero demo_sched = Ok idt s' ∧ length idt = 256%nat.
Proof.
  destruct (trap_init_gates 0 0 (λ _, 0) demo_sched (so_cpu _ demo_sched_ok)) as (idt & s' & H & Hl & _).
  exists idt, s'. split; [exact H|exact Hl].
Defined.

(** The first environment of [demo_sched] in user mode, trapping with
    sys_getenvid. *)
Definition demo_user : kst := with_lock None demo_sched.
Definition demo_trap : Trapframe :=
  set_tf_regs (set_reg_eax SYS_getenvid (tf_regs tf_zero))
    (set_tf_cs (Z.lor GD_UT 3) (set_tf_trapno T_SYSCALL tf_zero)).
Definition demo_run_env : Env := set_env_status ENV_RUNNING (demo_env 1).
Definition demo_cpu : CpuInfo := mkCpu 0 CPU_STARTED (Some 0%nat) (mkTs 0 0 0).

Lemma demo_in_user : in_user demo_user 0 demo_run_env demo_cpu.
Proof. constructor; try reflexivity; discriminate. Qed.

Lemma demo_entered_ok t : sched_ok (entered t 0 demo_run_env demo_cpu demo_user).
Proof.
  exact (sched_ok_insert demo_sched 0 (set_env_tf t demo_run_env) demo_sched_ok
           (λ _, ex_intro _ 1%nat (conj eq_refl eq_refl))).
Qed.


(** The exception stack page mapped read-write, an upcall at 0x800100. *)
Definition demo_fault_va : Z := UXSTACKTOP - PGSIZE.
Definition demo_fault_env : Env :=
  set_env_pgfault_upcall 8388864
    (set_env_tf (set_tf_cs (Z.lor GD_UT 3) (set_tf_esp USTACKTOP tf_zero)) demo_run_env).
Definition demo_faulting : kst :=
  with_cr3 PGSIZE (with_lock (Some 0%nat) (with_cpus (k_cpus demo_sched) (with_kern_pgdir (kva_of 5)
    (with_envs (<[0%nat := demo_fault_env]> demo_sched_envs) (demo_map_at demo_fault_va 6))))).

Lemma demo_faulting_ok : sched_ok demo_faulting.
Proof.
  destruct (sched_ok_insert demo_sched 0 demo_fault_env demo_sched_ok
              (λ _, ex_intro _ 1%nat (conj eq_refl eq_refl))).
  constructor; assumption.
Qed.

Lemma demo_faulting_vm : vm_inv demo_faulting [3%nat] [1%nat] (λ _, 0).
Proof.
  exact (vm_inv_ext (demo_map_at demo_fault_va 6) demo_faulting _ _ _ eq_refl eq_refl eq_refl eq_refl
           (proj1 (demo_map_at_inv demo_fault_va 6 ltac:(unfold demo_fault_va; lia) ltac:(lia)))).
Qed.

Lemma page_fault_upcall_witness :
  ∃ s' v', page_fault_handler (λ _, 0) 4096 (TfEnv 0) demo_faulting = Noret (ToUser 0) s' ∧
    k_envs s' !! 0%nat = Some v' ∧ tf_eip (env_tf v') = 8388864.
Proof.
  destruct (page_fault_upcall (λ _, 0) 4096 demo_faulting [3%nat] [1%nat] (λ _, 0) 0 demo_fault_env 1 2 4
    demo_faulting_vm demo_faulting_ok eq_refl eq_refl eq_refl
    ltac:(apply list_elem_of_singleton; reflexivity) eq_refl eq_refl ltac:(discriminate)
    ltac:(discriminate)) as (s' & v' & Hr & Hv & Htf & _).
  - constructor; try reflexivity; discriminate.
  - reflexivity.
  - exists s', v'. split; [exact Hr|]. split; [exact Hv|]. rewrite Htf. reflexivity.
Defined.
