(* ===== verification/UserVm.v ===== *)
(** Address spaces as the user library sees them: pages by number, the
    entries of all address spaces below UTOP, the contents of the pages.
    The page-table operations and the paging system calls change one entry
    and leave everything else alone ([remap]). *)

From S2P Require Import Prelude Mmu Printfmt Console KState Pmap PageTable Env Syscall.
From Stdlib Require Import ZArith Lia String.
From stdpp Require Import base tactics numbers list.
Open Scope Z_scope.

(** PGNUM(UTOP) *)
Abbreviation UPN := 977920 (only parsing).

(** The page tables of the address spaces [Ds]: tables have the permissions
    that pgdir_walk gives them, every directory maps itself at UVPT, and no
    page that is mapped is a directory or a table. *)
Record uvm (s : kst) (l Ds : list nat) (ex : nat → Z) : Prop := {
  uv_inv : vm_inv s l Ds ex;
  uv_pde : ∀ D d T, D ∈ Ds → 0 ≤ d < UPDX → table_at (k_mem s) D d = Some T →
    rd32 (k_mem s) (ent D d) = mkpte T 7;
  uv_self : ∀ D, D ∈ Ds → rd32 (k_mem s) (ent D 957) = mkpte D 5;
  uv_map : ∀ D n P, D ∈ Ds → 0 ≤ n < UPN → frame (vpte (k_mem s) D n) = Some P →
    data_page s l Ds P;
  uv_cur : cur_ok s }.

(** The page that mapping page [n] of [D] takes for a table, if any. *)
Definition need_table (s : kst) (D : nat) (n : Z) : nat :=
  match table_at (k_mem s) D (n / NPTENTRIES) with Some _ => 0 | None => 1 end.

(** From [s] to [s'] the entry of page [n] of [D] becomes [v] and nothing
    else that the address spaces show changes; at most [k] free pages are
    taken. *)
Record remap (Ds : list nat) (ex : nat → Z) (k : nat) (s : kst) (l : list nat) (D : nat) (n v : Z)
    (s' : kst) (l' : list nat) : Prop := {
  rm_uvm : uvm s' l' Ds ex;
  rm_frame : vm_frame s s';
  rm_pte : ∀ D' n', D' ∈ Ds → 0 ≤ n' < UPN →
    vpte (k_mem s') D' n' = if bool_decide (D' = D ∧ n' = n) then v else vpte (k_mem s) D' n';
  rm_data : ∀ q, data_page s l Ds q → page_same q (k_mem s) (k_mem s');
  rm_tab : ∀ D' d T, D' ∈ Ds → 0 ≤ d < UPDX →
    table_at (k_mem s) D' d = Some T → table_at (k_mem s') D' d = Some T;
  rm_new : ∀ D' d, D' ∈ Ds → 0 ≤ d < UPDX → D' ≠ D ∨ d ≠ n / NPTENTRIES →
    table_at (k_mem s') D' d = table_at (k_mem s) D' d;
  rm_len : (length l ≤ length l' + k)%nat;
  rm_ref : ∀ q p', q ∉ l → k_pages s' !! q = Some p' → ∃ p, k_pages s !! q = Some p ∧
    pp_ref p' = pp_ref p + zb (bool_decide (frame v = Some q))
      - zb (bool_decide (frame (vpte (k_mem s) D n) = Some q)) }.

Lemma user_pdx n : 0 ≤ n < UPN → 0 ≤ n / NPTENTRIES < UPDX.
Proof. intros. split; [apply Z.div_pos; lia|apply Z.div_lt_upper_bound; lia]. Qed.

(** What holds of all entries but one, by address, holds by page number. *)
Lemma maps_except_vpte Ds D n m m' :
  0 ≤ n < UPN → maps_except Ds D (n * PGSIZE) m m' →
  ∀ D' n', D' ∈ Ds → 0 ≤ n' < UPN → ¬ (D' = D ∧ n' = n) → vpte m' D' n' = vpte m D' n'.
Proof.
  intros Hn Hm D' n' HD' Hn' Hne. apply Hm; [done|by apply user_pdx|apply vpage_ptx|].
  rewrite PDX_vpage, PTX_vpage by lia. intros (-> & E1 & E2). apply Hne. split; [done|by apply vpage_eq].
Qed.

(** Directories whose entries are the old ones or, in one place, a new table. *)
Definition pdes_grow (Ds l : list nat) (D0 : nat) (d0 : Z) (m m' : mem) : Prop :=
  ∀ D d, D ∈ Ds → 0 ≤ d < NPDENTRIES → rd32 m' (ent D d) = rd32 m (ent D d) ∨
    ((D = D0 ∧ d = d0) ∧ d < UPDX ∧ table_at m D d = None ∧ ∃ T, T ∈ l ∧ Z.of_nat T < 65536 ∧ rd32 m' (ent D d) = mkpte T 7).

Lemma pdes_grow_table Ds l D0 d0 m m' D d T :
  pdes_grow Ds l D0 d0 m m' → D ∈ Ds → 0 ≤ d < UPDX → table_at m' D d = Some T →
  table_at m D d = Some T ∧ rd32 m' (ent D d) = rd32 m (ent D d) ∨
  T ∈ l ∧ rd32 m' (ent D d) = mkpte T 7.
Proof.
  intros Hg HD Hd HT. destruct (Hg D d HD ltac:(lia)) as [E|(_ & _ & _ & T' & Hl & Hb & E)].
  - left. unfold table_at in *. by rewrite <- E.
  - right. unfold table_at in HT. rewrite E in *.
    rewrite frame_mkpte in HT by (done || lia). by simplify_eq.
Qed.

(** The invariant after an entry has been changed to [v]. *)
Lemma uvm_remap s l Ds ex s' l' D n v D0 d0 :
  uvm s l Ds ex → vm_inv s' l' Ds ex → vm_frame s s' → pdes_grow Ds l D0 d0 (k_mem s) (k_mem s') →
  (∀ D' n', D' ∈ Ds → 0 ≤ n' < UPN →
    vpte (k_mem s') D' n' = if bool_decide (D' = D ∧ n' = n) then v else vpte (k_mem s) D' n') →
  (∀ P, frame v = Some P → data_page s l Ds P) → uvm s' l' Ds ex.
Proof.
  intros H Hi Hf Hg Hp Hv. constructor; [done|..|by eapply vm_frame_cur, H].
  - intros D' d T HD' Hd HT.
    destruct (pdes_grow_table _ _ _ _ _ _ _ _ _ Hg HD' Hd HT) as [[HT0 ->]|[_ E]]; [|done].
    by apply (uv_pde _ _ _ _ H).
  - intros D' HD'. destruct (Hg D' 957 HD' ltac:(lia)) as [-> |(_ & ? & _)]; [by apply H|lia].
  - intros D' n' P HD' Hn' HP.
    assert (data_page s l Ds P) as (Hl & HDs & Ht).
    { rewrite Hp in HP by done. case_bool_decide; [by apply Hv|by apply (uv_map _ _ _ _ H D' n')]. }
    assert (uses (k_mem s') Ds P ≠ 0) as Hu.
    { pose proof (uses_frame _ Ds D' _ _ P HD' (user_pdx _ Hn') (vpage_ptx n') HP). lia. }
    split_and!; [|done|].
    + intros Hin. by apply Hu, (free_unused s' l' Ds ex P Hi).
    + intros D2 d HD2 Hd HT.
      destruct (pdes_grow_table _ _ _ _ _ _ _ _ _ Hg HD2 Hd HT) as [[HT0 _]|[Hin _]]; [|done].
      by apply (Ht D2 d).
Qed.

(** ** page_insert *)

Lemma walk_new_pdes s l Ds ex D T d :
  vm_inv s (T :: l) Ds ex → D ∈ Ds → 0 ≤ d < UPDX → table_at (k_mem s) D d = None →
  pdes_grow Ds (T :: l) D d (k_mem s) (k_mem (walk_new D d T s)).
Proof.
  intros H HD Hd HN D' d' HD' Hd'. destruct (new_small _ _ _ (vi_alloc _ _ _ _ H)) as [HTn Hn].
  pose proof (free_unused _ _ _ _ T H ltac:(left)) as Hfree. cbn. unfold new_table_mem.
  rewrite rd32_wr_ent, rd32_zero_page by lia. case_bool_decide as E.
  - destruct E as [-> ->]. right. split; [done|]. split; [lia|]. split; [done|]. exists T. split_and!; [left|lia|].
    apply u32_small. unfold mkpte. lia.
  - left. rewrite bool_decide_eq_false_2; [done|]. intros ->. by apply (outside_dir (k_mem s) Ds T Hfree T).
Qed.

Lemma insert_remap s l Ds ex D n P p perm :
  uvm s l Ds ex → D ∈ Ds → 0 ≤ n < UPN → 0 ≤ perm < PGSIZE →
  data_page s l Ds P → k_pages s !! P = Some p → pp_ref p < 65535 →
  is_Some (table_at (k_mem s) D (n / NPTENTRIES)) ∨ l ≠ [] →
  ∃ s' l', page_insert (kva_of D) P (n * PGSIZE) perm s = Ok 0 s' ∧
    remap Ds ex (need_table s D n) s l D n (mkpte P (Z.lor PTE_P perm)) s' l'.
Proof.
  intros H HD Hn Hperm HP Hp Hr Hroom. pose proof (uv_inv _ _ _ _ H) as Hi.
  pose proof (ai_max _ _ (vi_alloc _ _ _ _ Hi)) as Hmax.
  assert (Hva : 0 ≤ n * PGSIZE < UTOP) by lia. pose proof (user_pdx _ Hn) as Hd.
  assert (HPn : Z.of_nat P < k_npages s).
  { rewrite <- (ai_len _ _ (vi_alloc _ _ _ _ Hi)). apply lookup_lt_Some in Hp. lia. }
  assert (Hfr : frame (mkpte P (Z.lor PTE_P perm)) = Some P).
  { apply frame_mkpte; [lia|apply (lor_range _ _ 12); lia|apply odd_lor_P]. }
  destruct (walk_create_spec s l Ds ex D (n * PGSIZE) Hi HD Hva)
    as [(HT & Hl & _)|(T & l1 & s1 & Hw & H1 & HT & Hf & Hpte & Hsub & Hpg & Hdata & Hex)].
  { exfalso. rewrite PDX_vpage in HT by lia. rewrite HT in Hroom. destruct Hroom as [[]|]; done. }
  destruct HP as (HPl & HPD & HPT).
  assert (HP1 : P ∉ l1) by (intros Hin; by apply HPl, Hsub).
  rewrite <- (Hpg P HPl) in Hp.
  destruct (page_insert_ok s Ds ex D T (n * PGSIZE) P perm p l1 s1)
    as (s' & l' & Hins & Hi' & Hf' & Hm & Hpt & Hsame & Hrf & Hlen);
    try done; [by eapply vm_frame_cur, H|].
  assert (HTd : T ∉ Ds).
  { rewrite PDX_vpage in HT by lia. by apply (wf_tab _ _ _ (vi_wf _ _ _ _ H1) _ _ _ HD Hd HT). }
  assert (Hvp : ∀ D' n', D' ∈ Ds → 0 ≤ n' < UPN → vpte (k_mem s') D' n' =
    if bool_decide (D' = D ∧ n' = n) then mkpte P (Z.lor PTE_P perm) else vpte (k_mem s) D' n').
  { intros D' n' HD' Hn'. case_bool_decide as E.
    - destruct E as [-> ->]. unfold vpte. rewrite <- PDX_vpage, <- PTX_vpage by lia. exact Hpt.
    - rewrite (maps_except_vpte Ds D n (k_mem s1)) by done.
      apply Hpte; [done|by apply user_pdx|apply vpage_ptx]. }
  assert (Hg : pdes_grow Ds l D (n / NPTENTRIES) (k_mem s) (k_mem s')).
  { assert (Hg1 : pdes_grow Ds l D (n / NPTENTRIES) (k_mem s) (k_mem s1)).
    { rewrite PDX_vpage in Hex by lia. destruct (table_at (k_mem s) D (n / NPTENTRIES)) eqn:E.
      - destruct Hex as (_ & -> & _). by left.
      - destruct Hex as [-> ->]. by eapply walk_new_pdes. }
    intros D' d HD' Hd'. rewrite (rd32_page_same D' d (k_mem s1)); [by apply Hg1| |lia].
    apply Hsame. by intros ->. }
  exists s', l'. split; [done|]. assert (Hf2 : vm_frame s s') by (by eapply vm_frame_trans).
  constructor; [| |done|..].
  - eapply uvm_remap; try done. intros P'. rewrite Hfr. by intros [= <-].
  - done.
  - intros q Hq. destruct (Hdata q Hq) as [Hne Hq']. by eapply page_same_trans; [|apply Hsame].
  - intros D' d T' HD' Hd' HT'. destruct (Hg D' d HD' ltac:(lia)) as [E|(_ & _ & E & _)]; [|congruence].
    unfold table_at. by rewrite E.
  - intros D' d HD' Hd' Hne. destruct (Hg D' d HD' ltac:(lia)) as [E|([-> ->] & _)]; [|by destruct Hne].
    unfold table_at. by rewrite E.
  - rewrite PDX_vpage in Hex by lia. unfold need_table.
    destruct (table_at (k_mem s) D (n / NPTENTRIES)).
    + destruct Hex as (_ & _ & ->). lia.
    + destruct Hex as [-> _]. cbn. lia.
  - intros q p' Hq Hp'. destruct (Hrf q p' Hp') as (p0 & Hp0 & Hle). rewrite Hpg in Hp0 by done.
    exists p0. split; [done|]. rewrite Hfr, Hle.
    rewrite (bool_decide_ext (Some P = Some q) (P = q)) by (split; [by intros [= ->]|by intros ->]).
    rewrite PDX_vpage, PTX_vpage, Hpte by (done || lia || apply vpage_ptx). done.
Qed.

(** ** page_remove *)

Lemma remove_remap s l Ds ex D n P :
  uvm s l Ds ex → D ∈ Ds → 0 ≤ n < UPN → frame (vpte (k_mem s) D n) = Some P →
  ∃ s' l', page_remove (kva_of D) (n * PGSIZE) s = Ok tt s' ∧ remap Ds ex 0 s l D n 0 s' l'.
Proof.
  intros H HD Hn HP. pose proof (uv_inv _ _ _ _ H) as Hi.
  assert (Hva : 0 ≤ n * PGSIZE < UTOP) by lia. pose proof (user_pdx _ Hn) as Hd.
  assert (HP' : frame (pte_at (k_mem s) D (PDX (n * PGSIZE)) (PTX (n * PGSIZE))) = Some P).
  { by rewrite PDX_vpage, PTX_vpage by lia. }
  destruct (page_remove_run s l Ds ex D P (n * PGSIZE) Hi HD Hva HP' (uv_cur _ _ _ _ H))
    as (T & p & lg & HT & Hp & Hr & Hi').
  destruct (mapped_frame s l Ds ex D P (n * PGSIZE) Hi HD Hva HP') as (_ & _ & p2 & Hp2 & _ & Hpos).
  rewrite Hp in Hp2. injection Hp2 as <-.
  destruct (write_pte_except _ _ Ds D T (n * PGSIZE) 0 (vi_wf _ _ _ _ Hi) HD Hva HT) as [Hm He].
  assert (HTd : T ∉ Ds).
  { rewrite PDX_vpage in HT by lia. by apply (wf_tab _ _ _ (vi_wf _ _ _ _ Hi) _ _ _ HD Hd HT). }
  set (s' := after_remove s P (n * PGSIZE) T (pp_ref p) lg) in *.
  change (wr32 (k_mem s) (ent T (PTX (n * PGSIZE))) 0) with (k_mem s') in Hm, He.
  assert (Hsame : ∀ q, q ≠ T → page_same q (k_mem s) (k_mem s')).
  { intros q Hq. by apply page_same_wr; [|apply PTX_range]. }
  assert (Hpde : ∀ D' d, D' ∈ Ds → 0 ≤ d < NPDENTRIES →
    rd32 (k_mem s') (ent D' d) = rd32 (k_mem s) (ent D' d)).
  { intros D' d HD' Hd'. apply rd32_page_same; [|lia]. apply Hsame. by intros ->. }
  assert (Hvp : ∀ D' n', D' ∈ Ds → 0 ≤ n' < UPN →
    vpte (k_mem s') D' n' = if bool_decide (D' = D ∧ n' = n) then 0 else vpte (k_mem s) D' n').
  { intros D' n' HD' Hn'. case_bool_decide as E.
    - destruct E as [-> ->]. unfold vpte. rewrite <- PDX_vpage, <- PTX_vpage by lia. exact He.
    - by apply (maps_except_vpte Ds D n (k_mem s)). }
  exists s', (if pp_ref p =? 1 then P :: l else l). split; [done|].
  constructor; [|apply vm_frame_remove|done|..].
  - apply (uvm_remap s l Ds ex s' _ D n 0 D 0); [exact H|exact Hi'|apply vm_frame_remove| |exact Hvp|done].
    intros D' d HD' Hd'. left. by apply Hpde.
  - intros q (_ & _ & Hq). apply Hsame. intros ->.
    apply (Hq D (n / NPTENTRIES) HD Hd). by rewrite <- PDX_vpage by lia.
  - intros D' d T' HD' Hd' HT'. unfold table_at. rewrite Hpde by (done || lia). done.
  - intros D' d HD' Hd' _. unfold table_at. by rewrite Hpde by (done || lia).
  - destruct (pp_ref p =? 1); cbn [length]; lia.
  - intros q p' _ Hq. destruct (after_decref_refs s l P p Hp ltac:(lia)) as [Hrf _].
    destruct (Hrf q p' Hq) as (p0 & Hp0 & Hle). exists p0. split; [done|]. rewrite Hle, HP.
    change (frame 0) with (@None nat). rewrite (bool_decide_eq_false_2 (None = Some q)) by done.
    cbn [zb]. lia.
Qed.

(** ** The paging system calls *)

(** [envid] names an environment that the caller may change, with the
    address space [D]. *)
Record target (s : kst) (Ds : list nat) (envid : Z) (D : nat) : Prop := {
  tg_id : ∃ e v, envid2env envid true s = Ok (0, Some e) s ∧ k_envs s !! e = Some v ∧ env_pgdir v = kva_of D;
  tg_dir : D ∈ Ds }.

Lemma vm_frame_envs_same s s' : vm_frame s s' → k_envs s' = k_envs s ∧ curenv_of s' = curenv_of s.
Proof. by intros (? & ? & ? & ? & ->). Qed.

Lemma env_get_frame s s' e : k_envs s' = k_envs s →
  env_get e s' = match env_get e s with Ok v _ => Ok v s' | _ => Undef end.
Proof. intros E. unfold env_get. rewrite !bind_get, E. by destruct (k_envs s !! e). Qed.

Lemma envid2env_frame s s' envid cp r :
  vm_frame s s' → envid2env envid cp s = Ok r s → envid2env envid cp s' = Ok r s'.
Proof.
  intros Hf. destruct (vm_frame_envs_same _ _ Hf) as [E1 E2].
  unfold envid2env, curenv. rewrite !bind_gets, E2. destruct (envid =? 0); [by intros [= <-]|].
  unfold mbind, M_bind. rewrite (env_get_frame s s') by done.
  destruct (env_get _ s) as [v s0| | |] eqn:Hg; [|done..].
  assert (s0 = s) as -> by (revert Hg; unfold env_get; mstep; case_match; by intros [= _ <-]).
  destruct (_ || _); [by intros [= <-]|]. destruct (cp && _); [|by intros [= <-]].
  destruct (curenv_of s) as [c|]; [|done]. cbn. rewrite (env_get_frame s s') by done.
  destruct (env_get c s) as [w s0| | |] eqn:Hw; [|done..].
  assert (s0 = s) as -> by (revert Hw; unfold env_get; mstep; case_match; by intros [= _ <-]).
  destruct (negb _); by intros [= <-].
Qed.

Lemma target_frame s s' Ds envid D : vm_frame s s' → target s Ds envid D → target s' Ds envid D.
Proof.
  intros Hf [(e & v & Hi & He & Hv) HD]. split; [|done]. exists e, v.
  split; [by eapply envid2env_frame|]. by rewrite (proj1 (vm_frame_envs_same _ _ Hf)).
Qed.

Lemma user_va_ok n : 0 ≤ n < UPN → bad_va (n * PGSIZE) = false.
Proof.
  intros Hn. unfold bad_va. rewrite (proj2 (Z.leb_gt _ _)) by lia. by rewrite Z.mod_mul by lia.
Qed.

Lemma unmap_remap s l Ds ex envid D n P :
  uvm s l Ds ex → target s Ds envid D → 0 ≤ n < UPN → frame (vpte (k_mem s) D n) = Some P →
  ∃ s' l', sys_page_unmap envid (n * PGSIZE) s = Ok 0 s' ∧ remap Ds ex 0 s l D n 0 s' l'.
Proof.
  intros H [(e & v & Hid & He & Hv) HD] Hn HP.
  destruct (remove_remap s l Ds ex D n P H HD Hn HP) as (s' & l' & Hr & Hm).
  exists s', l'. split; [|done]. unfold sys_page_unmap. mcall Hid. cbn [negb Z.eqb].
  rewrite user_va_ok by done. cbn [mderef]. mrun. mcall env_get_run. rewrite Hv. by mcall Hr.
Qed.

Lemma map_remap s l Ds ex srcid S n P p dstid D n' perm :
  uvm s l Ds ex → target s Ds srcid S → target s Ds dstid D → 0 ≤ n < UPN → 0 ≤ n' < UPN →
  bad_perm perm = false → frame (vpte (k_mem s) S n) = Some P →
  k_pages s !! P = Some p → pp_ref p < 65535 →
  is_Some (table_at (k_mem s) D (n' / NPTENTRIES)) ∨ l ≠ [] →
  ∃ s' l', sys_page_map srcid (n * PGSIZE) dstid (n' * PGSIZE) perm s = Ok 0 s' ∧
    remap Ds ex (need_table s D n') s l D n' (mkpte P (Z.lor PTE_P perm)) s' l'.
Proof.
  intros H [(e & v & Hid & He & Hv) HS] [(e2 & v2 & Hid2 & He2 & Hv2) HD] Hn Hn' Hperm HP Hp Hr Hroom.
  pose proof (uv_inv _ _ _ _ H) as Hi. pose proof (user_pdx _ Hn) as Hd.
  destruct (good_perm _ Hperm) as [Hpm _].
  destruct (insert_remap s l Ds ex D n' P p perm H HD Hn' Hpm (uv_map _ _ _ _ H _ _ _ HS Hn HP) Hp Hr Hroom)
    as (s' & l' & Hins & Hm).
  exists s', l'. split; [|done]. unfold sys_page_map. mcall Hid. cbn [negb Z.eqb].
  mcall Hid2. cbn [negb Z.eqb]. rewrite Hperm, !user_va_ok by done. cbn [orb mderef]. mrun.
  mcall env_get_run. rewrite Hv.
  destruct (page_lookup_run s l Ds ex S P (n * PGSIZE) Hi HS ltac:(lia)) as (T & HT & Hlk).
  { by rewrite PDX_vpage, PTX_vpage by lia. }
  mcall Hlk. rewrite PDX_vpage in HT by lia.
  destruct (wf_tab _ _ _ (vi_wf _ _ _ _ Hi) _ _ _ HS Hd HT) as [HTn _].
  pose proof (ai_max _ _ (vi_alloc _ _ _ _ Hi)).
  erewrite bind_Ok by (apply kload_ent; [lia|exact (PTX_range (n * PGSIZE))]). cbn beta.
  rewrite (proj2 (Z.eqb_neq (Z.lor _ PTE_W) 0)) by (intros [_ ?]%Z.lor_eq_0_iff; done). cbn [andb].
  cbn [mderef]. mrun. mcall env_get_run. rewrite Hv2. by mcall Hins.
Qed.

(** A page taken off the free list and filled with zeroes. *)
Lemma uvm_alloc s P l Ds ex :
  uvm s (P :: l) Ds ex → uvm (after_alloc true P s) l Ds ex ∧
  (∀ D n, D ∈ Ds → 0 ≤ n < UPN → vpte (k_mem (after_alloc true P s)) D n = vpte (k_mem s) D n) ∧
  (∀ D d, D ∈ Ds → 0 ≤ d < UPDX → table_at (k_mem (after_alloc true P s)) D d = table_at (k_mem s) D d) ∧
  (∀ q, data_page s (P :: l) Ds q →
     data_page (after_alloc true P s) l Ds q ∧ page_same q (k_mem s) (k_mem (after_alloc true P s))).
Proof.
  intros H. pose proof (uv_inv _ _ _ _ H) as Hi. set (s1 := after_alloc true P s).
  destruct (alloc_zero_bound s P l Ds ex Hi) as [HPn Hn].
  pose proof (free_unused _ _ _ _ P Hi ltac:(left)) as Hfree.
  assert (Hpte : ∀ D n, D ∈ Ds → 0 ≤ n < UPN → vpte (k_mem s1) D n = vpte (k_mem s) D n).
  { intros D n HD Hn'. eapply alloc_zero_pte; [exact Hi|done|by apply user_pdx|apply vpage_ptx]. }
  assert (Htab : ∀ D d, D ∈ Ds → 0 ≤ d < UPDX → table_at (k_mem s1) D d = table_at (k_mem s) D d).
  { intros D d HD Hd. by eapply alloc_zero_table. }
  assert (Hdp : ∀ q, data_page s (P :: l) Ds q →
    data_page s1 l Ds q ∧ page_same q (k_mem s) (k_mem s1)).
  { intros q (Hl & HDs & Hq). apply not_elem_of_cons in Hl as [Hne Hl]. split.
    - split_and!; [done..|]. intros D d HD Hd. rewrite Htab by done. by apply Hq.
    - intros i Hi'. unfold s1, after_alloc. cbn. rewrite page2pa_mul by lia.
      apply rd8_mem_set_out. lia. }
  assert (Hpde : ∀ D d, D ∈ Ds → 0 ≤ d < NPDENTRIES → rd32 (k_mem s1) (ent D d) = rd32 (k_mem s) (ent D d)).
  { intros D d HD Hd. eapply alloc_zero_same; [exact Hi| |lia].
    intros ->. by apply (outside_dir (k_mem s) Ds P Hfree P). }
  split_and!; try done. constructor.
  - by apply alloc_zero_inv.
  - intros D d T HD Hd. rewrite Htab, Hpde by (done || lia). by apply H.
  - intros D HD. rewrite Hpde by (done || lia). by apply H.
  - intros D n Q HD Hn'. rewrite Hpte by done. intros HQ. by apply Hdp, (uv_map _ _ _ _ H D n).
  - apply (uv_cur _ _ _ _ H).
Qed.

Lemma alloc_remap s P l Ds ex envid D n perm :
  uvm s (P :: l) Ds ex → target s Ds envid D → 0 ≤ n < UPN → bad_perm perm = false →
  is_Some (table_at (k_mem s) D (n / NPTENTRIES)) ∨ l ≠ [] →
  ∃ s' l', sys_page_alloc envid (n * PGSIZE) perm s = Ok 0 s' ∧
    remap Ds ex (S (need_table s D n)) s (P :: l) D n (mkpte P (Z.lor PTE_P perm)) s' l' ∧
    (∀ i, 0 ≤ i < PGSIZE → rd8 (k_mem s') (Z.of_nat P * PGSIZE + i) = 0) ∧
    (∃ p, k_pages s' !! P = Some p ∧ pp_ref p ≤ 1).
Proof.
  intros H [(e & v & Hid & He & Hv) HD] Hn Hperm Hroom. pose proof (uv_inv _ _ _ _ H) as Hi.
  destruct (good_perm _ Hperm) as [Hpm _].
  destruct (uvm_alloc s P l Ds ex H) as (H1 & Hp1 & Ht1 & Hd1). set (s1 := after_alloc true P s) in *.
  pose proof (alloc_zero_lookup s P l Ds ex Hi) as HP. fold s1 in HP.
  pose proof (alloc_zero_data s P l Ds ex Hi) as HPd. fold s1 in HPd.
  destruct (insert_remap s1 l Ds ex D n P (mkPage None 0) perm H1 HD Hn Hpm HPd HP ltac:(cbn; lia))
    as (s' & l' & Hr & [Hu Hf Hp Hdt Htb Hnw Hln Hrf]).
  { rewrite Ht1 by (done || by apply user_pdx). done. }
  exists s', l'. split; [|split; [|split]].
  - unfold sys_page_alloc. mcall Hid. cbn [negb Z.eqb]. rewrite Hperm, user_va_ok by done.
    erewrite bind_Ok by (eapply page_alloc_cons, (vi_alloc _ _ _ _ Hi)).
    change (tst ALLOC_ZERO ALLOC_ZERO) with true. cbn beta iota. cbn [mderef]. mrun.
    fold s1. mcall env_get_run. rewrite Hv. by mcall Hr.
  - constructor; [done|..].
    + eapply vm_frame_trans; [|exact Hf]. unfold s1, after_alloc.
      eapply vm_frame_trans; [|apply vm_frame_pages]. eapply vm_frame_trans; [|apply vm_frame_mem].
      apply vm_frame_fl.
    + intros D' n' HD' Hn'. rewrite Hp by done. by rewrite Hp1.
    + intros q Hq. destruct (Hd1 q Hq) as [Hq1 Hs1]. by eapply page_same_trans; [|apply Hdt].
    + intros D' d T HD' Hd' HT. apply Htb; [done..|]. by rewrite Ht1.
    + intros D' d HD' Hd' Hne. by rewrite Hnw, Ht1.
    + unfold need_table in *. rewrite Ht1 in Hln by (done || by apply user_pdx). cbn [length]. lia.
    + intros q p' Hq Hp'. apply not_elem_of_cons in Hq as [Hne Hq].
      destruct (Hrf q p' Hq Hp') as (p & Hpp & Hle). exists p.
      rewrite Hp1 in Hle by done. split; [|done]. unfold s1, after_alloc in Hpp. cbn in Hpp. by rewrite list_lookup_insert_ne in Hpp.
  - intros i Hi'. rewrite (Hdt P HPd i Hi'). by eapply alloc_zero_byte.
  - pose proof (ai_bound _ _ P (vi_alloc _ _ _ _ Hi) ltac:(left)) as HPn.
    destruct (ai_lookup s' l' P (vi_alloc _ _ _ _ (uv_inv _ _ _ _ Hu))) as [p Hpp].
    { rewrite (vm_frame_npages s1 s') by done. exact HPn. }
    exists p. split; [done|]. destruct (Hrf P p (proj1 HPd) Hpp) as (p0 & Hp0 & Hle).
    rewrite HP in Hp0. injection Hp0 as <-. cbn [pp_ref] in Hle.
    pose proof (zb_range (bool_decide (frame (mkpte P (Z.lor PTE_P perm)) = Some P))).
    pose proof (zb_range (bool_decide (frame (vpte (k_mem s1) D n) = Some P))). lia.
Qed.

(** ** Writing to a page of data *)

(** [m'] differs from the memory of [s] in page [Q] only. *)
Definition only_page (Q : nat) (m m' : mem) : Prop := ∀ q, q ≠ Q → page_same q m m'.

Section poke.
Context (s : kst) (l Ds : list nat) (ex : nat → Z) (Q : nat) (m' : mem).
Hypothesis H : uvm s l Ds ex.
Hypothesis HQ : data_page s l Ds Q.
Hypothesis Hm : only_page Q (k_mem s) m'.

Lemma poke_pde D d : D ∈ Ds → 0 ≤ d < NPDENTRIES → rd32 m' (ent D d) = rd32 (k_mem s) (ent D d).
Proof.
  intros HD Hd. destruct HQ as (_ & HQD & _). apply rd32_page_same; [|lia]. apply Hm. by intros ->.
Qed.

Lemma poke_table D d : D ∈ Ds → 0 ≤ d < UPDX → table_at m' D d = table_at (k_mem s) D d.
Proof. intros HD Hd. unfold table_at. by rewrite poke_pde by (done || lia). Qed.

Lemma poke_entry D d T t : D ∈ Ds → 0 ≤ d < UPDX → table_at (k_mem s) D d = Some T →
  0 ≤ t < NPTENTRIES → rd32 m' (ent T t) = rd32 (k_mem s) (ent T t).
Proof.
  intros HD Hd HT Ht. destruct HQ as (_ & _ & HQT). apply rd32_page_same; [|lia].
  apply Hm. intros ->. by apply (HQT D d).
Qed.

Lemma poke_pte D d t : D ∈ Ds → 0 ≤ d < UPDX → 0 ≤ t < NPTENTRIES →
  pte_at m' D d t = pte_at (k_mem s) D d t.
Proof.
  intros HD Hd Ht. unfold pte_at. rewrite poke_table by done.
  destruct (table_at _ D d) eqn:HT; [|done]. by eapply poke_entry.
Qed.

Lemma poke_uses q : uses m' Ds q = uses (k_mem s) Ds q.
Proof.
  unfold uses. apply zsum_ext. intros D HD. unfold dir_uses. f_equal. apply zsum_ext.
  intros d Hd%elem_of_seqZ. unfold slot_uses. rewrite poke_table by (done || lia).
  destruct (table_at _ D d) as [T|] eqn:HT; [|done]. f_equal. unfold table_uses. apply zsum_ext.
  intros t Ht%elem_of_seqZ. by rewrite (poke_entry D d T t) by (done || lia).
Qed.

Lemma uvm_poke : uvm (with_mem m' s) l Ds ex.
Proof.
  pose proof (uv_inv _ _ _ _ H) as [Ha [W1 W2 W3 W4 W5] Hr He]. constructor; cbn.
  - constructor; cbn; [by apply (alloc_inv_ext s)| |intros q p Hp; rewrite poke_uses; by apply Hr|done].
    constructor; try done.
    + intros D d T HD Hd. rewrite poke_table by done. by apply W3.
    + intros D D' d d' T HD HD' Hd Hd'. rewrite !poke_table by done. by apply W4.
    + intros D d t P HD Hd Ht. rewrite poke_pte by done. by apply W5.
  - intros D d T HD Hd. rewrite poke_table, poke_pde by (done || lia). by apply H.
  - intros D HD. rewrite poke_pde by (done || lia). by apply H.
  - intros D n P HD Hn. unfold vpte. rewrite poke_pte by (done || by apply user_pdx || apply vpage_ptx).
    intros HP. destruct (uv_map _ _ _ _ H D n P HD Hn HP) as (? & ? & Ht). split_and!; [done..|].
    intros D' d HD' Hd. cbn. rewrite poke_table by done. by apply Ht.
  - apply (uv_cur _ _ _ _ H).
Qed.

Lemma vpte_poke D n : D ∈ Ds → 0 ≤ n < UPN → vpte m' D n = vpte (k_mem s) D n.
Proof. intros. apply poke_pte; [done|by apply user_pdx|apply vpage_ptx]. Qed.
End poke.
