(* ===== verification/ULib.v ===== *)
(** The user library's view of the machine: memory accesses in user mode
    through the current page tables, the page tables themselves at UVPT
    (lib/entry.S), and the system call stubs of lib/syscall.c, which reach
    the dispatcher of kern/syscall.c.

    An access that faults ends the run with [Panic]: what happens then is
    the business of the page fault handler (kern/trap.c, lib/pfentry.S),
    and the code that relies on it names it. *)

From S2P Require Import Prelude Mmu Printfmt Console KState Pmap PageTable Env Sched Syscall UserVm.
From Stdlib Require Import ZArith Lia String.
From stdpp Require Import base tactics numbers list.
Open Scope Z_scope.

Abbreviation PTE_COW := 2048 (only parsing).
Abbreviation PTE_SHARE := 1024 (only parsing).

(** ** Memory in user mode *)

Definition user_phys (s : kst) (write : bool) (va : Z) : option Z :=
  let pde := rd32 (k_mem s) (PTE_ADDR (k_cr3 s) + 4 * PDX va) in
  if tst pde PTE_P && tst pde PTE_U then
    let pte := rd32 (k_mem s) (PTE_ADDR pde + 4 * PTX va) in
    if tst pte PTE_P && tst pte PTE_U && (negb write || (tst pde PTE_W && tst pte PTE_W))
    then Some (PTE_ADDR pte + PGOFF va) else None
  else None.

Definition vld8 (va : Z) : K Z :=
  s ← mget;
  match user_phys s false va with
  | Some a => mret (rd8 (k_mem s) a)
  | None => mpanic "page fault in user mode"
  end.
Definition vst8 (va v : Z) : K unit :=
  s ← mget;
  match user_phys s true va with
  | Some a => mput (with_mem (wr8 (k_mem s) a v) s)
  | None => mpanic "page fault in user mode"
  end.
(** Words are aligned and do not cross a page. *)
Definition vld32 (va : Z) : K Z :=
  s ← mget;
  match user_phys s false va with
  | Some a => mret (rd32 (k_mem s) a)
  | None => mpanic "page fault in user mode"
  end.
Definition vst32 (va v : Z) : K unit :=
  s ← mget;
  match user_phys s true va with
  | Some a => mput (with_mem (wr32 (k_mem s) a v) s)
  | None => mpanic "page fault in user mode"
  end.

(** memmove between ranges that do not overlap. *)
Definition vmemmove (dst src n : Z) : K unit :=
  mfor (seqZ 0 n) (λ i, v ← vld8 (u32 (src + i)); vst8 (u32 (dst + i)) v).

Definition uvpt (n : Z) : K Z := vld32 (u32 (UVPT + 4 * n)).
Definition uvpd (d : Z) : K Z := vld32 (u32 (UVPT + UVPT / PGSIZE * 4 + 4 * d)).

(** ** System calls *)

Definition u_syscall (num : Z) (check : bool) (a1 a2 a3 a4 a5 : Z) : K Z :=
  ret ← syscall num (u32 a1) (u32 a2) (u32 a3) (u32 a4) (u32 a5);
  if check && (0 <? ret) then mpanic "syscall %d returned %d (> 0)" else mret ret.

Definition u_sys_cputs (s len : Z) : K unit := u_syscall SYS_cputs false s len 0 0 0;; mret tt.
Definition u_sys_cgetc : K Z := u_syscall SYS_cgetc false 0 0 0 0 0.
Definition u_sys_env_destroy (envid : Z) : K Z := u_syscall SYS_env_destroy true envid 0 0 0 0.
Definition u_sys_getenvid : K Z := u_syscall SYS_getenvid false 0 0 0 0 0.
Definition u_sys_yield : K unit := u_syscall SYS_yield false 0 0 0 0 0;; mret tt.
Definition u_sys_page_alloc (envid va perm : Z) : K Z := u_syscall SYS_page_alloc true envid va perm 0 0.
Definition u_sys_page_map (srcenv srcva dstenv dstva perm : Z) : K Z :=
  u_syscall SYS_page_map true srcenv srcva dstenv dstva perm.
Definition u_sys_page_unmap (envid va : Z) : K Z := u_syscall SYS_page_unmap true envid va 0 0 0.
(** sys_exofork is inlined in inc/lib.h. *)
Definition u_sys_exofork : K Z := syscall SYS_exofork 0 0 0 0 0.
Definition u_sys_env_set_status (envid status : Z) : K Z :=
  u_syscall SYS_env_set_status true envid status 0 0 0.
Definition u_sys_env_set_trapframe (envid tf : Z) : K Z :=
  u_syscall SYS_env_set_trapframe true envid tf 0 0 0.
Definition u_sys_env_set_pgfault_upcall (envid upcall : Z) : K Z :=
  u_syscall SYS_env_set_pgfault_upcall true envid upcall 0 0 0.
Definition u_sys_ipc_try_send (envid value srcva perm : Z) : K Z :=
  u_syscall SYS_ipc_try_send false envid value srcva perm 0.
Definition u_sys_ipc_recv (dstva : Z) : K Z := u_syscall SYS_ipc_recv true dstva 0 0 0 0.

(* ------------------------------------------------------------------ *)
(** ** The running environment *)

(** Environment [e], with address space [D], runs. *)
Record running (s : kst) (Ds : list nat) (e : nat) (v : Env) (D : nat) : Prop := {
  ru_cur : curenv_of s = Some e;
  ru_env : k_envs s !! e = Some v;
  ru_pgdir : env_pgdir v = kva_of D;
  ru_dir : D ∈ Ds;
  ru_cr3 : k_cr3 s = Z.of_nat D * PGSIZE;
  ru_status : env_status v ≠ ENV_FREE;
  ru_id : id_ok e (env_id v) }.

Lemma running_frame s s' Ds e v D : vm_frame s s' → running s Ds e v D → running s' Ds e v D.
Proof. intros (? & ? & ? & ? & ->) []. by constructor. Qed.

Lemma running_target s Ds e v D : running s Ds e v D → target s Ds 0 D ∧ target s Ds (env_id v) D.
Proof.
  intros [Hc He Hp HD _ Hs [Hpos Hx]]. split; (split; [exists e, v; split; [|done]|done]).
  - unfold envid2env, curenv. mrun. by rewrite Hc.
  - unfold envid2env, curenv. mrun. rewrite (proj2 (Z.eqb_neq _ _)) by lia.
    rewrite ENVX_mod, Hx, Nat2Z.id. mcall env_get_run.
    rewrite (proj2 (Z.eqb_neq _ _)) by done. rewrite Z.eqb_refl. cbn [orb negb].
    by rewrite Hc, bool_decide_eq_true_2, andb_false_r by done.
Qed.

(** ** Translation in user mode *)

Section access.
Context (s : kst) (l Ds : list nat) (ex : nat → Z) (e D : nat) (v : Env).
Hypothesis H : uvm s l Ds ex.
Hypothesis Hr : running s Ds e v D.

Let HD : D ∈ Ds := ru_dir _ _ _ _ _ Hr.

Lemma dir_bound : Z.of_nat D < 65536.
Proof. eapply dir_small; [apply H|exact HD]. Qed.

Lemma cr3_addr : PTE_ADDR (k_cr3 s) = Z.of_nat D * PGSIZE.
Proof.
  pose proof dir_bound. rewrite (ru_cr3 _ _ _ _ _ Hr), PTE_ADDR_sub, u32_small by lia.
  rewrite Z.mod_mul by lia. lia.
Qed.

(** A user access to page [n] below UTOP goes by its entry. *)
Lemma user_phys_page write n o :
  0 ≤ n < UPN → 0 ≤ o < PGSIZE →
  user_phys s write (n * PGSIZE + o) =
  match frame (vpte (k_mem s) D n) with
  | Some P => if tst (vpte (k_mem s) D n) PTE_U && (negb write || tst (vpte (k_mem s) D n) PTE_W)
              then Some (Z.of_nat P * PGSIZE + o) else None
  | None => None
  end.
Proof.
  intros Hn Ho. pose proof (user_pdx _ Hn) as Hd. pose proof (uv_inv _ _ _ _ H) as Hi.
  assert (E : (n * PGSIZE + o) / PGSIZE = n) by (symmetry; apply Z.div_unique with o; lia).
  unfold user_phys.
  assert (PDX (n * PGSIZE + o) = n / NPTENTRIES ∧ PTX (n * PGSIZE + o) = n mod NPTENTRIES) as [-> ->].
  { destruct (page_entry (n * PGSIZE + o) (n * PGSIZE)) as [-> ->]; [lia|lia| |].
    - by rewrite E, Z.div_mul.
    - by rewrite PDX_vpage, PTX_vpage by lia. }
  assert (PGOFF (n * PGSIZE + o) = o) as ->.
  { rewrite PGOFF_mod, u32_small, Z.add_comm, Z.mod_add by lia. by apply Z.mod_small. }
  rewrite cr3_addr. fold (ent D (n / NPTENTRIES)). unfold vpte, pte_at.
  destruct (table_at (k_mem s) D (n / NPTENTRIES)) as [T|] eqn:HT.
  - pose proof (uv_pde _ _ _ _ H D _ T HD Hd HT) as Hp.
    destruct (wf_tab _ _ _ (vi_wf _ _ _ _ Hi) _ _ _ HD Hd HT) as [HTn _].
    pose proof (ai_max _ _ (vi_alloc _ _ _ _ Hi)).
    rewrite Hp, !tst_mkpte, PTE_ADDR_mkpte by lia. change (tst 7 _) with true. cbn [andb].
    fold (ent T (n mod NPTENTRIES)). set (w := rd32 (k_mem s) (ent T (n mod NPTENTRIES))).
    destruct (frame w) as [P|] eqn:HP.
    + destruct (frame_inv w P (rd32_range _ _) HP) as (-> & -> & _). done.
    + unfold frame in HP. by destruct (tst w PTE_P).
  - unfold table_at, frame in HT. by destruct (tst (rd32 (k_mem s) (ent D (n / NPTENTRIES))) PTE_P).
Qed.

(** The entries themselves, at UVPT. *)
Lemma self_access d : 0 ≤ d < NPDENTRIES → ∀ o, 0 ≤ o < PGSIZE →
  user_phys s false (UVPT + d * PGSIZE + o) =
  let pde := rd32 (k_mem s) (ent D d) in
  if tst pde PTE_P && tst pde PTE_U then Some (PTE_ADDR pde + o) else None.
Proof.
  intros Hd o Ho. pose proof dir_bound.
  assert (PDX (UVPT + d * PGSIZE + o) = 957) as Hx.
  { rewrite PDX_div, u32_small by lia. symmetry. apply Z.div_unique with (d * PGSIZE + o); lia. }
  assert (PTX (UVPT + d * PGSIZE + o) = d) as Ht.
  { rewrite PTX_div, u32_small by lia.
    replace ((UVPT + d * PGSIZE + o) / PGSIZE) with (957 * NPTENTRIES + d)
      by (apply Z.div_unique with o; lia).
    rewrite Z.add_comm, Z.mod_add by lia. apply Z.mod_small. lia. }
  assert (PGOFF (UVPT + d * PGSIZE + o) = o) as Hg.
  { rewrite PGOFF_mod, u32_small by lia. replace (UVPT + d * PGSIZE + o) with (o + (979968 + d) * PGSIZE) by lia.
    rewrite Z.mod_add by lia. by apply Z.mod_small. }
  unfold user_phys. rewrite cr3_addr, Hx, Ht, Hg. fold (ent D 957).
  rewrite (uv_self _ _ _ _ H D HD), !tst_mkpte, PTE_ADDR_mkpte by lia.
  change (tst 5 PTE_P) with true. change (tst 5 PTE_U) with true. cbn [andb negb orb].
  fold (ent D d). cbv zeta. by rewrite andb_true_r.
Qed.

Lemma uvpd_run d : 0 ≤ d < UPDX → uvpd d s = Ok (rd32 (k_mem s) (ent D d)) s.
Proof.
  intros Hd. pose proof dir_bound. unfold uvpd, vld32. mrun.
  change (UVPT / PGSIZE) with 979968.
  replace (u32 (UVPT + 979968 * 4 + 4 * d)) with (UVPT + 957 * PGSIZE + 4 * d)
    by (rewrite u32_small by lia; lia).
  rewrite self_access by lia. cbv zeta. rewrite (uv_self _ _ _ _ H D HD), !tst_mkpte, PTE_ADDR_mkpte by lia. done.
Qed.

(** The directory entry of a page below UTOP is 0 bits or a table's. *)
Lemma pde_present d : 0 ≤ d < UPDX →
  tst (rd32 (k_mem s) (ent D d)) PTE_P = bool_decide (is_Some (table_at (k_mem s) D d)).
Proof.
  intros Hd. unfold table_at, frame. destruct (tst _ PTE_P).
  - by rewrite bool_decide_eq_true_2.
  - by rewrite bool_decide_eq_false_2 by apply is_Some_None.
Qed.

Lemma uvpt_run n : 0 ≤ n < UPN → is_Some (table_at (k_mem s) D (n / NPTENTRIES)) →
  uvpt n s = Ok (vpte (k_mem s) D n) s.
Proof.
  intros Hn [T HT]. pose proof (user_pdx _ Hn) as Hd. pose proof (vpage_ptx n).
  pose proof (uv_inv _ _ _ _ H) as Hi. pose proof (ai_max _ _ (vi_alloc _ _ _ _ Hi)).
  destruct (wf_tab _ _ _ (vi_wf _ _ _ _ Hi) _ _ _ HD Hd HT) as [HTn _].
  unfold uvpt, vld32. mrun. pose proof (Z.div_mod n NPTENTRIES).
  replace (u32 (UVPT + 4 * n)) with (UVPT + n / NPTENTRIES * PGSIZE + 4 * (n mod NPTENTRIES))
    by (rewrite u32_small by lia; lia).
  rewrite self_access by lia. cbv zeta. rewrite (uv_pde _ _ _ _ H D _ T HD Hd HT), !tst_mkpte, PTE_ADDR_mkpte by lia.
  unfold vpte, pte_at. rewrite HT. done.
Qed.
End access.

(** ** The stubs *)

Lemma u_syscall_run num check a1 a2 a3 a4 a5 s r s' :
  syscall num (u32 a1) (u32 a2) (u32 a3) (u32 a4) (u32 a5) s = Ok r s' → r ≤ 0 ∨ check = false →
  u_syscall num check a1 a2 a3 a4 a5 s = Ok r s'.
Proof.
  intros Hs Hr. unfold u_syscall. rewrite (bind_Ok _ _ _ _ _ Hs).
  destruct check; [|done]. destruct Hr; [|done]. by rewrite (proj2 (Z.ltb_ge _ _)).
Qed.

Lemma s32_u32 x : 0 ≤ x < 2 ^ 31 → s32 (u32 x) = x.
Proof. intros. rewrite u32_small, s32_small by lia. done. Qed.

Lemma u_getenvid_run s Ds e v D : running s Ds e v D → u_sys_getenvid s = Ok (env_id v) s.
Proof.
  intros Hr. apply u_syscall_run; [|by right].
  change (syscall SYS_getenvid (u32 0) (u32 0) (u32 0) (u32 0) (u32 0)) with sys_getenvid.
  unfold sys_getenvid. rewrite (bind_Ok _ _ _ _ _ (the_curenv_run s e (ru_cur _ _ _ _ _ Hr))). cbn beta.
  by rewrite (bind_Ok _ _ _ _ _ (env_get_run e s v (ru_env _ _ _ _ _ Hr))).
Qed.

Lemma bad_perm_range perm : bad_perm perm = false → 0 ≤ perm < PGSIZE.
Proof. intros H. apply (good_perm _ H). Qed.

Lemma u_alloc_run s s' envid n perm :
  sys_page_alloc envid (n * PGSIZE) perm s = Ok 0 s' → bad_perm perm = false →
  0 ≤ n < UPN → 0 ≤ envid < 2 ^ 31 → u_sys_page_alloc envid (n * PGSIZE) perm s = Ok 0 s'.
Proof.
  intros Hr Hp Hn He. pose proof (bad_perm_range _ Hp). apply u_syscall_run; [|left; lia].
  change (syscall SYS_page_alloc ?a ?b ?c ?d ?f) with (sys_page_alloc (s32 a) b (s32 c)).
  rewrite !s32_u32, (u32_small (n * PGSIZE)) by lia. exact Hr.
Qed.

Lemma u_map_run s s' src n dst n' perm :
  sys_page_map src (n * PGSIZE) dst (n' * PGSIZE) perm s = Ok 0 s' → bad_perm perm = false →
  0 ≤ n < UPN → 0 ≤ n' < UPN → 0 ≤ src < 2 ^ 31 → 0 ≤ dst < 2 ^ 31 →
  u_sys_page_map src (n * PGSIZE) dst (n' * PGSIZE) perm s = Ok 0 s'.
Proof.
  intros Hr Hp Hn Hn' Hs Hd. pose proof (bad_perm_range _ Hp). apply u_syscall_run; [|left; lia].
  change (syscall SYS_page_map ?a ?b ?c ?d ?f) with (sys_page_map (s32 a) b (s32 c) d (s32 f)).
  rewrite !s32_u32, (u32_small (n * PGSIZE)), (u32_small (n' * PGSIZE)) by lia. exact Hr.
Qed.

Lemma u_unmap_run s s' envid n :
  sys_page_unmap envid (n * PGSIZE) s = Ok 0 s' → 0 ≤ n < UPN → 0 ≤ envid < 2 ^ 31 →
  u_sys_page_unmap envid (n * PGSIZE) s = Ok 0 s'.
Proof.
  intros Hr Hn He. apply u_syscall_run; [|left; lia].
  change (syscall SYS_page_unmap ?a ?b ?c ?d ?f) with (sys_page_unmap (s32 a) b).
  rewrite s32_u32, (u32_small (n * PGSIZE)) by lia. exact Hr.
Qed.

(** ** Copying a page *)

Section copy.
Context (s : kst) (l Ds : list nat) (ex : nat → Z) (e D P Q : nat) (v : Env) (n n' : Z).
Hypothesis H : uvm s l Ds ex.
Hypothesis Hr : running s Ds e v D.
Hypothesis Hn : 0 ≤ n < UPN.
Hypothesis Hn' : 0 ≤ n' < UPN.
Hypothesis HP : frame (vpte (k_mem s) D n) = Some P.
Hypothesis HPu : tst (vpte (k_mem s) D n) PTE_U = true.
Hypothesis HQ : frame (vpte (k_mem s) D n') = Some Q.
Hypothesis HQu : tst (vpte (k_mem s) D n') PTE_U = true.
Hypothesis HQw : tst (vpte (k_mem s) D n') PTE_W = true.
Hypothesis HPQ : P ≠ Q.

Let HD : D ∈ Ds := ru_dir _ _ _ _ _ Hr.

(** The first [k] bytes have been copied. *)
Record copied (k : Z) (m : mem) : Prop := {
  cp_only : only_page Q (k_mem s) m;
  cp_bytes : ∀ i, 0 ≤ i < k → rd8 m (Z.of_nat Q * PGSIZE + i) = rd8 (k_mem s) (Z.of_nat P * PGSIZE + i) }.

Lemma copy_byte k m : copied k m → 0 ≤ k < PGSIZE →
  ∃ m', (w ← vld8 (u32 (n * PGSIZE + k)); vst8 (u32 (n' * PGSIZE + k)) w) (with_mem m s)
    = Ok tt (with_mem m' s) ∧ copied (k + 1) m'.
Proof.
  intros [Ho Hb] Hk. pose proof (uv_map _ _ _ _ H D n' Q HD Hn' HQ) as HQd.
  pose proof (uvm_poke s l Ds ex Q m H HQd Ho) as Hu.
  assert (Hv : ∀ i, 0 ≤ i < UPN → vpte m D i = vpte (k_mem s) D i).
  { intros i Hi. by apply (vpte_poke s l Ds Q m HQd Ho). }
  assert (Hru : running (with_mem m s) Ds e v D) by (destruct Hr; by constructor).
  set (x := rd8 m (Z.of_nat P * PGSIZE + k)).
  exists (wr8 m (Z.of_nat Q * PGSIZE + k) x). split.
  - rewrite !u32_small by lia. unfold vld8, vst8. rewrite bind_assoc, bind_get.
    rewrite (user_phys_page _ l Ds ex e D v Hu Hru false n k Hn Hk).
    change (k_mem (with_mem m s)) with m. rewrite Hv, HP, HPu by done. cbn [negb andb orb]. mrun.
    rewrite (user_phys_page _ l Ds ex e D v Hu Hru true n' k Hn' Hk).
    change (k_mem (with_mem m s)) with m. rewrite Hv, HQ, HQu, HQw by done. done.
  - constructor.
    + intros q Hq i Hi. rewrite rd8_wr8_ne by lia. by apply Ho.
    + intros i Hi. rewrite rd8_wr8. destruct (Z.eqb_spec (Z.of_nat Q * PGSIZE + i) (Z.of_nat Q * PGSIZE + k)).
      * replace i with k by lia. unfold x. rewrite u8_small by apply rd8_range. by apply (Ho P HPQ).
      * apply Hb. lia.
Qed.

Lemma copy_loop (c : nat) : ∀ k m, copied k m → 0 ≤ k → k + Z.of_nat c = PGSIZE →
  ∃ m', mfor (seqZ k (Z.of_nat c)) (λ i, w ← vld8 (u32 (n * PGSIZE + i)); vst8 (u32 (n' * PGSIZE + i)) w)
    (with_mem m s) = Ok tt (with_mem m' s) ∧ copied PGSIZE m'.
Proof.
  induction c as [|c IH]; intros k m Hm Hk Hc.
  - exists m. rewrite seqZ_nil by lia. split; [done|]. by replace PGSIZE with k by lia.
  - rewrite seqZ_cons by lia. cbn [mfor].
    destruct (copy_byte k m Hm ltac:(lia)) as (m1 & Hr1 & Hm1).
    destruct (IH (k + 1) m1 Hm1 ltac:(lia) ltac:(lia)) as (m2 & Hr2 & Hm2).
    exists m2. rewrite (bind_Ok _ _ _ _ _ Hr1).
    replace (Z.pred (Z.of_nat (S c))) with (Z.of_nat c) by lia. replace (Z.succ k) with (k + 1) by lia.
    by split.
Qed.

Lemma vmemmove_page :
  ∃ m, vmemmove (n' * PGSIZE) (n * PGSIZE) PGSIZE s = Ok tt (with_mem m s) ∧ copied PGSIZE m.
Proof.
  destruct (copy_loop (Z.to_nat PGSIZE) 0 (k_mem s)) as (m & Hm & Hc); [constructor; [done|lia]|lia|lia|].
  exists m. split; [|done]. unfold vmemmove. rewrite Z2Nat.id in Hm by lia.
  by replace (with_mem (k_mem s) s) with s in Hm by (by destruct s).
Qed.
End copy.

(* ------------------------------------------------------------------ *)
(** ** An example *)

(** A running environment with an empty address space in page 1, the
    kernel's directory in page 5, six free pages and, in the last slot, a
    free environment.  Page 4 holds the word 1. *)
Definition demo_space_env : Env := set_env_status ENV_RUNNING (demo_env 1).
Definition demo_space_mem : mem :=
  wr32 (wr32 (λ _, 0) (ent 4 0) 1) (ent 1 957) (mkpte 1 5).
Definition demo_space_free : list nat := [2; 3; 6; 7; 8; 9]%nat.
Definition demo_space_alloc : kst :=
  foldr after_free
    (with_pages (<[5%nat := mkPage None 1]> (<[1%nat := mkPage None 1]> (replicate 16 (mkPage None 0))))
      (demo_kernel 16 10 49152))
    demo_space_free.
Definition demo_space_envs : list Env :=
  demo_space_env :: replicate (Z.to_nat 1022) (set_env_id 0 (demo_env 1)) ++ [demo_free_env].
Definition demo_space : kst :=
  with_cpus [mkCpu 0 CPU_STARTED (Some 0%nat) (mkTs 0 0 0)]
    (with_env_free_list (Some (Z.to_nat 1023))
      (with_envs demo_space_envs (with_kern_pgdir (kva_of 5) (with_mem demo_space_mem demo_space_alloc)))).

Lemma demo_space_rd p i : 0 ≤ i < 1024 → rd32 demo_space_mem (ent p i) =
  if bool_decide (p = 1%nat ∧ i = 957) then mkpte 1 5 else zb (bool_decide (p = 4%nat ∧ i = 0)).
Proof.
  intros Hi. unfold demo_space_mem. rewrite !rd32_wr_ent by lia. case_bool_decide; [done|].
  by case_bool_decide.
Qed.

Lemma demo_space_table d : 0 ≤ d < UPDX → table_at demo_space_mem 1 d = None.
Proof.
  intros Hd. unfold table_at. rewrite demo_space_rd by lia.
  rewrite bool_decide_eq_false_2 by lia. by rewrite bool_decide_eq_false_2 by lia.
Qed.

Definition demo_space_ex (q : nat) : Z := zb (bool_decide (5%nat = q)).

Lemma demo_space_alloc_inv : alloc_inv demo_space_alloc demo_space_free.
Proof.
  unfold demo_space_alloc, demo_space_free. cbn [foldr].
  repeat (apply alloc_inv_after_free; [|rewrite ?elem_of_cons, elem_of_nil; lia|done]).
  apply (alloc_inv_set_ref (with_pages (<[1%nat := mkPage None 1]> (replicate 16 (mkPage None 0)))
           (demo_kernel 16 10 49152))); [|apply not_elem_of_nil|lia].
  apply (alloc_inv_set_ref (demo_kernel 16 10 49152)); [by apply demo_alloc_inv|apply not_elem_of_nil|lia].
Qed.

Lemma demo_space_ref q p : k_pages demo_space !! q = Some p →
  pp_ref p = zb (bool_decide (1%nat = q)) + demo_space_ex q.
Proof.
  intros Hq. destruct (decide (q < 16)%nat) as [Hlt|Hge].
  - do 16 (destruct q as [|q]; [injection Hq as <-; reflexivity|]). lia.
  - apply lookup_lt_Some in Hq. cbn in Hq. lia.
Qed.

Lemma demo_space_uvm : uvm demo_space demo_space_free [1%nat] demo_space_ex.
Proof.
  pose proof demo_space_table as HT.
  constructor.
  - constructor.
    + by apply (alloc_inv_ext demo_space_alloc), demo_space_alloc_inv.
    + constructor; change (k_mem demo_space) with demo_space_mem.
      * apply NoDup_singleton.
      * intros D ->%list_elem_of_singleton. done.
      * intros D d T ->%list_elem_of_singleton Hd. by rewrite HT.
      * intros D D' d d' T ->%list_elem_of_singleton _ Hd _. by rewrite HT.
      * intros D d t P ->%list_elem_of_singleton Hd Ht. unfold pte_at. by rewrite HT.
    + intros q p Hq. rewrite (demo_space_ref q p Hq). f_equal. change (k_mem demo_space) with demo_space_mem.
      unfold uses. cbn [zsum foldr]. unfold dir_uses. rewrite (zsum_ext _ (λ _, 0)), zsum_zero; [lia|].
      intros d Hd%elem_of_seqZ. unfold slot_uses. by rewrite HT by lia.
    + intros q. apply zb_range.
  - intros D d T ->%list_elem_of_singleton Hd. change (k_mem demo_space) with demo_space_mem. by rewrite HT.
  - intros D ->%list_elem_of_singleton. change (k_mem demo_space) with demo_space_mem.
    by rewrite demo_space_rd by lia.
  - intros D n P ->%list_elem_of_singleton Hn. change (k_mem demo_space) with demo_space_mem.
    unfold vpte, pte_at. by rewrite HT by (by apply user_pdx).
  - exists demo_space_env. reflexivity.
Qed.

Lemma demo_space_running : running demo_space [1%nat] 0 demo_space_env 1.
Proof. constructor; try reflexivity; [by apply list_elem_of_singleton|done|by split]. Qed.

(** Page 4 mapped at page number [n]; in particular at 0x801000. *)
Definition demo_space_at (n perm : Z) : kst :=
  match page_insert (kva_of 1) 4 (n * PGSIZE) perm demo_space with Ok _ s => s | _ => demo_space end.
Definition demo_space_map (perm : Z) : kst := demo_space_at 2049 perm.

Lemma demo_space_at_ok n perm : 0 ≤ n < UPN → 0 ≤ perm < PGSIZE → ∃ l,
  remap [1%nat] demo_space_ex 1 demo_space demo_space_free 1 n (mkpte 4 (Z.lor PTE_P perm))
    (demo_space_at n perm) l.
Proof.
  intros Hn Hp. assert (H1 : 1%nat ∈ [1%nat]) by (by apply list_elem_of_singleton).
  assert (Hd : data_page demo_space demo_space_free [1%nat] 4).
  { split_and!; [|by intros ?%list_elem_of_singleton|].
    - unfold demo_space_free. rewrite !elem_of_cons, elem_of_nil. lia.
    - intros D d ->%list_elem_of_singleton Hd. change (k_mem demo_space) with demo_space_mem.
      by rewrite demo_space_table. }
  destruct (insert_remap demo_space demo_space_free [1%nat] demo_space_ex 1 n 4 (mkPage None 0) perm
    demo_space_uvm H1 Hn Hp Hd eq_refl ltac:(cbn; lia)) as (s' & l' & R & M); [by right|].
  exists l'. unfold demo_space_at. rewrite R. revert M. unfold need_table. change (k_mem demo_space) with demo_space_mem.
  by rewrite demo_space_table by (by apply user_pdx).
Qed.

Lemma demo_space_map_ok perm : 0 ≤ perm < PGSIZE → ∃ l,
  remap [1%nat] demo_space_ex 1 demo_space demo_space_free 1 2049 (mkpte 4 (Z.lor PTE_P perm))
    (demo_space_map perm) l.
Proof. apply demo_space_at_ok. lia. Qed.
