(* ===== verification/Ipc.v ===== *)
(** Messages between environments: lib/ipc.c.

    sys_ipc_recv and sys_yield give up the CPU.  What the rest of the system
    does until the kernel runs the caller again is a parameter, [resume]: from
    the state in which the caller has lost the CPU it leads to the one in
    which it is back, with the value of eax that its trap frame has then. *)

From S2P Require Import Prelude Mmu Printfmt Console KState Pmap PageTable Env EnvFree Sched Syscall UserVm ULib.
From Stdlib Require Import ZArith Lia String.
From stdpp Require Import base tactics numbers list.
Open Scope Z_scope.

Section ipc.
Context (resume : K Z).

(** The way into the kernel (trap takes the kernel lock) and back. *)
Definition blocking (call : K Z) : K Z := λ s,
  match (lock_kernel;; call) s with
  | Ok r s' => (unlock_kernel;; mret r) s'
  | Noret (ToUser _) s' | Noret HaltCPU s' => resume s'
  | r => r
  end.
Definition b_syscall (num : Z) (check : bool) (a1 : Z) : K Z :=
  ret ← blocking (syscall num (u32 a1) 0 0 0 0);
  if check && (0 <? ret) then mpanic "syscall %d returned %d (> 0)" else mret ret.

(** thisenv points to the caller's slot. *)
Definition thisenv : K Env := c ← the_curenv; env_get c.
(** *p = v, if p *)
Definition store_if (p v : Z) : K unit := mwhen (negb (p =? 0)) (vst32 p (u32 v)).

Definition ipc_recv (from_env_store pg perm_store : Z) : K Z :=
  Ecode ← b_syscall SYS_ipc_recv true (if negb (pg =? 0) then pg else UTOP);
  if Ecode <? 0 then
    store_if from_env_store 0;;
    store_if perm_store 0;;
    mret Ecode
  else
    e ← thisenv;
    store_if from_env_store (env_ipc_from e);;
    e ← thisenv;
    store_if perm_store (if pg <? UTOP then env_ipc_perm e else 0);;
    e ← thisenv;
    mret (s32 (env_ipc_value e)).

(** [fuel] bounds the attempts; the source goes on for ever. *)
Fixpoint ipc_send (fuel : nat) (to_env val pg perm : Z) : K unit :=
  match fuel with
  | O => mleave Spinning
  | S fuel =>
      Ecode ← u_sys_ipc_try_send to_env val (if negb (pg =? 0) then pg else UTOP) perm;
      if Ecode =? 0 then mret tt
      else if Ecode =? - E_IPC_NOT_RECV then b_syscall SYS_yield false 0;; ipc_send fuel to_env val pg perm
      else mpanic "sys_ipc_try_send error: in ipc_send()"
  end.
End ipc.

(** envs[i] through the kernel's mapping at UENVS. *)
Fixpoint ipc_find_from (ixs : list nat) (type : Z) : K Z :=
  match ixs with
  | [] => mret 0
  | i :: ixs => e ← env_get i; if env_type e =? type then mret (env_id e) else ipc_find_from ixs type
  end.
Definition ipc_find_env (type : Z) : K Z := ipc_find_from (seq 0 (Z.to_nat NENV)) type.

(** ** A message *)

Section message.
Context (s : kst) (c i : nat) (vc vi : Env).
Hypothesis Hlock : k_lock s = None.
Hypothesis Hok : sched_ok (with_lock (Some (k_cpunum s)) s).
Hypothesis Hc : curenv_of s = Some c.
Hypothesis Hlt : (c < Z.to_nat (NENV - 1))%nat.
Hypothesis Hvc : k_envs s !! c = Some vc.
Hypothesis Hvi : k_envs s !! i = Some vi.
Hypothesis Hnext : List.find (runnable (k_envs s)) (round_robin c) = Some i.

(** Receiving gives the CPU to the next environment. *)
Lemma recv_switches dstva : 0 ≤ dstva < 2 ^ 32 → UTOP ≤ dstva ∨ dstva mod PGSIZE = 0 →
  ∃ s1 v1, (∀ resume, b_syscall resume SYS_ipc_recv true dstva s =
      (ret ← resume; if 0 <? ret then mpanic "syscall %d returned %d (> 0)" else mret ret) s1) ∧
    curenv_of s1 = Some i ∧ k_lock s1 = None ∧
    k_envs s1 !! c = Some (set_env_status ENV_RUNNABLE (waiting dstva vc)) ∧
    k_envs s1 !! i = Some v1 ∧ env_id v1 = env_id vi.
Proof.
  intros Hr Hd.
  destruct (sys_ipc_recv_run (with_lock (Some (k_cpunum s)) s) c vc dstva i Hok Hc Hlt Hvc Hd Hnext) as (Hi & D & Hrecv).
  eexists _, _. split; [|split_and!].
  - intros resume. unfold b_syscall, blocking. unfold mbind at 1, M_bind at 1.
    unfold lock_kernel at 1. rewrite bind_assoc, bind_get, Hlock.
    rewrite bind_put. change (syscall SYS_ipc_recv ?a 0 0 0 0) with (sys_ipc_recv a).
    rewrite u32_small by done. rewrite Hrecv. cbv iota. reflexivity.
  - unfold curenv_of. cbn. destruct (so_cpu _ Hok) as [cpu Hcpu]. cbn in Hcpu. by rewrite list_lookup_alter_eq, Hcpu.
  - done.
  - apply after_run_left; [exact Hc| |done]. apply list_lookup_insert_eq. by eapply lookup_lt_Some.
  - change (k_envs (after_run i D ?x)) with (run_envs (curenv_of x) i (k_cpunum x) (k_envs x)).
    unfold run_envs, set_status_at.
    change (curenv_of (with_envs ?x ?y)) with (curenv_of y). change (curenv_of (with_lock ?x ?y)) with (curenv_of y).
    rewrite Hc, list_lookup_alter_eq, list_lookup_alter_ne by done. cbn.
    rewrite list_lookup_insert_ne, Hvi by done. reflexivity.
  - reflexivity.
Qed.
End message.

Lemma envid2env_named s e v : k_envs s !! e = Some v → env_status v ≠ ENV_FREE → id_ok e (env_id v) →
  envid2env (env_id v) false s = Ok (0, Some e) s.
Proof.
  intros He Hs [Hpos Hx]. unfold envid2env, curenv. mrun. rewrite (proj2 (Z.eqb_neq _ _)) by lia.
  rewrite ENVX_mod, Hx, Nat2Z.id. mcall env_get_run.
  rewrite (proj2 (Z.eqb_neq _ _)) by done. by rewrite Z.eqb_refl.
Qed.

(** A send without a page to a receiver that waits. *)
Lemma ipc_send_run resume fuel s c i vc vi val perm :
  curenv_of s = Some i → k_envs s !! i = Some vi → k_envs s !! c = Some vc →
  env_ipc_recving vc = true → env_status vc ≠ ENV_FREE → id_ok c (env_id vc) → 0 ≤ val < 2 ^ 32 →
  ipc_send resume (S fuel) (env_id vc) val 0 perm s =
  Ok tt (with_envs (<[c := delivered (env_id vi) val 0 vc]> (k_envs s)) s).
Proof.
  intros Hi Hvi Hvc Hr Hs Hid Hval. cbn [ipc_send Z.eqb negb].
  assert (Hsend : u_sys_ipc_try_send (env_id vc) val UTOP perm s =
    Ok 0 (with_envs (<[c := delivered (env_id vi) val 0 vc]> (k_envs s)) s)).
  { apply u_syscall_run; [|left; lia].
    change (syscall SYS_ipc_try_send ?a ?b ?c ?d ?e) with (sys_ipc_try_send (s32 a) b c d).
    destruct Hid as [Hpos Hx]. rewrite s32_u32, (u32_small val), (u32_small UTOP) by lia.
    unfold sys_ipc_try_send. mcall (envid2env_named s c vc Hvc Hs (conj Hpos Hx)). change (0 <? 0) with false.
    cbv iota. cbn [mderef]. mrun. mcall env_get_run. rewrite Hr. cbn [negb].
    assert (Hpage : ipc_send_page c UTOP (u32 perm) s = Ok (inr 0) s) by done.
    mcall Hpage. by erewrite deliver_run. }
  by mcall Hsend.
Qed.


(** Back on the CPU without anything else happening. *)
Definition demo_back : K Z := λ s,
  match k_envs s !! 0%nat with
  | Some v => Ok (reg_eax (tf_regs (env_tf v))) (with_cpus (alter (set_cpu_env (Some 0%nat)) (k_cpunum s) (k_cpus s)) s)
  | None => Undef
  end.
Definition demo_user : kst := with_lock None demo_sched.


(** What becomes of the receiver when it is run again before a message is
    there, which the kernel allows (sys_ipc_recv_not_blocked in Syscall.v):
    its eax still holds the number of the system call, and the stub panics. *)
Theorem ipc_recv_woken_early s c i vc vi :
  k_lock s = None → sched_ok (with_lock (Some (k_cpunum s)) s) →
  curenv_of s = Some c → (c < Z.to_nat (NENV - 1))%nat →
  k_envs s !! c = Some vc → k_envs s !! i = Some vi →
  reg_eax (tf_regs (env_tf vc)) = SYS_ipc_recv →
  List.find (runnable (k_envs s)) (round_robin c) = Some i →
  ∃ s1 v1, k_envs s1 !! c = Some v1 ∧ env_status v1 = ENV_RUNNABLE ∧ env_ipc_recving v1 = true ∧
    ∀ (resume : K Z) s2, resume s1 = Ok (reg_eax (tf_regs (env_tf v1))) s2 →
      ipc_recv resume 0 0 0 s = Panic "syscall %d returned %d (> 0)".
Proof.
  intros Hlock Hok Hc Hlt Hvc Hvi Hax Hnext.
  destruct (recv_switches s c i vc vi Hlock Hok Hc Hlt Hvc Hvi Hnext UTOP ltac:(lia) ltac:(lia))
    as (s1 & v1 & Hrecv & _ & _ & Hvc1 & _).
  eexists s1, _. split; [exact Hvc1|]. split_and!; [done..|].
  intros resume s2 Hres. unfold ipc_recv. cbn [Z.eqb negb]. unfold mbind at 1, M_bind at 1. rewrite Hrecv.
  change (reg_eax (tf_regs (env_tf (set_env_status ENV_RUNNABLE (waiting UTOP vc)))))
    with (reg_eax (tf_regs (env_tf vc))) in Hres. rewrite Hax in Hres.
  by rewrite (bind_Ok _ _ _ _ _ Hres).
Qed.

(** ipc_find_env: the id of the first slot of the type, or 0. *)
Theorem ipc_find_env_spec s type : length (k_envs s) = Z.to_nat NENV →
  ipc_find_env type s =
  Ok (match List.find (λ v, env_type v =? type) (k_envs s) with Some v => env_id v | None => 0 end) s.
Proof.
  intros Hlen. unfold ipc_find_env. rewrite <- Hlen.
  assert (∀ l n, (∀ j v, l !! j = Some v → k_envs s !! (n + j)%nat = Some v) →
    ipc_find_from (seq n (length l)) type s =
    Ok (match List.find (λ v, env_type v =? type) l with Some v => env_id v | None => 0 end) s) as Hgo.
  { intros l. induction l as [|v l IH]; intros n Hl; [done|]. cbn [length seq ipc_find_from List.find].
    mcall (env_get_run n s v ltac:(rewrite <- (Nat.add_0_r n); by apply Hl)).
    destruct (env_type v =? type); [done|]. apply IH. intros j w Hj.
    rewrite Nat.add_succ_comm. by apply (Hl (S j)). }
  by apply Hgo.
Qed.
