(* ===== verification/Fork.v ===== *)
(** User-level fork with copy-on-write: lib/fork.c and lib/pgfault.c, run
    by an environment on top of the kernel's system calls.

    The address of the variable _pgfault_handler, of the variable thisenv,
    of the function pgfault and of the label _pgfault_upcall are parameters
    (the linker chooses them). *)

From S2P Require Import Prelude Mmu Printfmt Console KState Pmap PageTable Env Sched Syscall UserVm ULib.
From Stdlib Require Import ZArith Lia String.
From stdpp Require Import base tactics numbers list.
Open Scope Z_scope.

(** ** lib/fork.c: pgfault *)

Abbreviation PTE_PUW := 7 (only parsing).  (* PTE_P | PTE_U | PTE_W *)

Definition pgfault (fault_va err : Z) : K unit :=
  let addr := ROUNDDOWN fault_va PGSIZE in
  pte ← uvpt (PGNUM addr);
  if negb (tst pte PTE_COW) || negb (tst err FEC_WR) then mpanic "pgfault error"
  else
    curenvid ← u_sys_getenvid;
    Ecode ← u_sys_page_alloc curenvid PFTEMP PTE_PUW;
    if negb (Ecode =? 0) then mpanic "sys_page_alloc error" else
    vmemmove PFTEMP addr PGSIZE;;
    Ecode ← u_sys_page_map curenvid PFTEMP curenvid addr PTE_PUW;
    if negb (Ecode =? 0) then mpanic "sys_page_map error" else
    Ecode ← u_sys_page_unmap curenvid PFTEMP;
    if negb (Ecode =? 0) then mpanic "sys_page_unmap error" else mret tt.

(** A store by a program whose page fault handler is pgfault: if it faults
    the handler runs and the instruction is executed again. *)
Definition cow_st32 (va v : Z) : K unit :=
  s ← mget;
  match user_phys s true va with
  | Some _ => vst32 va v
  | None => pgfault va (Z.lor FEC_U FEC_WR);; vst32 va v
  end.
Definition cow_st8 (va v : Z) : K unit :=
  s ← mget;
  match user_phys s true va with
  | Some _ => vst8 va v
  | None => pgfault va (Z.lor FEC_U FEC_WR);; vst8 va v
  end.

(** ** lib/pgfault.c *)

Definition set_pgfault_handler (handler_va upcall handler : Z) : K unit :=
  h ← vld32 handler_va;
  mwhen (h =? 0)
    (curenv_id ← u_sys_getenvid;
     Ecode ← u_sys_page_alloc curenv_id (UXSTACKTOP - PGSIZE) PTE_PUW;
     if negb (Ecode =? 0) then mpanic "sys_page_alloc error!" else
     Ecode ← u_sys_env_set_pgfault_upcall curenv_id upcall;
     if negb (Ecode =? 0) then mpanic "sys_env_set_pgfault_upcall error!" else mret tt);;
  cow_st32 handler_va handler.

(** ** lib/fork.c: duppage and fork *)

Definition duppage (envid pn : Z) : K Z :=
  curenvid ← u_sys_getenvid;
  let addr := u32 (pn * PGSIZE) in
  pte ← uvpt pn;
  (if tst pte PTE_W || tst pte PTE_COW then
     Ecode ← u_sys_page_map curenvid addr envid addr (Z.lor (Z.lor PTE_U PTE_P) PTE_COW);
     if negb (Ecode =? 0) then mpanic "sys_page_map error" else
     Ecode ← u_sys_page_map curenvid addr curenvid addr (Z.lor (Z.lor PTE_U PTE_P) PTE_COW);
     if negb (Ecode =? 0) then mpanic "sys_page_map error" else mret tt
   else
     Ecode ← u_sys_page_map curenvid addr envid addr (Z.lor PTE_U PTE_P);
     if negb (Ecode =? 0) then mpanic "sys_page_map error" else mret tt);;
  pte ← uvpt pn;
  if tst pte PTE_SHARE then
    pte ← uvpt pn;
    Ecode ← u_sys_page_map 0 addr envid addr (Z.land pte PTE_SYSCALL);
    if negb (Ecode =? 0) then mret Ecode else mret 0
  else mret 0.

(** The body of fork's inner loop. *)
Definition dup_pte (new_env_id pn : Z) : K unit :=
  pte ← uvpt pn;
  mwhen (tst pte PTE_P && tst pte PTE_U)
    (Ecode ← duppage new_env_id pn;
     if negb (Ecode =? 0) then mpanic "duppage error" else mret tt).

(** Its outer loop, from page [pn] on. *)
Fixpoint fork_loop (fuel : nat) (new_env_id pn : Z) : K unit :=
  if PGNUM UTOP - 1 <=? pn then mret tt
  else match fuel with
  | O => mleave Spinning
  | S fuel =>
      pde ← uvpd (pn / NPDENTRIES);
      if negb (tst pde PTE_P) then fork_loop fuel new_env_id (pn + NPDENTRIES)
      else
        let next_pde := Z.min (pn + NPDENTRIES) (PGNUM UTOP - 1) in
        mfor (seqZ pn (next_pde - pn)) (dup_pte new_env_id);;
        fork_loop fuel new_env_id next_pde
  end.

(** One round of the outer loop for each of the 955 tables below UTOP. *)
Abbreviation FORK_FUEL := (Z.to_nat 955) (only parsing).

(** fork from the return of sys_exofork on, in parent and child. *)
Definition fork_rest (thisenv_va upcall new_env_id : Z) : K Z :=
  (if 0 <? new_env_id then
     fork_loop FORK_FUEL new_env_id 0;;
     Ecode ← u_sys_page_alloc new_env_id (UXSTACKTOP - PGSIZE) PTE_PUW;
     if negb (Ecode =? 0) then mpanic "sys_page_alloc error!" else
     Ecode ← u_sys_env_set_pgfault_upcall new_env_id upcall;
     if negb (Ecode =? 0) then mpanic "sys_env_set_pgfault_upcall error!" else
     Ecode ← u_sys_env_set_status new_env_id ENV_RUNNABLE;
     if negb (Ecode =? 0) then mpanic "sys_env_set_status error!" else mret tt
   else if new_env_id =? 0 then
     id ← u_sys_getenvid;
     cow_st32 thisenv_va (UENVS + 124 * ENVX id)
   else mpanic "fork error");;
  mret new_env_id.

Definition fork (handler_va thisenv_va pgfault_addr upcall : Z) : K Z :=
  set_pgfault_handler handler_va upcall pgfault_addr;;
  new_env_id ← u_sys_exofork;
  fork_rest thisenv_va upcall new_env_id.

Definition sfork : K Z := mpanic "sfork not implemented".

(* ------------------------------------------------------------------ *)
(** ** pgfault gives the faulting page a private copy *)

Abbreviation PFTEMPN := 2047 (only parsing).  (* PGNUM(PFTEMP) *)
Abbreviation XSTACKN := 977919 (only parsing).  (* PGNUM(UXSTACKTOP - PGSIZE) *)

Lemma frame_table m D n P : frame (vpte m D n) = Some P → is_Some (table_at m D (n / NPTENTRIES)).
Proof. unfold vpte, pte_at. by destruct (table_at m D (n / NPTENTRIES)). Qed.

Lemma page_addr va : 0 ≤ va < UTOP →
  ROUNDDOWN va PGSIZE = va / PGSIZE * PGSIZE ∧ PGNUM (va / PGSIZE * PGSIZE) = va / PGSIZE ∧
  0 ≤ va / PGSIZE < UPN.
Proof.
  intros Hva. assert (0 ≤ va / PGSIZE < UPN)
    by (split; [apply Z.div_pos; lia|apply Z.div_lt_upper_bound; lia]).
  split_and!; [apply ROUNDDOWN_page; lia| |lia|lia].
  rewrite PGNUM_div, u32_small by lia. by rewrite Z.div_mul by lia.
Qed.

(** The mappings after the fault on page [n]: [Q] in place of the shared
    page, and nothing at PFTEMP. *)
Definition after_fault (D Q : nat) (n : Z) (old : nat → Z → Z) (D' : nat) (n' : Z) : Z :=
  if bool_decide (D' = D ∧ n' = n) then mkpte Q 7
  else if bool_decide (D' = D ∧ n' = PFTEMPN) then 0 else old D' n'.

Lemma free_small s Q l Ds ex : uvm s (Q :: l) Ds ex → Z.of_nat Q < 65536.
Proof.
  intros H. pose proof (ai_bound _ _ Q (vi_alloc _ _ _ _ (uv_inv _ _ _ _ H)) ltac:(left)).
  pose proof (ai_max _ _ (vi_alloc _ _ _ _ (uv_inv _ _ _ _ H))). lia.
Qed.

Section fault.
Context (s : kst) (Q : nat) (l Ds : list nat) (ex : nat → Z) (e D P : nat) (v : Env) (va err : Z).
Let n := va / PGSIZE.
Hypothesis H : uvm s (Q :: l) Ds ex.
Hypothesis Hr : running s Ds e v D.
Hypothesis Hva : 0 ≤ va < UTOP.
Hypothesis Hne : n ≠ PFTEMPN.
Hypothesis HP : frame (vpte (k_mem s) D n) = Some P.
Hypothesis HU : tst (vpte (k_mem s) D n) PTE_U = true.
Hypothesis Hroom : is_Some (table_at (k_mem s) D 1) ∨ l ≠ [].

Lemma fault_page : 0 ≤ n < UPN.
Proof. by apply page_addr. Qed.
Lemma fault_dir : D ∈ Ds.
Proof. apply (ru_dir _ _ _ _ _ Hr). Qed.

(** The page copied to PFTEMP. *)
Record copied_in (s2 : kst) (l2 : list nat) : Prop := {
  ci_uvm : uvm s2 l2 Ds ex;
  ci_frame : vm_frame s s2;
  ci_pte : ∀ D' n', D' ∈ Ds → 0 ≤ n' < UPN → vpte (k_mem s2) D' n' =
    if bool_decide (D' = D ∧ n' = PFTEMPN) then mkpte Q 7 else vpte (k_mem s) D' n';
  ci_bytes : ∀ i, 0 ≤ i < PGSIZE →
    rd8 (k_mem s2) (Z.of_nat Q * PGSIZE + i) = rd8 (k_mem s) (Z.of_nat P * PGSIZE + i);
  ci_data : ∀ q, data_page s (Q :: l) Ds q → page_same q (k_mem s) (k_mem s2);
  ci_tab : ∀ D' d T, D' ∈ Ds → 0 ≤ d < UPDX →
    table_at (k_mem s) D' d = Some T → table_at (k_mem s2) D' d = Some T;
  ci_ref : ∃ p, k_pages s2 !! Q = Some p ∧ pp_ref p ≤ 1 }.

Lemma copy_in : ∃ s1 s2 l2, u_sys_page_alloc (env_id v) PFTEMP PTE_PUW s = Ok 0 s1 ∧
  vmemmove PFTEMP (n * PGSIZE) PGSIZE s1 = Ok tt s2 ∧ copied_in s2 l2.
Proof.
  pose proof fault_page as Hn. pose proof fault_dir as HD. pose proof (free_small _ _ _ _ _ H) as HQ.
  destruct (running_target _ _ _ _ _ Hr) as [_ Ht]. destruct (ru_id _ _ _ _ _ Hr) as [Hid _].
  pose proof (uv_map _ _ _ _ H D n P HD Hn HP) as HPd.
  assert (HPQ : P ≠ Q) by (intros ->; apply (proj1 HPd); left).
  destruct (alloc_remap s Q l Ds ex (env_id v) D PFTEMPN 7 H Ht ltac:(lia) eq_refl Hroom)
    as (s1 & l1 & R1 & [U1 F1 V1 D1 T1 _ _ _] & _ & Hp1).
  change (Z.lor PTE_P 7) with 7 in V1.
  pose proof (running_frame _ _ _ _ _ _ F1 Hr) as Hr1.
  assert (V1n : vpte (k_mem s1) D n = vpte (k_mem s) D n).
  { rewrite V1 by done. by rewrite bool_decide_eq_false_2 by (by intros [_ ?]). }
  assert (V1t : vpte (k_mem s1) D PFTEMPN = mkpte Q 7).
  { rewrite V1 by (done || lia). by rewrite bool_decide_eq_true_2. }
  assert (HQf : frame (vpte (k_mem s1) D PFTEMPN) = Some Q) by (rewrite V1t; apply frame_mkpte; done || lia).
  destruct (vmemmove_page s1 l1 Ds ex e D P Q v n PFTEMPN U1 Hr1 Hn ltac:(lia))
    as (m & R2 & [Ho Hb]); rewrite ?V1n, ?V1t, ?tst_mkpte; try done.
  { rewrite <- V1t. exact HQf. }
  pose proof (uv_map _ _ _ _ U1 D PFTEMPN Q HD ltac:(lia) HQf) as HQd.
  exists s1, (with_mem m s1), l1. split; [|split]; [apply (u_alloc_run _ _ _ PFTEMPN); [exact R1|done|lia|lia]|exact R2|].
  constructor.
  - by apply (uvm_poke _ _ _ _ Q).
  - eapply vm_frame_trans; [exact F1|apply vm_frame_mem].
  - intros D' n' HD' Hn'. cbn. rewrite (vpte_poke s1 l1 Ds Q m HQd Ho) by done. by apply V1.
  - intros i Hi. cbn. rewrite Hb by done. by apply (D1 P HPd).
  - intros q Hq. eapply page_same_trans; [by apply D1|]. apply Ho. intros ->. apply (proj1 Hq). left.
  - intros D' d T HD' Hd HT. cbn. rewrite (poke_table s1 l1 Ds Q m HQd Ho) by done. by apply T1.
  - exact Hp1.
Qed.

(** The copy moved from PFTEMP to its place. *)
Lemma move_in s2 l2 : copied_in s2 l2 →
  ∃ s3 s4 l4, u_sys_page_map (env_id v) PFTEMP (env_id v) (n * PGSIZE) PTE_PUW s2 = Ok 0 s3 ∧
    u_sys_page_unmap (env_id v) PFTEMP s3 = Ok 0 s4 ∧ uvm s4 l4 Ds ex ∧ vm_frame s2 s4 ∧
    (∀ D' n', D' ∈ Ds → 0 ≤ n' < UPN →
       vpte (k_mem s4) D' n' = after_fault D Q n (vpte (k_mem s2)) D' n') ∧
    (∀ D' n' P', D' ∈ Ds → 0 ≤ n' < UPN → ¬ (D' = D ∧ n' = n) →
       frame (vpte (k_mem s2) D' n') = Some P' → page_same P' (k_mem s2) (k_mem s4)).
Proof.
  pose proof fault_page as Hn. pose proof fault_dir as HD. pose proof (free_small _ _ _ _ _ H) as HQ.
  intros [U2 F2 V2 _ _ T2 (p & Hp & Hp1)]. destruct (ru_id _ _ _ _ _ Hr) as [Hid _].
  pose proof (target_frame _ _ _ _ _ F2 (proj2 (running_target _ _ _ _ _ Hr))) as Ht2.
  assert (HQf : frame (vpte (k_mem s2) D PFTEMPN) = Some Q).
  { rewrite V2, bool_decide_eq_true_2 by (done || lia). apply frame_mkpte; done || lia. }
  destruct (map_remap s2 l2 Ds ex (env_id v) D PFTEMPN Q p (env_id v) D n 7 U2 Ht2 Ht2 ltac:(lia) Hn
    eq_refl HQf Hp ltac:(lia)) as (s3 & l3 & R3 & [U3 F3 V3 D3 _ _ _ _]).
  { left. destruct (frame_table _ _ _ _ HP) as [T HT]. exists T. by apply T2, HT; [|apply user_pdx]. }
  change (Z.lor PTE_P 7) with 7 in V3.
  assert (HQ3 : frame (vpte (k_mem s3) D PFTEMPN) = Some Q).
  { rewrite V3, bool_decide_eq_false_2 by (done || lia || by intros [_ ?]). done. }
  destruct (unmap_remap s3 l3 Ds ex (env_id v) D PFTEMPN Q U3 (target_frame _ _ _ _ _ F3 Ht2) ltac:(lia) HQ3)
    as (s4 & l4 & R4 & [U4 F4 V4 D4 _ _ _ _]).
  exists s3, s4, l4. split_and!.
  - by apply (u_map_run _ _ _ PFTEMPN); try done || lia.
  - by apply (u_unmap_run _ _ _ PFTEMPN); try done || lia.
  - exact U4.
  - by eapply vm_frame_trans.
  - intros D' n' HD' Hn'. rewrite V4, V3 by done. unfold after_fault.
    repeat case_bool_decide; try done. exfalso. apply Hne. intuition congruence.
  - intros D' n' P' HD' Hn' Hx HP'. eapply page_same_trans.
    + apply D3. by apply (uv_map _ _ _ _ U2 D' n').
    + apply D4. apply (uv_map _ _ _ _ U3 D' n'); [done..|].
      by rewrite V3, bool_decide_eq_false_2.
Qed.
End fault.

(** What the handler leaves behind. *)
Record resolved (s : kst) (Ds : list nat) (ex : nat → Z) (D P Q : nat) (n : Z) (s' : kst) (l' : list nat) : Prop := {
  rs_uvm : uvm s' l' Ds ex;
  rs_frame : vm_frame s s';
  rs_pte : ∀ D' n', D' ∈ Ds → 0 ≤ n' < UPN →
    vpte (k_mem s') D' n' = after_fault D Q n (vpte (k_mem s)) D' n';
  rs_bytes : ∀ i, 0 ≤ i < PGSIZE →
    rd8 (k_mem s') (Z.of_nat Q * PGSIZE + i) = rd8 (k_mem s) (Z.of_nat P * PGSIZE + i);
  rs_data : ∀ D' n' P', D' ∈ Ds → 0 ≤ n' < UPN → ¬ (D' = D ∧ (n' = n ∨ n' = PFTEMPN)) →
    frame (vpte (k_mem s) D' n') = Some P' → page_same P' (k_mem s) (k_mem s') }.

Lemma pgfault_run s Q l Ds ex e v D va err P :
  let n := va / PGSIZE in
  uvm s (Q :: l) Ds ex → running s Ds e v D → 0 ≤ va < UTOP → n ≠ PFTEMPN →
  frame (vpte (k_mem s) D n) = Some P → tst (vpte (k_mem s) D n) PTE_U = true →
  tst (vpte (k_mem s) D n) PTE_COW = true → tst err FEC_WR = true →
  is_Some (table_at (k_mem s) D 1) ∨ l ≠ [] →
  ∃ s' l', pgfault va err s = Ok tt s' ∧ resolved s Ds ex D P Q n s' l'.
Proof.
  intros n H Hr Hva Hne HP HU HCOW Herr Hroom.
  destruct (page_addr va Hva) as (Hrd & Hpg & Hn). fold n in Hrd, Hpg, Hn.
  pose proof (ru_dir _ _ _ _ _ Hr) as HD. pose proof (free_small _ _ _ _ _ H) as HQ.
  destruct (copy_in s Q l Ds ex e D P v va H Hr Hva Hne HP HU Hroom) as (s1 & s2 & l2 & R1 & R2 & C).
  destruct (move_in s Q l Ds ex e D P v va H Hr Hva Hne HP Hroom s2 l2 C)
    as (s3 & s4 & l4 & R3 & R4 & U4 & F4 & V4 & D4). fold n in R2, R3, R4, V4, D4.
  destruct C as [U2 F2 V2 B2 D2 _ _]. exists s4, l4. split.
  - unfold pgfault. rewrite Hrd, Hpg.
    mcall (uvpt_run s _ Ds ex e D v H Hr n Hn (frame_table _ _ _ _ HP)). rewrite HCOW, Herr. cbn [negb orb].
    mcall (u_getenvid_run _ _ _ _ _ Hr). mcall R1. cbn [negb Z.eqb]. mcall R2. mcall R3.
    cbn [negb Z.eqb]. by mcall R4.
  - constructor; [done|by eapply vm_frame_trans|..].
    + intros D' n' HD' Hn'. rewrite V4 by done. unfold after_fault. rewrite V2 by done.
      repeat case_bool_decide; done.
    + intros i Hi. rewrite <- (B2 i Hi).
      apply (D4 D PFTEMPN Q HD ltac:(lia)); [by intros [_ ?]| |done].
      rewrite V2, bool_decide_eq_true_2 by (done || lia). apply frame_mkpte; done || lia.
    + intros D' n' P' HD' Hn' Hx HP'. eapply page_same_trans.
      * apply D2. by apply (uv_map _ _ _ _ H D' n').
      * apply (D4 D' n'); [done..| |]; [intros [-> ->]; apply Hx; by split; [|left]|].
        rewrite V2 by done. rewrite bool_decide_eq_false_2; [done|].
        intros [-> ->]. apply Hx. by split; [|right].
Qed.

(** ** A store to a shared page is private *)

(** The byte that address space [D] shows at [va]. *)
Definition ubyte (m : mem) (D : nat) (va : Z) : option Z :=
  match frame (vpte m D (va / PGSIZE)) with
  | Some P => Some (rd8 m (Z.of_nat P * PGSIZE + va mod PGSIZE))
  | None => None
  end.

Lemma ubyte_same m m' D va P :
  vpte m' D (va / PGSIZE) = vpte m D (va / PGSIZE) → frame (vpte m D (va / PGSIZE)) = Some P →
  page_same P m m' → ubyte m' D va = ubyte m D va.
Proof.
  intros E HP Hs. unfold ubyte. rewrite E, HP. f_equal. apply Hs. apply Z.mod_pos_bound. lia.
Qed.

Lemma va_split va : va = va / PGSIZE * PGSIZE + va mod PGSIZE ∧ 0 ≤ va mod PGSIZE < PGSIZE.
Proof. pose proof (Z.div_mod va PGSIZE). pose proof (Z.mod_pos_bound va PGSIZE). lia. Qed.

Lemma user_phys_va s l Ds ex e D v write va : uvm s l Ds ex → running s Ds e v D → 0 ≤ va < UTOP →
  user_phys s write va =
  match frame (vpte (k_mem s) D (va / PGSIZE)) with
  | Some P => if tst (vpte (k_mem s) D (va / PGSIZE)) PTE_U &&
                 (negb write || tst (vpte (k_mem s) D (va / PGSIZE)) PTE_W)
              then Some (Z.of_nat P * PGSIZE + va mod PGSIZE) else None
  | None => None
  end.
Proof.
  intros H Hr Hva. destruct (va_split va) as [Hs Ho]. destruct (page_addr va Hva) as (_ & _ & Hn).
  rewrite <- (user_phys_page s l Ds ex e D v H Hr write _ _ Hn Ho). by rewrite <- Hs.
Qed.

(** After the fault the address space shows what it did, but for PFTEMP. *)
Lemma resolved_ubyte s Q l Ds ex D P n s' l' : uvm s (Q :: l) Ds ex → D ∈ Ds → 0 ≤ n < UPN →
  n ≠ PFTEMPN →
  frame (vpte (k_mem s) D n) = Some P → resolved s Ds ex D P Q n s' l' →
  ∀ D' va', D' ∈ Ds → 0 ≤ va' < UTOP → ubyte (k_mem s') D' va' =
    if bool_decide (D' = D ∧ va' / PGSIZE = PFTEMPN) then None else ubyte (k_mem s) D' va'.
Proof.
  intros H HD Hn Hne HP [U' F' V' B' D'] D2 va' HD2 Hva'.
  destruct (page_addr va' Hva') as (_ & _ & Hn'). pose proof (free_small _ _ _ _ _ H) as HQ.
  pose proof (V' D2 (va' / PGSIZE) HD2 Hn') as E. unfold after_fault in E.
  destruct (va_split va') as [_ Ho].
  destruct (bool_decide_reflect (D2 = D ∧ va' / PGSIZE = n)) as [E1|E1].
  - destruct E1 as [-> E1]. rewrite bool_decide_eq_false_2 by (rewrite E1; by intros [_ ?]).
    unfold ubyte. rewrite E, E1, HP, frame_mkpte by (done || lia). f_equal. by apply B'.
  - case_bool_decide as E2; [unfold ubyte; by rewrite E|].
    destruct (frame (vpte (k_mem s) D2 (va' / PGSIZE))) as [P'|] eqn:HP'.
    + eapply ubyte_same; [done..|]. apply (D' D2 (va' / PGSIZE)); [done..| |done]. intros [? [?|?]]; auto.
    + unfold ubyte. by rewrite E, HP'.
Qed.

(** The new page is mapped nowhere else. *)
Lemma resolved_private s Q l Ds ex D P n s' l' : uvm s (Q :: l) Ds ex → resolved s Ds ex D P Q n s' l' →
  ∀ D' n', D' ∈ Ds → 0 ≤ n' < UPN → frame (vpte (k_mem s') D' n') = Some Q → D' = D ∧ n' = n.
Proof.
  intros H R D' n' HD' Hn'. rewrite (rs_pte _ _ _ _ _ _ _ _ _ R) by done. unfold after_fault.
  case_bool_decide; [done|]. case_bool_decide; [done|]. intros HQ. exfalso.
  apply (uv_map _ _ _ _ H D' n' Q HD' Hn') in HQ as [HQ _]. apply HQ. left.
Qed.



(** ** Mappings that are only added *)

(** The reference count of page [q]. *)
Definition refc (s : kst) (q : nat) : Z := match k_pages s !! q with Some p => pp_ref p | None => 0 end.

Definition mapped (Ds : list nat) (m : mem) (q : nat) : Prop :=
  ∃ D n, D ∈ Ds ∧ 0 ≤ n < UPN ∧ frame (vpte m D n) = Some q.

(** From [s] to [s'] every page that was mapped is still mapped where it
    was, with the same contents; the count of page [q] has addmap by [δ q]
    and at most [k] free pages have been taken. *)
Record addmap (Ds : list nat) (ex : nat → Z) (k : nat) (δ : nat → Z) (s : kst) (l : list nat)
    (s' : kst) (l' : list nat) : Prop := {
  am_uvm : uvm s' l' Ds ex;
  am_frame : vm_frame s s';
  am_keep : ∀ D n q, D ∈ Ds → 0 ≤ n < UPN → frame (vpte (k_mem s) D n) = Some q →
    frame (vpte (k_mem s') D n) = Some q ∧ page_same q (k_mem s) (k_mem s');
  am_tab : ∀ D d T, D ∈ Ds → 0 ≤ d < UPDX →
    table_at (k_mem s) D d = Some T → table_at (k_mem s') D d = Some T;
  am_len : (length l ≤ length l' + k)%nat;
  am_ref : ∀ q, mapped Ds (k_mem s) q → refc s' q = refc s q + δ q }.

Lemma addmap_refl s l Ds ex : uvm s l Ds ex → addmap Ds ex 0 (λ _, 0) s l s l.
Proof. intros H. constructor; try done; [apply vm_frame_refl|lia|]. intros. lia. Qed.

Lemma addmap_mapped Ds ex k δ s l s' l' q :
  addmap Ds ex k δ s l s' l' → mapped Ds (k_mem s) q → mapped Ds (k_mem s') q.
Proof. intros G (D & n & HD & Hn & Hq). exists D, n. split_and!; try done; lia || by apply G. Qed.

Lemma addmap_trans Ds ex k1 k2 δ1 δ2 s1 l1 s2 l2 s3 l3 :
  addmap Ds ex k1 δ1 s1 l1 s2 l2 → addmap Ds ex k2 δ2 s2 l2 s3 l3 →
  addmap Ds ex (k1 + k2) (λ q, δ1 q + δ2 q) s1 l1 s3 l3.
Proof.
  intros G1 G2. constructor.
  - apply G2.
  - eapply vm_frame_trans; [apply G1|apply G2].
  - intros D n q HD Hn Hq. destruct (am_keep _ _ _ _ _ _ _ _ G1 D n q HD Hn Hq) as [Hq2 Hs1].
    destruct (am_keep _ _ _ _ _ _ _ _ G2 D n q HD Hn Hq2) as [Hq3 Hs2].
    split; [done|by eapply page_same_trans].
  - intros D d T HD Hd HT. by apply (am_tab _ _ _ _ _ _ _ _ G2), (am_tab _ _ _ _ _ _ _ _ G1).
  - pose proof (am_len _ _ _ _ _ _ _ _ G1). pose proof (am_len _ _ _ _ _ _ _ _ G2). lia.
  - intros q Hq. rewrite (am_ref _ _ _ _ _ _ _ _ G2) by (by eapply addmap_mapped).
    rewrite (am_ref _ _ _ _ _ _ _ _ G1) by done. lia.
Qed.

Lemma mapped_page s l Ds ex q : uvm s l Ds ex → mapped Ds (k_mem s) q →
  data_page s l Ds q ∧ Z.of_nat q < k_npages s ∧ ∃ p, k_pages s !! q = Some p ∧ refc s q = pp_ref p.
Proof.
  intros H (D & n & HD & Hn & Hq). pose proof (uv_inv _ _ _ _ H) as Hi.
  assert (Hb : Z.of_nat q < k_npages s).
  { eapply (wf_map _ _ _ (vi_wf _ _ _ _ Hi)); [exact HD|by apply user_pdx|apply vpage_ptx|exact Hq]. }
  split; [by apply (uv_map _ _ _ _ H D n)|]. split; [done|].
  destruct (ai_lookup _ _ q (vi_alloc _ _ _ _ Hi) Hb) as [p Hp]. exists p. unfold refc. by rewrite Hp.
Qed.

(** Setting an entry that was empty or had the same page. *)
Lemma remap_addmap Ds ex k s l D n v s' l' P :
  uvm s l Ds ex → remap Ds ex k s l D n v s' l' → frame v = Some P → D ∈ Ds → 0 ≤ n < UPN →
  (frame (vpte (k_mem s) D n) = None ∨ frame (vpte (k_mem s) D n) = Some P) →
  addmap Ds ex k (λ q, zb (bool_decide (P = q)) - zb (bool_decide (frame (vpte (k_mem s) D n) = Some q))) s l s' l'.
Proof.
  intros H [U F V Dt T _ L R] Hv HD Hn Hold. constructor; try done.
  - intros D' n' q HD' Hn' Hq. split; [|apply Dt; by apply (uv_map _ _ _ _ H D' n')].
    rewrite V by done. case_bool_decide as E; [|done]. destruct E as [-> ->].
    destruct Hold as [Ho|Ho]; rewrite Ho in Hq; congruence.
  - intros q Hq. destruct (mapped_page _ _ _ _ _ H Hq) as ((Hl & _) & Hb & _).
    destruct (ai_lookup s' l' q (vi_alloc _ _ _ _ (uv_inv _ _ _ _ U))) as [p' Hp'].
    { by rewrite (vm_frame_npages s s'). }
    destruct (R q p' Hl Hp') as (p & Hp & E). unfold refc. rewrite Hp, Hp', E, Hv.
    rewrite (bool_decide_ext (Some P = Some q) (P = q)) by (split; [by intros [= ->]|by intros ->]). lia.
Qed.

(** ** duppage *)

Definition cowish (w : Z) : bool := tst w PTE_W || tst w PTE_COW.

(** The entries that duppage leaves in the child and in the parent for the
    entry [w] of page [P]. *)
Definition child_pte (P : nat) (w : Z) : Z :=
  if cowish w then mkpte P 2053
  else if tst w PTE_SHARE then mkpte P (Z.lor PTE_P (Z.land w PTE_SYSCALL)) else mkpte P 5.
Definition parent_pte (P : nat) (w : Z) : Z := if cowish w then mkpte P 2053 else w.

Definition upd_pte (D : nat) (n w : Z) (f : nat → Z → Z) (D' : nat) (n' : Z) : Z :=
  if bool_decide (D' = D ∧ n' = n) then w else f D' n'.

Definition own (P q : nat) : Z := zb (bool_decide (P = q)).

(** One of its sys_page_map calls. *)
Lemma dup_map s l Ds ex src D n P dst E n' perm :
  uvm s l Ds ex → target s Ds src D → target s Ds dst E → 0 ≤ src < 2 ^ 31 → 0 ≤ dst < 2 ^ 31 →
  0 ≤ n < UPN → 0 ≤ n' < UPN → bad_perm perm = false → frame (vpte (k_mem s) D n) = Some P →
  frame (vpte (k_mem s) E n') = None ∨ frame (vpte (k_mem s) E n') = Some P → refc s P < 65535 →
  is_Some (table_at (k_mem s) E (n' / NPTENTRIES)) ∨ l ≠ [] →
  ∃ s' l', u_sys_page_map src (n * PGSIZE) dst (n' * PGSIZE) perm s = Ok 0 s' ∧
    addmap Ds ex (need_table s E n')
      (λ q, own P q - zb (bool_decide (frame (vpte (k_mem s) E n') = Some q))) s l s' l' ∧
    (∀ D' k, D' ∈ Ds → 0 ≤ k < UPN →
       vpte (k_mem s') D' k = upd_pte E n' (mkpte P (Z.lor PTE_P perm)) (vpte (k_mem s)) D' k) ∧
    is_Some (table_at (k_mem s') E (n' / NPTENTRIES)).
Proof.
  intros H Hs Ht Hsi Hdi Hn Hn' Hp HP Hold Hr Hroom. pose proof (tg_dir _ _ _ _ Hs) as HD.
  pose proof (tg_dir _ _ _ _ Ht) as HE.
  destruct (mapped_page s l Ds ex P H) as (_ & Hb & p & Hpp & Hrc); [by exists D, n|].
  destruct (map_remap s l Ds ex src D n P p dst E n' perm H Hs Ht Hn Hn' Hp HP Hpp ltac:(lia) Hroom)
    as (s' & l' & R & M).
  pose proof (bad_perm_range _ Hp). pose proof (ai_max _ _ (vi_alloc _ _ _ _ (uv_inv _ _ _ _ H))).
  assert (Hf : frame (mkpte P (Z.lor PTE_P perm)) = Some P).
  { apply frame_mkpte; [lia|apply (lor_range _ _ 12); lia|apply odd_lor_P]. }
  exists s', l'. split_and!; [by apply u_map_run|by eapply remap_addmap| |].
  - intros D' k HD' Hk. by rewrite (rm_pte _ _ _ _ _ _ _ _ _ _ M).
  - eapply frame_table. rewrite (rm_pte _ _ _ _ _ _ _ _ _ _ M) by done.
    by rewrite bool_decide_eq_true_2.
Qed.

Lemma share_perm w : tst w PTE_P = true → tst w PTE_U = true → bad_perm (Z.land w PTE_SYSCALL) = false.
Proof.
  intros HP HU. unfold bad_perm. apply orb_false_iff. split; apply negb_false_iff, Z.eqb_eq.
  - change PTE_P with (2 ^ 0) in HP. change PTE_U with (2 ^ 2) in HU. rewrite tst_bit in HP, HU by lia.
    apply Z.bits_inj'. intros i Hi. change (Z.lor PTE_U PTE_P) with 5. rewrite !Z.land_spec.
    destruct (Z.eq_dec i 0) as [-> |]; [by rewrite HP|]. destruct (Z.eq_dec i 2) as [-> |]; [by rewrite HU|].
    assert (Z.testbit 5 i = false) as ->; [|by rewrite andb_false_r].
    destruct (Z.eq_dec i 1) as [-> |]; [done|]. apply Z.bits_above_log2; [lia|]. cbn. lia.
  - rewrite <- Z.land_assoc, <- (Z.land_0_r w). f_equal.
Qed.

Lemma share_range w : 0 ≤ Z.lor PTE_P (Z.land w PTE_SYSCALL) < PGSIZE.
Proof.
  apply (lor_range _ _ 12); [lia|]. change PTE_SYSCALL with (Z.land PTE_SYSCALL (Z.ones 12)).
  rewrite Z.land_assoc, Z.land_ones by lia. apply Z.mod_pos_bound. lia.
Qed.

Lemma addmap_weaken Ds ex k k' δ δ' s l s' l' :
  addmap Ds ex k δ s l s' l' → (k ≤ k')%nat → (∀ q, δ q = δ' q) → addmap Ds ex k' δ' s l s' l'.
Proof. intros [] Hk Hd. constructor; try done; [lia|]. intros q Hq. rewrite <- Hd. auto. Qed.

Lemma need_none s D n : is_Some (table_at (k_mem s) D (n / NPTENTRIES)) → need_table s D n = 0%nat.
Proof. intros [T HT]. unfold need_table. by rewrite HT. Qed.

Section dup.
Context (s : kst) (l Ds : list nat) (ex : nat → Z) (e D C P : nat) (v : Env) (cid n : Z).
Hypothesis H : uvm s l Ds ex.
Hypothesis Hr : running s Ds e v D.
Hypothesis Ht : target s Ds cid C.
Hypothesis Hc : 0 ≤ cid < 2 ^ 31.
Hypothesis HCD : C ≠ D.
Hypothesis Hn : 0 ≤ n < UPN.
Hypothesis HP : frame (vpte (k_mem s) D n) = Some P.
Hypothesis HU : tst (vpte (k_mem s) D n) PTE_U = true.
Hypothesis HC : frame (vpte (k_mem s) C n) = None.
Hypothesis Href : refc s P + 1 < 65535.
Hypothesis Hroom : is_Some (table_at (k_mem s) C (n / NPTENTRIES)) ∨ l ≠ [].

Let w := vpte (k_mem s) D n.

Lemma dup_own : mapped Ds (k_mem s) P ∧ Z.of_nat P < 65536.
Proof.
  assert (mapped Ds (k_mem s) P) as Hm by (exists D, n; split_and!; try done; [apply (ru_dir _ _ _ _ _ Hr)|lia..]).
  split; [done|]. destruct (mapped_page s l Ds ex P H Hm) as (_ & Hb & _).
  pose proof (ai_max _ _ (vi_alloc _ _ _ _ (uv_inv _ _ _ _ H))). lia.
Qed.

(** The first call: the child gets the page, the parent keeps it. *)
Lemma dup_child perm : bad_perm perm = false → ∃ s1 l1,
  u_sys_page_map (env_id v) (n * PGSIZE) cid (n * PGSIZE) perm s = Ok 0 s1 ∧
  addmap Ds ex (need_table s C n) (own P) s l s1 l1 ∧
  (∀ D' n', D' ∈ Ds → 0 ≤ n' < UPN →
     vpte (k_mem s1) D' n' = upd_pte C n (mkpte P (Z.lor PTE_P perm)) (vpte (k_mem s)) D' n') ∧
  is_Some (table_at (k_mem s1) C (n / NPTENTRIES)) ∧ vpte (k_mem s1) D n = w ∧
  running s1 Ds e v D ∧ target s1 Ds cid C ∧ refc s1 P < 65535.
Proof.
  intros Hp. destruct (running_target _ _ _ _ _ Hr) as [_ Hs]. destruct (ru_id _ _ _ _ _ Hr) as [Hid _].
  pose proof (ru_dir _ _ _ _ _ Hr) as HD. destruct dup_own as [Hm _].
  destruct (dup_map s l Ds ex (env_id v) D n P cid C n perm H Hs Ht ltac:(lia) Hc Hn Hn Hp HP (or_introl HC)
    ltac:(lia) Hroom) as (s1 & l1 & R & G & V & T).
  pose proof (am_frame _ _ _ _ _ _ _ _ G) as F.
  exists s1, l1. split_and!; try done.
  - eapply addmap_weaken; [exact G|done|]. intros q. cbn. rewrite HC.
    rewrite (bool_decide_eq_false_2 (None = Some q)) by done. cbn [zb]. lia.
  - rewrite V by done. unfold upd_pte. by rewrite bool_decide_eq_false_2 by (by intros [-> _]).
  - by eapply running_frame.
  - by eapply target_frame.
  - rewrite (am_ref _ _ _ _ _ _ _ _ G) by done. unfold own.
    pose proof (zb_range (bool_decide (P = P))).
    pose proof (zb_range (bool_decide (frame (vpte (k_mem s) C n) = Some P))). lia.
Qed.

Definition dupped (s' : kst) (l' : list nat) : Prop :=
  addmap Ds ex (need_table s C n) (own P) s l s' l' ∧
  (∀ D' n', D' ∈ Ds → 0 ≤ n' < UPN → vpte (k_mem s') D' n' =
     upd_pte C n (child_pte P w) (upd_pte D n (parent_pte P w) (vpte (k_mem s))) D' n') ∧
  is_Some (table_at (k_mem s') C (n / NPTENTRIES)).

Lemma upd_pte_same D' n' : upd_pte D n w (vpte (k_mem s)) D' n' = vpte (k_mem s) D' n'.
Proof. unfold upd_pte. case_bool_decide as E; [|done]. by destruct E as [-> ->]. Qed.

(** The copy-on-write branch. *)
Lemma dup_cow : cowish w = true → ∃ s1 s2 l2,
  u_sys_page_map (env_id v) (n * PGSIZE) cid (n * PGSIZE) 2053 s = Ok 0 s1 ∧
  u_sys_page_map (env_id v) (n * PGSIZE) (env_id v) (n * PGSIZE) 2053 s1 = Ok 0 s2 ∧
  dupped s2 l2 ∧ running s2 Ds e v D ∧ vpte (k_mem s2) D n = mkpte P 2053.
Proof.
  intros Hw. pose proof (ru_dir _ _ _ _ _ Hr) as HD. destruct (ru_id _ _ _ _ _ Hr) as [Hid _].
  destruct (dup_child 2053 eq_refl) as (s1 & l1 & R1 & G1 & V1 & T1 & W1 & Hr1 & _ & Hf1).
  change (Z.lor PTE_P 2053) with 2053 in V1.
  destruct (running_target _ _ _ _ _ Hr1) as [_ Hs1].
  assert (HP1 : frame (vpte (k_mem s1) D n) = Some P) by (by rewrite W1).
  destruct (dup_map s1 l1 Ds ex (env_id v) D n P (env_id v) D n 2053 (am_uvm _ _ _ _ _ _ _ _ G1) Hs1 Hs1
    ltac:(lia) ltac:(lia) Hn Hn eq_refl HP1 (or_intror HP1) Hf1 (or_introl (frame_table _ _ _ _ HP1)))
    as (s2 & l2 & R2 & G2 & V2 & _).
  change (Z.lor PTE_P 2053) with 2053 in V2.
  assert (Hu : (vpte (k_mem s2) D n) = mkpte P 2053).
  { rewrite V2 by done. unfold upd_pte. by rewrite bool_decide_eq_true_2. }
  exists s1, s2, l2. split_and!; try done; [|eapply running_frame; [apply G2|done]].
  split_and!.
  - eapply addmap_weaken; [eapply addmap_trans; [exact G1|exact G2]| |].
    + rewrite (need_none s1 D n (frame_table _ _ _ _ HP1)). lia.
    + intros q. cbn. rewrite HP1. unfold own.
      rewrite (bool_decide_ext (Some P = Some q) (P = q)) by (split; [by intros [= ->]|by intros ->]). lia.
  - intros D' n' HD' Hn'. rewrite V2 by done. unfold child_pte, parent_pte. rewrite Hw.
    unfold upd_pte at 1. rewrite V1 by done. unfold upd_pte.
    repeat case_bool_decide; try done.
  - destruct T1 as [T T1]. exists T. apply (am_tab _ _ _ _ _ _ _ _ G2); [apply Ht|by apply user_pdx|done].
Qed.

(** The read-only branch: shared pages keep their permissions. *)
Lemma dup_ro : cowish w = false → ∃ s1 l1,
  u_sys_page_map (env_id v) (n * PGSIZE) cid (n * PGSIZE) 5 s = Ok 0 s1 ∧
  running s1 Ds e v D ∧ uvm s1 l1 Ds ex ∧ vpte (k_mem s1) D n = w ∧
  (tst w PTE_SHARE = false → dupped s1 l1) ∧
  (tst w PTE_SHARE = true → ∃ s2 l2,
     u_sys_page_map 0 (n * PGSIZE) cid (n * PGSIZE) (Z.land w PTE_SYSCALL) s1 = Ok 0 s2 ∧ dupped s2 l2).
Proof.
  intros Hw. pose proof (ru_dir _ _ _ _ _ Hr) as HD. destruct dup_own as [_ Hb].
  destruct (dup_child 5 eq_refl) as (s1 & l1 & R1 & G1 & V1 & T1 & W1 & Hr1 & Ht1 & Hf1).
  change (Z.lor PTE_P 5) with 5 in V1. pose proof (am_uvm _ _ _ _ _ _ _ _ G1) as U1.
  exists s1, l1. split_and!; try done; intros Hsh.
  - split_and!; try done. intros D' n' HD' Hn'. rewrite V1 by done. unfold child_pte, parent_pte.
    rewrite Hw, Hsh. unfold upd_pte at 1 2. by rewrite upd_pte_same.
  - assert (HP1 : frame (vpte (k_mem s1) D n) = Some P) by (by rewrite W1).
    assert (HC1 : frame (vpte (k_mem s1) C n) = Some P).
    { rewrite V1 by (done || apply Ht). unfold upd_pte. rewrite bool_decide_eq_true_2 by done.
      apply frame_mkpte; done || lia. }
    assert (Hbp : bad_perm (Z.land w PTE_SYSCALL) = false).
    { apply share_perm; [|done]. unfold w, frame in *. by destruct (tst (vpte (k_mem s) D n) PTE_P). }
    destruct (running_target _ _ _ _ _ Hr1) as [Hs0 _].
    destruct (dup_map s1 l1 Ds ex 0 D n P cid C n _ U1 Hs0 Ht1 ltac:(lia) Hc Hn Hn Hbp HP1 (or_intror HC1) Hf1
      (or_introl T1)) as (s2 & l2 & R2 & G2 & V2 & T2).
    exists s2, l2. split; [done|]. split_and!; [| |done].
    + eapply addmap_weaken; [eapply addmap_trans; [exact G1|exact G2]| |].
      * rewrite (need_none s1 C n T1). lia.
      * intros q. cbn. rewrite HC1. unfold own.
        rewrite (bool_decide_ext (Some P = Some q) (P = q)) by (split; [by intros [= ->]|by intros ->]). lia.
    + intros D' n' HD' Hn'. rewrite V2 by done. unfold child_pte, parent_pte. rewrite Hw, Hsh.
      unfold upd_pte at 1 2. rewrite V1, upd_pte_same by done. unfold upd_pte. by case_bool_decide.
Qed.

Lemma duppage_run : ∃ s' l', duppage cid n s = Ok 0 s' ∧ dupped s' l'.
Proof.
  assert (Haddr : u32 (n * PGSIZE) = n * PGSIZE) by (apply u32_small; lia).
  unfold duppage. rewrite Haddr. pose proof (u_getenvid_run _ _ _ _ _ Hr) as Hg.
  pose proof (uvpt_run s l Ds ex e D v H Hr n Hn (frame_table _ _ _ _ HP)) as Hp. fold w in Hp.
  destruct dup_own as [_ Hb].
  destruct (cowish w) eqn:Hw.
  - destruct (dup_cow Hw) as (s1 & s2 & l2 & R1 & R2 & Hd & Hr2 & W2). exists s2, l2. split; [|done].
    mcall Hg. mcall Hp. fold (cowish w). rewrite Hw. rewrite !bind_assoc. mcall R1. cbn [negb Z.eqb].
    rewrite bind_assoc. mcall R2. cbn [negb Z.eqb]. mrun.
    assert (is_Some (table_at (k_mem s2) D (n / NPTENTRIES))) as T2.
    { apply (frame_table _ _ _ P). rewrite W2. apply frame_mkpte; done || lia. }
    mcall (uvpt_run s2 _ Ds ex e D v (am_uvm _ _ _ _ _ _ _ _ (proj1 Hd)) Hr2 n Hn T2).
    by rewrite W2, tst_mkpte by lia.
  - destruct (dup_ro Hw) as (s1 & l1 & R1 & Hr1 & U1 & W1 & Hns & Hsh).
    assert (Hp1 : uvpt n s1 = Ok w s1).
    { rewrite <- W1. apply (uvpt_run s1 l1 Ds ex e D v U1 Hr1 n Hn). apply (frame_table _ _ _ P).
      by rewrite W1. }
    destruct (tst w PTE_SHARE) eqn:Hs.
    + destruct (Hsh eq_refl) as (s2 & l2 & R2 & Hd). exists s2, l2. split; [|done].
      mcall Hg. mcall Hp. fold (cowish w). rewrite Hw. rewrite bind_assoc. mcall R1. cbn [negb Z.eqb]. mrun.
      mcall Hp1. rewrite Hs. mcall Hp1. by mcall R2.
    + exists s1, l1. split; [|by apply Hns]. mcall Hg. mcall Hp. fold (cowish w). rewrite Hw.
      rewrite bind_assoc. mcall R1. cbn [negb Z.eqb]. mrun. mcall Hp1. by rewrite Hs.
Qed.
End dup.
