(* ===== verification/ForkSpec.v ===== *)
(** The address spaces that fork (lib/fork.c) leaves to parent and child. *)

From S2P Require Import Prelude Mmu Printfmt Console KState Pmap PageTable Env Sched Syscall UserVm ULib Fork.
From Stdlib Require Import ZArith Lia String.
From stdpp Require Import base tactics numbers list.
Open Scope Z_scope.

(** ** Counting tables *)

Lemma missing_mono m m' D ds :
  (∀ d, d ∈ ds → has_table m D d = true → has_table m' D d = true) →
  (missing m' D ds ≤ missing m D ds)%nat.
Proof.
  unfold missing. induction ds as [|d ds IH]; intros Hd; [done|]. cbn.
  pose proof (Hd d ltac:(left)) as Hh. specialize (IH ltac:(intros; apply Hd; [by right|done])).
  destruct (has_table m D d), (has_table m' D d); cbn; lia.
Qed.

Lemma missing_less m m' D ds d :
  (∀ d, d ∈ ds → has_table m D d = true → has_table m' D d = true) →
  d ∈ ds → has_table m D d = false → has_table m' D d = true →
  (missing m' D ds < missing m D ds)%nat.
Proof.
  intros Hd Hin H0 H1. apply list_elem_of_split in Hin as (l1 & l2 & ->). unfold missing.
  rewrite !List.filter_app, !length_app. cbn. rewrite H0, H1. cbn.
  pose proof (missing_mono m m' D l1) as M1. pose proof (missing_mono m m' D l2) as M2.
  unfold missing in M1, M2. specialize (M1 ltac:(intros; apply Hd; [apply elem_of_app; by left|done])).
  specialize (M2 ltac:(intros; apply Hd; [apply elem_of_app; right; by right|done])). lia.
Qed.

Lemma missing_le m D ds : (missing m D ds ≤ length ds)%nat.
Proof. unfold missing. induction ds as [|d ds IH]; [done|]. cbn. destruct (negb _); cbn; lia. Qed.

Lemma missing_room m C ds (l : list nat) d : d ∈ ds → (missing m C ds < length l)%nat →
  is_Some (table_at m C d) ∨ (1 < length l)%nat.
Proof.
  intros Hd Hl. destruct (table_at m C d) eqn:HT; [by left|]. right.
  apply list_elem_of_split in Hd as (l1 & l2 & ->). unfold missing in Hl.
  rewrite List.filter_app, length_app in Hl. cbn in Hl. unfold has_table at 2 in Hl.
  rewrite HT, bool_decide_eq_false_2 in Hl by apply is_Some_None. cbn in Hl. lia.
Qed.

(** ** What fork copies *)

(** The page that fork duplicates for page number [n] of [D], if any. *)
Definition dup_frame (m : mem) (D : nat) (n : Z) : option nat :=
  if tst (vpte m D n) PTE_U then frame (vpte m D n) else None.

(** How many of the page numbers below [k] duplicate page [q]. *)
Definition dups (m : mem) (D : nat) (k : Z) (q : nat) : Z :=
  zsum (λ n, zb (bool_decide (dup_frame m D n = Some q))) (seqZ 0 k).

Lemma zsum_app {A} (f : A → Z) l1 l2 : zsum f (l1 ++ l2) = zsum f l1 + zsum f l2.
Proof. induction l1 as [|x l1 IH]; cbn [app]; rewrite ?zsum_cons; [done|]. rewrite IH. lia. Qed.

Lemma dups_split m D k k' q : 0 ≤ k ≤ k' →
  dups m D k' q = dups m D k q + zsum (λ n, zb (bool_decide (dup_frame m D n = Some q))) (seqZ k (k' - k)).
Proof.
  intros Hk. unfold dups. replace k' with (k + (k' - k)) at 1 by lia.
  by rewrite seqZ_app, zsum_app by lia.
Qed.

Lemma dups_mono m D k k' q : 0 ≤ k ≤ k' → dups m D k q ≤ dups m D k' q.
Proof.
  intros Hk. rewrite (dups_split m D k k') by done.
  pose proof (zsum_nonneg (λ n, zb (bool_decide (dup_frame m D n = Some q))) (seqZ k (k' - k))
    ltac:(intros; apply zb_range)). lia.
Qed.

Lemma dups_next m D k q : 0 ≤ k →
  dups m D (k + 1) q = dups m D k q + zb (bool_decide (dup_frame m D k = Some q)).
Proof.
  intros Hk. rewrite (dups_split m D k) by lia. replace (k + 1 - k) with 1 by lia.
  rewrite seqZ_cons, seqZ_nil by lia. cbn. lia.
Qed.

Lemma dups_skip m D k k' q : 0 ≤ k ≤ k' → (∀ n, k ≤ n < k' → dup_frame m D n = None) →
  dups m D k' q = dups m D k q.
Proof.
  intros Hk Hn. rewrite (dups_split m D k k') by done.
  rewrite (zsum_ext _ (λ _, 0)), zsum_zero; [lia|]. intros n Hi%elem_of_seqZ. by rewrite Hn by lia.
Qed.

(** The mappings when the pages below [k] have been duplicated from [D]
    to [C]. *)
Definition forked_pte (m : mem) (D C : nat) (k : Z) (D' : nat) (n : Z) : Z :=
  match (if n <? k then dup_frame m D n else None) with
  | Some P => if bool_decide (D' = C) then child_pte P (vpte m D n)
              else if bool_decide (D' = D) then parent_pte P (vpte m D n) else vpte m D' n
  | None => vpte m D' n
  end.

(** The tables that the child may need. *)
Definition fork_dirs (m : mem) (D : nat) : list Z :=
  List.filter (λ d, has_table m D d || (d =? 954)) (seqZ 0 UPDX).

Section loop.
Context (s0 : kst) (l0 Ds : list nat) (ex : nat → Z) (e D C : nat) (v : Env) (cid : Z).
Hypothesis H0 : uvm s0 l0 Ds ex.
Hypothesis Hr0 : running s0 Ds e v D.
Hypothesis Ht0 : target s0 Ds cid C.
Hypothesis Hc : 0 ≤ cid < 2 ^ 31.
Hypothesis HCD : C ≠ D.
Hypothesis Hempty : ∀ n, 0 ≤ n < UPN → frame (vpte (k_mem s0) C n) = None.
Hypothesis Href : ∀ q, mapped Ds (k_mem s0) q → refc s0 q + dups (k_mem s0) D (UPN - 1) q < 65535.
Let m0 := k_mem s0.
Let ds := fork_dirs m0 D.

Record forked (k : Z) (s : kst) (l : list nat) : Prop := {
  fk_addmap : addmap Ds ex (length l0) (dups m0 D k) s0 l0 s l;
  fk_pte : ∀ D' n, D' ∈ Ds → 0 ≤ n < UPN → vpte (k_mem s) D' n = forked_pte m0 D C k D' n;
  fk_room : (missing (k_mem s) C ds < length l)%nat }.

Lemma forked_0 : (length ds < length l0)%nat → forked 0 s0 l0.
Proof.
  intros Hl. constructor.
  - eapply addmap_weaken; [by apply addmap_refl|lia|done].
  - intros D' n _ Hn. unfold forked_pte. by rewrite (proj2 (Z.ltb_ge _ _)) by lia.
  - pose proof (missing_le (k_mem s0) C ds). lia.
Qed.

Lemma forked_skip k k' s l : forked k s l → 0 ≤ k ≤ k' → (∀ n, k ≤ n < k' → dup_frame m0 D n = None) →
  forked k' s l.
Proof.
  intros [G V R] Hk Hn. constructor; [| |done].
  - eapply addmap_weaken; [exact G|done|]. intros q. by rewrite (dups_skip m0 D k k').
  - intros D' n HD' Hn'. rewrite V by done. unfold forked_pte.
    destruct (Z.ltb_spec n k), (Z.ltb_spec n k'); try done; [lia|]. by rewrite Hn by lia.
Qed.

(** Pages that have not been reached are as they were. *)
Lemma forked_later k s l D' n : forked k s l → D' ∈ Ds → 0 ≤ n < UPN → k ≤ n →
  vpte (k_mem s) D' n = vpte m0 D' n.
Proof.
  intros F HD' Hn Hk. rewrite (fk_pte _ _ _ F) by done. unfold forked_pte.
  by rewrite (proj2 (Z.ltb_ge _ _)) by lia.
Qed.

Lemma forked_running k s l : forked k s l → running s Ds e v D ∧ target s Ds cid C.
Proof.
  intros F. pose proof (am_frame _ _ _ _ _ _ _ _ (fk_addmap _ _ _ F)) as Hf.
  split; [by eapply running_frame|by eapply target_frame].
Qed.

Lemma dir_in n P : 0 ≤ n < UPN → frame (vpte m0 D n) = Some P → n / NPTENTRIES ∈ ds.
Proof.
  intros Hn HP. apply list_elem_of_In, List.filter_In. split.
  - apply list_elem_of_In, elem_of_seqZ. pose proof (user_pdx _ Hn). lia.
  - unfold has_table. by rewrite bool_decide_eq_true_2 by (by eapply frame_table).
Qed.

(** The invariant after a page has been duplicated. *)
Lemma forked_next k s l P s' l' : forked k s l → 0 ≤ k < UPN - 1 → dup_frame m0 D k = Some P →
  vpte (k_mem s) D k = vpte m0 D k → is_Some (table_at (k_mem s) D (k / NPTENTRIES)) →
  dupped s l Ds ex D C P k s' l' →
  forked (k + 1) s' l' ∧ is_Some (table_at (k_mem s') D (k / NPTENTRIES)).
Proof.
  intros F Hk Hd Hw [T HT] (G & V & HT'). pose proof (ru_dir _ _ _ _ _ Hr0) as HD.
  assert (HP : frame (vpte m0 D k) = Some P) by (unfold dup_frame in Hd; by destruct (tst _ PTE_U)).
  pose proof (user_pdx k ltac:(lia)) as Hpx. pose proof (tg_dir _ _ _ _ Ht0) as HCs.
  assert (Hmono : ∀ d, d ∈ ds → has_table (k_mem s) C d = true → has_table (k_mem s') C d = true).
  { intros d Hin%list_elem_of_In%List.filter_In Ht. destruct Hin as [Hin%list_elem_of_In%elem_of_seqZ _].
    unfold has_table in *. apply bool_decide_eq_true in Ht as [T' Ht]. apply bool_decide_eq_true. exists T'.
    apply (am_tab _ _ _ _ _ _ _ _ G); [done|lia|done]. }
  split; [|exists T; by apply (am_tab _ _ _ _ _ _ _ _ G)].
  pose proof (addmap_trans _ _ _ _ _ _ _ _ _ _ _ _ (fk_addmap _ _ _ F) G) as G2. constructor.
  - assert (length l0 ≤ length l' + length l0)%nat by lia. destruct G2. constructor; try done.
    intros q Hq. rewrite dups_next, Hd by lia. rewrite am_ref by done. unfold own.
    rewrite (bool_decide_ext (Some P = Some q) (P = q)) by (split; [by intros [= ->]|by intros ->]). lia.
  - intros D' n HD' Hn. rewrite V by done. unfold upd_pte at 1. case_bool_decide as E1.
    { destruct E1 as [-> ->]. unfold forked_pte. rewrite (proj2 (Z.ltb_lt _ _)), Hd, Hw by lia.
      by rewrite bool_decide_eq_true_2. }
    unfold upd_pte. case_bool_decide as E2.
    { destruct E2 as [-> ->]. unfold forked_pte. rewrite (proj2 (Z.ltb_lt _ _)), Hd, Hw by lia.
      by rewrite bool_decide_eq_false_2, bool_decide_eq_true_2 by (done || by apply not_eq_sym). }
    rewrite (fk_pte _ _ _ F) by done. unfold forked_pte.
    destruct (Z.ltb_spec n k), (Z.ltb_spec n (k + 1)); try done; [lia|].
    assert (n = k) as -> by lia. rewrite Hd.
    rewrite !bool_decide_eq_false_2; [done|intros ->; by apply E2|intros ->; by apply E1].
  - pose proof (fk_room _ _ _ F). pose proof (am_len _ _ _ _ _ _ _ _ G) as Hl. unfold need_table in Hl.
    destruct (table_at (k_mem s) C (k / NPTENTRIES)) eqn:HTC.
    + pose proof (missing_mono _ _ C ds Hmono). lia.
    + assert (missing (k_mem s') C ds < missing (k_mem s) C ds)%nat; [|lia].
      apply (missing_less _ _ C ds (k / NPTENTRIES)); [done|by apply (dir_in k P); [lia|]|..]; unfold has_table.
      * rewrite HTC. by apply bool_decide_eq_false_2, is_Some_None.
      * by apply bool_decide_eq_true_2.
Qed.

(** One round of the inner loop. *)
Lemma dup_pte_run k s l : forked k s l → 0 ≤ k < UPN - 1 → is_Some (table_at (k_mem s) D (k / NPTENTRIES)) →
  ∃ s' l', dup_pte cid k s = Ok tt s' ∧ forked (k + 1) s' l' ∧
    is_Some (table_at (k_mem s') D (k / NPTENTRIES)).
Proof.
  intros F Hk HT. destruct (forked_running _ _ _ F) as [Hr Ht]. pose proof (ru_dir _ _ _ _ _ Hr) as HD.
  pose proof (am_uvm _ _ _ _ _ _ _ _ (fk_addmap _ _ _ F)) as U.
  pose proof (forked_later k s l D k F HD ltac:(lia) ltac:(lia)) as Hw.
  pose proof (forked_later k s l C k F (tg_dir _ _ _ _ Ht) ltac:(lia) ltac:(lia)) as HwC.
  unfold dup_pte. mcall (uvpt_run s l Ds ex e D v U Hr k ltac:(lia) HT). rewrite Hw.
  destruct (dup_frame m0 D k) as [P|] eqn:Hd.
  - assert (tst (vpte m0 D k) PTE_U = true ∧ frame (vpte m0 D k) = Some P) as [HU HP].
    { unfold dup_frame in Hd. by destruct (tst (vpte m0 D k) PTE_U). }
    assert (tst (vpte m0 D k) PTE_P = true) as ->.
    { unfold frame in HP. by destruct (tst (vpte m0 D k) PTE_P). }
    rewrite HU. cbn [andb mwhen].
    assert (Hm : mapped Ds m0 P) by (exists D, k; split_and!; try done; lia).
    assert (Hds : k / NPTENTRIES ∈ ds) by (by apply (dir_in k P); [lia|]).
    assert (Hrf : refc s P + 1 < 65535).
    { rewrite (am_ref _ _ _ _ _ _ _ _ (fk_addmap _ _ _ F)) by done. pose proof (Href P Hm).
      pose proof (dups_mono m0 D (k + 1) (UPN - 1) P ltac:(lia)) as Hmo. rewrite dups_next in Hmo by lia.
      rewrite bool_decide_eq_true_2 in Hmo by done. fold m0 in H. cbn [zb] in Hmo. lia. }
    destruct (duppage_run s l Ds ex e D C P v cid k U Hr Ht Hc HCD ltac:(lia)) as (s' & l' & R & Dp);
      rewrite ?Hw, ?HwC; try done.
    { by apply Hempty; lia. }
    { destruct (missing_room _ _ _ _ _ Hds (fk_room _ _ _ F)); [by left|]. right. intros ->. cbn in *. lia. }
    exists s', l'. rewrite (bind_Ok _ _ _ _ _ R). cbn [negb Z.eqb]. split; [done|].
    by apply (forked_next k s l P).
  - assert (tst (vpte m0 D k) PTE_P && tst (vpte m0 D k) PTE_U = false) as ->.
    { unfold dup_frame, frame in Hd. by destruct (tst _ PTE_U), (tst _ PTE_P). }
    exists s, l. split; [done|]. split; [|done]. apply (forked_skip k); [done|lia|].
    intros n Hn. by replace n with k by lia.
Qed.

(** The inner loop. *)
Lemma inner_run (c : nat) : ∀ k s l d, forked k s l → 0 ≤ k → k + Z.of_nat c ≤ UPN - 1 →
  d * NPTENTRIES ≤ k → k + Z.of_nat c ≤ (d + 1) * NPTENTRIES → is_Some (table_at (k_mem s) D d) →
  ∃ s' l', mfor (seqZ k (Z.of_nat c)) (dup_pte cid) s = Ok tt s' ∧ forked (k + Z.of_nat c) s' l'.
Proof.
  induction c as [|c IH]; intros k s l d F Hk Hc' Hd Hd' HT.
  - exists s, l. rewrite seqZ_nil by lia. split; [done|]. by replace (k + Z.of_nat 0) with k by lia.
  - rewrite seqZ_cons by lia. cbn [mfor].
    assert (Ed : k / NPTENTRIES = d) by (symmetry; apply Z.div_unique with (k - d * NPTENTRIES); lia).
    destruct (dup_pte_run k s l F ltac:(lia)) as (s1 & l1 & R1 & F1 & T1); [by rewrite Ed|]. rewrite Ed in T1.
    rewrite (bind_Ok _ _ _ _ _ R1).
    destruct (IH (k + 1) s1 l1 d F1 ltac:(lia) ltac:(lia) ltac:(lia) ltac:(lia) T1) as (s2 & l2 & R2 & F2).
    exists s2, l2. replace (Z.pred (Z.of_nat (S c))) with (Z.of_nat c) by lia.
    replace (Z.succ k) with (k + 1) by lia. split; [done|]. by replace (k + Z.of_nat (S c)) with (k + 1 + Z.of_nat c) by lia.
Qed.

Lemma no_table_none d n : table_at m0 D d = None → n / NPTENTRIES = d → dup_frame m0 D n = None.
Proof. intros HT <-. unfold dup_frame, vpte, pte_at. by rewrite HT. Qed.

Lemma fork_loop_run fuel : ∀ j s l, 0 ≤ j ≤ 955 → 955 - j ≤ Z.of_nat fuel →
  forked (Z.min (NPTENTRIES * j) (UPN - 1)) s l →
  ∃ s' l', fork_loop fuel cid (NPTENTRIES * j) s = Ok tt s' ∧ forked (UPN - 1) s' l'.
Proof.
  assert (Hend : ∀ fuel s, fork_loop fuel cid (UPN - 1) s = Ok tt s) by (by intros []).
  induction fuel as [|fuel IH]; intros j s l Hj Hf F.
  { assert (j = 955) as -> by lia. exists s, l. split; [done|exact F]. }
  cbn [fork_loop]. change (PGNUM UTOP - 1) with (UPN - 1).
  destruct (Z.leb_spec (UPN - 1) (NPTENTRIES * j)) as [Hle|Hlt].
  { exists s, l. split; [done|]. by rewrite Z.min_r in F by lia. }
  rewrite Z.min_l in F by lia. assert (Hj' : 0 ≤ j < UPDX) by lia.
  destruct (forked_running _ _ _ F) as [Hr Ht]. pose proof (ru_dir _ _ _ _ _ Hr) as HD.
  pose proof (am_uvm _ _ _ _ _ _ _ _ (fk_addmap _ _ _ F)) as U.
  replace (NPTENTRIES * j / NPDENTRIES) with j by (rewrite Z.mul_comm, Z.div_mul; lia).
  mcall (uvpd_run s l Ds ex e D v U Hr j Hj').
  rewrite (pde_present s D j Hj').
  case_bool_decide as HT; cbn [negb].
  - set (next := Z.min _ _).
    destruct (inner_run (Z.to_nat (next - NPTENTRIES * j)) (NPTENTRIES * j) s l j F) as (s1 & l1 & R1 & F1);
      [lia..|done|].
    rewrite Z2Nat.id in R1, F1 by lia. replace (NPTENTRIES * j + (next - NPTENTRIES * j)) with next in F1 by lia.
    rewrite (bind_Ok _ _ _ _ _ R1). destruct (decide (j = 954)) as [-> |Hne].
    + exists s1, l1. split; [apply Hend|exact F1].
    + assert (next = NPTENTRIES * (j + 1)) as En by lia. rewrite En in *.
      apply (IH (j + 1) s1 l1); [lia..|]. by rewrite Z.min_l by lia.
  - replace (NPTENTRIES * j + NPDENTRIES) with (NPTENTRIES * (j + 1)) by lia.
    apply (IH (j + 1) s l); [lia..|]. apply (forked_skip (NPTENTRIES * j)); [done|lia|].
    intros n Hn. apply (no_table_none j); [|symmetry; apply Z.div_unique with (n - NPTENTRIES * j); lia].
    destruct (table_at m0 D j) as [T|] eqn:HT0; [|done]. exfalso. apply HT. exists T.
    by apply (am_tab _ _ _ _ _ _ _ _ (fk_addmap _ _ _ F)).
Qed.
End loop.

(** ** The child that sys_exofork makes *)

Section exofork.
Context (s : kst) (C : nat) (l Ds : list nat) (ex : nat → Z) (KP : nat) (fl : list nat).
Context (c D : nat) (cv : Env) (e : nat) (v : Env).
Hypothesis H : uvm s (C :: l) Ds ex.
Hypothesis Hr : running s Ds c cv D.
Hypothesis Hkd : kern_dir s (C :: l) KP.
Hypothesis Hi : env_inv s (e :: fl).
Hypothesis Hv : k_envs s !! e = Some v.
Let s0 := after_exofork cv e C KP v s.
Let child := exofork_child cv e C v.

Lemma exo_ne : e ≠ c.
Proof.
  intros E. apply (ru_status _ _ _ _ _ Hr), (ei_status _ _ Hi c cv (ru_env _ _ _ _ _ Hr)). rewrite E. left.
Qed.

Lemma exo_rd p i : p ≠ C → 0 ≤ i < 1024 → rd32 (k_mem s0) (ent p i) = rd32 (k_mem s) (ent p i).
Proof.
  intros Hp Hn. change (k_mem s0) with (setup_mem (k_mem s) C KP).
  rewrite setup_mem_rd by (done || eapply setup_ne, Hkd). by rewrite bool_decide_eq_false_2.
Qed.

Lemma exo_free : uses (k_mem s) Ds C = 0.
Proof. eapply free_unused; [apply H|left]. Qed.

Lemma exo_dir D' : D' ∈ Ds → D' ≠ C.
Proof. apply (outside_dir (k_mem s) Ds C exo_free). Qed.

Lemma exo_table D' d : D' ∈ Ds → 0 ≤ d < UPDX → table_at (k_mem s0) D' d = table_at (k_mem s) D' d.
Proof. intros HD' Hd. unfold table_at. by rewrite exo_rd by (by apply exo_dir || lia). Qed.

Lemma exo_none d : 0 ≤ d < UPDX → table_at (k_mem s0) C d = None.
Proof.
  intros Hd. unfold table_at. change (k_mem s0) with (setup_mem (k_mem s) C KP).
  rewrite setup_mem_rd by (lia || eapply setup_ne, Hkd). rewrite bool_decide_eq_true_2 by done.
  change (PDX UVPT) with 957. rewrite (proj2 (Z.eqb_neq d 957)) by lia. by apply (kd_empty _ _ _ Hkd).
Qed.

Lemma exo_vpte D' n : D' ∈ Ds → 0 ≤ n < UPN → vpte (k_mem s0) D' n = vpte (k_mem s) D' n.
Proof.
  intros HD' Hn. apply (outside_pte (k_mem s) _ Ds C exo_free); [|done|by apply user_pdx|apply vpage_ptx].
  intros. by apply exo_rd.
Qed.

Lemma exo_vpte_new n : 0 ≤ n < UPN → vpte (k_mem s0) C n = 0.
Proof. intros Hn. unfold vpte, pte_at. by rewrite exo_none by (by apply user_pdx). Qed.

Lemma exo_page q : q ≠ C → page_same q (k_mem s) (k_mem s0).
Proof.
  intros Hq i Hi'. change (k_mem s0) with (setup_mem (k_mem s) C KP). unfold setup_mem.
  change (PDX UVPT) with 957. rewrite rd8_wr32_ne by (unfold ent; lia).
  rewrite rd8_mem_move_out by lia. apply rd8_mem_set_out. lia.
Qed.

Lemma exo_refc q : q ≠ C → refc s0 q = refc s q.
Proof. intros Hq. unfold refc, s0. cbn. by rewrite list_lookup_insert_ne. Qed.

Lemma exo_running : running s0 (C :: Ds) c cv D.
Proof.
  pose proof exo_ne. destruct Hr. constructor; try done.
  - unfold s0. cbn. by rewrite list_lookup_insert_ne.
  - by right.
Qed.

Lemma exo_child_id : id_ok e (env_id child).
Proof.
  apply env_new_id_ok.
  - destruct (ei_id _ _ Hi _ _ Hv) as [->|[? _]]; lia.
  - apply lookup_lt_Some in Hv. pose proof (ei_len _ _ Hi). lia.
Qed.

(** The child's slot, with fields of it changed, is one the caller may change. *)
Lemma exo_envid s1 w : curenv_of s1 = Some c → k_envs s1 = <[e := w]> (k_envs s) →
  env_id w = env_id child → env_parent_id w = env_id cv → env_status w ≠ ENV_FREE →
  envid2env (env_id child) true s1 = Ok (0, Some e) s1.
Proof.
  intros Hc Hes Hid Hpar Hst. destruct exo_child_id as [Hpos Hx]. pose proof exo_ne as Hne.
  pose proof (lookup_lt_Some _ _ _ Hv).
  assert (He : k_envs s1 !! e = Some w) by (rewrite Hes; by apply list_lookup_insert_eq).
  assert (Hcc : k_envs s1 !! c = Some cv).
  { rewrite Hes, list_lookup_insert_ne by done. apply (ru_env _ _ _ _ _ Hr). }
  unfold envid2env, curenv. mrun. rewrite (proj2 (Z.eqb_neq _ _)) by lia.
  rewrite ENVX_mod, Hx, Nat2Z.id. mcall env_get_run.
  rewrite (proj2 (Z.eqb_neq _ _)) by done. rewrite Hid, Z.eqb_refl. cbn [orb negb].
  rewrite Hc, bool_decide_eq_false_2 by (by intros [= ->]). cbn [andb negb mderef]. mrun.
  mcall env_get_run. by rewrite Hpar, Z.eqb_refl.
Qed.

Lemma exo_target : target s0 (C :: Ds) (env_id child) C.
Proof.
  pose proof (lookup_lt_Some _ _ _ Hv). split; [|by left]. exists e, child. split_and!; [|by apply list_lookup_insert_eq|done].
  by apply (exo_envid s0 child); [apply (ru_cur _ _ _ _ _ Hr)|..].
Qed.

Lemma exo_uvm : uvm s0 l (C :: Ds) ex.
Proof.
  constructor.
  - apply (vm_inv_ext (after_setup e C KP v s)); [done..|]. by apply after_setup_inv; [apply H|].
  - intros D' d T [->|HD']%elem_of_cons Hd; [by rewrite exo_none|].
    rewrite exo_table by done. intros HT. rewrite exo_rd by (by apply exo_dir || lia).
    by apply (uv_pde _ _ _ _ H).
  - intros D' [->|HD']%elem_of_cons.
    + change (k_mem s0) with (setup_mem (k_mem s) C KP). rewrite setup_mem_rd by (lia || eapply setup_ne, Hkd).
      rewrite bool_decide_eq_true_2 by done. pose proof (free_small _ _ _ _ _ H).
      apply u32_small. unfold mkpte. lia.
    + rewrite exo_rd by (by apply exo_dir || lia). by apply H.
  - intros D' n P [->|HD']%elem_of_cons Hn; [by rewrite exo_vpte_new|]. rewrite exo_vpte by done.
    intros HP. destruct (uv_map _ _ _ _ H D' n P HD' Hn HP) as (Hl & HDs & Ht).
    apply not_elem_of_cons in Hl as [HPC Hl]. split_and!; [done|by apply not_elem_of_cons|].
    intros D2 d [->|HD2]%elem_of_cons Hd; [by rewrite exo_none|]. rewrite exo_table by done. by apply Ht.
  - pose proof (ru_cur _ _ _ _ _ exo_running) as E. unfold cur_ok. rewrite E.
    exists cv. apply (ru_env _ _ _ _ _ exo_running).
Qed.
End exofork.

(** ** fork in the parent *)

(** The entries of page number [n] in child and parent after a fork of the
    address space [D]. *)
Definition child_entry (m : mem) (D : nat) (n : Z) : Z :=
  match dup_frame m D n with Some P => child_pte P (vpte m D n) | None => 0 end.
Definition parent_entry (m : mem) (D : nat) (n : Z) : Z :=
  match dup_frame m D n with Some P => parent_pte P (vpte m D n) | None => vpte m D n end.

(** The child's slot when it may run. *)
Definition fork_child (cv : Env) (e C : nat) (upcall : Z) (v : Env) : Env :=
  set_env_status ENV_RUNNABLE (set_env_pgfault_upcall upcall (exofork_child cv e C v)).

Lemma uvm_envs s l Ds ex es : uvm s l Ds ex → cur_ok (with_envs es s) → uvm (with_envs es s) l Ds ex.
Proof.
  intros [] Hc. constructor; try done. by apply (vm_inv_ext s).
Qed.

Lemma u_upcall_run s s' envid func : sys_env_set_pgfault_upcall envid func s = Ok 0 s' →
  0 ≤ envid < 2 ^ 31 → 0 ≤ func < 2 ^ 32 → u_sys_env_set_pgfault_upcall envid func s = Ok 0 s'.
Proof.
  intros Hr He Hf. apply u_syscall_run; [|left; lia].
  change (syscall SYS_env_set_pgfault_upcall ?a ?b ?c ?d ?f) with (sys_env_set_pgfault_upcall (s32 a) b).
  rewrite s32_u32, (u32_small func) by lia. exact Hr.
Qed.

Lemma u_status_run s s' envid st : sys_env_set_status envid st s = Ok 0 s' →
  0 ≤ envid < 2 ^ 31 → 0 ≤ st < 2 ^ 31 → u_sys_env_set_status envid st s = Ok 0 s'.
Proof.
  intros Hr He Hf. apply u_syscall_run; [|left; lia].
  change (syscall SYS_env_set_status ?a ?b ?c ?d ?f) with (sys_env_set_status (s32 a) (s32 b)).
  rewrite !s32_u32 by lia. exact Hr.
Qed.

(** What fork leaves behind: [Q] is the child's exception stack. *)
Record fork_result (s : kst) (Ds : list nat) (ex : nat → Z) (D C Q : nat) (s' : kst) (l' : list nat) : Prop := {
  fr_uvm : uvm s' l' (C :: Ds) ex;
  fr_child : ∀ n, 0 ≤ n < UPN - 1 → vpte (k_mem s') C n = child_entry (k_mem s) D n;
  fr_xstack : vpte (k_mem s') C XSTACKN = mkpte Q 7 ∧
    (∀ i, 0 ≤ i < PGSIZE → rd8 (k_mem s') (Z.of_nat Q * PGSIZE + i) = 0) ∧
    (∀ D' n, D' ∈ C :: Ds → 0 ≤ n < UPN → frame (vpte (k_mem s') D' n) = Some Q → D' = C ∧ n = XSTACKN);
  fr_parent : ∀ n, 0 ≤ n < UPN - 1 → vpte (k_mem s') D n = parent_entry (k_mem s) D n;
  fr_other : ∀ D' n, D' ∈ Ds → 0 ≤ n < UPN → D' ≠ D ∨ n = XSTACKN →
    vpte (k_mem s') D' n = vpte (k_mem s) D' n;
  fr_bytes : ∀ D' va, D' ∈ Ds → 0 ≤ va < UTOP → ubyte (k_mem s') D' va = ubyte (k_mem s) D' va;
  fr_copy : ∀ va, 0 ≤ va < UXSTACKTOP - PGSIZE → is_Some (dup_frame (k_mem s) D (va / PGSIZE)) →
    ubyte (k_mem s') C va = ubyte (k_mem s) D va;
  fr_private : ∀ n D' P, 0 ≤ n < UPN - 1 → D' = C ∨ D' = D → frame (vpte (k_mem s') D' n) = Some P →
    tst (vpte (k_mem s') D' n) PTE_U = true → tst (vpte (k_mem s') D' n) PTE_W = false }.

Lemma ubyte_frame m m' D D' va :
  frame (vpte m' D' (va / PGSIZE)) = frame (vpte m D (va / PGSIZE)) →
  (∀ P, frame (vpte m D (va / PGSIZE)) = Some P → page_same P m m') → ubyte m' D' va = ubyte m D va.
Proof.
  intros E Hs. unfold ubyte. rewrite E. destruct (frame (vpte m D (va / PGSIZE))) as [P|]; [|done].
  f_equal. apply (Hs P eq_refl). apply Z.mod_pos_bound. lia.
Qed.

Lemma frame_parent P w : Z.of_nat P < 65536 → frame w = Some P → frame (parent_pte P w) = Some P.
Proof. intros HP Hw. unfold parent_pte. destruct (cowish w); [|done]. apply frame_mkpte; done || lia. Qed.

Lemma frame_child P w : Z.of_nat P < 65536 → frame (child_pte P w) = Some P.
Proof.
  intros HP. unfold child_pte. destruct (cowish w); [apply frame_mkpte; done || lia|].
  destruct (tst w PTE_SHARE); [|apply frame_mkpte; done || lia].
  apply frame_mkpte; [lia|apply share_range|apply odd_lor_P].
Qed.

(** Neither entry is writable. *)
Lemma parent_ro P w : tst (parent_pte P w) PTE_W = false.
Proof.
  unfold parent_pte. destruct (cowish w) eqn:E; [by rewrite tst_mkpte by lia|].
  by apply orb_false_iff in E as [E _].
Qed.

Lemma child_ro P w : tst (child_pte P w) PTE_W = false.
Proof.
  unfold child_pte. destruct (cowish w) eqn:E; [by rewrite tst_mkpte by lia|].
  apply orb_false_iff in E as [E _]. destruct (tst w PTE_SHARE); [|by rewrite tst_mkpte by lia].
  rewrite tst_mkpte by (lia || apply share_range). change PTE_W with (2 ^ 1) in *.
  rewrite tst_bit in E |- * by lia. by rewrite Z.lor_spec, Z.land_spec, E.
Qed.

Section parent.
Context (s : kst) (C : nat) (l Ds : list nat) (ex : nat → Z) (KP : nat) (fl : list nat).
Context (c D : nat) (cv : Env) (e : nat) (v : Env) (thisenv_va upcall : Z).
Hypothesis H : uvm s (C :: l) Ds ex.
Hypothesis Hr : running s Ds c cv D.
Hypothesis Hkd : kern_dir s (C :: l) KP.
Hypothesis Hi : env_inv s (e :: fl).
Hypothesis Hv : k_envs s !! e = Some v.
Hypothesis Href : ∀ q, mapped Ds (k_mem s) q → refc s q + dups (k_mem s) D (UPN - 1) q < 65535.
Hypothesis Hroom : (length (fork_dirs (k_mem s) D) < length l)%nat.
Hypothesis Hup : 0 ≤ upcall < 2 ^ 32.
Local Abbreviation s0 := (after_exofork cv e C KP v s) (only parsing).
Local Abbreviation cid := (env_id (exofork_child cv e C v)) (only parsing).

Lemma par_dup n : 0 ≤ n < UPN → dup_frame (k_mem s0) D n = dup_frame (k_mem s) D n.
Proof.
  intros Hn. unfold dup_frame. by rewrite (exo_vpte s C l Ds ex KP cv e v H Hkd D n (ru_dir _ _ _ _ _ Hr) Hn).
Qed.

Lemma par_mapped q : mapped (C :: Ds) (k_mem s0) q → mapped Ds (k_mem s) q ∧ q ≠ C.
Proof.
  intros (D' & n & HD' & Hn & Hq). apply elem_of_cons in HD' as [->|HD'].
  - by rewrite (exo_vpte_new s C l KP cv e v Hkd n Hn) in Hq.
  - rewrite (exo_vpte s C l Ds ex KP cv e v H Hkd D' n HD' Hn) in Hq. split; [by exists D', n|].
    intros ->. apply (uv_map _ _ _ _ H D' n C HD' Hn) in Hq as [Hq _]. apply Hq. left.
Qed.

Lemma par_refs q : mapped (C :: Ds) (k_mem s0) q → refc s0 q + dups (k_mem s0) D (UPN - 1) q < 65535.
Proof.
  intros Hq. destruct (par_mapped q Hq) as [Hm Hne]. rewrite exo_refc by done.
  assert (dups (k_mem s0) D (UPN - 1) q = dups (k_mem s) D (UPN - 1) q) as E.
  { apply zsum_ext. intros n Hn%elem_of_seqZ. by rewrite par_dup by lia. }
  rewrite E. by apply Href.
Qed.

Lemma par_dirs : fork_dirs (k_mem s0) D = fork_dirs (k_mem s) D.
Proof.
  apply List.filter_ext_in. intros d Hd%list_elem_of_In%elem_of_seqZ. unfold has_table.
  by rewrite (exo_table s C l Ds ex KP cv e v H Hkd D d (ru_dir _ _ _ _ _ Hr)) by lia.
Qed.

Lemma par_child : 0 < cid < 2 ^ 31.
Proof. apply (exo_child_id s C fl cv e v Hi Hv). Qed.

(** The loop. *)
Lemma par_loop : ∃ s1 l1, fork_loop FORK_FUEL cid 0 s0 = Ok tt s1 ∧
  forked s0 l (C :: Ds) ex D C (UPN - 1) s1 l1.
Proof.
  pose proof par_child. pose proof (ru_dir _ _ _ _ _ Hr) as HD.
  pose proof (exo_uvm s C l Ds ex KP fl c D cv e v H Hr Hkd Hi) as U.
  pose proof (exo_running s C Ds KP fl c D cv e v Hr Hi) as R.
  pose proof (exo_target s C Ds KP fl c D cv e v Hr Hi Hv) as T.
  assert (HCD : C ≠ D) by (apply not_eq_sym, (exo_dir s C l Ds ex H D HD)).
  assert (He : ∀ n, 0 ≤ n < UPN → frame (vpte (k_mem s0) C n) = None).
  { intros n Hn. by rewrite (exo_vpte_new s C l KP cv e v Hkd n Hn). }
  assert (F : forked s0 l (C :: Ds) ex D C (Z.min (NPTENTRIES * 0) (UPN - 1)) s0 l).
  { apply (forked_0 s0 l (C :: Ds) ex D C U); [done|by rewrite par_dirs]. }
  exact (fork_loop_run s0 l (C :: Ds) ex c D C cv cid R T ltac:(lia) HCD He par_refs FORK_FUEL 0 s0 l
    ltac:(lia) ltac:(lia) F).
Qed.

(** The rest: the exception stack, the handler and the status. *)
Lemma par_finish s1 l1 : forked s0 l (C :: Ds) ex D C (UPN - 1) s1 l1 →
  ∃ s2 s' l' Q, u_sys_page_alloc cid (UXSTACKTOP - PGSIZE) PTE_PUW s1 = Ok 0 s2 ∧
    (Ecode ← u_sys_env_set_pgfault_upcall cid upcall;
     if negb (Ecode =? 0) then mpanic "sys_env_set_pgfault_upcall error!" else
     Ecode ← u_sys_env_set_status cid ENV_RUNNABLE;
     if negb (Ecode =? 0) then mpanic "sys_env_set_status error!" else mret tt) s2 = Ok tt s' ∧
    k_envs s' = <[e := fork_child cv e C upcall v]> (k_envs s) ∧ k_mem s' = k_mem s2 ∧
    uvm s' l' (C :: Ds) ex ∧ Q ∈ l1 ∧
    (∃ k, remap (C :: Ds) ex k s1 l1 C XSTACKN (mkpte Q 7) s2 l') ∧
    (∀ i, 0 ≤ i < PGSIZE → rd8 (k_mem s2) (Z.of_nat Q * PGSIZE + i) = 0).
Proof.
  intros F. pose proof par_child as Hcid. pose proof (ru_dir _ _ _ _ _ Hr) as HD.
  pose proof (lookup_lt_Some _ _ _ Hv) as Hlt. pose proof (exo_ne s Ds fl c D cv e Hr Hi) as Hne.
  pose proof (am_uvm _ _ _ _ _ _ _ _ (fk_addmap _ _ _ _ _ _ _ _ _ F)) as U1.
  pose proof (am_frame _ _ _ _ _ _ _ _ (fk_addmap _ _ _ _ _ _ _ _ _ F)) as F1.
  pose proof (target_frame _ _ _ _ _ F1 (exo_target s C Ds KP fl c D cv e v Hr Hi Hv)) as T1.
  assert (Hds : 954 ∈ fork_dirs (k_mem s0) D).
  { apply list_elem_of_In, List.filter_In. split; [apply list_elem_of_In, elem_of_seqZ; lia|].
    by rewrite orb_true_r. }
  pose proof (fk_room _ _ _ _ _ _ _ _ _ F) as Hl.
  destruct l1 as [|Q l1]; [cbn in Hl; lia|].
  destruct (alloc_remap s1 Q l1 (C :: Ds) ex cid C XSTACKN 7 U1 T1 ltac:(lia) eq_refl)
    as (s2 & l2 & R2 & M & Z2 & _).
  { destruct (missing_room _ _ _ _ 954 Hds Hl) as [?|Hl2]; [by left|].
    right. intros ->. cbn in Hl2. lia. }
  change (Z.lor PTE_P 7) with 7 in M. pose proof (rm_frame _ _ _ _ _ _ _ _ _ _ M) as F2.
  destruct (vm_frame_envs_same _ _ (vm_frame_trans _ _ _ F1 F2)) as [E2 C2].
  change (k_envs s0) with (<[e := exofork_child cv e C v]> (k_envs s)) in E2.
  assert (Hc2 : curenv_of s2 = Some c) by (rewrite C2; apply (ru_cur _ _ _ _ _ Hr)).
  pose proof (exo_envid s C Ds KP fl c D cv e v Hr Hi Hv) as Hid.
  set (w := set_env_pgfault_upcall upcall (exofork_child cv e C v)).
  set (s3 := with_envs (<[e := w]> (k_envs s)) s2).
  assert (R3 : sys_env_set_pgfault_upcall cid upcall s2 = Ok 0 s3).
  { unfold sys_env_set_pgfault_upcall.
    mcall (Hid s2 (exofork_child cv e C v) Hc2 E2 eq_refl eq_refl ltac:(done)).
    cbn [negb Z.eqb mderef]. mrun. erewrite bind_Ok by (apply env_upd_run; rewrite E2; by apply list_lookup_insert_eq).
    by rewrite E2, list_insert_insert_eq. }
  set (s4 := with_envs (<[e := fork_child cv e C upcall v]> (k_envs s)) s3).
  assert (R4 : sys_env_set_status cid ENV_RUNNABLE s3 = Ok 0 s4).
  { unfold sys_env_set_status.
    mcall (Hid s3 w Hc2 eq_refl eq_refl eq_refl ltac:(done)).
    change (negb (ENV_RUNNABLE =? ENV_RUNNABLE)) with false. cbn [negb Z.eqb mderef andb]. mrun. unfold s3.
    erewrite bind_Ok by (by apply env_upd_again). done. }
  exists s2, s4, l2, Q. split_and!; try done.
  - apply (u_alloc_run s1 s2 cid XSTACKN 7 R2 eq_refl); lia.
  - rewrite (bind_Ok _ _ _ _ _ (u_upcall_run _ _ _ _ R3 ltac:(lia) Hup)). cbn [negb Z.eqb].
    by rewrite (bind_Ok _ _ _ _ _ (u_status_run _ _ _ _ R4 ltac:(lia) ltac:(lia))).
  - apply (uvm_envs s2); [apply M|]. unfold cur_ok. change (curenv_of (with_envs _ s2)) with (curenv_of s2).
    rewrite Hc2. exists cv. cbn. rewrite list_lookup_insert_ne by done. apply (ru_env _ _ _ _ _ Hr).
  - by left.
  - by eexists.
Qed.

Section result.
Context (s1 s2 : kst) (l1 l2 : list nat) (Q k : nat).
Hypothesis F : forked s0 l (C :: Ds) ex D C (UPN - 1) s1 l1.
Hypothesis M : remap (C :: Ds) ex k s1 l1 C XSTACKN (mkpte Q 7) s2 l2.
Hypothesis HQ : Q ∈ l1.

Lemma res_child n : 0 ≤ n < UPN - 1 → vpte (k_mem s2) C n = child_entry (k_mem s) D n.
Proof.
  intros Hn. pose proof (ru_dir _ _ _ _ _ Hr) as HD.
  rewrite (rm_pte _ _ _ _ _ _ _ _ _ _ M) by (by left || lia).
  rewrite bool_decide_eq_false_2 by lia. rewrite (fk_pte _ _ _ _ _ _ _ _ _ F) by (by left || lia).
  unfold forked_pte. rewrite (proj2 (Z.ltb_lt _ _)) by lia. rewrite par_dup by lia.
  rewrite (exo_vpte s C l Ds ex KP cv e v H Hkd D n HD), (exo_vpte_new s C l KP cv e v Hkd n) by lia.
  unfold child_entry. destruct (dup_frame (k_mem s) D n); [|done]. by rewrite bool_decide_eq_true_2.
Qed.

Lemma res_old D' n : D' ∈ Ds → 0 ≤ n < UPN →
  vpte (k_mem s2) D' n = if bool_decide (D' = D) && (n <? UPN - 1) then parent_entry (k_mem s) D n
                         else vpte (k_mem s) D' n.
Proof.
  intros HD' Hn. pose proof (exo_dir s C l Ds ex H D' HD') as HC. pose proof (ru_dir _ _ _ _ _ Hr) as HD.
  rewrite (rm_pte _ _ _ _ _ _ _ _ _ _ M) by (by right || lia).
  rewrite bool_decide_eq_false_2 by (by intros [-> _]). rewrite (fk_pte _ _ _ _ _ _ _ _ _ F) by (by right || lia).
  unfold forked_pte. rewrite par_dup by lia.
  rewrite !(exo_vpte s C l Ds ex KP cv e v H Hkd) by done. unfold parent_entry.
  rewrite (bool_decide_eq_false_2 (D' = C)) by done.
  destruct (n <? UPN - 1); rewrite ?andb_false_r, ?andb_true_r; [|done].
  destruct (dup_frame (k_mem s) D n); case_bool_decide; by subst.
Qed.

(** Every page that was mapped keeps its contents, and its place. *)
Lemma res_page D' n P : D' ∈ Ds → 0 ≤ n < UPN → frame (vpte (k_mem s) D' n) = Some P →
  frame (vpte (k_mem s2) D' n) = Some P ∧ page_same P (k_mem s) (k_mem s2).
Proof.
  intros HD' Hn HP. pose proof (exo_dir s C l Ds ex H D' HD') as HC.
  destruct (uv_map _ _ _ _ H D' n P HD' Hn HP) as ([HPC _]%not_elem_of_cons & _).
  pose proof HP as HP0. rewrite <- (exo_vpte s C l Ds ex KP cv e v H Hkd D' n HD' Hn) in HP0.
  destruct (am_keep _ _ _ _ _ _ _ _ (fk_addmap _ _ _ _ _ _ _ _ _ F) D' n P ltac:(by right) Hn HP0) as [HP1 S1].
  split.
  - rewrite (rm_pte _ _ _ _ _ _ _ _ _ _ M) by (by right || lia).
    by rewrite bool_decide_eq_false_2 by (by intros [-> _]).
  - eapply page_same_trans; [by apply (exo_page s C KP cv e v)|]. eapply page_same_trans; [exact S1|].
    apply (rm_data _ _ _ _ _ _ _ _ _ _ M).
    apply (uv_map _ _ _ _ (am_uvm _ _ _ _ _ _ _ _ (fk_addmap _ _ _ _ _ _ _ _ _ F)) D' n); [by right|done..].
Qed.

Lemma res_private n D' P : 0 ≤ n < UPN - 1 → D' = C ∨ D' = D → frame (vpte (k_mem s2) D' n) = Some P →
  tst (vpte (k_mem s2) D' n) PTE_U = true → tst (vpte (k_mem s2) D' n) PTE_W = false.
Proof.
  intros Hn HD'. pose proof (ru_dir _ _ _ _ _ Hr) as HD. destruct HD' as [-> | ->].
  - rewrite res_child by done. unfold child_entry. destruct (dup_frame _ D n); [|done]. intros _ _. apply child_ro.
  - rewrite (res_old D n HD ltac:(lia)), bool_decide_eq_true_2, (proj2 (Z.ltb_lt _ _)) by (done || lia).
    cbn [andb]. unfold parent_entry, dup_frame.
    destruct (tst (vpte (k_mem s) D n) PTE_U) eqn:HU; [|intros _; by rewrite HU].
    destruct (frame (vpte (k_mem s) D n)) eqn:HP; [intros _ _; apply parent_ro|by rewrite HP].
Qed.

Lemma res_fork s' : k_mem s' = k_mem s2 → uvm s' l2 (C :: Ds) ex →
  (∀ i, 0 ≤ i < PGSIZE → rd8 (k_mem s2) (Z.of_nat Q * PGSIZE + i) = 0) →
  fork_result s Ds ex D C Q s' l2.
Proof.
  intros Em U' HZ. pose proof (ru_dir _ _ _ _ _ Hr) as HD. pose proof (exo_dir s C l Ds ex H) as HC.
  constructor; rewrite ?Em; [done|apply res_child|split_and!; [|done|]|..].
  - rewrite (rm_pte _ _ _ _ _ _ _ _ _ _ M) by (by left || lia). by rewrite bool_decide_eq_true_2.
  - intros D' n HD' Hn. rewrite (rm_pte _ _ _ _ _ _ _ _ _ _ M) by done. case_bool_decide; [done|].
    intros HQ'. exfalso.
    by apply (uv_map _ _ _ _ (am_uvm _ _ _ _ _ _ _ _ (fk_addmap _ _ _ _ _ _ _ _ _ F)) D' n Q) in HQ' as [? _].
  - intros n Hn. rewrite (res_old D n HD ltac:(lia)), bool_decide_eq_true_2 by done.
    by rewrite (proj2 (Z.ltb_lt _ _)) by lia.
  - intros D' n HD' Hn Ho. rewrite res_old by done. destruct Ho as [Ho| ->].
    + by rewrite bool_decide_eq_false_2.
    + by rewrite andb_false_r.
  - intros D' va HD' Hva. destruct (page_addr va Hva) as (_ & _ & Hn). apply ubyte_frame.
    + destruct (frame (vpte (k_mem s) D' (va / PGSIZE))) as [P|] eqn:HP; [by apply res_page|].
      rewrite res_old by done. destruct (bool_decide_reflect (D' = D)) as [-> |]; [|done].
      cbn [andb]. destruct (_ <? _); [|done]. unfold parent_entry, dup_frame. rewrite HP.
      by destruct (tst _ PTE_U).
    + intros P HP. by apply (res_page D' (va / PGSIZE)).
  - intros va Hva [P HP]. destruct (page_addr va ltac:(lia)) as (_ & _ & Hn).
    assert (Hf : frame (vpte (k_mem s) D (va / PGSIZE)) = Some P) by (unfold dup_frame in HP; by destruct (tst _ PTE_U)).
    apply ubyte_frame; [|intros P' HP'; by apply (res_page D (va / PGSIZE))].
    rewrite res_child by (split; [lia|apply Z.div_lt_upper_bound; lia]). unfold child_entry. rewrite HP, Hf.
    apply frame_child. destruct (mapped_page s (C :: l) Ds ex P H) as (_ & Hb & _); [by exists D, (va / PGSIZE)|].
    pose proof (ai_max _ _ (vi_alloc _ _ _ _ (uv_inv _ _ _ _ H))). lia.
  - apply res_private.
Qed.
End result.

Lemma par_rest : ∃ s' l' Q, fork_rest thisenv_va upcall cid s0 = Ok cid s' ∧
  k_envs s' = <[e := fork_child cv e C upcall v]> (k_envs s) ∧ fork_result s Ds ex D C Q s' l'.
Proof.
  pose proof par_child as Hcid. destruct par_loop as (s1 & l1 & R1 & F).
  destruct (par_finish s1 l1 F) as (s2 & s' & l' & Q & R2 & R3 & E' & Em & U' & HQ & (k & M) & HZ).
  exists s', l', Q. split_and!; [|done|by eapply res_fork].
  unfold fork_rest. rewrite (proj2 (Z.ltb_lt _ _)) by lia.
  rewrite (bind_Ok _ _ s0 tt s'); [done|]. mcall R1. mcall R2. cbn [negb Z.eqb]. exact R3.
Qed.
End parent.


(** ** set_pgfault_handler when a handler is set *)

Lemma set_handler_again s l Ds ex e v D hva upcall handler P :
  uvm s l Ds ex → running s Ds e v D → 0 ≤ hva < UTOP →
  frame (vpte (k_mem s) D (hva / PGSIZE)) = Some P →
  tst (vpte (k_mem s) D (hva / PGSIZE)) PTE_U = true → tst (vpte (k_mem s) D (hva / PGSIZE)) PTE_W = true →
  rd32 (k_mem s) (Z.of_nat P * PGSIZE + hva mod PGSIZE) ≠ 0 →
  set_pgfault_handler hva upcall handler s =
    Ok tt (with_mem (wr32 (k_mem s) (Z.of_nat P * PGSIZE + hva mod PGSIZE) handler) s).
Proof.
  intros H Hr Hva HP HU HW Hne. unfold set_pgfault_handler, vld32, cow_st32, vst32. rewrite bind_assoc, bind_get.
  rewrite (user_phys_va s l Ds ex e D v false hva H Hr Hva), HP, HU. cbn [negb orb andb]. mrun.
  rewrite (proj2 (Z.eqb_neq _ _) Hne). cbn [mwhen]. mrun.
  rewrite (user_phys_va s l Ds ex e D v true hva H Hr Hva), HP, HU, HW. cbn [negb orb andb]. mrun.
  by rewrite (user_phys_va s l Ds ex e D v true hva H Hr Hva), HP, HU, HW.
Qed.

(** ** An example *)

(** Page 4, with the handler's address, mapped read-write at 0x801000. *)
Definition demo_forker : kst := demo_space_map (Z.lor PTE_U PTE_W).
Definition demo_handler_set (s : kst) : kst := with_mem (wr32 (k_mem s) (4 * PGSIZE) 8388640) s.

Section demo.
Context (s : kst) (l : list nat).
Hypothesis M : remap [1%nat] demo_space_ex 1 demo_space demo_space_free 1 2049 (mkpte 4 7) s l.

Lemma df_pte n : 0 ≤ n < UPN → vpte (k_mem s) 1 n = if n =? 2049 then mkpte 4 7 else 0.
Proof.
  intros Hn. rewrite (rm_pte _ _ _ _ _ _ _ _ _ _ M) by (lia || left).
  rewrite (bool_decide_ext _ (n = 2049)) by tauto. case_bool_decide as E.
  - by rewrite (proj2 (Z.eqb_eq _ _) E).
  - rewrite (proj2 (Z.eqb_neq _ _) E). change (k_mem demo_space) with demo_space_mem.
    unfold vpte, pte_at. by rewrite demo_space_table by (by apply user_pdx).
Qed.

Lemma df_data q : q ∈ [4; 5]%nat → data_page demo_space demo_space_free [1%nat] q.
Proof.
  intros Hq. assert (q = 4 ∨ q = 5)%nat as Hq'.
  { apply elem_of_cons in Hq as [->|Hq]; [by left|]. right. by apply list_elem_of_singleton in Hq. }
  split_and!; [|intros ?%list_elem_of_singleton; lia|].
  - unfold demo_space_free. rewrite !elem_of_cons, elem_of_nil. lia.
  - intros D d ->%list_elem_of_singleton Hd. change (k_mem demo_space) with demo_space_mem.
    by rewrite demo_space_table.
Qed.

Lemma df_word : rd32 (k_mem s) (4 * PGSIZE) = 1.
Proof.
  change (4 * PGSIZE) with (ent 4 0). rewrite (rd32_page_same 4 0 (k_mem demo_space)); [|apply M, df_data; left|lia].
  change (k_mem demo_space) with demo_space_mem. rewrite demo_space_rd by lia. reflexivity.
Qed.

Lemma df_only : only_page 4 (k_mem s) (k_mem (demo_handler_set s)).
Proof. intros q Hq. apply (page_same_wr q 4 0); [done|lia]. Qed.

Lemma df_mapped : data_page s l [1%nat] 4.
Proof. apply (uv_map _ _ _ _ (rm_uvm _ _ _ _ _ _ _ _ _ _ M) 1 2049); [left|lia|]. by rewrite df_pte by lia. Qed.

Lemma df_uvm : uvm (demo_handler_set s) l [1%nat] demo_space_ex.
Proof. apply (uvm_poke s l [1%nat] demo_space_ex 4); [apply M|apply df_mapped|apply df_only]. Qed.

Lemma df_set_pte n : 0 ≤ n < UPN →
  vpte (k_mem (demo_handler_set s)) 1 n = if n =? 2049 then mkpte 4 7 else 0.
Proof.
  intros Hn. rewrite <- (df_pte n Hn). apply (vpte_poke s l [1%nat] 4); [apply df_mapped|apply df_only|left|done].
Qed.

Lemma df_running : running (demo_handler_set s) [1%nat] 0 demo_space_env 1.
Proof.
  apply (running_frame s); [apply vm_frame_mem|].
  apply (running_frame demo_space); [apply M|apply demo_space_running].
Qed.

Lemma df_dups q : dups (k_mem (demo_handler_set s)) 1 (UPN - 1) q = zb (bool_decide (4%nat = q)).
Proof.
  assert (Hz : ∀ n, 0 ≤ n < UPN → dup_frame (k_mem (demo_handler_set s)) 1 n = if n =? 2049 then Some 4%nat else None).
  { intros n Hn. unfold dup_frame. rewrite df_set_pte by done. by destruct (n =? 2049). }
  rewrite (dups_skip _ _ 2050 (UPN - 1)); [|lia|intros n Hn; rewrite Hz by lia; by rewrite (proj2 (Z.eqb_neq _ _)) by lia].
  change 2050 with (2049 + 1). rewrite dups_next by lia.
  rewrite (dups_skip _ _ 0 2049); [|lia|intros n Hn; rewrite Hz by lia; by rewrite (proj2 (Z.eqb_neq _ _)) by lia].
  rewrite Hz by lia. change (2049 =? 2049) with true. cbn iota.
  rewrite (bool_decide_ext (Some 4%nat = Some q) (4%nat = q)) by (split; [by intros [= ->]|by intros ->]). done.
Qed.

Lemma df_ref q p : q ∈ [4; 5]%nat → k_pages s !! q = Some p → pp_ref p = 1.
Proof.
  intros Hq Hp. destruct (rm_ref _ _ _ _ _ _ _ _ _ _ M q p (proj1 (df_data q Hq)) Hp) as (p0 & Hp0 & ->).
  rewrite (demo_space_ref q p0 Hp0). unfold demo_space_ex.
  change (frame (mkpte 4 7)) with (Some 4%nat). change (k_mem demo_space) with demo_space_mem.
  assert (frame (vpte demo_space_mem 1 2049) = None) as ->.
  { unfold vpte, pte_at. by rewrite demo_space_table by (vm_compute; split; congruence). }
  apply elem_of_cons in Hq as [->|Hq]; [reflexivity|]. apply list_elem_of_singleton in Hq as ->. reflexivity.
Qed.

Lemma df_refs q : mapped [1%nat] (k_mem (demo_handler_set s)) q →
  refc (demo_handler_set s) q + dups (k_mem (demo_handler_set s)) 1 (UPN - 1) q < 65535.
Proof.
  intros (D & n & ->%list_elem_of_singleton & Hn & Hq). rewrite df_set_pte in Hq by done.
  destruct (n =? 2049); [|done]. change (frame (mkpte 4 7)) with (Some 4%nat) in Hq. injection Hq as <-.
  rewrite df_dups. unfold refc. change (k_pages (demo_handler_set s)) with (k_pages s).
  destruct (k_pages s !! 4%nat) as [p|] eqn:Hp; [rewrite (df_ref 4 p) by (done || left)|]; reflexivity.
Qed.

Lemma df_dirs : length (fork_dirs (k_mem (demo_handler_set s)) 1) = 2%nat.
Proof.
  unfold fork_dirs. rewrite (filter_length_ext _ (λ d, (d =? 2) || (d =? 954))); [reflexivity|].
  intros d Hd%elem_of_seqZ. f_equal. unfold has_table.
  rewrite (poke_table s l [1%nat] 4 _ df_mapped df_only 1 d) by (lia || left).
  destruct (Z.eqb_spec d 2) as [-> |Hne].
  - apply bool_decide_eq_true_2. change 2 with (2049 / NPTENTRIES). eapply frame_table. by rewrite df_pte by lia.
  - rewrite (rm_new _ _ _ _ _ _ _ _ _ _ M 1%nat d ltac:(left) ltac:(lia) (or_intror Hne)).
    change (k_mem demo_space) with demo_space_mem. rewrite demo_space_table by lia.
    by apply bool_decide_eq_false_2, is_Some_None.
Qed.

Lemma df_kern : kern_dir (demo_handler_set s) l 5.
Proof.
  pose proof (rm_frame _ _ _ _ _ _ _ _ _ _ M) as F.
  pose proof (vi_alloc _ _ _ _ (uv_inv _ _ _ _ (rm_uvm _ _ _ _ _ _ _ _ _ _ M))) as Ha.
  pose proof (vm_frame_npages _ _ F) as Hn. change (k_npages demo_space) with 16 in Hn.
  constructor; change (k_npages (demo_handler_set s)) with (k_npages s).
  - destruct F as (? & ? & ? & ? & ->). reflexivity.
  - rewrite Hn. reflexivity.
  - intros Hin. destruct (ai_lookup s l 5 Ha) as [p Hp]; [rewrite Hn; reflexivity|].
    pose proof (df_ref 5 p ltac:(right; left) Hp) as Hr. rewrite (ai_free _ _ Ha 5%nat p Hin Hp) in Hr. discriminate Hr.
  - intros d Hd. unfold table_at.
    rewrite (rd32_page_same 5 d (k_mem s)); [|by apply df_only|lia].
    rewrite (rd32_page_same 5 d (k_mem demo_space)); [|apply M, df_data; right; left|lia].
    change (k_mem demo_space) with demo_space_mem. rewrite demo_space_rd by lia.
    rewrite !bool_decide_eq_false_2 by lia. reflexivity.
Qed.
End demo.

Lemma demo_space_env_inv : env_inv demo_space [Z.to_nat 1023].
Proof.
  assert (Hl : length demo_space_envs = Z.to_nat NENV).
  { unfold demo_space_envs. cbn [length]. rewrite length_app, length_replicate. cbn [length]. lia. }
  assert (Hk : ∀ i e, demo_space_envs !! i = Some e → (i = Z.to_nat 1023 ∧ e = demo_free_env) ∨
    ((i < Z.to_nat 1023)%nat ∧ env_status e ≠ ENV_FREE ∧ (env_id e = 0 ∨ id_ok i (env_id e)))).
  { intros [|i] e; cbn [demo_space_envs lookup list_lookup].
    - intros [= <-]. right. split; [lia|]. split; [discriminate|]. right. split; [cbn; lia|reflexivity].
    - intros [H|[Hge H]]%lookup_app_Some.
      + apply lookup_replicate in H as [-> ?]. right. split; [lia|]. split; [discriminate|by left].
      + apply list_lookup_singleton_Some in H as [Hi <-]. rewrite length_replicate in *. left. split; [lia|done]. }
  constructor; change (k_envs demo_space) with demo_space_envs.
  - exact Hl.
  - cbn [env_chain]. split; [reflexivity|]. exists demo_free_env. split; [|done].
    destruct (lookup_lt_is_Some_2 demo_space_envs (Z.to_nat 1023)) as [e He]; [lia|].
    rewrite He. f_equal. destruct (Hk _ _ He) as [[_ ?]|[? _]]; [done|lia].
  - apply NoDup_singleton.
  - intros i e He. rewrite list_elem_of_singleton. destruct (Hk _ _ He) as [[-> ->]|(? & ? & _)]; [done|].
    split; [done|]. intros ->. lia.
  - intros i e He. destruct (Hk _ _ He) as [[-> ->]|(_ & _ & ?)]; [by left|done].
Qed.

