(* ===== verification/Upcall.v ===== *)
(** The page fault upcall of lib/pfentry.S, instruction by instruction, and
    that it undoes what the kernel's page_fault_handler (Trap.v) did: the
    environment goes on at the faulting instruction with all its registers.

    The program's memory is flat here, as the program sees it.  How the
    arithmetic instructions set the status flags and what the called handler
    does are parameters. *)

From S2P Require Import Prelude Mmu Printfmt Console KState Pmap PageTable Env Sched Syscall Trap.
From Stdlib Require Import ZArith Lia.
From stdpp Require Import base tactics numbers list.
Open Scope Z_scope.

(** ** The processor in user mode *)

(** [u_regs] leaves the stack pointer to [u_esp]. *)
Record ucpu := mkU { u_regs : PushRegs; u_esp : Z; u_eip : Z; u_eflags : Z; u_mem : mem }.

Definition set_u_esp (x : Z) (s : ucpu) : ucpu := mkU (u_regs s) x (u_eip s) (u_eflags s) (u_mem s).
Definition set_u_eip (x : Z) (s : ucpu) : ucpu := mkU (u_regs s) (u_esp s) x (u_eflags s) (u_mem s).
Definition set_u_eflags (x : Z) (s : ucpu) : ucpu := mkU (u_regs s) (u_esp s) (u_eip s) x (u_mem s).
Definition set_u_mem (x : mem) (s : ucpu) : ucpu := mkU (u_regs s) (u_esp s) (u_eip s) (u_eflags s) x.
Definition set_u_edi (x : Z) (s : ucpu) : ucpu :=
  let r := u_regs s in
  mkU (mkRegs x (reg_esi r) (reg_ebp r) (reg_oesp r) (reg_ebx r) (reg_edx r) (reg_ecx r) (reg_eax r))
    (u_esp s) (u_eip s) (u_eflags s) (u_mem s).
Definition set_u_esi (x : Z) (s : ucpu) : ucpu :=
  let r := u_regs s in
  mkU (mkRegs (reg_edi r) x (reg_ebp r) (reg_oesp r) (reg_ebx r) (reg_edx r) (reg_ecx r) (reg_eax r))
    (u_esp s) (u_eip s) (u_eflags s) (u_mem s).
Definition set_u_eax (x : Z) (s : ucpu) : ucpu := 
  mkU (set_reg_eax x (u_regs s)) (u_esp s) (u_eip s) (u_eflags s) (u_mem s).

Definition upush (x : Z) (s : ucpu) : ucpu :=
  let esp := u32 (u_esp s - 4) in set_u_esp esp (set_u_mem (wr32 (u_mem s) esp x) s).
Definition utop (s : ucpu) : Z := rd32 (u_mem s) (u_esp s).
Definition ustack (o : Z) (s : ucpu) : Z := rd32 (u_mem s) (u32 (u_esp s + o)).

(** What user mode may not change of eflags. *)
Abbreviation FL_SYSTEM := (Z.lor FL_IF FL_IOPL_MASK) (only parsing).

(** The instructions of pfentry.S. *)
Inductive instr :=
  | pushl_esp | movl_handler_eax | call_eax | addl_esp (n : Z)
  | movl_stack_edi (o : Z) | subl_edi (n : Z) | movl_edi_stack (o : Z)
  | movl_stack_esi (o : Z) | movl_esi_at_edi | popal | popfl | popl_esp | ret.

Section upcall.
(** The flags after an arithmetic instruction; a call of the function at an
    address, up to its return; the address of _pgfault_handler; the address
    after the call instruction. *)
Context (arith : Z → Z) (call_fn : Z → ucpu → ucpu) (handler_va return_to : Z).

Definition exec (i : instr) (s : ucpu) : ucpu :=
  match i with
  | pushl_esp => upush (u_esp s) s
  | movl_handler_eax => set_u_eax (rd32 (u_mem s) handler_va) s
  | call_eax => call_fn (reg_eax (u_regs s)) (upush return_to s)
  | addl_esp n => set_u_eflags (arith (u_eflags s)) (set_u_esp (u32 (u_esp s + n)) s)
  | movl_stack_edi o => set_u_edi (ustack o s) s
  | subl_edi n => set_u_eflags (arith (u_eflags s)) (set_u_edi (u32 (reg_edi (u_regs s) - n)) s)
  | movl_edi_stack o => set_u_mem (wr32 (u_mem s) (u32 (u_esp s + o)) (reg_edi (u_regs s))) s
  | movl_stack_esi o => set_u_esi (ustack o s) s
  | movl_esi_at_edi => set_u_mem (wr32 (u_mem s) (reg_edi (u_regs s)) (reg_esi (u_regs s))) s
  | popal =>
      mkU (mkRegs (ustack 0 s) (ustack 4 s) (ustack 8 s) (reg_oesp (u_regs s)) (ustack 16 s) (ustack 20 s)
             (ustack 24 s) (ustack 28 s))
        (u32 (u_esp s + 32)) (u_eip s) (u_eflags s) (u_mem s)
  | popfl =>
      set_u_esp (u32 (u_esp s + 4))
        (set_u_eflags (Z.lor (Z.ldiff (utop s) FL_SYSTEM) (Z.land (u_eflags s) FL_SYSTEM)) s)
  | popl_esp => set_u_esp (utop s) s
  | ret => set_u_esp (u32 (u_esp s + 4)) (set_u_eip (utop s) s)
  end.

Definition run_asm (p : list instr) (s : ucpu) : ucpu := foldl (λ s i, exec i s) s p.

Definition pgfault_upcall_call : list instr := [pushl_esp; movl_handler_eax; call_eax; addl_esp 4].
Definition pgfault_upcall_return : list instr :=
  [movl_stack_edi 48; subl_edi 4; movl_edi_stack 48; movl_stack_esi 40; movl_esi_at_edi;
   addl_esp 8; popal; addl_esp 4; popfl; popl_esp; ret].
Definition pgfault_upcall : list instr := pgfault_upcall_call ++ pgfault_upcall_return.

(** ** Return to the faulting instruction *)

(** The user trap frame [utf] at [a]. *)
Definition utf_at (m : mem) (a : Z) (utf : UTrapframe) : Prop :=
  ∀ k w, utf_words utf !! k = Some w → rd32 m (a + 4 * Z.of_nat k) = w.

(** What a handler compiled from C promises of a call: it returns, popping
    the return address, has not changed the privileged flags, and has left
    the user trap frame above its argument alone. *)
Definition handler_returns (f : Z) (s : ucpu) : Prop :=
  u_esp (call_fn f s) = u32 (u_esp s + 4) ∧
  Z.land (u_eflags (call_fn f s)) FL_SYSTEM = Z.land (u_eflags s) FL_SYSTEM ∧
  ∀ x, u_esp s + 8 ≤ x < u_esp s + 8 + 52 → rd8 (u_mem (call_fn f s)) x = rd8 (u_mem s) x.

Definition same_regs (r r' : PushRegs) : Prop :=
  reg_edi r = reg_edi r' ∧ reg_esi r = reg_esi r' ∧ reg_ebp r = reg_ebp r' ∧ reg_ebx r = reg_ebx r' ∧
  reg_edx r = reg_edx r' ∧ reg_ecx r = reg_ecx r' ∧ reg_eax r = reg_eax r'.

Lemma rd32_ext m m' a : (∀ x, a ≤ x < a + 4 → rd8 m' x = rd8 m x) → rd32 m' a = rd32 m a.
Proof. intros H. unfold rd32. by rewrite !H by lia. Qed.

Lemma utf_at_ext m m' a utf : (∀ x, a ≤ x < a + 52 → rd8 m' x = rd8 m x) → utf_at m a utf → utf_at m' a utf.
Proof.
  intros H Hu k w Hk. rewrite (rd32_ext m); [by apply Hu|]. intros x Hx. apply H.
  apply lookup_lt_Some in Hk. cbn in Hk. lia.
Qed.

(** The memory that the return code leaves: the new top of the trap-time
    stack in the frame, and the return address on that stack. *)
Definition return_mem (m : mem) (a : Z) (utf : UTrapframe) : mem :=
  wr32 (wr32 m (a + 48) (utf_esp utf - 4)) (utf_esp utf - 4) (utf_eip utf).

Section return_.
Context (s : ucpu) (utf : UTrapframe) (a : Z).
Hypothesis Ha : 0 ≤ a ∧ a + 52 < 2 ^ 32.
Hypothesis Hesp : u_esp s = a.
Hypothesis Hutf : utf_at (u_mem s) a utf.
Hypothesis Hstk : 4 ≤ utf_esp utf < 2 ^ 32.
Hypothesis Hdisj : utf_esp utf ≤ a ∨ a + 56 ≤ utf_esp utf.

Let m' := return_mem (u_mem s) a utf.

Lemma frame_word k w : utf_words utf !! k = Some w → (k < 12)%nat → rd32 m' (a + 4 * Z.of_nat k) = w.
Proof. intros Hw Hk. unfold m', return_mem. rewrite !rd32_wr32_ne by lia. by apply Hutf. Qed.

Lemma frame_top : rd32 m' (a + 48) = utf_esp utf - 4.
Proof. unfold m', return_mem. rewrite rd32_wr32_ne, rd32_wr32_eq by lia. apply u32_small. lia. Qed.

Lemma frame_eip : rd32 m' (utf_esp utf - 4) = u32 (utf_eip utf).
Proof. apply rd32_wr32_eq. Qed.

Lemma frame_off o : 0 ≤ o ≤ 52 → u32 (a + o) = a + o.
Proof. intros. apply u32_small. lia. Qed.

Lemma frame_add o o' : 0 ≤ o → 0 ≤ o' → o + o' ≤ 52 → u32 (u32 (a + o) + o') = u32 (a + (o + o')).
Proof. intros. rewrite (frame_off o) by lia. f_equal. lia. Qed.

(** The five instructions up to the restoring of the registers. *)
Lemma return_head : run_asm [movl_stack_edi 48; subl_edi 4; movl_edi_stack 48; movl_stack_esi 40; movl_esi_at_edi] s
  = mkU (mkRegs (utf_esp utf - 4) (utf_eip utf) (reg_ebp (u_regs s)) (reg_oesp (u_regs s)) (reg_ebx (u_regs s))
          (reg_edx (u_regs s)) (reg_ecx (u_regs s)) (reg_eax (u_regs s))) a (u_eip s) (arith (u_eflags s)) m'.
Proof.
  unfold run_asm, m', return_mem. cbn [foldl exec]. unfold ustack. cbn. rewrite Hesp, !frame_off by lia.
  assert (E : ∀ k o w, o = 4 * Z.of_nat k → utf_words utf !! k = Some w → rd32 (u_mem s) (a + o) = w).
  { intros k o w -> Hw. by apply Hutf. }
  rewrite (E 12%nat 48 _ eq_refl eq_refl). rewrite (u32_small (utf_esp utf - 4)) by lia.
  rewrite rd32_wr32_ne by lia. rewrite (E 10%nat 40 _ eq_refl eq_refl), <- Hesp. reflexivity.
Qed.

Lemma return_run : let s' := run_asm pgfault_upcall_return s in
  same_regs (u_regs s') (utf_regs utf) ∧ u_esp s' = utf_esp utf ∧ u_eip s' = u32 (utf_eip utf) ∧
  u_eflags s' = Z.lor (Z.ldiff (utf_eflags utf) FL_SYSTEM)
                  (Z.land (arith (arith (arith (u_eflags s)))) FL_SYSTEM) ∧ u_mem s' = m'.
Proof.
  unfold pgfault_upcall_return.
  change (run_asm _ s) with (run_asm [addl_esp 8; popal; addl_esp 4; popfl; popl_esp; ret]
    (run_asm [movl_stack_edi 48; subl_edi 4; movl_edi_stack 48; movl_stack_esi 40; movl_esi_at_edi] s)).
  rewrite return_head. unfold run_asm. cbn [foldl exec]. unfold ustack, utop. cbn.
  rewrite !frame_add by lia.
  assert (E : ∀ k o w, o = 4 * Z.of_nat k → (k < 12)%nat → utf_words utf !! k = Some w →
    rd32 m' (u32 (a + o)) = w).
  { intros k o w -> Hk Hw. rewrite frame_off by lia. by apply frame_word. }
  rewrite (E 2%nat (8 + 0) _ eq_refl ltac:(lia) eq_refl), (E 3%nat (8 + 4) _ eq_refl ltac:(lia) eq_refl),
    (E 4%nat (8 + 8) _ eq_refl ltac:(lia) eq_refl), (E 6%nat (8 + 16) _ eq_refl ltac:(lia) eq_refl),
    (E 7%nat (8 + 20) _ eq_refl ltac:(lia) eq_refl), (E 8%nat (8 + 24) _ eq_refl ltac:(lia) eq_refl),
    (E 9%nat (8 + 28) _ eq_refl ltac:(lia) eq_refl), (E 11%nat (8 + 32 + 4) _ eq_refl ltac:(lia) eq_refl).
  change (8 + 32 + 4 + 4) with 48. rewrite frame_off, frame_top, frame_eip by lia.
  split_and!; try done. rewrite u32_small by lia. lia.
Qed.
End return_.

(** The state in which the upcall enters the handler: the address of the
    user trap frame as argument, and the return address, pushed. *)
Definition handler_entry (s : ucpu) : ucpu :=
  upush return_to (set_u_eax (rd32 (u_mem (upush (u_esp s) s)) handler_va) (upush (u_esp s) s)).

Lemma call_run s a utf (h := reg_eax (u_regs (handler_entry s))) :
  8 ≤ a → a + 52 < 2 ^ 32 → u_esp s = a → utf_at (u_mem s) a utf → handler_returns h (handler_entry s) →
  let s1 := run_asm pgfault_upcall_call s in
  u_esp s1 = a ∧ utf_at (u_mem s1) a utf ∧ u_mem s1 = u_mem (call_fn h (handler_entry s)) ∧
  u_eflags s1 = arith (u_eflags (call_fn h (handler_entry s))).
Proof.
  intros Hlo Hhi He Hu (Hp & _ & Hm).
  assert (Ee : u_esp (handler_entry s) = a - 8).
  { unfold handler_entry. cbn. rewrite He, !u32_small by (rewrite ?u32_small; lia). lia. }
  change (run_asm pgfault_upcall_call s) with (exec (addl_esp 4) (call_fn h (handler_entry s))).
  cbn [exec set_u_esp set_u_eflags u_esp u_mem u_eflags]. rewrite Hp, Ee. split_and!; [rewrite (u32_small (a - 8 + 4)), u32_small by lia; lia| |done..].
  eapply utf_at_ext; [|exact Hu]. intros x Hx. rewrite Hm by (rewrite Ee; lia).
  unfold handler_entry. cbn. rewrite He, (u32_small (a - 4)), (u32_small (a - 4 - 4)) by lia.
  by rewrite !rd8_wr32_ne by lia.
Qed.

Lemma flags_join f f' m : Z.land f' m = Z.land f m → Z.lor (Z.ldiff f m) (Z.land f' m) = f.
Proof.
  intros ->. apply Z.bits_inj'. intros i Hi. rewrite Z.lor_spec, Z.ldiff_spec, Z.land_spec.
  by destruct (Z.testbit f i), (Z.testbit m i).
Qed.

Lemma utf_addr_disj esp : UXSTACKTOP - PGSIZE ≤ utf_addr esp →
  esp ≤ utf_addr esp ∨ utf_addr esp + 56 ≤ esp.
Proof.
  unfold utf_addr. destruct (_ && _) eqn:E.
  - apply andb_true_iff in E as [E1%Z.leb_le E2%Z.ltb_lt]. rewrite u32_small by lia. lia.
  - apply andb_false_iff in E as [E%Z.leb_gt|E%Z.ltb_ge]; lia.
Qed.

(** C21: the upcall undoes the fault.  Entered on the exception stack with
    esp at the user trap frame that the kernel put where utf_addr says, also
    when the fault happened on the exception stack itself, it calls the
    handler and, when that returns, resumes the faulting instruction with
    the trap-time eip, esp, eflags and general registers.  Memory is what
    the handler left, but for the word below the trap-time stack and the
    part of the exception stack that the frame and the call used. *)
Theorem pgfault_upcall_resumes s utf :
  let a := utf_addr (utf_esp utf) in
  let h := reg_eax (u_regs (handler_entry s)) in
  UXSTACKTOP - PGSIZE ≤ a → u_esp s = a → utf_at (u_mem s) a utf → 4 ≤ utf_esp utf →
  (∀ f, Z.land (arith f) FL_SYSTEM = Z.land f FL_SYSTEM) →
  Z.land (u_eflags s) FL_SYSTEM = Z.land (utf_eflags utf) FL_SYSTEM →
  handler_returns h (handler_entry s) →
  let s' := run_asm pgfault_upcall s in
  same_regs (u_regs s') (utf_regs utf) ∧ u_esp s' = utf_esp utf ∧ u_eip s' = utf_eip utf ∧
  u_eflags s' = utf_eflags utf ∧
  ∀ x, x < a - 8 ∨ a + 52 ≤ x → x < utf_esp utf - 4 ∨ utf_esp utf ≤ x →
    rd8 (u_mem s') x = rd8 (u_mem (call_fn h (handler_entry s))) x.
Proof.
  intros a h Hlo He Hu Hsp Har Hfl Hh. pose proof (utf_addr_disj _ Hlo) as Hd. fold a in Hd.
  pose proof (utf_addr_top _ Hlo) as Htop. fold a in Htop.
  assert (Hr : 0 ≤ utf_esp utf < 2 ^ 32) by (rewrite <- (Hu 12%nat _ eq_refl); apply rd32_range).
  assert (Hi : 0 ≤ utf_eip utf < 2 ^ 32) by (rewrite <- (Hu 10%nat _ eq_refl); apply rd32_range).
  destruct (call_run s a utf ltac:(lia) ltac:(lia) He Hu Hh) as (E1 & U1 & M1 & F1).
  unfold pgfault_upcall. unfold run_asm. rewrite foldl_app.
  fold (run_asm pgfault_upcall_call s). fold (run_asm pgfault_upcall_return (run_asm pgfault_upcall_call s)).
  destruct (return_run (run_asm pgfault_upcall_call s) utf a ltac:(lia) E1 U1 ltac:(lia) Hd)
    as (R & E2 & I2 & F2 & M2). rewrite u32_small in I2 by done.
  split_and!; try done.
  - rewrite F2. apply flags_join. rewrite !Har, F1, Har. etransitivity; [apply Hh|exact Hfl].
  - intros x Hx Hx'. rewrite M2. unfold return_mem. rewrite !rd8_wr32_ne by lia. by rewrite M1.
Qed.
End upcall.

(** A fault at 0x800020 with the stack just below USTACKTOP, and a handler
    that only returns. *)
Definition demo_utf : UTrapframe := mkUtf 0 0 (mkRegs 0 0 0 0 0 0 0 0) 0 0 (USTACKTOP - 100).
Definition demo_ucpu : ucpu :=
  mkU (mkRegs 9 9 9 9 9 9 9 9) (UXSTACKTOP - 56) 8388736 0
    (wr32 (λ _, 0) (UXSTACKTOP - 56 + 48) (USTACKTOP - 100)).

Lemma pgfault_upcall_resumes_witness :
  u_esp (run_asm id (λ _ s, set_u_esp (u32 (u_esp s + 4)) s) 8392704 8388744 pgfault_upcall demo_ucpu)
    = USTACKTOP - 100.
Proof.
  destruct (pgfault_upcall_resumes id (λ _ s, set_u_esp (u32 (u_esp s + 4)) s) 8392704 8388744 demo_ucpu demo_utf)
    as (_ & E & _); [| | | | | | |exact E].
  - vm_compute. discriminate.
  - reflexivity.
  - intros k w. do 13 (destruct k as [|k]; [intros [= <-]; vm_compute; reflexivity|]). intros Hk. discriminate Hk.
  - vm_compute. discriminate.
  - reflexivity.
  - reflexivity.
  - split; [vm_compute; reflexivity|]. split; [vm_compute; reflexivity|]. intros x _. reflexivity.
Defined.
