(* ===== verification/Fd.v ===== *)
(** File descriptors of the user library: lib/fd.c, with pageref
    (lib/pageref.c) and the user library's cprintf (lib/printf.c).

    A struct Fd is a page of the program's address space at FDTABLE; it is
    read and written there.  The devices are records of operations, as
    struct Dev is, and the table devtab of them is a parameter. *)

From S2P Require Import Prelude Mmu Printfmt Console KState Pmap PageTable Env Sched Syscall UserVm ULib Fork.
From Stdlib Require Import ZArith Lia String.
From stdpp Require Import base tactics numbers list.
Open Scope Z_scope.

Abbreviation MAXFD := 32 (only parsing).
Abbreviation FDTABLE := 3489660928 (only parsing).  (* 0xD0000000 *)
Abbreviation FILEDATA := (FDTABLE + MAXFD * PGSIZE) (only parsing).

Abbreviation O_RDONLY := 0 (only parsing).
Abbreviation O_WRONLY := 1 (only parsing).
Abbreviation O_RDWR := 2 (only parsing).
Abbreviation O_ACCMODE := 3 (only parsing).

(** ** lib/printf.c *)

(** The bytes [b] of a buffer on the stack go to sys_cputs. *)
Definition sys_cputs_buf (b : list Z) : K unit :=
  c ← the_curenv;
  cprintf "%.*s" [AInt (Z.of_nat (length b)); AStr (Some b)].

(** struct printbuf: the characters in the buffer and the count. *)
Record printbuf := mkPb { pb_buf : list Z; pb_cnt : Z }.

Definition pb_putch (ch : Z) (b : printbuf) : K printbuf :=
  let buf := pb_buf b ++ [ch] in
  if Z.of_nat (length buf) =? 256 - 1 then sys_cputs_buf buf;; mret (mkPb [] (pb_cnt b + 1))
  else mret (mkPb buf (pb_cnt b + 1)).

Fixpoint pb_puts (out : list Z) (b : printbuf) : K printbuf :=
  match out with
  | [] => mret b
  | ch :: out => b ← pb_putch ch b; pb_puts out b
  end.

Definition u_vcprintf (fmt : string) (ap : list arg) : K Z :=
  match vprintfmt (zs fmt) ap with
  | None => mundef
  | Some out => b ← pb_puts out (mkPb [] 0); sys_cputs_buf (pb_buf b);; mret (pb_cnt b)
  end.
Definition u_cprintf (fmt : string) (ap : list arg) : K Z := u_vcprintf fmt ap.

(** ** lib/pageref.c *)

(** pages[i].pp_ref, through the kernel's mapping of pages[] at UPAGES. *)
Definition upages_ref (i : Z) : K Z :=
  s ← mget;
  match k_pages s !! Z.to_nat i with Some p => mret (pp_ref p) | None => mundef end.

(** (uvpd[PDX(v)] & PTE_P) && (uvpt[PGNUM(v)] & PTE_P) *)
Definition page_present (v : Z) : K bool :=
  pde ← uvpd (PDX v);
  if tst pde PTE_P then pte ← uvpt (PGNUM v); mret (tst pte PTE_P) else mret false.

Definition pageref (v : Z) : K Z :=
  pde ← uvpd (PDX v);
  if negb (tst pde PTE_P) then mret 0
  else
    pte ← uvpt (PGNUM v);
    if negb (tst pte PTE_P) then mret 0 else upages_ref (PGNUM pte).

(** ** Descriptors *)

Definition INDEX2FD (i : Z) : Z := u32 (FDTABLE + i * PGSIZE).
Definition INDEX2DATA (i : Z) : Z := u32 (FILEDATA + i * PGSIZE).
Definition fd2num (fd : Z) : Z := u32 (fd - FDTABLE) / PGSIZE.
Definition fd2data (fd : Z) : Z := INDEX2DATA (fd2num fd).

(** The fields of struct Fd. *)
Definition fd_dev_id (fd : Z) : Z := fd.
Definition fd_offset (fd : Z) : Z := u32 (fd + 4).
Definition fd_omode (fd : Z) : Z := u32 (fd + 8).
Definition fd_file_id (fd : Z) : Z := u32 (fd + 12).

(** The result and *fd_store. *)
Fixpoint fd_alloc_loop (ixs : list Z) : K (Z * Z) :=
  match ixs with
  | [] => mret (- E_MAX_OPEN, 0)
  | i :: ixs =>
      let fd := INDEX2FD i in
      p ← page_present fd;
      if negb p then mret (0, fd) else fd_alloc_loop ixs
  end.
Definition fd_alloc : K (Z * Z) := fd_alloc_loop (seqZ 0 MAXFD).

Definition fd_lookup (fdnum : Z) : K (Z * option Z) :=
  if (fdnum <? 0) || (MAXFD <=? fdnum) then mret (- E_INVAL, None)
  else
    let fd := INDEX2FD fdnum in
    p ← page_present fd;
    if negb p then mret (- E_INVAL, None) else mret (0, Some fd).

(** ** Devices *)

Record Dev := mkDev {
  dev_id : Z;
  dev_name : string;
  dev_read : option (Z → Z → Z → K Z);
  dev_write : option (Z → Z → Z → K Z);
  dev_close : option (Z → K Z);
  dev_stat : option (Z → Z → K Z);
  dev_trunc : option (Z → Z → K Z) }.

Section fd.
Context (devtab : list Dev).

Fixpoint dev_find (tab : list Dev) (id : Z) : option Dev :=
  match tab with
  | [] => None
  | d :: tab => if dev_id d =? id then Some d else dev_find tab id
  end.

Definition dev_lookup (id : Z) : K (Z * option Dev) :=
  match dev_find devtab id with
  | Some d => mret (0, Some d)
  | None =>
      c ← the_curenv; v ← env_get c;
      u_cprintf (line "[%08x] unknown device type %d") [AInt (env_id v); AInt id];;
      mret (- E_INVAL, None)
  end.

Definition fd_close (fd : Z) (must_exist : bool) : K Z :=
  '(r, fd2) ← fd_lookup (fd2num fd);
  if (r <? 0) || negb (bool_decide (Some fd = fd2)) then mret (if must_exist then r else 0)
  else
    id ← vld32 (fd_dev_id fd);
    '(r, dev) ← dev_lookup (s32 id);
    r ← (match dev with
         | Some dev => match dev_close dev with Some close => close fd | None => mret 0 end
         | None => mret r
         end);
    u_sys_page_unmap 0 fd;;
    mret r.

Definition close (fdnum : Z) : K Z :=
  '(r, fd) ← fd_lookup fdnum;
  if r <? 0 then mret r else fd ← mderef fd; fd_close fd true.

Definition close_all : K unit := mfor (seqZ 0 MAXFD) (λ i, close i;; mret tt).

Definition dup (oldfdnum newfdnum : Z) : K Z :=
  '(r, oldfd) ← fd_lookup oldfdnum;
  if r <? 0 then mret r
  else
    oldfd ← mderef oldfd;
    close newfdnum;;
    let newfd := INDEX2FD newfdnum in
    let ova := fd2data oldfd in
    let nva := fd2data newfd in
    let err r := u_sys_page_unmap 0 newfd;; u_sys_page_unmap 0 nva;; mret r in
    p ← page_present ova;
    r ← (if p : bool then
           pte ← uvpt (PGNUM ova); u_sys_page_map 0 ova 0 nva (Z.land pte PTE_SYSCALL)
         else mret 0);
    if r <? 0 then err r
    else
      pte ← uvpt (PGNUM oldfd);
      r ← u_sys_page_map 0 oldfd 0 newfd (Z.land pte PTE_SYSCALL);
      if r <? 0 then err r else mret newfdnum.

(** What read, write, ftruncate and fstat share: the descriptor and its
    device. *)
Definition fd_dev (fdnum : Z) : K (Z + Z * Dev) :=
  '(r, fd) ← fd_lookup fdnum;
  if r <? 0 then mret (inl r)
  else
    fd ← mderef fd;
    id ← vld32 (fd_dev_id fd);
    '(r, dev) ← dev_lookup (s32 id);
    if r <? 0 then mret (inl r) else dev ← mderef dev; mret (inr (fd, dev)).

Definition bad_mode (what : string) (fdnum : Z) : K Z :=
  c ← the_curenv; v ← env_get c;
  u_cprintf (line ("[%08x] " ++ what ++ " %d -- bad mode")) [AInt (env_id v); AInt fdnum];;
  mret (- E_INVAL).

Definition read (fdnum buf n : Z) : K Z :=
  r ← fd_dev fdnum;
  match r with
  | inl r => mret r
  | inr (fd, dev) =>
      omode ← vld32 (fd_omode fd);
      if Z.land omode O_ACCMODE =? O_WRONLY then bad_mode "read" fdnum
      else match dev_read dev with None => mret (- E_NOT_SUPP) | Some rd => rd fd buf n end
  end.

Definition write (fdnum buf n : Z) : K Z :=
  r ← fd_dev fdnum;
  match r with
  | inl r => mret r
  | inr (fd, dev) =>
      omode ← vld32 (fd_omode fd);
      if Z.land omode O_ACCMODE =? O_RDONLY then bad_mode "write" fdnum
      else match dev_write dev with None => mret (- E_NOT_SUPP) | Some wr => wr fd buf n end
  end.

(** tot < n compares unsigned; a round that goes on adds at least 1. *)
Fixpoint readn_loop (fuel : nat) (fdnum buf n tot : Z) : K Z :=
  if negb (u32 tot <? n) then mret tot
  else match fuel with
  | O => mleave Spinning
  | S fuel =>
      m ← read fdnum (u32 (buf + tot)) (u32 (n - tot));
      if m <? 0 then mret m else if m =? 0 then mret tot
      else readn_loop fuel fdnum buf n (s32 (tot + m))
  end.
Definition readn (fdnum buf n : Z) : K Z := readn_loop (Z.to_nat n) fdnum buf n 0.

Definition seek (fdnum offset : Z) : K Z :=
  '(r, fd) ← fd_lookup fdnum;
  if r <? 0 then mret r else fd ← mderef fd; vst32 (fd_offset fd) offset;; mret 0.

Definition ftruncate (fdnum newsize : Z) : K Z :=
  r ← fd_dev fdnum;
  match r with
  | inl r => mret r
  | inr (fd, dev) =>
      omode ← vld32 (fd_omode fd);
      if Z.land omode O_ACCMODE =? O_RDONLY then bad_mode "ftruncate" fdnum
      else match dev_trunc dev with None => mret (- E_NOT_SUPP) | Some tr => tr fd newsize end
  end.

(** struct Stat: st_name (128 bytes), st_size, st_isdir, st_dev.  The address
    of a device's struct Dev is [dev_addr]. *)
Definition fstat (dev_addr : Dev → Z) (fdnum stat : Z) : K Z :=
  r ← fd_dev fdnum;
  match r with
  | inl r => mret r
  | inr (fd, dev) =>
      match dev_stat dev with
      | None => mret (- E_NOT_SUPP)
      | Some st =>
          vst8 stat 0;;
          vst32 (u32 (stat + 128)) 0;;
          vst32 (u32 (stat + 132)) 0;;
          vst32 (u32 (stat + 136)) (dev_addr dev);;
          st fd stat
      end
  end.

Definition stat (open : Z → Z → K Z) (dev_addr : Dev → Z) (path statbuf : Z) : K Z :=
  fd ← open path O_RDONLY;
  if fd <? 0 then mret fd
  else r ← fstat dev_addr fd statbuf; close fd;; mret r.
End fd.

(* ------------------------------------------------------------------ *)
(** ** The descriptor table is the address space *)

(** The page numbers of descriptor [i] and of its data. *)
Abbreviation FDPN := 851968 (only parsing).
Abbreviation DATAPN := 852000 (only parsing).

Lemma INDEX2FD_page i : 0 ≤ i < MAXFD → INDEX2FD i = (FDPN + i) * PGSIZE.
Proof. intros Hi. unfold INDEX2FD. rewrite u32_small by lia. lia. Qed.
Lemma INDEX2DATA_page i : 0 ≤ i < MAXFD → INDEX2DATA i = (DATAPN + i) * PGSIZE.
Proof. intros Hi. unfold INDEX2DATA. rewrite u32_small by lia. lia. Qed.
Lemma fd2num_index i : 0 ≤ i < MAXFD → fd2num (INDEX2FD i) = i.
Proof.
  intros Hi. rewrite INDEX2FD_page by done. unfold fd2num.
  replace ((FDPN + i) * PGSIZE - FDTABLE) with (i * PGSIZE) by lia.
  rewrite u32_small by lia. by rewrite Z.div_mul.
Qed.
Lemma fd2data_index i : 0 ≤ i < MAXFD → fd2data (INDEX2FD i) = (DATAPN + i) * PGSIZE.
Proof. intros Hi. unfold fd2data. rewrite fd2num_index by done. by apply INDEX2DATA_page. Qed.

Lemma PGNUM_page n : 0 ≤ n < UPN → PGNUM (n * PGSIZE) = n.
Proof. intros Hn. rewrite PGNUM_div, u32_small by lia. by rewrite Z.div_mul. Qed.

(** Whether page [n] is mapped in [D]. *)
Definition is_mapped (m : mem) (D : nat) (n : Z) : bool := bool_decide (is_Some (frame (vpte m D n))).

Lemma is_mapped_tst m D n : is_mapped m D n = tst (vpte m D n) PTE_P.
Proof.
  unfold is_mapped, frame. destruct (tst (vpte m D n) PTE_P).
  - by apply bool_decide_eq_true_2.
  - by apply bool_decide_eq_false_2, is_Some_None.
Qed.

(** A search over an interval finds its first hit. *)
Lemma find_index (f : Z → bool) a n :
  (∃ i, List.find f (seqZ a n) = Some i ∧ a ≤ i < a + n ∧ f i = true ∧ ∀ j, a ≤ j < i → f j = false) ∨
  (List.find f (seqZ a n) = None ∧ ∀ j, a ≤ j < a + n → f j = false).
Proof.
  destruct (decide (0 ≤ n)) as [Hn|Hn]; [|right; rewrite seqZ_nil by lia; split; [done|lia]].
  revert a. pattern n. apply natlike_ind; [|clear n Hn|done].
  - intros a. right. rewrite seqZ_nil by lia. split; [done|lia].
  - intros n Hn IH a. rewrite seqZ_cons by lia. cbn [List.find]. rewrite Z.pred_succ.
    destruct (f a) eqn:Ha; [left; exists a; split_and!; [done|lia..|done|lia]|].
    destruct (IH (Z.succ a)) as [(i & -> & Hi & Hf & Hm)|[-> Hm]].
    + left. exists i. split_and!; [done|lia..|done|]. intros j Hj.
      destruct (decide (j = a)) as [-> |]; [done|]. apply Hm. lia.
    + right. split; [done|]. intros j Hj. destruct (decide (j = a)) as [-> |]; [done|]. apply Hm. lia.
Qed.

Section descriptors.
Context (s : kst) (l Ds : list nat) (ex : nat → Z) (e D : nat) (v : Env).
Hypothesis H : uvm s l Ds ex.
Hypothesis Hr : running s Ds e v D.

Lemma page_present_run n : 0 ≤ n < UPN → page_present (n * PGSIZE) s = Ok (is_mapped (k_mem s) D n) s.
Proof.
  intros Hn. unfold page_present. rewrite PDX_vpage by lia. pose proof (user_pdx _ Hn) as Hd.
  mcall (uvpd_run s l Ds ex e D v H Hr _ Hd). rewrite (pde_present s D _ Hd).
  case_bool_decide as HT.
  - rewrite PGNUM_page by done. mcall (uvpt_run s l Ds ex e D v H Hr n Hn HT). by rewrite is_mapped_tst.
  - unfold is_mapped, vpte, pte_at. destruct (table_at _ D _); [by destruct HT|done].
Qed.

(** pageref gives the reference count of the page. *)
Lemma pageref_run n : 0 ≤ n < UPN →
  pageref (n * PGSIZE) s =
  Ok (match frame (vpte (k_mem s) D n) with Some P => refc s P | None => 0 end) s.
Proof.
  intros Hn. unfold pageref. rewrite PDX_vpage by lia. pose proof (user_pdx _ Hn) as Hd.
  mcall (uvpd_run s l Ds ex e D v H Hr _ Hd). rewrite (pde_present s D _ Hd).
  case_bool_decide as HT; cbn [negb].
  - rewrite PGNUM_page by done. mcall (uvpt_run s l Ds ex e D v H Hr n Hn HT).
    destruct (frame (vpte (k_mem s) D n)) as [P|] eqn:HP.
    + destruct HT as [T HT].
      assert (0 ≤ vpte (k_mem s) D n < 2 ^ 32) as Hw.
      { unfold vpte, pte_at. rewrite HT. apply rd32_range. }
      destruct (frame_inv _ P Hw HP) as (-> & HA & HN). cbn [negb].
      assert (PGNUM (vpte (k_mem s) D n) = Z.of_nat P) as ->.
      { rewrite PGNUM_div, u32_small by lia. rewrite PTE_ADDR_sub, u32_small in HA by lia.
        pose proof (Z.div_mod (vpte (k_mem s) D n) PGSIZE). lia. }
      unfold upages_ref. mrun. rewrite Nat2Z.id.
      destruct (mapped_page s l Ds ex P H) as (_ & _ & p & Hp & Hc);
        [exists D, n; split_and!; [apply (ru_dir _ _ _ _ _ Hr)|lia|lia|done]|].
      by rewrite Hp, Hc.
    + pose proof (is_mapped_tst (k_mem s) D n) as Hm. unfold is_mapped in Hm. rewrite HP in Hm.
      rewrite bool_decide_eq_false_2 in Hm by apply is_Some_None. by rewrite <- Hm.
  - unfold vpte, pte_at. destruct (table_at _ D _); [by destruct HT|done].
Qed.

Lemma fd_alloc_loop_run ixs : (∀ i, i ∈ ixs → 0 ≤ i < MAXFD) →
  fd_alloc_loop ixs s =
  Ok (match List.find (λ i, negb (is_mapped (k_mem s) D (FDPN + i))) ixs with
      | Some i => (0, INDEX2FD i)
      | None => (- E_MAX_OPEN, 0)
      end) s.
Proof.
  induction ixs as [|i ixs IH]; intros Hi; [done|]. cbn [fd_alloc_loop List.find].
  specialize (Hi i ltac:(left)) as Hii. rewrite INDEX2FD_page by done.
  mcall (page_present_run (FDPN + i) ltac:(lia)).
  destruct (is_mapped _ D (FDPN + i)); cbn [negb].
  - apply IH. intros j Hj. apply Hi. by right.
  - by rewrite INDEX2FD_page.
Qed.

Lemma fd_lookup_run i : fd_lookup i s =
  Ok (if (0 <=? i) && (i <? MAXFD) && is_mapped (k_mem s) D (FDPN + i)
      then (0, Some (INDEX2FD i)) else (- E_INVAL, None)) s.
Proof.
  unfold fd_lookup. destruct (Z.ltb_spec i 0), (Z.leb_spec 0 i), (Z.leb_spec MAXFD i), (Z.ltb_spec i MAXFD);
    try lia; cbn [orb andb]; try done.
  rewrite INDEX2FD_page by lia. mcall (page_present_run (FDPN + i) ltac:(lia)).
  by destruct (is_mapped _ D (FDPN + i)).
Qed.
End descriptors.

(** Fd_alloc finds the lowest descriptor whose page is not mapped, and
    allocates nothing; with all of them in use it fails with -E_MAX_OPEN and
    stores a null pointer. *)
Theorem fd_alloc_spec s l Ds ex e v D :
  uvm s l Ds ex → running s Ds e v D →
  (∃ i, 0 ≤ i < MAXFD ∧ fd_alloc s = Ok (0, INDEX2FD i) s ∧
     is_mapped (k_mem s) D (FDPN + i) = false ∧ ∀ j, 0 ≤ j < i → is_mapped (k_mem s) D (FDPN + j) = true) ∨
  (fd_alloc s = Ok (- E_MAX_OPEN, 0) s ∧ ∀ j, 0 ≤ j < MAXFD → is_mapped (k_mem s) D (FDPN + j) = true).
Proof.
  intros H Hr. unfold fd_alloc.
  rewrite (fd_alloc_loop_run s l Ds ex e D v H Hr) by (intros i Hi%elem_of_seqZ; lia).
  destruct (find_index (λ i, negb (is_mapped (k_mem s) D (FDPN + i))) 0 MAXFD) as [(i & -> & Hi & Hf & Hm)|[-> Hm]].
  - left. exists i. split_and!; [lia..|done|by apply negb_true_iff|]. intros j Hj. by apply negb_false_iff, Hm.
  - right. split; [done|]. intros j Hj. by apply negb_false_iff, Hm.
Qed.

(** ** dup *)

(** The entry for page [P] with the permissions of entry [w]. *)
Definition copy_pte (P : nat) (w : Z) : Z := mkpte P (Z.lor PTE_P (Z.land w PTE_SYSCALL)).

Lemma fd_table n : FDPN ≤ n < DATAPN + MAXFD → n / NPTENTRIES = 832.
Proof. intros Hn. symmetry. apply Z.div_unique with (n - 832 * NPTENTRIES); lia. Qed.

(** One of its sys_page_map calls, within the table of the descriptors. *)
Lemma dup_page s l Ds ex e v D n n' P :
  uvm s l Ds ex → running s Ds e v D → FDPN ≤ n < DATAPN + MAXFD → FDPN ≤ n' < DATAPN + MAXFD →
  frame (vpte (k_mem s) D n) = Some P → tst (vpte (k_mem s) D n) PTE_U = true →
  frame (vpte (k_mem s) D n') = None → refc s P < 65535 →
  ∃ s' l', u_sys_page_map 0 (n * PGSIZE) 0 (n' * PGSIZE) (Z.land (vpte (k_mem s) D n) PTE_SYSCALL) s = Ok 0 s' ∧
    addmap Ds ex 0 (own P) s l s' l' ∧
    ∀ D' k, D' ∈ Ds → 0 ≤ k < UPN → vpte (k_mem s') D' k =
      upd_pte D n' (copy_pte P (vpte (k_mem s) D n)) (vpte (k_mem s)) D' k.
Proof.
  intros H Hr Hn Hn' HP HU HN Hrf. destruct (running_target _ _ _ _ _ Hr) as [Ht _].
  assert (Hbp : bad_perm (Z.land (vpte (k_mem s) D n) PTE_SYSCALL) = false).
  { apply share_perm; [|done]. rewrite <- is_mapped_tst. unfold is_mapped. rewrite HP. by apply bool_decide_eq_true_2. }
  assert (HT : is_Some (table_at (k_mem s) D (n' / NPTENTRIES))).
  { rewrite (fd_table n'), <- (fd_table n) by done. by eapply frame_table. }
  destruct (dup_map s l Ds ex 0 D n P 0 D n' _ H Ht Ht ltac:(lia) ltac:(lia) ltac:(lia) ltac:(lia) Hbp HP
    (or_introl HN) Hrf (or_introl HT)) as (s' & l' & R & A & V & _).
  exists s', l'. split_and!; [done| |done]. eapply addmap_weaken; [exact A|by rewrite need_none|].
  intros q. cbn. rewrite HN, (bool_decide_eq_false_2 (None = Some q)) by done. cbn [zb]. lia.
Qed.

(** What the descriptor [new] shows after dup, given what [old] shows. *)
Definition dup_pte_at (m : mem) (D : nat) (old new : Z) (D' : nat) (n : Z) : Z :=
  if bool_decide (D' = D ∧ n = FDPN + new) then
    match frame (vpte m D (FDPN + old)) with Some P => copy_pte P (vpte m D (FDPN + old)) | None => 0 end
  else if bool_decide (D' = D ∧ n = DATAPN + new) then
    match frame (vpte m D (DATAPN + old)) with
    | Some P => copy_pte P (vpte m D (DATAPN + old)) | None => vpte m D' n end
  else vpte m D' n.

(** The first call: the data page, if there is one. *)
Lemma dup_data s l Ds ex e v D old new :
  uvm s l Ds ex → running s Ds e v D → 0 ≤ old < MAXFD → 0 ≤ new < MAXFD →
  (∀ P, frame (vpte (k_mem s) D (DATAPN + old)) = Some P →
     tst (vpte (k_mem s) D (DATAPN + old)) PTE_U = true ∧ refc s P < 65535) →
  frame (vpte (k_mem s) D (DATAPN + new)) = None →
  ∃ s1 l1, (if is_mapped (k_mem s) D (DATAPN + old) then
       pte ← uvpt (DATAPN + old);
       u_sys_page_map 0 ((DATAPN + old) * PGSIZE) 0 ((DATAPN + new) * PGSIZE) (Z.land pte PTE_SYSCALL)
     else mret 0) s = Ok 0 s1 ∧
    addmap Ds ex 0 (λ q, zb (bool_decide (frame (vpte (k_mem s) D (DATAPN + old)) = Some q))) s l s1 l1 ∧
    ∀ D' k, D' ∈ Ds → 0 ≤ k < UPN → vpte (k_mem s1) D' k =
      if bool_decide (D' = D ∧ k = DATAPN + new) then
        match frame (vpte (k_mem s) D (DATAPN + old)) with
        | Some P => copy_pte P (vpte (k_mem s) D (DATAPN + old)) | None => vpte (k_mem s) D' k end
      else vpte (k_mem s) D' k.
Proof.
  intros H Hr Ho Hn HP HN. destruct (frame (vpte (k_mem s) D (DATAPN + old))) as [P|] eqn:HF.
  - unfold is_mapped. rewrite HF, bool_decide_eq_true_2 by done. destruct (HP P eq_refl) as [HU Hrf].
    destruct (dup_page s l Ds ex e v D (DATAPN + old) (DATAPN + new) P H Hr ltac:(lia) ltac:(lia) HF HU HN Hrf)
      as (s1 & l1 & R & A & V).
    exists s1, l1. split_and!; [|by eapply addmap_weaken; [exact A|done|]; intros q; unfold own;
      rewrite (bool_decide_ext (Some P = Some q) (P = q)) by (split; [by intros [= ->]|by intros ->])|done].
    by mcall (uvpt_run s l Ds ex e D v H Hr (DATAPN + old) ltac:(lia) (frame_table _ _ _ _ HF)).
  - unfold is_mapped. rewrite HF, bool_decide_eq_false_2 by apply is_Some_None. exists s, l. split_and!; [done| |].
    + eapply addmap_weaken; [by apply addmap_refl|done|]. intros q. by rewrite bool_decide_eq_false_2.
    + intros D' k _ _. by case_bool_decide.
Qed.



Lemma fd_alloc_spec_witness : fd_alloc demo_space = Ok (0, INDEX2FD 0) demo_space.
Proof.
  assert (Hz : is_mapped (k_mem demo_space) 1 (FDPN + 0) = false).
  { unfold is_mapped, vpte, pte_at. change (k_mem demo_space) with demo_space_mem.
    rewrite demo_space_table by (apply user_pdx; lia). reflexivity. }
  destruct (fd_alloc_spec demo_space _ _ _ 0 demo_space_env 1 demo_space_uvm demo_space_running)
    as [(i & Hi & R & _ & Hm)|[_ Hm]].
  - destruct (decide (i = 0)) as [-> |Hne]; [exact R|]. rewrite Hm in Hz by lia. discriminate Hz.
  - rewrite Hm in Hz by lia. discriminate Hz.
Defined.

(** ** The user library's cprintf *)

(** The log, latest first, after the system calls that print [chunks]. *)
Definition cputs_events (chunks : list (list Z)) : list kevent :=
  rev (map (λ b, EvCprintf (zs "%.*s") [AInt (Z.of_nat (length b)); AStr (Some b)]) chunks).

Lemma sys_cputs_buf_run s c b : curenv_of s = Some c →
  sys_cputs_buf b s = Ok tt (with_log (cputs_events [b] ++ k_log s) s).
Proof. intros Hc. unfold sys_cputs_buf. by mcall (the_curenv_run s c Hc). Qed.

Lemma pb_puts_run out : ∀ s c b, curenv_of s = Some c → (length (pb_buf b) < 255)%nat →
  ∃ chunks b', pb_puts out b s = Ok b' (with_log (cputs_events chunks ++ k_log s) s) ∧
    pb_buf b ++ out = concat chunks ++ pb_buf b' ∧ (length (pb_buf b') < 255)%nat ∧
    Forall (λ x, length x = 255%nat) chunks ∧ pb_cnt b' = pb_cnt b + Z.of_nat (length out).
Proof.
  induction out as [|ch out IH]; intros s c b Hc Hb.
  - exists [], b. split_and!; [by destruct s|by rewrite app_nil_r|done|by constructor|cbn; lia].
  - cbn [pb_puts]. unfold pb_putch. rewrite length_app. cbn [length].
    destruct (Z.eqb_spec (Z.of_nat (length (pb_buf b) + 1)) (256 - 1)) as [E|E].
    + rewrite bind_assoc. mcall (sys_cputs_buf_run s c (pb_buf b ++ [ch]) Hc). mrun.
      set (s1 := with_log _ s).
      destruct (IH s1 c (mkPb [] (pb_cnt b + 1))) as (cs & b' & R & Ec & Hl & Hf & Hn); [done|cbn; lia|].
      exists ((pb_buf b ++ [ch]) :: cs), b'. split_and!; [|cbn|done| |cbn in *; lia].
      * rewrite R. f_equal. unfold s1. cbn. by rewrite <- !app_assoc.
      * cbn in Ec. by rewrite <- !app_assoc, <- Ec.
      * constructor; [|done]. rewrite length_app. cbn. lia.
    + mrun. destruct (IH s c (mkPb (pb_buf b ++ [ch]) (pb_cnt b + 1))) as (cs & b' & R & Ec & Hl & Hf & Hn);
        [done|cbn; rewrite length_app; cbn; lia|].
      exists cs, b'. split_and!; [done| |done|done|cbn in *; lia]. cbn in Ec. by rewrite <- Ec, <- app_assoc.
Qed.

(** cprintf prints exactly the formatted characters, in order, by system
    calls of at most 255 characters, and returns their number. *)
Theorem u_cprintf_spec s c fmt ap out : curenv_of s = Some c → vprintfmt (zs fmt) ap = Some out →
  ∃ chunks, u_cprintf fmt ap s = Ok (Z.of_nat (length out)) (with_log (cputs_events chunks ++ k_log s) s) ∧
    concat chunks = out ∧ Forall (λ b, (length b ≤ 255)%nat) chunks.
Proof.
  intros Hc Hf. unfold u_cprintf, u_vcprintf. rewrite Hf.
  destruct (pb_puts_run out s c (mkPb [] 0) Hc ltac:(cbn; lia)) as (cs & b' & R & Ec & Hl & Hall & Hn).
  exists (cs ++ [pb_buf b']). mcall R. set (s1 := with_log _ s).
  mcall (sys_cputs_buf_run s1 c (pb_buf b') Hc). split_and!.
  - unfold mret, M_ret. cbn in Hn. rewrite Hn. f_equal. unfold s1, cputs_events. cbn.
    rewrite map_app, rev_app_distr. done.
  - rewrite concat_app. cbn in *. by rewrite app_nil_r.
  - apply Forall_app. split; [eapply Forall_impl; [exact Hall|]; cbn; lia|]. constructor; [lia|constructor].
Qed.
