(* ===== verification/File.v ===== *)
(** Files for user programs: lib/file.c, which sends requests to the file
    server in the page fsipcbuf.

    The code is written over the loads and stores of the program
    ([UserMem]), so that it runs both on the kernel of this development
    (here) and together with the model of the file server (FileServ.v).
    fsipc, through which all requests go, is an argument; on the kernel it
    is ipc_send and ipc_recv of Ipc.v. *)

From S2P Require Import Prelude Mmu Printfmt Console KState Pmap PageTable Env Sched Syscall UserVm ULib Ipc Fork Fd.
From Stdlib Require Import ZArith Lia String.
From stdpp Require Import base tactics numbers list.
Open Scope Z_scope.

Abbreviation MAXPATHLEN := 1024 (only parsing).
Abbreviation FSREQ_OPEN := 1 (only parsing).
Abbreviation FSREQ_SET_SIZE := 2 (only parsing).
Abbreviation FSREQ_READ := 3 (only parsing).
Abbreviation FSREQ_WRITE := 4 (only parsing).
Abbreviation FSREQ_STAT := 5 (only parsing).
Abbreviation FSREQ_FLUSH := 6 (only parsing).
Abbreviation FSREQ_SYNC := 8 (only parsing).

(** The memory of a program. *)
Class UserMem (St : Type) := {
  um_ld8 : Z → M St Z;
  um_st8 : Z → Z → M St unit;
  um_ld32 : Z → M St Z;
  um_st32 : Z → Z → M St unit }.

Section file.
Context {St : Type} `{UserMem St}.
(** Where the linker has put fsipcbuf, and a bound on the lengths of strings. *)
Context (fsipcbuf : Z) (maxlen : nat).
Context (fsipc : Z → Z → M St Z).

(** memmove between ranges that do not overlap. *)
Definition um_memmove (dst src n : Z) : M St unit :=
  mfor (seqZ 0 n) (λ i, c ← um_ld8 (u32 (src + i)); um_st8 (u32 (dst + i)) c).

Fixpoint um_strlen (fuel : nat) (s n : Z) : M St Z :=
  match fuel with
  | O => mleave Spinning
  | S fuel => c ← um_ld8 (u32 (s + n)); if c =? 0 then mret n else um_strlen fuel s (n + 1)
  end.
Fixpoint um_strcpy (fuel : nat) (dst src n : Z) : M St unit :=
  match fuel with
  | O => mleave Spinning
  | S fuel =>
      c ← um_ld8 (u32 (src + n));
      um_st8 (u32 (dst + n)) c;;
      if c =? 0 then mret tt else um_strcpy fuel dst src (n + 1)
  end.

(** fsipcbuf.<request>.req_fileid = fd->fd_file.id *)
Definition put_fileid (fd : Z) : M St unit := id ← um_ld32 (fd_file_id fd); um_st32 fsipcbuf id.

Definition devfile_flush (fd : Z) : M St Z := put_fileid fd;; fsipc FSREQ_FLUSH 0.

Definition devfile_read (fd buf n : Z) : M St Z :=
  put_fileid fd;;
  um_st32 (fsipcbuf + 4) n;;
  r ← fsipc FSREQ_READ 0;
  if r <? 0 then mret r
  else
    massert (u32 r <=? n) "assertion failed: r <= n";;
    massert (r <=? PGSIZE) "assertion failed: r <= PGSIZE";;
    um_memmove buf fsipcbuf r;;
    mret r.

Definition devfile_write (fd buf n : Z) : M St Z :=
  let n := if PGSIZE - 8 <? n then PGSIZE - 8 else n in
  put_fileid fd;;
  um_st32 (fsipcbuf + 4) n;;
  um_memmove (fsipcbuf + 8) buf n;;
  fsipc FSREQ_WRITE 0.

Definition devfile_stat (fd st : Z) : M St Z :=
  put_fileid fd;;
  r ← fsipc FSREQ_STAT 0;
  if r <? 0 then mret r
  else
    um_strcpy maxlen st fsipcbuf 0;;
    size ← um_ld32 (fsipcbuf + 128);
    um_st32 (u32 (st + 128)) size;;
    isdir ← um_ld32 (fsipcbuf + 132);
    um_st32 (u32 (st + 132)) isdir;;
    mret 0.

Definition devfile_trunc (fd newsize : Z) : M St Z :=
  put_fileid fd;;
  um_st32 (fsipcbuf + 4) newsize;;
  fsipc FSREQ_SET_SIZE 0.

Definition sync : M St Z := fsipc FSREQ_SYNC 0.

(** fd_alloc and fd_close of lib/fd.c are arguments. *)
Definition open (fd_alloc : M St (Z * Z)) (fd_close : Z → bool → M St Z) (path mode : Z) : M St Z :=
  len ← um_strlen maxlen path 0;
  if MAXPATHLEN <=? len then mret (- E_BAD_PATH)
  else
    '(r, fd) ← fd_alloc;
    if r <? 0 then mret r
    else
      um_strcpy maxlen fsipcbuf path 0;;
      um_st32 (fsipcbuf + MAXPATHLEN) (u32 mode);;
      r ← fsipc FSREQ_OPEN fd;
      if r <? 0 then fd_close fd false;; mret r
      else mret (fd2num fd).
End file.

(** ** On the kernel *)

#[export] Instance kernel_mem : UserMem kst :=
  {| um_ld8 := vld8; um_st8 := vst8; um_ld32 := vld32; um_st32 := vst32 |}.

Section kernel.
(** [fsenv_va]: the address of the static variable fsenv. *)
Context (resume : K Z) (attempts : nat) (fsipcbuf fsenv_va : Z) (maxlen : nat).

Definition fsipc (type dstva : Z) : K Z :=
  fsenv ← vld32 fsenv_va;
  mwhen (fsenv =? 0) (id ← ipc_find_env ENV_TYPE_FS; vst32 fsenv_va (u32 id));;
  fsenv ← vld32 fsenv_va;
  ipc_send resume attempts (s32 fsenv) type fsipcbuf (PTE_P + PTE_W + PTE_U);;
  ipc_recv resume 0 dstva 0.

Definition devfile : Dev := {|
  dev_id := 102;
  dev_name := "file";
  dev_read := Some (devfile_read fsipcbuf fsipc);
  dev_write := Some (devfile_write fsipcbuf fsipc);
  dev_close := Some (devfile_flush fsipcbuf fsipc);
  dev_stat := Some (devfile_stat fsipcbuf maxlen fsipc);
  dev_trunc := Some (devfile_trunc fsipcbuf fsipc) |}.

(** open, with the descriptors of Fd.v. *)
Definition u_open (devtab : list Dev) : Z → Z → K Z :=
  open fsipcbuf maxlen fsipc fd_alloc (fd_close devtab).
End kernel.
