(* ===== verification/Spawn.v ===== *)
(** Starting a program from the file system: lib/spawn.c.

    Code that only works on the program's memory is written over its loads and
    stores ([UserMem] of File.v).  The addresses of the local arrays elf_buf
    and child_tf and of the array that spawnl makes are parameters. *)

From S2P Require Import Prelude Mmu Printfmt CString Console KState Pmap PageTable Env Sched Syscall Trap UserVm ULib Ipc Fork Fd File.
From Stdlib Require Import ZArith Lia String.
From stdpp Require Import base tactics numbers list.
Open Scope Z_scope.

Abbreviation ELF_PROG_LOAD := 1 (only parsing).
Abbreviation ELF_PROG_FLAG_WRITE := 2 (only parsing).

Definition UTEMP2USTACK (addr : Z) : Z := u32 (addr + (USTACKTOP - PGSIZE) - UTEMP).

(** ** The child's stack *)

Section stack.
Context {St : Type} `{UserMem St} (maxlen : nat).

(** argc and string_size; [fuel] bounds the number of arguments. *)
Fixpoint count_args (fuel : nat) (argv argc string_size : Z) : M St (Z * Z) :=
  match fuel with
  | O => mleave Spinning
  | S fuel =>
      p ← um_ld32 (u32 (argv + 4 * argc));
      if p =? 0 then mret (argc, string_size)
      else
        len ← um_strlen maxlen p 0;
        count_args fuel argv (argc + 1) (u32 (string_size + (len + 1)))
  end.

(** The loop over the arguments from [i] on, [n] of them; the result is
    string_store. *)
Fixpoint store_args (n : nat) (argv i argv_store string_store : Z) : M St Z :=
  match n with
  | O => mret string_store
  | S n =>
      um_st32 (u32 (argv_store + 4 * i)) (UTEMP2USTACK string_store);;
      p ← um_ld32 (u32 (argv + 4 * i));
      um_strcpy maxlen string_store p 0;;
      p ← um_ld32 (u32 (argv + 4 * i));
      len ← um_strlen maxlen p 0;
      store_args n argv (i + 1) argv_store (u32 (string_store + (len + 1)))
  end.

(** The contents of the page; the result is *init_esp. *)
Definition fill_stack (argv argc argv_store string_store : Z) : M St Z :=
  string_store ← store_args (Z.to_nat argc) argv 0 argv_store string_store;
  um_st32 (u32 (argv_store + 4 * argc)) 0;;
  massert (string_store =? UTEMP + PGSIZE) "assertion failed: string_store == (char *)UTEMP + PGSIZE";;
  um_st32 (u32 (argv_store - 4)) (UTEMP2USTACK argv_store);;
  um_st32 (u32 (argv_store - 8)) argc;;
  mret (UTEMP2USTACK (u32 (argv_store - 8))).
End stack.

(** string_store and argv_store, from argc and string_size. *)
Definition stack_layout (argc string_size : Z) : Z * Z :=
  let string_store := u32 (UTEMP + PGSIZE - string_size) in
  (string_store, u32 (ROUNDDOWN string_store 4 - 4 * (argc + 1))).

Section spawn.
Context (maxlen maxargs : nat).
Context (open : Z → Z → K Z) (devtab : list Dev).
Context (elf_buf child_tf_va argv_va : Z).

(** The result and *init_esp. *)
Definition init_stack (child argv : Z) : K (Z * Z) :=
  '(argc, string_size) ← count_args maxlen maxargs argv 0 0;
  let '(string_store, argv_store) := stack_layout argc string_size in
  if u32 (argv_store - 8) <? UTEMP then mret (- E_NO_MEM, 0)
  else
    r ← u_sys_page_alloc 0 UTEMP (PTE_P + PTE_U + PTE_W);
    if r <? 0 then mret (r, 0)
    else
      esp ← fill_stack maxlen argv argc argv_store string_store;
      r ← u_sys_page_map 0 UTEMP child (USTACKTOP - PGSIZE) (PTE_P + PTE_U + PTE_W);
      if r <? 0 then u_sys_page_unmap 0 UTEMP;; mret (r, esp)
      else
        r ← u_sys_page_unmap 0 UTEMP;
        if r <? 0 then u_sys_page_unmap 0 UTEMP;; mret (r, esp) else mret (0, esp).

(** The page at [i] of the segment. *)
Definition segment_page (child va fd filesz fileoffset perm i : Z) : K Z :=
  if filesz <=? i then
    r ← u_sys_page_alloc child (u32 (va + i)) perm;
    mret (if r <? 0 then r else 0)
  else
    r ← u_sys_page_alloc 0 UTEMP (PTE_P + PTE_U + PTE_W);
    if r <? 0 then mret r
    else
      r ← seek fd (u32 (fileoffset + i));
      if r <? 0 then mret r
      else
        r ← readn devtab fd UTEMP (Z.min PGSIZE (u32 (filesz - i)));
        if r <? 0 then mret r
        else
          r ← u_sys_page_map 0 UTEMP child (u32 (va + i)) perm;
          if r <? 0 then mpanic "spawn: sys_page_map data: %e"
          else u_sys_page_unmap 0 UTEMP;; mret 0.

(** The counter is an int, and overflows after 2^31 bytes. *)
Fixpoint map_pages (child va fd filesz fileoffset perm : Z) (ixs : list Z) : K Z :=
  match ixs with
  | [] => mret 0
  | i :: ixs =>
      r ← segment_page child va fd filesz fileoffset perm i;
      if r <? 0 then mret r
      else if 2 ^ 31 <=? i + PGSIZE then mundef
      else map_pages child va fd filesz fileoffset perm ixs
  end.

Definition map_segment (child va memsz fd filesz fileoffset perm : Z) : K Z :=
  let i := PGOFF va in
  let va := u32 (va - i) in
  let memsz := u32 (memsz + i) in
  let filesz := u32 (filesz + i) in
  let fileoffset := s32 (fileoffset - i) in
  map_pages child va fd filesz fileoffset perm
    ((λ k, k * PGSIZE) <$> seqZ 0 ((memsz + PGSIZE - 1) / PGSIZE)).

Fixpoint copy_shared_from (child : Z) (ixs : list Z) : K Z :=
  match ixs with
  | [] => mret 0
  | i :: ixs =>
      pde ← uvpd (i / 1024);
      shared ← (if tst pde PTE_P then
                  pte ← uvpt i;
                  if tst pte PTE_P then pte ← uvpt i; mret (tst pte PTE_SHARE) else mret false
                else mret false);
      if shared : bool then
        pte ← uvpt i;
        Ecode ← u_sys_page_map 0 (i * PGSIZE) child (i * PGSIZE) (Z.land pte PTE_SYSCALL);
        if Ecode <? 0 then mret Ecode else copy_shared_from child ixs
      else copy_shared_from child ixs
  end.
Definition copy_shared_pages (child : Z) : K Z := copy_shared_from child (seqZ 0 (PGNUM USTACKTOP)).

(** The words of a struct Trapframe. *)
Definition tf_words (t : Trapframe) : list Z :=
  regs_words (tf_regs t) ++
  [tf_es t + 65536 * tf_padding1 t; tf_ds t + 65536 * tf_padding2 t; tf_trapno t; tf_err t; tf_eip t;
   tf_cs t + 65536 * tf_padding3 t; tf_eflags t; tf_esp t; tf_ss t + 65536 * tf_padding4 t].

Fixpoint vst_words (va : Z) (ws : list Z) : K unit :=
  match ws with
  | [] => mret tt
  | w :: ws => vst32 va w;; vst_words (u32 (va + 4)) ws
  end.

(** The program headers from [ph] on, [n] of them. *)
Fixpoint spawn_segments (n : nat) (child fd ph : Z) : K Z :=
  match n with
  | O => mret 0
  | S n =>
      ty ← vld32 ph;
      r ← (if ty =? ELF_PROG_LOAD then
             flags ← vld32 (u32 (ph + 24));
             let perm := if tst flags ELF_PROG_FLAG_WRITE then PTE_P + PTE_U + PTE_W else PTE_P + PTE_U in
             va ← vld32 (u32 (ph + 8));
             memsz ← vld32 (u32 (ph + 20));
             filesz ← vld32 (u32 (ph + 16));
             offset ← vld32 (u32 (ph + 4));
             map_segment child va memsz fd filesz (s32 offset) perm
           else mret 0);
      if r <? 0 then mret r else spawn_segments n child fd (u32 (ph + 32))
  end.

(** From the new environment on; [t] is its trap frame. *)
Definition spawn_child (fd child : Z) (t : Trapframe) (argv : Z) : K Z :=
  entry ← vld32 (u32 (elf_buf + 24));
  let t := set_tf_eip entry t in
  '(r, esp) ← init_stack child argv;
  if r <? 0 then mret r
  else
    let t := set_tf_esp esp t in
    phoff ← vld32 (u32 (elf_buf + 28));
    phnum ← vld32 (u32 (elf_buf + 44));
    r ← spawn_segments (Z.to_nat (u16 phnum)) child fd (u32 (elf_buf + phoff));
    if r <? 0 then u_sys_env_destroy child;; close devtab fd;; mret r
    else
      close devtab fd;;
      r ← copy_shared_pages child;
      if r <? 0 then mpanic "copy_shared_pages: %e"
      else
        vst_words child_tf_va (tf_words (set_tf_eflags (Z.lor (tf_eflags t) FL_IOPL_3) t));;
        r ← u_sys_env_set_trapframe child child_tf_va;
        if r <? 0 then mpanic "sys_env_set_trapframe: %e"
        else
          r ← u_sys_env_set_status child ENV_RUNNABLE;
          if r <? 0 then mpanic "sys_env_set_status: %e" else mret child.

Definition spawn (prog argv : Z) : K Z :=
  r ← open prog O_RDONLY;
  if r <? 0 then mret r
  else
    let fd := r in
    n ← readn devtab fd elf_buf 512;
    bad ← (if negb (n =? 512) then mret true else magic ← vld32 elf_buf; mret (negb (magic =? ELF_MAGIC)));
    if bad : bool then
      close devtab fd;;
      magic ← vld32 elf_buf;
      u_cprintf (line "elf magic %08x want %08x") [AInt magic; AInt ELF_MAGIC];;
      mret (- E_NOT_EXEC)
    else
      r ← u_sys_exofork;
      if r <? 0 then mret r
      else
        v ← env_get (Z.to_nat (ENVX r));
        spawn_child fd r (env_tf v) argv.

(** [args]: the variable arguments, without the NULL that ends them. *)
Definition spawnl (prog arg0 : Z) (args : list Z) : K Z :=
  vst_words argv_va (arg0 :: args ++ [0]);;
  spawn prog argv_va.
End spawn.

(* ------------------------------------------------------------------ *)
(** ** spawn does not return a child *)

(** What a call returns, if it returns. *)
Definition returns {S A} (m : M S A) (P : A → Prop) : Prop := ∀ s a s', m s = Ok a s' → P a.

Lemma returns_ret {S A} (a : A) (P : A → Prop) : P a → returns (S := S) (mret a) P.
Proof. by intros HP s a' s' [= <- _]. Qed.
Lemma returns_panic {S A} msg (P : A → Prop) : returns (S := S) (mpanic msg) P.
Proof. by intros s a s'. Qed.
Lemma returns_bind {S A B} (m : M S A) (k : A → M S B) (Q : A → Prop) P :
  returns m Q → (∀ a, Q a → returns (k a) P) → returns (m ≫= k) P.
Proof.
  intros Hm Hk s b s' E. unfold mbind, M_bind in E. destruct (m s) as [a s1| | |] eqn:Em; try done.
  by eapply (Hk a (Hm _ _ _ Em)).
Qed.
Lemma returns_any {S A B} (m : M S A) (k : A → M S B) P : (∀ a, returns (k a) P) → returns (m ≫= k) P.
Proof. intros Hk. by apply (returns_bind m k (λ _, True)). Qed.
Lemma returns_neg {S} (r : Z) (m : M S Z) (P : Z → Prop) :
  (r < 0 → P r) → returns m P → returns (if r <? 0 then mret r else m) P.
Proof. intros Hr Hm. destruct (Z.ltb_spec r 0); [by apply returns_ret, Hr|done]. Qed.

(** The dispatcher has no return for SYS_env_set_trapframe. *)
Lemma set_trapframe_fails envid tf : returns (u_sys_env_set_trapframe envid tf) (λ r, r = - E_INVAL).
Proof.
  unfold u_sys_env_set_trapframe, u_syscall.
  change (syscall SYS_env_set_trapframe ?a ?b ?c ?d ?e) with (sys_env_set_trapframe (s32 a) b;; mret (- E_INVAL)).
  apply (returns_bind _ _ (λ r, r = - E_INVAL)); [|by intros r ->; apply returns_ret].
  apply returns_any. intros r. by apply returns_ret.
Qed.

Lemma spawn_child_fails maxlen maxargs devtab elf_buf child_tf_va fd child t argv :
  returns (spawn_child maxlen maxargs devtab elf_buf child_tf_va fd child t argv) (λ r, r < 0).
Proof.
  unfold spawn_child. apply returns_any. intros entry. apply returns_any. intros [r esp].
  apply returns_neg; [done|]. do 2 (apply returns_any; intros ?). apply returns_any. intros r1.
  destruct (Z.ltb_spec r1 0); [do 2 (apply returns_any; intros ?); by apply returns_ret|].
  apply returns_any. intros ?. apply returns_any. intros r2. destruct (r2 <? 0); [apply returns_panic|].
  apply returns_any. intros ?. eapply returns_bind; [apply set_trapframe_fails|]. intros r3 ->. apply returns_panic.
Qed.

(** C35: spawn never starts a program: whenever it returns, it returns an
    error.  The kernel's dispatcher does the work of sys_env_set_trapframe but
    answers -E_INVAL, and spawn panics at this answer when everything before
    has succeeded.  (The comment above spawn: returns child envid on
    success.) *)
Theorem spawn_never_succeeds maxlen maxargs open devtab elf_buf child_tf_va prog argv s r s' :
  spawn maxlen maxargs open devtab elf_buf child_tf_va prog argv s = Ok r s' → r < 0.
Proof.
  revert s r s'. change (returns (spawn maxlen maxargs open devtab elf_buf child_tf_va prog argv) (λ r, r < 0)).
  unfold spawn. apply returns_any. intros fd. apply returns_neg; [done|]. apply returns_any. intros n. apply returns_any. intros bad.
  destruct bad; [do 3 (apply returns_any; intros ?); by apply returns_ret|].
  apply returns_any. intros r. apply returns_neg; [done|]. apply returns_any. intros v. apply spawn_child_fails.
Qed.

Lemma spawn_never_succeeds_witness : ∃ s', spawn 10 10 (λ _ _, mret (- E_BAD_PATH)) [] 0 0 0 0 demo_running = Ok (- E_BAD_PATH) s' ∧ - E_BAD_PATH < 0.
Proof. eexists. split; [reflexivity|]. apply (spawn_never_succeeds 10 10 (λ _ _, mret (- E_BAD_PATH)) [] 0 0 0 0 demo_running _ demo_running). reflexivity. Defined.

(* ------------------------------------------------------------------ *)
(** ** The arguments on the child's stack *)

(** Memory as a program sees it, where every access succeeds. *)
#[export] Instance flat_mem : UserMem mem := {|
  um_ld8 := λ a m, Ok (rd8 m a) m;
  um_st8 := λ a v m, Ok tt (wr8 m a v);
  um_ld32 := λ a m, Ok (rd32 m a) m;
  um_st32 := λ a v m, Ok tt (wr32 m a v) |}.

Lemma flat_ld32 a (m : mem) : um_ld32 a m = Ok (rd32 m a) m.
Proof. done. Qed.
Lemma flat_st32 a v (m : mem) : um_st32 a v m = Ok tt (wr32 m a v).
Proof. done. Qed.

Lemma strlen_flat l : ∀ fuel p n m, cstr m (p + n) l → (length l < fuel)%nat → 0 ≤ p + n → p + n + Z.of_nat (length l) < 2 ^ 32 →
  um_strlen fuel p n m = Ok (n + Z.of_nat (length l)) m.
Proof.
  induction l as [|c l IH]; intros fuel p n m Hl Hf H0 H1; (destruct fuel as [|fuel]; [cbn in Hf; lia|]);
    cbn [um_strlen cstr length] in *; rewrite u32_small by lia; unfold um_ld8, flat_mem; unfold mbind, M_bind.
  - rewrite Hl. cbn [Z.eqb]. by rewrite Z.add_0_r.
  - destruct Hl as (-> & Hc & Hl). rewrite (proj2 (Z.eqb_neq _ _)) by done. rewrite IH; [f_equal; lia|by rewrite Z.add_assoc|lia..].
Qed.

(** strcpy to [d .. d + length l] makes a copy of the string and changes
    nothing else. *)
Lemma strcpy_flat l : ∀ fuel dst src n m, cstr m (src + n) l → (length l < fuel)%nat → 0 ≤ dst + n → 0 ≤ src + n →
  dst + n + Z.of_nat (length l) < 2 ^ 32 → src + n + Z.of_nat (length l) < 2 ^ 32 →
  dst + n + Z.of_nat (length l) < src + n ∨ src + n + Z.of_nat (length l) < dst + n →
  ∃ m', um_strcpy fuel dst src n m = Ok tt m' ∧ cstr m' (dst + n) l ∧
    ∀ x, x < dst + n ∨ dst + n + Z.of_nat (length l) < x → rd8 m' x = rd8 m x.
Proof.
  induction l as [|c l IH]; intros fuel dst src n m Hl Hf D0 S0 D1 S1 Hap; (destruct fuel as [|fuel]; [cbn in Hf; lia|]);
    cbn [um_strcpy cstr length] in *; rewrite !u32_small by lia; unfold um_ld8, um_st8, flat_mem; unfold mbind, M_bind.
  - rewrite Hl. cbn [Z.eqb]. exists (wr8 m (dst + n) 0). split_and!; [done|by rewrite rd8_wr8, Z.eqb_refl|].
    intros x Hx. apply rd8_wr8_ne. lia.
  - destruct Hl as (Hcv & Hc & Hl). rewrite Hcv, (proj2 (Z.eqb_neq _ _)) by done.
    destruct (IH fuel dst src (n + 1) (wr8 m (dst + n) c)) as (m' & Em & Hcs & Hx).
    + rewrite Z.add_assoc. apply (cstr_ext m); [|done]. intros x Hx. apply rd8_wr8_ne. lia.
    + lia.
    + lia.
    + lia.
    + lia.
    + lia.
    + lia.
    + exists m'. split; [exact Em|]. split_and!.
      * rewrite Hx, rd8_wr8, Z.eqb_refl by lia. rewrite <- Hcv. apply u8_small, rd8_range.
      * done.
      * by rewrite <- Z.add_assoc.
      * intros x Hr. rewrite Hx by lia. apply rd8_wr8_ne. lia.
Qed.

(** The page at UTEMP; the array [a] of pointers to the strings [ls], which
    are elsewhere. *)
Definition in_temp (x : Z) : Prop := UTEMP ≤ x < UTEMP + PGSIZE.
Definition clear_of_temp (a n : Z) : Prop := 0 ≤ a ∧ a + n ≤ 2 ^ 32 ∧ (a + n ≤ UTEMP ∨ UTEMP + PGSIZE ≤ a).

Fixpoint args_at (m : mem) (a : Z) (ls : list (list Z)) : Prop :=
  clear_of_temp a 4 ∧
  match ls with
  | [] => rd32 m a = 0
  | l :: ls => rd32 m a ≠ 0 ∧ cstr m (rd32 m a) l ∧ clear_of_temp (rd32 m a) (Z.of_nat (length l) + 1) ∧ args_at m (a + 4) ls
  end.

Definition total (ls : list (list Z)) : Z := foldr (λ l n, Z.of_nat (length l) + 1 + n) 0 ls.
Lemma total_nonneg ls : 0 ≤ total ls.
Proof. induction ls as [|l ls IH]; cbn [total foldr]; [lia|]. fold (total ls). lia. Qed.

Lemma args_at_ext m m' ls : (∀ x, ¬ in_temp x → rd8 m' x = rd8 m x) → ∀ a, args_at m a ls → args_at m' a ls.
Proof.
  intros E. assert (E32 : ∀ a, clear_of_temp a 4 → rd32 m' a = rd32 m a).
  { intros a (? & ? & Ha). unfold rd32, in_temp in *. by rewrite !E by lia. }
  induction ls as [|l ls IH]; intros a; cbn [args_at]; intros [Ha H]; (split; [done|]); rewrite E32 by done; [done|].
  destruct H as (H1 & H2 & H3 & H4). split_and!; [done| |done|by apply IH]. apply (cstr_ext m); [|done].
  intros x Hx. apply E. destruct H3 as (? & ? & ?). unfold in_temp. lia.
Qed.

Lemma count_args_run maxlen m ls : Forall (λ l, (length l < maxlen)%nat) ls → ∀ fuel argv argc size,
  args_at m (argv + 4 * argc) ls → (length ls < fuel)%nat → 0 ≤ size → size + total ls < 2 ^ 32 →
  count_args maxlen fuel argv argc size m = Ok (argc + Z.of_nat (length ls), size + total ls) m.
Proof.
  induction 1 as [|l ls Hl _ IH]; intros fuel argv argc size Ha Hf Hs Ht; (destruct fuel as [|fuel]; [cbn in Hf; lia|]);
    cbn [count_args args_at length total foldr] in *; destruct Ha as [(? & ? & _) Ha]; rewrite (u32_small (argv + 4 * argc)) by lia.
  - unfold um_ld32, flat_mem. unfold mbind, M_bind. rewrite Ha. cbn [Z.eqb]. rewrite !Z.add_0_r. done.
  - destruct Ha as (H1 & H2 & (P0 & P1 & _) & H4). fold (total ls) in *. pose proof (total_nonneg ls).
    unfold um_ld32, flat_mem. unfold mbind at 1, M_bind at 1. rewrite (proj2 (Z.eqb_neq _ _)) by done.
    erewrite bind_Ok by (apply (strlen_flat l); [by rewrite Z.add_0_r|done|lia|lia]). rewrite Z.add_0_l, u32_small by lia.
    rewrite IH; [f_equal; f_equal; lia| |lia|lia|lia]. by replace (argv + 4 * (argc + 1)) with (argv + 4 * argc + 4) by lia.
Qed.

Lemma store_args_run maxlen ls : Forall (λ l, (length l < maxlen)%nat) ls → ∀ argv i a st m,
  args_at m (argv + 4 * i) ls → 0 ≤ i → UTEMP ≤ a → a + 4 * (i + Z.of_nat (length ls)) ≤ st → st + total ls = UTEMP + PGSIZE →
  ∃ m', store_args maxlen (length ls) argv i a st m = Ok (UTEMP + PGSIZE) m' ∧
    (∀ x, x < a + 4 * i ∨ a + 4 * (i + Z.of_nat (length ls)) ≤ x < st ∨ UTEMP + PGSIZE ≤ x → rd8 m' x = rd8 m x) ∧
    ∀ k l, ls !! k = Some l → ∃ q, rd32 m' (a + 4 * (i + Z.of_nat k)) = UTEMP2USTACK q ∧
      st ≤ q ∧ q + Z.of_nat (length l) < UTEMP + PGSIZE ∧ cstr m' q l.
Proof.
  induction 1 as [|l ls Hl _ IH]; intros argv i a st m Ha Hi Hlo Hst Htot; cbn [store_args length total foldr] in *.
  { exists m. split_and!; [by rewrite <- Htot, Z.add_0_r|done|done]. }
  fold (total ls) in *. pose proof (total_nonneg ls). pose proof Ha as [(A0 & A1 & A2) _].
  rewrite (u32_small (a + 4 * i)), (u32_small (argv + 4 * i)) by lia.
  set (m1 := wr32 m (a + 4 * i) (UTEMP2USTACK st)).
  assert (E1 : ∀ x, x < a + 4 * i ∨ a + 4 * i + 4 ≤ x → rd8 m1 x = rd8 m x) by (intros x Hx; apply rd8_wr32_ne; lia).
  assert (T1 : args_at m1 (argv + 4 * i) (l :: ls)).
  { apply (args_at_ext m); [|done]. intros x Hx. apply E1. unfold in_temp in Hx. lia. }
  rewrite (bind_Ok _ _ _ _ _ (flat_st32 (a + 4 * i) (UTEMP2USTACK st) m)). fold m1.
  rewrite (bind_Ok _ _ _ _ _ (flat_ld32 (argv + 4 * i) m1)).
  pose proof T1 as [_ (_ & T2 & (P0 & P1 & P2) & _)].
  destruct (strcpy_flat l maxlen st (rd32 m1 (argv + 4 * i)) 0 m1) as (m2 & Em & Hcs & E2); try rewrite !Z.add_0_r; try done; try lia.
  rewrite !Z.add_0_r in *. rewrite (bind_Ok _ _ _ _ _ Em), (bind_Ok _ _ _ _ _ (flat_ld32 (argv + 4 * i) m2)).
  assert (T : args_at m2 (argv + 4 * i) (l :: ls)).
  { apply (args_at_ext m1); [intros x Hx; apply E2; unfold in_temp in Hx; lia|done]. }
  destruct T as [_ (_ & U2 & (Q0 & Q1 & _) & U4)].
  erewrite bind_Ok by (apply (strlen_flat l); [by rewrite Z.add_0_r|done|lia|lia]). rewrite Z.add_0_l, (u32_small (st + _)) by lia.
  destruct (IH argv (i + 1) a (st + (Z.of_nat (length l) + 1)) m2) as (m' & Er & Ex & Hk).
  { by replace (argv + 4 * (i + 1)) with (argv + 4 * i + 4) by lia. } { lia. } { lia. } { lia. } { lia. }
  exists m'. split; [exact Er|]. split.
  { intros x Hx. rewrite Ex, E2, E1 by lia. done. }
  intros [|k] l' Hkl; cbn in Hkl.
  - injection Hkl as <-. exists st. rewrite Z.add_0_r. split_and!; [|lia|lia|].
    + rewrite (rd32_same m2), (rd32_same m1) by (intros x Hx; (apply Ex || apply E2); lia). unfold m1. rewrite rd32_wr32_eq. apply u32_idemp.
    + apply (cstr_ext m2); [|done]. intros x Hx. apply Ex. lia.
  - destruct (Hk k l' Hkl) as (q & Q & ? & ? & ?). exists q. split_and!; [|lia|done|done].
    rewrite <- Q. f_equal. lia.
Qed.

(** The child's view of the page that is mapped at the top of its stack. *)
Definition child_stack (m : mem) : mem := λ x, m (x - (USTACKTOP - PGSIZE) + UTEMP).

Lemma UTEMP2USTACK_eq q : in_temp q → UTEMP2USTACK q = q + (USTACKTOP - PGSIZE) - UTEMP.
Proof. intros Hq. unfold in_temp, UTEMP2USTACK in *. apply u32_small. lia. Qed.
Lemma child_byte m q o : in_temp q → rd8 (child_stack m) (UTEMP2USTACK q + o) = rd8 m (q + o).
Proof. intros Hq. rewrite UTEMP2USTACK_eq by done. unfold rd8, child_stack. do 2 f_equal. lia. Qed.
Lemma child_word m q o : in_temp q → rd32 (child_stack m) (UTEMP2USTACK q + o) = rd32 m (q + o).
Proof. intros Hq. apply rd32_move. intros t _. rewrite <- !Z.add_assoc. by apply child_byte. Qed.

Lemma stack_layout_eq argc size : 0 ≤ size ≤ PGSIZE → 0 ≤ argc → UTEMP ≤ (UTEMP + PGSIZE - size) / 4 * 4 - 4 * (argc + 3) →
  stack_layout argc size = (UTEMP + PGSIZE - size, (UTEMP + PGSIZE - size) / 4 * 4 - 4 * (argc + 1)).
Proof.
  intros Hs Ha Hf. unfold stack_layout, ROUNDDOWN. rewrite !(u32_small (UTEMP + PGSIZE - size)) by lia.
  pose proof (Z.div_mod (UTEMP + PGSIZE - size) 4 ltac:(lia)). pose proof (Z.mod_pos_bound (UTEMP + PGSIZE - size) 4 ltac:(lia)).
  f_equal. rewrite u32_small by lia. lia.
Qed.


(** The argument vector of "echo hi". *)
Definition demo_args : mem :=
  wr32 (wr32 (wr32 (λ x, if x <? 2010 then nth (Z.to_nat (x - 2000)) (zs "echo") 0
                         else nth (Z.to_nat (x - 2010)) (zs "hi") 0) 1000 2000) 1004 2010) 1008 0.

Lemma demo_args_at : args_at demo_args 1000 [zs "echo"; zs "hi"].
Proof.
  cbn [args_at]. change (rd32 demo_args 1000) with 2000. change (1000 + 4) with 1004.
  change (rd32 demo_args 1004) with 2010. change (1004 + 4) with 1008. change (rd32 demo_args 1008) with 0.
  change (Z.of_nat (length (zs "echo")) + 1) with 5. change (Z.of_nat (length (zs "hi")) + 1) with 3. unfold clear_of_temp.
  split; [lia|]. split; [lia|]. split.
  { cbn. repeat (split; [reflexivity|split; [discriminate|]]). reflexivity. }
  split; [lia|]. split; [lia|]. split; [lia|]. split.
  { cbn. repeat (split; [reflexivity|split; [discriminate|]]). reflexivity. }
  split; [lia|]. split; [lia|]. reflexivity.
Qed.

