(* ===== verification/Stdio.v ===== *)
(** The rest of the user library: the console as a device (lib/console.c),
    output to a descriptor (lib/fprintf.c), and the start and the end of a
    program (lib/libmain.c, lib/exit.c, lib/wait.c, lib/panic.c).

    Addresses that the linker or the compiler chooses are parameters. *)

From S2P Require Import Prelude Mmu Printfmt CString Console KState Pmap PageTable Env Sched Syscall UserVm ULib Ipc Fork Fd File.
From Stdlib Require Import ZArith Lia Ascii String.
From stdpp Require Import base tactics numbers list.
Open Scope Z_scope.

(** ** lib/console.c *)

Section console.
Context (resume : K Z) (devtab : list Dev) (c_va : Z).

Definition u_cputchar (ch : Z) : K unit := sys_cputs_buf [u8 ch].

(** getchar: the character goes to the variable c, at [c_va]. *)
Definition u_getchar : K Z :=
  r ← read devtab 0 c_va 1;
  if r <? 0 then mret r
  else if r <? 1 then mret (- E_EOF)
  else vld8 c_va.

(** [fuel] bounds the polls. *)
Fixpoint cgetc_wait (fuel : nat) : K Z :=
  match fuel with
  | O => mleave Spinning
  | S fuel =>
      c ← u_sys_cgetc;
      if c =? 0 then b_syscall resume SYS_yield false 0;; cgetc_wait fuel else mret c
  end.

Definition devcons_read (fuel : nat) (fd vbuf n : Z) : K Z :=
  if n =? 0 then mret 0
  else
    c ← cgetc_wait fuel;
    if c <? 0 then mret c
    else if c =? 4 then mret 0
    else vst8 vbuf c;; mret 1.

(** The bytes at [a], [n] of them. *)
Fixpoint vld_bytes (n : nat) (a : Z) : K (list Z) :=
  match n with
  | O => mret []
  | S n => c ← vld8 (u32 a); l ← vld_bytes n (a + 1); mret (c :: l)
  end.

(** tot goes up by at least 1 in a round, so n rounds are enough. *)
Fixpoint devcons_write_from (fuel : nat) (vbuf n tot : Z) : K Z :=
  if negb (u32 tot <? n) then mret tot
  else match fuel with
  | O => mleave Spinning
  | S fuel =>
      let m := u32 (n - tot) in
      let m := if 127 <? m then 127 else m in
      buf ← vld_bytes (Z.to_nat m) (vbuf + tot);
      sys_cputs_buf buf;;
      devcons_write_from fuel vbuf n (tot + m)
  end.
Definition devcons_write (fd vbuf n : Z) : K Z := devcons_write_from (Z.to_nat n) vbuf n 0.

Definition devcons_close (fd : Z) : K Z := mret 0.

Definition devcons_stat (fd stat : Z) : K Z :=
  mfor (imap (λ i c, (Z.of_nat i, c)) (zs "<cons>" ++ [0])) (λ '(i, c), vst8 (u32 (stat + i)) c);;
  mret 0.

Definition devcons (fuel : nat) : Dev := {|
  dev_id := 99;
  dev_name := "cons";
  dev_read := Some (devcons_read fuel);
  dev_write := Some devcons_write;
  dev_close := Some devcons_close;
  dev_stat := Some devcons_stat;
  dev_trunc := None |}.

Definition u_iscons (fdnum : Z) : K Z :=
  '(r, fd) ← fd_lookup fdnum;
  if r <? 0 then mret r
  else fd ← mderef fd; id ← vld32 (fd_dev_id fd); mret (if s32 id =? 99 then 1 else 0).

Definition opencons : K Z :=
  '(r, fd) ← fd_alloc;
  if r <? 0 then mret r
  else
    r ← u_sys_page_alloc 0 fd (PTE_P + PTE_U + PTE_W + PTE_SHARE);
    if r <? 0 then mret r
    else vst32 (fd_dev_id fd) 99;; vst32 (fd_omode fd) O_RDWR;; mret (fd2num fd).
End console.

(** ** lib/fprintf.c *)

Section fprintf.
Context {St : Type} `{UserMem St} (write : Z → Z → Z → M St Z).

(** struct printbuf without its buffer, which is in memory at [buf]. *)
Record fprintbuf := mkFp { fp_fd : Z; fp_idx : Z; fp_result : Z; fp_error : Z }.

Definition writebuf (buf : Z) (b : fprintbuf) : M St fprintbuf :=
  if 0 <? fp_error b then
    result ← write (fp_fd b) buf (fp_idx b);
    let total := if 0 <? result then s32 (fp_result b + result) else fp_result b in
    mret (mkFp (fp_fd b) (fp_idx b) total
            (if negb (result =? fp_idx b) then (if result <? 0 then result else 0) else fp_error b))
  else mret b.

Definition fp_putch (buf ch : Z) (b : fprintbuf) : M St fprintbuf :=
  um_st8 (buf + fp_idx b) ch;;
  let b := mkFp (fp_fd b) (fp_idx b + 1) (fp_result b) (fp_error b) in
  if fp_idx b =? 256 then b ← writebuf buf b; mret (mkFp (fp_fd b) 0 (fp_result b) (fp_error b))
  else mret b.

Fixpoint fp_puts (buf : Z) (out : list Z) (b : fprintbuf) : M St fprintbuf :=
  match out with
  | [] => mret b
  | ch :: out => b ← fp_putch buf ch b; fp_puts buf out b
  end.

Definition vfprintf (buf fd : Z) (fmt : list Z) (ap : list arg) : M St Z :=
  match vprintfmt fmt ap with
  | None => mundef
  | Some out =>
      b ← fp_puts buf out (mkFp fd 0 0 1);
      b ← (if 0 <? fp_idx b then writebuf buf b else mret b);
      mret (if negb (fp_result b =? 0) then fp_result b else fp_error b)
  end.
Definition fprintf (buf fd : Z) (fmt : list Z) (ap : list arg) : M St Z := vfprintf buf fd fmt ap.
Definition printf (buf : Z) (fmt : list Z) (ap : list arg) : M St Z := vfprintf buf 1 fmt ap.
End fprintf.

(** ** The start and the end of a program *)

Section program.
Context (resume : K Z) (thisenv_va binaryname_va : Z) (binaryname : K (list Z)).

(** wait: [fuel] bounds the rounds. *)
Fixpoint wait_loop (fuel : nat) (envid : Z) : K unit :=
  e ← env_get (Z.to_nat (ENVX envid));
  if (env_id e =? envid) && negb (env_status e =? ENV_FREE) then
    match fuel with
    | O => mleave Spinning
    | S fuel => b_syscall resume SYS_yield false 0;; wait_loop fuel envid
    end
  else mret tt.
Definition wait (fuel : nat) (envid : Z) : K unit :=
  massert (negb (envid =? 0)) "assertion failed: envid != 0";; wait_loop fuel envid.

Definition exit : K unit := u_sys_env_destroy 0;; mret tt.

(** &envs[i], in the mapping of envs[] at UENVS; struct Env has 124 bytes. *)
Definition env_addr (i : Z) : Z := u32 (UENVS + 124 * i).
Definition libmain (umain : Z → Z → K unit) (argc argv : Z) : K unit :=
  id ← u_sys_getenvid;
  vst32 thisenv_va (env_addr (ENVX id));;
  mwhen (0 <? argc) (p ← vld32 argv; vst32 binaryname_va p);;
  umain argc argv;;
  exit.

(** The message, and int3, which gets into the kernel's monitor for good. *)
Definition u_panic {A} (file : string) (n : Z) (fmt : string) (ap : list arg) : K A :=
  id ← u_sys_getenvid;
  name ← binaryname;
  u_cprintf "[%08x] user panic in %s at %s:%d: " [AInt id; AStr (Some name); AStr (Some (zs file)); AInt n];;
  u_vcprintf fmt ap;;
  u_cprintf (line EmptyString) [];;
  mleave InMonitor.
End program.

(* ------------------------------------------------------------------ *)
(** ** Output to a descriptor *)

(** A program's memory and what has been written. *)
#[export] Instance out_mem : UserMem (mem * list Z) := {|
  um_ld8 := λ a s, Ok (rd8 s.1 a) s;
  um_st8 := λ a v s, Ok tt (wr8 s.1 a v, s.2);
  um_ld32 := λ a s, Ok (rd32 s.1 a) s;
  um_st32 := λ a v s, Ok tt (wr32 s.1 a v, s.2) |}.

Lemma out_st8 a v m o : um_st8 a v (m, o) = Ok tt (wr8 m a v, o).
Proof. done. Qed.

Definition bytes_at (m : mem) (a n : Z) : list Z := (λ i, rd8 m (a + i)) <$> seqZ 0 n.

Lemma bytes_at_S m a n : 0 ≤ n → bytes_at m a (n + 1) = bytes_at m a n ++ [rd8 m (a + n)].
Proof.
  intros Hn. unfold bytes_at. rewrite seqZ_app, fmap_app by lia. done.
Qed.
Lemma bytes_at_ext m m' a n : (∀ x, a ≤ x < a + n → rd8 m' x = rd8 m x) → bytes_at m' a n = bytes_at m a n.
Proof. intros E. apply list_fmap_ext. intros i x Hx. apply list_elem_of_lookup_2, elem_of_seqZ in Hx. apply E. lia. Qed.

Section output.
Context (write : Z → Z → Z → M (mem * list Z) Z) (buf fd : Z).
(** A write to the descriptor takes all it is given. *)
Hypothesis Hwrite : ∀ m o n, 0 ≤ n ≤ 256 → write fd buf n (m, o) = Ok n (m, o ++ bytes_at m buf n).

(** [all] has been put: written, or still in the buffer. *)
Record fp_ok (s : mem * list Z) (b : fprintbuf) (all : list Z) : Prop := {
  fo_fd : fp_fd b = fd;
  fo_err : fp_error b = 1;
  fo_idx : 0 ≤ fp_idx b < 256;
  fo_result : fp_result b = Z.of_nat (length s.2);
  fo_all : all = s.2 ++ bytes_at s.1 buf (fp_idx b) }.

Lemma bytes_at_length m a n : 0 ≤ n → Z.of_nat (length (bytes_at m a n)) = n.
Proof. intros Hn. unfold bytes_at. rewrite length_fmap, length_seqZ. lia. Qed.

Lemma writebuf_run m o i r : 0 ≤ i ≤ 256 → r = Z.of_nat (length o) → r + i < 2 ^ 31 →
  writebuf write buf (mkFp fd i r 1) (m, o) = Ok (mkFp fd i (r + i) 1) (m, o ++ bytes_at m buf i).
Proof.
  intros Hi Hr Hmax. unfold writebuf. cbn [fp_error fp_fd fp_idx fp_result Z.ltb Z.compare].
  rewrite (bind_Ok _ _ _ _ _ (Hwrite m o i Hi)). rewrite Z.eqb_refl. cbn [negb].
  destruct (Z.ltb_spec 0 i); [by rewrite s32_small by lia|]. by replace (r + i) with r by lia.
Qed.

Lemma fp_putch_ok s b all ch : fp_ok s b all → Z.of_nat (length all) + 1 < 2 ^ 31 →
  ∃ b' s', fp_putch write buf ch b s = Ok b' s' ∧ fp_ok s' b' (all ++ [u8 ch]).
Proof.
  destruct s as [m o], b as [fd' i r er]. intros [E1 E2 Hi Er Ha] Hmax. cbn [fp_fd fp_idx fp_result fp_error fst snd] in *. subst fd' er.
  rewrite Ha, length_app, Nat2Z.inj_add, bytes_at_length in Hmax by lia.
  unfold fp_putch. cbn [fp_fd fp_idx fp_result fp_error]. set (m' := wr8 m (buf + i) ch).
  rewrite (bind_Ok _ _ _ _ _ (out_st8 (buf + i) ch m o)). fold m'.
  assert (Eb : bytes_at m' buf (i + 1) = bytes_at m buf i ++ [u8 ch]).
  { rewrite bytes_at_S by lia. f_equal; [apply bytes_at_ext; intros x Hx; apply rd8_wr8_ne; lia|]. unfold m'. by rewrite rd8_wr8, Z.eqb_refl. }
  destruct (Z.eqb_spec (i + 1) 256) as [E|Hne].
  - rewrite (bind_Ok _ _ _ _ _ (writebuf_run m' o (i + 1) r ltac:(lia) Er ltac:(lia))).
    eexists _, _. split; [reflexivity|]. constructor; cbn [fp_fd fp_idx fp_result fp_error fst snd]; try done.
    + rewrite Er, length_app, Nat2Z.inj_add, bytes_at_length by lia. done.
    + rewrite Eb, Ha. by rewrite app_nil_r, app_assoc.
  - eexists _, _. split; [reflexivity|]. constructor; cbn [fp_fd fp_idx fp_result fp_error fst snd]; try done; [lia|].
    by rewrite Eb, Ha, app_assoc.
Qed.

Lemma fp_puts_ok out : ∀ s b all, fp_ok s b all → Z.of_nat (length all + length out) < 2 ^ 31 →
  ∃ b' s', fp_puts write buf out b s = Ok b' s' ∧ fp_ok s' b' (all ++ map u8 out).
Proof.
  induction out as [|ch out IH]; intros s b all Ho Hmax; cbn [fp_puts map length] in *.
  - exists b, s. by rewrite app_nil_r.
  - destruct (fp_putch_ok s b all ch Ho ltac:(lia)) as (b1 & s1 & E1 & O1). rewrite (bind_Ok _ _ _ _ _ E1).
    destruct (IH s1 b1 (all ++ [u8 ch]) O1) as (b2 & s2 & E2 & O2); [rewrite length_app; cbn; lia|].
    exists b2, s2. split; [done|]. by rewrite <- app_assoc in O2.
Qed.

(** On a descriptor that takes all it is given, vfprintf writes exactly the
    formatted output and returns its length, but 1 when the output is
    empty. *)
Theorem vfprintf_output fmt ap out m : vprintfmt fmt ap = Some out → Z.of_nat (length out) < 2 ^ 31 →
  ∃ m', vfprintf write buf fd fmt ap (m, []) =
    Ok (if decide (out = []) then 1 else Z.of_nat (length out)) (m', map u8 out).
Proof.
  intros Hv Hmax. unfold vfprintf. rewrite Hv.
  destruct (fp_puts_ok out (m, []) (mkFp fd 0 0 1) []) as (b & [m1 o] & E & [O1 O2 O3 O4 O5]); [by constructor|cbn; lia|].
  rewrite (bind_Ok _ _ _ _ _ E). destruct b as [fd' i r er]. cbn [fp_fd fp_idx fp_result fp_error fst snd app] in *. subst fd' er.
  assert (Hlen : Z.of_nat (length out) = Z.of_nat (length o) + i).
  { rewrite <- (length_map u8 out), O5, length_app, Nat2Z.inj_add, bytes_at_length by lia. done. }
  assert (Hd : (if decide (out = []) then 1 else Z.of_nat (length out)) =
    if negb (Z.of_nat (length out) =? 0) then Z.of_nat (length out) else 1).
  { destruct (decide (out = [])) as [->|Hne]; [done|]. destruct out; [done|]. cbn [length]. destruct (Z.eqb_spec (Z.of_nat (S (length out))) 0); [lia|done]. }
  exists m1. rewrite Hd. destruct (Z.ltb_spec 0 i).
  - rewrite (bind_Ok _ _ _ _ _ (writebuf_run m1 o i r ltac:(lia) O4 ltac:(lia))). cbn [fp_result fp_error].
    rewrite Hlen, O4, <- O5. done.
  - rewrite bind_ret. cbn [fp_result fp_error]. assert (i = 0) as -> by lia. rewrite O4, Hlen, Z.add_0_r, O5. cbn. by rewrite app_nil_r.
Qed.
End output.
