(* ===== verification/Pipe.v ===== *)
(** Pipes: lib/pipe.c.

    The pipe's page is shared by a reader and a writer that run at the same
    time, so devpipe_read and devpipe_write are given access by access to
    struct Pipe and interleave; pipe, devpipe_stat and devpipe_close, which
    only make system calls, are programs on the machine of ULib.v. *)

From S2P Require Import Prelude Mmu Printfmt Console KState Pmap PageTable Env Sched Syscall UserVm ULib Fork Fd.
From Stdlib Require Import ZArith Lia String.
From stdpp Require Import base tactics numbers list relations.
Open Scope Z_scope.

Abbreviation PIPEBUFSIZ := 32 (only parsing).
Abbreviation PIPE_PERM := 1031 (only parsing).  (* PTE_P | PTE_W | PTE_U | PTE_SHARE *)
Abbreviation DEVPIPE_ID := 112 (only parsing).  (* 'p' *)

(** ** Creation and closing *)

(** The result and, on success, pfd[0] and pfd[1]. *)
Definition pipe : K (Z * option (Z * Z)) :=
  '(r, fd0) ← fd_alloc;
  if r <? 0 then mret (r, None) else
  r ← u_sys_page_alloc 0 fd0 PIPE_PERM;
  if r <? 0 then mret (r, None) else
  let err1 r := u_sys_page_unmap 0 fd0;; mret (r, None) in
  '(r, fd1) ← fd_alloc;
  if r <? 0 then err1 r else
  r ← u_sys_page_alloc 0 fd1 PIPE_PERM;
  if r <? 0 then err1 r else
  let err2 r := u_sys_page_unmap 0 fd1;; err1 r in
  let va := fd2data fd0 in
  r ← u_sys_page_alloc 0 va PIPE_PERM;
  if r <? 0 then err2 r else
  let err3 r := u_sys_page_unmap 0 va;; err2 r in
  r ← u_sys_page_map 0 va 0 (fd2data fd1) PIPE_PERM;
  if r <? 0 then err3 r else
  vst32 (fd_dev_id fd0) DEVPIPE_ID;;
  vst32 (fd_omode fd0) O_RDONLY;;
  vst32 (fd_dev_id fd1) DEVPIPE_ID;;
  vst32 (fd_omode fd1) O_WRONLY;;
  mret (0, Some (fd2num fd0, fd2num fd1)).

Definition devpipe_close (fd : Z) : K Z :=
  u_sys_page_unmap 0 fd;; u_sys_page_unmap 0 (fd2data fd).

(** strcpy(stat->st_name, "<pipe>") and the size and isdir of the stat
    buffer; the address of devpipe is [dev]. *)
Definition devpipe_stat (dev fd stat : Z) : K Z :=
  let p := fd2data fd in
  mfor (List.combine (seqZ 0 7) (zs "<pipe>" ++ [0])) (λ '(i, c), vst8 (u32 (stat + i)) c);;
  rpos ← vld32 p; wpos ← vld32 (u32 (p + 4));
  vst32 (u32 (stat + 128)) (s32 (wpos - rpos));;
  vst32 (u32 (stat + 132)) 0;;
  vst32 (u32 (stat + 136)) dev;;
  mret 0.

(** thisenv->env_runs *)
Definition env_runs_now : K Z := c ← the_curenv; v ← env_get c; mret (s32 (env_runs v)).

Fixpoint pipeisclosed_loop (fuel : nat) (fd p : Z) : K Z :=
  match fuel with
  | O => mleave Spinning
  | S fuel =>
      n ← env_runs_now;
      a ← pageref fd; b ← pageref p;
      let ret := zb (a =? b) in
      nn ← env_runs_now;
      if n =? nn then mret ret
      else mwhen (ret =? 1) (u_cprintf (line "pipe race avoided") [];; mret tt);; pipeisclosed_loop fuel fd p
  end.

Definition pipeisclosed (fuel : nat) (fdnum : Z) : K Z :=
  '(r, fd) ← fd_lookup fdnum;
  if r <? 0 then mret r else fd ← mderef fd; pipeisclosed_loop fuel fd (fd2data fd).

(** ** The shared page *)

Record Pipe := mkPipe { p_rpos : Z; p_wpos : Z; p_buf : list Z }.

(** The bytes that cross: the label of a step that completes one. *)
Inductive event := Sent (b : Z) | Received (b : Z).

(** ** devpipe_read

    The local state is [i], the bytes stored into the caller's buffer, and
    where the reader is; each place is just before one access to the pipe. *)
Inductive rpc :=
  | R_for                (* i < n *)
  | R_test               (* load p_rpos *)
  | R_test2 (r : Z)      (* load p_wpos and compare *)
  | R_closed             (* _pipeisclosed *)
  | R_take               (* load p_rpos *)
  | R_take2 (r : Z)      (* load p_buf[r % PIPEBUFSIZ] into buf[i] *)
  | R_inc                (* load p_rpos *)
  | R_inc2 (r : Z)       (* store p_rpos *)
  | R_done (ret : Z).

Record reader := mkR { rd_n : Z; rd_buf : list Z; rd_pc : rpc }.
Definition rd_i (r : reader) : Z := Z.of_nat (length (rd_buf r)).
Definition rd_at (pc : rpc) (r : reader) : reader := mkR (rd_n r) (rd_buf r) pc.

(** p_buf[pos % PIPEBUFSIZ]; the index is undefined behaviour when it is
    negative. *)
Definition slot (pos : Z) : option nat :=
  let k := Z.rem pos PIPEBUFSIZ in if k <? 0 then None else Some (Z.to_nat k).

(** [closed] is what _pipeisclosed would answer now.  [None]: undefined, or
    the call has returned. *)
Definition read_step (closed : bool) (p : Pipe) (r : reader) : option (Pipe * reader * list event) :=
  match rd_pc r with
  | R_for => Some (p, rd_at (if rd_i r <? rd_n r then R_test else R_done (rd_i r)) r, [])
  | R_test => Some (p, rd_at (R_test2 (p_rpos p)) r, [])
  | R_test2 x =>
      Some (p, rd_at (if x =? p_wpos p then if 0 <? rd_i r then R_done (rd_i r) else R_closed
                      else R_take) r, [])
  | R_closed => Some (p, rd_at (if closed then R_done 0 else R_test) r, [])
  | R_take => Some (p, rd_at (R_take2 (p_rpos p)) r, [])
  | R_take2 x =>
      k ← slot x; b ← p_buf p !! k;
      Some (p, mkR (rd_n r) (rd_buf r ++ [b]) R_inc, [])
  | R_inc => Some (p, rd_at (R_inc2 (p_rpos p)) r, [])
  | R_inc2 x =>
      b ← last (rd_buf r);
      Some (mkPipe (s32 (x + 1)) (p_wpos p) (p_buf p), rd_at R_for r, [Received b])
  | R_done _ => None
  end.

(** ** devpipe_write *)
Inductive wpc :=
  | W_for                (* i < n *)
  | W_test               (* load p_wpos *)
  | W_test2 (w : Z)      (* load p_rpos and compare, unsigned *)
  | W_closed             (* _pipeisclosed *)
  | W_put                (* load p_wpos *)
  | W_put2 (w : Z)       (* store buf[i] into p_buf[w % PIPEBUFSIZ] *)
  | W_inc                (* load p_wpos *)
  | W_inc2 (w : Z)       (* store p_wpos *)
  | W_done (ret : Z).

(** [wr_buf] is the caller's buffer, of n bytes. *)
Record writer := mkW { wr_buf : list Z; wr_i : nat; wr_pc : wpc }.
Definition wr_at (pc : wpc) (w : writer) : writer := mkW (wr_buf w) (wr_i w) pc.

Definition write_step (closed : bool) (p : Pipe) (w : writer) : option (Pipe * writer * list event) :=
  match wr_pc w with
  | W_for => Some (p, wr_at (if (wr_i w <? length (wr_buf w))%nat then W_test
                             else W_done (Z.of_nat (wr_i w))) w, [])
  | W_test => Some (p, wr_at (W_test2 (p_wpos p)) w, [])
  | W_test2 x =>
      Some (p, wr_at (if u32 (p_rpos p + PIPEBUFSIZ) <=? u32 x then W_closed else W_put) w, [])
  | W_closed => Some (p, wr_at (if closed then W_done 0 else W_test) w, [])
  | W_put => Some (p, wr_at (W_put2 (p_wpos p)) w, [])
  | W_put2 x =>
      k ← slot x; b ← wr_buf w !! wr_i w;
      Some (mkPipe (p_rpos p) (p_wpos p) (<[k := b]> (p_buf p)), wr_at W_inc w, [])
  | W_inc => Some (p, wr_at (W_inc2 (p_wpos p)) w, [])
  | W_inc2 x =>
      b ← wr_buf w !! wr_i w;
      Some (mkPipe (p_rpos p) (s32 (x + 1)) (p_buf p), mkW (wr_buf w) (S (wr_i w)) W_for, [Sent b])
  | W_done _ => None
  end.

(** ** Reader and writer together *)

Record pst := mkPst { ps_pipe : Pipe; ps_rd : reader; ps_wr : writer }.

(** A step of one of them, with its event; a thread whose call has returned
    may make the next call. *)
Inductive pipe_step : pst → list event → pst → Prop :=
  | step_read closed p r w p' r' ev :
      read_step closed p r = Some (p', r', ev) → pipe_step (mkPst p r w) ev (mkPst p' r' w)
  | step_write closed p r w p' w' ev :
      write_step closed p w = Some (p', w', ev) → pipe_step (mkPst p r w) ev (mkPst p' r w')
  | step_call_read p r w ret n :
      rd_pc r = R_done ret → 0 ≤ n → pipe_step (mkPst p r w) [] (mkPst p (mkR n [] R_for) w)
  | step_call_write p r w ret buf :
      wr_pc w = W_done ret → pipe_step (mkPst p r w) [] (mkPst p r (mkW buf 0 W_for)).

Inductive pipe_run (s : pst) : list event → pst → Prop :=
  | run_nil : pipe_run s [] s
  | run_step tr s1 ev s2 : pipe_run s tr s1 → pipe_step s1 ev s2 → pipe_run s (tr ++ ev) s2.

(** sys_page_alloc gives a page of zeroes. *)
Definition pipe_init : pst :=
  mkPst (mkPipe 0 0 (replicate 32 0)) (mkR 0 [] (R_done 0)) (mkW [] 0 (W_done 0)).

(* ------------------------------------------------------------------ *)
(** ** The pipe is a bounded queue *)

Inductive queue_step (cap : nat) : list Z → event → list Z → Prop :=
  | queue_send b q : (length q < cap)%nat → queue_step cap q (Sent b) (q ++ [b])
  | queue_recv b q : queue_step cap (b :: q) (Received b) q.

Inductive queue_run (cap : nat) (q : list Z) : list event → list Z → Prop :=
  | qrun_nil : queue_run cap q [] q
  | qrun_step tr q1 e q2 : queue_run cap q tr q1 → queue_step cap q1 e q2 → queue_run cap q (tr ++ [e]) q2.

Definition sent (tr : list event) : list Z := omap (λ e, match e with Sent b => Some b | _ => None end) tr.
Definition received (tr : list event) : list Z := omap (λ e, match e with Received b => Some b | _ => None end) tr.

(** The queue [q] in the ring. *)
Record holds (p : Pipe) (q : list Z) : Prop := {
  ho_rpos : 0 ≤ p_rpos p;
  ho_wpos : p_wpos p = p_rpos p + Z.of_nat (length q);
  ho_max : p_wpos p < 2 ^ 31;
  ho_cap : (length q ≤ 32)%nat;
  ho_buf : length (p_buf p) = 32%nat;
  ho_slot : ∀ j b, q !! j = Some b →
    p_buf p !! Z.to_nat ((p_rpos p + Z.of_nat j) mod 32) = Some b }.

(** What reader and writer know at each place. *)
Definition rd_inv (p : Pipe) (q : list Z) (r : reader) : Prop :=
  match rd_pc r with
  | R_test2 x => x = p_rpos p
  | R_take => q ≠ []
  | R_take2 x => x = p_rpos p ∧ q ≠ []
  | R_inc => is_Some (last (rd_buf r)) ∧ last (rd_buf r) = head q
  | R_inc2 x => x = p_rpos p ∧ is_Some (last (rd_buf r)) ∧ last (rd_buf r) = head q
  | _ => True
  end.

Definition wr_inv (p : Pipe) (q : list Z) (w : writer) : Prop :=
  match wr_pc w with
  | W_for | W_done _ => True
  | W_test | W_closed => is_Some (wr_buf w !! wr_i w)
  | W_test2 x => x = p_wpos p ∧ is_Some (wr_buf w !! wr_i w)
  | W_put => (length q < 32)%nat ∧ is_Some (wr_buf w !! wr_i w)
  | W_put2 x => x = p_wpos p ∧ (length q < 32)%nat ∧ is_Some (wr_buf w !! wr_i w)
  | W_inc => (length q < 32)%nat ∧ is_Some (wr_buf w !! wr_i w) ∧
      p_buf p !! Z.to_nat (p_wpos p mod 32) = wr_buf w !! wr_i w
  | W_inc2 x => x = p_wpos p ∧ (length q < 32)%nat ∧ is_Some (wr_buf w !! wr_i w) ∧
      p_buf p !! Z.to_nat (p_wpos p mod 32) = wr_buf w !! wr_i w
  end.

Lemma slot_pos x : 0 ≤ x → slot x = Some (Z.to_nat (x mod 32)).
Proof.
  intros Hx. unfold slot. rewrite Z.rem_mod_nonneg by lia. pose proof (Z.mod_pos_bound x 32 ltac:(lia)).
  by rewrite (proj2 (Z.ltb_ge _ _)) by lia.
Qed.

Lemma pipe_ne a j : 0 ≤ a → (j < 32)%nat → 0 < Z.of_nat j → Z.to_nat ((a + Z.of_nat j) mod 32) ≠ Z.to_nat (a mod 32).
Proof.
  intros Ha Hj Hp E. pose proof (Z.mod_pos_bound a 32). pose proof (Z.mod_pos_bound (a + Z.of_nat j) 32).
  assert ((a + Z.of_nat j) mod 32 = a mod 32) as E' by lia.
  pose proof (Z.div_mod a 32). pose proof (Z.div_mod (a + Z.of_nat j) 32). nia.
Qed.

Lemma pipe_slot_ne a j k : 0 ≤ a → (j < k)%nat → (k < 32)%nat →
  Z.to_nat ((a + Z.of_nat k) mod 32) ≠ Z.to_nat ((a + Z.of_nat j) mod 32).
Proof.
  intros Ha Hj Hk. replace (a + Z.of_nat k) with (a + Z.of_nat j + Z.of_nat (k - j)) by lia.
  apply pipe_ne; lia.
Qed.

(** The reader's step takes the head of the queue or leaves it. *)
Lemma read_step_inv closed p r p' r' ev q :
  holds p q → rd_inv p q r → read_step closed p r = Some (p', r', ev) →
  (ev = [] ∧ p' = p ∧ rd_inv p q r') ∨
  (∃ b q', q = b :: q' ∧ ev = [Received b] ∧ holds p' q' ∧ rd_inv p' q' r' ∧
     p_wpos p' = p_wpos p ∧ p_buf p' = p_buf p).
Proof.
  intros H Hi Hs. unfold read_step in Hs. unfold rd_inv in Hi. destruct H as [H1 H2 H3 H4 H5 H6].
  destruct (rd_pc r) as [| |x| | |x| |x|ret] eqn:Hpc.
  - injection Hs as <- <- <-. left. split_and!; [done..|]. unfold rd_inv. cbn. by destruct (_ <? _).
  - injection Hs as <- <- <-. left. by split_and!.
  - injection Hs as <- <- <-. left. split_and!; [done..|]. unfold rd_inv. cbn.
    destruct (Z.eqb_spec x (p_wpos p)); [by destruct (0 <? _)|]. intros ->. cbn in H2. lia.
  - injection Hs as <- <- <-. left. split_and!; [done..|]. unfold rd_inv. cbn. by destruct closed.
  - injection Hs as <- <- <-. left. by split_and!.
  - destruct Hi as [-> Hq]. rewrite slot_pos in Hs by done. cbn in Hs.
    destruct q as [|b q]; [done|]. specialize (H6 0%nat b eq_refl). rewrite Z.add_0_r in H6.
    rewrite H6 in Hs. cbn in Hs. injection Hs as <- <- <-. left. split_and!; [done..|].
    unfold rd_inv. cbn. by rewrite last_snoc.
  - injection Hs as <- <- <-. left. by split_and!.
  - destruct Hi as (-> & [b Hb] & Hh). rewrite Hb in Hs. cbn in Hs. injection Hs as <- <- <-. right.
    rewrite Hb in Hh. destruct q as [|b' q]; [done|]. injection Hh as <-. exists b, q. do 2 (split; [done|]).
    cbn in H2, H4.
    assert (Hw : s32 (p_rpos p + 1) = p_rpos p + 1) by (apply s32_small; lia).
    split_and!; [|done|done|done]. constructor; cbn; rewrite ?Hw; [lia|lia|done|lia|done|].
    intros j c Hj. specialize (H6 (S j) c Hj).
    by replace (p_rpos p + 1 + Z.of_nat j) with (p_rpos p + Z.of_nat (S j)) by lia.
  - done.
Qed.

(** The writer's step appends to the queue or leaves it. *)
Lemma write_step_inv closed p w p' w' ev q :
  holds p q → wr_inv p q w → write_step closed p w = Some (p', w', ev) →
  (p_wpos p + Z.of_nat (length (sent ev)) < 2 ^ 31) →
  (ev = [] ∧ holds p' q ∧ wr_inv p' q w' ∧ p_rpos p' = p_rpos p ∧ p_wpos p' = p_wpos p) ∨
  (∃ b, (length q < 32)%nat ∧ ev = [Sent b] ∧ holds p' (q ++ [b]) ∧ wr_inv p' (q ++ [b]) w' ∧
     p_rpos p' = p_rpos p ∧ p_wpos p' = p_wpos p + 1).
Proof.
  intros H Hi Hs Hmax. unfold write_step in Hs. unfold wr_inv in Hi. pose proof H as [H1 H2 H3 H4 H5 H6].
  destruct (wr_pc w) as [| |x| | |x| |x|ret] eqn:Hpc.
  - injection Hs as <- <- <-. left. split_and!; [done..| |done|done]. unfold wr_inv. cbn [wr_pc wr_at wr_buf wr_i p_buf p_wpos p_rpos].
    destruct (Nat.ltb_spec (wr_i w) (length (wr_buf w))); cbn; [|done]. by apply lookup_lt_is_Some_2.
  - injection Hs as <- <- <-. left. by split_and!.
  - destruct Hi as [-> Hi]. injection Hs as <- <- <-. left. split_and!; [done..| |done|done]. unfold wr_inv. cbn [wr_pc wr_at wr_buf wr_i p_buf p_wpos p_rpos].
    rewrite !u32_small by lia. destruct (Z.leb_spec (p_rpos p + 32) (p_wpos p)); cbn; [done|]. split; [lia|done].
  - injection Hs as <- <- <-. left. split_and!; [done..| |done|done]. unfold wr_inv. cbn [wr_pc wr_at wr_buf wr_i p_buf p_wpos p_rpos]. by destruct closed.
  - injection Hs as <- <- <-. left. by split_and!.
  - destruct Hi as (-> & Hq & [b Hb]). rewrite slot_pos, Hb in Hs by lia. cbn in Hs. injection Hs as <- <- <-.
    left. assert (Hk : (Z.to_nat (p_wpos p mod 32) < length (p_buf p))%nat).
    { rewrite H5. pose proof (Z.mod_pos_bound (p_wpos p) 32). lia. }
    split_and!; [done| | |done|done].
    + constructor; cbn; try done; [by rewrite length_insert|]. intros j c Hj.
      rewrite list_lookup_insert_ne; [by apply H6|]. rewrite H2. apply pipe_slot_ne; [done| |done].
      by apply lookup_lt_Some in Hj.
    + unfold wr_inv. cbn [wr_pc wr_at wr_buf wr_i p_buf p_wpos p_rpos]. split_and!; [done|by rewrite Hb|]. by rewrite list_lookup_insert_eq.
  - injection Hs as <- <- <-. left. by split_and!.
  - destruct Hi as (-> & Hq & [b Hb] & Hsl). rewrite Hb in Hs, Hsl. cbn in Hs. injection Hs as <- <- <-. right. exists b.
    cbn in Hmax. assert (Hw : s32 (p_wpos p + 1) = p_wpos p + 1) by (apply s32_small; lia).
    split_and!; [done|done| |done|done|done]. constructor; cbn; rewrite ?Hw, ?length_app; cbn; try done; try lia.
    intros j c [Hj|[Hj Hc]]%lookup_app_Some; [by apply H6|].
    apply list_lookup_singleton_Some in Hc as [Hj0 <-]. replace j with (length q) by lia. by rewrite <- H2.
  - done.
Qed.

(** Each thread's step leaves the other's knowledge true. *)
Lemma head_snoc {A} (x : option A) q b : is_Some x → x = head q → x = head (q ++ [b]).
Proof. intros [y ->]. by destruct q. Qed.

Lemma rd_inv_sent p p' q b r : rd_inv p q r → p_rpos p' = p_rpos p → rd_inv p' (q ++ [b]) r.
Proof.
  unfold rd_inv. intros Hi E. rewrite E. assert (q ++ [b] ≠ []) by (by destruct q).
  destruct (rd_pc r); try done; destruct_and?; split_and?; by try apply head_snoc.
Qed.
Lemma rd_inv_same p p' q r : rd_inv p q r → p_rpos p' = p_rpos p → rd_inv p' q r.
Proof. unfold rd_inv. intros Hi E. by rewrite E. Qed.
Lemma wr_inv_received p p' b q w : wr_inv p (b :: q) w → p_wpos p' = p_wpos p → p_buf p' = p_buf p → wr_inv p' q w.
Proof.
  unfold wr_inv. intros Hi E1 E2. rewrite E1, E2. cbn in Hi.
  destruct (wr_pc w); try done; destruct_and?; split_and?; done || lia.
Qed.

(** ** Runs *)

Record pipe_inv (tr : list event) (st : pst) (q : list Z) : Prop := {
  pi_holds : holds (ps_pipe st) q;
  pi_rd : rd_inv (ps_pipe st) q (ps_rd st);
  pi_wr : wr_inv (ps_pipe st) q (ps_wr st);
  pi_sent : p_wpos (ps_pipe st) = Z.of_nat (length (sent tr));
  pi_queue : queue_run 32 [] tr q }.

Lemma sent_app tr ev : sent (tr ++ ev) = sent tr ++ sent ev.
Proof. apply omap_app. Qed.
Lemma received_app tr ev : received (tr ++ ev) = received tr ++ received ev.
Proof. apply omap_app. Qed.

Lemma pipe_step_inv tr st ev st' q :
  pipe_inv tr st q → pipe_step st ev st' → Z.of_nat (length (sent (tr ++ ev))) < 2 ^ 31 →
  ∃ q', pipe_inv (tr ++ ev) st' q'.
Proof.
  intros [H Hr Hw Hn Hq] Hs Hmax. rewrite sent_app, length_app in Hmax.
  destruct Hs as [closed p r w p' r' ev Hs|closed p r w p' w' ev Hs|p r w ret n Hd Hge|p r w ret buf Hd]; cbn in *.
  - destruct (read_step_inv _ _ _ _ _ _ _ H Hr Hs) as [(-> & -> & Hr')|(b & q' & -> & -> & H' & Hr' & E1 & E2)].
    + exists q. by rewrite app_nil_r.
    + exists q'. constructor; cbn; [done|done|by eapply wr_inv_received| |eapply qrun_step; [done|constructor]].
      rewrite E1, sent_app. cbn. by rewrite app_nil_r.
  - destruct (write_step_inv _ _ _ _ _ _ _ H Hw Hs) as [(-> & H' & Hw' & E1 & E2)|(b & Hl & -> & H' & Hw' & E1 & E2)];
      [lia|..].
    + exists q. rewrite app_nil_r. constructor; cbn; [done|by eapply rd_inv_same|done|by rewrite E2|done].
    + exists (q ++ [b]). constructor; cbn; [done|by eapply rd_inv_sent|done| |eapply qrun_step; [done|by constructor]].
      rewrite E2, sent_app, length_app. cbn. lia.
  - exists q. rewrite app_nil_r. by constructor.
  - exists q. rewrite app_nil_r. by constructor.
Qed.

Lemma pipe_run_inv tr st : pipe_run pipe_init tr st → Z.of_nat (length (sent tr)) < 2 ^ 31 →
  ∃ q, pipe_inv tr st q.
Proof.
  induction 1 as [|tr s1 ev s2 _ IH Hs]; intros Hmax.
  - exists []. constructor; [constructor; cbn; done || lia|done..|constructor].
  - destruct IH as [q Hq]; [rewrite sent_app, length_app in Hmax; lia|]. by eapply pipe_step_inv.
Qed.

(** In a queue what comes out is what went in, in order. *)
Lemma queue_run_fifo cap q tr q' : queue_run cap q tr q' → q ++ sent tr = received tr ++ q'.
Proof.
  induction 1 as [|tr q1 e q2 _ IH Hs]; [by rewrite app_nil_r|]. rewrite sent_app, received_app, app_assoc, IH.
  destruct Hs; cbn; by rewrite ?app_nil_r, <- !app_assoc.
Qed.

(** A step of a call that has not returned is defined. *)
Lemma read_step_defined closed p r q : holds p q → rd_inv p q r → (∀ ret, rd_pc r ≠ R_done ret) →
  is_Some (read_step closed p r).
Proof.
  intros H Hi Hnd. unfold read_step. unfold rd_inv in Hi. destruct (rd_pc r) eqn:Hpc; try done.
  - destruct Hi as [-> Hq]. rewrite slot_pos by apply H. cbn. destruct q as [|b q]; [done|].
    pose proof (ho_slot _ _ H 0%nat b eq_refl) as Hb. rewrite Z.add_0_r in Hb. by rewrite Hb.
  - destruct Hi as (_ & [b ->] & _). done.
  - by destruct (Hnd ret).
Qed.

Lemma write_step_defined closed p w q : holds p q → wr_inv p q w → (∀ ret, wr_pc w ≠ W_done ret) →
  is_Some (write_step closed p w).
Proof.
  intros H Hi Hnd. unfold write_step. unfold wr_inv in Hi. destruct (wr_pc w) eqn:Hpc; try done.
  - destruct Hi as (-> & Hq & [b ->]). rewrite slot_pos; [done|]. rewrite (ho_wpos _ _ H).
    pose proof (ho_rpos _ _ H). lia.
  - destruct Hi as (_ & _ & [b ->] & _). done.
  - by destruct (Hnd ret).
Qed.

(** C5: a pipe is a queue of 32 bytes.  In every interleaving of the memory
    accesses of a reader and a writer, over any number of calls, the bytes
    sent and received are a run of a bounded queue: what has been received
    is, in order, what has been sent, but for at most 32 bytes that are in
    the pipe; and no access is undefined.  This holds for the first 2^31
    bytes that go through the pipe, after which p_wpos overflows. *)
Theorem pipe_refines_queue tr st :
  pipe_run pipe_init tr st → Z.of_nat (length (sent tr)) < 2 ^ 31 →
  ∃ q, queue_run 32 [] tr q ∧ holds (ps_pipe st) q ∧ sent tr = received tr ++ q ∧
    (∀ closed, (∀ ret, rd_pc (ps_rd st) ≠ R_done ret) → is_Some (read_step closed (ps_pipe st) (ps_rd st))) ∧
    (∀ closed, (∀ ret, wr_pc (ps_wr st) ≠ W_done ret) → is_Some (write_step closed (ps_pipe st) (ps_wr st))).
Proof.
  intros Hrun Hmax. destruct (pipe_run_inv tr st Hrun Hmax) as (q & [H Hr Hw _ Hq]). exists q.
  split_and!; [done..|by apply queue_run_fifo in Hq| |].
  - intros closed. by apply (read_step_defined closed _ _ q).
  - intros closed. by apply (write_step_defined closed _ _ q).
Qed.

(** ** Running the model *)

Inductive choice := Read_access (closed : bool) | Write_access (closed : bool) | Call_read (n : Z) | Call_write (buf : list Z).

Definition pipe_choose (c : choice) (st : pst) : option (list event * pst) :=
  let '(mkPst p r w) := st in
  match c with
  | Read_access closed => '(p', r', ev) ← read_step closed p r; Some (ev, mkPst p' r' w)
  | Write_access closed => '(p', w', ev) ← write_step closed p w; Some (ev, mkPst p' r w')
  | Call_read n =>
      match rd_pc r with R_done _ => if 0 <=? n then Some ([], mkPst p (mkR n [] R_for) w) else None | _ => None end
  | Call_write buf =>
      match wr_pc w with W_done _ => Some ([], mkPst p r (mkW buf 0 W_for)) | _ => None end
  end.

Fixpoint pipe_exec (cs : list choice) (tr : list event) (st : pst) : option (list event * pst) :=
  match cs with
  | [] => Some (tr, st)
  | c :: cs => '(ev, st') ← pipe_choose c st; pipe_exec cs (tr ++ ev) st'
  end.

Lemma pipe_choose_step c st ev st' : pipe_choose c st = Some (ev, st') → pipe_step st ev st'.
Proof.
  destruct st as [p r w], c; cbn.
  - destruct (read_step _ _ _) as [[[p' r'] e]|] eqn:E; [|done]. cbn. intros [= <- <-]. by econstructor.
  - destruct (write_step _ _ _) as [[[p' w'] e]|] eqn:E; [|done]. cbn. intros [= <- <-]. by econstructor.
  - destruct (rd_pc r) eqn:E; try done. destruct (Z.leb_spec 0 n); [|done]. intros [= <- <-]. by econstructor.
  - destruct (wr_pc w) eqn:E; try done. intros [= <- <-]. by econstructor.
Qed.

Lemma pipe_exec_run s cs : ∀ tr st tr' st', pipe_run s tr st → pipe_exec cs tr st = Some (tr', st') → pipe_run s tr' st'.
Proof.
  induction cs as [|c cs IH]; cbn; intros tr st tr' st' Hr; [by intros [= <- <-]|].
  destruct (pipe_choose c st) as [[ev st1]|] eqn:E; [|done]. cbn. apply IH. econstructor; [done|].
  by eapply pipe_choose_step.
Qed.

(** A byte goes through while the reader polls an empty pipe. *)
Definition demo_choices : list choice :=
  [Call_read 5; Call_write [65; 66]; Read_access false; Read_access false; Read_access false; Read_access false] ++
  replicate 8 (Write_access false) ++ replicate 7 (Read_access false) ++ [Write_access false; Read_access false].
Definition demo_end : pst :=
  Eval vm_compute in default pipe_init (snd <$> pipe_exec demo_choices [] pipe_init).

Lemma pipe_refines_queue_witness : ∃ q, sent [Sent 65; Received 65] = received [Sent 65; Received 65] ++ q.
Proof.
  destruct (pipe_refines_queue [Sent 65; Received 65] demo_end) as (q & _ & _ & E & _).
  - apply (pipe_exec_run pipe_init demo_choices [] pipe_init); [constructor|reflexivity].
  - reflexivity.
  - exists q. exact E.
Defined.

(* ------------------------------------------------------------------ *)
(** ** End of file

    _pipeisclosed compares the references to its end's descriptor page with
    those to the pipe's page.  The counts change by the system calls that
    other environments make: each call is one step, and an environment in
    the middle of dup, close or fork has calls left to make. *)

Inductive ppage := RFd | WFd | Data.
Inductive pcall := Map (g : ppage) | Unmap (g : ppage).

(** The reference counts of the three pages. *)
Record prefs := mkRefs { ref_r : Z; ref_w : Z; ref_p : Z }.
Definition ref_of (c : prefs) (g : ppage) : Z :=
  match g with RFd => ref_r c | WFd => ref_w c | Data => ref_p c end.
Definition ref_add (g : ppage) (d : Z) (c : prefs) : prefs :=
  match g with
  | RFd => mkRefs (ref_r c + d) (ref_w c) (ref_p c)
  | WFd => mkRefs (ref_r c) (ref_w c + d) (ref_p c)
  | Data => mkRefs (ref_r c) (ref_w c) (ref_p c + d)
  end.
Definition do_call (k : pcall) (c : prefs) : prefs :=
  match k with Map g => ref_add g 1 c | Unmap g => ref_add g (-1) c end.

(** The order in which dup, devpipe_close and fork map or unmap the pages of
    one end, or of both: fork goes up through the address space, where all
    descriptor pages are below all data pages. *)
Definition dup_calls (e : ppage) : list pcall := [Map Data; Map e].
Definition devpipe_close_calls (e : ppage) : list pcall := [Unmap e; Unmap Data].
Definition fork_calls (ends : list ppage) : list pcall := map Map ends ++ map (λ _, Map Data) ends.

(** _pipeisclosed on the end [e], access by access. *)
Inductive poll :=
  | P_runs                       (* n = thisenv->env_runs *)
  | P_fd (n : Z)                 (* pageref(fd) *)
  | P_pipe (n a : Z)             (* pageref(p), and compare *)
  | P_runs2 (n : Z) (ret : bool) (* nn = thisenv->env_runs *)
  | P_ret (ret : bool).
Definition poll_step (e : ppage) (runs : Z) (c : prefs) (q : poll) : poll :=
  match q with
  | P_runs => P_fd (u32 runs)
  | P_fd n => P_pipe n (ref_of c e)
  | P_pipe n a => P_runs2 n (a =? ref_of c Data)
  | P_runs2 n ret => if n =? u32 runs then P_ret ret else P_runs
  | P_ret ret => P_ret ret
  end.

(** One CPU: when another environment has made a call, this one has been
    run again since. *)
Record cst := mkCst { c_refs : prefs; c_pend : list (list pcall); c_runs : Z; c_poll : poll }.

(** The environments with calls left on the end [e]; each has [e] open. *)
Definition on_end (e : ppage) (k : pcall) : bool :=
  match k with Map g | Unmap g => match g, e with RFd, RFd | WFd, WFd | Data, Data => true | _, _ => false end end.
Definition busy (ps : list (list pcall)) (e : ppage) : nat :=
  sum_list_with (λ l, if existsb (on_end e) l then 1 else 0)%nat ps.
Arguments busy : simpl never.
Definition has_open (c : prefs) (ps : list (list pcall)) (e : ppage) : Prop :=
  e ≠ Data ∧ Z.of_nat (busy ps e) < ref_of c e.

(** An environment that has an end open dups or closes it; one that has the
    given ends open forks. *)
Inductive dup_or_close (c : prefs) (ps : list (list pcall)) : list pcall → Prop :=
  | starts_dup e : has_open c ps e → dup_or_close c ps (dup_calls e)
  | starts_close e : has_open c ps e → dup_or_close c ps (devpipe_close_calls e).
Inductive dup_close_fork (c : prefs) (ps : list (list pcall)) : list pcall → Prop :=
  | starts_other l : dup_or_close c ps l → dup_close_fork c ps l
  | starts_fork ends : Forall (has_open c ps) ends → dup_close_fork c ps (fork_calls ends).

Inductive cstep (e : ppage) (starts : prefs → list (list pcall) → list pcall → Prop) : cst → cst → Prop :=
  | cstep_poll c ps n q : cstep e starts (mkCst c ps n q) (mkCst c ps n (poll_step e n c q))
  | cstep_start c ps n q l : starts c ps l → cstep e starts (mkCst c ps n q) (mkCst c (l :: ps) (n + 1) q)
  | cstep_call c ps1 k l ps2 n q :
      cstep e starts (mkCst c (ps1 ++ (k :: l) :: ps2) n q) (mkCst (do_call k c) (ps1 ++ l :: ps2) (n + 1) q).

(** After pipe: each end and, from both, the pipe's page. *)
Definition poll_init : cst := mkCst (mkRefs 1 1 2) [] 0 P_runs.

Definition other_end (e : ppage) : ppage := match e with RFd => WFd | _ => RFd end.

(** *** The calls in progress *)
Inductive pending : list pcall → Prop :=
  | pend_dup e : e ≠ Data → pending (dup_calls e)
  | pend_dup1 e : e ≠ Data → pending [Map e]
  | pend_close e : e ≠ Data → pending (devpipe_close_calls e)
  | pend_close1 : pending [Unmap Data]
  | pend_done : pending [].
(** The references to the pipe's page ahead of those to its ends. *)
Definition owed1 (l : list pcall) : nat := match l with [_] => 1 | _ => 0 end.
Definition owed (ps : list (list pcall)) : nat := sum_list_with owed1 ps.
Arguments owed : simpl never.

Definition poll_inv (e : ppage) (s : cst) : Prop :=
  match c_poll s with
  | P_runs => True
  | P_fd n => ∃ m, 0 ≤ m ≤ c_runs s ∧ n = u32 m
  | P_pipe n a => ∃ m, 0 ≤ m ≤ c_runs s ∧ n = u32 m ∧ (m = c_runs s → a = ref_of (c_refs s) e)
  | P_runs2 n ret => ∃ m, 0 ≤ m ≤ c_runs s ∧ n = u32 m ∧
      (m = c_runs s → ret = (ref_of (c_refs s) e =? ref_p (c_refs s)))
  | P_ret true => ref_of (c_refs s) (other_end e) = 0
  | P_ret false => True
  end.

Record refs_inv (s : cst) : Prop := {
  ri_pend : Forall pending (c_pend s);
  ri_busy : ∀ e, e ≠ Data → Z.of_nat (busy (c_pend s) e) ≤ ref_of (c_refs s) e;
  ri_owed : ref_p (c_refs s) = ref_r (c_refs s) + ref_w (c_refs s) + Z.of_nat (owed (c_pend s));
  ri_runs : 0 ≤ c_runs s }.

Lemma busy_app ps ps' e : busy (ps ++ ps') e = (busy ps e + busy ps' e)%nat.
Proof. apply sum_list_with_app. Qed.
Lemma busy_cons l ps e : busy (l :: ps) e = (busy [l] e + busy ps e)%nat.
Proof. apply (busy_app [l]). Qed.
Lemma owed_app ps ps' : owed (ps ++ ps') = (owed ps + owed ps')%nat.
Proof. apply sum_list_with_app. Qed.
Lemma owed_cons l ps : owed (l :: ps) = (owed1 l + owed ps)%nat.
Proof. done. Qed.

Lemma refs_start c ps n q l : refs_inv (mkCst c ps n q) → dup_or_close c ps l → refs_inv (mkCst c (l :: ps) (n + 1) q).
Proof.
  intros [H1 H2 H3 H4] Hl. cbn in *.
  assert (Hp : pending l ∧ owed1 l = 0%nat ∧ ∀ e, e ≠ Data → Z.of_nat (busy [l] e + busy ps e) ≤ ref_of c e).
  { destruct Hl as [e [He Hlt]|e [He Hlt]]; split_and!; try by constructor.
    all: intros e' He'; specialize (H2 e' He'); unfold busy at 1; destruct e, e'; try done; cbn in *; lia. }
  destruct Hp as (Hp & Ho & Hb). constructor; cbn; [by constructor| |by rewrite owed_cons, Ho|lia].
  intros e He. rewrite busy_cons. by apply Hb.
Qed.

(** One call moves the balance the way its environment's remaining calls
    account for. *)
Lemma pending_call c k l : pending (k :: l) →
  pending l ∧
  (∀ e, e ≠ Data → Z.of_nat (busy [l] e) - ref_of (do_call k c) e ≤ Z.of_nat (busy [k :: l] e) - ref_of c e) ∧
  ref_p (do_call k c) - ref_r (do_call k c) - ref_w (do_call k c) - Z.of_nat (owed1 l) =
  ref_p c - ref_r c - ref_w c - Z.of_nat (owed1 (k :: l)).
Proof.
  intros Hk. inversion Hk; subst; (split; [by constructor|]); (split; [intros e' He'; destruct e'|]);
    destruct c; try done; try (destruct e; [..|done]); unfold busy; cbn; lia.
Qed.

Lemma refs_call c ps1 k l ps2 n q : refs_inv (mkCst c (ps1 ++ (k :: l) :: ps2) n q) →
  refs_inv (mkCst (do_call k c) (ps1 ++ l :: ps2) (n + 1) q).
Proof.
  intros [H1 H2 H3 H4]. cbn in *. apply Forall_app in H1 as [H1 [Hk H1']%Forall_cons].
  rewrite owed_app, owed_cons in H3. destruct (pending_call c k l Hk) as (Hp & Hb & Ho). constructor; cbn.
  - apply Forall_app. split; [done|by constructor].
  - intros e He. specialize (H2 e He). specialize (Hb e He). rewrite busy_app, busy_cons in *. lia.
  - rewrite owed_app, owed_cons. lia.
  - lia.
Qed.

(** *** The poll *)
Lemma ref_other c e : e ≠ Data → ref_of c e + ref_of c (other_end e) = ref_r c + ref_w c.
Proof. destruct e; cbn; lia || done. Qed.
Lemma other_end_ne e : other_end e ≠ Data.
Proof. by destruct e. Qed.

Lemma closed_now e c ps n q : e ≠ Data → refs_inv (mkCst c ps n q) → ref_of c e = ref_p c → ref_of c (other_end e) = 0.
Proof.
  intros He [_ H2 H3 _] E. cbn in *. pose proof (ref_other c e He). specialize (H2 _ (other_end_ne e)). lia.
Qed.

Lemma poll_inv_poll e c ps n q : e ≠ Data → refs_inv (mkCst c ps n q) → n < 2 ^ 32 → poll_inv e (mkCst c ps n q) →
  poll_inv e (mkCst c ps n (poll_step e n c q)).
Proof.
  intros He Hi Hn Hq. pose proof (ri_runs _ Hi) as Hr. cbn in Hr. unfold poll_inv in *. cbn in *.
  destruct q as [|m|m a|m ret|ret]; cbn in *; [eauto with lia|..|done].
  - destruct Hq as (k & ? & ->). eauto with lia.
  - destruct Hq as (k & ? & -> & Ha). exists k. split_and!; [lia..|done|]. intros E. by rewrite Ha.
  - destruct Hq as (k & Hk & -> & Ha). rewrite !u32_small by lia. destruct (Z.eqb_spec k n) as [->|]; [|done].
    rewrite Ha by done. destruct (Z.eqb_spec (ref_of c e) (ref_p c)); [|done]. by eapply closed_now.
Qed.

(** A step of another environment. *)
Lemma poll_inv_other e c c' ps ps' n q : 0 ≤ n → poll_inv e (mkCst c ps n q) →
  (ref_of c (other_end e) = 0 → ref_of c' (other_end e) = 0) → poll_inv e (mkCst c' ps' (n + 1) q).
Proof.
  intros Hn Hq Hc. unfold poll_inv in *. cbn in *. destruct q as [|m|m a|m ret|[]]; cbn in *; try tauto.
  - destruct Hq as (k & ? & ->). exists k. split; [lia|done].
  - destruct Hq as (k & ? & -> & Ha). exists k. split_and!; [lia..|done|]. lia.
  - destruct Hq as (k & ? & -> & Ha). exists k. split_and!; [lia..|done|]. lia.
Qed.

(** With no reference left nothing is in progress, so the end stays closed. *)
Lemma closed_stays e c ps1 k l ps2 n q : refs_inv (mkCst c (ps1 ++ (k :: l) :: ps2) n q) →
  ref_of c (other_end e) = 0 → ref_of (do_call k c) (other_end e) = 0.
Proof.
  intros [_ H2 _ _] E. specialize (H2 _ (other_end_ne e)). cbn in H2. rewrite busy_app, busy_cons, E in H2.
  assert (Hk : busy [k :: l] (other_end e) = 0%nat) by lia. unfold busy in Hk. cbn in Hk. revert E Hk.
  destruct c, e, k as [[]|[]]; cbn; done || lia.
Qed.

Lemma poll_runs e starts s s' : cstep e starts s s' → c_runs s ≤ c_runs s'.
Proof. destruct 1; cbn; lia. Qed.

Lemma poll_reach e s : e ≠ Data → rtc (cstep e dup_or_close) poll_init s → c_runs s < 2 ^ 32 →
  refs_inv s ∧ poll_inv e s.
Proof.
  intros He Hr. revert s Hr. apply (rtc_ind_r (λ s, c_runs s < 2 ^ 32 → refs_inv s ∧ poll_inv e s) poll_init);
    [intros Hn|intros s s' _ Hs IH Hn].
  - split; [|done]. constructor; cbn; [done| |done|done]. by intros [].
  - pose proof (poll_runs _ _ _ _ Hs). destruct IH as [Hi Hp]; [lia|].
    destruct Hs as [c ps n q|c ps n q l Hl|c ps1 k l ps2 n q]; cbn in Hn.
    + split; [by destruct Hi|]. by apply poll_inv_poll.
    + split; [by apply refs_start|]. by eapply poll_inv_other; [apply Hi|..].
    + split; [by apply refs_call|]. eapply poll_inv_other; [apply Hi|done|]. by eapply closed_stays.
Qed.

(** C6: on one CPU, while environments dup and close the ends of a pipe in
    any interleaving, _pipeisclosed on either end answers 1 only when the
    other end has been closed for good: no environment has it open and none
    is in the middle of a dup or a close of it.  This rests on dup mapping
    the pipe's page before the descriptor, on devpipe_close unmapping it
    after, and on the comparison of env_runs (below its 2^32 wrap). *)
Theorem pipeisclosed_sound e s :
  e ≠ Data → rtc (cstep e dup_or_close) poll_init s → c_runs s < 2 ^ 32 → c_poll s = P_ret true →
  ref_of (c_refs s) (other_end e) = 0 ∧ busy (c_pend s) (other_end e) = 0%nat ∧
  ∀ s', rtc (cstep e dup_or_close) s s' → c_runs s' < 2 ^ 32 → ref_of (c_refs s') (other_end e) = 0.
Proof.
  intros He Hr Hn Hq.
  assert (Hclosed : ∀ s', rtc (cstep e dup_or_close) s s' → c_runs s' < 2 ^ 32 →
    refs_inv s' ∧ ref_of (c_refs s') (other_end e) = 0).
  { intros s' Hr' Hn'. destruct (poll_reach e s' He) as [Hi Hp]; [by etrans|done|]. split; [done|].
    assert (Hq' : c_poll s' = P_ret true).
    { clear -Hr' Hq. induction Hr' as [|s s1 s' Hs _ IH]; [done|]. apply IH. revert Hq. destruct Hs; cbn; by try intros ->. }
    unfold poll_inv in Hp. by rewrite Hq' in Hp. }
  destruct (Hclosed s) as [Hi E]; [done..|]. split_and!; [done| |intros s' ??; by apply Hclosed].
  pose proof (ri_busy _ Hi _ (other_end_ne e)) as Hb. rewrite E in Hb. lia.
Qed.

(** The pipe after its writer closed, polled by the reader. *)
Definition demo_closed : cst := mkCst (mkRefs 1 0 1) [[]] 3 (P_ret true).
Lemma demo_closed_reach : rtc (cstep RFd dup_or_close) poll_init demo_closed.
Proof.
  eapply rtc_l; [apply (cstep_start RFd _ _ _ _ _ (devpipe_close_calls WFd)); constructor; split; [discriminate|reflexivity]|].
  eapply rtc_l; [apply (cstep_call RFd _ _ [] (Unmap WFd) [Unmap Data] [])|].
  eapply rtc_l; [apply (cstep_call RFd _ _ [] (Unmap Data) [] [])|].
  do 4 (eapply rtc_l; [apply cstep_poll|]). apply rtc_refl.
Qed.

Lemma pipeisclosed_sound_witness : ref_of (c_refs demo_closed) WFd = 0.
Proof.
  destruct (pipeisclosed_sound RFd demo_closed) as (E & _);
    [discriminate|apply demo_closed_reach|reflexivity|reflexivity|exact E].
Defined.

(** fork breaks that promise.  It maps the pages in the order of their
    addresses, so the descriptor pages gain their references before the
    pipe's page does: while an environment that holds both ends of a pipe
    forks, a reader's poll can answer 1, end of file, although the writer's
    end is open and stays open.  (Only the references are counted here;
    that duppage also makes the pages copy-on-write is in Fork.v.) *)
Theorem pipeisclosed_fork_race :
  ∃ s s', rtc (cstep RFd dup_close_fork) poll_init s ∧ c_poll s = P_ret true ∧
    0 < ref_of (c_refs s) WFd ∧
    rtc (cstep RFd dup_close_fork) s s' ∧ c_pend s' = [[]] ∧ c_refs s' = mkRefs 2 2 4.
Proof.
  set (l := fork_calls [RFd; WFd]).
  exists (mkCst (mkRefs 2 1 2) [tail l] 2 (P_ret true)), (mkCst (mkRefs 2 2 4) [[]] 5 (P_ret true)).
  split_and!; [|done..| |done|done].
  - eapply rtc_l; [apply (cstep_start RFd _ _ _ _ _ l); apply starts_fork; by repeat constructor|].
    eapply rtc_l; [apply (cstep_call RFd _ _ [] (Map RFd) (tail l) [])|].
    do 4 (eapply rtc_l; [apply cstep_poll|]). apply rtc_refl.
  - eapply rtc_l; [apply (cstep_call RFd _ _ [] (Map WFd) [Map Data; Map Data] [])|].
    eapply rtc_l; [apply (cstep_call RFd _ _ [] (Map Data) [Map Data] [])|].
    eapply rtc_l; [apply (cstep_call RFd _ _ [] (Map Data) [] [])|]. apply rtc_refl.
Qed.
