(* ===== verification/Kdebug.v ===== *)
(** Debugging information: kern/kdebug.c.  The stabs are a list, and an
    index out of it is undefined behaviour ([None]).  debuginfo_eip reads
    the tables through the current page tables, after checking them when
    they are a user program's. *)

From S2P Require Import Prelude Mmu Printfmt Console KState Pmap PageTable Env Sched Syscall.
From Stdlib Require Import ZArith Lia Ascii String.
From stdpp Require Import base tactics numbers list option.
Open Scope Z_scope.

Record Stab := mkStab { n_strx : Z; n_type : Z; n_other : Z; n_desc : Z; n_value : Z }.

Abbreviation N_FUN := 36 (only parsing).
Abbreviation N_SLINE := 68 (only parsing).
Abbreviation N_SO := 100 (only parsing).
Abbreviation N_SOL := 132 (only parsing).
Abbreviation N_PSYM := 160 (only parsing).

Definition stab_at (stabs : list Stab) (i : Z) : option Stab :=
  if i <? 0 then None else stabs !! Z.to_nat i.

(** ** stab_binsearch *)

(** [while (m >= l && stabs[m].n_type != type) m--], on [n] steps at most. *)
Fixpoint earlier (stabs : list Stab) (type : Z) (n : nat) (l m : Z) : option Z :=
  match n with
  | O => Some m
  | S n' =>
      if l <=? m then
        s ← stab_at stabs m;
        if n_type s =? type then Some m else earlier stabs type n' l (m - 1)
      else Some m
  end.

Record bsearch := mkBs { bs_l : Z; bs_r : Z; bs_left : Z; bs_right : Z; bs_any : bool; bs_addr : Z }.

(** One iteration of the loop. *)
Definition bs_step (stabs : list Stab) (type : Z) (b : bsearch) : option bsearch :=
  let true_m := Z.quot (bs_l b + bs_r b) 2 in
  m ← earlier stabs type (Z.to_nat (true_m - bs_l b + 1)) (bs_l b) true_m;
  if m <? bs_l b then
    Some (mkBs (true_m + 1) (bs_r b) (bs_left b) (bs_right b) (bs_any b) (bs_addr b))
  else
    s ← stab_at stabs m;
    Some (if n_value s <? bs_addr b then
            mkBs (true_m + 1) (bs_r b) m (bs_right b) true (bs_addr b)
          else if bs_addr b <? n_value s then
            mkBs (bs_l b) (m - 1) (bs_left b) (m - 1) true (bs_addr b)
          else mkBs m (bs_r b) m (bs_right b) true (u32 (bs_addr b + 1))).

Fixpoint bs_loop (stabs : list Stab) (type : Z) (fuel : nat) (b : bsearch) : option bsearch :=
  match fuel with
  | O => None
  | S f => if bs_l b <=? bs_r b then b' ← bs_step stabs type b; bs_loop stabs type f b' else Some b
  end.

(** [for (l = *region_right; l > *region_left && stabs[l].n_type != type; l--)]. *)
Fixpoint rightmost (stabs : list Stab) (type : Z) (n : nat) (left l : Z) : option Z :=
  match n with
  | O => Some l
  | S n' =>
      if left <? l then
        s ← stab_at stabs l;
        if n_type s =? type then Some l else rightmost stabs type n' left (l - 1)
      else Some l
  end.

(** The new *region_left and *region_right.  Each iteration of the main loop
    narrows [l, r] or is the only exact match at its stab, so twice the
    length of the region is fuel enough ([bs_loop_ok]). *)
Definition stab_binsearch (stabs : list Stab) (left right type addr : Z) : option (Z * Z) :=
  b ← bs_loop stabs type (Z.to_nat (2 * (right - left + 1) + 2)) (mkBs left right left right false addr);
  if negb (bs_any b) then Some (bs_left b, bs_left b - 1)
  else
    l ← rightmost stabs type (Z.to_nat (bs_right b - bs_left b)) (bs_left b) (bs_right b);
    Some (l, bs_right b).

(** ** debuginfo_eip *)

(** A string: the literal of the source, or an address in the string
    table. *)
Inductive cname := Unknown | NameAt (a : Z).

Record Eipdebuginfo := mkInfo {
  eip_file : cname; eip_line : Z; eip_fn_name : cname; eip_fn_namelen : Z;
  eip_fn_addr : Z; eip_fn_narg : Z }.

Fixpoint load_stabs (n : nat) (a : Z) : K (list Stab) :=
  match n with
  | O => mret []
  | S n' =>
      strx ← uload32 a; type ← uload8 (u32 (a + 4)); other ← uload8 (u32 (a + 5));
      desc ← uload16 (u32 (a + 6)); value ← uload32 (u32 (a + 8));
      r ← load_stabs n' (u32 (a + 12));
      mret (mkStab strx type other desc value :: r)
  end.

(** strfind(name, ':') - name, reading the table. *)
Fixpoint name_len (n : nat) (a : Z) : K Z :=
  match n with
  | O => mret 0
  | S n' =>
      c ← uload8 a;
      if (c =? 0) || (c =? zc ":") then mret 0
      else r ← name_len n' (u32 (a + 1)); mret (1 + r)
  end.

(** The last loop over the stabs before [lline]. *)
Fixpoint file_stab (stabs : list Stab) (n : nat) (lfile lline : Z) : option Z :=
  match n with
  | O => Some lline
  | S n' =>
      if lfile <=? lline then
        s ← stab_at stabs lline;
        if negb (n_type s =? N_SOL) && (negb (n_type s =? N_SO) || (n_value s =? 0))
        then file_stab stabs n' lfile (lline - 1) else Some lline
      else Some lline
  end.

Fixpoint count_psym (stabs : list Stab) (n : nat) (lline rfun : Z) : option Z :=
  match n with
  | O => Some 0
  | S n' =>
      if lline <? rfun then
        s ← stab_at stabs lline;
        if n_type s =? N_PSYM then r ← count_psym stabs n' (lline + 1) rfun; Some (1 + r) else Some 0
      else Some 0
  end.

Abbreviation USTABDATA := 2097152 (only parsing).

Section debuginfo.
(** The kernel's tables, placed by the linker. *)
Context (stab_begin stab_fin stabstr_begin stabstr_fin : Z).

(** The tables of the program that runs [addr], or -1. *)
Definition find_tables (addr : Z) : K (option (Z * Z * Z * Z)) :=
  if ULIM <=? addr then mret (Some (stab_begin, stab_fin, stabstr_begin, stabstr_fin))
  else
    c ← the_curenv;
    r ← user_mem_check c USTABDATA 16 PTE_U;
    if r <? 0 then mret None
    else
      st ← uload32 USTABDATA; en ← uload32 (USTABDATA + 4);
      ss ← uload32 (USTABDATA + 8); se ← uload32 (USTABDATA + 12);
      r1 ← user_mem_check c st (u32 (en - st)) PTE_U;
      if r1 <? 0 then mret None
      else
        r2 ← user_mem_check c ss (u32 (se - ss)) PTE_U;
        if r2 <? 0 then mret None else mret (Some (st, en, ss, se)).

(** The result and what is left in *info. *)
Definition debuginfo_eip (addr : Z) : K (Z * Eipdebuginfo) :=
  let info0 := mkInfo Unknown 0 Unknown 9 addr 0 in
  tb ← find_tables addr;
  match tb with
  | None => mret (-1, info0)
  | Some (st, en, ss, se) =>
      if se <=? ss then mret (-1, info0) else
      z ← uload8 (u32 (se - 1));
      if negb (z =? 0) then mret (-1, info0) else
      let n := Z.quot (s32 (en - st)) 12 in
      stabs ← load_stabs (Z.to_nat n) st;
      '(lfile, rfile) ← mderef (stab_binsearch stabs 0 (n - 1) N_SO addr);
      if lfile =? 0 then mret (-1, info0) else
      '(lfun, rfun) ← mderef (stab_binsearch stabs lfile rfile N_FUN addr);
      '(name, fnaddr, addr, lline, rline) ←
        (if lfun <=? rfun then
           s ← mderef (stab_at stabs lfun);
           mret (if n_strx s <? se - ss then NameAt (u32 (ss + n_strx s)) else Unknown,
                 n_value s, u32 (addr - n_value s), lfun, rfun)
         else mret (Unknown, addr, addr, lfile, rfile));
      len ← (match name with
             | Unknown => mret 9
             | NameAt a => name_len (Z.to_nat (se - a)) a
             end);
      '(lline, rline) ← mderef (stab_binsearch stabs lline rline N_SLINE addr);
      if negb (lline <=? rline) then mret (-1, mkInfo Unknown 0 name len fnaddr 0) else
      s ← mderef (stab_at stabs lline);
      let eline := n_desc s in
      fl ← mderef (file_stab stabs (Z.to_nat (lline - lfile + 1)) lfile lline);
      file ← (if lfile <=? fl then
                s ← mderef (stab_at stabs fl);
                mret (if n_strx s <? se - ss then NameAt (u32 (ss + n_strx s)) else Unknown)
              else mret Unknown);
      narg ← (if lfun <? rfun then
                mderef (count_psym stabs (Z.to_nat (rfun - lfun)) (lfun + 1) rfun)
              else mret 0);
      mret (0, mkInfo file eline name len fnaddr narg)
  end.
End debuginfo.

(* ------------------------------------------------------------------ *)
(** ** What the search finds *)

Section search.
Context (stabs : list Stab) (type addr L R : Z).

(** Stab [i] has the type searched for; the value of stab [i]. *)
Definition ty (i : Z) : bool :=
  match stab_at stabs i with Some s => n_type s =? type | None => false end.
Definition vl (i : Z) : Z := match stab_at stabs i with Some s => n_value s | None => 0 end.

Hypothesis HL : 0 ≤ L.
Hypothesis HR : R < Z.of_nat (length stabs).

Lemma stab_at_some i : 0 ≤ i ≤ R → ∃ s, stab_at stabs i = Some s ∧ ty i = (n_type s =? type) ∧ vl i = n_value s.
Proof.
  intros Hi. unfold ty, vl, stab_at. rewrite (proj2 (Z.ltb_ge i 0)) by lia.
  destruct (lookup_lt_is_Some_2 stabs (Z.to_nat i)) as [s Hs]; [lia|].
  exists s. rewrite Hs. done.
Qed.

Lemma earlier_ok n l m :
  0 ≤ l → m ≤ R → Z.of_nat n = m - l + 1 →
  ∃ m', earlier stabs type n l m = Some m' ∧ l - 1 ≤ m' ≤ m ∧
    (∀ i, m' < i ≤ m → ty i = false) ∧ (l ≤ m' → ty m' = true).
Proof.
  intros Hl. revert m. induction n as [|n IH]; intros m Hm Hn; cbn [earlier].
  - exists m. split_and!; [done|lia|lia| |lia]. intros i Hi. lia.
  - rewrite (proj2 (Z.leb_le l m)) by lia. destruct (stab_at_some m) as (s & Hs & Ht & _); [lia|].
    rewrite Hs. cbn. destruct (n_type s =? type) eqn:E.
    + exists m. split_and!; [done|lia|lia| |done]. intros i Hi. lia.
    + destruct (IH (m - 1)) as (m' & Hm' & Hr & Hno & Hty); [lia|lia|].
      exists m'. split_and!; [done|lia|lia| |done].
      intros i Hi. destruct (decide (i = m)) as [->|]; [done|]. apply Hno. lia.
Qed.

Lemma rightmost_ok n left l :
  0 ≤ left → l ≤ R → Z.of_nat n = l - left → (∀ i, left < i ≤ l → ty i = false) →
  rightmost stabs type n left l = Some left.
Proof.
  intros Hl. revert l. induction n as [|n IH]; intros l HlR Hn Hno; cbn [rightmost].
  - f_equal. lia.
  - rewrite (proj2 (Z.ltb_lt left l)) by lia. destruct (stab_at_some l) as (s & Hs & Ht & _); [lia|].
    rewrite Hs. cbn. rewrite <-Ht, Hno by lia. apply IH; [lia|lia|].
    intros i Hi. apply Hno. lia.
Qed.

(** The stabs of the type are in order of their values, and none of them is
    one past the address. *)
Hypothesis Haddr : 0 ≤ addr < 2 ^ 32 - 1.
Hypothesis Hsort : ∀ i j, L ≤ i < j → j ≤ R → ty i = true → ty j = true → vl i < vl j.
Hypothesis Hnext : ∀ i, L ≤ i ≤ R → ty i = true → vl i ≠ addr + 1.

Record bs_inv (b : bsearch) : Prop := {
  bi_range : L ≤ bs_l b ≤ bs_r b + 1 ∧ bs_r b ≤ R;
  bi_right : bs_right b = bs_r b;
  bi_low : ∀ i, L ≤ i < bs_l b → ty i = true → vl i ≤ addr;
  bi_high : ∀ i, bs_r b < i ≤ R → ty i = true → addr < vl i;
  bi_end : bs_r b = R ∨ ty (bs_r b + 1) = true;
  bi_left : L ≤ bs_left b ≤ bs_l b ∧ (∀ i, bs_left b < i < bs_l b → ty i = false) ∧
    (ty (bs_left b) = true ∧ vl (bs_left b) ≤ addr ∧ bs_left b ≤ bs_r b
     ∨ bs_left b = L ∧ ∀ i, L ≤ i < bs_l b → ty i = false);
  bi_any : bs_any b = false → bs_r b = R ∧ ∀ i, L ≤ i < bs_l b → ty i = false;
  bi_some : bs_any b = true → ∃ i, L ≤ i ≤ R ∧ ty i = true;
  bi_addr : bs_addr b = addr ∨ bs_addr b = addr + 1 }.

Definition bs_measure (b : bsearch) : Z :=
  2 * (bs_r b - bs_l b + 1) + (if bs_addr b =? addr then 1 else 0).

(** By order: a stab below one that is low is low, one above a high one is
    high. *)
Lemma sorted_low m i : L ≤ i → i ≤ m ≤ R → ty m = true → vl m ≤ addr → ty i = true → vl i ≤ addr.
Proof.
  intros Hi Hm Ht Hv Hti. destruct (decide (i = m)) as [->|]; [done|].
  pose proof (Hsort i m ltac:(lia) ltac:(lia) Hti Ht). lia.
Qed.

Lemma sorted_high m i : L ≤ m → m ≤ i ≤ R → ty m = true → addr < vl m → ty i = true → addr < vl i.
Proof.
  intros Hm Hi Ht Hv Hti. destruct (decide (i = m)) as [->|]; [done|].
  pose proof (Hsort m i ltac:(lia) ltac:(lia) Ht Hti). lia.
Qed.

Lemma bs_step_ok b :
  bs_inv b → bs_l b ≤ bs_r b →
  ∃ b', bs_step stabs type b = Some b' ∧ bs_inv b' ∧ bs_measure b' < bs_measure b.
Proof.
  destruct b as [l r left right any a]. intros [Hr Hrt Hlow Hhigh Hend Hleft Hany Hsome Ha]. cbn in *.
  intros Hlr. unfold bs_step. cbn [bs_l bs_r bs_left bs_right bs_any bs_addr].
  rewrite Z.quot_div_nonneg by lia. set (tm := (l + r) / 2).
  assert (Htm : l ≤ tm ≤ r) by (unfold tm; pose proof (Z.div_mod (l + r) 2); pose proof (Z.mod_pos_bound (l + r) 2); lia).
  destruct (earlier_ok (Z.to_nat (tm - l + 1)) l tm) as (m & -> & Hm & Hno & Hty); [lia|lia|lia|].
  cbn [option_bind mbind]. destruct (Z.ltb_spec m l) as [Hml|Hml].
  { assert (Hnone : ∀ i, l ≤ i < tm + 1 → ty i = false) by (intros i Hi; apply Hno; lia).
    eexists. split; [done|]. split; [|unfold bs_measure; cbn; lia]. constructor; cbn; [lia|done| |done|done| | |done|done].
    - intros i Hi Ht. destruct (decide (i < l)); [apply Hlow; [lia|done]|]. by rewrite Hnone in Ht by lia.
    - destruct Hleft as (H1 & H2 & H3). split; [lia|]. split.
      + intros i Hi. destruct (decide (i < l)); [apply H2; lia|apply Hnone; lia].
      + destruct H3 as [H3|[-> H3]]; [by left|right]. split; [done|].
        intros i Hi. destruct (decide (i < l)); [apply H3; lia|apply Hnone; lia].
    - intros Hf. destruct (Hany Hf) as [-> H]. split; [done|].
      intros i Hi. destruct (decide (i < l)); [apply H; lia|apply Hnone; lia]. }
  specialize (Hty Hml). destruct (stab_at_some m) as (s & Hs & _ & Hv); [lia|].
  rewrite Hs. cbn [option_bind mbind]. rewrite <-Hv. pose proof (Hnext m ltac:(lia) Hty) as Hne.
  assert (Hsame : ∀ i, m < i < tm + 1 → ty i = false) by (intros i Hi; apply Hno; lia).
  eexists. split; [done|].
  destruct (Z.ltb_spec (vl m) a); [|destruct (Z.ltb_spec a (vl m))].
  - split; [|unfold bs_measure; cbn; lia]. constructor; cbn; [lia|done| |done|done| |done|by exists m; split; [lia|]|done].
    + intros i Hi Ht. destruct (decide (i ≤ m)); [by apply (sorted_low m); (lia || done)|].
      by rewrite Hsame in Ht by lia.
    + split; [lia|]. split; [done|]. left. split; [done|]. lia.
  - split; [|unfold bs_measure; cbn; lia]. constructor; cbn; [lia|done|done| | | |done|by exists m; split; [lia|]|done].
    + intros i Hi Ht. apply (sorted_high m); (lia || done).
    + right. by replace (m - 1 + 1) with m by lia.
    + destruct Hleft as (H1 & H2 & H3). split; [lia|]. split; [done|].
      destruct H3 as [(H3 & H4 & _)|H3]; [left|by right].
      assert (left ≠ m) by (intros ->; lia). split; [done|]. lia.
  - assert (Haa : a = addr) by lia. split.
    + rewrite u32_small by lia. constructor; cbn; [lia|done| |done|done| |done|by exists m; split; [lia|]|lia].
      * intros i Hi Ht. apply (sorted_low m); (lia || done).
      * split; [lia|]. split; [intros i Hi; lia|]. left. split; [done|]. lia.
    + unfold bs_measure. cbn. rewrite u32_small by lia. rewrite Haa, Z.eqb_refl.
      rewrite (proj2 (Z.eqb_neq (addr + 1) addr)) by lia. lia.
Qed.

Lemma bs_loop_ok fuel b :
  bs_inv b → bs_measure b < Z.of_nat fuel →
  ∃ b', bs_loop stabs type fuel b = Some b' ∧ bs_inv b' ∧ bs_r b' < bs_l b'.
Proof.
  revert b. induction fuel as [|fuel IH]; intros b Hb Hm; cbn [bs_loop].
  - exfalso. destruct (bi_range _ Hb). unfold bs_measure in Hm. destruct (_ =? _); lia.
  - destruct (Z.leb_spec (bs_l b) (bs_r b)) as [Hle|]; [|by exists b].
    destruct (bs_step_ok b Hb Hle) as (b' & -> & Hb' & Hlt). apply IH; [done|lia].
Qed.
End search.

(** ** Claims *)

(** Stab_binsearch terminates, and on stabs whose addresses increase
    within the type finds the stab that contains the address: the last one
    of the type at or below it, with region_right just before the next stab
    of the type (or at the end).  When the region has no stab of the type,
    it returns an empty region.  (The proviso that no stab of the type is at
    the address after the one searched for is needed, see
    [stab_binsearch_off_by_one].) *)
Theorem stab_binsearch_spec stabs type addr L R :
  0 ≤ L ≤ R + 1 → R < Z.of_nat (length stabs) → 0 ≤ addr < 2 ^ 32 - 1 →
  (∀ i j, L ≤ i < j → j ≤ R → ty stabs type i = true → ty stabs type j = true →
     vl stabs i < vl stabs j) →
  (∀ i, L ≤ i ≤ R → ty stabs type i = true → vl stabs i ≠ addr + 1) →
  (∀ i, L ≤ i ≤ R → ty stabs type i = true → vl stabs i ≤ addr →
     ∃ l r, stab_binsearch stabs L R type addr = Some (l, r) ∧ i ≤ l ≤ r ∧ r ≤ R ∧
       ty stabs type l = true ∧ vl stabs l ≤ addr ∧ (∀ j, l < j ≤ r → ty stabs type j = false) ∧
       (r = R ∨ ty stabs type (r + 1) = true ∧ addr < vl stabs (r + 1))) ∧
  ((∀ i, L ≤ i ≤ R → ty stabs type i = false) → stab_binsearch stabs L R type addr = Some (L, L - 1)).
Proof.
  intros HL HR Ha Hsort Hnext. unfold stab_binsearch.
  destruct (bs_loop_ok stabs type addr L R ltac:(lia) HR Ha Hsort Hnext
    (Z.to_nat (2 * (R - L + 1) + 2)) (mkBs L R L R false addr)) as (b & -> & Hb & Hlr).
  { constructor; cbn; [lia|done|intros; lia|intros; lia|by left|
      |intros _; split; [done|intros; lia]|done|by left].
    split; [lia|]. split; [intros; lia|]. right. split; [done|]. intros; lia. }
  { unfold bs_measure. cbn. rewrite Z.eqb_refl. lia. }
  destruct Hb as [Hr Hrt Hlow Hhigh Hend Hleft Hany Hsome _]. cbn [option_bind mbind].
  destruct Hleft as (H1 & H2 & H3). rewrite Hrt. split.
  - intros i Hi Ht Hv.
    assert (Hir : i ≤ bs_r b) by (destruct (decide (i ≤ bs_r b)); [done|]; pose proof (Hhigh i ltac:(lia) Ht); lia).
    assert (Hil : i ≤ bs_left b).
    { destruct (decide (i ≤ bs_left b)); [done|]. by rewrite H2 in Ht by lia. }
    destruct H3 as [(H3 & H4 & H5)|[_ H3]]; [|by rewrite H3 in Ht by lia].
    destruct (bs_any b) eqn:Eany; [|destruct (Hany eq_refl) as [_ Hf]; by rewrite Hf in Ht by lia].
    cbn [negb]. rewrite (rightmost_ok stabs type R HR) by (lia || (intros; apply H2; lia)).
    cbn [option_bind mbind]. exists (bs_left b), (bs_r b). split_and!; try done; try lia.
    + intros j Hj. apply H2. lia.
    + destruct Hend as [?|He]; [by left|]. destruct (decide (bs_r b = R)); [by left|].
      right. split; [done|]. apply Hhigh; [lia|done].
  - intros Hno. destruct (bs_any b) eqn:Eany; cbn [negb].
    + destruct (Hsome eq_refl) as (i & Hi & Ht). by rewrite Hno in Ht by lia.
    + destruct H3 as [(H3 & _ & ?)|[-> _]]; [by rewrite Hno in H3 by lia|done].
Qed.

(** Two source files, the first at 0xf0100000 with a function in it. *)
Definition demo_stabs : list Stab :=
  [mkStab 0 0 0 0 0; mkStab 1 N_SO 0 0 4027580416; mkStab 9 N_FUN 0 0 4027580420;
   mkStab 0 N_SLINE 0 7 0; mkStab 20 N_SO 0 0 4027580480].

Lemma demo_stabs_so i :
  0 ≤ i ≤ 4 → ty demo_stabs N_SO i = true →
  i = 1 ∧ vl demo_stabs i = 4027580416 ∨ i = 4 ∧ vl demo_stabs i = 4027580480.
Proof.
  intros Hi. assert (Hc : i = 0 ∨ i = 1 ∨ i = 2 ∨ i = 3 ∨ i = 4) by lia.
  destruct Hc as [-> | [-> | [-> | [-> | ->]]]]; cbn; (discriminate || tauto).
Qed.

Lemma stab_binsearch_spec_witness :
  ∃ l r, stab_binsearch demo_stabs 0 4 N_SO 4027580430 = Some (l, r) ∧ 1 ≤ l ≤ r.
Proof.
  destruct (proj1 (stab_binsearch_spec demo_stabs N_SO 4027580430 0 4 ltac:(lia) ltac:(cbn; lia)
    ltac:(lia)
    ltac:(intros i j Hi Hj Ti Tj; destruct (demo_stabs_so i ltac:(lia) Ti) as [[-> ->]|[-> ->]],
            (demo_stabs_so j ltac:(lia) Tj) as [[-> ->]|[-> ->]]; lia)
    ltac:(intros i Hi Ti; destruct (demo_stabs_so i ltac:(lia) Ti) as [[_ ->]|[_ ->]]; lia))
    1 ltac:(lia) eq_refl ltac:(apply Z.leb_le; reflexivity)) as (l & r & Hr & Hl & _).
  exists l, r. split; [exact Hr|exact Hl].
Defined.

(** The address is incremented at an exact match, so that a stab of the type
    one byte further on is taken for the one that contains the address. *)
Lemma stab_binsearch_off_by_one :
  stab_binsearch [mkStab 0 N_SLINE 0 1 16; mkStab 0 N_SLINE 0 2 17] 0 1 N_SLINE 16 = Some (1, 1).
Proof. reflexivity. Qed.
