(* ===== verification/Shell.v ===== *)
(** The parts of the command line: the flags of lib/args.c, the line editor
    of lib/readline.c and the tokens of user/sh.c. *)

From S2P Require Import Prelude Mmu Printfmt CString Console KState.
From Stdlib Require Import ZArith Lia Ascii String.
From stdpp Require Import base tactics numbers list.
Open Scope Z_scope.

(** ** Flags: lib/args.c *)

Module Args.

(** struct Argstate, with what its pointers argc and argv point to: a char
    pointer is the rest of the string from there, [None] is NULL; argv has
    argc entries before its NULL. *)
Record Argstate := mkArgs { argv : list (list Z); curarg : option (list Z); argval : option (list Z) }.

Definition argstart (argv : list (list Z)) : Argstate :=
  mkArgs argv (if (1 <? length argv)%nat then Some [] else None) None.

(** memmove(argv + 1, argv + 2, sizeof(char * ) * (argc - 1)); argc-- *)
Definition shift (argv : list (list Z)) : list (list Z) := take 1 argv ++ drop 2 argv.

Definition endofargs (a : Argstate) : Z * Argstate := (-1, mkArgs (argv a) None None).

(** [arg = *curarg; curarg++]; a pointer at the terminating NUL goes past the
    end of its string. *)
Definition take_flag (a : Argstate) : option (Z * Argstate) :=
  match curarg a with
  | Some (c :: r) => Some (c, mkArgs (argv a) (Some r) None)
  | _ => None
  end.

(** The flag or -1; [None] where the C code would read past the end of a
    string or of argv. *)
Definition argnext (a : Argstate) : option (Z * Argstate) :=
  match curarg a with
  | None => Some (-1, mkArgs (argv a) None None)
  | Some (_ :: _) => take_flag a
  | Some [] =>
      if (length (argv a) =? 1)%nat then Some (endofargs a) else
      match argv a !! 1%nat with
      | None => None
      | Some (c :: cur) =>
          if negb (c =? zc "-") || (length cur =? 0)%nat then Some (endofargs a) else
          let a := mkArgs (shift (argv a)) (Some cur) None in
          if bool_decide (cur = zs "-") then Some (endofargs a) else take_flag a
      | Some [] => Some (endofargs a)
      end
  end.

Definition argnextvalue (a : Argstate) : option (option (list Z) * Argstate) :=
  match curarg a with
  | None => Some (None, a)
  | Some (c :: r) => Some (Some (c :: r), mkArgs (argv a) (Some []) (Some (c :: r)))
  | Some [] =>
      if (1 <? length (argv a))%nat then
        v ← argv a !! 1%nat; Some (Some v, mkArgs (shift (argv a)) (curarg a) (Some v))
      else Some (None, mkArgs (argv a) None None)
  end.

Definition argvalue (a : Argstate) : option (option (list Z) * Argstate) :=
  match argval a with
  | Some v => Some (Some v, a)
  | None => argnextvalue a
  end.

(** while ((r = argnext(&args)) >= 0) ... : the flags in order, and the state
    at the end. *)
Fixpoint all_flags (fuel : nat) (a : Argstate) : option (list Z * Argstate) :=
  match fuel with
  | O => None
  | S fuel =>
      '(r, a) ← argnext a;
      if r <? 0 then Some ([], a) else '(l, a) ← all_flags fuel a; Some (r :: l, a)
  end.

(** What inc/args.h says the flags are: those of the arguments up to a
    non-flag, the end, before - or after --; and the arguments left. *)
Fixpoint flags (l : list (list Z)) : list Z * list (list Z) :=
  match l with
  | [] => ([], [])
  | a :: l' =>
      if bool_decide (a = zs "--") then ([], l')
      else match a with
           | c :: f :: r => if c =? zc "-" then ((f :: r) ++ fst (flags l'), snd (flags l')) else ([], l)
           | _ => ([], l)
           end
  end.

Lemma all_flags_cur cur p l fuel : Forall (λ c, 0 ≤ c) cur → ∀ res,
  all_flags fuel (mkArgs (p :: l) (Some []) None) = Some res →
  all_flags (length cur + fuel) (mkArgs (p :: l) (Some cur) None) = Some (cur ++ fst res, snd res).
Proof.
  induction 1 as [|c cur Hc _ IH]; intros res Hres; cbn [length Nat.add app].
  - rewrite Hres. by destruct res.
  - cbn [all_flags]. unfold argnext at 1. cbn [curarg take_flag argv mbind option_bind].
    rewrite (proj2 (Z.ltb_ge _ _)) by done. cbn [argnext]. by rewrite (IH _ Hres).
Qed.

Lemma all_flags_arg p l : Forall (Forall (λ c, 0 ≤ c)) l → ∀ fuel, (length (mjoin l) < fuel)%nat →
  all_flags fuel (mkArgs (p :: l) (Some []) None) = Some (fst (flags l), mkArgs (p :: snd (flags l)) None None).
Proof.
  induction 1 as [|a l Ha _ IH]; intros fuel Hf; (destruct fuel as [|fuel]; [lia|]); [done|].
  change (mjoin (a :: l)) with (a ++ mjoin l) in Hf. rewrite length_app in Hf. cbn [all_flags flags]. unfold argnext at 1.
  cbn [curarg argv length Nat.eqb lookup list_lookup].
  destruct a as [|c [|f r]]; [done|cbn [length Nat.eqb]; by rewrite orb_true_r, bool_decide_eq_false_2|].
  cbn [length Nat.eqb]. rewrite orb_false_r. destruct (Z.eqb_spec c (zc "-")) as [->|Hne]; cbn [negb].
  - assert (E : bool_decide (zc "-" :: f :: r = zs "--") = bool_decide (f :: r = zs "-")).
    { apply bool_decide_ext. change (zs "--") with (zc "-" :: zs "-"). split; [intros H; by apply (f_equal tail) in H|by intros ->]. }
    rewrite <- E. case_bool_decide as Hd; [done|].
    apply Forall_cons in Ha as [_ Ha]. apply Forall_cons in Ha as [Hf0 Hr].
    cbn [take_flag curarg argv mbind option_bind shift take drop app].
    rewrite (proj2 (Z.ltb_ge _ _)) by done. cbn [length] in Hf.
    replace fuel with (length r + (fuel - length r))%nat by lia.
    by rewrite drop_0, (all_flags_cur _ _ _ _ Hr _ (IH (fuel - length r)%nat ltac:(lia))).
  - rewrite bool_decide_eq_false_2; [done|]. intros [= -> _]. by apply Hne.
Qed.

(** Reading the flags with argnext until it returns -1 ends, and gives the
    flags and the arguments that inc/args.h describes. *)
Theorem args_flags p l fuel : Forall (Forall (λ c, 0 ≤ c)) l → (S (length (mjoin l)) ≤ fuel)%nat →
  ∃ a, all_flags fuel (argstart (p :: l)) = Some (fst (flags l), a) ∧ argv a = p :: snd (flags l).
Proof.
  intros Hl Hf. unfold argstart. destruct l as [|x l].
  - destruct fuel; [lia|]. by eexists.
  - cbn [length Nat.ltb Nat.leb]. eexists. by rewrite all_flags_arg by (done || lia).
Qed.
End Args.

(** ** Tokens: user/sh.c *)

Module Sh.

(** strchr(WHITESPACE, c) and strchr(SYMBOLS, c); the strchr of lib/string.c
    does not find the terminating NUL. *)
Definition white (c : Z) : bool := existsb (Z.eqb c) [zc " "; 9; 13; 10].
Definition symbol (c : Z) : bool := existsb (Z.eqb c) (zs "<|>&;()").

(** while (strchr(WHITESPACE, *s)) *s++ = 0; *)
Fixpoint skip_white (fuel : nat) (m : mem) (s : Z) : option (mem * Z) :=
  if white (rd8 m s) then
    match fuel with O => None | S fuel => skip_white fuel (wr8 m s 0) (s + 1) end
  else Some (m, s).

(** while ( *s && !strchr(WHITESPACE SYMBOLS, *s)) s++; *)
Fixpoint word_end (fuel : nat) (m : mem) (s : Z) : option Z :=
  if negb (rd8 m s =? 0) && negb (white (rd8 m s) || symbol (rd8 m s)) then
    match fuel with O => None | S fuel => word_end fuel m (s + 1) end
  else Some s.

(** The token, *p1, *p2 (which had the values [p1] and [p2]), and memory. *)
Definition _gettoken (fuel : nat) (m : mem) (s p1 p2 : Z) : option (Z * Z * Z * mem) :=
  if s =? 0 then Some (0, p1, p2, m) else
  '(m, s) ← skip_white fuel m s;
  if rd8 m s =? 0 then Some (0, 0, 0, m)
  else if symbol (rd8 m s) then Some (rd8 m s, s, s + 1, wr8 m s 0)
  else e ← word_end fuel m s; Some (zc "w", s, e, m).

(** The static variables nc, np1 and np2 of gettoken. *)
Record tokens := mkTok { nc : Z; np1 : Z; np2 : Z }.

(** gettoken(s, 0) *)
Definition gettoken_init (fuel : nat) (m : mem) (s : Z) (st : tokens) : option (tokens * mem) :=
  '(c, p1, p2, m) ← _gettoken fuel m s (np1 st) (np2 st); Some (mkTok c p1 p2, m).
(** gettoken(0, &t): the result and t. *)
Definition gettoken (fuel : nat) (m : mem) (st : tokens) : option (Z * Z * tokens * mem) :=
  '(c, p1, p2, m) ← _gettoken fuel m (np2 st) (np1 st) (np2 st); Some (nc st, np1 st, mkTok c p1 p2, m).

(** All tokens of the string, up to the 0 at its end. *)
Fixpoint rest_tokens (fuel : nat) (m : mem) (st : tokens) : option (list (Z * Z) * mem) :=
  match fuel with
  | O => None
  | S fuel' =>
      '(c, t, st, m) ← gettoken fuel m st;
      if c =? 0 then Some ([], m) else '(l, m) ← rest_tokens fuel' m st; Some ((c, t) :: l, m)
  end.
Definition all_tokens (fuel : nat) (m : mem) (s : Z) : option (list (Z * Z) * mem) :=
  '(st, m) ← gettoken_init fuel m s (mkTok 0 0 0); rest_tokens fuel m st.

(** The tokens of a line, as a function of its characters. *)
Inductive token := TSym (c : Z) | TWord (w : list Z).

Fixpoint span (p : Z → bool) (l : list Z) : list Z * list Z :=
  match l with
  | c :: r => if p c then let '(a, b) := span p r in (c :: a, b) else ([], l)
  | [] => ([], [])
  end.
Definition word_char (c : Z) : bool := negb (white c || symbol c).

Fixpoint lex (fuel : nat) (l : list Z) : list token :=
  match fuel with
  | O => []
  | S fuel =>
      match snd (span white l) with
      | [] => []
      | c :: r =>
          if symbol c then TSym c :: lex fuel r
          else TWord (fst (span word_char (c :: r))) :: lex fuel (snd (span word_char (c :: r)))
      end
  end.

Lemma span_app p l : fst (span p l) ++ snd (span p l) = l.
Proof.
  induction l as [|c l IH]; [done|]. cbn. destruct (p c); [|done].
  destruct (span p l) as [a b]. cbn in *. by rewrite IH.
Qed.
Lemma span_all p l : Forall (λ c, p c = true) (fst (span p l)).
Proof.
  induction l as [|c l IH]; [constructor|]. cbn. destruct (p c) eqn:E; [|constructor].
  destruct (span p l) as [a b]. by constructor.
Qed.
Lemma span_rest p l c r : snd (span p l) = c :: r → p c = false.
Proof.
  induction l as [|x l IH]; [done|]. cbn. destruct (p x) eqn:E; [destruct (span p l); exact IH|].
  by intros [= <- _].
Qed.

(** ** What _gettoken does at a string *)

Lemma cstr_app m s l1 l2 : cstr m s (l1 ++ l2) → cstr m (s + Z.of_nat (length l1)) l2.
Proof.
  revert s. induction l1 as [|c l1 IH]; intros s; cbn [app length]; [by rewrite Z.add_0_r|].
  intros (_ & _ & H). apply IH in H. replace (s + Z.of_nat (S (length l1))) with (s + 1 + Z.of_nat (length l1)) by lia. done.
Qed.

Lemma cstr_cut m m' s l1 l2 : cstr m s (l1 ++ l2) → (∀ x, s ≤ x < s + Z.of_nat (length l1) → rd8 m' x = rd8 m x) →
  rd8 m' (s + Z.of_nat (length l1)) = 0 → cstr m' s l1.
Proof.
  revert s. induction l1 as [|c l1 IH]; intros s; cbn [app length cstr]; [by rewrite Z.add_0_r|].
  intros (H1 & H2 & H3) Hs H. split_and!; [by rewrite Hs by lia|done|].
  apply IH; [done|intros x Hx; apply Hs; lia|]. rewrite <- H. f_equal. lia.
Qed.

Lemma skip_white_run fuel : ∀ m s l, cstr m s l → (length l ≤ fuel)%nat →
  let n := Z.of_nat (length (fst (span white l))) in
  ∃ m', skip_white fuel m s = Some (m', s + n) ∧ cstr m' (s + n) (snd (span white l)) ∧
    (∀ x, x < s ∨ s + n ≤ x → rd8 m' x = rd8 m x) ∧ (∀ x, s ≤ x < s + n → rd8 m' x = 0).
Proof.
  induction fuel as [|fuel IH]; intros m s l Hl Hf; cbn zeta.
  - destruct l; [|cbn in Hf; lia]. cbn in Hl |- *. rewrite Hl. exists m. cbn. rewrite Z.add_0_r.
    split_and!; [done|done|done|lia].
  - destruct l as [|c l]; cbn [cstr] in Hl.
    + cbn [skip_white span fst snd length Z.of_nat]. rewrite Hl. exists m. cbn. rewrite Z.add_0_r. split_and!; [done|done|done|lia].
    + destruct Hl as (Hc & Hn & Hl). cbn [skip_white span]. rewrite Hc. destruct (white c) eqn:Ew.
      * destruct (IH (wr8 m s 0) (s + 1) l) as (m' & E & C & O & I); [|cbn in Hf; lia|].
        { apply (cstr_ext m); [|done]. intros x Hx. apply rd8_wr8_ne. lia. }
        rewrite E. destruct (span white l) as [a b]. cbn [fst snd length] in *.
        replace (s + Z.of_nat (S (length a))) with (s + 1 + Z.of_nat (length a)) by lia.
        exists m'. split_and!; [done|done| |].
        -- intros x Hx. rewrite O by lia. apply rd8_wr8_ne. lia.
        -- intros x Hx. destruct (Z.eq_dec x s) as [->|]; [|apply I; lia].
           rewrite O by lia. by rewrite rd8_wr8, Z.eqb_refl.
      * cbn [fst snd length Z.of_nat]. rewrite Z.add_0_r. exists m. split_and!; [done|done|done|lia].
Qed.

Lemma word_end_run fuel : ∀ m s l, cstr m s l → (length l ≤ fuel)%nat →
  word_end fuel m s = Some (s + Z.of_nat (length (fst (span word_char l)))).
Proof.
  induction fuel as [|fuel IH]; intros m s l Hl Hf.
  - destruct l; [|cbn in Hf; lia]. cbn in Hl |- *. rewrite Hl. cbn. by rewrite Z.add_0_r.
  - destruct l as [|c l]; cbn [cstr] in Hl.
    + cbn. rewrite Hl. cbn. by rewrite Z.add_0_r.
    + destruct Hl as (Hc & Hn & Hl). cbn [word_end span]. rewrite Hc, (proj2 (Z.eqb_neq _ _) Hn). cbn [negb andb].
      fold (word_char c). destruct (word_char c).
      * rewrite (IH _ _ _ Hl) by (cbn in Hf; lia). destruct (span word_char l) as [a b]. cbn [fst length]. f_equal. lia.
      * cbn. by rewrite Z.add_0_r.
Qed.

Lemma span_length p l : (length (fst (span p l)) + length (snd (span p l)) = length l)%nat.
Proof. rewrite <- (span_app p l) at 3. by rewrite length_app. Qed.

Lemma lex_fuel f1 : ∀ f2 l, (length l < f1)%nat → (length l < f2)%nat → lex f1 l = lex f2 l.
Proof.
  induction f1 as [|f1 IH]; intros f2 l H1 H2; [lia|]. destruct f2 as [|f2]; [lia|]. cbn [lex].
  pose proof (span_length white l) as L. destruct (snd (span white l)) as [|c r] eqn:E; [done|]. cbn [length] in L.
  destruct (symbol c) eqn:Es; [f_equal; apply IH; lia|]. f_equal.
  pose proof (span_length word_char (c :: r)) as L2. cbn [length] in L2.
  assert (word_char c = true) by (unfold word_char; by rewrite Es, (span_rest _ _ _ _ E)).
  assert ((1 ≤ length (fst (span word_char (c :: r))))%nat).
  { cbn [span]. rewrite H. destruct (span word_char r). cbn. lia. }
  apply IH; lia.
Qed.
Definition lexed (l : list Z) : list token := lex (S (length l)) l.

Lemma lexed_unfold l : lexed l =
  match snd (span white l) with
  | [] => []
  | c :: r =>
      if symbol c then TSym c :: lexed r
      else TWord (fst (span word_char (c :: r))) :: lexed (snd (span word_char (c :: r)))
  end.
Proof.
  unfold lexed at 1. cbn [lex]. pose proof (span_length white l) as L. destruct (snd (span white l)) as [|c r] eqn:E; [done|].
  cbn [length] in L. destruct (symbol c) eqn:Es; f_equal; unfold lexed; apply lex_fuel; [lia|lia| |lia].
  pose proof (span_length word_char (c :: r)) as L2. cbn [length] in L2.
  assert (Hc : word_char c = true) by (unfold word_char; by rewrite Es, (span_rest _ _ _ _ E)).
  cbn [span] in *. rewrite Hc in *. destruct (span word_char r). cbn in *. lia.
Qed.

Definition head_stops (r : list Z) : Prop := match r with [] => True | c :: _ => word_char c = false end.

(** [st] has looked ahead to the first of the tokens [ts], of the string
    that ends at [e]; [n] bounds the length of what is not yet read. *)
Definition looks (m : mem) (st : tokens) (e : Z) (n : nat) (ts : list token) : Prop :=
  match ts with
  | [] => nc st = 0 ∧ np2 st = 0
  | TSym c :: ts => nc st = c ∧ c ≠ 0 ∧ 0 < np2 st ∧
      ∃ r, cstr m (np2 st) r ∧ np2 st + Z.of_nat (length r) = e ∧ (length r ≤ n)%nat ∧ ts = lexed r
  | TWord w :: ts => nc st = zc "w" ∧ 0 < np1 st ∧ np2 st = np1 st + Z.of_nat (length w) ∧
      ∃ r, cstr m (np1 st) (w ++ r) ∧ np2 st + Z.of_nat (length r) = e ∧ (length r ≤ n)%nat ∧ head_stops r ∧ ts = lexed r
  end.

Lemma head_stops_span l : head_stops (snd (span word_char l)).
Proof. destruct (snd (span word_char l)) as [|c r] eqn:E; [done|]. exact (span_rest _ _ _ _ E). Qed.

(** _gettoken at the string [r] moves to its first token; it writes NULs, from
    [a] on and inside the string only, and at [a] itself if no word goes on there. *)
Lemma _gettoken_run fuel m a r q1 q2 : 0 < a → cstr m a r → (length r ≤ fuel)%nat →
  ∃ c p1 p2 m', _gettoken fuel m a q1 q2 = Some (c, p1, p2, m') ∧
    looks m' (mkTok c p1 p2) (a + Z.of_nat (length r)) (length r - 1) (lexed r) ∧
    (∀ x, x < a ∨ a + Z.of_nat (length r) ≤ x → rd8 m' x = rd8 m x) ∧
    (head_stops r → rd8 m' a = 0) ∧ (c ≠ 0 → a ≤ p2 ∧ (head_stops r → a < p2)).
Proof.
  intros Ha Hr Hf. unfold _gettoken. rewrite (proj2 (Z.eqb_neq _ _)) by lia.
  destruct (skip_white_run fuel m a r Hr Hf) as (m1 & -> & C1 & O1 & I1). rewrite lexed_unfold.
  set (k := Z.of_nat (length (fst (span white r)))) in *. cbn [mbind option_bind].
  pose proof (span_length white r) as L. pose proof (span_app white r) as App.
  destruct (snd (span white r)) as [|c r'] eqn:Er; cbn [cstr length] in *.
  - rewrite C1. cbn. exists 0, 0, 0, m1. split_and!; [done|done|done|intros x Hx; apply O1; lia| |done].
    intros Hst. destruct (decide (k = 0)) as [Hk|Hk]; [by rewrite Hk, Z.add_0_r in C1|apply I1; lia].
  - destruct C1 as (E1 & Hn & C1). rewrite E1, (proj2 (Z.eqb_neq _ _) Hn).
    assert (Hz : head_stops r → k ≠ 0 ∨ symbol c = true).
    { intros Hst. destruct (fst (span white r)) as [|x xs] eqn:Ef; [|left; unfold k; cbn; lia].
      right. cbn [app] in App. subst r. cbn [head_stops] in Hst. unfold word_char in Hst. rewrite (span_rest _ _ _ _ Er) in Hst.
      by destruct (symbol c). }
    destruct (symbol c) eqn:Es.
    + exists c, (a + k), (a + k + 1), (wr8 m1 (a + k) 0). split_and!; [done| | | |lia].
      * split_and!; [done|done|cbn; lia|]. exists r'. cbn [np2]. split_and!; [|lia|lia|done].
        apply (cstr_ext m1); [|done]. intros x Hx. apply rd8_wr8_ne. lia.
      * intros x Hx. rewrite rd8_wr8_ne by lia. apply O1. lia.
      * intros _. rewrite rd8_wr8. destruct (Z.eqb_spec a (a + k)); [done|apply I1; lia].
    + assert (Hc : word_char c = true) by (unfold word_char; by rewrite Es, (span_rest _ _ _ _ Er)).
      assert (C2 : cstr m1 (a + k) (c :: r')) by done.
      pose proof (span_length word_char (c :: r')) as L2. pose proof (span_app word_char (c :: r')) as App2.
      rewrite (word_end_run fuel m1 (a + k) (c :: r') C2) by (cbn; lia).
      assert (Hw : (1 ≤ length (fst (span word_char (c :: r'))))%nat).
      { cbn [span]. rewrite Hc. destruct (span word_char r'). cbn. lia. }
      cbn [mbind option_bind length] in *. eexists _, _, _, m1. split_and!; [done| | | |].
      * split_and!; [done|cbn; lia|done|]. exists (snd (span word_char (c :: r'))). cbn [np1 np2]. rewrite App2.
        split_and!; [done|lia|lia|apply head_stops_span|done].
      * intros x Hx. apply O1. lia.
      * intros Hst. destruct (Hz Hst); [apply I1; lia|done].
      * lia.
Qed.

(** A token and what gettoken returned for it: a word is a string at t. *)
Definition tok_ok (m : mem) (t : token) (r : Z * Z) : Prop :=
  match t with TSym c => fst r = c | TWord w => fst r = zc "w" ∧ cstr m (snd r) w end.

Lemma gettoken_run fuel m st e n t ts : looks m st e n (t :: ts) → (n ≤ fuel)%nat →
  ∃ st' m', gettoken fuel m st = Some (nc st, np1 st, st', m') ∧ nc st ≠ 0 ∧ looks m' st' e (n - 1) ts ∧
    (∀ x, x < np2 st ∨ e ≤ x → rd8 m' x = rd8 m x) ∧
    (ts = [] ∨ np2 st ≤ np2 st' ∧ (1 ≤ n)%nat) ∧
    match t with TSym c => nc st = c | TWord w => nc st = zc "w" ∧ cstr m' (np1 st) w ∧ np2 st = np1 st + Z.of_nat (length w) ∧ (ts = [] ∨ np2 st < np2 st') end.
Proof.
  intros H Hf. unfold gettoken.
  assert (Hs : nc st ≠ 0 ∧ 0 < np2 st ∧ ∃ r, cstr m (np2 st) r ∧ np2 st + Z.of_nat (length r) = e ∧ (length r ≤ n)%nat ∧ ts = lexed r ∧
    match t with TSym c => nc st = c | TWord w => nc st = zc "w" ∧ cstr m (np1 st) (w ++ r) ∧ np2 st = np1 st + Z.of_nat (length w) ∧ head_stops r end).
  { destruct t as [c|w].
    - destruct H as (? & ? & ? & r & ? & ? & ? & ?). subst c. split_and!; [done|done|]. by exists r.
    - destruct H as (E & ? & E2 & r & C & ? & ? & ? & ?). rewrite E. split_and!; [done|lia|]. exists r. split_and!; try done.
      rewrite E2. by apply cstr_app in C. }
  destruct Hs as (Hn & Hp & r & Hr & He & Hrn & -> & Ht).
  destruct (_gettoken_run fuel m (np2 st) r (np1 st) (np2 st) Hp Hr) as (c & p1 & p2 & m' & -> & L & O & Z0 & P); [lia|].
  exists (mkTok c p1 p2), m'. rewrite He in *. split; [done|]. split; [done|].
  assert (Hr0 : lexed r = [] ∨ (1 ≤ n)%nat) by (destruct r; [by left|right; cbn in Hrn; lia]).
  assert (Hc : lexed r = [] ∨ c ≠ 0).
  { destruct (lexed r) as [|[x|w] ts]; [by left|right..].
    - destruct L as (E & ? & _). cbn in E. by rewrite E.
    - destruct L as (E & _). cbn in E. by rewrite E. }
  split_and!; [|done|destruct Hc as [|Hc]; [by left|destruct Hr0 as [|Hr0]; [by left|right; split; [apply (P Hc)|done]]]|].
  - destruct (lexed r) as [|[x|w] ts]; [done| |].
    + destruct L as (? & ? & ? & r' & ? & ? & ? & ?). split_and!; try done. exists r'. split_and!; try done. lia.
    + destruct L as (? & ? & ? & r' & ? & ? & ? & ? & ?). split_and!; try done. exists r'. split_and!; try done. lia.
  - destruct t as [x|w]; [done|]. destruct Ht as (-> & C & E2 & Hst). split_and!; [done| |done|].
    + apply (cstr_cut m m' _ w r); [done| |by rewrite <- E2; auto]. intros x Hx. apply O. lia.
    + destruct Hc as [|Hc]; [by left|right; cbn; by apply P].
Qed.

Lemma rest_tokens_run fuel : ∀ m st e n ts, looks m st e n ts → (1 ≤ fuel)%nat → (ts = [] ∨ (n + 2 ≤ fuel)%nat) →
  ∃ l m', rest_tokens fuel m st = Some (l, m') ∧ Forall2 (tok_ok m') ts l ∧
    ∀ x, ts = [] ∨ x < np2 st ∨ e ≤ x → rd8 m' x = rd8 m x.
Proof.
  induction fuel as [|fuel IH]; intros m st e n ts H H1 Hf; [lia|].
  destruct ts as [|t ts].
  - destruct H as [Hc H2]. exists [], m. cbn [rest_tokens]. unfold gettoken, _gettoken. rewrite H2, Hc. by split_and!.
  - destruct Hf as [|Hf]; [done|]. destruct (gettoken_run (S fuel) m st e n t ts H) as (st' & m1 & E & Hn & L & O & P & T); [lia|].
    destruct (IH _ _ _ _ _ L) as (l & m' & El & F & O'); [lia|destruct P; [by left|right; lia]|].
    exists ((nc st, np1 st) :: l), m'. cbn [rest_tokens]. rewrite E.
    cbn [mbind option_bind]. rewrite (proj2 (Z.eqb_neq _ _) Hn), El. cbn [mbind option_bind]. split_and!; [done| |].
    + constructor; [|done]. destruct t as [c|w]; [done|]. destruct T as (T1 & T2 & T3 & T4). split; [done|].
      apply (cstr_ext m1); [|done]. intros x Hx. cbn [snd] in Hx. apply O'. destruct T4; [by left|right; left; lia].
    + intros x Hx. destruct Hx as [|Hx]; [done|]. rewrite O', O by (done || (destruct P; [by left|right; lia])). done.
Qed.

(** C38: reading the tokens of a line with gettoken gives those of the grammar:
    the symbols, and every word as a string of its own, also after the later
    tokens have been read.  Only bytes of the line are changed. *)
Theorem gettoken_lexes fuel m s l : 0 < s → cstr m s l → (length l + 2 ≤ fuel)%nat →
  ∃ r m', all_tokens fuel m s = Some (r, m') ∧ Forall2 (tok_ok m') (lexed l) r ∧
    ∀ x, x < s ∨ s + Z.of_nat (length l) ≤ x → rd8 m' x = rd8 m x.
Proof.
  intros Hs Hl Hf. unfold all_tokens, gettoken_init.
  destruct (_gettoken_run fuel m s l 0 0 Hs Hl) as (c & p1 & p2 & m1 & E & L & O & _ & P); [lia|].
  cbn [np1 np2]. rewrite E. cbn [mbind option_bind].
  destruct (rest_tokens_run fuel _ _ _ _ _ L) as (r & m' & E' & F & O'); [lia|right; lia|]. exists r, m'. split_and!; [done|done|].
  intros x Hx. rewrite O'; [by apply O|]. destruct (lexed l) as [|[y|w] ts]; [by left|right..].
  - destruct L as (E1 & Hy & _). cbn in E1, Hy. destruct P as [P _]; [by rewrite E1|]. cbn. lia.
  - destruct L as (E1 & _). cbn in E1. destruct P as [P _]; [by rewrite E1|]. cbn. lia.
Qed.
(** The line [cat<a b|c], at address 100. *)
Definition demo_line : mem := λ x, default 0 (zs "cat<a b|c" !! Z.to_nat (x - 100)).
Lemma gettoken_lexes_witness : ∃ r m', all_tokens 20 demo_line 100 = Some (r, m') ∧
  Forall2 (tok_ok m') [TWord (zs "cat"); TSym (zc "<"); TWord (zs "a"); TWord (zs "b"); TSym (zc "|"); TWord (zs "c")] r.
Proof.
  destruct (gettoken_lexes 20 demo_line 100 (zs "cat<a b|c")) as (r & m' & E & F & _).
  - lia.
  - cbn. repeat split; discriminate.
  - cbn. lia.
  - exists r, m'. split; [exact E|exact F].
Defined.

End Sh.

(** ** The line editor: lib/readline.c *)

Module Readline.
Abbreviation BUFLEN := 1024 (only parsing).

Section readline.
(** The file is compiled into the kernel and into user programs, over their
    own getchar, cputchar and cprintf; the prompt is printed with cprintf in
    the kernel and to file descriptor 1 in programs ([print]). *)
Context {T : Type} (getchar : M T Z) (cputchar : Z → M T unit) (print cprintf : string → list arg → M T unit).

(** [buf] are the characters buf[0] to buf[i-1]; NULL is [None]. *)
Fixpoint readline_loop (fuel : nat) (echoing : bool) (buf : list Z) : M T (option (list Z)) :=
  match fuel with
  | O => mleave Spinning
  | S fuel =>
      c ← getchar;
      if c <? 0 then
        mwhen (negb (c =? - E_EOF)) (cprintf (line "read error: %e") [AInt c]);; mret None
      else if ((c =? 8) || (c =? 127)) && (0 <? length buf)%nat then
        mwhen echoing (cputchar 8);; readline_loop fuel echoing (removelast buf)
      else if (zc " " <=? c) && (length buf <? Z.to_nat (BUFLEN - 1))%nat then
        mwhen echoing (cputchar c);; readline_loop fuel echoing (buf ++ [u8 c])
      else if (c =? 10) || (c =? 13) then
        mwhen echoing (cputchar 10);; mret (Some buf)
      else readline_loop fuel echoing buf
  end.
Definition readline (fuel : nat) (echoing : bool) (prompt : option string) : M T (option (list Z)) :=
  match prompt with Some p => print "%s" [AStr (Some (zs p))] | None => mret tt end;;
  readline_loop fuel echoing [].
End readline.

(** A terminal: the characters that will be typed, then end of file, and
    those that have been put out. *)
Record tty := mkTty { t_in : list Z; t_out : list Z }.
Definition tty_getchar : M tty Z := λ s,
  match t_in s with [] => Ok (- E_EOF) s | c :: r => Ok c (mkTty r (t_out s)) end.
Definition tty_cputchar (c : Z) : M tty unit := mmod (λ s, mkTty (t_in s) (t_out s ++ [c])).
Definition tty_print (fmt : string) (ap : list arg) : M tty unit := mret tt.

(** The line that typed characters give, one by one. *)
Definition edit1 (buf : list Z) (c : Z) : list Z :=
  if ((c =? 8) || (c =? 127)) && (0 <? length buf)%nat then removelast buf
  else if (zc " " <=? c) && (length buf <? Z.to_nat (BUFLEN - 1))%nat then buf ++ [c]
  else buf.
(** What is on the screen, when a backspace takes the last character away. *)
Definition show1 (scr : list Z) (c : Z) : list Z := if c =? 8 then removelast scr else scr ++ [c].

Definition typed (c : Z) : Prop := 0 ≤ c < 256 ∧ c ≠ 10 ∧ c ≠ 13.

Lemma edit1_length buf c : (length buf ≤ 1023)%nat → (length (edit1 buf c) ≤ 1023)%nat.
Proof.
  intros H. unfold edit1. destruct (_ && _); [rewrite removelast_firstn_len, length_firstn; lia|].
  destruct ((zc " " <=? c) && (length buf <? Z.to_nat (BUFLEN - 1))%nat) eqn:E; [|done].
  apply andb_true_iff in E as [_ E%Nat.ltb_lt]. rewrite length_app. cbn. lia.
Qed.

Lemma bind_put_tty {A} c (f : () → M tty A) s : (tty_cputchar c ≫= f) s = f tt (mkTty (t_in s) (t_out s ++ [c])).
Proof. done. Qed.

Lemma readline_loop_run cs : Forall typed cs → ∀ fuel nl rest buf out, nl = 10 ∨ nl = 13 → (length cs < fuel)%nat →
  (length buf ≤ 1023)%nat →
  ∃ echo, readline_loop tty_getchar tty_cputchar tty_print fuel true buf (mkTty (cs ++ nl :: rest) out) =
      Ok (Some (foldl edit1 buf cs)) (mkTty rest (out ++ echo ++ [10])) ∧
    foldl show1 buf echo = foldl edit1 buf cs.
Proof.
  induction 1 as [|c cs Hc _ IH]; intros fuel nl rest buf out Hnl Hf Hb; (destruct fuel as [|fuel]; [cbn in Hf; lia|]).
  - exists []. cbn [readline_loop app foldl]. split; [|done]. by destruct Hnl as [-> | ->].
  - cbn [readline_loop app foldl]. destruct Hc as (Hc & H10 & H13). cbn [length] in Hf.
    unfold mbind at 1, M_bind at 1. cbn [tty_getchar t_in t_out].
    rewrite (proj2 (Z.ltb_ge _ _)) by lia. pose proof (edit1_length buf c Hb) as Hb'.
    rewrite (proj2 (Z.eqb_neq c 10) H10), (proj2 (Z.eqb_neq c 13) H13).
    destruct (((c =? 8) || (c =? 127)) && (0 <? length buf)%nat) eqn:E1.
    + assert (Ed : edit1 buf c = removelast buf) by (unfold edit1; by rewrite E1). rewrite Ed in *.
      destruct (IH fuel nl rest (removelast buf) (out ++ [8]) Hnl ltac:(lia) Hb') as (echo & E & Hs).
      exists (8 :: echo). split; [|exact Hs]. unfold mwhen. rewrite bind_put_tty. cbn [t_in t_out].
      rewrite E, <- app_assoc. done.
    + destruct ((zc " " <=? c) && (length buf <? Z.to_nat (BUFLEN - 1))%nat) eqn:E2;
      [assert (Ed : edit1 buf c = buf ++ [c]) by (unfold edit1; by rewrite E1, E2)
      |assert (Ed : edit1 buf c = buf) by (unfold edit1; by rewrite E1, E2)]; rewrite Ed in *; [|by apply IH; (done || lia)].
      destruct (IH fuel nl rest (buf ++ [c]) (out ++ [c]) Hnl ltac:(lia) Hb') as (echo & E & Hs).
      exists (c :: echo). apply andb_true_iff in E2 as [E2%Z.leb_le _]. split.
      * unfold mwhen. rewrite bind_put_tty. cbn [t_in t_out]. rewrite u8_small by lia. by rewrite E, <- app_assoc.
      * cbn [foldl]. unfold show1 at 2. rewrite (proj2 (Z.eqb_neq c 8)); [done|]. intros ->. by apply E2.
Qed.

(** readline returns the edited line, at most BUFLEN - 1 characters, and what
    it has echoed looks the same on the screen. *)
Theorem readline_spec cs nl rest out fuel : Forall typed cs → nl = 10 ∨ nl = 13 → (length cs < fuel)%nat →
  ∃ echo, readline tty_getchar tty_cputchar tty_print tty_print fuel true None (mkTty (cs ++ nl :: rest) out) =
      Ok (Some (foldl edit1 [] cs)) (mkTty rest (out ++ echo ++ [10])) ∧
    foldl show1 [] echo = foldl edit1 [] cs ∧ (length (foldl edit1 [] cs) < 1024)%nat.
Proof.
  intros Hc Hn Hf. destruct (readline_loop_run cs Hc fuel nl rest [] out Hn Hf) as (echo & E & Hs); [cbn; lia|].
  exists echo. split_and!; [exact E|exact Hs|]. apply Nat.lt_succ_r.
  assert (H : ∀ l buf, (length buf ≤ 1023)%nat → (length (foldl edit1 buf l) ≤ 1023)%nat).
  { induction l as [|c l IH]; intros buf Hb; [done|]. by apply IH, edit1_length. }
  apply H. cbn. lia.
Qed.
End Readline.
