(* ===== verification/Runcmd.v ===== *)
(** The shell's commands: runcmd and umain of user/sh.c.

    What the shell calls (the descriptors, fork, spawn, wait, the tokens and
    the lines) are arguments, so that the code can be run on any environment
    that has them; words are their texts, and argv is the list of the words.
    What the C code writes outside of its arrays is undefined.  The output
    that the flag -d asks for is left out. *)

From S2P Require Import Prelude Mmu Printfmt CString Console KState Fd Shell.
From Stdlib Require Import ZArith Lia Ascii String.
From stdpp Require Import base tactics numbers list.
Open Scope Z_scope.

Abbreviation MAXARGS := 16%nat (only parsing).
Abbreviation BUFSIZ := 1024 (only parsing).
Abbreviation O_CREAT := 256 (only parsing).
Abbreviation O_TRUNC := 512 (only parsing).

Section sh.
Context {T : Type}.
Context (gettoken : M T (Z * list Z)) (gettoken_init : list Z → M T unit).
Context (open : list Z → Z → M T Z) (dup : Z → Z → M T Z) (close : Z → M T Z) (close_all : M T unit).
Context (pipe : M T (Z * (Z * Z))) (fork : M T Z) (spawn : list Z → list (list Z) → M T Z) (wait : Z → M T unit).
Context (cprintf : string → list arg → M T unit) (exit : M T unit).

(** The redirection of descriptor [n] to the file that the next token names. *)
Definition redirect (n : Z) (mode : Z) (syntax fail : string) : M T unit :=
  '(c, t) ← gettoken;
  mwhen (negb (c =? zc "w")) (cprintf (line syntax) [];; exit);;
  fd ← open t mode;
  mwhen (fd <? 0) (cprintf fail [AStr (Some t); AInt fd];; exit);;
  mwhen (negb (fd =? n)) (dup fd n;; close fd;; mret tt).

(** runit: *)
Definition runit (argv : list (list Z)) (pipe_child : Z) : M T unit :=
  match argv with
  | [] => mret tt
  | arg0 :: args =>
      (if negb (bool_decide (head arg0 = Some (zc "/"))) && (BUFSIZ <? Z.of_nat (length arg0) + 2) then mundef else
       let arg0 := if bool_decide (head arg0 = Some (zc "/")) then arg0 else zc "/" :: arg0 in
       if bool_decide (length argv = MAXARGS) then mundef else
       r ← spawn arg0 (arg0 :: args);
       mwhen (r <? 0) (cprintf (line "spawn %s: %e") [AStr (Some arg0); AInt r]);;
       close_all;;
       mwhen (0 <=? r) (wait r);;
       mwhen (negb (pipe_child =? 0)) (wait pipe_child);;
       exit)
  end.

(** The loop over the tokens; again: starts it anew with no argument.  A
    turn takes a token, so the number of tokens is fuel enough. *)
Fixpoint runcmd_loop (fuel : nat) (argv : list (list Z)) (pipe_child : Z) : M T unit :=
  match fuel with
  | O => mleave Spinning
  | S fuel =>
      '(c, t) ← gettoken;
      if c =? zc "w" then
        mwhen (bool_decide (length argv = MAXARGS)) (cprintf (line "too many arguments") [];; exit);;
        if bool_decide (length argv = MAXARGS) then mundef else
        runcmd_loop fuel (argv ++ [t]) pipe_child
      else if c =? zc "<" then
        redirect 0 O_RDONLY "syntax error: < not followed by word" "open %s for read: %e";;
        runcmd_loop fuel argv pipe_child
      else if c =? zc ">" then
        redirect 1 (O_WRONLY + O_CREAT + O_TRUNC) "syntax error: > not followed by word" "open %s for write: %e";;
        runcmd_loop fuel argv pipe_child
      else if c =? zc "|" then
        '(r, (p0, p1)) ← pipe;
        mwhen (r <? 0) (cprintf "pipe: %e" [AInt r];; exit);;
        r ← fork;
        mwhen (r <? 0) (cprintf "fork: %e" [AInt r];; exit);;
        if r =? 0 then
          mwhen (negb (p0 =? 0)) (dup p0 0;; close p0;; mret tt);;
          close p1;;
          runcmd_loop fuel [] pipe_child
        else
          mwhen (negb (p1 =? 1)) (dup p1 1;; close p1;; mret tt);;
          close p0;;
          runit argv r
      else if c =? 0 then runit argv pipe_child
      else mpanic "bad return %d from gettoken"
  end.

Definition runcmd (fuel : nat) (s : list Z) : M T unit := gettoken_init s;; runcmd_loop fuel [] 0.

(** ** umain *)

Context (readline : option string → M T (option (list Z))) (iscons : Z → M T Z) (printf : string → list arg → M T unit).

(** The state of the options: interactive ('?' is None) and echocmds. *)
Definition usage : M T unit := cprintf (line "usage: sh [-dix] [command-file]") [];; exit.

Fixpoint options (flags : list Z) (interactive : option Z) (echocmds : bool) : M T (option Z * bool) :=
  match flags with
  | [] => mret (interactive, echocmds)
  | c :: flags =>
      if c =? zc "d" then options flags interactive echocmds
      else if c =? zc "i" then options flags (Some 1) echocmds
      else if c =? zc "x" then options flags interactive true
      else usage;; options flags interactive echocmds
  end.

(** The loop over the lines, [lines] of them at most. *)
Fixpoint sh_loop (lines fuel : nat) (interactive : Z) (echocmds : bool) : M T unit :=
  match lines with
  | O => mleave Spinning
  | S lines =>
      buf ← readline (if negb (interactive =? 0) then Some "$ "%string else None);
      match buf with
      | None => exit;; mundef
      | Some buf =>
          if bool_decide (head buf = Some (zc "#")) then sh_loop lines fuel interactive echocmds
          else
            mwhen echocmds (printf (line "# %s") [AStr (Some buf)]);;
            r ← fork;
            if r <? 0 then mpanic "fork: %e"
            else
              (if r =? 0 then runcmd fuel buf;; exit else wait r);;
              sh_loop lines fuel interactive echocmds
      end
  end.

(** [flags] and [args] are what argnext and argstart make of the command
    line: the flags, and argv without them. *)
Definition umain (lines fuel : nat) (flags : list Z) (args : list (list Z)) : M T unit :=
  '(interactive, echocmds) ← options flags None false;
  mwhen (bool_decide (2 < length args)%nat) usage;;
  mwhen (bool_decide (length args = 2%nat))
    (close 0;;
     r ← open (default [] (args !! 1%nat)) O_RDONLY;
     if r <? 0 then mpanic "open %s: %e" else massert (r =? 0) "assertion failed: r == 0");;
  i ← (match interactive with Some i => mret i | None => iscons 0 end);
  sh_loop lines fuel i echocmds.
End sh.

(* ------------------------------------------------------------------ *)
(** ** Redirections and pipes *)

(** What a descriptor stands for. *)
Inductive object := Console | File (name : list Z) (mode : Z) | ReadEnd (n : nat) | WriteEnd (n : nat).

(** A process of the shell: the tokens to come, its descriptors, the pipes
    made so far, what fork will return, and the programs it has started, each
    with the descriptors it inherits, and the environments it has waited for. *)
Record proc := mkProc {
  p_toks : list (Z * list Z); p_fds : Z → option object; p_pipes : nat; p_fork : Z;
  p_ran : list (list (list Z) * (Z → option object)); p_waited : list Z }.

Definition set_fd (n : Z) (o : option object) (p : proc) : proc :=
  mkProc (p_toks p) (λ k, if k =? n then o else p_fds p k) (p_pipes p) (p_fork p) (p_ran p) (p_waited p).
Definition lowest (p : proc) : option Z := List.find (λ k, bool_decide (p_fds p k = None)) (seqZ 0 MAXFD).

Definition p_gettoken : M proc (Z * list Z) := λ p,
  match p_toks p with
  | [] => Ok (0, []) p
  | t :: ts => Ok t (mkProc ts (p_fds p) (p_pipes p) (p_fork p) (p_ran p) (p_waited p))
  end.
Definition p_open (name : list Z) (mode : Z) : M proc Z := λ p,
  match lowest p with
  | Some k => Ok k (set_fd k (Some (File name mode)) p)
  | None => Ok (- E_MAX_OPEN) p
  end.
Definition p_dup (a b : Z) : M proc Z := λ p, Ok b (set_fd b (p_fds p a) p).
Definition p_close (a : Z) : M proc Z := λ p, Ok 0 (set_fd a None p).
Definition p_close_all : M proc unit := mfor (seqZ 0 MAXFD) (λ k, p_close k;; mret tt).
Definition p_pipe : M proc (Z * (Z * Z)) := λ p,
  match lowest p with
  | Some a =>
      let p1 := set_fd a (Some (ReadEnd (p_pipes p))) p in
      match lowest p1 with
      | Some b =>
          let p2 := set_fd b (Some (WriteEnd (p_pipes p))) p1 in
          Ok (0, (a, b)) (mkProc (p_toks p2) (p_fds p2) (1 + p_pipes p) (p_fork p2) (p_ran p2) (p_waited p2))
      | None => Ok (- E_MAX_OPEN, (0, 0)) p
      end
  | None => Ok (- E_MAX_OPEN, (0, 0)) p
  end.
Definition p_do_fork : M proc Z := mgets p_fork.
Definition p_spawn (prog : list Z) (argv : list (list Z)) : M proc Z := λ p,
  Ok 4097 (mkProc (p_toks p) (p_fds p) (p_pipes p) (p_fork p) (p_ran p ++ [(argv, p_fds p)]) (p_waited p)).
Definition p_wait (id : Z) : M proc unit :=
  mmod (λ p, mkProc (p_toks p) (p_fds p) (p_pipes p) (p_fork p) (p_ran p) (p_waited p ++ [id])).

Definition p_print (fmt : string) (ap : list arg) : M proc unit := mret tt.
Definition p_exit : M proc unit := mleave HaltCPU.

Abbreviation p_loop :=
  (runcmd_loop p_gettoken p_open p_dup p_close p_close_all p_pipe p_do_fork p_spawn p_wait p_print p_exit).
Abbreviation p_runit := (runit p_close_all p_spawn p_wait p_print p_exit).

(** A simple command: words and redirections in any order. *)
Inductive item := Word (w : list Z) | From (f : list Z) | To (f : list Z).
Definition item_toks (x : item) : list (Z * list Z) :=
  match x with
  | Word w => [(zc "w", w)]
  | From f => [(zc "<", zs "<"); (zc "w", f)]
  | To f => [(zc ">", zs ">"); (zc "w", f)]
  end.
Definition words (l : list item) : list (list Z) := omap (λ x, match x with Word w => Some w | _ => None end) l.
(** The descriptors after the redirections. *)
Definition redirected (x : item) (fds : Z → option object) (k : Z) : option object :=
  match x with
  | Word _ => fds k
  | From f => if k =? 0 then Some (File f O_RDONLY) else fds k
  | To f => if k =? 1 then Some (File f (O_WRONLY + O_CREAT + O_TRUNC)) else fds k
  end.
Definition all_redirected (l : list item) (fds : Z → option object) : Z → option object :=
  foldl (λ fds x, redirected x fds) fds l.

Definition with_fds (fds : Z → option object) (ts : list (Z * list Z)) (p : proc) : proc :=
  mkProc ts fds (p_pipes p) (p_fork p) (p_ran p) (p_waited p).

(** Standard input and output are open, and another descriptor is free. *)
Definition usable (fds : Z → option object) : Prop :=
  fds 0 ≠ None ∧ fds 1 ≠ None ∧ ∃ k, 0 ≤ k < MAXFD ∧ fds k = None.

Lemma lowest_spec p : usable (p_fds p) → ∃ k, lowest p = Some k ∧ 2 ≤ k < MAXFD ∧ p_fds p k = None.
Proof.
  intros (H0 & H1 & k & Hk & Hn). unfold lowest.
  destruct (find_index (λ k, bool_decide (p_fds p k = None)) 0 MAXFD) as [(j & -> & Hj & Hf & _)|[_ Hm]].
  - apply bool_decide_eq_true in Hf. exists j. split_and!; [done| |lia|done]. destruct (decide (j = 0)) as [->|]; [done|].
    destruct (decide (j = 1)) as [->|]; [done|lia].
  - specialize (Hm k ltac:(lia)). apply bool_decide_eq_false in Hm. done.
Qed.

Lemma usable_ext fds fds' : (∀ k, fds' k = fds k) → usable fds → usable fds'.
Proof. intros E (H0 & H1 & k & Hk & Hn). unfold usable. rewrite !E. split_and!; [done..|]. exists k. by rewrite E. Qed.

Lemma p_gettoken_run p t ts : p_toks p = t :: ts → p_gettoken p = Ok t (with_fds (p_fds p) ts p).
Proof. intros Ht. unfold p_gettoken. by rewrite Ht. Qed.

(** A redirection of descriptor 0 or 1. *)
Lemma redirect_run n mode syn fl f ts p : n = 0 ∨ n = 1 → usable (p_fds p) → p_toks p = (zc "w", f) :: ts →
  ∃ fds, redirect p_gettoken p_open p_dup p_close p_print p_exit n mode syn fl p = Ok tt (with_fds fds ts p) ∧
    ∀ k, fds k = if k =? n then Some (File f mode) else p_fds p k.
Proof.
  intros Hn Hu Ht. destruct (lowest_spec p Hu) as (j & Hl & Hj & Hnone).
  unfold redirect. rewrite (bind_Ok _ _ _ _ _ (p_gettoken_run p _ _ Ht)), Z.eqb_refl. cbn [negb mwhen]. rewrite bind_ret.
  set (p1 := with_fds _ _ _).
  assert (Ho : p_open f mode p1 = Ok j (set_fd j (Some (File f mode)) p1)) by (unfold p_open; change (lowest p1) with (lowest p); by rewrite Hl).
  rewrite (bind_Ok _ _ _ _ _ Ho), (proj2 (Z.ltb_ge _ _)) by lia. cbn [mwhen]. rewrite bind_ret, (proj2 (Z.eqb_neq j n)) by lia. cbn [negb mwhen].
  eexists. split; [reflexivity|]. intros k. cbn. rewrite Z.eqb_refl. destruct (Z.eqb_spec k j) as [->|]; [|by destruct (k =? n)].
  rewrite (proj2 (Z.eqb_neq j n)) by lia. by rewrite Hnone.
Qed.

Lemma redirected_usable x fds : usable fds → usable (redirected x fds).
Proof.
  intros (H0 & H1 & k & Hk & Hn). assert (2 ≤ k).
  { destruct (decide (k = 0)) as [->|]; [done|]. destruct (decide (k = 1)) as [->|]; [done|lia]. }
  destruct x as [w|f|f]; cbn; split_and!; try done; exists k; (split; [lia|]); cbn; [done|..];
    [destruct (Z.eqb_spec k 0)|destruct (Z.eqb_spec k 1)]; lia || done.
Qed.

Lemma all_redirected_ext l : ∀ fds fds', (∀ k, fds' k = fds k) → ∀ k, all_redirected l fds' k = all_redirected l fds k.
Proof.
  induction l as [|x l IH]; intros fds fds' E k; [apply E|]. cbn. apply IH. intros k'. destruct x; cbn; by rewrite E.
Qed.

(** The loop takes a simple command to the end of the line. *)
Lemma simple_command l : ∀ fuel argv pc p ts, (length l ≤ fuel)%nat → p_toks p = mjoin (item_toks <$> l) ++ ts →
  usable (p_fds p) → (length argv + length (words l) < MAXARGS)%nat →
  ∃ fds, p_loop fuel argv pc p = p_loop (fuel - length l) (argv ++ words l) pc (with_fds fds ts p) ∧
    ∀ k, fds k = all_redirected l (p_fds p) k.
Proof.
  induction l as [|x l IH]; intros fuel argv pc p ts Hf Ht Hu Hw.
  { exists (p_fds p). split; [|done]. cbn in *. rewrite app_nil_r, Nat.sub_0_r. by destruct p; cbn in *; subst. }
  destruct fuel as [|fuel]; [cbn in Hf; lia|]. change (mjoin (item_toks <$> x :: l)) with (item_toks x ++ mjoin (item_toks <$> l)) in Ht.
  rewrite <- app_assoc in Ht. cbn [runcmd_loop Nat.sub length].
  destruct x as [w|f|f]; cbn [item_toks app] in Ht; rewrite (bind_Ok _ _ _ _ _ (p_gettoken_run p _ _ Ht)).
  - change (words (Word w :: l)) with (w :: words l) in *. cbn [length] in Hw, Hf. rewrite Z.eqb_refl. rewrite !bool_decide_eq_false_2 by lia. cbn [mwhen]. rewrite bind_ret.
    set (p1 := with_fds _ _ _).
    destruct (IH fuel (argv ++ [w]) pc p1 ts) as (fds & E & Hk); [lia|done|done|rewrite length_app; cbn [length]; lia|].
    exists fds. split; [|done]. rewrite E, <- app_assoc. done.
  - change (zc "<" =? zc "w") with false. change (zc "<" =? zc "<") with true. cbv iota.
    destruct (redirect_run 0 O_RDONLY "syntax error: < not followed by word" "open %s for read: %e" f (mjoin (item_toks <$> l) ++ ts)
      (with_fds (p_fds p) ((zc "w", f) :: mjoin (item_toks <$> l) ++ ts) p))
      as (fds1 & E1 & H1); [by left|done|done|]. rewrite (bind_Ok _ _ _ _ _ E1). set (p1 := with_fds _ _ _).
    destruct (IH fuel argv pc p1 ts) as (fds & E & Hk); [cbn in Hf; lia|done| |done|].
    { apply (usable_ext (redirected (From f) (p_fds p))); [done|by apply redirected_usable]. }
    exists fds. split; [exact E|]. intros k. rewrite Hk. cbn. by apply all_redirected_ext.
  - change (zc ">" =? zc "w") with false. change (zc ">" =? zc "<") with false. change (zc ">" =? zc ">") with true. cbv iota.
    destruct (redirect_run 1 (O_WRONLY + O_CREAT + O_TRUNC) "syntax error: > not followed by word" "open %s for write: %e" f (mjoin (item_toks <$> l) ++ ts)
      (with_fds (p_fds p) ((zc "w", f) :: mjoin (item_toks <$> l) ++ ts) p))
      as (fds1 & E1 & H1); [by right|done|done|]. rewrite (bind_Ok _ _ _ _ _ E1). set (p1 := with_fds _ _ _).
    destruct (IH fuel argv pc p1 ts) as (fds & E & Hk); [cbn in Hf; lia|done| |done|].
    { apply (usable_ext (redirected (To f) (p_fds p))); [done|by apply redirected_usable]. }
    exists fds. split; [exact E|]. intros k. rewrite Hk. cbn. by apply all_redirected_ext.
Qed.

(** argv as spawn gets it. *)
Definition rooted (argv : list (list Z)) : list (list Z) :=
  match argv with
  | [] => []
  | arg0 :: args => (if bool_decide (head arg0 = Some (zc "/")) then arg0 else zc "/" :: arg0) :: args
  end.

Lemma close_all_run p : ∃ p', p_close_all p = Ok tt p' ∧ (∀ k, 0 ≤ k < MAXFD → p_fds p' k = None) ∧
  p_ran p' = p_ran p ∧ p_waited p' = p_waited p.
Proof.
  unfold p_close_all. assert (∀ l q, ∃ p', mfor l (λ k, p_close k;; mret tt) q = Ok tt p' ∧
    (∀ k, k ∈ l ∨ p_fds q k = None → p_fds p' k = None) ∧ p_ran p' = p_ran q ∧ p_waited p' = p_waited q) as Hgo.
  { intros l. induction l as [|x l IH]; intros q; cbn [mfor].
    - exists q. split_and!; try done. intros k [Hk|Hk]; [by apply elem_of_nil in Hk|done].
    - destruct (IH (set_fd x None q)) as (p' & E & Hn & ? & ?). exists p'. split; [exact E|]. split_and!; [|done|done].
      intros k Hk. apply Hn. cbn. destruct (Z.eqb_spec k x) as [->|Hne]; [by right|]. destruct Hk as [[->|Hk]%elem_of_cons|Hk]; [done|by left|by right]. }
  destruct (Hgo (seqZ 0 MAXFD) p) as (p' & E & Hn & ? & ?). exists p'. split_and!; try done.
  intros k Hk. apply Hn. left. apply elem_of_seqZ. lia.
Qed.

(** The command runs with the descriptors of the shell, which then closes
    them, waits, and ends. *)
Lemma runit_run argv pc p : argv ≠ [] → (length argv < MAXARGS)%nat → (∀ w, head argv = Some w → Z.of_nat (length w) + 2 ≤ BUFSIZ) →
  ∃ p', p_runit argv pc p = Noret HaltCPU p' ∧ p_ran p' = p_ran p ++ [(rooted argv, p_fds p)] ∧
    p_waited p' = p_waited p ++ 4097 :: (if pc =? 0 then [] else [pc]) ∧ ∀ k, 0 ≤ k < MAXFD → p_fds p' k = None.
Proof.
  intros Hne Hlen Hw. destruct argv as [|w args]; [done|]. unfold runit.
  specialize (Hw w eq_refl). rewrite (proj2 (Z.ltb_ge _ _)), andb_false_r by lia. rewrite (bool_decide_eq_false_2 (_ = MAXARGS)) by lia. cbv zeta.
  erewrite (bind_Ok (p_spawn _ _)) by reflexivity. cbn [Z.ltb Z.compare mwhen]. rewrite bind_ret.
  set (p1 := mkProc _ _ _ _ _ _). destruct (close_all_run p1) as (p2 & E & Hn & Hr & Hq). rewrite (bind_Ok _ _ _ _ _ E).
  cbn [Z.leb Z.compare mwhen]. unfold p_wait. rewrite bind_mod. destruct (Z.eqb_spec pc 0); cbn [negb mwhen].
  - rewrite bind_ret. eexists. split; [reflexivity|]. cbn. rewrite Hr, Hq. by split_and!.
  - rewrite bind_mod. eexists. split; [reflexivity|]. cbn. rewrite Hr, Hq, <- app_assoc. by split_and!.
Qed.

(** Two descriptors are free. *)
Definition pipeable (fds : Z → option object) : Prop :=
  fds 0 ≠ None ∧ fds 1 ≠ None ∧ ∃ a b, 0 ≤ a < MAXFD ∧ 0 ≤ b < MAXFD ∧ a ≠ b ∧ fds a = None ∧ fds b = None.

Lemma pipeable_usable fds : pipeable fds → usable fds.
Proof. intros (H0 & H1 & a & b & Ha & _ & _ & Hn & _). split_and!; [done..|]. by exists a. Qed.
Lemma pipeable_ext fds fds' : (∀ k, fds' k = fds k) → pipeable fds → pipeable fds'.
Proof. intros E (H0 & H1 & a & b & H). unfold pipeable. rewrite !E. split_and!; [done..|]. exists a, b. by rewrite !E. Qed.

Lemma p_pipe_run p : pipeable (p_fds p) → ∃ a b fds, p_pipe p = Ok (0, (a, b)) (mkProc (p_toks p) fds (1 + p_pipes p) (p_fork p) (p_ran p) (p_waited p)) ∧
  2 ≤ a ∧ 2 ≤ b ∧ a ≠ b ∧ p_fds p a = None ∧ p_fds p b = None ∧
  ∀ k, fds k = if k =? b then Some (WriteEnd (p_pipes p)) else if k =? a then Some (ReadEnd (p_pipes p)) else p_fds p k.
Proof.
  intros Hp. destruct (lowest_spec p (pipeable_usable _ Hp)) as (a & Ha & Hra & Hna). unfold p_pipe. rewrite Ha.
  set (p1 := set_fd a _ p). assert (Hu : usable (p_fds p1)).
  { destruct Hp as (H0 & H1 & x & y & Hx & Hy & Hxy & Hnx & Hny). cbn. split_and!.
    - by rewrite (proj2 (Z.eqb_neq 0 a)) by lia.
    - by rewrite (proj2 (Z.eqb_neq 1 a)) by lia.
    - destruct (decide (x = a)) as [->|Hne]; [exists y|exists x]; cbn; (split; [lia|]); by rewrite (proj2 (Z.eqb_neq _ a)) by lia. }
  destruct (lowest_spec p1 Hu) as (b & Hb & Hrb & Hnb). rewrite Hb. cbn in Hnb.
  destruct (Z.eqb_spec b a) as [|Hne]; [done|]. eexists a, b, _. split; [reflexivity|]. split_and!; try done; lia.
Qed.

Lemma redirected_pipeable x fds : pipeable fds → pipeable (redirected x fds).
Proof.
  intros (H0 & H1 & a & b & Ha & Hb & Hab & Hna & Hnb). assert (a ≠ 0 ∧ a ≠ 1 ∧ b ≠ 0 ∧ b ≠ 1) as (? & ? & ? & ?).
  { split_and!; by intros ->. }
  destruct x as [w|f|f]; cbn; split_and!; try done; exists a, b; cbn; rewrite ?(proj2 (Z.eqb_neq a _)), ?(proj2 (Z.eqb_neq b _)) by done; done.
Qed.
Lemma all_redirected_pipeable l : ∀ fds, pipeable fds → pipeable (all_redirected l fds).
Proof. induction l as [|x l IH]; intros fds Hp; [done|]. cbn. by apply IH, redirected_pipeable. Qed.

(** At a |, both ends of the fork. *)
Lemma pipe_step n argv p ts : p_toks p = (zc "|", zs "|") :: ts → pipeable (p_fds p) → 0 ≤ p_fork p →
  let kept fds := mkProc ts fds (1 + p_pipes p) (p_fork p) (p_ran p) (p_waited p) in
  ∃ child parent, p_loop (S n) argv 0 p =
      (if p_fork p =? 0 then p_loop n [] 0 (kept child) else p_runit argv (p_fork p) (kept parent)) ∧
    (∀ k, child k = if k =? 0 then Some (ReadEnd (p_pipes p)) else p_fds p k) ∧
    (∀ k, parent k = if k =? 1 then Some (WriteEnd (p_pipes p)) else p_fds p k).
Proof.
  intros Ht Hp Hf kept. destruct (p_pipe_run (with_fds (p_fds p) ts p) Hp) as (a & b & fds & E & Ha & Hb & Hab & Na & Nb & Hk).
  cbn [p_toks p_fds p_pipes p_fork p_ran p_waited with_fds] in *.
  exists (λ k, if k =? b then None else if k =? a then None else if k =? 0 then fds a else fds k).
  exists (λ k, if k =? a then None else if k =? b then None else if k =? 1 then fds b else fds k). split_and!.
  - cbn [runcmd_loop]. rewrite (bind_Ok _ _ _ _ _ (p_gettoken_run p _ _ Ht)).
    change (zc "|" =? zc "w") with false. change (zc "|" =? zc "<") with false. change (zc "|" =? zc ">") with false.
    rewrite Z.eqb_refl, (bind_Ok _ _ _ _ _ E). cbn [Z.ltb Z.compare mwhen]. rewrite bind_ret. unfold p_do_fork. rewrite bind_gets. cbn [p_fork].
    rewrite (proj2 (Z.ltb_ge _ _)) by lia. cbn [mwhen]. rewrite bind_ret.
    rewrite (proj2 (Z.eqb_neq a 0)), (proj2 (Z.eqb_neq b 1)) by lia. by destruct (p_fork p =? 0).
  - intros k. rewrite !Hk, Z.eqb_refl, (proj2 (Z.eqb_neq a b)) by done.
    destruct (Z.eqb_spec k b) as [->|]; [by rewrite (proj2 (Z.eqb_neq b 0)), Nb by lia|].
    destruct (Z.eqb_spec k a) as [->|]; [by rewrite (proj2 (Z.eqb_neq a 0)), Na by lia|done].
  - intros k. rewrite !Hk, Z.eqb_refl. destruct (Z.eqb_spec k a) as [->|]; [by rewrite (proj2 (Z.eqb_neq a 1)), Na by lia|].
    destruct (Z.eqb_spec k b) as [->|]; [by rewrite (proj2 (Z.eqb_neq b 1)), Nb by lia|done].
Qed.


(** The shell on "cat < a | wc", at the console. *)
Definition demo_proc : proc :=
  mkProc [(zc "w", zs "cat"); (zc "<", zs "<"); (zc "w", zs "a"); (zc "|", zs "|"); (zc "w", zs "wc"); (0, [])]
    (λ k, if k <? 2 then Some Console else None) 0 4098 [] [].


(** Sixteen words pass the check for too many arguments, but the NULL that
    ends argv is then written past its end. *)
Theorem runcmd_sixteen_words p fuel w : p_toks p = replicate 16 (zc "w", w) ++ [(0, [])] → Z.of_nat (length w) + 2 ≤ BUFSIZ → (16 < fuel)%nat →
  p_loop fuel [] 0 p = Undef.
Proof.
  intros Ht Hw Hf. assert (∀ n argv q, p_toks q = replicate n (zc "w", w) ++ [(0, [])] → (length argv + n ≤ 16)%nat →
    ∀ f, (n < f)%nat → ∃ q' f', p_loop f argv 0 q = p_loop (S f') (argv ++ replicate n w) 0 q' ∧ p_toks q' = [(0, [])]) as Hgo.
  { intros n. induction n as [|n IH]; intros argv q Hq Hl f Hfn.
    - destruct f as [|f]; [lia|]. exists q, f. by rewrite app_nil_r.
    - destruct f as [|f]; [lia|]. cbn [replicate app] in Hq. cbn [runcmd_loop].
      rewrite (bind_Ok _ _ _ _ _ (p_gettoken_run q _ _ Hq)), Z.eqb_refl. rewrite !bool_decide_eq_false_2 by lia. cbn [mwhen]. rewrite bind_ret.
      destruct (IH (argv ++ [w]) (with_fds (p_fds q) (replicate n (zc "w", w) ++ [(0, [])]) q) eq_refl) with (f := f) as (q' & f' & E & Hq');
        [rewrite length_app; cbn; lia|lia|]. exists q', f'. split; [|done]. rewrite E, <- app_assoc. done. }
  destruct (Hgo 16%nat [] p Ht ltac:(cbn; lia) fuel Hf) as (q & f & -> & Hq). cbn [runcmd_loop].
  rewrite (bind_Ok _ _ _ _ _ (p_gettoken_run q _ _ Hq)). change (0 =? zc ?c) with false. cbn [Z.eqb app replicate runit].
  rewrite (proj2 (Z.ltb_ge _ _)), andb_false_r by lia. by rewrite bool_decide_eq_true_2.
Qed.
