(* ===== verification/Monitor.v ===== *)
(** The kernel monitor: kern/monitor.c.  The command line is the list of its
    bytes; argv is the list of the words, instead of pointers into the
    buffer that runcmd cuts up with NULs. *)

From S2P Require Import Prelude Mmu Printfmt Console KState Pmap PageTable Env Sched Syscall Trap Kdebug Shell.
From Stdlib Require Import ZArith Lia Ascii String.
From stdpp Require Import base tactics numbers list option.
Open Scope Z_scope.

Abbreviation MAXARGS := 16 (only parsing).

(** strchr(WHITESPACE, c) *)
Definition whitespace (c : Z) : bool := existsb (Z.eqb c) [9; 13; 10; zc " "].

Fixpoint gobble (s : list Z) : list Z :=
  match s with
  | c :: s' => if whitespace c then gobble s' else s
  | [] => []
  end.

Fixpoint scan_arg (s : list Z) : list Z * list Z :=
  match s with
  | c :: s' => if whitespace c then ([], s) else let '(a, r) := scan_arg s' in (c :: a, r)
  | [] => ([], [])
  end.

(** The words of the line; [None] when there are too many.  Every round but
    the last takes at least one character, so the length is fuel enough. *)
Fixpoint split_args (fuel : nat) (argc : Z) (s : list Z) : option (list (list Z)) :=
  match fuel with
  | O => Some []
  | S f =>
      match gobble s with
      | [] => Some []
      | s' =>
          if argc =? MAXARGS - 1 then None
          else let '(a, r) := scan_arg s' in rest ← split_args f (argc + 1) r; Some (a :: rest)
      end
  end.
Definition parse_line (buf : list Z) : option (list (list Z)) := split_args (S (length buf)) 0 buf.

Section monitor.
(** Symbols of the linker, the tables of the debugging information, and the
    frame pointer of the command. *)
Context (sym_start sym_entry sym_etext sym_edata sym_end : Z).
Context (stab_begin stab_fin stabstr_begin stabstr_fin : Z) (ebp0 : Z).

Inductive command := Mon_help | Mon_kerninfo | Mon_backtrace.

Definition commands : list (string * string * command) :=
  [("help", "Display this list of commands", Mon_help);
   ("kerninfo", "Display information about the kernel", Mon_kerninfo);
   ("backtrace", "stack backtrace", Mon_backtrace)]%string.

Definition mon_help : K Z :=
  mfor commands (λ '(name, desc, _), cprintf (line "%s - %s") [astr name; astr desc]);;
  mret 0.

Definition print_sym (s : string) (v : Z) : K unit :=
  cprintf (line s) [AInt v; AInt (u32 (v - KERNBASE))].

Definition mon_kerninfo : K Z :=
  cprintf (line "Special kernel symbols:") [];;
  cprintf (line "  _start                  %08x (phys)") [AInt sym_start];;
  print_sym "  entry  %08x (virt)  %08x (phys)" sym_entry;;
  print_sym "  etext  %08x (virt)  %08x (phys)" sym_etext;;
  print_sym "  edata  %08x (virt)  %08x (phys)" sym_edata;;
  print_sym "  end    %08x (virt)  %08x (phys)" sym_end;;
  cprintf (line "Kernel executable memory footprint: %dKB")
    [AInt (ROUNDUP (u32 (sym_end - sym_entry)) 1024 / 1024)];;
  mret 0.

(** The bytes at an address of the string table, up to the NUL. *)
Definition name_arg (fuel : nat) (n : cname) : K arg :=
  match n with
  | Unknown => mret (astr "<unknown>")
  | NameAt a => s ← uread_str fuel a; mret (AStr (Some s))
  end.

(** At most [n] frames. *)
Fixpoint backtrace_loop (n : nat) (ebp eip : Z) : K unit :=
  match n with
  | O => mundef
  | S n' =>
      cprintf "ebp %x, eip %x, args " [AInt ebp; AInt eip];;
      mfor (seqZ 0 5) (λ i, a ← uload32 (u32 (ebp + 8 + 4 * i)); cprintf "%x " [AInt a]);;
      cprintf (line "") [];;
      '(r, info) ← debuginfo_eip stab_begin stab_fin stabstr_begin stabstr_fin eip;
      if r =? 0 then
        file ← name_arg (Z.to_nat (stabstr_fin - stabstr_begin)) (eip_file info);
        name ← name_arg (Z.to_nat (stabstr_fin - stabstr_begin)) (eip_fn_name info);
        cprintf (line "%s: %d: %.*s+%d")
          [file; AInt (eip_line info); AInt (eip_fn_namelen info); name;
           AInt (u32 (eip - eip_fn_addr info))];;
        ebp ← uload32 ebp;
        eip ← uload32 (u32 (ebp + 4));
        backtrace_loop n' ebp eip
      else mret tt
  end.
Definition mon_backtrace (n : nat) : K Z :=
  eip ← uload32 (u32 (ebp0 + 4));
  backtrace_loop n ebp0 eip;;
  mret 0.

(** [n] bounds the frames that backtrace prints. *)
Definition run_command (n : nat) (c : command) : K Z :=
  match c with Mon_help => mon_help | Mon_kerninfo => mon_kerninfo | Mon_backtrace => mon_backtrace n end.

Fixpoint find_command (cs : list (string * string * command)) (name : list Z) : option command :=
  match cs with
  | [] => None
  | (s, _, c) :: cs' => if bool_decide (name = zs s) then Some c else find_command cs' name
  end.

Definition runcmd (n : nat) (buf : list Z) : K Z :=
  match parse_line buf with
  | None => cprintf (line "Too many arguments (max %d)") [AInt MAXARGS];; mret 0
  | Some [] => mret 0
  | Some (a :: _) =>
      match find_command commands a with
      | Some c => run_command n c
      | None => cprintf (line "Unknown command '%s'") [AStr (Some a)];; mret 0
      end
  end.

Lemma then_ret_zero {A} (m : K A) s r s' : (m;; mret 0) s = Ok r s' → r = 0.
Proof. unfold mbind, M_bind. destruct (m s); try done. by intros [= <- _]. Qed.

Lemma run_command_zero n c s r s' : run_command n c s = Ok r s' → r = 0.
Proof.
  destruct c; unfold run_command, mon_help, mon_kerninfo, mon_backtrace.
  - apply then_ret_zero.
  - rewrite <-!bind_assoc. apply then_ret_zero.
  - rewrite <-bind_assoc. apply then_ret_zero.
Qed.

(** Every command line makes runcmd return 0 if it returns at all, so the
    loop of monitor, which only a negative result ends, never returns. *)
Lemma runcmd_stays n buf s r s' : runcmd n buf s = Ok r s' → r = 0.
Proof.
  unfold runcmd. destruct (parse_line buf) as [[|a args]|]; [by intros [= <- _]| |apply then_ret_zero].
  destruct (find_command commands a); [apply run_command_zero|apply then_ret_zero].
Qed.
(** The loop over command lines; [polls], [chars] and [fuel] bound the waits
    for a character, the characters of a line and the lines. *)
Fixpoint monitor_loop (fuel polls chars n : nat) : K unit :=
  match fuel with
  | O => mleave Spinning
  | S fuel =>
      buf ← Readline.readline (lift_cons (getchar polls)) (λ c, lift_cons (cputchar c)) cprintf cprintf
              chars (negb (iscons 0 =? 0)) (Some "K> "%string);
      match buf with
      | Some buf => r ← runcmd n buf; if r <? 0 then mret tt else monitor_loop fuel polls chars n
      | None => monitor_loop fuel polls chars n
      end
  end.
Definition monitor (fuel polls chars n : nat) (tf_addr : tfloc → Z) (cr2 : Z) (tf : option (bool * tfloc)) : K unit :=
  cprintf (line "Welcome to the JOS kernel monitor!") [];;
  cprintf (line "Type 'help' for a list of commands.") [];;
  match tf with Some (last, tf) => print_trapframe tf_addr cr2 last tf | None => mret tt end;;
  monitor_loop fuel polls chars n.

(** No command ends the monitor. *)
Theorem monitor_never_returns fuel polls chars n tf_addr cr2 tf s u s' : monitor fuel polls chars n tf_addr cr2 tf s ≠ Ok u s'.
Proof.
  assert (L : ∀ fuel s, monitor_loop fuel polls chars n s ≠ Ok u s').
  { intros f. induction f as [|f IH]; intros s1 H; [done|]. cbn [monitor_loop] in H.
    apply bind_Ok_inv in H as ([buf|] & s2 & _ & H); [|by apply IH in H].
    apply bind_Ok_inv in H as (r & s3 & Hr & H). apply runcmd_stays in Hr as ->. by apply IH in H. }
  unfold monitor. intros H. do 3 (apply bind_Ok_inv in H as ([] & ? & _ & H)). by apply L in H.
Qed.

(** kern/init.c: _panic and _warn.  The round of the final loop is the only
    one, because monitor does not return. *)
Definition _panic {A} (fuel polls chars n : nat) (file : list Z) (lineno : Z) (fmt : string) (ap : list arg) : K A :=
  panicstr ← mgets k_panicstr;
  mwhen (negb panicstr)
    (mmod (with_panicstr true);;
     c ← mgets k_cpunum;
     cprintf "kernel panic on CPU %d at %s:%d: " [AInt (Z.of_nat c); AStr (Some file); AInt lineno];;
     cprintf fmt ap;;
     cprintf (line "") []);;
  monitor fuel polls chars n (λ _, 0) 0 None;;
  mundef.

Definition _warn (file : list Z) (lineno : Z) (fmt : string) (ap : list arg) : K unit :=
  cprintf "kernel warning at %s:%d: " [AStr (Some file); AInt lineno];;
  cprintf fmt ap;;
  cprintf (line "") [].

End monitor.
