(* ===== verification/Smp.v ===== *)
(** Several processors: the MP configuration table (kern/mpconfig.c), the
    local APIC (kern/lapic.c) and the start of the kernel (kern/init.c).

    To the kernel's state this adds the variables of these files and the
    local APIC of the CPU that runs: the values that the successive reads of
    its registers return (0 once the list is used up) and the writes to
    them, newest first.  Where the code says thiscpu, the number of the CPU
    is the one the kernel state keeps ([k_cpunum]); [cpunum] is the function
    that reads it from the APIC. *)

From S2P Require Import Prelude Mmu Printfmt Console KState Pmap PageTable Env Sched Trap MemInit.
From Stdlib Require Import ZArith Lia String.
From stdpp Require Import base tactics numbers list.
Open Scope Z_scope.

Abbreviation NCPU := 8 (only parsing).
Abbreviation MPPROC_BOOT := 2 (only parsing).
Abbreviation MPENTRY_PADDR := 28672 (only parsing).  (* 0x7000 *)

Record mps := mkMps {
  m_k : kst; m_ismp : bool; m_ncpu : nat; m_bootcpu : nat; m_lapicaddr : Z; m_lapic : Z;
  m_mpentry_kstack : Z; m_apic_in : list Z; m_apic_out : list (Z * Z) }.
Definition mw_k k s := mkMps k (m_ismp s) (m_ncpu s) (m_bootcpu s) (m_lapicaddr s) (m_lapic s)
  (m_mpentry_kstack s) (m_apic_in s) (m_apic_out s).
Definition mw_cpus ismp n b s := mkMps (m_k s) ismp n b (m_lapicaddr s) (m_lapic s)
  (m_mpentry_kstack s) (m_apic_in s) (m_apic_out s).
Definition mw_lapicaddr a s := mkMps (m_k s) (m_ismp s) (m_ncpu s) (m_bootcpu s) a (m_lapic s)
  (m_mpentry_kstack s) (m_apic_in s) (m_apic_out s).
Definition mw_lapic a s := mkMps (m_k s) (m_ismp s) (m_ncpu s) (m_bootcpu s) (m_lapicaddr s) a
  (m_mpentry_kstack s) (m_apic_in s) (m_apic_out s).
Definition mw_kstack a s := mkMps (m_k s) (m_ismp s) (m_ncpu s) (m_bootcpu s) (m_lapicaddr s) (m_lapic s)
  a (m_apic_in s) (m_apic_out s).
Definition mw_apic i o s := mkMps (m_k s) (m_ismp s) (m_ncpu s) (m_bootcpu s) (m_lapicaddr s) (m_lapic s)
  (m_mpentry_kstack s) i o.

Definition kern {A} (m : K A) : M mps A := λ s,
  match m (m_k s) with
  | Ok a k => Ok a (mw_k k s)
  | Noret x k => Noret x (mw_k k s)
  | Panic msg => Panic msg
  | Undef => Undef
  end.

(** ** The configuration table *)

Definition kbyte (kva : Z) : K Z := s ← mget; a ← mderef (kphys kva 1); mret (rd8 (k_mem s) a).
Fixpoint kbytes (n : nat) (kva : Z) : K (list Z) :=
  match n with O => mret [] | S n => b ← kbyte kva; l ← kbytes n (kva + 1); mret (b :: l) end.

Definition sum (addr len : Z) : K Z := l ← kbytes (Z.to_nat len) addr; mret (u8 (foldr Z.add 0 l)).

(** From [mp] on; the result is NULL when there is none. *)
Fixpoint mpsearch_from (fuel : nat) (mp e : Z) : K Z :=
  if mp <? e then
    match fuel with
    | O => mleave Spinning
    | S fuel =>
        sig ← kbytes 4 mp;
        c ← (if bool_decide (sig = zs "_MP_") then sum mp 16 else mret 1);
        if c =? 0 then mret mp else mpsearch_from fuel (u32 (mp + 16)) e
    end
  else mret NULL.
Definition mpsearch1 (a len : Z) : K Z :=
  mp ← KADDR a; e ← KADDR (u32 (a + len)); mpsearch_from (Z.to_nat (len / 16 + 1)) mp e.

Definition mpsearch : K Z :=
  bda ← KADDR 1024;
  p ← kload16 (bda + 14);
  mp ← (if negb (p =? 0) then mpsearch1 (u32 (Z.shiftl p 4)) 1024
        else p ← kload16 (bda + 19); mpsearch1 (u32 (p * 1024 - 1024)) 1024);
  if negb (mp =? NULL) then mret mp else mpsearch1 983040 65536.

(** The table, NULL when there is none that will do, and *pmp. *)
Definition mpconfig : K (Z * Z) :=
  mp ← mpsearch;
  if mp =? NULL then mret (NULL, NULL) else
  physaddr ← kload (mp + 4); type ← kbyte (mp + 11);
  if (physaddr =? 0) || negb (type =? 0) then
    cprintf (line "SMP: Default configurations not implemented") [];; mret (NULL, NULL)
  else
  conf ← KADDR physaddr;
  sig ← kbytes 4 conf;
  if negb (bool_decide (sig = zs "PCMP")) then
    cprintf (line "SMP: Incorrect MP configuration table signature") [];; mret (NULL, NULL)
  else
  length ← kload16 (conf + 4); c ← sum conf length;
  if negb (c =? 0) then cprintf (line "SMP: Bad MP configuration checksum") [];; mret (NULL, NULL)
  else
  version ← kbyte (conf + 6);
  if negb (version =? 1) && negb (version =? 4) then
    cprintf (line "SMP: Unsupported MP version %d") [AInt version];; mret (NULL, NULL)
  else
  xlength ← kload16 (conf + 40); xchecksum ← kbyte (conf + 42); c ← sum (conf + length) xlength;
  if negb (Z.land (c + xchecksum) 255 =? 0) then
    cprintf (line "SMP: Bad MP configuration extended checksum") [];; mret (NULL, NULL)
  else mret (conf, mp).

Definition set_cpu_id (v : Z) (c : CpuInfo) : CpuInfo := mkCpu (u8 v) (cpu_status c) (cpu_env c) (cpu_ts c).
(** A store to cpus[i]; undefined past the end of the array. *)
Definition cpus_upd (i : nat) (f : CpuInfo → CpuInfo) : K unit :=
  s ← mget;
  match k_cpus s !! i with Some c => mput (with_cpus (<[i := f c]> (k_cpus s)) s) | None => mundef end.

(** The case of a processor. *)
Definition mp_proc (p : Z) : M mps unit :=
  flags ← kern (kbyte (p + 3));
  s ← mget;
  mwhen (tst flags MPPROC_BOOT) (mmod (λ s, mw_cpus (m_ismp s) (m_ncpu s) (m_ncpu s) s));;
  if (m_ncpu s <? Z.to_nat NCPU)%nat then
    kern (cpus_upd (m_ncpu s) (set_cpu_id (Z.of_nat (m_ncpu s))));;
    mmod (λ s, mw_cpus (m_ismp s) (S (m_ncpu s)) (m_bootcpu s) s)
  else
    apicid ← kern (kbyte (p + 1));
    kern (cprintf (line "SMP: too many CPUs, CPU %d disabled") [AInt apicid]).

(** The loop over [n] more entries from [p] on. *)
Fixpoint mp_entries (n : nat) (p : Z) : M mps unit :=
  match n with
  | O => mret tt
  | S n =>
      ty ← kern (kbyte p);
      if ty =? 0 then mp_proc p;; mp_entries n (p + 20)
      else if (1 <=? ty) && (ty <=? 4) then mp_entries n (p + 8)
      else
        kern (cprintf (line "mpinit: unknown config type %x") [AInt ty]);;
        mmod (λ s, mw_cpus false (m_ncpu s) (m_bootcpu s) s)
  end.

(** From the loop on: the boot CPU is started and the CPUs are reported. *)
Definition mp_finish (mp : Z) : M mps unit :=
  b ← mgets m_bootcpu;
  kern (cpus_upd b (set_cpu_status CPU_STARTED));;
  ismp ← mgets m_ismp;
  if negb ismp then
    mmod (λ s, mw_cpus (m_ismp s) 1 (m_bootcpu s) s);;
    mmod (mw_lapicaddr 0);;
    kern (cprintf (line "SMP: configuration not found, SMP disabled") [])
  else
    s ← mget; c ← mderef (k_cpus (m_k s) !! b);
    kern (cprintf (line "SMP: CPU %d found %d CPU(s)") [AInt (cpu_id c); AInt (Z.of_nat (m_ncpu s))]);;
    imcrp ← kern (kbyte (mp + 12));
    mwhen (negb (imcrp =? 0))
      (kern (cprintf (line "SMP: Setting IMCR to switch from PIC mode to symmetric I/O mode") []);;
       kern (lift_cons (outb 34 112;; v ← inb 35; outb 35 (Z.lor v 1)))).

Definition mp_init : M mps unit :=
  mmod (λ s, mw_cpus (m_ismp s) (m_ncpu s) 0 s);;
  '(conf, mp) ← kern mpconfig;
  if conf =? NULL then mret tt else
  mmod (λ s, mw_cpus true (m_ncpu s) (m_bootcpu s) s);;
  a ← kern (kload (conf + 36)); mmod (mw_lapicaddr a);;
  n ← kern (kload16 (conf + 34));
  mp_entries (Z.to_nat n) (conf + 44);;
  mp_finish mp.

(** ** The local APIC *)

Abbreviation APIC_ID := 8 (only parsing).
Abbreviation APIC_VER := 12 (only parsing).
Abbreviation APIC_TPR := 32 (only parsing).
Abbreviation APIC_EOI := 44 (only parsing).
Abbreviation APIC_SVR := 60 (only parsing).
Abbreviation APIC_ESR := 160 (only parsing).
Abbreviation APIC_ICRLO := 192 (only parsing).
Abbreviation APIC_ICRHI := 196 (only parsing).
Abbreviation APIC_TIMER := 200 (only parsing).
Abbreviation APIC_PCINT := 208 (only parsing).
Abbreviation APIC_LINT0 := 212 (only parsing).
Abbreviation APIC_LINT1 := 216 (only parsing).
Abbreviation APIC_ERROR := 220 (only parsing).
Abbreviation APIC_TICR := 224 (only parsing).
Abbreviation APIC_TDCR := 248 (only parsing).
Abbreviation APIC_ENABLE := 256 (only parsing).
Abbreviation APIC_INIT := 1280 (only parsing).
Abbreviation APIC_STARTUP := 1536 (only parsing).
Abbreviation APIC_DELIVS := 4096 (only parsing).
Abbreviation APIC_ASSERT := 16384 (only parsing).
Abbreviation APIC_LEVEL := 32768 (only parsing).
Abbreviation APIC_BCAST := 524288 (only parsing).
Abbreviation APIC_OTHERS := 786432 (only parsing).
Abbreviation APIC_MASKED := 65536 (only parsing).
Abbreviation APIC_PERIODIC := 131072 (only parsing).

(** lapic[index] *)
Definition lapicr (index : Z) : M mps Z := λ s,
  match m_apic_in s with
  | [] => Ok 0 s
  | v :: rest => Ok (u32 v) (mw_apic rest (m_apic_out s) s)
  end.
Definition lapicw (index value : Z) : M mps unit :=
  mmod (λ s, mw_apic (m_apic_in s) ((index, u32 value) :: m_apic_out s) s);;
  lapicr APIC_ID;; mret tt.

(** while (lapic[ICRLO] & DELIVS); it ends at the latest when the list of
    reads is used up. *)
Fixpoint lapic_wait (fuel : nat) : M mps unit :=
  v ← lapicr APIC_ICRLO;
  if tst v APIC_DELIVS then match fuel with O => mleave Spinning | S fuel => lapic_wait fuel end else mret tt.
Definition lapic_delivered : M mps unit := s ← mget; lapic_wait (length (m_apic_in s)).

Definition lapic_init : M mps unit :=
  a ← mgets m_lapicaddr;
  if a =? 0 then mret tt else
  l ← kern (mmio_map_region a 4096); mmod (mw_lapic l);;
  lapicw APIC_SVR (Z.lor APIC_ENABLE (IRQ_OFFSET + IRQ_SPURIOUS));;
  lapicw APIC_TDCR 11;;
  lapicw APIC_TIMER (Z.lor APIC_PERIODIC (IRQ_OFFSET + IRQ_TIMER));;
  lapicw APIC_TICR 10000000;;
  s ← mget;
  mwhen (negb (k_cpunum (m_k s) =? m_bootcpu s)%nat) (lapicw APIC_LINT0 APIC_MASKED);;
  lapicw APIC_LINT1 APIC_MASKED;;
  v ← lapicr APIC_VER;
  mwhen (4 <=? Z.land (Z.shiftr v 16) 255) (lapicw APIC_PCINT APIC_MASKED);;
  lapicw APIC_ERROR (IRQ_OFFSET + IRQ_ERROR);;
  lapicw APIC_ESR 0;;
  lapicw APIC_ESR 0;;
  lapicw APIC_EOI 0;;
  lapicw APIC_ICRHI 0;;
  lapicw APIC_ICRLO (Z.lor (Z.lor APIC_BCAST APIC_INIT) APIC_LEVEL);;
  lapic_delivered;;
  lapicw APIC_TPR 0.

Definition cpunum : M mps Z :=
  l ← mgets m_lapic;
  if l =? 0 then mret 0 else v ← lapicr APIC_ID; mret (Z.shiftr v 24).

Definition lapic_eoi : M mps unit :=
  l ← mgets m_lapic; mwhen (negb (l =? 0)) (lapicw APIC_EOI 0).

Definition lapic_startap (apicid addr : Z) : M mps unit :=
  kern (mc146818_write 15 10);;
  wrv ← kern (KADDR 1127);
  kern (s ← mget; a ← mderef (kphys wrv 4);
        mput (with_mem (wr16 (wr16 (k_mem s) a 0) (a + 2) (Z.shiftr addr 4)) s));;
  lapicw APIC_ICRHI (Z.shiftl apicid 24);;
  lapicw APIC_ICRLO (Z.lor (Z.lor APIC_INIT APIC_LEVEL) APIC_ASSERT);;
  lapicw APIC_ICRLO (Z.lor APIC_INIT APIC_LEVEL);;
  mfor [0; 1] (λ _,
    lapicw APIC_ICRHI (Z.shiftl apicid 24);;
    lapicw APIC_ICRLO (Z.lor APIC_STARTUP (Z.shiftr addr 12))).

Definition lapic_ipi (vector : Z) : M mps unit :=
  lapicw APIC_ICRLO (Z.lor APIC_OTHERS vector);; lapic_delivered.

(** ** kern/init.c *)

Section init.
(** Symbols of the linker, the addresses of cpus[] and of percpu_kstacks, and
    the bytes of kern/mpentry.S. *)
Context (kedata kend bootstack cpus_addr percpu_kstacks : Z) (mpentry : list Z).

(** What an AP does up to telling boot_aps that it is up. *)
Definition mp_setup : M mps unit :=
  kp ← mgets (λ s, k_kern_pgdir (m_k s));
  kern (pa ← PADDR kp; lcr3 pa);;
  c ← mgets (λ s, k_cpunum (m_k s));
  kern (KState.cprintf (line "SMP: CPU %d starting") [AInt (Z.of_nat c)]);;
  lapic_init;;
  kern env_init_percpu;;
  kern (trap_init_percpu cpus_addr percpu_kstacks);;
  kern (cpu_upd (set_cpu_status CPU_STARTED)).

Definition mp_main {A} : M mps A := mp_setup;; kern lock_kernel;; kern sched_yield.

(** The AP [c] runs mp_setup while the boot CPU waits for it; then it spins in
    lock_kernel. *)
Definition run_ap (c : nat) : M mps unit :=
  s ← mget;
  mmod (λ s, mw_k (with_cpunum c (m_k s)) s);;
  mp_setup;;
  mmod (λ s', mw_k (with_cr3 (k_cr3 (m_k s)) (with_cpunum (k_cpunum (m_k s)) (m_k s'))) s').

Definition boot_ap (code : Z) (c : nat) : M mps unit :=
  n ← mgets (λ s, k_cpunum (m_k s));
  if (c =? n)%nat then mret tt else
  mmod (mw_kstack (u32 (percpu_kstacks + KSTKSIZE * Z.of_nat c + KSTKSIZE)));;
  s ← mget; i ← mderef (k_cpus (m_k s) !! c);
  pa ← kern (PADDR code);
  lapic_startap (cpu_id i) pa;;
  run_ap c;;
  s ← mget; i ← mderef (k_cpus (m_k s) !! c);
  if cpu_status i =? CPU_STARTED then mret tt else mleave Spinning.

Definition boot_aps : M mps unit :=
  code ← kern (KADDR MPENTRY_PADDR);
  kern (s ← mget; a ← mderef (kphys code (Z.of_nat (length mpentry)));
        mput (with_mem (foldl (λ m '(i, b), wr8 m (a + Z.of_nat i) b) (k_mem s) (imap (λ i b, (i, b)) mpentry)) s));;
  n ← mgets m_ncpu;
  mfor (seq 0 n) (boot_ap code).

(** [idt] is the table that trap_init fills, [fs] and [prog] are the addresses
    of the two programs that the kernel starts with. *)
Definition i386_init {A} (cr0 fs prog : Z) (entry : handler → Z) (idt : list Gatedesc) : M mps A :=
  kern (kmemset kedata 0 (kend - kedata));;
  kern (lift_cons cons_init);;
  kern (KState.cprintf (line "6828 decimal is %o octal!") [AInt 6828]);;
  kern (mem_init kend bootstack percpu_kstacks cr0);;
  kern env_init;;
  kern (trap_init cpus_addr percpu_kstacks entry idt);;
  mp_init;;
  lapic_init;;
  kern (lift_cons pic_init);;
  kern lock_kernel;;
  boot_aps;;
  kern (env_create fs ENV_TYPE_FS);;
  kern (env_create prog ENV_TYPE_USER);;
  kern (lift_cons kbd_intr);;
  kern sched_yield.
End init.

(* ------------------------------------------------------------------ *)
(** ** The table is read as it is written *)

(** The entries of a configuration table [MP 4.3]. *)
Inductive mpentry := EProc (apicid version flags : Z) (rest : list Z) | EOther (type : Z) (rest : list Z).
Definition entry_ok (e : mpentry) : Prop :=
  match e with
  | EProc _ _ _ rest => length rest = 16%nat
  | EOther ty rest => 1 ≤ ty ≤ 4 ∧ length rest = 7%nat
  end.
Definition entry_bytes (e : mpentry) : list Z :=
  match e with EProc a v f rest => 0 :: a :: v :: f :: rest | EOther ty rest => ty :: rest end.
Definition is_proc (e : mpentry) : bool := match e with EProc _ _ _ _ => true | EOther _ _ => false end.
Fixpoint procs (es : list mpentry) : nat :=
  match es with [] => O | e :: es => if is_proc e then S (procs es) else procs es end.

(** The number of CPUs, and the boot CPU, after the entries [es]. *)
Fixpoint mp_cpus (es : list mpentry) (n b : nat) : nat * nat :=
  match es with
  | [] => (n, b)
  | EProc _ _ f _ :: es => mp_cpus es (if (n <? Z.to_nat NCPU)%nat then S n else n) (if tst f MPPROC_BOOT then n else b)
  | EOther _ _ :: es => mp_cpus es n b
  end.

(** The bytes [l] at the kernel address of [pa]. *)
Definition bytes_at (k : kst) (pa : Z) (l : list Z) : Prop :=
  0 ≤ pa ∧ pa + Z.of_nat (length l) ≤ 268435456 ∧ ∀ i b, l !! i = Some b → rd8 (k_mem k) (pa + Z.of_nat i) = b.

Lemma bytes_at_app k pa l1 l2 : bytes_at k pa (l1 ++ l2) → bytes_at k pa l1 ∧ bytes_at k (pa + Z.of_nat (length l1)) l2.
Proof.
  intros (H1 & H2 & H3). rewrite length_app in H2. split; (split_and!; [lia|lia|]).
  - intros i b Hi. apply H3. by apply lookup_app_l_Some.
  - intros i b Hi. rewrite <- (H3 (length l1 + i)%nat b); [f_equal; lia|]. rewrite lookup_app_r by lia. rewrite <- Hi. f_equal. lia.
Qed.

Lemma kbyte_run k pa l i b : bytes_at k pa l → l !! i = Some b → kbyte (pa + KERNBASE + Z.of_nat i) k = Ok b k.
Proof.
  intros (H1 & H2 & H3) Hi. unfold kbyte. mrun. pose proof (lookup_lt_Some _ _ _ Hi).
  replace (pa + KERNBASE + Z.of_nat i) with (pa + Z.of_nat i + KERNBASE) by lia.
  rewrite kphys_direct by lia. unfold mbind, M_bind, mderef, mret, M_ret. by rewrite (H3 i b).
Qed.

Lemma kern_run {A} (m : K A) s a k : m (m_k s) = Ok a k → kern m s = Ok a (mw_k k s).
Proof. unfold kern. by intros ->. Qed.

Lemma kern_read {A} (m : K A) s a : m (m_k s) = Ok a (m_k s) → kern m s = Ok a s.
Proof. unfold kern. intros ->. by destruct s. Qed.

(** cpus[] after the entries: the new CPUs have their index as id. *)
Definition ids_from (n n' : nat) (cs cs' : list CpuInfo) : Prop :=
  length cs' = length cs ∧ ∀ i c, cs !! i = Some c →
    cs' !! i = Some (if bool_decide (n ≤ i < n')%nat then set_cpu_id (Z.of_nat i) c else c).

(** What the loop changes. *)
Record entries_done (s s' : mps) (n' b' : nat) : Prop := {
  ed_ncpu : m_ncpu s' = n';
  ed_boot : m_bootcpu s' = b';
  ed_ismp : m_ismp s' = m_ismp s;
  ed_addr : m_lapicaddr s' = m_lapicaddr s;
  ed_mem : k_mem (m_k s') = k_mem (m_k s);
  ed_cpus : ids_from (m_ncpu s) n' (k_cpus (m_k s)) (k_cpus (m_k s')) }.

Lemma mp_cpus_le es n b : (n ≤ 8)%nat → (n ≤ fst (mp_cpus es n b) ≤ 8)%nat.
Proof.
  revert n b. induction es as [|[a v f r|ty r] es IH]; intros n b Hn; cbn [mp_cpus fst]; [lia| |by apply IH].
  destruct (Nat.ltb_spec n (Z.to_nat NCPU)); [|by apply IH].
  specialize (IH (S n) (if tst f MPPROC_BOOT then n else b) ltac:(lia)). lia.
Qed.

Lemma ids_from_step n n' cs cs' c : (S n ≤ n')%nat → cs !! n = Some c →
  ids_from (S n) n' (<[n := set_cpu_id (Z.of_nat n) c]> cs) cs' → ids_from n n' cs cs'.
Proof.
  intros Hn Hc [L H]. split; [by rewrite L, length_insert|]. intros i d Hd.
  destruct (decide (i = n)) as [->|Hne].
  - rewrite Hc in Hd. injection Hd as <-. specialize (H n _ (list_lookup_insert_eq _ _ _ (lookup_lt_Some _ _ _ Hc))).
    rewrite H. by rewrite (bool_decide_eq_false_2 (S n ≤ n < n')%nat), (bool_decide_eq_true_2 (n ≤ n < n')%nat) by lia.
  - specialize (H i d). rewrite list_lookup_insert_ne in H by done. rewrite (H Hd). f_equal.
    by rewrite (bool_decide_ext (S n ≤ i < n')%nat (n ≤ i < n')%nat) by lia.
Qed.

Lemma mp_proc_run s pa a v f r : bytes_at (m_k s) pa (entry_bytes (EProc a v f r)) →
  length (k_cpus (m_k s)) = 8%nat → (m_ncpu s ≤ 8)%nat →
  ∃ s', mp_proc (pa + KERNBASE) s = Ok tt s' ∧
    entries_done s s' (if (m_ncpu s <? Z.to_nat NCPU)%nat then S (m_ncpu s) else m_ncpu s)
      (if tst f MPPROC_BOOT then m_ncpu s else m_bootcpu s).
Proof.
  intros Hb Hl Hn. unfold mp_proc.
  rewrite (bind_Ok _ _ _ _ _ (kern_read _ s _ (kbyte_run _ _ _ 3 f Hb eq_refl))). mrun.
  assert (Hs1 : ∃ s2, mwhen (tst f MPPROC_BOOT) (mmod (λ s, mw_cpus (m_ismp s) (m_ncpu s) (m_ncpu s) s)) s = Ok tt s2 ∧
    m_k s2 = m_k s ∧ m_ncpu s2 = m_ncpu s ∧ m_ismp s2 = m_ismp s ∧ m_lapicaddr s2 = m_lapicaddr s ∧
    m_bootcpu s2 = if tst f MPPROC_BOOT then m_ncpu s else m_bootcpu s).
  { destruct (tst f MPPROC_BOOT); eexists; split_and!; done. }
  destruct Hs1 as (s2 & H2 & Ek & En & Ei & El & Eb). rewrite (bind_Ok _ _ _ _ _ H2).
  destruct (Nat.ltb_spec (m_ncpu s) (Z.to_nat NCPU)) as [Hlt|Hge].
  - destruct (lookup_lt_is_Some_2 (k_cpus (m_k s)) (m_ncpu s)) as [c Hc]; [lia|].
    assert (Hu : cpus_upd (m_ncpu s) (set_cpu_id (Z.of_nat (m_ncpu s))) (m_k s2) =
      Ok tt (with_cpus (<[m_ncpu s := set_cpu_id (Z.of_nat (m_ncpu s)) c]> (k_cpus (m_k s))) (m_k s))).
    { unfold cpus_upd. mrun. by rewrite Ek, Hc. }
    rewrite (bind_Ok _ _ _ _ _ (kern_run _ s2 _ _ Hu)). eexists. split; [reflexivity|]. constructor; cbn; try done.
    + by rewrite En.
    + apply (ids_from_step _ _ _ _ c); [done|done|]. split; [done|]. intros i d ->.
      by rewrite bool_decide_eq_false_2 by lia.
  - rewrite <- Ek in Hb. rewrite (bind_Ok _ _ _ _ _ (kern_read _ s2 _ (kbyte_run _ _ _ 1 a Hb eq_refl))).
    eexists. split; [reflexivity|]. constructor; cbn; try done; rewrite Ek; [done|]. split; [done|]. intros i d ->.
    by rewrite bool_decide_eq_false_2 by lia.
Qed.

Lemma entries_trans s s1 s2 n1 b1 n2 b2 : (m_ncpu s ≤ n1)%nat → (n1 ≤ n2)%nat →
  entries_done s s1 n1 b1 → entries_done s1 s2 n2 b2 → entries_done s s2 n2 b2.
Proof.
  intros H1 H2 [A1 A2 A3 A4 A5 [A6 A7]] [B1 B2 B3 B4 B5 [B6 B7]]. constructor; try congruence.
  split; [by rewrite B6|]. intros i c Hc. rewrite (B7 _ _ (A7 _ _ Hc)). f_equal. rewrite A1.
  repeat case_bool_decide; try lia; try done.
Qed.

Lemma entry_length e : entry_ok e → Z.of_nat (length (entry_bytes e)) = if is_proc e then 20 else 8.
Proof. destruct e; cbn; lia. Qed.

Lemma mp_entries_run es : ∀ s pa, Forall entry_ok es → bytes_at (m_k s) pa (mjoin (entry_bytes <$> es)) →
  length (k_cpus (m_k s)) = 8%nat → (m_ncpu s ≤ 8)%nat →
  ∃ s', mp_entries (length es) (pa + KERNBASE) s = Ok tt s' ∧
    entries_done s s' (fst (mp_cpus es (m_ncpu s) (m_bootcpu s))) (snd (mp_cpus es (m_ncpu s) (m_bootcpu s))).
Proof.
  induction es as [|e es IH]; intros s pa He Hb Hl Hn; cbn [length mp_entries].
  - exists s. split; [done|]. constructor; try done. split; [done|]. intros i c ->. by rewrite bool_decide_eq_false_2 by (cbn; lia).
  - apply Forall_cons in He as [He Hes]. apply bytes_at_app in Hb as [Hb1 Hb2]. rewrite entry_length in Hb2 by done.
    destruct e as [a v f r|ty r].
    + pose proof (kbyte_run _ _ _ 0 0 Hb1 eq_refl) as H0. rewrite Z.add_0_r in H0.
      rewrite (bind_Ok _ _ _ _ _ (kern_read _ s _ H0)). cbn [Z.eqb].
      destruct (mp_proc_run s pa a v f r Hb1 Hl Hn) as (s1 & H1 & D1). rewrite (bind_Ok _ _ _ _ _ H1).
      replace (pa + KERNBASE + 20) with (pa + 20 + KERNBASE) by lia.
      destruct (IH s1 (pa + 20)) as (s2 & H2 & D2); [done| | | |].
      * cbn in Hb2. destruct Hb2 as (? & ? & Hr). split_and!; [done|done|]. rewrite (ed_mem _ _ _ _ D1). exact Hr.
      * by rewrite (proj1 (ed_cpus _ _ _ _ D1)).
      * rewrite (ed_ncpu _ _ _ _ D1). destruct (Nat.ltb_spec (m_ncpu s) (Z.to_nat NCPU)); lia.
      * exists s2. split; [done|]. rewrite (ed_ncpu _ _ _ _ D1), (ed_boot _ _ _ _ D1) in D2.
        assert (Hn1 : (m_ncpu s ≤ (if (m_ncpu s <? Z.to_nat NCPU)%nat then S (m_ncpu s) else m_ncpu s) ≤ 8)%nat)
          by (destruct (Nat.ltb_spec (m_ncpu s) (Z.to_nat NCPU)); lia).
        cbn [mp_cpus]. eapply (entries_trans s s1 s2); [exact (proj1 Hn1)| |exact D1|].
        -- exact (proj1 (mp_cpus_le es _ _ (proj2 Hn1))).
        -- exact D2.
    + destruct He as [Hty _]. pose proof (kbyte_run _ _ _ 0 ty Hb1 eq_refl) as H0. rewrite Z.add_0_r in H0.
      rewrite (bind_Ok _ _ _ _ _ (kern_read _ s _ H0)).
      rewrite (proj2 (Z.eqb_neq ty 0)), (proj2 (Z.leb_le 1 ty)), (proj2 (Z.leb_le ty 4)) by lia. cbn [andb].
      replace (pa + KERNBASE + 8) with (pa + 8 + KERNBASE) by lia.
      by apply IH.
Qed.

(** Up to NCPU processors are all counted, and the boot CPU is one of them. *)
Lemma mp_cpus_all es : ∀ n b, (n + procs es ≤ 8)%nat →
  fst (mp_cpus es n b) = (n + procs es)%nat ∧ (snd (mp_cpus es n b) = b ∨ (n ≤ snd (mp_cpus es n b) < n + procs es)%nat).
Proof.
  induction es as [|[a v f r|ty r] es IH]; intros n b Hn; cbn [procs is_proc mp_cpus fst snd] in *; [lia| |by apply IH].
  destruct (Nat.ltb_spec n (Z.to_nat NCPU)) as [_|]; [|lia].
  destruct (IH (S n) (if tst f MPPROC_BOOT then n else b) ltac:(lia)) as [-> H2]. split; [lia|].
  destruct (tst f MPPROC_BOOT); lia.
Qed.

(** Computations that, when they return, have only read. *)
Definition Reads {A} (m : K A) : Prop := ∀ k a k', m k = Ok a k' → k' = k.

Create HintDb reads discriminated.
#[export] Hint Constants Opaque : reads.

Lemma reads_ret {A} (a : A) : Reads (mret a).
Proof. intros k ? k' H. by injection H as _ <-. Qed.
#[export] Hint Resolve reads_ret : reads.
Lemma reads_bind {A B} (m : K A) (f : A → K B) : Reads m → (∀ a, Reads (f a)) → Reads (m ≫= f).
Proof. intros Hm Hf k b k' (a & k1 & H1 & H2)%bind_Ok_inv. apply Hm in H1 as ->. exact (Hf _ _ _ _ H2). Qed.
#[export] Hint Resolve reads_bind : reads.
Lemma reads_if {A} (b : bool) (m1 m2 : K A) : Reads m1 → Reads m2 → Reads (if b then m1 else m2).
Proof. by destruct b. Qed.
#[export] Hint Resolve reads_if : reads.
Lemma reads_get : Reads mget.
Proof. intros k ? k' H. by injection H as _ <-. Qed.
#[export] Hint Resolve reads_get : reads.
Lemma reads_gets {A} (f : kst → A) : Reads (mgets f).
Proof. intros k ? k' H. by injection H as _ <-. Qed.
#[export] Hint Resolve reads_gets : reads.
Lemma reads_deref {A} (o : option A) : Reads (mderef o).
Proof. destruct o; intros k ? k' H; [by injection H as _ <-|done]. Qed.
#[export] Hint Resolve reads_deref : reads.
Lemma reads_leave {A} x : Reads (mleave x : K A).
Proof. by intros k ? k' H. Qed.
#[export] Hint Resolve reads_leave : reads.
Lemma reads_panic {A} msg : Reads (mpanic msg : K A).
Proof. by intros k ? k' H. Qed.
#[export] Hint Resolve reads_panic : reads.
Lemma reads_kbyte a : Reads (kbyte a).
Proof. unfold kbyte. eauto 40 with reads. Qed.
#[export] Hint Resolve reads_kbyte : reads.
Lemma reads_kload a : Reads (kload a).
Proof. unfold kload. eauto 40 with reads. Qed.
#[export] Hint Resolve reads_kload : reads.
Lemma reads_kload16 a : Reads (kload16 a).
Proof. unfold kload16. eauto 40 with reads. Qed.
#[export] Hint Resolve reads_kload16 : reads.
Lemma reads_KADDR a : Reads (KADDR a).
Proof. unfold KADDR. eauto 40 with reads. Qed.
#[export] Hint Resolve reads_KADDR : reads.
Lemma reads_kbytes n a : Reads (kbytes n a).
Proof. revert a. induction n; intros a; cbn [kbytes]; eauto 40 with reads. Qed.
#[export] Hint Resolve reads_kbytes : reads.
Lemma reads_sum a n : Reads (sum a n).
Proof. unfold sum. eauto 40 with reads. Qed.
#[export] Hint Resolve reads_sum : reads.
Lemma reads_mpsearch_from fuel p e : Reads (mpsearch_from fuel p e).
Proof. revert p. induction fuel; intros p; cbn [mpsearch_from]; eauto 40 with reads. Qed.
#[export] Hint Resolve reads_mpsearch_from : reads.
Lemma reads_mpsearch1 a n : Reads (mpsearch1 a n).
Proof. unfold mpsearch1. eauto 40 with reads. Qed.
#[export] Hint Resolve reads_mpsearch1 : reads.
Lemma reads_mpsearch : Reads mpsearch.
Proof. unfold mpsearch. eauto 40 with reads. Qed.
#[export] Hint Resolve reads_mpsearch : reads.

Lemma bind_reads_inv {A B} (m : K A) (f : A → K B) k b k' :
  (m ≫= f) k = Ok b k' → Reads m → ∃ a, m k = Ok a k ∧ f a k = Ok b k'.
Proof. intros (a & k1 & H1 & H2)%bind_Ok_inv Hm. pose proof (Hm _ _ _ H1). subst. eauto. Qed.
Tactic Notation "read_step" hyp(H) ident(x) ident(Hx) :=
  apply bind_reads_inv in H as (x & Hx & H); [|solve [eauto 40 with reads]].

Lemma mpsearch_from_found fuel : ∀ p e k mp, mpsearch_from fuel p e k = Ok mp k → mp ≠ NULL → sum mp 16 k = Ok 0 k.
Proof.
  induction fuel as [|fuel IH]; intros p e k mp H Hn; cbn [mpsearch_from] in H; destruct (p <? e) eqn:?;
    try (by injection H as <-); [done|].
  read_step H sig H1. read_step H c H2. destruct (Z.eqb_spec c 0) as [->|]; [|by eapply IH].
  injection H as <-. by case_bool_decide.
Qed.

Lemma mpsearch1_found a n k mp : mpsearch1 a n k = Ok mp k → mp ≠ NULL → sum mp 16 k = Ok 0 k.
Proof. intros H. unfold mpsearch1 in H. read_step H x H1. read_step H y H2. by eapply mpsearch_from_found. Qed.

(** The floating pointer that is found has a right checksum. *)
Lemma mpsearch_found k mp : mpsearch k = Ok mp k → mp ≠ NULL → sum mp 16 k = Ok 0 k.
Proof.
  intros H Hn. unfold mpsearch in H. read_step H bda H1. read_step H p H2. read_step H mp' H3.
  destruct (Z.eqb_spec mp' NULL) as [->|Hm]; cbn [negb] in H; [by eapply mpsearch1_found|]. injection H as <-.
  destruct (negb (p =? 0)); [by eapply mpsearch1_found|]. read_step H3 q H4. by eapply mpsearch1_found.
Qed.

(** What mpconfig has checked of a table it returns. *)
Record mpconfig_ok (k : kst) (conf mp : Z) : Prop := {
  mc_mp : sum mp 16 k = Ok 0 k;
  mc_sig : kbytes 4 conf k = Ok (zs "PCMP") k;
  mc_sum : ∃ length, kload16 (conf + 4) k = Ok length k ∧ sum conf length k = Ok 0 k;
  mc_version : kbyte (conf + 6) k = Ok 1 k ∨ kbyte (conf + 6) k = Ok 4 k }.

Lemma mpconfig_found k conf mp k' : mpconfig k = Ok (conf, mp) k' → conf ≠ NULL → k' = k ∧ mpconfig_ok k conf mp.
Proof.
  intros H Hn. unfold mpconfig in H. read_step H p Hp.
  destruct (Z.eqb_spec p NULL) as [|Hp0]; [by injection H as <-|].
  read_step H physaddr H1. read_step H type H2.
  destruct (_ || _); [by injection H as <-|]. read_step H conf' H3. read_step H sig H4.
  case_bool_decide as Hs; cbn [negb] in H; [|by injection H as <-].
  read_step H len H5. read_step H c H6. destruct (Z.eqb_spec c 0) as [->|]; cbn [negb] in H; [|by injection H as <-].
  read_step H v H7. destruct (Z.eqb_spec v 1) as [Hv|]; [|destruct (Z.eqb_spec v 4) as [Hv|]]; cbn [negb andb] in H;
    try (by injection H as <-);
    read_step H xl H8; read_step H xc H9; read_step H c H10;
    (destruct (negb (Z.land (c + xc) 255 =? 0)); [by injection H as <-|]); injection H as <- <- <-;
    (split; [done|]; constructor; [by apply mpsearch_found|by rewrite <- Hs|by exists len|]); subst v; auto.
Qed.

Lemma kbytes_nth n : ∀ a k l i, kbytes n a k = Ok l k → (i < n)%nat → ∃ b, kbyte (a + Z.of_nat i) k = Ok b k.
Proof.
  induction n as [|n IH]; intros a k l i H Hi; [lia|]. cbn [kbytes] in H. read_step H b H1. read_step H l' H2.
  destruct i as [|i]; [rewrite Z.add_0_r; by exists b|].
  destruct (IH _ _ _ i H2) as [c Hc]; [lia|]. exists c. rewrite <- Hc. f_equal. lia.
Qed.

Lemma sum_byte a n k c i : sum a n k = Ok c k → 0 ≤ i < n → ∃ b, kbyte (a + i) k = Ok b k.
Proof.
  intros H Hi. unfold sum in H. read_step H l Hl.
  destruct (kbytes_nth _ _ _ _ (Z.to_nat i) Hl) as [b Hb]; [lia|]. exists b. by rewrite Z2Nat.id in Hb by lia.
Qed.

Lemma kbyte_mem a k k' b : kbyte a k = Ok b k → k_mem k' = k_mem k → kbyte a k' = Ok b k'.
Proof.
  unfold kbyte. mrun. unfold mderef, mbind, M_bind, mret, M_ret, mundef. destruct (kphys a 1); [|done].
  intros [= <-] ->. done.
Qed.

Lemma imcr_run c : ∃ c', (outb 34 112;; v ← inb 35; outb 35 (Z.lor v 1)) c = Ok tt c'.
Proof.
  unfold mbind, M_bind, outb, inb. cbn [set_io c_in]. destruct (c_in c); eexists; reflexivity.
Qed.

(** The report of mp_init changes the log and the console only. *)
Definition reported (s s' : mps) : Prop :=
  k_cpus (m_k s') = k_cpus (m_k s) ∧ k_mem (m_k s') = k_mem (m_k s) ∧
  (m_ismp s', m_ncpu s', m_bootcpu s', m_lapicaddr s') = (m_ismp s, m_ncpu s, m_bootcpu s, m_lapicaddr s).

Lemma mp_report_run s mp fmt ap : (∃ b, kbyte (mp + 12) (m_k s) = Ok b (m_k s)) → ∃ s',
  (kern (cprintf fmt ap);;
    imcrp ← kern (kbyte (mp + 12));
    mwhen (negb (imcrp =? 0))
      (kern (cprintf (line "SMP: Setting IMCR to switch from PIC mode to symmetric I/O mode") []);;
       kern (lift_cons (outb 34 112;; v ← inb 35; outb 35 (Z.lor v 1))))) s = Ok tt s' ∧ reported s s'.
Proof.
  intros [b Hb]. set (s1 := mw_k (with_log (EvCprintf (zs fmt) ap :: k_log (m_k s)) (m_k s)) s).
  assert (H1 : kern (cprintf fmt ap) s = Ok tt s1) by done. rewrite (bind_Ok _ _ _ _ _ H1).
  rewrite (bind_Ok _ _ _ _ _ (kern_read _ s1 _ (kbyte_mem _ (m_k s) (m_k s1) _ Hb eq_refl))).
  destruct (b =? 0); [by exists s1|]. unfold mwhen, negb.
  set (s2 := mw_k (with_log (EvCprintf (zs (line "SMP: Setting IMCR to switch from PIC mode to symmetric I/O mode")) []
    :: k_log (m_k s1)) (m_k s1)) s1).
  rewrite (bind_Ok _ _ s1 tt s2) by done.
  destruct (imcr_run (k_cons (m_k s2))) as [c' Hc]. exists (mw_k (with_cons c' (m_k s2)) s2).
  split; [|done]. apply kern_run. unfold lift_cons. by rewrite Hc.
Qed.

Lemma mp_finish_run s mp c : (∃ b, kbyte (mp + 12) (m_k s) = Ok b (m_k s)) → m_ismp s = true →
  k_cpus (m_k s) !! m_bootcpu s = Some c →
  ∃ s', mp_finish mp s = Ok tt s' ∧
    reported (mw_k (with_cpus (<[m_bootcpu s := set_cpu_status CPU_STARTED c]> (k_cpus (m_k s))) (m_k s)) s) s'.
Proof.
  intros [v Hv] Hs Hc. unfold mp_finish. rewrite bind_gets.
  set (k1 := with_cpus (<[m_bootcpu s := set_cpu_status CPU_STARTED c]> (k_cpus (m_k s))) (m_k s)).
  assert (H1 : cpus_upd (m_bootcpu s) (set_cpu_status CPU_STARTED) (m_k s) = Ok tt k1).
  { unfold cpus_upd. mrun. by rewrite Hc. }
  rewrite (bind_Ok _ _ _ _ _ (kern_run _ s _ _ H1)), bind_gets. cbn [mw_k m_ismp]. rewrite Hs. cbn [negb].
  rewrite bind_get. cbn [m_k mw_k].
  assert (E : k_cpus k1 !! m_bootcpu s = Some (set_cpu_status CPU_STARTED c)).
  { apply list_lookup_insert_eq. by eapply lookup_lt_Some. }
  rewrite E. unfold mderef at 1. rewrite bind_ret. apply mp_report_run. exists v. by apply (kbyte_mem _ (m_k s)).
Qed.

(** The result of the loop is what the table's entries say. *)
Lemma mp_init_loop s pa mp es :
  mpconfig (m_k s) = Ok (pa + KERNBASE, mp) (m_k s) → 0 ≤ pa → Forall entry_ok es →
  rd16 (k_mem (m_k s)) (pa + 34) = Z.of_nat (length es) →
  bytes_at (m_k s) (pa + 44) (mjoin (entry_bytes <$> es)) →
  length (k_cpus (m_k s)) = 8%nat → m_ncpu s = O →
  ∃ s', mp_init s = mp_finish mp s' ∧
    entries_done (mw_lapicaddr (rd32 (k_mem (m_k s)) (pa + 36)) (mw_cpus true (m_ncpu s) 0 s)) s'
      (fst (mp_cpus es 0 0)) (snd (mp_cpus es 0 0)).
Proof.
  intros Hc Hpa Hes Hn Hb Hl H0. pose proof Hb as (_ & Hhi & _).
  unfold mp_init. rewrite bind_mod. set (s1 := mw_cpus (m_ismp s) (m_ncpu s) 0 s).
  rewrite (bind_Ok _ _ _ _ _ (kern_read _ s1 _ Hc)). cbn beta iota.
  rewrite (proj2 (Z.eqb_neq (pa + KERNBASE) NULL)) by lia. rewrite bind_mod.
  set (s2 := mw_cpus true (m_ncpu s1) (m_bootcpu s1) s1).
  assert (Ha : kload (pa + KERNBASE + 36) (m_k s) = Ok (rd32 (k_mem (m_k s)) (pa + 36)) (m_k s)).
  { unfold kload. mrun. replace (pa + KERNBASE + 36) with (pa + 36 + KERNBASE) by lia. by rewrite kphys_direct by lia. }
  rewrite (bind_Ok _ _ _ _ _ (kern_read _ s2 _ Ha)), bind_mod.
  set (s3 := mw_lapicaddr (rd32 (k_mem (m_k s)) (pa + 36)) s2).
  assert (H16 : kload16 (pa + KERNBASE + 34) (m_k s) = Ok (Z.of_nat (length es)) (m_k s)).
  { unfold kload16. mrun. replace (pa + KERNBASE + 34) with (pa + 34 + KERNBASE) by lia.
    rewrite kphys_direct by lia. by rewrite <- Hn. }
  rewrite (bind_Ok _ _ _ _ _ (kern_read _ s3 _ H16)), Nat2Z.id.
  replace (pa + KERNBASE + 44) with (pa + 44 + KERNBASE) by lia.
  destruct (mp_entries_run es s3 (pa + 44)) as (s4 & H4 & D); [done|exact Hb|exact Hl|cbn; lia|].
  rewrite (bind_Ok _ _ _ _ _ H4). exists s4. split; [done|]. change (m_ncpu s3) with (m_ncpu s) in D. by rewrite H0 in D.
Qed.


(** A floating pointer at the start of the extended BIOS data area, and
    after it a table of two processors, the second the boot CPU, and a bus. *)
Definition demo_procs : list mpentry :=
  [EProc 0 20 1 (replicate 16 0); EOther 1 (replicate 7 0); EProc 1 20 3 (replicate 16 0)].
Definition demo_mp_bytes : list Z :=
  zs "_MP_" ++ [16; 252; 9; 0] ++ [1; 4; 139; 0; 0; 0; 0; 0] ++
  zs "PCMP" ++ [92; 0; 4; 97] ++ replicate 26 0 ++ [3; 0] ++ [0; 0; 224; 254] ++ [0; 0; 0; 0] ++
  mjoin (entry_bytes <$> demo_procs).
Definition demo_mp_mem : mem := λ a,
  if a =? 1038 then 192 else if a =? 1039 then 159
  else if a <? 654336 then 0 else default 0 (demo_mp_bytes !! Z.to_nat (a - 654336)).
Definition demo_smp : mps :=
  mkMps (with_cpus (replicate 8 (mkCpu 0 0 None (mkTs 0 0 0))) (with_mem demo_mp_mem (demo_kernel 256 160 1048576)))
    false 0 0 0 0 0 [] [].

Lemma mpconfig_result k conf mp : conf ≠ NULL →
  match mpconfig k with Ok r _ => r = (conf, mp) | _ => False end → mpconfig k = Ok (conf, mp) k.
Proof.
  intros Hn. destruct (mpconfig k) as [r k'| | |] eqn:E; try done. intros ->.
  by destruct (mpconfig_found _ _ _ _ E Hn) as [-> _].
Qed.

Lemma demo_mpconfig : mpconfig (m_k demo_smp) = Ok (654352 + KERNBASE, 654336 + KERNBASE) (m_k demo_smp).
Proof.
  apply mpconfig_result; [discriminate|].
  vm_cast_no_check (eq_refl (654352 + KERNBASE, 654336 + KERNBASE)).
Qed.

