(* ===== verification/Ide.v ===== *)
(** The disk driver of the file server, fs/ide.c, and the state of the server.

    The controller is hardware: it enters as the class [IdeDevice] (what the
    port instructions of inc/x86.h do to it), and what the driver relies on
    as the class [IdeLaws], which relates it to the registers, the transfer
    state and the sectors of an ATA drive in PIO mode. *)

From S2P Require Import Prelude Mmu Printfmt KState.
From Stdlib Require Import ZArith Lia String.
From stdpp Require Import base tactics numbers list.
Open Scope Z_scope.

Abbreviation SECTSIZE := 512 (only parsing).
Abbreviation BLKSIZE := 4096 (only parsing).
Abbreviation BLKSECTS := 8 (only parsing).

Abbreviation IDE_BSY := 128 (only parsing).
Abbreviation IDE_DRDY := 64 (only parsing).
Abbreviation IDE_DF := 32 (only parsing).
Abbreviation IDE_ERR := 1 (only parsing).

(** [dev_insl] and [dev_outsl] transfer the 128 words of one sector, here its
    512 bytes.  [dev_polls] is how many times a wait loop reads the status
    before it is taken to spin for ever. *)
Class IdeDevice := {
  dev : Type;
  dev_inb : Z → dev → Z * dev;
  dev_outb : Z → Z → dev → dev;
  dev_insl : dev → list Z * dev;
  dev_outsl : list Z → dev → dev;
  dev_polls : nat }.

(** Bytes of memory as lists. *)
Fixpoint rd_bytes (m : mem) (a : Z) (n : nat) : list Z :=
  match n with O => [] | S n => rd8 m a :: rd_bytes m (a + 1) n end.
Fixpoint wr_bytes (m : mem) (a : Z) (bs : list Z) : mem :=
  match bs with [] => m | b :: bs => wr_bytes (wr8 m a b) (a + 1) bs end.

Section driver.
Context `{IdeDevice}.

(** The server's address space ([f_mem], with the flags of its page
    directory and page table entries, by PDX and by PGNUM), the physical
    pages the kernel can still give it, the controller, the variables
    [diskno] of fs/ide.c and [super], [bitmap] of fs/fs.h (whether they are
    set; they are set to blocks 1 and 2), and what it has printed. *)
Record fss := mkF {
  f_mem : mem; f_pde : Z → Z; f_pte : Z → Z; f_avail : Z;
  f_dev : dev; f_diskno : Z; f_super : bool; f_bitmap : bool;
  f_log : list (string * list arg) }.

Definition fw_mem m s := mkF m (f_pde s) (f_pte s) (f_avail s) (f_dev s) (f_diskno s)
  (f_super s) (f_bitmap s) (f_log s).
Definition fw_pages d t n s := mkF (f_mem s) d t n (f_dev s) (f_diskno s)
  (f_super s) (f_bitmap s) (f_log s).
Definition fw_pte t s := fw_pages (f_pde s) t (f_avail s) s.
Definition fw_dev d s := mkF (f_mem s) (f_pde s) (f_pte s) (f_avail s) d (f_diskno s)
  (f_super s) (f_bitmap s) (f_log s).
Definition fw_diskno n s := mkF (f_mem s) (f_pde s) (f_pte s) (f_avail s) (f_dev s) n
  (f_super s) (f_bitmap s) (f_log s).
Definition fw_fs u b s := mkF (f_mem s) (f_pde s) (f_pte s) (f_avail s) (f_dev s) (f_diskno s)
  u b (f_log s).
Definition fw_log l s := mkF (f_mem s) (f_pde s) (f_pte s) (f_avail s) (f_dev s) (f_diskno s)
  (f_super s) (f_bitmap s) l.

Definition fprint (fmt : string) (ap : list arg) : M fss unit :=
  mmod (λ s, fw_log ((fmt, ap) :: f_log s) s).

Definition ide_inb (port : Z) : M fss Z :=
  λ s, let '(v, d) := dev_inb port (f_dev s) in Ok (u8 v) (fw_dev d s).
Definition ide_outb (port v : Z) : M fss unit :=
  mmod (λ s, fw_dev (dev_outb port (u8 v) (f_dev s)) s).

Definition pte_of (s : fss) (va : Z) : Z := f_pte s (PGNUM va).
Definition set_pte (va v : Z) (s : fss) : fss :=
  fw_pte (λ n, if n =? PGNUM va then v else f_pte s n) s.
(** A store marks the page dirty. *)
Definition mark_dirty (va : Z) (s : fss) : fss := set_pte va (Z.lor (pte_of s va) PTE_D) s.

(** One sector to or from [va]; the driver is only called with a buffer that
    is mapped. *)
Definition ide_insl (va : Z) : M fss unit := λ s,
  if tst (pte_of s va) PTE_P then
    let '(bs, d) := dev_insl (f_dev s) in
    Ok tt (mark_dirty va (fw_mem (wr_bytes (f_mem s) va bs) (fw_dev d s)))
  else Undef.
Definition ide_outsl (va : Z) : M fss unit := λ s,
  if tst (pte_of s va) PTE_P then
    Ok tt (fw_dev (dev_outsl (rd_bytes (f_mem s) va (Z.to_nat SECTSIZE)) (f_dev s)) s)
  else Undef.

Fixpoint ide_wait (n : nat) (check_error : bool) : M fss Z :=
  r ← ide_inb 503;
  if Z.land r (Z.lor IDE_BSY IDE_DRDY) =? IDE_DRDY then
    mret (if check_error && tst r (Z.lor IDE_DF IDE_ERR) then -1 else 0)
  else match n with
       | O => mleave Spinning
       | S n => ide_wait n check_error
       end.
Definition ide_wait_ready (check_error : bool) : M fss Z := ide_wait dev_polls check_error.

(** The search of ide_probe_disk1: the number of tries made. *)
Fixpoint ide_probe (n : nat) (x : Z) : M fss Z :=
  match n with
  | O => mret x
  | S n =>
      r ← ide_inb 503;
      if tst r (Z.lor (Z.lor IDE_BSY IDE_DF) IDE_ERR) then ide_probe n (x + 1) else mret x
  end.

Definition ide_probe_disk1 : M fss bool :=
  ide_wait_ready false;;
  ide_outb 502 (Z.lor 224 (Z.shiftl 1 4));;
  x ← ide_probe (Z.to_nat 1000) 0;
  ide_outb 502 (Z.lor 224 (Z.shiftl 0 4));;
  fprint (line "Device 1 presence: %d") [AInt (if x <? 1000 then 1 else 0)];;
  mret (x <? 1000).

Definition ide_set_disk (d : Z) : M fss unit :=
  if negb (d =? 0) && negb (d =? 1) then mpanic "bad disk number" else mmod (fw_diskno d).

(** The command block that ide_read and ide_write send. *)
Definition ide_command (secno nsecs cmd : Z) : M fss unit :=
  ide_outb 498 nsecs;;
  ide_outb 499 (Z.land secno 255);;
  ide_outb 500 (Z.land (Z.shiftr secno 8) 255);;
  ide_outb 501 (Z.land (Z.shiftr secno 16) 255);;
  d ← mgets f_diskno;
  ide_outb 502 (Z.lor (Z.lor 224 (Z.shiftl (Z.land d 1) 4)) (Z.land (Z.shiftr secno 24) 15));;
  ide_outb 503 cmd.

(** The loops over the sectors, with what transfers one. *)
Fixpoint ide_sectors (xfer : Z → M fss unit) (n : nat) (va : Z) : M fss Z :=
  match n with
  | O => mret 0
  | S n =>
      r ← ide_wait_ready true;
      if r <? 0 then mret r else xfer va;; ide_sectors xfer n (va + SECTSIZE)
  end.

Definition ide_read (secno dst nsecs : Z) : M fss Z :=
  massert (nsecs <=? 256) "assertion failed: nsecs <= 256";;
  ide_wait_ready false;;
  ide_command secno nsecs 32;;
  ide_sectors ide_insl (Z.to_nat nsecs) dst.

Definition ide_write (secno src nsecs : Z) : M fss Z :=
  massert (nsecs <=? 256) "assertion failed: nsecs <= 256";;
  ide_wait_ready false;;
  ide_command secno nsecs 48;;
  ide_sectors ide_outsl (Z.to_nat nsecs) src.

End driver.

(** ** The drive the driver relies on *)

(** What a drive is doing: [n] sectors from [lba] on still to be
    transferred. *)
Inductive ata_mode := AtaIdle | AtaRead (lba n : Z) | AtaWrite (lba n : Z).
Record ata := mkAta {
  a_count : Z; a_lba0 : Z; a_lba1 : Z; a_lba2 : Z; a_head : Z;
  a_mode : ata_mode; a_data : Z → Z → list Z }.

Definition ata_lba (a : ata) : Z :=
  a_lba0 a + 2 ^ 8 * a_lba1 a + 2 ^ 16 * a_lba2 a + 2 ^ 24 * (a_head a mod 2 ^ 4).
(** Bit 4 of the head register selects the drive. *)
Definition ata_drive (a : ata) : Z := if Z.testbit (a_head a) 4 then 1 else 0.

Definition ata_set_mode (m : ata_mode) (a : ata) : ata :=
  mkAta (a_count a) (a_lba0 a) (a_lba1 a) (a_lba2 a) (a_head a) m (a_data a).

Definition ata_out (port v : Z) (a : ata) : ata :=
  let 'mkAta c l0 l1 l2 h m d := a in
  if port =? 498 then mkAta v l0 l1 l2 h m d
  else if port =? 499 then mkAta c v l1 l2 h m d
  else if port =? 500 then mkAta c l0 v l2 h m d
  else if port =? 501 then mkAta c l0 l1 v h m d
  else if port =? 502 then mkAta c l0 l1 l2 v m d
  else if port =? 503 then
    if v =? 32 then ata_set_mode (AtaRead (ata_lba a) c) a
    else if v =? 48 then ata_set_mode (AtaWrite (ata_lba a) c) a
    else a
  else a.

Definition ata_in_sector (a : ata) : list Z * ata :=
  match a_mode a with
  | AtaRead lba n =>
      (a_data a (ata_drive a) lba,
       ata_set_mode (if n =? 1 then AtaIdle else AtaRead (lba + 1) (n - 1)) a)
  | _ => ([], a)
  end.

Definition ata_out_sector (bs : list Z) (a : ata) : ata :=
  match a_mode a with
  | AtaWrite lba n =>
      let d := ata_drive a in
      mkAta (a_count a) (a_lba0 a) (a_lba1 a) (a_lba2 a) (a_head a)
        (if n =? 1 then AtaIdle else AtaWrite (lba + 1) (n - 1))
        (λ d' l', if (d' =? d) && (l' =? lba) then bs else a_data a d' l')
  | _ => a
  end.

(** Within [n] more reads of the status register the drive is ready, and
    reports no error. *)
Fixpoint ready_in `{IdeDevice} (n : nat) (d : dev) : bool :=
  let '(v, d') := dev_inb 503 d in
  if Z.land (u8 v) (Z.lor IDE_BSY IDE_DRDY) =? IDE_DRDY
  then negb (tst (u8 v) (Z.lor IDE_DF IDE_ERR))
  else match n with O => false | S n => ready_in n d' end.

(** A working ATA drive: the register ports do what they should, reading the
    status does not disturb the transfer, and the drive becomes ready. *)
Definition sector_ok (bs : list Z) : Prop :=
  length bs = Z.to_nat SECTSIZE ∧ Forall (λ b, 0 ≤ b < 2 ^ 8) bs.

Class IdeLaws (D : IdeDevice) := {
  dev_ata : dev → ata;
  law_out port v d : 498 ≤ port ≤ 503 → dev_ata (dev_outb port v d) = ata_out port v (dev_ata d);
  law_in d : dev_ata (snd (dev_inb 503 d)) = dev_ata d;
  law_ready d : ready_in dev_polls d = true;
  law_insl d lba n : a_mode (dev_ata d) = AtaRead lba n →
    fst (dev_insl d) = fst (ata_in_sector (dev_ata d)) ∧
    dev_ata (snd (dev_insl d)) = snd (ata_in_sector (dev_ata d));
  law_outsl bs d : sector_ok bs → dev_ata (dev_outsl bs d) = ata_out_sector bs (dev_ata d);
  law_sector d drive lba : sector_ok (a_data (dev_ata d) drive lba) }.

(** The byte at offset [x] of the selected disk. *)
Definition disk_byte (data : Z → Z → list Z) (d x : Z) : Z :=
  nth (Z.to_nat (x mod SECTSIZE)) (data d (x / SECTSIZE)) 0.

(** A drive that is always ready. *)
Definition good_disk : Type := {a : ata | ∀ d l, sector_ok (a_data a d l)}.

#[global] Instance sector_ok_dec bs : Decision (sector_ok bs).
Proof. unfold sector_ok. apply _. Defined.

Definition good_out (port v : Z) (d : good_disk) : good_disk.
Proof.
  exists (ata_out port v (proj1_sig d)). destruct d as [[c l0 l1 l2 h m dt] Hd]. cbn in *.
  repeat case_match; exact Hd.
Defined.
Definition good_insl (d : good_disk) : list Z * good_disk.
Proof.
  split; [exact (fst (ata_in_sector (proj1_sig d)))|].
  exists (snd (ata_in_sector (proj1_sig d))). destruct d as [[c l0 l1 l2 h m dt] Hd].
  unfold ata_in_sector. cbn in *. destruct m; exact Hd.
Defined.
Definition good_outsl (bs : list Z) (d : good_disk) : good_disk.
Proof.
  destruct (decide (sector_ok bs)) as [Hb|]; [|exact d].
  exists (ata_out_sector bs (proj1_sig d)). destruct d as [[c l0 l1 l2 h m dt] Hd].
  unfold ata_out_sector. cbn in *. destruct m; [exact Hd..|]. cbn. intros d' l'.
  destruct (_ && _); [exact Hb|apply Hd].
Defined.

Definition good_device : IdeDevice := {|
  dev := good_disk;
  dev_inb _ d := (IDE_DRDY, d);
  dev_outb := good_out;
  dev_insl := good_insl;
  dev_outsl := good_outsl;
  dev_polls := 0 |}.

Lemma good_laws : IdeLaws good_device.
Proof.
  refine (Build_IdeLaws good_device (@proj1_sig _ _ : good_disk → ata) _ _ _ _ _ _); try done.
  - intros bs d Hb. cbn. unfold good_outsl. by destruct (decide (sector_ok bs)).
  - intros d. apply (proj2_sig d).
Defined.

(** ** Bytes *)

Lemma rd_bytes_length m a n : length (rd_bytes m a n) = n.
Proof. revert a. induction n; intros a; cbn; auto. Qed.

Lemma rd_bytes_ok m a n : Forall (λ b, 0 ≤ b < 2 ^ 8) (rd_bytes m a n).
Proof. revert a. induction n; intros a; constructor; [apply rd8_range|auto]. Qed.

Lemma rd_bytes_nth m a n i : (i < n)%nat → nth i (rd_bytes m a n) 0 = rd8 m (a + Z.of_nat i).
Proof.
  revert a i. induction n as [|n IH]; intros a [|i] Hi; cbn; try lia; [f_equal; lia|].
  rewrite IH by lia. f_equal. lia.
Qed.

Lemma rd8_wr_bytes m a bs x :
  Forall (λ b, 0 ≤ b < 2 ^ 8) bs →
  rd8 (wr_bytes m a bs) x =
    if (a <=? x) && (x <? a + Z.of_nat (length bs)) then nth (Z.to_nat (x - a)) bs 0 else rd8 m x.
Proof.
  intros Hb. revert m a. induction Hb as [|b bs Hb _ IH]; intros m a; cbn [wr_bytes length].
  - rewrite Z.add_0_r. destruct (Z.leb_spec a x), (Z.ltb_spec x a); cbn; done || lia.
  - rewrite IH, rd8_wr8.
    destruct (Z.leb_spec (a + 1) x), (Z.leb_spec a x),
      (Z.ltb_spec x (a + 1 + Z.of_nat (length bs))),
      (Z.ltb_spec x (a + Z.of_nat (S (length bs)))), (Z.eqb_spec x a); cbn [andb]; try lia; try done.
    + replace (Z.to_nat (x - a)) with (S (Z.to_nat (x - (a + 1)))) by lia. done.
    + replace (Z.to_nat (x - a)) with 0%nat by lia. by apply u8_small.
Qed.

(** ** The driver on a working drive *)

Section correct.
Context `{L : IdeLaws}.

Definition f_ata (s : fss) : ata := dev_ata (f_dev s).
Definition f_data (s : fss) (x : Z) : Z := disk_byte (a_data (f_ata s)) (f_diskno s) x.

Lemma ide_wait_ok n chk s :
  ready_in n (f_dev s) = true →
  ∃ d, ide_wait n chk s = Ok 0 (fw_dev d s) ∧ dev_ata d = f_ata s.
Proof.
  unfold f_ata. revert s. induction n as [|n IH]; intros s; cbn [ready_in ide_wait];
    unfold mbind, M_bind, ide_inb; pose proof (law_in (f_dev s)) as Hin;
    destruct (dev_inb 503 (f_dev s)) as [v d]; cbn in Hin |- *;
    destruct (Z.land _ _ =? _).
  - intros ->%negb_true_iff. rewrite andb_false_r. by exists d.
  - done.
  - intros ->%negb_true_iff. rewrite andb_false_r. by exists d.
  - intros (d' & -> & Hd)%(IH (fw_dev d s)). exists d'. split; [done|]. by rewrite Hd.
Qed.

Lemma ide_wait_ready_ok chk s :
  ∃ d, ide_wait_ready chk s = Ok 0 (fw_dev d s) ∧ dev_ata d = f_ata s.
Proof. apply ide_wait_ok, law_ready. Qed.

(** The command block selects the drive and the sectors. *)
Lemma lba_bytes secno :
  0 ≤ secno < 2 ^ 28 →
  Z.land secno 255 + 2 ^ 8 * Z.land (Z.shiftr secno 8) 255
  + 2 ^ 16 * Z.land (Z.shiftr secno 16) 255 + 2 ^ 24 * Z.land (Z.shiftr secno 24) 15 = secno.
Proof.
  intros Hs. change 255 with (2 ^ 8 - 1). change 15 with (2 ^ 4 - 1).
  rewrite !land_low, !Z.shiftr_div_pow2 by lia.
  pose proof (Z.div_mod secno (2 ^ 8)). pose proof (Z.div_mod (secno / 2 ^ 8) (2 ^ 8)).
  pose proof (Z.div_mod (secno / 2 ^ 16) (2 ^ 8)). pose proof (Z.div_mod (secno / 2 ^ 24) (2 ^ 4)).
  rewrite !Z.div_div in * by lia.
  change (2 ^ 8 * 2 ^ 8) with (2 ^ 16) in *. change (2 ^ 16 * 2 ^ 8) with (2 ^ 24) in *.
  change (2 ^ 24 * 2 ^ 4) with (2 ^ 28) in *. rewrite (Z.div_small secno (2 ^ 28)) in * by lia. lia.
Qed.

Lemma head_bits d hi :
  d = 0 ∨ d = 1 → 0 ≤ hi < 16 →
  let h := Z.lor (Z.lor 224 (Z.shiftl (Z.land d 1) 4)) hi in
  u8 h = h ∧ h mod 2 ^ 4 = hi ∧ Z.testbit h 4 = (d =? 1).
Proof.
  intros Hd Hhi h.
  assert (h = (if d =? 1 then 15 else 14) * 2 ^ 4 + hi) as ->.
  { unfold h. rewrite <- lor_low by lia. by destruct Hd as [-> | ->]. }
  split_and!; [apply u8_small; destruct Hd as [-> | ->]; cbn; lia| |].
  - rewrite Z.add_comm, Z.mod_add, Z.mod_small by lia. done.
  - rewrite <- lor_low, Z.lor_spec, (testbit_high hi 4), orb_false_r by lia.
    by destruct Hd as [-> | ->].
Qed.

Lemma ide_outb_ok port v s :
  498 ≤ port ≤ 503 →
  ∃ d, ide_outb port v s = Ok tt (fw_dev d s) ∧ dev_ata d = ata_out port (u8 v) (f_ata s).
Proof. intros Hp. eexists. split; [done|]. by apply law_out. Qed.

Lemma ide_command_ok secno nsecs cmd s :
  0 ≤ secno < 2 ^ 28 → 1 ≤ nsecs ≤ 255 → f_diskno s = 0 ∨ f_diskno s = 1 → cmd = 32 ∨ cmd = 48 →
  ∃ d, ide_command secno nsecs cmd s = Ok tt (fw_dev d s) ∧
    a_mode (dev_ata d) = (if cmd =? 32 then AtaRead else AtaWrite) secno nsecs ∧
    ata_drive (dev_ata d) = f_diskno s ∧ a_data (dev_ata d) = a_data (f_ata s).
Proof.
  intros Hs Hn Hd Hc. unfold ide_command.
  edestruct (ide_outb_ok 498 nsecs s) as (d1 & H1 & E1); [lia|].
  rewrite (bind_Ok _ _ _ _ _ H1).
  edestruct (ide_outb_ok 499 (Z.land secno 255) (fw_dev d1 s)) as (d2 & H2 & E2); [lia|].
  rewrite (bind_Ok _ _ _ _ _ H2).
  edestruct (ide_outb_ok 500 (Z.land (Z.shiftr secno 8) 255) (fw_dev d2 s)) as (d3 & H3 & E3); [lia|].
  rewrite (bind_Ok _ _ _ _ _ H3).
  edestruct (ide_outb_ok 501 (Z.land (Z.shiftr secno 16) 255) (fw_dev d3 s)) as (d4 & H4 & E4); [lia|].
  rewrite (bind_Ok _ _ _ _ _ H4). mrun. cbn [f_diskno fw_dev].
  edestruct (ide_outb_ok 502 (Z.lor (Z.lor 224 (Z.shiftl (Z.land (f_diskno s) 1) 4))
    (Z.land (Z.shiftr secno 24) 15)) (fw_dev d4 s)) as (d5 & H5 & E5); [lia|].
  rewrite (bind_Ok _ _ _ _ _ H5).
  edestruct (ide_outb_ok 503 cmd (fw_dev d5 s)) as (d6 & H6 & E6); [lia|].
  exists d6. split; [exact H6|].
  assert (∀ x, 0 ≤ Z.land x 255 < 2 ^ 8) as Hb.
  { intros x. change 255 with (2 ^ 8 - 1). rewrite land_low by lia. apply Z.mod_pos_bound. lia. }
  destruct (head_bits (f_diskno s) (Z.land (Z.shiftr secno 24) 15) Hd) as (Hu & Hm & Ht).
  { change 15 with (2 ^ 4 - 1). rewrite land_low by lia. apply Z.mod_pos_bound. lia. }
  unfold f_ata in *. cbn [fw_dev f_dev] in *. rewrite E6, E5, E4, E3, E2, E1.
  rewrite (u8_small nsecs), !(u8_small (Z.land _ 255)), Hu, (u8_small cmd) by (apply Hb || lia).
  destruct (dev_ata (f_dev s)) as [c l0 l1 l2 h m dt].
  assert (Hdr : (if f_diskno s =? 1 then 1 else 0) = f_diskno s)
    by (destruct Hd as [-> | ->]; done).
  destruct Hc as [-> | ->]; cbn - [Z.land Z.lor Z.shiftr Z.shiftl Z.mul Z.modulo Z.testbit Z.pow];
    unfold ata_lba, ata_drive, ata_set_mode; cbn [a_lba0 a_lba1 a_lba2 a_head a_mode a_data];
    rewrite Hm, Ht, lba_bytes by done; done.
Qed.

(** The sectors move through one page. *)
Lemma pte_dirty_present p : tst (Z.lor p PTE_D) PTE_P = tst p PTE_P.
Proof. rewrite !(tst_bit _ 0) by lia. rewrite Z.lor_spec. by rewrite orb_false_r. Qed.

Lemma lor_dirty_idemp p : Z.lor (Z.lor p PTE_D) PTE_D = Z.lor p PTE_D.
Proof. by rewrite <- Z.lor_assoc, Z.lor_diag. Qed.

(** What no transfer changes. *)
Definition f_rest (s s' : fss) : Prop :=
  f_pde s' = f_pde s ∧ f_avail s' = f_avail s ∧ f_diskno s' = f_diskno s ∧
  f_super s' = f_super s ∧ f_bitmap s' = f_bitmap s ∧ f_log s' = f_log s.

#[export] Instance f_rest_preorder : PreOrder f_rest.
Proof. split; [done|]. intros a b c (?&?&?&?&?&?) (?&?&?&?&?&?). by split_and!; etransitivity. Qed.

Lemma disk_byte_sector data d lba k :
  0 ≤ k < SECTSIZE → disk_byte data d (SECTSIZE * lba + k) = nth (Z.to_nat k) (data d lba) 0.
Proof.
  intros Hk. unfold disk_byte. rewrite Z.add_comm, (Z.mul_comm SECTSIZE).
  by rewrite Z.mod_add, Z.mod_small, Z.div_add, Z.div_small by lia.
Qed.

(** A disk given byte by byte. *)
Lemma disk_byte_map (f : Z → Z) d x : 0 ≤ x →
  disk_byte (λ _ lba, map (λ i, f (SECTSIZE * lba + i)) (seqZ 0 SECTSIZE)) d x = f x.
Proof.
  intros Hx. unfold disk_byte.
  pose proof (Z.div_mod x SECTSIZE ltac:(lia)). pose proof (Z.mod_pos_bound x SECTSIZE ltac:(lia)).
  rewrite (nth_indep _ 0 (f (SECTSIZE * (x / SECTSIZE) + 0))) by (rewrite length_map, length_seqZ; lia).
  rewrite (map_nth (λ i, f (SECTSIZE * (x / SECTSIZE) + i))).
  assert (nth (Z.to_nat (x mod SECTSIZE)) (seqZ 0 SECTSIZE) 0 = x mod SECTSIZE) as ->; [|f_equal; lia].
  apply nth_lookup_Some. apply lookup_seqZ. lia.
Qed.
Lemma sector_map_ok (f : Z → Z) lba : (∀ x, 0 ≤ f x < 2 ^ 8) →
  sector_ok (map (λ i, f (SECTSIZE * lba + i)) (seqZ 0 SECTSIZE)).
Proof.
  intros Hf. split; [by rewrite length_map, length_seqZ|].
  apply Forall_forall. by intros b (i & -> & _)%list_elem_of_fmap.
Qed.

(** One sector in. *)
Lemma ide_insl_ok s va lba n :
  tst (pte_of s va) PTE_P = true → a_mode (f_ata s) = AtaRead lba n →
  ata_drive (f_ata s) = f_diskno s →
  ∃ s', ide_insl va s = Ok tt s' ∧ f_rest s s' ∧
    f_ata s' = ata_set_mode (if n =? 1 then AtaIdle else AtaRead (lba + 1) (n - 1)) (f_ata s) ∧
    (∀ p, f_pte s' p = if p =? PGNUM va then Z.lor (f_pte s p) PTE_D else f_pte s p) ∧
    ∀ x, rd8 (f_mem s') x =
      if (va <=? x) && (x <? va + SECTSIZE) then f_data s (SECTSIZE * lba + (x - va))
      else rd8 (f_mem s) x.
Proof.
  intros Hp Hm Hd. unfold ide_insl. rewrite Hp.
  destruct (law_insl (f_dev s) lba n Hm) as [H1 H2].
  destruct (dev_insl (f_dev s)) as [bs d]. cbn [fst snd] in H1, H2.
  unfold ata_in_sector in H1, H2. unfold f_ata in *. rewrite Hm in H1, H2. cbn [fst snd] in H1, H2.
  eexists. split; [done|]. split; [done|]. split; [exact H2|]. split.
  - intros p. cbn. destruct (Z.eqb_spec p (PGNUM va)) as [->|]; done.
  - intros x. cbn. destruct (law_sector (f_dev s) (ata_drive (dev_ata (f_dev s))) lba) as [Hl Hb].
    rewrite <- H1 in Hl, Hb. rewrite rd8_wr_bytes by done. rewrite Hl.
    replace (Z.of_nat (Z.to_nat SECTSIZE)) with SECTSIZE by lia.
    destruct (Z.leb_spec va x), (Z.ltb_spec x (va + SECTSIZE)); cbn [andb]; try done.
    unfold f_data, f_ata. rewrite disk_byte_sector by lia. by rewrite H1, Hd.
Qed.

Lemma read_sectors_ok n P : ∀ s va lba,
  (∀ i, 0 ≤ i < SECTSIZE * Z.of_nat n → PGNUM (va + i) = P) → tst (f_pte s P) PTE_P = true →
  n = O ∨ a_mode (f_ata s) = AtaRead lba (Z.of_nat n) → ata_drive (f_ata s) = f_diskno s →
  ∃ s', ide_sectors ide_insl n va s = Ok 0 s' ∧ f_rest s s' ∧ a_data (f_ata s') = a_data (f_ata s) ∧
    (∀ p, f_pte s' p = if (p =? P) && (0 <? Z.of_nat n) then Z.lor (f_pte s p) PTE_D else f_pte s p) ∧
    ∀ x, rd8 (f_mem s') x =
      if (va <=? x) && (x <? va + SECTSIZE * Z.of_nat n) then f_data s (SECTSIZE * lba + (x - va))
      else rd8 (f_mem s) x.
Proof.
  induction n as [|n IH]; intros s va lba HP Hp Hm Hd.
  - exists s. split_and!; try done.
    + intros p. by rewrite andb_false_r.
    + intros x. destruct (Z.leb_spec va x), (Z.ltb_spec x (va + SECTSIZE * Z.of_nat 0)); cbn [andb]; done || lia.
  - destruct Hm as [|Hm]; [done|]. cbn [ide_sectors].
    destruct (ide_wait_ready_ok true s) as (d & Hw & Ed). rewrite (bind_Ok _ _ _ _ _ Hw).
    cbn [Z.ltb Z.compare]. set (s1 := fw_dev d s).
    assert (f_ata s1 = f_ata s) as E1 by exact Ed.
    assert (PGNUM va = P) as Hva by (rewrite <- (Z.add_0_r va); apply HP; lia).
    destruct (ide_insl_ok s1 va lba (Z.of_nat (S n))) as (s2 & H2 & R2 & E2 & T2 & M2);
      [unfold pte_of; by rewrite Hva|by rewrite E1|by rewrite E1|].
    rewrite (bind_Ok _ _ _ _ _ H2).
    assert (a_data (f_ata s2) = a_data (f_ata s)) as D2 by (rewrite E2, E1; done).
    assert (f_diskno s2 = f_diskno s) as N2 by (destruct R2 as (_&_&->&_); done).
    destruct (IH s2 (va + SECTSIZE) (lba + 1)) as (s3 & H3 & R3 & D3 & T3 & M3).
    + intros i Hi. rewrite <- Z.add_assoc. apply HP. lia.
    + rewrite T2, Hva, Z.eqb_refl, pte_dirty_present. done.
    + destruct n as [|n]; [by left|right]. rewrite E2. cbn [ata_set_mode a_mode].
      destruct (Z.eqb_spec (Z.of_nat (S (S n))) 1); [lia|]. f_equal. lia.
    + rewrite E2, N2, E1. exact Hd.
    + exists s3. split; [exact H3|]. split; [by transitivity s2|]. split; [by rewrite D3|]. split.
      * intros p. rewrite T3, T2, Hva. destruct (Z.eqb_spec p P), (Z.ltb_spec 0 (Z.of_nat n)),
          (Z.ltb_spec 0 (Z.of_nat (S n))); cbn [andb]; try lia; try done. apply lor_dirty_idemp.
      * intros x. rewrite M3, M2. unfold f_data. rewrite D2, N2, E1.
        replace (SECTSIZE * (lba + 1) + (x - (va + SECTSIZE))) with (SECTSIZE * lba + (x - va)) by lia.
        destruct (Z.leb_spec (va + SECTSIZE) x), (Z.leb_spec va x), (Z.ltb_spec x (va + SECTSIZE)),
          (Z.ltb_spec x (va + SECTSIZE + SECTSIZE * Z.of_nat n)),
          (Z.ltb_spec x (va + SECTSIZE * Z.of_nat (S n))); cbn [andb]; done || lia.
Qed.

(** One sector out. *)
Lemma ide_outsl_ok s va lba n :
  tst (pte_of s va) PTE_P = true → a_mode (f_ata s) = AtaWrite lba n →
  ata_drive (f_ata s) = f_diskno s →
  ∃ d, ide_outsl va s = Ok tt (fw_dev d s) ∧
    a_mode (dev_ata d) = (if n =? 1 then AtaIdle else AtaWrite (lba + 1) (n - 1)) ∧
    ata_drive (dev_ata d) = f_diskno s ∧
    ∀ x, f_data (fw_dev d s) x =
      if (SECTSIZE * lba <=? x) && (x <? SECTSIZE * lba + SECTSIZE)
      then rd8 (f_mem s) (va + (x - SECTSIZE * lba)) else f_data s x.
Proof.
  intros Hp Hm Hd. unfold ide_outsl. rewrite Hp. eexists. split; [done|].
  set (bs := rd_bytes (f_mem s) va (Z.to_nat SECTSIZE)).
  assert (sector_ok bs) as Hb by (split; [apply rd_bytes_length|apply rd_bytes_ok]).
  unfold f_data, f_ata in *. cbn [fw_dev f_dev f_diskno]. rewrite law_outsl by done.
  unfold ata_out_sector. rewrite Hm. split_and!; [done|exact Hd|].
  intros x. cbn [a_data]. rewrite Hd. unfold disk_byte at 1. rewrite Z.eqb_refl. cbn [andb].
  pose proof (Z.div_mod x SECTSIZE). pose proof (Z.mod_pos_bound x SECTSIZE).
  destruct (Z.eqb_spec (x / SECTSIZE) lba) as [He|Hne].
  - destruct (Z.leb_spec (SECTSIZE * lba) x), (Z.ltb_spec x (SECTSIZE * lba + SECTSIZE)); try lia.
    cbn [andb]. unfold bs. rewrite rd_bytes_nth by lia. f_equal. lia.
  - destruct (Z.leb_spec (SECTSIZE * lba) x), (Z.ltb_spec x (SECTSIZE * lba + SECTSIZE));
      cbn [andb]; try done. lia.
Qed.

Lemma write_sectors_ok n P : ∀ s va lba,
  (∀ i, 0 ≤ i < SECTSIZE * Z.of_nat n → PGNUM (va + i) = P) → tst (f_pte s P) PTE_P = true →
  n = O ∨ a_mode (f_ata s) = AtaWrite lba (Z.of_nat n) → ata_drive (f_ata s) = f_diskno s →
  ∃ d, ide_sectors ide_outsl n va s = Ok 0 (fw_dev d s) ∧
    ∀ x, f_data (fw_dev d s) x =
      if (SECTSIZE * lba <=? x) && (x <? SECTSIZE * (lba + Z.of_nat n))
      then rd8 (f_mem s) (va + (x - SECTSIZE * lba)) else f_data s x.
Proof.
  induction n as [|n IH]; intros s va lba HP Hp Hm Hd.
  - exists (f_dev s). split; [by destruct s|]. intros x.
    destruct (Z.leb_spec (SECTSIZE * lba) x), (Z.ltb_spec x (SECTSIZE * (lba + Z.of_nat 0)));
      cbn [andb]; done || lia.
  - destruct Hm as [|Hm]; [done|]. cbn [ide_sectors].
    destruct (ide_wait_ready_ok true s) as (d & Hw & Ed). rewrite (bind_Ok _ _ _ _ _ Hw).
    cbn [Z.ltb Z.compare]. set (s1 := fw_dev d s).
    assert (f_ata s1 = f_ata s) as E1 by exact Ed.
    assert (PGNUM va = P) as Hva by (rewrite <- (Z.add_0_r va); apply HP; lia).
    destruct (ide_outsl_ok s1 va lba (Z.of_nat (S n))) as (d2 & H2 & E2 & N2 & D2);
      [unfold pte_of; by rewrite Hva|by rewrite E1|by rewrite E1|].
    rewrite (bind_Ok _ _ _ _ _ H2).
    destruct (IH (fw_dev d2 s1) (va + SECTSIZE) (lba + 1)) as (d3 & H3 & D3).
    + intros i Hi. rewrite <- Z.add_assoc. apply HP. lia.
    + done.
    + destruct n as [|n]; [by left|right]. unfold f_ata. cbn [fw_dev f_dev]. rewrite E2.
      destruct (Z.eqb_spec (Z.of_nat (S (S n))) 1); [lia|]. f_equal. lia.
    + exact N2.
    + exists d3. split; [exact H3|]. intros x. change (f_data (fw_dev d3 s) x) with
        (f_data (fw_dev d3 (fw_dev d2 s1)) x). rewrite D3, D2. cbn [f_mem fw_dev s1].
      replace (f_data s1 x) with (f_data s x) by (unfold f_data; by rewrite E1).
      destruct (Z.leb_spec (SECTSIZE * (lba + 1)) x), (Z.leb_spec (SECTSIZE * lba) x),
        (Z.ltb_spec x (SECTSIZE * (lba + 1 + Z.of_nat n))),
        (Z.ltb_spec x (SECTSIZE * (lba + Z.of_nat (S n)))),
        (Z.ltb_spec x (SECTSIZE * lba + SECTSIZE)); cbn [andb]; try lia; try done; f_equal; lia.
Qed.

(** ide_read and ide_write of [n] sectors through one page. *)
Lemma ide_read_ok s secno va n P :
  0 ≤ secno < 2 ^ 28 → 1 ≤ n ≤ 255 → f_diskno s = 0 ∨ f_diskno s = 1 →
  (∀ i, 0 ≤ i < SECTSIZE * n → PGNUM (va + i) = P) → tst (f_pte s P) PTE_P = true →
  ∃ s', ide_read secno va n s = Ok 0 s' ∧ f_rest s s' ∧ a_data (f_ata s') = a_data (f_ata s) ∧
    (∀ p, f_pte s' p = if p =? P then Z.lor (f_pte s p) PTE_D else f_pte s p) ∧
    ∀ x, rd8 (f_mem s') x =
      if (va <=? x) && (x <? va + SECTSIZE * n) then f_data s (SECTSIZE * secno + (x - va))
      else rd8 (f_mem s) x.
Proof.
  intros Hs Hn Hd HP Hp. unfold ide_read, massert. rewrite (proj2 (Z.leb_le n 256)) by lia. mrun.
  destruct (ide_wait_ready_ok false s) as (d1 & Hw & E1). rewrite (bind_Ok _ _ _ _ _ Hw).
  destruct (ide_command_ok secno n 32 (fw_dev d1 s)) as (d2 & H2 & E2 & N2 & D2); [done..|by left|].
  rewrite (bind_Ok _ _ _ _ _ H2).
  destruct (read_sectors_ok (Z.to_nat n) P (fw_dev d2 (fw_dev d1 s)) va secno)
    as (s' & H' & R' & D' & T' & M').
  { intros i Hi. apply HP. lia. } { done. } { right. rewrite Z2Nat.id by lia. exact E2. } { exact N2. }
  exists s'. split; [exact H'|]. split; [exact R'|].
  assert (a_data (dev_ata d2) = a_data (f_ata s)) as Ea
    by (rewrite D2; unfold f_ata; cbn; by rewrite E1).
  split; [rewrite D'; exact Ea|]. split.
  - intros p. rewrite T', (proj2 (Z.ltb_lt 0 (Z.of_nat (Z.to_nat n)))) by lia. by rewrite andb_true_r.
  - intros x. rewrite M', Z2Nat.id by lia. unfold f_data, f_ata at 1. cbn [fw_dev f_dev f_diskno f_mem].
    by rewrite Ea.
Qed.

Lemma ide_write_ok s secno va n P :
  0 ≤ secno < 2 ^ 28 → 1 ≤ n ≤ 255 → f_diskno s = 0 ∨ f_diskno s = 1 →
  (∀ i, 0 ≤ i < SECTSIZE * n → PGNUM (va + i) = P) → tst (f_pte s P) PTE_P = true →
  ∃ d, ide_write secno va n s = Ok 0 (fw_dev d s) ∧
    ∀ x, f_data (fw_dev d s) x =
      if (SECTSIZE * secno <=? x) && (x <? SECTSIZE * (secno + n))
      then rd8 (f_mem s) (va + (x - SECTSIZE * secno)) else f_data s x.
Proof.
  intros Hs Hn Hd HP Hp. unfold ide_write, massert. rewrite (proj2 (Z.leb_le n 256)) by lia. mrun.
  destruct (ide_wait_ready_ok false s) as (d1 & Hw & E1). rewrite (bind_Ok _ _ _ _ _ Hw).
  destruct (ide_command_ok secno n 48 (fw_dev d1 s)) as (d2 & H2 & E2 & N2 & D2); [done..|by right|].
  rewrite (bind_Ok _ _ _ _ _ H2).
  destruct (write_sectors_ok (Z.to_nat n) P (fw_dev d2 (fw_dev d1 s)) va secno) as (d' & H' & D').
  { intros i Hi. apply HP. lia. } { done. } { right. rewrite Z2Nat.id by lia. exact E2. } { exact N2. }
  exists d'. split; [exact H'|]. intros x.
  change (f_data (fw_dev d' s) x) with (f_data (fw_dev d' (fw_dev d2 (fw_dev d1 s))) x).
  rewrite D', Z2Nat.id by lia. cbn [f_mem fw_dev]. case_match; [done|].
  unfold f_data, f_ata at 1. cbn [fw_dev f_dev f_diskno]. rewrite D2. unfold f_ata. cbn. by rewrite E1.
Qed.
End correct.
