(* ===== verification/Boot.v ===== *)
(** The boot loader, boot/main.c, and the page directory that the kernel
    starts on, kern/entrypgdir.c.

    The boot loader reads the first disk through the same controller as
    fs/ide.c, so it is proved against the laws of the drive in Ide.v. *)

From S2P Require Import Prelude Mmu Printfmt KState Ide.
From Stdlib Require Import ZArith Lia.
From stdpp Require Import base tactics numbers list.
Open Scope Z_scope.

Abbreviation ELFHDR := 65536 (only parsing).       (* 0x10000 *)
Abbreviation ELF_MAGIC := 1179403647 (only parsing).

Section boot.
Context `{IdeDevice}.

Record bst := mkBst { b_mem : mem; b_dev : dev }.

Definition b_inb (port : Z) : M bst Z := λ s,
  let '(v, d) := dev_inb port (b_dev s) in Ok (u8 v) (mkBst (b_mem s) d).
Definition b_outb (port v : Z) : M bst unit := mmod (λ s, mkBst (b_mem s) (dev_outb port (u8 v) (b_dev s))).
(** insl(0x1F0, dst, SECTSIZE/4) *)
Definition b_insl (dst : Z) : M bst unit := λ s,
  let '(bs, d) := dev_insl (b_dev s) in Ok tt (mkBst (wr_bytes (b_mem s) dst bs) d).

Fixpoint waitdisk_polls (n : nat) : M bst unit :=
  v ← b_inb 503;
  if Z.land v 192 =? 64 then mret tt
  else match n with O => mleave Spinning | S n => waitdisk_polls n end.
Definition waitdisk : M bst unit := waitdisk_polls dev_polls.

Definition readsect (dst offset : Z) : M bst unit :=
  waitdisk;;
  b_outb 498 1;;
  b_outb 499 offset;;
  b_outb 500 (Z.shiftr offset 8);;
  b_outb 501 (Z.shiftr offset 16);;
  b_outb 502 (Z.lor (Z.shiftr offset 24) 224);;
  b_outb 503 32;;
  waitdisk;;
  b_insl dst.

Fixpoint readseg_loop (fuel : nat) (pa end_pa offset : Z) : M bst unit :=
  if pa <? end_pa then
    match fuel with
    | O => mleave Spinning
    | S fuel => readsect pa offset;; readseg_loop fuel (u32 (pa + SECTSIZE)) end_pa (u32 (offset + 1))
    end
  else mret tt.

Definition readseg (pa count offset : Z) : M bst unit :=
  let end_pa := u32 (pa + count) in
  let pa := Z.land pa (Z.lnot (SECTSIZE - 1)) in
  let offset := offset / SECTSIZE + 1 in
  readseg_loop (Z.to_nat ((end_pa - pa) / SECTSIZE + 1)) pa end_pa offset.

Definition b_ld32 (a : Z) : M bst Z := mgets (λ s, rd32 (b_mem s) a).
Definition b_ld16 (a : Z) : M bst Z := mgets (λ s, rd16 (b_mem s) a).

(** The loop over the program headers; each is 32 bytes. *)
Fixpoint load_segments (fuel : nat) (ph eph : Z) : M bst unit :=
  if ph <? eph then
    match fuel with
    | O => mleave Spinning
    | S fuel =>
        p_pa ← b_ld32 (ph + 12);
        p_memsz ← b_ld32 (ph + 20);
        p_offset ← b_ld32 (ph + 4);
        readseg p_pa p_memsz p_offset;;
        load_segments fuel (u32 (ph + 32)) eph
    end
  else mret tt.

(** The address that the loader jumps to.  At bad: it loops. *)
Definition bootmain : M bst Z :=
  readseg ELFHDR (SECTSIZE * 8) 0;;
  e_magic ← b_ld32 ELFHDR;
  if negb (e_magic =? ELF_MAGIC) then mleave Spinning
  else
    e_phoff ← b_ld32 (ELFHDR + 28);
    let ph := u32 (ELFHDR + e_phoff) in
    e_phnum ← b_ld16 (ELFHDR + 44);
    let eph := u32 (ph + 32 * e_phnum) in
    load_segments (Z.to_nat e_phnum) ph eph;;
    b_ld32 (ELFHDR + 24).
End boot.

(* ------------------------------------------------------------------ *)
(** ** On a working drive *)

Section boot_correct.
Context `{L : IdeLaws}.

Definition b_data (s : bst) : Z → Z → list Z := a_data (dev_ata (b_dev s)).
(** The kernel image starts at the second sector of the first disk. *)
Definition image (s : bst) (x : Z) : Z := disk_byte (b_data s) 0 (SECTSIZE + x).

Lemma waitdisk_polls_ok n s : ready_in n (b_dev s) = true →
  ∃ d, waitdisk_polls n s = Ok tt (mkBst (b_mem s) d) ∧ dev_ata d = dev_ata (b_dev s).
Proof.
  revert s. induction n as [|n IH]; intros s; cbn [ready_in waitdisk_polls];
    unfold mbind, M_bind, b_inb; pose proof (law_in (b_dev s)) as Hin;
    destruct (dev_inb 503 (b_dev s)) as [v d]; cbn [snd] in Hin;
    change (Z.lor IDE_BSY IDE_DRDY) with 192; destruct (Z.land (u8 v) 192 =? 64).
  - intros _. by exists d.
  - done.
  - intros _. by exists d.
  - cbv iota.
    intros (d' & -> & Hd)%(IH (mkBst (b_mem s) d)). exists d'. split; [done|]. by rewrite Hd.
Qed.

Lemma waitdisk_ok s : ∃ d, waitdisk s = Ok tt (mkBst (b_mem s) d) ∧ dev_ata d = dev_ata (b_dev s).
Proof. apply waitdisk_polls_ok, law_ready. Qed.

Lemma b_outb_ok port v s : 498 ≤ port ≤ 503 →
  ∃ d, b_outb port v s = Ok tt (mkBst (b_mem s) d) ∧ dev_ata d = ata_out port (u8 v) (dev_ata (b_dev s)).
Proof. intros Hp. eexists. split; [done|]. by apply law_out. Qed.

(** The command of readsect. *)
Lemma sector_command offset s : 0 ≤ offset < 2 ^ 28 →
  ∃ d, (b_outb 498 1;; b_outb 499 offset;; b_outb 500 (Z.shiftr offset 8);; b_outb 501 (Z.shiftr offset 16);;
        b_outb 502 (Z.lor (Z.shiftr offset 24) 224);; b_outb 503 32) s = Ok tt (mkBst (b_mem s) d) ∧
    a_mode (dev_ata d) = AtaRead offset 1 ∧ ata_drive (dev_ata d) = 0 ∧ a_data (dev_ata d) = b_data s.
Proof.
  intros Ho. eexists. split; [reflexivity|]. cbn [b_dev]. rewrite !law_out by lia.
  assert (Hhi : 0 ≤ Z.shiftr offset 24 < 16).
  { rewrite Z.shiftr_div_pow2 by lia. split; [apply Z.div_pos; lia|apply Z.div_lt_upper_bound; lia]. }
  destruct (head_bits 0 (Z.shiftr offset 24) ltac:(by left) Hhi) as (Hu & Hm & Ht).
  change (Z.lor 224 (Z.shiftl (Z.land 0 1) 4)) with 224 in *. rewrite (Z.lor_comm 224) in *.
  rewrite Hu. change (u8 1) with 1. change (u8 32) with 32. unfold b_data. destruct (dev_ata (b_dev s)) as [c l0 l1 l2 h m dt].
  cbn - [Z.land Z.lor Z.shiftr Z.shiftl Z.mul Z.modulo Z.testbit Z.pow].
  unfold ata_lba, ata_drive, ata_set_mode. cbn [a_lba0 a_lba1 a_lba2 a_head a_mode a_data]. rewrite Hm, Ht.
  split_and!; [|done|done]. f_equal. unfold u8. pose proof (lba_bytes offset Ho) as Hl.
  change 255 with (2 ^ 8 - 1) in Hl. change 15 with (2 ^ 4 - 1) in Hl. rewrite !land_low in Hl by lia.
  rewrite (Z.mod_small (Z.shiftr offset 24)) in Hl by lia. exact Hl.
Qed.

(** readsect puts one sector of the disk at [dst]. *)
Lemma readsect_ok dst offset s : 0 ≤ offset < 2 ^ 28 →
  ∃ s', readsect dst offset s = Ok tt s' ∧ b_data s' = b_data s ∧
    ∀ x, rd8 (b_mem s') x =
      if (dst <=? x) && (x <? dst + SECTSIZE) then disk_byte (b_data s) 0 (SECTSIZE * offset + (x - dst)) else rd8 (b_mem s) x.
Proof.
  intros Ho. unfold readsect. destruct (waitdisk_ok s) as (d1 & H1 & E1). rewrite (bind_Ok _ _ _ _ _ H1).
  destruct (sector_command offset (mkBst (b_mem s) d1) Ho) as (d2 & H2 & Em & Ed & Ea).
  unfold b_data in *. cbn [b_dev b_mem] in *. rewrite E1 in Ea.
  match goal with |- ∃ _, ?m _ = _ ∧ _ =>
    assert (Hm : m (mkBst (b_mem s) d1) = (waitdisk;; b_insl dst) (mkBst (b_mem s) d2))
      by (revert H2; unfold mbind, M_bind; cbn; by intros [= ->])
  end.
  rewrite Hm. destruct (waitdisk_ok (mkBst (b_mem s) d2)) as (d3 & H3 & E3). rewrite (bind_Ok _ _ _ _ _ H3).
  cbn [b_dev b_mem] in *. unfold b_insl. cbn [b_dev b_mem]. rewrite <- E3 in Em, Ed, Ea.
  destruct (law_insl d3 offset 1 Em) as [I1 I2]. destruct (dev_insl d3) as [bs d4]. cbn [fst snd] in I1, I2.
  unfold ata_in_sector in I1, I2. rewrite Em in I1, I2. cbn [fst snd] in I1, I2.
  eexists. split; [reflexivity|]. cbn [b_dev b_mem]. split; [by rewrite I2|]. intros x.
  destruct (law_sector d3 (ata_drive (dev_ata d3)) offset) as [Hl Hb]. rewrite <- I1 in Hl, Hb.
  rewrite rd8_wr_bytes, Hl by done. replace (Z.of_nat (Z.to_nat SECTSIZE)) with SECTSIZE by lia.
  destruct (Z.leb_spec dst x), (Z.ltb_spec x (dst + SECTSIZE)); cbn [andb]; try done.
  rewrite disk_byte_sector by lia. by rewrite I1, Ed, Ea.
Qed.

(** The sectors from [pa] to [e]. *)
Definition nsect (pa e : Z) : Z := (Z.max 0 (e - pa) + (SECTSIZE - 1)) / SECTSIZE.
Lemma nsect_step pa e : pa < e → nsect pa e = 1 + nsect (pa + SECTSIZE) e.
Proof.
  intros Hlt. unfold nsect. rewrite (Z.max_r 0 (e - pa)) by lia. destruct (Z.max_spec 0 (e - (pa + SECTSIZE))) as [[H ->]|[H ->]].
  - replace (e - pa + (SECTSIZE - 1)) with (e - (pa + SECTSIZE) + (SECTSIZE - 1) + 1 * SECTSIZE) by lia. rewrite Z.div_add by lia. lia.
  - symmetry. replace (1 + (0 + (SECTSIZE - 1)) / SECTSIZE) with 1 by reflexivity.
    apply (Z.div_unique_pos _ _ _ (e - pa - 1)); lia.
Qed.
Lemma nsect_done pa e : e ≤ pa → nsect pa e = 0.
Proof. intros Hle. unfold nsect. rewrite Z.max_l by lia. done. Qed.
Lemma nsect_bounds pa e : pa ≤ e → e ≤ pa + SECTSIZE * nsect pa e ∧ SECTSIZE * nsect pa e < e - pa + SECTSIZE.
Proof.
  intros Hle. unfold nsect. rewrite Z.max_r by lia. pose proof (Z.div_mod (e - pa + (SECTSIZE - 1)) SECTSIZE ltac:(lia)).
  pose proof (Z.mod_pos_bound (e - pa + (SECTSIZE - 1)) SECTSIZE ltac:(lia)). lia.
Qed.

Lemma readseg_loop_ok n : ∀ s pa e offset, 0 ≤ pa → e ≤ 2 ^ 32 - SECTSIZE → nsect pa e ≤ Z.of_nat n →
  0 ≤ offset → offset + nsect pa e < 2 ^ 28 →
  ∃ s', readseg_loop n pa e offset s = Ok tt s' ∧ b_data s' = b_data s ∧
    ∀ x, rd8 (b_mem s') x =
      if (pa <=? x) && (x <? pa + SECTSIZE * nsect pa e) then disk_byte (b_data s) 0 (SECTSIZE * offset + (x - pa))
      else rd8 (b_mem s) x.
Proof.
  induction n as [|n IH]; intros s pa e offset Hpa He Hf Ho Hmax; cbn [readseg_loop];
    destruct (Z.ltb_spec pa e) as [Hlt|Hge].
  2, 4: exists s; rewrite nsect_done by lia; split_and!; [done..|]; intros x;
        destruct (Z.leb_spec pa x), (Z.ltb_spec x (pa + SECTSIZE * 0)); cbn [andb]; done || lia.
  - rewrite nsect_step in Hf by lia. pose proof (nsect_done (pa + SECTSIZE) e). unfold nsect in Hf.
    pose proof (Z.div_pos (Z.max 0 (e - (pa + SECTSIZE)) + (SECTSIZE - 1)) SECTSIZE). lia.
  - rewrite (nsect_step pa e) in * by lia.
    assert (0 ≤ nsect (pa + SECTSIZE) e) by (unfold nsect; apply Z.div_pos; lia).
    destruct (readsect_ok pa offset s) as (s1 & H1 & D1 & M1); [lia|]. rewrite (bind_Ok _ _ _ _ _ H1).
    rewrite !u32_small by lia.
    destruct (IH s1 (pa + SECTSIZE) e (offset + 1)) as (s2 & H2 & D2 & M2); [lia..|].
    exists s2. split_and!; [done|by rewrite D2|]. intros x. rewrite M2, M1, D1.
    destruct (Z.leb_spec (pa + SECTSIZE) x), (Z.ltb_spec x (pa + SECTSIZE + SECTSIZE * nsect (pa + SECTSIZE) e)),
      (Z.leb_spec pa x), (Z.ltb_spec x (pa + SECTSIZE)), (Z.ltb_spec x (pa + SECTSIZE * (1 + nsect (pa + SECTSIZE) e)));
      cbn [andb]; try lia; try done; f_equal; lia.
Qed.

(** The range of memory that readseg writes. *)
Definition seg_lo (pa : Z) : Z := pa - pa mod SECTSIZE.
Definition seg_hi (pa count : Z) : Z := seg_lo pa + SECTSIZE * nsect (seg_lo pa) (pa + count).

(** readseg copies the bytes of the image, when the address and the offset
    have the same place in a sector. *)
Lemma readseg_ok s pa count offset : 0 ≤ pa → 0 ≤ count → pa + count ≤ 2 ^ 32 - SECTSIZE → 0 ≤ offset < 2 ^ 32 →
  pa mod SECTSIZE = offset mod SECTSIZE →
  ∃ s', readseg pa count offset s = Ok tt s' ∧ b_data s' = b_data s ∧
    ∀ x, rd8 (b_mem s') x =
      if (seg_lo pa <=? x) && (x <? seg_hi pa count) then image s (offset + (x - pa)) else rd8 (b_mem s) x.
Proof.
  intros Hpa Hc He Ho Hal. unfold readseg. rewrite u32_small by lia.
  change (SECTSIZE - 1) with (2 ^ 9 - 1). rewrite land_lnot_low by lia. change (2 ^ 9) with SECTSIZE. fold (seg_lo pa).
  pose proof (Z.mod_pos_bound pa SECTSIZE ltac:(lia)) as Hm. pose proof (Z.div_mod pa SECTSIZE ltac:(lia)) as Hd.
  assert (Hlo : 0 ≤ seg_lo pa ≤ pa) by (unfold seg_lo; lia).
  pose proof (nsect_bounds (seg_lo pa) (pa + count) ltac:(lia)) as Hb.
  pose proof (Z.div_mod (pa + count - seg_lo pa) SECTSIZE ltac:(lia)).
  pose proof (Z.mod_pos_bound (pa + count - seg_lo pa) SECTSIZE ltac:(lia)).
  assert (0 ≤ offset / SECTSIZE < 2 ^ 23) by (split; [apply Z.div_pos; lia|apply Z.div_lt_upper_bound; lia]).
  destruct (readseg_loop_ok (Z.to_nat ((pa + count - seg_lo pa) / SECTSIZE + 1)) s (seg_lo pa) (pa + count) (offset / SECTSIZE + 1))
    as (s' & Hs' & D' & M'); [lia..|].
  exists s'. split_and!; [done..|]. intros x. rewrite M'. fold (seg_hi pa count). destruct (_ && _); [|done].
  unfold image. f_equal. pose proof (Z.div_mod offset SECTSIZE ltac:(lia)). unfold seg_lo. lia.
Qed.

(** ** The kernel is loaded *)

(** The program headers in the image. *)
Definition ph_off (s : bst) : Z := rd32 (image s) 28.
Definition ph_num (s : bst) : Z := rd16 (image s) 44.
Definition seg_pa (s : bst) (k : Z) : Z := rd32 (image s) (ph_off s + 32 * k + 12).
Definition seg_sz (s : bst) (k : Z) : Z := rd32 (image s) (ph_off s + 32 * k + 20).
Definition seg_of (s : bst) (k : Z) : Z := rd32 (image s) (ph_off s + 32 * k + 4).
(** [x] is in what loading the segment writes. *)
Definition in_seg (s : bst) (k x : Z) : bool :=
  (seg_lo (seg_pa s k) <=? x) && (x <? seg_hi (seg_pa s k) (seg_sz s k)).

(** An ELF image whose headers are in its first page, whose segments lie in
    memory as in the file, modulo the sector size, and where loading one, by
    whole sectors, spoils neither the headers nor a segment before it. *)
Record bootable (s : bst) : Prop := {
  bt_magic : rd32 (image s) 0 = ELF_MAGIC;
  bt_hdr : ph_off s + 32 * ph_num s ≤ 4096;
  bt_seg : ∀ k, 0 ≤ k < ph_num s →
    seg_pa s k mod SECTSIZE = seg_of s k mod SECTSIZE ∧ seg_pa s k + seg_sz s k ≤ 2 ^ 32 - SECTSIZE;
  bt_scratch : ∀ k x, 0 ≤ k < ph_num s → ELFHDR ≤ x < ELFHDR + 4096 → in_seg s k x = false;
  bt_order : ∀ j k x, 0 ≤ j < k → k < ph_num s → seg_pa s j ≤ x < seg_pa s j + seg_sz s j → in_seg s k x = false }.

Lemma image_range s x : 0 ≤ image s x < 2 ^ 8.
Proof.
  unfold image, disk_byte, b_data. pose proof (law_sector (b_dev s) 0 ((SECTSIZE + x) / SECTSIZE)) as [Hl Hb].
  destruct (nth_in_or_default (Z.to_nat ((SECTSIZE + x) mod SECTSIZE)) (a_data (dev_ata (b_dev s)) 0 ((SECTSIZE + x) / SECTSIZE)) 0)
    as [Hin| ->]; [|lia].
  apply (proj1 (Forall_forall _ _) Hb). by apply list_elem_of_In.
Qed.

(** The headers as the loader reads them. *)
Definition has_header (s0 s : bst) : Prop := ∀ x, 0 ≤ x < 4096 → rd8 (b_mem s) (ELFHDR + x) = image s0 x.
Lemma header_word s0 s a : has_header s0 s → 0 ≤ a → a + 4 ≤ 4096 → rd32 (b_mem s) (ELFHDR + a) = rd32 (image s0) a.
Proof.
  intros Hh Ha Hb. unfold rd32. rewrite <- !Z.add_assoc, !Hh by lia. unfold rd8.
  rewrite !(u8_small (image s0 _)) by apply image_range. done.
Qed.
Lemma header_half s0 s a : has_header s0 s → 0 ≤ a → a + 2 ≤ 4096 → rd16 (b_mem s) (ELFHDR + a) = rd16 (image s0) a.
Proof.
  intros Hh Ha Hb. unfold rd16. rewrite <- !Z.add_assoc, !Hh by lia. unfold rd8.
  rewrite !(u8_small (image s0 _)) by apply image_range. done.
Qed.

(** After the first [k] segments. *)
Record loaded (s0 s : bst) (k : Z) : Prop := {
  ld_data : b_data s = b_data s0;
  ld_header : has_header s0 s;
  ld_seg : ∀ j x, 0 ≤ j < k → seg_pa s0 j ≤ x < seg_pa s0 j + seg_sz s0 j →
    rd8 (b_mem s) x = image s0 (seg_of s0 j + (x - seg_pa s0 j));
  ld_rest : ∀ x, (x < ELFHDR ∨ ELFHDR + 4096 ≤ x) → (∀ j, 0 ≤ j < k → in_seg s0 j x = false) →
    rd8 (b_mem s) x = rd8 (b_mem s0) x }.

Lemma load_one s0 s k : bootable s0 → loaded s0 s k → 0 ≤ k < ph_num s0 →
  ∃ s', readseg (seg_pa s0 k) (seg_sz s0 k) (seg_of s0 k) s = Ok tt s' ∧ loaded s0 s' (k + 1).
Proof.
  intros B [D1 H1 S1 R1] Hk. destruct (bt_seg _ B k Hk) as [Hal Hend].
  pose proof (rd32_range (image s0) (ph_off s0 + 32 * k + 12)) as Rpa. fold (seg_pa s0 k) in Rpa.
  pose proof (rd32_range (image s0) (ph_off s0 + 32 * k + 20)) as Rsz. fold (seg_sz s0 k) in Rsz.
  pose proof (rd32_range (image s0) (ph_off s0 + 32 * k + 4)) as Rof. fold (seg_of s0 k) in Rof.
  destruct (readseg_ok s (seg_pa s0 k) (seg_sz s0 k) (seg_of s0 k)) as (s' & Hs' & D' & M'); [lia|lia|lia|lia|done|].
  exists s'. split; [done|].
  assert (M : ∀ x, rd8 (b_mem s') x = if in_seg s0 k x then image s0 (seg_of s0 k + (x - seg_pa s0 k)) else rd8 (b_mem s) x).
  { intros x. rewrite M'. unfold image. by rewrite D1. }
  constructor; [by rewrite D'| | |].
  - intros x Hx. rewrite M, (bt_scratch _ B) by lia. by apply H1.
  - intros j x Hj Hx. rewrite M. destruct (decide (j = k)) as [->|Hne].
    + pose proof (Z.mod_pos_bound (seg_pa s0 k) SECTSIZE ltac:(lia)).
      pose proof (Z.mod_le (seg_pa s0 k) SECTSIZE ltac:(lia) ltac:(lia)).
      pose proof (nsect_bounds (seg_lo (seg_pa s0 k)) (seg_pa s0 k + seg_sz s0 k) ltac:(unfold seg_lo; lia)).
      unfold in_seg, seg_hi. rewrite (proj2 (Z.leb_le _ _)), (proj2 (Z.ltb_lt _ _)) by (unfold seg_lo in *; lia). done.
    + rewrite (bt_order _ B j k x) by lia. apply S1; lia.
  - intros x Hx Hout. rewrite M, Hout by lia. apply R1; [done|]. intros j Hj. apply Hout. lia.
Qed.

Lemma load_segments_ok s0 n : bootable s0 → ∀ s k, loaded s0 s k → 0 ≤ k ≤ ph_num s0 → ph_num s0 - k = Z.of_nat n →
  ∃ s', load_segments n (ELFHDR + ph_off s0 + 32 * k) (ELFHDR + ph_off s0 + 32 * ph_num s0) s = Ok tt s' ∧
    loaded s0 s' (ph_num s0).
Proof.
  intros B. pose proof (bt_hdr _ B) as Hhdr. pose proof (rd32_range (image s0) 28) as Roff. fold (ph_off s0) in Roff.
  induction n as [|n IH]; intros s k Hl Hk Hn; cbn [load_segments].
  - replace k with (ph_num s0) in * by lia. rewrite Z.ltb_irrefl. by exists s.
  - rewrite (proj2 (Z.ltb_lt _ _)) by lia. unfold b_ld32. mrun.
    rewrite <- !Z.add_assoc, !(header_word s0 s) by (apply Hl || lia). rewrite !Z.add_assoc.
    fold (seg_pa s0 k) (seg_sz s0 k) (seg_of s0 k).
    destruct (load_one s0 s k B Hl ltac:(lia)) as (s1 & H1 & L1). rewrite (bind_Ok _ _ _ _ _ H1).
    rewrite u32_small by lia. replace (ELFHDR + ph_off s0 + 32 * k + 32) with (ELFHDR + ph_off s0 + 32 * (k + 1)) by lia.
    apply IH; [done|lia|lia].
Qed.

(** C36: the boot loader loads the kernel.  From a disk that holds a bootable
    ELF image from its second sector on, bootmain returns to the entry point
    of the image with every byte of every segment at its load address; apart
    from these, by whole sectors, and from the page at 0x10000 it uses for
    the headers, memory is unchanged. *)
Theorem bootmain_loads s : bootable s →
  ∃ s', bootmain s = Ok (rd32 (image s) 24) s' ∧
    (∀ k x, 0 ≤ k < ph_num s → seg_pa s k ≤ x < seg_pa s k + seg_sz s k →
       rd8 (b_mem s') x = image s (seg_of s k + (x - seg_pa s k))) ∧
    (∀ x, (x < ELFHDR ∨ ELFHDR + 4096 ≤ x) → (∀ k, 0 ≤ k < ph_num s → in_seg s k x = false) →
       rd8 (b_mem s') x = rd8 (b_mem s) x).
Proof.
  intros B. pose proof (bt_hdr _ B) as Hhdr. pose proof (rd32_range (image s) 28) as Roff. fold (ph_off s) in Roff.
  assert (Rn : 0 ≤ ph_num s) by (unfold ph_num, rd16; pose proof (rd8_range (image s) 44); pose proof (rd8_range (image s) (44 + 1)); lia).
  unfold bootmain. destruct (readseg_ok s ELFHDR (SECTSIZE * 8) 0) as (s1 & H1 & D1 & M1); [lia|lia|lia|lia|reflexivity|].
  rewrite (bind_Ok _ _ _ _ _ H1). change (seg_lo ELFHDR) with ELFHDR in M1.
  change (seg_hi ELFHDR (SECTSIZE * 8)) with (ELFHDR + 4096) in M1.
  assert (L1 : loaded s s1 0).
  { constructor; [done| |lia|].
    - intros x Hx. rewrite M1, (proj2 (Z.leb_le _ _)), (proj2 (Z.ltb_lt _ _)) by lia. cbn [andb]. f_equal. lia.
    - intros x Hx _. rewrite M1. destruct (Z.leb_spec ELFHDR x), (Z.ltb_spec x (ELFHDR + 4096)); done || lia. }
  unfold b_ld32, b_ld16. mrun. pose proof (ld_header _ _ _ L1) as Hh.
  replace (rd32 (b_mem s1) ELFHDR) with ELF_MAGIC by (rewrite <- (bt_magic _ B); symmetry; by apply (header_word s s1 0)).
  rewrite Z.eqb_refl. cbn [negb]. mrun. rewrite (header_word s s1 28), (header_half s s1 44) by (done || lia).
  fold (ph_off s) (ph_num s). rewrite !u32_small by lia.
  destruct (load_segments_ok s (Z.to_nat (ph_num s)) B s1 0 L1 ltac:(lia) ltac:(lia)) as (s2 & H2 & L2).
  replace (ELFHDR + ph_off s + 32 * 0) with (ELFHDR + ph_off s) in H2 by lia.
  rewrite (bind_Ok _ _ _ _ _ H2). exists s2. unfold mgets. rewrite (header_word s s2 24) by (apply L2 || lia).
  split_and!; [done|apply (ld_seg _ _ _ L2)|apply (ld_rest _ _ _ L2)].
Qed.
End boot_correct.

(** A disk with a kernel of one segment of 600 bytes, at 4096 in the image, to
    be loaded at 1M. *)
Definition demo_image (x : Z) : Z :=
  if x =? 0 then 127 else if x =? 1 then 69 else if x =? 2 then 76 else if x =? 3 then 70
  else if x =? 24 then 12 else if x =? 26 then 16 else if x =? 28 then 52 else if x =? 44 then 1
  else if x =? 57 then 16 else if x =? 66 then 16 else if x =? 72 then 88 else if x =? 73 then 2
  else if x <? 4096 then 0 else 7.
Definition demo_disk (x : Z) : Z := if x <? SECTSIZE then 0 else demo_image (x - SECTSIZE).
Definition demo_sectors (d lba : Z) : list Z := map (λ i, demo_disk (SECTSIZE * lba + i)) (seqZ 0 SECTSIZE).

Lemma demo_disk_range x : 0 ≤ demo_disk x < 2 ^ 8.
Proof. unfold demo_disk, demo_image. repeat case_match; lia. Qed.
Lemma demo_sectors_ok d lba : sector_ok (demo_sectors d lba).
Proof. apply sector_map_ok, demo_disk_range. Qed.

#[local] Existing Instance good_device.
#[local] Existing Instance good_laws.
Definition demo_boot : bst :=
  mkBst (λ _, 0) (exist _ (mkAta 0 0 0 0 224 AtaIdle demo_sectors) demo_sectors_ok : good_disk).

Lemma demo_boot_image x : 0 ≤ x → image demo_boot x = demo_image x.
Proof.
  intros Hx. unfold image. change (b_data demo_boot) with demo_sectors. unfold demo_sectors.
  rewrite disk_byte_map by lia. unfold demo_disk. rewrite (proj2 (Z.ltb_ge _ _)) by lia. f_equal. lia.
Qed.
Lemma demo_boot_word a : 0 ≤ a → rd32 (image demo_boot) a = rd32 demo_image a.
Proof. intros Ha. unfold rd32, rd8. by rewrite !demo_boot_image by lia. Qed.

Lemma demo_bootable : bootable demo_boot.
Proof.
  assert (Ho : ph_off demo_boot = 52) by (unfold ph_off; rewrite demo_boot_word by lia; reflexivity).
  assert (Hn : ph_num demo_boot = 1) by (unfold ph_num, rd16, rd8; rewrite !demo_boot_image by lia; reflexivity).
  assert (Hp : seg_pa demo_boot 0 = 1048576) by (unfold seg_pa; rewrite Ho, demo_boot_word by lia; reflexivity).
  assert (Hz : seg_sz demo_boot 0 = 600) by (unfold seg_sz; rewrite Ho, demo_boot_word by lia; reflexivity).
  assert (Hf : seg_of demo_boot 0 = 4096) by (unfold seg_of; rewrite Ho, demo_boot_word by lia; reflexivity).
  constructor; rewrite ?Ho, ?Hn.
  - rewrite demo_boot_word by lia. reflexivity.
  - lia.
  - intros k Hk. replace k with 0 by lia. rewrite Hp, Hz, Hf. split; [reflexivity|lia].
  - intros k x Hk Hx. replace k with 0 by lia. unfold in_seg. rewrite Hp.
    change (seg_lo 1048576) with 1048576. destruct (Z.leb_spec 1048576 x); [lia|reflexivity].
  - intros j k x Hj Hk. lia.
Qed.

Lemma bootmain_loads_witness : ∃ s', bootmain demo_boot = Ok 1048588 s'.
Proof.
  destruct (bootmain_loads demo_boot demo_bootable) as (s' & E & _). exists s'.
  rewrite demo_boot_word in E by lia. exact E.
Defined.

(* ------------------------------------------------------------------ *)
(** ** The first page directory *)

(** kern/entrypgdir.c: entry [i] of entry_pgdir and of entry_pgtable, with the
    link address of the table. *)
Definition entry_pgdir (pgtable i : Z) : Z :=
  if i =? 0 then u32 (u32 (pgtable - KERNBASE) + PTE_P)
  else if i =? Z.shiftr KERNBASE 22 then u32 (u32 (pgtable - KERNBASE) + PTE_P + PTE_W)
  else 0.
Definition entry_pgtable (i : Z) : Z := Z.lor (Z.lor (i * PGSIZE) PTE_P) PTE_W.

(** What the MMU makes of a supervisor's access with this directory, once
    entry.S has set CR0_PG and CR0_WP; [w] is a write. *)
Definition entry_translate (pgtable : Z) (w : bool) (va : Z) : option Z :=
  let pde := entry_pgdir pgtable (PDX va) in
  if negb (tst pde PTE_P) || (w && negb (tst pde PTE_W)) then None
  else if negb (PTE_ADDR pde =? u32 (pgtable - KERNBASE)) then None   (* some other memory *)
  else
    let pte := entry_pgtable (PTX va) in
    if negb (tst pte PTE_P) || (w && negb (tst pte PTE_W)) then None else Some (PTE_ADDR pte + PGOFF va).

Lemma tst_page a f k : 0 ≤ f < PGSIZE → 0 ≤ k < PGSIZE → tst (a * PGSIZE + f) k = tst f k.
Proof.
  intros Hf Hk. unfold tst. f_equal. f_equal. rewrite <- (Z.mod_small k (2 ^ 12)), <- land_low by lia.
  rewrite (Z.land_comm k), !Z.land_assoc, !land_low by lia.
  change PGSIZE with (2 ^ 12). by rewrite Z.add_comm, Z.mod_add by lia.
Qed.
Lemma PTE_ADDR_page a f : 0 ≤ f < PGSIZE → 0 ≤ a < 1048576 → PTE_ADDR (a * PGSIZE + f) = a * PGSIZE.
Proof.
  intros Hf Ha. rewrite PTE_ADDR_sub, u32_small by lia. rewrite Z.add_comm, Z.mod_add, Z.mod_small by lia. lia.
Qed.

(** The first 4M of physical memory are seen at KERNBASE, writable, and at 0,
    read-only; nothing else is mapped. *)
Theorem entry_pgdir_maps pgtable w va :
  pgtable mod PGSIZE = 0 → KERNBASE ≤ pgtable < 2 ^ 32 → 0 ≤ va < 2 ^ 32 →
  entry_translate pgtable w va =
    if va <? PTSIZE then (if w then None else Some va)
    else if (KERNBASE <=? va) && (va <? KERNBASE + PTSIZE) then Some (va - KERNBASE) else None.
Proof.
  intros Hal Hpt Hva. unfold entry_translate, entry_pgdir.
  apply Z.div_exact in Hal; [|lia]. set (q := pgtable / PGSIZE) in *.
  assert (Hpa : u32 (pgtable - KERNBASE) = (q - 983040) * PGSIZE) by (rewrite u32_small; lia). rewrite Hpa.
  rewrite PTX_div, PGOFF_mod, PDX_div, (u32_small va) by lia. change (Z.shiftr KERNBASE 22) with 960.
  assert (Hpte : ∀ i, 0 ≤ i < 1024 → entry_pgtable i = i * PGSIZE + 3).
  { intros i Hi. unfold entry_pgtable. change PGSIZE with (2 ^ 12). rewrite <- Z.lor_assoc. change (Z.lor PTE_P PTE_W) with 3. by rewrite lor_low by lia. }
  pose proof (Z.div_mod va PTSIZE ltac:(lia)) as Hd. pose proof (Z.mod_pos_bound va PTSIZE ltac:(lia)) as Hm.
  pose proof (Z.div_mod (va / PGSIZE) NPTENTRIES ltac:(lia)) as Hd2. pose proof (Z.div_mod va PGSIZE ltac:(lia)) as Hd3.
  pose proof (Z.mod_pos_bound (va / PGSIZE) NPTENTRIES ltac:(lia)) as Hm2. rewrite Z.div_div in Hd2 by lia.
  change (PGSIZE * NPTENTRIES) with PTSIZE in Hd2.
  pose proof (Z.mod_pos_bound va PGSIZE ltac:(lia)).
  rewrite Hpte by done. rewrite (tst_page _ 3), (tst_page _ 3), PTE_ADDR_page by lia.
  destruct (Z.eqb_spec (va / PTSIZE) 0) as [E0|E0]; [|destruct (Z.eqb_spec (va / PTSIZE) 960) as [E1|E1]].
  - rewrite u32_small by lia. rewrite !tst_page, PTE_ADDR_page, Z.eqb_refl by lia.
    rewrite (proj2 (Z.ltb_lt va PTSIZE)) by lia. destruct w; cbn; [done|]. f_equal. lia.
  - rewrite u32_small by lia. replace ((q - 983040) * PGSIZE + PTE_P + PTE_W) with ((q - 983040) * PGSIZE + 3) by lia.
    rewrite !tst_page, PTE_ADDR_page, Z.eqb_refl by lia.
    rewrite (proj2 (Z.ltb_ge va PTSIZE)), (proj2 (Z.leb_le KERNBASE va)), (proj2 (Z.ltb_lt va _)) by lia.
    destruct w; cbn; f_equal; lia.
  - cbn. destruct (Z.ltb_spec va PTSIZE); [lia|]. destruct (Z.leb_spec KERNBASE va), (Z.ltb_spec va (KERNBASE + PTSIZE)); done || lia.
Qed.
