(* ===== verification/Bc.v ===== *)
(** The block cache of the file server, fs/bc.c, and the bitmap test of
    fs/fs.c that its page fault handler calls.

    The disk is mapped at DISKMAP; a block is read in when an access to it
    faults.  [touch] is what the hardware does at an access: a page that may
    be accessed is marked (dirty, for a store), otherwise the page fault
    handler runs and the access is tried again.  The handler itself reads
    the superblock and the bitmap, which may fault in turn: the fuel of
    [touch] is the depth of nested faults, and [fault_depth] is enough. *)

From S2P Require Import Prelude Mmu Printfmt KState Syscall CString Ide.
From Stdlib Require Import ZArith Lia String.
From stdpp Require Import base tactics numbers list.
Open Scope Z_scope.

Abbreviation DISKMAP := 268435456 (only parsing).
Abbreviation DISKSIZE := 3221225472 (only parsing).
Abbreviation BLKBITSIZE := 32768 (only parsing).

(** The virtual address of a block, and what [super] and [bitmap] point to. *)
Definition blkva (b : Z) : Z := DISKMAP + b * BLKSIZE.
Definition super_va : Z := blkva 1.
Definition bitmap_va : Z := blkva 2.
(** &super->s_nblocks *)
Definition s_nblocks_va : Z := super_va + 4.

Section cache.
Context `{IdeDevice}.

Definition accessible (w : bool) (p : Z) : bool := tst p PTE_P && (negb w || tst p PTE_W).

(** ** The system calls on the server's own pages

    What kern/syscall.c does, seen from the caller: [f_avail] counts the
    pages the kernel can still allocate, one for the page and one for the
    page table if there is none yet. *)
Definition u_page_alloc (va perm : Z) : M fss Z := λ s,
  if bad_perm perm || bad_va va then Ok (- E_INVAL) s
  else
    let table := tst (f_pde s (PDX va)) PTE_P in
    if f_avail s <? 1 then Ok (- E_NO_MEM) s
    else if negb table && (f_avail s <? 2) then
      Ok (- E_NO_MEM) (fw_pages (f_pde s) (f_pte s) (f_avail s - 1) s)
    else
      Ok 0 (fw_mem (mem_set (f_mem s) va 0 PGSIZE)
        (fw_pages
           (λ d, if d =? PDX va then Z.lor (f_pde s d) (Z.lor (Z.lor PTE_P PTE_W) PTE_U) else f_pde s d)
           (λ n, if n =? PGNUM va then Z.lor perm PTE_P else f_pte s n)
           (f_avail s - (if table then 1 else 2)) s)).

(** sys_page_map of a page onto itself, to change its permissions.  With a
    page table but no page the kernel would map physical page 0. *)
Definition u_page_remap (va perm : Z) : M fss Z := λ s,
  if bad_perm perm || bad_va va then Ok (- E_INVAL) s
  else if negb (tst (f_pde s (PDX va)) PTE_P) then Ok (- E_INVAL) s
  else if negb (tst (pte_of s va) PTE_P) then Undef
  else Ok 0 (set_pte va (Z.lor perm PTE_P) s).

Definition u_page_unmap (va : Z) : M fss Z := λ s,
  if bad_va va then Ok (- E_INVAL) s
  else Ok 0 (set_pte va 0 s).

(** ** Loads and stores *)

(** [super && blockno >= super->s_nblocks] *)
Definition past_end (ld : Z → M fss Z) (blockno : Z) : M fss bool :=
  sup ← mgets f_super;
  if (sup : bool) then n ← ld s_nblocks_va; mret (n <=? blockno) else mret false.

Definition block_is_free_with (ld : Z → M fss Z) (blockno : Z) : M fss bool :=
  sup ← mgets f_super;
  if negb sup then mret false
  else
    n ← ld s_nblocks_va;
    if n <=? blockno then mret false
    else
      bm ← mgets f_bitmap;
      if negb bm then mundef
      else
        w ← ld (bitmap_va + 4 * (blockno / 32));
        mret (tst w (u32 (Z.shiftl 1 (blockno mod 32)))).

Definition bc_pgfault (ld : Z → M fss Z) (va : Z) : M fss unit :=
  let blockno := u32 (va - DISKMAP) / BLKSIZE in
  if (va <? DISKMAP) || (DISKMAP + DISKSIZE <=? va) then
    mpanic "page fault in FS: eip %08x, va %08x, err %04x"
  else
    bad ← past_end ld blockno;
    if (bad : bool) then mpanic "reading non-existent block %08x"
    else
      let addr := ROUNDDOWN va BLKSIZE in
      r ← u_page_alloc addr (Z.lor (Z.lor PTE_U PTE_W) PTE_P);
      if r <? 0 then mpanic "sys_page_alloc error in bc_pgfault" else
      r ← ide_read (u32 (Z.shiftl blockno 3)) addr BLKSECTS;
      if r <? 0 then mpanic "ide_read error in bc_pgfault" else
      pte ← mgets (λ s, pte_of s addr);
      r ← u_page_remap addr (Z.land pte PTE_SYSCALL);
      if r <? 0 then mpanic "sys_page_map error in bc_pgfault" else
      bm ← mgets f_bitmap;
      free ← (if (bm : bool) then block_is_free_with ld blockno else mret false);
      if (free : bool) then mpanic "reading free block %08x" else mret tt.

Fixpoint touch (fuel : nat) (w : bool) (va : Z) : M fss unit := λ s,
  if accessible w (pte_of s va) then Ok tt (if w then mark_dirty va s else s)
  else match fuel with
       | O => Noret Spinning s
       | S n =>
           (bc_pgfault (λ a, touch n false a;; mgets (λ s, rd32 (f_mem s) a)) va;;
            touch n w va) s
       end.

Definition fault_depth : nat := 3.

Definition ld8 (va : Z) : M fss Z := touch fault_depth false va;; mgets (λ s, rd8 (f_mem s) va).
Definition ld32 (va : Z) : M fss Z := touch fault_depth false va;; mgets (λ s, rd32 (f_mem s) va).
Definition st8 (va v : Z) : M fss unit :=
  touch fault_depth true va;; mmod (λ s, fw_mem (wr8 (f_mem s) va v) s).
Definition st32 (va v : Z) : M fss unit :=
  touch fault_depth true va;; mmod (λ s, fw_mem (wr32 (f_mem s) va v) s).

(** Every page of the [n] bytes at [va]. *)
Definition touch_range (w : bool) (va n : Z) : M fss unit :=
  mfor (seqZ (PGNUM va) (if n =? 0 then 0 else PGNUM (va + n - 1) - PGNUM va + 1))
    (λ p, touch fault_depth w (p * PGSIZE)).
Definition u_memset (va c n : Z) : M fss unit :=
  touch_range true va n;; mmod (λ s, fw_mem (memset (f_mem s) va c n) s).
Definition u_memmove (dst src n : Z) : M fss unit :=
  touch_range false src n;; touch_range true dst n;;
  mmod (λ s, fw_mem (memmove (f_mem s) dst src n) s).

(** ** fs/bc.c and the bitmap of fs/fs.c *)

Definition block_is_free (blockno : Z) : M fss bool := block_is_free_with ld32 blockno.

Definition diskaddr (blockno : Z) : M fss Z :=
  if blockno =? 0 then mpanic "bad block number %08x in diskaddr"
  else
    bad ← past_end ld32 blockno;
    if (bad : bool) then mpanic "bad block number %08x in diskaddr"
    else mret (u32 (DISKMAP + blockno * BLKSIZE)).

Definition va_is_mapped (va : Z) : M fss bool :=
  mgets (λ s, tst (f_pde s (PDX va)) PTE_P && tst (pte_of s va) PTE_P).
Definition va_is_dirty (va : Z) : M fss bool := mgets (λ s, tst (pte_of s va) PTE_D).

Definition flush_block (addr : Z) : M fss unit :=
  let blockno := u32 (addr - DISKMAP) / BLKSIZE in
  if (addr <? DISKMAP) || (DISKMAP + DISKSIZE <=? addr) then
    mpanic "flush_block of bad va %08x"
  else
    let addr := ROUNDDOWN addr BLKSIZE in
    m ← va_is_mapped addr;
    if negb m then mret tt else
    d ← va_is_dirty addr;
    if negb d then mret tt else
    r ← ide_write (u32 (Z.shiftl blockno 3)) addr 8;
    if r <? 0 then mpanic "ide_write error in flush_block" else
    pte ← mgets (λ s, pte_of s addr);
    r ← u_page_remap addr (Z.land pte PTE_SYSCALL);
    if r <? 0 then mpanic "sys_page_map error in flush_block" else mret tt.
End cache.

(** ** Counting *)

Definition count (f : Z → bool) (l : list Z) : Z := Z.of_nat (length (List.filter f l)).

Lemma count_nonneg f l : 0 ≤ count f l.
Proof. unfold count. lia. Qed.

Lemma count_le f l : count f l ≤ Z.of_nat (length l).
Proof. unfold count. pose proof (List.filter_length_le f l). lia. Qed.

Lemma count_cons f x l : count f (x :: l) = (if f x then 1 else 0) + count f l.
Proof. unfold count. cbn. destruct (f x); cbn [length]; lia. Qed.

Lemma count_ext f g l : (∀ x, x ∈ l → f x = g x) → count f l = count g l.
Proof.
  induction l as [|x l IH]; intros Hfg; [done|]. rewrite !count_cons, IH by (intros; apply Hfg; by right).
  by rewrite Hfg by left.
Qed.

Lemma count_mono f g l : (∀ x, x ∈ l → g x = true → f x = true) → count g l ≤ count f l.
Proof.
  induction l as [|x l IH]; intros Hfg; [done|]. rewrite !count_cons.
  specialize (IH ltac:(intros; apply Hfg; [by right|done])).
  pose proof (Hfg x ltac:(left)). destruct (f x), (g x); lia || naive_solver.
Qed.

Lemma count_one f g l x :
  NoDup l → x ∈ l → f x = true → g x = false → (∀ y, y ≠ x → g y = f y) →
  count g l = count f l - 1.
Proof.
  intros Hnd Hx Hf Hg Hne. induction Hnd as [|y l Hy _ IH]; [by apply elem_of_nil in Hx|].
  rewrite !count_cons. apply elem_of_cons in Hx as [->|Hx].
  - rewrite Hf, Hg, (count_ext g f); [lia|]. intros z Hz. apply Hne. by intros ->.
  - rewrite IH by done. rewrite (Hne y) by (by intros ->). lia.
Qed.

(** ** Pages of the cache *)

Lemma PGNUM_pg a : 0 ≤ a < 2 ^ 32 → PGNUM a = a / 4096.
Proof. intros. by rewrite PGNUM_div, u32_small by lia. Qed.

Lemma PDX_pg a : 0 ≤ a < 2 ^ 32 → PDX a = a / 4096 / 1024.
Proof. intros. by rewrite PDX_div, u32_small, Z.div_div by lia. Qed.

Definition in_cache (a : Z) : bool := (DISKMAP <=? a) && (a <? DISKMAP + DISKSIZE).
(** The block an address of the cache belongs to, and the page of a block. *)
Definition blk (a : Z) : Z := a / 4096 - 65536.
Definition pg (b : Z) : Z := 65536 + b.

Lemma in_cache_spec a : in_cache a = true ↔ DISKMAP ≤ a < DISKMAP + DISKSIZE.
Proof. unfold in_cache. rewrite andb_true_iff, Z.leb_le, Z.ltb_lt. done. Qed.

Lemma in_cache_blk a : in_cache a = true ↔ 0 ≤ blk a < 786432.
Proof.
  rewrite in_cache_spec. unfold blk. pose proof (Z.div_mod a 4096). pose proof (Z.mod_pos_bound a 4096).
  lia.
Qed.

Lemma pg_blk a : pg (blk a) = a / 4096.
Proof. unfold pg, blk. lia. Qed.

Lemma blk_page a b : blk a = b ↔ blkva b ≤ a < blkva b + 4096.
Proof.
  unfold blk, blkva. pose proof (Z.div_mod a 4096). pose proof (Z.mod_pos_bound a 4096). lia.
Qed.

Section view.
Context `{L : IdeLaws}.

Definition present (s : fss) (a : Z) : bool := tst (f_pte s (a / 4096)) PTE_P.

(** What the server sees at an address, whether or not its block has been
    read in. *)
Definition view (s : fss) (a : Z) : Z :=
  if in_cache a && negb (present s a) then f_data s (a - DISKMAP) else rd8 (f_mem s) a.

End view.

(** Words, the size of the disk and the bits of the bitmap, in a view. *)
Definition v32 (v : Z → Z) (a : Z) : Z :=
  v a + 2 ^ 8 * v (a + 1) + 2 ^ 16 * v (a + 2) + 2 ^ 24 * v (a + 3).
Definition nblocks (v : Z → Z) : Z := v32 v s_nblocks_va.
Definition word_va (b : Z) : Z := bitmap_va + 4 * (b / 32).
Definition vfree (v : Z → Z) (b : Z) : bool := Z.testbit (v32 v (word_va b)) (b mod 32).
(** The block of the bitmap that holds the bit of [b]. *)
Definition bb (b : Z) : Z := 2 + b / BLKBITSIZE.

(** A disk that check_super and check_bitmap accept, large enough to hold its
    bitmap. *)
Record layout_ok (v : Z → Z) : Prop := {
  l_size : 2 < nblocks v ≤ 786432;
  l_bitmap : ∀ b, 0 ≤ b < nblocks v → bb b < nblocks v ∧ vfree v (bb b) = false;
  l_one : vfree v 1 = false }.

#[export] Instance v32_proper : Proper (pointwise_relation Z eq ==> eq ==> eq) v32.
Proof. intros v v' Hv a ? <-. unfold v32. by rewrite !Hv. Qed.
#[export] Instance nblocks_proper : Proper (pointwise_relation Z eq ==> eq) nblocks.
Proof. intros v v' Hv. unfold nblocks. by rewrite Hv. Qed.
#[export] Instance vfree_proper : Proper (pointwise_relation Z eq ==> eq ==> eq) vfree.
Proof. intros v v' Hv b ? <-. unfold vfree. by rewrite Hv. Qed.
#[export] Instance layout_ok_proper : Proper (pointwise_relation Z eq ==> iff) layout_ok.
Proof.
  assert (∀ v v', pointwise_relation Z eq v v' → layout_ok v → layout_ok v') as Hp.
  { intros v v' Hv [H1 H2 H3]. split.
    - by rewrite <- Hv.
    - intros b. rewrite <- Hv. apply H2.
    - by rewrite <- Hv. }
  intros v v' Hv. split; by apply Hp.
Qed.

Section cache_correct.
Context `{L : IdeLaws}.
Implicit Types s : fss.

Definition unread (s : fss) (b : Z) : bool := negb (tst (f_pte s (pg b)) PTE_P).
Definition no_table (s : fss) (d : Z) : bool := negb (tst (f_pde s d) PTE_P).
(** The physical pages that reading in the rest of an [n]-block disk takes. *)
Definition missing (n : Z) (s : fss) : Z :=
  count (unread s) (seqZ 1 (n - 1)) + count (no_table s) (seqZ 64 768).

Record cache_ok (n : Z) (s : fss) : Prop := {
  c_disk : f_diskno s = 0 ∨ f_diskno s = 1;
  c_super : f_super s = true;
  c_bitmap : f_bitmap s = true;
  c_one : present s super_va = true;
  c_flags : ∀ b, 0 ≤ b < 786432 → unread s b = false →
    Z.land (f_pte s (pg b)) 7 = 7 ∧ no_table s (pg b / 1024) = false;
  c_clean : ∀ a, in_cache a = true → present s a = true → tst (f_pte s (a / 4096)) PTE_D = false →
    rd8 (f_mem s) a = f_data s (a - DISKMAP);
  c_budget : missing n s ≤ f_avail s }.

Definition bc_ok (s : fss) : Prop := cache_ok (nblocks (view s)) s ∧ layout_ok (view s).

(** [s'] differs from [s] only in what has been read in. *)
Record ext (s s' : fss) : Prop := {
  e_view : pointwise_relation Z eq (view s) (view s');
  e_data : a_data (f_ata s') = a_data (f_ata s);
  e_pte : ∀ p, tst (f_pte s p) PTE_P = true ∨ p < 65536 ∨ 65536 + 786432 ≤ p → f_pte s' p = f_pte s p;
  e_vars : f_diskno s' = f_diskno s ∧ f_super s' = f_super s ∧ f_bitmap s' = f_bitmap s ∧
    f_log s' = f_log s }.

#[export] Instance ext_preorder : PreOrder ext.
Proof.
  split.
  - intros s. by split.
  - intros s1 s2 s3 [V1 D1 P1 (A1&B1&C1&E1)] [V2 D2 P2 (A2&B2&C2&E2)]. split.
    + by rewrite V1.
    + by rewrite D2.
    + intros p Hp. rewrite P2, P1; [done|done|]. destruct Hp as [Hp|Hp]; [left; by rewrite P1 by (by left)|by right].
    + by rewrite A2, B2, C2, E2.
Qed.

Lemma ext_present s s' a : ext s s' → present s a = true → present s' a = true.
Proof. intros E. unfold present. intros Hp. by rewrite (e_pte _ _ E) by (by left). Qed.

Lemma ext_layout s s' : ext s s' → layout_ok (view s) → layout_ok (view s').
Proof. intros E. by rewrite (e_view _ _ E). Qed.

Lemma flags_access w p : Z.land p 7 = 7 → accessible w p = true.
Proof.
  intros Hp. assert (∀ i, 0 ≤ i < 3 → Z.testbit p i = true) as Hb.
  { intros i Hi. assert (Z.testbit (Z.land p 7) i = true) as Hl
      by (rewrite Hp; change 7 with (Z.ones 3); apply Z.ones_spec_low; lia).
    rewrite Z.land_spec in Hl. by apply andb_true_iff in Hl as [? _]. }
  unfold accessible. change (tst p PTE_P) with (tst p (2 ^ 0)). change (tst p PTE_W) with (tst p (2 ^ 1)).
  rewrite !tst_bit, !Hb by lia. by rewrite orb_true_r.
Qed.

Lemma unread_present s a : unread s (blk a) = negb (present s a).
Proof. unfold unread, present. by rewrite pg_blk. Qed.

Lemma cache_access n s w a :
  cache_ok n s → in_cache a = true → present s a = true → accessible w (pte_of s a) = true.
Proof.
  intros C Ha Hp. assert (0 ≤ a < 2 ^ 32) by (apply in_cache_spec in Ha; lia).
  unfold pte_of. rewrite PGNUM_pg by done. apply flags_access. rewrite <- pg_blk.
  apply (c_flags _ _ C); [by apply in_cache_blk|]. by rewrite unread_present, Hp.
Qed.

(** A load from a page that is there. *)
Lemma touch_present n s a fuel :
  cache_ok n s → in_cache a = true → present s a = true → touch fuel false a s = Ok tt s.
Proof.
  intros C Ha Hp. pose proof (cache_access n s false a C Ha Hp) as Hacc.
  destruct fuel; cbn [touch]; by rewrite Hacc.
Qed.

Lemma view_present s a : present s a = true → view s a = rd8 (f_mem s) a.
Proof. intros Hp. unfold view. by rewrite Hp, andb_false_r. Qed.

Lemma v32_present s a :
  (a mod 4096 ≤ 4092) → present s a = true → v32 (view s) a = rd32 (f_mem s) a.
Proof.
  intros Ha Hp. assert (∀ i, 0 ≤ i < 4 → (a + i) / 4096 = a / 4096) as Hd.
  { intros i Hi. pose proof (Z.div_mod a 4096). pose proof (Z.mod_pos_bound a 4096).
    symmetry. apply (Z.div_unique_pos _ _ _ (a mod 4096 + i)); lia. }
  unfold v32, rd32. rewrite !view_present; [done|..]; unfold present; rewrite ?Hd by lia; exact Hp.
Qed.

(** ** Reading a block in *)

Lemma blkva_pgnum b i : 0 ≤ b < 786432 → 0 ≤ i < 4096 → PGNUM (blkva b + i) = pg b.
Proof.
  intros Hb Hi. unfold blkva, pg. rewrite PGNUM_pg by lia.
  symmetry. apply (Z.div_unique_pos _ _ _ i); lia.
Qed.

Lemma blkva_pdx b : 0 ≤ b < 786432 → PDX (blkva b) = pg b / 1024.
Proof.
  intros Hb. unfold blkva, pg. rewrite PDX_pg by lia. f_equal.
  symmetry. apply (Z.div_unique_pos _ _ _ 0); lia.
Qed.

Lemma blkva_good b : 0 ≤ b < 786432 → bad_va (blkva b) = false.
Proof.
  intros Hb. unfold bad_va. assert (blkva b < UTOP) by (unfold blkva; lia).
  assert (blkva b mod PGSIZE = 0) as -> by (unfold blkva;
    rewrite Z.mod_add by lia; done).
  rewrite orb_false_r. by apply Z.leb_gt.
Qed.

(** The state after sys_page_alloc, ide_read and sys_page_map in
    bc_pgfault. *)
Lemma fetch_steps s b :
  0 ≤ b < 786432 → f_diskno s = 0 ∨ f_diskno s = 1 →
  (if no_table s (pg b / 1024) then 2 else 1) ≤ f_avail s →
  ∃ s1 s2 s3,
    u_page_alloc (blkva b) (Z.lor (Z.lor PTE_U PTE_W) PTE_P) s = Ok 0 s1 ∧
    ide_read (8 * b) (blkva b) BLKSECTS s1 = Ok 0 s2 ∧
    u_page_remap (blkva b) (Z.land (pte_of s2 (blkva b)) PTE_SYSCALL) s2 = Ok 0 s3 ∧
    (∀ p, f_pte s3 p = if p =? pg b then 7 else f_pte s p) ∧
    (∀ d, no_table s3 d = if d =? pg b / 1024 then false else no_table s d) ∧
    f_avail s3 = f_avail s - (if no_table s (pg b / 1024) then 2 else 1) ∧
    a_data (f_ata s3) = a_data (f_ata s) ∧
    (∀ x, rd8 (f_mem s3) x = if blk x =? b then f_data s (x - DISKMAP) else rd8 (f_mem s) x) ∧
    f_diskno s3 = f_diskno s ∧ f_super s3 = f_super s ∧ f_bitmap s3 = f_bitmap s ∧ f_log s3 = f_log s.
Proof.
  intros Hb Hd Hav. assert (PGNUM (blkva b) = pg b) as Hpg
    by (rewrite <- (blkva_pgnum b 0) by lia; f_equal; lia).
  unfold u_page_alloc at 1. rewrite blkva_good by done. rewrite blkva_pdx, Hpg by done.
  change (bad_perm (Z.lor (Z.lor PTE_U PTE_W) PTE_P) || false) with false. cbv beta iota.
  fold (no_table s (pg b / 1024)).
  rewrite (proj2 (Z.ltb_ge (f_avail s) 1)) by (destruct (no_table _ _); lia).
  replace (no_table s (pg b / 1024) && (f_avail s <? 2)) with false
    by (destruct (no_table s (pg b / 1024)); cbn; [symmetry; apply Z.ltb_ge; lia|done]).
  eexists. set (s1 := fw_mem _ _).
  destruct (ide_read_ok s1 (8 * b) (blkva b) 8 (pg b)) as (s2 & H2 & R2 & D2 & T2 & M2).
  { lia. } { lia. } { exact Hd. } { intros i Hi. apply blkva_pgnum; lia. }
  { cbn. rewrite Z.eqb_refl. done. }
  assert (T1 : f_pte s1 (pg b) = 7) by (cbn; by rewrite Z.eqb_refl).
  assert (pte_of s2 (blkva b) = 71) as Hp2.
  { unfold pte_of. rewrite Hpg, T2, Z.eqb_refl, T1. done. }
  exists s2. destruct R2 as (P2 & A2 & N2 & S2 & B2 & L2).
  unfold u_page_remap. rewrite Hp2, blkva_good, blkva_pdx by done.
  assert (∀ d, no_table s2 d = if d =? pg b / 1024 then false else no_table s d) as Ht.
  { intros d. unfold no_table. rewrite P2. cbn. destruct (Z.eqb_spec d (pg b / 1024)) as [->|]; [|done].
    change (Z.lor (Z.lor PTE_P PTE_W) PTE_U) with 7.
    change (tst (Z.lor (f_pde s (pg b / 1024)) 7) PTE_P) with
      (tst (Z.lor (f_pde s (pg b / 1024)) 7) (2 ^ 0)).
    rewrite tst_bit, Z.lor_spec by lia. by rewrite orb_true_r. }
  change (bad_perm (Z.land 71 PTE_SYSCALL) || false) with false. cbv beta iota.
  fold (no_table s2 (pg b / 1024)). rewrite Ht, Z.eqb_refl.
  change (negb (tst 71 PTE_P)) with false. cbv beta iota.
  eexists. split; [reflexivity|]. split; [exact H2|]. split; [reflexivity|].
  split_and!; try done.
  - intros p. cbn. rewrite Hpg, T2. destruct (Z.eqb_spec p (pg b)) as [->|]; [done|].
    unfold s1. cbn. by destruct (Z.eqb_spec p (pg b)).
  - cbn [set_pte fw_pte fw_pages f_avail]. rewrite A2. unfold s1. cbn.
    unfold no_table. by destruct (tst (f_pde s (pg b / 1024)) PTE_P).
  - intros x. cbn [set_pte fw_pte fw_pages f_mem]. rewrite M2. unfold f_data.
    assert ((blk x =? b) = (blkva b <=? x) && (x <? blkva b + SECTSIZE * 8)) as ->.
    { pose proof (blk_page x b). destruct (Z.eqb_spec (blk x) b), (Z.leb_spec (blkva b) x),
        (Z.ltb_spec x (blkva b + SECTSIZE * 8)); cbn [andb]; try done; lia. }
    destruct (Z.leb_spec (blkva b) x), (Z.ltb_spec x (blkva b + SECTSIZE * 8)); cbn [andb].
    + f_equal. unfold blkva. lia.
    + unfold s1. cbn [f_mem fw_mem]. by rewrite rd8_mem_set_out by lia.
    + unfold s1. cbn [f_mem fw_mem]. by rewrite rd8_mem_set_out by lia.
    + unfold s1. cbn [f_mem fw_mem]. by rewrite rd8_mem_set_out by lia.
Qed.

Lemma missing_fetch n s b s' :
  1 ≤ b < n → n ≤ 786432 → unread s b = true →
  (∀ p, f_pte s' p = if p =? pg b then 7 else f_pte s p) →
  (∀ d, no_table s' d = if d =? pg b / 1024 then false else no_table s d) →
  missing n s' = missing n s - (if no_table s (pg b / 1024) then 2 else 1).
Proof.
  intros Hb Hn Hu Hp Hd. unfold missing.
  rewrite (count_one (unread s) (unread s') _ b).
  - destruct (no_table s (pg b / 1024)) eqn:Ht.
    + rewrite (count_one (no_table s) (no_table s') _ (pg b / 1024)); [lia| | |done| |].
      * apply NoDup_seqZ.
      * apply elem_of_seqZ. unfold pg. pose proof (Z.div_mod (65536 + b) 1024).
        pose proof (Z.mod_pos_bound (65536 + b) 1024). lia.
      * rewrite Hd. by rewrite Z.eqb_refl.
      * intros d Hne. rewrite Hd. by destruct (Z.eqb_spec d (pg b / 1024)).
    + rewrite (count_ext (no_table s') (no_table s)); [lia|]. intros d _. rewrite Hd.
      by destruct (Z.eqb_spec d (pg b / 1024)) as [->|].
  - apply NoDup_seqZ.
  - apply elem_of_seqZ. lia.
  - done.
  - unfold unread. by rewrite Hp, Z.eqb_refl.
  - intros y Hy. unfold unread. rewrite Hp. destruct (Z.eqb_spec (pg y) (pg b)); [|done].
    unfold pg in *. lia.
Qed.

Lemma missing_need n s b :
  1 ≤ b < n → n ≤ 786432 → unread s b = true →
  (if no_table s (pg b / 1024) then 2 else 1) ≤ missing n s.
Proof.
  intros Hb Hn Hu.
  assert (∀ f l x, x ∈ l → f x = true → 1 ≤ count f l) as Hc.
  { intros f l x Hx Hf. induction l as [|y l IH]; [by apply elem_of_nil in Hx|].
    rewrite count_cons. apply elem_of_cons in Hx as [->|Hx].
    - rewrite Hf. pose proof (count_nonneg f l). lia.
    - specialize (IH Hx). destruct (f y); lia. }
  unfold missing. assert (1 ≤ count (unread s) (seqZ 1 (n - 1)))
    by (apply (Hc _ _ b); [apply elem_of_seqZ; lia|done]).
  pose proof (count_nonneg (no_table s) (seqZ 64 768)).
  destruct (no_table s (pg b / 1024)) eqn:Ht; [|lia].
  assert (1 ≤ count (no_table s) (seqZ 64 768)); [|lia].
  apply (Hc _ _ (pg b / 1024)); [|done]. apply elem_of_seqZ. unfold pg.
  pose proof (Z.div_mod (65536 + b) 1024). pose proof (Z.mod_pos_bound (65536 + b) 1024). lia.
Qed.

Lemma fetch_ok n s b :
  cache_ok n s → 1 ≤ b < n → n ≤ 786432 → unread s b = true →
  ∃ s1 s2 s3,
    u_page_alloc (blkva b) (Z.lor (Z.lor PTE_U PTE_W) PTE_P) s = Ok 0 s1 ∧
    ide_read (8 * b) (blkva b) BLKSECTS s1 = Ok 0 s2 ∧
    u_page_remap (blkva b) (Z.land (pte_of s2 (blkva b)) PTE_SYSCALL) s2 = Ok 0 s3 ∧
    cache_ok n s3 ∧ ext s s3 ∧ unread s3 b = false.
Proof.
  intros C Hb Hn Hu. pose proof (missing_need n s b Hb Hn Hu) as Hneed.
  destruct (fetch_steps s b ltac:(lia) (c_disk _ _ C)) as
    (s1 & s2 & s3 & H1 & H2 & H3 & Hp & Hd & Ha & Hda & Hm & Hv).
  { pose proof (c_budget _ _ C). lia. }
  destruct Hv as (Hv1 & Hv2 & Hv3 & Hv4).
  assert (∀ a, present s3 a = if blk a =? b then true else present s a) as Hpr.
  { intros a. unfold present. rewrite Hp. unfold blk, pg.
    destruct (Z.eqb_spec (a / 4096) (65536 + b)), (Z.eqb_spec (a / 4096 - 65536) b); done || lia. }
  assert (∀ x, f_data s3 x = f_data s x) as Hfd by (intros x; unfold f_data; by rewrite Hda, Hv1).
  assert (∀ b', unread s3 b' = if b' =? b then false else unread s b') as Hun.
  { intros b'. unfold unread. rewrite Hp. unfold pg.
    destruct (Z.eqb_spec (65536 + b') (65536 + b)), (Z.eqb_spec b' b); done || lia. }
  exists s1, s2, s3. split_and!; [done..| | |by rewrite Hun, Z.eqb_refl].
  - destruct C as [Cd Cs Cb Co Cf Cc Cg]. split; try congruence.
    + rewrite Hpr. destruct (blk super_va =? b); done.
    + intros b' Hb'. rewrite Hun, Hd, Hp. destruct (Z.eqb_spec b' b) as [->|Hne].
      * intros _. rewrite !Z.eqb_refl. done.
      * intros Hu'. destruct (Z.eqb_spec (pg b') (pg b)); [unfold pg in *; lia|].
        destruct (Cf b' Hb' Hu') as [? ->]. split; [done|]. by destruct (_ =? _).
    + intros a Hia. rewrite Hpr, Hp, Hm, Hfd. pose proof (pg_blk a) as Hpb.
      destruct (Z.eqb_spec (blk a) b) as [He|Hne]; [done|].
      destruct (Z.eqb_spec (a / 4096) (pg b)); [unfold pg in *; lia|]. by apply Cc.
    + rewrite (missing_fetch n s b s3), Ha by done. lia.
  - split; [|done| |done].
    + intros a. unfold view. rewrite Hpr, Hm, Hfd.
      destruct (Z.eqb_spec (blk a) b) as [He|Hne]; [|done].
      assert (in_cache a = true) as Hia by (apply in_cache_blk; lia). rewrite Hia.
      assert (present s a = false) as -> by (rewrite <- He, unread_present in Hu; by apply negb_true_iff).
      done.
    + intros p Hpp. rewrite Hp. destruct (Z.eqb_spec p (pg b)) as [->|]; [|done].
      unfold unread in Hu. apply negb_true_iff in Hu. rewrite Hu in Hpp. unfold pg in Hpp. 
      destruct Hpp as [|Hpp]; [done|lia].
Qed.

(** ** Faults and nested faults *)

(** How deep the faults nest when block [b] is accessed: reading its bit may
    fault on the bitmap block that holds it, and so on. *)
Fixpoint near (n : nat) (s : fss) (b : Z) : Prop :=
  unread s b = false ∨ match n with O => False | S n => b = bb b ∨ near n s (bb b) end.

Lemma near_read n s b : unread s b = false → near n s b.
Proof. destruct n; by left. Qed.

Lemma near_ext n s s' b : ext s s' → near n s b → near n s' b.
Proof.
  intros E. assert (∀ b, unread s b = false → unread s' b = false) as Hu.
  { intros b'. unfold unread. rewrite !negb_false_iff. intros Hp. by rewrite (e_pte _ _ E) by (by left). }
  revert b. induction n as [|n IH]; intros b [Hb|Hb]; [by left; apply Hu|done|by left; apply Hu|].
  destruct Hb as [Hb|Hb]; [right; by left|]. right. right. by apply IH.
Qed.

(** Three levels are enough: the bits of the bitmap blocks are in block 2. *)
Lemma near_enough s b : 0 ≤ b < 786432 → near fault_depth s b.
Proof.
  intros Hb. right. right. right. right. right. left. unfold bb.
  assert (0 ≤ b / BLKBITSIZE < 24) as Hq.
  { split; [apply Z.div_pos; lia|]. apply Z.div_lt_upper_bound; lia. }
  rewrite (Z.div_small (2 + b / BLKBITSIZE)) by lia. done.
Qed.

Lemma bc_ok_ext s s' : bc_ok s → ext s s' → cache_ok (nblocks (view s)) s' → bc_ok s'.
Proof. intros [_ Hl] E Hc. split; [by rewrite <- (e_view _ _ E)|by eapply ext_layout]. Qed.

Lemma word_va_blk b : 0 ≤ b → blk (word_va b) = bb b.
Proof.
  intros Hb. unfold blk, word_va, bitmap_va, blkva, bb.
  replace (DISKMAP + 2 * BLKSIZE + 4 * (b / 32)) with (4 * (b / 32) + 65538 * 4096) by lia.
  rewrite Z.div_add by lia. replace 4096 with (4 * 1024) at 1 by lia.
  rewrite Z.div_mul_cancel_l, Z.div_div by lia. change (32 * 1024) with BLKBITSIZE. lia.
Qed.

Lemma aligned_fits a : a mod 4 = 0 → a mod 4096 ≤ 4092.
Proof.
  intros Ha. pose proof (Z.div_mod a 4). pose proof (Z.div_mod a 4096).
  pose proof (Z.mod_pos_bound a 4096). lia.
Qed.

Lemma word_va_aligned b : word_va b mod 4 = 0.
Proof.
  unfold word_va, bitmap_va, blkva.
  replace (DISKMAP + 2 * BLKSIZE + 4 * (b / 32)) with ((67110912 + b / 32) * 4) by lia.
  apply Z.mod_mul. lia.
Qed.

Lemma tst_bitmap w b : 0 ≤ b → tst w (u32 (Z.shiftl 1 (b mod 32))) = Z.testbit w (b mod 32).
Proof.
  intros Hb. pose proof (Z.mod_pos_bound b 32). rewrite Z.shiftl_1_l, u32_small.
  - apply tst_bit. lia.
  - split; [lia|]. apply Z.pow_lt_mono_r; lia.
Qed.

(** The reads of bc_pgfault. *)
Definition ldn (n : nat) (a : Z) : M fss Z := touch n false a;; mgets (λ s, rd32 (f_mem s) a).

Lemma ldn_present m n s a :
  cache_ok m s → in_cache a = true → present s a = true → a mod 4 = 0 →
  ldn n a s = Ok (v32 (view s) a) s.
Proof.
  intros C Ha Hp Hal. unfold ldn. rewrite (bind_Ok _ _ _ _ _ (touch_present m s a n C Ha Hp)).
  unfold mgets. rewrite v32_present; [done|by apply aligned_fits|done].
Qed.

Lemma ldn_nblocks m n s : cache_ok m s → ldn n s_nblocks_va s = Ok (nblocks (view s)) s.
Proof. intros C. eapply ldn_present; [done..|exact (c_one _ _ C)|done]. Qed.

Lemma past_end_ok m n s b : cache_ok m s → past_end (ldn n) b s = Ok (nblocks (view s) <=? b) s.
Proof.
  intros C. unfold past_end. mrun. rewrite (c_super _ _ C).
  by rewrite (bind_Ok _ _ _ _ _ (ldn_nblocks m n s C)).
Qed.

(** The block number and the address of the page that bc_pgfault and
    flush_block compute. *)
Lemma cache_addr a :
  in_cache a = true → u32 (a - DISKMAP) / BLKSIZE = blk a ∧ ROUNDDOWN a BLKSIZE = blkva (blk a).
Proof.
  intros Hr%in_cache_spec. unfold ROUNDDOWN. rewrite !u32_small by lia. unfold blkva, blk. split.
  - replace (a - DISKMAP) with (a + -65536 * 4096) by lia. rewrite Z.div_add by lia. lia.
  - pose proof (Z.div_mod a 4096). lia.
Qed.

Lemma sector_of b : 0 ≤ b < 786432 → u32 (Z.shiftl b 3) = 8 * b.
Proof. intros Hb. rewrite Z.shiftl_mul_pow2, u32_small by lia. lia. Qed.

(** The blocks that may be accessed: those in use, and those already read in. *)
Definition usable (s : fss) (b : Z) : Prop :=
  1 ≤ b < nblocks (view s) ∧ (unread s b = false ∨ vfree (view s) b = false).

(** What [touch] is shown to do, for the fuel [n] of the nested faults. *)
Definition touch_spec (n : nat) : Prop := ∀ s w va,
  bc_ok s → usable s (blk va) → near n s (blk va) →
  ∃ s1, touch n w va s = Ok tt (if w then mark_dirty va s1 else s1) ∧
    ext s s1 ∧ bc_ok s1 ∧ present s1 va = true.

Lemma usable_cache s va : bc_ok s → usable s (blk va) → in_cache va = true.
Proof. intros [_ Hl] [Hb _]. apply in_cache_blk. pose proof (l_size _ Hl). lia. Qed.

Lemma free_test_ok n s b :
  touch_spec n → bc_ok s → 1 ≤ b < nblocks (view s) → near n s (bb b) →
  ∃ s', block_is_free_with (ldn n) b s = Ok (vfree (view s) b) s' ∧ ext s s' ∧ bc_ok s'.
Proof.
  intros IH [C Hl] Hb Hn. destruct (l_bitmap _ Hl b ltac:(lia)) as [Hbb Hbf].
  unfold block_is_free_with. mrun. rewrite (c_super _ _ C). cbn [negb].
  rewrite (bind_Ok _ _ _ _ _ (ldn_nblocks _ n s C)), (proj2 (Z.leb_gt _ _)) by lia. mrun.
  rewrite (c_bitmap _ _ C). cbn [negb]. fold (word_va b).
  assert (1 ≤ bb b) by (unfold bb; pose proof (Z.div_pos b BLKBITSIZE); lia).
  destruct (IH s false (word_va b)) as (s1 & H1 & E1 & B1 & P1).
  { done. } { rewrite word_va_blk by lia. split; [lia|by right]. } { by rewrite word_va_blk by lia. }
  exists s1. split; [|done]. erewrite bind_Ok; [|unfold ldn; by rewrite (bind_Ok _ _ _ _ _ H1)].
  rewrite <- (v32_present s1) by (done || apply aligned_fits, word_va_aligned).
  rewrite <- (e_view _ _ E1). unfold mret, M_ret, vfree. by rewrite tst_bitmap by lia.
Qed.

Lemma bc_pgfault_ok n s va :
  touch_spec n → bc_ok s → usable s (blk va) → unread s (blk va) = true → near (S n) s (blk va) →
  ∃ s', bc_pgfault (ldn n) va s = Ok tt s' ∧ ext s s' ∧ bc_ok s' ∧ present s' va = true.
Proof.
  intros IH B U Hu Hn. pose proof (usable_cache _ _ B U) as Hc. destruct B as [C Hl].
  destruct U as [Hb [|Hf]]; [congruence|]. pose proof (l_size _ Hl) as Hsz.
  pose proof (proj1 (in_cache_spec va) Hc) as Hr. set (b := blk va) in *.
  unfold bc_pgfault. rewrite (proj2 (Z.ltb_ge va DISKMAP)), (proj2 (Z.leb_gt _ va)) by lia. cbn [orb].
  destruct (cache_addr va Hc) as [-> ->]. fold b.
  rewrite (bind_Ok _ _ _ _ _ (past_end_ok _ n s b C)), (proj2 (Z.leb_gt _ b)) by lia.
  destruct (fetch_ok _ s b C Hb ltac:(lia) Hu) as (s1 & s2 & s3 & H1 & H2 & H3 & C3 & E3 & P3).
  rewrite (bind_Ok _ _ _ _ _ H1), sector_of by lia. cbn [Z.ltb Z.compare].
  rewrite (bind_Ok _ _ _ _ _ H2). cbn [Z.ltb Z.compare]. mrun.
  rewrite (bind_Ok _ _ _ _ _ H3). cbn [Z.ltb Z.compare]. mrun.
  pose proof (bc_ok_ext _ _ (conj C Hl) E3 C3) as B3.
  rewrite (c_bitmap _ _ C3).
  destruct (free_test_ok n s3 b IH B3) as (s4 & H4 & E4 & B4).
  { by rewrite <- (e_view _ _ E3). }
  { destruct Hn as [|[Hn|Hn]]; [congruence| |by eapply near_ext].
    apply near_read. rewrite <- Hn. exact P3. }
  assert (vfree (view s3) b = false) as Hf3 by (by rewrite <- (e_view _ _ E3)).
  rewrite (bind_Ok _ _ _ _ _ H4), Hf3. exists s4.
  split; [done|]. split; [by transitivity s3|]. split; [done|].
  eapply ext_present; [done|]. unfold b in P3. rewrite unread_present in P3. by apply negb_false_iff.
Qed.

Lemma touch_near n : touch_spec n.
Proof.
  induction n as [|n IH]; intros s w va B U Hn; pose proof (usable_cache _ _ B U) as Hc;
    destruct (unread s (blk va)) eqn:Hu.
  - destruct Hn as [|[]]. congruence.
  - rewrite unread_present in Hu. apply negb_false_iff in Hu. exists s.
    split; [|done]. cbn [touch]. by rewrite (cache_access _ s w va (proj1 B) Hc Hu).
  - destruct (bc_pgfault_ok n s va IH B U Hu Hn) as (s1 & H1 & E1 & B1 & P1).
    assert (accessible w (pte_of s va) = false) as Ha.
    { rewrite unread_present in Hu. apply negb_true_iff in Hu. unfold present in Hu.
      unfold accessible, pte_of. rewrite PGNUM_pg by (apply in_cache_spec in Hc; lia). by rewrite Hu. }
    exists s1. split; [|done]. cbn [touch]. rewrite Ha. fold (ldn n).
    rewrite (bind_Ok _ _ _ _ _ H1). pose proof (cache_access _ s1 w va (proj1 B1) Hc P1) as Ha1.
    destruct n; cbn [touch]; by rewrite Ha1.
  - rewrite unread_present in Hu. apply negb_false_iff in Hu. exists s.
    split; [|done]. cbn [touch]. by rewrite (cache_access _ s w va (proj1 B) Hc Hu).
Qed.

(** ** Loads and stores *)

(** [s'] comes from [s] by accesses only: the view and the disk are the
    same, and what could be accessed or was dirty still is. *)
Record evolve (s s' : fss) : Prop := {
  ev_view : pointwise_relation Z eq (view s) (view s');
  ev_acc : ∀ w p, accessible w (f_pte s p) = true → accessible w (f_pte s' p) = true;
  ev_dirty : ∀ p, tst (f_pte s p) PTE_P = true → tst (f_pte s p) PTE_D = true →
    tst (f_pte s' p) PTE_D = true;
  ev_data : ∀ x, f_data s' x = f_data s x;
  ev_log : f_log s' = f_log s }.

#[export] Instance evolve_preorder : PreOrder evolve.
Proof.
  split; [by intros s; split|].
  intros s1 s2 s3 [V1 A1 D1 X1 L1] [V2 A2 D2 X2 L2]. split.
  - by rewrite V1.
  - auto.
  - intros p Hp Hd. apply D2; [|by apply D1].
    specialize (A1 false p). unfold accessible in A1. rewrite Hp in A1. specialize (A1 eq_refl).
    by apply andb_true_iff in A1 as [? _].
  - intros x. by rewrite X2.
  - congruence.
Qed.

Lemma ext_evolve s s' : ext s s' → evolve s s'.
Proof.
  intros E. assert (∀ w p, accessible w (f_pte s p) = true → f_pte s' p = f_pte s p) as Hp.
  { intros w p Ha. apply (e_pte _ _ E). left. unfold accessible in Ha. by apply andb_true_iff in Ha as [? _]. }
  split.
  - apply (e_view _ _ E).
  - intros w p Ha. by rewrite (Hp w).
  - intros p Hpp Hd. by rewrite (e_pte _ _ E) by (by left).
  - intros x. unfold f_data. destruct (e_vars _ _ E) as (-> & _). by rewrite (e_data _ _ E).
  - apply (e_vars _ _ E).
Qed.

Lemma tst_lor_dirty p m : m = PTE_P ∨ m = PTE_W → tst (Z.lor p PTE_D) m = tst p m.
Proof.
  intros Hm. unfold tst. rewrite (Z.land_comm _ m), Z.land_lor_distr_r.
  assert (Z.land m PTE_D = 0) as -> by (by destruct Hm as [-> | ->]).
  by rewrite Z.lor_0_r, Z.land_comm.
Qed.

Lemma tst_dirty p : tst (Z.lor p PTE_D) PTE_D = true.
Proof.
  change PTE_D with (2 ^ 6). rewrite tst_bit, Z.lor_spec, Z.pow2_bits_true by lia. apply orb_true_r.
Qed.

Lemma mark_dirty_pte a s p :
  f_pte (mark_dirty a s) p = if p =? PGNUM a then Z.lor (f_pte s p) PTE_D else f_pte s p.
Proof. cbn. unfold pte_of. by destruct (Z.eqb_spec p (PGNUM a)) as [->|]. Qed.

Lemma mark_dirty_same a s p m :
  m = PTE_P ∨ m = PTE_W → tst (f_pte (mark_dirty a s) p) m = tst (f_pte s p) m.
Proof. intros. rewrite mark_dirty_pte. destruct (_ =? _); [by apply tst_lor_dirty|done]. Qed.

Lemma mark_dirty_evolve a s : evolve s (mark_dirty a s).
Proof.
  split; try done.
  - intros x. unfold view, present. by rewrite mark_dirty_same by auto.
  - intros w p. unfold accessible. by rewrite !mark_dirty_same by auto.
  - intros p _ Hd. rewrite mark_dirty_pte. destruct (_ =? _); [apply tst_dirty|done].
Qed.

Lemma mark_dirty_ok a s : bc_ok s → bc_ok (mark_dirty a s).
Proof.
  intros [C Hl]. pose proof (ev_view _ _ (mark_dirty_evolve a s)) as Hv.
  split; [rewrite <- Hv|by rewrite <- Hv].
  destruct C as [Cd Cs Cb Co Cf Cc Cg]. 
  assert (∀ b, unread (mark_dirty a s) b = unread s b) as Hu
    by (intros b; unfold unread; by rewrite mark_dirty_same by auto).
  split; try done.
  - unfold present. by rewrite mark_dirty_same by auto.
  - intros b Hb Hub. rewrite Hu in Hub. destruct (Cf b Hb Hub) as [H7 Ht]. split; [|done].
    rewrite mark_dirty_pte. destruct (_ =? _); [|done].
    rewrite Z.land_comm, Z.land_lor_distr_r, (Z.land_comm 7 (f_pte s (pg b))), H7. done.
  - intros x Hx. unfold present. rewrite mark_dirty_same by auto. intros Hp Hd.
    apply Cc; [done..|]. rewrite mark_dirty_pte in Hd. destruct (_ =? _); [|done].
    by rewrite tst_dirty in Hd.
  - unfold missing in *. by rewrite (count_ext (unread (mark_dirty a s)) (unread s)) by done.
Qed.

(** The addresses an access can succeed at, and those it has succeeded at. *)
Definition reach (s : fss) (w : bool) (a : Z) : Prop :=
  0 ≤ a < 2 ^ 32 ∧ if in_cache a then usable s (blk a) else accessible w (f_pte s (a / 4096)) = true.
Definition ready (s : fss) (w : bool) (a : Z) : Prop :=
  accessible w (f_pte s (a / 4096)) = true ∧ (w = true → tst (f_pte s (a / 4096)) PTE_D = true).

Lemma accessible_present w p : accessible w p = true → tst p PTE_P = true.
Proof. unfold accessible. by intros [? _]%andb_true_iff. Qed.

Lemma ready_evolve s s' w a : evolve s s' → ready s w a → ready s' w a.
Proof.
  intros E [Ha Hd]. split; [by apply (ev_acc _ _ E)|]. intros Hw. apply (ev_dirty _ _ E); [|auto].
  by eapply accessible_present.
Qed.

Lemma usable_same s s' b :
  pointwise_relation Z eq (view s) (view s') →
  (∀ p, tst (f_pte s p) PTE_P = true → tst (f_pte s' p) PTE_P = true) → usable s b → usable s' b.
Proof.
  intros Hv Hp [Hb Hu]. split; [by rewrite <- Hv|]. destruct Hu as [Hu|Hu]; [left|right; by rewrite <- Hv].
  unfold unread in *. rewrite negb_false_iff in *. auto.
Qed.

Lemma acc_present s s' p :
  (∀ w p, accessible w (f_pte s p) = true → accessible w (f_pte s' p) = true) →
  tst (f_pte s p) PTE_P = true → tst (f_pte s' p) PTE_P = true.
Proof.
  intros Ha Hp. eapply accessible_present, (Ha false). unfold accessible. by rewrite Hp.
Qed.

Lemma reach_evolve s s' w a : evolve s s' → reach s w a → reach s' w a.
Proof.
  intros E [Ha Hr]. split; [done|]. destruct (in_cache a).
  - eapply usable_same; [apply (ev_view _ _ E)| |done]. intros p. apply acc_present, (ev_acc _ _ E).
  - by apply (ev_acc _ _ E).
Qed.

Lemma in_cache_page a a' : a / 4096 = a' / 4096 → in_cache a = in_cache a'.
Proof.
  intros Ha. apply eq_iff_eq_true. rewrite !in_cache_blk. unfold blk. by rewrite Ha.
Qed.

Lemma reach_page s w a a' : a / 4096 = a' / 4096 → 0 ≤ a' < 2 ^ 32 → reach s w a → reach s w a'.
Proof.
  intros Ha Hr [_ H]. split; [done|]. rewrite <- (in_cache_page a a') by done.
  unfold blk in *. by rewrite <- Ha.
Qed.

Lemma touch_ok s w a :
  bc_ok s → reach s w a →
  ∃ s', touch fault_depth w a s = Ok tt s' ∧ evolve s s' ∧ bc_ok s' ∧ ready s' w a.
Proof.
  intros B [Ha Hr].
  assert (∃ s1, touch fault_depth w a s = Ok tt (if w then mark_dirty a s1 else s1) ∧
    evolve s s1 ∧ bc_ok s1 ∧ accessible w (f_pte s1 (a / 4096)) = true) as (s1 & -> & E1 & B1 & A1).
  { destruct (in_cache a) eqn:Hc.
    - destruct (touch_near fault_depth s w a B Hr) as (s1 & H1 & E1 & B1 & P1).
      { apply near_enough. by apply in_cache_blk. }
      exists s1. split_and!; [done|by apply ext_evolve|done|].
      pose proof (cache_access _ s1 w a (proj1 B1) Hc P1) as Hacc. unfold pte_of in Hacc.
      by rewrite PGNUM_pg in Hacc.
    - exists s. split_and!; [|done..]. unfold fault_depth. cbn [touch]. unfold pte_of.
      rewrite PGNUM_pg by done. by rewrite Hr. }
  eexists. split; [done|]. destruct w.
  - split; [transitivity s1; [done|apply mark_dirty_evolve]|]. split; [by apply mark_dirty_ok|].
    split; [by apply (ev_acc _ _ (mark_dirty_evolve a s1))|]. intros _.
    rewrite mark_dirty_pte, PGNUM_pg, Z.eqb_refl by done. apply tst_dirty.
  - split_and!; [done..|]. by split.
Qed.

Lemma touch_pages_ok w n : ∀ p s,
  bc_ok s → (∀ q, p ≤ q < p + Z.of_nat n → reach s w (q * 4096)) →
  ∃ s', mfor (seqZ p (Z.of_nat n)) (λ p, touch fault_depth w (p * PGSIZE)) s = Ok tt s' ∧
    evolve s s' ∧ bc_ok s' ∧ ∀ q, p ≤ q < p + Z.of_nat n → ready s' w (q * 4096).
Proof.
  induction n as [|n IH]; intros p s B Hr.
  - exists s. split_and!; try done. lia.
  - rewrite seqZ_cons by lia. cbn [mfor].
    destruct (touch_ok s w (p * 4096) B (Hr p ltac:(lia))) as (s1 & H1 & E1 & B1 & R1).
    rewrite (bind_Ok _ _ _ _ _ H1). replace (Z.pred (Z.of_nat (S n))) with (Z.of_nat n) by lia.
    destruct (IH (Z.succ p) s1 B1) as (s2 & H2 & E2 & B2 & R2).
    { intros q Hq. eapply reach_evolve; [done|]. apply Hr. lia. }
    exists s2. split_and!; [done|by transitivity s1|done|]. intros q Hq.
    destruct (Z.eq_dec q p) as [->|]; [by eapply ready_evolve|]. apply R2. lia.
Qed.

Lemma touch_range_ok s w a n :
  bc_ok s → 0 ≤ n → (∀ x, a ≤ x < a + n → reach s w x) →
  ∃ s', touch_range w a n s = Ok tt s' ∧ evolve s s' ∧ bc_ok s' ∧ ∀ x, a ≤ x < a + n → ready s' w x.
Proof.
  intros B Hn Hr. unfold touch_range. destruct (Z.eqb_spec n 0) as [->|Hne].
  { exists s. split_and!; try done. lia. }
  destruct (Hr a ltac:(lia)) as [Ha _]. destruct (Hr (a + n - 1) ltac:(lia)) as [Hz _].
  rewrite !PGNUM_pg by done. assert (a / 4096 ≤ (a + n - 1) / 4096) by (apply Z.div_le_mono; lia).
  replace ((a + n - 1) / 4096 - a / 4096 + 1) with
    (Z.of_nat (Z.to_nat ((a + n - 1) / 4096 - a / 4096 + 1))) by lia.
  destruct (touch_pages_ok w (Z.to_nat ((a + n - 1) / 4096 - a / 4096 + 1)) (a / 4096) s B)
    as (s' & H' & E' & B' & R').
  - intros q Hq. pose proof (Z.div_mod a 4096). pose proof (Z.mod_pos_bound a 4096).
    pose proof (Z.div_mod (a + n - 1) 4096). pose proof (Z.mod_pos_bound (a + n - 1) 4096).
    apply (reach_page s w (Z.max a (q * 4096))); [|lia|apply Hr; lia].
    rewrite Z.div_mul by lia. symmetry.
    apply (Z.div_unique_pos _ _ _ (Z.max a (q * 4096) - 4096 * q)); lia.
  - exists s'. split_and!; try done. intros x Hx. unfold ready. rewrite <- (Z.div_mul (x / 4096) 4096) by lia.
    apply R'. pose proof (Z.div_le_mono a x 4096). pose proof (Z.div_le_mono x (a + n - 1) 4096). lia.
Qed.

(** ** The cache as a memory

    [sees s0 v s]: in state [s] the server sees the memory [v], and can access
    what it could in [s0].  The operations of the server are specified by what
    they do to [v]. *)
Definition sees (s0 : fss) (v : mem) (s : fss) : Prop :=
  bc_ok s ∧ (∀ a, view s a = rd8 v a) ∧
  (∀ w p, accessible w (f_pte s0 p) = true → accessible w (f_pte s p) = true) ∧ f_log s = f_log s0.

Definition vreach (s0 : fss) (v : mem) (w : bool) (a : Z) : Prop :=
  0 ≤ a < 2 ^ 32 ∧
  if in_cache a then 1 ≤ blk a < nblocks (rd8 v) ∧ vfree (rd8 v) (blk a) = false
  else accessible w (f_pte s0 (a / 4096)) = true.

Lemma sees_reach s0 v s w a : sees s0 v s → vreach s0 v w a → reach s w a.
Proof.
  intros (B & Hv & Hacc & _) [Ha Hr]. split; [done|]. destruct (in_cache a); [|auto].
  assert (pointwise_relation Z eq (view s) (rd8 v)) as Hv' by exact Hv.
  split; [rewrite Hv'; apply Hr|right; rewrite Hv'; apply Hr].
Qed.

Lemma sees_evolve s0 v s s' : sees s0 v s → evolve s s' → bc_ok s' → sees s0 v s'.
Proof.
  intros (B & Hv & Hacc & Hlog) E B'. split_and!; [done| | |].
  - intros a. by rewrite <- (ev_view _ _ E a).
  - intros w p Hp. by apply (ev_acc _ _ E), Hacc.
  - by rewrite (ev_log _ _ E).
Qed.

Lemma sees_layout s0 v s : sees s0 v s → layout_ok (rd8 v).
Proof.
  intros ((_ & Hl) & Hv & _). assert (pointwise_relation Z eq (view s) (rd8 v)) as Hv' by exact Hv.
  by rewrite <- Hv'.
Qed.

Lemma ready_view s w a : ready s w a → view s a = rd8 (f_mem s) a.
Proof. intros [Ha _]. apply view_present. by eapply accessible_present. Qed.

Lemma touch_sees s0 v s w a :
  sees s0 v s → vreach s0 v w a →
  ∃ s', touch fault_depth w a s = Ok tt s' ∧ sees s0 v s' ∧ ready s' w a.
Proof.
  intros S R. destruct (touch_ok s w a (proj1 S) (sees_reach _ _ _ _ _ S R)) as (s' & H' & E' & B' & R').
  exists s'. split_and!; [done|by eapply sees_evolve|done].
Qed.

Lemma ld8_sees s0 v s a :
  sees s0 v s → vreach s0 v false a → ∃ s', ld8 a s = Ok (rd8 v a) s' ∧ sees s0 v s'.
Proof.
  intros S R. destruct (touch_sees _ _ _ _ _ S R) as (s' & H' & S' & R'). exists s'. split; [|done].
  unfold ld8. rewrite (bind_Ok _ _ _ _ _ H'). unfold mgets. f_equal.
  rewrite <- (ready_view _ _ _ R'). apply S'.
Qed.

Lemma page_of_near a i : a mod 4 = 0 → 0 ≤ i < 4 → (a + i) / 4096 = a / 4096.
Proof.
  intros Ha Hi. pose proof (aligned_fits a Ha). pose proof (Z.div_mod a 4096).
  pose proof (Z.mod_pos_bound a 4096). symmetry. apply (Z.div_unique_pos _ _ _ (a mod 4096 + i)); lia.
Qed.

Lemma ld32_sees s0 v s a :
  sees s0 v s → a mod 4 = 0 → vreach s0 v false a → ∃ s', ld32 a s = Ok (rd32 v a) s' ∧ sees s0 v s'.
Proof.
  intros S Ha R. destruct (touch_sees _ _ _ _ _ S R) as (s' & H' & S' & R'). exists s'. split; [|done].
  unfold ld32. rewrite (bind_Ok _ _ _ _ _ H'). unfold mgets. f_equal. unfold rd32.
  assert (∀ i, 0 ≤ i < 4 → rd8 (f_mem s') (a + i) = rd8 v (a + i)) as Hi.
  { intros i Hi. destruct S' as (_ & Hv & _). rewrite <- Hv. symmetry. apply (ready_view _ false).
    unfold ready in *. by rewrite page_of_near. }
  rewrite !Hi by lia. rewrite <- (Z.add_0_r a) at 1 3. rewrite Hi by lia. by rewrite Z.add_0_r.
Qed.

(** Writing the bytes [W] with the values of [m']. *)
Lemma poke_sees s0 v s v' m' (W : Z → bool) :
  sees s0 v s → (∀ x, W x = true → ready s true x) →
  (∀ x, rd8 m' x = if W x then rd8 v' x else rd8 (f_mem s) x) →
  (∀ x, W x = false → rd8 v' x = rd8 v x) →
  layout_ok (rd8 v') → nblocks (rd8 v') = nblocks (rd8 v) → sees s0 v' (fw_mem m' s).
Proof.
  intros ((C & Hl) & Hv & Hacc & Hlog) Hr Hm Hv' Hl' Hn.
  assert (∀ x, view (fw_mem m' s) x = rd8 v' x) as Hview.
  { intros x. unfold view at 1. change (present (fw_mem m' s) x) with (present s x).
    change (f_data (fw_mem m' s)) with (f_data s). cbn [fw_mem f_mem]. rewrite Hm.
    destruct (W x) eqn:Hd.
    - destruct (Hr x Hd) as [Ha _]. assert (present s x = true) as -> by (by eapply accessible_present).
      by rewrite andb_false_r.
    - rewrite Hv', <- Hv by done. done. }
  assert (pointwise_relation Z eq (view (fw_mem m' s)) (rd8 v')) as Hp' by exact Hview.
  assert (pointwise_relation Z eq (view s) (rd8 v)) as Hp by exact Hv.
  split; [|by split_and!]. split; [|by rewrite Hp'].
  rewrite Hp', Hn, <- Hp. destruct C as [Cd Cs Cb Co Cf Cc Cg]. split; try done.
  intros x Hx Hpx Hdx. cbn [fw_mem f_mem f_pte] in *. rewrite Hm. destruct (W x) eqn:Hd.
  - destruct (Hr x Hd) as [_ Hdirty]. rewrite Hdirty in Hdx by done. done.
  - by apply Cc.
Qed.

(** A change of the memory that leaves the disk's layout alone. *)
Definition keeps (v v' : mem) : Prop := layout_ok (rd8 v') ∧ nblocks (rd8 v') = nblocks (rd8 v).

Lemma st8_sees s0 v s a x :
  sees s0 v s → vreach s0 v true a → keeps v (wr8 v a x) →
  ∃ s', st8 a x s = Ok tt s' ∧ sees s0 (wr8 v a x) s'.
Proof.
  intros S R [Hl Hn]. destruct (touch_sees _ _ _ _ _ S R) as (s1 & H1 & S1 & R1).
  eexists. unfold st8. rewrite (bind_Ok _ _ _ _ _ H1). split; [done|].
  eapply (poke_sees _ _ _ _ _ (λ y, y =? a)); [exact S1|..|exact Hl|exact Hn].
  - by intros y ->%Z.eqb_eq.
  - intros y. rewrite !rd8_wr8. by destruct (y =? a).
  - intros y Hy. rewrite rd8_wr8. by rewrite Hy.
Qed.

Lemma st32_sees s0 v s a x :
  sees s0 v s → a mod 4 = 0 → vreach s0 v true a → keeps v (wr32 v a x) →
  ∃ s', st32 a x s = Ok tt s' ∧ sees s0 (wr32 v a x) s'.
Proof.
  intros S Ha R [Hl Hn]. destruct (touch_sees _ _ _ _ _ S R) as (s1 & H1 & S1 & R1).
  eexists. unfold st32. rewrite (bind_Ok _ _ _ _ _ H1). split; [done|].
  eapply (poke_sees _ _ _ _ _ (λ y, (a <=? y) && (y <? a + 4))); [exact S1|..|exact Hl|exact Hn].
  - intros y [Hy1%Z.leb_le Hy2%Z.ltb_lt]%andb_true_iff. unfold ready in *.
    replace y with (a + (y - a)) by lia. by rewrite page_of_near by lia.
  - intros y. rewrite !rd8_wr32. by destruct (_ && _).
  - intros y Hy. rewrite rd8_wr32. by rewrite Hy.
Qed.

Lemma touch_range_sees s0 v s w a n :
  sees s0 v s → 0 ≤ n → (∀ x, a ≤ x < a + n → vreach s0 v w x) →
  ∃ s', touch_range w a n s = Ok tt s' ∧ evolve s s' ∧ sees s0 v s' ∧ ∀ x, a ≤ x < a + n → ready s' w x.
Proof.
  intros S Hn R. destruct (touch_range_ok s w a n (proj1 S) Hn) as (s' & H' & E' & B' & R').
  { intros x Hx. eapply sees_reach; [done|auto]. }
  exists s'. split_and!; [done|done|by eapply sees_evolve|done].
Qed.

Lemma memset_sees s0 v s a c n :
  sees s0 v s → 0 ≤ n → (∀ x, a ≤ x < a + n → vreach s0 v true x) → keeps v (mem_set v a c n) →
  ∃ s', u_memset a c n s = Ok tt s' ∧ sees s0 (mem_set v a c n) s'.
Proof.
  intros S Hn R [Hl Hb]. destruct (touch_range_sees _ _ _ _ _ _ S Hn R) as (s1 & H1 & _ & S1 & R1).
  eexists. unfold u_memset. rewrite (bind_Ok _ _ _ _ _ H1). split; [done|].
  eapply (poke_sees _ _ _ _ _ (λ y, (a <=? y) && (y <? a + n))); [exact S1|..|exact Hl|exact Hb].
  - intros y [Hy1%Z.leb_le Hy2%Z.ltb_lt]%andb_true_iff. auto.
  - intros y. rewrite memset_block, !rd8_mem_set by done. by destruct (_ && _).
  - intros y Hy. rewrite rd8_mem_set. by rewrite Hy.
Qed.

Lemma memmove_sees s0 v s dst src n :
  sees s0 v s → 0 ≤ n → (∀ x, dst ≤ x < dst + n → vreach s0 v true x) →
  (∀ x, src ≤ x < src + n → vreach s0 v false x) → keeps v (mem_move v dst src n) →
  ∃ s', u_memmove dst src n s = Ok tt s' ∧ sees s0 (mem_move v dst src n) s'.
Proof.
  intros S Hn Rd Rs [Hl Hb].
  destruct (touch_range_sees _ _ _ _ _ _ S Hn Rs) as (s1 & H1 & _ & S1 & R1).
  destruct (touch_range_sees _ _ _ _ _ _ S1 Hn Rd) as (s2 & H2 & E2 & S2 & R2).
  eexists. unfold u_memmove. rewrite (bind_Ok _ _ _ _ _ H1), (bind_Ok _ _ _ _ _ H2). split; [done|].
  eapply (poke_sees _ _ _ _ _ (λ y, (dst <=? y) && (y <? dst + n))); [exact S2|..|exact Hl|exact Hb].
  - intros y [Hy1%Z.leb_le Hy2%Z.ltb_lt]%andb_true_iff. auto.
  - intros y. rewrite memmove_block, !rd8_mem_move by done.
    destruct (Z.leb_spec dst y), (Z.ltb_spec y (dst + n)); cbn [andb]; try done.
    destruct S2 as (_ & Hv & _). rewrite <- Hv. symmetry. eapply (ready_view _ false), ready_evolve; [done|].
    apply R1. lia.
  - intros y Hy. rewrite rd8_mem_move. by rewrite Hy.
Qed.

(** ** diskaddr, block_is_free, flush_block *)

Lemma vreach_blk s0 v w a :
  layout_ok (rd8 v) → 1 ≤ blk a < nblocks (rd8 v) → vfree (rd8 v) (blk a) = false → vreach s0 v w a.
Proof.
  intros Hl Hb Hf. pose proof (l_size _ Hl).
  assert (in_cache a = true) as Hc by (apply in_cache_blk; lia).
  split; [apply in_cache_spec in Hc; lia|]. by rewrite Hc.
Qed.

Lemma vreach_nblocks s0 v w : layout_ok (rd8 v) → vreach s0 v w s_nblocks_va.
Proof.
  intros Hl. pose proof (l_size _ Hl). apply vreach_blk; [done|change (blk s_nblocks_va) with 1; lia|].
  apply (l_one _ Hl).
Qed.

Lemma past_end_sees s0 v s b :
  sees s0 v s → ∃ s', past_end ld32 b s = Ok (nblocks (rd8 v) <=? b) s' ∧ sees s0 v s'.
Proof.
  intros S. destruct (ld32_sees s0 v s s_nblocks_va S) as (s' & H' & S').
  { done. } { apply vreach_nblocks. by eapply sees_layout. }
  exists s'. split; [|done]. unfold past_end. mrun. rewrite (c_super _ _ (proj1 (proj1 S))).
  by rewrite (bind_Ok _ _ _ _ _ H').
Qed.

Lemma diskaddr_sees s0 v s b :
  sees s0 v s → 1 ≤ b < nblocks (rd8 v) → ∃ s', diskaddr b s = Ok (blkva b) s' ∧ sees s0 v s'.
Proof.
  intros S Hb. destruct (past_end_sees s0 v s b S) as (s' & H' & S'). exists s'. split; [|done].
  unfold diskaddr. rewrite (proj2 (Z.eqb_neq b 0)) by lia.
  rewrite (bind_Ok _ _ _ _ _ H'), (proj2 (Z.leb_gt _ b)) by lia.
  pose proof (l_size _ (sees_layout _ _ _ S)). unfold mret, M_ret. rewrite u32_small by lia. done.
Qed.

Lemma diskaddr_bad s0 v s b :
  sees s0 v s → b = 0 ∨ nblocks (rd8 v) ≤ b →
  diskaddr b s = Panic "bad block number %08x in diskaddr".
Proof.
  intros S Hb. unfold diskaddr. destruct (Z.eqb_spec b 0) as [->|Hne]; [done|].
  destruct (past_end_sees s0 v s b S) as (s' & H' & S').
  rewrite (bind_Ok _ _ _ _ _ H'), (proj2 (Z.leb_le _ b)) by lia. done.
Qed.

Lemma block_is_free_sees s0 v s b :
  sees s0 v s → 0 ≤ b →
  ∃ s', block_is_free b s = Ok ((b <? nblocks (rd8 v)) && vfree (rd8 v) b) s' ∧ sees s0 v s'.
Proof.
  intros S Hb. pose proof (sees_layout _ _ _ S) as Hl. unfold block_is_free, block_is_free_with. mrun.
  rewrite (c_super _ _ (proj1 (proj1 S))). cbn [negb].
  destruct (ld32_sees s0 v s s_nblocks_va S) as (s1 & H1 & S1); [done|by apply vreach_nblocks|].
  rewrite (bind_Ok _ _ _ _ _ H1). fold (nblocks (rd8 v)). 
  destruct (Z.leb_spec (rd32 v s_nblocks_va) b) as [Hge|Hlt];
    [rewrite (proj2 (Z.ltb_ge b _)) by exact Hge; by exists s1|].
  rewrite (proj2 (Z.ltb_lt b _)) by exact Hlt. mrun. rewrite (c_bitmap _ _ (proj1 (proj1 S1))). cbn [negb].
  fold (word_va b). destruct (l_bitmap _ Hl b) as [Hbb Hbf]; [split; [done|exact Hlt]|].
  assert (1 ≤ bb b) by (unfold bb; pose proof (Z.div_pos b BLKBITSIZE); lia).
  destruct (ld32_sees s0 v s1 (word_va b) S1) as (s2 & H2 & S2).
  { apply word_va_aligned. } { apply vreach_blk; rewrite ?word_va_blk by done; [done|lia|done]. }
  exists s2. rewrite (bind_Ok _ _ _ _ _ H2). split; [|done]. unfold mret, M_ret. cbn [andb].
  by rewrite tst_bitmap by done.
Qed.

(** Remapping a page of the cache clears the dirty bit and nothing else. *)
Lemma clean_pte p :
  Z.land p 7 = 7 →
  let p' := Z.lor (Z.land p PTE_SYSCALL) PTE_P in
  bad_perm (Z.land p PTE_SYSCALL) = false ∧ Z.land p' 7 = 7 ∧ tst p' PTE_D = false ∧
  ∀ w, accessible w p' = true.
Proof.
  intros Hp p'. assert (Z.land (Z.land p PTE_SYSCALL) 7 = 7) as H7.
  { rewrite <- Z.land_assoc. exact Hp. }
  assert (Z.land p' 7 = 7) as H7'.
  { unfold p'. rewrite Z.land_comm, Z.land_lor_distr_r, (Z.land_comm 7 (Z.land _ _)), H7. done. }
  split_and!; [|done| |intros w; by apply flags_access].
  - unfold bad_perm. assert (Z.land (Z.land p PTE_SYSCALL) (Z.lor PTE_U PTE_P) = Z.lor PTE_U PTE_P) as ->.
    { change (Z.lor PTE_U PTE_P) with (Z.land 7 5) at 1. by rewrite Z.land_assoc, H7. }
    rewrite <- Z.land_assoc, Z.land_lnot_diag, Z.land_0_r. done.
  - unfold p'. change PTE_D with (2 ^ 6).
    rewrite tst_bit, Z.lor_spec, Z.land_spec by lia. by rewrite andb_false_r.
Qed.

(** What flush_block(a) leaves behind: the block of [a] is on the disk as the
    server sees it, the other blocks of the disk are as they were. *)
Definition flushed (a : Z) (v : mem) (s s' : fss) : Prop :=
  ∀ x, f_data s' (x - DISKMAP) = if blk x =? blk a then rd8 v x else f_data s (x - DISKMAP).

Lemma write_back s0 v s b d p' :
  sees s0 v s → 0 ≤ b < 786432 → unread s b = false →
  (∀ x, f_data (fw_dev d s) (x - DISKMAP) = if blk x =? b then rd8 (f_mem s) x else f_data s (x - DISKMAP)) →
  Z.land p' 7 = 7 → (∀ w, accessible w p' = true) →
  sees s0 v (set_pte (blkva b) p' (fw_dev d s)).
Proof.
  intros ((C & Hl) & Hv & Hacc & Hlog) Hb Hu Hd H7 Hp'. set (s' := set_pte _ _ _).
  assert (PGNUM (blkva b) = pg b) as Hpg
    by (rewrite <- (blkva_pgnum b 0) by lia; f_equal; lia).
  assert (∀ p, f_pte s' p = if p =? pg b then p' else f_pte s p) as Ht by (intros p; cbn; by rewrite Hpg).
  assert (∀ b', unread s' b' = unread s b') as Hu'.
  { intros b'. unfold unread. rewrite Ht. destruct (Z.eqb_spec (pg b') (pg b)) as [He|]; [|done].
    replace b' with b by (unfold pg in He; lia). unfold unread in Hu. rewrite Hu.
    by rewrite (accessible_present false) by done. }
  assert (∀ a, present s' a = present s a) as Hpr.
  { intros a. pose proof (Hu' (blk a)) as Ha. rewrite !unread_present in Ha.
    by destruct (present s' a), (present s a). }
  assert (∀ a, view s' a = rd8 v a) as Hv'.
  { intros a. rewrite <- Hv. unfold view. rewrite Hpr. destruct (in_cache a && negb (present s a)) eqn:Ha; [|done].
    change (f_data s' (a - DISKMAP)) with (f_data (fw_dev d s) (a - DISKMAP)). rewrite Hd.
    destruct (Z.eqb_spec (blk a) b) as [He|]; [|done]. exfalso.
    apply andb_true_iff in Ha as [_ Ha]. rewrite <- unread_present, He in Ha. congruence. }
  assert (pointwise_relation Z eq (view s') (view s)) as Hvv by (intros a; by rewrite Hv', Hv).
  split; [split; [rewrite Hvv|by rewrite Hvv]|split_and!; [done| |done]].
  - destruct C as [Cd Cs Cb Co Cf Cc Cg]. split; try done.
    + by rewrite Hpr.
    + intros b' Hb'. rewrite Hu', Ht. intros Hub. destruct (Cf b' Hb' Hub) as [? Hnt]. split; [|done].
      by destruct (_ =? _).
    + intros a Hc. rewrite Hpr, Ht. intros Hpa.
      change (f_data s' (a - DISKMAP)) with (f_data (fw_dev d s) (a - DISKMAP)). rewrite Hd.
      rewrite <- (pg_blk a). destruct (Z.eqb_spec (blk a) b) as [He|Hne]; [done|].
      destruct (Z.eqb_spec (pg (blk a)) (pg b)); [unfold pg in *; lia|]. rewrite pg_blk. by apply Cc.
    + unfold missing in *. by rewrite (count_ext (unread s') (unread s)) by done.
  - intros w p Hp. rewrite Ht. destruct (_ =? _); [done|]. by apply Hacc.
Qed.

Lemma blkva_page b : 0 ≤ b < 786432 → PGNUM (blkva b) = pg b.
Proof. intros Hb. rewrite <- (blkva_pgnum b 0) by lia. f_equal. lia. Qed.

(** The write of a dirty block. *)
Lemma flush_dirty n s b :
  cache_ok n s → 0 ≤ b < 786432 → unread s b = false →
  let p' := Z.lor (Z.land (f_pte s (pg b)) PTE_SYSCALL) PTE_P in
  ∃ d, ide_write (8 * b) (blkva b) 8 s = Ok 0 (fw_dev d s) ∧
    u_page_remap (blkva b) (Z.land (f_pte s (pg b)) PTE_SYSCALL) (fw_dev d s) =
      Ok 0 (set_pte (blkva b) p' (fw_dev d s)) ∧
    (∀ x, f_data (fw_dev d s) (x - DISKMAP) =
      if blk x =? b then rd8 (f_mem s) x else f_data s (x - DISKMAP)) ∧
    Z.land p' 7 = 7 ∧ ∀ w, accessible w p' = true.
Proof.
  intros C Hb Hu p'. destruct (c_flags _ _ C b Hb Hu) as [H7 Hnt].
  unfold unread in Hu. apply negb_false_iff in Hu. unfold no_table in Hnt. apply negb_false_iff in Hnt.
  destruct (ide_write_ok s (8 * b) (blkva b) 8 (pg b)) as (d & Hw & Hfd); [lia|lia|apply (c_disk _ _ C)|..].
  { intros i Hi. apply blkva_pgnum; lia. } { done. }
  destruct (clean_pte (f_pte s (pg b)) H7) as (Hbp & H7' & _ & Hacc').
  exists d. split_and!; [done| | |done|done].
  - unfold u_page_remap, pte_of. rewrite blkva_page, Hbp, blkva_good, blkva_pdx by done.
    cbn [fw_dev f_pte f_pde orb]. by rewrite Hnt, Hu.
  - intros x. rewrite Hfd. pose proof (blk_page x b). unfold blkva in *.
    destruct (Z.eqb_spec (blk x) b), (Z.leb_spec (SECTSIZE * (8 * b)) (x - DISKMAP)),
      (Z.ltb_spec (x - DISKMAP) (SECTSIZE * (8 * b + 8))); cbn [andb]; try done; try lia.
    f_equal. lia.
Qed.

Lemma flush_block_sees s0 v s a :
  sees s0 v s → in_cache a = true →
  ∃ s', flush_block a s = Ok tt s' ∧ sees s0 v s' ∧ flushed a v s s'.
Proof.
  intros S Ha. pose proof (proj1 (in_cache_spec a) Ha) as Hr.
  pose proof (proj1 (in_cache_blk a) Ha) as Hb.
  pose proof S as ((C & Hl) & Hv & HS). unfold flush_block.
  rewrite (proj2 (Z.ltb_ge a DISKMAP)), (proj2 (Z.leb_gt _ a)) by lia. cbn [orb].
  destruct (cache_addr a Ha) as [-> ->]. unfold flushed. set (b := blk a) in *.
  assert (∀ x, blk x = b → present s x = negb (unread s b)) as Hpb.
  { intros x <-. by rewrite unread_present, negb_involutive. }
  unfold va_is_mapped, va_is_dirty. mrun. rewrite blkva_pdx by done. unfold pte_of. rewrite blkva_page by done.
  destruct (unread s b) eqn:Hu.
  { unfold unread in Hu. apply negb_true_iff in Hu. rewrite Hu, andb_false_r. cbn [negb].
    exists s. split_and!; try done. intros x. destruct (Z.eqb_spec (blk x) b) as [He|]; [|done].
    rewrite <- Hv. unfold view. rewrite (Hpb x He).
    assert (in_cache x = true) as -> by (apply in_cache_blk; by rewrite He). done. }
  destruct (c_flags _ _ C b Hb Hu) as [H7 Hnt]. pose proof Hu as Hu'. unfold unread in Hu'.
  apply negb_false_iff in Hu'. unfold no_table in Hnt. apply negb_false_iff in Hnt. rewrite Hnt, Hu'.
  cbn [andb negb]. mrun.
  destruct (tst (f_pte s (pg b)) PTE_D) eqn:Hd; cbn [negb].
  - destruct (flush_dirty _ s b C Hb Hu) as (d & Hw & Hrm & Hd' & H7' & Hacc').
    rewrite sector_of by done. rewrite (bind_Ok _ _ _ _ _ Hw). cbn [Z.ltb Z.compare]. mrun.
    cbn [fw_dev f_pte]. rewrite (bind_Ok _ _ _ _ _ Hrm). cbn [Z.ltb Z.compare].
    eexists. split; [done|]. split; [by apply write_back|].
    intros x. change (f_data _ (x - DISKMAP)) with (f_data (fw_dev d s) (x - DISKMAP)) at 1.
    rewrite Hd'. destruct (Z.eqb_spec (blk x) b) as [He|]; [|done].
    by rewrite <- Hv, view_present by (by rewrite (Hpb x He)).
  - exists s. split_and!; try done. intros x. destruct (Z.eqb_spec (blk x) b) as [He|]; [|done].
    rewrite <- Hv, view_present by (by rewrite (Hpb x He)). symmetry.
    apply (c_clean _ _ C); [apply in_cache_blk; by rewrite He|by rewrite (Hpb x He)|by rewrite <- pg_blk, He].
Qed.
End cache_correct.
