(* ===== verification/Fs.v ===== *)
(** The file system of the file server, fs/fs.c.

    A [struct File *] is the address of the struct in the block cache, and
    every field access is a load or a store there.  Path names, which the
    server has copied into local arrays, are lists of bytes without the
    terminating NUL. *)

From S2P Require Import Prelude Mmu Printfmt KState Syscall CString Ide Bc.
From Stdlib Require Import ZArith Lia Ascii String.
From stdpp Require Import base tactics numbers list.
Open Scope Z_scope.

Abbreviation FS_MAGIC := 1241854126 (only parsing).    (* 0x4A0530AE *)
Abbreviation MAXNAMELEN := 128 (only parsing).
Abbreviation NDIRECT := 10 (only parsing).
Abbreviation NINDIRECT := 1024 (only parsing).
Abbreviation BLKFILES := 16 (only parsing).
Abbreviation FTYPE_REG := 0 (only parsing).
Abbreviation FTYPE_DIR := 1 (only parsing).

(** The fields of [struct File] (256 bytes) and of [struct Super]. *)
Definition f_size_va (f : Z) : Z := f + 128.
Definition f_type_va (f : Z) : Z := f + 132.
Definition f_direct_va (f i : Z) : Z := f + 136 + 4 * i.
Definition f_indirect_va (f : Z) : Z := f + 176.
Definition s_root_va : Z := super_va + 8.

Section fs.
Context `{IdeDevice}.

(** f->f_size, an off_t. *)
Definition f_size (f : Z) : M fss Z := n ← ld32 (f_size_va f); mret (s32 n).

(** ** Superblock and bitmap *)

Definition check_super : M fss unit :=
  m ← ld32 super_va;
  if negb (m =? FS_MAGIC) then mpanic "bad file system magic number" else
  n ← ld32 s_nblocks_va;
  if DISKSIZE / BLKSIZE <? n then mpanic "file system is too large"
  else fprint (line "superblock is good") [].

(** The bit of [blockno] in its word of the bitmap. *)
Definition bit_of (blockno : Z) : Z := u32 (Z.shiftl 1 (blockno mod 32)).

Definition free_block (blockno : Z) : M fss unit :=
  if blockno =? 0 then mpanic "attempt to free zero block"
  else
    w ← ld32 (word_va blockno);
    st32 (word_va blockno) (Z.lor w (bit_of blockno)).

Fixpoint alloc_from (fuel : nat) (blockno : Z) : M fss Z :=
  n ← ld32 s_nblocks_va;
  if negb (blockno <? n) then mret (- E_NO_DISK)
  else
    match fuel with
    | O => mleave Spinning
    | S fuel =>
        free ← block_is_free blockno;
        if (free : bool) then
          w ← ld32 (word_va blockno);
          st32 (word_va blockno) (Z.land w (u32 (Z.lnot (bit_of blockno))));;
          flush_block (word_va blockno);;
          mret blockno
        else alloc_from fuel (blockno + 1)
    end.

(** The fuel is the number of blocks there are. *)
Definition alloc_block : M fss Z :=
  n ← mgets (λ s, rd32 (f_mem s) s_nblocks_va);
  alloc_from (Z.to_nat n) 2.

Fixpoint check_bitmap_from (fuel : nat) (i : Z) : M fss unit :=
  n ← ld32 s_nblocks_va;
  if negb (i * BLKBITSIZE <? n) then mret tt
  else
    match fuel with
    | O => mleave Spinning
    | S fuel =>
        b ← block_is_free (2 + i);
        massert (negb b) "assertion failed: !block_is_free(2 + i)";;
        check_bitmap_from fuel (i + 1)
    end.

Definition check_bitmap : M fss unit :=
  n ← mgets (λ s, rd32 (f_mem s) s_nblocks_va);
  check_bitmap_from (Z.to_nat (n / BLKBITSIZE + 1)) 0;;
  b ← block_is_free 0; massert (negb b) "assertion failed: !block_is_free(0)";;
  b ← block_is_free 1; massert (negb b) "assertion failed: !block_is_free(1)";;
  fprint (line "bitmap is good") [].

(** ** Blocks of a file *)

(** A new block for the slot at [pp], cleared, and written to the disk: the
    same statements in file_block_walk and file_get_block. *)
Definition fill_slot (pp : Z) : M fss Z :=
  r ← alloc_block;
  if r <? 0 then mret (- E_NO_DISK)
  else
    st32 pp r;;
    a ← diskaddr r; u_memset a 0 BLKSIZE;;
    a ← diskaddr r; flush_block a;;
    mret 0.

(** The result and the slot, 0 when it is not set. *)
Definition file_block_walk (f filebno : Z) (alloc : bool) : M fss (Z * Z) :=
  if NDIRECT + NINDIRECT <=? filebno then mret (- E_INVAL, 0)
  else if filebno <? NDIRECT then mret (0, f_direct_va f filebno)
  else
    ind ← ld32 (f_indirect_va f);
    e ← (if ind =? 0 then
           if negb alloc then mret (- E_NOT_FOUND) else fill_slot (f_indirect_va f)
         else mret 0);
    if e <? 0 then mret (e, 0)
    else
      ind ← ld32 (f_indirect_va f);
      a ← diskaddr ind;
      mret (0, a + 4 * (filebno - NDIRECT)).

(** The second half of file_get_block: the block in the slot at [pp], a new
    one if it is empty.  [blk] is what the caller's variable holds before the
    call, [None] when it is not initialised. *)
Definition slot_block (pp : Z) (blk : option Z) : M fss (Z * option Z) :=
  d ← ld32 pp;
  r ← (if d =? 0 then fill_slot pp else mret 0);
  if r <? 0 then mret (r, blk)
  else
    d ← ld32 pp;
    a ← diskaddr d;
    mret (0, Some a).

(** The assignment in the first condition binds weaker than the comparison:
    the function returns 1 when file_block_walk fails. *)
Definition file_get_block (f filebno : Z) (blk : option Z) : M fss (Z * option Z) :=
  '(e, pp) ← file_block_walk f filebno true;
  let r := if e <? 0 then 1 else 0 in
  if negb (r =? 0) then mret (r, blk) else slot_block pp blk.

(** ** Reading, writing, truncating *)

(** BLKSIZE - pos % BLKSIZE and offset + count - pos, whichever is less. *)
Definition chunk (pos stop : Z) : Z := Z.min (u32 (BLKSIZE - Z.rem pos BLKSIZE)) (u32 (stop - pos)).

(** The loops of file_read and file_write: [move blk buf n] copies one piece.
    [stop] is offset + count, and the comparison with it is unsigned. *)
Fixpoint file_pieces (fuel : nat) (move : Z → Z → Z → M fss unit) (f pos stop buf : Z)
    (blk : option Z) : M fss Z :=
  if negb (u32 pos <? stop) then mret 0
  else
    match fuel with
    | O => mleave Spinning
    | S fuel =>
        '(r, blk) ← file_get_block f (u32 (Z.quot pos BLKSIZE)) blk;
        if r <? 0 then mret r
        else
          let bn := chunk pos stop in
          a ← mderef blk;
          move (a + Z.rem pos BLKSIZE) buf bn;;
          file_pieces fuel move f (s32 (pos + bn)) stop (buf + bn) blk
    end.

(** As many pieces as there can be. *)
Definition pieces (count : Z) : nat := Z.to_nat (count / BLKSIZE + 2).

Definition file_read (f buf count offset : Z) : M fss Z :=
  size ← f_size f;
  if size <=? offset then mret 0
  else
    size ← f_size f;
    let count := Z.min count (u32 (size - offset)) in
    r ← file_pieces (pieces count) (λ b buf n, u_memmove buf b n) f offset (u32 (offset + count)) buf None;
    mret (if r <? 0 then r else s32 count).

Definition file_free_block (f filebno : Z) : M fss Z :=
  '(r, ptr) ← file_block_walk f filebno false;
  if r <? 0 then mret r
  else
    d ← ld32 ptr;
    mwhen (negb (d =? 0)) (d ← ld32 ptr; free_block d;; st32 ptr 0);;
    mret 0.

(** The number of blocks of a file of [size] bytes. *)
Definition nblocks_of (size : Z) : Z := u32 (Z.quot (s32 (size + BLKSIZE - 1)) BLKSIZE).

Definition file_truncate_blocks (f newsize : Z) : M fss unit :=
  size ← f_size f;
  let old_nblocks := nblocks_of size in
  let new_nblocks := nblocks_of newsize in
  mfor (seqZ new_nblocks (old_nblocks - new_nblocks)) (λ bno,
    r ← file_free_block f bno;
    mwhen (r <? 0) (fprint "warning: file_free_block: %e" [AInt r]));;
  ind ← ld32 (f_indirect_va f);
  mwhen ((new_nblocks <=? NDIRECT) && negb (ind =? 0))
    (ind ← ld32 (f_indirect_va f); free_block ind;; st32 (f_indirect_va f) 0).

Definition file_set_size (f newsize : Z) : M fss Z :=
  size ← f_size f;
  mwhen (newsize <? size) (file_truncate_blocks f newsize);;
  st32 (f_size_va f) newsize;;
  flush_block f;;
  mret 0.

Definition file_write (f buf count offset : Z) : M fss Z :=
  size ← f_size f;
  r ← (if u32 size <? u32 (offset + count) then file_set_size f (s32 (offset + count)) else mret 0);
  if r <? 0 then mret r
  else
    r ← file_pieces (pieces count) (λ b buf n, u_memmove b buf n) f offset (u32 (offset + count)) buf None;
    mret (if r <? 0 then r else s32 count).

(** The size (here) and the number of blocks (in fs_sync) are read again at
    each iteration in the source; flushing does not change them. *)
Definition file_flush (f : Z) : M fss unit :=
  size ← f_size f;
  mfor (seqZ 0 (Z.quot (s32 (size + BLKSIZE - 1)) BLKSIZE)) (λ i,
    '(r, p) ← file_block_walk f i false;
    if r <? 0 then mret tt
    else if p =? 0 then mret tt
    else
      d ← ld32 p;
      if d =? 0 then mret tt
      else d ← ld32 p; a ← diskaddr d; flush_block a);;
  flush_block f;;
  ind ← ld32 (f_indirect_va f);
  mwhen (negb (ind =? 0)) (ind ← ld32 (f_indirect_va f); a ← diskaddr ind; flush_block a).

Definition fs_sync : M fss unit :=
  n ← ld32 s_nblocks_va;
  mfor (seqZ 1 (n - 1)) (λ i, a ← diskaddr i; flush_block a).

(** ** Directories and paths *)

(** strcmp of the string at [a] with the string [l], and strcpy of [l]. *)
Fixpoint u_strcmp (a : Z) (l : list Z) : M fss Z :=
  c ← ld8 a;
  match l with
  | [] => mret c
  | q :: l => if negb (c =? 0) && (c =? q) then u_strcmp (a + 1) l else mret (c - q)
  end.

Fixpoint u_strcpy (a : Z) (l : list Z) : M fss unit :=
  match l with
  | [] => st8 a 0
  | c :: l => st8 a c;; u_strcpy (a + 1) l
  end.

(** The inner loops of dir_lookup and dir_alloc_file: the first of the [n]
    File structures from [f] on that [test] accepts. *)
Fixpoint find_file (n : nat) (test : Z → M fss bool) (f : Z) : M fss (option Z) :=
  match n with
  | O => mret None
  | S n => b ← test f; if (b : bool) then mret (Some f) else find_file n test (f + 256)
  end.

(** The outer loops, over [n] blocks of the directory from [i] on: an error,
    or the file found, and the last value of the variable blk. *)
Fixpoint find_block (n : nat) (test : Z → M fss bool) (dir i : Z) (blk : option Z) :
    M fss (Z + option Z * option Z) :=
  match n with
  | O => mret (inr (None, blk))
  | S n =>
      '(r, blk) ← file_get_block dir i blk;
      if r <? 0 then mret (inl r)
      else
        f ← mderef blk;
        o ← find_file (Z.to_nat BLKFILES) test f;
        match o with
        | Some f => mret (inr (Some f, blk))
        | None => find_block n test dir (i + 1) blk
        end
  end.

Definition dir_nblock (dir : Z) : M fss Z :=
  size ← f_size dir;
  massert (Z.rem size BLKSIZE =? 0) "assertion failed: (dir->f_size % BLKSIZE) == 0";;
  size ← f_size dir;
  mret (u32 (Z.quot size BLKSIZE)).

(** The result and the file found. *)
Definition dir_lookup (dir : Z) (name : list Z) : M fss (Z * option Z) :=
  nblock ← dir_nblock dir;
  r ← find_block (Z.to_nat nblock) (λ f, c ← u_strcmp f name; mret (c =? 0)) dir 0 None;
  mret (match r with
        | inl e => (e, None)
        | inr (Some f, _) => (0, Some f)
        | inr (None, _) => (- E_NOT_FOUND, None)
        end).

Definition dir_alloc_file (dir : Z) : M fss (Z * option Z) :=
  nblock ← dir_nblock dir;
  r ← find_block (Z.to_nat nblock) (λ f, c ← ld8 f; mret (c =? 0)) dir 0 None;
  match r with
  | inl e => mret (e, None)
  | inr (Some f, _) => mret (0, Some f)
  | inr (None, blk) =>
      size ← f_size dir;
      st32 (f_size_va dir) (size + BLKSIZE);;
      '(r, blk) ← file_get_block dir nblock blk;
      if r <? 0 then mret (r, None)
      else f ← mderef blk; mret (0, Some f)
  end.

Fixpoint skip_slash (p : list Z) : list Z :=
  match p with
  | c :: p' => if c =? zc "/" then skip_slash p' else p
  | [] => []
  end.

(** The path up to the next slash, and the rest from it on. *)
Fixpoint path_elem (p : list Z) : list Z * list Z :=
  match p with
  | c :: p' => if c =? zc "/" then ([], p) else let '(e, r) := path_elem p' in (c :: e, r)
  | [] => ([], [])
  end.

(** The result, *pdir and *pf (0 for NULL), and the last element when it has
    been copied out. *)
Record walked := mkWalk { w_r : Z; w_dir : Z; w_f : Z; w_last : option (list Z) }.

Fixpoint walk_from (fuel : nat) (path : list Z) (dir f : Z) : M fss walked :=
  match path with
  | [] => mret (mkWalk 0 dir f None)
  | _ :: _ =>
      match fuel with
      | O => mleave Spinning
      | S fuel =>
          let dir := f in
          let '(name, path) := path_elem path in
          if MAXNAMELEN <=? Z.of_nat (length name) then mret (mkWalk (- E_BAD_PATH) 0 0 None)
          else
            let path := skip_slash path in
            ty ← ld32 (f_type_va dir);
            if negb (ty =? FTYPE_DIR) then mret (mkWalk (- E_NOT_FOUND) 0 0 None)
            else
              '(r, o) ← dir_lookup dir name;
              if r <? 0 then
                mret (if (r =? - E_NOT_FOUND) && match path with [] => true | _ => false end
                      then mkWalk r dir 0 (Some name) else mkWalk r 0 0 None)
              else f ← mderef o; walk_from fuel path dir f
      end
  end.

Definition walk_path (path : list Z) : M fss walked :=
  let path := skip_slash path in
  walk_from (length path) path 0 s_root_va.

Definition file_create (path : list Z) : M fss (Z * Z) :=
  w ← walk_path path;
  if w_r w =? 0 then mret (- E_FILE_EXISTS, 0)
  else if negb (w_r w =? - E_NOT_FOUND) || (w_dir w =? 0) then mret (w_r w, 0)
  else
    '(r, o) ← dir_alloc_file (w_dir w);
    if r <? 0 then mret (r, 0)
    else
      f ← mderef o;
      name ← mderef (w_last w);
      u_strcpy f name;;
      file_flush (w_dir w);;
      mret (0, f).

Definition file_open (path : list Z) : M fss (Z * Z) :=
  w ← walk_path path;
  mret (w_r w, w_f w).

(** ** Start-up *)

(** fs/bc.c: the tests of the cache, with the address of [backup]. *)
Definition smash : M fss unit := a ← diskaddr 1; u_strcpy a (zs (line "OOPS!")).
Definition backup_super (backup : Z) : M fss unit := a ← diskaddr 1; u_memmove backup a 264.
Definition restore_super (backup : Z) : M fss unit :=
  a ← diskaddr 1; u_memmove a backup 264;; a ← diskaddr 1; flush_block a.
Definition reread : M fss unit :=
  a ← diskaddr 1; u_page_unmap a;;
  a ← diskaddr 1; m ← va_is_mapped a;
  massert (negb m) "assertion failed: !va_is_mapped(diskaddr(1))";;
  a ← diskaddr 1; c ← u_strcmp a (zs (line "OOPS!"));
  massert (c =? 0) "assertion failed: strcmp(diskaddr(1), OOPS!) == 0".

Definition check_bc (backup : Z) : M fss unit :=
  backup_super backup;;
  smash;;
  a ← diskaddr 1; flush_block a;;
  a ← diskaddr 1; m ← va_is_mapped a;
  massert m "assertion failed: va_is_mapped(diskaddr(1))";;
  a ← diskaddr 1; d ← va_is_dirty a;
  massert (negb d) "assertion failed: !va_is_dirty(diskaddr(1))";;
  reread;;
  restore_super backup;;
  backup_super backup;;
  smash;;
  a ← diskaddr 1; flush_block (a + 20);;
  a ← diskaddr 1; m ← va_is_mapped a;
  massert m "assertion failed: va_is_mapped(diskaddr(1))";;
  reread;;
  restore_super backup;;
  fprint (line "block cache is good") [].

(** The page fault handler is installed in [touch] from the start. *)
Definition bc_init (backup super : Z) : M fss unit :=
  check_bc backup;;
  a ← diskaddr 1; u_memmove super a 264.

Definition fs_init (backup super : Z) : M fss unit :=
  d ← ide_probe_disk1;
  ide_set_disk (if (d : bool) then 1 else 0);;
  bc_init backup super;;
  a ← diskaddr 1; mmod (λ s, fw_fs true (f_bitmap s) s);;
  check_super;;
  a ← diskaddr 2; mmod (λ s, fw_fs (f_super s) true s);;
  check_bitmap.
End fs.
