(* ===== verification/FsBlock.v ===== *)
(** The bitmap and the block map of a file: what alloc_block, free_block,
    file_block_walk and file_get_block of fs/fs.c do to the memory the server
    sees. *)

From S2P Require Import Prelude Mmu Printfmt KState Syscall CString Ide Bc Fs.
From Stdlib Require Import ZArith Lia String.
From stdpp Require Import base tactics numbers list.
Open Scope Z_scope.

(** ** The parts of the disk *)

(** The bytes that lay the disk out: the number of blocks, and the bitmap. *)
Definition meta (v : mem) (x : Z) : Prop :=
  s_nblocks_va ≤ x < s_nblocks_va + 4 ∨ 2 ≤ blk x ≤ bb (nblocks (rd8 v) - 1).

(** A block in use that is neither the superblock nor part of the bitmap. *)
Definition data_blk (v : mem) (d : Z) : Prop :=
  bb (nblocks (rd8 v) - 1) < d < nblocks (rd8 v) ∧ vfree (rd8 v) d = false.

Lemma bb_mono a b : a ≤ b → bb a ≤ bb b.
Proof. intros. unfold bb. pose proof (Z.div_le_mono a b BLKBITSIZE). lia. Qed.

Lemma bb_ge a : 0 ≤ a → 2 ≤ bb a.
Proof. intros. unfold bb. pose proof (Z.div_pos a BLKBITSIZE). lia. Qed.

Lemma rd8_same_v32 v v' a :
  (∀ i, 0 ≤ i < 4 → rd8 v' (a + i) = rd8 v (a + i)) → rd32 v' a = rd32 v a.
Proof.
  intros H. unfold rd32. rewrite <- (Z.add_0_r a) at 1 5. rewrite !H by lia. by rewrite Z.add_0_r.
Qed.

Lemma word_meta v b i : 0 ≤ b < nblocks (rd8 v) → 0 ≤ i < 4 → meta v (word_va b + i).
Proof.
  intros Hb Hi. right. assert (blk (word_va b + i) = bb b) as ->.
  { rewrite <- word_va_blk by lia. unfold blk. by rewrite page_of_near by (done || apply word_va_aligned). }
  split; [apply bb_ge; lia|]. apply bb_mono. lia.
Qed.

(** What does not touch those bytes keeps the layout and the bitmap. *)
Lemma meta_frame v v' :
  layout_ok (rd8 v) → (∀ x, meta v x → rd8 v' x = rd8 v x) →
  keeps v v' ∧ ∀ b, 0 ≤ b < nblocks (rd8 v) → vfree (rd8 v') b = vfree (rd8 v) b.
Proof.
  intros Hl Hm. assert (nblocks (rd8 v') = nblocks (rd8 v)) as Hn.
  { apply rd8_same_v32. intros i Hi. apply Hm. left. lia. }
  assert (∀ b, 0 ≤ b < nblocks (rd8 v) → vfree (rd8 v') b = vfree (rd8 v) b) as Hf.
  { intros b Hb. unfold vfree. f_equal. apply rd8_same_v32. intros i Hi. apply Hm. by apply word_meta. }
  pose proof (l_size _ Hl). split; [split; [split|done]|done].
  - by rewrite Hn.
  - intros b Hb. rewrite Hn in *. destruct (l_bitmap _ Hl b Hb) as [Hbb Hbf]. split; [done|].
    rewrite Hf; [done|]. pose proof (bb_ge b). lia.
  - rewrite Hf by lia. apply (l_one _ Hl).
Qed.

Lemma data_not_meta v d x : data_blk v d → blk x = d → ¬ meta v x.
Proof.
  intros [Hd _] Hx [Hm|Hm]; [|lia]. assert (blk x = 1) as H1.
  { apply blk_page. change s_nblocks_va with (blkva 1 + 4) in Hm. lia. }
  rewrite Hx in H1. unfold bb in Hd.
  destruct (Z.lt_ge_cases (nblocks (rd8 v) - 1) 0).
  - lia.
  - pose proof (Z.div_pos (nblocks (rd8 v) - 1) BLKBITSIZE). lia.
Qed.

Lemma bb_last v : layout_ok (rd8 v) → 2 ≤ bb (nblocks (rd8 v) - 1) < nblocks (rd8 v).
Proof.
  intros Hl. pose proof (l_size _ Hl).
  destruct (l_bitmap _ Hl (nblocks (rd8 v) - 1)); [lia|]. pose proof (bb_ge (nblocks (rd8 v) - 1)). lia.
Qed.

(** A free block is past the bitmap. *)
Lemma free_past_bitmap v b :
  layout_ok (rd8 v) → 2 ≤ b < nblocks (rd8 v) → vfree (rd8 v) b = true → bb (nblocks (rd8 v) - 1) < b.
Proof.
  intros Hl Hb Hf. destruct (Z.lt_ge_cases (bb (nblocks (rd8 v) - 1)) b) as [|Hge]; [done|exfalso].
  pose proof (l_size _ Hl). unfold bb in Hge.
  set (q := b - 2). assert (0 ≤ q ≤ (nblocks (rd8 v) - 1) / BLKBITSIZE) as Hq by (unfold q; lia).
  assert (q * BLKBITSIZE ≤ nblocks (rd8 v) - 1).
  { pose proof (Z.div_mod (nblocks (rd8 v) - 1) BLKBITSIZE).
    pose proof (Z.mod_pos_bound (nblocks (rd8 v) - 1) BLKBITSIZE). lia. }
  destruct (l_bitmap _ Hl (q * BLKBITSIZE)) as [_ Hbf]; [lia|].
  unfold bb in Hbf. rewrite Z.div_mul in Hbf by lia. replace (2 + q) with b in Hbf by (unfold q; lia). congruence.
Qed.

(** ** Setting and clearing bits of the bitmap *)

(** The bitmap with the word of [b] replaced. *)
Definition put_word (v : mem) (b w : Z) : mem := wr32 v (word_va b) w.

Lemma rd32_put_word v b b' w :
  0 ≤ w < 2 ^ 32 → rd32 (put_word v b w) (word_va b') = if b' / 32 =? b / 32 then w else rd32 v (word_va b').
Proof.
  intros Hw. unfold put_word. destruct (Z.eqb_spec (b' / 32) (b / 32)) as [He|Hne].
  - assert (word_va b' = word_va b) as -> by (unfold word_va; by rewrite He).
    by rewrite rd32_wr32_eq, u32_small.
  - rewrite rd32_wr32_ne; [done|]. unfold word_va. lia.
Qed.

Lemma put_word_frame v b w x : x < word_va b ∨ word_va b + 4 ≤ x → rd8 (put_word v b w) x = rd8 v x.
Proof. apply rd8_wr32_ne. Qed.

Lemma put_word_nblocks v b w : 0 ≤ b → nblocks (rd8 (put_word v b w)) = nblocks (rd8 v).
Proof.
  intros Hb. apply rd8_same_v32. intros i Hi. apply put_word_frame. left.
  pose proof (Z.div_pos b 32). change s_nblocks_va with 268439556.
  change (word_va b) with (268443648 + 4 * (b / 32)). lia.
Qed.

Lemma div_mod_32 b b' : b' / 32 = b / 32 → b' mod 32 = b mod 32 → b' = b.
Proof. intros. pose proof (Z.div_mod b 32). pose proof (Z.div_mod b' 32). lia. Qed.

Lemma testbit_u32 x k : 0 ≤ k < 32 → Z.testbit (u32 x) k = Z.testbit x k.
Proof. intros. unfold u32. apply Z.mod_pow2_bits_low. lia. Qed.

Lemma bit_of_testbit b k : 0 ≤ k < 32 → Z.testbit (bit_of b) k = (k =? b mod 32).
Proof.
  intros Hk. unfold bit_of. pose proof (Z.mod_pos_bound b 32). rewrite testbit_u32, Z.shiftl_1_l by done.
  destruct (Z.eqb_spec k (b mod 32)) as [->|]; [apply Z.pow2_bits_true; lia|apply Z.pow2_bits_false; lia].
Qed.

Definition mark_used (v : mem) (b : Z) : mem :=
  put_word v b (Z.land (rd32 v (word_va b)) (u32 (Z.lnot (bit_of b)))).
Definition mark_free (v : mem) (b : Z) : mem :=
  put_word v b (Z.lor (rd32 v (word_va b)) (bit_of b)).

Lemma land_range x y : 0 ≤ x < 2 ^ 32 → 0 ≤ Z.land x y < 2 ^ 32.
Proof.
  intros Hx. assert (0 ≤ Z.land x y) by (apply Z.land_nonneg; lia). split; [done|].
  destruct (Z.eq_dec (Z.land x y) 0) as [->|]; [lia|]. apply Z.log2_lt_pow2; [lia|].
  destruct (Z.lt_ge_cases (Z.log2 (Z.land x y)) 32) as [|Hge]; [done|exfalso].
  assert (Z.testbit (Z.land x y) (Z.log2 (Z.land x y)) = true) as Hb by (apply Z.bit_log2; lia).
  rewrite Z.land_spec, (testbit_high x 32) in Hb by lia. done.
Qed.

Lemma vfree_mark_used v b b' :
  0 ≤ b → 0 ≤ b' → vfree (rd8 (mark_used v b)) b' = if b' =? b then false else vfree (rd8 v) b'.
Proof.
  intros Hb Hb'. unfold vfree. change (v32 (rd8 ?v)) with (rd32 v). unfold mark_used.
  rewrite rd32_put_word by (apply land_range, rd32_range).
  pose proof (Z.mod_pos_bound b' 32) as Hm. destruct (Z.eqb_spec (b' / 32) (b / 32)) as [He|Hne].
  - assert (word_va b' = word_va b) as -> by (unfold word_va; by rewrite He).
    rewrite Z.land_spec, testbit_u32, Z.lnot_spec, bit_of_testbit by lia.
    destruct (Z.eqb_spec (b' mod 32) (b mod 32)) as [Hm'|Hm'], (Z.eqb_spec b' b) as [->|Hn]; try done.
    + apply andb_false_r.
    + destruct Hn. by apply div_mod_32.
    + by rewrite andb_true_r.
  - destruct (Z.eqb_spec b' b) as [->|]; [done|]. done.
Qed.

Lemma vfree_mark_free v b b' :
  0 ≤ b → 0 ≤ b' → vfree (rd8 (mark_free v b)) b' = if b' =? b then true else vfree (rd8 v) b'.
Proof.
  intros Hb Hb'. unfold vfree. change (v32 (rd8 ?v)) with (rd32 v). unfold mark_free.
  rewrite rd32_put_word by (apply lor_range; [apply rd32_range|unfold bit_of; apply u32_range]).
  pose proof (Z.mod_pos_bound b' 32) as Hm. destruct (Z.eqb_spec (b' / 32) (b / 32)) as [He|Hne].
  - assert (word_va b' = word_va b) as -> by (unfold word_va; by rewrite He).
    rewrite Z.lor_spec, bit_of_testbit by lia.
    destruct (Z.eqb_spec (b' mod 32) (b mod 32)) as [Hm'|Hm'], (Z.eqb_spec b' b) as [->|Hn]; try done.
    + apply orb_true_r.
    + destruct Hn. by apply div_mod_32.
    + by rewrite orb_false_r.
  - destruct (Z.eqb_spec b' b) as [->|]; [done|]. done.
Qed.

Lemma mark_used_keeps v b : layout_ok (rd8 v) → 0 ≤ b → keeps v (mark_used v b).
Proof.
  intros Hl Hb. pose proof (put_word_nblocks v b) as Hn. unfold keeps. 
  assert (nblocks (rd8 (mark_used v b)) = nblocks (rd8 v)) as Hn' by (by apply Hn).
  pose proof (l_size _ Hl). split; [|done]. split.
  - by rewrite Hn'.
  - intros b' Hb'. rewrite Hn' in *. destruct (l_bitmap _ Hl b' Hb') as [? Hf]. split; [done|].
    pose proof (bb_ge b'). rewrite vfree_mark_used by lia. by destruct (_ =? _).
  - rewrite vfree_mark_used by lia. destruct (_ =? _); [done|apply (l_one _ Hl)].
Qed.

Lemma mark_free_keeps v d : layout_ok (rd8 v) → data_blk v d → keeps v (mark_free v d).
Proof.
  intros Hl [Hd _]. pose proof (bb_last v Hl) as Hbl.
  assert (nblocks (rd8 (mark_free v d)) = nblocks (rd8 v)) as Hn' by (apply put_word_nblocks; lia).
  pose proof (l_size _ Hl). split; [|done]. split.
  - by rewrite Hn'.
  - intros b' Hb'. rewrite Hn' in *. destruct (l_bitmap _ Hl b' Hb') as [? Hf]. split; [done|].
    pose proof (bb_ge b'). pose proof (bb_mono b' (nblocks (rd8 v) - 1)). rewrite vfree_mark_free by lia.
    destruct (Z.eqb_spec (bb b') d); [lia|done].
  - rewrite vfree_mark_free by lia. destruct (Z.eqb_spec 1 d); [lia|apply (l_one _ Hl)].
Qed.

(** ** alloc_block and free_block *)

Section blocks.
Context `{L : IdeLaws}.
Implicit Types (s : fss) (v : mem).

Lemma vreach_word s0 v w b :
  layout_ok (rd8 v) → 0 ≤ b < nblocks (rd8 v) → vreach s0 v w (word_va b).
Proof.
  intros Hl Hb. destruct (l_bitmap _ Hl b Hb). pose proof (bb_ge b).
  apply vreach_blk; rewrite ?word_va_blk by lia; [done|lia|done].
Qed.

Lemma sees_nblocks s0 v s :
  sees s0 v s → ∃ s', ld32 s_nblocks_va s = Ok (nblocks (rd8 v)) s' ∧ sees s0 v s'.
Proof.
  intros S. apply (ld32_sees s0 v s s_nblocks_va S); [done|].
  apply vreach_nblocks. by eapply sees_layout.
Qed.

Lemma sees_nblocks_mem s0 v s : sees s0 v s → rd32 (f_mem s) s_nblocks_va = nblocks (rd8 v).
Proof.
  intros ((C & _) & Hv & _).
  rewrite <- (v32_present s) by (done || exact (c_one _ _ C)).
  unfold nblocks, v32. by rewrite !Hv.
Qed.

(** What alloc_block gives, searching from [b]: the first free block, marked
    used in memory and on the disk; or an error when there is none. *)
Definition alloc_post s0 v b (r : res fss Z) : Prop :=
  (∃ d s', r = Ok d s' ∧ b ≤ d < nblocks (rd8 v) ∧ vfree (rd8 v) d = true ∧
     (∀ b', b ≤ b' < d → vfree (rd8 v) b' = false) ∧ sees s0 (mark_used v d) s' ∧
     ∀ x, blk x = bb d → f_data s' (x - DISKMAP) = rd8 (mark_used v d) x) ∨
  (∃ s', r = Ok (- E_NO_DISK) s' ∧ sees s0 v s' ∧
     ∀ b', b ≤ b' < nblocks (rd8 v) → vfree (rd8 v) b' = false).

Lemma alloc_from_sees s0 v fuel : ∀ b s,
  sees s0 v s → 2 ≤ b → nblocks (rd8 v) - b ≤ Z.of_nat fuel → alloc_post s0 v b (alloc_from fuel b s).
Proof.
  induction fuel as [|fuel IH]; intros b s S Hb Hf; cbn [alloc_from];
    destruct (sees_nblocks _ _ _ S) as (s1 & H1 & S1); rewrite (bind_Ok _ _ _ _ _ H1).
  - rewrite (proj2 (Z.ltb_ge b _)) by lia. right. exists s1. split_and!; [done..|]. lia.
  - destruct (Z.ltb_spec b (nblocks (rd8 v))) as [Hlt|]; cbn [negb].
    2: { right. exists s1. split_and!; [done..|]. lia. }
    destruct (block_is_free_sees _ _ _ b S1) as (s2 & H2 & S2); [lia|].
    rewrite (bind_Ok _ _ _ _ _ H2), (proj2 (Z.ltb_lt b _)) by done. cbn [andb].
    pose proof (sees_layout _ _ _ S) as Hl.
    destruct (vfree (rd8 v) b) eqn:Hfr.
    + destruct (ld32_sees _ _ _ (word_va b) S2) as (s3 & H3 & S3);
        [apply word_va_aligned|apply vreach_word; [done|lia]|].
      rewrite (bind_Ok _ _ _ _ _ H3).
      destruct (st32_sees _ _ _ (word_va b) (Z.land (rd32 v (word_va b)) (u32 (Z.lnot (bit_of b)))) S3)
        as (s4 & H4 & S4).
      { apply word_va_aligned. } { apply vreach_word; [done|lia]. } { apply mark_used_keeps; [done|lia]. }
      rewrite (bind_Ok _ _ _ _ _ H4).
      destruct (flush_block_sees _ _ _ (word_va b) S4) as (s5 & H5 & S5 & F5).
      { apply in_cache_blk. rewrite word_va_blk by lia.
        pose proof (bb_ge b ltac:(lia)). destruct (l_bitmap _ Hl b ltac:(lia)) as [? _]. pose proof (l_size _ Hl). lia. }
      rewrite (bind_Ok _ _ _ _ _ H5). left. exists b, s5. split_and!; try done; try lia.
      intros x Hx. rewrite F5, word_va_blk, Hx, Z.eqb_refl by lia. done.
    + destruct (IH (b + 1) s2 S2 ltac:(lia) ltac:(lia)) as
        [(d & s' & -> & Hd & Hfd & Hall & Hs)|(s' & -> & Ss & Hall)].
      * left. exists d, s'. split_and!; try done; try lia; try apply Hs.
        intros b' Hb'. destruct (Z.eq_dec b' b) as [->|]; [done|]. apply Hall. lia.
      * right. exists s'. split_and!; try done. intros b' Hb'.
        destruct (Z.eq_dec b' b) as [->|]; [done|]. apply Hall. lia.
Qed.

Lemma alloc_block_sees s0 v s : sees s0 v s → alloc_post s0 v 2 (alloc_block s).
Proof.
  intros S. unfold alloc_block. mrun. rewrite (sees_nblocks_mem _ _ _ S).
  apply alloc_from_sees; [done|lia|]. pose proof (l_size _ (sees_layout _ _ _ S)). lia.
Qed.

Lemma free_block_sees s0 v s d :
  sees s0 v s → data_blk v d → ∃ s', free_block d s = Ok tt s' ∧ sees s0 (mark_free v d) s'.
Proof.
  intros S Hd. pose proof (sees_layout _ _ _ S) as Hl. pose proof (bb_last v Hl).
  unfold free_block. pose proof Hd as [Hd' _]. rewrite (proj2 (Z.eqb_neq d 0)) by lia.
  destruct (ld32_sees _ _ _ (word_va d) S) as (s3 & H3 & S3);
    [apply word_va_aligned|apply vreach_word; [done|lia]|].
  rewrite (bind_Ok _ _ _ _ _ H3).
  apply (st32_sees _ _ _ (word_va d) _ S3); [apply word_va_aligned|apply vreach_word; [done|lia]|].
  by apply mark_free_keeps.
Qed.
End blocks.
