(* ===== verification/FsFile.v ===== *)
(** Files: the block map and the contents of a file in the memory the server
    sees, and what file_get_block, file_read, file_write and file_set_size of
    fs/fs.c do to them. *)

From S2P Require Import Prelude Mmu Printfmt KState Syscall CString Ide Bc Fs FsBlock.
From Stdlib Require Import ZArith Lia String.
From stdpp Require Import base tactics numbers list.
Open Scope Z_scope.

(** ** A block given to a slot *)

(** What fill_slot does with block [d]: its bit is cleared, its number is put
    into the slot at [pp], its bytes are zero. *)
Definition fill (v : mem) (pp d : Z) : mem := mem_set (wr32 (mark_used v d) pp d) (blkva d) 0 4096.

(** The slots: aligned words of a block in use that do not belong to the
    layout of the disk. *)
Record slot_ok (v : mem) (pp : Z) : Prop := {
  sl_al : pp mod 4 = 0;
  sl_blk : 1 ≤ blk pp < nblocks (rd8 v) ∧ vfree (rd8 v) (blk pp) = false;
  sl_meta : ∀ i, 0 ≤ i < 4 → ¬ meta v (pp + i) }.

Definition free_blk (v : mem) (d : Z) : Prop := 2 ≤ d < nblocks (rd8 v) ∧ vfree (rd8 v) d = true.

Lemma blk_word a i : a mod 4 = 0 → 0 ≤ i < 4 → blk (a + i) = blk a.
Proof. intros. unfold blk. by rewrite page_of_near. Qed.

Lemma mark_used_frame v b x :
  0 ≤ b < nblocks (rd8 v) → ¬ meta v x → rd8 (mark_used v b) x = rd8 v x.
Proof.
  intros Hb Hm. apply put_word_frame.
  destruct (Z.lt_ge_cases x (word_va b)), (Z.lt_ge_cases x (word_va b + 4)); try lia.
  destruct Hm. replace x with (word_va b + (x - word_va b)) by lia. apply word_meta; lia.
Qed.

Lemma fill_out v pp d x :
  blk x ≠ d → (x < pp ∨ pp + 4 ≤ x) → rd8 (fill v pp d) x = rd8 (mark_used v d) x.
Proof.
  intros Hb Hx. unfold fill. rewrite rd8_mem_set_out by (pose proof (blk_page x d); lia).
  by apply rd8_wr32_ne.
Qed.

Lemma fill_zero v pp d x : blk x = d → rd8 (fill v pp d) x = 0.
Proof. intros Hb%blk_page. unfold fill. by rewrite rd8_mem_set_in by lia. Qed.

Section fill.
Context (v : mem) (pp d : Z) (Hl : layout_ok (rd8 v)) (Hs : slot_ok v pp) (Hd : free_blk v d).

Lemma slot_not_new : blk pp ≠ d.
Proof. intros He. destruct (sl_blk _ _ Hs) as [_ Hf]. destruct Hd as [_ Hf']. congruence. Qed.

Lemma fill_keeps_used :
  keeps v (mark_used v d) ∧
  (∀ b, 0 ≤ b < nblocks (rd8 v) → vfree (rd8 (mark_used v d)) b = if b =? d then false else vfree (rd8 v) b).
Proof.
  destruct Hd as [Hr _]. split; [apply mark_used_keeps; [done|lia]|].
  intros b Hb. apply vfree_mark_used; lia.
Qed.

(** The stores of fill_slot stay away from the layout. *)
Lemma fill_keeps_store x :
  keeps (mark_used v d) (wr32 (mark_used v d) pp x) ∧
  (∀ b, 0 ≤ b < nblocks (rd8 v) →
     vfree (rd8 (wr32 (mark_used v d) pp x)) b = vfree (rd8 (mark_used v d)) b).
Proof.
  destruct fill_keeps_used as [[Hl1 Hn1] _].
  destruct (meta_frame (mark_used v d) (wr32 (mark_used v d) pp x) Hl1) as [Hk Hf].
  - intros y Hy. apply rd8_wr32_ne.
    destruct (Z.lt_ge_cases y pp), (Z.lt_ge_cases y (pp + 4)); try lia. exfalso.
    destruct (sl_meta _ _ Hs (y - pp)); [lia|]. replace (pp + (y - pp)) with y by lia.
    unfold meta in *. by rewrite Hn1 in Hy.
  - split; [done|]. by rewrite Hn1 in Hf.
Qed.

Lemma fill_keeps :
  keeps v (fill v pp d) ∧
  ∀ b, 0 ≤ b < nblocks (rd8 v) → vfree (rd8 (fill v pp d)) b = if b =? d then false else vfree (rd8 v) b.
Proof.
  destruct fill_keeps_used as [[Hl1 Hn1] Hf1]. destruct (fill_keeps_store d) as [[Hl2 Hn2] Hf2].
  destruct (meta_frame (wr32 (mark_used v d) pp d) (fill v pp d) Hl2) as [[Hl3 Hn3] Hf3].
  - intros y Hy. unfold fill. apply rd8_mem_set_out.
    assert (blk y ≠ d); [|pose proof (blk_page y d); lia]. intros He.
    apply (data_not_meta (wr32 (mark_used v d) pp d) d y); [|done|done].
    pose proof (free_past_bitmap v d Hl). destruct Hd as [Hr Hfr]. specialize (H Hr Hfr).
    split; rewrite ?Hn2, ?Hn1; [lia|]. rewrite Hf2, Hf1 by lia. by rewrite Z.eqb_refl.
  - split; [split; [done|congruence]|]. intros b Hb.
    rewrite Hf3, Hf2, Hf1 by (rewrite ?Hn2, ?Hn1; lia). done.
Qed.

Lemma fill_frame x :
  blk x ≠ d → (x < pp ∨ pp + 4 ≤ x) → ¬ meta v x → rd8 (fill v pp d) x = rd8 v x.
Proof.
  intros Hb Hx Hm. rewrite fill_out by done. apply mark_used_frame; [|done]. destruct Hd. lia.
Qed.

Lemma fill_word a :
  a mod 4 = 0 → blk a ≠ d → a ≠ pp → (∀ i, 0 ≤ i < 4 → ¬ meta v (a + i)) →
  rd32 (fill v pp d) a = rd32 v a.
Proof.
  intros Ha Hb Hne Hm. apply rd8_same_v32. intros i Hi. apply fill_frame; [by rewrite blk_word| |auto].
  pose proof (sl_al _ _ Hs). pose proof (Z.div_mod a 4). pose proof (Z.div_mod pp 4). lia.
Qed.

Lemma fill_slot_word : rd32 (fill v pp d) pp = d.
Proof.
  pose proof slot_not_new as Hne. unfold fill.
  rewrite rd32_mem_set_out.
  - rewrite rd32_wr32_eq, u32_small; [done|]. destruct Hd. pose proof (l_size _ Hl). lia.
  - assert (¬ (blkva d ≤ pp < blkva d + 4096)) by (rewrite <- blk_page; done).
    assert (¬ (blkva d ≤ pp + 3 < blkva d + 4096)); [|lia].
    rewrite <- blk_page. rewrite blk_word; [done|apply (sl_al _ _ Hs)|lia].
Qed.
End fill.

(** The number of free blocks. *)
Definition nfree (v : mem) : Z := count (vfree (rd8 v)) (seqZ 2 (nblocks (rd8 v) - 2)).

Lemma nfree_fill v pp d :
  layout_ok (rd8 v) → slot_ok v pp → free_blk v d → nfree (fill v pp d) = nfree v - 1.
Proof.
  intros Hl Hs Hd. destruct (fill_keeps v pp d Hl Hs Hd) as [[_ Hn] Hf]. pose proof Hd as [Hr Hfr].
  unfold nfree. rewrite Hn.
  rewrite (count_ext (vfree (rd8 (fill v pp d))) (λ b, if b =? d then false else vfree (rd8 v) b))
    by (intros b Hb%elem_of_seqZ; apply Hf; lia).
  apply (count_one _ _ _ d).
  - apply NoDup_seqZ.
  - apply elem_of_seqZ. lia.
  - done.
  - by rewrite Z.eqb_refl.
  - intros y Hy. by destruct (Z.eqb_spec y d).
Qed.

Lemma nfree_zero v :
  (∀ b, 2 ≤ b < nblocks (rd8 v) → vfree (rd8 v) b = false) → nfree v = 0.
Proof.
  intros H. unfold nfree. rewrite (count_ext _ (λ _, false)).
  - unfold count. by induction (seqZ _ _).
  - intros b Hb%elem_of_seqZ. apply H. lia.
Qed.

Section slots.
Context `{L : IdeLaws}.
Implicit Types (s : fss) (v : mem).

Lemma slot_reach s0 v w pp : layout_ok (rd8 v) → slot_ok v pp → vreach s0 v w pp.
Proof. intros Hl [_ [Hb Hf] _]. by apply vreach_blk. Qed.

Lemma slot_used v pp d :
  layout_ok (rd8 v) → slot_ok v pp → free_blk v d → slot_ok (mark_used v d) pp.
Proof.
  intros Hl Hs Hd. destruct (fill_keeps_used v d Hl Hd) as [[_ Hn] Hf].
  destruct Hs as [Ha [Hb Hfr] Hm]. split; [done| |].
  - rewrite Hn. split; [done|]. rewrite Hf by lia. by destruct (_ =? _).
  - intros i Hi. unfold meta. rewrite Hn. by apply Hm.
Qed.

Lemma fill_slot_sees s0 v s pp :
  sees s0 v s → slot_ok v pp →
  (∃ d s', fill_slot pp s = Ok 0 s' ∧ free_blk v d ∧ sees s0 (fill v pp d) s') ∨
  (∃ s', fill_slot pp s = Ok (- E_NO_DISK) s' ∧ nfree v = 0 ∧ sees s0 v s').
Proof.
  intros S Hs. pose proof (sees_layout _ _ _ S) as Hl. unfold fill_slot.
  destruct (alloc_block_sees _ _ _ S) as
    [(d & s1 & H1 & Hr & Hfr & _ & S1 & _)|(s1 & H1 & S1 & Hall)]; rewrite (bind_Ok _ _ _ _ _ H1).
  2: { right. exists s1. split_and!; [done|by apply nfree_zero|done]. }
  left. assert (free_blk v d) as Hd by done. rewrite (proj2 (Z.ltb_ge d 0)) by lia.
  pose proof (slot_used v pp d Hl Hs Hd) as Hs1. pose proof (sees_layout _ _ _ S1) as Hl1.
  destruct (fill_keeps_store v pp d Hl Hs Hd d) as [K2 Hf2].
  destruct (fill_keeps_used v d Hl Hd) as [[_ Hn1] Hf1].
  destruct (st32_sees _ _ _ pp d S1) as (s2 & H2 & S2);
    [apply (sl_al _ _ Hs)|by apply slot_reach|done|].
  rewrite (bind_Ok _ _ _ _ _ H2). pose proof K2 as [Hl2 Hn2].
  destruct (diskaddr_sees _ _ _ d S2) as (s3 & H3 & S3); [lia|]. rewrite (bind_Ok _ _ _ _ _ H3).
  destruct (fill_keeps v pp d Hl Hs Hd) as [[Hl4 Hn4] Hf4].
  assert (∀ x, blkva d ≤ x < blkva d + 4096 → blk x = d) as Hblk by (intros x; apply blk_page).
  destruct (memset_sees _ _ _ (blkva d) 0 4096 S3) as (s4 & H4 & S4).
  { lia. }
  { intros x Hx%Hblk. apply vreach_blk; rewrite ?Hx; [done|lia|].
    rewrite Hf2, Hf1 by lia. by rewrite Z.eqb_refl. }
  { split; [exact Hl4|]. rewrite Hn2, Hn1. exact Hn4. }
  rewrite (bind_Ok _ _ _ _ _ H4).
  destruct (diskaddr_sees _ _ _ d S4) as (s5 & H5 & S5);
    [fold (fill v pp d); rewrite Hn4; lia|]. rewrite (bind_Ok _ _ _ _ _ H5).
  destruct (flush_block_sees _ _ _ (blkva d) S5) as (s6 & H6 & S6 & _).
  { apply in_cache_blk. rewrite Hblk by lia. pose proof (l_size _ Hl). lia. }
  rewrite (bind_Ok _ _ _ _ _ H6). by exists d, s6.
Qed.
End slots.

(** ** The block map of a file *)

Abbreviation MAXBLK := 1034 (only parsing).

Definition ind (v : mem) (f : Z) : Z := rd32 v (f_indirect_va f).
Definition slot_va (v : mem) (f k : Z) : Z :=
  if k <? NDIRECT then f_direct_va f k else blkva (ind v f) + 4 * (k - NDIRECT).
Definition has_slot (v : mem) (f k : Z) : Prop := k < NDIRECT ∨ ind v f ≠ 0.
(** The disk block of the [k]th block of the file, 0 for a hole. *)
Definition bmap (v : mem) (f k : Z) : Z :=
  if (NDIRECT <=? k) && (ind v f =? 0) then 0 else rd32 v (slot_va v f k).
(** The bytes of the file; a hole reads as zeros. *)
Definition content (v : mem) (f pos : Z) : Z :=
  let d := bmap v f (pos / BLKSIZE) in
  if d =? 0 then 0 else rd8 v (blkva d + pos mod BLKSIZE).

(** A file whose blocks are in use, its own, and used once. *)
Record file_ok (v : mem) (f : Z) : Prop := {
  fo_al : f mod 4 = 0 ∧ f mod 4096 ≤ 3840;
  fo_home : blk f = 1 ∧ super_va + 8 ≤ f ∨ bb (nblocks (rd8 v) - 1) < blk f;
  fo_used : 1 ≤ blk f < nblocks (rd8 v) ∧ vfree (rd8 v) (blk f) = false;
  fo_ind : ind v f ≠ 0 → data_blk v (ind v f) ∧ ind v f ≠ blk f;
  fo_blk : ∀ k, 0 ≤ k < MAXBLK → bmap v f k ≠ 0 →
    data_blk v (bmap v f k) ∧ bmap v f k ≠ blk f ∧ bmap v f k ≠ ind v f;
  fo_inj : ∀ j k, 0 ≤ j < MAXBLK → 0 ≤ k < MAXBLK → bmap v f j = bmap v f k → bmap v f j ≠ 0 → j = k }.

Lemma bmap_slot v f k : has_slot v f k → bmap v f k = rd32 v (slot_va v f k).
Proof.
  intros H. unfold bmap. destruct (Z.leb_spec NDIRECT k), (Z.eqb_spec (ind v f) 0); try done.
  destruct H; lia.
Qed.

Section struct.
Context (v : mem) (f : Z) (Hl : layout_ok (rd8 v)) (Hf : file_ok v f).

Lemma struct_blk o : 0 ≤ o < 256 → blk (f + o) = blk f.
Proof.
  intros Ho. destruct (fo_al _ _ Hf) as [_ Hfit]. unfold blk. f_equal.
  pose proof (Z.div_mod f 4096). pose proof (Z.mod_pos_bound f 4096).
  symmetry. apply (Z.div_unique_pos _ _ _ (f mod 4096 + o)); lia.
Qed.

Lemma struct_not_meta o : 0 ≤ o < 256 → ¬ meta v (f + o).
Proof.
  intros Ho [Hm|Hm].
  - pose proof (struct_blk o Ho) as Hb. assert (blk (f + o) = 1) as H1.
    { apply blk_page. change s_nblocks_va with (blkva 1 + 4) in Hm. lia. }
    pose proof (bb_last v Hl). destruct (fo_home _ _ Hf) as [[_ Hge]|Hgt]; [|lia].
    change s_nblocks_va with (super_va + 4) in Hm. lia.
  - rewrite struct_blk in Hm by done. destruct (fo_home _ _ Hf) as [[H1 _]|Hgt]; lia.
Qed.

Lemma struct_slot o : 0 ≤ o ≤ 252 → o mod 4 = 0 → slot_ok v (f + o).
Proof.
  intros Ho Ha. destruct (fo_al _ _ Hf) as [Hal _]. split.
  - rewrite Z.add_mod, Hal, Ha by lia. done.
  - rewrite struct_blk by lia. apply (fo_used _ _ Hf).
  - intros i Hi. rewrite <- Z.add_assoc. apply struct_not_meta. lia.
Qed.

Lemma ind_word_blk k : NDIRECT ≤ k < MAXBLK → blk (blkva (ind v f) + 4 * (k - NDIRECT)) = ind v f.
Proof. intros Hk. apply blk_page. lia. Qed.

Lemma ind_slot k :
  ind v f ≠ 0 → NDIRECT ≤ k < MAXBLK → slot_ok v (blkva (ind v f) + 4 * (k - NDIRECT)).
Proof.
  intros Hi Hk. destruct (fo_ind _ _ Hf Hi) as [Hd _]. pose proof (bb_last v Hl). split.
  - unfold blkva. replace (DISKMAP + ind v f * BLKSIZE + 4 * (k - NDIRECT))
      with ((67108864 + ind v f * 1024 + (k - NDIRECT)) * 4) by lia. apply Z.mod_mul. lia.
  - rewrite ind_word_blk by done. destruct Hd as [Hd Hfr]. split; [lia|done].
  - intros i Hi'. eapply data_not_meta; [exact Hd|]. apply blk_page. lia.
Qed.

Lemma slot_va_ok k : 0 ≤ k < MAXBLK → has_slot v f k → slot_ok v (slot_va v f k).
Proof.
  intros Hk Hs. unfold slot_va. destruct (Z.ltb_spec k NDIRECT).
  - unfold f_direct_va. rewrite <- Z.add_assoc. apply struct_slot; [lia|].
    replace (136 + 4 * k) with ((34 + k) * 4) by lia. apply Z.mod_mul. lia.
  - apply ind_slot; [|lia]. destruct Hs; [lia|done].
Qed.

Lemma f_indirect_slot : slot_ok v (f_indirect_va f).
Proof. apply struct_slot; [lia|done]. Qed.

(** Slots are in the struct or in the indirect block. *)
Lemma slot_home k :
  0 ≤ k < MAXBLK → has_slot v f k →
  (k < NDIRECT ∧ blk (slot_va v f k) = blk f) ∨ (NDIRECT ≤ k ∧ ind v f ≠ 0 ∧ blk (slot_va v f k) = ind v f).
Proof.
  intros Hk Hs. unfold slot_va. destruct (Z.ltb_spec k NDIRECT).
  - left. split; [done|]. unfold f_direct_va. rewrite <- Z.add_assoc. apply struct_blk. lia.
  - right. destruct Hs; [lia|]. split_and!; [done..|]. apply ind_word_blk. lia.
Qed.

Lemma slot_va_inj j k :
  0 ≤ j < MAXBLK → 0 ≤ k < MAXBLK → has_slot v f j → has_slot v f k →
  slot_va v f j = slot_va v f k → j = k.
Proof.
  intros Hj Hk Hsj Hsk He. destruct (slot_home j Hj Hsj) as [[? Hbj]|(? & Hi & Hbj)],
    (slot_home k Hk Hsk) as [[? Hbk]|(? & _ & Hbk)].
  - unfold slot_va, f_direct_va in He. destruct (Z.ltb_spec j NDIRECT), (Z.ltb_spec k NDIRECT); lia.
  - rewrite He in Hbj. destruct Hsk as [|Hi]; [lia|]. destruct (fo_ind _ _ Hf Hi). congruence.
  - rewrite He in Hbj. destruct (fo_ind _ _ Hf Hi). congruence.
  - unfold slot_va in He. destruct (Z.ltb_spec j NDIRECT), (Z.ltb_spec k NDIRECT); lia.
Qed.

Lemma slot_not_indirect k : 0 ≤ k < MAXBLK → has_slot v f k → slot_va v f k ≠ f_indirect_va f.
Proof.
  intros Hk Hs He. destruct (slot_home k Hk Hs) as [[? Hb]|(? & Hi & Hb)].
  - unfold slot_va, f_direct_va, f_indirect_va in He. destruct (Z.ltb_spec k NDIRECT); lia.
  - rewrite He in Hb. unfold f_indirect_va in Hb. rewrite struct_blk in Hb by lia.
    destruct (fo_ind _ _ Hf Hi). congruence.
Qed.
End struct.

(** ** Growing a file *)

(** What allocating blocks for [f] leaves alone: its contents, the blocks it
    has, the rest of its struct and of the block this is in, and every other
    block in use. *)
Record grown (f : Z) (v v' : mem) : Prop := {
  gr_keeps : keeps v v';
  gr_ok : file_ok v' f;
  gr_map : ∀ k, 0 ≤ k < MAXBLK → bmap v f k ≠ 0 → bmap v' f k = bmap v f k;
  gr_ind : ind v f ≠ 0 → ind v' f = ind v f;
  gr_new_ind : ind v' f = ind v f ∨ free_blk v (ind v' f);
  gr_new : ∀ k, 0 ≤ k < MAXBLK → bmap v' f k = bmap v f k ∨ free_blk v (bmap v' f k);
  gr_content : ∀ pos, 0 ≤ pos < MAXBLK * BLKSIZE → content v' f pos = content v f pos;
  gr_home : ∀ x, blk x = blk f → (x < f + 136 ∨ f + 180 ≤ x) → rd8 v' x = rd8 v x;
  gr_used : ∀ b, 0 ≤ b < nblocks (rd8 v) → vfree (rd8 v) b = false → vfree (rd8 v') b = false;
  gr_frame : ∀ x, (in_cache x = true → data_blk v (blk x) ∧ blk x ≠ blk f ∧ blk x ≠ ind v f) →
    rd8 v' x = rd8 v x }.

Section grow.
Context (v : mem) (f pp d : Z).
Context (Hl : layout_ok (rd8 v)) (Hf : file_ok v f) (Hs : slot_ok v pp) (Hd : free_blk v d).
Context (Hpp : (blk pp = blk f ∧ f + 136 ≤ pp ≤ f + 176) ∨ (ind v f ≠ 0 ∧ blk pp = ind v f)).

Let v' : mem := fill v pp d.

Lemma grow_new_data : data_blk v' d.
Proof.
  destruct (fill_keeps v pp d Hl Hs Hd) as [[_ Hn] Hfr]. pose proof Hd as [Hr Hfd].
  pose proof (free_past_bitmap v d Hl Hr Hfd). unfold data_blk, v'. rewrite Hn. split; [lia|].
  rewrite Hfr by lia. by rewrite Z.eqb_refl.
Qed.

Lemma grow_data b : data_blk v b → data_blk v' b ∧ b ≠ d.
Proof.
  intros [Hb Hfr]. destruct (fill_keeps v pp d Hl Hs Hd) as [[_ Hn] Hf']. pose proof (bb_last v Hl).
  split; [|intros ->; destruct Hd; congruence]. unfold data_blk, v'. rewrite Hn. split; [done|].
  rewrite Hf' by lia. by destruct (_ =? _).
Qed.

Lemma grow_home_new : blk f ≠ d.
Proof. intros He. destruct (fo_used _ _ Hf), Hd. congruence. Qed.

(** A data block that is neither the file's home nor its indirect block. *)
Lemma grow_frame x :
  (in_cache x = true → data_blk v (blk x) ∧ blk x ≠ blk f ∧ blk x ≠ ind v f) → rd8 v' x = rd8 v x.
Proof.
  intros Hx. assert (∀ b, 0 ≤ b < nblocks (rd8 v) → in_cache x = false → blk x ≠ b) as Hout.
  { intros b Hb Hc He. pose proof (l_size _ Hl).
    assert (in_cache x = true) by (apply in_cache_blk; lia). congruence. }
  pose proof (bb_last v Hl) as Hbl. destruct (sl_blk _ _ Hs) as [Hsb _].
  destruct (in_cache x) eqn:Hc.
  - destruct (Hx eq_refl) as (Hdx & Hne & Hni). apply fill_frame; [done|by apply grow_data| |].
    + destruct (Z.lt_ge_cases x pp), (Z.lt_ge_cases x (pp + 4)); try lia. exfalso.
      assert (blk x = blk pp) as He by (replace x with (pp + (x - pp)) by lia;
        apply blk_word; [apply (sl_al _ _ Hs)|lia]).
      destruct Hpp as [[? _]|[_ ?]]; congruence.
    + by eapply data_not_meta.
  - apply fill_frame; [done| | |].
    + destruct Hd. apply Hout; [lia|done].
    + destruct (Z.lt_ge_cases x pp), (Z.lt_ge_cases x (pp + 4)); try lia. exfalso.
      destruct (Hout (blk pp)); [lia|done|]. replace x with (pp + (x - pp)) by lia.
      apply blk_word; [apply (sl_al _ _ Hs)|lia].
    + intros [Hm|Hm].
      * destruct (Hout 1); [lia|done|]. apply blk_page. change s_nblocks_va with (blkva 1 + 4) in Hm. lia.
      * destruct (Hout (blk x)); [lia|done|done].
Qed.

Lemma grow_home x : blk x = blk f → (x < f + 136 ∨ f + 180 ≤ x) → rd8 v' x = rd8 v x.
Proof.
  intros Hx Ho. unfold v'. rewrite fill_out.
  - unfold mark_used. apply put_word_frame.
    destruct (Z.lt_ge_cases x (word_va d)), (Z.lt_ge_cases x (word_va d + 4)); try lia. exfalso.
    pose proof Hd as [Hr _]. pose proof (bb_last v Hl).
    assert (blk x = bb d) as He.
    { rewrite <- word_va_blk by lia. replace x with (word_va d + (x - word_va d)) by lia.
      apply blk_word; [apply word_va_aligned|lia]. }
    pose proof (bb_ge d). pose proof (bb_mono d (nblocks (rd8 v) - 1)).
    destruct (fo_home _ _ Hf) as [[? _]|?]; lia.
  - rewrite Hx. apply grow_home_new.
  - destruct Hpp as [[_ ?]|[Hi Hb]]; [lia|].
    destruct (Z.lt_ge_cases x pp), (Z.lt_ge_cases x (pp + 4)); try lia. exfalso.
    destruct (fo_ind _ _ Hf Hi) as [_ Hne]. apply Hne. rewrite <- Hb, <- Hx.
    replace x with (pp + (x - pp)) by lia. symmetry. apply blk_word; [apply (sl_al _ _ Hs)|lia].
Qed.

(** The block goes to the hole [k0], or ([k0 = -1]) becomes the indirect
    block. *)
Lemma grow_grown k0 :
  (∀ k, 0 ≤ k < MAXBLK → bmap v' f k = if k =? k0 then d else bmap v f k) →
  (0 ≤ k0 → bmap v f k0 = 0) → ind v' f = (if k0 =? -1 then d else ind v f) →
  (k0 = -1 → ind v f = 0) → grown f v v'.
Proof.
  intros Hmap Hhole Hind Hi0. destruct (fill_keeps v pp d Hl Hs Hd) as [[Hl' Hn] Hfr].
  destruct (fo_used _ _ Hf) as [Hu1 Hu2]. pose proof grow_new_data as Hnew.
  assert (d ≠ 0) as Hd0 by (destruct Hd; lia).
  assert (∀ k, 0 ≤ k < MAXBLK → bmap v f k ≠ 0 → bmap v' f k = bmap v f k) as Hsame.
  { intros k Hk Hne. rewrite Hmap by done. destruct (Z.eqb_spec k k0) as [->|]; [|done].
    destruct Hne. apply Hhole. lia. }
  split.
  - by split.
  - split; try apply Hf.
    + unfold v'. rewrite Hn. apply (fo_home _ _ Hf).
    + unfold v'. rewrite Hn. split; [done|]. rewrite Hfr by lia. by destruct (blk f =? d).
    + rewrite Hind. destruct (Z.eqb_spec k0 (-1)) as [->|].
      * intros _. split; [done|]. apply not_eq_sym, grow_home_new.
      * intros Hi. destruct (fo_ind _ _ Hf Hi). split; [by apply grow_data|done].
    + intros k Hk. rewrite Hmap by done. destruct (Z.eqb_spec k k0) as [->|Hne].
      * intros _. split; [done|]. split; [apply not_eq_sym, grow_home_new|]. rewrite Hind.
        destruct (Z.eqb_spec k0 (-1)); [lia|]. intros He.
        destruct (fo_ind _ _ Hf); [congruence|]. by destruct (grow_data (ind v f)).
      * intros Hb. destruct (fo_blk _ _ Hf k Hk Hb) as (Hdk & ? & ?). destruct (grow_data _ Hdk).
        split_and!; [done..|]. rewrite Hind. by destruct (k0 =? -1).
    + intros j k Hj Hk. rewrite !Hmap by done.
      destruct (Z.eqb_spec j k0) as [->|], (Z.eqb_spec k k0) as [->|]; try done.
      * intros He _. destruct (fo_blk _ _ Hf k Hk) as (Hdk & _); [congruence|]. by destruct (grow_data _ Hdk).
      * intros He _. destruct (fo_blk _ _ Hf j Hj) as (Hdj & _); [congruence|]. by destruct (grow_data _ Hdj).
      * by apply (fo_inj _ _ Hf).
  - done.
  - intros Hi. rewrite Hind. destruct (Z.eqb_spec k0 (-1)) as [->|]; [|done]. destruct Hi. by apply Hi0.
  - rewrite Hind. destruct (k0 =? -1); [by right|by left].
  - intros k Hk. rewrite Hmap by done. destruct (k =? k0); [by right|by left].
  - intros pos Hpos. unfold content.
    assert (0 ≤ pos / BLKSIZE < MAXBLK) as Hk by (split; [apply Z.div_pos; lia|apply Z.div_lt_upper_bound; lia]).
    assert (∀ b, blk (blkva b + pos mod BLKSIZE) = b) as Hblk.
    { intros b. apply blk_page. pose proof (Z.mod_pos_bound pos BLKSIZE). lia. }
    destruct (Z.eqb_spec (bmap v f (pos / BLKSIZE)) 0) as [H0|H0].
    + rewrite Hmap by done. destruct (Z.eqb_spec (pos / BLKSIZE) k0).
      * destruct (d =? 0); [done|]. by apply fill_zero.
      * by rewrite H0.
    + rewrite Hsame by done. destruct (Z.eqb_spec (bmap v f (pos / BLKSIZE)) 0); [done|].
      apply grow_frame. intros _. rewrite Hblk. by apply (fo_blk _ _ Hf).
  - apply grow_home.
  - intros b Hb Hfb. unfold v'. rewrite Hfr by done. by destruct (b =? d).
  - apply grow_frame.
Qed.
End grow.

(** Making the indirect block. *)
Lemma grow_indirect v f d :
  layout_ok (rd8 v) → file_ok v f → ind v f = 0 → free_blk v d →
  grown f v (fill v (f_indirect_va f) d) ∧ ind (fill v (f_indirect_va f) d) f = d.
Proof.
  intros Hl Hf Hi Hd. pose proof (f_indirect_slot v f Hl Hf) as Hs.
  pose proof (fill_slot_word v _ d Hl Hs Hd) as Hw. split; [|done].
  apply (grow_grown v f (f_indirect_va f) d Hl Hf Hs Hd) with (k0 := -1); try done; [|].
  - left. unfold f_indirect_va. rewrite (struct_blk v f Hf) by lia. split; [done|lia].
  - intros k Hk. destruct (Z.eqb_spec k (-1)); [lia|]. unfold bmap, slot_va.
    fold (ind (fill v (f_indirect_va f) d) f) in Hw. rewrite Hw, Hi.
    destruct (Z.leb_spec NDIRECT k), (Z.ltb_spec k NDIRECT); try lia; cbn [andb].
    + destruct Hd. destruct (Z.eqb_spec d 0); [lia|]. unfold rd32.
      rewrite !fill_zero by (apply blk_page; lia). done.
    + assert (has_slot v f k) as Hsk by (by left). pose proof (slot_va_ok v f Hl Hf k Hk Hsk) as Hsl.
      pose proof (slot_not_indirect v f Hf k Hk Hsk) as Hne. unfold slot_va in Hsl, Hne.
      rewrite (proj2 (Z.ltb_lt k NDIRECT)) in Hsl, Hne by done.
      apply fill_word; try done; [apply (sl_al _ _ Hsl)| |apply (sl_meta _ _ Hsl)].
      intros He. destruct (sl_blk _ _ Hsl), Hd. congruence.
Qed.

(** Filling the hole [k0]. *)
Lemma grow_slot v f d k0 :
  layout_ok (rd8 v) → file_ok v f → 0 ≤ k0 < MAXBLK → has_slot v f k0 → bmap v f k0 = 0 → free_blk v d →
  grown f v (fill v (slot_va v f k0) d) ∧ bmap (fill v (slot_va v f k0) d) f k0 = d ∧
  ind (fill v (slot_va v f k0) d) f = ind v f.
Proof.
  intros Hl Hf Hk0 Hs0 H0 Hd. pose proof (slot_va_ok v f Hl Hf k0 Hk0 Hs0) as Hs.
  set (v' := fill v (slot_va v f k0) d).
  assert (∀ a, slot_ok v a → a ≠ slot_va v f k0 → rd32 v' a = rd32 v a) as Hw.
  { intros a Ha Hne. apply fill_word; try done; [apply (sl_al _ _ Ha)| |apply (sl_meta _ _ Ha)].
    intros He. destruct (sl_blk _ _ Ha), Hd. congruence. }
  assert (ind v' f = ind v f) as Hi.
  { apply Hw; [by apply f_indirect_slot|]. by apply not_eq_sym, slot_not_indirect. }
  assert (∀ k, slot_va v' f k = slot_va v f k) as Hsv by (intros k; unfold slot_va; by rewrite Hi).
  assert (∀ k, 0 ≤ k < MAXBLK → bmap v' f k = if k =? k0 then d else bmap v f k) as Hmap.
  { intros k Hk. unfold bmap. rewrite Hsv, Hi.
    destruct ((NDIRECT <=? k) && (ind v f =? 0)) eqn:Hc.
    - apply andb_true_iff in Hc as [Hc1%Z.leb_le Hc2%Z.eqb_eq]. destruct (Z.eqb_spec k k0) as [->|]; [|done].
      destruct Hs0; lia.
    - assert (has_slot v f k) as Hsk.
      { apply andb_false_iff in Hc as [Hc%Z.leb_gt|Hc%Z.eqb_neq]; [by left|by right]. }
      destruct (Z.eqb_spec k k0) as [->|Hne]; [by apply fill_slot_word|].
      apply Hw; [by apply slot_va_ok|]. intros He. destruct Hne. by eapply slot_va_inj. }
  split; [|split; [by rewrite Hmap, Z.eqb_refl|done]].
  apply (grow_grown v f (slot_va v f k0) d Hl Hf Hs Hd) with (k0 := k0); [|done|done| |lia].
  - destruct (slot_home v f Hf k0 Hk0 Hs0) as [[Hlt Hb]|(_ & Hi' & Hb)]; [left|by right].
    split; [done|]. unfold slot_va, f_direct_va. destruct (Z.ltb_spec k0 NDIRECT); lia.
  - destruct (Z.eqb_spec k0 (-1)); [lia|done].
Qed.

Lemma grown_refl f v : layout_ok (rd8 v) → file_ok v f → grown f v v.
Proof. intros Hl Hf. split; auto. by split. Qed.

Lemma grown_free f v1 v2 b : grown f v1 v2 → free_blk v2 b → free_blk v1 b.
Proof.
  intros G [Hb Hf]. destruct (gr_keeps _ _ _ G) as [_ Hn]. rewrite Hn in Hb. split; [done|].
  destruct (vfree (rd8 v1) b) eqn:E; [done|]. rewrite (gr_used _ _ _ G) in Hf by (done || lia). done.
Qed.

Lemma grown_trans f v1 v2 v3 :
  layout_ok (rd8 v1) → grown f v1 v2 → grown f v2 v3 → grown f v1 v3.
Proof.
  intros Hl G1 G2. pose proof (λ b, grown_free f v1 v2 b G1) as Hfree.
  destruct G1 as [[Kl1 Kn1] O1 M1 I1 N1 B1 C1 H1 U1 F1], G2 as [[Kl2 Kn2] O2 M2 I2 N2 B2 C2 H2 U2 F2]. split.
  - split; [done|congruence].
  - done.
  - intros k Hk Hne. rewrite M2, M1; rewrite ?M1; done.
  - intros Hi. rewrite I2, I1; rewrite ?I1; done.
  - destruct N2 as [-> |N2]; [done|right; auto].
  - intros k Hk. destruct (B2 k Hk) as [-> |HB]; [auto|right; auto].
  - intros pos Hpos. by rewrite C2, C1.
  - intros x Hx Ho. by rewrite H2, H1.
  - intros b Hb Hfb. apply U2; [by rewrite Kn1|]. by apply U1.
  - intros x Hx. rewrite F2; [by apply F1|]. intros Hc. destruct (Hx Hc) as ([Hd Hfd] & Hne & Hni).
    pose proof (bb_last v1 Hl). split_and!; [split; [by rewrite Kn1|apply U1; [lia|done]]|done|].
    intros He. destruct N1 as [N1|[_ N1]]; congruence.
Qed.

(** The blocks left for the file: the free ones, less one for an indirect
    block it does not have yet. *)
Definition room (v : mem) (f : Z) : Z := nfree v - (if ind v f =? 0 then 1 else 0).

Section file_blocks.
Context `{L : IdeLaws}.
Implicit Types (s : fss) (v : mem).

Lemma slot_ld32 s0 v s pp :
  sees s0 v s → slot_ok v pp → ∃ s', ld32 pp s = Ok (rd32 v pp) s' ∧ sees s0 v s'.
Proof.
  intros S Hs. apply ld32_sees; [done|apply (sl_al _ _ Hs)|].
  apply slot_reach; [by eapply sees_layout|done].
Qed.

(** file_block_walk when the slot is there. *)
Lemma walk_slot_sees s0 v s f k al :
  sees s0 v s → file_ok v f → 0 ≤ k < MAXBLK → has_slot v f k →
  ∃ s', file_block_walk f k al s = Ok (0, slot_va v f k) s' ∧ sees s0 v s'.
Proof.
  intros S Hf Hk Hs. pose proof (sees_layout _ _ _ S) as Hl. unfold file_block_walk, slot_va.
  rewrite (proj2 (Z.leb_gt _ k)) by lia. destruct (Z.ltb_spec k NDIRECT); [by exists s|].
  destruct Hs as [|Hi]; [lia|]. pose proof (f_indirect_slot v f Hl Hf) as Hsl.
  destruct (slot_ld32 _ _ _ _ S Hsl) as (s1 & H1 & S1). rewrite (bind_Ok _ _ _ _ _ H1).
  fold (ind v f). rewrite (proj2 (Z.eqb_neq (ind v f) 0)) by done. mrun. cbn [Z.ltb Z.compare].
  destruct (slot_ld32 _ _ _ _ S1 Hsl) as (s2 & H2 & S2). rewrite (bind_Ok _ _ _ _ _ H2). fold (ind v f).
  destruct (fo_ind _ _ Hf Hi) as [[Hd _] _]. pose proof (bb_last v Hl).
  destruct (diskaddr_sees _ _ _ (ind v f) S2) as (s3 & H3 & S3); [lia|].
  rewrite (bind_Ok _ _ _ _ _ H3). by exists s3.
Qed.

(** file_block_walk when an indirect block has to be made: there is one, or
    the disk is full. *)
Lemma walk_indirect_sees s0 v s f k :
  sees s0 v s → file_ok v f → NDIRECT ≤ k < MAXBLK → ind v f = 0 →
  (∃ v' s', file_block_walk f k true s = Ok (0, slot_va v' f k) s' ∧ sees s0 v' s' ∧ grown f v v' ∧
     ind v' f ≠ 0 ∧ room v' f = room v f) ∨
  (∃ s', file_block_walk f k true s = Ok (- E_NO_DISK, 0) s' ∧ sees s0 v s' ∧ nfree v = 0).
Proof.
  intros S Hf Hk Hi. pose proof (sees_layout _ _ _ S) as Hl. unfold file_block_walk at 1 2.
  rewrite (proj2 (Z.leb_gt _ k)), (proj2 (Z.ltb_ge k NDIRECT)) by lia.
  pose proof (f_indirect_slot v f Hl Hf) as Hsl.
  destruct (slot_ld32 _ _ _ _ S Hsl) as (s1 & H1 & S1). rewrite (bind_Ok _ _ _ _ _ H1).
  fold (ind v f). rewrite Hi. cbn [Z.eqb negb].
  destruct (fill_slot_sees _ _ _ _ S1 Hsl) as [(d & s2 & H2 & Hd & S2)|(s2 & H2 & Hn & S2)];
    rewrite (bind_Ok _ _ _ _ _ H2).
  2: { right. exists s2. done. }
  left. set (v' := fill v (f_indirect_va f) d) in *. cbn [Z.ltb Z.compare].
  destruct (grow_indirect v f d Hl Hf Hi Hd) as [G Hi']. fold v' in G, Hi'.
  pose proof (sees_layout _ _ _ S2) as Hl2. pose proof (f_indirect_slot v' f Hl2 (gr_ok _ _ _ G)) as Hsl2.
  destruct (slot_ld32 _ _ _ _ S2 Hsl2) as (s3 & H3 & S3). rewrite (bind_Ok _ _ _ _ _ H3).
  fold (ind v' f). rewrite Hi'. assert (d ≠ 0) as Hd0 by (destruct Hd; lia).
  destruct (diskaddr_sees _ _ _ d S3) as (s4 & H4 & S4).
  { destruct Hd as [Hr _]. destruct (gr_keeps _ _ _ G) as [_ ->]. lia. }
  rewrite (bind_Ok _ _ _ _ _ H4). exists v', s4. split_and!; [|done|done|congruence|].
  - unfold mret, M_ret, slot_va. rewrite (proj2 (Z.ltb_ge k NDIRECT)), Hi' by lia. done.
  - unfold room. rewrite Hi', Hi. unfold v'. rewrite nfree_fill by done.
    rewrite (proj2 (Z.eqb_neq d 0)) by done. cbn [Z.eqb]. lia.
Qed.

(** The block of a slot that is there. *)
Lemma slot_block_sees s0 v s f k o :
  sees s0 v s → file_ok v f → 0 ≤ k < MAXBLK → has_slot v f k → bmap v f k ≠ 0 ∨ 0 < nfree v →
  ∃ v' s', slot_block (slot_va v f k) o s = Ok (0, Some (blkva (bmap v' f k))) s' ∧
    sees s0 v' s' ∧ grown f v v' ∧ bmap v' f k ≠ 0 ∧ room v f - 1 ≤ room v' f.
Proof.
  intros S Hf Hk Hs Hfree. pose proof (sees_layout _ _ _ S) as Hl.
  pose proof (slot_va_ok v f Hl Hf k Hk Hs) as Hsl. pose proof (bb_last v Hl) as Hbl. unfold slot_block.
  destruct (slot_ld32 _ _ _ _ S Hsl) as (s1 & H1 & S1). rewrite (bind_Ok _ _ _ _ _ H1).
  rewrite <- (bmap_slot v f k Hs). destruct (Z.eqb_spec (bmap v f k) 0) as [H0|H0].
  - destruct (fill_slot_sees _ _ _ _ S1 Hsl) as [(d & s2 & H2 & Hd & S2)|(s2 & H2 & Hn & S2)];
      [|destruct Hfree; [done|lia]]. rewrite (bind_Ok _ _ _ _ _ H2). cbn [Z.ltb Z.compare].
    destruct (grow_slot v f d k Hl Hf Hk Hs H0 Hd) as (G & Hb & Hi). set (v' := fill v (slot_va v f k) d) in *.
    assert (slot_va v' f k = slot_va v f k) as Hsv by (unfold slot_va; by rewrite Hi).
    assert (has_slot v' f k) as Hs' by (unfold has_slot; by rewrite Hi).
    pose proof (slot_va_ok v' f (sees_layout _ _ _ S2) (gr_ok _ _ _ G) k Hk Hs') as Hsl'.
    rewrite Hsv in Hsl'. destruct (slot_ld32 _ _ _ _ S2 Hsl') as (s3 & H3 & S3).
    rewrite (bind_Ok _ _ _ _ _ H3), <- Hsv, <- (bmap_slot v' f k Hs'), Hb.
    destruct (diskaddr_sees _ _ _ d S3) as (s4 & H4 & S4).
    { destruct Hd as [Hr _]. destruct (gr_keeps _ _ _ G) as [_ ->]. lia. }
    rewrite (bind_Ok _ _ _ _ _ H4). exists v', s4. rewrite Hb. split_and!; [done..| |].
    + destruct Hd. lia.
    + unfold room. rewrite Hi. unfold v'. rewrite nfree_fill by done. lia.
  - mrun. cbn [Z.ltb Z.compare]. destruct (slot_ld32 _ _ _ _ S1 Hsl) as (s2 & H2 & S2).
    rewrite (bind_Ok _ _ _ _ _ H2), <- (bmap_slot v f k Hs).
    destruct (fo_blk _ _ Hf k Hk H0) as ([Hd _] & _).
    destruct (diskaddr_sees _ _ _ (bmap v f k) S2) as (s3 & H3 & S3); [lia|].
    rewrite (bind_Ok _ _ _ _ _ H3). exists v, s3. split_and!; [done..|by apply grown_refl|done|lia].
Qed.

(** The slot is there but the disk is full. *)
Lemma slot_block_full s0 v s f k o :
  sees s0 v s → file_ok v f → 0 ≤ k < MAXBLK → has_slot v f k → bmap v f k = 0 → nfree v = 0 →
  ∃ s', slot_block (slot_va v f k) o s = Ok (- E_NO_DISK, o) s' ∧ sees s0 v s'.
Proof.
  intros S Hf Hk Hs H0 Hn. pose proof (sees_layout _ _ _ S) as Hl.
  pose proof (slot_va_ok v f Hl Hf k Hk Hs) as Hsl. unfold slot_block.
  destruct (slot_ld32 _ _ _ _ S Hsl) as (s1 & H1 & S1). rewrite (bind_Ok _ _ _ _ _ H1).
  rewrite <- (bmap_slot v f k Hs), H0. cbn [Z.eqb].
  destruct (fill_slot_sees _ _ _ _ S1 Hsl) as [(d & s2 & H2 & Hd & S2)|(s2 & H2 & _ & S2)];
    rewrite (bind_Ok _ _ _ _ _ H2).
  - pose proof (nfree_fill v _ d Hl Hsl Hd) as Hc. rewrite Hn in Hc.
    pose proof (count_nonneg (vfree (rd8 (fill v (slot_va v f k) d)))
      (seqZ 2 (nblocks (rd8 (fill v (slot_va v f k) d)) - 2))). unfold nfree in Hc at 1. lia.
  - by exists s2.
Qed.

Lemma has_slot_dec v f k : has_slot v f k ∨ (NDIRECT ≤ k ∧ ind v f = 0).
Proof.
  unfold has_slot. destruct (Z.lt_ge_cases k NDIRECT); [by left; left|].
  destruct (Z.eq_dec (ind v f) 0); [by right|by left; right].
Qed.

(** file_get_block when there is a block or room for one. *)
Lemma file_get_block_sees s0 v s f k o :
  sees s0 v s → file_ok v f → 0 ≤ k < MAXBLK → bmap v f k ≠ 0 ∨ 0 < room v f →
  ∃ v' s', file_get_block f k o s = Ok (0, Some (blkva (bmap v' f k))) s' ∧
    sees s0 v' s' ∧ grown f v v' ∧ bmap v' f k ≠ 0 ∧ room v f - 1 ≤ room v' f.
Proof.
  intros S Hf Hk Hr. pose proof (sees_layout _ _ _ S) as Hl. unfold file_get_block.
  destruct (has_slot_dec v f k) as [Hs|[Hk10 Hi]].
  - destruct (walk_slot_sees _ _ _ f k true S Hf Hk Hs) as (s1 & H1 & S1).
    rewrite (bind_Ok _ _ _ _ _ H1). cbn [Z.ltb Z.compare Z.eqb negb].
    apply slot_block_sees; try done. destruct Hr as [|Hr]; [by left|right]. unfold room in Hr.
    destruct (ind v f =? 0); lia.
  - destruct Hr as [Hb|Hr].
    { destruct Hb. unfold bmap. by rewrite (proj2 (Z.leb_le NDIRECT k)), Hi. }
    unfold room in Hr. rewrite Hi in Hr. cbn [Z.eqb] in Hr.
    destruct (walk_indirect_sees _ _ _ f k S Hf ltac:(lia) Hi) as
      [(v1 & s1 & H1 & S1 & G1 & Hi1 & Hr1)|(s1 & _ & _ & Hn)]; [|lia].
    rewrite (bind_Ok _ _ _ _ _ H1). cbn [Z.ltb Z.compare Z.eqb negb].
    destruct (slot_block_sees s0 v1 s1 f k o S1 (gr_ok _ _ _ G1) Hk) as (v2 & s2 & H2 & S2 & G2 & Hb2 & Hr2).
    { by right. }
    { right. unfold room in Hr1. rewrite Hi, (proj2 (Z.eqb_neq _ _) Hi1) in Hr1. cbn [Z.eqb] in Hr1. lia. }
    exists v2, s2. split_and!; [done..|by eapply grown_trans|done|lia].
Qed.
End file_blocks.

(** file_get_block when file_block_walk fails. *)
Lemma file_get_block_fails `{L : IdeLaws} (s0 : fss) v s f k o :
  sees s0 v s → file_ok v f → 0 ≤ k → MAXBLK ≤ k ∨ k < MAXBLK ∧ ¬ has_slot v f k ∧ nfree v = 0 →
  ∃ s', file_get_block f k o s = Ok (1, o) s' ∧ sees s0 v s'.
Proof.
  intros S Hf Hk Hbad. unfold file_get_block. destruct Hbad as [Hge|(Hlt & Hns & Hn)].
  - exists s. split; [|done]. unfold file_block_walk. rewrite (proj2 (Z.leb_le _ k)) by lia. done.
  - destruct (has_slot_dec v f k) as [|[Hk10 Hi]]; [done|].
    destruct (walk_indirect_sees s0 v s f k S Hf ltac:(lia) Hi) as
      [(v1 & s1 & _ & S1 & G1 & Hi1 & Hr1)|(s1 & H1 & S1 & _)].
    + unfold room in Hr1. rewrite Hi, Hn, (proj2 (Z.eqb_neq _ _) Hi1) in Hr1. cbn [Z.eqb] in Hr1.
      pose proof (count_nonneg (vfree (rd8 v1)) (seqZ 2 (nblocks (rd8 v1) - 2))). unfold nfree in Hr1. lia.
    + exists s1. split; [|done]. by rewrite (bind_Ok _ _ _ _ _ H1).
Qed.

(** ** Reading and writing *)

(** What operations on the contents of [f] leave alone: the blocks it has, the
    rest of its struct and of the block this is in, and the blocks of the disk
    in use that are not its own. *)
Definition own (v : mem) (f b : Z) : Prop :=
  b = blk f ∨ b = ind v f ∨ ∃ k, 0 ≤ k < MAXBLK ∧ bmap v f k = b.

Record kept (f : Z) (v v' : mem) : Prop := {
  kp_keeps : keeps v v';
  kp_ok : file_ok v' f;
  kp_map : ∀ k, 0 ≤ k < MAXBLK → bmap v f k ≠ 0 → bmap v' f k = bmap v f k;
  kp_own : ∀ b, own v' f b → own v f b ∨ free_blk v b;
  kp_home : ∀ x, blk x = blk f → (x < f + 136 ∨ f + 180 ≤ x) → rd8 v' x = rd8 v x;
  kp_used : ∀ b, 0 ≤ b < nblocks (rd8 v) → vfree (rd8 v) b = false → vfree (rd8 v') b = false;
  kp_frame : ∀ x, data_blk v (blk x) → ¬ own v f (blk x) → rd8 v' x = rd8 v x }.

Lemma grown_kept f v v' : grown f v v' → kept f v v'.
Proof.
  intros [K O M I N B C H U F]. split; try done.
  - intros b [->|[->|(k & Hk & <-)]]; [by left; left| |].
    + destruct N as [-> | ?]; [left; right; by left|by right].
    + destruct (B k Hk) as [-> | ?]; [left; right; right; by exists k|by right].
  - intros x Hd Ho. apply F. intros _. split_and!; [done|..]; intros He; apply Ho; rewrite He.
    + by left.
    + right. by left.
Qed.

Lemma kept_trans f v1 v2 v3 : kept f v1 v2 → kept f v2 v3 → kept f v1 v3.
Proof.
  intros [[Kl1 Kn1] O1 M1 W1 H1 U1 F1] [[Kl2 Kn2] O2 M2 W2 H2 U2 F2].
  assert (∀ b, free_blk v2 b → free_blk v1 b) as Hfree.
  { intros b [Hb Hf]. rewrite Kn1 in Hb. split; [done|]. destruct (vfree (rd8 v1) b) eqn:E; [done|].
    rewrite U1 in Hf by (done || lia). done. }
  assert (∀ b, data_blk v1 b → 0 ≤ b < nblocks (rd8 v1)) as Hpos.
  { intros b [Hb _]. destruct (Z.lt_ge_cases (nblocks (rd8 v1) - 1) 0) as [|Hn]; [|pose proof (bb_ge _ Hn); lia].
    pose proof (l_size _ Kl1). lia. }
  split.
  - split; [done|congruence].
  - done.
  - intros k Hk Hne. rewrite M2, M1; rewrite ?M1; done.
  - intros b [Ho|Hf]%W2; [by apply W1|right; auto].
  - intros x Hx Ho. by rewrite H2, H1.
  - intros b Hb Hfb. apply U2; [by rewrite Kn1|]. by apply U1.
  - intros x Hd Ho. rewrite F2; [by apply F1| |].
    + pose proof (Hpos _ Hd). destruct Hd. split; [by rewrite Kn1|by apply U1].
    + intros [?|[_ Hf]]%W1; [done|]. destruct Hd. congruence.
Qed.

(** A change that stays away from the layout of the disk and from the block
    pointers of the file. *)
Lemma same_words f v v' :
  layout_ok (rd8 v) → file_ok v f → (∀ x, meta v x → rd8 v' x = rd8 v x) →
  (∀ x, f + 136 ≤ x < f + 180 ∨ (ind v f ≠ 0 ∧ blk x = ind v f) → rd8 v' x = rd8 v x) →
  keeps v v' ∧ file_ok v' f ∧ ind v' f = ind v f ∧
  (∀ k, 0 ≤ k < MAXBLK → bmap v' f k = bmap v f k) ∧ room v' f = room v f ∧
  (∀ b, 0 ≤ b < nblocks (rd8 v) → vfree (rd8 v') b = vfree (rd8 v) b).
Proof.
  intros Hl Hf Hmeta Hown. pose proof (bb_last v Hl) as Hbl.
  destruct (meta_frame v v' Hl Hmeta) as [[Kl Kn] Kf].
  assert (∀ a, f + 136 ≤ a ≤ f + 176 → rd32 v' a = rd32 v a) as Hw.
  { intros a Ha. apply rd8_same_v32. intros i Hi. apply Hown. left. lia. }
  assert (ind v' f = ind v f) as Hi by (apply Hw; unfold f_indirect_va; lia).
  assert (∀ k, 0 ≤ k < MAXBLK → bmap v' f k = bmap v f k) as Hm.
  { intros k Hk. unfold bmap. rewrite Hi. destruct ((NDIRECT <=? k) && (ind v f =? 0)) eqn:E; [done|].
    unfold slot_va. rewrite Hi. destruct (Z.ltb_spec k NDIRECT); [apply Hw; unfold f_direct_va; lia|].
    apply rd8_same_v32. intros i Hi'. apply Hown. right.
    rewrite (proj2 (Z.leb_le NDIRECT k)) in E by lia. apply Z.eqb_neq in E. split; [done|]. apply blk_page. lia. }
  assert (∀ b, data_blk v b → data_blk v' b) as Hd.
  { intros b [Hr Hfr]. split; [by rewrite Kn|]. rewrite Kf by lia. done. }
  split_and!; try done.
  - destruct Hf as [A1 A2 [A3 A3'] A4 A5 A6]. split; rewrite ?Kn, ?Hi; try done.
    + split; [done|]. rewrite Kf by lia. done.
    + intros H. destruct (A4 H). auto.
    + intros k Hk. rewrite Hm by done. intros H. destruct (A5 k Hk H) as (? & ? & ?). auto.
    + intros j k Hj Hk. rewrite !Hm by done. by apply A6.
  - unfold room, nfree. rewrite Hi, Kn. f_equal. apply count_ext. intros b Hbr%elem_of_seqZ. apply Kf. lia.
Qed.

(** A change that also leaves the block of the struct and the blocks of others
    alone. *)
Lemma kept_words f v v' :
  layout_ok (rd8 v) → file_ok v f → (∀ x, meta v x → rd8 v' x = rd8 v x) →
  (∀ x, blk x = blk f ∨ (ind v f ≠ 0 ∧ blk x = ind v f) → rd8 v' x = rd8 v x) →
  (∀ x, data_blk v (blk x) → ¬ own v f (blk x) → rd8 v' x = rd8 v x) →
  kept f v v' ∧ (∀ k, 0 ≤ k < MAXBLK → bmap v' f k = bmap v f k) ∧ room v' f = room v f.
Proof.
  intros Hl Hf Hmeta Hown Hframe.
  destruct (same_words f v v' Hl Hf Hmeta) as (K & O & Hi & Hm & Hr & Kf).
  { intros x [Hx|Hx]; apply Hown; [left|by right]. replace x with (f + (x - f)) by lia.
    apply (struct_blk v f Hf). lia. }
  split; [split|split]; try done.
  - intros. by apply Hm.
  - intros b [->|[->|(k & Hk & <-)]]; left; [by left|right; left; by rewrite Hi|].
    right. right. exists k. by rewrite Hm.
  - intros x Hxb _. apply Hown. by left.
  - intros b Hbr Hfb. by rewrite Kf.
Qed.

Lemma content_block v f pos :
  file_ok v f → 0 ≤ pos < MAXBLK * BLKSIZE →
  0 ≤ pos / BLKSIZE < MAXBLK ∧
  ∀ b, blk (blkva b + pos mod BLKSIZE) = b.
Proof.
  intros Hf Hpos. split; [split; [apply Z.div_pos; lia|apply Z.div_lt_upper_bound; lia]|].
  intros b. apply blk_page. pose proof (Z.mod_pos_bound pos BLKSIZE). lia.
Qed.

Lemma meta_in_cache v x : layout_ok (rd8 v) → meta v x → in_cache x = true.
Proof.
  intros Hl Hm. apply in_cache_blk. pose proof (l_size _ Hl). pose proof (bb_last v Hl).
  destruct Hm as [Hm|Hm]; [|lia]. assert (blk x = 1) as ->; [|lia].
  apply blk_page. change s_nblocks_va with (blkva 1 + 4) in Hm. lia.
Qed.

(** Writing outside of the cache. *)
Lemma kept_outside f v v' :
  layout_ok (rd8 v) → file_ok v f → (∀ x, in_cache x = true → rd8 v' x = rd8 v x) →
  kept f v v' ∧ (∀ pos, 0 ≤ pos < MAXBLK * BLKSIZE → content v' f pos = content v f pos) ∧ room v' f = room v f.
Proof.
  intros Hl Hf Hx. pose proof (l_size _ Hl) as Hsz. pose proof (bb_last v Hl) as Hbl.
  assert (∀ x, 0 ≤ blk x < nblocks (rd8 v) → rd8 v' x = rd8 v x) as Hb.
  { intros x Hb. apply Hx, in_cache_blk. lia. }
  destruct (kept_words f v v' Hl Hf) as (K & Hm & Hr).
  - intros x Hxm. apply Hx. by eapply meta_in_cache.
  - intros x [He|[Hi He]]; apply Hb; rewrite He; [pose proof (fo_used _ _ Hf); lia|].
    destruct (fo_ind _ _ Hf Hi) as [[? _] _]. lia.
  - intros x [Hd _] _. apply Hb. lia.
  - split_and!; try done. intros pos Hpos. destruct (content_block v f pos Hf Hpos) as [Hk Hblk].
    unfold content. rewrite Hm by done. destruct (Z.eqb_spec (bmap v f (pos / BLKSIZE)) 0) as [|H0]; [done|].
    apply Hb. rewrite Hblk. destruct (fo_blk _ _ Hf _ Hk H0) as ([? _] & _). lia.
Qed.

(** Writing [n] bytes from [src] at [pos], inside a block of the file. *)
Lemma kept_write f v pos src n :
  layout_ok (rd8 v) → file_ok v f → 0 ≤ pos → pos + n ≤ MAXBLK * BLKSIZE → 0 ≤ n → pos mod BLKSIZE + n ≤ BLKSIZE →
  let d := bmap v f (pos / BLKSIZE) in
  let v' := mem_move v (blkva d + pos mod BLKSIZE) src n in
  0 < n → d ≠ 0 → (∀ x, src ≤ x < src + n → in_cache x = false) →
  kept f v v' ∧ room v' f = room v f ∧
  (∀ p, 0 ≤ p < MAXBLK * BLKSIZE →
     content v' f p = if (pos <=? p) && (p <? pos + n) then rd8 v (src + (p - pos)) else content v f p) ∧
  ∀ x, in_cache x = false → rd8 v' x = rd8 v x.
Proof.
  intros Hl Hf Hpos Hmax Hn Hfit d v' Hn0 Hd0 Hsrc.
  destruct (content_block v f pos Hf ltac:(lia)) as [Hk Hblk].
  destruct (fo_blk _ _ Hf _ Hk Hd0) as (Hdd & Hdf & Hdi). fold d in Hdd, Hdf, Hdi.
  pose proof (Z.mod_pos_bound pos BLKSIZE ltac:(lia)) as Hmod.
  assert (∀ x, blk x ≠ d → rd8 v' x = rd8 v x) as Hout.
  { intros x Hx. apply rd8_mem_move_out. pose proof (blk_page x d). lia. }
  destruct (kept_words f v v' Hl Hf) as (K & Hm & Hr).
  - intros x Hx. apply Hout. intros He. by eapply data_not_meta.
  - intros x [Hx|[Hi Hx]]; apply Hout; congruence.
  - intros x _ Ho. apply Hout. intros He. apply Ho. right. right. by exists (pos / BLKSIZE).
  - split_and!; try done.
    + intros p Hp. destruct (content_block v f p Hf Hp) as [Hkp Hblkp]. unfold content. rewrite Hm by done.
      pose proof (Z.div_mod pos BLKSIZE). pose proof (Z.div_mod p BLKSIZE).
      pose proof (Z.mod_pos_bound p BLKSIZE ltac:(lia)).
      destruct (Z.leb_spec pos p), (Z.ltb_spec p (pos + n)); cbn [andb].
      * assert (p / BLKSIZE = pos / BLKSIZE) as -> by lia. fold d. destruct (Z.eqb_spec d 0); [done|].
        unfold v'. rewrite rd8_mem_move_in by lia. f_equal. lia.
      * destruct (Z.eqb_spec (bmap v f (p / BLKSIZE)) 0); [done|].
        destruct (Z.eq_dec (bmap v f (p / BLKSIZE)) d) as [He|]; [|apply Hout; by rewrite Hblkp].
        assert (p / BLKSIZE = pos / BLKSIZE) by (by apply (fo_inj _ _ Hf)). rewrite He.
        apply rd8_mem_move_out. lia.
      * destruct (Z.eqb_spec (bmap v f (p / BLKSIZE)) 0); [done|].
        destruct (Z.eq_dec (bmap v f (p / BLKSIZE)) d) as [He|]; [|apply Hout; by rewrite Hblkp].
        assert (p / BLKSIZE = pos / BLKSIZE) by (by apply (fo_inj _ _ Hf)). rewrite He.
        apply rd8_mem_move_out. lia.
      * lia.
    + intros x Hx. apply Hout. intros He. destruct Hdd as [Hdd _]. pose proof (bb_last v Hl).
      pose proof (l_size _ Hl). assert (in_cache x = true) by (apply in_cache_blk; lia). congruence.
Qed.

(** ** The loops of file_read and file_write *)

(** The number of pieces, one per block. *)
Definition np (pos stop : Z) : Z := if pos <? stop then (stop - 1) / BLKSIZE - pos / BLKSIZE + 1 else 0.

Lemma np_step pos stop :
  0 ≤ pos < stop → np (pos + Z.min (BLKSIZE - pos mod BLKSIZE) (stop - pos)) stop = np pos stop - 1.
Proof.
  intros Hp. unfold np. rewrite (proj2 (Z.ltb_lt pos stop)) by lia.
  pose proof (Z.div_mod pos BLKSIZE ltac:(lia)) as Hdm. pose proof (Z.mod_pos_bound pos BLKSIZE ltac:(lia)) as Hm.
  destruct (Z.lt_ge_cases (BLKSIZE - pos mod BLKSIZE) (stop - pos)) as [Hlt|Hge].
  - rewrite Z.min_l by lia. replace (pos + (BLKSIZE - pos mod BLKSIZE)) with ((pos / BLKSIZE + 1) * BLKSIZE) by lia.
    rewrite (proj2 (Z.ltb_lt _ stop)), Z.div_mul by lia. lia.
  - rewrite Z.min_r by lia. replace (pos + (stop - pos)) with stop by lia. rewrite Z.ltb_irrefl.
    assert ((stop - 1) / BLKSIZE = pos / BLKSIZE) as ->; [|lia].
    symmetry. apply (Z.div_unique_pos _ _ _ (stop - 1 - BLKSIZE * (pos / BLKSIZE))); lia.
Qed.

Lemma np_pieces pos count : 0 ≤ pos → 0 ≤ count → np pos (pos + count) ≤ Z.of_nat (pieces count).
Proof.
  intros Hp Hc. unfold np, pieces. pose proof (Z.div_pos count BLKSIZE Hc ltac:(lia)). rewrite Z2Nat.id by lia.
  destruct (Z.ltb_spec pos (pos + count)); [|lia].
  pose proof (Z.div_mod pos BLKSIZE ltac:(lia)). pose proof (Z.mod_pos_bound pos BLKSIZE ltac:(lia)).
  pose proof (Z.div_mod count BLKSIZE ltac:(lia)). pose proof (Z.mod_pos_bound count BLKSIZE ltac:(lia)).
  pose proof (Z.div_mod (pos + count - 1) BLKSIZE ltac:(lia)).
  pose proof (Z.mod_pos_bound (pos + count - 1) BLKSIZE ltac:(lia)). lia.
Qed.

(** The arithmetic of one iteration, with 32-bit positions. *)
Lemma piece_arith pos stop :
  0 ≤ pos < stop → stop ≤ MAXBLK * BLKSIZE →
  let n := Z.min (BLKSIZE - pos mod BLKSIZE) (stop - pos) in
  (u32 pos <? stop) = true ∧ u32 (Z.quot pos BLKSIZE) = pos / BLKSIZE ∧ Z.rem pos BLKSIZE = pos mod BLKSIZE ∧
  chunk pos stop = n ∧ s32 (pos + n) = pos + n ∧ 0 < n ≤ stop - pos ∧ pos mod BLKSIZE + n ≤ BLKSIZE ∧
  0 ≤ pos / BLKSIZE < MAXBLK.
Proof.
  intros Hp Hs n. pose proof (Z.div_mod pos BLKSIZE ltac:(lia)). pose proof (Z.mod_pos_bound pos BLKSIZE ltac:(lia)).
  assert (0 ≤ pos / BLKSIZE < MAXBLK) by (split; [apply Z.div_pos; lia|apply Z.div_lt_upper_bound; lia]).
  split_and!; try lia.
  - rewrite u32_small by lia. apply Z.ltb_lt. lia.
  - rewrite Z.quot_div_nonneg, u32_small by lia. done.
  - by apply Z.rem_mod_nonneg; lia.
  - unfold chunk. rewrite Z.rem_mod_nonneg, !u32_small by lia. done.
  - apply s32_small. unfold n. lia.
Qed.

Section transfer.
Context `{L : IdeLaws}.
Implicit Types (s : fss) (v : mem).

(** Memory of the server outside of the cache. *)
Definition buffer (s0 : fss) (w : bool) (x : Z) : Prop :=
  0 ≤ x < 2 ^ 32 ∧ in_cache x = false ∧ accessible w (f_pte s0 (x / 4096)) = true.

Lemma buffer_reach s0 v w x : buffer s0 w x → vreach s0 v w x.
Proof. intros (H1 & H2 & H3). split; [done|]. by rewrite H2. Qed.

(** The blocks of the range are there, or there is room for them. *)
Definition covered (v : mem) (f pos stop : Z) : Prop :=
  (∀ p, pos ≤ p < stop → bmap v f (p / BLKSIZE) ≠ 0) ∨ np pos stop ≤ room v f.

Lemma covered_first v f pos stop :
  0 ≤ pos < stop → stop ≤ MAXBLK * BLKSIZE → covered v f pos stop →
  bmap v f (pos / BLKSIZE) ≠ 0 ∨ 0 < room v f.
Proof.
  intros Hp Hs [Hc|Hc]; [left|right].
  - apply Hc. lia.
  - unfold np in Hc. rewrite (proj2 (Z.ltb_lt pos stop)) in Hc by lia.
    pose proof (Z.div_le_mono pos (stop - 1) BLKSIZE). lia.
Qed.

Lemma covered_next v v' f pos stop :
  0 ≤ pos < stop → stop ≤ MAXBLK * BLKSIZE → covered v f pos stop →
  (∀ k, 0 ≤ k < MAXBLK → bmap v f k ≠ 0 → bmap v' f k = bmap v f k) → room v f - 1 ≤ room v' f →
  covered v' f (pos + Z.min (BLKSIZE - pos mod BLKSIZE) (stop - pos)) stop.
Proof.
  intros Hp Hs [Hc|Hc] Hm Hr; [left|right].
  - intros p Hpr. pose proof (Z.mod_pos_bound pos BLKSIZE ltac:(lia)).
    assert (bmap v f (p / BLKSIZE) ≠ 0) as Hne by (apply Hc; lia). rewrite Hm; [done| |done].
    split; [apply Z.div_pos; lia|apply Z.div_lt_upper_bound; lia].
  - rewrite np_step by lia. lia.
Qed.

Lemma data_reach s0 v w f k x :
  layout_ok (rd8 v) → file_ok v f → 0 ≤ k < MAXBLK → bmap v f k ≠ 0 → blk x = bmap v f k → vreach s0 v w x.
Proof.
  intros Hl Hf Hk H0 Hx. destruct (fo_blk _ _ Hf k Hk H0) as ([Hd Hfr] & _). pose proof (bb_last v Hl).
  apply vreach_blk; rewrite ?Hx; [done|lia|done].
Qed.

(** Copying a piece of the file out to a buffer. *)
Lemma piece_out_sees s0 v s f pos buf n :
  sees s0 v s → file_ok v f → 0 ≤ pos → pos + n ≤ MAXBLK * BLKSIZE → 0 < n → pos mod BLKSIZE + n ≤ BLKSIZE →
  bmap v f (pos / BLKSIZE) ≠ 0 → (∀ x, buf ≤ x < buf + n → buffer s0 true x) →
  ∃ v' s', u_memmove buf (blkva (bmap v f (pos / BLKSIZE)) + pos mod BLKSIZE) n s = Ok tt s' ∧
    sees s0 v' s' ∧ kept f v v' ∧ room v' f = room v f ∧
    (∀ p, 0 ≤ p < MAXBLK * BLKSIZE → content v' f p = content v f p) ∧
    ∀ x, in_cache x = false → rd8 v' x =
      if (buf <=? x) && (x <? buf + n) then content v f (pos + (x - buf)) else rd8 v x.
Proof.
  intros S Hf Hp Hmax Hn Hfit H0 Hbuf. pose proof (sees_layout _ _ _ S) as Hl.
  set (d := bmap v f (pos / BLKSIZE)) in *. set (v' := mem_move v buf (blkva d + pos mod BLKSIZE) n).
  pose proof (Z.mod_pos_bound pos BLKSIZE ltac:(lia)) as Hm. pose proof (Z.div_mod pos BLKSIZE ltac:(lia)) as Hdm.
  destruct (content_block v f pos Hf ltac:(lia)) as [Hk _].
  destruct (kept_outside f v v' Hl Hf) as (K & C & R).
  { intros x Hx. apply rd8_mem_move_out.
    destruct (Z.lt_ge_cases x buf), (Z.lt_ge_cases x (buf + n)); try lia.
    destruct (Hbuf x) as (_ & ? & _); [lia|congruence]. }
  destruct (memmove_sees s0 v s buf (blkva d + pos mod BLKSIZE) n S) as (s' & H' & S').
  { lia. } { intros x Hx. apply buffer_reach. auto. }
  { intros x Hx. apply (data_reach s0 v false f (pos / BLKSIZE) x Hl Hf Hk H0). apply blk_page. fold d. lia. }
  { apply (kp_keeps _ _ _ K). }
  exists v', s'. split_and!; try done. intros x Hx. unfold v'. rewrite rd8_mem_move.
  destruct (Z.leb_spec buf x), (Z.ltb_spec x (buf + n)); cbn [andb]; try done.
  unfold content. assert ((pos + (x - buf)) / BLKSIZE = pos / BLKSIZE ∧
    (pos + (x - buf)) mod BLKSIZE = pos mod BLKSIZE + (x - buf)) as [-> ->].
  { split; symmetry; [apply (Z.div_unique_pos _ _ _ (pos mod BLKSIZE + (x - buf)))|
      apply (Z.mod_unique_pos _ _ (pos / BLKSIZE))]; lia. }
  fold d. destruct (Z.eqb_spec d 0); [done|]. f_equal. lia.
Qed.

(** Copying a piece of a buffer into the file. *)
Lemma piece_in_sees s0 v s f pos buf n :
  sees s0 v s → file_ok v f → 0 ≤ pos → pos + n ≤ MAXBLK * BLKSIZE → 0 < n → pos mod BLKSIZE + n ≤ BLKSIZE →
  bmap v f (pos / BLKSIZE) ≠ 0 → (∀ x, buf ≤ x < buf + n → buffer s0 false x) →
  ∃ v' s', u_memmove (blkva (bmap v f (pos / BLKSIZE)) + pos mod BLKSIZE) buf n s = Ok tt s' ∧
    sees s0 v' s' ∧ kept f v v' ∧ room v' f = room v f ∧
    (∀ p, 0 ≤ p < MAXBLK * BLKSIZE → content v' f p =
       if (pos <=? p) && (p <? pos + n) then rd8 v (buf + (p - pos)) else content v f p) ∧
    ∀ x, in_cache x = false → rd8 v' x = rd8 v x.
Proof.
  intros S Hf Hp Hmax Hn Hfit H0 Hbuf. pose proof (sees_layout _ _ _ S) as Hl.
  pose proof (Z.mod_pos_bound pos BLKSIZE ltac:(lia)) as Hm.
  destruct (content_block v f pos Hf ltac:(lia)) as [Hk _].
  destruct (kept_write f v pos buf n Hl Hf Hp Hmax ltac:(lia) Hfit Hn H0) as (K & R & C & O).
  { intros x Hx. by destruct (Hbuf x Hx) as (_ & ? & _). }
  destruct (memmove_sees s0 v s (blkva (bmap v f (pos / BLKSIZE)) + pos mod BLKSIZE) buf n S) as (s' & H' & S').
  { lia. }
  { intros x Hx. apply (data_reach s0 v true f (pos / BLKSIZE) x Hl Hf Hk H0). apply blk_page. lia. }
  { intros x Hx. apply buffer_reach. auto. }
  { apply (kp_keeps _ _ _ K). }
  eexists _, s'. split_and!; done.
Qed.

Lemma read_pieces_sees s0 f stop : stop ≤ MAXBLK * BLKSIZE → ∀ fuel v s pos buf o,
  sees s0 v s → file_ok v f → 0 ≤ pos ≤ stop → np pos stop ≤ Z.of_nat fuel → covered v f pos stop →
  (∀ x, buf ≤ x < buf + (stop - pos) → buffer s0 true x) →
  ∃ v' s', file_pieces fuel (λ b buf n, u_memmove buf b n) f pos stop buf o s = Ok 0 s' ∧ sees s0 v' s' ∧
    kept f v v' ∧ (∀ p, 0 ≤ p < MAXBLK * BLKSIZE → content v' f p = content v f p) ∧
    ∀ x, in_cache x = false → rd8 v' x =
      if (buf <=? x) && (x <? buf + (stop - pos)) then content v f (pos + (x - buf)) else rd8 v x.
Proof.
  intros Hmax. induction fuel as [|fuel IH]; intros v s pos buf o S Hf Hp Hfu Hcov Hbuf;
    pose proof (sees_layout _ _ _ S) as Hl.
  all: destruct (Z.eq_dec pos stop) as [->|Hne];
    [exists v, s; cbn [file_pieces]; rewrite u32_small, Z.ltb_irrefl by lia;
     split_and!; [done|done|by apply grown_kept, grown_refl|done|];
     intros x _; destruct (Z.leb_spec buf x), (Z.ltb_spec x (buf + (stop - stop))); cbn [andb]; done || lia|].
  { unfold np in Hfu. rewrite (proj2 (Z.ltb_lt pos stop)) in Hfu by lia.
    pose proof (Z.div_le_mono pos (stop - 1) BLKSIZE). lia. }
  destruct (piece_arith pos stop ltac:(lia) Hmax) as (A1 & A2 & A3 & A4 & A5 & A6 & A7 & Hk).
  cbn [file_pieces]. rewrite A1, A2, A3, A4, A5. cbn [negb].
  set (n := Z.min (BLKSIZE - pos mod BLKSIZE) (stop - pos)) in *.
  destruct (file_get_block_sees s0 v s f (pos / BLKSIZE) o S Hf Hk) as (v1 & s1 & H1 & S1 & G1 & Hb1 & Hr1).
  { by eapply covered_first; [|done|]; [lia|]. }
  rewrite (bind_Ok _ _ _ _ _ H1). cbn [Z.ltb Z.compare mderef]. mrun.
  destruct (piece_out_sees s0 v1 s1 f pos buf n S1 (gr_ok _ _ _ G1)) as (v2 & s2 & H2 & S2 & K2 & R2 & C2 & O2);
    [lia|lia|lia|lia|done|intros x Hx; apply Hbuf; lia|].
  rewrite (bind_Ok _ _ _ _ _ H2). pose proof (grown_kept _ _ _ G1) as K1.
  pose proof (kept_trans _ _ _ _ K1 K2) as K12.
  destruct (IH v2 s2 (pos + n) (buf + n) (Some (blkva (bmap v1 f (pos / BLKSIZE)))) S2 (kp_ok _ _ _ K2))
    as (v3 & s3 & H3 & S3 & K3 & C3 & O3).
  { lia. } { unfold n in *. rewrite np_step by lia. lia. }
  { eapply covered_next; [lia|done|exact Hcov|apply (kp_map _ _ _ K12)|lia]. }
  { intros x Hx. apply Hbuf. lia. }
  exists v3, s3. split_and!; [done|done|by eapply kept_trans|..].
  - intros p Hpp. rewrite C3, C2 by done. apply (gr_content _ _ _ G1 p Hpp).
  - intros x Hx. rewrite O3, O2 by done.
    assert (rd8 v1 x = rd8 v x) as -> by (apply (gr_frame _ _ _ G1); congruence).
    destruct (Z.leb_spec (buf + n) x), (Z.leb_spec buf x), (Z.ltb_spec x (buf + n)),
      (Z.ltb_spec x (buf + n + (stop - (pos + n)))), (Z.ltb_spec x (buf + (stop - pos))); cbn [andb]; try lia; try done.
    + rewrite C2, (gr_content _ _ _ G1) by lia. f_equal. lia.
    + apply (gr_content _ _ _ G1). lia.
Qed.

Lemma write_pieces_sees s0 f stop : stop ≤ MAXBLK * BLKSIZE → ∀ fuel v s pos buf o,
  sees s0 v s → file_ok v f → 0 ≤ pos ≤ stop → np pos stop ≤ Z.of_nat fuel → covered v f pos stop →
  (∀ x, buf ≤ x < buf + (stop - pos) → buffer s0 false x) →
  ∃ v' s', file_pieces fuel (λ b buf n, u_memmove b buf n) f pos stop buf o s = Ok 0 s' ∧ sees s0 v' s' ∧
    kept f v v' ∧
    (∀ p, 0 ≤ p < MAXBLK * BLKSIZE → content v' f p =
       if (pos <=? p) && (p <? stop) then rd8 v (buf + (p - pos)) else content v f p) ∧
    (∀ p, pos ≤ p < stop → bmap v' f (p / BLKSIZE) ≠ 0) ∧
    ∀ x, in_cache x = false → rd8 v' x = rd8 v x.
Proof.
  intros Hmax. induction fuel as [|fuel IH]; intros v s pos buf o S Hf Hp Hfu Hcov Hbuf;
    pose proof (sees_layout _ _ _ S) as Hl.
  all: destruct (Z.eq_dec pos stop) as [->|Hne];
    [exists v, s; cbn [file_pieces]; rewrite u32_small, Z.ltb_irrefl by lia;
     split_and!; [done|done|by apply grown_kept, grown_refl| |lia|done];
     intros x _; destruct (Z.leb_spec stop x), (Z.ltb_spec x stop); cbn [andb]; done || lia|].
  { unfold np in Hfu. rewrite (proj2 (Z.ltb_lt pos stop)) in Hfu by lia.
    pose proof (Z.div_le_mono pos (stop - 1) BLKSIZE). lia. }
  destruct (piece_arith pos stop ltac:(lia) Hmax) as (A1 & A2 & A3 & A4 & A5 & A6 & A7 & Hk).
  cbn [file_pieces]. rewrite A1, A2, A3, A4, A5. cbn [negb].
  set (n := Z.min (BLKSIZE - pos mod BLKSIZE) (stop - pos)) in *.
  destruct (file_get_block_sees s0 v s f (pos / BLKSIZE) o S Hf Hk) as (v1 & s1 & H1 & S1 & G1 & Hb1 & Hr1).
  { by eapply covered_first; [|done|]; [lia|]. }
  rewrite (bind_Ok _ _ _ _ _ H1). cbn [Z.ltb Z.compare mderef]. mrun.
  destruct (piece_in_sees s0 v1 s1 f pos buf n S1 (gr_ok _ _ _ G1)) as (v2 & s2 & H2 & S2 & K2 & R2 & C2 & O2);
    [lia|lia|lia|lia|done|intros x Hx; apply Hbuf; lia|].
  rewrite (bind_Ok _ _ _ _ _ H2). pose proof (grown_kept _ _ _ G1) as K1.
  pose proof (kept_trans _ _ _ _ K1 K2) as K12.
  destruct (IH v2 s2 (pos + n) (buf + n) (Some (blkva (bmap v1 f (pos / BLKSIZE)))) S2 (kp_ok _ _ _ K2))
    as (v3 & s3 & H3 & S3 & K3 & C3 & M3 & O3).
  { lia. } { unfold n in *. rewrite np_step by lia. lia. }
  { eapply covered_next; [lia|done|exact Hcov|apply (kp_map _ _ _ K12)|lia]. }
  { intros x Hx. apply Hbuf. lia. }
  assert (∀ x, in_cache x = false → rd8 v1 x = rd8 v x) as O1
    by (intros x Hx; apply (gr_frame _ _ _ G1); congruence).
  assert (∀ p, pos ≤ p < stop → in_cache (buf + (p - pos)) = false) as Hob.
  { intros p Hpp. by destruct (Hbuf (buf + (p - pos)) ltac:(lia)) as (_ & ? & _). }
  exists v3, s3. split_and!; [done|done|by eapply kept_trans|..].
  - intros p Hpp. rewrite C3, C2, (gr_content _ _ _ G1) by done.
    destruct (Z.leb_spec (pos + n) p), (Z.leb_spec pos p), (Z.ltb_spec p (pos + n)), (Z.ltb_spec p stop);
      cbn [andb]; try lia; try done.
    + replace (buf + n + (p - (pos + n))) with (buf + (p - pos)) by lia. by rewrite O2, O1 by auto.
    + by apply O1, Hob.
  - intros p Hpp. destruct (Z.lt_ge_cases p (pos + n)) as [Hlt|]; [|apply M3; lia].
    assert (p / BLKSIZE = pos / BLKSIZE) as ->.
    { pose proof (Z.div_mod pos BLKSIZE ltac:(lia)). pose proof (Z.mod_pos_bound pos BLKSIZE ltac:(lia)). symmetry.
      apply (Z.div_unique_pos _ _ _ (p - BLKSIZE * (pos / BLKSIZE))); lia. }
    rewrite (kp_map _ _ _ K3), (kp_map _ _ _ K2); rewrite ?(kp_map _ _ _ K2); done.
  - intros x Hx. by rewrite O3, O2, O1.
Qed.

(** ** file_read, file_set_size and file_write *)

(** The size of a file, when it is not negative. *)
Definition fsize (v : mem) (f : Z) : Z := rd32 v (f_size_va f).

Lemma f_size_sees s0 v s f :
  sees s0 v s → file_ok v f → fsize v f < 2 ^ 31 → ∃ s', f_size f s = Ok (fsize v f) s' ∧ sees s0 v s'.
Proof.
  intros S Hf Hsz. pose proof (sees_layout _ _ _ S) as Hl.
  destruct (slot_ld32 s0 v s (f_size_va f) S) as (s' & H' & S'); [by apply (struct_slot v f Hl Hf 128)|].
  exists s'. split; [|done]. unfold f_size. rewrite (bind_Ok _ _ _ _ _ H'). unfold mret, M_ret.
  pose proof (rd32_range v (f_size_va f)) as Hr. unfold fsize in *. rewrite s32_small; [done|lia].
Qed.

Lemma file_read_sees s0 v s f buf count offset :
  sees s0 v s → file_ok v f → fsize v f ≤ MAXBLK * BLKSIZE → 0 ≤ offset < 2 ^ 31 → 0 ≤ count < 2 ^ 32 →
  let n := Z.max 0 (Z.min count (fsize v f - offset)) in
  covered v f offset (offset + n) → (∀ x, buf ≤ x < buf + n → buffer s0 true x) →
  ∃ v' s', file_read f buf count offset s = Ok n s' ∧ sees s0 v' s' ∧ kept f v v' ∧
    (∀ p, 0 ≤ p < MAXBLK * BLKSIZE → content v' f p = content v f p) ∧
    ∀ x, in_cache x = false → rd8 v' x =
      if (buf <=? x) && (x <? buf + n) then content v f (offset + (x - buf)) else rd8 v x.
Proof.
  intros S Hf Hsz Ho Hc n Hcov Hbuf. unfold file_read.
  destruct (f_size_sees s0 v s f S Hf) as (s1 & H1 & S1); [lia|]. rewrite (bind_Ok _ _ _ _ _ H1).
  destruct (Z.leb_spec (fsize v f) offset) as [Hle|Hgt].
  - assert (n = 0) as -> by (unfold n; lia). exists v, s1.
    split_and!; [done|done|apply grown_kept, grown_refl; [by eapply sees_layout|done]|done|].
    intros x _. destruct (Z.leb_spec buf x), (Z.ltb_spec x (buf + 0)); cbn [andb]; done || lia.
  - destruct (f_size_sees s0 v s1 f S1 Hf) as (s2 & H2 & S2); [lia|]. rewrite (bind_Ok _ _ _ _ _ H2).
    rewrite (u32_small (fsize v f - offset)) by lia.
    assert (Z.min count (fsize v f - offset) = n) as -> by (unfold n; lia).
    assert (0 ≤ n ≤ fsize v f - offset) as Hn by (unfold n; lia).
    rewrite (u32_small (offset + n)) by lia.
    destruct (read_pieces_sees s0 f (offset + n) ltac:(lia) (pieces n) v s2 offset buf None S2 Hf)
      as (v' & s' & H' & S' & K & C & O); [lia|apply np_pieces; lia|done|intros; apply Hbuf; lia|].
    rewrite (bind_Ok _ _ _ _ _ H'). exists v', s'. split_and!; [|done..|].
    + unfold mret, M_ret. cbn [Z.ltb Z.compare]. by rewrite s32_small by lia.
    + intros x Hx. rewrite O by done. by replace (offset + n - offset) with n by lia.
Qed.

(** Setting the size of a file: the size changes, the contents do not. *)
Lemma set_size_word v f x :
  layout_ok (rd8 v) → file_ok v f → 0 ≤ x < 2 ^ 32 →
  let v' := wr32 v (f_size_va f) x in
  keeps v v' ∧ file_ok v' f ∧ ind v' f = ind v f ∧ fsize v' f = x ∧ room v' f = room v f ∧
  (∀ k, 0 ≤ k < MAXBLK → bmap v' f k = bmap v f k) ∧
  (∀ p, 0 ≤ p < MAXBLK * BLKSIZE → content v' f p = content v f p) ∧
  (∀ b, 0 ≤ b < nblocks (rd8 v) → vfree (rd8 v') b = vfree (rd8 v) b) ∧
  ∀ y, blk y ≠ blk f → rd8 v' y = rd8 v y.
Proof.
  intros Hl Hf Hx v'.
  assert (∀ y, y < f + 128 ∨ f + 132 ≤ y → rd8 v' y = rd8 v y) as Hout
    by (intros y Hy; apply rd8_wr32_ne; unfold f_size_va; lia).
  assert (∀ y, blk y ≠ blk f → rd8 v' y = rd8 v y) as Hblk.
  { intros y Hy. apply Hout. destruct (Z.lt_ge_cases y (f + 128)), (Z.lt_ge_cases y (f + 132)); try lia.
    destruct Hy. replace y with (f + (y - f)) by lia. apply (struct_blk v f Hf). lia. }
  destruct (same_words f v v' Hl Hf) as (K & O & Hi & Hm & Hr & Kf).
  - intros y Hy. apply Hout. destruct (Z.lt_ge_cases y (f + 128)), (Z.lt_ge_cases y (f + 132)); try lia.
    destruct (struct_not_meta v f Hl Hf (y - f)); [lia|]. by replace (f + (y - f)) with y by lia.
  - intros y [Hy|[Hi Hy]]; [apply Hout; lia|]. apply Hblk. destruct (fo_ind _ _ Hf Hi). congruence.
  - split_and!; try done.
    + unfold fsize, v'. rewrite rd32_wr32_eq. by apply u32_small.
    + intros p Hp. destruct (content_block v f p Hf Hp) as [Hk Hb]. unfold content. rewrite Hm by done.
      destruct (Z.eqb_spec (bmap v f (p / BLKSIZE)) 0) as [|H0]; [done|]. apply Hblk. rewrite Hb.
      apply (fo_blk _ _ Hf _ Hk H0).
Qed.

Lemma file_grow_sees s0 v s f x :
  sees s0 v s → file_ok v f → fsize v f ≤ x < 2 ^ 31 →
  ∃ s', file_set_size f x s = Ok 0 s' ∧ sees s0 (wr32 v (f_size_va f) x) s'.
Proof.
  intros S Hf Hx. pose proof (sees_layout _ _ _ S) as Hl. unfold file_set_size.
  pose proof (rd32_range v (f_size_va f)) as Hr. fold (fsize v f) in Hr.
  destruct (f_size_sees s0 v s f S Hf) as (s1 & H1 & S1); [lia|]. rewrite (bind_Ok _ _ _ _ _ H1).
  rewrite (proj2 (Z.ltb_ge x _)) by lia. cbn [mwhen]. mrun.
  destruct (set_size_word v f x Hl Hf ltac:(lia)) as (K & _).
  pose proof (struct_slot v f Hl Hf 128 ltac:(lia) eq_refl) as Hs.
  destruct (st32_sees s0 v s1 (f_size_va f) x S1) as (s2 & H2 & S2);
    [apply (sl_al _ _ Hs)|by apply slot_reach|done|]. rewrite (bind_Ok _ _ _ _ _ H2).
  destruct (flush_block_sees _ _ _ f S2) as (s3 & H3 & S3 & _).
  { apply in_cache_blk. pose proof (fo_used _ _ Hf). pose proof (l_size _ Hl). lia. }
  rewrite (bind_Ok _ _ _ _ _ H3). by exists s3.
Qed.
End transfer.
