(* ===== verification/FsSpec.v ===== *)
(** The file server's block cache, bitmap and files: what fs/bc.c and fs/fs.c
    promise, on a disk driven by fs/ide.c. *)

From S2P Require Import Prelude Mmu Printfmt KState Syscall CString Ide Bc Fs FsBlock FsFile.
From Stdlib Require Import ZArith Lia String.
From stdpp Require Import base tactics numbers list.
Open Scope Z_scope.

Section files.
Context `{L : IdeLaws}.
Implicit Types (s : fss) (v : mem).

(** [v'] has the same file as [v], but for its size. *)
Record resized (f : Z) (v v' : mem) : Prop := {
  rs_ok : file_ok v' f;
  rs_keeps : keeps v v';
  rs_ind : ind v' f = ind v f;
  rs_room : room v' f = room v f;
  rs_map : ∀ k, 0 ≤ k < MAXBLK → bmap v' f k = bmap v f k;
  rs_content : ∀ p, 0 ≤ p < MAXBLK * BLKSIZE → content v' f p = content v f p;
  rs_free : ∀ b, 0 ≤ b < nblocks (rd8 v) → vfree (rd8 v') b = vfree (rd8 v) b;
  rs_frame : ∀ y, blk y ≠ blk f → rd8 v' y = rd8 v y }.

(** The first statement of file_write: the file is extended if necessary. *)
Lemma extend_sees s0 v s f x :
  sees s0 v s → file_ok v f → 0 ≤ x < 2 ^ 31 →
  ∃ v' s', (if fsize v f <? x then file_set_size f x else mret 0) s = Ok 0 s' ∧ sees s0 v' s' ∧
    resized f v v' ∧ fsize v' f = Z.max (fsize v f) x.
Proof.
  intros S Hf Hx. pose proof (sees_layout _ _ _ S) as Hl.
  destruct (Z.ltb_spec (fsize v f) x).
  - destruct (file_grow_sees s0 v s f x S Hf ltac:(lia)) as (s' & H' & S').
    destruct (set_size_word v f x Hl Hf ltac:(lia)) as (A1 & A2 & A3 & A4 & A5 & A6 & A7 & A8 & A9).
    exists (wr32 v (f_size_va f) x), s'. split_and!; [done|done|by split|lia].
  - exists v, s. split_and!; [done|done| |lia]. split; done.
Qed.

Lemma resized_own f v v' b : resized f v v' → own v' f b → own v f b.
Proof.
  intros R [->|[->|(k & Hk & <-)]]; [by left|right; left; by rewrite (rs_ind _ _ _ R)|].
  right. right. exists k. by rewrite (rs_map _ _ _ R).
Qed.

Lemma resized_data f v v' b : layout_ok (rd8 v) → resized f v v' → data_blk v b → data_blk v' b.
Proof.
  intros Hl R [Hb Hfr]. destruct (rs_keeps _ _ _ R) as [_ Hn]. pose proof (bb_last v Hl).
  split; [by rewrite Hn|]. rewrite (rs_free _ _ _ R) by lia. done.
Qed.

(** file_write, of [count] bytes that there are blocks or room for. *)
Lemma file_write_sees s0 v s f buf count offset :
  sees s0 v s → file_ok v f → fsize v f < 2 ^ 31 → 0 ≤ offset → 0 ≤ count →
  offset + count ≤ MAXBLK * BLKSIZE → covered v f offset (offset + count) →
  (∀ x, buf ≤ x < buf + count → buffer s0 false x) →
  ∃ v' s', file_write f buf count offset s = Ok count s' ∧ sees s0 v' s' ∧ file_ok v' f ∧
    fsize v' f = Z.max (fsize v f) (offset + count) ∧
    (∀ p, 0 ≤ p < MAXBLK * BLKSIZE → content v' f p =
       if (offset <=? p) && (p <? offset + count) then rd8 v (buf + (p - offset)) else content v f p) ∧
    (∀ p, offset ≤ p < offset + count → bmap v' f (p / BLKSIZE) ≠ 0) ∧
    (∀ x, in_cache x = false → rd8 v' x = rd8 v x) ∧
    (∀ x, data_blk v (blk x) → ¬ own v f (blk x) → rd8 v' x = rd8 v x).
Proof.
  intros S Hf Hsz Ho Hc Hmax Hcov Hbuf. pose proof (sees_layout _ _ _ S) as Hl. unfold file_write.
  pose proof (rd32_range v (f_size_va f)) as Hr. fold (fsize v f) in Hr.
  destruct (f_size_sees s0 v s f S Hf Hsz) as (s1 & H1 & S1). rewrite (bind_Ok _ _ _ _ _ H1).
  rewrite (u32_small (fsize v f)), (u32_small (offset + count)), (s32_small (offset + count)) by lia.
  destruct (extend_sees s0 v s1 f (offset + count) S1 Hf ltac:(lia)) as (v2 & s2 & H2 & S2 & R & Hsz2).
  rewrite (bind_Ok _ _ _ _ _ H2). cbn [Z.ltb Z.compare]. mrun.
  destruct (write_pieces_sees s0 f (offset + count) Hmax (pieces count) v2 s2 offset buf None S2 (rs_ok _ _ _ R))
    as (v' & s' & H' & S' & K & C & M & O); [lia|by apply np_pieces| |intros x Hx; apply Hbuf; lia|].
  { destruct Hcov as [Hcov|Hcov]; [left|right; by rewrite (rs_room _ _ _ R)].
    intros p Hp. rewrite (rs_map _ _ _ R); [by apply Hcov|].
    split; [apply Z.div_pos; lia|apply Z.div_lt_upper_bound; lia]. }
  rewrite (bind_Ok _ _ _ _ _ H'). exists v', s'.
  assert (∀ x, in_cache x = false → rd8 v2 x = rd8 v x) as Hout2.
  { intros x Hx. apply (rs_frame _ _ _ R). intros He. pose proof (fo_used _ _ Hf). pose proof (l_size _ Hl).
    assert (in_cache x = true) by (apply in_cache_blk; lia). congruence. }
  split_and!; [|done|apply (kp_ok _ _ _ K)| | |done| |].
  - unfold mret, M_ret. cbn [Z.ltb Z.compare]. by rewrite s32_small by lia.
  - rewrite <- Hsz2. apply rd8_same_v32. intros i Hi. unfold f_size_va. rewrite <- Z.add_assoc.
    apply (kp_home _ _ _ K); [apply (struct_blk v f Hf); lia|lia].
  - intros p Hp. rewrite C, (rs_content _ _ _ R) by done.
    destruct (Z.leb_spec offset p), (Z.ltb_spec p (offset + count)); cbn [andb]; try done.
    apply Hout2. destruct (Hbuf (buf + (p - offset))) as (_ & ? & _); [lia|done].
  - intros x Hx. by rewrite O, Hout2.
  - intros x Hd Hno. rewrite (kp_frame _ _ _ K).
    + apply (rs_frame _ _ _ R). intros He. apply Hno. by left.
    + by eapply resized_data.
    + intros Hw. by apply Hno, (resized_own _ _ _ _ R).
Qed.
End files.

(** ** A server at a disk

    The drive holds the bytes [byte]; of its blocks only the superblock has
    been read in; [avail] pages are free.  The page below DISKMAP is a buffer full of sevens. *)

#[local] Instance demo_device : IdeDevice := good_device.
#[local] Instance demo_laws : IdeLaws demo_device := good_laws.

Section disk.
Context (byte : Z → Z) (byte_range : ∀ x, 0 ≤ byte x < 2 ^ 8) (avail : Z).

Definition disk_data (d lba : Z) : list Z := map (λ i, byte (SECTSIZE * lba + i)) (seqZ 0 SECTSIZE).

Lemma disk_data_ok d lba : sector_ok (disk_data d lba).
Proof. apply sector_map_ok, byte_range. Qed.

Definition disk_fs : @fss demo_device := @mkF demo_device
  (λ a, if blk a =? 1 then byte (a - DISKMAP) else if blk a =? -1 then 7 else 0)
  (λ d, if d =? 64 then 7 else 0) (λ p, if (p =? 65537) || (p =? 65535) then 7 else 0) avail
  (exist _ (mkAta 0 0 0 0 224 AtaIdle disk_data) disk_data_ok) 0 true true [].

(** What the server sees of it. *)
Definition disk_view : mem := λ a,
  if in_cache a then byte (a - DISKMAP) else if blk a =? -1 then 7 else 0.

Lemma disk_f_data x : 0 ≤ x → f_data disk_fs x = byte x.
Proof. intros Hx. unfold f_data. cbn [f_diskno disk_fs f_ata f_dev]. by apply disk_byte_map. Qed.

Lemma disk_present a : present disk_fs a = (blk a =? 1) || (blk a =? -1).
Proof.
  unfold present, blk. cbn [f_pte disk_fs].
  destruct (Z.eqb_spec (a / 4096) 65537), (Z.eqb_spec (a / 4096) 65535),
    (Z.eqb_spec (a / 4096 - 65536) 1), (Z.eqb_spec (a / 4096 - 65536) (-1)); try lia; done.
Qed.

Lemma disk_sees_view a : view disk_fs a = rd8 disk_view a.
Proof.
  unfold view. rewrite disk_present. unfold disk_view, rd8. cbn [f_mem disk_fs].
  destruct (in_cache a) eqn:Hc; cbn [andb].
  - pose proof (proj1 (in_cache_blk a) Hc). pose proof (proj1 (in_cache_spec a) Hc).
    rewrite (u8_small (byte (a - DISKMAP))) by apply byte_range.
    destruct (Z.eqb_spec (blk a) 1); cbn [orb negb].
    + apply u8_small, byte_range.
    + destruct (Z.eqb_spec (blk a) (-1)); [lia|]. apply disk_f_data. lia.
  - destruct (Z.eqb_spec (blk a) 1); [|done].
    assert (in_cache a = true) by (apply in_cache_blk; lia). congruence.
Qed.

Lemma disk_cache n : 1 ≤ n → n + 767 ≤ avail → cache_ok n disk_fs.
Proof.
  intros Hn Ha. split; try done.
  - by left.
  - intros b Hb. unfold unread, pg. cbn [f_pte disk_fs].
    destruct (Z.eqb_spec (65536 + b) 65537) as [He|]; cbn [orb].
    + intros _. replace b with 1 by lia. done.
    + destruct (Z.eqb_spec (65536 + b) 65535); [lia|]. discriminate.
  - intros a Hc. rewrite disk_present. pose proof (proj1 (in_cache_blk a) Hc).
    destruct (Z.eqb_spec (blk a) 1) as [He|]; cbn [orb].
    + intros _ _. pose proof (proj1 (in_cache_spec a) Hc). rewrite disk_f_data by lia.
      unfold rd8. cbn [f_mem disk_fs]. rewrite He. cbn [Z.eqb]. apply u8_small, byte_range.
    + destruct (Z.eqb_spec (blk a) (-1)); [lia|discriminate].
  - unfold missing. cbn [f_avail disk_fs]. pose proof (count_le (unread disk_fs) (seqZ 1 (n - 1))) as H1.
    pose proof (count_le (no_table disk_fs) (seqZ 64 768)) as H2. rewrite length_seqZ in H1, H2. lia.
Qed.

(** A disk with a right layout can be served. *)
Lemma disk_sees : layout_ok (rd8 disk_view) → nblocks (rd8 disk_view) + 767 ≤ avail → sees disk_fs disk_view disk_fs.
Proof.
  intros Hl Ha. assert (pointwise_relation Z eq (view disk_fs) (rd8 disk_view)) as Hv by (intros a; apply disk_sees_view).
  split_and!; [split|apply disk_sees_view|done|done].
  - rewrite Hv. apply disk_cache; [|done]. pose proof (l_size _ Hl). lia.
  - by rewrite Hv.
Qed.

Lemma disk_buffer w x : 268431360 ≤ x < 268435456 → buffer disk_fs w x.
Proof.
  intros Hx. split; [lia|split].
  - apply not_true_is_false. rewrite in_cache_spec. lia.
  - cbn [f_pte disk_fs]. assert (x / 4096 = 65535) as -> by (symmetry;
      apply (Z.div_unique_pos _ _ _ (x - 65535 * 4096)); lia). by destruct w.
Qed.
End disk.

(** A small disk of eight blocks: 0, the superblock (with an empty root
    directory node), the bitmap, and five free ones. *)
Definition demo_byte (x : Z) : Z :=
  if x =? 4096 then 174 else if x =? 4097 then 48 else if x =? 4098 then 5 else if x =? 4099 then 74
  else if x =? 4100 then 8 else if x =? 8192 then 248 else 0.

Lemma demo_byte_range x : 0 ≤ demo_byte x < 2 ^ 8.
Proof. unfold demo_byte. repeat (destruct (_ =? _); [lia|]). lia. Qed.

Definition demo_fs : @fss demo_device := disk_fs demo_byte demo_byte_range 1000.
Definition demo_view : mem := disk_view demo_byte.

Lemma demo_nblocks : nblocks (rd8 demo_view) = 8.
Proof. reflexivity. Qed.

Lemma demo_bb b : 0 ≤ b < 8 → bb b = 2.
Proof. intros. unfold bb. rewrite Z.div_small by lia. done. Qed.

Lemma demo_layout : layout_ok (rd8 demo_view).
Proof.
  split; rewrite ?demo_nblocks; [lia| |reflexivity].
  intros b Hb. rewrite demo_bb by done. split; [lia|reflexivity].
Qed.

Lemma demo_sees : sees demo_fs demo_view demo_fs.
Proof. apply disk_sees; [exact demo_layout|]. change (nblocks (rd8 demo_view) + 767 ≤ 1000). rewrite demo_nblocks. lia. Qed.

Lemma demo_root_byte o : 0 ≤ o < 256 → rd8 demo_view (s_root_va + o) = 0.
Proof.
  intros Ho. unfold demo_view, disk_view, rd8. change s_root_va with 268439560.
  assert (in_cache (268439560 + o) = true) as -> by (apply in_cache_spec; lia).
  unfold demo_byte. rewrite !(proj2 (Z.eqb_neq _ _)) by lia. done.
Qed.

Lemma demo_root_word o : 0 ≤ o ≤ 252 → rd32 demo_view (s_root_va + o) = 0.
Proof.
  intros Ho. unfold rd32. rewrite <- !Z.add_assoc. by rewrite !demo_root_byte by lia.
Qed.

Lemma demo_ind : ind demo_view s_root_va = 0.
Proof. apply (demo_root_word 176). lia. Qed.

Lemma demo_bmap k : 0 ≤ k < MAXBLK → bmap demo_view s_root_va k = 0.
Proof.
  intros Hk. unfold bmap. rewrite demo_ind. destruct (Z.leb_spec NDIRECT k); [done|]. cbn [andb].
  unfold slot_va. rewrite (proj2 (Z.ltb_lt k NDIRECT)) by lia.
  unfold f_direct_va. rewrite <- Z.add_assoc. apply demo_root_word. lia.
Qed.

Lemma demo_root : file_ok demo_view s_root_va.
Proof.
  split.
  - split; reflexivity || (apply Z.leb_le; reflexivity).
  - left. split; [reflexivity|]. apply Z.leb_le. reflexivity.
  - rewrite demo_nblocks. change (blk s_root_va) with 1. split; [lia|reflexivity].
  - by rewrite demo_ind.
  - intros k Hk. by rewrite demo_bmap.
  - intros j k Hj Hk _. by rewrite demo_bmap.
Qed.

Lemma demo_room : room demo_view s_root_va = 4.
Proof. unfold room. rewrite demo_ind. reflexivity. Qed.

Lemma demo_buffer w x : 268431360 ≤ x < 268435456 → buffer demo_fs w x.
Proof. apply disk_buffer. Qed.

(** ** Claims *)

(** C8: on a working drive the block cache behaves as one memory that holds the
    whole disk: a load returns what the disk or the last store to the address
    holds, whether or not the block has been read in and however the page
    faults nest; a store changes the bytes stored and no others; and after
    flush_block of an address the disk has, in the block of that address, what
    the server sees, while the other blocks of the disk are unchanged. *)
Theorem block_cache_spec `{L : IdeLaws} (s0 : fss) v s a x :
  sees s0 v s →
  (a mod 4 = 0 → vreach s0 v false a → ∃ s', ld32 a s = Ok (rd32 v a) s' ∧ sees s0 v s') ∧
  (a mod 4 = 0 → vreach s0 v true a → keeps v (wr32 v a x) →
     ∃ s', st32 a x s = Ok tt s' ∧ sees s0 (wr32 v a x) s') ∧
  (in_cache a = true → ∃ s', flush_block a s = Ok tt s' ∧ sees s0 v s' ∧ flushed a v s s').
Proof.
  intros S. split_and!.
  - by apply ld32_sees.
  - by apply st32_sees.
  - by apply flush_block_sees.
Qed.

Lemma block_cache_spec_witness :
  ∃ s', ld32 bitmap_va demo_fs = Ok 248 s' ∧ sees demo_fs demo_view s'.
Proof.
  apply (proj1 (block_cache_spec demo_fs demo_view demo_fs bitmap_va 0 demo_sees)).
  - reflexivity.
  - apply vreach_blk; [exact demo_layout|rewrite demo_nblocks; change (blk bitmap_va) with 2; lia|reflexivity].
Defined.

(** C30: alloc_block returns the first free block from block 2 on, and clears
    its bit, no other, in memory and on the disk; with no free block it returns
    -E_NO_DISK and changes nothing. *)
Theorem alloc_block_spec `{L : IdeLaws} (s0 : fss) v s :
  sees s0 v s →
  (∃ d s', alloc_block s = Ok d s' ∧ 2 ≤ d < nblocks (rd8 v) ∧ vfree (rd8 v) d = true ∧
     (∀ b, 2 ≤ b < d → vfree (rd8 v) b = false) ∧ sees s0 (mark_used v d) s' ∧
     (∀ b, 0 ≤ b → vfree (rd8 (mark_used v d)) b = if b =? d then false else vfree (rd8 v) b) ∧
     (∀ x, blk x = bb d → f_data s' (x - DISKMAP) = rd8 (mark_used v d) x)) ∨
  (∃ s', alloc_block s = Ok (- E_NO_DISK) s' ∧ sees s0 v s' ∧
     ∀ b, 2 ≤ b < nblocks (rd8 v) → vfree (rd8 v) b = false).
Proof.
  intros S. destruct (alloc_block_sees s0 v s S) as [(d & s' & H & Hd & Hf & Ha & S' & Hx)|H]; [left|by right].
  exists d, s'. split_and!; try done; try lia. intros b Hb. apply vfree_mark_used; lia.
Qed.

Lemma alloc_block_spec_witness : ∃ s', alloc_block demo_fs = Ok 3 s' ∧ sees demo_fs (mark_used demo_view 3) s'.
Proof.
  destruct (alloc_block_spec demo_fs demo_view demo_fs demo_sees) as [(d & s' & H & Hd & Hf & Ha & S' & _)|(s' & _ & _ & Hn)].
  - assert (d = 3) as ->; [|exists s'; split; [exact H|exact S']].
    rewrite demo_nblocks in Hd. destruct (Z.eq_dec d 3) as [He|Hne]; [exact He|exfalso].
    destruct (Z.eq_dec d 2) as [->|]; [discriminate Hf|].
    assert (vfree (rd8 demo_view) 3 = true) as H3 by reflexivity. rewrite Ha in H3 by lia. discriminate H3.
  - discriminate (Hn 3). rewrite demo_nblocks. lia.
Defined.



(** C7: what file_write has written, file_read returns.  For a range of a
    well-formed file that has its blocks, or for which there is room, both
    return the number of bytes asked for, the bytes read are those that were
    written, and the size of the file is extended to the end of the range. *)
Theorem file_write_read `{L : IdeLaws} (s0 : fss) v s f buf buf' count offset :
  sees s0 v s → file_ok v f → fsize v f ≤ MAXBLK * BLKSIZE → 0 ≤ offset → 0 ≤ count →
  offset + count ≤ MAXBLK * BLKSIZE → covered v f offset (offset + count) →
  (∀ x, buf ≤ x < buf + count → buffer s0 false x) →
  (∀ x, buf' ≤ x < buf' + count → buffer s0 true x) →
  ∃ s1 v2 s2, file_write f buf count offset s = Ok count s1 ∧
    file_read f buf' count offset s1 = Ok count s2 ∧ sees s0 v2 s2 ∧ file_ok v2 f ∧
    fsize v2 f = Z.max (fsize v f) (offset + count) ∧
    ∀ i, 0 ≤ i < count → rd8 v2 (buf' + i) = rd8 v (buf + i).
Proof.
  intros S Hf Hsz Ho Hc Hmax Hcov Hb Hb'.
  destruct (file_write_sees s0 v s f buf count offset S Hf ltac:(lia) Ho Hc Hmax Hcov Hb)
    as (v1 & s1 & H1 & S1 & F1 & Z1 & C1 & M1 & O1 & _).
  assert (Z.max 0 (Z.min count (fsize v1 f - offset)) = count) as En by lia.
  destruct (file_read_sees s0 v1 s1 f buf' count offset S1 F1) as (v2 & s2 & H2 & S2 & K2 & C2 & O2);
    [lia|lia|lia| |rewrite En; exact Hb'|].
  { rewrite En. by left. }
  rewrite En in H2, O2. exists s1, v2, s2. split_and!; try done.
  - apply (kp_ok _ _ _ K2).
  - rewrite <- Z1. apply rd8_same_v32. intros i Hi. unfold f_size_va. rewrite <- Z.add_assoc.
    apply (kp_home _ _ _ K2); [apply (struct_blk v1 f F1); lia|lia].
  - intros i Hi. rewrite O2 by (destruct (Hb' (buf' + i)) as (_ & ? & _); [lia|done]).
    destruct (Z.leb_spec buf' (buf' + i)), (Z.ltb_spec (buf' + i) (buf' + count)); try lia. cbn [andb].
    rewrite C1 by lia. destruct (Z.leb_spec offset (offset + (buf' + i - buf'))),
      (Z.ltb_spec (offset + (buf' + i - buf')) (offset + count)); try lia. cbn [andb]. f_equal. lia.
Qed.

Lemma file_write_read_witness :
  ∃ s1 v2 s2, file_write s_root_va 268431360 100 5000 demo_fs = Ok 100 s1 ∧
    file_read s_root_va 268433408 100 5000 s1 = Ok 100 s2 ∧
    sees demo_fs v2 s2 ∧ file_ok v2 s_root_va ∧ fsize v2 s_root_va = 5100 ∧
    ∀ i, 0 ≤ i < 100 → rd8 v2 (268433408 + i) = rd8 demo_view (268431360 + i).
Proof.
  assert (fsize demo_view s_root_va = 0) as Hz by (apply (demo_root_word 128); lia).
  destruct (file_write_read demo_fs demo_view demo_fs s_root_va 268431360 268433408 100 5000
    demo_sees demo_root ltac:(lia) ltac:(lia) ltac:(lia) ltac:(lia)) as (s1 & v2 & s2 & H1 & H2 & S2 & F2 & Z2 & R2).
  - right. rewrite demo_room. change (np 5000 (5000 + 100)) with 1. lia.
  - intros x Hx. apply demo_buffer. lia.
  - intros x Hx. apply demo_buffer. lia.
  - exists s1, v2, s2. rewrite Hz in Z2.
    exact (conj H1 (conj H2 (conj S2 (conj F2 (conj Z2 R2))))).
Defined.
