(* ===== verification/FsDir.v ===== *)
(** Directories: what dir_lookup, walk_path and file_open of fs/fs.c find, in
    the memory the server sees. *)

From S2P Require Import Prelude Mmu Printfmt KState Syscall CString Ide Bc Fs FsBlock FsFile.
From Stdlib Require Import ZArith Lia Ascii String.
From stdpp Require Import base tactics numbers list.
Open Scope Z_scope.

(** The [i]th File structure of the directory [d]. *)
Definition ent_va (v : mem) (d i : Z) : Z := blkva (bmap v d (i / 16)) + 256 * (i mod 16).

(** A directory with the entries [names] (empty ones have an empty name). *)
Record dir_ok (v : mem) (d : Z) (names : list (list Z)) : Prop := {
  do_file : file_ok v d;
  do_type : rd32 v (f_type_va d) = FTYPE_DIR;
  do_size : fsize v d = 256 * Z.of_nat (length names) ∧ (length names mod 16 = 0)%nat;
  do_max : Z.of_nat (length names) ≤ 16 * MAXBLK;
  do_blk : ∀ k, 0 ≤ k < Z.of_nat (length names) / 16 → bmap v d k ≠ 0;
  do_names : ∀ i nm, names !! i = Some nm → cstr v (ent_va v d (Z.of_nat i)) nm ∧ (length nm < 128)%nat }.

(** The place of the first entry called [name], counted from [i]. *)
Fixpoint index_of (name : list Z) (names : list (list Z)) (i : Z) : option Z :=
  match names with
  | [] => None
  | nm :: names => if bool_decide (nm = name) then Some i else index_of name names (i + 1)
  end.

Lemma index_of_app name l1 l2 i :
  index_of name (l1 ++ l2) i = match index_of name l1 i with Some j => Some j | None => index_of name l2 (i + Z.of_nat (length l1)) end.
Proof.
  revert i. induction l1 as [|nm l1 IH]; intros i; cbn [app index_of length]; [by rewrite Z.add_0_r|].
  case_bool_decide; [done|]. rewrite IH. destruct (index_of name l1 (i + 1)); [done|]. f_equal. lia.
Qed.

Lemma index_of_spec name l i j : index_of name l i = Some j → i ≤ j < i + Z.of_nat (length l) ∧ l !! Z.to_nat (j - i) = Some name.
Proof.
  revert i. induction l as [|nm l IH]; intros i; cbn [index_of length]; [done|]. case_bool_decide as H.
  - intros [= <-]. split; [lia|]. rewrite Z.sub_diag. cbn. by rewrite H.
  - intros Hj. destruct (IH _ Hj) as [H1 H2]. split; [lia|].
    replace (Z.to_nat (j - i)) with (S (Z.to_nat (j - (i + 1)))) by lia. done.
Qed.

Section dir.
Context `{L : IdeLaws}.
Implicit Types (s : fss) (v : mem).

Lemma get_block_mapped s0 v s f k o : sees s0 v s → file_ok v f → 0 ≤ k < MAXBLK → bmap v f k ≠ 0 →
  ∃ s', file_get_block f k o s = Ok (0, Some (blkva (bmap v f k))) s' ∧ sees s0 v s'.
Proof.
  intros S Hf Hk Hb. pose proof (sees_layout _ _ _ S) as Hl. unfold file_get_block.
  destruct (has_slot_dec v f k) as [Hs|[H1 H2]];
    [|unfold bmap in Hb; rewrite (proj2 (Z.leb_le _ _)), H2 in Hb by lia; done].
  destruct (walk_slot_sees s0 v s f k true S Hf Hk Hs) as (s1 & E1 & S1). rewrite (bind_Ok _ _ _ _ _ E1).
  cbn [Z.ltb Z.compare Z.eqb negb]. pose proof (slot_va_ok v f Hl Hf k Hk Hs) as Hsl. unfold slot_block.
  destruct (slot_ld32 _ _ _ _ S1 Hsl) as (s2 & E2 & S2). rewrite (bind_Ok _ _ _ _ _ E2), <- (bmap_slot v f k Hs).
  rewrite (proj2 (Z.eqb_neq _ _) Hb), bind_ret. cbn [Z.ltb Z.compare].
  destruct (slot_ld32 _ _ _ _ S2 Hsl) as (s3 & E3 & S3). rewrite (bind_Ok _ _ _ _ _ E3), <- (bmap_slot v f k Hs).
  destruct (fo_blk _ _ Hf k Hk Hb) as ([Hd _] & _). pose proof (bb_last v Hl).
  destruct (diskaddr_sees _ _ _ (bmap v f k) S3) as (s4 & E4 & S4); [lia|].
  rewrite (bind_Ok _ _ _ _ _ E4). by exists s4.
Qed.

Lemma strcmp_sees s0 v name : Forall (λ c, c ≠ 0) name → ∀ l a s, sees s0 v s → cstr v a l →
  (∀ x, a ≤ x ≤ a + Z.of_nat (length l) → vreach s0 v false x) →
  ∃ c s', u_strcmp a name s = Ok c s' ∧ sees s0 v s' ∧ (c =? 0) = bool_decide (l = name).
Proof.
  induction 1 as [|q name Hq _ IH]; intros l a s S Hl R; cbn [u_strcmp];
    (destruct (ld8_sees s0 v s a S) as (s1 & E1 & S1); [apply R; lia|]); rewrite (bind_Ok _ _ _ _ _ E1).
  - destruct l as [|c l]; cbn [cstr] in Hl; [rewrite Hl|destruct Hl as (-> & Hc & _)]; eexists _, s1; (split; [done|]; split; [done|]).
    + by rewrite bool_decide_eq_true_2.
    + rewrite bool_decide_eq_false_2 by done. by apply Z.eqb_neq.
  - destruct l as [|c l]; cbn [cstr] in Hl.
    + rewrite Hl. cbn. eexists _, s1. split; [done|]. split; [done|]. rewrite bool_decide_eq_false_2 by done.
      apply Z.eqb_neq. lia.
    + destruct Hl as (-> & Hc & Hl). rewrite (proj2 (Z.eqb_neq _ _) Hc). cbn [negb andb].
      destruct (Z.eqb_spec c q) as [->|Hne].
      * destruct (IH l (a + 1) s1 S1 Hl) as (r & s2 & E2 & S2 & Hr); [intros x Hx; apply R; cbn [length]; lia|].
        exists r, s2. split; [done|]. split; [done|]. rewrite Hr. apply bool_decide_ext. split; [by intros ->|by intros [= ->]].
      * eexists _, s1. split; [done|]. split; [done|]. rewrite bool_decide_eq_false_2 by (intros [= ? _]; done).
        apply Z.eqb_neq. lia.
Qed.
Definition name_test (name : list Z) (f : Z) : M fss bool := c ← u_strcmp f name; mret (c =? 0).

Lemma find_file_sees s0 v name : Forall (λ c, c ≠ 0) name → ∀ ns f i s, sees s0 v s →
  (∀ j nm, ns !! j = Some nm → cstr v (f + 256 * Z.of_nat j) nm ∧
     ∀ x, f + 256 * Z.of_nat j ≤ x ≤ f + 256 * Z.of_nat j + Z.of_nat (length nm) → vreach s0 v false x) →
  ∃ s', find_file (length ns) (name_test name) f s =
      Ok (match index_of name ns i with Some j => Some (f + 256 * (j - i)) | None => None end) s' ∧ sees s0 v s'.
Proof.
  intros Hn. induction ns as [|nm ns IH]; intros f i s S H; [by exists s|]. cbn [length find_file index_of].
  destruct (H O nm eq_refl) as [C R]. replace (f + 256 * Z.of_nat 0) with f in * by lia.
  destruct (strcmp_sees s0 v name Hn nm f s S C R) as (c & s1 & E1 & S1 & Hc).
  assert (E : name_test name f s = Ok (c =? 0) s1) by (unfold name_test; by rewrite (bind_Ok _ _ _ _ _ E1)).
  rewrite (bind_Ok _ _ _ _ _ E).
  rewrite Hc. case_bool_decide.
  - exists s1. split; [|done]. by rewrite Z.sub_diag, Z.add_0_r.
  - destruct (IH (f + 256) (i + 1) s1 S1) as (s2 & E2 & S2).
    { intros j nm' Hj. specialize (H (1 + j)%nat nm' Hj). replace (f + 256 + 256 * Z.of_nat j) with (f + 256 * Z.of_nat (1 + j)) by lia. done. }
    exists s2. split; [|done]. rewrite E2. destruct (index_of name ns (i + 1)); [|done]. do 2 f_equal. lia.
Qed.

Lemma dir_blocks (names : list (list Z)) : (length names mod 16 = 0)%nat →
  Z.of_nat (length names) = 16 * (Z.of_nat (length names) / 16).
Proof.
  intros Hm. pose proof (Z.div_mod (Z.of_nat (length names)) 16 ltac:(lia)) as H.
  change 16 with (Z.of_nat 16) in H at 3. rewrite <- Nat2Z.inj_mod, Hm in H. lia.
Qed.

Lemma ent_reach s0 v d names i x : layout_ok (rd8 v) → dir_ok v d names → 0 ≤ i < Z.of_nat (length names) →
  ent_va v d i ≤ x < ent_va v d i + 256 → vreach s0 v false x.
Proof.
  intros Hl [Hf _ [_ Hm] Hmax Hb _] Hi Hx. pose proof (bb_last v Hl). unfold ent_va in Hx.
  pose proof (Z.div_mod i 16 ltac:(lia)). pose proof (Z.mod_pos_bound i 16 ltac:(lia)).
  assert (Hk : 0 ≤ i / 16 < Z.of_nat (length names) / 16).
  { pose proof (dir_blocks _ Hm). lia. }
  assert (Z.of_nat (length names) / 16 ≤ MAXBLK) by (apply Z.div_le_upper_bound; lia).
  destruct (fo_blk _ _ Hf (i / 16) ltac:(lia) (Hb _ Hk)) as ([Hd Hfr] & _).
  assert (E : blk x = bmap v d (i / 16)) by (apply blk_page; lia).
  apply vreach_blk; rewrite ?E; [done|lia|done].
Qed.

Lemma find_block_sees s0 v d names name : Forall (λ c, c ≠ 0) name → dir_ok v d names → ∀ n k o s, sees s0 v s →
  Z.of_nat (length names) = 16 * (k + Z.of_nat n) → 0 ≤ k →
  ∃ o' s', find_block n (name_test name) d k o s =
      Ok (inr (match index_of name (drop (Z.to_nat (16 * k)) names) (16 * k) with
               | Some j => Some (ent_va v d j) | None => None end, o')) s' ∧ sees s0 v s'.
Proof.
  intros Hn DK. induction n as [|n IH]; intros k o s S Hlen Hk; cbn [find_block].
  - exists o, s. split; [|done]. by rewrite drop_ge by lia.
  - pose proof (sees_layout _ _ _ S) as Hl. pose proof (do_max _ _ _ DK) as Hmax.
    assert (Hb : bmap v d k ≠ 0).
    { apply (do_blk _ _ _ DK). rewrite Hlen, Z.mul_comm, Z.div_mul by lia. lia. }
    destruct (get_block_mapped s0 v s d k o S (do_file _ _ _ DK) ltac:(lia) Hb) as (s1 & E1 & S1).
    rewrite (bind_Ok _ _ _ _ _ E1). cbn [Z.ltb Z.compare mderef]. rewrite bind_ret.
    set (rest := drop (Z.to_nat (16 * k)) names). set (ns := take 16 rest).
    assert (Hns : length ns = 16%nat) by (unfold ns, rest; rewrite length_take, length_drop; lia).
    assert (Hent : ∀ j, 0 ≤ j < 16 → ent_va v d (16 * k + j) = blkva (bmap v d k) + 256 * j).
    { intros j Hj. unfold ent_va. replace ((16 * k + j) / 16) with k by (apply (Z.div_unique_pos _ _ _ j); lia).
      replace ((16 * k + j) mod 16) with j by (apply (Z.mod_unique_pos _ _ k); lia). done. }
    destruct (find_file_sees s0 v name Hn ns (blkva (bmap v d k)) (16 * k) s1 S1) as (s2 & E2 & S2).
    { intros j nm Hj. pose proof (lookup_lt_Some _ _ _ Hj). unfold ns in Hj. rewrite lookup_take_lt in Hj by lia.
      unfold rest in Hj. rewrite lookup_drop in Hj. destruct (do_names _ _ _ DK _ _ Hj) as [C Hlt].
      replace (Z.of_nat (Z.to_nat (16 * k) + j)) with (16 * k + Z.of_nat j) in C by lia. rewrite <- Hent by lia.
      split; [done|]. intros x Hx. apply (ent_reach s0 v d names (16 * k + Z.of_nat j) x Hl DK); lia. }
    rewrite Hns in E2. rewrite (bind_Ok _ _ _ _ _ E2). rewrite <- (take_drop 16 rest). fold ns. rewrite index_of_app, Hns.
    destruct (index_of name ns (16 * k)) as [j|] eqn:Ej.
    + eexists _, s2. split; [|done]. apply index_of_spec in Ej as [Hj _]. rewrite Hns in Hj.
      rewrite <- (Hent (j - 16 * k)) by lia. replace (16 * k + (j - 16 * k)) with j by lia. done.
    + destruct (IH (k + 1) (Some (blkva (bmap v d k))) s2 S2) as (o' & s3 & E3 & S3); [lia|lia|].
      exists o', s3. split; [|done]. rewrite E3. unfold rest. rewrite drop_drop.
      replace (Z.to_nat (16 * k) + 16)%nat with (Z.to_nat (16 * (k + 1))) by lia.
      by replace (16 * k + Z.of_nat 16) with (16 * (k + 1)) by lia.
Qed.

Lemma dir_nblock_sees s0 v s d names : sees s0 v s → dir_ok v d names →
  ∃ s', dir_nblock d s = Ok (Z.of_nat (length names) / 16) s' ∧ sees s0 v s'.
Proof.
  intros S DK. destruct (do_size _ _ _ DK) as [Hs Hm]. pose proof (do_max _ _ _ DK). pose proof (dir_blocks _ Hm) as Hb.
  remember (Z.of_nat (length names) / 16) as q eqn:Eq. clear Eq. assert (E : fsize v d = q * 4096) by lia.
  unfold dir_nblock. destruct (f_size_sees s0 v s d S (do_file _ _ _ DK)) as (s1 & E1 & S1); [lia|].
  rewrite (bind_Ok _ _ _ _ _ E1), E, Z.rem_mul by lia. cbn [Z.eqb massert]. rewrite bind_ret.
  destruct (f_size_sees s0 v s1 d S1 (do_file _ _ _ DK)) as (s2 & E2 & S2); [lia|]. rewrite (bind_Ok _ _ _ _ _ E2).
  exists s2. split; [|done]. unfold mret, M_ret. by rewrite E, Z.quot_mul, u32_small by lia.
Qed.

Lemma dir_lookup_sees s0 v s d names name : sees s0 v s → dir_ok v d names → Forall (λ c, c ≠ 0) name →
  ∃ s', dir_lookup d name s = Ok (match index_of name names 0 with
      | Some i => (0, Some (ent_va v d i)) | None => (- E_NOT_FOUND, None) end) s' ∧ sees s0 v s'.
Proof.
  intros S DK Hn. destruct (dir_nblock_sees s0 v s d names S DK) as (s1 & E1 & S1). unfold dir_lookup.
  rewrite (bind_Ok _ _ _ _ _ E1). pose proof (dir_blocks _ (proj2 (do_size _ _ _ DK))) as Hb.
  destruct (find_block_sees s0 v d names name Hn DK (Z.to_nat (Z.of_nat (length names) / 16)) 0 None s1 S1)
    as (o & s2 & E2 & S2); [lia|lia|]. change (Z.to_nat (16 * 0)) with O in E2. rewrite drop_0 in E2.
  change (λ f, c ← u_strcmp f name; mret (c =? 0)) with (name_test name).
  rewrite (bind_Ok _ _ _ _ _ E2). exists s2. split; [|done]. unfold mret, M_ret. f_equal.
  change (16 * 0) with 0. by destruct (index_of name names 0).
Qed.

(** ** Paths *)

(** [comps] lead from the directory [d] to [f]. *)
Inductive path_to (v : mem) : Z → list (list Z) → Z → Prop :=
  | path_here f : path_to v f [] f
  | path_down d names name i comps f :
      dir_ok v d names → index_of name names 0 = Some i → path_to v (ent_va v d i) comps f → path_to v d (name :: comps) f.

Definition component (c : list Z) : Prop :=
  c ≠ [] ∧ (length c < 128)%nat ∧ Forall (λ x, x ≠ 0 ∧ x ≠ zc "/") c.
(** /c1/c2/... *)
Definition path_str (comps : list (list Z)) : list Z := mjoin ((λ c, zc "/" :: c) <$> comps).

Lemma path_elem_app c rest : Forall (λ x, x ≠ 0 ∧ x ≠ zc "/") c →
  (rest = [] ∨ head rest = Some (zc "/")) → path_elem (c ++ rest) = (c, rest).
Proof.
  intros Hc Hr. induction Hc as [|x c [_ Hx] _ IH]; cbn [app].
  - destruct rest as [|y rest]; [done|]. destruct Hr as [|[= ->]]; [done|]. cbn. done.
  - cbn [path_elem]. by rewrite (proj2 (Z.eqb_neq _ _) Hx), IH.
Qed.

Lemma path_str_head comps : path_str comps = [] ∨ head (path_str comps) = Some (zc "/").
Proof. destruct comps; [by left|by right]. Qed.

(** What is left to walk: the components without the first slash. *)
Definition tail_str (comps : list (list Z)) : list Z := match comps with [] => [] | c :: cs => c ++ path_str cs end.

Lemma skip_path comps : Forall component comps → skip_slash (path_str comps) = tail_str comps.
Proof.
  destruct comps as [|c cs]; [done|]. intros Hc. apply Forall_cons in Hc as [(Hne & _ & Hx) _].
  change (path_str (c :: cs)) with (zc "/" :: c ++ path_str cs). cbn [skip_slash]. rewrite Z.eqb_refl. cbn [tail_str].
  destruct c as [|x c]; [done|]. apply Forall_cons in Hx as [[_ Hx] _]. cbn [app skip_slash].
  by rewrite (proj2 (Z.eqb_neq _ _) Hx).
Qed.

Lemma walk_from_sees s0 v d comps f : path_to v d comps f → Forall component comps → ∀ fuel dir0 s, sees s0 v s →
  (length (tail_str comps) ≤ fuel)%nat →
  ∃ dir s', walk_from fuel (tail_str comps) dir0 d s = Ok (mkWalk 0 dir f None) s' ∧ sees s0 v s'.
Proof.
  induction 1 as [f|d names name i comps f DK Hi _ IH]; intros Hc fuel dir0 s S Hf.
  - exists dir0, s. destruct fuel; done.
  - apply Forall_cons in Hc as [(Hne & Hlen & Hx) Hc]. cbn [tail_str] in *. rewrite length_app in Hf.
    destruct name as [|x name]; [done|]. destruct fuel as [|fuel]; [cbn in Hf; lia|].
    pose proof (path_elem_app (x :: name) (path_str comps) Hx (path_str_head _)) as E. cbn [app] in E.
    cbn [walk_from app]. rewrite E.
    rewrite (proj2 (Z.leb_gt _ _)) by lia. rewrite skip_path by done. pose proof (sees_layout _ _ _ S) as Hl.
    destruct (slot_ld32 s0 v s (f_type_va d) S) as (s1 & E1 & S1).
    { apply (struct_slot v d Hl (do_file _ _ _ DK) 132); [lia|done]. }
    rewrite (bind_Ok _ _ _ _ _ E1), (do_type _ _ _ DK), Z.eqb_refl. cbn [negb].
    destruct (dir_lookup_sees s0 v s1 d names (x :: name) S1 DK) as (s2 & E2 & S2).
    { eapply Forall_impl; [exact Hx|]. by intros ? [? _]. }
    rewrite (bind_Ok _ _ _ _ _ E2), Hi. cbn [Z.ltb Z.compare mderef]. rewrite bind_ret.
    apply IH; [done|done|]. assert (length (tail_str comps) ≤ length (path_str comps))%nat; [|cbn in Hf; lia].
    destruct comps as [|c cs]; [done|]. change (path_str (c :: cs)) with (zc "/" :: c ++ path_str cs). cbn [tail_str length]. lia.
Qed.

Lemma file_open_sees s0 v s comps f : sees s0 v s → path_to v s_root_va comps f → Forall component comps →
  ∃ s', file_open (path_str comps) s = Ok (0, f) s' ∧ sees s0 v s'.
Proof.
  intros S P Hc. unfold file_open, walk_path. rewrite skip_path by done.
  destruct (walk_from_sees s0 v s_root_va comps f P Hc (length (tail_str comps)) 0 s S) as (dir & s' & E & S'); [done|].
  rewrite (bind_Ok _ _ _ _ _ E). by exists s'.
Qed.

End dir.
