(* ===== verification/Fsformat.v ===== *)
(** The formatter, fs/fsformat.c: a host program that writes a disk image
    with a root directory of files.

    The image is a memory from address 0 (diskmap) on, and the array of
    directory entries that startdir gets from malloc another one, whose first
    contents are what malloc gives.  Of the host, the files it has, how many
    bytes a call to read returns, whether the image can be made, and its
    strtol are parameters. *)

From S2P Require Import Prelude Mmu Printfmt KState Syscall CString Ide Bc Fs FsBlock.
From Stdlib Require Import ZArith Lia Ascii String.
From stdpp Require Import base tactics numbers list.
Open Scope Z_scope.

Abbreviation MAX_DIR_ENTS := 128 (only parsing).
Abbreviation MAXFILESIZE := 4235264 (only parsing).  (* (NDIRECT + NINDIRECT) * BLKSIZE *)

(** A file of the host: what fstat says (its size when it succeeds, whether
    it is a regular file) and the bytes that can be read. *)
Record hostfile := mkHost { h_size : option Z; h_reg : bool; h_bytes : list Z }.

(** diskmap, diskpos, nblocks; the entries, and how many there are. *)
Record fmt := mkFmt { d_map : mem; d_pos : Z; d_nblocks : Z; d_ents : mem; d_n : Z }.
Definition dw_map m s := mkFmt m (d_pos s) (d_nblocks s) (d_ents s) (d_n s).
Definition dw_pos p s := mkFmt (d_map s) p (d_nblocks s) (d_ents s) (d_n s).
Definition dw_ents e n s := mkFmt (d_map s) (d_pos s) (d_nblocks s) e n.

Fixpoint poke (m : mem) (a : Z) (l : list Z) : mem :=
  match l with [] => m | c :: l => poke (wr8 m a c) (a + 1) l end.

Definition blockof (pos : Z) : Z := u32 (pos / BLKSIZE).
(** The macro ROUNDUP of this file, at type uint32_t and at type int. *)
Definition roundup_u (n v : Z) : Z := u32 (u32 (n - 1) + v - u32 (n - 1) mod v).
Definition roundup_s (n v : Z) : Z := n - 1 + v - Z.rem (n - 1) v.

Definition alloc (bytes : Z) : M fmt Z :=
  start ← mgets d_pos;
  mmod (dw_pos (start + roundup_u bytes BLKSIZE));;
  s ← mget;
  if d_nblocks s <=? blockof (d_pos s) then mpanic "out of disk blocks" else mret start.

(** Stores through a struct File *, which points into the image or into the
    array of entries. *)
Inductive floc := OnDisk (a : Z) | InEnts (a : Z).
Definition on_file (l : floc) (f : mem → Z → mem) : M fmt unit :=
  mmod (λ s, match l with
             | OnDisk a => dw_map (f (d_map s) a) s
             | InEnts a => dw_ents (f (d_ents s) a) (d_n s) s
             end).
Definition file_st32 (l : floc) (off v : Z) : M fmt unit := on_file l (λ m a, wr32 m (a + off) v).
Definition disk_st32 (a v : Z) : M fmt unit := mmod (λ s, dw_map (wr32 (d_map s) a v) s).

Definition finishfile (f : floc) (start len : Z) : M fmt unit :=
  file_st32 f 128 len;;
  let len := roundup_u len BLKSIZE in
  let nb := len / BLKSIZE in
  mfor (seqZ 0 (Z.min nb NDIRECT)) (λ i, file_st32 f (136 + 4 * i) (start + i));;
  mwhen (NDIRECT <=? nb)
    (ind ← alloc BLKSIZE;
     file_st32 f 176 (blockof ind);;
     mfor (seqZ NDIRECT (nb - NDIRECT)) (λ i, disk_st32 (ind + 4 * (i - NDIRECT)) (start + i))).

Definition diradd (type : Z) (name : list Z) : M fmt floc :=
  n ← mgets d_n;
  mmod (λ s, dw_ents (d_ents s) (n + 1) s);;
  if MAX_DIR_ENTS <? n + 1 then mpanic "too many directory entries" else
  let out := InEnts (256 * n) in
  on_file out (λ m a, poke m a (name ++ [0]));;
  file_st32 out 132 type;;
  mret out.

(** The root directory is the only one: d->f is &super->s_root. *)
Definition s_root_pos : Z := 4104.
Definition finishdir : M fmt unit :=
  n ← mgets d_n;
  let size := n * 256 in
  start ← alloc size;
  mmod (λ s, dw_map (λ x, if (start <=? x) && (x <? start + size) then rd8 (d_ents s) (x - start) else d_map s x) s);;
  finishfile (OnDisk s_root_pos) (blockof start) (u32 (roundup_s size BLKSIZE)).

Definition finishdisk : M fmt unit :=
  s ← mget;
  mfor (seqZ 0 (blockof (d_pos s))) (λ i,
    mmod (λ s, dw_map (wr32 (d_map s) (8192 + 4 * (i / 32))
      (Z.land (rd32 (d_map s) (8192 + 4 * (i / 32))) (u32 (Z.lnot (Z.shiftl 1 (i mod 32)))))) s)).

(** strrchr(name, '/') + 1, or name *)
Fixpoint basename (last name : list Z) : list Z :=
  match name with
  | [] => last
  | c :: name => basename (if c =? zc "/" then name else last) name
  end.

Section host.
Context (open : list Z → option hostfile) (read_some : Z → Z) (disk_ok : list Z → bool)
  (strtol : list Z → Z * list Z) (malloc : mem).

(** [n] bytes of the file to [out]; [data] is what is left of it. *)
Fixpoint readn (fuel : nat) (data : list Z) (out n : Z) : M fmt unit :=
  if n <=? 0 then mret tt else
  match fuel with
  | O => mundef
  | S fuel =>
      let m := Z.min (read_some n) (Z.of_nat (length data)) in
      if m <? 0 then mpanic "read: %s"
      else if m =? 0 then mpanic "read: Unexpected EOF"
      else mmod (λ s, dw_map (poke (d_map s) out (take (Z.to_nat m) data)) s);;
           readn fuel (drop (Z.to_nat m) data) (out + m) (n - m)
  end.

Definition opendisk (name : list Z) (nblocks : Z) : M fmt unit :=
  if negb (disk_ok name) then mpanic "open %s: %s" else
  mput (mkFmt (λ _, 0) 0 nblocks malloc 0);;
  alloc BLKSIZE;;
  super ← alloc BLKSIZE;
  disk_st32 super FS_MAGIC;;
  disk_st32 (super + 4) nblocks;;
  disk_st32 (super + 8 + 132) FTYPE_DIR;;
  mmod (λ s, dw_map (poke (d_map s) (super + 8) (zs "/" ++ [0])) s);;
  let nbitblocks := (nblocks + BLKBITSIZE - 1) / BLKBITSIZE in
  bitmap ← alloc (nbitblocks * BLKSIZE);
  mmod (λ s, dw_map (mem_set (d_map s) bitmap 255 (nbitblocks * BLKSIZE)) s).

Definition writefile (name : list Z) : M fmt unit :=
  match open name with
  | None => mpanic "open %s: %s"
  | Some f =>
      match h_size f with
      | None => mpanic "stat %s: %s"
      | Some size =>
          if negb (h_reg f) then mpanic "%s is not a regular file"
          else if MAXFILESIZE <=? size then mpanic "%s too large"
          else
            e ← diradd FTYPE_REG (basename name name);
            start ← alloc size;
            readn (Z.to_nat size) (h_bytes f) start size;;
            finishfile e (blockof start) size
      end
  end.

(** usage prints the line and exits. *)
Definition usage : M fmt unit := mpanic "Usage: fsformat fs.img NBLOCKS files...".

(** startdir: the entries are those of malloc, none of them used (opendisk
    has set them). *)
Definition main (argv : list (list Z)) : M fmt unit :=
  match argv with
  | _ :: img :: num :: files =>
      let '(nblocks, rest) := strtol num in
      let nblocks := u32 nblocks in
      if negb (length rest =? 0)%nat || bool_decide (rest = num) || (nblocks <? 2) || (1024 <? nblocks) then usage else
      opendisk img nblocks;;
      mfor files writefile;;
      finishdir;;
      finishdisk
  | _ => usage
  end.
End host.

(* ------------------------------------------------------------------ *)
(** ** Writing bytes and words *)

Lemma rd8_poke l : ∀ m a x, rd8 (poke m a l) x =
  if (a <=? x) && (x <? a + Z.of_nat (length l)) then u8 (default 0 (l !! Z.to_nat (x - a))) else rd8 m x.
Proof.
  induction l as [|c l IH]; intros m a x; cbn [poke length].
  - destruct (Z.leb_spec a x), (Z.ltb_spec x (a + Z.of_nat 0)); try done. lia.
  - rewrite IH, rd8_wr8. destruct (Z.eqb_spec x a) as [->|Hne].
    + rewrite Z.sub_diag, (proj2 (Z.leb_gt (a + 1) a)), Z.leb_refl by lia.
      by rewrite (proj2 (Z.ltb_lt a (a + Z.of_nat (S (length l))))) by lia.
    + destruct (Z.leb_spec (a + 1) x), (Z.leb_spec a x); try lia; [|done]. cbn [andb].
      destruct (Z.ltb_spec x (a + 1 + Z.of_nat (length l))), (Z.ltb_spec x (a + Z.of_nat (S (length l)))); try lia.
      replace (Z.to_nat (x - a)) with (S (Z.to_nat (x - (a + 1)))) by lia. done.
Qed.

Lemma rd8_poke_out m a l x : x < a ∨ a + Z.of_nat (length l) ≤ x → rd8 (poke m a l) x = rd8 m x.
Proof.
  intros H. rewrite rd8_poke. destruct (Z.leb_spec a x), (Z.ltb_spec x (a + Z.of_nat (length l))); done || lia.
Qed.

Lemma rd8_poke_in m a l i c : l !! i = Some c → rd8 (poke m a l) (a + Z.of_nat i) = u8 c.
Proof.
  intros H. pose proof (lookup_lt_Some _ _ _ H). rewrite rd8_poke, (proj2 (Z.leb_le _ _)), (proj2 (Z.ltb_lt _ _)) by lia.
  cbn [andb]. replace (Z.to_nat (a + Z.of_nat i - a)) with i by lia. by rewrite H.
Qed.

Lemma poke_app l1 : ∀ m a l2, poke m a (l1 ++ l2) = poke (poke m a l1) (a + Z.of_nat (length l1)) l2.
Proof.
  induction l1 as [|c l1 IH]; intros m a l2; cbn [app poke length]; [by rewrite Z.add_0_r|].
  rewrite IH. f_equal. lia.
Qed.

Lemma cstr_poke l : ∀ m a, Forall (λ c, 0 < c < 256) l → cstr (poke m a (l ++ [0])) a l.
Proof.
  induction l as [|c l IH]; intros m a H; cbn [app poke cstr].
  - by rewrite rd8_wr8, Z.eqb_refl.
  - apply Forall_cons in H as [Hc H]. split_and!; [|lia|by apply IH].
    rewrite rd8_poke_out by lia. rewrite rd8_wr8, Z.eqb_refl. apply u8_small. lia.
Qed.

(** Words one after the other. *)
Fixpoint pokew (m : mem) (a : Z) (l : list Z) : mem :=
  match l with [] => m | v :: l => pokew (wr32 m a v) (a + 4) l end.

Lemma rd8_pokew_out l : ∀ m a x, x < a ∨ a + 4 * Z.of_nat (length l) ≤ x → rd8 (pokew m a l) x = rd8 m x.
Proof.
  induction l as [|v l IH]; intros m a x Hx; cbn [pokew length] in *; [done|].
  rewrite IH by lia. apply rd8_wr32_ne. lia.
Qed.

Lemma rd32_pokew l : ∀ m a i v, l !! i = Some v → rd32 (pokew m a l) (a + 4 * Z.of_nat i) = u32 v.
Proof.
  induction l as [|w l IH]; intros m a i v H; [done|]. cbn [pokew]. destruct i as [|i]; cbn in H.
  - injection H as <-. rewrite Z.mul_0_r, Z.add_0_r.
    rewrite (rd32_same (wr32 m a w)) by (intros x Hx; apply rd8_pokew_out; lia). apply rd32_wr32_eq.
  - replace (a + 4 * Z.of_nat (S i)) with (a + 4 + 4 * Z.of_nat i) by lia. by apply IH.
Qed.

(* ------------------------------------------------------------------ *)
(** ** Blocks of the image *)

(** The blocks that hold [n] bytes. *)
Definition nblk (n : Z) : Z := (n + 4095) / 4096.

Lemma nblk_bounds n : 0 ≤ n → 0 ≤ nblk n ∧ n ≤ 4096 * nblk n < n + 4096.
Proof.
  intros Hn. unfold nblk. pose proof (Z.div_mod (n + 4095) 4096). pose proof (Z.mod_pos_bound (n + 4095) 4096).
  pose proof (Z.div_pos (n + 4095) 4096). lia.
Qed.

Lemma roundup_blocks n : 0 ≤ n ≤ 4294963200 → roundup_u n 4096 = u32 (4096 * nblk n).
Proof.
  intros Hn. unfold roundup_u. destruct (Z.eq_dec n 0) as [->|Hne]; [done|]. rewrite (u32_small (n - 1)) by lia. f_equal.
  pose proof (nblk_bounds n). pose proof (Z.div_mod (n - 1) 4096). pose proof (Z.mod_pos_bound (n - 1) 4096). lia.
Qed.

Lemma blockof_blocks b : 0 ≤ b < 4294967296 → blockof (4096 * b) = b.
Proof. intros Hb. unfold blockof. rewrite Z.mul_comm, Z.div_mul by lia. by apply u32_small. Qed.

Lemma alloc_run s b bytes : d_pos s = 4096 * b → 0 ≤ b → 0 ≤ bytes ≤ 268435456 → b + nblk bytes < d_nblocks s ≤ 1024 →
  alloc bytes s = Ok (4096 * b) (dw_pos (4096 * (b + nblk bytes)) s).
Proof.
  intros Hp Hb Hn Hs. pose proof (nblk_bounds bytes). unfold alloc. rewrite bind_gets, bind_mod, bind_get, Hp.
  rewrite roundup_blocks, u32_small by lia. rewrite <- Z.mul_add_distr_l. cbn [dw_pos d_nblocks d_pos].
  rewrite blockof_blocks by lia. by rewrite (proj2 (Z.leb_gt _ _)) by lia.
Qed.

(** A loop of changes to the state is one. *)
Lemma mfor_mod {S A} (g : A → S → S) (l : list A) : ∀ s, mfor l (λ i, mmod (g i)) s = Ok tt (foldl (λ s i, g i s) s l).
Proof. induction l as [|x l IH]; intros s; [done|]. cbn. apply IH. Qed.

Definition fset (l : floc) (f : mem → Z → mem) (s : fmt) : fmt :=
  match l with OnDisk a => dw_map (f (d_map s) a) s | InEnts a => dw_ents (f (d_ents s) a) (d_n s) s end.

Lemma dw_map_map m m' s : dw_map m (dw_map m' s) = dw_map m s.
Proof. done. Qed.
Lemma fset_id l s : fset l (λ m _, m) s = s.
Proof. by destruct l, s. Qed.

Lemma file_words f start n : ∀ k s, 0 ≤ n →
  foldl (λ s i, fset f (λ m a, wr32 m (a + (136 + 4 * i)) (start + i)) s) s (seqZ k n) =
  fset f (λ m a, pokew m (a + 136 + 4 * k) (map (λ i, start + i) (seqZ k n))) s.
Proof.
  intros k s Hn. revert k s. pattern n. apply natlike_ind; [| |done]; clear n Hn.
  - intros k s. cbn. by rewrite fset_id.
  - intros n Hn IH k s. rewrite seqZ_cons by lia. replace (Z.pred (Z.succ n)) with n by lia. cbn [foldl map pokew].
    rewrite IH. destruct f as [b|b]; cbn [fset dw_map dw_ents d_map d_ents d_n]; rewrite ?dw_map_map;
      replace (b + 136 + 4 * Z.succ k) with (b + 136 + 4 * k + 4) by lia;
      replace (b + (136 + 4 * k)) with (b + 136 + 4 * k) by lia; done.
Qed.

Lemma disk_words ind start n : ∀ k s, 0 ≤ n →
  foldl (λ s i, dw_map (wr32 (d_map s) (ind + 4 * (i - NDIRECT)) (start + i)) s) s (seqZ k n) =
  dw_map (pokew (d_map s) (ind + 4 * (k - NDIRECT)) (map (λ i, start + i) (seqZ k n))) s.
Proof.
  intros k s Hn. revert k s. pattern n. apply natlike_ind; [| |done]; clear n Hn.
  - intros k s. by destruct s.
  - intros n Hn IH k s. rewrite seqZ_cons by lia. replace (Z.pred (Z.succ n)) with n by lia. cbn [foldl map pokew].
    rewrite IH, dw_map_map. cbn [dw_map d_map].
    by replace (ind + 4 * (Z.succ k - NDIRECT)) with (ind + 4 * (k - NDIRECT) + 4) by lia.
Qed.

(** The fields that finishfile sets; [b] is the indirect block, if any. *)
Definition fields (m : mem) (a start len b : Z) : mem :=
  let m := pokew (wr32 m (a + 128) len) (a + 136) (map (λ i, start + i) (seqZ 0 (Z.min (nblk len) NDIRECT))) in
  if NDIRECT <=? nblk len then wr32 m (a + 176) b else m.
(** The indirect block it writes. *)
Definition indirect (m : mem) (start len b : Z) : mem :=
  if NDIRECT <=? nblk len then pokew m (4096 * b) (map (λ i, start + i) (seqZ NDIRECT (nblk len - NDIRECT))) else m.
Definition extra (len : Z) : Z := if NDIRECT <=? nblk len then 1 else 0.

Lemma finishfile_run s f start len b : d_pos s = 4096 * b → 0 ≤ b → 0 ≤ len ≤ 268435456 →
  b + extra len < d_nblocks s ≤ 1024 → (∃ a, f = InEnts a) ∨ extra len = 0 →
  finishfile f start len s =
    Ok tt (dw_map (indirect (d_map (fset f (λ m a, fields m a start len b) s)) start len b)
      (dw_pos (4096 * (b + extra len)) (fset f (λ m a, fields m a start len b) s))).
Proof.
  intros Hp Hb Hlen Hn Hf. pose proof (nblk_bounds len) as Hnb. unfold finishfile.
  rewrite roundup_blocks, u32_small by lia. replace (4096 * nblk len / 4096) with (nblk len) by (rewrite Z.mul_comm, Z.div_mul; lia).
  change (file_st32 f 128 len) with (mmod (fset f (λ m a, wr32 m (a + 128) len))). rewrite bind_mod.
  change (λ i, file_st32 f (136 + 4 * i) (start + i)) with
    (λ i, mmod (fset f (λ m a, wr32 m (a + (136 + 4 * i)) (start + i)))).
  rewrite (bind_Ok _ _ _ _ _ (mfor_mod _ _ _)), file_words by lia.
  unfold fields, indirect, extra in *. destruct (Z.leb_spec NDIRECT (nblk len)) as [Hge|Hlt]; cbn [mwhen].
  - destruct Hf as [[a ->]|]; [|lia]. cbn [fset].
    match goal with |- (alloc 4096 ≫= _) ?s' = _ =>
      rewrite (bind_Ok _ _ _ _ _ (alloc_run s' b 4096 Hp Hb ltac:(lia) ltac:(cbn; change (nblk 4096) with 1; lia))) end.
    change (nblk 4096) with 1. unfold file_st32, on_file. rewrite bind_mod, blockof_blocks by lia.
    unfold disk_st32. rewrite mfor_mod, disk_words by lia. rewrite Z.sub_diag, Z.mul_0_r, !Z.add_0_r. done.
  - rewrite Z.add_0_r, <- Hp. destruct f as [a|a]; unfold fset; rewrite Z.mul_0_r, Z.add_0_r; by destruct s.
Qed.

(** ** Files in the image *)

(** The entry at [a] is that of the file [name], whose data are at block
    [start], its indirect block after them. *)
Record entry (m : mem) (a : Z) (name data : list Z) (start : Z) : Prop := {
  en_name : cstr m a name;
  en_size : rd32 m (a + 128) = Z.of_nat (length data);
  en_type : rd32 m (a + 132) = FTYPE_REG;
  en_direct : ∀ i, 0 ≤ i < NDIRECT →
    rd32 m (a + 136 + 4 * i) = if i <? nblk (Z.of_nat (length data)) then start + i else 0;
  en_ind : rd32 m (a + 176) =
    if NDIRECT <=? nblk (Z.of_nat (length data)) then start + nblk (Z.of_nat (length data)) else 0 }.

Record filedata (m : mem) (data : list Z) (start : Z) : Prop := {
  fd_bytes : ∀ j c, data !! j = Some c → rd8 m (4096 * start + Z.of_nat j) = c;
  fd_ind : NDIRECT ≤ nblk (Z.of_nat (length data)) → ∀ i, NDIRECT ≤ i < NDIRECT + NINDIRECT →
    rd32 m (4096 * (start + nblk (Z.of_nat (length data))) + 4 * (i - NDIRECT)) =
    if i <? nblk (Z.of_nat (length data)) then start + i else 0 }.

(** The blocks of a file. *)
Definition fblocks (data : list Z) : Z := nblk (Z.of_nat (length data)) + extra (Z.of_nat (length data)).

Lemma entry_same m m' a name data start : (length name < 128)%nat →
  (∀ x, a ≤ x < a + 256 → rd8 m' x = rd8 m x) → entry m a name data start → entry m' a name data start.
Proof.
  intros Hl H [E1 E2 E3 E4 E5]. constructor.
  - apply (cstr_ext m); [|done]. intros x Hx. apply H. lia.
  - rewrite <- E2. apply rd32_same. intros x Hx. apply H. lia.
  - rewrite <- E3. apply rd32_same. intros x Hx. apply H. lia.
  - intros i Hi. rewrite <- E4 by done. apply rd32_same. intros x Hx. apply H. lia.
  - rewrite <- E5. apply rd32_same. intros x Hx. apply H. lia.
Qed.

Lemma filedata_same m m' data start : nblk (Z.of_nat (length data)) ≤ NDIRECT + NINDIRECT →
  (∀ x, 4096 * start ≤ x < 4096 * (start + fblocks data) → rd8 m' x = rd8 m x) →
  filedata m data start → filedata m' data start.
Proof.
  intros Hm H [F1 F2]. unfold fblocks, extra in H. pose proof (nblk_bounds (Z.of_nat (length data))). constructor.
  - intros j c Hj. rewrite <- (F1 j c) by done. apply H. pose proof (lookup_lt_Some _ _ _ Hj).
    destruct (NDIRECT <=? nblk (Z.of_nat (length data))); lia.
  - intros Hge i Hi. rewrite <- F2 by done. apply rd32_same. intros x Hx. apply H.
    rewrite (proj2 (Z.leb_le _ _)) by done. lia.
Qed.

Lemma seqZ_map_lookup start k n i : 0 ≤ i < n → map (λ i, start + i) (seqZ k n) !! Z.to_nat i = Some (start + (k + i)).
Proof.
  intros Hi. rewrite list_lookup_fmap. rewrite (lookup_seqZ_lt k n (Z.to_nat i)) by lia. cbn. do 2 f_equal. lia.
Qed.

Lemma rd32_pokew_range m a start k n i : 0 ≤ i < n → 0 ≤ start + (k + i) < 4294967296 →
  rd32 (pokew m a (map (λ i, start + i) (seqZ k n))) (a + 4 * i) = start + (k + i).
Proof.
  intros Hi Hs. rewrite <- (u32_small (start + (k + i))) at 1 by lia. rewrite <- (Z2Nat.id i) at 1 by lia.
  apply rd32_pokew. by apply seqZ_map_lookup.
Qed.
Lemma length_words start k n : 0 ≤ n → Z.of_nat (length (map (λ i : Z, start + i) (seqZ k n))) = n.
Proof. intros Hn. rewrite length_map, length_seqZ. lia. Qed.

(** finishfile and diradd make the entry, on memory that was zero. *)
Lemma fields_entry m a name data start b : (length name < 128)%nat → Forall (λ c, 0 < c < 256) name →
  (∀ x, a ≤ x < a + 256 → rd8 m x = 0) → 0 ≤ start → start + nblk (Z.of_nat (length data)) < 4294967296 →
  Z.of_nat (length data) < 4294967296 →
  b = start + nblk (Z.of_nat (length data)) →
  entry (fields (wr32 (poke m a (name ++ [0])) (a + 132) FTYPE_REG) a start (Z.of_nat (length data)) b) a name data start.
Proof.
  intros Hl Hc Hz Hs Hs2 Hlen Hb. remember (Z.of_nat (length data)) as len eqn:Elen.
  assert (Hlen0 : 0 ≤ len) by lia. pose proof (nblk_bounds len Hlen0) as Hnb.
  set (m0 := wr32 (poke m a (name ++ [0])) (a + 132) FTYPE_REG).
  set (m1 := pokew (wr32 m0 (a + 128) len) (a + 136) (map (λ i, start + i) (seqZ 0 (Z.min (nblk len) NDIRECT)))).
  assert (L : length (name ++ [0]) = S (length name)) by (rewrite length_app; cbn; lia).
  assert (F : ∀ x, x < a + 176 ∨ a + 180 ≤ x → rd8 (fields m0 a start len b) x = rd8 m1 x).
  { intros x Hx. unfold fields. fold m1. destruct (_ <=? _); [apply rd8_wr32_ne; lia|done]. }
  assert (W : ∀ x, x < a + 136 ∨ a + 136 + 4 * Z.min (nblk len) NDIRECT ≤ x → rd8 m1 x = rd8 (wr32 m0 (a + 128) len) x).
  { intros x Hx. apply rd8_pokew_out. rewrite length_words by lia. lia. }
  assert (Z0 : ∀ x, a + 136 + 4 * Z.min (nblk len) NDIRECT ≤ x < a + 180 → rd8 m1 x = 0).
  { intros x Hx. rewrite W by lia. unfold m0. rewrite !rd8_wr32_ne by lia. rewrite rd8_poke_out by lia. apply Hz. lia. }
  constructor; rewrite <- ?Elen.
  - apply (cstr_ext (poke m a (name ++ [0]))); [|by apply cstr_poke]. intros x Hx. rewrite F, W by lia.
    unfold m0. by rewrite !rd8_wr32_ne by lia.
  - rewrite (rd32_same (wr32 m0 (a + 128) len)) by (intros x Hx; rewrite F, W by lia; done).
    rewrite rd32_wr32_eq. apply u32_small. lia.
  - rewrite (rd32_same (wr32 m0 (a + 128) len)) by (intros x Hx; rewrite F, W by lia; done).
    rewrite rd32_wr32_ne by lia. unfold m0. by rewrite rd32_wr32_eq.
  - intros i Hi. rewrite (rd32_same m1) by (intros x Hx; apply F; lia). destruct (Z.ltb_spec i (nblk len)).
    + unfold m1. rewrite rd32_pokew_range by lia. lia.
    + unfold rd32. rewrite !Z0 by lia. done.
  - unfold fields. fold m1. destruct (Z.leb_spec NDIRECT (nblk len)).
    + rewrite rd32_wr32_eq, Hb. apply u32_small. lia.
    + unfold rd32. rewrite !Z0 by lia. done.
Qed.

(** What opendisk leaves in the superblock and in the bitmap. *)
Record opened (m : mem) (n : Z) : Prop := {
  op_magic : rd32 m 4096 = FS_MAGIC;
  op_nblocks : rd32 m 4100 = n;
  op_type : rd32 m (s_root_pos + 132) = FTYPE_DIR;
  op_name : cstr m s_root_pos (zs "/");
  op_rest : ∀ x, s_root_pos + 136 ≤ x < 8192 → rd8 m x = 0;
  op_bitmap : ∀ x, 8192 ≤ x < 12288 → rd8 m x = 255 }.

Lemma opened_same m m' n : (∀ x, 4096 ≤ x < 12288 → rd8 m' x = rd8 m x) → opened m n → opened m' n.
Proof.
  intros H [O1 O2 O3 O4 O5 O6]. unfold s_root_pos in *. constructor; unfold s_root_pos.
  - rewrite <- O1. apply rd32_same. intros x Hx. apply H. lia.
  - rewrite <- O2. apply rd32_same. intros x Hx. apply H. lia.
  - rewrite <- O3. apply rd32_same. intros x Hx. apply H. lia.
  - apply (cstr_ext m); [|done]. intros x Hx. cbn in Hx. apply H. lia.
  - intros x Hx. rewrite H by lia. by apply O5.
  - intros x Hx. rewrite H by lia. by apply O6.
Qed.

(** The image under construction: the files [P] (name, data, first block)
    are in it, up to block [b]. *)
Record built (n b : Z) (P : list (list Z * list Z * Z)) (s : fmt) : Prop := {
  bu_n : d_nblocks s = n;
  bu_pos : d_pos s = 4096 * b;
  bu_cnt : d_n s = Z.of_nat (length P);
  bu_opened : opened (d_map s) n;
  bu_high : ∀ x, 4096 * b ≤ x → rd8 (d_map s) x = 0;
  bu_ents : ∀ x, 256 * Z.of_nat (length P) ≤ x → rd8 (d_ents s) x = 0;
  bu_file : ∀ i name data start, P !! i = Some (name, data, start) →
    entry (d_ents s) (256 * Z.of_nat i) name data start ∧ filedata (d_map s) data start ∧
    (length name < 128)%nat ∧ Z.of_nat (length data) < MAXFILESIZE ∧ 3 ≤ start ∧ start + fblocks data ≤ b }.

Lemma fblocks_bounds data : Z.of_nat (length data) < MAXFILESIZE →
  0 ≤ nblk (Z.of_nat (length data)) ≤ 1034 ∧ nblk (Z.of_nat (length data)) ≤ fblocks data ≤ nblk (Z.of_nat (length data)) + 1.
Proof.
  intros H. pose proof (nblk_bounds (Z.of_nat (length data)) ltac:(lia)). unfold fblocks, extra. destruct (_ <=? _); lia.
Qed.

Section host_proofs.
Context (open : list Z → option hostfile) (read_some : Z → Z) (disk_ok : list Z → bool)
  (strtol : list Z → Z * list Z) (malloc : mem).
(** read(2) returns at least one and at most the bytes asked for, while there
    are any. *)
Hypothesis read_spec : ∀ n, 0 < n → 1 ≤ read_some n ≤ n.

Lemma readn_run fuel : ∀ data out n s, Z.of_nat (length data) = n → n ≤ Z.of_nat fuel →
  readn read_some fuel data out n s = Ok tt (dw_map (poke (d_map s) out data) s).
Proof.
  induction fuel as [|fuel IH]; intros data out n s Hl Hf.
  - destruct data; [|cbn in Hl; lia]. cbn in Hl. subst n. by destruct s.
  - cbn [readn]. destruct (Z.leb_spec n 0).
    + destruct data; [|cbn in Hl; lia]. by destruct s.
    + pose proof (read_spec n). rewrite Hl, Z.min_l by lia.
      rewrite (proj2 (Z.ltb_ge _ _)), (proj2 (Z.eqb_neq _ _)) by lia. rewrite bind_mod.
      rewrite IH by (rewrite ?length_drop; lia). rewrite dw_map_map. cbn [dw_map d_map]. do 2 f_equal.
      rewrite <- (take_drop (Z.to_nat (read_some n)) data) at 3. rewrite poke_app, length_take. do 2 f_equal. lia.
Qed.
(** The data and the indirect block of a file, on memory that was zero. *)
Lemma file_placed m data b :
  0 ≤ b → Forall (λ c, 0 ≤ c < 256) data → Z.of_nat (length data) < MAXFILESIZE → b + fblocks data ≤ 1024 →
  (∀ x, 4096 * b ≤ x → rd8 m x = 0) →
  let len := Z.of_nat (length data) in
  let m' := indirect (poke m (4096 * b) data) b len (b + nblk len) in
  filedata m' data b ∧ (∀ x, x < 4096 * b → rd8 m' x = rd8 m x) ∧ (∀ x, 4096 * (b + fblocks data) ≤ x → rd8 m' x = 0).
Proof.
  intros Hb Hd Hmax Hn Hz. cbv zeta. pose proof (fblocks_bounds data Hmax) as Hfb.
  pose proof (nblk_bounds (Z.of_nat (length data)) ltac:(lia)) as Hnb. unfold fblocks, extra in *.
  remember (Z.of_nat (length data)) as len eqn:Elen. set (nb := nblk len) in *. set (m1 := poke m (4096 * b) data).
  set (m' := indirect m1 b len (b + nb)).
  assert (Low : ∀ x, x < 4096 * (b + nb) → rd8 m' x = rd8 m1 x).
  { intros x Hx. unfold m', indirect. fold nb. destruct (Z.leb_spec NDIRECT nb); [|done].
    apply rd8_pokew_out. lia. }
  assert (High : ∀ x, 4096 * (b + nb) ≤ x → rd8 m1 x = 0) by (intros x Hx; unfold m1; rewrite rd8_poke_out by lia; apply Hz; lia).
  split; [constructor; rewrite <- ?Elen; fold nb|split].
  - intros j c Hj. pose proof (lookup_lt_Some _ _ _ Hj). rewrite Low by lia. unfold m1. rewrite (rd8_poke_in _ _ _ _ _ Hj).
    apply u8_small. by apply (proj1 (Forall_lookup _ _) Hd) in Hj.
  - intros Hge i Hi. unfold m', indirect. fold nb. rewrite (proj2 (Z.leb_le _ _)) by done.
    destruct (Z.ltb_spec i nb).
    + rewrite rd32_pokew_range by lia. lia.
    + rewrite (rd32_same m1) by (intros x Hx; apply rd8_pokew_out; rewrite length_words by lia; lia).
      unfold rd32. by rewrite !High by lia.
  - intros x Hx. rewrite Low by lia. unfold m1. apply rd8_poke_out. lia.
  - intros x Hx. unfold m', indirect. fold nb. destruct (Z.leb_spec NDIRECT nb); [|apply High; lia].
    rewrite rd8_pokew_out; [apply High; lia|]. rewrite length_words by lia. lia.
Qed.

Lemma fields_out m a start len b x : 0 ≤ len → x < a ∨ a + 256 ≤ x → rd8 (fields m a start len b) x = rd8 m x.
Proof.
  intros Hl Hx. pose proof (nblk_bounds len Hl). unfold fields.
  assert (E : ∀ m', rd8 (pokew (wr32 m' (a + 128) len) (a + 136) (map (λ i : Z, start + i) (seqZ 0 (nblk len `min` NDIRECT)))) x = rd8 m' x).
  { intros m'. rewrite rd8_pokew_out by (rewrite length_words by lia; lia). apply rd8_wr32_ne. lia. }
  destruct (_ <=? _); [rewrite rd8_wr32_ne by lia|]; apply E.
Qed.

(** A file of the host as writefile takes it. *)
Definition regular (path name data : list Z) : Prop :=
  open path = Some (mkHost (Some (Z.of_nat (length data))) true data) ∧ basename path path = name ∧
  (length name < 128)%nat ∧ Forall (λ c, 0 < c < 256) name ∧
  Forall (λ c, 0 ≤ c < 256) data ∧ Z.of_nat (length data) < MAXFILESIZE.

Lemma diradd_run type name s : d_n s < MAX_DIR_ENTS →
  diradd type name s = Ok (InEnts (256 * d_n s))
    (dw_ents (wr32 (poke (d_ents s) (256 * d_n s) (name ++ [0])) (256 * d_n s + 132) type) (d_n s + 1) s).
Proof. intros H. unfold diradd. rewrite bind_gets, bind_mod, (proj2 (Z.ltb_ge _ _)) by lia. done. Qed.

Lemma writefile_run n b P s path name data : n ≤ 1024 → built n b P s → 3 ≤ b → regular path name data →
  (length P < 128)%nat → b + fblocks data < n →
  ∃ s', writefile open read_some path s = Ok tt s' ∧ built n (b + fblocks data) (P ++ [(name, data, b)]) s'.
Proof.
  intros Hn B Hb3 (Hopen & Hname & Hnl & Hnc & Hdc & Hmax) HP Hfit.
  pose proof (fblocks_bounds data Hmax) as Hfb. pose proof (nblk_bounds (Z.of_nat (length data)) ltac:(lia)) as Hnb.
  pose proof B as [B1 B2 B3 B4 B5 B6 B7]. unfold writefile. rewrite Hopen, Hname. cbn [h_size h_reg h_bytes negb].
  rewrite (proj2 (Z.leb_gt _ _)) by lia. rewrite (bind_Ok _ _ _ _ _ (diradd_run FTYPE_REG name s ltac:(lia))), B3.
  set (k := Z.of_nat (length P)) in *.
  set (s1 := dw_ents _ _ s). rewrite (bind_Ok _ _ _ _ _ (alloc_run s1 b (Z.of_nat (length data)) B2 ltac:(lia) ltac:(lia) ltac:(cbn; lia))).
  set (s2 := dw_pos _ s1). rewrite (bind_Ok _ _ _ _ _ (readn_run (Z.to_nat (Z.of_nat (length data))) data (4096 * b) _ s2 eq_refl ltac:(lia))).
  rewrite blockof_blocks by lia. set (s3 := dw_map _ s2).
  rewrite (finishfile_run s3 _ b (Z.of_nat (length data)) (b + nblk (Z.of_nat (length data))));
    [|done|lia|lia|cbn; unfold fblocks in *; lia|left; by eexists].
  eexists. split; [done|].
  destruct (file_placed (d_map s) data b ltac:(lia) Hdc Hmax ltac:(lia) B5) as (F1 & F2 & F3).
  constructor; cbn [fset dw_map dw_pos dw_ents d_nblocks d_pos d_n d_map d_ents s1 s2 s3].
  - done.
  - unfold fblocks. lia.
  - rewrite length_app. cbn. lia.
  - apply (opened_same (d_map s)); [|done]. intros x Hx. apply F2. lia.
  - exact F3.
  - rewrite length_app. cbn [length]. intros x Hx. rewrite fields_out by lia. rewrite rd8_wr32_ne by lia.
    rewrite rd8_poke_out; [apply B6; lia|]. rewrite length_app. cbn. lia.
  - intros i nm d st Hi. apply lookup_app_Some in Hi as [Hi|[Hi1 Hi2]].
    + destruct (B7 _ _ _ _ Hi) as (E1 & E2 & E3 & E4 & E5 & E6). pose proof (lookup_lt_Some _ _ _ Hi).
      split_and!; try done; [| |lia].
      * apply (entry_same (d_ents s)); [done| |done]. intros x Hx. rewrite fields_out by lia.
        rewrite rd8_wr32_ne by lia. apply rd8_poke_out. lia.
      * apply (filedata_same (d_map s)); [pose proof (fblocks_bounds d E4); lia| |done]. intros x Hx. apply F2. lia.
    + apply list_lookup_singleton_Some in Hi2 as [Hi2 E]. injection E as -> -> ->.
      replace (256 * Z.of_nat i) with (256 * k) by (unfold k; f_equal; lia). split_and!; try done; try lia.
      apply fields_entry; try done; try lia. intros x Hx. apply B6. lia.
Qed.
Lemma writefiles_run n P s paths fs : n ≤ 1024 → Forall2 (λ path f, regular path (fst f) (snd f)) paths fs → ∀ b,
  built n b P s → 3 ≤ b → (length P + length fs ≤ 128)%nat → b + foldr (λ f acc, fblocks (snd f) + acc) 0 fs < n →
  ∃ s' Q, mfor paths (writefile open read_some) s = Ok tt s' ∧
    built n (b + foldr (λ f acc, fblocks (snd f) + acc) 0 fs) (P ++ Q) s' ∧ fst <$> Q = fs.
Proof.
  intros Hn F. revert P s. induction F as [|path [name data] paths fs Hr F IH]; intros P s b B Hb HP Hfit.
  - exists s, []. rewrite app_nil_r. cbn. by rewrite Z.add_0_r.
  - cbn [foldr fst snd length] in *. pose proof Hr as (_ & _ & _ & _ & _ & Hmax). pose proof (fblocks_bounds data Hmax).
    assert (0 ≤ foldr (λ f acc, fblocks (snd f) + acc) 0 fs).
    { clear -F. induction F as [|? [? ?] ? ? (_ & _ & _ & _ & _ & Hm) ? IH]; cbn [foldr snd]; [done|].
      pose proof (fblocks_bounds _ Hm). cbn [snd] in *. lia. }
    destruct (writefile_run n b P s path name data Hn B Hb Hr) as (s1 & E1 & B1); [lia|lia|].
    destruct (IH (P ++ [(name, data, b)]) s1 (b + fblocks data) B1) as (s2 & Q & E2 & B2 & HQ);
      [lia|rewrite length_app; cbn; lia|lia|].
    exists s2, ((name, data, b) :: Q). cbn [mfor]. rewrite (bind_Ok _ _ _ _ _ E1), Z.add_assoc, <- app_assoc in *.
    split_and!; [done|done|]. cbn. by rewrite HQ.
Qed.

Lemma opendisk_run name n s : disk_ok name = true → (∀ x, rd8 malloc x = 0) → 3 < n ≤ 1024 →
  ∃ s', opendisk disk_ok malloc name n s = Ok tt s' ∧ built n 3 [] s'.
Proof.
  intros Hd Hm Hn. unfold opendisk. rewrite Hd. cbn [negb]. rewrite bind_put.
  set (s0 := mkFmt _ _ _ _ _). change (nblk 4096) with 1 in *.
  assert (A0 : alloc 4096 s0 = Ok 0 (dw_pos 4096 s0)) by (apply (alloc_run s0 0 4096); cbn; change (nblk 4096) with 1; lia).
  rewrite (bind_Ok _ _ _ _ _ A0). set (s1 := dw_pos 4096 s0).
  assert (A1 : alloc 4096 s1 = Ok 4096 (dw_pos 8192 s1)) by (apply (alloc_run s1 1 4096); cbn; change (nblk 4096) with 1; lia).
  rewrite (bind_Ok _ _ _ _ _ A1). set (s2 := dw_pos 8192 s1). unfold disk_st32. rewrite !bind_mod.
  replace ((n + BLKBITSIZE - 1) / BLKBITSIZE) with 1 by (apply (Z.div_unique_pos _ _ _ (n - 1)); lia).
  match goal with |- ∃ s', (alloc _ ≫= _) ?st = _ ∧ _ => set (s3 := st) end.
  assert (A2 : alloc (1 * 4096) s3 = Ok 8192 (dw_pos 12288 s3)) by (apply (alloc_run s3 2 4096); cbn; change (nblk 4096) with 1; lia).
  rewrite (bind_Ok _ _ _ _ _ A2). eexists. split; [reflexivity|].
  set (m1 := wr32 (wr32 (wr32 (λ _, 0) 4096 FS_MAGIC) 4100 n) 4236 1).
  assert (Hmap : d_map s3 = poke m1 4104 (zs "/" ++ [0])) by done.
  assert (Hhi : ∀ x, x < 8192 → rd8 (mem_set (d_map s3) 8192 255 4096) x = rd8 (d_map s3) x).
  { intros x Hx. apply rd8_mem_set_out. lia. }
  assert (Hm1 : ∀ x, x < 4104 ∨ 4106 ≤ x → rd8 (d_map s3) x = rd8 m1 x).
  { intros x Hx. rewrite Hmap. apply rd8_poke_out. cbn. lia. }
  constructor; cbn [dw_map dw_pos d_nblocks d_pos d_n d_map d_ents length]; try done.
  - constructor; unfold s_root_pos.
    + rewrite (rd32_same m1) by (intros x Hx; rewrite Hhi, Hm1 by lia; done). unfold m1. by rewrite !rd32_wr32_ne, rd32_wr32_eq by lia.
    + rewrite (rd32_same m1) by (intros x Hx; rewrite Hhi, Hm1 by lia; done). unfold m1.
      rewrite rd32_wr32_ne, rd32_wr32_eq by lia. apply u32_small. lia.
    + rewrite (rd32_same m1) by (intros x Hx; rewrite Hhi, Hm1 by lia; done). unfold m1. by rewrite rd32_wr32_eq.
    + apply (cstr_ext (d_map s3)); [intros x Hx; cbn in Hx; apply Hhi; lia|]. rewrite Hmap. apply cstr_poke. repeat constructor.
    + intros x Hx. rewrite Hhi, Hm1 by lia. unfold m1. by rewrite !rd8_wr32_ne by lia.
    + intros x Hx. by rewrite rd8_mem_set_in by lia.
  - intros x Hx. rewrite rd8_mem_set_out, Hm1 by lia. unfold m1. by rewrite !rd8_wr32_ne by lia.
Qed.

(** ** The finished image *)

(** The root directory, of [nd] blocks from [b] on, with the entries of [P]. *)
Record rooted (m : mem) (b nd : Z) (P : list (list Z * list Z * Z)) : Prop := {
  ro_size : rd32 m (s_root_pos + 128) = 4096 * nd;
  ro_direct : ∀ i, 0 ≤ i < NDIRECT → rd32 m (s_root_pos + 136 + 4 * i) = if i <? nd then b + i else 0;
  ro_ind : rd32 m (s_root_pos + 176) = 0;
  ro_file : ∀ i name data start, P !! i = Some (name, data, start) →
    entry m (4096 * b + 256 * Z.of_nat i) name data start ∧ filedata m data start ∧
    (length name < 128)%nat ∧ Z.of_nat (length data) < MAXFILESIZE ∧ 3 ≤ start ∧ start + fblocks data ≤ b;
  ro_empty : ∀ i, Z.of_nat (length P) ≤ i < 16 * nd → rd8 m (4096 * b + 256 * i) = 0 }.

Lemma roundup_int n : 0 < n → roundup_s n 4096 = 4096 * nblk n.
Proof.
  intros Hn. unfold roundup_s. rewrite Z.rem_mod_nonneg by lia. pose proof (nblk_bounds n).
  pose proof (Z.div_mod (n - 1) 4096). pose proof (Z.mod_pos_bound (n - 1) 4096). lia.
Qed.

Lemma nblk_mul b : nblk (4096 * b) = b.
Proof. unfold nblk. symmetry. apply (Z.div_unique_pos _ _ _ 4095); lia. Qed.

(** Copies of entries are entries. *)
Lemma entry_moved m m' a a' name data start : (length name < 128)%nat →
  (∀ x, 0 ≤ x < 256 → rd8 m' (a' + x) = rd8 m (a + x)) → entry m a name data start → entry m' a' name data start.
Proof.
  intros Hl H E. set (m2 := λ x, m' (x - a + a')).
  assert (R : ∀ x, rd8 m2 x = rd8 m' (x - a + a')) by done.
  assert (E2 : entry m2 a name data start).
  { apply (entry_same m); [done| |done]. intros x Hx. rewrite R.
    replace (x - a + a') with (a' + (x - a)) by lia. rewrite H by lia. f_equal. lia. }
  assert (W : ∀ o, rd32 m' (a' + o) = rd32 m2 (a + o)).
  { intros o. unfold rd32. rewrite !R.
    assert (K : ∀ j, a + o + j - a + a' = a' + o + j) by lia. rewrite !K.
    replace (a + o - a + a') with (a' + o) by lia. done. }
  destruct E2 as [E1 E2 E3 E4 E5]. constructor; rewrite ?W; [|done|done| |done].
  - clear -E1 R. assert (C : ∀ l o, cstr m2 (a + o) l → cstr m' (a' + o) l).
    { induction l as [|c l IH]; intros o; cbn [cstr]; rewrite R; replace (a + o - a + a') with (a' + o) by lia; [done|].
      intros (? & ? & ?). split_and!; [done|done|]. rewrite <- Z.add_assoc in *. by apply IH. }
    specialize (C name 0). rewrite !Z.add_0_r in C. auto.
  - intros i Hi. rewrite <- Z.add_assoc, W, Z.add_assoc. by apply E4.
Qed.

Lemma finishdir_run n b P s : built n b P s → 3 ≤ b → n ≤ 1024 → (1 ≤ length P ≤ 128)%nat →
  let nd := nblk (256 * Z.of_nat (length P)) in b + nd < n →
  ∃ s', finishdir s = Ok tt s' ∧ d_pos s' = 4096 * (b + nd) ∧ rooted (d_map s') b nd P ∧
    ∀ x, x < 4232 ∨ 4236 ≤ x < 4240 ∨ 4284 ≤ x < 12288 → rd8 (d_map s') x = rd8 (d_map s) x.
Proof.
  intros B Hb Hn HP. cbv zeta. intros Hfit. pose proof B as [B1 B2 B3 B4 B5 B6 B7].
  pose proof (nblk_bounds (256 * Z.of_nat (length P)) ltac:(lia)) as Hnd. set (nd := nblk (256 * Z.of_nat (length P))) in *.
  unfold finishdir. rewrite bind_gets, B3. replace (Z.of_nat (length P) * 256) with (256 * Z.of_nat (length P)) by lia.
  rewrite (bind_Ok _ _ _ _ _ (alloc_run s b (256 * Z.of_nat (length P)) B2 ltac:(lia) ltac:(lia) ltac:(fold nd; lia))). fold nd. rewrite bind_mod.
  rewrite blockof_blocks, roundup_int by lia. fold nd. rewrite u32_small by lia.
  set (m1 := λ x, if (4096 * b <=? x) && (x <? 4096 * b + 256 * Z.of_nat (length P)) then _ else _).
  set (s1 := dw_pos _ s). set (s2 := dw_map _ s1).
  assert (X : extra (4096 * nd) = 0) by (unfold extra; rewrite nblk_mul; destruct (Z.leb_spec NDIRECT nd); [lia|done]).
  rewrite (finishfile_run s2 (OnDisk s_root_pos) b (4096 * nd) (b + nd)); [|done|lia|lia|rewrite X; cbn; lia|by right].
  unfold indirect, fields. rewrite X, nblk_mul, (proj2 (Z.leb_gt NDIRECT nd)) by lia.
  eexists. split; [reflexivity|]. rewrite Z.min_l by lia. cbn [fset dw_map dw_pos d_map d_pos s1 s2].
  split; [f_equal; lia|]. unfold s_root_pos in *.
  set (m' := pokew (wr32 m1 (4104 + 128) (4096 * nd)) (4104 + 136) (map (λ i : Z, b + i) (seqZ 0 nd))).
  assert (W : ∀ x, x < 4240 ∨ 4240 + 4 * nd ≤ x → rd8 m' x = rd8 (wr32 m1 4232 (4096 * nd)) x).
  { intros x Hx. unfold m'. apply rd8_pokew_out. rewrite length_words by lia. lia. }
  assert (Lo : ∀ x, x < 4096 * b → rd8 m1 x = rd8 (d_map s) x).
  { intros x Hx. unfold rd8, m1. by rewrite (proj2 (Z.leb_gt _ _)) by lia. }
  assert (Dir : ∀ x, 0 ≤ x < 4096 * nd → rd8 m1 (4096 * b + x) = rd8 (d_ents s) x).
  { intros x Hx. unfold m1, rd8. rewrite (proj2 (Z.leb_le _ _)) by lia.
    destruct (Z.ltb_spec (4096 * b + x) (4096 * b + 256 * Z.of_nat (length P))); cbn [andb].
    - rewrite u8_idemp. do 2 f_equal. lia.
    - change (rd8 (d_map s) (4096 * b + x) = rd8 (d_ents s) x). by rewrite B5, B6 by lia. }
  split; [|intros x Hx; rewrite W, rd8_wr32_ne, Lo by lia; done].
  constructor; unfold s_root_pos.
  - rewrite (rd32_same (wr32 m1 4232 (4096 * nd))) by (intros x Hx; apply W; lia).
    change (4104 + 128) with 4232. rewrite rd32_wr32_eq. apply u32_small. lia.
  - intros i Hi. destruct (Z.ltb_spec i nd).
    + unfold m'. rewrite rd32_pokew_range by lia. lia.
    + unfold rd32. rewrite !W by lia. rewrite !rd8_wr32_ne by lia. rewrite !Lo by lia.
      rewrite !(op_rest _ _ B4) by (unfold s_root_pos; lia). done.
  - unfold rd32. rewrite !W by lia. rewrite !rd8_wr32_ne by lia. rewrite !Lo by lia.
    by rewrite !(op_rest _ _ B4) by (unfold s_root_pos; lia).
  - intros i name data start Hi. pose proof (lookup_lt_Some _ _ _ Hi). destruct (B7 _ _ _ _ Hi) as (E1 & E2 & E3 & E4 & E5 & E6).
    split_and!; try done.
    + apply (entry_moved (d_ents s) _ (256 * Z.of_nat i)); [done| |done]. intros x Hx.
      rewrite W, rd8_wr32_ne by lia. rewrite <- Z.add_assoc. apply Dir. lia.
    + pose proof (fblocks_bounds _ E4). apply (filedata_same (d_map s)); [lia| |done]. intros x Hx. rewrite W, rd8_wr32_ne by lia. apply Lo. lia.
  - intros i Hi. rewrite W, rd8_wr32_ne by lia. rewrite Dir by lia. apply B6. lia.
Qed.
Definition clear_bit (m : mem) (i : Z) : mem :=
  wr32 m (8192 + 4 * (i / 32)) (Z.land (rd32 m (8192 + 4 * (i / 32))) (u32 (Z.lnot (Z.shiftl 1 (i mod 32))))).
Definition bit (m : mem) (c : Z) : bool := Z.testbit (rd32 m (8192 + 4 * (c / 32))) (c mod 32).

Lemma clear_bit_bit m i c : 0 ≤ i → 0 ≤ c → bit (clear_bit m i) c = if c =? i then false else bit m c.
Proof.
  intros Hi Hc. unfold bit, clear_bit. pose proof (Z.mod_pos_bound c 32 ltac:(lia)). pose proof (Z.mod_pos_bound i 32 ltac:(lia)).
  pose proof (Z.div_mod c 32 ltac:(lia)). pose proof (Z.div_mod i 32 ltac:(lia)).
  destruct (Z.eq_dec (c / 32) (i / 32)) as [E|E].
  - rewrite E, rd32_wr32_eq, testbit_u32, Z.land_spec, testbit_u32, Z.lnot_spec, Z.shiftl_1_l by lia.
    rewrite Z.pow2_bits_eqb by lia. destruct (Z.eqb_spec c i) as [->|Hne].
    + by rewrite Z.eqb_refl, andb_false_r.
    + rewrite (proj2 (Z.eqb_neq (i mod 32) (c mod 32))) by lia. by rewrite andb_true_r.
  - rewrite rd32_wr32_ne by lia. destruct (Z.eqb_spec c i) as [->|]; [lia|done].
Qed.

Lemma clear_bit_out m i x : 0 ≤ i < 32768 → x < 8192 ∨ 12288 ≤ x → rd8 (clear_bit m i) x = rd8 m x.
Proof. intros Hi Hx. pose proof (Z.div_mod i 32). pose proof (Z.mod_pos_bound i 32). apply rd8_wr32_ne. lia. Qed.

Lemma clear_bits m k n : 0 ≤ k → 0 ≤ n → k + n ≤ 32768 →
  (∀ c, 0 ≤ c → bit (foldl clear_bit m (seqZ k n)) c = if (k <=? c) && (c <? k + n) then false else bit m c) ∧
  (∀ x, x < 8192 ∨ 12288 ≤ x → rd8 (foldl clear_bit m (seqZ k n)) x = rd8 m x).
Proof.
  intros Hk Hn. revert m k Hk. pattern n. apply natlike_ind; [| |done]; clear n Hn.
  - intros m k Hk _. split; [|done]. intros c Hc. cbn.
    destruct (Z.leb_spec k c), (Z.ltb_spec c (k + 0)); done || lia.
  - intros n Hn IH m k Hk Hs. rewrite seqZ_cons by lia. replace (Z.pred (Z.succ n)) with n by lia. cbn [foldl].
    destruct (IH (clear_bit m k) (Z.succ k)) as [I1 I2]; [lia|lia|]. split.
    + intros c Hc. rewrite I1, clear_bit_bit by lia.
      destruct (Z.leb_spec (Z.succ k) c), (Z.leb_spec k c), (Z.ltb_spec c (Z.succ k + n)), (Z.ltb_spec c (k + Z.succ n)),
        (Z.eqb_spec c k); cbn [andb]; done || lia.
    + intros x Hx. rewrite I2 by done. apply clear_bit_out; [lia|done].
Qed.

Lemma opened_bit m n c : opened m n → 0 ≤ c < 1024 → bit m c = true.
Proof.
  intros O Hc. unfold bit, rd32. pose proof (Z.div_mod c 32 ltac:(lia)). pose proof (Z.mod_pos_bound c 32 ltac:(lia)).
  rewrite !(op_bitmap _ _ O) by lia. change (255 + 2 ^ 8 * 255 + 2 ^ 16 * 255 + 2 ^ 24 * 255) with (Z.ones 32).
  rewrite Z.ones_spec_low by lia. done.
Qed.

(** A disk with the superblock, the bitmap and the root directory that the
    file server expects, the files [P] in the directory and nothing else. *)
Record formatted (m : mem) (n b nd : Z) (P : list (list Z * list Z * Z)) : Prop := {
  fm_magic : rd32 m 4096 = FS_MAGIC;
  fm_nblocks : rd32 m 4100 = n;
  fm_type : rd32 m (s_root_pos + 132) = FTYPE_DIR;
  fm_name : cstr m s_root_pos (zs "/");
  fm_root : rooted m b nd P;
  fm_bits : ∀ c, 0 ≤ c < n → bit m c = (b + nd <=? c);
  fm_fit : 3 ≤ b ∧ 1 ≤ nd ≤ 8 ∧ b + nd < n ≤ 1024 ∧ Z.of_nat (length P) ≤ 16 * nd }.

Lemma rooted_same m m' b nd P : 3 ≤ b → (∀ x, 4096 ≤ x < 8192 ∨ 12288 ≤ x → rd8 m' x = rd8 m x) →
  Z.of_nat (length P) ≤ 16 * nd → rooted m b nd P → rooted m' b nd P.
Proof.
  intros Hb H HP [R1 R2 R3 R4 R5]. unfold s_root_pos in *. constructor; unfold s_root_pos.
  - rewrite <- R1. apply rd32_same. intros x Hx. apply H. lia.
  - intros i Hi. rewrite <- R2 by done. apply rd32_same. intros x Hx. apply H. lia.
  - rewrite <- R3. apply rd32_same. intros x Hx. apply H. lia.
  - intros i name data start Hi. destruct (R4 _ _ _ _ Hi) as (E1 & E2 & E3 & E4 & E5 & E6). pose proof (lookup_lt_Some _ _ _ Hi).
    split_and!; try done.
    + apply (entry_same m); [done| |done]. intros x Hx. apply H. lia.
    + pose proof (fblocks_bounds _ E4). apply (filedata_same m); [lia| |done]. intros x Hx. apply H. lia.
  - intros i Hi. rewrite <- (R5 i) by done. apply H. lia.
Qed.

Lemma finishdisk_run s c : d_pos s = 4096 * c → 0 ≤ c ≤ 1024 →
  finishdisk s = Ok tt (dw_map (foldl clear_bit (d_map s) (seqZ 0 c)) s).
Proof.
  intros Hp Hc. unfold finishdisk. rewrite bind_get, Hp, blockof_blocks by lia. rewrite mfor_mod. f_equal. clear.
  generalize (seqZ 0 c) as l. intros l. revert s. induction l as [|i l IH]; intros s; cbn [foldl]; [by destruct s|].
  rewrite IH. done.
Qed.

(** When the files fit, fsformat succeeds: the image is a formatted disk with
    each file's name and data, in order. *)
Lemma main_run a0 img num n paths fs s :
  strtol num = (n, []) → num ≠ [] → disk_ok img = true → (∀ x, rd8 malloc x = 0) →
  Forall2 (λ path f, regular path (fst f) (snd f)) paths fs → (1 ≤ length fs ≤ 128)%nat →
  3 + foldr (λ f acc, fblocks (snd f) + acc) 0 fs + nblk (256 * Z.of_nat (length fs)) < n ≤ 1024 →
  ∃ s' P b nd, main open read_some disk_ok strtol malloc (a0 :: img :: num :: paths) s = Ok tt s' ∧
    formatted (d_map s') n b nd P ∧ fst <$> P = fs.
Proof.
  intros Hst Hnum Hdisk Hm F Hlen Hfit. set (total := foldr (λ f acc, fblocks (snd f) + acc) 0 fs) in *.
  assert (0 ≤ total).
  { unfold total. clear -F. induction F as [|? [? ?] ? ? (_ & _ & _ & _ & _ & Hmx) ? IH]; cbn [foldr snd]; [done|].
    pose proof (fblocks_bounds _ Hmx). cbn [snd] in *. lia. }
  pose proof (nblk_bounds (256 * Z.of_nat (length fs)) ltac:(lia)) as Hnd. unfold main. rewrite Hst. cbv zeta.
  rewrite (u32_small n) by lia. rewrite (proj2 (Z.ltb_ge n 2)), (proj2 (Z.ltb_ge 1024 n)) by lia.
  rewrite bool_decide_eq_false_2 by done. cbn [length Nat.eqb negb orb].
  destruct (opendisk_run img n s Hdisk Hm ltac:(lia)) as (s1 & E1 & B1). rewrite (bind_Ok _ _ _ _ _ E1).
  destruct (writefiles_run n [] s1 paths fs ltac:(lia) F 3 B1) as (s2 & P & E2 & B2 & HP); [lia|cbn; lia|fold total; lia|].
  rewrite (bind_Ok _ _ _ _ _ E2). fold total in B2. cbn [app] in B2.
  assert (Hlp : length P = length fs) by (by rewrite <- HP, length_fmap).
  destruct (finishdir_run n (3 + total) P s2 B2) as (s3 & E3 & D3 & R3 & O3); [lia|lia|lia|rewrite Hlp; lia|].
  rewrite (bind_Ok _ _ _ _ _ E3). rewrite Hlp in *. set (nd := nblk (256 * Z.of_nat (length fs))) in *.
  rewrite (finishdisk_run s3 (3 + total + nd)) by (done || lia).
  destruct (clear_bits (d_map s3) 0 (3 + total + nd)) as [C1 C2]; [lia|lia|lia|].
  pose proof (bu_opened _ _ _ _ B2) as O. eexists _, P, (3 + total), nd. split; [reflexivity|]. split; [|done].
  cbn [dw_map d_map].
  assert (K : ∀ x, x < 4232 ∨ 4236 ≤ x < 4240 ∨ 4284 ≤ x < 8192 → rd8 (foldl clear_bit (d_map s3) (seqZ 0 (3 + total + nd))) x = rd8 (d_map s2) x)
    by (intros x Hx; rewrite C2 by lia; apply O3; lia).
  constructor.
  - rewrite <- (op_magic _ _ O). apply rd32_same. intros x Hx. apply K. lia.
  - rewrite <- (op_nblocks _ _ O). apply rd32_same. intros x Hx. apply K. lia.
  - rewrite <- (op_type _ _ O). apply rd32_same. unfold s_root_pos. intros x Hx. apply K. lia.
  - apply (cstr_ext (d_map s2)); [|apply (op_name _ _ O)]. unfold s_root_pos. cbn. intros x Hx. apply K. lia.
  - apply (rooted_same (d_map s3)); [lia| |lia|done]. intros x Hx. apply C2. lia.
  - intros c Hc. rewrite C1 by lia. rewrite (proj2 (Z.leb_le 0 c)) by lia. cbn [andb]. rewrite Z.add_0_l.
    destruct (Z.ltb_spec c (3 + total + nd)), (Z.leb_spec (3 + total + nd) c); try done; try lia.
    rewrite <- (opened_bit (d_map s2) n c O) by lia. unfold bit. f_equal.
    pose proof (Z.div_mod c 32 ltac:(lia)). pose proof (Z.mod_pos_bound c 32 ltac:(lia)). apply rd32_same. intros x Hx. apply O3. lia.
  - lia.
Qed.

End host_proofs.
