(* ===== verification/FsImage.v ===== *)
(** The file server (fs/fs.c) on a disk made by the formatter (fs/fsformat.c):
    it can open every file by its path and reads the bytes that the formatter
    was given. *)

From S2P Require Import Prelude Mmu Printfmt KState Syscall CString Ide Bc Fs FsBlock FsFile FsSpec FsDir Fsformat.
From Stdlib Require Import ZArith Lia Ascii String.
From stdpp Require Import base tactics numbers list.
Open Scope Z_scope.

(** The server sees the image [m], of [n] blocks. *)
Definition holds (v m : mem) (n : Z) : Prop := ∀ x, 0 ≤ x < 4096 * n → rd8 v (DISKMAP + x) = rd8 m x.

Section image.
Context (v m : mem) (n b nd : Z) (P : list (list Z * list Z * Z)).
Context (H : holds v m n) (F : formatted m n b nd P).

Lemma at32 x : 0 ≤ x → x + 4 ≤ 4096 * n → rd32 v (DISKMAP + x) = rd32 m x.
Proof. intros H1 H2. unfold rd32. rewrite <- !Z.add_assoc. by rewrite !H by lia. Qed.

Lemma img_nblocks : nblocks (rd8 v) = n.
Proof.
  destruct (fm_fit _ _ _ _ _ F) as (? & ? & ? & _). change (nblocks (rd8 v)) with (rd32 v (DISKMAP + 4100)).
  rewrite at32 by lia. apply (fm_nblocks _ _ _ _ _ F).
Qed.

Lemma img_vfree c : 0 ≤ c < n → vfree (rd8 v) c = (b + nd <=? c).
Proof.
  intros Hc. destruct (fm_fit _ _ _ _ _ F) as (? & ? & ? & _). rewrite <- (fm_bits _ _ _ _ _ F c Hc).
  pose proof (Z.div_mod c 32 ltac:(lia)). pose proof (Z.mod_pos_bound c 32 ltac:(lia)).
  change (vfree (rd8 v) c) with (Z.testbit (rd32 v (word_va c)) (c mod 32)). unfold bit. f_equal.
  change (word_va c) with (268443648 + 4 * (c / 32)).
  replace (268443648 + 4 * (c / 32)) with (DISKMAP + (8192 + 4 * (c / 32))) by lia. apply at32; lia.
Qed.

Lemma img_bb c : 0 ≤ c < n → bb c = 2.
Proof. intros Hc. destruct (fm_fit _ _ _ _ _ F) as (? & ? & ? & _). unfold bb. rewrite Z.div_small by lia. done. Qed.

Lemma img_layout : layout_ok (rd8 v).
Proof.
  destruct (fm_fit _ _ _ _ _ F) as (? & ? & ? & _). split; rewrite ?img_nblocks.
  - lia.
  - intros c Hc. rewrite img_bb by done. split; [lia|]. rewrite img_vfree by lia. apply Z.leb_gt. lia.
  - rewrite img_vfree by lia. apply Z.leb_gt. lia.
Qed.

Lemma img_data d : 3 ≤ d < b + nd → data_blk v d.
Proof.
  intros Hd. destruct (fm_fit _ _ _ _ _ F) as (? & ? & ? & _). unfold data_blk. rewrite img_nblocks, img_bb, img_vfree by lia.
  split; [lia|]. apply Z.leb_gt. lia.
Qed.

(** ** The root directory *)

Lemma root_word o : 0 ≤ o ≤ 252 → rd32 v (s_root_va + o) = rd32 m (s_root_pos + o).
Proof.
  intros Ho. destruct (fm_fit _ _ _ _ _ F) as (? & ? & ? & _). change s_root_va with (DISKMAP + 4104). unfold s_root_pos.
  rewrite <- Z.add_assoc. apply at32; lia.
Qed.

Lemma root_bmap k : 0 ≤ k < MAXBLK → bmap v s_root_va k = if k <? nd then b + k else 0.
Proof.
  intros Hk. destruct (fm_fit _ _ _ _ _ F) as (? & ? & ? & _). pose proof (fm_root _ _ _ _ _ F) as R.
  assert (I : ind v s_root_va = 0).
  { unfold ind. change (f_indirect_va s_root_va) with (s_root_va + 176). rewrite root_word by lia. apply (ro_ind _ _ _ _ R). }
  unfold bmap. rewrite I. destruct (Z.leb_spec NDIRECT k); cbn [andb Z.eqb].
  - destruct (Z.ltb_spec k nd); [lia|done].
  - unfold slot_va. rewrite (proj2 (Z.ltb_lt k NDIRECT)) by lia. unfold f_direct_va.
    rewrite <- Z.add_assoc, root_word, Z.add_assoc by lia. apply (ro_direct _ _ _ _ R). lia.
Qed.

Lemma root_ok : file_ok v s_root_va.
Proof.
  destruct (fm_fit _ _ _ _ _ F) as (? & ? & ? & _). pose proof (fm_root _ _ _ _ _ F) as R. split.
  - split; [reflexivity|apply Z.leb_le; reflexivity].
  - left. split; [reflexivity|apply Z.leb_le; reflexivity].
  - rewrite img_nblocks. change (blk s_root_va) with 1. split; [lia|]. rewrite img_vfree by lia. apply Z.leb_gt. lia.
  - intros Hi. exfalso. apply Hi. unfold ind. change (f_indirect_va s_root_va) with (s_root_va + 176).
    rewrite root_word by lia. apply (ro_ind _ _ _ _ R).
  - intros k Hk Hb. rewrite root_bmap in * by done. destruct (Z.ltb_spec k nd); [|done].
    change (blk s_root_va) with 1. unfold ind. change (f_indirect_va s_root_va) with (s_root_va + 176).
    rewrite root_word by lia. rewrite (ro_ind _ _ _ _ R). split; [apply img_data; lia|lia].
  - intros j k Hj Hk. rewrite !root_bmap by done. destruct (Z.ltb_spec j nd), (Z.ltb_spec k nd); lia.
Qed.

Definition root_names : list (list Z) :=
  (λ p, fst (fst p)) <$> P ++ replicate (Z.to_nat (16 * nd) - length P) ([], [], 0).

Lemma root_ent i : 0 ≤ i < 16 * nd → ent_va v s_root_va i = DISKMAP + (4096 * b + 256 * i).
Proof.
  intros Hi. destruct (fm_fit _ _ _ _ _ F) as (? & ? & ? & _).
  pose proof (Z.div_mod i 16 ltac:(lia)). pose proof (Z.mod_pos_bound i 16 ltac:(lia)). unfold ent_va, blkva.
  rewrite root_bmap by lia. rewrite (proj2 (Z.ltb_lt _ _)) by lia. lia.
Qed.

Lemma at_cstr l : ∀ x, 0 ≤ x → x + Z.of_nat (length l) < 4096 * n → cstr m x l → cstr v (DISKMAP + x) l.
Proof.
  induction l as [|c l IH]; intros x H1 H2; cbn [cstr length] in *; [by rewrite H by lia|].
  intros (? & ? & ?). split_and!; [by rewrite H by lia|done|]. rewrite <- Z.add_assoc. apply IH; [lia|lia|done].
Qed.

Lemma root_dir : dir_ok v s_root_va root_names.
Proof.
  destruct (fm_fit _ _ _ _ _ F) as (? & ? & ? & HP). pose proof (fm_root _ _ _ _ _ F) as R.
  assert (L : length root_names = Z.to_nat (16 * nd)).
  { unfold root_names. rewrite length_fmap, length_app, length_replicate. lia. }
  assert (Lz : Z.of_nat (length root_names) = nd * 16) by lia.
  split; rewrite ?Lz.
  - exact root_ok.
  - change (f_type_va s_root_va) with (s_root_va + 132). rewrite root_word by lia. apply (fm_type _ _ _ _ _ F).
  - split.
    + unfold fsize. change (f_size_va s_root_va) with (s_root_va + 128). rewrite root_word by lia.
      rewrite (ro_size _ _ _ _ R). lia.
    + rewrite L. replace (Z.to_nat (16 * nd)) with (Z.to_nat nd * 16)%nat by lia. apply Nat.Div0.mod_mul.
  - lia.
  - rewrite Z.div_mul by lia. intros k Hk. rewrite root_bmap by lia. rewrite (proj2 (Z.ltb_lt _ _)) by lia. lia.
  - intros i nm Hi. pose proof (lookup_lt_Some _ _ _ Hi). rewrite root_ent by lia.
    unfold root_names in Hi. rewrite list_lookup_fmap in Hi.
    destruct ((P ++ _) !! i) as [[[name data] start]|] eqn:Ei; [|done]. cbn in Hi. injection Hi as <-.
    apply lookup_app_Some in Ei as [Ei|[Hge Ei]].
    + destruct (ro_file _ _ _ _ R _ _ _ _ Ei) as (E & _ & Hl & _). split; [|done].
      apply at_cstr; [lia|lia|]. apply (en_name _ _ _ _ _ E).
    + apply lookup_replicate in Ei as [[= -> -> ->] _]. split; [|cbn; lia]. apply at_cstr; [lia|cbn; lia|]. cbn.
      apply (ro_empty _ _ _ _ R). lia.
Qed.
(** ** The files *)

Section file.
Context (i : nat) (name data : list Z) (start : Z) (Hi : P !! i = Some (name, data, start)).
Let len := Z.of_nat (length data).
Let f := DISKMAP + (4096 * b + 256 * Z.of_nat i).

Lemma img_file : entry m (4096 * b + 256 * Z.of_nat i) name data start ∧ filedata m data start ∧
  (length name < 128)%nat ∧ len < MAXFILESIZE ∧ 3 ≤ start ∧ start + fblocks data ≤ b ∧ Z.of_nat i < 16 * nd ∧
  0 ≤ nblk len ≤ 1034 ∧ nblk len ≤ fblocks data ≤ nblk len + 1 ∧ 3 ≤ b ∧ 1 ≤ nd ≤ 8 ∧ b + nd < n ≤ 1024.
Proof.
  destruct (fm_fit _ _ _ _ _ F) as (? & ? & ? & ?). pose proof (lookup_lt_Some _ _ _ Hi).
  destruct (ro_file _ _ _ _ (fm_root _ _ _ _ _ F) _ _ _ _ Hi) as (E & D & ? & Hm & ? & ?).
  pose proof (fblocks_bounds data Hm). split_and!; done || (unfold len; lia).
Qed.

Lemma file_word o : 0 ≤ o ≤ 252 → rd32 v (f + o) = rd32 m (4096 * b + 256 * Z.of_nat i + o).
Proof.
  intros Ho. destruct img_file as (_ & _ & _ & _ & _ & _ & ? & _ & _ & ? & ? & ?). unfold f.
  rewrite <- Z.add_assoc. apply at32; lia.
Qed.

Lemma file_fsize : fsize v f = len.
Proof.
  destruct img_file as (E & _). unfold fsize, f_size_va. rewrite file_word by lia. apply (en_size _ _ _ _ _ E).
Qed.

Lemma file_ind : ind v f = if NDIRECT <=? nblk len then start + nblk len else 0.
Proof.
  destruct img_file as (E & _). unfold ind, f_indirect_va. rewrite file_word by lia. apply (en_ind _ _ _ _ _ E).
Qed.

Lemma file_bmap k : 0 ≤ k < MAXBLK → bmap v f k = if k <? nblk len then start + k else 0.
Proof.
  intros Hk. destruct img_file as (E & D & _ & _ & ? & ? & ? & Hn & Hf & ? & ? & ?). unfold bmap. rewrite file_ind.
  destruct (Z.leb_spec NDIRECT k) as [Hge|Hlt]; cbn [andb].
  - destruct (Z.leb_spec NDIRECT (nblk len)) as [Hb|Hb]; [|rewrite Z.eqb_refl; destruct (Z.ltb_spec k (nblk len)); [lia|done]].
    rewrite (proj2 (Z.eqb_neq _ _)) by lia. unfold slot_va. rewrite (proj2 (Z.ltb_ge _ _)), file_ind by lia.
    rewrite (proj2 (Z.leb_le _ _)) by lia. pose proof (fd_ind _ _ _ D Hb k ltac:(lia)) as Hd. fold len in Hd. rewrite <- Hd. unfold blkva.
    assert (fblocks data = nblk len + 1) by (unfold fblocks, extra; fold len; rewrite (proj2 (Z.leb_le _ _)) by lia; done).
    replace (DISKMAP + (start + nblk len) * BLKSIZE + 4 * (k - NDIRECT)) with
      (DISKMAP + (4096 * (start + nblk len) + 4 * (k - NDIRECT))) by lia. apply at32; lia.
  - unfold slot_va. rewrite (proj2 (Z.ltb_lt k NDIRECT)) by lia. unfold f_direct_va.
    rewrite <- Z.add_assoc, file_word, Z.add_assoc by lia. apply (en_direct _ _ _ _ _ E). lia.
Qed.

Lemma file_blk : blk f = b + Z.of_nat i / 16.
Proof.
  apply blk_page. pose proof (Z.div_mod (Z.of_nat i) 16 ltac:(lia)). pose proof (Z.mod_pos_bound (Z.of_nat i) 16 ltac:(lia)).
  unfold f, blkva. lia.
Qed.

Lemma file_is_ok : file_ok v f.
Proof.
  destruct img_file as (E & D & _ & _ & ? & ? & ? & Hn & Hf & ? & ? & ?).
  pose proof (Z.div_mod (Z.of_nat i) 16 ltac:(lia)). pose proof (Z.mod_pos_bound (Z.of_nat i) 16 ltac:(lia)).
  assert (Hb : b ≤ blk f < b + nd) by (rewrite file_blk; lia). split.
  - unfold f. split.
    + replace (DISKMAP + (4096 * b + 256 * Z.of_nat i)) with ((67108864 + 1024 * b + 64 * Z.of_nat i) * 4) by lia. apply Z.mod_mul. lia.
    + replace (DISKMAP + (4096 * b + 256 * Z.of_nat i)) with (256 * (Z.of_nat i mod 16) + (65536 + b + Z.of_nat i / 16) * 4096) by lia.
      rewrite Z.mod_add, Z.mod_small by lia. lia.
  - right. rewrite img_nblocks, img_bb by lia. lia.
  - rewrite img_nblocks, img_vfree by lia. split; [lia|]. apply Z.leb_gt. lia.
  - rewrite file_ind. destruct (Z.leb_spec NDIRECT (nblk len)) as [Hge|]; [|done]. intros _.
    assert (fblocks data = nblk len + 1) by (unfold fblocks, extra; fold len; rewrite (proj2 (Z.leb_le _ _)) by lia; done).
    split; [apply img_data; lia|lia].
  - intros k Hk Hne. rewrite file_bmap in * by done. destruct (Z.ltb_spec k (nblk len)); [|done].
    split; [apply img_data; lia|]. split; [lia|]. rewrite file_ind. destruct (NDIRECT <=? nblk len); lia.
  - intros j k Hj Hk. rewrite !file_bmap by done. destruct (Z.ltb_spec j (nblk len)), (Z.ltb_spec k (nblk len)); lia.
Qed.

Lemma file_content p c : data !! p = Some c → content v f (Z.of_nat p) = c.
Proof.
  intros Hp. destruct img_file as (E & D & _ & Hm & ? & ? & ? & Hn & Hf & ? & ? & ?). pose proof (lookup_lt_Some _ _ _ Hp).
  pose proof (nblk_bounds len ltac:(unfold len; lia)). unfold content.
  pose proof (Z.div_mod (Z.of_nat p) 4096 ltac:(lia)). pose proof (Z.mod_pos_bound (Z.of_nat p) 4096 ltac:(lia)).
  assert (0 ≤ Z.of_nat p / 4096 < nblk len) by (unfold len in *; lia).
  rewrite file_bmap by lia. rewrite (proj2 (Z.ltb_lt _ _)) by lia. rewrite (proj2 (Z.eqb_neq _ _)) by lia.
  rewrite <- (fd_bytes _ _ _ D _ _ Hp). unfold blkva.
  replace (DISKMAP + (start + Z.of_nat p / BLKSIZE) * BLKSIZE + Z.of_nat p mod BLKSIZE) with
    (DISKMAP + (4096 * start + Z.of_nat p)) by lia. apply H. unfold len in *. lia.
Qed.

Lemma file_mapped p : 0 ≤ p < len → bmap v f (p / BLKSIZE) ≠ 0.
Proof.
  intros Hpp. destruct img_file as (_ & _ & _ & Hm & ? & _ & _ & Hn & _).
  pose proof (nblk_bounds len ltac:(unfold len; lia)).
  pose proof (Z.div_mod p 4096 ltac:(lia)). pose proof (Z.mod_pos_bound p 4096 ltac:(lia)).
  rewrite file_bmap by lia. rewrite (proj2 (Z.ltb_lt _ _)) by lia. lia.
Qed.

Lemma file_covered pos stop : 0 ≤ pos → stop ≤ len → covered v f pos stop.
Proof. intros Hp Hs. left. intros p Hpp. apply file_mapped. lia. Qed.
End file.

End image.

Lemma index_of_first name l : ∀ i k, l !! i = Some name → (∀ j, (j < i)%nat → l !! j ≠ Some name) →
  index_of name l k = Some (k + Z.of_nat i).
Proof.
  induction l as [|x l IH]; intros i k Hi Hf; [done|]. destruct i as [|i]; cbn in Hi.
  - injection Hi as ->. cbn [index_of]. rewrite bool_decide_eq_true_2 by done. f_equal. lia.
  - cbn [index_of]. rewrite bool_decide_eq_false_2 by (intros ->; by apply (Hf O); [lia|]).
    rewrite (IH i (k + 1) Hi); [f_equal; lia|]. intros j Hj. apply (Hf (S j)). lia.
Qed.

Lemma root_index P nd i name data start : P !! i = Some (name, data, start) → NoDup ((λ p, fst (fst p)) <$> P) →
  index_of name (root_names nd P) 0 = Some (Z.of_nat i).
Proof.
  intros Hi Hnd. rewrite <- (Z.add_0_l (Z.of_nat i)). pose proof (lookup_lt_Some _ _ _ Hi) as Hlt. unfold root_names.
  rewrite fmap_app. apply index_of_first.
  - rewrite lookup_app_l by (by rewrite length_fmap). rewrite list_lookup_fmap, Hi. done.
  - intros j Hj. rewrite lookup_app_l by (rewrite length_fmap; lia). intros Hjn.
    assert (Hi' : ((λ p : list Z * list Z * Z, p.1.1) <$> P) !! i = Some name) by (by rewrite list_lookup_fmap, Hi).
    pose proof (NoDup_lookup _ _ _ _ Hnd Hjn Hi'). lia.
Qed.

Section served.
Context `{L : IdeLaws} (v m : mem) (n b nd : Z) (P : list (list Z * list Z * Z)).
Context (H : holds v m n) (F : formatted m n b nd P).
Context (i : nat) (name data : list Z) (start : Z) (Hi : P !! i = Some (name, data, start)).
Let f := DISKMAP + (4096 * b + 256 * Z.of_nat i).

Lemma image_open s0 s : sees s0 v s → NoDup ((λ p, fst (fst p)) <$> P) → component name →
  ∃ s1, file_open (zc "/" :: name) s = Ok (0, f) s1 ∧ sees s0 v s1.
Proof.
  intros S Hnd Hc. destruct (img_file m n b nd P F i name data start Hi) as (_ & _ & _ & _ & _ & _ & Hi16 & _).
  pose proof (root_ent v m n b nd P H F (Z.of_nat i) ltac:(lia)) as Hent. fold f in Hent.
  destruct (file_open_sees s0 v s [name] f S) as (s1 & E1 & S1); [| |].
  - apply (path_down _ _ (root_names nd P) _ (Z.of_nat i)).
    + exact (root_dir v m n b nd P H F).
    + exact (root_index P nd i name data start Hi Hnd).
    + rewrite Hent. constructor.
  - by constructor.
  - change (path_str [name]) with (zc "/" :: name ++ []) in E1. rewrite app_nil_r in E1. by exists s1.
Qed.

Lemma image_read s0 s buf count offset : sees s0 v s → 0 ≤ offset < 2 ^ 31 → 0 ≤ count < 2 ^ 32 →
  let k := Z.max 0 (Z.min count (Z.of_nat (length data) - offset)) in
  (∀ x, buf ≤ x < buf + k → buffer s0 true x) →
  ∃ v' s', file_read f buf count offset s = Ok k s' ∧ sees s0 v' s' ∧
    ∀ j, 0 ≤ j < k → data !! Z.to_nat (offset + j) = Some (rd8 v' (buf + j)).
Proof.
  intros S Ho Hc k Hbuf. destruct (img_file m n b nd P F i name data start Hi) as (_ & _ & _ & Hmax & _).
  pose proof (file_fsize v m n b nd P H F i name data start Hi) as Hsz. fold f in Hsz.
  destruct (file_read_sees s0 v s f buf count offset S (file_is_ok v m n b nd P H F i name data start Hi))
    as (v' & s' & E & S' & _ & _ & Hrd); rewrite ?Hsz; try done.
  - lia.
  - destruct (Z.le_gt_cases offset (Z.of_nat (length data))).
    + apply (file_covered v m n b nd P H F i name data start Hi); lia.
    + left. intros p Hp. lia.
  - fold k. exists v', s'. rewrite Hsz in *. fold k in E, Hrd. split_and!; [done|done|]. intros j Hj.
    destruct (lookup_lt_is_Some_2 data (Z.to_nat (offset + j))) as [c Hcj]; [lia|]. rewrite Hcj. f_equal.
    destruct (Hbuf (buf + j)) as (_ & Hnc & _); [lia|]. rewrite Hrd by done.
    rewrite (proj2 (Z.leb_le _ _)), (proj2 (Z.ltb_lt _ _)) by lia. cbn [andb].
    rewrite <- (file_content v m n b nd P H F i name data start Hi _ _ Hcj). fold f. f_equal. lia.
Qed.
End served.


#[local] Existing Instances demo_device demo_laws.

(** A formatted image on the drive of Ide.v, and the server at it. *)
Lemma formatted_sees m n b nd P : formatted m n b nd P →
  holds (disk_view (rd8 m)) m n ∧
  sees (disk_fs (rd8 m) (rd8_range m) 2000) (disk_view (rd8 m)) (disk_fs (rd8 m) (rd8_range m) 2000).
Proof.
  intros F. destruct (fm_fit _ _ _ _ _ F) as (? & ? & ? & _).
  assert (Hh : holds (disk_view (rd8 m)) m n).
  { intros x Hx. unfold disk_view. unfold rd8 at 1.
    assert (in_cache (DISKMAP + x) = true) as -> by (apply in_cache_spec; lia).
    replace (DISKMAP + x - DISKMAP) with x by lia. apply u8_small, rd8_range. }
  split; [done|]. apply disk_sees; [exact (img_layout _ m n b nd P Hh F)|]. rewrite (img_nblocks _ m n b nd P Hh F). lia.
Qed.

(** A host with the one file fs/motd. *)
Definition demo_open (path : list Z) : option hostfile :=
  if bool_decide (path = zs "fs/motd") then Some (mkHost (Some 3) true (zs "hey")) else None.
Definition demo_argv : list (list Z) := [zs "fsformat"; zs "fs.img"; zs "16"; zs "fs/motd"].
Definition demo_main : M fmt unit :=
  main demo_open (λ k, k) (λ _, true) (λ _, (16, [])) (λ _, 0) demo_argv.

Lemma demo_regular : Forall2 (λ path f, regular demo_open path (fst f) (snd f)) [zs "fs/motd"] [(zs "motd", zs "hey")].
Proof.
  constructor; [|constructor]. split_and!; [reflexivity|reflexivity|cbn; lia| | |cbn; lia];
    cbn; repeat (apply Forall_cons; split; [vm_compute; split; congruence|]); constructor.
Qed.

