(* ===== verification/Serv.v ===== *)
(** The file server, fs/serv.c: the table of open files and the requests.

    The server's memory and disk are those of Fs.v.  Each open file has a
    page with its struct Fd at FILEVA, which the server shares with the
    clients that have the file open; how many mappings of it other
    environments have is part of the state, and clients change it.  A client
    that has sent a request waits for the answer, so the request page does
    not change while the request is served. *)

From S2P Require Import Prelude Mmu Printfmt KState Syscall CString Ide Bc Fs.
From Stdlib Require Import ZArith Lia Ascii String.
From stdpp Require Import base tactics numbers list.
Open Scope Z_scope.

Abbreviation MAXOPEN := 1024 (only parsing).
Abbreviation FILEVA := 3489660928 (only parsing).  (* 0xD0000000 *)
Abbreviation fsreq := 268431360 (only parsing).    (* 0x0ffff000 *)
Abbreviation MAXPATHLEN := 1024 (only parsing).
Abbreviation O_ACCMODE := 3 (only parsing).
Abbreviation O_CREAT := 256 (only parsing).
Abbreviation O_TRUNC := 512 (only parsing).
Abbreviation O_EXCL := 1024 (only parsing).
Abbreviation PTE_SHARE := 1024 (only parsing).
Abbreviation DEVFILE_ID := 102 (only parsing).     (* 'f' *)

Abbreviation FSREQ_OPEN := 1 (only parsing).
Abbreviation FSREQ_SET_SIZE := 2 (only parsing).
Abbreviation FSREQ_READ := 3 (only parsing).
Abbreviation FSREQ_WRITE := 4 (only parsing).
Abbreviation FSREQ_STAT := 5 (only parsing).
Abbreviation FSREQ_FLUSH := 6 (only parsing).
Abbreviation FSREQ_SYNC := 8 (only parsing).

Record OpenFile := mkOF { o_fileid : Z; o_file : Z; o_mode : Z; o_fd : Z }.

(** The fields of struct Fd and of the requests in union Fsipc. *)
Definition fd_dev_id_va (fd : Z) : Z := fd.
Definition fd_offset_va (fd : Z) : Z := fd + 4.
Definition fd_omode_va (fd : Z) : Z := fd + 8.
Definition fd_file_va (fd : Z) : Z := fd + 12.
Definition req_omode_va : Z := fsreq + MAXPATHLEN.
Definition req_fileid_va : Z := fsreq.
Definition req_n_va : Z := fsreq + 4.       (* also req_size *)
Definition req_buf_va : Z := fsreq + 8.
Definition ret_size_va : Z := fsreq + 128.
Definition ret_isdir_va : Z := fsreq + 132.

Section serv.
Context `{IdeDevice}.

(** [sv_shared va]: how often other environments have the page at [va]
    mapped. *)
Record sst := mkSv { sv_fs : fss; sv_tab : list OpenFile; sv_shared : Z → Z }.
Definition sw_fs (f : fss) (s : sst) : sst := mkSv f (sv_tab s) (sv_shared s).
Definition sw_tab (t : list OpenFile) (s : sst) : sst := mkSv (sv_fs s) t (sv_shared s).
Definition sw_shared (h : Z → Z) (s : sst) : sst := mkSv (sv_fs s) (sv_tab s) h.

(** A call into fs.c, or an access to memory. *)
Definition fs {A} (m : M fss A) : M sst A := λ s,
  match m (sv_fs s) with
  | Ok a f => Ok a (sw_fs f s)
  | Noret x f => Noret x (sw_fs f s)
  | Panic msg => Panic msg
  | Undef => Undef
  end.

(** ** The table of open files *)

(** opentab[i] *)
Definition opentab (i : Z) : M sst OpenFile :=
  s ← mget; mderef (if i <? 0 then None else sv_tab s !! Z.to_nat i).
Definition opentab_set (i : Z) (o : OpenFile) : M sst unit :=
  mmod (λ s, sw_tab (<[Z.to_nat i := o]> (sv_tab s)) s).

Definition serve_init : M sst unit :=
  mfor (seqZ 0 MAXOPEN) (λ i,
    o ← opentab i;
    opentab_set i (mkOF i (o_file o) (o_mode o) (FILEVA + i * PGSIZE))).

(** lib/pageref.c, for the server's pages. *)
Definition sv_pageref (va : Z) : M sst Z := mgets (λ s,
  if negb (tst (f_pde (sv_fs s) (PDX va)) PTE_P) then 0
  else if negb (tst (pte_of (sv_fs s) va) PTE_P) then 0
  else 1 + sv_shared s va).

(** The result, and the index of the entry. *)
Definition openfile_take (i : Z) : M sst (Z * Z) :=
  o ← opentab i;
  let id := u32 (o_fileid o + MAXOPEN) in
  opentab_set i (mkOF id (o_file o) (o_mode o) (o_fd o));;
  fs (u_memset (o_fd o) 0 PGSIZE);;
  mret (s32 id, i).

Fixpoint openfile_alloc_from (ixs : list Z) : M sst (Z * Z) :=
  match ixs with
  | [] => mret (- E_MAX_OPEN, 0)
  | i :: ixs =>
      o ← opentab i;
      n ← sv_pageref (o_fd o);
      if n =? 0 then
        r ← fs (u_page_alloc (o_fd o) (Z.lor (Z.lor PTE_P PTE_U) PTE_W));
        if r <? 0 then mret (r, 0) else openfile_take i
      else if n =? 1 then openfile_take i
      else openfile_alloc_from ixs
  end.
Definition openfile_alloc : M sst (Z * Z) := openfile_alloc_from (seqZ 0 MAXOPEN).

(** The result and, on success, the index of the entry. *)
Definition openfile_lookup (fileid : Z) : M sst (Z * Z) :=
  let i := fileid mod MAXOPEN in
  o ← opentab i;
  n ← sv_pageref (o_fd o);
  if (n <=? 1) || negb (o_fileid o =? fileid) then mret (- E_INVAL, 0) else mret (0, i).

(** ** The requests *)

(** The string in the first MAXPATHLEN bytes at [a], the last taken as 0. *)
Fixpoint path_bytes (n : nat) (m : mem) (a : Z) : list Z :=
  match n with
  | O => []
  | S n => if rd8 m a =? 0 then [] else rd8 m a :: path_bytes n m (a + 1)
  end.
Definition copy_path : M fss (list Z) :=
  touch_range false fsreq MAXPATHLEN;;
  mgets (λ s, path_bytes (Z.to_nat (MAXPATHLEN - 1)) (f_mem s) fsreq).

(** try_open: and what leads to it. *)
Definition open_or_create (path : list Z) : M fss (Z * Z) :=
  omode ← ld32 req_omode_va;
  if tst omode O_CREAT then
    '(r, f) ← file_create path;
    if r <? 0 then
      omode ← ld32 req_omode_va;
      if negb (tst omode O_EXCL) && (r =? - E_FILE_EXISTS) then file_open path else mret (r, f)
    else mret (r, f)
  else file_open path.

(** The result, *pg_store and *perm_store where they are set. *)
Definition serve_open : M sst (Z * option (Z * Z)) :=
  path ← fs copy_path;
  '(r, i) ← openfile_alloc;
  if r <? 0 then mret (r, None) else
  '(r, f) ← fs (open_or_create path);
  if r <? 0 then mret (r, None) else
  omode ← fs (ld32 req_omode_va);
  r ← (if tst omode O_TRUNC then fs (file_set_size f 0) else mret 0);
  if r <? 0 then mret (r, None) else
  '(r, f) ← fs (file_open path);
  if r <? 0 then mret (r, None) else
  o ← opentab i;
  opentab_set i (mkOF (o_fileid o) f (o_mode o) (o_fd o));;
  fs (st32 (fd_file_va (o_fd o)) (o_fileid o));;
  omode ← fs (ld32 req_omode_va);
  fs (st32 (fd_omode_va (o_fd o)) (Z.land omode O_ACCMODE));;
  fs (st32 (fd_dev_id_va (o_fd o)) DEVFILE_ID);;
  omode ← fs (ld32 req_omode_va);
  opentab_set i (mkOF (o_fileid o) f (s32 omode) (o_fd o));;
  mret (0, Some (o_fd o, PTE_P + PTE_U + PTE_W + PTE_SHARE)).

(** openfile_lookup(envid, req->req_fileid, &o), then [k] on the open file. *)
Definition with_open (k : OpenFile → M fss Z) : M sst Z :=
  fileid ← fs (ld32 req_fileid_va);
  '(r, i) ← openfile_lookup fileid;
  if r <? 0 then mret r else o ← opentab i; fs (k o).

Definition serve_set_size : M sst Z :=
  with_open (λ o, size ← ld32 req_n_va; file_set_size (o_file o) (s32 size)).

(** Read, write and stat of the open file that has been found. *)
Definition read_open (o : OpenFile) : M fss Z :=
  n ← ld32 req_n_va;
  let size := if n <=? PGSIZE then n else PGSIZE in
  off ← ld32 (fd_offset_va (o_fd o));
  r ← file_read (o_file o) fsreq size (s32 off);
  mwhen (0 <? r) (off ← ld32 (fd_offset_va (o_fd o)); st32 (fd_offset_va (o_fd o)) (u32 (off + r)));;
  mret r.
Definition serve_read : M sst Z := with_open read_open.

Definition write_open (o : OpenFile) : M fss Z :=
  n ← ld32 req_n_va;
  let req_n := if PGSIZE <? n then PGSIZE else n in
  off ← ld32 (fd_offset_va (o_fd o));
  r ← file_write (o_file o) req_buf_va req_n (s32 off);
  if r <? 0 then mret r
  else off ← ld32 (fd_offset_va (o_fd o)); st32 (fd_offset_va (o_fd o)) (u32 (off + r));; mret r.
Definition serve_write : M sst Z := with_open write_open.

(** strcpy into an array of [n] bytes; writing past it is undefined. *)
Fixpoint strcpy_in (n : nat) (dst src : Z) : M fss unit :=
  match n with
  | O => mundef
  | S n => c ← ld8 src; st8 dst c;; if c =? 0 then mret tt else strcpy_in n (dst + 1) (src + 1)
  end.

Definition stat_open (o : OpenFile) : M fss Z :=
  strcpy_in (Z.to_nat MAXNAMELEN) fsreq (o_file o);;
  size ← ld32 (f_size_va (o_file o));
  st32 ret_size_va size;;
  ty ← ld32 (f_type_va (o_file o));
  st32 ret_isdir_va (if ty =? FTYPE_DIR then 1 else 0);;
  mret 0.
Definition serve_stat : M sst Z := with_open stat_open.

Definition serve_flush : M sst Z := with_open (λ o, file_flush (o_file o);; mret 0).
Definition serve_sync : M sst Z := fs (fs_sync;; mret 0).

(** handlers[req], of the nine entries of the array. *)
Definition handlers (req : Z) : option (M sst Z) :=
  if req =? FSREQ_READ then Some serve_read
  else if req =? FSREQ_STAT then Some serve_stat
  else if req =? FSREQ_FLUSH then Some serve_flush
  else if req =? FSREQ_WRITE then Some serve_write
  else if req =? FSREQ_SET_SIZE then Some serve_set_size
  else if req =? FSREQ_SYNC then Some serve_sync
  else None.

Definition serve_dispatch (whom req : Z) : M sst (Z * option (Z * Z)) :=
  if req =? FSREQ_OPEN then serve_open
  else match handlers req with
       | Some h => r ← h; mret (r, None)
       | None => fs (fprint (line "Invalid request code %d from %08x") [AInt req; AInt whom]);; mret (- E_INVAL, None)
       end.

(** ** The loop *)

(** A message: value, sender, the page that came with it (permissions and
    contents), whether the sender is still there to get the answer, and
    whether it waits for a page. *)
Record request := mkRq {
  rq_req : Z; rq_whom : Z; rq_page : option (Z * (Z → Z)); rq_alive : bool; rq_wants : bool }.

(** What ipc_recv(&whom, fsreq, &perm) does to the server: the page is
    mapped at fsreq.  The result is perm. *)
Definition sv_recv (q : request) : M sst Z :=
  match rq_page q with
  | None => mret 0
  | Some (perm, bytes) =>
      mmod (λ s, sw_fs (set_pte fsreq (Z.lor perm PTE_P)
        (fw_mem (λ a, if (fsreq <=? a) && (a <? fsreq + PGSIZE) then bytes (a - fsreq) else f_mem (sv_fs s) a)
           (sv_fs s))) s);;
      mret perm
  end.

(** ipc_send(whom, r, pg, perm): the sender, waiting for the answer, maps
    the page; ipc_send panics when it is gone. *)
Definition sv_send (q : request) (pg : option (Z * Z)) : M sst unit :=
  if negb (rq_alive q) then mpanic "sys_ipc_try_send error: in ipc_send()"
  else match pg with
       | Some (va, _) =>
           mwhen (rq_wants q) (mmod (λ s, sw_shared (λ a, if a =? va then sv_shared s a + 1 else sv_shared s a) s))
       | None => mret tt
       end.

(** One turn of the loop of serve; the answer, if one is sent. *)
Definition serve_one (q : request) : M sst (option (Z * option (Z * Z))) :=
  perm ← sv_recv q;
  if negb (tst perm PTE_P) then
    fs (fprint (line "Invalid request from %08x: no argument page") [AInt (rq_whom q)]);; mret None
  else
    '(r, pg) ← serve_dispatch (rq_whom q) (rq_req q);
    sv_send q pg;;
    fs (u_page_unmap fsreq);;
    mret (Some (r, pg)).

(** Between requests clients map and unmap the Fd pages they have. *)
Inductive input := Request (q : request) | Shares (va n : Z).

Fixpoint serve (l : list input) : M sst unit :=
  match l with
  | [] => mret tt
  | Request q :: l => serve_one q;; serve l
  | Shares va n :: l => mmod (λ s, sw_shared (λ a, if a =? va then n else sv_shared s a) s);; serve l
  end.

(** ** fs/test.c and umain *)

Definition motd : list Z := zs (line (line "This is the NEW message of the day!")).

(** bits[r/32] & (1 << (r%32)), of a bitmap at [a]. *)
Definition test_bit (a r : Z) : M fss bool := w ← ld32 (a + 4 * (r / 32)); mret (tst w (bit_of r)).
(** uvpt[PGNUM(a)] & PTE_D *)
Definition is_dirty (a : Z) : M fss bool := mgets (λ s, tst (pte_of s a) PTE_D).

Definition fs_test_alloc : M fss unit :=
  r ← u_page_alloc PGSIZE (Z.lor (Z.lor PTE_P PTE_U) PTE_W);
  if r <? 0 then mpanic "sys_page_alloc: %e" else
  u_memmove PGSIZE bitmap_va PGSIZE;;
  r ← alloc_block;
  if r <? 0 then mpanic "alloc_block: %e" else
  b ← test_bit PGSIZE r;
  massert b "assertion failed: bits[r/32] & (1 << (r%32))";;
  b ← test_bit bitmap_va r;
  massert (negb b) "assertion failed: !(bitmap[r/32] & (1 << (r%32)))";;
  fprint (line "alloc_block is good") [].

(** f, the file /newmotd. *)
Definition fs_test_open : M fss Z :=
  '(r, _) ← file_open (zs "/not-found");
  if (r <? 0) && negb (r =? - E_NOT_FOUND) then mpanic "file_open /not-found: %e"
  else if r =? 0 then mpanic "file_open /not-found succeeded!"
  else
    '(r, f) ← file_open (zs "/newmotd");
    if r <? 0 then mpanic "file_open /newmotd: %e" else
    fprint (line "file_open is good") [];;
    mret f.

(** The value of blk. *)
Definition fs_test_flush (f : Z) : M fss (option Z) :=
  '(r, blk) ← file_get_block f 0 None;
  if r <? 0 then mpanic "file_get_block: %e" else
  a ← mderef blk;
  c ← u_strcmp a motd;
  if negb (c =? 0) then mpanic "file_get_block returned wrong data" else
  fprint (line "file_get_block is good") [];;
  c ← ld8 a; st8 a c;;
  d ← is_dirty a; massert d "assertion failed: (uvpt[PGNUM(blk)] & PTE_D)";;
  file_flush f;;
  d ← is_dirty a; massert (negb d) "assertion failed: !(uvpt[PGNUM(blk)] & PTE_D)";;
  fprint (line "file_flush is good") [];;
  mret blk.

Definition fs_test_rewrite (f : Z) (blk : option Z) : M fss unit :=
  r ← file_set_size f 0;
  if r <? 0 then mpanic "file_set_size: %e" else
  d0 ← ld32 (f_direct_va f 0); massert (d0 =? 0) "assertion failed: f->f_direct[0] == 0";;
  d ← is_dirty f; massert (negb d) "assertion failed: !(uvpt[PGNUM(f)] & PTE_D)";;
  fprint (line "file_truncate is good") [];;
  r ← file_set_size f (Z.of_nat (length motd));
  if r <? 0 then mpanic "file_set_size 2: %e" else
  d ← is_dirty f; massert (negb d) "assertion failed: !(uvpt[PGNUM(f)] & PTE_D)";;
  '(r, blk) ← file_get_block f 0 blk;
  if r <? 0 then mpanic "file_get_block 2: %e" else
  a ← mderef blk;
  u_strcpy a motd;;
  d ← is_dirty a; massert d "assertion failed: (uvpt[PGNUM(blk)] & PTE_D)";;
  file_flush f;;
  d ← is_dirty a; massert (negb d) "assertion failed: !(uvpt[PGNUM(blk)] & PTE_D)";;
  d ← is_dirty f; massert (negb d) "assertion failed: !(uvpt[PGNUM(f)] & PTE_D)";;
  fprint (line "file rewrite is good") [].

Definition fs_test : M fss unit :=
  fs_test_alloc;; f ← fs_test_open; blk ← fs_test_flush f; fs_test_rewrite f blk.

(** [backup] and [super] are the addresses of the copies of the superblock;
    the outw to port 0x8A00 traps when the server may not do I/O. *)
Definition umain (backup super : Z) (l : list input) : M sst unit :=
  fs (fprint (line "FS is running") []);;
  fs (fprint (line "FS can do I/O") []);;
  serve_init;;
  fs (fs_init backup super);;
  fs fs_test;;
  serve l.
End serv.
