(* ===== verification/ServSpec.v ===== *)
(** The file server keeps the files that clients have open, and serves what
    they write back to them. *)

From S2P Require Import Prelude Mmu Printfmt KState Syscall CString Ide Bc Fs FsBlock FsFile FsSpec Serv.
From Stdlib Require Import ZArith Lia Ascii String.
From stdpp Require Import base tactics numbers list.
Open Scope Z_scope.

(** [Q] of the state a call ends in, when it ends in one. *)
Definition post {S A} (r : res S A) (Q : S → Prop) : Prop :=
  match r with Ok _ s | Noret _ s => Q s | Panic _ | Undef => True end.

Lemma post_mono {S A} (r : res S A) (Q Q' : S → Prop) : (∀ s, Q s → Q' s) → post r Q → post r Q'.
Proof. destruct r; cbn; auto. Qed.

Lemma post_bind {S A B} (m : M S A) (k : A → M S B) s (Q : S → Prop) :
  post (m s) Q → (∀ a s1, m s = Ok a s1 → Q s1 → post (k a s1) Q) → post ((m ≫= k) s) Q.
Proof. unfold mbind, M_bind. destruct (m s) eqn:E; cbn; auto. Qed.

(** The same with what is known of a result, and what of a state that the
    call does not return from. *)
Definition wlp {S A} (r : res S A) (E : S → Prop) (Q : A → S → Prop) : Prop :=
  match r with Ok a s => Q a s | Noret _ s => E s | Panic _ | Undef => True end.
Lemma wlp_bind {S A B} (m : M S A) (k : A → M S B) s E (Q : B → S → Prop) :
  wlp (m s) E (λ a s1, wlp (k a s1) E Q) → wlp ((m ≫= k) s) E Q.
Proof. unfold mbind, M_bind. by destruct (m s). Qed.
Lemma wlp_mono {S A} (r : res S A) E (Q Q' : A → S → Prop) : wlp r E Q → (∀ a s, Q a s → Q' a s) → wlp r E Q'.
Proof. destruct r; cbn; auto. Qed.

(* ------------------------------------------------------------------ *)
(** ** No call into fs.c unmaps a page of an open file *)

Section kept.
Context `{IdeDevice}.

Definition fdpage (p : Z) : Prop := 851968 ≤ p < 852992.
Record pages_kept (s s' : fss) : Prop := {
  pk_pte : ∀ p, fdpage p → tst (f_pte s p) PTE_P = true → tst (f_pte s' p) PTE_P = true;
  pk_pde : ∀ d, tst (f_pde s d) PTE_P = true → tst (f_pde s' d) PTE_P = true }.

#[export] Instance pages_kept_refl : Reflexive pages_kept.
Proof. by constructor. Qed.
#[export] Instance pages_kept_trans : Transitive pages_kept.
Proof. intros s1 s2 s3 [A1 B1] [A2 B2]. constructor; auto. Qed.

Definition keeper {A} (m : M fss A) : Prop := ∀ s, post (m s) (pages_kept s).

Lemma keeper_ret {A} (a : A) : keeper (mret a).
Proof. intros s. apply pages_kept_refl. Qed.
Lemma keeper_bind {A B} (m : M fss A) (k : A → M fss B) : keeper m → (∀ a, keeper (k a)) → keeper (m ≫= k).
Proof.
  intros Hm Hk s. apply post_bind; [apply Hm|]. intros a s1 _ H1.
  apply (post_mono _ (pages_kept s1)); [intros s2 H2; by etrans|apply Hk].
Qed.
Lemma keeper_gets {A} (g : fss → A) : keeper (mgets g).
Proof. intros s. apply pages_kept_refl. Qed.
Lemma keeper_panic {A} msg : keeper (@mpanic fss A msg).
Proof. by intros s. Qed.
Lemma keeper_undef {A} : keeper (@mundef fss A).
Proof. by intros s. Qed.
Lemma keeper_leave {A} x : keeper (@mleave fss A x).
Proof. intros s. apply pages_kept_refl. Qed.
Lemma keeper_deref {A} (o : option A) : keeper (mderef o).
Proof. destruct o; [apply keeper_ret|apply keeper_undef]. Qed.
Lemma keeper_assert b msg : keeper (massert b msg).
Proof. destruct b; [apply keeper_ret|apply keeper_panic]. Qed.
Lemma keeper_when b m : keeper m → keeper (mwhen b m).
Proof. destruct b; [done|intros _; apply keeper_ret]. Qed.
Lemma keeper_for {A} (l : list A) f : (∀ x, keeper (f x)) → keeper (mfor l f).
Proof. intros Hf. induction l; [apply keeper_ret|]. cbn. by apply keeper_bind. Qed.
(** A change of the state that leaves the pages alone. *)
Lemma keeper_mod g : (∀ s, pages_kept s (g s)) → keeper (mmod g).
Proof. intros Hg s. apply Hg. Qed.

Lemma kept_same s s' : f_pte s' = f_pte s → f_pde s' = f_pde s → pages_kept s s'.
Proof. intros E1 E2. constructor; intros; by rewrite ?E1, ?E2. Qed.
Lemma tst_lor_P p : tst (Z.lor p PTE_P) PTE_P = true.
Proof.
  unfold tst. apply negb_true_iff, Z.eqb_neq. intros E. apply (f_equal (λ x, Z.testbit x 0)) in E.
  rewrite Z.land_spec, Z.lor_spec in E. cbn in E. by rewrite orb_true_r in E.
Qed.
Lemma tst_lor_l p q : tst p PTE_P = true → tst (Z.lor p q) PTE_P = true.
Proof.
  unfold tst. rewrite !negb_true_iff, !Z.eqb_neq. intros Hp E. apply Hp.
  rewrite Z.land_lor_distr_l in E. by apply Z.lor_eq_0_iff in E as [E _].
Qed.
Lemma kept_set_pte va v s : (tst (pte_of s va) PTE_P = true → tst v PTE_P = true) → pages_kept s (set_pte va v s).
Proof.
  intros Hv. constructor; cbn; [|done]. intros p _ Hp. destruct (Z.eqb_spec p (PGNUM va)) as [->|]; auto.
Qed.
End kept.

Create HintDb keeper.
#[export] Hint Resolve keeper_ret keeper_gets keeper_panic keeper_undef keeper_leave keeper_deref keeper_assert
  keeper_when keeper_for : keeper.
#[export] Hint Extern 1 (keeper (_ ≫= _)) => apply keeper_bind; [|intros ?] : keeper.
#[export] Hint Extern 1 (keeper (if ?b then _ else _)) => destruct b : keeper.
#[export] Hint Extern 2 (keeper (match ?x with _ => _ end)) => destruct x : keeper.
#[export] Hint Extern 1 (keeper (let _ := _ in _)) => intros : keeper.
Ltac keeper := intros; eauto 60 with keeper.

Section kept_calls.
Context `{IdeDevice}.

Lemma keeper_fprint fmt ap : keeper (fprint fmt ap).
Proof. apply keeper_mod. by intros; apply kept_same. Qed.
Lemma keeper_inb port : keeper (ide_inb port).
Proof. intros s. unfold ide_inb. destruct (dev_inb _ _). by apply kept_same. Qed.
Lemma keeper_outb port v : keeper (ide_outb port v).
Proof. apply keeper_mod. by intros; apply kept_same. Qed.
Lemma keeper_insl va : keeper (ide_insl va).
Proof.
  intros s. unfold ide_insl. destruct (tst _ _); [|done]. destruct (dev_insl _) as [bs d]. cbn.
  transitivity (fw_mem (wr_bytes (f_mem s) va bs) (fw_dev d s)); [by apply kept_same|].
  apply kept_set_pte. apply tst_lor_l.
Qed.
Lemma keeper_outsl va : keeper (ide_outsl va).
Proof. intros s. unfold ide_outsl. destruct (tst _ _); [|done]. by apply kept_same. Qed.
Hint Resolve keeper_fprint keeper_inb keeper_outb keeper_insl keeper_outsl : keeper.

Lemma keeper_wait n c : keeper (ide_wait n c).
Proof. induction n; cbn; keeper. Qed.
Hint Resolve keeper_wait : keeper.
Lemma keeper_sectors xfer n : (∀ va, keeper (xfer va)) → ∀ va, keeper (ide_sectors xfer n va).
Proof. intros Hx. induction n; cbn; unfold ide_wait_ready; keeper. Qed.
Hint Resolve keeper_sectors : keeper.
Lemma keeper_command a b c : keeper (ide_command a b c).
Proof. unfold ide_command. keeper. Qed.
Hint Resolve keeper_command : keeper.
Lemma keeper_ide_read a b c : keeper (ide_read a b c).
Proof. unfold ide_read, ide_wait_ready. keeper. Qed.
Lemma keeper_ide_write a b c : keeper (ide_write a b c).
Proof. unfold ide_write, ide_wait_ready. keeper. Qed.

Lemma keeper_page_alloc va perm : keeper (u_page_alloc va perm).
Proof.
  intros s. unfold u_page_alloc. destruct (_ || _); [apply pages_kept_refl|].
  destruct (_ <? _); [apply pages_kept_refl|]. destruct (_ && _); [by apply kept_same|]. constructor; cbn.
  - intros p _ Hp. destruct (_ =? _); [apply tst_lor_P|done].
  - intros d Hd. destruct (_ =? _); [by apply tst_lor_l|done].
Qed.
Lemma keeper_page_remap va perm : keeper (u_page_remap va perm).
Proof.
  intros s. unfold u_page_remap. destruct (_ || _); [apply pages_kept_refl|].
  destruct (negb _); [apply pages_kept_refl|]. destruct (negb _); [done|]. apply kept_set_pte. intros _. apply tst_lor_P.
Qed.
End kept_calls.
#[export] Hint Resolve keeper_fprint keeper_ide_read keeper_ide_write keeper_page_alloc keeper_page_remap : keeper.

Section kept_fs.
Context `{IdeDevice}.

(** The block cache. *)
Lemma keeper_past_end ld b : (∀ a, keeper (ld a)) → keeper (past_end ld b).
Proof. intros. unfold past_end. keeper. Qed.
Lemma keeper_is_free_with ld b : (∀ a, keeper (ld a)) → keeper (block_is_free_with ld b).
Proof. intros. unfold block_is_free_with. keeper. Qed.
Hint Resolve keeper_past_end keeper_is_free_with : keeper.
Lemma keeper_bc_pgfault ld va : (∀ a, keeper (ld a)) → keeper (bc_pgfault ld va).
Proof. intros. unfold bc_pgfault. keeper. Qed.
Hint Resolve keeper_bc_pgfault : keeper.

Lemma kept_mark_dirty va s : pages_kept s (mark_dirty va s).
Proof. apply kept_set_pte. apply tst_lor_l. Qed.
Lemma keeper_touch n : ∀ w va, keeper (touch n w va).
Proof.
  induction n as [|n IH]; intros w va s; cbn; destruct (accessible _ _); cbn;
    try (destruct w; [apply kept_mark_dirty|apply pages_kept_refl]); [apply pages_kept_refl|].
  apply (keeper_bind (bc_pgfault _ va)); [|intros _; apply IH]. apply keeper_bc_pgfault. keeper.
Qed.
Hint Resolve keeper_touch : keeper.

Lemma keeper_ld8 va : keeper (ld8 va).
Proof. unfold ld8. keeper. Qed.
Lemma keeper_ld32 va : keeper (ld32 va).
Proof. unfold ld32. keeper. Qed.
Lemma keeper_mem (g : fss → mem) : keeper (mmod (λ s, fw_mem (g s) s)).
Proof. apply keeper_mod. by intros; apply kept_same. Qed.
Hint Resolve keeper_ld8 keeper_ld32 : keeper.
Hint Extern 1 (keeper (mmod _)) => apply keeper_mem : keeper.
Lemma keeper_st8 va v : keeper (st8 va v).
Proof. unfold st8. keeper. Qed.
Lemma keeper_st32 va v : keeper (st32 va v).
Proof. unfold st32. keeper. Qed.
Lemma keeper_touch_range w va n : keeper (touch_range w va n).
Proof. unfold touch_range. keeper. Qed.
Hint Resolve keeper_st8 keeper_st32 keeper_touch_range : keeper.
Lemma keeper_memset va c n : keeper (u_memset va c n).
Proof. unfold u_memset. keeper. Qed.
Lemma keeper_memmove d a n : keeper (u_memmove d a n).
Proof. unfold u_memmove. keeper. Qed.
Lemma keeper_is_free b : keeper (block_is_free b).
Proof. unfold block_is_free. keeper. Qed.
Lemma keeper_diskaddr b : keeper (diskaddr b).
Proof. unfold diskaddr. keeper. Qed.
Lemma keeper_flush_block a : keeper (flush_block a).
Proof. unfold flush_block, va_is_mapped, va_is_dirty. keeper. Qed.
Hint Resolve keeper_memset keeper_memmove keeper_is_free keeper_diskaddr keeper_flush_block : keeper.

(** Blocks and files. *)
Lemma keeper_f_size f : keeper (f_size f).
Proof. unfold f_size. keeper. Qed.
Lemma keeper_free_block b : keeper (free_block b).
Proof. unfold free_block. keeper. Qed.
Lemma keeper_alloc_from n : ∀ b, keeper (alloc_from n b).
Proof. induction n; intros; cbn [alloc_from]; keeper. Qed.
Hint Resolve keeper_f_size keeper_free_block keeper_alloc_from : keeper.
Lemma keeper_alloc_block : keeper alloc_block.
Proof. unfold alloc_block. keeper. Qed.
Hint Resolve keeper_alloc_block : keeper.
Lemma keeper_fill_slot pp : keeper (fill_slot pp).
Proof. unfold fill_slot. keeper. Qed.
Hint Resolve keeper_fill_slot : keeper.
Lemma keeper_block_walk f b a : keeper (file_block_walk f b a).
Proof. unfold file_block_walk. keeper. Qed.
Lemma keeper_slot_block pp o : keeper (slot_block pp o).
Proof. unfold slot_block. keeper. Qed.
Hint Resolve keeper_block_walk keeper_slot_block : keeper.
Lemma keeper_get_block f b o : keeper (file_get_block f b o).
Proof. unfold file_get_block. keeper. Qed.
Hint Resolve keeper_get_block : keeper.
Lemma keeper_pieces n mv f stop : (∀ a b c, keeper (mv a b c)) → ∀ pos buf o, keeper (file_pieces n mv f pos stop buf o).
Proof. intros Hm. induction n; intros; cbn [file_pieces]; keeper. Qed.
Hint Resolve keeper_pieces : keeper.
Lemma keeper_file_read f b c o : keeper (file_read f b c o).
Proof. unfold file_read. keeper. Qed.
Lemma keeper_free_file_block f b : keeper (file_free_block f b).
Proof. unfold file_free_block. keeper. Qed.
Hint Resolve keeper_free_file_block : keeper.
Lemma keeper_truncate f n : keeper (file_truncate_blocks f n).
Proof. unfold file_truncate_blocks. keeper. Qed.
Hint Resolve keeper_truncate : keeper.
Lemma keeper_set_size f n : keeper (file_set_size f n).
Proof. unfold file_set_size. keeper. Qed.
Hint Resolve keeper_set_size : keeper.
Lemma keeper_file_write f b c o : keeper (file_write f b c o).
Proof. unfold file_write. keeper. Qed.
Lemma keeper_file_flush f : keeper (file_flush f).
Proof. unfold file_flush. keeper. Qed.
Lemma keeper_fs_sync : keeper fs_sync.
Proof. unfold fs_sync. keeper. Qed.
Hint Resolve keeper_file_read keeper_file_write keeper_file_flush keeper_fs_sync : keeper.

(** Directories and paths. *)
Lemma keeper_strcmp l : ∀ a, keeper (u_strcmp a l).
Proof. induction l; intros; cbn [u_strcmp]; keeper. Qed.
Lemma keeper_strcpy l : ∀ a, keeper (u_strcpy a l).
Proof. induction l; intros; cbn [u_strcpy]; keeper. Qed.
Lemma keeper_find_file n t : (∀ f, keeper (t f)) → ∀ f, keeper (find_file n t f).
Proof. intros Ht. induction n; intros; cbn [find_file]; keeper. Qed.
Hint Resolve keeper_strcmp keeper_strcpy keeper_find_file : keeper.
Lemma keeper_find_block n t d : (∀ f, keeper (t f)) → ∀ i o, keeper (find_block n t d i o).
Proof. intros Ht. induction n; cbn [find_block]; keeper. Qed.
Hint Resolve keeper_find_block : keeper.
Lemma keeper_dir_nblock d : keeper (dir_nblock d).
Proof. unfold dir_nblock. keeper. Qed.
Hint Resolve keeper_dir_nblock : keeper.
Lemma keeper_dir_lookup d n : keeper (dir_lookup d n).
Proof. unfold dir_lookup. keeper. Qed.
Lemma keeper_dir_alloc d : keeper (dir_alloc_file d).
Proof. unfold dir_alloc_file. keeper. Qed.
Hint Resolve keeper_dir_lookup keeper_dir_alloc : keeper.
Lemma keeper_walk_from n : ∀ p d f, keeper (walk_from n p d f).
Proof. induction n; intros []; intros; cbn [walk_from]; keeper. Qed.
Hint Resolve keeper_walk_from : keeper.
Lemma keeper_walk_path p : keeper (walk_path p).
Proof. unfold walk_path. keeper. Qed.
Hint Resolve keeper_walk_path : keeper.
Lemma keeper_create p : keeper (file_create p).
Proof. unfold file_create. keeper. Qed.
Lemma keeper_open p : keeper (file_open p).
Proof. unfold file_open. keeper. Qed.
Hint Resolve keeper_create keeper_open : keeper.
Lemma keeper_copy_path : keeper copy_path.
Proof. unfold copy_path. keeper. Qed.
Lemma keeper_open_or_create p : keeper (open_or_create p).
Proof. unfold open_or_create. keeper. Qed.
Lemma keeper_strcpy_in n : ∀ d s, keeper (strcpy_in n d s).
Proof. induction n; intros; cbn [strcpy_in]; keeper. Qed.
End kept_fs.
#[export] Hint Resolve keeper_ld32 keeper_st32 keeper_memset keeper_file_read keeper_file_write keeper_file_flush keeper_fs_sync
  keeper_set_size keeper_open keeper_copy_path keeper_open_or_create keeper_strcpy_in : keeper.

(* ------------------------------------------------------------------ *)
(** ** The open files *)

Section open_files.
Context `{IdeDevice}.

Definition fdva (i : nat) : Z := FILEVA + Z.of_nat i * PGSIZE.
Definition fd_mapped (f : fss) (va : Z) : bool := tst (f_pde f (PDX va)) PTE_P && tst (pte_of f va) PTE_P.
(** Some client has the i-th file open. *)
Definition in_use (s : sst) (i : nat) : Prop := 0 < sv_shared s (fdva i).

Record sv_inv (s : sst) : Prop := {
  si_len : length (sv_tab s) = 1024%nat;
  si_ent : ∀ i o, sv_tab s !! i = Some o →
    o_fd o = fdva i ∧ 0 ≤ o_fileid o < 2 ^ 32 ∧ o_fileid o mod 1024 = Z.of_nat i;
  si_shared : ∀ i, (i < 1024)%nat → 0 ≤ sv_shared s (fdva i) ∧ (in_use s i → fd_mapped (sv_fs s) (fdva i) = true) }.

(** What serving a request does to the table: the files in use are left as
    they are; another entry may get its next id. *)
Record served (s s' : sst) : Prop := {
  sd_inv : sv_inv s';
  sd_keep : ∀ i, in_use s i → sv_tab s' !! i = sv_tab s !! i ∧ in_use s' i;
  sd_ids : ∀ i o o', sv_tab s !! i = Some o → sv_tab s' !! i = Some o' →
    o_fileid o' = o_fileid o ∨ ¬ in_use s i ∧ o_fileid o' = u32 (o_fileid o + MAXOPEN) }.

Lemma fdva_page i : (i < 1024)%nat → PGNUM (fdva i) = 851968 + Z.of_nat i.
Proof.
  intros Hi. unfold fdva. rewrite PGNUM_pg by lia.
  replace (FILEVA + Z.of_nat i * PGSIZE) with ((851968 + Z.of_nat i) * 4096) by lia. apply Z.div_mul. lia.
Qed.

Lemma fd_mapped_kept f f' i : (i < 1024)%nat → pages_kept f f' → fd_mapped f (fdva i) = true → fd_mapped f' (fdva i) = true.
Proof.
  intros Hi [K1 K2]. unfold fd_mapped, pte_of. rewrite !andb_true_iff, fdva_page by done. intros [H1 H2].
  split; [by apply K2|]. apply K1; [unfold fdpage; lia|done].
Qed.

Lemma served_refl s : sv_inv s → served s s.
Proof. intros Hs. constructor; [done|done|]. intros i o o' -> [= <-]. by left. Qed.

(** A change of the server's memory. *)
Lemma served_mem s s1 f : served s s1 → pages_kept (sv_fs s1) f → served s (sw_fs f s1).
Proof.
  intros [[L E Sh] K I] Hk. constructor; [constructor|done|done]; cbn; [done|done|].
  intros i Hi. destruct (Sh i Hi) as [H1 H2]. split; [done|]. intros Hu. eapply fd_mapped_kept; eauto.
Qed.

(** A call into fs.c with what is known after it. *)
Lemma wlp_fs {A} (m : M fss A) s s1 (Q : A → sst → Prop) : served s s1 → keeper m →
  (∀ a f, m (sv_fs s1) = Ok a f → pages_kept (sv_fs s1) f → served s (sw_fs f s1) → Q a (sw_fs f s1)) →
  wlp (fs m s1) (served s) Q.
Proof.
  intros Hs Hm HQ. unfold fs. specialize (Hm (sv_fs s1)).
  destruct (m (sv_fs s1)); cbn in *; try done; [apply HQ; try done|]; by apply served_mem.
Qed.

Lemma next_id x : u32 (x + MAXOPEN) mod 1024 = x mod 1024.
Proof.
  unfold u32. change (2 ^ 32) with (4194304 * 1024). rewrite Z.mul_comm, Z.rem_mul_r by lia.
  rewrite Z.mul_comm, Z_mod_plus_full, Zmod_mod. apply (Z_mod_plus_full x 1 1024).
Qed.

(** A change of an entry that is not in use. *)
Lemma served_set s s1 i o o' : sv_inv s → served s s1 → ¬ in_use s i → sv_tab s !! i = Some o →
  o_fd o' = fdva i → o_fileid o' = o_fileid o ∨ o_fileid o' = u32 (o_fileid o + MAXOPEN) →
  served s (sw_tab (<[i := o']> (sv_tab s1)) s1).
Proof.
  intros H0 [[L E Sh] K I] Hu Ho Hfd Hid. constructor; [constructor|..]; cbn.
  - by rewrite length_insert.
  - intros j p. rewrite list_lookup_insert. case_decide as Hj; [|apply E]. destruct Hj as [-> Hj]. intros [= <-].
    destruct (si_ent _ H0 _ _ Ho) as (_ & R & M). split; [done|]. destruct Hid as [->| ->]; [done|].
    split; [apply Z.mod_pos_bound; lia|by rewrite next_id].
  - done.
  - intros j Hj. rewrite list_lookup_insert_ne; [by apply K|]. by intros ->.
  - intros j p p' Hp. rewrite list_lookup_insert. case_decide as Hj; [|by apply I]. destruct Hj as [<- _]. intros [= <-].
    rewrite Ho in Hp. injection Hp as <-. destruct Hid; [by left|by right].
Qed.

(** The client gets the page of an entry. *)
Lemma served_send s s1 i : served s s1 → (i < 1024)%nat → fd_mapped (sv_fs s1) (fdva i) = true →
  served s (sw_shared (λ a, if a =? fdva i then sv_shared s1 a + 1 else sv_shared s1 a) s1).
Proof.
  intros [[L E Sh] K I] Hi Hm. constructor; [constructor|..]; cbn; [done|done|..|done].
  - intros j Hj. unfold in_use. cbn. destruct (Sh j Hj) as [H1 H2]. destruct (Z.eqb_spec (fdva j) (fdva i)) as [Ev|]; [|done].
    rewrite Ev. split; [rewrite Ev in H1; lia|done].
  - intros j Hj. destruct (K j Hj) as [K1 K2]. split; [done|]. unfold in_use in *. cbn. destruct (_ =? _); lia.
Qed.

Lemma opentab_Ok i s o s' : opentab i s = Ok o s' → s' = s ∧ 0 ≤ i ∧ sv_tab s !! Z.to_nat i = Some o.
Proof.
  unfold opentab. mrun. destruct (Z.ltb_spec i 0); [done|]. destruct (sv_tab s !! Z.to_nat i) eqn:E; [|done].
  cbn. intros [= <- <-]. split_and!; [done|lia|done].
Qed.

Lemma page_alloc_mapped va perm f r f' : u_page_alloc va perm f = Ok r f' → 0 ≤ r → fd_mapped f' va = true.
Proof.
  unfold u_page_alloc. destruct (_ || _); [intros [= <- <-]; lia|]. destruct (_ <? _); [intros [= <- <-]; lia|].
  destruct (_ && _); [intros [= <- <-]; lia|]. intros [= <- <-] _. unfold fd_mapped, pte_of. cbn.
  rewrite !Z.eqb_refl, tst_lor_P, andb_true_r. rewrite Z.lor_comm. apply tst_lor_l. done.
Qed.

(** What is known while serve_open holds the entry [i]. *)
Record taken (s s1 : sst) (i : Z) : Prop := {
  tk_served : served s s1;
  tk_ix : 0 ≤ i < 1024;
  tk_free : ¬ in_use s (Z.to_nat i);
  tk_mapped : fd_mapped (sv_fs s1) (fdva (Z.to_nat i)) = true }.

Lemma taken_fs {A} (m : M fss A) s s1 i (Q : A → sst → Prop) : taken s s1 i → keeper m →
  (∀ a f, taken s (sw_fs f s1) i → Q a (sw_fs f s1)) → wlp (fs m s1) (served s) Q.
Proof.
  intros [T1 T2 T3 T4] Hm HQ. apply wlp_fs; [done|done|]. intros a f _ Hk Hs. apply HQ. constructor; try done.
  cbn. eapply fd_mapped_kept; eauto; lia.
Qed.

Lemma opentab_run s i o : 0 ≤ i → sv_tab s !! Z.to_nat i = Some o → opentab i s = Ok o s.
Proof. intros Hi Ho. unfold opentab. mrun. by rewrite (proj2 (Z.ltb_ge _ _)), Ho by lia. Qed.

Lemma taken_take s s1 i : sv_inv s → served s s1 → sv_tab s1 = sv_tab s → 0 ≤ i < 1024 → ¬ in_use s (Z.to_nat i) →
  fd_mapped (sv_fs s1) (fdva (Z.to_nat i)) = true →
  wlp (openfile_take i s1) (served s) (λ '(r, j) s2, served s s2 ∧ (0 ≤ r → taken s s2 j)).
Proof.
  intros H0 Hs Ht Hi Hu Hm. unfold openfile_take.
  destruct (lookup_lt_is_Some_2 (sv_tab s) (Z.to_nat i)) as [o Ho]; [rewrite (si_len _ H0); lia|].
  rewrite (bind_Ok _ _ _ _ _ (opentab_run s1 i o ltac:(lia) ltac:(by rewrite Ht))). cbn. unfold opentab_set. mrun.
  destruct (si_ent _ H0 _ _ Ho) as (Efd & _). apply wlp_bind. eapply taken_fs; [|keeper|].
  - constructor; [|done..]. eapply served_set; eauto.
  - intros _ f T. split; [apply T|done].
Qed.

(** openfile_alloc: an error, or an entry that no client has open. *)
Lemma openfile_alloc_wp s s1 ixs : sv_inv s → served s s1 → sv_tab s1 = sv_tab s → sv_shared s1 = sv_shared s →
  (∀ i, i ∈ ixs → 0 ≤ i < 1024) →
  wlp (openfile_alloc_from ixs s1) (served s) (λ '(r, i) s2, served s s2 ∧ (0 ≤ r → taken s s2 i)).
Proof.
  intros H0 Hs Ht Hsh. induction ixs as [|i ixs IH]; intros Hix; cbn [openfile_alloc_from].
  { split; [done|lia]. }
  specialize (IH ltac:(intros j Hj; apply Hix; by constructor)).
  assert (Hi : 0 ≤ i < 1024) by (apply Hix; constructor).
  destruct (lookup_lt_is_Some_2 (sv_tab s) (Z.to_nat i)) as [o Ho]; [rewrite (si_len _ H0); lia|].
  rewrite (bind_Ok _ _ _ _ _ (opentab_run s1 i o ltac:(lia) ltac:(by rewrite Ht))).
  destruct (si_ent _ H0 _ _ Ho) as (Efd & _).
  destruct (si_shared _ (sd_inv _ _ Hs) (Z.to_nat i)) as [Hge Him]; [lia|].
  assert (Hpr : sv_pageref (o_fd o) s1 =
    Ok (if fd_mapped (sv_fs s1) (fdva (Z.to_nat i)) then 1 + sv_shared s1 (fdva (Z.to_nat i)) else 0) s1).
  { unfold sv_pageref, mgets, fd_mapped. rewrite Efd. by destruct (tst _ _), (tst _ _). }
  rewrite (bind_Ok _ _ _ _ _ Hpr). unfold in_use in Him. rewrite Hsh in Hge, Him |- *.
  destruct (fd_mapped (sv_fs s1) (fdva (Z.to_nat i))) eqn:Hm.
  - destruct (Z.eqb_spec (1 + sv_shared s (fdva (Z.to_nat i))) 0); [lia|].
    destruct (Z.eqb_spec (1 + sv_shared s (fdva (Z.to_nat i))) 1); [|done].
    apply taken_take; try done. unfold in_use. lia.
  - change (0 =? 0) with true. cbv iota. apply wlp_bind, wlp_fs; [done|keeper|]. intros r f Ea Hk Hs2.
    destruct (Z.ltb_spec r 0) as [|Hr]; [split; [done|lia]|].
    apply taken_take; try done.
    + unfold in_use. intros Hu. by specialize (Him Hu).
    + rewrite <- Efd. by eapply page_alloc_mapped.
Qed.
(** serve_open fills in the entry it has taken. *)
Lemma taken_entry s s1 i : sv_inv s → taken s s1 i → ∃ o, sv_tab s1 !! Z.to_nat i = Some o ∧ o_fd o = fdva (Z.to_nat i) ∧
  ∀ f m, taken s (sw_tab (<[Z.to_nat i := mkOF (o_fileid o) f m (o_fd o)]> (sv_tab s1)) s1) i.
Proof.
  intros H0 [T1 T2 T3 T4]. destruct (sd_inv _ _ T1) as [L E _].
  destruct (lookup_lt_is_Some_2 (sv_tab s1) (Z.to_nat i)) as [o Ho]; [lia|].
  destruct (lookup_lt_is_Some_2 (sv_tab s) (Z.to_nat i)) as [o0 Ho0]; [rewrite (si_len _ H0); lia|].
  destruct (E _ _ Ho) as (Efd & _). exists o. split_and!; [done..|]. intros f m. constructor; try done.
  eapply served_set; eauto. cbn. destruct (sd_ids _ _ T1 _ _ _ Ho0 Ho) as [|[_ ?]]; auto.
Qed.

Definition answer_ok (s : sst) (a : Z * option (Z * Z)) (s2 : sst) : Prop :=
  served s s2 ∧ ∀ va perm, a.2 = Some (va, perm) → ∃ i, va = fdva (Z.to_nat i) ∧ taken s s2 i.

Lemma answer_error s s1 r : served s s1 → answer_ok s (r, None) s1.
Proof. by split. Qed.

Lemma serve_fill s s1 i (f : Z) : sv_inv s → taken s s1 i →
  wlp ((o ← opentab i;
       opentab_set i (mkOF (o_fileid o) f (o_mode o) (o_fd o));;
       fs (st32 (fd_file_va (o_fd o)) (o_fileid o));;
       omode ← fs (ld32 req_omode_va);
       fs (st32 (fd_omode_va (o_fd o)) (Z.land omode O_ACCMODE));;
       fs (st32 (fd_dev_id_va (o_fd o)) DEVFILE_ID);;
       omode ← fs (ld32 req_omode_va);
       opentab_set i (mkOF (o_fileid o) f (s32 omode) (o_fd o));;
       mret (0, Some (o_fd o, PTE_P + PTE_U + PTE_W + PTE_SHARE))) s1) (served s) (answer_ok s).
Proof.
  intros H0 T. destruct (taken_entry s s1 i H0 T) as (o & Ho & Efd & Hset).
  rewrite (bind_Ok _ _ _ _ _ (opentab_run s1 i o (proj1 (tk_ix _ _ _ T)) Ho)). unfold opentab_set. mrun.
  specialize (Hset f (o_mode o)). set (s2 := sw_tab _ s1) in *.
  apply wlp_bind. eapply taken_fs; [exact Hset|keeper|]. intros _ g1 T1.
  apply wlp_bind. eapply taken_fs; [exact T1|keeper|]. intros om g2 T2.
  apply wlp_bind. eapply taken_fs; [exact T2|keeper|]. intros _ g3 T3.
  apply wlp_bind. eapply taken_fs; [exact T3|keeper|]. intros _ g4 T4.
  apply wlp_bind. eapply taken_fs; [exact T4|keeper|]. intros om' g5 T5.
  destruct (taken_entry _ _ i H0 T5) as (o' & Ho' & _ & Hset').
  unfold s2 in Ho'. cbn in Ho'. rewrite list_lookup_insert_eq in Ho' by (eapply lookup_lt_Some; eauto).
  injection Ho' as <-. specialize (Hset' f (s32 om')). mrun. cbn in Hset'. cbn. split; [apply Hset'|].
  intros va perm [= <- <-]. exists i. split; [done|exact Hset'].
Qed.

Lemma serve_open_wp s s1 : sv_inv s → served s s1 → sv_tab s1 = sv_tab s → sv_shared s1 = sv_shared s →
  wlp (serve_open s1) (served s) (answer_ok s).
Proof.
  intros H0 Hs Ht Hsh. unfold serve_open. apply wlp_bind, wlp_fs; [done|keeper|]. intros path f1 _ _ H1.
  apply wlp_bind. eapply wlp_mono; [apply (openfile_alloc_wp s); try done; by intros j Hj%elem_of_seqZ|].
  intros [r i] s2 [H2 T2]. destruct (Z.ltb_spec r 0); [by apply answer_error|]. specialize (T2 ltac:(done)).
  apply wlp_bind. eapply taken_fs; [exact T2|keeper|]. intros [r3 f] g3 T3.
  destruct (r3 <? 0); [by apply answer_error, T3|].
  apply wlp_bind. eapply taken_fs; [exact T3|keeper|]. intros om g4 T4.
  assert (Htrunc : wlp ((if tst om O_TRUNC then fs (file_set_size f 0) else mret 0) (sw_fs g4 (sw_fs g3 s2))) (served s)
    (λ _ s5, taken s s5 i)).
  { destruct (tst _ _); [eapply taken_fs; [exact T4|keeper|done]|exact T4]. }
  apply wlp_bind. eapply wlp_mono; [exact Htrunc|]. intros r5 s5 T5. destruct (r5 <? 0); [by apply answer_error, T5|].
  apply wlp_bind. eapply taken_fs; [exact T5|keeper|]. intros [r6 f6] g6 T6.
  destruct (r6 <? 0); [by apply answer_error, T6|]. by apply serve_fill.
Qed.

(** The other requests leave the table alone. *)
Lemma opentab_wp i s E : wlp (opentab i s) E (λ _ s2, s2 = s).
Proof. unfold opentab. mrun. by destruct (if i <? 0 then None else _). Qed.
Lemma openfile_lookup_wp id s E : wlp (openfile_lookup id s) E (λ _ s2, s2 = s).
Proof.
  unfold openfile_lookup. apply wlp_bind. eapply wlp_mono; [apply opentab_wp|]. intros o s2 ->.
  unfold sv_pageref. mrun. by destruct (_ || _).
Qed.

Lemma with_open_wp s s1 k : served s s1 → (∀ o, keeper (k o)) →
  wlp (with_open k s1) (served s) (λ _, served s).
Proof.
  intros Hs Hk. unfold with_open. apply wlp_bind, wlp_fs; [done|keeper|]. intros id f _ _ H1.
  apply wlp_bind. eapply wlp_mono; [apply openfile_lookup_wp|]. intros [r i] s2 ->.
  destruct (r <? 0); [done|]. apply wlp_bind. eapply wlp_mono; [apply opentab_wp|]. intros o s2 ->.
  by apply wlp_fs.
Qed.

Lemma handlers_wp s s1 req h : served s s1 → handlers req = Some h → wlp (h s1) (served s) (λ _, served s).
Proof.
  intros Hs. unfold handlers.
  repeat (destruct (req =? _); [intros [= <-]|]); [..|done].
  1-5: unfold serve_read, serve_stat, serve_flush, serve_write, serve_set_size; apply with_open_wp; [done|].
  6: by unfold serve_sync; apply wlp_fs; [done|keeper|].
  - unfold read_open. keeper.
  - intros o. unfold stat_open. apply keeper_bind; [apply keeper_strcpy_in|]. keeper.
  - keeper.
  - unfold write_open. keeper.
  - keeper.
Qed.

Lemma serve_dispatch_wp s s1 whom req : sv_inv s → served s s1 → sv_tab s1 = sv_tab s → sv_shared s1 = sv_shared s →
  wlp (serve_dispatch whom req s1) (served s) (answer_ok s).
Proof.
  intros H0 Hs Ht Hsh. unfold serve_dispatch. destruct (req =? FSREQ_OPEN); [by apply serve_open_wp|].
  destruct (handlers req) as [h|] eqn:Eh.
  - apply wlp_bind. eapply wlp_mono; [by eapply handlers_wp|]. intros r s2 H2. by apply answer_error.
  - apply wlp_bind, wlp_fs; [done|keeper|]. intros _ f _ _ H2. by apply answer_error.
Qed.

Lemma keeper_unmap_req : keeper (u_page_unmap fsreq).
Proof.
  intros s. unfold u_page_unmap. destruct (bad_va _); [apply pages_kept_refl|]. constructor; cbn; [|done].
  intros p Hp. unfold fdpage in Hp. change (PGNUM fsreq) with 65535. destruct (Z.eqb_spec p 65535); [lia|done].
Qed.

(** A request comes in. *)
Lemma sv_recv_wp s q : sv_inv s →
  wlp (sv_recv q s) (served s) (λ _ s1, served s s1 ∧ sv_tab s1 = sv_tab s ∧ sv_shared s1 = sv_shared s).
Proof.
  intros H0. unfold sv_recv. destruct (rq_page q) as [[perm bytes]|]; cbn; (split; [|done]); [|by apply served_refl].
  apply served_mem; [by apply served_refl|].
  match goal with |- pages_kept _ (set_pte _ _ ?f) => transitivity f; [by apply kept_same|] end.
  apply kept_set_pte. intros _. apply tst_lor_P.
Qed.

Lemma serve_one_wp s q : sv_inv s → wlp (serve_one q s) (served s) (λ _, served s).
Proof.
  intros H0. unfold serve_one. apply wlp_bind. eapply wlp_mono; [by apply sv_recv_wp|]. intros perm s1 (H1 & Ht & Hsh).
  destruct (tst perm PTE_P); cbn [negb]; [|apply wlp_bind, wlp_fs; [done|keeper|done]].
  apply wlp_bind. eapply wlp_mono; [by apply serve_dispatch_wp|]. intros [r pg] s2 [H2 Hpg]. cbn in Hpg.
  assert (Hsend : wlp (sv_send q pg s2) (served s) (λ _, served s)).
  { unfold sv_send. destruct (negb _); [done|]. destruct pg as [[va p]|]; [|done]. destruct (rq_wants q); [|done].
    destruct (Hpg va p eq_refl) as (i & -> & T). pose proof (tk_ix _ _ _ T).
    apply (served_send s s2 (Z.to_nat i)); [done|lia|apply (tk_mapped _ _ _ T)]. }
  apply wlp_bind. eapply wlp_mono; [exact Hsend|]. intros ? s3 H3.
  apply wlp_bind, wlp_fs; [done|apply keeper_unmap_req|done].
Qed.

(** A file id that its entry carries and whose page a client has is found;
    every other id is refused. *)
Lemma openfile_lookup_run s id : sv_inv s → 0 ≤ id < 2 ^ 32 →
  let i := Z.to_nat (id mod 1024) in
  ∃ o, sv_tab s !! i = Some o ∧
  openfile_lookup id s =
    Ok (if (0 <? sv_shared s (fdva i)) && (o_fileid o =? id) then (0, id mod 1024) else (- E_INVAL, 0)) s.
Proof.
  intros Hs Hid i. pose proof (Z.mod_pos_bound id 1024 ltac:(lia)) as Hm.
  destruct (lookup_lt_is_Some_2 (sv_tab s) i) as [o Ho]; [rewrite (si_len _ Hs); unfold i; lia|]. exists o. split; [done|].
  unfold openfile_lookup. rewrite (bind_Ok _ _ _ _ _ (opentab_run s _ o (proj1 Hm) Ho)).
  destruct (si_ent _ Hs _ _ Ho) as (Efd & _). destruct (si_shared _ Hs i) as [Hge Him]; [unfold i; lia|].
  unfold sv_pageref. mrun. rewrite Efd.
  unfold fd_mapped, in_use in *. destruct (Z.ltb_spec 0 (sv_shared s (fdva i))) as [Hu|Hu].
  - pose proof (Him Hu) as [-> ->]%andb_true_iff. cbn [negb].
    destruct (Z.leb_spec (1 + sv_shared s (fdva i)) 1); [lia|]. by destruct (o_fileid o =? id).
  - cbn [andb]. destruct (tst _ _); [|done]. destruct (tst _ _); [|done]. cbn [negb].
    destruct (Z.leb_spec (1 + sv_shared s (fdva i)) 1); [done|lia].
Qed.

End open_files.

(** The server with all files closed, and one client that asks for a file. *)
Definition demo_tab : list OpenFile := map (λ i, mkOF i 0 0 (FILEVA + i * PGSIZE)) (seqZ 0 1024).
Definition demo_sv : sst := mkSv demo_fs demo_tab (λ _, 0).
Definition demo_rq : request := mkRq FSREQ_OPEN 4097 None true true.

Lemma demo_sv_inv : sv_inv demo_sv.
Proof.
  constructor.
  - reflexivity.
  - intros i o Ho. unfold sv_tab, demo_sv, demo_tab in Ho. rewrite list_lookup_fmap in Ho.
    destruct (seqZ 0 1024 !! i) as [j|] eqn:Hj; [|discriminate Ho]. injection Ho as <-. apply lookup_seqZ in Hj as [-> Hj].
    unfold fdva. cbn [o_fd o_fileid]. rewrite Z.mod_small by lia. lia.
  - intros i Hi. cbn. unfold in_use. cbn. lia.
Qed.


(* ------------------------------------------------------------------ *)
(** ** Reading back through the server *)

Section io.
Context `{L : IdeLaws}.

(** The i-th file is open in a client, is a well-formed file of the disk that
    the server sees as [v], and the request page and the page of its Fd are
    mapped. *)
Record at_open (s0 : fss) (v : mem) (st : sst) (i : nat) (o : OpenFile) : Prop := {
  ao_inv : sv_inv st;
  ao_sees : sees s0 v (sv_fs st);
  ao_tab : sv_tab st !! i = Some o;
  ao_use : in_use st i;
  ao_file : file_ok v (o_file o);
  ao_size : fsize v (o_file o) ≤ MAXBLK * BLKSIZE;
  ao_req : ∀ x, fsreq ≤ x < fsreq + PGSIZE → buffer s0 true x;
  ao_fd : ∀ x, fdva i ≤ x < fdva i + PGSIZE → buffer s0 true x }.

Lemma fs_Ok {A} (m : M fss A) s a f : m (sv_fs s) = Ok a f → fs m s = Ok a (sw_fs f s).
Proof. unfold fs. by intros ->. Qed.

Lemma buffer_read s0 x : buffer s0 true x → buffer s0 false x.
Proof.
  intros (H1 & H2 & H3). split_and!; [lia|lia|done|]. revert H3. unfold accessible. cbn.
  by intros [-> _]%andb_true_iff.
Qed.
Lemma buffer_cache s0 w x : buffer s0 w x → in_cache x = false.
Proof. by intros (_ & ? & _). Qed.

(** Accesses to the shared pages. *)
Lemma ld32_page s0 v f a p : sees s0 v f → a mod 4 = 0 → (∀ x, p ≤ x < p + PGSIZE → buffer s0 true x) → p ≤ a < p + PGSIZE →
  ∃ f', ld32 a f = Ok (rd32 v a) f' ∧ sees s0 v f'.
Proof. intros S Ha Hp Hr. apply ld32_sees; [done|done|]. by apply buffer_reach, buffer_read, Hp. Qed.

Lemma st32_page s0 v f a p x g : sees s0 v f → file_ok v g → a mod 4 = 0 →
  (∀ x, p ≤ x < p + PGSIZE → buffer s0 true x) → p ≤ a → a + 4 ≤ p + PGSIZE →
  ∃ f', st32 a x f = Ok tt f' ∧ sees s0 (wr32 v a x) f'.
Proof.
  intros S Hg Ha Hp Hr1 Hr2. apply st32_sees; [done|done|apply buffer_reach, Hp; lia|].
  destruct (kept_outside g v (wr32 v a x) (sees_layout _ _ _ S) Hg) as (K & _); [|apply K].
  intros y Hy. apply rd8_wr32_ne. destruct (Z.lt_ge_cases y a); [by left|].
  destruct (Z.lt_ge_cases y (a + 4)); [|by right]. rewrite (buffer_cache _ _ _ (Hp y ltac:(lia))) in Hy. done.
Qed.

(** A valid file id gets to the open file. *)
Lemma with_open_run s0 v st i o k : at_open s0 v st i o → rd32 v fsreq = o_fileid o →
  ∃ f, with_open k st = fs (k o) (sw_fs f st) ∧ sees s0 v f.
Proof.
  intros A Hid. unfold with_open.
  destruct (ld32_page s0 v (sv_fs st) req_fileid_va fsreq) as (f & Hf & S); [apply A|done|apply A|unfold req_fileid_va; lia|].
  rewrite (bind_Ok _ _ _ _ _ (fs_Ok _ _ _ _ Hf)). unfold req_fileid_va. rewrite Hid. exists f. split; [|done].
  assert (Hs : sv_inv (sw_fs f st)).
  { pose proof (keeper_ld32 req_fileid_va (sv_fs st)) as K. rewrite Hf in K.
    apply (served_mem st st f (served_refl _ (ao_inv _ _ _ _ _ A)) K). }
  destruct (si_ent _ (ao_inv _ _ _ _ _ A) _ _ (ao_tab _ _ _ _ _ A)) as (_ & Hr & Hm).
  destruct (openfile_lookup_run _ (o_fileid o) Hs Hr) as (o1 & Ho1 & Hl). rewrite Hm, Nat2Z.id in *.
  cbn in Ho1. rewrite (ao_tab _ _ _ _ _ A) in Ho1. injection Ho1 as <-.
  rewrite (bind_Ok _ _ _ _ _ Hl). cbn [sv_shared sw_fs].
  rewrite (proj2 (Z.ltb_lt _ _) (ao_use _ _ _ _ _ A)), Z.eqb_refl. cbn [andb Z.ltb Z.compare].
  by rewrite (bind_Ok _ _ _ _ _ (opentab_run (sw_fs f st) (Z.of_nat i) o ltac:(lia) ltac:(rewrite Nat2Z.id; apply A))).
Qed.

(** The page of an Fd is clear of the request page and of the disk. *)
Lemma at_open_fd s0 v st i o : at_open s0 v st i o →
  o_fd o = fdva i ∧ FILEVA ≤ fdva i ∧ fdva i mod 4 = 0 ∧ fd_offset_va (o_fd o) = fdva i + 4.
Proof.
  intros A. destruct (si_ent _ (ao_inv _ _ _ _ _ A) _ _ (ao_tab _ _ _ _ _ A)) as (E & _).
  unfold fd_offset_va. rewrite E. unfold fdva. split_and!; [done|lia| |done].
  replace (FILEVA + Z.of_nat i * PGSIZE) with ((872415232 + Z.of_nat i * 1024) * 4) by lia. apply Z.mod_mul. lia.
Qed.

(** The state after a handler that has run to the end. *)
Lemma at_open_after s0 v v' st i o k r st' :
  at_open s0 v st i o → (∀ o, keeper (k o)) → with_open k st = Ok r st' → sees s0 v' (sv_fs st') →
  file_ok v' (o_file o) → fsize v' (o_file o) ≤ MAXBLK * BLKSIZE → at_open s0 v' st' i o.
Proof.
  intros A Hk Hr S F Hz. pose proof (with_open_wp st st k (served_refl _ (ao_inv _ _ _ _ _ A)) Hk) as W. rewrite Hr in W.
  destruct (sd_keep _ _ W i (ao_use _ _ _ _ _ A)) as [Et Hu].
  constructor; try done; [apply W|by rewrite Et; apply A|apply A|apply A].
Qed.

Lemma keeper_write_open o : keeper (write_open o).
Proof. unfold write_open. keeper. Qed.
Lemma keeper_read_open o : keeper (read_open o).
Proof. unfold read_open. keeper. Qed.

(** The file's contents and the offset after a write. *)
Record written (v v' : mem) (f fd off n : Z) : Prop := {
  wt_file : file_ok v' f;
  wt_size : fsize v' f = Z.max (fsize v f) (off + n);
  wt_content : ∀ p, 0 ≤ p < MAXBLK * BLKSIZE → content v' f p =
    if (off <=? p) && (p <? off + n) then rd8 v (req_buf_va + (p - off)) else content v f p;
  wt_there : ∀ p, off ≤ p < off + n → bmap v' f (p / BLKSIZE) ≠ 0;
  wt_off : rd32 v' (fd + 4) = off + n;
  wt_rest : ∀ x, in_cache x = false → x < fd + 4 ∨ fd + 8 ≤ x → rd8 v' x = rd8 v x }.

Lemma write_open_sees s0 v st i o f0 n off :
  at_open s0 v st i o → sees s0 v f0 → rd32 v req_n_va = n → n ≤ PGSIZE - 8 →
  rd32 v (fdva i + 4) = off → off + n ≤ MAXBLK * BLKSIZE → covered v (o_file o) off (off + n) →
  ∃ v' f', write_open o f0 = Ok n f' ∧ sees s0 v' f' ∧ written v v' (o_file o) (fdva i) off n.
Proof.
  intros A S0 Hn Hmax Hoff Hend Hcov. destruct (at_open_fd _ _ _ _ _ A) as (Efd & Hlo & Hal & Eoff).
  pose proof (rd32_range v req_n_va) as Rn. rewrite Hn in Rn. pose proof (rd32_range v (fdva i + 4)) as Ro. rewrite Hoff in Ro.
  assert (Hal4 : (fdva i + 4) mod 4 = 0) by (rewrite Z.add_mod, Hal by lia; done).
  unfold write_open. rewrite Eoff.
  destruct (ld32_page s0 v f0 req_n_va fsreq) as (f1 & H1 & S1); [done|done|apply A|unfold req_n_va; lia|].
  rewrite (bind_Ok _ _ _ _ _ H1), Hn, (proj2 (Z.ltb_ge _ _)) by lia. cbv zeta.
  destruct (ld32_page s0 v f1 (fdva i + 4) (fdva i)) as (f2 & H2 & S2); [done|done|apply A|lia|].
  rewrite (bind_Ok _ _ _ _ _ H2), Hoff, s32_small by lia.
  destruct (file_write_sees s0 v f2 (o_file o) req_buf_va n off S2 (ao_file _ _ _ _ _ A)) as
    (v3 & f3 & H3 & S3 & F3 & Z3 & C3 & M3 & O3 & _); try lia; [pose proof (ao_size _ _ _ _ _ A); lia|done| |].
  { intros x Hx. apply buffer_read, (ao_req _ _ _ _ _ A). unfold req_buf_va in Hx. lia. }
  rewrite (bind_Ok _ _ _ _ _ H3), (proj2 (Z.ltb_ge _ _)) by lia.
  assert (E3 : rd32 v3 (fdva i + 4) = off).
  { rewrite <- Hoff. apply rd32_same. intros x Hx. apply O3, (buffer_cache s0 true), (ao_fd _ _ _ _ _ A). lia. }
  destruct (ld32_page s0 v3 f3 (fdva i + 4) (fdva i)) as (f4 & H4 & S4); [done|done|apply A|lia|].
  rewrite (bind_Ok _ _ _ _ _ H4), E3, u32_small by lia.
  destruct (st32_page s0 v3 f4 (fdva i + 4) (fdva i) (off + n) (o_file o)) as (f5 & H5 & S5); [done|done|done|apply A|lia|lia|].
  rewrite (bind_Ok _ _ _ _ _ H5). exists (wr32 v3 (fdva i + 4) (off + n)), f5. split_and!; [done|done|].
  assert (Hout : ∀ y, in_cache y = true → rd8 (wr32 v3 (fdva i + 4) (off + n)) y = rd8 v3 y).
  { intros y Hy. apply rd8_wr32_ne. apply in_cache_spec in Hy. lia. }
  destruct (kept_outside (o_file o) v3 _ (sees_layout _ _ _ S3) F3 Hout) as (K & C & _). constructor.
  - apply K.
  - rewrite <- Z3. apply rd32_same. intros x Hx. apply Hout, in_cache_blk.
    destruct (fo_used _ _ F3) as [Hb _]. pose proof (l_size _ (sees_layout _ _ _ S3)).
    replace x with (o_file o + (x - o_file o)) by lia. rewrite (struct_blk v3 (o_file o) F3) by (unfold f_size_va in Hx; lia). lia.
  - intros p Hp. by rewrite C, C3.
  - intros p Hp. rewrite (kp_map _ _ _ K); [by apply M3| |by apply M3].
    split; [apply Z.div_pos; lia|apply Z.div_lt_upper_bound; lia].
  - rewrite rd32_wr32_eq. apply u32_small. lia.
  - intros x Hx Hd. rewrite rd8_wr32_ne by lia. by apply O3.
Qed.

(** Of a file with the offset at [off], the bytes that a read of [n] gets. *)
Definition readable (v : mem) (f off n : Z) : Z := Z.max 0 (Z.min n (fsize v f - off)).

(** The answer, the file and the offset after a read of [k] bytes. *)
Record was_read (v v' : mem) (f fd off k : Z) : Prop := {
  wr_bytes : ∀ j, 0 ≤ j < k → rd8 v' (fsreq + j) = content v f (off + j);
  wr_off : rd32 v' (fd + 4) = off + k;
  wr_file : file_ok v' f;
  wr_size : fsize v' f = fsize v f;
  wr_content : ∀ p, 0 ≤ p < MAXBLK * BLKSIZE → content v' f p = content v f p;
  wr_there : ∀ b, 0 ≤ b < MAXBLK → bmap v f b ≠ 0 → bmap v' f b ≠ 0;
  wr_rest : ∀ x, in_cache x = false → x < fsreq ∨ fsreq + k ≤ x → x < fd + 4 ∨ fd + 8 ≤ x → rd8 v' x = rd8 v x }.

Lemma kept_size f v v' : file_ok v f → kept f v v' → fsize v' f = fsize v f.
Proof.
  intros F K. apply rd32_same. intros x Hx. unfold f_size_va in Hx. apply (kp_home _ _ _ K); [|lia].
  replace x with (f + (x - f)) by lia. by rewrite (struct_blk v f F) by lia.
Qed.

(** A read that has got to the Fd page: the answer, and the offset to come. *)
Lemma read_off v v3 v' f fd off k : layout_ok (rd8 v3) → file_ok v f → kept f v v3 → FILEVA ≤ fd → 0 ≤ off → 0 ≤ k ≤ PGSIZE → off + k < 2 ^ 32 →
  (∀ p, 0 ≤ p < MAXBLK * BLKSIZE → content v3 f p = content v f p) →
  (∀ x, in_cache x = false → rd8 v3 x = if (fsreq <=? x) && (x <? fsreq + k) then content v f (off + (x - fsreq)) else rd8 v x) →
  (v' = wr32 v3 (fd + 4) (off + k) ∨ v' = v3 ∧ rd32 v3 (fd + 4) = off + k) → was_read v v' f fd off k.
Proof.
  intros Hl F K Hfd H0 Hk Hok C O Hv'.
  assert (Hout : ∀ y, in_cache y = true → rd8 v' y = rd8 v3 y).
  { intros y Hy. apply in_cache_spec in Hy. destruct Hv' as [->|[-> _]]; [|done]. apply rd8_wr32_ne. lia. }
  assert (Hne : ∀ y, y < fd + 4 ∨ fd + 8 ≤ y → rd8 v' y = rd8 v3 y).
  { intros y Hy. destruct Hv' as [->|[-> _]]; [|done]. apply rd8_wr32_ne. lia. }
  destruct (kept_outside f v3 v' Hl (kp_ok _ _ _ K) Hout) as (K' & C' & _). constructor.
  - intros j Hj. rewrite Hne, O by (lia || (apply not_true_is_false; rewrite in_cache_spec; lia)).
    rewrite (proj2 (Z.leb_le _ _)), (proj2 (Z.ltb_lt _ _)) by lia. cbn [andb]. f_equal. lia.
  - destruct Hv' as [->|[-> ->]]; [|done]. rewrite rd32_wr32_eq. apply u32_small. lia.
  - apply K'.
  - rewrite (kept_size f v3 v' (kp_ok _ _ _ K) K'). by apply kept_size.
  - intros p Hp. by rewrite C', C.
  - intros b Hb Hne'. assert (E : bmap v3 f b = bmap v f b) by (by apply (kp_map _ _ _ K)).
    rewrite (kp_map _ _ _ K') by (done || rewrite E; done). by rewrite E.
  - intros x Hx Hr Hd. rewrite Hne, O by done. destruct (Z.leb_spec fsreq x), (Z.ltb_spec x (fsreq + k)); cbn [andb]; done || lia.
Qed.

Lemma read_open_sees s0 v st i o f0 n off :
  let k := readable v (o_file o) off n in
  at_open s0 v st i o → sees s0 v f0 → rd32 v req_n_va = n → n ≤ PGSIZE →
  rd32 v (fdva i + 4) = off → off < 2 ^ 31 →
  (∀ p, off ≤ p < off + k → bmap v (o_file o) (p / BLKSIZE) ≠ 0) →
  ∃ v' f', read_open o f0 = Ok k f' ∧ sees s0 v' f' ∧ was_read v v' (o_file o) (fdva i) off k.
Proof.
  intros k A S0 Hn Hmax Hoff Hlt Hmap. destruct (at_open_fd _ _ _ _ _ A) as (Efd & Hlo & Hal & Eoff).
  pose proof (rd32_range v req_n_va) as Rn. rewrite Hn in Rn. pose proof (rd32_range v (fdva i + 4)) as Ro. rewrite Hoff in Ro.
  pose proof (ao_size _ _ _ _ _ A) as Hsz. pose proof (ao_file _ _ _ _ _ A) as F.
  assert (Hk : 0 ≤ k ≤ n) by (unfold k, readable; lia).
  assert (Hal4 : (fdva i + 4) mod 4 = 0) by (rewrite Z.add_mod, Hal by lia; done).
  unfold read_open. rewrite Eoff.
  destruct (ld32_page s0 v f0 req_n_va fsreq) as (f1 & H1 & S1); [done|done|apply A|unfold req_n_va; lia|].
  rewrite (bind_Ok _ _ _ _ _ H1), Hn, (proj2 (Z.leb_le _ _)) by lia. cbv zeta.
  destruct (ld32_page s0 v f1 (fdva i + 4) (fdva i)) as (f2 & H2 & S2); [done|done|apply A|lia|].
  rewrite (bind_Ok _ _ _ _ _ H2), Hoff, s32_small by lia.
  destruct (file_read_sees s0 v f2 (o_file o) fsreq n off S2 F) as (v3 & f3 & H3 & S3 & K3 & C3 & O3); try lia;
    [by left|intros x Hx; apply (ao_req _ _ _ _ _ A); fold (readable v (o_file o) off n) in Hx; fold k in Hx; lia|].
  fold (readable v (o_file o) off n) in H3, O3. fold k in H3, O3.
  rewrite (bind_Ok _ _ _ _ _ H3).
  assert (E3 : rd32 v3 (fdva i + 4) = off).
  { rewrite <- Hoff. apply rd32_same. intros x Hx. rewrite O3 by (eapply buffer_cache, (ao_fd _ _ _ _ _ A); lia).
    destruct (Z.ltb_spec x (fsreq + k)); [lia|]. by rewrite andb_false_r. }
  pose proof (sees_layout _ _ _ S3) as Hl3. clearbody k. destruct (Z.ltb_spec 0 k) as [Hpos|H0]; cbn [mwhen]; mrun.
  - destruct (ld32_page s0 v3 f3 (fdva i + 4) (fdva i)) as (f4 & H4 & S4); [done|done|apply A|lia|].
    rewrite bind_assoc, (bind_Ok _ _ _ _ _ H4), E3, u32_small by lia.
    destruct (st32_page s0 v3 f4 (fdva i + 4) (fdva i) (off + k) (o_file o)) as (f5 & H5 & S5);
      [done|apply K3|done|apply A|lia|lia|].
    rewrite (bind_Ok _ _ _ _ _ H5). exists (wr32 v3 (fdva i + 4) (off + k)), f5. split_and!; [done|done|].
    eapply read_off; try done; [lia..|by left].
  - exists v3, f3. split_and!; [done|done|]. eapply read_off; try done; [lia..|]. right. split; [done|lia].
Qed.

Lemma serve_read_sees s0 v st i o n off :
  let k := readable v (o_file o) off n in
  at_open s0 v st i o → rd32 v fsreq = o_fileid o → rd32 v req_n_va = n → n ≤ PGSIZE →
  rd32 v (fdva i + 4) = off → off < 2 ^ 31 →
  (∀ p, off ≤ p < off + k → bmap v (o_file o) (p / BLKSIZE) ≠ 0) →
  ∃ v' st', serve_read st = Ok k st' ∧ at_open s0 v' st' i o ∧ was_read v v' (o_file o) (fdva i) off k.
Proof.
  intros k A Hid Hn Hmax Hoff Hlt Hmap.
  destruct (with_open_run s0 v st i o read_open A Hid) as (f1 & Hrun & S1).
  destruct (read_open_sees s0 v st i o f1 n off A S1) as (v' & f' & Hr & S' & W); try done.
  assert (E : with_open read_open st = Ok k (sw_fs f' st)) by (rewrite Hrun; exact (fs_Ok _ (sw_fs f1 st) _ _ Hr)).
  exists v', (sw_fs f' st). split_and!; [done| |done].
  eapply at_open_after; [done|apply keeper_read_open|done|done|apply W|].
  rewrite (wr_size _ _ _ _ _ _ W). apply A.
Qed.

(** What the server sees when memory outside of the block cache changes: a
    client writes to a page it shares with the server. *)
Definition overlay (v m : mem) : mem := λ x, if in_cache x then v x else m x.
Lemma rd8_overlay v m x : rd8 (overlay v m) x = if in_cache x then rd8 v x else rd8 m x.
Proof. unfold rd8, overlay. by destruct (in_cache x). Qed.

Lemma sees_client s0 v s m g : sees s0 v s → file_ok v g → (∀ x, in_cache x = true → rd8 m x = rd8 (f_mem s) x) →
  sees s0 (overlay v m) (fw_mem m s).
Proof.
  intros S Hg Hm. destruct (kept_outside g v (overlay v m) (sees_layout _ _ _ S) Hg) as (K & _).
  { intros x Hx. by rewrite rd8_overlay, Hx. }
  destruct S as ((C & Hl) & Hv & Hacc & Hlog). destruct (kp_keeps _ _ _ K) as [Kl Kn].
  assert (Hview : pointwise_relation Z eq (view (fw_mem m s)) (rd8 (overlay v m))).
  { intros x. rewrite rd8_overlay, <- Hv. unfold view. change (present (fw_mem m s) x) with (present s x).
    change (f_data (fw_mem m s)) with (f_data s). cbn [fw_mem f_mem]. destruct (in_cache x) eqn:Hx; [|done].
    by rewrite Hm. }
  assert (Hv' : pointwise_relation Z eq (view s) (rd8 v)) by exact Hv.
  split; [|by split_and!]. split; [|by rewrite Hview]. rewrite Hview, Kn, <- Hv'.
  destruct C as [Cd Cs Cb Co Cf Cc Cg]. split; try done. intros x Hx Hp Hd. cbn [fw_mem f_mem f_pte] in *.
  rewrite Hm by done. by apply Cc.
Qed.

Lemma content_client v m f : layout_ok (rd8 v) → file_ok v f →
  file_ok (overlay v m) f ∧ fsize (overlay v m) f = fsize v f ∧
  (∀ p, 0 ≤ p < MAXBLK * BLKSIZE → content (overlay v m) f p = content v f p) ∧
  (∀ k, 0 ≤ k < MAXBLK → bmap v f k ≠ 0 → bmap (overlay v m) f k ≠ 0) ∧ room (overlay v m) f = room v f.
Proof.
  intros Hl Hf. destruct (kept_outside f v (overlay v m) Hl Hf) as (K & C & R).
  { intros x Hx. by rewrite rd8_overlay, Hx. }
  split_and!; [apply K| |done|intros k Hk Hb; by rewrite (kp_map _ _ _ K)|done].
  apply rd32_same. intros x Hx. rewrite rd8_overlay. destruct (in_cache x) eqn:E; [done|].
  destruct (fo_used _ _ Hf) as [Hb _]. pose proof (l_size _ Hl).
  assert (in_cache x = true); [|congruence]. apply in_cache_blk.
  replace x with (f + (x - f)) by lia. rewrite (struct_blk v f Hf) by (unfold f_size_va in Hx; lia). lia.
Qed.

Lemma at_open_client s0 v st i o m : at_open s0 v st i o → (∀ x, in_cache x = true → rd8 m x = rd8 (f_mem (sv_fs st)) x) →
  at_open s0 (overlay v m) (sw_fs (fw_mem m (sv_fs st)) st) i o.
Proof.
  intros [A1 A2 A3 A4 A5 A6 A7 A8] Hm.
  destruct (content_client v m (o_file o) (sees_layout _ _ _ A2) A5) as (F & Z & _).
  constructor; try done; [|by eapply sees_client|by rewrite Z].
  apply (served_mem st st _ (served_refl _ A1)). by apply kept_same.
Qed.

Lemma sees_mem s0 v s x : sees s0 v s → in_cache x = false → rd8 (f_mem s) x = rd8 v x.
Proof. intros (_ & Hv & _) Hx. rewrite <- Hv. unfold view. by rewrite Hx. Qed.
Lemma sees_mem32 s0 v s a : sees s0 v s → (∀ x, a ≤ x < a + 4 → in_cache x = false) → rd32 (f_mem s) a = rd32 v a.
Proof. intros S Hx. apply rd32_same. intros x Hr. by apply (sees_mem s0), Hx. Qed.

Lemma serve_write_sees s0 v st i o n off :
  at_open s0 v st i o → rd32 v fsreq = o_fileid o → rd32 v req_n_va = n → n ≤ PGSIZE - 8 →
  rd32 v (fdva i + 4) = off → off + n ≤ MAXBLK * BLKSIZE → covered v (o_file o) off (off + n) →
  ∃ v' st', serve_write st = Ok n st' ∧ at_open s0 v' st' i o ∧ written v v' (o_file o) (fdva i) off n.
Proof.
  intros A Hid Hn Hmax Hoff Hend Hcov.
  destruct (with_open_run s0 v st i o write_open A Hid) as (f1 & Hrun & S1).
  destruct (write_open_sees s0 v st i o f1 n off A S1) as (v' & f' & Hw & S' & W); try done.
  assert (Hr : with_open write_open st = Ok n (sw_fs f' st)) by (rewrite Hrun; exact (fs_Ok _ (sw_fs f1 st) _ _ Hw)).
  exists v', (sw_fs f' st). split_and!; [done| |done].
  eapply at_open_after; [done|apply keeper_write_open|done|done|apply W|].
  rewrite (wt_size _ _ _ _ _ _ W). pose proof (ao_size _ _ _ _ _ A). lia.
Qed.

(** What a client writes to a file through the server is what a read of
    any part of it returns.  serve_write of up to a page less 8 bytes stores
    the bytes of the request at the offset in the Fd page and moves the
    offset; when the client then, having filled in the request page and
    sought anywhere in the range, sends a read request, serve_read returns
    the number of bytes asked for, the bytes are those that were written, and
    the offset has moved on. *)
Theorem serve_write_read s0 v st i o n off :
  at_open s0 v st i o → rd32 v fsreq = o_fileid o → rd32 v req_n_va = n → n ≤ PGSIZE - 8 →
  rd32 v (fdva i + 4) = off → off + n ≤ MAXBLK * BLKSIZE → covered v (o_file o) off (off + n) →
  ∃ st1, serve_write st = Ok n st1 ∧ rd32 (f_mem (sv_fs st1)) (fdva i + 4) = off + n ∧
  ∀ m n' off', (∀ x, in_cache x = true → rd8 m x = rd8 (f_mem (sv_fs st1)) x) →
    rd32 m fsreq = o_fileid o → rd32 m req_n_va = n' → rd32 m (fdva i + 4) = off' →
    off ≤ off' → off' + n' ≤ off + n →
    ∃ st2, serve_read (sw_fs (fw_mem m (sv_fs st1)) st1) = Ok n' st2 ∧
      rd32 (f_mem (sv_fs st2)) (fdva i + 4) = off' + n' ∧
      ∀ j, 0 ≤ j < n' → rd8 (f_mem (sv_fs st2)) (fsreq + j) = rd8 v (req_buf_va + (off' - off) + j).
Proof.
  intros A Hid Hn Hmax Hoff Hend Hcov.
  destruct (serve_write_sees s0 v st i o n off A Hid Hn Hmax Hoff Hend Hcov) as (v1 & st1 & H1 & A1 & W).
  assert (Hfd : ∀ x, fdva i + 4 ≤ x < fdva i + 4 + 4 → in_cache x = false).
  { intros x Hx. apply (buffer_cache s0 true), (ao_fd _ _ _ _ _ A). lia. }
  assert (Hrq : ∀ x, fsreq ≤ x < fsreq + PGSIZE → in_cache x = false).
  { intros x Hx. by apply (buffer_cache s0 true), (ao_req _ _ _ _ _ A). }
  exists st1. split_and!; [done|rewrite (sees_mem32 s0 v1 _ _ (ao_sees _ _ _ _ _ A1) Hfd); apply (wt_off _ _ _ _ _ _ W)|].
  intros m n' off' Hm Hid' Hn' Hoff' Hle Hlt.
  pose proof (at_open_client s0 v1 st1 i o m A1 Hm) as A2. set (st1' := sw_fs _ st1) in *.
  assert (Em : ∀ a, (∀ x, a ≤ x < a + 4 → in_cache x = false) → rd32 (overlay v1 m) a = rd32 m a).
  { intros a Ha. apply rd32_same. intros x Hx. by rewrite rd8_overlay, Ha. }
  destruct (content_client v1 m (o_file o) (sees_layout _ _ _ (ao_sees _ _ _ _ _ A1)) (wt_file _ _ _ _ _ _ W)) as (_ & Z2 & C2 & B2 & _).
  pose proof (rd32_range m req_n_va). pose proof (rd32_range v (fdva i + 4)).
  assert (Ek : readable (overlay v1 m) (o_file o) off' n' = n').
  { unfold readable. rewrite Z2, (wt_size _ _ _ _ _ _ W). lia. }
  destruct (serve_read_sees s0 _ st1' i o n' off' A2) as (v3 & st3 & H3 & A3 & R3); rewrite ?Ek in *.
  - rewrite Em; [done|]. intros x Hx. apply Hrq. lia.
  - rewrite Em; [done|]. intros x Hx. apply Hrq. unfold req_n_va in Hx. lia.
  - lia.
  - by rewrite Em.
  - lia.
  - intros p Hp. apply B2; [split; [apply Z.div_pos; lia|apply Z.div_lt_upper_bound; lia]|].
    apply (wt_there _ _ _ _ _ _ W). lia.
  - exists st3. split_and!; [done| |].
    + rewrite (sees_mem32 s0 v3 _ _ (ao_sees _ _ _ _ _ A3) Hfd). apply (wr_off _ _ _ _ _ _ R3).
    + intros j Hj. rewrite (sees_mem s0 v3 _ _ (ao_sees _ _ _ _ _ A3)), (wr_bytes _ _ _ _ _ _ R3), C2,
        (wt_content _ _ _ _ _ _ W) by (lia || apply Hrq; lia).
      rewrite (proj2 (Z.leb_le _ _)), (proj2 (Z.ltb_lt _ _)) by lia. cbn [andb]. f_equal. lia.
Qed.

(** A page for an Fd is no part of the block cache. *)
Definition map_fd (p : Z) (s : fss) : fss :=
  fw_pages (λ d, if d =? p / 1024 then 7 else f_pde s d) (λ n, if n =? p then 7 else f_pte s n) (f_avail s) s.

(** The page tables of the server change outside of the block cache, and
    physical pages beyond those that the cache may need are used up. *)
Lemma sees_pages s0 v s d t a : sees s0 v s → (∀ p, 65536 ≤ p < 851968 → t p = f_pte s p) →
  (∀ k, 64 ≤ k < 832 → d k = f_pde s k) → missing (nblocks (rd8 v)) s ≤ a →
  sees (fw_pages d t a s) v (fw_pages d t a s).
Proof.
  intros ((C & Hl) & Hv & _) Ht Hd Ha. set (s' := fw_pages d t a s).
  assert (Hpg : ∀ x, in_cache x = true → 65536 ≤ x / 4096 < 851968).
  { intros x Hx. apply in_cache_spec in Hx. split; [apply Z.div_le_lower_bound|apply Z.div_lt_upper_bound]; lia. }
  assert (Hpr : ∀ x, in_cache x = true → present s' x = present s x).
  { intros x Hx. unfold present. cbn. by rewrite Ht by auto. }
  assert (Hv' : pointwise_relation Z eq (view s) (rd8 v)) by exact Hv.
  assert (Hview : pointwise_relation Z eq (view s') (view s)).
  { intros x. unfold view. change (f_data s') with (f_data s). change (f_mem s') with (f_mem s).
    destruct (in_cache x) eqn:Hx; [by rewrite Hpr|done]. }
  pose proof (l_size _ Hl) as Hn. rewrite Hv' in Hn.
  split; [|split_and!; [intros x; by rewrite Hview|done|done]]. split; [|by rewrite Hview]. rewrite Hview.
  destruct C as [Cd Cs Cb Co Cf Cc Cg]. constructor; try done.
  - by rewrite Hpr.
  - intros b Hb. unfold unread, no_table in *. cbn. rewrite Ht, Hd by (unfold pg; try (split; [apply Z.div_le_lower_bound|apply Z.div_lt_upper_bound]); lia).
    by apply Cf.
  - intros x Hx. cbn. rewrite Hpr, Ht by auto. by apply Cc.
  - cbn. etransitivity; [|exact Ha]. rewrite Hv'. unfold missing. apply Z.eq_le_incl. f_equal; apply count_ext.
    + intros b Hb%elem_of_seqZ. unfold unread. cbn. rewrite Ht by (unfold pg; lia). done.
    + intros k Hk%elem_of_seqZ. unfold no_table. cbn. rewrite Hd by lia. done.
Qed.

Lemma sees_budget s0 v s : sees s0 v s → missing (nblocks (rd8 v)) s ≤ f_avail s.
Proof.
  intros ((C & _) & Hv & _). assert (Hv' : pointwise_relation Z eq (view s) (rd8 v)) by exact Hv.
  rewrite <- Hv'. apply C.
Qed.

Lemma sees_map_fd s0 v s p : sees s0 v s → fdpage p → sees (map_fd p s) v (map_fd p s).
Proof.
  intros S Hp. unfold fdpage in Hp. eapply sees_pages; [exact S| | |by eapply sees_budget].
  - intros n Hn. destruct (Z.eqb_spec n p); [lia|done].
  - intros k Hk. assert (832 ≤ p / 1024) by (apply Z.div_le_lower_bound; lia). destruct (Z.eqb_spec k (p / 1024)); [lia|done].
Qed.
End io.

(** The small disk of FsSpec.v with its root open in a client, which asks to
    write 100 bytes at 5000. *)
#[local] Existing Instance demo_device.
#[local] Existing Instance demo_laws.
Definition demo_of : OpenFile := mkOF 1024 s_root_va 2 FILEVA.
Definition demo_fd_fs : fss := map_fd 851968 demo_fs.
Definition demo_req_mem : mem := wr32 (wr32 (wr32 (f_mem demo_fd_fs) fsreq 1024) req_n_va 100) (FILEVA + 4) 5000.
Definition demo_st0 : sst := mkSv demo_fd_fs (<[0%nat := demo_of]> demo_tab) (λ a, if a =? FILEVA then 1 else 0).
Definition demo_st : sst := sw_fs (fw_mem demo_req_mem demo_fd_fs) demo_st0.

Lemma demo_st0_inv : sv_inv demo_st0.
Proof.
  constructor.
  - reflexivity.
  - intros i o. cbn [sv_tab demo_st0]. rewrite list_lookup_insert. case_decide as Hi.
    + destruct Hi as [<- _]. intros [= <-]. split; [reflexivity|]. split; [|reflexivity]. cbn [o_fileid demo_of]. lia.
    + apply (si_ent _ demo_sv_inv).
  - intros i Hi. unfold in_use, fdva. cbn [sv_shared demo_st0]. destruct (Z.eqb_spec (FILEVA + Z.of_nat i * PGSIZE) FILEVA); [|lia].
    replace i with 0%nat by lia. split; [lia|]. intros _. reflexivity.
Qed.

Lemma demo_fd_buffer x : FILEVA ≤ x < FILEVA + PGSIZE → buffer demo_fd_fs true x.
Proof.
  intros Hx. split; [lia|]. split.
  - apply not_true_is_false. rewrite in_cache_spec. lia.
  - cbn [f_pte demo_fd_fs map_fd fw_pages]. assert (x / 4096 = 851968) as -> by (symmetry;
      apply (Z.div_unique_pos _ _ _ (x - FILEVA)); lia). reflexivity.
Qed.

Lemma demo_at_open0 : at_open demo_fd_fs demo_view demo_st0 0 demo_of.
Proof.
  constructor.
  - exact demo_st0_inv.
  - eapply sees_map_fd; [exact demo_sees|]. unfold fdpage. lia.
  - reflexivity.
  - unfold in_use. reflexivity.
  - exact demo_root.
  - change (o_file demo_of) with s_root_va. unfold fsize, f_size_va. rewrite (demo_root_word 128) by lia. lia.
  - intros x Hx. destruct (demo_buffer true x ltac:(lia)) as (B1 & B2 & B3). split_and!; [lia|lia|done|].
    cbn [f_pte demo_fd_fs map_fd fw_pages]. destruct (Z.eqb_spec (x / 4096) 851968); [reflexivity|exact B3].
  - intros x Hx. apply demo_fd_buffer. unfold fdva in Hx. lia.
Qed.

Lemma serve_write_read_witness :
  ∃ st1, serve_write demo_st = Ok 100 st1 ∧ rd32 (f_mem (sv_fs st1)) (fdva 0 + 4) = 5100.
Proof.
  assert (A : at_open demo_fd_fs (overlay demo_view demo_req_mem) demo_st 0 demo_of).
  { apply (at_open_client _ _ demo_st0); [exact demo_at_open0|]. intros x Hx. apply in_cache_spec in Hx.
    unfold demo_req_mem, req_n_va. rewrite !rd8_wr32_ne by lia. reflexivity. }
  destruct (serve_write_read demo_fd_fs _ demo_st 0 demo_of 100 5000 A) as (st1 & H1 & H2 & _).
  - reflexivity.
  - reflexivity.
  - lia.
  - reflexivity.
  - lia.
  - right. destruct (content_client demo_view demo_req_mem s_root_va demo_layout demo_root) as (_ & _ & _ & _ & R).
    change (o_file demo_of) with s_root_va. rewrite R, demo_room. change (np 5000 (5000 + 100)) with 1. lia.
  - exists st1. exact (conj H1 H2).
Defined.
