(* ===== verification/FileServ.v ===== *)
(** A program and the file server: lib/file.c on top of fs/serv.c.

    The state has the memory that is the program's own, the descriptor pages
    it shares with the server, and the server.  While the server works on a
    request, the program waits for the answer and the page fsipcbuf is the
    page at fsreq; so [fsipc] passes its contents over, lets the server take
    one turn of its loop, and passes them back with the answer. *)

From S2P Require Import Prelude Mmu Printfmt KState Syscall CString ULib Fd File Ide Bc Fs FsBlock FsFile FsSpec FsDir Serv ServSpec.
From Stdlib Require Import ZArith Lia Ascii String.
From stdpp Require Import base tactics numbers list.
Open Scope Z_scope.

Section client.
Context `{IdeDevice}.

(** [j_fd k]: the page of the server that is mapped as descriptor [k]. *)
Record jst := mkJ { j_sv : sst; j_mem : mem; j_fd : Z → option Z }.
Definition jw_sv (s : sst) (j : jst) : jst := mkJ s (j_mem j) (j_fd j).
Definition jw_mem (m : mem) (j : jst) : jst := mkJ (j_sv j) m (j_fd j).
Definition jw_fd (d : Z → option Z) (j : jst) : jst := mkJ (j_sv j) (j_mem j) d.

Definition in_fds (va : Z) : bool := (FDTABLE <=? va) && (va <? FDTABLE + MAXFD * PGSIZE).
Definition srv_mem (j : jst) : mem := f_mem (sv_fs (j_sv j)).
Definition jw_srv (m : mem) (j : jst) : jst := jw_sv (sw_fs (fw_mem m (sv_fs (j_sv j))) (j_sv j)) j.

(** An access to [va]: to the program's own memory, or to a page of the
    server. *)
Definition j_load {A} (rd : mem → Z → A) (va : Z) : M jst A := λ j,
  if in_fds va then
    match j_fd j (fd2num va) with
    | Some p => Ok (rd (srv_mem j) (p + PGOFF va)) j
    | None => Panic "page fault in user mode"
    end
  else Ok (rd (j_mem j) va) j.
Definition j_store (wr : mem → Z → Z → mem) (va x : Z) : M jst unit := λ j,
  if in_fds va then
    match j_fd j (fd2num va) with
    | Some p => Ok tt (jw_srv (wr (srv_mem j) (p + PGOFF va) x) j)
    | None => Panic "page fault in user mode"
    end
  else Ok tt (jw_mem (wr (j_mem j) va x) j).

#[export] Instance client_mem : UserMem jst :=
  {| um_ld8 := j_load rd8; um_st8 := j_store wr8; um_ld32 := j_load rd32; um_st32 := j_store wr32 |}.

Context (fsipcbuf whom : Z).

(** The page at [src] of [m'] as the page at [dst] of [m]. *)
Definition page_over (dst : Z) (m : mem) (src : Z) (m' : mem) : mem :=
  λ x, if (dst <=? x) && (x <? dst + PGSIZE) then m' (src + (x - dst)) else m x.

(** The page that comes with an answer is mapped at [dstva], in place of
    what was there. *)
Definition map_page (dstva : Z) (pg : option (Z * Z)) (j : jst) : jst :=
  match pg with
  | Some (va, _) =>
      if dstva =? 0 then j else
      let h := sv_shared (j_sv j) in
      let h' := match j_fd j (fd2num dstva) with
                | Some p => λ a, if a =? p then h a - 1 else h a
                | None => h
                end in
      jw_fd (λ k, if k =? fd2num dstva then Some va else j_fd j k) (jw_sv (sw_shared h' (j_sv j)) j)
  | None => j
  end.

Definition client_fsipc (type dstva : Z) : M jst Z := λ j,
  let q := mkRq type whom (Some (PTE_P + PTE_W + PTE_U, λ o, rd8 (j_mem j) (fsipcbuf + o))) true (negb (dstva =? 0)) in
  match serve_one q (j_sv j) with
  | Ok (Some (r, pg)) sv =>
      let m := page_over fsipcbuf (j_mem j) fsreq (f_mem (sv_fs sv)) in
      Ok (s32 (u32 r)) (map_page dstva pg (mkJ sv m (j_fd j)))
  | Ok None sv => Noret Spinning (jw_sv sv j)
  | Noret x sv => Noret x (jw_sv sv j)
  | Panic msg => Panic msg
  | Undef => Undef
  end.

(** fd_alloc and fd_close of lib/fd.c on this state; the devices are files. *)
Definition client_fd_alloc : M jst (Z * Z) := mgets (λ j,
  match List.find (λ k, bool_decide (j_fd j k = None)) (seqZ 0 MAXFD) with
  | Some k => (0, INDEX2FD k)
  | None => (- E_MAX_OPEN, 0)
  end).
Definition client_unmap (k : Z) (j : jst) : jst :=
  match j_fd j k with
  | Some p =>
      jw_fd (λ k', if k' =? k then None else j_fd j k')
        (jw_sv (sw_shared (λ a, if a =? p then sv_shared (j_sv j) a - 1 else sv_shared (j_sv j) a) (j_sv j)) j)
  | None => j
  end.
Definition client_fd_close (fd : Z) (must_exist : bool) : M jst Z :=
  j ← mget;
  match j_fd j (fd2num fd) with
  | None => mret (if must_exist then - E_INVAL else 0)
  | Some _ =>
      id ← um_ld32 (fd_dev_id fd);
      r ← (if id =? DEVFILE_ID then devfile_flush fsipcbuf client_fsipc fd else mret (- E_INVAL));
      mmod (client_unmap (fd2num fd));;
      mret r
  end.

Definition client_open (maxlen : nat) : Z → Z → M jst Z :=
  open fsipcbuf maxlen client_fsipc client_fd_alloc client_fd_close.
End client.

(* ------------------------------------------------------------------ *)
(** ** Requests *)

Section requests.
Context `{L : IdeLaws}.

(** The [i]th file is open, and the server waits for a request. *)
Record at_rest (v : mem) (st : sst) (i : nat) (o : OpenFile) : Prop := {
  ar_inv : sv_inv st;
  ar_sees : sees (sv_fs st) v (sv_fs st);
  ar_tab : sv_tab st !! i = Some o;
  ar_use : in_use st i;
  ar_file : file_ok v (o_file o);
  ar_size : fsize v (o_file o) ≤ MAXBLK * BLKSIZE;
  ar_fd : ∀ x, fdva i ≤ x < fdva i + PGSIZE → buffer (sv_fs st) true x }.

Lemma rest_index v st i o : at_rest v st i o → (i < 1024)%nat.
Proof. intros R. rewrite <- (si_len _ (ar_inv _ _ _ _ R)). by eapply lookup_lt_Some, R. Qed.

Lemma sees_self s0 v s : sees s0 v s → sees s v s.
Proof. by intros (? & ? & _ & _). Qed.

Lemma fsreq_page x : fsreq ≤ x < fsreq + PGSIZE ↔ x / 4096 = 65535.
Proof.
  pose proof (Z.div_mod x 4096 ltac:(lia)). pose proof (Z.mod_pos_bound x 4096 ltac:(lia)). split; [|lia].
  intros Hx. symmetry. apply (Z.div_unique_pos _ _ _ (x - fsreq)); lia.
Qed.

(** The memory with a request in it. *)
Definition req_mem (bytes : Z → Z) (m : mem) : mem :=
  λ a, if (fsreq <=? a) && (a <? fsreq + PGSIZE) then bytes (a - fsreq) else m a.
Definition with_req (bytes : Z → Z) (st : sst) : sst :=
  sw_fs (set_pte fsreq 7 (fw_mem (req_mem bytes (f_mem (sv_fs st))) (sv_fs st))) st.

Lemma req_cache bytes st x : in_cache x = true → rd8 (req_mem bytes (f_mem (sv_fs st))) x = rd8 (f_mem (sv_fs st)) x.
Proof.
  intros Hx. apply in_cache_spec in Hx. unfold rd8, req_mem.
  destruct (Z.leb_spec fsreq x), (Z.ltb_spec x (fsreq + PGSIZE)); cbn [andb]; done || lia.
Qed.

Lemma set_pte_req_sees s0 v f p : sees s0 v f → sees (set_pte fsreq p f) v (set_pte fsreq p f).
Proof.
  intros S. unfold set_pte, fw_pte. eapply sees_pages; [exact S| |done|by eapply sees_budget].
  intros n Hn. change (PGNUM fsreq) with 65535. destruct (Z.eqb_spec n 65535); [lia|done].
Qed.

(** A request comes to a server at rest. *)
Lemma rest_recv v st i o bytes : at_rest v st i o →
  at_open (sv_fs (with_req bytes st)) (overlay v (req_mem bytes (f_mem (sv_fs st)))) (with_req bytes st) i o.
Proof.
  intros [A1 A2 A3 A4 A5 A6 A7]. set (m := req_mem bytes (f_mem (sv_fs st))).
  destruct (content_client v m (o_file o) (sees_layout _ _ _ A2) A5) as (F & Z & _).
  pose proof (sees_client _ v _ m _ A2 A5 (req_cache bytes st)) as S1.
  assert (Hreq : ∀ x, fsreq ≤ x < fsreq + PGSIZE → buffer (sv_fs (with_req bytes st)) true x).
  { intros x Hx. split; [lia|]. split; [apply not_true_is_false; rewrite in_cache_spec; lia|].
    apply fsreq_page in Hx. cbn. rewrite Hx. reflexivity. }
  constructor; try done; [|by eapply set_pte_req_sees|by rewrite Z|].
  - apply (served_mem st st _ (served_refl _ A1)). constructor; [|done]. intros p Hp Ht. unfold fdpage in Hp. cbn.
    change (PGNUM fsreq) with 65535. destruct (Z.eqb_spec p 65535); [lia|done].
  - intros x Hx. destruct (A7 x Hx) as (B1 & B2 & B3). split_and!; [lia|lia|done|]. cbn. change (PGNUM fsreq) with 65535.
    destruct (Z.eqb_spec (x / 4096) 65535) as [E|]; [|done]. apply fsreq_page in E. unfold fdva in Hx. lia.
Qed.

(** The answer has been sent, and the request page is unmapped. *)
Definition without_req (st : sst) : sst := sw_fs (set_pte fsreq 0 (sv_fs st)) st.

Lemma open_rest s0 v st i o : at_open s0 v st i o → at_rest v (without_req st) i o.
Proof.
  intros [A1 A2 A3 A4 A5 A6 _ A8]. constructor; try done; [|by eapply set_pte_req_sees|].
  - apply (served_mem st st _ (served_refl _ A1)). constructor; [|done]. intros p Hp Ht. unfold fdpage in Hp. cbn.
    change (PGNUM fsreq) with 65535. destruct (Z.eqb_spec p 65535); [lia|done].
  - intros x Hx. destruct (A8 x Hx) as (B1 & B2 & B3). split_and!; [lia|lia|done|]. cbn. change (PGNUM fsreq) with 65535.
    destruct (Z.eqb_spec (x / 4096) 65535) as [E|]; [apply fsreq_page in E; unfold fdva in Hx; lia|]. destruct A2 as (_ & _ & Ha & _). auto.
Qed.

(** The turn of the loop for a request other than to open a file. *)
Lemma serve_one_run h q bytes st r st' : rq_page q = Some (7, bytes) → rq_alive q = true →
  rq_req q ≠ FSREQ_OPEN → handlers (rq_req q) = Some h → h (with_req bytes st) = Ok r st' →
  serve_one q st = Ok (Some (r, None)) (without_req st').
Proof.
  intros Hp Ha Hq Hh Hr. unfold serve_one, sv_recv. rewrite Hp. rewrite bind_assoc. unfold mmod at 1.
  unfold mbind at 1, M_bind at 1. cbn [mret M_ret]. mrun. change (tst 7 PTE_P) with true. cbn [negb].
  unfold serve_dispatch. rewrite (proj2 (Z.eqb_neq _ _) Hq), Hh. rewrite bind_assoc.
  erewrite bind_Ok by exact Hr. mrun. unfold sv_send. rewrite Ha. cbn [negb]. mrun. done.
Qed.
End requests.

(** ** The program's memory *)

Lemma fd_split k a : 0 ≤ k < MAXFD → 0 ≤ a < PGSIZE →
  in_fds (INDEX2FD k + a) = true ∧ fd2num (INDEX2FD k + a) = k ∧ PGOFF (INDEX2FD k + a) = a.
Proof.
  intros Hk Ha. unfold INDEX2FD. rewrite (u32_small (FDTABLE + k * PGSIZE)) by lia. split_and!.
  - unfold in_fds. apply andb_true_iff. rewrite Z.leb_le, Z.ltb_lt. lia.
  - unfold fd2num. replace (FDTABLE + k * PGSIZE + a - FDTABLE) with (k * PGSIZE + a) by lia.
    rewrite u32_small by lia. symmetry. apply (Z.div_unique_pos _ _ _ a); lia.
  - rewrite PGOFF_mod, u32_small by lia. replace (FDTABLE + k * PGSIZE + a) with (a + (851968 + k) * PGSIZE) by lia.
    rewrite Z.mod_add by lia. by apply Z.mod_small.
Qed.

Section memory.
Context `{IdeDevice}.

(** [n] bytes from [a] on are memory of the program's own. *)
Definition own_range (a n : Z) : Prop := 0 ≤ a ∧ a + n ≤ 2 ^ 32 ∧ ∀ x, a ≤ x < a + n → in_fds x = false.

Lemma own_sub a n b k : own_range a n → a ≤ b → b + k ≤ a + n → own_range b k.
Proof. intros (H1 & H2 & H3) Hb Hk. split_and!; [lia..|]. intros x Hx. apply H3. lia. Qed.

Lemma ld_own {A} (rd : mem → Z → A) va n j : own_range va n → 0 < n → j_load rd va j = Ok (rd (j_mem j) va) j.
Proof. intros (_ & _ & H3) Hn. unfold j_load. by rewrite H3 by lia. Qed.
Lemma st_own wr va n x j : own_range va n → 0 < n → j_store wr va x j = Ok tt (jw_mem (wr (j_mem j) va x) j).
Proof. intros (_ & _ & H3) Hn. unfold j_store. by rewrite H3 by lia. Qed.

Lemma ld_fd {A} (rd : mem → Z → A) k a p j : 0 ≤ k < MAXFD → 0 ≤ a < PGSIZE → j_fd j k = Some p →
  j_load rd (INDEX2FD k + a) j = Ok (rd (srv_mem j) (p + a)) j.
Proof. intros Hk Ha Hp. destruct (fd_split k a Hk Ha) as (E1 & E2 & E3). unfold j_load. by rewrite E1, E2, E3, Hp. Qed.
Lemma st_fd wr k a p x j : 0 ≤ k < MAXFD → 0 ≤ a < PGSIZE → j_fd j k = Some p →
  j_store wr (INDEX2FD k + a) x j = Ok tt (jw_srv (wr (srv_mem j) (p + a) x) j).
Proof. intros Hk Ha Hp. destruct (fd_split k a Hk Ha) as (E1 & E2 & E3). unfold j_store. by rewrite E1, E2, E3, Hp. Qed.

Lemma memmove_own dst src n j : 0 ≤ n → own_range dst n → own_range src n → dst + n ≤ src ∨ src + n ≤ dst →
  ∃ m, um_memmove dst src n j = Ok tt (jw_mem m j) ∧
    ∀ x, rd8 m x = if (dst <=? x) && (x <? dst + n) then rd8 (j_mem j) (src + (x - dst)) else rd8 (j_mem j) x.
Proof.
  intros Hn (D1 & D2 & D3) (S1 & S2 & S3) Hd. unfold um_memmove.
  assert (∀ k : nat, Z.of_nat k ≤ n → ∃ m, mfor (seqZ 0 (Z.of_nat k)) (λ i, c ← um_ld8 (u32 (src + i)); um_st8 (u32 (dst + i)) c) j
      = Ok tt (jw_mem m j) ∧
    ∀ x, rd8 m x = if (dst <=? x) && (x <? dst + Z.of_nat k) then rd8 (j_mem j) (src + (x - dst)) else rd8 (j_mem j) x) as Hgo.
  { intros k. induction k as [|k IH]; intros Hk.
    - exists (j_mem j). split; [by destruct j|]. intros x. destruct (Z.leb_spec dst x), (Z.ltb_spec x (dst + Z.of_nat 0)); cbn [andb]; done || lia.
    - destruct (IH ltac:(lia)) as (m & E & Hm). replace (Z.of_nat (S k)) with (Z.of_nat k + 1) by lia.
      rewrite seqZ_app, mfor_app by lia. erewrite bind_Ok by exact E. rewrite Z.add_0_l.
      rewrite (seqZ_cons (Z.of_nat k)), seqZ_nil by lia. cbn [mfor].
      rewrite !u32_small by lia. unfold um_ld8, um_st8, client_mem, j_load, j_store. unfold mbind, M_bind.
      rewrite S3, D3 by lia. eexists. split; [reflexivity|]. intros x. cbn [j_mem jw_mem]. rewrite rd8_wr8.
      destruct (Z.eqb_spec x (dst + Z.of_nat k)) as [->|Hne].
      + rewrite (proj2 (Z.leb_le _ _)), (proj2 (Z.ltb_lt _ _)) by lia. cbn [andb].
        rewrite Hm. destruct (Z.leb_spec dst (src + Z.of_nat k)), (Z.ltb_spec (src + Z.of_nat k) (dst + Z.of_nat k)); cbn [andb];
          try lia; rewrite u8_small by apply rd8_range; f_equal; lia.
      + rewrite Hm. destruct (Z.leb_spec dst x), (Z.ltb_spec x (dst + Z.of_nat k)), (Z.ltb_spec x (dst + (Z.of_nat k + 1))); cbn [andb]; done || lia. }
  destruct (Hgo (Z.to_nat n)) as (m & E & Hm); [lia|]. rewrite Z2Nat.id in E, Hm by lia. by exists m.
Qed.
End memory.

(* ------------------------------------------------------------------ *)
(** ** Reading and writing *)

Section io.
Context `{L : IdeLaws} (fsipcbuf whom : Z).
Hypothesis Hbuf : own_range fsipcbuf PGSIZE.

(** Descriptor [k] of the program is the [i]th open file, which the server
    sees in [v]. *)
Record has_file (v : mem) (j : jst) (k : Z) (i : nat) (o : OpenFile) : Prop := {
  hf_rest : at_rest v (j_sv j) i o;
  hf_ix : 0 ≤ k < MAXFD;
  hf_fd : j_fd j k = Some (fdva i);
  hf_id : rd32 v (fdva i + 12) = o_fileid o }.

Lemma has_file_mem v j k i o m : has_file v j k i o → has_file v (jw_mem m j) k i o.
Proof. intros []. by constructor. Qed.

(** The pages outside of the cache are seen as they are. *)
Lemma fd_view v j k i o a : has_file v j k i o → 0 ≤ a → a + 4 ≤ PGSIZE → rd32 (srv_mem j) (fdva i + a) = rd32 v (fdva i + a).
Proof.
  intros [R _ _ _] Ha Hb. eapply sees_mem32; [apply R|]. intros x Hx. eapply buffer_cache, (ar_fd _ _ _ _ R). lia.
Qed.

Lemma put_fileid_run v j k i o : has_file v j k i o →
  put_fileid fsipcbuf (INDEX2FD k) j = Ok tt (jw_mem (wr32 (j_mem j) fsipcbuf (o_fileid o)) j).
Proof.
  intros Hf. unfold put_fileid. assert (fd_file_id (INDEX2FD k) = INDEX2FD k + 12) as ->.
  { unfold fd_file_id, INDEX2FD. pose proof (hf_ix _ _ _ _ _ Hf). rewrite (u32_small (FDTABLE + k * PGSIZE)), u32_small; lia. }
  unfold um_ld32, client_mem. erewrite bind_Ok by (apply ld_fd; [apply Hf|lia|apply Hf]).
  rewrite (fd_view _ _ _ _ _ 12 Hf), (hf_id _ _ _ _ _ Hf) by lia. by apply (st_own _ _ PGSIZE).
Qed.

(** What the server sees of the request and of the Fd. *)
Definition req_view (v : mem) (j : jst) : mem :=
  overlay v (req_mem (λ o, rd8 (j_mem j) (fsipcbuf + o)) (srv_mem j)).

Lemma req_view_req v j o : 0 ≤ o < PGSIZE → rd8 (req_view v j) (fsreq + o) = rd8 (j_mem j) (fsipcbuf + o).
Proof.
  intros Ho. unfold req_view. rewrite rd8_overlay.
  replace (in_cache (fsreq + o)) with false by (symmetry; apply not_true_is_false; rewrite in_cache_spec; lia).
  unfold rd8 at 1, req_mem. rewrite (proj2 (Z.leb_le _ _)), (proj2 (Z.ltb_lt _ _)) by lia. cbn [andb].
  rewrite u8_small by apply rd8_range. f_equal. lia.
Qed.
Lemma req_view_req32 v j o : 0 ≤ o → o + 4 ≤ PGSIZE → rd32 (req_view v j) (fsreq + o) = rd32 (j_mem j) (fsipcbuf + o).
Proof. intros H0 H4. apply rd32_move. intros t Ht. rewrite <- !Z.add_assoc. apply req_view_req. lia. Qed.

Lemma req_view_fd v j k i o x : has_file v j k i o → fdva i ≤ x < fdva i + PGSIZE → rd8 (req_view v j) x = rd8 v x.
Proof.
  intros [R _ _ _] Hx. pose proof (buffer_cache _ _ _ (ar_fd _ _ _ _ R x Hx)) as Hc. unfold req_view. rewrite rd8_overlay, Hc.
  rewrite <- (sees_mem _ _ _ _ (ar_sees _ _ _ _ R) Hc). unfold rd8, req_mem. unfold fdva in Hx.
  destruct (Z.ltb_spec x (fsreq + PGSIZE)); [lia|]. by rewrite andb_false_r.
Qed.
Lemma req_view_fd32 v j k i o a : has_file v j k i o → 0 ≤ a → a + 4 ≤ PGSIZE →
  rd32 (req_view v j) (fdva i + a) = rd32 v (fdva i + a).
Proof. intros Hf H0 H4. apply rd32_same. intros x Hx. eapply req_view_fd; [done|lia]. Qed.

(** The page fsipcbuf comes back as the server leaves it. *)
Definition answered (st : sst) (j : jst) : jst :=
  mkJ (without_req st) (page_over fsipcbuf (j_mem j) fsreq (f_mem (sv_fs st))) (j_fd j).

Lemma fsipc_handler type h j r st : type ≠ FSREQ_OPEN → handlers type = Some h →
  h (with_req (λ o, rd8 (j_mem j) (fsipcbuf + o)) (j_sv j)) = Ok r st → - 2 ^ 31 ≤ r < 2 ^ 31 →
  client_fsipc fsipcbuf whom type 0 j = Ok r (answered st j).
Proof.
  intros Ht Hh Hr Hrange. unfold client_fsipc. erewrite serve_one_run; [|reflexivity..|exact Ht|exact Hh|exact Hr].
  cbn [map_page]. f_equal. unfold s32, u32. rewrite Z.add_mod_idemp_l, Z.mod_small by lia. lia.
Qed.

(** The program's memory after an answer. *)
Lemma answered_out st j x : x < fsipcbuf ∨ fsipcbuf + PGSIZE ≤ x → rd8 (j_mem (answered st j)) x = rd8 (j_mem j) x.
Proof.
  intros Hx. cbn. unfold rd8, page_over. destruct (Z.leb_spec fsipcbuf x), (Z.ltb_spec x (fsipcbuf + PGSIZE)); cbn [andb]; done || lia.
Qed.
Lemma answered_in s0 v st j i o a : at_open s0 v st i o → 0 ≤ a < PGSIZE → rd8 (j_mem (answered st j)) (fsipcbuf + a) = rd8 v (fsreq + a).
Proof.
  intros A Ha. rewrite <- (sees_mem _ _ _ _ (ao_sees _ _ _ _ _ A)).
  - cbn. unfold rd8, page_over. rewrite (proj2 (Z.leb_le _ _)), (proj2 (Z.ltb_lt _ _)) by lia. cbn [andb]. do 2 f_equal. lia.
  - eapply buffer_cache, (ao_req _ _ _ _ _ A). lia.
Qed.

(** The request that write and read send: the file id, [n], and [p] bytes. *)
Lemma has_file_answered s0 v v' st j k i o : has_file v j k i o → at_open s0 v' st i o →
  (∀ x, in_cache x = false → fdva i + 8 ≤ x → rd8 v' x = rd8 (req_view v j) x) →
  has_file v' (answered st j) k i o.
Proof.
  intros Hf A Hr. constructor; [by eapply open_rest|apply Hf|apply Hf|].
  rewrite <- (hf_id _ _ _ _ _ Hf), <- (req_view_fd32 v j k i o 12 Hf) by lia. apply rd32_same. intros x Hx.
  apply Hr; [|lia]. eapply buffer_cache, (ar_fd _ _ _ _ (hf_rest _ _ _ _ _ Hf)). lia.
Qed.

(** The server's view when the request has come in. *)
Lemma req_open v j k i o : has_file v j k i o →
  let s1 := with_req (λ o, rd8 (j_mem j) (fsipcbuf + o)) (j_sv j) in
  at_open (sv_fs s1) (req_view v j) s1 i o ∧
  fsize (req_view v j) (o_file o) = fsize v (o_file o) ∧
  (∀ p, 0 ≤ p < MAXBLK * BLKSIZE → content (req_view v j) (o_file o) p = content v (o_file o) p) ∧
  (∀ b, 0 ≤ b < MAXBLK → bmap v (o_file o) b ≠ 0 → bmap (req_view v j) (o_file o) b ≠ 0) ∧
  (∀ pos stop, 0 ≤ pos → stop ≤ MAXBLK * BLKSIZE → covered v (o_file o) pos stop → covered (req_view v j) (o_file o) pos stop).
Proof.
  intros [R _ _ _] s1. split; [by apply rest_recv|].
  destruct (content_client v (req_mem (λ o, rd8 (j_mem j) (fsipcbuf + o)) (srv_mem j)) (o_file o) (sees_layout _ _ _ (ar_sees _ _ _ _ R)) (ar_file _ _ _ _ R))
    as (F & Zs & C & B & Rm). fold (req_view v j) in *. split_and!; try done. intros pos stop Hp Hs [Hc|Hc]; [left|right; by rewrite Rm].
  intros p Hpp. apply B; [|by apply Hc]. split; [apply Z.div_pos; lia|apply Z.div_lt_upper_bound; lia].
Qed.

(** What a write leaves: the file, the offset, and the program's memory. *)
Record client_wrote (v v' : mem) (j j' : jst) (i : nat) (f off buf n : Z) : Prop := {
  cw_size : fsize v' f = Z.max (fsize v f) (off + n);
  cw_content : ∀ p, 0 ≤ p < MAXBLK * BLKSIZE → content v' f p =
    if (off <=? p) && (p <? off + n) then rd8 (j_mem j) (buf + (p - off)) else content v f p;
  cw_there : ∀ p, off ≤ p < off + n → bmap v' f (p / BLKSIZE) ≠ 0;
  cw_off : rd32 v' (fdva i + 4) = off + n;
  cw_mem : ∀ x, x < fsipcbuf ∨ fsipcbuf + PGSIZE ≤ x → rd8 (j_mem j') x = rd8 (j_mem j) x }.

Definition apart (a n : Z) : Prop := own_range a n ∧ (a + n ≤ fsipcbuf ∨ fsipcbuf + PGSIZE ≤ a).

Lemma file_id_range v j k i o : has_file v j k i o → 0 ≤ o_fileid o < 2 ^ 32.
Proof. intros [R _ _ _]. by destruct (si_ent _ (ar_inv _ _ _ _ R) _ _ (ar_tab _ _ _ _ R)) as (_ & ? & _). Qed.

(** Filling in a request: file id and length, and the bytes to write. *)
Lemma fill_request v j k i o n : has_file v j k i o → 0 ≤ n < 2 ^ 32 →
  ∃ m, (∀ (q : M jst Z), (put_fileid fsipcbuf (INDEX2FD k);; um_st32 (fsipcbuf + 4) n;; q) j = q (jw_mem m j)) ∧
    rd32 m fsipcbuf = o_fileid o ∧ rd32 m (fsipcbuf + 4) = n ∧
    ∀ x, x < fsipcbuf ∨ fsipcbuf + 8 ≤ x → rd8 m x = rd8 (j_mem j) x.
Proof.
  intros Hf Hn. pose proof (file_id_range _ _ _ _ _ Hf).
  exists (wr32 (wr32 (j_mem j) fsipcbuf (o_fileid o)) (fsipcbuf + 4) n). split_and!.
  - intros q. erewrite bind_Ok by (by eapply put_fileid_run). unfold um_st32, client_mem.
    erewrite bind_Ok by (apply (st_own _ _ 4); [eapply own_sub; [exact Hbuf|lia..]|lia]). done.
  - rewrite rd32_wr32_ne, rd32_wr32_eq by lia. by apply u32_small.
  - rewrite rd32_wr32_eq. by apply u32_small.
  - intros x Hx. by rewrite !rd8_wr32_ne by lia.
Qed.

Lemma client_write v j k i o off buf n :
  has_file v j k i o → 0 ≤ n < 2 ^ 32 → let n' := Z.min n (PGSIZE - 8) in
  rd32 v (fdva i + 4) = off → off + n' ≤ MAXBLK * BLKSIZE → covered v (o_file o) off (off + n') → apart buf n' →
  ∃ v' j', devfile_write fsipcbuf (client_fsipc fsipcbuf whom) (INDEX2FD k) buf n j = Ok n' j' ∧
    has_file v' j' k i o ∧ client_wrote v v' j j' i (o_file o) off buf n'.
Proof.
  intros Hf Hn n' Hoff Hend Hcov [Hown Hap]. unfold devfile_write.
  replace (if PGSIZE - 8 <? n then PGSIZE - 8 else n) with n' by (unfold n'; destruct (Z.ltb_spec (PGSIZE - 8) n); lia).
  assert (Hn' : 0 ≤ n' ≤ PGSIZE - 8) by (unfold n'; lia). clearbody n'. clear n Hn. cbv zeta.
  destruct (fill_request v j k i o n' Hf ltac:(lia)) as (m2 & Ef & Mid & Mn & M). rewrite Ef.
  destruct (memmove_own (fsipcbuf + 8) buf n' (jw_mem m2 j)) as (m & Em & Hm);
    [lia|eapply own_sub; [exact Hbuf|lia..]|done|lia|]. rewrite (bind_Ok _ _ _ _ _ Em). cbn [j_mem jw_mem] in Hm.
  set (j3 := jw_mem m _). assert (H3 : has_file v j3 k i o) by (by repeat apply has_file_mem).
  assert (M3 : ∀ x, x < fsipcbuf + 8 ∨ fsipcbuf + 8 + n' ≤ x → rd8 m x = rd8 m2 x).
  { intros x Hx. rewrite Hm. destruct (Z.leb_spec (fsipcbuf + 8) x), (Z.ltb_spec x (fsipcbuf + 8 + n')); cbn [andb]; done || lia. }
  destruct (req_open v j3 k i o H3) as (A & Zr & Cr & _ & Vr). pose proof (rd32_range v (fdva i + 4)).
  destruct (serve_write_sees _ (req_view v j3) _ i o n' off A) as (v' & st & Hs & A' & W).
  - rewrite <- Mid, <- (Z.add_0_r fsreq), req_view_req32, Z.add_0_r by lia. apply rd32_same. intros x Hx. apply M3. lia.
  - unfold req_n_va. rewrite <- Mn, req_view_req32 by lia. apply rd32_same. intros x Hx. apply M3. lia.
  - lia.
  - by rewrite (req_view_fd32 v j3 k i o).
  - done.
  - apply Vr; [lia|done|done].
  - exists v', (answered st j3). split_and!; [eapply fsipc_handler; [done|reflexivity|exact Hs|lia]| |].
    + eapply has_file_answered; [done|done|]. intros x Hx Hge. apply (wt_rest _ _ _ _ _ _ W); [done|lia].
    + constructor; [by rewrite (wt_size _ _ _ _ _ _ W), Zr| |apply W|apply (wt_off _ _ _ _ _ _ W)|].
      * intros p Hp. rewrite (wt_content _ _ _ _ _ _ W), Cr by done. destruct (Z.leb_spec off p), (Z.ltb_spec p (off + n')); cbn [andb]; try done.
        unfold req_buf_va. rewrite <- Z.add_assoc, req_view_req by lia. change (j_mem j3) with m. rewrite Hm.
        rewrite (proj2 (Z.leb_le _ _)), (proj2 (Z.ltb_lt _ _)) by lia. cbn [andb]. rewrite M by lia. f_equal. lia.
      * intros x Hx. rewrite answered_out by done. change (j_mem j3) with m. rewrite M3, M by lia. done.
Qed.

(** What a read of [n] leaves: the bytes in the program's memory, the offset,
    and the file as it was. *)
Record client_got (v v' : mem) (j j' : jst) (i : nat) (f off buf n : Z) : Prop := {
  cg_size : fsize v' f = fsize v f;
  cg_content : ∀ p, 0 ≤ p < MAXBLK * BLKSIZE → content v' f p = content v f p;
  cg_off : rd32 v' (fdva i + 4) = off + n;
  cg_mem : ∀ x, x < fsipcbuf ∨ fsipcbuf + PGSIZE ≤ x → rd8 (j_mem j') x =
    if (buf <=? x) && (x <? buf + n) then content v f (off + (x - buf)) else rd8 (j_mem j) x }.

Lemma client_read v j k i o off buf n :
  has_file v j k i o → 0 ≤ n ≤ PGSIZE → let r := readable v (o_file o) off n in
  rd32 v (fdva i + 4) = off → off < 2 ^ 31 → apart buf n →
  (∀ p, off ≤ p < off + r → bmap v (o_file o) (p / BLKSIZE) ≠ 0) →
  ∃ v' j', devfile_read fsipcbuf (client_fsipc fsipcbuf whom) (INDEX2FD k) buf n j = Ok r j' ∧
    has_file v' j' k i o ∧ client_got v v' j j' i (o_file o) off buf r.
Proof.
  intros Hf Hn r Hoff Hlt [Hown Hap] Hmap. unfold devfile_read. pose proof (rd32_range v (fdva i + 4)).
  pose proof (ar_size _ _ _ _ (hf_rest _ _ _ _ _ Hf)) as Hsz.
  destruct (fill_request v j k i o n Hf ltac:(lia)) as (m & Ef & Mid & Mn & M). rewrite Ef.
  set (j1 := jw_mem m j). assert (H1 : has_file v j1 k i o) by (by apply has_file_mem).
  destruct (req_open v j1 k i o H1) as (A & Zr & Cr & Br & _).
  assert (Er : readable (req_view v j1) (o_file o) off n = r) by (unfold readable; by rewrite Zr).
  assert (Hr : 0 ≤ r ≤ n) by (unfold r, readable; lia).
  assert (Hin : ∀ p, off ≤ p < off + r → 0 ≤ p < MAXBLK * BLKSIZE) by (unfold r, readable; lia).
  destruct (serve_read_sees _ (req_view v j1) _ i o n off A) as (v' & st & Hs & A' & W); rewrite ?Er in *.
  - rewrite <- Mid, <- (Z.add_0_r fsreq), req_view_req32, Z.add_0_r by lia. done.
  - unfold req_n_va. by rewrite <- Mn, req_view_req32 by lia.
  - lia.
  - by rewrite (req_view_fd32 v j1 k i o).
  - done.
  - intros p Hp. specialize (Hin p Hp). apply Br; [split; [apply Z.div_pos; lia|apply Z.div_lt_upper_bound; lia]|by apply Hmap].
  - clearbody r. erewrite bind_Ok by (eapply fsipc_handler; [done|reflexivity|exact Hs|lia]).
    rewrite (proj2 (Z.ltb_ge _ _)), u32_small, !(proj2 (Z.leb_le _ _)) by lia. cbn [massert]. mrun.
    destruct (memmove_own buf fsipcbuf r (answered st j1)) as (m' & Em & Hm);
      [lia|eapply own_sub; [exact Hown|lia..]|eapply own_sub; [exact Hbuf|lia..]|lia|]. rewrite (bind_Ok _ _ _ _ _ Em).
    exists v', (jw_mem m' (answered st j1)). split_and!; [done| |].
    + apply has_file_mem. eapply has_file_answered; [done|done|]. intros x Hx Hge.
      destruct (at_open_fd _ _ _ _ _ A) as (_ & Hlo & _). apply (wr_rest _ _ _ _ _ _ W); [done|lia|lia].
    + constructor; [by rewrite (wr_size _ _ _ _ _ _ W), Zr|intros p Hp; by rewrite (wr_content _ _ _ _ _ _ W), Cr|apply (wr_off _ _ _ _ _ _ W)|].
      intros x Hx. cbn [j_mem jw_mem]. rewrite Hm. destruct (Z.leb_spec buf x), (Z.ltb_spec x (buf + r)); cbn [andb];
        [|rewrite answered_out by done; apply M; lia..].
      rewrite (answered_in _ v' _ _ i o), (wr_bytes _ _ _ _ _ _ W), Cr by (done || lia || (apply Hin; lia)). done.
Qed.

(** What seek of lib/fd.c stores in the Fd page. *)
Definition client_seek (k off : Z) : M jst unit := um_st32 (fd_offset (INDEX2FD k)) off.

Lemma client_seek_run v j k i o off : has_file v j k i o → 0 ≤ off < 2 ^ 32 →
  ∃ v' j', client_seek k off j = Ok tt j' ∧ has_file v' j' k i o ∧ j_mem j' = j_mem j ∧
    rd32 v' (fdva i + 4) = off ∧ fsize v' (o_file o) = fsize v (o_file o) ∧
    (∀ p, 0 ≤ p < MAXBLK * BLKSIZE → content v' (o_file o) p = content v (o_file o) p) ∧
    (∀ b, 0 ≤ b < MAXBLK → bmap v (o_file o) b ≠ 0 → bmap v' (o_file o) b ≠ 0).
Proof.
  intros Hf Ho. pose proof (hf_rest _ _ _ _ _ Hf) as R. set (m := wr32 (srv_mem j) (fdva i + 4) off).
  assert (Hfd : ∀ x, fdva i ≤ x < fdva i + PGSIZE → in_cache x = false).
  { intros x Hx. eapply buffer_cache, (ar_fd _ _ _ _ R). lia. }
  assert (Hm : ∀ x, in_cache x = true → rd8 m x = rd8 (f_mem (sv_fs (j_sv j))) x).
  { intros x Hx. apply rd8_wr32_ne. destruct (Z.lt_ge_cases x (fdva i + 4)); [by left|].
    destruct (Z.lt_ge_cases x (fdva i + 4 + 4)); [|by right]. rewrite Hfd in Hx by lia. done. }
  destruct (content_client v m (o_file o) (sees_layout _ _ _ (ar_sees _ _ _ _ R)) (ar_file _ _ _ _ R)) as (F & Zs & C & B & _).
  exists (overlay v m), (jw_srv m j).
  assert (Em : ∀ a, 0 ≤ a → a + 4 ≤ PGSIZE → rd32 (overlay v m) (fdva i + a) = rd32 m (fdva i + a)).
  { intros a H0 H4. apply rd32_same. intros x Hx. by rewrite rd8_overlay, Hfd by lia. }
  split_and!; try done.
  - unfold client_seek, fd_offset. rewrite u32_small; [by apply st_fd; [apply Hf|lia|apply Hf]|].
    pose proof (hf_ix _ _ _ _ _ Hf). unfold INDEX2FD. rewrite u32_small by lia. lia.
  - destruct Hf as [_ Hk Hd Hid]. constructor; try done.
    + destruct R as [A1 A2 A3 A4 A5 A6 A7]. constructor; try done; [|by apply (sees_self (sv_fs (j_sv j))), (sees_client _ _ _ _ (o_file o))|by rewrite Zs].
      apply (served_mem _ _ _ (served_refl _ A1)). by apply kept_same.
    + rewrite Em by lia. unfold m. rewrite rd32_wr32_ne by lia. rewrite <- Hid. eapply sees_mem32; [apply R|]. intros x Hx. apply Hfd. lia.
  - rewrite Em by lia. unfold m. rewrite rd32_wr32_eq. by apply u32_small.
Qed.
End io.


(** The server of ServSpec.v with its file open as descriptor 0 of a program
    whose fsipcbuf is at 0x804000. *)
#[local] Existing Instances demo_device demo_laws.
Definition demo_fd_mem : mem := wr32 (f_mem demo_fd_fs) (FILEVA + 12) 1024.
Definition demo_client : jst :=
  mkJ (without_req (sw_fs (fw_mem demo_fd_mem demo_fd_fs) demo_st0)) (λ x, x) (λ k, if k =? 0 then Some FILEVA else None).

Lemma demo_has_file : has_file (overlay demo_view demo_fd_mem) demo_client 0 0 demo_of.
Proof.
  constructor; [|lia|reflexivity|reflexivity]. eapply open_rest. apply (at_open_client _ _ demo_st0); [exact demo_at_open0|].
  intros x Hx. apply in_cache_spec in Hx. apply rd8_wr32_ne. lia.
Qed.

Lemma demo_own a n : 0 ≤ a → a + n ≤ FDTABLE → own_range a n.
Proof.
  intros Ha Hn. split_and!; [lia|lia|]. intros x Hx. unfold in_fds. destruct (Z.leb_spec FDTABLE x); [lia|done].
Qed.

