(* ===== verification/Open.v ===== *)
(** Opening a file: open of lib/file.c, through serve_open of fs/serv.c, on a
    disk that fsformat has made. *)

From S2P Require Import Prelude Mmu Printfmt KState Syscall CString UserVm ULib Fd File Ide Bc Fs FsBlock FsFile FsSpec FsDir Fsformat FsImage Serv ServSpec FileServ.
From Stdlib Require Import ZArith Lia Ascii String.
From stdpp Require Import base tactics numbers list.
Open Scope Z_scope.

(** ** The server's side *)

Lemma path_bytes_cstr l : ∀ n m a, cstr m a l → (length l ≤ n)%nat → path_bytes n m a = l.
Proof.
  induction l as [|c l IH]; intros n m a Hl Hn; cbn [cstr] in Hl.
  - destruct n; cbn [path_bytes]; [done|]. by rewrite Hl.
  - destruct Hl as (Hc & Hne & Hl). destruct n as [|n]; [cbn in Hn; lia|]. cbn [path_bytes].
    rewrite Hc, (proj2 (Z.eqb_neq _ _)) by done. f_equal. apply IH; [done|]. cbn in Hn. lia.
Qed.

Section serve.
Context `{L : IdeLaws}.

(** Views that agree on the disk. *)
Definition same_disk (v v' : mem) : Prop := ∀ x, in_cache x = true → rd8 v' x = rd8 v x.

(** [path] leads to the file [f], whatever there is in memory besides. *)
Definition opens (v : mem) (path : list Z) (f : Z) : Prop :=
  ∀ s0 v' s', sees s0 v' s' → same_disk v v' → ∃ s'', file_open path s' = Ok (0, f) s'' ∧ sees s0 v' s''.

Lemma same_disk_trans v1 v2 v3 : same_disk v1 v2 → same_disk v2 v3 → same_disk v1 v3.
Proof. intros H1 H2 x Hx. by rewrite H2, H1. Qed.

(** What [sees] needs for a store outside of the disk. *)
Lemma same_disk_keeps s0 v s v' g : sees s0 v s → file_ok v g → same_disk v v' → keeps v v' ∧ file_ok v' g.
Proof.
  intros S F Hx. destruct (kept_outside g v v' (sees_layout _ _ _ S) F Hx) as (K & _). split; apply K.
Qed.

Lemma copy_path_run s0 v s path : sees s0 v s → (∀ x, fsreq ≤ x < fsreq + PGSIZE → buffer s0 true x) →
  cstr v fsreq path → (length path < 1024)%nat → copy_path s = Ok path s.
Proof.
  intros S Hb Hp Hl. unfold copy_path.
  assert (touch_range false fsreq MAXPATHLEN s = Ok tt s) as Ht.
  { unfold touch_range. change (seqZ _ _) with [65535]. cbn [mfor]. unfold mbind, M_bind.
    assert (accessible false (pte_of s (65535 * PGSIZE)) = true) as Ha.
    { destruct (buffer_read _ _ (Hb fsreq ltac:(lia))) as (_ & _ & Ha). destruct S as (_ & _ & Hacc & _).
      by apply (Hacc false 65535) in Ha. }
    unfold fault_depth. cbn [touch]. by rewrite Ha. }
  rewrite (bind_Ok _ _ _ _ _ Ht). unfold mgets. f_equal. apply path_bytes_cstr; [|lia].
  apply (cstr_ext v); [|done]. intros x Hx. eapply sees_mem; [done|]. eapply buffer_cache, Hb. lia.
Qed.

Lemma fdva_pdx i : (i < 1024)%nat → 832 ≤ PDX (fdva i).
Proof.
  intros Hi. unfold fdva. rewrite PDX_div, u32_small by lia. apply Z.div_le_lower_bound; lia.
Qed.

(** An open file table with room: the entries before [i] are in use, and the
    [i]th has no page yet. *)
Record fresh_entry (st : sst) (i : nat) (o : OpenFile) : Prop := {
  fe_inv : sv_inv st;
  fe_before : ∀ j, (j < i)%nat → in_use st j;
  fe_entry : sv_tab st !! i = Some o;
  fe_page : fd_mapped (sv_fs st) (fdva i) = false;
  fe_id : o_fileid o + MAXOPEN < 2 ^ 31 }.

(** The page of entry [i] comes into being, full of zeros. *)
Record new_fd (s0 : fss) (v : mem) (s0' : fss) (v' : mem) (i : nat) : Prop := {
  nf_zero : ∀ x, fdva i ≤ x < fdva i + PGSIZE → rd8 v' x = 0;
  nf_rest : ∀ x, x < fdva i ∨ fdva i + PGSIZE ≤ x → rd8 v' x = rd8 v x;
  nf_keep : ∀ w x, buffer s0 w x → buffer s0' w x;
  nf_page : ∀ x, fdva i ≤ x < fdva i + PGSIZE → buffer s0' true x }.

Lemma fd_range i x : (i < 1024)%nat → fdva i ≤ x < fdva i + PGSIZE → x / 4096 = 851968 + Z.of_nat i ∧ in_cache x = false.
Proof.
  intros Hi Hx. unfold fdva in Hx. split.
  - symmetry. apply (Z.div_unique_pos _ _ _ (x - fdva i)); unfold fdva; lia.
  - apply not_true_is_false. rewrite in_cache_spec. lia.
Qed.

Lemma fd_page_alloc s0 v f g i : sees s0 v f → file_ok v g → (i < 1024)%nat →
  missing (nblocks (rd8 v)) f + 2 ≤ f_avail f →
  ∃ s1 v1 f1, u_page_alloc (fdva i) 7 f = Ok 0 f1 ∧ sees s1 v1 f1 ∧ new_fd s0 v s1 v1 i.
Proof.
  intros S F Hi Hav. pose proof (fdva_pdx i Hi) as Hd.
  assert (0 ≤ missing (nblocks (rd8 v)) f).
  { unfold missing. pose proof (count_nonneg (unread f) (seqZ 1 (nblocks (rd8 v) - 1))).
    pose proof (count_nonneg (no_table f) (seqZ 64 768)). lia. }
  unfold u_page_alloc. change (bad_perm 7) with false.
  assert (bad_va (fdva i) = false) as ->.
  { unfold fdva. replace (FILEVA + Z.of_nat i * PGSIZE) with ((851968 + Z.of_nat i) * PGSIZE) by lia. apply user_va_ok. lia. }
  cbn [orb]. rewrite !(proj2 (Z.ltb_ge (f_avail f) _)), andb_false_r by lia.
  match goal with |- context [fw_mem ?m' (fw_pages ?d' ?p' ?a' f)] => set (d := d'); set (p := p'); set (a := a'); set (m := m') end.
  assert (S1 : sees (fw_pages d p a f) v (fw_pages d p a f)).
  { eapply sees_pages; [exact S| | |].
    - intros n Hn. unfold p. rewrite fdva_page by done. destruct (Z.eqb_spec n (851968 + Z.of_nat i)); [lia|done].
    - intros k Hk. unfold d. destruct (Z.eqb_spec k (PDX (fdva i))); [lia|done].
    - unfold a. destruct (tst _ _); lia. }
  assert (Hin : ∀ x, rd8 m x = if (fdva i <=? x) && (x <? fdva i + PGSIZE) then 0 else rd8 (f_mem f) x).
  { intros x. unfold m. rewrite rd8_mem_set. by destruct (_ && _). }
  assert (Hout : ∀ x, in_cache x = true → rd8 m x = rd8 (f_mem f) x).
  { intros x Hx. rewrite Hin. destruct (Z.leb_spec (fdva i) x), (Z.ltb_spec x (fdva i + PGSIZE)); cbn [andb]; try done.
    destruct (fd_range i x Hi); [lia|congruence]. }
  exists (fw_pages d p a f), (overlay v m), (fw_mem m (fw_pages d p a f)). split; [done|].
  split; [by eapply sees_client|]. constructor.
  - intros x Hx. destruct (fd_range i x Hi Hx) as [_ Hc]. rewrite rd8_overlay, Hc, Hin.
    by rewrite (proj2 (Z.leb_le _ _)), (proj2 (Z.ltb_lt _ _)) by lia.
  - intros x Hx. rewrite rd8_overlay. destruct (in_cache x) eqn:Hc; [done|]. rewrite Hin, (sees_mem _ _ _ _ S Hc).
    destruct (Z.leb_spec (fdva i) x), (Z.ltb_spec x (fdva i + PGSIZE)); cbn [andb]; done || lia.
  - intros w x (B1 & B2 & B3). split_and!; [lia|lia|done|]. cbn. unfold p. destruct (_ =? _); [by destruct w|].
    destruct S as (_ & _ & Ha & _). auto.
  - intros x Hx. destruct (fd_range i x Hi Hx) as [Hp Hc]. split; [unfold fdva in Hx; lia|]. split; [done|].
    cbn. unfold p. rewrite fdva_page, Hp, Z.eqb_refl by done. reflexivity.
Qed.

Lemma pageref_in_use st j : sv_inv st → (j < 1024)%nat → in_use st j → ∃ n, sv_pageref (fdva j) st = Ok n st ∧ 1 < n.
Proof.
  intros I Hj Hu. destruct (si_shared _ I j Hj) as [_ Hm]. pose proof (Hm Hu) as [H1 H2]%andb_true_iff.
  unfold sv_pageref, mgets. rewrite H1, H2. cbn [negb]. eexists. split; [done|]. unfold in_use in Hu. lia.
Qed.

Lemma new_fd_same s0 v s1 v1 i : (i < 1024)%nat → new_fd s0 v s1 v1 i → same_disk v v1.
Proof.
  intros Hi N x Hx. apply (nf_rest _ _ _ _ _ N). destruct (Z.lt_ge_cases x (fdva i)); [by left|].
  destruct (Z.lt_ge_cases x (fdva i + PGSIZE)); [|by right]. destruct (fd_range i x Hi); [lia|congruence].
Qed.

(** Entries in use are passed over. *)
Lemma alloc_skip st i : sv_inv st → (∀ j, (j < i)%nat → in_use st j) → ∀ ixs tl, (i ≤ 1024)%nat →
  (∀ x, x ∈ ixs → 0 ≤ x < Z.of_nat i) → openfile_alloc_from (ixs ++ tl) st = openfile_alloc_from tl st.
Proof.
  intros I Hb ixs tl Hi. induction ixs as [|x ixs IH]; intros Hx; [done|]. cbn [app openfile_alloc_from].
  destruct (Hx x ltac:(left)) as [Hx0 Hxi].
  destruct (lookup_lt_is_Some_2 (sv_tab st) (Z.to_nat x)) as [ox Hox]; [rewrite (si_len _ I); lia|].
  rewrite (bind_Ok _ _ _ _ _ (opentab_run st x ox Hx0 Hox)). destruct (si_ent _ I _ _ Hox) as (-> & _).
  destruct (pageref_in_use st (Z.to_nat x) I ltac:(lia) (Hb (Z.to_nat x) ltac:(lia))) as (n & En & Hn).
  rewrite (bind_Ok _ _ _ _ _ En). rewrite !(proj2 (Z.eqb_neq n _)) by lia. apply IH. intros y Hy. apply Hx. by right.
Qed.

(** openfile_alloc takes the first entry that has room. *)
Lemma openfile_alloc_run s0 v st i o g : fresh_entry st i o → sees s0 v (sv_fs st) → file_ok v g →
  missing (nblocks (rd8 v)) (sv_fs st) + 2 ≤ f_avail (sv_fs st) →
  let id := o_fileid o + MAXOPEN in
  ∃ s1 v1 f1, openfile_alloc st = Ok (id, Z.of_nat i)
      (sw_fs f1 (sw_tab (<[i := mkOF id (o_file o) (o_mode o) (fdva i)]> (sv_tab st)) st)) ∧
    sees s1 v1 f1 ∧ new_fd s0 v s1 v1 i.
Proof.
  intros [I Hb He Hp Hid] S F Hav id. pose proof (lookup_lt_Some _ _ _ He) as Hi. rewrite (si_len _ I) in Hi.
  destruct (si_ent _ I _ _ He) as (Efd & Hr & _).
  destruct (fd_page_alloc s0 v (sv_fs st) g i S F Hi Hav) as (s1 & v1 & f1 & E1 & S1 & N1).
  destruct (same_disk_keeps s0 v _ v1 g S F (new_fd_same _ _ _ _ _ Hi N1)) as [_ F1].
  assert (Hz : ∀ x, rd8 (mem_set v1 (fdva i) 0 PGSIZE) x = rd8 v1 x).
  { intros x. rewrite rd8_mem_set. destruct (Z.leb_spec (fdva i) x), (Z.ltb_spec x (fdva i + PGSIZE)); cbn [andb]; try done.
    by rewrite (nf_zero _ _ _ _ _ N1) by lia. }
  destruct (memset_sees s1 v1 f1 (fdva i) 0 PGSIZE S1 ltac:(lia)) as (f2 & E2 & S2).
  { intros x Hx. by apply buffer_reach, (nf_page _ _ _ _ _ N1). }
  { apply (same_disk_keeps s1 v1 f1 _ g S1 F1). by intros x _. }
  exists s1, (mem_set v1 (fdva i) 0 PGSIZE), f2. split_and!; [|done|].
  2: { constructor; [intros x Hx; rewrite Hz; by apply N1|intros x Hx; rewrite Hz; by apply N1|apply N1|apply N1]. }
  unfold openfile_alloc. replace (seqZ 0 MAXOPEN) with (seqZ 0 (Z.of_nat i) ++ Z.of_nat i :: seqZ (Z.of_nat i + 1) (1023 - Z.of_nat i)).
  2: { replace MAXOPEN with (Z.of_nat i + (1024 - Z.of_nat i)) by lia. rewrite seqZ_app by lia. f_equal.
       rewrite Z.add_0_l, (seqZ_cons (Z.of_nat i)) by lia. f_equal. f_equal; lia. }
  rewrite (alloc_skip st i I Hb) by (lia || (intros x Hx%elem_of_seqZ; lia)). cbn [openfile_alloc_from].
  rewrite (bind_Ok _ _ _ _ _ (opentab_run st (Z.of_nat i) o ltac:(lia) ltac:(by rewrite Nat2Z.id))), Efd.
  assert (sv_pageref (fdva i) st = Ok 0 st) as En.
  { unfold sv_pageref, mgets. unfold fd_mapped in Hp. destruct (tst (f_pde _ _) _); [|done]. cbn [andb] in Hp. by rewrite Hp. }
  rewrite (bind_Ok _ _ _ _ _ En). cbn [Z.eqb]. rewrite (bind_Ok _ _ _ _ _ (fs_Ok _ st _ _ E1)). cbn [Z.ltb Z.compare].
  unfold openfile_take. rewrite (bind_Ok _ _ _ _ _ (opentab_run (sw_fs f1 st) (Z.of_nat i) o ltac:(lia) ltac:(by rewrite Nat2Z.id))).
  rewrite u32_small, Efd by lia. cbv zeta. unfold opentab_set. rewrite bind_mod, Nat2Z.id.
  set (st2 := sw_tab _ _). rewrite (bind_Ok _ _ _ _ _ (fs_Ok _ st2 _ _ E2)), s32_small by lia. done.
Qed.

(** The Fd that a client gets for the entry [o]. *)
Record fd_filled (v : mem) (i : nat) (id mode : Z) : Prop := {
  ff_dev : rd32 v (fdva i) = DEVFILE_ID;
  ff_off : rd32 v (fdva i + 4) = 0;
  ff_mode : rd32 v (fdva i + 8) = Z.land mode O_ACCMODE;
  ff_id : rd32 v (fdva i + 12) = id }.

Lemma omode_run s1 v1 f mode : sees s1 v1 f → (∀ x, fsreq ≤ x < fsreq + PGSIZE → buffer s1 true x) →
  rd32 v1 req_omode_va = mode → ∃ f', ld32 req_omode_va f = Ok mode f' ∧ sees s1 v1 f'.
Proof.
  intros S Hb Hm. destruct (ld32_page s1 v1 f req_omode_va fsreq) as (f' & E & S'); [done|done|done|unfold req_omode_va; lia|].
  rewrite Hm in E. by exists f'.
Qed.

(** The three stores to the Fd. *)
Lemma fill_fd s1 v1 f g i id mode : sees s1 v1 f → file_ok v1 g → (i < 1024)%nat →
  (∀ x, fdva i ≤ x < fdva i + PGSIZE → buffer s1 true x) → (∀ x, fsreq ≤ x < fsreq + PGSIZE → buffer s1 true x) →
  (∀ x, fdva i ≤ x < fdva i + PGSIZE → rd8 v1 x = 0) → rd32 v1 req_omode_va = mode → 0 ≤ id < 2 ^ 32 →
  ∃ v2 fa fb fc fd f2, st32 (fd_file_va (fdva i)) id f = Ok tt fa ∧ ld32 req_omode_va fa = Ok mode fb ∧
    st32 (fd_omode_va (fdva i)) (Z.land mode O_ACCMODE) fb = Ok tt fc ∧
    st32 (fd_dev_id_va (fdva i)) DEVFILE_ID fc = Ok tt fd ∧ ld32 req_omode_va fd = Ok mode f2 ∧
    sees s1 v2 f2 ∧ same_disk v1 v2 ∧ file_ok v2 g ∧ fd_filled v2 i id mode.
Proof.
  intros S F Hi Hfd Hreq Hz Hm Hid. assert (Hal : fdva i mod 4 = 0).
  { unfold fdva. replace (FILEVA + Z.of_nat i * PGSIZE) with ((872415232 + Z.of_nat i * 1024) * 4) by lia. apply Z.mod_mul. lia. }
  assert (Hal' : ∀ a, a mod 4 = 0 → (fdva i + a) mod 4 = 0) by (intros a Ha; rewrite Z.add_mod, Hal, Ha by lia; done).
  assert (Hlo : fsreq + PGSIZE ≤ fdva i) by (unfold fdva; lia). pose proof (rd32_range v1 req_omode_va) as Hmr. rewrite Hm in Hmr.
  assert (Hsd : ∀ v a x, 0 ≤ a → a + 4 ≤ PGSIZE → same_disk v (wr32 v (fdva i + a) x)).
  { intros v a x H0 H4 y Hy. apply rd8_wr32_ne. destruct (Z.lt_ge_cases y (fdva i + a)); [by left|].
    destruct (Z.lt_ge_cases y (fdva i + a + 4)); [|by right]. destruct (fd_range i y Hi); [lia|congruence]. }
  assert (Hst : ∀ v f a x, sees s1 v f → file_ok v g → 0 ≤ a → a + 4 ≤ PGSIZE → a mod 4 = 0 →
    ∃ f', st32 (fdva i + a) x f = Ok tt f' ∧ sees s1 (wr32 v (fdva i + a) x) f' ∧ file_ok (wr32 v (fdva i + a) x) g).
  { intros v f' a x S' F' H0 H4 Ha. destruct (st32_page s1 v f' (fdva i + a) (fdva i) x g S' F') as (f'' & E & S''); [auto|done|lia|lia|].
    exists f''. split_and!; [done|done|]. by apply (same_disk_keeps s1 v f' _ g S' F'), Hsd. }
  assert (Hq : ∀ v a x, rd32 v req_omode_va = mode → 0 ≤ a → rd32 (wr32 v (fdva i + a) x) req_omode_va = mode).
  { intros v a x <- H0. apply rd32_wr32_ne. unfold req_omode_va. lia. }
  destruct (Hst v1 f 12 id S F) as (fa & Ea & Sa & Fa); [lia..|done|]. set (va := wr32 v1 _ _) in *.
  destruct (omode_run s1 va fa mode Sa Hreq (Hq v1 12 id Hm ltac:(lia))) as (fb & Eb & Sb).
  destruct (Hst va fb 8 (Z.land mode O_ACCMODE) Sb Fa) as (fc & Ec & Sc & Fc); [lia..|done|]. set (vc := wr32 va _ _) in *.
  destruct (Hst vc fc 0 DEVFILE_ID Sc Fc) as (fd & Ed & Sd & Fd); [lia..|done|]. rewrite Z.add_0_r in Ed. set (vd := wr32 vc _ _) in *.
  destruct (omode_run s1 vd fd mode Sd Hreq) as (fe & Ee & Se); [repeat apply Hq; lia || done|].
  exists vd, fa, fb, fc, fd, fe. do 6 (split; [done|]). split_and!; [|done|].
  - intros x Hx. unfold vd, vc, va. by rewrite !Hsd by (lia || done).
  - unfold vd, vc, va. rewrite Z.add_0_r. constructor.
    + by rewrite rd32_wr32_eq.
    + rewrite !rd32_wr32_ne by lia. unfold rd32. by rewrite !Hz by lia.
    + rewrite rd32_wr32_ne, rd32_wr32_eq by lia. apply u32_small. split; [apply Z.land_nonneg; right; lia|].
      change O_ACCMODE with (Z.ones 2). rewrite Z.land_ones by lia. pose proof (Z.mod_pos_bound mode (2 ^ 2)). lia.
    + rewrite !rd32_wr32_ne, rd32_wr32_eq by lia. by apply u32_small.
Qed.

Lemma opentab_set_run i o st : opentab_set (Z.of_nat i) o st = Ok tt (sw_tab (<[i := o]> (sv_tab st)) st).
Proof. unfold opentab_set, mmod. by rewrite Nat2Z.id. Qed.

(** serve_open of an existing file, without O_CREAT and O_TRUNC. *)
Lemma serve_open_run s0 v st i o path f mode : fresh_entry st i o → sees s0 v (sv_fs st) →
  (∀ x, fsreq ≤ x < fsreq + PGSIZE → buffer s0 true x) → cstr v fsreq path → (length path < 1024)%nat →
  rd32 v req_omode_va = mode → tst mode O_CREAT = false → tst mode O_TRUNC = false →
  opens v path f → file_ok v f → missing (nblocks (rd8 v)) (sv_fs st) + 2 ≤ f_avail (sv_fs st) →
  let id := o_fileid o + MAXOPEN in
  ∃ s1 v1 f1, serve_open st = Ok (0, Some (fdva i, PTE_P + PTE_U + PTE_W + PTE_SHARE))
      (sw_fs f1 (sw_tab (<[i := mkOF id f (s32 mode) (fdva i)]> (sv_tab st)) st)) ∧
    sees s1 v1 f1 ∧ same_disk v v1 ∧ fd_filled v1 i id mode ∧
    (∀ x, fdva i ≤ x < fdva i + PGSIZE → buffer s1 true x) ∧ ∀ w x, buffer s0 w x → buffer s1 w x.
Proof.
  intros E S Hreq Hp Hlen Hm Hcr Htr Ho F Hav id. pose proof (lookup_lt_Some _ _ _ (fe_entry _ _ _ E)) as Hi. rewrite (si_len _ (fe_inv _ _ _ E)) in Hi.
  pose proof (fe_id _ _ _ E) as Hid. destruct (si_ent _ (fe_inv _ _ _ E) _ _ (fe_entry _ _ _ E)) as (_ & Hr & _).
  unfold serve_open. rewrite (bind_Ok _ _ _ _ _ (fs_Ok _ st _ _ (copy_path_run _ _ _ _ S Hreq Hp Hlen))).
  change (sw_fs (sv_fs st) st) with (mkSv (sv_fs st) (sv_tab st) (sv_shared st)). destruct st as [f0 tab sh]. cbn [sv_fs sv_tab sv_shared] in *.
  destruct (openfile_alloc_run s0 v _ i o f E S F Hav) as (s1 & v1 & f1 & E1 & S1 & N). fold id in E1.
  rewrite (bind_Ok _ _ _ _ _ E1). rewrite (proj2 (Z.ltb_ge id 0)) by lia. set (st1 := sw_fs _ _).
  pose proof (new_fd_same _ _ _ _ _ Hi N) as D1. destruct (same_disk_keeps s0 v _ v1 f S F D1) as [_ F1].
  assert (Hreq1 : ∀ x, fsreq ≤ x < fsreq + PGSIZE → buffer s1 true x) by (intros x Hx; by apply N, Hreq).
  assert (Hm1 : rd32 v1 req_omode_va = mode).
  { rewrite <- Hm. apply rd32_same. intros x Hx. apply N. unfold req_omode_va, fdva in *. lia. }
  destruct (omode_run s1 v1 f1 mode S1 Hreq1 Hm1) as (f2 & E2 & S2).
  destruct (Ho s1 v1 f2 S2 D1) as (f3 & E3 & S3).
  assert (Eo : open_or_create path f1 = Ok (0, f) f3) by (unfold open_or_create; by rewrite (bind_Ok _ _ _ _ _ E2), Hcr).
  rewrite (bind_Ok _ _ _ _ _ (fs_Ok _ st1 _ _ Eo)). cbn [Z.ltb Z.compare].
  destruct (omode_run s1 v1 f3 mode S3 Hreq1 Hm1) as (f4 & E4 & S4).
  rewrite (bind_Ok _ _ _ _ _ (fs_Ok _ (sw_fs f3 st1) _ _ E4)), Htr, bind_ret. cbn [Z.ltb Z.compare].
  destruct (Ho s1 v1 f4 S4 D1) as (f5 & E5 & S5).
  rewrite (bind_Ok _ _ _ _ _ (fs_Ok _ (sw_fs f4 (sw_fs f3 st1)) _ _ E5)). cbn [Z.ltb Z.compare].
  set (st5 := sw_fs f5 _).
  assert (Et : sv_tab st5 !! i = Some (mkOF id (o_file o) (o_mode o) (fdva i))).
  { apply list_lookup_insert_eq. by eapply lookup_lt_Some, E. }
  rewrite (bind_Ok _ _ _ _ _ (opentab_run st5 (Z.of_nat i) _ ltac:(lia) ltac:(rewrite Nat2Z.id; exact Et))).
  rewrite (bind_Ok _ _ _ _ _ (opentab_set_run i _ st5)). cbn [o_fileid o_file o_mode o_fd]. set (st6 := sw_tab _ st5).
  destruct (fill_fd s1 v1 f5 f i id mode S5 F1 Hi (nf_page _ _ _ _ _ N) Hreq1 (nf_zero _ _ _ _ _ N) Hm1 ltac:(lia))
    as (v2 & fa & fb & fc & fd & f6 & Ea & Eb & Ec & Ed & Ee & S6 & D6 & F6 & FF).
  rewrite (bind_Ok _ _ _ _ _ (fs_Ok _ st6 _ _ Ea)), (bind_Ok _ _ _ _ _ (fs_Ok _ (sw_fs fa st6) _ _ Eb)).
  rewrite (bind_Ok _ _ _ _ _ (fs_Ok _ (sw_fs fb st6) _ _ Ec)), (bind_Ok _ _ _ _ _ (fs_Ok _ (sw_fs fc st6) _ _ Ed)).
  rewrite (bind_Ok _ _ _ _ _ (fs_Ok _ (sw_fs fd st6) _ _ Ee)), (bind_Ok _ _ _ _ _ (opentab_set_run i _ (sw_fs f6 st6))).
  exists s1, v2, f6. split_and!; [|done|by eapply same_disk_trans|done|apply N|apply N].
  unfold mret, M_ret. f_equal. unfold st6, st5, st1, sw_tab, sw_fs. cbn [sv_fs sv_tab sv_shared]. by rewrite !list_insert_insert_eq.
Qed.

(** A server that waits, with a file [f] at [path], room for another open
    file as entry [i], and pages to spare. *)
Record can_open (v : mem) (st : sst) (i : nat) (o : OpenFile) (path : list Z) (f : Z) : Prop := {
  co_entry : fresh_entry st i o;
  co_sees : sees (sv_fs st) v (sv_fs st);
  co_path : opens v path f;
  co_file : file_ok v f;
  co_size : fsize v f ≤ MAXBLK * BLKSIZE;
  co_pages : missing (nblocks (rd8 v)) (sv_fs st) + 2 ≤ f_avail (sv_fs st) }.

Lemma same_disk_file s0 v s v' f : sees s0 v s → file_ok v f → same_disk v v' →
  file_ok v' f ∧ fsize v' f = fsize v f ∧ nblocks (rd8 v') = nblocks (rd8 v) ∧
  (∀ p, 0 ≤ p < MAXBLK * BLKSIZE → content v' f p = content v f p) ∧
  (∀ b, 0 ≤ b < MAXBLK → bmap v f b ≠ 0 → bmap v' f b ≠ 0).
Proof.
  intros S F Hd. destruct (kept_outside f v v' (sees_layout _ _ _ S) F Hd) as (K & C & _). split_and!; [apply K|by apply kept_size| |done|].
  - by destruct (kp_keeps _ _ _ K) as [_ ->].
  - intros b Hb Hne. by rewrite (kp_map _ _ _ K).
Qed.

Lemma req_pages bytes st n : missing n (sv_fs (with_req bytes st)) = missing n (sv_fs st).
Proof.
  unfold missing. f_equal. apply count_ext. intros b Hb%elem_of_seqZ. unfold unread. cbn. change (PGNUM fsreq) with 65535.
  unfold pg. destruct (Z.eqb_spec (65536 + b) 65535); [lia|done].
Qed.

Lemma req_same_disk v bytes st : same_disk v (overlay v (req_mem bytes (f_mem (sv_fs st)))).
Proof. intros x Hx. by rewrite rd8_overlay, Hx. Qed.

(** The state when the page has been passed on and the request is done. *)
Definition opened (f1 : fss) (o' : OpenFile) (i : nat) (st : sst) : sst :=
  without_req (sw_shared (λ a, if a =? fdva i then sv_shared st a + 1 else sv_shared st a)
    (sw_fs f1 (sw_tab (<[i := o']> (sv_tab st)) st))).

Lemma serve_one_open v st i o path f mode q bytes : can_open v st i o path f →
  rq_page q = Some (7, bytes) → rq_alive q = true → rq_wants q = true → rq_req q = FSREQ_OPEN →
  let v0 := overlay v (req_mem bytes (f_mem (sv_fs st))) in
  cstr v0 fsreq path → (length path < 1024)%nat → rd32 v0 req_omode_va = mode →
  tst mode O_CREAT = false → tst mode O_TRUNC = false →
  let o' := mkOF (o_fileid o + MAXOPEN) f (s32 mode) (fdva i) in
  ∃ v1 f1, serve_one q st = Ok (Some (0, Some (fdva i, PTE_P + PTE_U + PTE_W + PTE_SHARE))) (opened f1 o' i st) ∧
    at_rest v1 (opened f1 o' i st) i o' ∧ same_disk v v1 ∧ fd_filled v1 i (o_fileid o') mode.
Proof.
  intros [E S Ho F Hsz Hav] Hp Ha Hw Hq v0 Hpath Hlen Hm Hcr Htr o'. pose proof (req_same_disk v bytes st) as D0. fold v0 in D0.
  destruct (same_disk_file _ v _ v0 f S F D0) as (F0 & Z0 & N0 & _).
  pose proof (sees_client _ v _ _ f S F (req_cache bytes st)) as S0. fold v0 in S0.
  apply (set_pte_req_sees _ _ _ 7) in S0. change (set_pte _ _ _) with (sv_fs (with_req bytes st)) in S0.
  assert (E0 : fresh_entry (with_req bytes st) i o).
  { destruct E as [E1 E2 E3 E4 E5]. pose proof (lookup_lt_Some _ _ _ E3) as Hi. rewrite (si_len _ E1) in Hi. constructor; try done.
    - apply (served_mem st st _ (served_refl _ E1)). constructor; [|done]. intros p Hfp Ht. unfold fdpage in Hfp. cbn.
      change (PGNUM fsreq) with 65535. destruct (Z.eqb_spec p 65535); [lia|done].
    - rewrite <- E4. unfold fd_mapped, pte_of. cbn. rewrite fdva_page by done. change (PGNUM fsreq) with 65535.
      destruct (Z.eqb_spec (851968 + Z.of_nat i) 65535); [lia|done]. }
  destruct (serve_open_run _ v0 _ i o path f mode E0 S0) as (s1 & v1 & f1 & Er & S1 & D1 & FF & Hfd & _); try done.
  - intros x Hx. split; [lia|]. split; [apply not_true_is_false; rewrite in_cache_spec; lia|].
    apply fsreq_page in Hx. cbn. rewrite Hx. reflexivity.
  - intros s0 v' s' Hs Hd. apply Ho; [done|by eapply same_disk_trans].
  - rewrite req_pages, N0. exact Hav.
  - assert (Hone : serve_one q st = Ok (Some (0, Some (fdva i, PTE_P + PTE_U + PTE_W + PTE_SHARE))) (opened f1 o' i st)).
    { unfold serve_one, sv_recv. rewrite Hp, bind_assoc. unfold mmod at 1. unfold mbind at 1, M_bind at 1. mrun.
      change (tst 7 PTE_P) with true. cbn [negb]. unfold serve_dispatch. rewrite Hq. cbn [Z.eqb Pos.eqb].
      erewrite bind_Ok by exact Er. unfold sv_send. rewrite Ha, Hw. cbn [negb mwhen]. mrun. done. }
    exists v1, f1. pose proof (same_disk_trans _ _ _ D0 D1) as D2. destruct (same_disk_file _ v _ v1 f S F D2) as (F1 & Z1 & _).
    pose proof (lookup_lt_Some _ _ _ (fe_entry _ _ _ E)) as Hi. split_and!; [done| |done|done]. constructor.
    + pose proof (serve_one_wp st q (fe_inv _ _ _ E)) as W. rewrite Hone in W. apply W.
    + by eapply set_pte_req_sees.
    + by apply list_lookup_insert_eq.
    + unfold in_use. cbn. rewrite Z.eqb_refl. rewrite (si_len _ (fe_inv _ _ _ E)) in Hi. destruct (si_shared _ (fe_inv _ _ _ E) i Hi). lia.
    + exact F1.
    + cbn [o_file o']. by rewrite Z1.
    + rewrite (si_len _ (fe_inv _ _ _ E)) in Hi. intros x Hx. destruct (Hfd x Hx) as (B1 & B2 & B3). destruct (fd_range i x Hi Hx) as [Hpg _].
      split_and!; [lia|lia|done|]. cbn. change (PGNUM fsreq) with 65535. destruct (Z.eqb_spec (x / 4096) 65535); [lia|].
      destruct S1 as (_ & _ & Hacc & _). auto.
Qed.
End serve.

(* ------------------------------------------------------------------ *)
(** ** The program's side *)

Section strings.
Context `{IdeDevice}.

Lemma strlen_own l : ∀ fuel p n j, cstr (j_mem j) (p + n) l → (length l < fuel)%nat → 0 ≤ n →
  own_range p (n + Z.of_nat (length l) + 1) → um_strlen fuel p n j = Ok (n + Z.of_nat (length l)) j.
Proof.
  induction l as [|c l IH]; intros fuel p n j Hl Hf Hn Ho; (destruct fuel as [|fuel]; [cbn in Hf; lia|]); cbn [um_strlen cstr length] in *;
    destruct Ho as (O1 & O2 & O3); rewrite u32_small by lia; unfold um_ld8, client_mem, j_load; unfold mbind, M_bind; rewrite O3 by lia.
  - rewrite Hl. cbn [Z.eqb]. by rewrite Z.add_0_r.
  - destruct Hl as (-> & Hc & Hl). rewrite (proj2 (Z.eqb_neq _ _)) by done. rewrite IH; [f_equal; lia|by rewrite Z.add_assoc|lia|lia|].
    split_and!; [lia|lia|]. intros x Hx. apply O3. lia.
Qed.

Lemma strcpy_own l : ∀ fuel dst src n j, cstr (j_mem j) (src + n) l → (length l < fuel)%nat → 0 ≤ n →
  own_range dst (n + Z.of_nat (length l) + 1) → own_range src (n + Z.of_nat (length l) + 1) →
  dst + n + Z.of_nat (length l) < src ∨ src + n + Z.of_nat (length l) < dst →
  ∃ m, um_strcpy fuel dst src n j = Ok tt (jw_mem m j) ∧
    ∀ x, rd8 m x = if (dst + n <=? x) && (x <=? dst + n + Z.of_nat (length l)) then rd8 (j_mem j) (src + (x - dst)) else rd8 (j_mem j) x.
Proof.
  induction l as [|c l IH]; intros fuel dst src n j Hl Hf Hn Hd Hs Hap; (destruct fuel as [|fuel]; [cbn in Hf; lia|]); cbn [um_strcpy cstr length] in *;
    destruct Hd as (D1 & D2 & D3), Hs as (S1 & S2 & S3); rewrite !u32_small by lia; unfold um_ld8, um_st8, client_mem, j_load, j_store;
    unfold mbind, M_bind; rewrite S3, D3 by lia.
  - rewrite Hl. cbn [Z.eqb]. eexists. split; [done|]. intros x. rewrite rd8_wr8. destruct (Z.eqb_spec x (dst + n)) as [->|Hne].
    + rewrite !(proj2 (Z.leb_le _ _)) by lia. cbn [andb]. rewrite <- Hl. rewrite u8_small by apply rd8_range. f_equal. lia.
    + destruct (Z.leb_spec (dst + n) x), (Z.leb_spec x (dst + n + Z.of_nat 0)); cbn [andb]; done || lia.
  - destruct Hl as (Hcv & Hc & Hl). rewrite Hcv, (proj2 (Z.eqb_neq _ _)) by done.
    destruct (IH fuel dst src (n + 1) (jw_mem (wr8 (j_mem j) (dst + n) c) j)) as (m & Em & Hm).
    + rewrite Z.add_assoc. apply (cstr_ext (j_mem j)); [|done]. intros x Hx. apply rd8_wr8_ne. lia.
    + lia.
    + lia.
    + split_and!; [lia|lia|]. intros x Hx. apply D3. lia.
    + split_and!; [lia|lia|]. intros x Hx. apply S3. lia.
    + lia.
    + exists m. split; [exact Em|]. intros x. rewrite Hm. cbn [j_mem jw_mem]. rewrite !rd8_wr8.
      destruct (Z.leb_spec (dst + (n + 1)) x), (Z.leb_spec x (dst + (n + 1) + Z.of_nat (length l))), (Z.leb_spec (dst + n) x),
        (Z.leb_spec x (dst + n + Z.of_nat (S (length l)))); cbn [andb]; try lia; try done.
      * destruct (Z.eqb_spec (src + (x - dst)) (dst + n)); [lia|done].
      * destruct (Z.eqb_spec x (dst + n)); [lia|done].
      * destruct (Z.eqb_spec x (dst + n)) as [->|]; [|lia]. rewrite <- Hcv, u8_small by apply rd8_range. f_equal. lia.
      * destruct (Z.eqb_spec x (dst + n)); [lia|done].
Qed.
End strings.

Section open.
Context `{L : IdeLaws} (fsipcbuf whom : Z).
Hypothesis Hbuf : own_range fsipcbuf PGSIZE.

Lemma client_fd_alloc_run j k : 0 ≤ k < MAXFD → j_fd j k = None → (∀ k', 0 ≤ k' < k → j_fd j k' ≠ None) →
  client_fd_alloc j = Ok (0, INDEX2FD k) j.
Proof.
  intros Hk Hn Hlow. unfold client_fd_alloc, mgets.
  destruct (find_index (λ k, bool_decide (j_fd j k = None)) 0 MAXFD) as [(k' & -> & Hk' & Hf & Hm)|[-> Hm]].
  - apply bool_decide_eq_true in Hf. assert (k' = k) as ->; [|done]. destruct (Z.lt_trichotomy k' k) as [Hlt|[|Hlt]]; [|done|].
    + by destruct (Hlow k' ltac:(lia)).
    + specialize (Hm k ltac:(lia)). apply bool_decide_eq_false in Hm. done.
  - specialize (Hm k ltac:(lia)). apply bool_decide_eq_false in Hm. done.
Qed.

(** The request page as open fills it in. *)
Lemma fill_open j ptr path maxlen mode : cstr (j_mem j) ptr path → (length path < 1024)%nat → (length path < maxlen)%nat →
  apart fsipcbuf ptr (Z.of_nat (length path) + 1) →
  ∃ m, (∀ q : M jst Z, (um_strcpy maxlen fsipcbuf ptr 0;; um_st32 (fsipcbuf + MAXPATHLEN) (u32 mode);; q) j = q (jw_mem m j)) ∧
    cstr m fsipcbuf path ∧ rd32 m (fsipcbuf + MAXPATHLEN) = u32 mode ∧
    ∀ x, x < fsipcbuf ∨ fsipcbuf + PGSIZE ≤ x → rd8 m x = rd8 (j_mem j) x.
Proof.
  intros Hp Hl Hm [Ho Hap]. destruct (strcpy_own path maxlen fsipcbuf ptr 0 j) as (m & Em & Hx).
  - by rewrite Z.add_0_r.
  - done.
  - lia.
  - eapply own_sub; [exact Hbuf|lia..].
  - by rewrite Z.add_0_l.
  - lia.
  - exists (wr32 m (fsipcbuf + MAXPATHLEN) (u32 mode)). split_and!.
    + intros q. rewrite (bind_Ok _ _ _ _ _ Em). unfold um_st32, client_mem.
      erewrite bind_Ok by (apply (st_own _ _ 4); [eapply own_sub; [exact Hbuf|lia..]|lia]). done.
    + apply (cstr_move (j_mem j) ptr); [|done]. intros x Hr. rewrite rd8_wr32_ne, Hx by lia.
      rewrite !(proj2 (Z.leb_le _ _)) by lia. cbn [andb]. f_equal. lia.
    + rewrite rd32_wr32_eq. apply u32_idemp.
    + intros x Hr. rewrite rd8_wr32_ne, Hx by lia.
      destruct (Z.leb_spec (fsipcbuf + 0) x), (Z.leb_spec x (fsipcbuf + 0 + Z.of_nat (length path))); cbn [andb]; done || lia.
Qed.

Lemma client_open_run v j k i o path f ptr mode maxlen : can_open v (j_sv j) i o path f →
  0 ≤ k < MAXFD → j_fd j k = None → (∀ k', 0 ≤ k' < k → j_fd j k' ≠ None) →
  cstr (j_mem j) ptr path → (length path < 1024)%nat → (length path < maxlen)%nat → apart fsipcbuf ptr (Z.of_nat (length path) + 1) →
  0 ≤ mode < 2 ^ 31 → tst mode O_CREAT = false → tst mode O_TRUNC = false →
  let o' := mkOF (o_fileid o + MAXOPEN) f mode (fdva i) in
  ∃ v1 j1, client_open fsipcbuf whom maxlen ptr mode j = Ok k j1 ∧ has_file v1 j1 k i o' ∧
    rd32 v1 (fdva i + 4) = 0 ∧ same_disk v v1 ∧
    ∀ x, x < fsipcbuf ∨ fsipcbuf + PGSIZE ≤ x → rd8 (j_mem j1) x = rd8 (j_mem j) x.
Proof.
  intros Co Hk Hnone Hlow Hp Hl Hml Hap Hmode Hcr Htr o'.
  pose proof (strlen_own path maxlen ptr 0 j ltac:(by rewrite Z.add_0_r) Hml ltac:(lia) (proj1 Hap)) as Hlen.
  unfold client_open, open. rewrite (bind_Ok _ _ _ _ _ Hlen), (proj2 (Z.leb_gt _ _)) by lia.
  rewrite (bind_Ok _ _ _ _ _ (client_fd_alloc_run j k Hk Hnone Hlow)). cbn [Z.ltb Z.compare].
  destruct (fill_open j ptr path maxlen mode Hp Hl Hml Hap) as (m & Em & Mp & Mm & Mx). rewrite Em.
  set (bytes := λ o : Z, rd8 m (fsipcbuf + o)).
  assert (Hfd : INDEX2FD k ≠ 0) by (unfold INDEX2FD; rewrite u32_small by lia; lia).
  set (q := mkRq FSREQ_OPEN whom (Some (7, bytes)) true (negb (INDEX2FD k =? 0))).
  set (j0 := jw_mem m j).
  destruct (serve_one_open v (j_sv j) i o path f mode q bytes Co) as (v1 & f1 & Es & R & D1 & FF); try done.
  - cbn. by rewrite (proj2 (Z.eqb_neq _ _)).
  - apply (cstr_move m fsipcbuf); [|done]. intros x Hx. change (overlay _ _) with (req_view fsipcbuf v j0).
    by rewrite req_view_req by lia.
  - change (overlay _ _) with (req_view fsipcbuf v j0). unfold req_omode_va. rewrite req_view_req32 by lia. change (j_mem j0) with m. by rewrite Mm, u32_small by lia.
  - assert (Ef : client_fsipc fsipcbuf whom FSREQ_OPEN (INDEX2FD k) j0 = Ok 0
      (jw_fd (λ k', if k' =? k then Some (fdva i) else j_fd j k')
        (mkJ (opened f1 (mkOF (o_fileid o + MAXOPEN) f (s32 mode) (fdva i)) i (j_sv j))
           (page_over fsipcbuf m fsreq (f_mem f1)) (j_fd j)))).
    { unfold client_fsipc. change (mkRq _ _ _ _ _) with q. change (j_sv j0) with (j_sv j). rewrite Es. cbn [map_page].
      rewrite (proj2 (Z.eqb_neq _ _) Hfd), fd2num_index by done. cbn [j_fd j_mem jw_mem j0]. rewrite Hnone. done. }
    rewrite (bind_Ok _ _ _ _ _ Ef). cbn [Z.ltb Z.compare]. rewrite fd2num_index by done.
    rewrite s32_small in * by lia. fold o' in R, FF.
    exists v1. eexists. split; [done|]. split_and!; [|apply FF|done|].
    + constructor; [exact R|done|cbn; by rewrite Z.eqb_refl|apply FF].
    + intros x Hx. cbn. rewrite <- Mx by done. unfold rd8, page_over.
      destruct (Z.leb_spec fsipcbuf x), (Z.ltb_spec x (fsipcbuf + PGSIZE)); cbn [andb]; done || lia.
Qed.
End open.

(** ** A disk made by fsformat *)

Lemma holds_same v v' m n : n ≤ 1024 → same_disk v v' → holds v m n → holds v' m n.
Proof. intros Hn Hd H x Hx. rewrite Hd; [by apply H|]. apply in_cache_spec. lia. Qed.

Section image.
Context `{L : IdeLaws} (v m : mem) (n b nd : Z) (P : list (list Z * list Z * Z)).
Context (H : holds v m n) (F : formatted m n b nd P) (Hn : n ≤ 1024).
Context (i : nat) (name data : list Z) (start : Z) (Hi : P !! i = Some (name, data, start)).
Let f := DISKMAP + (4096 * b + 256 * Z.of_nat i).

Lemma image_opens : NoDup ((λ p, fst (fst p)) <$> P) → component name → opens v (zc "/" :: name) f.
Proof.
  intros Hnd Hc s0 v' s' S Hd.
  exact (image_open v' m n b nd P (holds_same _ _ _ _ Hn Hd H) F i name data start Hi s0 s' S Hnd Hc).
Qed.
End image.


#[local] Existing Instances demo_device demo_laws.

(** A program with the path at 100, and a server that has no file open yet,
    on the disk of FsImage.v. *)
Definition demo_path : mem := λ x, nth (Z.to_nat (x - 100)) (zs "/motd") 0.
Definition demo_boot (f : fss) : jst := mkJ (mkSv f demo_tab (λ _, 0)) demo_path (λ _, None).

Lemma demo_tab_inv f : sv_inv (mkSv f demo_tab (λ _, 0)).
Proof.
  constructor; [reflexivity|exact (si_ent _ demo_sv_inv)|]. intros i Hi. unfold in_use. cbn. split; lia.
Qed.

